(* ===== verification/_CoqProject ===== *)
-Q . S2P
Prelude.v
Bitmap.v
Chain.v
Gdt.v
Malloc.v
CString.v
Process.v
Ticks.v
ProcessTypes.v
Ports.v
Interrupt.v
Keyboard.v
Frames.v
Paging.v
Vfs.v
Syscall.v
RBTree.v
RBTreeFacts.v
RBTreeDelete.v
Console.v
Block.v
Devfs.v
Pic.v
Ext4.v
Ext4Facts.v
Ext4Paths.v
User.v
UserFacts.v
Shell.v
ShellFacts.v
Installer.v
InstallerFacts.v
Kernel.v
KernelFacts.v
