(* ===== verification/Prelude.v ===== *)
(** * Jarvis OS (x86): verification library

    This library models the kernel of Jarvis OS, a 32-bit x86 kernel in C, as
    executable Rocq functions translated from the sources under src/, and proves
    what its parts promise. This file is the root and the prelude.

    ** How C code is modelled

    - A C function over the state [S] is a [cmd S A]: it takes the state and
      returns a new one with a result ([Ret]), or runs into an access outside
      every object ([Fault]), or into a loop that does not end ([Spin]).
    - Integers are in [Z]; [u8], [u16], [u32], [s32] are the reductions that the
      code's types perform, written where the code stores into such a type.
    - Pointers are addresses in [Z], 0 is NULL. Objects live in finite maps from
      addresses, static arrays are lists with checked access ([zget], [zset]).
    - Loops whose number of rounds the code bounds recurse on that bound. Other
      loops have fuel: walks over a linked structure get one more than its
      number of objects, walks over a string one more than the mapped bytes.
      The theorems say that the calls return ([Ret]), so the fuel is enough.
    - Callees that are function pointers, hardware or another component are
      operations of a class ([Env], [Kernel], [Hardware], [Stubs]); what a theorem needs of
      them is a class of laws ([HeapLaws], [KernelLaws], ...) or a predicate on the
      operation ([filesystem_ok], [knows_no_descriptors]), with an instance in the
      witnesses. No law says that memory suffices, but [EnoughMemory] where it is
      named, and none that a block of the heap begins at a page boundary.
    - An access to a static array is checked against its length, an access to the
      byte memory faults where nothing is mapped. Ext4.v also checks that a transfer
      stays in the object (local structure, heap block) that it is given.
    - Messages that the kernel prints on the way are left out; what the user
      programs print is modelled.

    ** The files

    - Prelude.v: results, the command monad, machine integers, checked arrays,
      fresh addresses.
    - Bitmap.v: bitmaps of [w]-bit words, used for page frames (32) and pids (8).
    - Chain.v: singly linked lists in a map from addresses, their segments,
      unlinking and insertion.
    - Gdt.v (kernel/gdt.c): descriptor encoding and decoding, the table, the
      selectors, the TSS.
    - Malloc.v (kernel/memory/malloc.c): the heap: best fit over a doubly linked
      free list, size classes, refill, free with coalescing, spin locks.
    - CString.v (kernel/string.c): every routine over a partial byte memory.
    - Process.v (kernel/multitask/process.c): control blocks, the pid bitmap, the
      queues, creation, termination, blocking, the scheduler and the tick.
      Ticks.v: what a tick does to every process, sequences of events (ticks,
      reschedules, process calls), and that sleeping processes are woken.
      ProcessTypes.v: the ranges of the C types, kept by every call.
    - Ports.v (kernel/ioctl.c) and Interrupt.v (kernel/interrupt/interrupt.c):
      port input and output; the interrupt table, the controllers, dispatch.
      Interrupt.v runs the scheduler of Process.v on its part of the state.
    - Keyboard.v (driver/keyboard.c): scan codes, modifiers, the ring buffer.
    - Frames.v and Paging.v (kernel/memory/paging.c): the frame bitmap; page
      directories, ranges, regions, the page fault handler. Paging.v runs the
      operations of Frames.v.
    - Vfs.v (fs/vfs.c): mount points, paths, descriptors, file operations.
    - Syscall.v (kernel/syscall/syscall.c): the dispatcher and the handlers, which
      run the operations of Process.v, Paging.v, Vfs.v and CString.v on their parts
      of one kernel state.
    - Console.v (kernel/kerio.c): the screen in the video memory, scrolling, the
      cursor, formatted output.
    - Block.v (driver/block.c, driver/driver.c): the IDE disk driver, the table of
      block devices, the driver list; the disk as an ATA state machine: BSY after a
      command and, for as long as the drive needs, after the last word written, no
      register taken meanwhile.
    - Devfs.v (fs/devfs.c): the table of devices, their file operations and
      inodes; it runs the operations of Block.v, Keyboard.v and Vfs.v on its parts
      of the state.
    - Pic.v (kernel/pic.c): configuration space, the scan of the bus and the disks
      it creates, over Ports.v, Block.v and Devfs.v.
    - Ext4.v (fs/ext4.c): blocks, inodes, bitmaps, files, directories and the
      operations on paths, over Block.v and Vfs.v; the structures are bytes of the
      memory at their offsets, every transfer knows the size of the object it fills.
      Ext4Facts.v: words in memory, the transfer of blocks, and that every allocation
      leaves the descriptor on the stack. Ext4Paths.v: the operations on paths.
    - User.v (stdio.c and what shell.c and installer.c share): printf on the console
      of Console.v, the characters that are typed, reading a line, cutting it
      into words with strtok of CString.v, looking a word up. UserFacts.v: the line
      editor and the words of a line as functions on lists.
    - Shell.v (user/shell/shell.c): the commands and the loop; ShellFacts.v: a line of
      the command echo. Installer.v (user/installer/installer.c): its sprintf and
      atoi, the commands and the loop, over Vfs.v; InstallerFacts.v: numbers and the
      names of devices.
    - Kernel.v (kernel/kernel.c, create_keyboard_driver of driver/keyboard.c): one state
      of the whole kernel; the operations of the other files on its parts, in the order
      of kernel_main; what parts share is handed to the one that runs.
      KernelFacts.v: the interrupt flag during the boot, the keyboard as a device, and
      a concrete machine that boots up to the shell.
    - RBTree.v, RBTreeFacts.v, RBTreeDelete.v (kernel/kerstd/rbtree.c): the
      operations and the tree in memory; balance, insertion and search; deletion.

    In each file the definitions come in the order of the C source and under its
    names; a C structure is a record, its global variables are the state record.

    ** What the theorems show

    - Invariants kept by operations: the heap's lists and geometry (Malloc.v), the
      scheduler's queues and table (Process.v), and over every sequence of events
      from the initialisation with the types of all fields (Ticks.v,
      ProcessTypes.v), the frame bitmap and its counter
      (Frames.v), well-formed directories (Paging.v), the descriptor tables of
      the system calls over every reachable state (Syscall.v), the balance and
      order of red-black trees (RBTreeFacts.v, RBTreeDelete.v).
    - Functional behaviour on all branches, errors included: best fit, size
      classes, string routines, scheduling by priority, process creation,
      mapping and unmapping, also when memory runs out or a page table is not
      aligned, demand paging, path search and opening of files, the interrupt table.
    - Refinement: the keyboard handler against six modifier states and a
      bounded queue, and the character device on top of it; the mount search
      against the longest prefix; reading through a descriptor against reading
      with a cursor; the device table against a finite map; the
      screen against the last rows of the wrapped text; reading a line against
      a line editor on lists, with its echo on the terminal.
    - Whole paths through several parts: a typed line through the words, the table of
      commands and the formats to the screen (ShellFacts.v), the selection of a
      device by the name that was listed for it (InstallerFacts.v), the boot and
      the keyboard from its creation to its interrupt (KernelFacts.v).
    - Round trips: descriptor fields, copies of strings, decimal numerals, small
      blocks, mmap and munmap, disk sectors, blocks
      of a file system, numbers between sprintf and atoi.
    - Bounds: a red-black tree search makes at most 2 log2 (n + 1) + 1 rounds.
    - Liveness: no sequence of events with n ticks passes without a process that
      sleeps for n ticks becoming ready, at the nth tick (Ticks.v).
    - Termination: every theorem that runs an operation states that it returns.
    - Defects of the code, as theorems about its behaviour: blocks that are
      never listed again, processes linked in two queues, a time slice that
      wraps, page tables that are not page aligned, descriptors that no system
      call can use, disk timeouts that are not noticed, a write that a busy drive misses,
      device operations called through the wrong field, block and inode
      allocation that overruns the stack, directories that are never removed.

    ** Not modelled

    Boot code and assembly stubs (boot/boot.s, the interrupt stubs) are addresses
    that the models take as parameters. The keys that reach the user programs are a
    list; Keyboard.v models how they come into the buffer. The
    assembly that runs constructors and call_constructors are left out, as is what
    happens between processes after the boot: the scheduler of Process.v is proved on
    its own states. A tick that uses up the slice of the running process raises the
    timer interrupt inside its own handler and may continue in another process; that
    interrupt is an operation of the class [Kernel], and the sequences of Ticks.v have
    ticks that do not use up a slice. Memory accesses are not translated by the page tables, since the code never
    turns paging on.
    *)

From Stdlib Require Export ZArith Lia Bool.
From stdpp Require Export base gmap list strings fin_maps.

#[global] Open Scope Z_scope.

(** ** Results of C code

    [Ret] is a normal return; [Fault] is an access outside every object the
    code owns (a NULL or dangling pointer, an array index out of range, a jump
    to something that is not code); [Spin] is a loop that has not ended within
    the fuel given, in particular a spin lock that nobody will release. *)
Inductive outcome (A : Type) : Type :=
| Ret (a : A)
| Fault
| Spin.
Arguments Ret {A} a.
Arguments Fault {A}.
Arguments Spin {A}.

#[export] Instance outcome_mret : MRet outcome := @Ret.
#[export] Instance outcome_mbind : MBind outcome := fun A B f m =>
  match m with Ret a => f a | Fault => Fault | Spin => Spin end.

(** An access that may be out of range. *)
Definition deref {A} (o : option A) : outcome A :=
  match o with Some a => Ret a | None => Fault end.

Definition returns {A} (m : outcome A) : Prop := exists a, m = Ret a.

Lemma bind_Ret {A B} (a : A) (f : A -> outcome B) : (Ret a ≫= f) = f a.
Proof. reflexivity. Qed.

Lemma bind_Ret_inv {A B} (m : outcome A) (f : A -> outcome B) b :
  (m ≫= f) = Ret b -> exists a, m = Ret a /\ f a = Ret b.
Proof. destruct m; cbn; try done. eauto. Qed.

Lemma deref_Some {A} (o : option A) a : o = Some a -> deref o = Ret a.
Proof. by intros ->. Qed.

Lemma deref_Ret {A} (o : option A) a : deref o = Ret a <-> o = Some a.
Proof. destruct o; cbn; split; congruence. Qed.

(** ** Stateful C code

    A call over the state [S]: it reads and writes the state, and may fault or
    spin. [x ← m; k] is sequencing. *)
Definition cmd (S A : Type) : Type := S -> outcome (S * A).

#[export] Instance cmd_mret {S} : MRet (cmd S) := fun A a s => Ret (s, a).
#[export] Instance cmd_mbind {S} : MBind (cmd S) := fun A B f m s =>
  match m s with Ret (s', a) => f a s' | Fault => Fault | Spin => Spin end.

Section cmd.
Context {S : Type}.
Definition gets {A} (f : S -> A) : cmd S A := fun s => Ret (s, f s).
Definition modify (f : S -> S) : cmd S unit := fun s => Ret (f s, tt).
Definition lift {A} (o : outcome A) : cmd S A := fun s =>
  match o with Ret a => Ret (s, a) | Fault => Fault | Spin => Spin end.
Definition spin {A} : cmd S A := fun _ => Spin.
Definition fault {A} : cmd S A := fun _ => Fault.

Lemma cmd_bind_eq {A B} (m : cmd S A) (f : A -> cmd S B) s s' a :
  m s = Ret (s', a) -> (m ≫= f) s = f a s'.
Proof. unfold mbind, cmd_mbind. by intros ->. Qed.

Lemma gets_bind {A B} (f : S -> A) (k : A -> cmd S B) s : (gets f ≫= k) s = k (f s) s.
Proof. reflexivity. Qed.

Lemma modify_bind {B} (f : S -> S) (k : unit -> cmd S B) s : (modify f ≫= k) s = k tt (f s).
Proof. reflexivity. Qed.

Lemma lift_bind {A B} (a : A) (k : A -> cmd S B) s : (lift (Ret a) ≫= k) s = k a s.
Proof. reflexivity. Qed.

Lemma ret_bind {A B} (a : A) (k : A -> cmd S B) s : (mret a ≫= k) s = k a s.
Proof. reflexivity. Qed.

Lemma cmd_bind_inv {A B} (m : cmd S A) (f : A -> cmd S B) s s2 b :
  (m ≫= f) s = Ret (s2, b) -> exists s1 a, m s = Ret (s1, a) /\ f a s1 = Ret (s2, b).
Proof. unfold mbind, cmd_mbind. destruct (m s) as [[s1 a]| |]; try done. eauto. Qed.
End cmd.

(** [c] returns from [s], in a state and with a result of [Q]. *)
Definition ends {S A} (c : cmd S A) (s : S) (Q : A -> S -> Prop) : Prop := exists s' a, c s = Ret (s', a) /\ Q a s'.

Lemma ends_bind {S A B} (c : cmd S A) (k : A -> cmd S B) s (P : A -> S -> Prop) Q :
  ends c s P -> (forall a s', P a s' -> ends (k a) s' Q) -> ends (c ≫= k) s Q.
Proof. intros (s' & a & Hc & HP) Hk. destruct (Hk a s' HP) as (s2 & b & Hb & HQ). exists s2, b. by rewrite (cmd_bind_eq _ _ _ _ _ Hc). Qed.

Lemma ends_step {S A B} (c : cmd S A) (k : A -> cmd S B) s s' a Q : c s = Ret (s', a) -> ends (k a) s' Q -> ends (c ≫= k) s Q.
Proof. intros Hc (s2 & b & Hb & HQ). exists s2, b. by rewrite (cmd_bind_eq _ _ _ _ _ Hc). Qed.

Lemma ends_ret {S A} (a : A) (s : S) (Q : A -> S -> Prop) : Q a s -> ends (mret a) s Q.
Proof. by exists s, a. Qed.

Lemma ends_mono {S A} (c : cmd S A) s (P Q : A -> S -> Prop) : ends c s P -> (forall a s', P a s' -> Q a s') -> ends c s Q.
Proof. intros (s' & a & Hc & HP) Hpq. exists s', a. auto. Qed.

(** Run the head of a sequence whose result is known. *)
Ltac cmd_simpl :=
  cbn [mbind mret cmd_mbind cmd_mret outcome_mbind outcome_mret gets modify lift deref].

(** ** Machine integers

    Values are integers in [Z]; [wrap w] is the reduction a store into an
    unsigned [w]-bit object performs, [s32] the reading of a 32-bit pattern as
    a signed [int]. *)
Definition wrap (w z : Z) : Z := z mod 2 ^ w.
Definition u8 (z : Z) : Z := z mod 256.
Definition u16 (z : Z) : Z := z mod 65536.
Definition u32 (z : Z) : Z := z mod 4294967296.
Definition s32 (z : Z) : Z := (z + 2147483648) mod 4294967296 - 2147483648.

Definition is_u8 (z : Z) : Prop := 0 <= z < 256.
Definition is_u16 (z : Z) : Prop := 0 <= z < 65536.
Definition is_u32 (z : Z) : Prop := 0 <= z < 4294967296.

Lemma u8_small z : is_u8 z -> u8 z = z.
Proof. unfold is_u8, u8. intros. by apply Z.mod_small. Qed.
Lemma u16_small z : is_u16 z -> u16 z = z.
Proof. unfold is_u16, u16. intros. by apply Z.mod_small. Qed.
Lemma u32_small z : is_u32 z -> u32 z = z.
Proof. unfold is_u32, u32. intros. by apply Z.mod_small. Qed.
Lemma u8_range z : is_u8 (u8 z).
Proof. unfold is_u8, u8. by apply Z.mod_pos_bound. Qed.
Lemma u16_range z : is_u16 (u16 z).
Proof. unfold is_u16, u16. by apply Z.mod_pos_bound. Qed.
Lemma u32_range z : is_u32 (u32 z).
Proof. unfold is_u32, u32. by apply Z.mod_pos_bound. Qed.

Create HintDb jarvis.
#[export] Hint Resolve u8_range u16_range u32_range : jarvis.

(** ** Bit operations as arithmetic *)
Section bit_arith.
Lemma land_mask x n : 0 <= n -> Z.land x (2 ^ n - 1) = x mod 2 ^ n.
Proof. intros. rewrite Z.sub_1_r, <- Z.ones_equiv. by apply Z.land_ones. Qed.

Lemma lor_high_low a b n : 0 <= n -> 0 <= b < 2 ^ n ->
  Z.lor (a * 2 ^ n) b = a * 2 ^ n + b.
Proof.
  intros Hn Hb.
  assert (Hl : Z.land (a * 2 ^ n) b = 0).
  { apply Z.bits_inj'. intros i Hi. rewrite Z.land_spec, Z.bits_0.
    destruct (decide (i < n)).
    - by rewrite Z.mul_pow2_bits_low by lia.
    - destruct (decide (b = 0)) as [->|]; [rewrite Z.bits_0; apply andb_false_r|].
      rewrite (Z.bits_above_log2 b); [apply andb_false_r|lia|].
      apply Z.log2_lt_pow2; [lia|].
      apply Z.lt_le_trans with (2 ^ n); [lia|]. apply Z.pow_le_mono_r; lia. }
  by rewrite <- Z.lxor_lor, <- Z.add_nocarry_lxor.
Qed.

Lemma land_mask_high x n m : 0 <= n -> 0 <= m ->
  Z.land x ((2 ^ m - 1) * 2 ^ n) = (x / 2 ^ n) mod 2 ^ m * 2 ^ n.
Proof.
  intros Hn Hm. rewrite <- (land_mask (x / 2 ^ n)) by done.
  rewrite <- !Z.shiftl_mul_pow2, <- Z.shiftr_div_pow2 by done.
  apply Z.bits_inj'. intros i Hi. rewrite Z.land_spec, !Z.shiftl_spec, Z.land_spec by done.
  destruct (decide (i < n)).
  - rewrite !(Z.testbit_neg_r _ (i - n)) by lia. by rewrite andb_false_r.
  - rewrite Z.shiftr_spec by lia. by replace (i - n + n) with i by lia.
Qed.
End bit_arith.

(** [lia] over divisions and remainders by literals. *)
Ltac zdm := Z.to_euclidean_division_equations; lia.

(** ** Arrays indexed by C integers: reading and writing out of range is an
    error, never a silent no-op. *)
Definition zget {A} (l : list A) (i : Z) : option A :=
  if decide (0 <= i) then l !! Z.to_nat i else None.

Definition zset {A} (l : list A) (i : Z) (x : A) : option (list A) :=
  if decide (0 <= i < Z.of_nat (length l)) then Some (<[Z.to_nat i := x]> l)
  else None.

Section zarrays.
Context {A : Type}.
Implicit Types l : list A.

Lemma zget_Some_range l i x : zget l i = Some x -> 0 <= i < Z.of_nat (length l).
Proof.
  unfold zget. case_decide; [|done]. intros ?%lookup_lt_Some. lia.
Qed.

Lemma zget_in_range l i : 0 <= i < Z.of_nat (length l) -> exists x, zget l i = Some x.
Proof.
  intros. unfold zget. rewrite decide_True by lia.
  apply lookup_lt_is_Some_2. lia.
Qed.

Lemma zget_lookup l i : 0 <= i -> zget l i = l !! Z.to_nat i.
Proof. intros. unfold zget. by rewrite decide_True. Qed.

Lemma zset_Some l i x : 0 <= i < Z.of_nat (length l) ->
  zset l i x = Some (<[Z.to_nat i := x]> l).
Proof. intros. unfold zset. by rewrite decide_True. Qed.

Lemma zset_inv l i x l' : zset l i x = Some l' ->
  0 <= i < Z.of_nat (length l) /\ l' = <[Z.to_nat i := x]> l.
Proof. unfold zset. case_decide; [|done]. intros [= <-]. done. Qed.

Lemma zset_length l i x l' : zset l i x = Some l' -> length l' = length l.
Proof. intros [_ ->]%zset_inv. apply length_insert. Qed.

Lemma zget_zset_eq l i x l' : zset l i x = Some l' -> zget l' i = Some x.
Proof.
  intros [? ->]%zset_inv. unfold zget. rewrite decide_True by lia.
  apply list_lookup_insert_eq. lia.
Qed.

Lemma zget_zset_ne l i j x l' : i <> j -> zset l i x = Some l' -> zget l' j = zget l j.
Proof.
  intros ? [? ->]%zset_inv. unfold zget. case_decide; [|done].
  apply list_lookup_insert_ne. lia.
Qed.
End zarrays.

(** ** Finite maps from addresses *)
Section addresses.
Context {A : Type}.
Implicit Types m : gmap Z A.

Lemma length_elements_dom m : length (elements (dom m)) = size m.
Proof. by rewrite <- (size_dom (D := gset Z)). Qed.

(** Distinct addresses of a map are no more than its size. *)
Lemma addresses_bound m (l : list Z) : NoDup l -> (forall a, a ∈ l -> is_Some (m !! a)) ->
  (length l <= size m)%nat.
Proof.
  intros Hnd Hl. rewrite <- length_elements_dom. apply submseteq_length, NoDup_submseteq; [done|].
  intros a Ha. by apply elem_of_elements, elem_of_dom, Hl.
Qed.

Lemma max_list_ge (l : list Z) a : a ∈ l -> a <= foldr Z.max 0 l.
Proof. induction l as [|b l IH]; [by intros ?%elem_of_nil|]. intros [->|?%IH]%elem_of_cons; cbn; lia. Qed.

Lemma max_list_nonneg (l : list Z) : 0 <= foldr Z.max 0 l.
Proof. induction l; cbn; lia. Qed.

(** An address above all those of a map. *)
Definition top_address m : Z := foldr Z.max 0 (elements (dom m)).

Lemma above_top m a : top_address m < a -> m !! a = None.
Proof.
  intros Ha. apply eq_None_not_Some. intros Hs. pose proof (max_list_ge (elements (dom m)) a) as H.
  unfold top_address in Ha. assert (a ∈ elements (dom m)) as Hin by by apply elem_of_elements, elem_of_dom.
  apply H in Hin. lia.
Qed.
End addresses.

(** ** Tactics *)

(** Expose the head of a successful monadic run. *)
Ltac bind_inv H :=
  let a := fresh "a" in
  apply bind_Ret_inv in H as (a & ? & H).

(** Case analysis on every decision of the goal, closing absurd branches. *)
Ltac decide_all := repeat case_decide; try lia; try done.

(** Evaluate [Z.to_nat] of literals, and run array accesses whose index is a
    literal on lists whose spine is known. *)
Ltac nat_lits :=
  repeat match goal with
  | |- context [Z.to_nat (Zpos ?p)] =>
      let n := eval vm_compute in (Z.to_nat (Zpos p)) in
      change (Z.to_nat (Zpos p)) with n
  | |- context [Z.to_nat 0] => change (Z.to_nat 0) with 0%nat
  end.

Ltac array_step :=
  first [ rewrite zset_Some by (cbn [length insert list_insert]; lia)
        | rewrite zget_lookup by lia ];
  nat_lits; cbn [deref mbind outcome_mbind insert list_insert lookup list_lookup].

Ltac array_steps := repeat array_step.

(** Closed range and equality facts about literals. *)
Ltac lit := first [ reflexivity | lia | (unfold is_u8, is_u16, is_u32 in *; lia) | (vm_compute; intuition congruence) ].
