(* ===== verification/Bitmap.v ===== *)
(** * Bitmaps stored in arrays of fixed-width words

    The kernel keeps two allocation bitmaps with the same code shape: the PID
    bitmap ([uint8_t process_bitmap[]], process.c) and the page-frame bitmap
    ([uint32_t* frame_bitmap], paging.c). This file models testing, setting and
    clearing bit [i] as word [i / w], bit [i % w], the first-clear-bit loop,
    and relates them to the bit function and the number of clear bits. *)
From S2P Require Import Prelude.

(** [bitmap[i / w] & (1 << (i % w))], as the condition of an [if]. *)
Definition bm_test (w : Z) (bm : list Z) (i : Z) : outcome bool :=
  word ← deref (zget bm (i / w));
  mret (bool_decide (Z.land word (Z.shiftl 1 (i mod w)) <> 0)).

(** [bitmap[i / w] |= (1 << (i % w))]. *)
Definition bm_set (w : Z) (bm : list Z) (i : Z) : outcome (list Z) :=
  word ← deref (zget bm (i / w));
  deref (zset bm (i / w) (wrap w (Z.lor word (Z.shiftl 1 (i mod w))))).

(** [bitmap[i / w] &= ~(1 << (i % w))]. *)
Definition bm_clear (w : Z) (bm : list Z) (i : Z) : outcome (list Z) :=
  word ← deref (zget bm (i / w));
  deref (zset bm (i / w) (wrap w (Z.land word (Z.lnot (Z.shiftl 1 (i mod w)))))).

(** [for (; i < i + n; i++) if (!(bitmap[i / w] & (1 << (i % w)))) return i;] *)
Fixpoint bm_find_clear (w : Z) (bm : list Z) (i : Z) (n : nat) : outcome (option Z) :=
  match n with
  | O => mret None
  | S n' =>
      b ← bm_test w bm i;
      if (b : bool) then bm_find_clear w bm (i + 1) n' else mret (Some i)
  end.

(** The bit function a bitmap denotes; bits outside the array read as clear. *)
Definition bm_bit (w : Z) (bm : list Z) (i : Z) : bool :=
  match zget bm (i / w) with Some word => Z.testbit word (i mod w) | None => false end.

Definition bm_wf (w : Z) (bm : list Z) : Prop := Forall (fun x => 0 <= x < 2 ^ w) bm.

(** Number of clear bits among bits [0 .. n-1]. *)
Definition bm_clear_count (w : Z) (bm : list Z) (n : Z) : Z :=
  Z.of_nat (length (filter (fun i => bm_bit w bm i = false) (seqZ 0 n))).

Section word_bits.
Lemma land_bit_ne0 x b : 0 <= b ->
  bool_decide (Z.land x (Z.shiftl 1 b) <> 0) = Z.testbit x b.
Proof.
  intros Hb. destruct (Z.testbit x b) eqn:E.
  - apply bool_decide_eq_true_2. intros H0.
    apply (f_equal (fun z => Z.testbit z b)) in H0.
    rewrite Z.land_spec, E, Z.shiftl_1_l, Z.pow2_bits_true, Z.bits_0 in H0 by done.
    done.
  - apply bool_decide_eq_false_2. intros H. apply H. apply Z.bits_inj'.
    intros n Hn. rewrite Z.land_spec, Z.shiftl_1_l, Z.bits_0.
    destruct (decide (n = b)) as [->|]; [by rewrite E|].
    rewrite Z.pow2_bits_false by lia. apply andb_false_r.
Qed.

Lemma setbit_range w x j : 0 <= w -> 0 <= x < 2 ^ w -> 0 <= j < w -> 0 <= Z.setbit x j < 2 ^ w.
Proof.
  intros Hw Hx Hj. assert (Hs : Z.shiftr (Z.setbit x j) w = 0).
  { apply Z.bits_inj'. intros n Hn. rewrite Z.shiftr_spec, Z.setbit_eqb, Z.bits_0 by lia.
    rewrite (proj2 (Z.eqb_neq j (n + w))) by lia. cbn [orb]. rewrite <- (Z.mod_small x (2 ^ w)) by lia. apply Z.mod_pow2_bits_high. lia. }
  rewrite Z.shiftr_div_pow2 in Hs by lia. assert (0 <= Z.setbit x j) by (apply Z.lor_nonneg; split; [lia|apply Z.shiftl_nonneg; lia]).
  apply Z.div_small_iff in Hs; [lia|]. pose proof (Z.pow_pos_nonneg 2 w). lia.
Qed.

Lemma testbit_wrap w x i : 0 <= i < w -> Z.testbit (wrap w x) i = Z.testbit x i.
Proof. intros. unfold wrap. by rewrite Z.mod_pow2_bits_low by lia. Qed.

Lemma testbit_set w x b i : 0 <= b < w -> 0 <= i < w ->
  Z.testbit (wrap w (Z.lor x (Z.shiftl 1 b))) i = (i =? b) || Z.testbit x i.
Proof.
  intros. rewrite testbit_wrap, Z.lor_spec, Z.shiftl_1_l by lia.
  destruct (Z.eqb_spec i b) as [->|].
  - rewrite Z.pow2_bits_true by lia. apply orb_true_r.
  - rewrite Z.pow2_bits_false by lia. apply orb_false_r.
Qed.

Lemma testbit_clear w x b i : 0 <= b < w -> 0 <= i < w ->
  Z.testbit (wrap w (Z.land x (Z.lnot (Z.shiftl 1 b)))) i =
  negb (i =? b) && Z.testbit x i.
Proof.
  intros. rewrite testbit_wrap, Z.land_spec, Z.lnot_spec, Z.shiftl_1_l by lia.
  destruct (Z.eqb_spec i b) as [->|].
  - rewrite Z.pow2_bits_true by lia. apply andb_false_r.
  - rewrite Z.pow2_bits_false by lia. apply andb_true_r.
Qed.

Lemma wrap_range w x : 0 <= w -> 0 <= wrap w x < 2 ^ w.
Proof. intros. apply Z.mod_pos_bound. apply Z.pow_pos_nonneg; lia. Qed.
End word_bits.

Section bitmap.
Context (w : Z) (Hw : 0 < w).
Implicit Types bm : list Z.

Definition bm_size bm : Z := w * Z.of_nat (length bm).

Lemma bm_index bm i : 0 <= i < bm_size bm ->
  0 <= i / w < Z.of_nat (length bm) /\ 0 <= i mod w < w.
Proof.
  intros [? Hi]. split; [|by apply Z.mod_pos_bound].
  split; [by apply Z.div_pos|]. apply Z.div_lt_upper_bound; [done|].
  unfold bm_size in Hi. lia.
Qed.

Lemma bm_same_bit i j : 0 <= i -> 0 <= j ->
  (i / w = j / w /\ i mod w = j mod w) <-> i = j.
Proof.
  split; [|by intros ->]. intros [Hd Hm].
  rewrite (Z.div_mod i w), (Z.div_mod j w), Hd, Hm by lia. done.
Qed.

Lemma bm_test_spec bm i : 0 <= i < bm_size bm -> bm_test w bm i = Ret (bm_bit w bm i).
Proof.
  intros Hi%bm_index. unfold bm_test, bm_bit.
  destruct (zget_in_range bm (i / w)) as [x ->]; [tauto|]. cbn.
  unfold mret, outcome_mret. f_equal. apply land_bit_ne0. tauto.
Qed.

(** Both updates, once: word [i / w] becomes [f word], whose bits are [g]. *)
Lemma bm_update_spec bm i (f : Z -> Z) (g : bool) :
  bm_wf w bm -> 0 <= i < bm_size bm ->
  (forall x, 0 <= f x < 2 ^ w) ->
  (forall x k, 0 <= k < w ->
     Z.testbit (f x) k = if k =? i mod w then g else Z.testbit x k) ->
  exists bm',
    (word ← deref (zget bm (i / w)); deref (zset bm (i / w) (f word))) = Ret bm' /\
    bm_wf w bm' /\ length bm' = length bm /\
    forall j, 0 <= j -> bm_bit w bm' j = if decide (j = i) then g else bm_bit w bm j.
Proof.
  intros Hwf Hi Hf Hg. pose proof (bm_index _ _ Hi) as [Hd Hm].
  destruct (zget_in_range bm (i / w)) as [x Hx]; [done|].
  exists (<[Z.to_nat (i / w) := f x]> bm). rewrite Hx. cbn.
  rewrite zset_Some by done. cbn. split; [done|]. split.
  { apply Forall_insert; [done|]. apply Hf. }
  split; [apply length_insert|]. intros j Hj. unfold bm_bit.
  assert (Hmj : 0 <= j mod w < w) by (by apply Z.mod_pos_bound).
  destruct (decide (j / w = i / w)) as [Ed|Ed].
  - rewrite Ed, (zget_zset_eq bm (i / w) (f x)) by (by apply zset_Some).
    rewrite Hx, Hg by done. destruct (Z.eqb_spec (j mod w) (i mod w)).
    + rewrite decide_True; [done|]. apply bm_same_bit; lia.
    + rewrite decide_False; [done|]. intros ->. lia.
  - rewrite (zget_zset_ne bm (i / w) (j / w) (f x)) by first [done | by apply zset_Some].
    rewrite decide_False; [done|]. intros ->. done.
Qed.

Lemma bm_set_spec bm i : bm_wf w bm -> 0 <= i < bm_size bm ->
  exists bm', bm_set w bm i = Ret bm' /\ bm_wf w bm' /\ length bm' = length bm /\
    forall j, 0 <= j -> bm_bit w bm' j = if decide (j = i) then true else bm_bit w bm j.
Proof.
  intros Hwf Hi. pose proof (bm_index _ _ Hi) as [_ Hm].
  apply (bm_update_spec bm i (fun x => wrap w (Z.lor x (Z.shiftl 1 (i mod w))))); try done.
  - intros. apply wrap_range. lia.
  - intros. rewrite testbit_set by done. by destruct (k =? i mod w).
Qed.

Lemma bm_clear_spec bm i : bm_wf w bm -> 0 <= i < bm_size bm ->
  exists bm', bm_clear w bm i = Ret bm' /\ bm_wf w bm' /\ length bm' = length bm /\
    forall j, 0 <= j -> bm_bit w bm' j = if decide (j = i) then false else bm_bit w bm j.
Proof.
  intros Hwf Hi. pose proof (bm_index _ _ Hi) as [_ Hm].
  apply (bm_update_spec bm i
    (fun x => wrap w (Z.land x (Z.lnot (Z.shiftl 1 (i mod w)))))); try done.
  - intros. apply wrap_range. lia.
  - intros. rewrite testbit_clear by done. by destruct (k =? i mod w).
Qed.

(** The scan returns the first clear bit of its range, if there is one. *)
Lemma bm_find_clear_spec bm n : forall i, 0 <= i -> i + Z.of_nat n <= bm_size bm ->
  exists r, bm_find_clear w bm i n = Ret r /\
  match r with
  | Some j => i <= j < i + Z.of_nat n /\ bm_bit w bm j = false /\
              forall k, i <= k < j -> bm_bit w bm k = true
  | None => forall k, i <= k < i + Z.of_nat n -> bm_bit w bm k = true
  end.
Proof.
  induction n as [|n IH]; intros i Hi Hn; cbn [bm_find_clear].
  { exists None. split; [done|]. intros. lia. }
  rewrite bm_test_spec by lia. cbn. destruct (bm_bit w bm i) eqn:Eb.
  - destruct (IH (i + 1)) as (r & -> & Hr); [lia..|]. exists r. split; [done|].
    destruct r as [j|].
    + destruct Hr as (? & ? & Hall). split; [lia|]. split; [done|].
      intros k ?. destruct (decide (k = i)) as [->|]; [done|]. apply Hall. lia.
    + intros k ?. destruct (decide (k = i)) as [->|]; [done|]. apply Hr. lia.
  - exists (Some i). split; [done|]. split; [lia|]. split; [done|]. intros. lia.
Qed.
End bitmap.

(** ** Counting clear bits *)
Section count.
Context {P Q : Z -> Prop} `{!forall x, Decision (P x), !forall x, Decision (Q x)}.

Lemma filter_ext_in (l : list Z) :
  (forall j, j ∈ l -> P j <-> Q j) -> filter P l = filter Q l.
Proof.
  induction l as [|x l IH]; intros Hl; [done|].
  rewrite !filter_cons, IH by (intros; apply Hl; by right).
  assert (P x <-> Q x) by (apply Hl; by left). clear Hl. do 2 case_decide; naive_solver.
Qed.

Lemma filter_flip_length (i : Z) (l : list Z) :
  NoDup l -> i ∈ l -> P i -> ~ Q i -> (forall j, j ∈ l -> j <> i -> P j <-> Q j) ->
  length (filter P l) = S (length (filter Q l)).
Proof.
  intros Hnd Hin HP HQ. induction Hnd as [|x l Hx Hnd IH]; [by apply elem_of_nil in Hin|].
  intros Hiff. apply elem_of_cons in Hin as [->|Hin].
  - rewrite filter_cons_True, filter_cons_False by done. cbn. do 2 f_equal.
    apply filter_ext_in. intros j Hj. apply Hiff; [by right|]. by intros ->.
  - assert (x <> i) by (intros ->; done).
    assert (P x <-> Q x) by (apply Hiff; [by left|done]).
    assert (length (filter P l) = S (length (filter Q l))) as IHl.
    { apply IH; [done|]. intros j Hj. apply Hiff. by right. }
    clear Hiff IH. rewrite !filter_cons. do 2 case_decide; cbn; naive_solver.
Qed.
End count.

Section count_bits.
Lemma bm_clear_count_set w bm bm' i n : 0 <= i < n ->
  bm_bit w bm i = false ->
  (forall j, 0 <= j -> bm_bit w bm' j = if decide (j = i) then true else bm_bit w bm j) ->
  bm_clear_count w bm' n = bm_clear_count w bm n - 1.
Proof.
  intros Hi Hb Hset. unfold bm_clear_count.
  rewrite (filter_flip_length (P := fun j => bm_bit w bm j = false)
    (Q := fun j => bm_bit w bm' j = false) i).
  - lia.
  - apply NoDup_seqZ.
  - apply elem_of_seqZ. lia.
  - done.
  - rewrite Hset by lia. by rewrite decide_True.
  - intros j Hj%elem_of_seqZ Hne. rewrite Hset by lia. by rewrite decide_False.
Qed.

Lemma bm_clear_count_clear w bm bm' i n : 0 <= i < n ->
  bm_bit w bm i = true ->
  (forall j, 0 <= j -> bm_bit w bm' j = if decide (j = i) then false else bm_bit w bm j) ->
  bm_clear_count w bm' n = bm_clear_count w bm n + 1.
Proof.
  intros Hi Hb Hclr.
  rewrite (bm_clear_count_set w bm' bm i n); [lia|done| |].
  - rewrite Hclr by lia. by rewrite decide_True.
  - intros j Hj. rewrite Hclr by done. case_decide; by subst.
Qed.

Lemma bm_clear_count_pos w bm n : 0 < bm_clear_count w bm n ->
  exists i, 0 <= i < n /\ bm_bit w bm i = false.
Proof.
  unfold bm_clear_count. intros H.
  destruct (filter _ _) as [|i l] eqn:E; [cbn in H; lia|].
  assert (Hi : i ∈ filter (fun i => bm_bit w bm i = false) (seqZ 0 n)) by (rewrite E; left).
  apply list_elem_of_filter in Hi as [? Hi%elem_of_seqZ]. exists i. split; [lia|done].
Qed.
End count_bits.
