(* ===== verification/Chain.v ===== *)
(** * Singly linked lists in a heap

    The kernel links its process queues, allocator free lists and memory
    regions through [next] fields, with NULL (0) at the end. [nx] is the
    partial function that reads the [next] field at an address; [lseg nx p l q]
    says that following it from [p] visits exactly the addresses [l] and stops
    at [q], and [chain nx p l] that it ends at NULL. *)
From S2P Require Import Prelude.

Fixpoint lseg (nx : Z -> option Z) (p : Z) (l : list Z) (q : Z) : Prop :=
  match l with
  | [] => p = q
  | a :: l' => p = a /\ a <> 0 /\ exists r, nx a = Some r /\ lseg nx r l' q
  end.

Definition chain (nx : Z -> option Z) (p : Z) (l : list Z) : Prop := lseg nx p l 0.

Section chain.
Implicit Types nx : Z -> option Z.
Implicit Types l : list Z.

Lemma lseg_app nx l1 l2 p q :
  lseg nx p (l1 ++ l2) q <-> exists r, lseg nx p l1 r /\ lseg nx r l2 q.
Proof.
  revert p. induction l1 as [|a l1 IH]; intros p; cbn.
  - split; [by exists p|]. by intros (r & -> & ?).
  - setoid_rewrite IH. split.
    + intros (-> & ? & r & ? & q' & ? & ?). eauto 10.
    + intros (q' & (-> & ? & r & ? & ?) & ?). eauto 10.
Qed.

(** Writes to fields outside the segment do not change it. *)
Lemma lseg_ext nx nx' l p q :
  (forall a, a ∈ l -> nx' a = nx a) -> lseg nx p l q -> lseg nx' p l q.
Proof.
  revert p. induction l as [|a l IH]; intros p Hext; cbn; [done|].
  intros (-> & ? & r & Hr & Hl). split; [done|]. split; [done|]. exists r.
  rewrite Hext by left. split; [done|]. apply IH; [|done]. intros. apply Hext. by right.
Qed.

Lemma chain_ext nx nx' l p :
  (forall a, a ∈ l -> nx' a = nx a) -> chain nx p l -> chain nx' p l.
Proof. apply lseg_ext. Qed.

Lemma chain_nil nx p : chain nx p [] <-> p = 0.
Proof. done. Qed.

Lemma chain_cons nx p a l :
  chain nx p (a :: l) <-> p = a /\ a <> 0 /\ exists r, nx a = Some r /\ chain nx r l.
Proof. done. Qed.

Lemma chain_cons_1 nx a r l : a <> 0 -> nx a = Some r -> chain nx r l -> chain nx a (a :: l).
Proof. intros. apply chain_cons. eauto. Qed.

Lemma chain_null nx l : chain nx 0 l -> l = [].
Proof. destruct l; [done|]. intros (<- & ? & _). done. Qed.

Lemma chain_nonnull nx p l : chain nx p l -> p <> 0 -> exists l', l = p :: l'.
Proof. destruct l as [|a l]; [done|]. intros (-> & _) _. eauto. Qed.

Lemma lseg_nonnull nx l p q a : lseg nx p l q -> a ∈ l -> a <> 0.
Proof.
  revert p. induction l as [|b l IH]; intros p; cbn; [by intros _ ?%elem_of_nil|].
  intros (-> & ? & r & _ & Hl) [->|?]%elem_of_cons; [done|]. by apply (IH r).
Qed.

Lemma lseg_next nx l p q a : lseg nx p l q -> a ∈ l -> exists r, nx a = Some r.
Proof.
  revert p. induction l as [|b l IH]; intros p; cbn; [by intros _ ?%elem_of_nil|].
  intros (-> & ? & r & Hr & Hl) [->|?]%elem_of_cons; [by eexists|]. by apply (IH r).
Qed.

(** The addresses a list visits are determined by its head. *)
Lemma chain_det nx p l l' : chain nx p l -> chain nx p l' -> l = l'.
Proof.
  revert p l'. induction l as [|a l IH]; intros p l' H.
  - apply chain_nil in H as ->. intros H'%chain_null. done.
  - apply chain_cons in H as (-> & ? & r & Hr & Hl).
    intros H'. destruct (chain_nonnull _ _ _ H') as [l'' ->]; [done|].
    apply chain_cons in H' as (_ & _ & r' & Hr' & Hl'). simplify_eq.
    f_equal. eapply IH; eassumption.
Qed.

(** A list that reaches NULL has no cycle. *)
Lemma chain_NoDup nx p l : chain nx p l -> NoDup l.
Proof.
  revert p. induction l as [|a l IH]; intros p H; [constructor|].
  pose proof H as H0. apply chain_cons in H as (-> & ? & r & Hr & Hl).
  constructor; [|by apply (IH r)].
  intros (l1 & l2 & ->)%list_elem_of_split.
  apply lseg_app in Hl as (r' & _ & Hl2). pose proof Hl2 as [-> _].
  pose proof (chain_det _ _ _ _ H0 Hl2) as Heq.
  apply (f_equal length) in Heq. cbn in Heq. rewrite length_app in Heq. cbn in Heq. lia.
Qed.

Lemma chain_split nx p l1 a l2 : chain nx p (l1 ++ a :: l2) <->
  lseg nx p l1 a /\ a <> 0 /\ exists r, nx a = Some r /\ chain nx r l2.
Proof.
  unfold chain. rewrite lseg_app. cbn. split.
  - intros (q & H1 & -> & ?). done.
  - intros (? & ?). by exists a.
Qed.

(** Unlinking an element whose predecessor is redirected past it. *)
Lemma chain_unlink nx nx' p l1 b a l2 r :
  chain nx p (l1 ++ b :: a :: l2) -> nx a = Some r -> nx' b = Some r ->
  (forall c, c <> a -> c <> b -> nx' c = nx c) ->
  chain nx' p (l1 ++ b :: l2).
Proof.
  intros H Hr Hb Hext. pose proof (chain_NoDup _ _ _ H) as Hnd.
  apply NoDup_app in Hnd as (_ & Hd & Hnd2).
  rewrite !NoDup_cons in Hnd2. destruct Hnd2 as (Hb' & Ha & Hnd2).
  apply chain_split in H as (H1 & Hb0 & q & Hq & H2).
  apply chain_cons in H2 as (-> & Ha0 & r' & Hr' & H2).
  assert (r' = r) as -> by congruence. apply chain_split. split; [|split; [done|]].
  - eapply lseg_ext; [|exact H1]. intros c Hc.
    apply Hext; intros ->; apply (Hd _ Hc); set_solver.
  - exists r. split; [done|]. eapply chain_ext; [|exact H2].
    intros c Hc. apply Hext; intros ->; set_solver.
Qed.

(** Linking [b] between two parts of a list, or at its head. *)
Lemma chain_insert_head nx nx' p b l :
  chain nx p l -> b <> 0 -> nx' b = Some p -> b ∉ l ->
  (forall c, c <> b -> nx' c = nx c) -> chain nx' b (b :: l).
Proof.
  intros H Hb Hn Hni Hext. apply (chain_cons_1 _ _ p); [done..|].
  eapply chain_ext; [|exact H]. intros c Hc. apply Hext. by intros ->.
Qed.

Lemma chain_insert_after nx nx' p l1 a b r l2 :
  chain nx p (l1 ++ a :: l2) -> nx a = Some r -> b <> 0 ->
  nx' a = Some b -> nx' b = Some r -> b ∉ l1 ++ a :: l2 ->
  (forall c, c <> a -> c <> b -> nx' c = nx c) ->
  chain nx' p (l1 ++ a :: b :: l2).
Proof.
  intros H Hr Hb Ha' Hb' Hni Hext. pose proof (chain_NoDup _ _ _ H) as Hnd.
  apply NoDup_app in Hnd as (_ & Hd & [Ha Hnd2]%NoDup_cons).
  apply chain_split in H as (H1 & Ha0 & q & Hq & H2).
  assert (q = r) as -> by congruence.
  apply chain_split. split; [|split; [done|]].
  - eapply lseg_ext; [|exact H1]. intros c Hc.
    apply Hext; intros ->; [apply (Hd _ Hc)|]; set_solver.
  - exists b. split; [done|]. apply (chain_cons_1 _ _ r); [done..|].
    eapply chain_ext; [|exact H2]. intros c Hc. apply Hext; intros ->; set_solver.
Qed.
(** A list through the objects of a heap is no longer than the heap: the fuel
    of the loops over it. *)
Lemma chain_length_fuel {A} (h : gmap Z A) (f : A -> Z) p l :
  chain (fun a => f <$> h !! a) p l -> (length l < S (size h))%nat.
Proof.
  intros H. apply Nat.lt_succ_r, addresses_bound; [by apply chain_NoDup in H|].
  intros a Ha. destruct (lseg_next _ _ _ _ _ H Ha) as (r & Hr). cbn beta in Hr.
  destruct (h !! a); [by eexists|done].
Qed.
End chain.
