(* ===== verification/Gdt.v ===== *)
(** * Global descriptor table (src/kernel/gdt.c, include/kernel/gdt.h)

    A segment descriptor is the eight bytes the code writes through its
    [uint8_t* target] view; the GDT is the record of its seven descriptors and
    the TSS the record of the fields [on_init_gdt] writes. *)
From S2P Require Import Prelude.

Definition GDT_CODE_PL0 : Z := 0x9a.
Definition GDT_DATA_PL0 : Z := 0x92.
Definition GDT_CODE_PL3 : Z := 0xfa.
Definition GDT_DATA_PL3 : Z := 0xf2.
Definition GDT_TSS : Z := 0x8b.

(** Bytes 0..7 of a descriptor. *)
Definition SegmentDescriptor : Type := list Z.

(** init_segement_descriptor, statement by statement; the byte masks and the
    final store into a [uint8_t] are the source's. *)
Definition init_segement_descriptor (target : SegmentDescriptor) (base limit type : Z)
    : outcome SegmentDescriptor :=
  '(limit, flags) ←
     (if decide (limit < 1048576) then mret (limit, 0x40)
      else mret ((if decide (Z.land limit 0xfff <> 0xfff)
                  then Z.shiftr limit 12 - 1 else Z.shiftr limit 12), 0xC0));
  target ← deref (zset target 6 flags);
  target ← deref (zset target 0 (u8 (Z.land limit 0xff)));
  target ← deref (zset target 1 (u8 (Z.land (Z.shiftr limit 8) 0xff)));
  t6 ← deref (zget target 6);
  target ← deref (zset target 6 (u8 (Z.lor t6 (Z.land (Z.shiftr limit 16) 0xf))));
  target ← deref (zset target 2 (u8 (Z.land base 0xff)));
  target ← deref (zset target 3 (u8 (Z.land (Z.shiftr base 8) 0xff)));
  target ← deref (zset target 4 (u8 (Z.land (Z.shiftr base 16) 0xff)));
  target ← deref (zset target 7 (u8 (Z.land (Z.shiftr base 24) 0xff)));
  deref (zset target 5 (u8 type)).

Definition get_base (target : SegmentDescriptor) : outcome Z :=
  result ← deref (zget target 7);
  t4 ← deref (zget target 4);
  let result := u32 (u32 (Z.shiftl result 8) + t4) in
  t3 ← deref (zget target 3);
  let result := u32 (u32 (Z.shiftl result 8) + t3) in
  t2 ← deref (zget target 2);
  mret (u32 (u32 (Z.shiftl result 8) + t2)).

Definition get_limit (target : SegmentDescriptor) : outcome Z :=
  t6 ← deref (zget target 6);
  let result := Z.land t6 0xf in
  t1 ← deref (zget target 1);
  let result := u32 (u32 (Z.shiftl result 8) + t1) in
  t0 ← deref (zget target 0);
  let result := u32 (u32 (Z.shiftl result 8) + t0) in
  mret (if decide (Z.land t6 0xC0 = 0xC0) then Z.lor (u32 (Z.shiftl result 12)) 0xfff
        else result).

(** The seven descriptors, in the order of the struct. *)
Record GDT := mkGDT {
  null_segment_descriptor : SegmentDescriptor;
  unused_segment_descriptor : SegmentDescriptor;
  code_segment_descriptor : SegmentDescriptor;
  data_segment_descriptor : SegmentDescriptor;
  user_code_segment_descriptor : SegmentDescriptor;
  user_data_segment_descriptor : SegmentDescriptor;
  tss_segment_descriptor : SegmentDescriptor
}.

(** The table as the processor indexes it: descriptor [i] at byte offset [8 i]. *)
Definition gdt_table (g : GDT) : list SegmentDescriptor :=
  [null_segment_descriptor g; unused_segment_descriptor g;
   code_segment_descriptor g; data_segment_descriptor g;
   user_code_segment_descriptor g; user_data_segment_descriptor g;
   tss_segment_descriptor g].

(** [sizeof(SegmentDescriptor)]; the offsets of the fields in [struct GDT]. *)
Definition sizeof_SegmentDescriptor : Z := 8.
Definition offsetof_code : Z := 2 * sizeof_SegmentDescriptor.
Definition offsetof_data : Z := 3 * sizeof_SegmentDescriptor.
Definition offsetof_user_code : Z := 4 * sizeof_SegmentDescriptor.
Definition offsetof_user_data : Z := 5 * sizeof_SegmentDescriptor.
Definition offsetof_tss : Z := 6 * sizeof_SegmentDescriptor.
Definition sizeof_GDT : Z := 7 * sizeof_SegmentDescriptor.

(** [((uint8_t* )&gdt->field - (uint8_t* )gdt) >> 3] *)
Definition get_code_selector : Z := Z.shiftr offsetof_code 3.
Definition get_data_selector : Z := Z.shiftr offsetof_data 3.
Definition get_user_code_selector : Z := Z.shiftr offsetof_user_code 3.
Definition get_user_data_selector : Z := Z.shiftr offsetof_user_data 3.
Definition get_tss_selector : Z := Z.shiftr offsetof_tss 3.

Record TaskStateSegment := mkTSS {
  tss_prev_tss : Z; tss_esp0 : Z; tss_ss0 : Z; tss_esp1 : Z; tss_ss1 : Z;
  tss_esp2 : Z; tss_ss2 : Z; tss_cr3 : Z; tss_eip : Z; tss_eflags : Z;
  tss_eax : Z; tss_ecx : Z; tss_edx : Z; tss_ebx : Z; tss_esp : Z; tss_ebp : Z;
  tss_esi : Z; tss_edi : Z; tss_es : Z; tss_cs : Z; tss_ss : Z; tss_ds : Z;
  tss_fs : Z; tss_gs : Z; tss_ldt : Z; tss_trap : Z; tss_iomap_base : Z
}.

(** 25 32-bit fields and two 16-bit ones. *)
Definition sizeof_TSS : Z := 25 * 4 + 2 * 2.

(** The operand of [lgdt]: the six bytes two bytes into [i]. *)
Record gdtr := mkGdtr { gdtr_limit : Z; gdtr_base : Z }.

(** on_init_gdt. [gdt_addr] and [tss_addr] are the addresses the linker gives
    the table and the global [tss]. *)
Definition on_init_gdt (g : GDT) (gdt_addr tss_addr : Z)
    : outcome (GDT * TaskStateSegment * gdtr) :=
  null ← init_segement_descriptor (null_segment_descriptor g) 0 0 0;
  unused ← init_segement_descriptor (unused_segment_descriptor g) 0 0 0;
  code ← init_segement_descriptor (code_segment_descriptor g) 0 (64 * 1024 * 1024) GDT_CODE_PL0;
  data ← init_segement_descriptor (data_segment_descriptor g) 0 (64 * 1024 * 1024) GDT_DATA_PL0;
  ucode ← init_segement_descriptor (user_code_segment_descriptor g) 0 (64 * 1024 * 1024) GDT_CODE_PL3;
  udata ← init_segement_descriptor (user_data_segment_descriptor g) 0 (64 * 1024 * 1024) GDT_DATA_PL3;
  let tss := {|
    tss_prev_tss := 0; tss_esp0 := 0x000A0000; tss_ss0 := get_data_selector;
    tss_esp1 := 0; tss_ss1 := 0; tss_esp2 := 0; tss_ss2 := 0; tss_cr3 := 0;
    tss_eip := 0; tss_eflags := 0; tss_eax := 0; tss_ecx := 0; tss_edx := 0;
    tss_ebx := 0; tss_esp := 0; tss_ebp := 0; tss_esi := 0; tss_edi := 0;
    tss_es := get_user_data_selector; tss_cs := get_user_code_selector;
    tss_ss := get_user_data_selector; tss_ds := get_user_data_selector;
    tss_fs := get_user_data_selector; tss_gs := get_user_data_selector;
    tss_ldt := 0; tss_trap := 0; tss_iomap_base := 0 |} in
  tssd ← init_segement_descriptor (tss_segment_descriptor g) tss_addr (sizeof_TSS - 1) GDT_TSS;
  let i0 := u32 (Z.shiftl sizeof_GDT 16) in
  mret (mkGDT null unused code data ucode udata tssd, tss,
        {| gdtr_limit := Z.shiftr i0 16; gdtr_base := gdt_addr |}).

(** What the processor sees in a descriptor: the limit to which the encoding
    rounds a requested limit. *)
Definition granular_limit (limit : Z) : Z :=
  if decide (limit < 2 ^ 20) then limit
  else if decide (limit mod 4096 = 4095) then limit
  else limit / 4096 * 4096 - 1.

(** ** Lemmas *)

(** The eight bytes the code leaves, from a limit already in pages or bytes. *)
Definition descriptor_bytes (base lim flags type : Z) : list Z :=
  [lim mod 256; (lim / 256) mod 256; base mod 256; (base / 256) mod 256;
   (base / 65536) mod 256; type mod 256; flags + (lim / 65536) mod 16;
   (base / 16777216) mod 256].

Section bytes.
Lemma land_0xff x : Z.land x 0xff = x mod 256.
Proof. exact (land_mask x 8 ltac:(lia)). Qed.

Lemma land_0xf x : Z.land x 0xf = x mod 16.
Proof. exact (land_mask x 4 ltac:(lia)). Qed.

Lemma land_0xfff x : Z.land x 0xfff = x mod 4096.
Proof. exact (land_mask x 12 ltac:(lia)). Qed.

Lemma land_0xC0 x : Z.land x 0xC0 = (x / 64) mod 4 * 64.
Proof. exact (land_mask_high x 6 2 ltac:(lia) ltac:(lia)). Qed.

Lemma shiftr_div x n : 0 <= n -> Z.shiftr x n = x / 2 ^ n.
Proof. intros. by apply Z.shiftr_div_pow2. Qed.

Lemma lor_flags (f n : Z) : f = 0x40 \/ f = 0xC0 -> 0 <= n < 16 -> Z.lor f n = f + n.
Proof.
  intros [-> | ->] Hn; [exact (lor_high_low 1 n 6 ltac:(lia) ltac:(lia))
                      | exact (lor_high_low 3 n 6 ltac:(lia) ltac:(lia))].
Qed.
End bytes.

Section descriptors.
Lemma init_descriptor_bytes target base limit type :
  length target = 8%nat ->
  init_segement_descriptor target base limit type =
  Ret (descriptor_bytes base
         (if decide (limit < 1048576) then limit
          else if decide (limit mod 4096 <> 4095) then limit / 4096 - 1 else limit / 4096)
         (if decide (limit < 1048576) then 0x40 else 0xC0) type).
Proof.
  intros Hl. do 8 (destruct target as [|? target]; [done|]).
  destruct target; [|done]. clear Hl. unfold init_segement_descriptor.
  assert (Hstep : forall lim flags, flags = 0x40 \/ flags = 0xC0 ->
    u8 (Z.lor flags (Z.land (Z.shiftr lim 16) 0xf)) = flags + (lim / 65536) mod 16).
  { intros lim flags Hf. rewrite land_0xf, shiftr_div by lia.
    pose proof (Z.mod_pos_bound (lim / 65536) 16 ltac:(lia)).
    rewrite lor_flags by done. apply u8_small. unfold is_u8. lia. }
  assert (Hmod : forall x, u8 (Z.land x 0xff) = x mod 256).
  { intros x. rewrite land_0xff. apply u8_small. apply u8_range. }
  rewrite land_0xfff. case_decide; [|case_decide];
    cbn [mret outcome_mret mbind outcome_mbind]; array_steps; unfold descriptor_bytes;
    rewrite !Hmod, Hstep, !shiftr_div by auto with lia; done.
Qed.

Lemma get_base_bytes base lim flags type : is_u32 base ->
  get_base (descriptor_bytes base lim flags type) = Ret base.
Proof.
  intros Hb. unfold is_u32 in Hb. unfold get_base, descriptor_bytes.
  array_steps. unfold mret, outcome_mret. f_equal.
  rewrite !Z.shiftl_mul_pow2 by lia. unfold u32. zdm.
Qed.

Lemma get_limit_bytes base lim flags type : flags = 0x40 \/ flags = 0xC0 ->
  0 <= lim < 1048576 ->
  get_limit (descriptor_bytes base lim flags type) =
  Ret (if decide (flags = 0xC0) then lim * 4096 + 4095 else lim).
Proof.
  intros Hf Hlim. unfold get_limit, descriptor_bytes.
  array_steps.
  rewrite land_0xf, land_0xC0.
  assert (E : u32 (u32 (Z.shiftl (u32 (u32 (Z.shiftl ((flags + (lim / 65536) mod 16) mod 16) 8)
           + (lim / 256) mod 256)) 8) + lim mod 256) = lim).
  { rewrite !Z.shiftl_mul_pow2 by lia. unfold u32. destruct Hf as [-> | ->]; zdm. }
  rewrite E. unfold mret, outcome_mret. f_equal.
  rewrite Z.shiftl_mul_pow2, u32_small by (unfold is_u32; lia).
  destruct Hf as [-> | ->]; do 2 case_decide; try zdm; try done.
  exact (lor_high_low lim 4095 12 ltac:(lia) ltac:(lia)).
Qed.
End descriptors.

(** ** Properties *)

(** C3. Descriptor round trip: for every base, limit and type, building a
    descriptor in place over any eight bytes succeeds; reading it back gives
    the base exactly, the limit rounded as [granular_limit] says, and the type
    in byte 5. *)
Theorem descriptor_roundtrip target base limit type :
  length target = 8%nat -> is_u32 base -> is_u32 limit -> is_u8 type ->
  exists d, init_segement_descriptor target base limit type = Ret d /\
    length d = 8%nat /\ Forall is_u8 d /\
    get_base d = Ret base /\ get_limit d = Ret (granular_limit limit) /\
    zget d 5 = Some type.
Proof.
  intros Hl Hb Hlim Ht. eexists. split; [by apply init_descriptor_bytes|].
  unfold is_u32, is_u8 in *. split; [done|]. split; [|split; [by apply get_base_bytes|split]].
  - unfold descriptor_bytes, is_u8. case_decide;
      repeat apply Forall_cons_2; try apply Forall_nil_2; zdm.
  - unfold granular_limit.
    change (2 ^ 20) with 1048576.
    rewrite get_limit_bytes; repeat case_decide; try lia; auto; try zdm; f_equal; zdm.
  - unfold descriptor_bytes. array_steps. f_equal. by apply Z.mod_small.
Qed.

Lemma descriptor_roundtrip_witness :
  length (replicate 8 0) = 8%nat /\ is_u32 0x100000 /\ is_u32 67108864 /\ is_u8 GDT_CODE_PL3 /\
  exists d, init_segement_descriptor (replicate 8 0) 0x100000 67108864 GDT_CODE_PL3 = Ret d /\
    length d = 8%nat /\ Forall is_u8 d /\
    get_base d = Ret 0x100000 /\ get_limit d = Ret (granular_limit 67108864) /\
    zget d 5 = Some GDT_CODE_PL3.
Proof.
  split; [lit|]. split; [lit|]. split; [lit|]. split; [lit|].
  apply descriptor_roundtrip; lit.
Defined.

Definition gdt_wf (g : GDT) : Prop := Forall (fun d => length d = 8%nat) (gdt_table g).

(** The privilege level a descriptor type byte encodes (bits 5-6). *)
Definition descriptor_dpl (type : Z) : Z := Z.land (Z.shiftr type 5) 3.

(** What entry [i] of an initialised table must be. *)
Definition segment_at (g : GDT) (i base limit type : Z) : Prop :=
  exists d, zget (gdt_table g) i = Some d /\ get_base d = Ret base /\
    get_limit d = Ret limit /\ zget d 5 = Some type.

(** [on_init_gdt] succeeds on every table, and afterwards each
    [get_*_selector] is the index of the descriptor it is named after: the two
    kernel segments at DPL 0 and the two user segments at DPL 3, all based at 0
    with the 64 MiB request giving limit 0x3ffffff, and the TSS descriptor based
    at the TSS with its exact limit; the [lgdt] operand describes the seven
    descriptors. *)
Theorem on_init_gdt_selectors g gdt_addr tss_addr :
  gdt_wf g -> is_u32 tss_addr ->
  exists g' tss, on_init_gdt g gdt_addr tss_addr =
      Ret (g', tss, {| gdtr_limit := 8 * 7; gdtr_base := gdt_addr |}) /\
    gdt_wf g' /\
    segment_at g' get_code_selector 0 0x3ffffff GDT_CODE_PL0 /\
    segment_at g' get_data_selector 0 0x3ffffff GDT_DATA_PL0 /\
    segment_at g' get_user_code_selector 0 0x3ffffff GDT_CODE_PL3 /\
    segment_at g' get_user_data_selector 0 0x3ffffff GDT_DATA_PL3 /\
    segment_at g' get_tss_selector tss_addr (sizeof_TSS - 1) GDT_TSS /\
    descriptor_dpl GDT_CODE_PL0 = 0 /\ descriptor_dpl GDT_DATA_PL0 = 0 /\
    descriptor_dpl GDT_CODE_PL3 = 3 /\ descriptor_dpl GDT_DATA_PL3 = 3.
Proof.
  intros Hg Ht. unfold gdt_wf, gdt_table in Hg. rewrite !Forall_cons in Hg.
  destruct Hg as (? & ? & ? & ? & ? & ? & ? & _). unfold on_init_gdt.
  rewrite !init_descriptor_bytes by done. do 2 eexists. split; [reflexivity|].
  split; [by repeat constructor|].
  assert (Hseg : forall g i d base limit type lim flags,
    zget (gdt_table g) i = Some d -> d = descriptor_bytes base lim flags type ->
    is_u32 base -> is_u8 type -> flags = 0x40 \/ flags = 0xC0 -> 0 <= lim < 1048576 ->
    limit = (if decide (flags = 0xC0) then lim * 4096 + 4095 else lim) ->
    segment_at g i base limit type).
  { intros g0 i d base limit type lim flags Hd -> Hb Hty Hf Hl ->. exists (descriptor_bytes base lim flags type).
    split; [done|]. split; [by apply get_base_bytes|]. split; [by apply get_limit_bytes|].
    unfold descriptor_bytes. array_steps. f_equal. by apply Z.mod_small. }
  repeat split;
    try (eapply Hseg; [reflexivity|reflexivity|try done..]; auto; lit).
Qed.

Definition zero_gdt : GDT :=
  let z := replicate 8 0 in mkGDT z z z z z z z.

Lemma on_init_gdt_selectors_witness :
  gdt_wf zero_gdt /\ is_u32 0x120000 /\
  exists g' tss, on_init_gdt zero_gdt 0x110000 0x120000 =
      Ret (g', tss, {| gdtr_limit := 8 * 7; gdtr_base := 0x110000 |}) /\
    segment_at g' get_tss_selector 0x120000 (sizeof_TSS - 1) GDT_TSS.
Proof.
  assert (Hg : gdt_wf zero_gdt) by (repeat constructor).
  assert (Ht : is_u32 0x120000) by (vm_compute; intuition congruence).
  split; [done|]. split; [done|].
  destruct (on_init_gdt_selectors zero_gdt 0x110000 0x120000 Hg Ht)
    as (g' & tss & H & _ & _ & _ & _ & _ & Hs & _).
  exists g', tss. split; [exact H|exact Hs].
Defined.

(** The TSS stores the bare indices, not selectors: [ss0] is 3, whose index
    field (bits 3-15) is 0, the null descriptor. *)
Lemma tss_ss0_is_null_selector g gdt_addr tss_addr g' tss r :
  on_init_gdt g gdt_addr tss_addr = Ret (g', tss, r) -> Z.shiftr (tss_ss0 tss) 3 = 0.
Proof.
  unfold on_init_gdt. intros H. do 7 bind_inv H. injection H as <- <- <-. reflexivity.
Qed.
