(* ===== verification/Malloc.v ===== *)
(** * Kernel heap (src/kernel/memory/malloc.c, include/kernel/memory/malloc.h)

    The heap is the map from header addresses to [MemoryChunk] headers, as
    the code writes them. The free large chunks are the doubly linked list
    from [first]; each size class has a singly linked list of free small
    chunks. Each lock is a word that [acquire_lock] spins on: on one processor
    a lock found taken is never released, so that call [spin]s.

    The bound on each list walk is one more than the number of headers in the
    heap: a walk that is longer has met a header twice and never ends.
    [kernel_printf] lines only log and are left out. *)
From S2P Require Import Prelude Chain.

Definition MIN_ALLOC_SIZE : Z := 16.
Definition NUM_SIZE_CLASSES : Z := 7.
Definition size_classes : list Z := [16; 32; 64; 128; 256; 512; 1024].
(** Five 4-byte aligned fields. *)
Definition sizeof_MemoryChunk : Z := 20.

Record MemoryChunk := mkChunk {
  ck_next : Z; ck_prev : Z; ck_allocated : Z; ck_size : Z; ck_size_class : Z
}.

Record MemoryManager := mkManager {
  first : Z; free_lists : list Z; large_lock : Z; class_locks : list Z
}.

(** The manager [activate_memory_manager] points to (when [active] is true) and
    the headers in memory. *)
Record mstate := mkMstate {
  active : bool; manager : MemoryManager; chunks : gmap Z MemoryChunk
}.

Abbreviation M := (cmd mstate).

(** Field updates. *)
Definition set_next v c := mkChunk v (ck_prev c) (ck_allocated c) (ck_size c) (ck_size_class c).
Definition set_prev v c := mkChunk (ck_next c) v (ck_allocated c) (ck_size c) (ck_size_class c).
Definition set_allocated v c := mkChunk (ck_next c) (ck_prev c) (u8 v) (ck_size c) (ck_size_class c).
Definition set_size v c := mkChunk (ck_next c) (ck_prev c) (ck_allocated c) (u32 v) (ck_size_class c).
Definition set_size_class v c := mkChunk (ck_next c) (ck_prev c) (ck_allocated c) (ck_size c) (u8 v).
Definition zero_chunk : MemoryChunk := mkChunk 0 0 0 0 0.

Definition with_manager (f : MemoryManager -> MemoryManager) (s : mstate) : mstate :=
  mkMstate (active s) (f (manager s)) (chunks s).
Definition with_chunks (f : gmap Z MemoryChunk -> gmap Z MemoryChunk) (s : mstate) : mstate :=
  mkMstate (active s) (manager s) (f (chunks s)).

Definition set_first v m := mkManager v (free_lists m) (large_lock m) (class_locks m).
Definition set_free_lists v m := mkManager (first m) v (large_lock m) (class_locks m).
Definition set_large_lock v m := mkManager (first m) (free_lists m) v (class_locks m).
Definition set_class_locks v m := mkManager (first m) (free_lists m) (large_lock m) v.

(** Memory accesses. Reading or updating a field needs a header there; the
    stores that start a new header ([wr_header]) do not. *)
Definition rd (a : Z) : M MemoryChunk :=
  h ← gets chunks; lift (deref (h !! a)).
Definition wr (a : Z) (f : MemoryChunk -> MemoryChunk) : M unit :=
  c ← rd a; modify (with_chunks (insert a (f c))).
Definition wr_header (a : Z) (f : MemoryChunk -> MemoryChunk) : M unit :=
  h ← gets chunks;
  modify (with_chunks (insert a (f (default zero_chunk (h !! a))))).

Definition get_first : M Z := gets (fun s => first (manager s)).
Definition put_first (v : Z) : M unit := modify (with_manager (set_first v)).
Definition get_free_list (i : Z) : M Z :=
  l ← gets (fun s => free_lists (manager s)); lift (deref (zget l i)).
Definition put_free_list (i v : Z) : M unit :=
  l ← gets (fun s => free_lists (manager s));
  l' ← lift (deref (zset l i v)); modify (with_manager (set_free_lists l')).

(** The walk bound. *)
Definition walk_fuel : M nat := gets (fun s => S (size (chunks s))).

(** acquire_lock / release_lock on the large lock and on a class lock. *)
Definition acquire_large : M unit :=
  l ← gets (fun s => large_lock (manager s));
  if decide (l = 0) then modify (with_manager (set_large_lock 1)) else spin.
Definition release_large : M unit := modify (with_manager (set_large_lock 0)).
Definition acquire_class (i : Z) : M unit :=
  ls ← gets (fun s => class_locks (manager s));
  l ← lift (deref (zget ls i));
  if decide (l = 0) then
    ls' ← lift (deref (zset ls i 1)); modify (with_manager (set_class_locks ls'))
  else spin.
Definition release_class (i : Z) : M unit :=
  ls ← gets (fun s => class_locks (manager s));
  ls' ← lift (deref (zset ls i 0)); modify (with_manager (set_class_locks ls')).

(** for (size_t i = 0; i < NUM_SIZE_CLASSES; i++) if (size <= size_classes[i]) return i; *)
Fixpoint size_class_loop (size i : Z) (classes : list Z) : Z :=
  match classes with
  | [] => NUM_SIZE_CLASSES
  | c :: classes' => if decide (size <= c) then i else size_class_loop size (i + 1) classes'
  end.
Definition get_size_class_index (size : Z) : Z := size_class_loop size 0 size_classes.

(** The best-fit scan of the large list. *)
Fixpoint best_fit_loop (fuel : nat) (size best_fit current : Z) : M Z :=
  match fuel with
  | O => spin
  | S fuel' =>
      if decide (current = 0) then mret best_fit else
      ck ← rd current;
      best_fit ←
        (if decide (ck_allocated ck = 0 /\ size <= ck_size ck) then
           if decide (best_fit = 0) then mret current else
           bk ← rd best_fit;
           if decide (ck_size ck < ck_size bk) then mret current else mret best_fit
         else mret best_fit);
      best_fit_loop fuel' size best_fit (ck_next ck)
  end.

(** Remove [best_fit] from the doubly linked list. *)
Definition unlink_chunk (best_fit : Z) : M unit :=
  bf ← rd best_fit;
  (if decide (ck_prev bf <> 0) then wr (ck_prev bf) (set_next (ck_next bf))
   else put_first (ck_next bf));;
  bf ← rd best_fit;
  (if decide (ck_next bf <> 0) then wr (ck_next bf) (set_prev (ck_prev bf)) else mret tt).

(** Put [c] at the front of the large list. *)
Definition push_large (c : Z) : M unit :=
  wr c (set_prev 0);;
  f ← get_first;
  wr c (set_next f);;
  (if decide (f <> 0) then wr f (set_prev c) else mret tt);;
  put_first c.

(** Split off and list the tail of [best_fit] when it can hold a chunk. *)
Definition split_chunk (best_fit size : Z) : M unit :=
  bf ← rd best_fit;
  if decide (u32 (size + sizeof_MemoryChunk + MIN_ALLOC_SIZE) <= ck_size bf) then
    let temp := u32 (best_fit + sizeof_MemoryChunk + size) in
    wr_header temp (set_allocated 0);;
    wr temp (set_size (ck_size bf - size - sizeof_MemoryChunk));;
    wr temp (set_size_class NUM_SIZE_CLASSES);;
    push_large temp;;
    wr best_fit (set_size size)
  else mret tt.

(** allocate_from_size_class, the large-chunk branch. *)
Definition allocate_large (size : Z) : M Z :=
  acquire_large;;
  current ← get_first;
  fuel ← walk_fuel;
  best_fit ← best_fit_loop fuel size 0 current;
  if decide (best_fit = 0) then release_large;; mret 0 else
  unlink_chunk best_fit;;
  split_chunk best_fit size;;
  wr best_fit (set_allocated 1);;
  wr best_fit (set_size_class NUM_SIZE_CLASSES);;
  wr best_fit (set_prev 0);;
  wr best_fit (set_next 0);;
  release_large;;
  mret (u32 (best_fit + sizeof_MemoryChunk)).

(** refill_size_class: the first-fit scan for a chunk of at least [total_size],
    remembering the predecessor. *)
Fixpoint refill_scan (fuel : nat) (total_size prev_chunk chunk : Z) : M (Z * Z) :=
  match fuel with
  | O => spin
  | S fuel' =>
      if decide (chunk = 0) then mret (0, prev_chunk) else
      ck ← rd chunk;
      if decide (ck_allocated ck = 0 /\ total_size <= ck_size ck) then mret (chunk, prev_chunk)
      else refill_scan fuel' total_size chunk (ck_next ck)
  end.

(** ... and the loop that carves [n] small chunks at [current_pos]. *)
Fixpoint refill_carve (n : nat) (block_size class_idx current_pos : Z) : M unit :=
  match n with
  | O => mret tt
  | S n' =>
      let new_chunk := current_pos in
      wr_header new_chunk (set_size block_size);;
      wr new_chunk (set_allocated 0);;
      wr new_chunk (set_size_class class_idx);;
      wr new_chunk (set_prev 0);;
      head ← get_free_list class_idx;
      wr new_chunk (set_next head);;
      (if decide (head <> 0) then wr head (set_prev new_chunk) else mret tt);;
      put_free_list class_idx new_chunk;;
      refill_carve n' block_size class_idx (u32 (current_pos + (sizeof_MemoryChunk + block_size)))
  end.

Definition refill_total_size : Z := 4 * 1024.

Definition refill_size_class (class_idx : Z) : M unit :=
  block_size ← lift (deref (zget size_classes class_idx));
  let total_size := refill_total_size in
  chunk ← get_first;
  fuel ← walk_fuel;
  '(big_chunk, prev_chunk) ← refill_scan fuel total_size 0 chunk;
  if decide (big_chunk = 0) then mret tt else
  bk ← rd big_chunk;
  (if decide (prev_chunk <> 0) then
     wr prev_chunk (set_next (ck_next bk));;
     (if decide (ck_next bk <> 0) then wr (ck_next bk) (set_prev prev_chunk) else mret tt)
   else
     put_first (ck_next bk);;
     (if decide (ck_next bk <> 0) then wr (ck_next bk) (set_prev 0) else mret tt));;
  let chunk_count := total_size / (block_size + sizeof_MemoryChunk) in
  let chunk_count := if decide (chunk_count = 0) then 1 else chunk_count in
  refill_carve (Z.to_nat chunk_count) block_size class_idx big_chunk;;
  bk ← rd big_chunk;
  let remaining_size := u32 (ck_size bk - total_size) in
  if decide (sizeof_MemoryChunk + MIN_ALLOC_SIZE < remaining_size) then
    let remaining_chunk := u32 (big_chunk + total_size) in
    wr_header remaining_chunk (set_size (remaining_size - sizeof_MemoryChunk));;
    wr remaining_chunk (set_allocated 0);;
    wr remaining_chunk (set_size_class NUM_SIZE_CLASSES);;
    push_large remaining_chunk
  else mret tt.

(** allocate_from_size_class, the small branch. *)
Definition allocate_small (class_idx : Z) : M Z :=
  acquire_class class_idx;;
  head ← get_free_list class_idx;
  ok ← (if decide (head = 0) then
          release_class class_idx;;
          acquire_large;;
          refill_size_class class_idx;;
          release_large;;
          acquire_class class_idx;;
          head ← get_free_list class_idx;
          if decide (head = 0) then release_class class_idx;; mret false
          else mret true
        else mret true);
  if (ok : bool) then
    chunk ← get_free_list class_idx;
    ck ← rd chunk;
    put_free_list class_idx (ck_next ck);;
    wr chunk (set_allocated 1);;
    release_class class_idx;;
    mret (u32 (chunk + sizeof_MemoryChunk))
  else mret 0.

Definition allocate_from_size_class (size class_idx : Z) : M Z :=
  if decide (NUM_SIZE_CLASSES <= class_idx) then allocate_large size
  else allocate_small class_idx.

(** on_init_memory_manager *)
Definition on_init_memory_manager (start size : Z) : M unit :=
  modify (fun s => mkMstate true (manager s) (chunks s));;
  modify (with_manager (set_free_lists (replicate 7 0)));;
  modify (with_manager (set_class_locks (replicate 7 0)));;
  modify (with_manager (set_large_lock 0));;
  if decide (size < sizeof_MemoryChunk) then put_first 0
  else
    put_first start;;
    wr_header start (set_allocated 0);;
    wr start (set_prev 0);;
    wr start (set_next 0);;
    wr start (set_size (size - sizeof_MemoryChunk));;
    wr start (set_size_class NUM_SIZE_CLASSES).

(** print_memory_status walks every list under its lock; the numbers it prints
    are its result: (large chunks, free bytes in them) and the class counts. *)
Fixpoint status_large (fuel : nat) (chunk large_count large_free : Z) : M (Z * Z) :=
  match fuel with
  | O => spin
  | S fuel' =>
      if decide (chunk = 0) then mret (large_count, large_free) else
      ck ← rd chunk;
      status_large fuel' (ck_next ck) (large_count + 1)
        (if decide (ck_allocated ck = 0) then u32 (large_free + ck_size ck) else large_free)
  end.

Fixpoint status_count (fuel : nat) (chunk count : Z) : M Z :=
  match fuel with
  | O => spin
  | S fuel' =>
      if decide (chunk = 0) then mret count else
      ck ← rd chunk; status_count fuel' (ck_next ck) (count + 1)
  end.

Fixpoint status_classes (n : nat) (i : Z) : M (list Z) :=
  match n with
  | O => mret []
  | S n' =>
      acquire_class i;;
      head ← get_free_list i;
      fuel ← walk_fuel;
      count ← status_count fuel head 0;
      release_class i;;
      counts ← status_classes n' (i + 1);
      mret (count :: counts)
  end.

Definition print_memory_status : M (option ((Z * Z) * list Z)) :=
  a ← gets active;
  if (a : bool) then
    acquire_large;;
    chunk ← get_first;
    fuel ← walk_fuel;
    large ← status_large fuel chunk 0 0;
    release_large;;
    counts ← status_classes 7 0;
    mret (Some (large, counts))
  else mret None.

(** (size + MIN_ALLOC_SIZE - 1) & ~(MIN_ALLOC_SIZE - 1) *)
Definition malloc_round (size : Z) : Z :=
  Z.land (u32 (u32 (size + MIN_ALLOC_SIZE) - 1)) (u32 (Z.lnot (MIN_ALLOC_SIZE - 1))).

(** malloc *)
Definition malloc (size : Z) : M Z :=
  a ← gets active;
  if (a : bool) then
    let size := malloc_round size in
    let class_idx := get_size_class_index size in
    result ← allocate_from_size_class size class_idx;
    (if decide (result = 0) then print_memory_status;; mret tt else mret tt);;
    mret result
  else mret 0.

(** free, the two coalescing loops. *)
Fixpoint coalesce_prev (fuel : nat) (chunk : Z) : M Z :=
  match fuel with
  | O => spin
  | S fuel' =>
      ck ← rd chunk;
      if decide (ck_prev ck = 0) then mret chunk else
      pk ← rd (ck_prev ck);
      if decide (ck_allocated pk <> 0) then mret chunk else
      let prev := ck_prev ck in
      wr prev (set_next (ck_next ck));;
      ck ← rd chunk;
      wr prev (fun pk => set_size (ck_size pk + u32 (ck_size ck + sizeof_MemoryChunk)) pk);;
      ck ← rd chunk;
      (if decide (ck_next ck <> 0) then wr (ck_next ck) (set_prev prev) else mret tt);;
      coalesce_prev fuel' prev
  end.

Fixpoint coalesce_next (fuel : nat) (chunk : Z) : M unit :=
  match fuel with
  | O => spin
  | S fuel' =>
      ck ← rd chunk;
      if decide (ck_next ck = 0) then mret tt else
      nk ← rd (ck_next ck);
      if decide (ck_allocated nk <> 0) then mret tt else
      let next := ck_next ck in
      wr chunk (set_next (ck_next nk));;
      nk ← rd next;
      wr chunk (fun ck => set_size (ck_size ck + u32 (ck_size nk + sizeof_MemoryChunk)) ck);;
      nk ← rd next;
      (if decide (ck_next nk <> 0) then wr (ck_next nk) (set_prev chunk) else mret tt);;
      coalesce_next fuel' chunk
  end.

Definition free_small (chunk size_class : Z) : M unit :=
  acquire_class size_class;;
  wr chunk (set_allocated 0);;
  head ← get_free_list size_class;
  wr chunk (set_next head);;
  ck ← rd chunk;
  (if decide (ck_next ck <> 0) then wr (ck_next ck) (set_prev chunk) else mret tt);;
  put_free_list size_class chunk;;
  release_class size_class.

Definition free_large (chunk : Z) : M unit :=
  acquire_large;;
  wr chunk (set_allocated 0);;
  fuel ← walk_fuel;
  chunk ← coalesce_prev fuel chunk;
  fuel ← walk_fuel;
  coalesce_next fuel chunk;;
  release_large.

Definition free (ptr : Z) : M unit :=
  a ← gets active;
  if decide (a = false \/ ptr = 0) then mret tt else
  let chunk := u32 (ptr - sizeof_MemoryChunk) in
  ck ← rd chunk;
  if decide (ck_size_class ck < NUM_SIZE_CLASSES) then free_small chunk (ck_size_class ck)
  else free_large chunk.

(** ** Representation *)

Definition next_of (h : gmap Z MemoryChunk) (a : Z) : option Z := ck_next <$> h !! a.

(** The doubly linked list [l] starting at [p], whose first element's [prev]
    is [pv]. *)
Fixpoint dll (h : gmap Z MemoryChunk) (p pv : Z) (l : list Z) : Prop :=
  match l with
  | [] => p = 0
  | a :: l' => p = a /\ a <> 0 /\ exists c, h !! a = Some c /\ ck_prev c = pv /\
                 dll h (ck_next c) a l'
  end.

(** What a header says besides its links. *)
Definition ck_data (c : MemoryChunk) : Z * Z * Z := (ck_allocated c, ck_size c, ck_size_class c).
Definition same_data (h h' : gmap Z MemoryChunk) : Prop :=
  forall a, ck_data <$> h !! a = ck_data <$> h' !! a.

Section dll.
Implicit Types h : gmap Z MemoryChunk.
Implicit Types l : list Z.

Lemma dll_chain h p pv l : dll h p pv l -> chain (next_of h) p l.
Proof.
  revert p pv. induction l as [|a l IH]; intros p pv; [done|].
  intros (-> & ? & c & Hc & _ & Hl). apply (chain_cons_1 _ _ (ck_next c)); [done| |by eapply IH].
  unfold next_of. by rewrite Hc.
Qed.

Lemma dll_NoDup h p pv l : dll h p pv l -> NoDup l.
Proof. intros H%dll_chain. by eapply chain_NoDup. Qed.

Lemma dll_lookup h p pv l a : dll h p pv l -> a ∈ l -> a <> 0 /\ exists c, h !! a = Some c.
Proof.
  revert p pv. induction l as [|b l IH]; intros p pv; [by intros _ ?%elem_of_nil|].
  intros (-> & ? & c & Hc & _ & Hl) [->|Hin]%elem_of_cons; eauto.
Qed.

Lemma dll_ext h h' p pv l : (forall a, a ∈ l -> h' !! a = h !! a) ->
  dll h p pv l -> dll h' p pv l.
Proof.
  revert p pv. induction l as [|a l IH]; intros p pv Hext; [done|].
  intros (-> & ? & c & Hc & ? & Hl). split; [done|]. split; [done|]. exists c.
  rewrite Hext by left. split; [done|]. split; [done|].
  apply IH; [|done]. intros. apply Hext. by right.
Qed.

(** Only the first element's [prev] field changes. *)
Lemma dll_set_prev h p pv pv' l : dll h p pv l ->
  dll (if decide (p = 0) then h else alter (set_prev pv') p h) p pv' l.
Proof.
  destruct l as [|a l].
  { intros ->. by rewrite decide_True. }
  intros H. pose proof (dll_NoDup _ _ _ _ H) as [Hni _]%NoDup_cons.
  destruct H as (-> & ? & c & Hc & _ & Hl).
  rewrite decide_False by done. split; [done|]. split; [done|].
  exists (set_prev pv' c). rewrite lookup_alter_eq, Hc. split; [done|]. split; [done|].
  apply (dll_ext h); [|done]. intros b Hb. apply lookup_alter_ne. by intros ->.
Qed.

Lemma dll_at h p pv l1 a l2 : dll h p pv (l1 ++ a :: l2) ->
  exists c, h !! a = Some c /\ a <> 0 /\ ck_prev c = default pv (last l1) /\
    dll h (ck_next c) a l2.
Proof.
  revert p pv. induction l1 as [|b l1 IH]; intros p pv.
  - intros (-> & ? & c & ? & ? & ?). by exists c.
  - intros (-> & ? & cb & ? & ? & Hl). destruct (IH _ _ Hl) as (c & ? & ? & Hp & ?).
    exists c. rewrite last_cons, Hp. by destruct (last l1).
Qed.

(** Redirecting [b]'s [next] to another well-linked tail. *)
Lemma dll_replace_tail h h' p pv l1 b t t' nx cb :
  dll h p pv (l1 ++ b :: t) -> h !! b = Some cb -> h' !! b = Some (set_next nx cb) ->
  (forall x, x ∈ l1 -> h' !! x = h !! x) -> dll h' nx b t' ->
  dll h' p pv (l1 ++ b :: t').
Proof.
  intros H Hb Hb'. revert p pv H. induction l1 as [|a l1 IH]; intros p pv.
  - intros (-> & ? & c & ? & ? & _) _ Ht. simplify_eq.
    split; [done|]. split; [done|]. by exists (set_next nx cb).
  - intros (-> & ? & c & ? & ? & Hl) Hext Ht. split; [done|]. split; [done|].
    exists c. rewrite Hext by left. split; [done|]. split; [done|].
    apply IH; [done| |done]. intros. apply Hext. by right.
Qed.

Lemma dll_unlink h p l1 a l2 c : dll h p 0 (l1 ++ a :: l2) -> h !! a = Some c ->
  let h1 := if decide (ck_prev c <> 0) then alter (set_next (ck_next c)) (ck_prev c) h else h in
  let h2 := if decide (ck_next c <> 0) then alter (set_prev (ck_prev c)) (ck_next c) h1 else h1 in
  dll h2 (if decide (ck_prev c <> 0) then p else ck_next c) 0 (l1 ++ l2).
Proof.
  intros H Hc h1 h2. pose proof (dll_NoDup _ _ _ _ H) as Hnd.
  destruct (dll_at _ _ _ _ _ _ H) as (c' & Hc' & Ha & Hp & Ht). simplify_eq.
  assert (Hd : forall x, x ∈ l1 -> x ∉ a :: l2) by (apply NoDup_app in Hnd; tauto).
  apply NoDup_app in Hnd as (Hnd1 & _ & [Hal2 _]%NoDup_cons).
  assert (Htail : dll h1 (ck_next c) a l2 -> dll h2 (ck_next c) (ck_prev c) l2).
  { intros Hq. pose proof (dll_set_prev _ _ _ (ck_prev c) _ Hq) as Hs.
    unfold h2. repeat case_decide; try done. }
  assert (Eh2 : h2 = if decide (ck_next c <> 0) then alter (set_prev (ck_prev c)) (ck_next c) h1
                     else h1) by done.
  assert (Eh1 : h1 = if decide (ck_prev c <> 0) then alter (set_next (ck_next c)) (ck_prev c) h
                     else h) by done.
  clearbody h1 h2. destruct l1 as [|b l1' _] using rev_ind.
  { cbn in Hp. rewrite Hp in *. cbn in *. subst h1. by apply Htail. }
  assert (Hpb : ck_prev c = b) by (by rewrite last_snoc in Hp).
  rewrite Hpb in Eh1, Eh2, Htail |- *. rewrite <- app_assoc in H |- *. cbn in H |- *.
  destruct (dll_at _ _ _ _ _ _ H) as (cb & Hcb & Hb & _ & _).
  rewrite decide_True in Eh1 by done. rewrite decide_True by done.
  assert (Hbl2 : b ∉ l2) by (intros ?; apply (Hd b); set_solver).
  assert (Hl1b : forall x, x ∈ l1' -> x <> b).
  { intros x Hx ->. apply NoDup_app in Hnd1 as (_ & Hn & _). apply (Hn _ Hx). by left. }
  assert (Ht2 : dll h1 (ck_next c) a l2).
  { eapply dll_ext; [|done]. intros x Hx. subst h1. apply lookup_alter_ne. by intros ->. }
  assert (Hh2 : forall x, x ∉ l2 -> h2 !! x = h1 !! x).
  { intros x Hx. subst h2. case_decide; [|done]. apply lookup_alter_ne. intros <-.
    destruct l2; [cbn in Ht; congruence|]. destruct Ht as (E & _). apply Hx. rewrite E. by left. }
  eapply dll_replace_tail; [exact H|exact Hcb| | |exact (Htail Ht2)].
  - rewrite Hh2 by done. subst h1. by rewrite lookup_alter_eq, Hcb.
  - intros x Hx. rewrite Hh2 by (intros ?; apply (Hd x); set_solver).
    subst h1. rewrite lookup_alter_ne by (intros <-; by eapply Hl1b). done.
Qed.

Lemma dll_push h p c ck l : dll h p 0 l -> c <> 0 -> c ∉ l -> h !! c = Some ck ->
  let h1 := <[c := mkChunk p 0 (ck_allocated ck) (ck_size ck) (ck_size_class ck)]> h in
  dll (if decide (p <> 0) then alter (set_prev c) p h1 else h1) c 0 (c :: l).
Proof.
  intros H Hc Hni Hck h1.
  assert (Hp : p = c -> False).
  { intros ->. destruct l; [done|]. destruct H as (-> & _). set_solver. }
  assert (H1 : dll h1 p 0 l).
  { eapply dll_ext; [|done]. intros x Hx. apply lookup_insert_ne. by intros ->. }
  apply (dll_set_prev _ _ _ c) in H1.
  split; [done|]. split; [done|].
  exists (mkChunk p 0 (ck_allocated ck) (ck_size ck) (ck_size_class ck)).
  split; [|split; [done|]].
  - destruct (decide (p <> 0)); [rewrite lookup_alter_ne by done|]; apply lookup_insert_eq.
  - cbn. destruct (decide (p = 0));
      [rewrite decide_False by tauto | rewrite decide_True by done]; exact H1.
Qed.
End dll.

(** ** Running the primitives *)
Section run.
Implicit Types s : mstate.
Implicit Types h : gmap Z MemoryChunk.

Lemma run_rd s a c : chunks s !! a = Some c -> rd a s = Ret (s, c).
Proof. intros H. unfold rd, mbind, cmd_mbind, gets, lift. by rewrite H. Qed.

Lemma run_wr s a f c : chunks s !! a = Some c ->
  wr a f s = Ret (with_chunks (alter f a) s, tt).
Proof.
  intros H. unfold wr. rewrite (cmd_bind_eq _ _ _ _ _ (run_rd _ _ _ H)).
  unfold modify, with_chunks. by rewrite (alter_alt_Some _ _ _ _ H).
Qed.

Lemma alter_lookup_some (h : gmap Z MemoryChunk) f a b c : h !! b = Some c ->
  exists c', alter f a h !! b = Some c'.
Proof.
  intros H. destruct (decide (a = b)) as [->|].
  - rewrite lookup_alter_eq, H. by eexists.
  - rewrite lookup_alter_ne by done. by eexists.
Qed.

(** The manager is untouched but for the head of the large list. *)
Definition frame s s' : Prop :=
  active s' = active s /\ manager s' = set_first (first (manager s')) (manager s).

Lemma frame_refl s : frame s s.
Proof. split; [done|]. by destruct s as [? [] ?]. Qed.

Lemma frame_trans s1 s2 s3 : frame s1 s2 -> frame s2 s3 -> frame s1 s3.
Proof. intros [H1 E1] [H2 E2]. split; [congruence|]. rewrite E2, E1. by destruct (manager s1). Qed.

Lemma same_data_refl h : same_data h h.
Proof. by intros a. Qed.

Lemma same_data_trans h1 h2 h3 : same_data h1 h2 -> same_data h2 h3 -> same_data h1 h3.
Proof. intros H1 H2 a. by rewrite H1. Qed.

Lemma same_data_alter h f a : (forall c, ck_data (f c) = ck_data c) -> same_data h (alter f a h).
Proof.
  intros Hf b. rewrite lookup_alter. case_decide; subst; destruct (h !! _); cbn; try done.
  by rewrite Hf.
Qed.

Lemma same_data_Some h h' a c : same_data h h' -> h !! a = Some c ->
  exists c', h' !! a = Some c' /\ ck_data c' = ck_data c.
Proof.
  intros H Ha. specialize (H a). rewrite Ha in H. cbn in H.
  destruct (h' !! a) as [c'|]; [|done]. exists c'. split; [done|]. cbn in H. congruence.
Qed.

Lemma unlink_spec s l1 bf l2 c :
  dll (chunks s) (first (manager s)) 0 (l1 ++ bf :: l2) -> chunks s !! bf = Some c ->
  exists s1, unlink_chunk bf s = Ret (s1, tt) /\ frame s s1 /\
    dll (chunks s1) (first (manager s1)) 0 (l1 ++ l2) /\
    same_data (chunks s) (chunks s1) /\ chunks s1 !! bf = Some c /\
    forall a, a ∉ l1 ++ l2 -> chunks s1 !! a = chunks s !! a.
Proof.
  intros Hl Hc. pose proof (dll_unlink _ _ _ _ _ _ Hl Hc) as Hd. cbn zeta in Hd.
  pose proof (dll_NoDup _ _ _ _ Hl) as Hnd.
  destruct (dll_at _ _ _ _ _ _ Hl) as (c' & Hc' & Hbf & Hp & Ht). simplify_eq.
  apply NoDup_app in Hnd as (_ & Hd1 & [Hbf2 _]%NoDup_cons).
  assert (Hpin : ck_prev c <> 0 -> ck_prev c ∈ l1).
  { rewrite Hp. destruct l1 as [|? ? _] using rev_ind; [done|].
    rewrite last_snoc. cbn. intros _. set_solver. }
  assert (Hnin : ck_next c <> 0 -> ck_next c ∈ l2).
  { intros ?. destruct l2; [done|]. destruct Ht as (-> & _). by left. }
  assert (Hpb : ck_prev c <> bf).
  { intros E. destruct (decide (ck_prev c = 0)); [congruence|].
    apply (Hd1 bf); [rewrite <- E; auto|by left]. }
  set (s1 := mkMstate (active s) (if decide (ck_prev c <> 0) then manager s
               else set_first (ck_next c) (manager s))
               (if decide (ck_prev c <> 0) then alter (set_next (ck_next c)) (ck_prev c) (chunks s)
                else chunks s)).
  assert (Hs1bf : chunks s1 !! bf = Some c).
  { unfold s1. cbn. destruct (decide (ck_prev c <> 0)); [|done]. by rewrite lookup_alter_ne. }
  set (s2 := if decide (ck_next c <> 0) then with_chunks (alter (set_prev (ck_prev c)) (ck_next c)) s1
             else s1).
  assert (Hun : forall a, a ∉ l1 ++ l2 -> chunks s2 !! a = chunks s !! a).
  { intros a Ha. unfold s2. destruct (decide (ck_next c <> 0)); cbn;
      [rewrite lookup_alter_ne by (intros <-; set_solver)|];
      (destruct (decide (ck_prev c <> 0)); [rewrite lookup_alter_ne by (intros <-; set_solver)|]); done. }
  exists s2. split; [|split; [|split; [|split; [|split]]]].
  - unfold unlink_chunk. rewrite (cmd_bind_eq _ _ _ _ _ (run_rd _ _ _ Hc)).
    rewrite (cmd_bind_eq _ _ _ s1 tt).
    2:{ unfold s1. destruct (decide (ck_prev c <> 0)) as [Hne|].
        - destruct (dll_lookup _ _ _ _ (ck_prev c) Hl) as (_ & cp & Hcp); [set_solver|].
          rewrite (run_wr _ _ _ _ Hcp). done.
        - done. }
    rewrite (cmd_bind_eq _ _ _ _ _ (run_rd _ _ _ Hs1bf)). unfold s2.
    destruct (decide (ck_next c <> 0)) as [Hne|]; [|done].
    destruct (dll_lookup _ _ _ _ (ck_next c) Hl) as (_ & cn & Hcn); [set_solver|].
    assert (exists cn', chunks s1 !! ck_next c = Some cn') as [cn' Hcn'].
    { unfold s1. cbn. destruct (decide (ck_prev c <> 0)); [|by eexists].
      by eapply alter_lookup_some. }
    by rewrite (run_wr _ _ _ _ Hcn').
  - unfold frame, s2, s1. repeat destruct (decide _); cbn; split; try done; by destruct (manager s).
  - unfold s2, s1. revert Hd. repeat destruct (decide _); by cbn.
  - unfold s2, s1. repeat destruct (decide _); cbn;
      repeat first [apply same_data_refl
                   |eapply same_data_trans; [|apply same_data_alter; done]].
  - rewrite Hun; [done|]. intros [Hi|Hi]%elem_of_app; [|done]. apply (Hd1 bf Hi). by left.
  - done.
Qed.

Lemma push_spec s l t ck :
  dll (chunks s) (first (manager s)) 0 l -> t <> 0 -> t ∉ l -> chunks s !! t = Some ck ->
  exists s1, push_large t s = Ret (s1, tt) /\ frame s s1 /\
    dll (chunks s1) (first (manager s1)) 0 (t :: l) /\
    same_data (chunks s) (chunks s1) /\
    forall a, a ∉ t :: l -> chunks s1 !! a = chunks s !! a.
Proof.
  intros Hl Ht Hni Hck. set (p := first (manager s)).
  pose proof (dll_push _ _ _ _ _ Hl Ht Hni Hck) as Hd. cbn zeta in Hd. fold p in Hd, Hl.
  set (h1 := alter (set_next p) t (alter (set_prev 0) t (chunks s))).
  assert (Eh1 : h1 = <[t := mkChunk p 0 (ck_allocated ck) (ck_size ck) (ck_size_class ck)]> (chunks s)).
  { unfold h1. rewrite (alter_alt_Some _ _ _ (set_prev 0 ck)) by (by rewrite lookup_alter_eq, Hck).
    rewrite (alter_alt_Some _ _ _ _ Hck). apply insert_insert_eq. }
  assert (Hpin : p <> 0 -> p ∈ l).
  { intros ?. destruct l; [done|]. destruct Hl as (-> & _). by left. }
  set (s1 := mkMstate (active s) (manager s) h1).
  set (s2 := if decide (p <> 0) then with_chunks (alter (set_prev t) p) s1 else s1).
  exists (with_manager (set_first t) s2). split; [|split; [|split; [|split]]].
  - unfold push_large. rewrite (cmd_bind_eq _ _ _ _ _ (run_wr _ _ _ _ Hck)).
    erewrite (cmd_bind_eq get_first) by reflexivity. cbn [manager with_chunks].
    rewrite (cmd_bind_eq _ _ _ s1 tt).
    2:{ erewrite run_wr; [reflexivity|]. cbn. by rewrite lookup_alter_eq, Hck. }
    rewrite (cmd_bind_eq _ _ _ s2 tt); [done|]. fold p. unfold s2.
    destruct (decide (p <> 0)) as [Hne|]; [|done].
    destruct (dll_lookup _ _ _ _ p Hl) as (_ & cp & Hcp); [auto|].
    erewrite run_wr; [reflexivity|]. cbn. unfold h1.
    rewrite !lookup_alter_ne by (intros ->; auto). exact Hcp.
  - unfold frame, s2. destruct (decide (p <> 0)); cbn; split; try done; by destruct (manager s).
  - unfold s2, s1. revert Hd. rewrite <- Eh1. destruct (decide (p <> 0)); by cbn.
  - unfold s2, s1, h1. destruct (decide (p <> 0)); cbn;
      repeat first [apply same_data_refl
                   |eapply same_data_trans; [|apply same_data_alter; done]].
  - intros a [Hat Hal]%not_elem_of_cons. unfold s2.
    destruct (decide (p <> 0)); cbn; [rewrite lookup_alter_ne by (intros <-; auto)|];
      unfold h1; rewrite !lookup_alter_ne by done; done.
Qed.
End run.

(** ** Geometry: where the chunks are *)

Definition chunk_end (a : Z) (c : MemoryChunk) : Z := a + sizeof_MemoryChunk + ck_size c.

Record geometry (lo hi : Z) (h : gmap Z MemoryChunk) : Prop := {
  geo_bounds : 16 <= lo /\ hi < 4294967296;
  geo_in : forall a c, h !! a = Some c -> lo <= a /\ 0 <= ck_size c /\ chunk_end a c <= hi;
  geo_disjoint : forall a b ca cb, h !! a = Some ca -> h !! b = Some cb -> a < b -> chunk_end a ca <= b
}.

Section geometry.
Implicit Types h : gmap Z MemoryChunk.

Lemma same_data_size h h' a c : same_data h h' -> h' !! a = Some c ->
  exists c', h !! a = Some c' /\ ck_size c' = ck_size c.
Proof.
  intros H Ha. specialize (H a). rewrite Ha in H. cbn in H.
  destruct (h !! a) as [c'|]; [|done]. exists c'. split; [done|]. cbn in H. unfold ck_data in H. congruence.
Qed.

Lemma geometry_same lo hi h h' : same_data h h' -> geometry lo hi h -> geometry lo hi h'.
Proof.
  intros Hs [Hb Hin Hd]. constructor; [done| |].
  - intros a c (c' & Hc' & E)%(same_data_size _ _ _ _ Hs). unfold chunk_end.
    rewrite <- E. by apply Hin.
  - intros a b ca cb (ca' & Ha & E)%(same_data_size _ _ _ _ Hs) (cb' & Hb' & _)%(same_data_size _ _ _ _ Hs) ?.
    unfold chunk_end. rewrite <- E. by eapply Hd.
Qed.

(** Cutting the chunk at [a] after [sz] bytes leaves room for a new header. *)
Lemma geometry_cut lo hi h a c sz ct c1 : geometry lo hi h -> h !! a = Some c ->
  0 <= sz -> sz + sizeof_MemoryChunk <= ck_size c ->
  ck_size ct = ck_size c - sz - sizeof_MemoryChunk -> ck_size c1 = sz ->
  let t := a + sizeof_MemoryChunk + sz in
  h !! t = None /\ geometry lo hi (<[a := c1]> (<[t := ct]> h)).
Proof.
  intros [Hb Hin Hd] Ha Hsz Hle Ect Ec1 t. unfold sizeof_MemoryChunk in *.
  assert (Hgap : forall b cb, h !! b = Some cb -> b = a \/ chunk_end b cb <= a \/ chunk_end a c <= b).
  { intros b cb Hcb. destruct (Z.lt_trichotomy a b) as [?|[?|?]]; eauto. }
  assert (Ht : h !! t = None).
  { destruct (h !! t) as [cb|] eqn:E; [|done]. pose proof (Hin _ _ E).
    destruct (Hgap _ _ E) as [?|[?|?]]; unfold chunk_end, sizeof_MemoryChunk, t in *; lia. }
  split; [done|]. pose proof (Hin _ _ Ha).
  assert (Hcases : forall b cb, <[a := c1]> (<[t := ct]> h) !! b = Some cb ->
    (b = a /\ cb = c1) \/ (b = t /\ cb = ct) \/ (b <> a /\ b <> t /\ h !! b = Some cb)).
  { intros b cb. rewrite !lookup_insert.
    destruct (decide (a = b)) as [->|], (decide (t = b)) as [->|]; intros ?; simplify_eq; auto 10. }
  constructor; [done| |].
  - intros b cb [[-> ->]|[[-> ->]|(? & ? & Hcb)]]%Hcases; [| |by apply Hin];
      unfold chunk_end, sizeof_MemoryChunk, t in *; lia.
  - intros b d cb cd Hb' Hd' Hlt.
    apply Hcases in Hb' as [[-> ->]|[[-> ->]|(? & ? & Hcb)]];
    apply Hcases in Hd' as [[-> ->]|[[-> ->]|(? & ? & Hcd)]];
      try (destruct (Hgap _ _ Hcb) as [?|[?|?]]); try (destruct (Hgap _ _ Hcd) as [?|[?|?]]);
      try (pose proof (Hin _ _ Hcb)); try (pose proof (Hin _ _ Hcd));
      unfold chunk_end, sizeof_MemoryChunk, t in *; try lia.
    all: pose proof (Hd _ _ _ _ Hcb Hcd Hlt); unfold chunk_end, sizeof_MemoryChunk in *; lia.
Qed.
End geometry.

(** ** The best-fit scan *)

Definition fits (h : gmap Z MemoryChunk) (size a : Z) : Prop :=
  exists c, h !! a = Some c /\ ck_allocated c = 0 /\ size <= ck_size c.

(** [a] is a best fit among [l]: it fits and nothing in [l] fits more tightly. *)
Definition best_in (h : gmap Z MemoryChunk) (size a : Z) (l : list Z) : Prop :=
  exists c, h !! a = Some c /\ ck_allocated c = 0 /\ size <= ck_size c /\
    forall b cb, b ∈ l -> h !! b = Some cb -> ck_allocated cb = 0 -> size <= ck_size cb ->
      ck_size c <= ck_size cb.

Section best_fit.
Implicit Types h : gmap Z MemoryChunk.

(** What the scan knows after the prefix [seen]. *)
Definition scan_inv h size best seen : Prop :=
  (best = 0 /\ forall b, b ∈ seen -> ~ fits h size b) \/
  (best <> 0 /\ best ∈ seen /\ best_in h size best seen).

Lemma best_in_snoc h size best seen a c ck :
  best_in h size best seen -> h !! best = Some c -> h !! a = Some ck ->
  (ck_allocated ck = 0 -> size <= ck_size ck -> ck_size c <= ck_size ck) ->
  best_in h size best (seen ++ [a]).
Proof.
  intros (c' & Hc' & Hf & Hs & Hall) Hc Hck Hle. assert (c' = c) as -> by congruence.
  exists c. repeat split; try done. intros b cb [Hb | ->%list_elem_of_singleton]%elem_of_app Hcb.
  - by apply (Hall b).
  - assert (cb = ck) as -> by congruence. done.
Qed.

Lemma best_fit_loop_spec size : forall l fuel best cur seen s,
  chain (next_of (chunks s)) cur l -> (length l < fuel)%nat ->
  (forall a, a ∈ seen -> a <> 0) -> scan_inv (chunks s) size best seen ->
  exists r, best_fit_loop fuel size best cur s = Ret (s, r) /\
    scan_inv (chunks s) size r (seen ++ l).
Proof.
  induction l as [|a l IH]; intros fuel best cur seen s Hl Hf Hnz Hinv.
  - apply chain_nil in Hl as ->. destruct fuel; [lia|]. exists best.
    by rewrite app_nil_r.
  - apply chain_cons in Hl as (-> & Ha & q & Hq & Hl). destruct fuel as [|fuel]; [cbn in Hf; lia|].
    unfold next_of in Hq. destruct (chunks s !! a) as [ck|] eqn:Eck; [|done]. cbn in Hq. simplify_eq.
    cbn [best_fit_loop]. rewrite decide_False by done.
    rewrite (cmd_bind_eq _ _ _ _ _ (run_rd _ _ _ Eck)).
    assert (Hstep : exists best', (if decide (ck_allocated ck = 0 /\ size <= ck_size ck) then
         if decide (best = 0) then mret a else
         bk ← rd best; if decide (ck_size ck < ck_size bk) then mret a else mret best
       else mret best) s = Ret (s, best') /\ scan_inv (chunks s) size best' (seen ++ [a])).
    { assert (Hself : ck_allocated ck = 0 /\ size <= ck_size ck -> best_in (chunks s) size a [a]).
      { intros [? ?]. exists ck. repeat split; try done.
        intros b cb ->%list_elem_of_singleton ? _ _. by simplify_eq. }
      destruct (decide (ck_allocated ck = 0 /\ size <= ck_size ck)) as [[Hal Hsz]|Hno].
      - destruct Hinv as [[-> Hno]|(Hb & Hin & c & Hc & Hcf & Hcs & Hmin)].
        + exists a. split; [done|]. right. split; [done|]. split; [set_solver|].
          exists ck. repeat split; try done.
          intros b cb [Hb | ->%list_elem_of_singleton]%elem_of_app Hcb ? ?; [|by simplify_eq].
          destruct (Hno b Hb). by exists cb.
        + rewrite decide_False by done. rewrite (cmd_bind_eq _ _ _ _ _ (run_rd _ _ _ Hc)).
          destruct (decide (ck_size ck < ck_size c)).
          * exists a. split; [done|]. right. split; [done|]. split; [set_solver|].
            exists ck. repeat split; try done.
            intros b cb [Hb' | ->%list_elem_of_singleton]%elem_of_app Hcb ? ?; [|by simplify_eq].
            pose proof (Hmin b cb Hb' Hcb). lia.
          * exists best. split; [done|]. right. split; [done|]. split; [set_solver|].
            eapply best_in_snoc; [by exists c|done..|]. lia.
      - exists best. split; [done|]. destruct Hinv as [[-> Hn]|(Hb & Hin & c & Hc & Hrest)].
        + left. split; [done|]. intros b [?| ->%list_elem_of_singleton]%elem_of_app; [by apply Hn|].
          intros (cb & ? & ? & ?). simplify_eq. tauto.
        + right. split; [done|]. split; [set_solver|].
          eapply best_in_snoc; [by exists c|done..|]. tauto. }
    destruct Hstep as (best' & Hrun & Hinv').
    rewrite (cmd_bind_eq _ _ _ _ _ Hrun).
    destruct (IH fuel best' (ck_next ck) (seen ++ [a]) s) as (r & Hr & Hri); try done.
    + cbn in Hf. lia.
    + intros b [?| ->%list_elem_of_singleton]%elem_of_app; auto.
    + exists r. split; [done|]. by rewrite <- app_assoc in Hri.
Qed.
End best_fit.

(** ** The heap invariant *)

Definition small_lists_ok (s : mstate) : Prop :=
  length (free_lists (manager s)) = 7%nat /\
  forall i p, free_lists (manager s) !! i = Some p ->
    exists l, chain (next_of (chunks s)) p l /\
      forall a, a ∈ l -> exists c, chunks s !! a = Some c /\ ck_allocated c = 0 /\
        ck_size_class c = Z.of_nat i.

Definition large_free (h : gmap Z MemoryChunk) (a : Z) : Prop :=
  exists c, h !! a = Some c /\ ck_allocated c = 0 /\ ck_size_class c = NUM_SIZE_CLASSES.

(** Between calls: every lock is free, the chunks do not overlap, [L] is the
    doubly linked list of the free large chunks, and the class lists hold free
    chunks of their class. *)
Record heap_ok (lo hi : Z) (L : list Z) (s : mstate) : Prop := {
  hk_active : active s = true;
  hk_large_lock : large_lock (manager s) = 0;
  hk_class_locks : class_locks (manager s) = replicate 7 0;
  hk_geometry : geometry lo hi (chunks s);
  hk_dll : dll (chunks s) (first (manager s)) 0 L;
  hk_free : forall a, a ∈ L -> large_free (chunks s) a;
  hk_small : small_lists_ok s
}.

Section heap_ops.
Implicit Types s : mstate.
Implicit Types h : gmap Z MemoryChunk.

Lemma run_wr_bind {A} s a f c (k : unit -> M A) : chunks s !! a = Some c ->
  (wr a f ≫= k) s = k tt (with_chunks (insert a (f c)) s).
Proof.
  intros H. rewrite (cmd_bind_eq _ _ _ _ _ (run_wr _ _ _ _ H)).
  unfold with_chunks. by rewrite (alter_alt_Some _ _ _ _ H).
Qed.

(** Class lists survive any change to headers outside them. *)
Lemma small_lists_frame s s' : small_lists_ok s ->
  free_lists (manager s') = free_lists (manager s) ->
  (forall a c, chunks s !! a = Some c -> ck_allocated c = 0 -> ck_size_class c < NUM_SIZE_CLASSES ->
     chunks s' !! a = Some c) ->
  small_lists_ok s'.
Proof.
  intros [Hlen Hs] E Hk. split; [by rewrite E|]. intros i p Hp. rewrite E in Hp.
  assert (Hi : Z.of_nat i < NUM_SIZE_CLASSES).
  { apply lookup_lt_Some in Hp. rewrite Hlen in Hp. unfold NUM_SIZE_CLASSES. lia. }
  destruct (Hs _ _ Hp) as (l & Hl & Hc). exists l. split.
  - eapply chain_ext; [|exact Hl]. intros a Ha. destruct (Hc _ Ha) as (c & H1 & H2 & H3).
    unfold next_of. rewrite H1, (Hk _ _ H1); [done|done|lia].
  - intros a Ha. destruct (Hc _ Ha) as (c & H1 & H2 & H3). exists c. split; [|done].
    apply Hk; [done..|lia].
Qed.

Lemma large_free_same h h' a : same_data h h' -> large_free h a -> large_free h' a.
Proof.
  intros Hs (c & H1 & H2 & H3). destruct (same_data_Some _ _ _ _ Hs H1) as (c' & ? & E).
  exists c'. split; [done|]. unfold ck_data in E. split; congruence.
Qed.

Lemma split_noroom s bf c size : chunks s !! bf = Some c ->
  0 <= size <= ck_size c -> is_u32 (size + sizeof_MemoryChunk + MIN_ALLOC_SIZE) ->
  ck_size c < size + sizeof_MemoryChunk + MIN_ALLOC_SIZE -> split_chunk bf size s = Ret (s, tt).
Proof.
  intros Hc Hs Hu Hlt. unfold split_chunk. rewrite (cmd_bind_eq _ _ _ _ _ (run_rd _ _ _ Hc)).
  rewrite u32_small, decide_False by (done || lia). done.
Qed.

(** Splitting: the tail becomes the first free large chunk. *)
Lemma split_room lo hi s l bf c size :
  dll (chunks s) (first (manager s)) 0 l -> bf ∉ l -> chunks s !! bf = Some c ->
  geometry lo hi (chunks s) -> 0 <= size ->
  size + sizeof_MemoryChunk + MIN_ALLOC_SIZE <= ck_size c ->
  let t := bf + sizeof_MemoryChunk + size in
  exists s1, split_chunk bf size s = Ret (s1, tt) /\ frame s s1 /\
    dll (chunks s1) (first (manager s1)) 0 (t :: l) /\
    chunks s !! t = None /\ large_free (chunks s1) t /\
    ck_size <$> (chunks s1 !! t) = Some (ck_size c - size - sizeof_MemoryChunk) /\
    geometry lo hi (chunks s1) /\
    chunks s1 !! bf = Some (set_size size c) /\
    forall a, a <> bf -> a <> t -> ck_data <$> chunks s1 !! a = ck_data <$> chunks s !! a /\
      (a ∉ l -> chunks s1 !! a = chunks s !! a).
Proof.
  intros Hl Hbf Hc Hgeo Hsz Hroom t.
  pose proof (geo_bounds _ _ _ Hgeo) as [Hlo Hhi].
  destruct (geo_in _ _ _ Hgeo _ _ Hc) as (Hblo & _ & Hbhi).
  unfold chunk_end, sizeof_MemoryChunk, MIN_ALLOC_SIZE in *.
  set (ct := mkChunk 0 0 0 (ck_size c - size - 20) 7).
  destruct (geometry_cut _ _ _ _ _ size ct (set_size size c) Hgeo Hc) as [Htn Hgeo'];
    [lia|unfold sizeof_MemoryChunk; lia|done|cbn; apply u32_small; unfold is_u32; lia|].
  fold t in Htn, Hgeo'. unfold sizeof_MemoryChunk in Htn, Hgeo'. fold t in Htn, Hgeo'.
  assert (Htl : t ∉ l).
  { intros Hin. destruct (dll_lookup _ _ _ _ _ Hl Hin) as (_ & x & Hx). congruence. }
  assert (Htb : t <> bf) by (unfold t; lia).
  set (s0 := with_chunks (insert t ct) s).
  assert (Hl0 : dll (chunks s0) (first (manager s0)) 0 l).
  { eapply dll_ext; [|exact Hl]. intros a Ha. apply lookup_insert_ne. by intros ->. }
  destruct (push_spec s0 l t ct) as (s1 & Hrun & Hfr & Hl1 & Hsame & Hout);
    [done|unfold t; lia|done|apply lookup_insert_eq|].
  assert (Hb1 : chunks s1 !! bf = Some c).
  { rewrite Hout by (by apply not_elem_of_cons). cbn. by rewrite lookup_insert_ne. }
  exists (with_chunks (insert bf (set_size size c)) s1).
  assert (Ht1 : exists ct', chunks s1 !! t = Some ct' /\ ck_data ct' = ck_data ct).
  { eapply same_data_Some; [exact Hsame|]. apply lookup_insert_eq. }
  destruct Ht1 as (ct' & Ht1 & Ect).
  assert (Ht1' : <[bf:=set_size size c]> (chunks s1) !! t = Some ct') by (by rewrite lookup_insert_ne).
  injection Ect as Ea Es Ecl.
  split; [|split; [|split; [|split; [done|split; [|split; [|split; [|split]]]]]]].
  - unfold split_chunk. rewrite (cmd_bind_eq _ _ _ _ _ (run_rd _ _ _ Hc)).
    rewrite decide_True by (unfold sizeof_MemoryChunk, MIN_ALLOC_SIZE; rewrite u32_small by (unfold is_u32; lia); lia).
    unfold sizeof_MemoryChunk. rewrite (u32_small (bf + 20 + size)) by (unfold is_u32, t in *; lia). fold t.
    cbn zeta. unfold wr_header at 1.
    assert (E : s0 = with_chunks (insert t (set_size_class NUM_SIZE_CLASSES
        (set_size (ck_size c - size - 20) (set_allocated 0 zero_chunk)))) s).
    { unfold s0, ct, set_size_class, set_size, set_allocated. cbn.
      rewrite (u32_small (_ - _)) by (unfold is_u32; lia). done. }
    rewrite (cmd_bind_eq _ _ _ (with_chunks (insert t (set_allocated 0 zero_chunk)) s) tt).
    2:{ unfold mbind, cmd_mbind, gets, modify. by rewrite Htn. }
    erewrite run_wr_bind by apply lookup_insert_eq.
    erewrite run_wr_bind by apply lookup_insert_eq.
    rewrite (cmd_bind_eq _ _ _ s1 tt).
    + rewrite (run_wr _ _ _ _ Hb1). unfold with_chunks. by rewrite (alter_alt_Some _ _ _ _ Hb1).
    + rewrite <- Hrun, E. f_equal. unfold with_chunks. cbn. by rewrite !insert_insert_eq.
  - destruct Hfr as [? Hm]. split; [done|]. exact Hm.
  - eapply dll_ext; [|exact Hl1]. intros a Ha. apply lookup_insert_ne. intros <-.
    apply elem_of_cons in Ha as [Ha|?]; congruence.
  - exists ct'. cbn. rewrite Ea, Ecl. done.
  - cbn. by rewrite Ht1', <- Es.
  - eapply geometry_same; [|exact Hgeo']. intros a. cbn. rewrite !lookup_insert.
    case_decide; [done|]. rewrite <- Hsame. cbn. by rewrite lookup_insert.
  - apply lookup_insert_eq.
  - intros a Hab Hat. cbn. rewrite lookup_insert_ne by done. split.
    + rewrite <- Hsame. cbn. by rewrite lookup_insert_ne.
    + intros Hal. rewrite Hout by (by apply not_elem_of_cons). cbn. by rewrite lookup_insert_ne.
Qed.

Lemma large_locked_ok s : large_lock (manager s) = 0 ->
  acquire_large s = Ret (with_manager (set_large_lock 1) s, tt) /\
  forall s', frame (with_manager (set_large_lock 1) s) s' ->
    exists s'', release_large s' = Ret (s'', tt) /\ chunks s'' = chunks s' /\
      active s'' = active s /\ manager s'' = set_first (first (manager s')) (manager s).
Proof.
  intros H. split.
  - unfold acquire_large, mbind, cmd_mbind, gets. by rewrite H.
  - intros s' [Ha Hm]. eexists. split; [done|]. cbn. rewrite Ha, Hm. cbn.
    destruct (manager s). cbn in *. by subst.
Qed.

(** The scan, run on the locked state. *)
Lemma scan_run lo hi L s sz : heap_ok lo hi L s ->
  let s0 := with_manager (set_large_lock 1) s in
  exists r, best_fit_loop (S (size (chunks s0))) sz 0 (first (manager s0)) s0 = Ret (s0, r) /\
    scan_inv (chunks s) sz r L.
Proof.
  intros [Hact Hlk Hcl Hgeo Hd Hfree Hsm] s0. pose proof (dll_chain _ _ _ _ Hd) as Hch.
  apply (best_fit_loop_spec sz L _ 0 (first (manager s0)) [] s0); [exact Hch| |set_solver|].
  - apply (chain_length_fuel _ _ _ _ Hch).
  - left. split; [done|]. intros b ?%elem_of_nil. done.
Qed.

Lemma mark_allocated {A} s bf c (k : M A) : chunks s !! bf = Some c ->
  (wr bf (set_allocated 1);; wr bf (set_size_class NUM_SIZE_CLASSES);;
   wr bf (set_prev 0);; wr bf (set_next 0);; k) s =
  k (with_chunks (insert bf (mkChunk 0 0 1 (ck_size c) NUM_SIZE_CLASSES)) s).
Proof.
  intros Hc. erewrite run_wr_bind by exact Hc.
  do 3 (erewrite run_wr_bind by apply lookup_insert_eq).
  unfold with_chunks. cbn. by rewrite !insert_insert_eq.
Qed.

(** Rebuilding the invariant after [bf] left the list. *)
Lemma heap_ok_taken lo hi L L' s s2 bf c2 s3 : heap_ok lo hi L s ->
  frame (with_manager (set_large_lock 1) s) s2 ->
  dll (chunks s2) (first (manager s2)) 0 L' -> geometry lo hi (chunks s2) ->
  chunks s2 !! bf = Some c2 -> bf ∉ L' -> bf ∈ L ->
  (forall a, a ∈ L' -> large_free (chunks s2) a) ->
  (forall a c, chunks s !! a = Some c -> a ∉ L -> chunks s2 !! a = Some c) ->
  chunks s3 = <[bf := mkChunk 0 0 1 (ck_size c2) NUM_SIZE_CLASSES]> (chunks s2) ->
  active s3 = active s -> manager s3 = set_first (first (manager s2)) (manager s) ->
  heap_ok lo hi L' s3.
Proof.
  intros [Hact Hlk Hcl Hgeo Hd Hfree Hsm] Hfr Hd2 Hgeo2 Hc2 Hni Hin Hfree2 Hkeep Ec3 Ea3 Em3.
  assert (Hne : forall a, a ∈ L' -> chunks s3 !! a = chunks s2 !! a).
  { intros a Ha. rewrite Ec3. apply lookup_insert_ne. by intros ->. }
  constructor.
  - congruence.
  - rewrite Em3. by destruct (manager s).
  - rewrite Em3. by destruct (manager s).
  - rewrite Ec3. destruct Hgeo2 as [Hb Hi Hdis].
    assert (Hsz : forall a c, chunks s3 !! a = Some c ->
      exists c', chunks s2 !! a = Some c' /\ chunk_end a c' = chunk_end a c).
    { intros a c. rewrite Ec3, lookup_insert. case_decide; intros; simplify_eq; eauto. }
    rewrite <- Ec3. constructor; [done| |].
    + intros a c Ha. destruct (Hsz _ _ Ha) as (c' & Hc' & E). rewrite <- E.
      destruct (Hi _ _ Hc') as (? & ? & ?). unfold chunk_end in *. lia.
    + intros a b ca cb Ha Hb' ?. destruct (Hsz _ _ Ha) as (c' & Hc' & <-).
      destruct (Hsz _ _ Hb') as (cb' & Hcb' & _). by eapply Hdis.
  - rewrite Em3. cbn. eapply dll_ext; [|exact Hd2]. done.
  - intros a Ha. destruct (Hfree2 _ Ha) as (c & ? & ?). exists c. by rewrite Hne.
  - apply (small_lists_frame s); [done|rewrite Em3; by destruct (manager s)|].
    intros a c Ha Hal Hcls. assert (a ∉ L).
    { intros Hi. destruct (Hfree _ Hi) as (c' & ? & ? & ?). simplify_eq. lia. }
    rewrite Ec3, lookup_insert_ne by (intros <-; done). by apply Hkeep.
Qed.
End heap_ops.

(** [allocate_large] is best fit. *)
Lemma allocate_large_best_fit lo hi L s sz : heap_ok lo hi L s -> is_u32 sz ->
  ((forall a, a ∈ L -> ~ fits (chunks s) sz a) /\ allocate_large sz s = Ret (s, 0)) \/
  exists l1 bf l2 c s', L = l1 ++ bf :: l2 /\ chunks s !! bf = Some c /\
    best_in (chunks s) sz bf L /\
    allocate_large sz s = Ret (s', bf + sizeof_MemoryChunk) /\
    let t := bf + sizeof_MemoryChunk + sz in
    let room := sz + sizeof_MemoryChunk + MIN_ALLOC_SIZE <= ck_size c in
    heap_ok lo hi (if decide room then t :: l1 ++ l2 else l1 ++ l2) s' /\
    chunks s' !! bf = Some (mkChunk 0 0 1 (if decide room then sz else ck_size c) NUM_SIZE_CLASSES) /\
    (room -> ck_size <$> (chunks s' !! t) = Some (ck_size c - sz - sizeof_MemoryChunk)) /\
    forall a, a <> bf -> (room -> a <> t) -> ck_data <$> chunks s' !! a = ck_data <$> chunks s !! a /\
      (a ∉ L -> chunks s' !! a = chunks s !! a).
Proof.
  intros Hok [Hs0 Hs1]. pose proof Hok as [Hact Hlk Hcl Hgeo Hd Hfree Hsm].
  destruct (large_locked_ok s Hlk) as [Hacq Hrel].
  destruct (scan_run lo hi L s sz Hok) as (bf & Hrun & Hinv). cbn zeta in Hrun.
  set (s0 := with_manager (set_large_lock 1) s) in *.
  assert (Epre : forall k, (acquire_large;; current ← get_first; fuel ← walk_fuel;
      bf ← best_fit_loop fuel sz 0 current; (k : Z -> M Z) bf) s = k bf s0).
  { intros k. rewrite (cmd_bind_eq _ _ _ _ _ Hacq).
    rewrite (cmd_bind_eq _ _ s0 s0 (first (manager s0))) by done.
    rewrite (cmd_bind_eq _ _ s0 s0 (S (size (chunks s0)))) by done.
    by rewrite (cmd_bind_eq _ _ _ _ _ Hrun). }
  unfold allocate_large. rewrite Epre. destruct Hinv as [[-> Hno]|(Hnz & Hin & Hbest)].
  { left. split; [done|]. rewrite decide_True by done.
    destruct (Hrel s0 (frame_refl _)) as (s'' & Hr & Ec & Ea & Em).
    rewrite (cmd_bind_eq _ _ _ _ _ Hr). unfold mret, cmd_mret. do 2 f_equal.
    destruct s as [? [] ?], s''. cbn in *. by subst. }
  right. apply list_elem_of_split in Hin as (l1 & l2 & EL). rewrite EL in Hd.
  destruct Hbest as (c & Hc & Hcf & Hcs & Hmin).
  exists l1, bf, l2, c. rewrite decide_False by done.
  destruct (unlink_spec s0 l1 bf l2 c Hd Hc) as (s1 & Hun & Hfr1 & Hd1 & Hsame1 & Hbf1 & Hout1).
  rewrite (cmd_bind_eq _ _ _ _ _ Hun).
  assert (Hni : bf ∉ l1 ++ l2).
  { apply dll_NoDup, NoDup_app in Hd as (_ & Hx & [? _]%NoDup_cons).
    intros [Hi|Hi]%elem_of_app; [|done]. apply (Hx _ Hi). by left. }
  assert (Hgeo1 : geometry lo hi (chunks s1)) by (eapply geometry_same; done).
  assert (Hu : is_u32 (sz + sizeof_MemoryChunk + MIN_ALLOC_SIZE)).
  { pose proof (geo_bounds _ _ _ Hgeo). pose proof (geo_in _ _ _ Hgeo _ _ Hc).
    unfold chunk_end, is_u32, sizeof_MemoryChunk, MIN_ALLOC_SIZE in *. lia. }
  assert (Hbu : u32 (bf + sizeof_MemoryChunk) = bf + sizeof_MemoryChunk).
  { pose proof (geo_bounds _ _ _ Hgeo). pose proof (geo_in _ _ _ Hgeo _ _ Hc).
    apply u32_small. unfold chunk_end, is_u32, sizeof_MemoryChunk in *. lia. }
  assert (Hfree1 : forall a, a ∈ l1 ++ l2 -> large_free (chunks s1) a).
  { intros a Ha. eapply large_free_same; [exact Hsame1|]. apply Hfree. rewrite EL. set_solver. }
  assert (HL : forall a, a ∉ L -> a ∉ l1 ++ l2 /\ a <> bf) by (rewrite EL; set_solver).
  destruct (decide (sz + sizeof_MemoryChunk + MIN_ALLOC_SIZE <= ck_size c)) as [Hroom|Hroom].
  - destruct (split_room lo hi s1 _ bf c sz Hd1 Hni Hbf1 Hgeo1 Hs0 Hroom)
      as (s2 & Hsp & Hfr2 & Hd2 & Htn & Htf & Hts & Hgeo2 & Hbf2 & Hout2).
    pose proof (frame_trans _ _ _ Hfr1 Hfr2) as Hfr.
    destruct (Hrel (with_chunks (insert bf (mkChunk 0 0 1 (ck_size (set_size sz c)) NUM_SIZE_CLASSES)) s2) Hfr)
      as (s3 & Hr & Ec & Ea & Em).
    exists s3. split; [done|]. split; [done|]. split; [by exists c|]. split.
    { rewrite (cmd_bind_eq _ _ _ _ _ Hsp), (mark_allocated _ _ _ _ Hbf2).
      rewrite (cmd_bind_eq _ _ _ _ _ Hr), Hbu. done. }
    set (t := bf + sizeof_MemoryChunk + sz) in *. cbn zeta.
    assert (Htb : t <> bf) by (unfold t, sizeof_MemoryChunk; lia).
    assert (Hszz : ck_size (set_size sz c) = sz) by (cbn; apply u32_small; done).
    split; [|split; [|split]].
    + eapply (heap_ok_taken lo hi L _ s s2 bf); try done.
      * rewrite elem_of_cons. naive_solver.
      * rewrite EL. set_solver.
      * intros a [->|Ha]%elem_of_cons; [done|].
        destruct (decide (a = t)) as [->|Hat]; [done|].
        assert (a <> bf) by (by intros ->). destruct (Hout2 a) as [Hda _]; [done..|].
        destruct (Hfree1 _ Ha) as (x & Hx & ? & ?). rewrite Hx in Hda.
        destruct (chunks s2 !! a) as [y|] eqn:Ey; [|done]. exists y. unfold ck_data in Hda. cbn in Hda.
        split; [done|]. split; congruence.
      * intros a x Hx Ha. destruct (HL _ Ha) as [Ha1 Ha2].
        assert (Hx1 : chunks s1 !! a = Some x) by (by rewrite Hout1).
        destruct (Hout2 a) as [_ Ho]; [done|intros ->; congruence|]. by rewrite Ho.
    + rewrite Ec. cbn. rewrite lookup_insert_eq. cbn in Hszz. by rewrite Hszz.
    + intros _. rewrite Ec. cbn. by rewrite lookup_insert_ne.
    + intros a Hab Hat. destruct (Hout2 a Hab) as [Hda Hdo]; [by apply Hat|].
      rewrite Ec. cbn. rewrite lookup_insert_ne by done. split.
      * rewrite Hda. symmetry. apply Hsame1.
      * intros [Hal _]%HL. by rewrite Hdo, Hout1.
  - assert (Hsp : split_chunk bf sz s1 = Ret (s1, tt)) by (apply (split_noroom _ _ c); [done..|lia]).
    destruct (Hrel (with_chunks (insert bf (mkChunk 0 0 1 (ck_size c) NUM_SIZE_CLASSES)) s1) Hfr1)
      as (s3 & Hr & Ec & Ea & Em).
    exists s3. split; [done|]. split; [done|]. split; [by exists c|]. split.
    { rewrite (cmd_bind_eq _ _ _ _ _ Hsp), (mark_allocated _ _ _ _ Hbf1).
      rewrite (cmd_bind_eq _ _ _ _ _ Hr), Hbu. done. }
    split; [|split; [|split; [done|]]].
    + eapply (heap_ok_taken lo hi L _ s s1 bf); try done.
      * rewrite EL. set_solver.
      * intros a x Hx Ha. destruct (HL _ Ha) as [Ha1 Ha2]. by rewrite Hout1.
    + rewrite Ec. cbn. by rewrite lookup_insert_eq.
    + intros a Hab _. rewrite Ec. cbn. rewrite lookup_insert_ne by done. split.
      * symmetry. apply Hsame1.
      * intros [Hal _]%HL. by rewrite Hout1.
Qed.

(** ** Small blocks *)
Section small.
Implicit Types s : mstate.

Lemma acquire_class_run s i : class_locks (manager s) = replicate 7 0 -> 0 <= i < 7 ->
  exists s0, acquire_class i s = Ret (s0, tt) /\
    chunks s0 = chunks s /\ active s0 = active s /\ first (manager s0) = first (manager s) /\
    free_lists (manager s0) = free_lists (manager s) /\
    forall s1, class_locks (manager s1) = class_locks (manager s0) ->
      release_class i s1 = Ret (with_manager (set_class_locks (replicate 7 0)) s1, tt).
Proof.
  intros Hcl Hi. exists (with_manager (set_class_locks (<[Z.to_nat i := 1]> (replicate 7 0))) s).
  split; [|split; [done|split; [done|split; [done|split; [done|]]]]].
  - unfold acquire_class, mbind, cmd_mbind, gets. rewrite Hcl, zget_lookup by lia.
    rewrite lookup_replicate_2 by lia. cbn [deref lift]. rewrite decide_True by done.
    by rewrite zset_Some by (rewrite length_replicate; lia).
  - intros s1 E. unfold release_class, mbind, cmd_mbind, gets. rewrite E. cbn [manager with_manager class_locks set_class_locks].
    rewrite zset_Some by (rewrite length_insert, length_replicate; lia). cbn [deref lift].
    rewrite list_insert_insert_eq. unfold modify. do 4 f_equal.
    apply list_insert_id. apply lookup_replicate_2. lia.
Qed.

Lemma get_free_list_run s i p : zget (free_lists (manager s)) i = Some p ->
  get_free_list i s = Ret (s, p).
Proof. intros H. unfold get_free_list, mbind, cmd_mbind, gets. by rewrite H. Qed.

Lemma put_free_list_run s i v : 0 <= i < Z.of_nat (length (free_lists (manager s))) ->
  put_free_list i v s =
    Ret (with_manager (set_free_lists (<[Z.to_nat i := v]> (free_lists (manager s)))) s, tt).
Proof. intros H. unfold put_free_list, mbind, cmd_mbind, gets. by rewrite zset_Some. Qed.

(** The head of a class list: a free chunk of that class. *)
Lemma small_head s i p : small_lists_ok s -> zget (free_lists (manager s)) i = Some p -> p <> 0 ->
  0 <= i < 7 /\ exists c l, chunks s !! p = Some c /\ ck_allocated c = 0 /\ ck_size_class c = i /\
    chain (next_of (chunks s)) (ck_next c) l /\ p ∉ l /\
    forall a, a ∈ l -> exists ca, chunks s !! a = Some ca /\ ck_allocated ca = 0 /\ ck_size_class ca = i.
Proof.
  intros [Hlen Hs] Hp Hnz. pose proof (zget_Some_range _ _ _ Hp) as Hr.
  rewrite zget_lookup in Hp by lia. destruct (Hs _ _ Hp) as (l & Hl & Hc).
  rewrite Z2Nat.id in Hc by lia. split; [lia|].
  destruct l as [|a l]; [by apply chain_nil in Hl|].
  pose proof (chain_NoDup _ _ _ Hl) as [Hni _]%NoDup_cons.
  apply chain_cons in Hl as (-> & _ & q & Hq & Hl). destruct (Hc a) as (c & Hca & ? & ?); [by left|].
  unfold next_of in Hq. rewrite Hca in Hq. cbn in Hq. simplify_eq.
  exists c, l. repeat split; try done. intros b Hb. apply Hc. by right.
Qed.

Definition class_free (h : gmap Z MemoryChunk) (i a : Z) : Prop :=
  exists c, h !! a = Some c /\ ck_allocated c = 0 /\ ck_size_class c = i.

(** What the small blocks need between calls, whatever has become of the large
    list: the class lists hold free blocks of their class, their locks are free, and
    a block lies where its address can be computed. *)
Record classes_ok s : Prop := {
  co_active : active s = true;
  co_locks : class_locks (manager s) = replicate 7 0;
  co_small : small_lists_ok s;
  co_bounds : forall a c, chunks s !! a = Some c -> ck_size_class c < NUM_SIZE_CLASSES -> 16 <= a /\ a + sizeof_MemoryChunk < 4294967296
}.

Lemma heap_classes_ok lo hi L s : heap_ok lo hi L s -> classes_ok s.
Proof.
  intros [Hact _ Hcl Hgeo _ _ Hsm]. constructor; try done. intros a c Hc _.
  pose proof (geo_bounds _ _ _ Hgeo). pose proof (geo_in _ _ _ Hgeo _ _ Hc). unfold chunk_end, sizeof_MemoryChunk in *. lia.
Qed.

(** One class list replaced, the headers of the other classes kept. *)
Lemma classes_ok_class s s' i q l : classes_ok s -> 0 <= i < 7 ->
  active s' = active s -> class_locks (manager s') = replicate 7 0 ->
  free_lists (manager s') = <[Z.to_nat i := q]> (free_lists (manager s)) ->
  (forall a, ck_size_class <$> chunks s' !! a = ck_size_class <$> chunks s !! a) ->
  (forall a c, chunks s !! a = Some c -> ck_size_class c <> i -> chunks s' !! a = Some c) ->
  chain (next_of (chunks s')) q l -> (forall a, a ∈ l -> class_free (chunks s') i a) ->
  classes_ok s'.
Proof.
  intros [Hact Hcl [Hlen Hsm] Hb] Hi Ea Ecl Efl Hsz Hkeep Hch Hfr. constructor; [by rewrite Ea|done| |].
  - split; [by rewrite Efl, length_insert|]. intros j p. rewrite Efl, list_lookup_insert.
    case_decide as Hj.
    + destruct Hj as [<- _]. intros [= <-]. exists l. by rewrite Z2Nat.id by lia.
    + intros Hp. destruct (Hsm _ _ Hp) as (lj & Hlj & Hcj). exists lj.
      assert (Z.of_nat j <> i) by (apply lookup_lt_Some in Hp; intros <-; apply Hj; lia).
      assert (Hk : forall a, a ∈ lj -> chunks s' !! a = chunks s !! a).
      { intros a Ha. destruct (Hcj _ Ha) as (c & Hc & _ & E). rewrite Hc. apply Hkeep; [done|lia]. }
      split; [eapply chain_ext; [|exact Hlj]; intros a Ha; unfold next_of; by rewrite Hk|].
      intros a Ha. rewrite Hk by done. by apply Hcj.
  - intros a c Hc Hlt. specialize (Hsz a). rewrite Hc in Hsz. destruct (chunks s !! a) as [c'|] eqn:E; [|done].
    apply (Hb _ _ E). cbn in Hsz. congruence.
Qed.

(** Taking the head of a non-empty class list. *)
Lemma allocate_small_take s i p : classes_ok s ->
  zget (free_lists (manager s)) i = Some p -> p <> 0 ->
  exists c s1, chunks s !! p = Some c /\ ck_allocated c = 0 /\ ck_size_class c = i /\ 0 <= i < 7 /\
    allocate_small i s = Ret (s1, p + sizeof_MemoryChunk) /\ classes_ok s1 /\
    chunks s1 = <[p := set_allocated 1 c]> (chunks s) /\ first (manager s1) = first (manager s) /\
    free_lists (manager s1) = <[Z.to_nat i := ck_next c]> (free_lists (manager s)).
Proof.
  intros Hok Hp Hnz. pose proof Hok as [Hact Hcl Hsm Hbounds].
  destruct (small_head _ _ _ Hsm Hp Hnz) as (Hi & c & l & Hc & Hal & Hci & Hch & Hni & Hl).
  destruct (acquire_class_run s i Hcl Hi) as (s0 & Hacq & Ec0 & Ea & Ef0 & El0 & Hrel).
  assert (Hp0 : zget (free_lists (manager s0)) i = Some p) by (by rewrite El0).
  set (s1 := with_manager (set_free_lists (<[Z.to_nat i := ck_next c]> (free_lists (manager s0)))) s0).
  set (s2 := with_chunks (insert p (set_allocated 1 c)) s1).
  exists c, (with_manager (set_class_locks (replicate 7 0)) s2).
  split; [done|]. split; [done|]. split; [done|]. split; [done|]. split; [|split; [|split; [|split]]].
  - unfold allocate_small. rewrite (cmd_bind_eq _ _ _ _ _ Hacq).
    rewrite (cmd_bind_eq _ _ _ _ _ (get_free_list_run _ _ _ Hp0)), decide_False by done.
    rewrite (cmd_bind_eq _ _ s0 s0 true) by done. cbn iota.
    rewrite (cmd_bind_eq _ _ _ _ _ (get_free_list_run _ _ _ Hp0)).
    assert (Hc0 : chunks s0 !! p = Some c) by (by rewrite Ec0).
    rewrite (cmd_bind_eq _ _ _ _ _ (run_rd _ _ _ Hc0)).
    rewrite (cmd_bind_eq _ _ _ s1 tt).
    2:{ apply put_free_list_run. apply (zget_Some_range _ _ p). by rewrite El0. }
    erewrite run_wr_bind by (cbn; exact Hc0).
    rewrite (cmd_bind_eq _ _ _ _ _ (Hrel s2 eq_refl)).
    rewrite u32_small; [done|]. destruct (Hbounds p c Hc) as [? ?]; [unfold NUM_SIZE_CLASSES; lia|].
    unfold is_u32, sizeof_MemoryChunk in *. lia.
  - eapply (classes_ok_class s _ i (ck_next c) l); try done; cbn; try congruence.
    + intros a. rewrite Ec0, lookup_insert. case_decide; [subst; by rewrite Hc|done].
    + intros a x Hx Hne. rewrite Ec0, lookup_insert_ne; [done|]. intros <-. congruence.
    + eapply chain_ext; [|exact Hch]. intros a Ha. unfold next_of.
      rewrite Ec0, lookup_insert_ne; [done|]. by intros <-.
    + intros a Ha. unfold class_free. rewrite Ec0, lookup_insert_ne by (by intros <-). by apply Hl.
  - cbn. by rewrite Ec0.
  - cbn. by rewrite Ef0.
  - cbn. by rewrite El0.
Qed.

(** Releasing a block of class [i]. *)
Lemma free_small_run s i p c : classes_ok s -> 0 <= i < 7 ->
  chunks s !! p = Some c -> ck_allocated c <> 0 -> ck_size_class c = i ->
  exists q s1, zget (free_lists (manager s)) i = Some q /\
    free (p + sizeof_MemoryChunk) s = Ret (s1, tt) /\ classes_ok s1 /\ first (manager s1) = first (manager s) /\
    free_lists (manager s1) = <[Z.to_nat i := p]> (free_lists (manager s)) /\
    chunks s1 = (if decide (q <> 0) then alter (set_prev p) q else id)
                  (<[p := set_next q (set_allocated 0 c)]> (chunks s)).
Proof.
  intros Hok Hi Hc Hal Hci. pose proof Hok as [Hact Hcl Hsm Hbounds].
  pose proof Hsm as [Hlen Hsm']. destruct (Hbounds p c Hc) as [Hp16 Hpmax]; [unfold NUM_SIZE_CLASSES; lia|].
  destruct (zget_in_range (free_lists (manager s)) i) as [q Hq]; [lia|].
  assert (Hq' : exists l, chain (next_of (chunks s)) q l /\ forall a, a ∈ l -> class_free (chunks s) i a).
  { rewrite zget_lookup in Hq by lia. destruct (Hsm' _ _ Hq) as (l & ? & Hl). exists l.
    split; [done|]. intros a Ha. rewrite Z2Nat.id in Hl by lia. by apply Hl. }
  destruct Hq' as (l & Hch & Hl).
  assert (Hni : p ∉ l).
  { intros Hin. destruct (Hl _ Hin) as (x & Hx & ? & _). congruence. }
  assert (Hql : q <> 0 -> q ∈ l).
  { intros Hz. destruct (chain_nonnull _ _ _ Hch Hz) as [l' ->]. by left. }
  destruct (acquire_class_run s i Hcl Hi) as (s0 & Hacq & Ec0 & Ea & Ef0 & El0 & Hrel).
  set (c1 := set_next q (set_allocated 0 c)).
  set (h1 := (if decide (q <> 0) then alter (set_prev p) q else id) (<[p := c1]> (chunks s))).
  set (s1 := with_manager (set_class_locks (replicate 7 0))
               (with_manager (set_free_lists (<[Z.to_nat i := p]> (free_lists (manager s0))))
                  (mkMstate (active s0) (manager s0) h1))).
  assert (Hh1 : forall a, a <> p -> a <> q -> h1 !! a = chunks s !! a).
  { intros a ? ?. unfold h1. destruct (decide (q <> 0)); cbn;
      [rewrite lookup_alter_ne by done|]; by rewrite lookup_insert_ne. }
  assert (Hp1 : h1 !! p = Some c1).
  { unfold h1. destruct (decide (q <> 0)) as [Hz|]; cbn; [rewrite lookup_alter_ne|];
      [apply lookup_insert_eq| |apply lookup_insert_eq]. intros <-. by apply Hni, Hql. }
  assert (Hl1 : forall a, a ∈ l -> exists x y, chunks s !! a = Some x /\ h1 !! a = Some y /\
            ck_next y = ck_next x /\ ck_data y = ck_data x).
  { intros a Ha. destruct (Hl _ Ha) as (x & Hx & _). exists x.
    assert (a <> p) by (by intros ->). destruct (decide (a = q)) as [->|].
    - exists (set_prev p x). split; [done|]. split; [|done]. unfold h1. rewrite decide_True.
      + by rewrite lookup_alter_eq, lookup_insert_ne, Hx.
      + intros ->. destruct l; [by apply elem_of_nil in Ha|]. apply chain_null in Hch. done.
    - exists x. by rewrite Hh1. }
  exists q, s1. split; [done|]. split; [|split; [|split; [|split]]].
  - unfold free. rewrite (cmd_bind_eq _ _ s s (active s)) by done.
    rewrite decide_False by (rewrite Hact; unfold sizeof_MemoryChunk; intros [?|?]; [done|lia]).
    replace (p + sizeof_MemoryChunk - sizeof_MemoryChunk) with p by lia.
    cbn zeta. rewrite u32_small by (unfold is_u32, sizeof_MemoryChunk in *; lia).
    rewrite (cmd_bind_eq _ _ _ _ _ (run_rd _ _ _ Hc)), Hci, decide_True by (unfold NUM_SIZE_CLASSES; lia).
    unfold free_small. rewrite (cmd_bind_eq _ _ _ _ _ Hacq).
    assert (Hc0 : chunks s0 !! p = Some c) by (by rewrite Ec0).
    erewrite run_wr_bind by exact Hc0.
    rewrite (cmd_bind_eq _ _ _ _ _ (get_free_list_run
      (with_chunks <[p:=set_allocated 0 c]> s0) i q ltac:(cbn; by rewrite El0))).
    erewrite run_wr_bind by apply lookup_insert_eq.
    erewrite (cmd_bind_eq (rd p)) by (apply run_rd; apply lookup_insert_eq). cbn [ck_next set_next].
    rewrite (cmd_bind_eq _ _ _ (mkMstate (active s0) (manager s0) h1) tt).
    + rewrite (cmd_bind_eq _ _ _ (with_manager (set_free_lists (<[Z.to_nat i := p]> (free_lists (manager s0))))
                  (mkMstate (active s0) (manager s0) h1)) tt).
      * apply Hrel. done.
      * rewrite put_free_list_run; [done|]. cbn. rewrite El0. by apply (zget_Some_range _ _ q).
    + destruct (decide (q <> 0)) as [Hz|].
      * destruct (Hl _ (Hql Hz)) as (x & Hx & _).
        assert (p <> q) by (intros ->; by apply Hni, Hql).
        erewrite run_wr.
        2:{ cbn. rewrite insert_insert_eq, lookup_insert_ne, Ec0 by done. exact Hx. }
        unfold with_chunks, h1, c1. cbn. by rewrite insert_insert_eq, Ec0.
      * unfold with_chunks, mret, cmd_mret, h1, c1. cbn. by rewrite insert_insert_eq, Ec0.
  - eapply (classes_ok_class s _ i p (p :: l)); try done; cbn; try congruence.
    + intros a. destruct (decide (a = p)) as [->|]; [by rewrite Hp1, Hc|].
      destruct (decide (a ∈ l)) as [Ha|Ha].
      * destruct (Hl1 _ Ha) as (x & y & -> & -> & _ & E). unfold ck_data in E. cbn. congruence.
      * destruct (decide (a = q)) as [->|]; [|by rewrite Hh1].
        destruct (decide (q = 0)) as [->|]; [|by destruct Ha; apply Hql].
        unfold h1. rewrite decide_False by tauto. cbn. by rewrite lookup_insert_ne.
    + intros a x Hx Hne. destruct (decide (a = p)) as [->|]; [congruence|].
      destruct (decide (a = q)) as [->|]; [|by rewrite Hh1].
      destruct (decide (q = 0)) as [->|Hz].
      * unfold h1. rewrite decide_False by tauto. cbn. by rewrite lookup_insert_ne.
      * destruct (Hl _ (Hql Hz)) as (y & Hy & _ & ?). congruence.
    + apply (chain_cons_1 _ _ q); [lia|unfold next_of; by rewrite Hp1|].
      eapply chain_ext; [|exact Hch]. intros a Ha. unfold next_of.
      destruct (Hl1 _ Ha) as (x & y & -> & -> & E & _). cbn. congruence.
    + intros a [->|Ha]%elem_of_cons; [by exists c1|].
      destruct (Hl _ Ha) as (x' & Hx' & ? & ?).
      destruct (Hl1 _ Ha) as (x & y & Hx & Hy & _ & E). unfold ck_data in E. exists y.
      split; [done|]. assert (x' = x) as -> by congruence. split; congruence.
  - cbn. by rewrite Ef0.
  - cbn. by rewrite El0.
  - done.
Qed.
End small.

(** A request for a small block, when the list of its class is not empty. *)
Lemma malloc_small_take s sz i p : classes_ok s -> get_size_class_index (malloc_round sz) = i ->
  zget (free_lists (manager s)) i = Some p -> p <> 0 ->
  exists c s1, chunks s !! p = Some c /\ ck_allocated c = 0 /\ ck_size_class c = i /\ 0 <= i < 7 /\
    malloc sz s = Ret (s1, p + sizeof_MemoryChunk) /\ classes_ok s1 /\
    chunks s1 = <[p := set_allocated 1 c]> (chunks s) /\ first (manager s1) = first (manager s) /\
    free_lists (manager s1) = <[Z.to_nat i := ck_next c]> (free_lists (manager s)).
Proof.
  intros Hok Hsz Hp Hnz. destruct (allocate_small_take _ _ _ Hok Hp Hnz) as (c & s1 & Hc & Hal & Hci & Hi & Hrun & Hrest).
  exists c, s1. split; [done|]. split; [done|]. split; [done|]. split; [done|]. split; [|done].
  destruct (co_bounds _ Hok p c Hc) as [? ?]; [unfold NUM_SIZE_CLASSES; lia|].
  unfold malloc. rewrite (cmd_bind_eq _ _ s s (active s)) by done. rewrite (co_active _ Hok), Hsz.
  unfold allocate_from_size_class. rewrite decide_False by (unfold NUM_SIZE_CLASSES; lia). rewrite (cmd_bind_eq _ _ _ _ _ Hrun).
  by rewrite decide_False by (unfold sizeof_MemoryChunk; lia).
Qed.

(** C2. A request whose size class has a free block gets the block at the head of
    the list of the class, which is then in use; released again, it is back at the
    head of that list: all the lists, the headers' links along them and the rest of
    every header are exactly as before. This needs only that the class lists are in
    order ([classes_ok]), which holds of the heap after a refill too, whatever the
    refill put on the large list. *)
Theorem small_alloc_free_roundtrip s sz i p : classes_ok s -> get_size_class_index (malloc_round sz) = i ->
  zget (free_lists (manager s)) i = Some p -> p <> 0 ->
  exists s1 s2, malloc sz s = Ret (s1, p + sizeof_MemoryChunk) /\ classes_ok s1 /\
    ck_allocated <$> chunks s1 !! p = Some 1 /\
    (forall a, a <> p -> chunks s1 !! a = chunks s !! a) /\
    free (p + sizeof_MemoryChunk) s1 = Ret (s2, tt) /\ classes_ok s2 /\
    free_lists (manager s2) = free_lists (manager s) /\ first (manager s2) = first (manager s) /\
    forall a, ck_next <$> chunks s2 !! a = ck_next <$> chunks s !! a /\
              ck_data <$> chunks s2 !! a = ck_data <$> chunks s !! a.
Proof.
  intros Hok Hsz Hp Hnz.
  destruct (malloc_small_take _ _ _ _ Hok Hsz Hp Hnz) as (c & s1 & Hc & Hal & Hci & Hi & Hrun & Hok1 & Ec1 & Ef1 & El1).
  assert (Hlp : p = (free_lists (manager s)) !!! Z.to_nat i /\ (Z.to_nat i < length (free_lists (manager s)))%nat).
  { rewrite zget_lookup in Hp by lia. split; [by erewrite list_lookup_total_correct|].
    by apply lookup_lt_Some in Hp. }
  destruct Hlp as [_ Hlt].
  destruct (free_small_run s1 i p (set_allocated 1 c)) as (q & s2 & Hq & Hrun2 & Hok2 & Ef2 & El2 & Ec2);
    [done|done|by rewrite Ec1, lookup_insert_eq|done|done|].
  assert (q = ck_next c) as ->.
  { rewrite zget_lookup, El1, list_lookup_insert_eq in Hq by lia. congruence. }
  exists s1, s2. split; [done|]. split; [done|]. split; [by rewrite Ec1, lookup_insert_eq|].
  split; [intros a Ha; by rewrite Ec1, lookup_insert_ne|]. split; [done|]. split; [done|]. split; [|split; [congruence|]].
  - rewrite El2, El1, list_insert_insert_eq. apply list_insert_id.
    rewrite zget_lookup in Hp by lia. done.
  - intros a. rewrite Ec2, Ec1, insert_insert_eq.
    assert (Hb : forall (h : gmap Z MemoryChunk) f q', (forall x, ck_next (f x) = ck_next x /\ ck_data (f x) = ck_data x) ->
      ck_next <$> alter f q' h !! a = ck_next <$> h !! a /\ ck_data <$> alter f q' h !! a = ck_data <$> h !! a).
    { intros h f q' Hf. rewrite lookup_alter. destruct (decide (q' = a)) as [<-|]; [|split; reflexivity].
      destruct (h !! q') as [x|]; [|done]. cbn. destruct (Hf x) as [-> ->]. done. }
    assert (Hi1 : ck_next <$> (<[p := set_next (ck_next c) (set_allocated 0 (set_allocated 1 c))]> (chunks s)) !! a
                    = ck_next <$> chunks s !! a /\
                  ck_data <$> (<[p := set_next (ck_next c) (set_allocated 0 (set_allocated 1 c))]> (chunks s)) !! a
                    = ck_data <$> chunks s !! a).
    { rewrite lookup_insert. destruct (decide (p = a)) as [<-|]; [rewrite Hc|split; reflexivity]. cbn. unfold ck_data. cbn.
      by rewrite Hal. }
    destruct (decide (ck_next c <> 0)); [|exact Hi1].
    destruct (Hb (<[p := set_next (ck_next c) (set_allocated 0 (set_allocated 1 c))]> (chunks s))
                (set_prev p) (ck_next c) (fun x => conj eq_refl eq_refl)) as [E1 E2].
    rewrite E1, E2. exact Hi1.
Qed.

(** A heap just initialised over [size] bytes at [start]. *)
Lemma on_init_heap_ok m start sz : 16 <= start -> sizeof_MemoryChunk <= sz -> start + sz < 4294967296 ->
  exists s, on_init_memory_manager start sz (mkMstate false m ∅) = Ret (s, tt) /\
    heap_ok start (start + sz) [start] s /\
    chunks s !! start = Some (mkChunk 0 0 0 (sz - sizeof_MemoryChunk) NUM_SIZE_CLASSES).
Proof.
  intros H1 H2 H3. unfold sizeof_MemoryChunk in *.
  set (c := mkChunk 0 0 0 (sz - 20) NUM_SIZE_CLASSES).
  exists (mkMstate true (mkManager start (replicate 7 0) 0 (replicate 7 0)) {[ start := c ]}).
  split; [|split].
  - unfold on_init_memory_manager, sizeof_MemoryChunk.
    do 4 (rewrite (cmd_bind_eq _ _ _ _ _ eq_refl)). rewrite decide_False by lia.
    rewrite (cmd_bind_eq _ _ _ _ _ eq_refl). unfold wr_header at 1.
    set (s0 := with_manager (set_first start) _).
    rewrite (cmd_bind_eq _ _ _ (with_chunks (insert start zero_chunk) s0) tt) by done.
    do 3 (erewrite run_wr_bind by apply lookup_insert_eq).
    erewrite run_wr by apply lookup_insert_eq.
    unfold with_chunks, s0. cbn [chunks active manager with_manager].
    rewrite !insert_insert_eq. erewrite alter_alt_Some by apply lookup_insert_eq.
    rewrite insert_insert_eq. unfold set_size, set_next, set_prev. cbn.
    rewrite u32_small by (unfold is_u32; lia). done.
  - assert (Hall : forall a x, ({[ start := c ]} : gmap Z MemoryChunk) !! a = Some x -> a = start /\ x = c)
      by (intros a x [<- <-]%lookup_singleton_Some; done).
    constructor; cbn [active manager chunks first large_lock class_locks]; try done.
    + constructor; [lia| |].
      * intros a x [-> ->]%Hall. unfold chunk_end, c, sizeof_MemoryChunk. cbn. lia.
      * intros a b x y [-> ->]%Hall [-> ->]%Hall. lia.
    + split; [done|]. split; [lia|]. exists c. by rewrite lookup_singleton_eq.
    + intros a ->%list_elem_of_singleton. exists c. by rewrite lookup_singleton_eq.
    + split; [done|]. intros i p Hp. change (replicate 7 0 !! i = Some p) in Hp. apply lookup_replicate in Hp as [-> _]. exists []. split; [done|].
      by intros a ?%elem_of_nil.
  - apply lookup_singleton_eq.
Qed.

(** The size classes: the index found is the smallest class that holds the
    request, and [NUM_SIZE_CLASSES] exactly when none does. *)
Theorem get_size_class_index_spec sz :
  (get_size_class_index sz = NUM_SIZE_CLASSES /\ 1024 < sz) \/
  exists c, zget size_classes (get_size_class_index sz) = Some c /\ sz <= c /\
    forall j d, zget size_classes j = Some d -> sz <= d -> get_size_class_index sz <= j /\ c <= d.
Proof.
  unfold get_size_class_index, size_classes. cbn [size_class_loop].
  assert (Hj : forall j d, zget [16; 32; 64; 128; 256; 512; 1024] j = Some d ->
     (j = 0 /\ d = 16) \/ (j = 1 /\ d = 32) \/ (j = 2 /\ d = 64) \/ (j = 3 /\ d = 128) \/
     (j = 4 /\ d = 256) \/ (j = 5 /\ d = 512) \/ (j = 6 /\ d = 1024)).
  { intros j d H. pose proof (zget_Some_range _ _ _ H) as Hr. cbn in Hr.
    rewrite zget_lookup in H by lia.
    assert (Hcase : j = 0 \/ j = 1 \/ j = 2 \/ j = 3 \/ j = 4 \/ j = 5 \/ j = 6) by lia.
    destruct Hcase as [->|[->|[->|[->|[->|[->| ->]]]]]]; cbn in H; injection H; lia. }
  repeat case_decide; [right..|left; unfold NUM_SIZE_CLASSES; lia]; eexists; (split; [reflexivity|]);
    (split; [lia|]); intros j d Hd%Hj Hle; lia.
Qed.

Lemma malloc_round_div sz : malloc_round sz = u32 (u32 (sz + 16) - 1) / 16 * 16.
Proof.
  unfold malloc_round, MIN_ALLOC_SIZE. change (u32 (Z.lnot (16 - 1))) with ((2 ^ 28 - 1) * 2 ^ 4).
  rewrite land_mask_high by lia. pose proof (u32_range (u32 (sz + 16) - 1)) as [? ?].
  rewrite (Z.mod_small (_ / _)); [done|]. split; [apply Z.div_pos; lia|].
  apply Z.div_lt_upper_bound; lia.
Qed.

Lemma malloc_round_up sz : 0 <= sz <= 4294967280 ->
  malloc_round sz mod 16 = 0 /\ sz <= malloc_round sz < sz + 16 /\ is_u32 (malloc_round sz).
Proof.
  intros [H0 Hle]. destruct (decide (sz = 4294967280)) as [->|Hne]; [vm_compute; intuition congruence|].
  rewrite malloc_round_div, (u32_small (sz + 16)), (u32_small (_ - 1)) by (unfold is_u32; lia).
  unfold is_u32. zdm.
Qed.

Lemma get_size_class_index_large sz : 1024 < sz -> get_size_class_index sz = NUM_SIZE_CLASSES.
Proof. intros. unfold get_size_class_index. cbn [size_class_loop size_classes]. decide_all. Qed.

(** Rounding: the least multiple of 16 that holds the request, up to the
    largest one a 32-bit size can express; any larger request becomes 0. *)
Theorem malloc_round_spec sz : is_u32 sz ->
  (sz <= 4294967280 /\ malloc_round sz mod MIN_ALLOC_SIZE = 0 /\
   sz <= malloc_round sz < sz + MIN_ALLOC_SIZE) \/
  (4294967280 < sz /\ malloc_round sz = 0).
Proof.
  intros [H0 H1]. destruct (decide (sz <= 4294967280)) as [Hle|Hgt].
  - left. destruct (malloc_round_up sz) as (? & ? & _); done.
  - right. split; [lia|]. rewrite malloc_round_div.
    assert (u32 (sz + 16) = sz + 16 - 4294967296) as -> by (unfold u32; zdm).
    rewrite u32_small by (unfold is_u32; lia). zdm.
Qed.

(** ** The status report *)
Section status.
Implicit Types s : mstate.

Lemma status_large_run : forall l fuel p n b s, chain (next_of (chunks s)) p l ->
  (length l < fuel)%nat -> exists r, status_large fuel p n b s = Ret (s, r).
Proof.
  induction l as [|a l IH]; intros fuel p n b s Hl Hf.
  - apply chain_nil in Hl as ->. destruct fuel; [lia|]. by eexists.
  - apply chain_cons in Hl as (-> & Ha & q & Hq & Hl). destruct fuel as [|fuel]; [lia|].
    unfold next_of in Hq. destruct (chunks s !! a) as [ck|] eqn:E; [|done]. cbn in Hq. simplify_eq.
    cbn [status_large]. rewrite decide_False by done.
    rewrite (cmd_bind_eq _ _ _ _ _ (run_rd _ _ _ E)). apply (IH fuel); [done|cbn in Hf; lia].
Qed.

Lemma status_count_run : forall l fuel p n s, chain (next_of (chunks s)) p l ->
  (length l < fuel)%nat -> status_count fuel p n s = Ret (s, n + Z.of_nat (length l)).
Proof.
  induction l as [|a l IH]; intros fuel p n s Hl Hf.
  - apply chain_nil in Hl as ->. destruct fuel; [lia|]. cbn. by rewrite Z.add_0_r.
  - apply chain_cons in Hl as (-> & Ha & q & Hq & Hl). destruct fuel as [|fuel]; [lia|].
    unfold next_of in Hq. destruct (chunks s !! a) as [ck|] eqn:E; [|done]. cbn in Hq. simplify_eq.
    cbn [status_count]. rewrite decide_False by done.
    rewrite (cmd_bind_eq _ _ _ _ _ (run_rd _ _ _ E)), (IH fuel); [|done|cbn in Hf; lia].
    do 2 f_equal. cbn [length]. lia.
Qed.

Lemma relock s v : class_locks (manager s) = replicate 7 0 ->
  with_manager (set_class_locks (replicate 7 0)) (with_manager (set_class_locks v) s) = s.
Proof. intros E. destruct s as [? [] ?]. cbn in *. by subst. Qed.

Lemma status_classes_run lo hi L s : heap_ok lo hi L s -> forall n i, 0 <= i -> i + Z.of_nat n <= 7 ->
  exists r, status_classes n i s = Ret (s, r).
Proof.
  intros [Hact Hlk Hcl Hgeo Hd Hfree [Hlen Hsm]]. induction n as [|n IH]; intros i Hi Hn; [by eexists|].
  cbn [status_classes]. destruct (acquire_class_run s i Hcl) as (s0 & Hacq & Ec & _ & Ef & El & Hrel); [lia|].
  assert (Hs0 : with_manager (set_class_locks (replicate 7 0)) s0 = s).
  { revert Hacq. unfold acquire_class, mbind, cmd_mbind, gets. rewrite Hcl, zget_lookup by lia.
    rewrite lookup_replicate_2 by lia. cbn [deref lift]. rewrite decide_True by done.
    rewrite zset_Some by (rewrite length_replicate; lia). intros [= <-]. by apply relock. }
  rewrite (cmd_bind_eq _ _ _ _ _ Hacq).
  destruct (zget_in_range (free_lists (manager s)) i) as [p Hp]; [lia|].
  rewrite (cmd_bind_eq _ _ _ _ _ (get_free_list_run s0 i p ltac:(by rewrite El))).
  rewrite (cmd_bind_eq _ _ s0 s0 (S (size (chunks s0)))) by done.
  rewrite zget_lookup in Hp by lia. destruct (Hsm _ _ Hp) as (l & Hl & _).
  rewrite Ec, <- Ec. rewrite <- Ec in Hl.
  rewrite (cmd_bind_eq _ _ _ _ _ (status_count_run l _ p 0 s0 Hl (chain_length_fuel _ _ _ _ Hl))).
  rewrite (cmd_bind_eq _ _ _ _ _ (Hrel s0 eq_refl)), Hs0.
  destruct (IH (i + 1)) as [r Hr]; [lia|lia|]. rewrite (cmd_bind_eq _ _ _ _ _ Hr). by eexists.
Qed.

(** The report ends, and leaves the heap as it found it. *)
Lemma print_memory_status_run lo hi L s : heap_ok lo hi L s ->
  exists r, print_memory_status s = Ret (s, r).
Proof.
  intros Hok. pose proof Hok as [Hact Hlk Hcl Hgeo Hd Hfree Hsm].
  destruct (large_locked_ok s Hlk) as [Hacq Hrel]. unfold print_memory_status.
  rewrite (cmd_bind_eq _ _ s s true) by (unfold gets; by rewrite Hact). cbn iota.
  rewrite (cmd_bind_eq _ _ _ _ _ Hacq). set (s0 := with_manager _ s).
  rewrite (cmd_bind_eq _ _ s0 s0 (first (manager s))) by done.
  rewrite (cmd_bind_eq _ _ s0 s0 (S (size (chunks s)))) by done.
  pose proof (dll_chain _ _ _ _ Hd) as Hch.
  destruct (status_large_run L _ _ 0 0 s0 Hch (chain_length_fuel _ _ _ _ Hch)) as [r Hr].
  rewrite (cmd_bind_eq _ _ _ _ _ Hr).
  destruct (Hrel s0 (frame_refl _)) as (s'' & Hrl & Ec & Ea & Em).
  assert (s'' = s) as -> by (destruct s as [? [] ?], s''; cbn in *; by subst).
  rewrite (cmd_bind_eq _ _ _ _ _ Hrl).
  destruct (status_classes_run _ _ _ _ Hok 7 0) as [r' Hr']; [lia|lia|].
  rewrite (cmd_bind_eq _ _ _ _ _ Hr'). by eexists.
Qed.
End status.

(** C1. [malloc] of a request above the size classes is best fit over the free
    list. Either no free chunk holds the rounded request, and the call returns
    NULL and changes nothing; or the block it returns is a smallest free chunk
    that does, its tail (when it can hold a chunk) is back on the list, no other
    header changes but for its links, and the heap is well formed again. *)
Theorem malloc_large_best_fit lo hi L s sz : heap_ok lo hi L s -> 1024 < sz <= 4294967280 ->
  let r := malloc_round sz in
  ((forall a, a ∈ L -> ~ fits (chunks s) r a) /\ malloc sz s = Ret (s, 0)) \/
  exists l1 bf l2 c s', L = l1 ++ bf :: l2 /\ chunks s !! bf = Some c /\
    best_in (chunks s) r bf L /\ malloc sz s = Ret (s', bf + sizeof_MemoryChunk) /\
    let t := bf + sizeof_MemoryChunk + r in
    let room := r + sizeof_MemoryChunk + MIN_ALLOC_SIZE <= ck_size c in
    heap_ok lo hi (if decide room then t :: l1 ++ l2 else l1 ++ l2) s' /\
    chunks s' !! bf = Some (mkChunk 0 0 1 (if decide room then r else ck_size c) NUM_SIZE_CLASSES) /\
    (room -> ck_size <$> (chunks s' !! t) = Some (ck_size c - r - sizeof_MemoryChunk)) /\
    forall a, a <> bf -> (room -> a <> t) -> ck_data <$> chunks s' !! a = ck_data <$> chunks s !! a /\
      (a ∉ L -> chunks s' !! a = chunks s !! a).
Proof.
  intros Hok [Hlo Hhi] r.
  destruct (malloc_round_up sz) as (_ & Hr & Hu); [lia|]. fold r in Hr, Hu.
  assert (Erun : malloc sz s = (result ← allocate_large r;
      (if decide (result = 0) then print_memory_status;; mret tt else mret tt);; mret result) s).
  { unfold malloc. rewrite (cmd_bind_eq _ _ s s true) by (unfold gets; by rewrite (hk_active _ _ _ _ Hok)).
    cbn iota zeta. fold r. rewrite get_size_class_index_large by lia. done. }
  destruct (allocate_large_best_fit lo hi L s r Hok Hu)
    as [[Hno Hrun]|(l1 & bf & l2 & c & s' & EL & Hc & Hb & Hrun & Hrest)].
  - left. split; [done|]. rewrite Erun, (cmd_bind_eq _ _ _ _ _ Hrun), decide_True by done.
    destruct (print_memory_status_run _ _ _ _ Hok) as [x Hx].
    unfold mbind, cmd_mbind. by rewrite Hx.
  - right. exists l1, bf, l2, c, s'. split; [done|]. split; [done|]. split; [done|]. split; [|done].
    rewrite Erun, (cmd_bind_eq _ _ _ _ _ Hrun), decide_False; [done|].
    pose proof (geo_bounds _ _ _ (hk_geometry _ _ _ _ Hok)).
    pose proof (geo_in _ _ _ (hk_geometry _ _ _ _ Hok) _ _ Hc). unfold sizeof_MemoryChunk. lia.
Qed.

(** A 1 MiB heap at 10 MiB. *)
Definition heap_1M : mstate :=
  mkMstate true (mkManager 10485760 (replicate 7 0) 0 (replicate 7 0))
    {[ 10485760 := mkChunk 0 0 0 (1048576 - sizeof_MemoryChunk) NUM_SIZE_CLASSES ]}.

Lemma heap_1M_ok : heap_ok 10485760 (10485760 + 1048576) [10485760] heap_1M.
Proof.
  destruct (on_init_heap_ok (mkManager 0 [] 0 []) 10485760 1048576) as (s & Hrun & Hok & _);
    [lia|unfold sizeof_MemoryChunk; lia|lia|].
  assert (heap_1M = s) as -> by (vm_compute in Hrun; injection Hrun as <-; reflexivity). done.
Qed.

Lemma malloc_large_best_fit_witness :
  exists bf s', malloc 5000 heap_1M = Ret (s', bf + sizeof_MemoryChunk).
Proof.
  destruct (malloc_large_best_fit _ _ _ heap_1M 5000 heap_1M_ok) as [[Hno _]|(l1 & bf & l2 & c & s' & H)].
  - lia.
  - exfalso. apply (Hno 10485760); [by left|]. eexists. split; [apply lookup_singleton_eq|].
    split; [reflexivity|]. vm_compute. congruence.
  - exists bf, s'. tauto.
Defined.

(** Releasing an allocated large block marks its header free but puts it on
    no list: the free list is as before, so no later request can use the bytes. *)
Theorem free_large_not_relisted lo hi L s p a sz : heap_ok lo hi L s ->
  chunks s !! p = Some (mkChunk 0 0 a sz NUM_SIZE_CLASSES) -> a <> 0 ->
  exists s1, free (p + sizeof_MemoryChunk) s = Ret (s1, tt) /\
    chunks s1 = <[p := mkChunk 0 0 0 sz NUM_SIZE_CLASSES]> (chunks s) /\
    manager s1 = manager s /\ heap_ok lo hi L s1 /\ p ∉ L.
Proof.
  intros Hok Hp Ha. pose proof Hok as [Hact Hlk Hcl Hgeo Hd Hfree Hsm].
  assert (Hni : p ∉ L).
  { intros Hin. destruct (Hfree _ Hin) as (c & ? & ? & _). by simplify_eq. }
  destruct (large_locked_ok s Hlk) as [Hacq Hrel].
  set (c0 := mkChunk 0 0 0 sz NUM_SIZE_CLASSES).
  set (s0 := with_manager (set_large_lock 1) s) in *.
  set (s1 := with_chunks (insert p c0) s).
  exists s1. split; [|split; [done|split; [done|split; [|done]]]].
  - pose proof (geo_bounds _ _ _ Hgeo). pose proof (geo_in _ _ _ Hgeo _ _ Hp).
    unfold free. rewrite (cmd_bind_eq _ _ s s (active s)) by done.
    unfold chunk_end, sizeof_MemoryChunk in *.
    rewrite decide_False by (rewrite Hact; intros [?|?]; [done|lia]).
    replace (p + 20 - 20) with p by lia. cbn zeta.
    rewrite u32_small by (unfold is_u32; cbn in *; lia).
    rewrite (cmd_bind_eq _ _ _ _ _ (run_rd _ _ _ Hp)). cbn [ck_size_class].
    rewrite decide_False by (unfold NUM_SIZE_CLASSES; lia). unfold free_large.
    rewrite (cmd_bind_eq _ _ _ _ _ Hacq). erewrite run_wr_bind by exact Hp.
    set (s2 := with_chunks _ s0). assert (H2 : chunks s2 !! p = Some c0) by apply lookup_insert_eq.
    rewrite (cmd_bind_eq _ _ s2 s2 _ eq_refl).
    rewrite (cmd_bind_eq _ _ s2 s2 p).
    2:{ cbn [coalesce_prev]. by rewrite (cmd_bind_eq _ _ _ _ _ (run_rd _ _ _ H2)). }
    rewrite (cmd_bind_eq _ _ s2 s2 _ eq_refl).
    rewrite (cmd_bind_eq _ _ s2 s2 tt).
    2:{ cbn [coalesce_next]. by rewrite (cmd_bind_eq _ _ _ _ _ (run_rd _ _ _ H2)). }
    unfold release_large, modify, s2, s1, s0. destruct s as [? [] ?]. cbn in *. by subst.
  - constructor; try done; unfold s1; cbn.
    + destruct Hgeo as [Hb Hi Hg]. constructor; [done| |].
      * intros b c. rewrite lookup_insert. destruct (decide (p = b)) as [<-|]; [intros [= <-]|apply Hi].
        apply (Hi _ _ Hp).
      * intros b d cb cd. rewrite !lookup_insert.
        destruct (decide (p = b)) as [<-|], (decide (p = d)) as [<-|]; intros; simplify_eq; try lia;
          [apply (Hg p d _ cd Hp)|apply (Hg b p cb (mkChunk 0 0 a sz NUM_SIZE_CLASSES))|eapply Hg]; try done; exact Hp.
    + eapply dll_ext; [|exact Hd]. intros b Hb. apply lookup_insert_ne. by intros ->.
    + intros b Hb. destruct (Hfree _ Hb) as (c & ? & ?). exists c.
      rewrite lookup_insert_ne by (by intros ->). done.
    + apply (small_lists_frame s); [done|done|]. intros b c Hb Hal Hcls. cbn.
      rewrite lookup_insert_ne; [done|]. intros <-. rewrite Hp in Hb. by simplify_eq.
Qed.

Lemma malloc_large_run : exists s, malloc 5000 heap_1M = Ret (s, 10485760 + sizeof_MemoryChunk) /\
  heap_ok 10485760 (10485760 + 1048576) [10490788] s /\
  chunks s !! 10485760 = Some (mkChunk 0 0 1 5008 NUM_SIZE_CLASSES).
Proof.
  destruct (allocate_large_best_fit _ _ _ heap_1M (malloc_round 5000) heap_1M_ok)
    as [[_ Hn]|(l1 & bf & l2 & c & s' & EL & Hc & _ & Hrun & Hok & Hh & _)];
    [split; [vm_compute; congruence|reflexivity]|vm_compute in Hn; done|].
  destruct l1 as [|? [|? ?]]; [|discriminate EL..]. injection EL as <- <-. cbn [app] in Hok.
  assert (c = mkChunk 0 0 0 (1048576 - sizeof_MemoryChunk) NUM_SIZE_CLASSES) as ->
    by (unfold heap_1M in Hc; cbn [chunks] in Hc; rewrite lookup_singleton_eq in Hc; congruence).
  exists s'. change (malloc_round 5000) with 5008 in *.
  rewrite decide_True in Hok by (unfold sizeof_MemoryChunk, MIN_ALLOC_SIZE; cbn; lia).
  rewrite decide_True in Hh by (unfold sizeof_MemoryChunk, MIN_ALLOC_SIZE; cbn; lia).
  split; [|split; [exact Hok|exact Hh]].
  unfold malloc. rewrite (cmd_bind_eq _ _ heap_1M heap_1M true) by done. cbn iota zeta.
  change (malloc_round 5000) with 5008. change (get_size_class_index 5008) with 7.
  by rewrite (cmd_bind_eq _ _ _ _ _ Hrun).
Qed.

Lemma free_large_not_relisted_witness :
  exists s s1, malloc 5000 heap_1M = Ret (s, 10485760 + sizeof_MemoryChunk) /\
    free (10485760 + sizeof_MemoryChunk) s = Ret (s1, tt).
Proof.
  destruct malloc_large_run as (s & Hrun & Hok & Hp).
  destruct (free_large_not_relisted _ _ _ s 10485760 1 5008 Hok Hp) as (s1 & Hf & _); [lia|].
  exists s, s1. exact (conj Hrun Hf).
Defined.

(** The fresh heap after a first request for 1024 bytes: the refill has cut three
    blocks, two of them are left. *)
Definition heap_refilled : mstate := match malloc 1024 heap_1M with Ret (s, _) => s | _ => heap_1M end.

Lemma heap_refilled_lists : free_lists (manager heap_refilled) = replicate 6 0 ++ [10486804].
Proof. vm_compute. reflexivity. Qed.

Lemma heap_refilled_blocks : chunks heap_refilled !! 10486804 = Some (mkChunk 10485760 10487848 0 1024 6) /\
  chunks heap_refilled !! 10485760 = Some (mkChunk 0 10486804 0 1024 6).
Proof. split; vm_compute; reflexivity. Qed.

Lemma heap_refilled_ok : classes_ok heap_refilled.
Proof.
  assert (Hb : map_Forall (fun a _ => 16 <= a /\ a + sizeof_MemoryChunk < 4294967296) (chunks heap_refilled))
    by (apply (bool_decide_unpack _); vm_compute; reflexivity).
  constructor; [reflexivity|reflexivity| |intros a c Hc _; exact (Hb a c Hc)]. split; [reflexivity|].
  destruct heap_refilled_blocks as [B1 B2]. rewrite heap_refilled_lists. generalize dependent heap_refilled. intros h _ B1 B2.
  intros i p Hp. destruct (decide (i < 6)%nat) as [Hi|Hi].
  - rewrite lookup_app_l in Hp by (rewrite length_replicate; lia). apply lookup_replicate in Hp as [-> _]. exists []. split; [done|]. by intros a ?%elem_of_nil.
  - rewrite lookup_app_r in Hp by (rewrite length_replicate; lia). rewrite length_replicate in Hp.
    apply list_lookup_singleton_Some in Hp as [Hi6 <-]. assert (i = 6%nat) as -> by lia. exists [10486804; 10485760]. split.
    + apply (chain_cons_1 _ _ 10485760); [lia|unfold next_of; by rewrite B1|]. apply (chain_cons_1 _ _ 0); [lia|unfold next_of; by rewrite B2|done].
    + intros a [->|[->|?%elem_of_nil]%elem_of_cons]%elem_of_cons; [..|done]; eexists; by split.
Qed.

Lemma small_alloc_free_roundtrip_witness :
  exists s1 s2, malloc 1000 heap_refilled = Ret (s1, 10486804 + sizeof_MemoryChunk) /\
    free (10486804 + sizeof_MemoryChunk) s1 = Ret (s2, tt) /\
    free_lists (manager s2) = free_lists (manager heap_refilled).
Proof.
  destruct (small_alloc_free_roundtrip heap_refilled 1000 6 10486804 heap_refilled_ok) as (s1 & s2 & H);
    [vm_compute; reflexivity|vm_compute; reflexivity|lia|]. exists s1, s2. tauto.
Defined.

Lemma malloc_round_spec_witness : malloc_round 4294967288 = 0.
Proof. destruct (malloc_round_spec 4294967288) as [[? _]|[_ ?]]; [lit|lia|done]. Defined.

(** Refilling a size class from a fresh heap: the header of the chunk being
    cut up is overwritten before its size is read again, so the "remaining"
    chunk put on the large list reaches far beyond the heap. *)
Theorem refill_remainder_outside_heap : exists s p a c,
  malloc 1024 heap_1M = Ret (s, p) /\ first (manager s) = a /\ chunks s !! a = Some c /\
  ck_allocated c = 0 /\ 10485760 + 1048576 < chunk_end a c /\
  forall lo L, ~ heap_ok lo (10485760 + 1048576) L s.
Proof.
  set (c := mkChunk 0 0 0 4294964204 NUM_SIZE_CLASSES).
  assert (H : exists s p, malloc 1024 heap_1M = Ret (s, p) /\ first (manager s) = 10489856 /\
     chunks s !! 10489856 = Some c).
  { assert (Hb : match malloc 1024 heap_1M with
                 | Ret (s, p) => first (manager s) = 10489856 /\ chunks s !! 10489856 = Some c
                 | _ => False end) by (vm_compute; split; reflexivity).
    destruct (malloc 1024 heap_1M) as [[s p]| |]; [|done..]. exists s, p. by split. }
  destruct H as (s & p & Hrun & Hf & Hc). exists s, p, 10489856, c.
  split; [exact Hrun|]. split; [exact Hf|]. split; [exact Hc|]. split; [reflexivity|].
  assert (He : 10485760 + 1048576 < chunk_end 10489856 c) by reflexivity. split; [exact He|].
  intros lo L Hok. destruct (geo_in _ _ _ (hk_geometry _ _ _ _ Hok) _ _ Hc) as (_ & _ & ?). lia.
Qed.
