(* ===== verification/CString.v ===== *)
(** * String and memory routines (src/kernel/string.c, include/kernel/string.h)

    Memory is a partial map from addresses to bytes: a load or a store outside
    it faults. A string is the list of its bytes without the terminator.

    Loops over strings are bounded by one more than the number of mapped bytes:
    they visit consecutive addresses, so a longer walk has already faulted.
    [char] values are kept as unsigned bytes; the code compares them for
    equality or casts them to [unsigned char] first. *)
From S2P Require Import Prelude.

Abbreviation mem := (gmap Z Z).
Abbreviation M := (cmd mem).

Definition load (a : Z) : M Z := m ← gets (fun m => m !! a); lift (deref m).
Definition store (a v : Z) : M unit :=
  _ ← load a; modify (insert a (u8 v)).
Definition str_fuel : M nat := gets (fun m => S (size m)).

(** ** Definitions *)

Fixpoint memcpy_loop (n : nat) (dest src i : Z) : M unit :=
  match n with
  | O => mret tt
  | S n' => b ← load (src + i); store (dest + i) b;; memcpy_loop n' dest src (i + 1)
  end.
Definition memcpy (str1 str2 n : Z) : M Z := memcpy_loop (Z.to_nat n) str1 str2 0;; mret str1.

Fixpoint strcmp_loop (fuel : nat) (s1 s2 : Z) : M Z :=
  match fuel with
  | O => spin
  | S fuel' =>
      c1 ← load s1;
      if decide (c1 = 0) then c2 ← load s2; mret (c1 - c2) else
      c2 ← load s2;
      if decide (c1 = c2) then strcmp_loop fuel' (s1 + 1) (s2 + 1) else mret (c1 - c2)
  end.
Definition strcmp (s1 s2 : Z) : M Z := fuel ← str_fuel; strcmp_loop fuel s1 s2.

Fixpoint strlen_loop (fuel : nat) (str len : Z) : M Z :=
  match fuel with
  | O => spin
  | S fuel' =>
      c ← load (str + len);
      if decide (c = 0) then mret len else strlen_loop fuel' str (len + 1)
  end.
Definition strlen (str : Z) : M Z :=
  if decide (str = 0) then mret 0 else fuel ← str_fuel; strlen_loop fuel str 0.

Fixpoint memcmp_loop (n : nat) (p1 p2 i : Z) : M Z :=
  match n with
  | O => mret 0
  | S n' =>
      b1 ← load (p1 + i); b2 ← load (p2 + i);
      if decide (b1 <> b2) then mret (b1 - b2) else memcmp_loop n' p1 p2 (i + 1)
  end.
Definition memcmp (s1 s2 n : Z) : M Z := memcmp_loop (Z.to_nat n) s1 s2 0.

Fixpoint strcpy_loop (fuel : nat) (dest src : Z) : M unit :=
  match fuel with
  | O => spin
  | S fuel' =>
      c ← load src;
      if decide (c = 0) then store dest 0 else store dest c;; strcpy_loop fuel' (dest + 1) (src + 1)
  end.
Definition strcpy (dest src : Z) : M Z :=
  fuel ← str_fuel; strcpy_loop fuel dest src;; mret dest.

(** [n-- > 0 && *s1 && *s2], the early return, and the two returns after the
    loop: when the test of [n] fails [n] has become [(size_t)-1]. *)
Fixpoint strncmp_loop (n : nat) (s1 s2 : Z) : M Z :=
  match n with
  | O => mret 0
  | S n' =>
      c1 ← load s1;
      if decide (c1 = 0) then c2 ← load s2; mret (c1 - c2) else
      c2 ← load s2;
      if decide (c2 = 0) then mret (c1 - c2) else
      if decide (c1 <> c2) then mret (c1 - c2) else strncmp_loop n' (s1 + 1) (s2 + 1)
  end.
Definition strncmp (s1 s2 n : Z) : M Z :=
  if decide (n = 0) then mret 0 else strncmp_loop (Z.to_nat n) s1 s2.

Fixpoint memset_loop (n : nat) (p uc i : Z) : M unit :=
  match n with
  | O => mret tt
  | S n' => store (p + i) uc;; memset_loop n' p uc (i + 1)
  end.
Definition memset (s c n : Z) : M Z := memset_loop (Z.to_nat n) s (u8 c) 0;; mret s.

Fixpoint strchr_loop (fuel : nat) (s ch : Z) : M Z :=
  match fuel with
  | O => spin
  | S fuel' =>
      c ← load s;
      if decide (c = 0) then if decide (ch = 0) then mret s else mret 0 else
      if decide (c = ch) then mret s else strchr_loop fuel' (s + 1) ch
  end.
Definition strchr (s c : Z) : M Z := fuel ← str_fuel; strchr_loop fuel s (u8 c).

Fixpoint strrchr_loop (fuel : nat) (s ch last : Z) : M Z :=
  match fuel with
  | O => spin
  | S fuel' =>
      c ← load s;
      if decide (c = 0) then if decide (ch = 0) then mret s else mret last else
      strrchr_loop fuel' (s + 1) ch (if decide (c = ch) then s else last)
  end.
Definition strrchr (s c : Z) : M Z := fuel ← str_fuel; strrchr_loop fuel s (u8 c) 0.

(** The copying loop stops with [n - i] bytes left, which the second loop zeroes. *)
Fixpoint strncpy_pad (n : nat) (dest i : Z) : M unit :=
  match n with
  | O => mret tt
  | S n' => store (dest + i) 0;; strncpy_pad n' dest (i + 1)
  end.
Fixpoint strncpy_loop (n : nat) (dest src i : Z) : M unit :=
  match n with
  | O => mret tt
  | S n' =>
      c ← load (src + i);
      if decide (c = 0) then strncpy_pad n dest i
      else store (dest + i) c;; strncpy_loop n' dest src (i + 1)
  end.
Definition strncpy (dest src n : Z) : M Z := strncpy_loop (Z.to_nat n) dest src 0;; mret dest.

(** snprintf. Characters by their codes: '%' 37, 'd' 100, '-' 45, '0' 48. *)
Fixpoint count_digits (fuel : nat) (temp digits : Z) : M Z :=
  match fuel with
  | O => spin
  | S fuel' =>
      let digits := digits + 1 in
      let temp := Z.quot temp 10 in
      if decide (temp > 0) then count_digits fuel' temp digits else mret digits
  end.
Fixpoint put_digits (fuel : nat) (p num : Z) : M unit :=
  match fuel with
  | O => spin
  | S fuel' =>
      store (p - 1) (48 + Z.rem num 10);;
      let num := Z.quot num 10 in
      if decide (num > 0) then put_digits fuel' (p - 1) num else mret tt
  end.
(** A 32-bit number has at most ten decimal digits. *)
Definition digit_fuel : nat := 11.

Fixpoint snprintf_loop (fuel : nat) (size p f written : Z) (args : list Z) : M (Z * Z) :=
  match fuel with
  | O => spin
  | S fuel' =>
      c ← load f;
      if decide (c = 0 \/ size - 1 <= written) then mret (p, written) else
      is_d ← (if decide (c = 37) then d ← load (f + 1); mret (bool_decide (d = 100)) else mret false);
      if (is_d : bool) then
        match args with
        | [] => fault
        | num :: args =>
            '(p, written, num) ←
              (if decide (num < 0) then store p 45;; mret (p + 1, written + 1, s32 (- num))
               else mret (p, written, num));
            digits ← count_digits digit_fuel num 0;
            if decide (size - 1 <= written + digits) then mret (p, written) else
            put_digits digit_fuel (p + digits) num;;
            snprintf_loop fuel' size (p + digits) (f + 2) (written + digits) args
        end
      else store p c;; snprintf_loop fuel' size (p + 1) (f + 1) (written + 1) args
  end.
Definition snprintf (str size format : Z) (args : list Z) : M Z :=
  if decide (str = 0 \/ size = 0) then mret 0 else
  fuel ← str_fuel;
  '(p, written) ← snprintf_loop fuel size str format 0 args;
  store p 0;; mret written.

(** strdup, over the allocator it calls. *)
Definition strdup (malloc : Z -> M Z) (s : Z) : M Z :=
  if decide (s = 0) then mret 0 else
  n ← strlen s;
  dup ← malloc (u32 (n + 1));
  (if decide (dup <> 0) then strcpy dup s;; mret tt else mret tt);; mret dup.

(** int_to_string. *)
Definition its_digits : list Z :=
  [48;49;50;51;52;53;54;55;56;57;97;98;99;100;101;102;
   48;49;50;51;52;53;54;55;56;57;65;66;67;68;69;70; 0].

Fixpoint its_convert (fuel : nat) (num base uppercase ptr start precision : Z) : M Z :=
  match fuel with
  | O => spin
  | S fuel' =>
      if decide (base = 0) then fault else
      let digit := Z.rem num base in
      d ← lift (deref (zget its_digits (if decide (uppercase <> 0) then digit + 16 else digit)));
      store ptr d;;
      let ptr := ptr + 1 in
      let num := Z.quot num base in
      if decide (num > 0 \/ ptr - start < precision)
      then its_convert fuel' num base uppercase ptr start precision else mret ptr
  end.
Definition its_fuel (precision : Z) : nat := 33 + Z.to_nat precision.

(** Fill backwards from [start]: [*--start = c] [n] times. *)
Fixpoint its_pad_left (n : nat) (start c : Z) : M Z :=
  match n with
  | O => mret start
  | S n' => store (start - 1) c;; its_pad_left n' (start - 1) c
  end.
Fixpoint its_pad_right (n : nat) (ptr : Z) : M Z :=
  match n with
  | O => mret ptr
  | S n' => store ptr 32;; its_pad_right n' (ptr + 1)
  end.
Fixpoint its_reverse (fuel : nat) (left right : Z) : M unit :=
  match fuel with
  | O => spin
  | S fuel' =>
      if decide (left < right) then
        temp ← load left; r ← load right;
        store left r;; store right temp;; its_reverse fuel' (left + 1) (right - 1)
      else mret tt
  end.

Definition has_flag (flags f : Z) : bool := bool_decide (Z.land flags f <> 0).

Definition int_to_string (num buffer base uppercase width precision flags : Z) : M Z :=
  if decide (num = 0 /\ precision = 0) then mret 0 else
  let negative := bool_decide (num < 0 /\ base = 10) in
  let num := if negative then s32 (- num) else num in
  '(ptr, prefix_len) ←
    (if decide (has_flag flags 0x10 = true /\ num <> 0) then
       if decide (base = 8) then store buffer 48;; mret (buffer + 1, 1)
       else if decide (base = 16) then
         store buffer 48;;
         store (buffer + 1) (if decide (uppercase <> 0) then 88 else 120);; mret (buffer + 2, 2)
       else mret (buffer, 0)
     else mret (buffer, 0));
  ptr ← its_convert (its_fuel precision) num base uppercase ptr (buffer + prefix_len) precision;
  let num_digits := ptr - buffer in
  let pad := if decide (width > num_digits) then width - num_digits else 0 in
  start ← (if has_flag flags 0x01 then mret buffer
           else its_pad_left (Z.to_nat pad) buffer (if has_flag flags 0x08 then 48 else 32));
  start ← (if negative then store (start - 1) 45;; mret (start - 1)
           else if has_flag flags 0x02 then store (start - 1) 43;; mret (start - 1)
           else if has_flag flags 0x04 then store (start - 1) 32;; mret (start - 1)
           else mret start);
  let right_pad := if decide (has_flag flags 0x01 = true /\ pad > 0) then pad else 0 in
  ptr ← its_pad_right (Z.to_nat right_pad) ptr;
  let left := start + (if negative || has_flag flags 0x02 || has_flag flags 0x04 then 1 else 0)
              + prefix_len in
  let right := ptr - right_pad - 1 in
  its_reverse (S (Z.to_nat (right - left))) left right;;
  store ptr 0;;
  mret (ptr - start).

(** strtok: [last] is its static variable; the result is the token and the new
    value of [last]. The two scans differ in the test of membership. *)
Fixpoint strtok_scan (fuel : nat) (want : bool) (str delim : Z) : M Z :=
  match fuel with
  | O => spin
  | S fuel' =>
      c ← load str;
      if decide (c = 0) then mret str else
      r ← strchr delim c;
      if decide (bool_decide (r <> 0) = want) then strtok_scan fuel' want (str + 1) delim
      else mret str
  end.
Definition strtok (last str delim : Z) : M (Z * Z) :=
  let str := if decide (str = 0) then last else str in
  if decide (str = 0) then mret (0, last) else
  fuel ← str_fuel;
  str ← strtok_scan fuel true str delim;
  c ← load str;
  if decide (c = 0) then mret (0, 0) else
  let token := str in
  str ← strtok_scan fuel false str delim;
  c ← load str;
  if decide (c <> 0) then store str 0;; mret (token, str + 1)
  else mret (token, 0).

(** ** Representation *)

Fixpoint bytes_at (m : mem) (p : Z) (l : list Z) : Prop :=
  match l with
  | [] => True
  | b :: l' => m !! p = Some b /\ bytes_at m (p + 1) l'
  end.

(** The string [s] at [p]: its bytes, none of them 0, and the terminator. *)
Definition cstr (m : mem) (p : Z) (s : list Z) : Prop :=
  bytes_at m p (s ++ [0]) /\ Forall (fun b => 1 <= b < 256) s.

(** The [n] bytes at [p] are mapped. *)
Definition mapped (m : mem) (p n : Z) : Prop := forall a, p <= a < p + n -> is_Some (m !! a).

(** Write the bytes [l] from [p] on. *)
Fixpoint mwrite (m : mem) (p : Z) (l : list Z) : mem :=
  match l with [] => m | b :: l' => mwrite (<[p := b]> m) (p + 1) l' end.

Section bytes.
Implicit Types m : mem.

Lemma load_run m a b : m !! a = Some b -> load a m = Ret (m, b).
Proof. intros H. unfold load, mbind, cmd_mbind, gets. by rewrite H. Qed.

Lemma store_run m a v : is_Some (m !! a) -> is_u8 v -> store a v m = Ret (<[a := v]> m, tt).
Proof.
  intros [b Hb] Hv. unfold store. rewrite (cmd_bind_eq _ _ _ _ _ (load_run _ _ _ Hb)).
  unfold modify. by rewrite u8_small.
Qed.

Lemma load_bind {A} m a b (k : Z -> M A) : m !! a = Some b -> (load a ≫= k) m = k b m.
Proof. intros H. by rewrite (cmd_bind_eq _ _ _ _ _ (load_run _ _ _ H)). Qed.

Lemma store_bind {A} m a v (k : unit -> M A) : is_Some (m !! a) -> is_u8 v ->
  (store a v ≫= k) m = k tt (<[a := v]> m).
Proof. intros H Hv. by rewrite (cmd_bind_eq _ _ _ _ _ (store_run _ _ _ H Hv)). Qed.

Lemma fuel_bind {A} m (k : nat -> M A) : (str_fuel ≫= k) m = k (S (size m)) m.
Proof. done. Qed.

Lemma bytes_at_app m p l1 l2 :
  bytes_at m p (l1 ++ l2) <-> bytes_at m p l1 /\ bytes_at m (p + Z.of_nat (length l1)) l2.
Proof.
  revert p. induction l1 as [|b l1 IH]; intros p; cbn.
  - rewrite Z.add_0_r. tauto.
  - rewrite IH. replace (p + Z.of_nat (S (length l1))) with (p + 1 + Z.of_nat (length l1)) by lia. tauto.
Qed.

Lemma bytes_at_lookup m p l i b : bytes_at m p l -> l !! i = Some b -> m !! (p + Z.of_nat i) = Some b.
Proof.
  revert p i. induction l as [|x l IH]; intros p i; [done|]. intros [Hx Hl]. destruct i as [|i]; cbn.
  - intros [= <-]. by rewrite Z.add_0_r.
  - intros Hi. rewrite <- (IH (p + 1) i Hl Hi). f_equal. lia.
Qed.

Lemma bytes_at_ext m m' p l :
  (forall a, p <= a < p + Z.of_nat (length l) -> m' !! a = m !! a) -> bytes_at m p l -> bytes_at m' p l.
Proof.
  revert p. induction l as [|b l IH]; intros p Hext; [done|]. cbn [length] in Hext. intros [Hb Hl]. split.
  - rewrite Hext by lia. done.
  - apply IH; [|done]. intros. apply Hext. lia.
Qed.

Lemma bytes_at_mapped m p l : bytes_at m p l -> mapped m p (Z.of_nat (length l)).
Proof.
  intros H a Ha. destruct (lookup_lt_is_Some_2 l (Z.to_nat (a - p))) as [b Hb]; [lia|].
  exists b. rewrite <- (bytes_at_lookup _ _ _ _ _ H Hb). f_equal. lia.
Qed.

Lemma mapped_size m p n : mapped m p n -> n <= Z.of_nat (size m).
Proof.
  intros H. destruct (decide (n < 0)); [lia|].
  pose proof (addresses_bound m (seqZ p n) (NoDup_seqZ _ _)) as Hb. rewrite length_seqZ in Hb.
  cut (Z.to_nat n <= size m)%nat; [lia|]. apply Hb. intros a Ha%elem_of_seqZ. apply H. lia.
Qed.

Lemma cstr_fuel m p s : cstr m p s -> (length s < size m)%nat.
Proof.
  intros [H _]. apply bytes_at_mapped, mapped_size in H. rewrite length_app in H. cbn in H. lia.
Qed.

Lemma cstr_nil m p : cstr m p [] <-> m !! p = Some 0.
Proof. unfold cstr. cbn. split; [tauto|]. by repeat split. Qed.

Lemma cstr_cons m p b s : cstr m p (b :: s) <-> m !! p = Some b /\ 1 <= b < 256 /\ cstr m (p + 1) s.
Proof. unfold cstr. cbn. rewrite Forall_cons. tauto. Qed.

Lemma cstr_ext m m' p s :
  (forall a, p <= a <= p + Z.of_nat (length s) -> m' !! a = m !! a) -> cstr m p s -> cstr m' p s.
Proof.
  intros Hext [H ?]. split; [|done]. eapply bytes_at_ext; [|done]. intros a Ha.
  rewrite length_app in Ha. cbn in Ha. apply Hext. lia.
Qed.

Lemma lookup_mwrite m p l a : mwrite m p l !! a =
  if decide (p <= a < p + Z.of_nat (length l)) then l !! Z.to_nat (a - p) else m !! a.
Proof.
  revert m p. induction l as [|b l IH]; intros m p.
  - cbn. rewrite decide_False by lia. done.
  - cbn [mwrite length]. rewrite IH. destruct (decide (a = p)) as [->|].
    + rewrite decide_False, decide_True by lia. rewrite lookup_insert_eq, Z.sub_diag. done.
    + rewrite lookup_insert_ne by done. destruct (decide (p + 1 <= a < p + 1 + Z.of_nat (length l))).
      * rewrite decide_True by lia. replace (Z.to_nat (a - p)) with (S (Z.to_nat (a - (p + 1)))) by lia. done.
      * rewrite decide_False by lia. done.
Qed.

Lemma bytes_at_mwrite m p l : bytes_at (mwrite m p l) p l.
Proof.
  revert m p. induction l as [|b l IH]; intros m p; cbn; [done|]. split; [|apply IH].
  rewrite lookup_mwrite, decide_False by lia. apply lookup_insert_eq.
Qed.

Lemma mwrite_outside m p l a : a < p \/ p + Z.of_nat (length l) <= a -> mwrite m p l !! a = m !! a.
Proof. intros. rewrite lookup_mwrite, decide_False by lia. done. Qed.

(** The bytes of an area. *)
Lemma mapped_bytes m p n : mapped m p n -> exists l, length l = Z.to_nat n /\ bytes_at m p l.
Proof.
  intros Hm. set (k := Z.to_nat n). assert (Hk : forall a, p <= a < p + Z.of_nat k -> is_Some (m !! a)) by (intros a Ha; apply Hm; lia).
  clearbody k. clear Hm. revert p Hk. induction k as [|k IH]; intros p Hk; [by exists []|].
  destruct (Hk p ltac:(lia)) as [b Hb]. destruct (IH (p + 1)) as (l & Hl & Hat); [intros a Ha; apply Hk; lia|].
  exists (b :: l). split; [cbn; lia|done].
Qed.

Lemma mapped_insert m p n a v : mapped m p n -> mapped (<[a := v]> m) p n.
Proof.
  intros H b Hb. destruct (decide (a = b)) as [->|]; [rewrite lookup_insert_eq; by eexists|].
  rewrite lookup_insert_ne by done. by apply H.
Qed.
End bytes.

(** ** Copying *)
Section copying.
Implicit Types m : mem.

Lemma memcpy_loop_spec l : forall m dest src i,
  bytes_at m (src + i) l -> Forall is_u8 l -> mapped m (dest + i) (Z.of_nat (length l)) ->
  (dest <= src \/ src + i + Z.of_nat (length l) <= dest + i) ->
  memcpy_loop (length l) dest src i m = Ret (mwrite m (dest + i) l, tt).
Proof.
  induction l as [|b l IH]; intros m dest src i Hl Hu Hm Hd; [done|].
  destruct Hl as [Hb Hl]. apply Forall_cons in Hu as [Hbu Hu]. cbn [memcpy_loop length] in *.
  rewrite (load_bind _ _ _ _ Hb), store_bind by (try apply Hm; done || lia).
  cbn [mwrite]. rewrite IH; [do 2 f_equal; f_equal; lia| |done| |lia].
  - destruct (decide (dest = src)) as [->|].
    + replace (src + (i + 1)) with (src + i + 1) by lia. eapply bytes_at_ext; [|exact Hl].
      intros a Ha. apply lookup_insert_ne. lia.
    + replace (src + (i + 1)) with (src + i + 1) by lia. eapply bytes_at_ext; [|exact Hl].
      intros a Ha. apply lookup_insert_ne. lia.
  - replace (dest + (i + 1)) with (dest + i + 1) by lia.
    apply mapped_insert. intros a Ha. apply Hm. lia.
Qed.

Lemma memcpy_spec m dest src l : bytes_at m src l -> Forall is_u8 l ->
  mapped m dest (Z.of_nat (length l)) -> (dest <= src \/ src + Z.of_nat (length l) <= dest) ->
  memcpy dest src (Z.of_nat (length l)) m = Ret (mwrite m dest l, dest).
Proof.
  intros Hl Hu Hm Hd. unfold memcpy. rewrite Nat2Z.id.
  pose proof (memcpy_loop_spec l m dest src 0) as H. rewrite !Z.add_0_r in H.
  by rewrite (cmd_bind_eq _ _ _ _ _ (H Hl Hu Hm ltac:(lia))).
Qed.

Lemma strcpy_loop_spec s : forall fuel m dest src,
  (length s < fuel)%nat -> cstr m src s -> mapped m dest (Z.of_nat (length s) + 1) ->
  (dest < src \/ src + Z.of_nat (length s) < dest) ->
  strcpy_loop fuel dest src m = Ret (mwrite m dest (s ++ [0]), tt).
Proof.
  induction s as [|b s IH]; intros fuel m dest src Hf Hs Hm Hd; destruct fuel as [|fuel]; cbn [length] in *; try lia.
  - apply cstr_nil in Hs. cbn [strcpy_loop]. rewrite (load_bind _ _ _ _ Hs), decide_True by done.
    rewrite store_run; [done|apply Hm; lia|done].
  - apply cstr_cons in Hs as (Hb & Hr & Hs). cbn [strcpy_loop].
    rewrite (load_bind _ _ _ _ Hb), decide_False by lia.
    rewrite store_bind by (try (apply Hm; lia); unfold is_u8; lia).
    rewrite IH; [done|lia| | |lia].
    + eapply cstr_ext; [|exact Hs]. intros a Ha. apply lookup_insert_ne. lia.
    + apply mapped_insert. intros a Ha. apply Hm. lia.
Qed.

Lemma strcpy_spec m dest src s : cstr m src s -> mapped m dest (Z.of_nat (length s) + 1) ->
  (dest < src \/ src + Z.of_nat (length s) < dest) ->
  strcpy dest src m = Ret (mwrite m dest (s ++ [0]), dest).
Proof.
  intros Hs Hm Hd. unfold strcpy. rewrite fuel_bind.
  pose proof (cstr_fuel _ _ _ Hs).
  by rewrite (cmd_bind_eq _ _ _ _ _ (strcpy_loop_spec s (S (size m)) m dest src ltac:(lia) Hs Hm Hd)).
Qed.

Lemma strlen_loop_spec s : forall fuel m str len, (length s < fuel)%nat -> cstr m (str + len) s ->
  strlen_loop fuel str len m = Ret (m, len + Z.of_nat (length s)).
Proof.
  induction s as [|b s IH]; intros fuel m str len Hf Hs; destruct fuel as [|fuel]; cbn [length] in *; try lia.
  - apply cstr_nil in Hs. cbn [strlen_loop]. rewrite (load_bind _ _ _ _ Hs), decide_True by done.
    by rewrite Z.add_0_r.
  - apply cstr_cons in Hs as (Hb & Hr & Hs). cbn [strlen_loop].
    rewrite (load_bind _ _ _ _ Hb), decide_False by lia.
    rewrite IH; [do 2 f_equal; lia|lia|]. by replace (str + (len + 1)) with (str + len + 1) by lia.
Qed.

Lemma strlen_spec m p s : cstr m p s -> p <> 0 -> strlen p m = Ret (m, Z.of_nat (length s)).
Proof.
  intros Hs Hp. unfold strlen. rewrite decide_False by done. rewrite fuel_bind.
  pose proof (cstr_fuel _ _ _ Hs). rewrite (strlen_loop_spec s); [done|lia|]. by rewrite Z.add_0_r.
Qed.

Lemma mwrite_cstr m p s : Forall (fun b => 1 <= b < 256) s -> cstr (mwrite m p (s ++ [0])) p s.
Proof. intros. split; [apply bytes_at_mwrite|done]. Qed.

Lemma strncpy_pad_spec n : forall m dest i, mapped m (dest + i) (Z.of_nat n) ->
  strncpy_pad n dest i m = Ret (mwrite m (dest + i) (replicate n 0), tt).
Proof.
  induction n as [|n IH]; intros m dest i Hm; [done|]. cbn [strncpy_pad replicate mwrite].
  rewrite store_bind by (try (apply Hm; lia); done).
  rewrite IH; [do 2 f_equal; f_equal; lia|].
  apply mapped_insert. intros a Ha. apply Hm. lia.
Qed.

Definition padded (n : nat) (s : list Z) : list Z := take n s ++ replicate (n - length s) 0.

Lemma strncpy_loop_spec n : forall s m dest src i, cstr m (src + i) s ->
  mapped m (dest + i) (Z.of_nat n) ->
  (dest + Z.of_nat n <= src \/ src + i + Z.of_nat (length s) < dest + i) -> 0 <= i ->
  strncpy_loop n dest src i m = Ret (mwrite m (dest + i) (padded n s), tt).
Proof.
  induction n as [|n IH]; intros s m dest src i Hs Hm Hd Hi; [by destruct s|]. cbn [strncpy_loop].
  destruct s as [|b s].
  - apply cstr_nil in Hs. rewrite (load_bind _ _ _ _ Hs), decide_True by done.
    rewrite strncpy_pad_spec by done. done.
  - apply cstr_cons in Hs as (Hb & Hr & Hs). rewrite (load_bind _ _ _ _ Hb), decide_False by lia.
    cbn [length] in Hd.
    rewrite store_bind by (try (apply Hm; lia); unfold is_u8; lia).
    rewrite (IH s); [do 2 f_equal; unfold padded; cbn; f_equal; lia| | | |lia].
    + replace (src + (i + 1)) with (src + i + 1) by lia. eapply cstr_ext; [|exact Hs].
      intros a Ha. apply lookup_insert_ne. lia.
    + apply mapped_insert. intros a Ha. apply Hm. lia.
    + lia.
Qed.
End copying.

(** ** Comparing and searching *)

(** What the comparisons compute: the difference at the first difference, the
    terminator counting as 0. *)
Fixpoint cmp_bytes (a b : list Z) : Z :=
  match a, b with
  | [], [] => 0
  | [], y :: _ => - y
  | x :: _, [] => x
  | x :: a', y :: b' => if decide (x = y) then cmp_bytes a' b' else x - y
  end.

(** Dictionary order on byte strings. *)
Definition lex_lt (a b : list Z) : Prop :=
  exists l x a' y b', a ++ [0] = l ++ x :: a' /\ b ++ [0] = l ++ y :: b' /\ x < y.

Section searching.
Implicit Types m : mem.

Lemma cmp_bytes_lex a : forall b, Forall (fun x => 1 <= x < 256) a -> Forall (fun x => 1 <= x < 256) b ->
  (cmp_bytes a b = 0 <-> a = b) /\ (cmp_bytes a b < 0 -> lex_lt a b) /\
  (0 < cmp_bytes a b -> lex_lt b a).
Proof.
  induction a as [|x a IH]; intros [|y b] Ha Hb; cbn [cmp_bytes].
  - split; [done|lia].
  - apply Forall_cons in Hb as [? _]. split; [split; [lia|done]|]. split; [|lia].
    intros _. exists [], 0, [], y, (b ++ [0]). cbn. split_and!; [done..|lia].
  - apply Forall_cons in Ha as [? _]. split; [split; [lia|done]|]. split; [lia|].
    intros _. exists [], 0, [], x, (a ++ [0]). cbn. split_and!; [done..|lia].
  - apply Forall_cons in Ha as [? Ha]. apply Forall_cons in Hb as [? Hb].
    destruct (decide (x = y)) as [->|Hne].
    + destruct (IH b Ha Hb) as (H1 & H2 & H3). split; [rewrite H1; split; congruence|].
      split; [intros (l & u & a' & v & b' & E1 & E2 & ?)%H2|intros (l & u & a' & v & b' & E1 & E2 & ?)%H3];
        exists (y :: l), u, a', v, b'; cbn; rewrite E1, E2; done.
    + split; [split; [lia|congruence]|]. split; intros ?;
        [exists [], x, (a ++ [0]), y, (b ++ [0])|exists [], y, (b ++ [0]), x, (a ++ [0])]; cbn;
        (split; [done|]; split; [done|lia]).
Qed.

Lemma strcmp_loop_spec a : forall b fuel m p q, (length a < fuel)%nat -> cstr m p a -> cstr m q b ->
  strcmp_loop fuel p q m = Ret (m, cmp_bytes a b).
Proof.
  induction a as [|x a IH]; intros b fuel m p q Hf Ha Hb; destruct fuel as [|fuel]; cbn [length] in *; try lia;
    cbn [strcmp_loop].
  - apply cstr_nil in Ha. rewrite (load_bind _ _ _ _ Ha), decide_True by done.
    destruct b as [|y b]; [apply cstr_nil in Hb|apply cstr_cons in Hb as (Hb & _)];
      by rewrite (load_bind _ _ _ _ Hb).
  - apply cstr_cons in Ha as (Hx & Hr & Ha). rewrite (load_bind _ _ _ _ Hx), decide_False by lia.
    destruct b as [|y b]; [apply cstr_nil in Hb|apply cstr_cons in Hb as (Hy & ? & Hb)].
    + rewrite (load_bind _ _ _ _ Hb), decide_False by lia. cbn. unfold mret, cmd_mret. do 2 f_equal. lia.
    + rewrite (load_bind _ _ _ _ Hy). cbn [cmp_bytes]. destruct (decide (x = y)); [|done].
      apply (IH b); [lia|done..].
Qed.

Lemma strcmp_run m p q a b : cstr m p a -> cstr m q b -> strcmp p q m = Ret (m, cmp_bytes a b).
Proof.
  intros Ha Hb. unfold strcmp. rewrite fuel_bind. pose proof (cstr_fuel _ _ _ Ha).
  apply strcmp_loop_spec; [lia|done..].
Qed.

Lemma strncmp_loop_spec n : forall a b m p q, cstr m p a -> cstr m q b ->
  strncmp_loop n p q m = Ret (m, cmp_bytes (take n a) (take n b)).
Proof.
  induction n as [|n IH]; intros a b m p q Ha Hb; [by destruct a, b|]. cbn [strncmp_loop].
  destruct a as [|x a].
  - apply cstr_nil in Ha. rewrite (load_bind _ _ _ _ Ha), decide_True by done.
    destruct b as [|y b]; [apply cstr_nil in Hb|apply cstr_cons in Hb as (Hb & _)];
      by rewrite (load_bind _ _ _ _ Hb).
  - apply cstr_cons in Ha as (Hx & Hr & Ha). rewrite (load_bind _ _ _ _ Hx), decide_False by lia.
    destruct b as [|y b]; [apply cstr_nil in Hb|apply cstr_cons in Hb as (Hy & ? & Hb)].
    + rewrite (load_bind _ _ _ _ Hb), decide_True by done. cbn. unfold mret, cmd_mret. do 2 f_equal. lia.
    + rewrite (load_bind _ _ _ _ Hy), decide_False by lia. cbn.
      destruct (decide (x = y)) as [->|]; [rewrite decide_False by tauto; by apply IH|by rewrite decide_True].
Qed.

Lemma strchr_loop_spec c s : forall fuel m p, (length s < fuel)%nat -> cstr m p s ->
  strchr_loop fuel p c m = Ret (m,
    match list_find (.= c) s with
    | Some (i, _) => p + Z.of_nat i
    | None => if decide (c = 0) then p + Z.of_nat (length s) else 0
    end).
Proof.
  induction s as [|b s IH]; intros fuel m p Hf Hs; destruct fuel as [|fuel]; cbn [length] in *; try lia;
    cbn [strchr_loop].
  - apply cstr_nil in Hs. rewrite (load_bind _ _ _ _ Hs), decide_True by done. cbn.
    rewrite Z.add_0_r. by destruct (decide (c = 0)).
  - apply cstr_cons in Hs as (Hb & Hr & Hs). rewrite (load_bind _ _ _ _ Hb), decide_False by lia.
    cbn [list_find]. destruct (decide (b = c)) as [->|Hne]; [by rewrite Z.add_0_r|].
    rewrite IH by (done || lia). destruct (list_find (.= c) s) as [[i ?]|]; cbn; do 2 f_equal.
    + lia.
    + destruct (decide (c = 0)); lia.
Qed.

Lemma strchr_run m p s c : cstr m p s -> is_u8 c ->
  strchr p c m = Ret (m,
    match list_find (.= c) s with
    | Some (i, _) => p + Z.of_nat i
    | None => if decide (c = 0) then p + Z.of_nat (length s) else 0
    end).
Proof.
  intros Hs Hc. unfold strchr. rewrite fuel_bind, u8_small by done. pose proof (cstr_fuel _ _ _ Hs).
  apply strchr_loop_spec; [lia|done].
Qed.

(** On a non-zero character and a string not at NULL, [strchr] is the
    membership test. *)
Lemma strchr_mem m p s c : cstr m p s -> 1 <= c < 256 -> 0 < p ->
  exists r, strchr p c m = Ret (m, r) /\ (r <> 0 <-> c ∈ s).
Proof.
  intros Hs Hc Hp. rewrite (strchr_run _ _ s) by (done || unfold is_u8; lia). eexists. split; [done|].
  destruct (list_find (.= c) s) as [[i x]|] eqn:E.
  - apply list_find_Some in E as (Hi & -> & _). split; [intros _; by eapply list_elem_of_lookup_2|lia].
  - rewrite decide_False by lia. apply list_find_None in E. rewrite Forall_forall in E.
    split; [lia|]. intros Hin. by destruct (E _ Hin).
Qed.

(** The scans of [strtok] stop at the end of the maximal prefix. *)
Lemma strtok_scan_spec (want : bool) d pre : forall rest fuel m p q,
  (length pre < fuel)%nat -> cstr m p (pre ++ rest) -> cstr m q d -> 0 < q ->
  Forall (fun c => c ∈ d <-> want = true) pre ->
  match rest with [] => True | c :: _ => ~ (c ∈ d <-> want = true) end ->
  strtok_scan fuel want p q m = Ret (m, p + Z.of_nat (length pre)).
Proof.
  induction pre as [|b pre IH]; intros rest fuel m p q Hf Hs Hd Hq Hpre Hrest;
    destruct fuel as [|fuel]; cbn [length app] in *; try lia; cbn [strtok_scan].
  - rewrite Z.add_0_r. destruct rest as [|c rest].
    + apply cstr_nil in Hs. by rewrite (load_bind _ _ _ _ Hs), decide_True by done.
    + apply cstr_cons in Hs as (Hb & Hr & Hs). rewrite (load_bind _ _ _ _ Hb), decide_False by lia.
      destruct (strchr_mem m q d c) as (r & Hrun & Hmem); [done..|].
      rewrite (cmd_bind_eq _ _ _ _ _ Hrun), decide_False; [done|].
      intros E. apply Hrest. rewrite <- Hmem, <- E. by rewrite bool_decide_eq_true.
  - apply cstr_cons in Hs as (Hb & Hr & Hs). rewrite (load_bind _ _ _ _ Hb), decide_False by lia.
    apply Forall_cons in Hpre as [Hbd Hpre].
    destruct (strchr_mem m q d b) as (r & Hrun & Hmem); [done..|].
    rewrite (cmd_bind_eq _ _ _ _ _ Hrun), decide_True.
    + rewrite (IH rest) by (done || lia). do 2 f_equal. lia.
    + rewrite <- Hmem in Hbd. destruct want; [by apply bool_decide_eq_true, Hbd|].
      apply bool_decide_eq_false. intros ?. by apply Hbd in H.
Qed.
End searching.

(** ** Properties *)

(** [strcpy] copies: afterwards the destination holds the string, whose
    length [strlen] reports, nothing else in memory has changed, and the
    source is intact. *)
Theorem strcpy_strlen_roundtrip m dest src s : cstr m src s ->
  mapped m dest (Z.of_nat (length s) + 1) -> dest <> 0 ->
  (dest + Z.of_nat (length s) < src \/ src + Z.of_nat (length s) < dest) ->
  exists m', strcpy dest src m = Ret (m', dest) /\ cstr m' dest s /\ cstr m' src s /\
    strlen dest m' = Ret (m', Z.of_nat (length s)) /\
    forall a, a < dest \/ dest + Z.of_nat (length s) < a -> m' !! a = m !! a.
Proof.
  intros Hs Hm Hnz Hd. exists (mwrite m dest (s ++ [0])).
  assert (Hout : forall a, a < dest \/ dest + Z.of_nat (length s) < a ->
    mwrite m dest (s ++ [0]) !! a = m !! a).
  { intros a Ha. apply mwrite_outside. rewrite length_app. cbn. lia. }
  assert (Hc : cstr (mwrite m dest (s ++ [0])) dest s) by (apply mwrite_cstr, Hs).
  split; [apply strcpy_spec; [done..|lia]|]. split; [done|]. split.
  - eapply cstr_ext; [|exact Hs]. intros a Ha. apply Hout. lia.
  - split; [by apply strlen_spec|done].
Qed.

(** [strcmp] decides equality and dictionary order of the two strings, and
    [strncmp] does so for their first [n] bytes. *)
Theorem strcmp_strncmp_order m p q a b n : cstr m p a -> cstr m q b -> 0 <= n ->
  exists r rn, strcmp p q m = Ret (m, r) /\ (r = 0 <-> a = b) /\
    (r < 0 -> lex_lt a b) /\ (0 < r -> lex_lt b a) /\
    strncmp p q n m = Ret (m, rn) /\
    (rn = 0 <-> take (Z.to_nat n) a = take (Z.to_nat n) b) /\
    (rn < 0 -> lex_lt (take (Z.to_nat n) a) (take (Z.to_nat n) b)) /\
    (0 < rn -> lex_lt (take (Z.to_nat n) b) (take (Z.to_nat n) a)).
Proof.
  intros Ha Hb Hn. exists (cmp_bytes a b), (cmp_bytes (take (Z.to_nat n) a) (take (Z.to_nat n) b)).
  destruct (cmp_bytes_lex a b) as (H1 & H2 & H3); [apply Ha|apply Hb|].
  destruct (cmp_bytes_lex (take (Z.to_nat n) a) (take (Z.to_nat n) b)) as (H4 & H5 & H6);
    [apply Forall_take, Ha|apply Forall_take, Hb|].
  split; [by apply strcmp_run|]. do 3 (split; [done|]). split; [|done].
  unfold strncmp. destruct (decide (n = 0)) as [->|]; [done|]. by apply strncmp_loop_spec.
Qed.

(** [strncpy] writes exactly [n] bytes: the first [n] of the string, then
    zeros up to [n]; the copy is unterminated when the string is not shorter. *)
Theorem strncpy_exact m dest src s n : cstr m src s -> 0 <= n -> mapped m dest n ->
  (dest + n <= src \/ src + Z.of_nat (length s) < dest) ->
  exists m', strncpy dest src n m = Ret (m', dest) /\
    bytes_at m' dest (padded (Z.to_nat n) s) /\ Z.of_nat (length (padded (Z.to_nat n) s)) = n /\
    (forall a, a < dest \/ dest + n <= a -> m' !! a = m !! a) /\
    (Z.of_nat (length s) < n -> cstr m' dest s).
Proof.
  intros Hs Hn Hm Hd. exists (mwrite m dest (padded (Z.to_nat n) s)).
  assert (Hlen : Z.of_nat (length (padded (Z.to_nat n) s)) = n).
  { unfold padded. rewrite length_app, length_take, length_replicate. lia. }
  split; [|split; [apply bytes_at_mwrite|split; [done|split]]].
  - unfold strncpy. erewrite cmd_bind_eq; [done|].
    rewrite (strncpy_loop_spec (Z.to_nat n) s); rewrite ?Z.add_0_r; try done; try lia.
    by rewrite Z2Nat.id.
  - intros a Ha. apply mwrite_outside. lia.
  - intros Hlt. split; [|apply Hs].
    assert (exists k, padded (Z.to_nat n) s = (s ++ [0]) ++ replicate k 0) as [k E].
    { exists (Z.to_nat n - length s - 1)%nat. unfold padded. rewrite take_ge by lia.
      rewrite <- app_assoc. f_equal.
      assert (Z.to_nat n - length s = S (Z.to_nat n - length s - 1))%nat as E by lia.
      rewrite E at 1. done. }
    pose proof (bytes_at_mwrite m dest (padded (Z.to_nat n) s)) as H. rewrite E in H at 2.
    by apply bytes_at_app in H as [H _].
Qed.

(** One call of [strtok]: it skips the delimiters [pre], returns the longest
    run [tok] of other characters, cuts it off with a terminator and remembers
    the string after it. *)
Theorem strtok_token m last str delim d pre tok rest : cstr m delim d -> 0 < delim -> 0 < str ->
  cstr m str (pre ++ tok ++ rest) ->
  Forall (fun c => c ∈ d) pre -> Forall (fun c => c ∉ d) tok -> tok <> [] ->
  match rest with [] => True | c :: _ => c ∈ d end ->
  (delim + Z.of_nat (length d) < str \/ str + Z.of_nat (length (pre ++ tok ++ rest)) < delim) ->
  let token := str + Z.of_nat (length pre) in
  let next := token + Z.of_nat (length tok) in
  exists m', strtok last str delim m = Ret (m', (token, if decide (rest = []) then 0 else next + 1)) /\
    cstr m' token tok /\ cstr m' delim d /\
    (forall a, a <> next -> m' !! a = m !! a) /\
    (rest <> [] -> cstr m' (next + 1) (tail rest)).
Proof.
  intros Hd Hdp Hsp Hs Hpre Htok Hne Hrest Hdis token next.
  pose proof (cstr_fuel _ _ _ Hs) as Hf. rewrite !length_app in Hf.
  assert (Hs2 : cstr m token (tok ++ rest)).
  { destruct Hs as [Hb Hfa]. rewrite <- app_assoc in Hb. apply bytes_at_app in Hb as [_ Hb].
    apply Forall_app in Hfa as [_ Hfa]. done. }
  assert (Hs3 : cstr m next rest).
  { destruct Hs2 as [Hb Hfa]. rewrite <- app_assoc in Hb. apply bytes_at_app in Hb as [_ Hb].
    apply Forall_app in Hfa as [_ Hfa]. done. }
  assert (Htokb : bytes_at m token tok /\ Forall (fun b => 1 <= b < 256) tok).
  { destruct Hs2 as [Hb Hfa]. rewrite <- app_assoc in Hb. apply bytes_at_app in Hb as [Hb _].
    by apply Forall_app in Hfa as [? _]. }
  destruct Htokb as [Htb Htr].
  assert (E1 : strtok_scan (S (size m)) true str delim m = Ret (m, token)).
  { apply (strtok_scan_spec true d pre (tok ++ rest)); try done; [lia| |].
    - eapply Forall_impl; [exact Hpre|]. cbn. tauto.
    - destruct tok as [|c tok]; [done|]. cbn. apply Forall_cons in Htok as [? _]. tauto. }
  assert (E2 : strtok_scan (S (size m)) false token delim m = Ret (m, next)).
  { apply (strtok_scan_spec false d tok rest); try done; [lia| |].
    - eapply Forall_impl; [exact Htok|]. cbn. intros x Hx. split; [tauto|done].
    - destruct rest as [|c rest]; [done|]. intros [H _]. by specialize (H Hrest). }
  assert (Hc0 : exists c, m !! token = Some c /\ c <> 0).
  { destruct tok as [|c tok]; [done|]. apply cstr_cons in Hs2 as (? & ? & _). exists c. split; [done|lia]. }
  destruct Hc0 as (c0 & Hc0 & Hc0z).
  unfold strtok. rewrite (decide_False (P := str = 0)) by lia. cbn zeta. rewrite decide_False by lia.
  rewrite fuel_bind, (cmd_bind_eq _ _ _ _ _ E1), (load_bind _ _ _ _ Hc0), decide_False by done.
  rewrite (cmd_bind_eq _ _ _ _ _ E2). destruct rest as [|c rest].
  - apply cstr_nil in Hs3. rewrite (load_bind _ _ _ _ Hs3), decide_False by tauto.
    exists m. rewrite decide_True by done. split; [done|]. rewrite app_nil_r in Hs2. by split_and!.
  - apply cstr_cons in Hs3 as (Hc & Hr & Hs3). rewrite (load_bind _ _ _ _ Hc), decide_True by lia.
    rewrite store_bind by (done || by eexists). exists (<[next := 0]> m).
    rewrite decide_False by done. split; [done|].
    rewrite !length_app in Hdis. cbn [length] in Hdis. split; [|split; [|split]].
    + split; [|done]. apply bytes_at_app. split.
      * eapply bytes_at_ext; [|exact Htb]. intros a Ha. apply lookup_insert_ne. unfold next. lia.
      * cbn. split; [apply lookup_insert_eq|done].
    + eapply cstr_ext; [|exact Hd]. intros a Ha. apply lookup_insert_ne. unfold next, token. lia.
    + intros a Ha. by apply lookup_insert_ne.
    + intros _. cbn. eapply cstr_ext; [|exact Hs3]. intros a Ha. apply lookup_insert_ne. lia.
Qed.

(** ** Numbers *)

(** The number a list of decimal digits denotes, most significant first, and
    least significant first. *)
Definition dec_value (l : list Z) : Z := foldl (fun n d => n * 10 + (d - 48)) 0 l.
Fixpoint lsd_value (l : list Z) : Z :=
  match l with [] => 0 | d :: l' => (d - 48) + 10 * lsd_value l' end.
Definition is_digit (c : Z) : Prop := 48 <= c <= 57.

Section numbers.
Implicit Types m : mem.

Lemma dec_value_reverse l : dec_value (reverse l) = lsd_value l.
Proof.
  unfold dec_value. induction l as [|d l IH]; [done|].
  rewrite reverse_cons, foldl_app. cbn. rewrite IH. lia.
Qed.

Lemma its_digit d : 0 <= d < 10 -> zget its_digits d = Some (48 + d).
Proof.
  intros H. assert (Hc : d = 0 \/ d = 1 \/ d = 2 \/ d = 3 \/ d = 4 \/ d = 5 \/ d = 6 \/ d = 7 \/ d = 8 \/ d = 9) by lia.
  repeat destruct Hc as [->|Hc]; try reflexivity. by subst.
Qed.

Lemma its_convert_spec k : forall fuel m num ptr start precision, (k < fuel)%nat ->
  0 <= num < 10 ^ Z.of_nat (S k) -> start <= ptr -> precision <= 1 -> mapped m ptr (Z.of_nat (S k)) ->
  exists l, its_convert fuel num 10 0 ptr start precision m = Ret (mwrite m ptr l, ptr + Z.of_nat (length l)) /\
    lsd_value l = num /\ Forall is_digit l /\ (1 <= length l <= S k)%nat.
Proof.
  induction k as [|k IH]; intros fuel m num ptr start precision Hf Hnum Hs Hp Hm;
    (destruct fuel as [|fuel]; [lia|]); cbn [its_convert];
    rewrite (decide_False (P := 10 = 0)) by done; rewrite (decide_False (P := 0 <> 0)) by lia;
    rewrite Z.rem_mod_nonneg, Z.quot_div_nonneg by lia; cbn zeta;
    pose proof (Z.mod_pos_bound num 10 ltac:(lia)) as Hmod; rewrite its_digit by done; cbn [deref];
    erewrite (cmd_bind_eq (lift _)) by reflexivity;
    rewrite store_bind by (try (apply Hm; lia); unfold is_u8; lia).
  - change (10 ^ Z.of_nat 1) with 10 in Hnum. rewrite (Z.div_small num), decide_False by lia.
    exists [48 + num mod 10]. cbn. rewrite Z.mod_small by lia.
    split; [done|]. split; [lia|]. split; [repeat constructor; unfold is_digit; lia|lia].
  - destruct (decide (num / 10 > 0 \/ ptr + 1 - start < precision)) as [[Hgt|?]|Hle]; [|lia|].
    + destruct (IH fuel (<[ptr := 48 + num mod 10]> m) (num / 10) (ptr + 1) start precision)
        as (l & Hrun & Hv & Hd & Hlen); [lia| |lia|done| |].
      * split; [lia|]. apply Z.div_lt_upper_bound; [lia|].
        replace (10 * 10 ^ Z.of_nat (S k)) with (10 ^ Z.of_nat (S (S k))); [lia|].
        rewrite (Nat2Z.inj_succ (S k)), Z.pow_succ_r; lia.
      * apply mapped_insert. intros a Ha. apply Hm. lia.
      * exists ((48 + num mod 10) :: l). cbn [mwrite length lsd_value]. rewrite Hrun. split; [do 2 f_equal; lia|].
        split; [rewrite Hv; pose proof (Z.div_mod num 10); lia|]. split; [|lia].
        constructor; [unfold is_digit; lia|done].
    + exists [48 + num mod 10]. cbn. assert (num / 10 <= 0) by lia.
      assert (0 <= num / 10) by (apply Z.div_pos; lia).
      split; [done|]. split; [pose proof (Z.div_mod num 10); lia|].
      split; [repeat constructor; unfold is_digit; lia|lia].
Qed.

(** Reversal in place. *)
Lemma its_reverse_spec n : forall l fuel m left, (length l <= n)%nat -> (length l < 2 * fuel)%nat ->
  bytes_at m left l -> Forall is_u8 l ->
  exists m', its_reverse fuel left (left + Z.of_nat (length l) - 1) m = Ret (m', tt) /\
    bytes_at m' left (reverse l) /\
    forall a, a < left \/ left + Z.of_nat (length l) <= a -> m' !! a = m !! a.
Proof.
  induction n as [|n IH]; intros l fuel m left Hn Hf Hl Hu; destruct fuel as [|fuel]; try lia; cbn [its_reverse].
  - destruct l; [|cbn in Hn; lia]. rewrite decide_False by (cbn; lia). by exists m.
  - destruct l as [|x l]; [rewrite decide_False by (cbn; lia); by exists m|].
    destruct l as [|y l _] using rev_ind; [rewrite decide_False by (cbn; lia); by exists m|].
    cbn [length] in *. rewrite length_app in *. cbn [length] in *.
    rewrite decide_True by lia. destruct Hl as [Hx Hl]. apply bytes_at_app in Hl as [Hl [Hy _]].
    apply Forall_cons in Hu as [Hxu Hu]. apply Forall_app in Hu as [Hu [Hyu _]%Forall_cons].
    set (right := left + Z.of_nat (S (length l + 1)) - 1).
    assert (Hy' : m !! right = Some y) by (rewrite <- Hy; f_equal; unfold right; lia).
    rewrite (load_bind _ _ _ _ Hx), (load_bind _ _ _ _ Hy').
    rewrite store_bind by (done || by eexists).
    rewrite store_bind by (try done; rewrite lookup_insert_ne by (unfold right; lia); by eexists).
    set (m1 := <[right := x]> (<[left := y]> m)).
    destruct (IH l fuel m1 (left + 1)) as (m' & Hrun & Hb & Hout); [lia|lia| |done|].
    { eapply bytes_at_ext; [|exact Hl]. intros a Ha. unfold m1, right.
      rewrite !lookup_insert_ne by lia. done. }
    exists m'. replace (right - 1) with (left + 1 + Z.of_nat (length l) - 1) by (unfold right; lia).
    split; [done|]. split.
    + rewrite reverse_cons, reverse_snoc. cbn. split.
      * rewrite Hout by lia. unfold m1, right. rewrite lookup_insert_ne by lia. apply lookup_insert_eq.
      * apply bytes_at_app. split; [done|]. cbn. split; [|done].
        rewrite length_reverse, Hout by lia. unfold m1.
        replace (left + 1 + Z.of_nat (length l)) with right by (unfold right; lia). apply lookup_insert_eq.
    + intros a Ha. rewrite Hout by lia. unfold m1, right. rewrite !lookup_insert_ne by lia. done.
Qed.
End numbers.

(** The call, step by step. *)
Lemma int_to_string_run m num buffer precision : - 2147483648 < num < 2147483648 ->
  precision <= 1 -> (num = 0 -> precision <> 0) ->
  mapped m (buffer - 1) 12 ->
  let neg := if decide (num < 0) then 1 else 0 in
  exists m' l, int_to_string num buffer 10 0 0 precision 0 m = Ret (m', Z.of_nat (length l) + neg) /\
    Forall is_digit l /\ dec_value l = Z.abs num /\ (1 <= length l <= 10)%nat /\
    bytes_at m' buffer (l ++ [0]) /\ (num < 0 -> m' !! (buffer - 1) = Some 45) /\
    forall a, a < buffer - neg \/ buffer + Z.of_nat (length l) < a -> m' !! a = m !! a.
Proof.
  intros Hnum Hp Hz Hm neg. unfold int_to_string. rewrite decide_False by tauto.
  set (negative := bool_decide (num < 0 /\ 10 = 10)).
  assert (Eneg : negative = bool_decide (num < 0)) by (apply bool_decide_ext; tauto).
  assert (Eabs : (if negative then s32 (- num) else num) = Z.abs num).
  { rewrite Eneg. case_bool_decide; [unfold s32; zdm|lia]. }
  rewrite Eabs. cbn zeta. rewrite (decide_False (P := _ /\ _)) by (intros [? _]; done).
  rewrite (cmd_bind_eq _ _ m m (buffer, 0) eq_refl).
  destruct (its_convert_spec 9 (its_fuel precision) m (Z.abs num) buffer (buffer + 0) precision)
    as (l & Hrun & Hv & Hd & Hlen).
  { unfold its_fuel. lia. } { change (10 ^ Z.of_nat 10) with 10000000000. lia. } { lia. } { done. }
  { intros a Ha. apply Hm. lia. }
  rewrite (cmd_bind_eq _ _ _ _ _ Hrun). set (m1 := mwrite m buffer l).
  set (ptr := buffer + Z.of_nat (length l)).
  rewrite (decide_False (P := 0 > ptr - buffer)) by (unfold ptr; lia).
  change (has_flag 0 1) with false. change (has_flag 0 2) with false. change (has_flag 0 4) with false.
  cbn [its_pad_left Z.to_nat]. rewrite (cmd_bind_eq _ _ m1 m1 buffer eq_refl).
  assert (Hm1 : forall a, buffer - 1 <= a < buffer + 11 -> is_Some (m1 !! a)).
  { intros a Ha. unfold m1. rewrite lookup_mwrite. destruct (decide (buffer <= a < buffer + Z.of_nat (length l))); [|apply Hm; lia].
    apply lookup_lt_is_Some_2. lia. }
  set (m2 := if negative then <[buffer - 1 := 45]> m1 else m1).
  rewrite (cmd_bind_eq _ _ m1 m2 (buffer - neg)).
  2:{ unfold m2, neg. rewrite Eneg. case_bool_decide.
      - rewrite decide_True by done. rewrite store_bind; [done|apply Hm1; lia|done].
      - rewrite decide_False by done. by rewrite Z.sub_0_r. }
  rewrite (decide_False (P := _ /\ _)) by (intros [? _]; done).
  cbn [its_pad_right Z.to_nat]. rewrite (cmd_bind_eq _ _ m2 m2 ptr eq_refl).
  assert (Eleft : buffer - neg + (if negative || false || false then 1 else 0) + 0 = buffer).
  { unfold neg. rewrite Eneg, !orb_false_r. case_bool_decide; [rewrite decide_True by done|rewrite decide_False by done]; lia. }
  rewrite Eleft, Z.sub_0_r.
  assert (Hb2 : bytes_at m2 buffer l).
  { unfold m2. destruct negative; [|apply bytes_at_mwrite].
    eapply bytes_at_ext; [|apply bytes_at_mwrite]. intros a Ha. apply lookup_insert_ne. lia. }
  destruct (its_reverse_spec (length l) l (S (Z.to_nat (ptr - 1 - buffer))) m2 buffer)
    as (m3 & Hrev & Hb3 & Hout3); [done|unfold ptr; lia|done| |].
  { eapply Forall_impl; [exact Hd|]. unfold is_digit, is_u8. lia. }
  fold ptr in Hrev. rewrite (cmd_bind_eq _ _ _ _ _ Hrev).
  assert (Hm2 : forall a, a <> buffer - 1 -> m2 !! a = m1 !! a).
  { intros a Ha. unfold m2. destruct negative; [|done]. by apply lookup_insert_ne. }
  rewrite store_bind; [|rewrite Hout3, Hm2 by (unfold ptr; lia); apply Hm1; unfold ptr; lia|done].
  exists (<[ptr := 0]> m3), (reverse l). rewrite length_reverse.
  split; [unfold mret, cmd_mret; do 2 f_equal; unfold ptr; lia|].
  split; [by apply Forall_reverse|]. split; [by rewrite dec_value_reverse|]. split; [lia|].
  split; [|split].
  - apply bytes_at_app. rewrite length_reverse. fold ptr. split; [|split; [apply lookup_insert_eq|done]].
    eapply bytes_at_ext; [|exact Hb3]. intros a Ha. rewrite length_reverse in Ha.
    apply lookup_insert_ne. unfold ptr. lia.
  - intros Hlt. rewrite lookup_insert_ne by (unfold ptr; lia). rewrite Hout3 by lia.
    unfold m2. rewrite Eneg, bool_decide_eq_true_2 by done. apply lookup_insert_eq.
  - intros a Ha. fold ptr in Ha. assert (0 <= neg <= 1) by (unfold neg; destruct (decide (num < 0)); lia).
    rewrite lookup_insert_ne by (unfold ptr in *; lia). rewrite Hout3 by (unfold ptr in *; lia).
    unfold m2. rewrite Eneg. unfold neg in Ha. case_bool_decide.
    + rewrite decide_True in Ha by done. rewrite lookup_insert_ne by (unfold ptr in *; lia).
      apply mwrite_outside. unfold ptr in *. lia.
    + rewrite decide_False in Ha by done. apply mwrite_outside. unfold ptr in *. lia.
Qed.

(** C4. [int_to_string] in base 10 without a field width and without flags, with a
    precision of at most 1 (and not 0 when the number is 0), writes the decimal
    numeral of every number but INT_MIN: the digits fill the buffer from its start,
    their value is the number's magnitude, and for a negative number the sign is put
    in the byte before the buffer. The result is the length written. With a width
    and zero padding the digits come out otherwise ([int_to_string_zero_padding]). *)
Theorem int_to_string_decimal m num buffer precision : - 2147483648 < num < 2147483648 ->
  precision <= 1 -> (num = 0 -> precision <> 0) ->
  mapped m (buffer - 1) 12 ->
  let neg := if decide (num < 0) then 1 else 0 in
  exists m' l, int_to_string num buffer 10 0 0 precision 0 m = Ret (m', Z.of_nat (length l) + neg) /\
    Forall is_digit l /\ dec_value l = Z.abs num /\ (1 <= length l <= 10)%nat /\
    bytes_at m' buffer (l ++ [0]) /\ (num < 0 -> m' !! (buffer - 1) = Some 45) /\
    forall a, a < buffer - neg \/ buffer + Z.of_nat (length l) < a -> m' !! a = m !! a.
Proof. apply int_to_string_run. Qed.

(** With zero padding the padding is reversed along with the digits: 12 in a
    field of five is written as "12000". *)
Definition pad_memory : mem := mwrite ∅ 1000 (replicate 20 0).
Lemma int_to_string_zero_padding :
  exists m, int_to_string 12 1008 10 0 5 1 0x08 pad_memory = Ret (m, 5) /\
    bytes_at m 1005 [49; 50; 48; 48; 48; 0].
Proof.
  destruct (int_to_string 12 1008 10 0 5 1 0x08 pad_memory) as [[m r]| |] eqn:E;
    vm_compute in E; try discriminate E.
  injection E as <- <-. eexists. split; [reflexivity|]. vm_compute. tauto.
Qed.

(** ** strdup over an allocator

    What [strdup] needs of [malloc]: NULL, or the address of [n] mapped bytes
    away from the rest of the string's memory, which keeps its contents. *)
Class Allocator (malloc : Z -> M Z) : Prop := {
  malloc_returns : forall n m, 0 <= n -> exists m' p, malloc n m = Ret (m', p) /\
    (p = 0 \/ (0 < p /\ mapped m' p n /\ forall a, p <= a < p + n -> m !! a = None)) /\
    forall a b, m !! a = Some b -> m' !! a = Some b
}.

(** [strdup] makes an independent copy of the string, or returns NULL when
    the allocator has no memory; the original is intact either way. *)
Theorem strdup_copies malloc `{Allocator malloc} m p s : cstr m p s -> p <> 0 ->
  Z.of_nat (length s) + 1 < 4294967296 ->
  exists m' q, strdup malloc p m = Ret (m', q) /\ cstr m' p s /\
    (q = 0 \/ (cstr m' q s /\ (q + Z.of_nat (length s) < p \/ p + Z.of_nat (length s) < q))).
Proof.
  intros Hs Hp Hlen. unfold strdup. rewrite decide_False by done.
  rewrite (cmd_bind_eq _ _ _ _ _ (strlen_spec _ _ _ Hs Hp)), u32_small by (unfold is_u32; lia).
  destruct (malloc_returns (Z.of_nat (length s) + 1) m) as (m1 & q & Hrun & Hq & Hkeep); [lia|].
  rewrite (cmd_bind_eq _ _ _ _ _ Hrun).
  assert (Hs1 : cstr m1 p s).
  { eapply cstr_ext; [|exact Hs]. intros a Ha.
    destruct (bytes_at_mapped _ _ _ (proj1 Hs) a) as [b Hb]; [rewrite length_app; cbn; lia|].
    by rewrite Hb, (Hkeep _ _ Hb). }
  destruct Hq as [->|(Hqp & Hqm & Hqn)].
  { rewrite decide_False by tauto. exists m1, 0. split; [done|]. by split; [|left]. }
  assert (Hdis : q + Z.of_nat (length s) < p \/ p + Z.of_nat (length s) < q).
  { destruct (decide (q + Z.of_nat (length s) < p)); [by left|].
    destruct (decide (p + Z.of_nat (length s) < q)); [by right|]. exfalso.
    destruct (bytes_at_mapped _ _ _ (proj1 Hs) (Z.max p q)) as [b Hb]; [rewrite length_app; cbn; lia|].
    rewrite Hqn in Hb; [done|lia]. }
  rewrite decide_True by lia. exists (mwrite m1 q (s ++ [0])), q. split; [|split].
  - erewrite (cmd_bind_eq (_ ≫= _)); [done|].
    rewrite (cmd_bind_eq _ _ _ _ _ (strcpy_spec m1 q p s Hs1 Hqm ltac:(lia))). done.
  - eapply cstr_ext; [|exact Hs1]. intros a Ha. apply mwrite_outside. rewrite length_app. cbn. lia.
  - right. split; [apply mwrite_cstr, Hs|done].
Qed.

(** ** snprintf *)

Section formatting.
Implicit Types m : mem.

Lemma mwrite_snoc m p l b : mwrite m p (l ++ [b]) = <[p + Z.of_nat (length l) := b]> (mwrite m p l).
Proof.
  revert m p. induction l as [|x l IH]; intros m p; cbn [app mwrite length]; [by rewrite Z.add_0_r|].
  rewrite IH. f_equal. lia.
Qed.

Lemma mwrite_insert m p l a b : a < p \/ p + Z.of_nat (length l) <= a -> mwrite (<[a := b]> m) p l = <[a := b]> (mwrite m p l).
Proof.
  revert m p. induction l as [|x l IH]; intros m p Ha; cbn [mwrite length] in *; [done|].
  rewrite insert_insert_ne by lia. apply IH. lia.
Qed.

Lemma mwrite_app m p l1 l2 : mwrite m p (l1 ++ l2) = mwrite (mwrite m p l1) (p + Z.of_nat (length l1)) l2.
Proof.
  revert m p. induction l1 as [|x l1 IH]; intros m p; cbn [app mwrite length]; [by rewrite Z.add_0_r|].
  rewrite IH. f_equal. lia.
Qed.

Lemma mapped_mwrite m p l q n : mapped m q n -> mapped (mwrite m p l) q n.
Proof. revert m p. induction l as [|b l IH]; intros m p Hm; cbn [mwrite]; [done|]. apply IH. by apply mapped_insert. Qed.

(** The decimal digits of a number, as both loops of snprintf count and write them. *)
Lemma digits_run k : forall num, 0 <= num < 10 ^ Z.of_nat (S k) ->
  exists l, Forall is_digit l /\ dec_value l = num /\ (1 <= length l <= S k)%nat /\
    (forall fuel n m, (k < fuel)%nat -> count_digits fuel num n m = Ret (m, n + Z.of_nat (length l))) /\
    (forall fuel p m, (k < fuel)%nat -> mapped m p (Z.of_nat (length l)) ->
       put_digits fuel (p + Z.of_nat (length l)) num m = Ret (mwrite m p l, tt)).
Proof.
  induction k as [|k IH]; intros num Hnum.
  - change (10 ^ Z.of_nat 1) with 10 in Hnum. exists [48 + num]. split; [repeat constructor; unfold is_digit; lia|].
    split; [unfold dec_value; cbn; lia|]. split; [cbn; lia|]. assert (Hq : Z.quot num 10 = 0) by (apply Z.quot_small; lia). split.
    + intros [|fuel] n m Hf; [lia|]. cbn [count_digits]. rewrite Hq, decide_False by lia. done.
    + intros [|fuel] p m Hf Hm; [lia|]. cbn [put_digits length] in *. rewrite Hq, decide_False by lia. rewrite Z.rem_small by lia.
      replace (p + Z.of_nat 1 - 1) with p by lia. by rewrite store_bind by (try apply Hm; unfold is_u8; lia).
  - rewrite Nat2Z.inj_succ, Z.pow_succ_r in Hnum by lia.
    destruct (decide (num < 10)) as [Hsmall|Hbig].
    { destruct (IH num) as (l & H1 & H2 & H3 & H4 & H5).
      { split; [lia|]. apply Z.lt_le_trans with 10; [done|]. rewrite Nat2Z.inj_succ, Z.pow_succ_r by lia.
        pose proof (Z.pow_pos_nonneg 10 (Z.of_nat k) ltac:(lia) ltac:(lia)). lia. }
      exists l. repeat split; try done; try lia; [intros; apply H4; lia|intros; apply H5; [lia|done]]. }
    assert (Eq : Z.quot num 10 = num / 10) by (apply Z.quot_div_nonneg; lia).
    assert (Er : Z.rem num 10 = num mod 10) by (apply Z.rem_mod_nonneg; lia).
    assert (Hq : 0 < num / 10 < 10 ^ Z.of_nat (S k)) by (split; [zdm|apply Z.div_lt_upper_bound; lia]).
    pose proof (Z.mod_pos_bound num 10 ltac:(lia)) as Hr.
    destruct (IH (num / 10)) as (l & H1 & H2 & H3 & H4 & H5); [lia|]. exists (l ++ [48 + num mod 10]). rewrite length_app. cbn [length].
    split; [apply Forall_app; split; [done|repeat constructor; unfold is_digit; lia]|].
    split; [unfold dec_value in *; rewrite foldl_app, H2; cbn; pose proof (Z.div_mod num 10); lia|]. split; [lia|]. split.
    + intros [|fuel] n m Hf; [lia|]. cbn [count_digits]. rewrite Eq, decide_True by lia. rewrite H4 by lia. do 2 f_equal. lia.
    + intros [|fuel] p m Hf Hm; [lia|]. cbn [put_digits]. rewrite Eq, Er, decide_True by lia.
      replace (p + Z.of_nat (length l + 1) - 1) with (p + Z.of_nat (length l)) by lia.
      rewrite store_bind; [|apply Hm; lia|unfold is_u8; lia]. rewrite H5; [|lia|intros a Ha; apply (mapped_insert _ _ _ _ _ Hm); lia].
      by rewrite mwrite_snoc, mwrite_insert by lia.
Qed.

(** Plain characters of a format are copied. *)
Lemma snprintf_plain c : forall fuel size str f written m args, (length c < fuel)%nat -> Forall (fun x => 1 <= x < 256 /\ x <> 37) c ->
  written + Z.of_nat (length c) < size - 1 -> mapped m str (Z.of_nat (length c)) -> bytes_at m f c ->
  str + Z.of_nat (length c) <= f \/ f + Z.of_nat (length c) <= str ->
  snprintf_loop fuel size str f written args m =
  snprintf_loop (fuel - length c) size (str + Z.of_nat (length c)) (f + Z.of_nat (length c)) (written + Z.of_nat (length c)) args (mwrite m str c).
Proof.
  induction c as [|x c IH]; intros fuel size str f written m args Hf Hc Hw Hm Hat Hap; cbn [length] in *.
  { rewrite Nat.sub_0_r, !Z.add_0_r. done. }
  destruct fuel as [|fuel]; [lia|]. apply Forall_cons in Hc as [[Hx H37] Hc]. destruct Hat as [Hb Hat].
  cbn [snprintf_loop Nat.sub mwrite]. rewrite (load_bind _ _ _ _ Hb). rewrite (decide_False (P := x = 0 \/ _)) by lia.
  rewrite (decide_False (P := x = 37)) by done. rewrite ret_bind. rewrite store_bind by (try apply Hm; unfold is_u8; lia).
  rewrite (IH fuel); [|lia|done|lia| | |lia].
  - replace (str + 1 + Z.of_nat (length c)) with (str + Z.of_nat (S (length c))) by lia.
    replace (f + 1 + Z.of_nat (length c)) with (f + Z.of_nat (S (length c))) by lia.
    by replace (written + 1 + Z.of_nat (length c)) with (written + Z.of_nat (S (length c))) by lia.
  - intros a Ha. apply (mapped_insert _ _ _ _ _ Hm). lia.
  - eapply bytes_at_ext; [|exact Hat]. intros a Ha. apply lookup_insert_ne. lia.
Qed.

(** A format of plain characters and one number. *)
Lemma snprintf_number m str size f c num : str <> 0 -> 0 <= num < 2147483648 -> Forall (fun x => 1 <= x < 256 /\ x <> 37) c ->
  bytes_at m f (c ++ [37; 100; 0]) -> mapped m str (Z.of_nat (length c) + 11) -> Z.of_nat (length c) + 11 < size ->
  str + Z.of_nat (length c) + 11 <= f \/ f + Z.of_nat (length c) + 3 <= str ->
  exists l, Forall is_digit l /\ dec_value l = num /\ (1 <= length l <= 10)%nat /\
    snprintf str size f [num] m = Ret (mwrite m str (c ++ l ++ [0]), Z.of_nat (length c + length l)).
Proof.
  intros Hstr Hnum Hc Hf Hm Hsize Hap. destruct (digits_run 9 num) as (l & H1 & H2 & H3 & Hcount & Hput); [cbn; lia|].
  exists l. split; [done|]. split; [done|]. split; [done|]. unfold snprintf. rewrite decide_False by lia. rewrite fuel_bind.
  apply bytes_at_app in Hf as [Hfc (Hf1 & Hf2 & Hf3 & _)]. pose proof (mapped_size _ _ _ Hm) as Hfuel.
  set (n := Z.of_nat (length c)) in *. set (m1 := mwrite m str c). set (m2 := mwrite m1 (str + n) l).
  assert (E1 : forall a, f <= a < f + n + 3 -> m1 !! a = m !! a) by (intros a Ha; apply mwrite_outside; lia).
  assert (E2 : forall a, f <= a < f + n + 3 -> m2 !! a = m !! a) by (intros a Ha; unfold m2; rewrite mwrite_outside by lia; by apply E1).
  assert (Hm1 : mapped m1 str (n + 11)) by by apply mapped_mwrite.
  assert (Hm2 : mapped m2 str (n + 11)) by by apply mapped_mwrite.
  rewrite (cmd_bind_eq _ _ m m2 (str + n + Z.of_nat (length l), n + Z.of_nat (length l))).
  - rewrite store_bind; [|apply Hm2; lia|unfold is_u8; lia].
    rewrite mwrite_app. fold n m1. rewrite mwrite_snoc. fold m2. unfold mret, cmd_mret. do 2 f_equal. lia.
  - rewrite (snprintf_plain c); [|lia|done|lia|intros a Ha; apply Hm; lia|done|lia]. fold n m1. rewrite Z.add_0_l.
    destruct (S (stdpp.base.size m) - length c)%nat as [|[|fuel]] eqn:Ef; [lia|lia|]. cbn [snprintf_loop].
    rewrite (load_bind m1 (f + n) 37) by (rewrite E1; [done|lia]). rewrite decide_False by lia.
    rewrite (decide_True (P := 37 = 37)) by done. rewrite (cmd_bind_eq _ _ m1 m1 true).
    2:{ rewrite (load_bind m1 _ 100) by (rewrite E1; [done|lia]). done. }
    rewrite (cmd_bind_eq _ _ m1 m1 (str + n, n, num)) by by rewrite decide_False by lia.
    rewrite (cmd_bind_eq _ _ _ _ _ (Hcount digit_fuel 0 m1 ltac:(unfold digit_fuel; lia))), decide_False by lia. rewrite Z.add_0_l.
    rewrite (cmd_bind_eq _ _ m1 m2 tt).
    2:{ apply Hput; [unfold digit_fuel; lia|]. intros a Ha. apply Hm1. lia. }
    rewrite (load_bind m2 _ 0) by (replace (f + n + 2) with (f + n + 1 + 1) by lia; rewrite E2; [done|lia]).
    by rewrite decide_True by by left.
Qed.
End formatting.

(** ** Witnesses *)

(** " ab c" at 100, the delimiter " " at 150, zeros from 200 on. *)
Definition demo : mem :=
  mwrite (mwrite (mwrite ∅ 100 [32; 97; 98; 32; 99; 0]) 150 [32; 0]) 200 (replicate 20 0).

Lemma demo_str : cstr demo 100 [32; 97; 98; 32; 99].
Proof. split; [vm_compute; tauto|repeat constructor; lia]. Qed.
Lemma demo_delim : cstr demo 150 [32].
Proof. split; [vm_compute; tauto|repeat constructor; lia]. Qed.
Lemma demo_room : mapped demo 200 20.
Proof. apply (bytes_at_mapped _ _ (replicate 20 0)), bytes_at_mwrite. Qed.
Lemma demo_room_at p n : 200 <= p -> p + n <= 220 -> mapped demo p n.
Proof. intros ? ? a Ha. apply demo_room. lia. Qed.

Lemma strcpy_strlen_roundtrip_witness :
  exists m', strcpy 200 100 demo = Ret (m', 200) /\ strlen 200 m' = Ret (m', 5).
Proof.
  destruct (strcpy_strlen_roundtrip demo 200 100 [32; 97; 98; 32; 99] demo_str) as (m' & H1 & _ & _ & H2 & _);
    [apply demo_room_at; cbn; lia|lia|cbn; lia|]. exists m'. exact (conj H1 H2).
Defined.

Lemma strcmp_strncmp_order_witness : exists r, strcmp 100 150 demo = Ret (demo, r) /\ r <> 0.
Proof.
  destruct (strcmp_strncmp_order demo 100 150 _ _ 1 demo_str demo_delim) as (r & rn & H1 & H2 & _); [lia|].
  exists r. split; [exact H1|]. intros E. apply H2 in E. discriminate E.
Defined.

Lemma strncpy_exact_witness : exists m', strncpy 200 100 8 demo = Ret (m', 200) /\
  cstr m' 200 [32; 97; 98; 32; 99].
Proof.
  destruct (strncpy_exact demo 200 100 _ 8 demo_str) as (m' & H1 & _ & _ & _ & H2);
    [lia|apply demo_room_at; lia|cbn; lia|]. exists m'. split; [exact H1|]. apply H2. cbn. lia.
Defined.

Lemma strtok_token_witness : exists m', strtok 0 100 150 demo = Ret (m', (101, 104)) /\
  cstr m' 101 [97; 98] /\ cstr m' 104 [99].
Proof.
  destruct (strtok_token demo 0 100 150 [32] [32] [97; 98] [32; 99] demo_delim)
    as (m' & H1 & H2 & _ & _ & H3); try lia; try (cbn; lia).
  - apply demo_str.
  - repeat constructor.
  - repeat constructor; rewrite list_elem_of_singleton; lia.
  - discriminate.
  - constructor.
  - exists m'. split; [exact H1|]. split; [exact H2|]. apply H3. discriminate.
Defined.

Lemma int_to_string_decimal_witness : exists m' l, int_to_string (-42) 205 10 0 0 1 0 demo = Ret (m', Z.of_nat (length l) + 1) /\
  dec_value l = 42.
Proof.
  destruct (int_to_string_decimal demo (-42) 205 1) as (m' & l & H1 & _ & H2 & _);
    [lia|lia|lia|apply demo_room_at; lia|]. exists m', l. exact (conj H1 H2).
Defined.

(** A bump allocator over the bytes above everything mapped. *)
Definition bump_malloc (n : Z) : M Z := fun m =>
  let p := 1 + foldr Z.max 0 (elements (dom m)) in
  Ret (mwrite m p (replicate (Z.to_nat n) 0), p).

Lemma bump_allocator : Allocator bump_malloc.
Proof.
  split. intros n m Hn. set (p := 1 + foldr Z.max 0 (elements (dom m))).
  assert (Hfresh : forall a b, m !! a = Some b -> a < p).
  { intros a b Hb. pose proof (max_list_ge (elements (dom m)) a) as H. unfold p.
    assert (a <= foldr Z.max 0 (elements (dom m))); [|lia].
    apply H, elem_of_elements, elem_of_dom. by eexists. }
  exists (mwrite m p (replicate (Z.to_nat n) 0)), p. split; [done|]. split.
  - right. assert (0 <= foldr Z.max 0 (elements (dom m))).
    { generalize (elements (dom m)). intros l. induction l; cbn; lia. }
    split; [unfold p; lia|]. split.
    + intros a Ha. rewrite lookup_mwrite, length_replicate, decide_True by lia.
      rewrite lookup_replicate_2 by lia. by eexists.
    + intros a Ha. destruct (m !! a) eqn:E; [|done]. specialize (Hfresh _ _ E). lia.
  - intros a b Hb. rewrite mwrite_outside; [done|]. left. by eapply Hfresh.
Qed.

Lemma strdup_copies_witness : exists m' q, strdup bump_malloc 100 demo = Ret (m', q) /\
  cstr m' 100 [32; 97; 98; 32; 99].
Proof.
  destruct (@strdup_copies bump_malloc bump_allocator demo 100 _ demo_str) as (m' & q & H1 & H2 & _);
    [lia|cbn; lia|]. exists m', q. exact (conj H1 H2).
Defined.
