(* ===== verification/Process.v ===== *)
(** * Processes and the scheduler (src/kernel/multitask/process.c, process.h)

    Process control blocks live in a map from addresses to [Process] records;
    the queues are singly linked through [p_next] and sorted by pid. Walks over
    a queue are bounded by one more than the number of control blocks.

    The heap, the page directories and the [int $0x20] instruction belong to
    other components: they are operations of the class [Kernel], and the
    theorems use only its laws. [kernel_printf] lines are left out. *)
From S2P Require Import Prelude Bitmap Chain CString Gdt.

Definition PROCESS_MAX_COUNT : Z := 64.
Definition KERNEL_STACK_SIZE : Z := 4096.
Definition USER_STACK_SIZE : Z := 8192.
Definition USER_STACK_BASE : Z := 0x80000000.
Definition MAX_PRIORITY_LEVELS : Z := 16.
Definition TIME_SLICE_BASE : Z := 10.

Inductive ProcessState : Set :=
| PROCESS_CREATED | PROCESS_READY | PROCESS_RUNNING
| PROCESS_BLOCKED | PROCESS_WAITING | PROCESS_TERMINATED.
#[export] Instance ProcessState_eq_dec : EqDecision ProcessState.
Proof. solve_decision. Defined.

(** PrivilegeLevel: KERNEL_MODE = 0, USER_MODE = 3. *)
Definition KERNEL_MODE : Z := 0.
Definition USER_MODE : Z := 3.

Record RegisterState := mkRegs {
  r_eax : Z; r_ebx : Z; r_ecx : Z; r_edx : Z; r_esi : Z; r_edi : Z; r_ebp : Z;
  r_error : Z; r_eip : Z; r_cs : Z; r_eflags : Z; r_esp : Z; r_ss : Z
}.
(** Thirteen packed words. *)
Definition sizeof_RegisterState : Z := 52.

Record Process := mkProcess {
  p_pid : Z; p_name : list Z; p_state : ProcessState; p_privilege : Z; p_priority : Z;
  p_base_priority : Z; p_time_slice : Z; p_total_runtime : Z; p_wakeup_time : Z;
  p_regs : Z; p_kernel_stack : Z; p_kernel_stack_size : Z; p_user_stack : Z;
  p_user_stack_size : Z; p_parent_pid : Z; p_page_directory : Z; p_memory_regions : Z;
  p_argc : Z; p_argv : Z; p_exit_code : Z; p_syscall_result : Z; p_last_tick : Z;
  p_entry_point : Z; p_next : Z
}.

(** Field updates. *)
Definition set_state v p := mkProcess
  (p_pid p) (p_name p) v (p_privilege p) (p_priority p) (p_base_priority p) (p_time_slice p)
    (p_total_runtime p) (p_wakeup_time p) (p_regs p) (p_kernel_stack p)
    (p_kernel_stack_size p) (p_user_stack p) (p_user_stack_size p) (p_parent_pid p)
    (p_page_directory p) (p_memory_regions p) (p_argc p) (p_argv p) (p_exit_code p)
    (p_syscall_result p) (p_last_tick p) (p_entry_point p) (p_next p).
Definition set_priority v p := mkProcess
  (p_pid p) (p_name p) (p_state p) (p_privilege p) v (p_base_priority p) (p_time_slice p)
    (p_total_runtime p) (p_wakeup_time p) (p_regs p) (p_kernel_stack p)
    (p_kernel_stack_size p) (p_user_stack p) (p_user_stack_size p) (p_parent_pid p)
    (p_page_directory p) (p_memory_regions p) (p_argc p) (p_argv p) (p_exit_code p)
    (p_syscall_result p) (p_last_tick p) (p_entry_point p) (p_next p).
Definition set_time_slice v p := mkProcess
  (p_pid p) (p_name p) (p_state p) (p_privilege p) (p_priority p) (p_base_priority p) v
    (p_total_runtime p) (p_wakeup_time p) (p_regs p) (p_kernel_stack p)
    (p_kernel_stack_size p) (p_user_stack p) (p_user_stack_size p) (p_parent_pid p)
    (p_page_directory p) (p_memory_regions p) (p_argc p) (p_argv p) (p_exit_code p)
    (p_syscall_result p) (p_last_tick p) (p_entry_point p) (p_next p).
Definition set_total_runtime v p := mkProcess
  (p_pid p) (p_name p) (p_state p) (p_privilege p) (p_priority p) (p_base_priority p)
    (p_time_slice p) v (p_wakeup_time p) (p_regs p) (p_kernel_stack p)
    (p_kernel_stack_size p) (p_user_stack p) (p_user_stack_size p) (p_parent_pid p)
    (p_page_directory p) (p_memory_regions p) (p_argc p) (p_argv p) (p_exit_code p)
    (p_syscall_result p) (p_last_tick p) (p_entry_point p) (p_next p).
Definition set_wakeup_time v p := mkProcess
  (p_pid p) (p_name p) (p_state p) (p_privilege p) (p_priority p) (p_base_priority p)
    (p_time_slice p) (p_total_runtime p) v (p_regs p) (p_kernel_stack p)
    (p_kernel_stack_size p) (p_user_stack p) (p_user_stack_size p) (p_parent_pid p)
    (p_page_directory p) (p_memory_regions p) (p_argc p) (p_argv p) (p_exit_code p)
    (p_syscall_result p) (p_last_tick p) (p_entry_point p) (p_next p).
Definition set_regs v p := mkProcess
  (p_pid p) (p_name p) (p_state p) (p_privilege p) (p_priority p) (p_base_priority p)
    (p_time_slice p) (p_total_runtime p) (p_wakeup_time p) v (p_kernel_stack p)
    (p_kernel_stack_size p) (p_user_stack p) (p_user_stack_size p) (p_parent_pid p)
    (p_page_directory p) (p_memory_regions p) (p_argc p) (p_argv p) (p_exit_code p)
    (p_syscall_result p) (p_last_tick p) (p_entry_point p) (p_next p).
Definition set_kernel_stack v p := mkProcess
  (p_pid p) (p_name p) (p_state p) (p_privilege p) (p_priority p) (p_base_priority p)
    (p_time_slice p) (p_total_runtime p) (p_wakeup_time p) (p_regs p) v
    (p_kernel_stack_size p) (p_user_stack p) (p_user_stack_size p) (p_parent_pid p)
    (p_page_directory p) (p_memory_regions p) (p_argc p) (p_argv p) (p_exit_code p)
    (p_syscall_result p) (p_last_tick p) (p_entry_point p) (p_next p).
Definition set_kernel_stack_size v p := mkProcess
  (p_pid p) (p_name p) (p_state p) (p_privilege p) (p_priority p) (p_base_priority p)
    (p_time_slice p) (p_total_runtime p) (p_wakeup_time p) (p_regs p) (p_kernel_stack p) v
    (p_user_stack p) (p_user_stack_size p) (p_parent_pid p) (p_page_directory p)
    (p_memory_regions p) (p_argc p) (p_argv p) (p_exit_code p) (p_syscall_result p)
    (p_last_tick p) (p_entry_point p) (p_next p).
Definition set_user_stack v p := mkProcess
  (p_pid p) (p_name p) (p_state p) (p_privilege p) (p_priority p) (p_base_priority p)
    (p_time_slice p) (p_total_runtime p) (p_wakeup_time p) (p_regs p) (p_kernel_stack p)
    (p_kernel_stack_size p) v (p_user_stack_size p) (p_parent_pid p) (p_page_directory p)
    (p_memory_regions p) (p_argc p) (p_argv p) (p_exit_code p) (p_syscall_result p)
    (p_last_tick p) (p_entry_point p) (p_next p).
Definition set_user_stack_size v p := mkProcess
  (p_pid p) (p_name p) (p_state p) (p_privilege p) (p_priority p) (p_base_priority p)
    (p_time_slice p) (p_total_runtime p) (p_wakeup_time p) (p_regs p) (p_kernel_stack p)
    (p_kernel_stack_size p) (p_user_stack p) v (p_parent_pid p) (p_page_directory p)
    (p_memory_regions p) (p_argc p) (p_argv p) (p_exit_code p) (p_syscall_result p)
    (p_last_tick p) (p_entry_point p) (p_next p).
Definition set_page_directory v p := mkProcess
  (p_pid p) (p_name p) (p_state p) (p_privilege p) (p_priority p) (p_base_priority p)
    (p_time_slice p) (p_total_runtime p) (p_wakeup_time p) (p_regs p) (p_kernel_stack p)
    (p_kernel_stack_size p) (p_user_stack p) (p_user_stack_size p) (p_parent_pid p) v
    (p_memory_regions p) (p_argc p) (p_argv p) (p_exit_code p) (p_syscall_result p)
    (p_last_tick p) (p_entry_point p) (p_next p).
Definition set_memory_regions v p := mkProcess
  (p_pid p) (p_name p) (p_state p) (p_privilege p) (p_priority p) (p_base_priority p)
    (p_time_slice p) (p_total_runtime p) (p_wakeup_time p) (p_regs p) (p_kernel_stack p)
    (p_kernel_stack_size p) (p_user_stack p) (p_user_stack_size p) (p_parent_pid p)
    (p_page_directory p) v (p_argc p) (p_argv p) (p_exit_code p) (p_syscall_result p)
    (p_last_tick p) (p_entry_point p) (p_next p).
Definition set_exit_code v p := mkProcess
  (p_pid p) (p_name p) (p_state p) (p_privilege p) (p_priority p) (p_base_priority p)
    (p_time_slice p) (p_total_runtime p) (p_wakeup_time p) (p_regs p) (p_kernel_stack p)
    (p_kernel_stack_size p) (p_user_stack p) (p_user_stack_size p) (p_parent_pid p)
    (p_page_directory p) (p_memory_regions p) (p_argc p) (p_argv p) v (p_syscall_result p)
    (p_last_tick p) (p_entry_point p) (p_next p).
Definition set_entry_point v p := mkProcess
  (p_pid p) (p_name p) (p_state p) (p_privilege p) (p_priority p) (p_base_priority p)
    (p_time_slice p) (p_total_runtime p) (p_wakeup_time p) (p_regs p) (p_kernel_stack p)
    (p_kernel_stack_size p) (p_user_stack p) (p_user_stack_size p) (p_parent_pid p)
    (p_page_directory p) (p_memory_regions p) (p_argc p) (p_argv p) (p_exit_code p)
    (p_syscall_result p) (p_last_tick p) v (p_next p).
Definition set_next v p := mkProcess
  (p_pid p) (p_name p) (p_state p) (p_privilege p) (p_priority p) (p_base_priority p)
    (p_time_slice p) (p_total_runtime p) (p_wakeup_time p) (p_regs p) (p_kernel_stack p)
    (p_kernel_stack_size p) (p_user_stack p) (p_user_stack_size p) (p_parent_pid p)
    (p_page_directory p) (p_memory_regions p) (p_argc p) (p_argv p) (p_exit_code p)
    (p_syscall_result p) (p_last_tick p) (p_entry_point p) v.

Record ProcessManager := mkPM {
  processes : list Z; process_bitmap : list Z; next_pid : Z; ready_queues : list Z; blocked_queue : Z;
  terminated_queue : Z; current_process : Z; active_processes : Z; system_ticks : Z; mgr_gdt : Z
}.
Definition set_processes v m := mkPM v (process_bitmap m) (next_pid m) (ready_queues m)
    (blocked_queue m) (terminated_queue m) (current_process m) (active_processes m) (system_ticks m)
    (mgr_gdt m).
Definition set_process_bitmap v m := mkPM (processes m) v (next_pid m) (ready_queues m)
    (blocked_queue m) (terminated_queue m) (current_process m) (active_processes m) (system_ticks m)
    (mgr_gdt m).
Definition set_ready_queues v m := mkPM (processes m) (process_bitmap m) (next_pid m) v
    (blocked_queue m) (terminated_queue m) (current_process m) (active_processes m) (system_ticks m)
    (mgr_gdt m).
Definition set_blocked_queue v m := mkPM (processes m) (process_bitmap m) (next_pid m)
    (ready_queues m) v (terminated_queue m) (current_process m) (active_processes m) (system_ticks
    m) (mgr_gdt m).
Definition set_terminated_queue v m := mkPM (processes m) (process_bitmap m) (next_pid m)
    (ready_queues m) (blocked_queue m) v (current_process m) (active_processes m) (system_ticks m)
    (mgr_gdt m).
Definition set_current_process v m := mkPM (processes m) (process_bitmap m) (next_pid m)
    (ready_queues m) (blocked_queue m) (terminated_queue m) v (active_processes m) (system_ticks m)
    (mgr_gdt m).
Definition set_active_processes v m := mkPM (processes m) (process_bitmap m) (next_pid m)
    (ready_queues m) (blocked_queue m) (terminated_queue m) (current_process m) v (system_ticks m)
    (mgr_gdt m).
Definition set_system_ticks v m := mkPM (processes m) (process_bitmap m) (next_pid m)
    (ready_queues m) (blocked_queue m) (terminated_queue m) (current_process m) (active_processes m)
    v (mgr_gdt m).

(** 23 words and the 32-byte name. *)
Definition sizeof_Process : Z := 124.
Definition zero_process : Process :=
  mkProcess 0 (replicate 32 0) PROCESS_CREATED 0 0 0 0 0 0 0 0 0 0 0 0 0 0 0 0 0 0 0 0 0.

(** [pm_set]: the global [process_manager] is not NULL. [regs_mem] holds the
    register frames and [region_next] the [next] fields of memory regions that
    [create_process] writes. *)
Record pstate := mkPstate {
  pm_set : bool; mgr : ProcessManager; procs : gmap Z Process;
  regs_mem : gmap Z RegisterState; region_next : gmap Z Z
}.
Abbreviation P := (cmd pstate).

Definition with_mgr f s := mkPstate (pm_set s) (f (mgr s)) (procs s) (regs_mem s) (region_next s).
Definition with_procs f s := mkPstate (pm_set s) (mgr s) (f (procs s)) (regs_mem s) (region_next s).
Definition with_regs f s := mkPstate (pm_set s) (mgr s) (procs s) (f (regs_mem s)) (region_next s).
Definition with_regions f s := mkPstate (pm_set s) (mgr s) (procs s) (regs_mem s) (f (region_next s)).

Definition rdp (a : Z) : P Process := h ← gets procs; lift (deref (h !! a)).
Definition wrp (a : Z) (f : Process -> Process) : P unit :=
  p ← rdp a; modify (with_procs (insert a (f p))).
Definition walk_fuel : P nat := gets (fun s => S (size (procs s))).
Definition getm {A} (f : ProcessManager -> A) : P A := gets (fun s => f (mgr s)).
Definition putm (f : ProcessManager -> ProcessManager) : P unit := modify (with_mgr f).

(** ** PIDs *)

Definition find_free_pid : P Z :=
  bm ← getm process_bitmap;
  r ← lift (bm_find_clear 8 bm 0 (Z.to_nat PROCESS_MAX_COUNT));
  mret (default 4294967295 r).

Definition set_pid_in_use (pid : Z) (in_use : bool) : P unit :=
  if decide (pid < PROCESS_MAX_COUNT) then
    bm ← getm process_bitmap;
    bm' ← lift (if in_use then bm_set 8 bm pid else bm_clear 8 bm pid);
    putm (set_process_bitmap bm')
  else mret tt.

(** ** Queues: a [Process**] is one of these fields of the manager. *)
Inductive queue : Set := Ready (i : Z) | Blocked | Terminated.

Definition get_queue (q : queue) : P Z :=
  match q with
  | Ready i => l ← getm ready_queues; lift (deref (zget l i))
  | Blocked => getm blocked_queue
  | Terminated => getm terminated_queue
  end.
Definition put_queue (q : queue) (v : Z) : P unit :=
  match q with
  | Ready i => l ← getm ready_queues; l' ← lift (deref (zset l i v)); putm (set_ready_queues l')
  | Blocked => putm (set_blocked_queue v)
  | Terminated => putm (set_terminated_queue v)
  end.

(** while (current && test(current)) { prev = current; current = current->next; } *)
Fixpoint queue_walk (fuel : nat) (test : Process -> bool) (prev current : Z) : P (Z * Z) :=
  match fuel with
  | O => spin
  | S fuel' =>
      if decide (current = 0) then mret (prev, current) else
      c ← rdp current;
      if test c then queue_walk fuel' test current (p_next c) else mret (prev, current)
  end.

Definition enqueue_process (q : queue) (process : Z) : P unit :=
  head ← get_queue q;
  if decide (head = 0) then put_queue q process;; wrp process (set_next 0) else
  p ← rdp process;
  fuel ← walk_fuel;
  '(prev, current) ← queue_walk fuel (fun c => bool_decide (p_pid c < p_pid p)) 0 head;
  (if decide (prev <> 0) then wrp prev (set_next process) else put_queue q process);;
  wrp process (set_next current).

Definition dequeue_process (q : queue) : P Z :=
  head ← get_queue q;
  if decide (head = 0) then mret 0 else
  f ← rdp head;
  put_queue q (p_next f);;
  wrp head (set_next 0);;
  mret head.

Definition remove_process_from_queue (q : queue) (pid : Z) : P Z :=
  head ← get_queue q;
  if decide (head = 0) then mret 0 else
  fuel ← walk_fuel;
  '(prev, current) ← queue_walk fuel (fun c => bool_decide (p_pid c <> pid)) 0 head;
  if decide (current = 0) then mret 0 else
  c ← rdp current;
  (if decide (prev <> 0) then wrp prev (set_next (p_next c)) else put_queue q (p_next c));;
  wrp current (set_next 0);;
  mret current.

(** ** Other components *)

(** What process.c calls: the heap, the page directories, the timer interrupt
    and the entry point of a process. *)
Class Kernel := {
  malloc : Z -> P Z;
  free : Z -> P unit;
  pd_create : P Z;
  pd_destroy : Z -> P unit;
  pd_switch : Z -> P unit;
  vmm_allocate_pages : Z -> Z -> Z -> Z -> P Z;
  vmm_create_memory_region : Z -> Z -> Z -> Z -> P Z;
  int20 : P unit;
  call_entry : Z -> Z -> Z -> P Z;
  process_wrapper_addr : Z
}.

(** ** The manager *)

Definition process_manager_init (gdt : Z) : P unit :=
  modify (fun s => mkPstate true
    (mkPM (replicate 64 0) (replicate 8 0) 1 (replicate 16 0) 0 0 0 0 0 gdt)
    (procs s) (regs_mem s) (region_next s)).

Section manager.
Context `{Kernel}.

Definition PTE_USER_STACK : Z := Z.lor (Z.lor 0x001 0x002) 0x004.
Definition MEMORY_STACK : Z := 4.

(** The user stack of [create_process]; [false] when it could not be had. *)
Definition create_user_stack (process : Z) : P bool :=
  wrp process (set_user_stack_size USER_STACK_SIZE);;
  p ← rdp process;
  let user_stack_virtual := u32 (USER_STACK_BASE - p_user_stack_size p) in
  r ← vmm_allocate_pages (p_page_directory p) user_stack_virtual (p_user_stack_size p) PTE_USER_STACK;
  if decide (r <> 0) then mret false else
  stack_region ← vmm_create_memory_region user_stack_virtual (p_user_stack_size p)
                   PTE_USER_STACK MEMORY_STACK;
  (if decide (stack_region <> 0) then
     p ← rdp process;
     modify (with_regions (insert stack_region (p_memory_regions p)));;
     wrp process (set_memory_regions stack_region)
   else mret tt);;
  wrp process (set_user_stack user_stack_virtual);;
  mret true.

Definition initial_regs (entry argc argv privilege regs : Z) : RegisterState :=
  let seg (sel : Z) := Z.lor (Z.shiftl sel 3) (Z.land privilege 3) in
  let '(cs, ss) :=
    if decide (privilege = USER_MODE) then (seg get_user_code_selector, seg get_user_data_selector)
    else (seg get_code_selector, seg get_data_selector) in
  mkRegs entry (u32 argc) argv 0 0 0 0 0 process_wrapper_addr cs 0x202 regs ss.

(** The end of [create_process]: the first register frame, the table, the ready queue. *)
Definition start_process (process pid kstack entry argc argv privilege : Z) : P unit :=
  let regs := u32 (kstack + KERNEL_STACK_SIZE - sizeof_RegisterState) in
  wrp process (set_regs regs);;
  wrp process (set_entry_point entry);;
  modify (with_regs (insert regs (initial_regs entry argc argv privilege regs)));;
  l ← getm processes; l' ← lift (deref (zset l pid process)); putm (set_processes l');;
  set_pid_in_use pid true;;
  n ← getm active_processes; putm (set_active_processes (u32 (n + 1)));;
  wrp process (set_state PROCESS_READY);;
  p ← rdp process;
  enqueue_process (Ready (p_priority p)) process.

(** [name] is the string passed, or None for NULL. *)
Definition unnamed : list Z := [117; 110; 110; 97; 109; 101; 100].

Definition create_process (name : option (list Z)) (entry argc argv privilege priority : Z) : P Z :=
  a ← gets pm_set;
  if decide (a = false \/ entry = 0) then mret 4294967295 else
  pid ← find_free_pid;
  if decide (pid = 4294967295) then mret 4294967295 else
  process ← malloc sizeof_Process;
  if decide (process = 0) then mret 4294967295 else
  cur ← getm current_process;
  parent ← (if decide (cur <> 0) then c ← rdp cur; mret (p_pid c) else mret 0);
  let base_priority := if decide (priority > MAX_PRIORITY_LEVELS - 1)
                       then MAX_PRIORITY_LEVELS - 1 else priority in
  modify (with_procs (insert process
    (mkProcess pid (padded 31 (default unnamed name) ++ [0]) PROCESS_CREATED privilege
       base_priority base_priority (TIME_SLICE_BASE * (MAX_PRIORITY_LEVELS - base_priority)) 0 0
       0 0 0 0 0 parent 0 0 argc argv 0 0 0 0 0)));;
  pd ← pd_create;
  wrp process (set_page_directory pd);;
  if decide (pd = 0) then free process;; mret 4294967295 else
  wrp process (set_kernel_stack_size KERNEL_STACK_SIZE);;
  kstack ← malloc KERNEL_STACK_SIZE;
  wrp process (set_kernel_stack kstack);;
  if decide (kstack = 0) then pd_destroy pd;; free process;; mret 4294967295 else
  ok ← (if decide (privilege = USER_MODE) then create_user_stack process else mret true);
  if decide (ok = false) then
    pd_destroy pd;; free kstack;; free process;; mret 4294967295 else
  start_process process pid kstack entry argc argv privilege;;
  mret pid.

(** Look a pid up in the table, as every operation on a pid starts. *)
Definition lookup_process (pid : Z) : P Z :=
  a ← gets pm_set;
  if decide (a = false \/ PROCESS_MAX_COUNT <= pid) then mret 0 else
  l ← getm processes; lift (deref (zget l pid)).

Definition terminate_process (pid exit_code : Z) : P unit :=
  process ← lookup_process pid;
  if decide (process = 0) then mret tt else
  wrp process (set_state PROCESS_TERMINATED);;
  wrp process (set_exit_code exit_code);;
  p ← rdp process;
  cur ← getm current_process;
  (if decide (p_state p = PROCESS_READY) then
     remove_process_from_queue (Ready (p_priority p)) pid;; mret tt
   else if decide (p_state p = PROCESS_BLOCKED) then
     remove_process_from_queue Blocked pid;; mret tt
   else if decide (process = cur) then putm (set_current_process 0) else mret tt);;
  enqueue_process Terminated process;;
  cur ← getm current_process;
  if decide (process = cur) then int20 else mret tt.

Definition block_process (pid wait_time : Z) : P unit :=
  process ← lookup_process pid;
  if decide (process = 0) then mret tt else
  p ← rdp process;
  cur ← getm current_process;
  if decide (p_state p <> PROCESS_READY /\ process <> cur) then mret tt else
  (if decide (p_state p = PROCESS_READY) then
     remove_process_from_queue (Ready (p_priority p)) pid;; mret tt
   else if decide (process = cur) then putm (set_current_process 0) else mret tt);;
  wrp process (set_state PROCESS_BLOCKED);;
  ticks ← getm system_ticks;
  wrp process (set_wakeup_time (u32 (ticks + wait_time)));;
  enqueue_process Blocked process;;
  cur ← getm current_process;
  if decide (process = cur) then int20 else mret tt.

Definition unblock_process (pid : Z) : P unit :=
  process ← lookup_process pid;
  if decide (process = 0) then mret tt else
  p ← rdp process;
  if decide (p_state p <> PROCESS_BLOCKED) then mret tt else
  remove_process_from_queue Blocked pid;;
  wrp process (set_state PROCESS_READY);;
  p ← rdp process;
  enqueue_process (Ready (p_priority p)) process.

Definition yield_cpu : P unit :=
  a ← gets pm_set; cur ← getm current_process;
  if decide (a = false \/ cur = 0) then mret tt else int20.

(** ** The scheduler *)

Definition requeue_current (esp : Z) : P unit :=
  cur ← getm current_process;
  if decide (cur = 0) then mret tt else
  c ← rdp cur;
  if decide (p_state c <> PROCESS_RUNNING) then mret tt else
  wrp cur (set_regs esp);;
  c ← rdp cur;
  if decide (p_time_slice c > 0) then
    wrp cur (set_state PROCESS_READY);;
    enqueue_process (Ready (p_priority c)) cur
  else
    (if decide (p_priority c < MAX_PRIORITY_LEVELS - 1)
     then wrp cur (fun c => set_priority (p_priority c + 1) c) else mret tt);;
    wrp cur (fun c => set_time_slice (u32 (TIME_SLICE_BASE * (MAX_PRIORITY_LEVELS - p_priority c))) c);;
    wrp cur (set_state PROCESS_READY);;
    c ← rdp cur;
    enqueue_process (Ready (p_priority c)) cur.

(** for (i = 0; i < MAX_PRIORITY_LEVELS && !next_process; i++) next = dequeue(queue i) *)
Fixpoint pick_next (n : nat) (i : Z) : P Z :=
  match n with
  | O => mret 0
  | S n' =>
      p ← dequeue_process (Ready i);
      if decide (p = 0) then pick_next n' (i + 1) else mret p
  end.

(** The process chosen runs, in its own address space. *)
Definition dispatch (next : Z) : P Z :=
  wrp next (set_state PROCESS_RUNNING);;
  putm (set_current_process next);;
  p ← rdp next;
  (if decide (p_page_directory p <> 0) then pd_switch (p_page_directory p) else mret tt);;
  p ← rdp next;
  mret (p_regs p).

Definition schedule (esp : Z) : P Z :=
  a ← gets pm_set;
  if decide (a = false) then mret esp else
  requeue_current esp;;
  next ← pick_next 16 0;
  if decide (next = 0) then putm (set_current_process 0);; mret esp else dispatch next.

(** ** The timer tick *)

Fixpoint wake_loop (fuel : nat) (current : Z) : P unit :=
  match fuel with
  | O => spin
  | S fuel' =>
      if decide (current = 0) then mret tt else
      c ← rdp current;
      ticks ← getm system_ticks;
      (if decide (p_wakeup_time c > 0 /\ p_wakeup_time c <= ticks)
       then unblock_process (p_pid c) else mret tt);;
      wake_loop fuel' (p_next c)
  end.

Fixpoint reap_loop (fuel : nat) (current : Z) : P unit :=
  match fuel with
  | O => spin
  | S fuel' =>
      if decide (current = 0) then mret tt else
      c ← rdp current;
      (if decide (p_user_stack c <> 0) then free (p_user_stack c) else mret tt);;
      free (p_kernel_stack c);;
      free current;;
      f ← rdp current;
      l ← getm processes; l' ← lift (deref (zset l (p_pid f) 0)); putm (set_processes l');;
      set_pid_in_use (p_pid f) false;;
      n ← getm active_processes; putm (set_active_processes (u32 (n - 1)));;
      reap_loop fuel' (p_next c)
  end.

(** The running process pays for the tick. *)
Definition charge_current : P unit :=
  cur ← getm current_process;
  if decide (cur = 0) then mret tt else
  c ← rdp cur;
  if decide (p_state c <> PROCESS_RUNNING) then mret tt else
  wrp cur (fun c => set_time_slice (u32 (p_time_slice c - 1)) c);;
  wrp cur (fun c => set_total_runtime (u32 (p_total_runtime c + 1)) c);;
  c ← rdp cur;
  if decide (p_time_slice c <= 0) then int20 else mret tt.

Definition process_manager_tick : P unit :=
  a ← gets pm_set;
  if decide (a = false) then mret tt else
  t ← getm system_ticks; putm (set_system_ticks (u32 (t + 1)));;
  charge_current;;
  head ← getm blocked_queue;
  fuel ← walk_fuel;
  wake_loop fuel head;;
  t ← getm system_ticks;
  if decide (t mod 100 = 0) then
    head ← getm terminated_queue;
    fuel ← walk_fuel;
    reap_loop fuel head;;
    putm (set_terminated_queue 0)
  else mret tt.

(** ** Queries and the start of a process *)

Definition get_process (pid : Z) : P Z := lookup_process pid.

Definition get_current_pid : P Z :=
  a ← gets pm_set; cur ← getm current_process;
  if decide (a = false \/ cur = 0) then mret 4294967295 else c ← rdp cur; mret (p_pid c).

(** A process starts here; it never returns: the loop after its termination
    halts. With no current process its pid is read through NULL. *)
Definition process_wrapper : P unit :=
  cur ← getm current_process;
  if decide (cur = 0) then c ← rdp cur; terminate_process (p_pid c) (-1) else
  c ← rdp cur;
  if decide (p_entry_point c = 0) then terminate_process (p_pid c) (-1) else
  code ← call_entry (p_entry_point c) (p_argc c) (p_argv c);
  c ← rdp cur;
  terminate_process (p_pid c) code;;
  spin.
End manager.

(** ** Representation of the queues *)

Definition next_of (h : gmap Z Process) (a : Z) : option Z := p_next <$> h !! a.
Definition pid_of (h : gmap Z Process) (a : Z) : Z := default 0 (p_pid <$> h !! a).

(** Everything but the link. *)
Definition same_but_next (h h' : gmap Z Process) : Prop :=
  forall a, set_next 0 <$> h' !! a = set_next 0 <$> h !! a.

Fixpoint pid_sorted (h : gmap Z Process) (l : list Z) : Prop :=
  match l with
  | [] => True
  | a :: l' => Forall (fun b => pid_of h a < pid_of h b) l' /\ pid_sorted h l'
  end.

#[export] Instance queue_eq_dec : EqDecision queue.
Proof. solve_decision. Defined.

Definition valid_queue (q : queue) : Prop := match q with Ready i => 0 <= i < 16 | _ => True end.

(** The head of a queue, and the manager with that head replaced. *)
Definition qhead (m : ProcessManager) (q : queue) : option Z :=
  match q with
  | Ready i => zget (ready_queues m) i
  | Blocked => Some (blocked_queue m)
  | Terminated => Some (terminated_queue m)
  end.
Definition qset (q : queue) (v : Z) (m : ProcessManager) : ProcessManager :=
  match q with
  | Ready i => set_ready_queues (<[Z.to_nat i := v]> (ready_queues m)) m
  | Blocked => set_blocked_queue v m
  | Terminated => set_terminated_queue v m
  end.

(** What the state of a process in a queue is. *)
Definition queue_state (q : queue) (p : Process) : Prop :=
  match q with
  | Ready i => p_state p = PROCESS_READY /\ p_priority p = i
  | Blocked => p_state p = PROCESS_BLOCKED
  | Terminated => p_state p = PROCESS_TERMINATED
  end.

(** What moves between queues leave of the manager. *)
Definition still (m m' : ProcessManager) : Prop :=
  processes m' = processes m /\ process_bitmap m' = process_bitmap m /\ system_ticks m' = system_ticks m.

(** The state with new manager and control blocks. *)
Definition upd (s : pstate) (m : ProcessManager) (h : gmap Z Process) : pstate :=
  mkPstate (pm_set s) m h (regs_mem s) (region_next s).

Section walks.
Implicit Types s : pstate.
Implicit Types h : gmap Z Process.

Lemma rdp_run s a p : procs s !! a = Some p -> rdp a s = Ret (s, p).
Proof. intros H. unfold rdp, mbind, cmd_mbind, gets, lift. by rewrite H. Qed.

Lemma rdp_bind {A} s a p (k : Process -> P A) : procs s !! a = Some p -> (rdp a ≫= k) s = k p s.
Proof. intros H. by rewrite (cmd_bind_eq _ _ _ _ _ (rdp_run _ _ _ H)). Qed.

Lemma wrp_run s a f p : procs s !! a = Some p ->
  wrp a f s = Ret (with_procs (insert a (f p)) s, tt).
Proof. intros H. unfold wrp. by rewrite (rdp_bind _ _ _ _ H). Qed.

Lemma wrp_bind {A} s a f p (k : unit -> P A) : procs s !! a = Some p ->
  (wrp a f ≫= k) s = k tt (with_procs (insert a (f p)) s).
Proof. intros H. by rewrite (cmd_bind_eq _ _ _ _ _ (wrp_run _ _ _ _ H)). Qed.

Lemma getm_bind {A B} s (f : ProcessManager -> A) (k : A -> P B) : (getm f ≫= k) s = k (f (mgr s)) s.
Proof. done. Qed.

Lemma putm_bind {A} s f (k : unit -> P A) : (putm f ≫= k) s = k tt (with_mgr f s).
Proof. done. Qed.

Lemma get_queue_bind {A} s q v (k : Z -> P A) : qhead (mgr s) q = Some v -> (get_queue q ≫= k) s = k v s.
Proof.
  intros H. destruct q; cbn in H; [|by simplify_eq..].
  unfold get_queue, mbind, cmd_mbind, getm, gets. by rewrite H.
Qed.

Lemma put_queue_run s q v u : qhead (mgr s) q = Some u ->
  put_queue q v s = Ret (with_mgr (qset q v) s, tt).
Proof.
  intros H. destruct q; cbn in H; [|done..]. pose proof (zget_Some_range _ _ _ H).
  unfold put_queue, mbind, cmd_mbind, getm, gets. by rewrite zset_Some.
Qed.

Lemma qhead_qset q v m u : qhead m q = Some u -> qhead (qset q v m) q = Some v.
Proof.
  destruct q; cbn; [|done..]. intros H. pose proof (zget_Some_range _ _ _ H).
  rewrite zget_lookup by lia. apply list_lookup_insert_eq. lia.
Qed.

Lemma qhead_qset_ne q q' v m : q <> q' -> valid_queue q -> valid_queue q' ->
  qhead (qset q v m) q' = qhead m q'.
Proof.
  intros Hne. destruct q, q'; cbn; try done. intros. rewrite !zget_lookup by lia.
  apply list_lookup_insert_ne. intros ?. apply Hne. f_equal. lia.
Qed.

Lemma qset_id q v m : qhead m q = Some v -> qset q v m = m.
Proof.
  destruct q; cbn; [|intros [= <-]; by destruct m..]. intros H.
  pose proof (zget_Some_range _ _ _ H). rewrite zget_lookup in H by lia.
  rewrite list_insert_id by done. by destruct m.
Qed.

Lemma same_but_next_refl h : same_but_next h h.
Proof. by intros a. Qed.

Lemma same_but_next_insert h a p v : h !! a = Some p -> same_but_next h (<[a := set_next v p]> h).
Proof. intros H b. rewrite lookup_insert. case_decide; [subst|done]. by rewrite H. Qed.

Lemma same_but_next_trans h1 h2 h3 : same_but_next h1 h2 -> same_but_next h2 h3 -> same_but_next h1 h3.
Proof. intros H1 H2 a. by rewrite H2, H1. Qed.

Lemma same_but_next_Some h h' a p : same_but_next h h' -> h !! a = Some p ->
  exists v, h' !! a = Some (set_next v p).
Proof.
  intros H Ha. specialize (H a). rewrite Ha in H. cbn in H. destruct (h' !! a) as [p'|]; [|done].
  cbn in H. injection H as H. exists (p_next p'). f_equal. destruct p, p'. unfold set_next in *. cbn in *.
  by simplify_eq.
Qed.

Lemma pid_of_same h h' a : same_but_next h h' -> pid_of h' a = pid_of h a.
Proof.
  intros H. specialize (H a). unfold pid_of. destruct (h !! a), (h' !! a); cbn in *; try done.
  by simplify_eq.
Qed.

Lemma pid_sorted_same h h' l : (forall a, a ∈ l -> pid_of h' a = pid_of h a) -> pid_sorted h l -> pid_sorted h' l.
Proof.
  induction l as [|a l IH]; [done|]. intros Heq [Hf Hs]. split.
  - rewrite Forall_forall in *. intros b Hb. rewrite !Heq by set_solver. by apply Hf.
  - apply IH; [|done]. intros. apply Heq. by right.
Qed.

Lemma pid_sorted_app h l1 l2 : pid_sorted h (l1 ++ l2) <->
  pid_sorted h l1 /\ pid_sorted h l2 /\ forall a b, a ∈ l1 -> b ∈ l2 -> pid_of h a < pid_of h b.
Proof.
  induction l1 as [|a l1 IH]; cbn.
  - split; [|tauto]. intros H. split; [done|]. split; [done|]. by intros ? ? ?%elem_of_nil.
  - rewrite IH, Forall_app, !Forall_forall. split.
    + intros ([H1 H2] & H3 & H4 & H5). split; [done|]. split; [done|].
      intros x y [->|?]%elem_of_cons ?; auto.
    + intros ([H1 H2] & H3 & H4). split; [split; [done|]|].
      * intros x Hx. apply H4; [by left|done].
      * split; [done|]. split; [done|]. intros. apply H4; [by right|done].
Qed.

Lemma queue_walk_spec test l : forall fuel prev cur s, chain (next_of (procs s)) cur l ->
  (length l < fuel)%nat ->
  exists l1 l2, l = l1 ++ l2 /\
    queue_walk fuel test prev cur s = Ret (s, (default prev (last l1), default 0 (head l2))) /\
    Forall (fun a => exists p, procs s !! a = Some p /\ test p = true) l1 /\
    match head l2 with None => True | Some a => exists p, procs s !! a = Some p /\ test p = false end.
Proof.
  induction l as [|a l IH]; intros fuel prev cur s Hl Hf; (destruct fuel as [|fuel]; [cbn in Hf; lia|]).
  - apply chain_nil in Hl as ->. by exists [], [].
  - apply chain_cons in Hl as (-> & Ha & q & Hq & Hl). unfold next_of in Hq.
    destruct (procs s !! a) as [p|] eqn:E; [|done]. cbn in Hq. simplify_eq.
    cbn [queue_walk]. rewrite decide_False, (rdp_bind _ _ _ _ E) by done.
    destruct (test p) eqn:Et.
    + destruct (IH fuel a (p_next p) s Hl) as (l1 & l2 & -> & Hrun & H1 & H2); [cbn in Hf; lia|].
      exists (a :: l1), l2. split; [done|]. split; [|split; [|done]].
      * rewrite Hrun, last_cons. by destruct (last l1).
      * constructor; [by exists p|done].
    + exists [], (a :: l). split; [done|]. split; [done|]. split; [done|]. by exists p.
Qed.

Lemma next_of_insert_ne h a p b : b <> a -> next_of (<[a := p]> h) b = next_of h b.
Proof. intros. unfold next_of. by rewrite lookup_insert_ne. Qed.

Lemma next_of_insert_eq h a p : next_of (<[a := p]> h) a = Some (p_next p).
Proof. unfold next_of. by rewrite lookup_insert_eq. Qed.
End walks.

(** ** The queue operations on chains *)
Section queue_ops.
Implicit Types s : pstate.
Implicit Types h : gmap Z Process.

Lemma chain_at h p l1 a l2 : chain (next_of h) p (l1 ++ a :: l2) ->
  a <> 0 /\ exists c, h !! a = Some c /\ chain (next_of h) (p_next c) l2 /\
    lseg (next_of h) p l1 a.
Proof.
  intros (H1 & H2 & r & Hr & H3)%chain_split. split; [done|]. unfold next_of in Hr.
  destruct (h !! a) as [c|]; [|done]. cbn in Hr. simplify_eq. by exists c.
Qed.

(** [enqueue_process] inserts before the first process whose pid is not smaller. *)
Lemma enqueue_spec s q l head a p :
  qhead (mgr s) q = Some head -> chain (next_of (procs s)) head l ->
  procs s !! a = Some p -> a <> 0 -> a ∉ l ->
  exists l1 l2 head' h', l = l1 ++ l2 /\
    enqueue_process q a s = Ret (upd s (qset q head' (mgr s)) h', tt) /\
    chain (next_of h') head' (l1 ++ a :: l2) /\
    same_but_next (procs s) h' /\ (forall b, b <> a -> b ∉ l -> h' !! b = procs s !! b) /\
    Forall (fun b => pid_of (procs s) b < p_pid p) l1 /\
    match list.head l2 with None => True | Some b => p_pid p <= pid_of (procs s) b end.
Proof.
  intros Hq Hl Hp Ha Hni. unfold enqueue_process. rewrite (get_queue_bind _ _ _ _ Hq).
  destruct (decide (head = 0)) as [->|Hnz].
  { apply chain_null in Hl as ->. exists [], [], a, (<[a := set_next 0 p]> (procs s)).
    split; [done|]. split.
    { rewrite (cmd_bind_eq _ _ _ _ _ (put_queue_run s q a _ Hq)).
      by rewrite (wrp_run (with_mgr (qset q a) s) a (set_next 0) p Hp). }
    split; [|split; [by apply same_but_next_insert|split; [|done]]].
    - apply (chain_cons_1 _ _ 0); [done|apply next_of_insert_eq|done].
    - intros b Hb _. by apply lookup_insert_ne. }
  rewrite (rdp_bind _ _ _ _ Hp).
  destruct (queue_walk_spec (fun c => bool_decide (p_pid c < p_pid p)) l (S (size (procs s))) 0 head s Hl)
    as (l1 & l2 & -> & Hrun & H1 & H2); [by eapply chain_length_fuel|].
  rewrite (cmd_bind_eq _ _ s s (S (size (procs s))) eq_refl), (cmd_bind_eq _ _ _ _ _ Hrun).
  exists l1, l2.
  assert (Hf1 : Forall (fun b => pid_of (procs s) b < p_pid p) l1).
  { eapply Forall_impl; [exact H1|]. intros b (pb & Hb & ?%bool_decide_eq_true). unfold pid_of. by rewrite Hb. }
  assert (Hf2 : match list.head l2 with None => True | Some b => p_pid p <= pid_of (procs s) b end).
  { destruct l2 as [|b l2]; [done|]. destruct H2 as (pb & Hb & E%bool_decide_eq_false). cbn.
    unfold pid_of. rewrite Hb. cbn. lia. }
  assert (Hh2 : forall x, chain (next_of (procs s)) x l2 -> default 0 (list.head l2) = x).
  { intros x Hx. destruct l2 as [|b l2]; [by apply chain_nil in Hx|]. by destruct Hx as (-> & _). }
  destruct l1 as [|b l1 _] using rev_ind.
  - cbn [last default]. rewrite decide_False by tauto.
    rewrite (cmd_bind_eq _ _ _ _ _ (put_queue_run s q a _ Hq)).
    exists a, (<[a := set_next head p]> (procs s)). cbn [app] in *.
    rewrite (Hh2 _ Hl). split; [done|]. split; [by rewrite (wrp_run (with_mgr (qset q a) s) a (set_next head) p Hp)|].
    split; [|split; [by apply same_but_next_insert|split; [|done]]].
    + apply (chain_insert_head (next_of (procs s)) _ head); [done|done|apply next_of_insert_eq|done|].
      intros; by apply next_of_insert_ne.
    + intros x Hx _. by apply lookup_insert_ne.
  - rewrite last_snoc. cbn [default]. rewrite <- app_assoc in Hl, Hni |- *. cbn [app] in *.
    destruct (chain_at _ _ _ _ _ Hl) as (Hb & pb & Hpb & Hl2 & _).
    assert (Hab : a <> b) by (intros ->; apply Hni; set_solver).
    rewrite decide_True by done. rewrite (wrp_bind _ _ _ _ _ Hpb).
    set (h1 := <[b := set_next a pb]> (procs s)).
    assert (Hp1 : h1 !! a = Some p) by (unfold h1; by rewrite lookup_insert_ne).
    exists head, (<[a := set_next (default 0 (list.head l2)) p]> h1).
    split; [by rewrite <- ?app_assoc|]. split.
    { rewrite (wrp_run (with_procs <[b:=set_next a pb]> s) a _ p Hp1). unfold upd, with_procs. cbn.
      by rewrite (qset_id _ _ _ Hq). }
    split; [|split; [|split; [|done]]].
    + rewrite <- ?app_assoc. cbn. eapply (chain_insert_after (next_of (procs s))); [exact Hl| |done| | |done|].
      * unfold next_of. rewrite Hpb. reflexivity.
      * rewrite next_of_insert_ne by done. unfold h1. by rewrite next_of_insert_eq.
      * rewrite next_of_insert_eq. cbn. by rewrite (Hh2 _ Hl2).
      * intros c Hca Hcb. rewrite next_of_insert_ne by done. unfold h1. by apply next_of_insert_ne.
    + eapply same_but_next_trans; [by apply (same_but_next_insert _ b pb a)|]. by apply same_but_next_insert.
    + intros c Hca Hcl. rewrite lookup_insert_ne by done. unfold h1. apply lookup_insert_ne.
      intros <-. apply Hcl. set_solver.
Qed.

Lemma dequeue_empty s q : qhead (mgr s) q = Some 0 -> dequeue_process q s = Ret (s, 0).
Proof. intros H. unfold dequeue_process. by rewrite (get_queue_bind _ _ _ _ H), decide_True. Qed.

(** Removing the element [a] whose pid is the first match. *)
Lemma remove_spec s q l1 a l2 head p :
  qhead (mgr s) q = Some head -> chain (next_of (procs s)) head (l1 ++ a :: l2) ->
  procs s !! a = Some p -> Forall (fun b => pid_of (procs s) b <> p_pid p) l1 ->
  exists head' h', remove_process_from_queue q (p_pid p) s = Ret (upd s (qset q head' (mgr s)) h', a) /\
    chain (next_of h') head' (l1 ++ l2) /\ same_but_next (procs s) h' /\
    (forall b, b ∉ l1 ++ a :: l2 -> h' !! b = procs s !! b) /\ h' !! a = Some (set_next 0 p).
Proof.
  intros Hq Hl Hp Hf1. pose proof (chain_NoDup _ _ _ Hl) as Hnd.
  destruct (chain_at _ _ _ _ _ Hl) as (Ha & p' & Hp' & Hl2 & Hseg). assert (p' = p) as -> by congruence.
  unfold remove_process_from_queue. rewrite (get_queue_bind _ _ _ _ Hq), decide_False.
  2:{ intros ->. apply chain_null in Hl. by destruct l1. }
  destruct (queue_walk_spec (fun c => bool_decide (p_pid c <> p_pid p)) _ (S (size (procs s))) 0 head s Hl)
    as (k1 & k2 & E & Hrun & H1 & H2); [by eapply chain_length_fuel|].
  assert (k1 = l1 /\ k2 = a :: l2) as [-> ->].
  { assert (Hk1 : forall x, x ∈ k1 -> pid_of (procs s) x <> p_pid p).
    { intros x Hx. rewrite Forall_forall in H1. destruct (H1 _ Hx) as (px & Hpx & ?%bool_decide_eq_true).
      unfold pid_of. by rewrite Hpx. }
    assert (Hpa : pid_of (procs s) a = p_pid p) by (unfold pid_of; by rewrite Hp).
    assert (Hk2 : forall x, list.head k2 = Some x -> pid_of (procs s) x = p_pid p).
    { intros x Hx. rewrite Hx in H2. destruct H2 as (px & Hpx & Ex%bool_decide_eq_false).
      unfold pid_of. rewrite Hpx. cbn. destruct (decide (p_pid px = p_pid p)); [done|tauto]. }
    clear -E Hk1 Hk2 Hpa Hf1. revert k1 E Hk1. induction l1 as [|x l1 IH]; intros [|y k1] E Hk1; cbn in E.
    - done.
    - injection E as -> _. by destruct (Hk1 y); [left|].
    - subst k2. apply Forall_cons in Hf1 as [Hx _]. by destruct Hx; apply Hk2.
    - injection E as -> E. apply Forall_cons in Hf1 as [_ Hf1].
      destruct (IH Hf1 k1 E) as [-> ->]; [|done]. intros z Hz. apply Hk1. by right. }
  rewrite (cmd_bind_eq _ _ s s (S (size (procs s))) eq_refl), (cmd_bind_eq _ _ _ _ _ Hrun).
  cbn [list.head default]. rewrite decide_False, (rdp_bind _ _ _ _ Hp) by done.
  destruct l1 as [|b l1 _] using rev_ind.
  - cbn [last default app] in *. rewrite decide_False by tauto.
    rewrite (cmd_bind_eq _ _ _ _ _ (put_queue_run s q (p_next p) _ Hq)).
    exists (p_next p), (<[a := set_next 0 p]> (procs s)).
    rewrite (wrp_bind (with_mgr _ s) _ _ _ _ Hp).
    apply NoDup_cons in Hnd as [Hal2 _]. split; [done|]. split; [|split; [by apply same_but_next_insert|split]].
    + eapply chain_ext; [|exact Hl2]. intros x Hx. apply next_of_insert_ne. by intros ->.
    + intros x Hx. apply lookup_insert_ne. intros <-. apply Hx. by left.
    + apply lookup_insert_eq.
  - rewrite last_snoc. cbn [default]. rewrite <- app_assoc in *. cbn [app] in *.
    destruct (chain_at _ _ _ _ _ Hl) as (Hb & pb & Hpb & _ & _).
    apply NoDup_app in Hnd as (_ & _ & [Hbn [Han _]%NoDup_cons]%NoDup_cons).
    assert (Hab : a <> b) by (intros ->; apply Hbn; by left).
    rewrite decide_True by done. rewrite (wrp_bind _ _ _ _ _ Hpb).
    set (h1 := <[b := set_next (p_next p) pb]> (procs s)).
    assert (Hp1 : h1 !! a = Some p) by (unfold h1; by rewrite lookup_insert_ne).
    exists head, (<[a := set_next 0 p]> h1). rewrite (wrp_bind (with_procs _ s) _ _ _ _ Hp1).
    split; [unfold upd; by rewrite (qset_id _ _ _ Hq)|]. split; [|split; [|split]].
    + rewrite <- ?app_assoc. cbn.
      assert (Hl' : chain (next_of h1) head (l1 ++ b :: l2)).
      { eapply (chain_unlink (next_of (procs s))); [exact Hl| | |].
        - unfold next_of. rewrite Hp. reflexivity.
        - unfold h1. by rewrite next_of_insert_eq.
        - intros c Hca Hcb. unfold h1. by apply next_of_insert_ne. }
      eapply chain_ext; [|exact Hl']. intros x Hx. apply next_of_insert_ne.
      pose proof (chain_NoDup _ _ _ Hl) as Hnd. intros ->.
      apply NoDup_app in Hnd as (_ & Hd & _). apply elem_of_app in Hx as [Hx|[?|?]%elem_of_cons]; try done.
      apply (Hd a Hx). right. by left.
    + eapply same_but_next_trans; [by apply (same_but_next_insert _ b pb (p_next p))|]. by apply same_but_next_insert.
    + intros c Hc. rewrite lookup_insert_ne by (intros <-; set_solver). unfold h1.
      apply lookup_insert_ne. intros <-. set_solver.
    + apply lookup_insert_eq.
Qed.
End queue_ops.

(** ** The scheduler invariant *)

(** A live control block: the table has it under its pid. *)
Definition owned (s : pstate) (a : Z) (p : Process) : Prop :=
  a <> 0 /\ procs s !! a = Some p /\ zget (processes (mgr s)) (p_pid p) = Some a.

Definition queue_ok (s : pstate) (q : queue) (l : list Z) : Prop :=
  exists head, qhead (mgr s) q = Some head /\ chain (next_of (procs s)) head l /\
    pid_sorted (procs s) l /\ forall a, a ∈ l -> exists p, owned s a p /\ queue_state q p.

(** Every queue is a chain of live processes in the state the queue is for,
    sorted by pid. *)
Record queues_ok (s : pstate) (Q : queue -> list Z) : Prop := {
  qk_set : pm_set s = true;
  qk_len : length (processes (mgr s)) = 64%nat;
  qk_q : forall q, valid_queue q -> queue_ok s q (Q q)
}.

Definition qupd (Q : queue -> list Z) (q : queue) (l : list Z) : queue -> list Z :=
  fun q' => if decide (q' = q) then l else Q q'.

(** The running process is live, RUNNING, and has a valid priority. *)
Definition current_ok (s : pstate) : Prop :=
  current_process (mgr s) = 0 \/
  exists p, owned s (current_process (mgr s)) p /\ p_state p = PROCESS_RUNNING /\ 0 <= p_priority p < 16.

Definition sched_ok (s : pstate) (Q : queue -> list Z) : Prop := queues_ok s Q /\ current_ok s.

Section invariant.
Implicit Types s : pstate.
Implicit Types h : gmap Z Process.
Implicit Types Q : queue -> list Z.

Lemma qupd_eq Q q l : qupd Q q l q = l.
Proof. unfold qupd. by rewrite decide_True. Qed.
Lemma qupd_ne Q q q' l : q' <> q -> qupd Q q l q' = Q q'.
Proof. intros. unfold qupd. by rewrite decide_False. Qed.

Lemma qupd_in Q q l1 a l2 : a ∈ qupd Q q (l1 ++ a :: l2) q.
Proof. rewrite qupd_eq. set_solver. Qed.

Lemma processes_qset q v m : processes (qset q v m) = processes m.
Proof. by destruct q. Qed.
Lemma current_qset q v m : current_process (qset q v m) = current_process m.
Proof. by destruct q. Qed.
Lemma still_refl m : still m m.
Proof. done. Qed.
Lemma still_qset q v m : still m (qset q v m).
Proof. by destruct q. Qed.
Lemma still_trans m1 m2 m3 : still m1 m2 -> still m2 m3 -> still m1 m3.
Proof. intros (?&?&?) (?&?&?). repeat split; congruence. Qed.

Lemma queue_state_next q p v : queue_state q (set_next v p) <-> queue_state q p.
Proof. by destruct q. Qed.

(** The state of a process tells which queue it can be in. *)
Lemma queue_state_inj q q' p : queue_state q p -> queue_state q' p -> q = q'.
Proof. destruct q, q'; cbn; try done; intros; [f_equal; intuition congruence|..]; intuition congruence. Qed.

Lemma owned_inj s a b p p' : owned s a p -> owned s b p' -> p_pid p = p_pid p' -> a = b.
Proof. intros (_ & _ & H1) (_ & _ & H2) E. rewrite E in H1. congruence. Qed.

Lemma owned_same s s' a p : owned s a p -> same_but_next (procs s) (procs s') ->
  processes (mgr s') = processes (mgr s) -> exists v, owned s' a (set_next v p).
Proof.
  intros (Ha & Hp & Ht) Hs E. destruct (same_but_next_Some _ _ _ _ Hs Hp) as (v & Hv).
  exists v. split; [done|]. split; [done|]. by rewrite E.
Qed.

(** The running process is in no queue. *)
Lemma queued_not_current s Q a q : sched_ok s Q -> valid_queue q -> a ∈ Q q -> a <> current_process (mgr s).
Proof.
  intros [[_ _ Hq] Hcur] Hv Ha ->. destruct (Hq q Hv) as (_ & _ & _ & _ & Hst). destruct (Hst _ Ha) as (p & (Hnz & Hp & _) & Hs).
  destruct Hcur as [?|(pc & (_ & Hpc & _) & Hr & _)]; [done|]. assert (pc = p) as -> by congruence.
  destruct q; cbn in Hs; intuition congruence.
Qed.

Lemma queue_disjoint s Q q q' a : queues_ok s Q -> valid_queue q -> valid_queue q' ->
  a ∈ Q q -> a ∈ Q q' -> q = q'.
Proof.
  intros [_ _ Hq] H1 H2 Ha Hb.
  destruct (Hq _ H1) as (_ & _ & _ & _ & Hs1), (Hq _ H2) as (_ & _ & _ & _ & Hs2).
  destruct (Hs1 _ Ha) as (p & (_ & Hp & _) & ?), (Hs2 _ Hb) as (p' & (_ & Hp' & _) & ?).
  eapply (queue_state_inj _ _ p); [done|]. congruence.
Qed.

(** A process not in the state of any queue is in none. *)
Lemma not_queued s Q a p q : queues_ok s Q -> procs s !! a = Some p -> valid_queue q ->
  ~ queue_state q p -> a ∉ Q q.
Proof.
  intros [_ _ Hq] Hp Hv Hn Ha. destruct (Hq _ Hv) as (_ & _ & _ & _ & Hs).
  destruct (Hs _ Ha) as (p' & (_ & Hp' & _) & ?). apply Hn. congruence.
Qed.

Lemma queues_update s Q q head' h' l' : queues_ok s Q -> valid_queue q ->
  same_but_next (procs s) h' ->
  (forall b q', valid_queue q' -> q' <> q -> b ∈ Q q' -> h' !! b = procs s !! b) ->
  chain (next_of h') head' l' -> pid_sorted (procs s) l' ->
  (forall a, a ∈ l' -> exists p, owned s a p /\ queue_state q p) ->
  queues_ok (upd s (qset q head' (mgr s)) h') (qupd Q q l').
Proof.
  intros [Hset Hlen Hq] Hv Hs Hsame Hch Hsort Hst. constructor; [done|cbn; by rewrite processes_qset|].
  assert (Hown : forall a p, owned s a p -> exists v, owned (upd s (qset q head' (mgr s)) h') a (set_next v p)).
  { intros a p Ho. eapply owned_same; [done|done|]. cbn. by rewrite processes_qset. }
  intros q' Hv'. destruct (decide (q' = q)) as [->|Hne].
  - rewrite qupd_eq. destruct (Hq _ Hv) as (hd & Hhd & _). exists head'. split; [by eapply qhead_qset|].
    split; [done|]. split.
    + eapply pid_sorted_same; [|exact Hsort]. intros. by apply pid_of_same.
    + intros a Ha. destruct (Hst _ Ha) as (p & Ho & ?). destruct (Hown _ _ Ho) as (v & ?).
      exists (set_next v p). by rewrite queue_state_next.
  - rewrite qupd_ne by done. destruct (Hq _ Hv') as (hd & Hhd & Hc & Hso & Hst').
    exists hd. cbn. rewrite qhead_qset_ne by (try done; congruence). split; [done|]. split.
    + eapply chain_ext; [|exact Hc]. intros b Hb. unfold next_of. by rewrite (Hsame b q').
    + split; [eapply pid_sorted_same; [|exact Hso]; intros; by apply pid_of_same|].
      intros a Ha. destruct (Hst' _ Ha) as (p & Ho & ?). destruct (Hown _ _ Ho) as (v & ?).
      exists (set_next v p). by rewrite queue_state_next.
Qed.

Lemma owned_pid s a p : owned s a p -> pid_of (procs s) a = p_pid p.
Proof. intros (_ & Hp & _). unfold pid_of. by rewrite Hp. Qed.

(** Enqueueing a process that is in no queue. *)
Lemma enqueue_ok s Q q a p : queues_ok s Q -> valid_queue q -> owned s a p -> queue_state q p ->
  (forall q', valid_queue q' -> a ∉ Q q') ->
  exists l1 l2 head' h', Q q = l1 ++ l2 /\
    enqueue_process q a s = Ret (upd s (qset q head' (mgr s)) h', tt) /\
    queues_ok (upd s (qset q head' (mgr s)) h') (qupd Q q (l1 ++ a :: l2)) /\
    same_but_next (procs s) h' /\ (forall b, b <> a -> b ∉ Q q -> h' !! b = procs s !! b).
Proof.
  intros Hok Hv Ho Hst Hni. pose proof Hok as [_ _ Hq]. destruct (Hq _ Hv) as (head & Hhd & Hc & Hso & Hqs).
  pose proof Ho as (Ha & Hp & _).
  destruct (enqueue_spec s q (Q q) head a p Hhd Hc Hp Ha (Hni _ Hv))
    as (l1 & l2 & head' & h' & El & Hrun & Hc' & Hs & Hout & Hf1 & Hf2).
  exists l1, l2, head', h'. split; [done|]. split; [done|]. split; [|done].
  rewrite El in Hso, Hqs. apply pid_sorted_app in Hso as (Hs1 & Hs2 & Hs12).
  apply queues_update; try done.
  - intros b q' Hv' Hne Hb. apply Hout; [intros ->; by apply (Hni q')|].
    intros Hb'. by destruct (Hne (queue_disjoint _ _ _ _ _ Hok Hv' Hv Hb Hb')).
  - assert (Hlt : forall b, b ∈ l2 -> pid_of (procs s) a < pid_of (procs s) b).
    { destruct l2 as [|c l2]; [by intros b ?%elem_of_nil|]. cbn in Hf2. destruct Hs2 as [Hfc _].
      rewrite Forall_forall in Hfc. rewrite (owned_pid _ _ _ Ho).
      assert (Hlc : p_pid p < pid_of (procs s) c).
      { destruct (Hqs c) as (pc & Hoc & _); [set_solver|]. rewrite (owned_pid _ _ _ Hoc) in Hf2 |- *.
        destruct (decide (p_pid p = p_pid pc)) as [E|]; [|lia].
        assert (a = c) as -> by (by eapply owned_inj). destruct (Hni _ Hv). rewrite El. set_solver. }
      intros b [->|Hb]%elem_of_cons; [done|]. specialize (Hfc b Hb). lia. }
    apply pid_sorted_app. split; [done|]. split; [split; [by apply Forall_forall|done]|].
    intros x y Hx [->|Hy]%elem_of_cons; [|by apply Hs12].
    rewrite (owned_pid _ _ _ Ho). rewrite Forall_forall in Hf1. by apply Hf1.
  - intros b [Hb|[->|Hb]%elem_of_cons]%elem_of_app; [apply Hqs; set_solver|by exists p|apply Hqs; set_solver].
Qed.

(** Removing a process from the queue it is in, by pid. *)
Lemma remove_ok s Q q l1 a l2 p : queues_ok s Q -> valid_queue q -> Q q = l1 ++ a :: l2 ->
  procs s !! a = Some p ->
  exists head' h', remove_process_from_queue q (p_pid p) s = Ret (upd s (qset q head' (mgr s)) h', a) /\
    queues_ok (upd s (qset q head' (mgr s)) h') (qupd Q q (l1 ++ l2)) /\
    same_but_next (procs s) h' /\ (forall b, b ∉ Q q -> h' !! b = procs s !! b) /\
    h' !! a = Some (set_next 0 p).
Proof.
  intros Hok Hv El Hp. pose proof Hok as [_ _ Hq]. destruct (Hq _ Hv) as (head & Hhd & Hc & Hso & Hqs).
  rewrite El in Hc, Hso, Hqs. apply pid_sorted_app in Hso as (Hs1 & [Hfa Hs2] & Hs12).
  assert (Hpa : pid_of (procs s) a = p_pid p) by (unfold pid_of; by rewrite Hp).
  destruct (remove_spec s q l1 a l2 head p Hhd Hc Hp) as (head' & h' & Hrun & Hc' & Hs & Hout & Ha').
  { apply Forall_forall. intros b Hb. specialize (Hs12 b a Hb ltac:(by left)). lia. }
  exists head', h'. split; [done|]. split; [|rewrite El; done].
  apply queues_update; try done.
  - intros b q' Hv' Hne Hb. apply Hout. rewrite <- El. intros Hb'.
    by destruct (Hne (queue_disjoint _ _ _ _ _ Hok Hv' Hv Hb Hb')).
  - apply pid_sorted_app. split; [done|]. split; [done|]. intros x y Hx Hy. apply Hs12; [done|by right].
  - intros b Hb. apply Hqs. set_solver.
Qed.

(** Updating a control block that is in no queue, keeping its pid. *)
Lemma queues_ok_insert s Q a p p' : queues_ok s Q -> procs s !! a = Some p ->
  (forall q, valid_queue q -> a ∉ Q q) -> queues_ok (with_procs (insert a p') s) Q.
Proof.
  intros [Hset Hlen Hq] Hp Hni. constructor; [done|done|]. intros q Hv.
  destruct (Hq _ Hv) as (hd & Hhd & Hc & Hso & Hst). exists hd. cbn.
  assert (Hne : forall b, b ∈ Q q -> b <> a) by (intros b Hb ->; by apply (Hni q)).
  split; [done|]. split; [|split].
  - eapply chain_ext; [|exact Hc]. intros b Hb. apply next_of_insert_ne. auto.
  - eapply pid_sorted_same; [|exact Hso]. intros b Hb. unfold pid_of. by rewrite lookup_insert_ne by (intros <-; by apply (Hne a)).
  - intros b Hb. destruct (Hst _ Hb) as (pb & (? & ? & ?) & ?). exists pb. split; [|done].
    split; [done|]. split; [|done]. cbn. by rewrite lookup_insert_ne by (intros <-; by apply (Hne a)).
Qed.

(** Manager updates that touch neither the queues nor the table. *)
Lemma queues_ok_mgr s Q m' : queues_ok s Q -> processes m' = processes (mgr s) ->
  (forall q, qhead m' q = qhead (mgr s) q) -> queues_ok (upd s m' (procs s)) Q.
Proof.
  intros [Hset Hlen Hq] Ep Eq. constructor; [done|cbn; by rewrite Ep|]. intros q Hv.
  destruct (Hq _ Hv) as (hd & Hhd & Hc & Hso & Hst). exists hd. cbn. rewrite Eq.
  split; [done|]. split; [done|]. split; [done|]. intros a Ha. destruct (Hst _ Ha) as (p & (? & ? & ?) & ?).
  exists p. split; [|done]. split; [done|]. split; [done|]. cbn. by rewrite Ep.
Qed.
End invariant.

(** ** Laws of the other components *)

(** The scheduler's part of the state. *)
Definition same_sched (s s' : pstate) : Prop :=
  pm_set s' = pm_set s /\ mgr s' = mgr s /\ procs s' = procs s.

(** The calls return and leave the scheduler's data alone; the heap never hands
    out a block that a live control block occupies. *)
Class KernelLaws `{Kernel} : Prop := {
  malloc_law : forall n s, exists s' p, malloc n s = Ret (s', p) /\ same_sched s s' /\
    0 <= p /\ forall pr, ~ owned s p pr;
  free_law : forall a s, exists s', free a s = Ret (s', tt) /\ same_sched s s';
  pd_create_law : forall s, exists s' p, pd_create s = Ret (s', p) /\ same_sched s s';
  pd_destroy_law : forall a s, exists s', pd_destroy a s = Ret (s', tt) /\ same_sched s s';
  pd_switch_law : forall a s, exists s', pd_switch a s = Ret (s', tt) /\ same_sched s s';
  vmm_allocate_pages_law : forall a b c d s, exists s' r,
    vmm_allocate_pages a b c d s = Ret (s', r) /\ same_sched s s';
  vmm_create_memory_region_law : forall a b c d s, exists s' r,
    vmm_create_memory_region a b c d s = Ret (s', r) /\ same_sched s s'
}.

Section scheduler.
Context `{KernelLaws}.
Implicit Types s : pstate.
Implicit Types Q : queue -> list Z.

Lemma same_sched_queues s s' Q : same_sched s s' -> queues_ok s Q -> queues_ok s' Q.
Proof.
  intros (Es & Em & Ep) [Hset Hlen Hq]. constructor; [congruence|by rewrite Em|].
  intros q Hv. destruct (Hq _ Hv) as (hd & H1 & H2 & H3 & H4). exists hd. rewrite Em, Ep.
  do 3 (split; [done|]). intros a Ha. destruct (H4 _ Ha) as (p & Ho & ?). exists p. split; [|done].
  destruct Ho as (? & ? & ?). unfold owned. by rewrite Em, Ep.
Qed.

Lemma same_sched_current s s' : same_sched s s' -> current_ok s -> current_ok s'.
Proof.
  intros (Es & Em & Ep) Hc. unfold current_ok, owned in *. by rewrite Em, Ep.
Qed.

Lemma same_sched_trans s1 s2 s3 : same_sched s1 s2 -> same_sched s2 s3 -> same_sched s1 s3.
Proof. intros (?&?&?) (?&?&?). repeat split; congruence. Qed.

(** Every table entry is a control block with that pid, running or queued. *)
Definition table_ok s Q : Prop :=
  forall i a, zget (processes (mgr s)) i = Some a -> a <> 0 ->
    exists p, procs s !! a = Some p /\ p_pid p = i /\
      (a = current_process (mgr s) \/ exists q, valid_queue q /\ a ∈ Q q).

Definition sched_inv s Q : Prop := sched_ok s Q /\ table_ok s Q.

(** The priorities are levels of the ready queues. *)
Definition levels_ok s : Prop := forall a p, owned s a p -> 0 <= p_priority p < 16.

(** Off [a], only links differ. *)
Definition same_off (a : Z) (h h' : gmap Z Process) : Prop :=
  forall b, b <> a -> set_next 0 <$> h' !! b = set_next 0 <$> h !! b.

Lemma same_off_pid a h h' b p : same_off a h h' -> b <> a -> h !! b = Some p ->
  exists p', h' !! b = Some p' /\ p_pid p' = p_pid p /\ set_next 0 p' = set_next 0 p.
Proof.
  intros Hs Hb Hp. specialize (Hs b Hb). rewrite Hp in Hs. destruct (h' !! b) as [p'|]; [|done].
  cbn in Hs. assert (E : set_next 0 p' = set_next 0 p) by congruence. clear Hs. exists p'. split; [done|]. split; [|done].
  apply (f_equal p_pid) in E. done.
Qed.

Lemma same_off_trans a h1 h2 h3 : same_off a h1 h2 -> same_off a h2 h3 -> same_off a h1 h3.
Proof. intros H1' H2 b Hb. by rewrite H2, H1'. Qed.

(** ** schedule *)

Definition demoted (c : Process) : Process :=
  if decide (p_time_slice c > 0) then c
  else let pr := if decide (p_priority c < 15) then p_priority c + 1 else p_priority c in
       set_time_slice (u32 (10 * (16 - pr))) (set_priority pr c).

Lemma with_procs_upd s f : with_procs f s = upd s (mgr s) (f (procs s)).
Proof. done. Qed.

(** A process whose state is that of no queue is in none. *)
Lemma unqueued s Q a p : queues_ok s Q -> procs s !! a = Some p ->
  p_state p <> PROCESS_READY -> p_state p <> PROCESS_BLOCKED -> p_state p <> PROCESS_TERMINATED ->
  forall q, valid_queue q -> a ∉ Q q.
Proof.
  intros Hok Hp ? ? ? q Hv. eapply not_queued; [done|done|done|]. destruct q; cbn; tauto.
Qed.

Lemma requeue_ok s Q esp : sched_ok s Q ->
  let cur := current_process (mgr s) in
  (cur = 0 /\ requeue_current esp s = Ret (s, tt)) \/
  exists c l1 l2 m h, owned s cur c /\
    let d := demoted c in
    0 <= p_priority d < 16 /\ Q (Ready (p_priority d)) = l1 ++ l2 /\
    requeue_current esp s = Ret (upd s m h, tt) /\ current_process m = cur /\ still (mgr s) m /\
    queues_ok (upd s m h) (qupd Q (Ready (p_priority d)) (l1 ++ cur :: l2)) /\
    (exists v, h !! cur = Some (set_next v (set_state PROCESS_READY (set_regs esp d)))) /\
    same_off cur (procs s) h /\
    forall b, b <> cur -> b ∉ Q (Ready (p_priority d)) -> h !! b = procs s !! b.
Proof.
  intros [Hok Hcur] cur. unfold requeue_current. rewrite getm_bind. fold cur.
  destruct Hcur as [E|(c & Ho & Hrun & Hpr)]; [left; by rewrite decide_True|]. right.
  fold cur in Ho. pose proof Ho as (Hnz & Hp & Htab). rewrite decide_False by done.
  rewrite (rdp_bind _ _ _ _ Hp), decide_False by tauto.
  rewrite (wrp_bind _ _ _ _ _ Hp). rewrite (rdp_bind (with_procs _ s)) with (p := set_regs esp c) by apply lookup_insert_eq.
  assert (Hni : forall q, valid_queue q -> cur ∉ Q q) by (eapply unqueued; [done|done|congruence..]).
  set (d := demoted c). set (p' := set_state PROCESS_READY (set_regs esp d)).
  set (s1 := with_procs (insert cur p') s).
  assert (Hpid : p_pid p' = p_pid c) by (unfold p', d, demoted; by destruct (decide (p_time_slice c > 0))).
  assert (Hprd : 0 <= p_priority d < 16).
  { unfold d, demoted. destruct (decide (p_time_slice c > 0)); [done|]. cbn.
    destruct (decide (p_priority c < 15)); lia. }
  assert (Hok1 : queues_ok s1 Q) by (by eapply queues_ok_insert).
  assert (Ho1 : owned s1 cur p').
  { split; [done|]. split; [apply lookup_insert_eq|]. by rewrite Hpid. }
  destruct (enqueue_ok s1 Q (Ready (p_priority d)) cur p' Hok1 Hprd Ho1) as (l1 & l2 & hd & h' & El & Hrun' & Hok' & Hs & Hout);
    [done|done|].
  exists c, l1, l2, (qset (Ready (p_priority d)) hd (mgr s)), h'. split; [done|]. cbn zeta.
  split; [done|]. split; [done|]. split; [|split; [done|split; [done|split; [exact Hok'|split]]]].
  - transitivity (enqueue_process (Ready (p_priority d)) cur s1); [|exact Hrun'].
    unfold s1, p', d, demoted. cbn [p_time_slice set_regs].
    destruct (decide (p_time_slice c > 0)).
    + erewrite wrp_bind by apply lookup_insert_eq. unfold with_procs. cbn. by rewrite insert_insert_eq.
    + cbn [p_priority set_regs]. change (MAX_PRIORITY_LEVELS - 1) with 15.
      destruct (decide (p_priority c < 15)).
      * rewrite (cmd_bind_eq _ _ _ _ _ (wrp_run (with_procs _ s) _ _ _ (lookup_insert_eq _ _ _))).
        erewrite wrp_bind by apply lookup_insert_eq. erewrite wrp_bind by apply lookup_insert_eq.
        erewrite rdp_bind by apply lookup_insert_eq. unfold with_procs. cbn.
        rewrite !insert_insert_eq. done.
      * rewrite (cmd_bind_eq _ _ _ (with_procs (insert cur (set_regs esp c)) s) tt) by done.
        erewrite wrp_bind by apply lookup_insert_eq. erewrite wrp_bind by apply lookup_insert_eq.
        erewrite rdp_bind by apply lookup_insert_eq. unfold with_procs. cbn.
        rewrite !insert_insert_eq. by destruct c.
  - destruct (same_but_next_Some _ _ _ _ Hs (lookup_insert_eq _ _ _)) as (v & Hv). by exists v.
  - split; [intros b Hb; rewrite Hs; cbn; by rewrite lookup_insert_ne|].
    intros b Hb Hbq. rewrite Hout by done. apply lookup_insert_ne. congruence.
Qed.

(** The search takes the first process of the first non-empty queue. *)
Lemma pick_next_ok s Q : queues_ok s Q -> forall n i, 0 <= i -> i + Z.of_nat n = 16 ->
  (pick_next n i s = Ret (s, 0) /\ forall j, i <= j < 16 -> Q (Ready j) = []) \/
  exists k a l p m, i <= k < 16 /\ (forall j, i <= j < k -> Q (Ready j) = []) /\
    Q (Ready k) = a :: l /\ owned s a p /\ queue_state (Ready k) p /\
    pick_next n i s = Ret (upd s m (<[a := set_next 0 p]> (procs s)), a) /\
    still (mgr s) m /\ current_process m = current_process (mgr s) /\
    queues_ok (upd s m (<[a := set_next 0 p]> (procs s))) (qupd Q (Ready k) l).
Proof.
  intros Hok. pose proof Hok as [_ _ Hq]. induction n as [|n IH]; intros i Hi Hn.
  - left. split; [done|]. intros j ?. lia.
  - assert (Hv : valid_queue (Ready i)) by (cbn; lia).
    destruct (Hq _ Hv) as (hd & Hhd & Hc & Hso & Hst). cbn [pick_next].
    destruct (Q (Ready i)) as [|a l] eqn:EQ.
    + apply chain_nil in Hc as ->. rewrite (cmd_bind_eq _ _ _ _ _ (dequeue_empty _ _ Hhd)), decide_True by done.
      destruct (IH (i + 1)) as [[Hrun Hall]|(k & a & l & p & m & Hk & Hall & Hrest)]; [lia|lia| |].
      * left. split; [done|]. intros j Hj. destruct (decide (j = i)) as [->|]; [done|]. apply Hall. lia.
      * right. exists k, a, l, p, m. split; [lia|]. split; [|done]. intros j Hj.
        destruct (decide (j = i)) as [->|]; [done|]. apply Hall. lia.
    + right. destruct (Hst a ltac:(by left)) as (p & Ho & Hqs). pose proof Ho as (Ha & Hp & Htab).
      pose proof (chain_NoDup _ _ _ Hc) as [Hni _]%NoDup_cons.
      apply chain_cons in Hc as (-> & _ & r & Hr & Hc). unfold next_of in Hr. rewrite Hp in Hr. cbn in Hr. simplify_eq.
      exists i, a, l, p, (qset (Ready i) (p_next p) (mgr s)).
      split; [lia|]. split; [intros j ?; lia|]. split; [done|]. split; [done|]. split; [done|].
      split; [|split; [done|split; [done|]]].
      * unfold dequeue_process. rewrite (cmd_bind_eq _ _ s
            (upd s (qset (Ready i) (p_next p) (mgr s)) (<[a := set_next 0 p]> (procs s))) a).
        -- by rewrite decide_False.
        -- rewrite (get_queue_bind _ _ _ _ Hhd), decide_False, (rdp_bind _ _ _ _ Hp) by done.
           rewrite (cmd_bind_eq _ _ _ _ _ (put_queue_run _ _ _ _ Hhd)).
           by rewrite (wrp_bind (with_mgr _ s) _ _ _ _ Hp).
      * destruct Hso as [_ Hso]. apply queues_update; try done.
        -- by apply same_but_next_insert.
        -- intros b q' Hv' Hne Hb. apply lookup_insert_ne. intros <-. destruct Hne.
           eapply queue_disjoint; [done|done|done|done|]. rewrite EQ. by left.
        -- eapply chain_ext; [|exact Hc]. intros x Hx. apply next_of_insert_ne. by intros ->.
        -- intros b Hb. apply Hst. by right.
Qed.

(** Where the running process goes before the search. *)
Definition requeued s Q Q1 : Prop :=
  let cur := current_process (mgr s) in
  (cur = 0 /\ forall q, Q1 q = Q q) \/
  exists c l1 l2, procs s !! cur = Some c /\ 0 <= p_priority (demoted c) < 16 /\
    Q (Ready (p_priority (demoted c))) = l1 ++ l2 /\
    Q1 = qupd Q (Ready (p_priority (demoted c))) (l1 ++ cur :: l2).

Lemma requeued_in s Q Q1 b q : requeued s Q Q1 -> b ∈ Q q -> b ∈ Q1 q.
Proof.
  intros [[_ E]|(c & l1 & l2 & _ & _ & El & ->)] Hb; [by rewrite E|].
  destruct (decide (q = Ready (p_priority (demoted c)))) as [->|]; [|by rewrite qupd_ne].
  rewrite qupd_eq. rewrite El in Hb. set_solver.
Qed.

Lemma requeued_waiting s Q Q1 q : requeued s Q Q1 -> q = Blocked \/ q = Terminated -> Q1 q = Q q.
Proof.
  intros [[_ E]|(c & l1 & l2 & _ & _ & El & ->)] Hq; [by rewrite E|].
  apply qupd_ne. by destruct Hq as [-> | ->].
Qed.

(** The control block [c] at [b] after the running process went back to its queue
    with the stack pointer [esp]. *)
Definition requeued_block (cur esp b : Z) (c : Process) : Process :=
  if decide (b = cur /\ cur <> 0) then set_state PROCESS_READY (set_regs esp (demoted c)) else c.

(** ... and after [next] was picked. *)
Definition dispatched_block (next b : Z) (c : Process) : Process :=
  if decide (b = next /\ next <> 0) then set_state PROCESS_RUNNING c else c.

(** Every control block of [h] is in [h'], changed by [f], but for its link. *)
Definition blocks_changed (f : Z -> Process -> Process) (h h' : gmap Z Process) : Prop :=
  forall b c, h !! b = Some c -> exists v, h' !! b = Some (set_next v (f b c)).

Lemma set_next_inv v p c : set_next v p = set_next v c -> p = set_next (p_next p) c.
Proof. destruct p, c. unfold set_next. cbn. intros E. injection E as. by subst. Qed.

Lemma same_off_block a h h' b c : same_off a h h' -> b <> a -> h !! b = Some c -> exists v, h' !! b = Some (set_next v c).
Proof.
  intros Hs Hb Hc. destruct (same_off_pid _ _ _ _ _ Hs Hb Hc) as (p' & Hp' & _ & E). exists (p_next p').
  rewrite Hp'. f_equal. by apply (set_next_inv 0).
Qed.

(** What a reschedule keeps: the table, the clock, the processes that wait. *)
Definition settled s Q s' Q' : Prop :=
  still (mgr s) (mgr s') /\ Q' Blocked = Q Blocked /\ Q' Terminated = Q Terminated /\
  (forall b q, q = Blocked \/ q = Terminated -> b ∈ Q q -> procs s' !! b = procs s !! b) /\
  (table_ok s Q -> table_ok s' Q' /\ (levels_ok s -> levels_ok s')).

(** Putting the running process back: everything in the table is then queued. *)
Lemma requeue_run s Q esp : sched_ok s Q ->
  exists Q1 s1, requeue_current esp s = Ret (s1, tt) /\ queues_ok s1 Q1 /\ requeued s Q Q1 /\
    still (mgr s) (mgr s1) /\
    (forall b q, q = Blocked \/ q = Terminated -> b ∈ Q q -> procs s1 !! b = procs s !! b) /\
    (current_process (mgr s) <> 0 ->
       exists p, procs s1 !! current_process (mgr s) = Some p /\ p_regs p = esp) /\
    (table_ok s Q -> forall i b, zget (processes (mgr s1)) i = Some b -> b <> 0 ->
       exists p, procs s1 !! b = Some p /\ p_pid p = i /\ (exists q, valid_queue q /\ b ∈ Q1 q) /\
         (levels_ok s -> 0 <= p_priority p < 16)) /\
    blocks_changed (requeued_block (current_process (mgr s)) esp) (procs s) (procs s1).
Proof.
  intros Hs. pose proof Hs as [Hok _].
  destruct (requeue_ok s Q esp Hs) as [[E Hrun]|(c & l1 & l2 & m & h & Ho & Hd & El & Hrun & Hm & Hstill & Hok' & (v & Hh) & Hoff & Hout)].
  - exists Q, s. split; [done|]. split; [done|]. split; [by left|]. split; [done|]. split; [done|]. split; [done|]. split.
    2:{ intros b c Hc. exists (p_next c). rewrite Hc. unfold requeued_block. rewrite decide_False by tauto. f_equal. by destruct c. }
    intros Htab i b Hb Hnz. destruct (Htab i b Hb Hnz) as (p & Hp & Hpid & [?|?]); [congruence|].
    exists p. split; [done|]. split; [done|]. split; [done|]. intros Hl. apply (Hl b). split; [done|]. by rewrite Hpid.
  - exists (qupd Q (Ready (p_priority (demoted c))) (l1 ++ current_process (mgr s) :: l2)), (upd s m h).
    split; [done|]. split; [done|]. split; [right; exists c, l1, l2; split; [apply Ho|done]|]. split; [done|].
    split; [|split; [intros _; eexists; split; [exact Hh|done]|split]].
    3:{ destruct Ho as (Hnz & Hc & _). intros b c' Hc'. cbn [procs upd]. unfold requeued_block. destruct (decide (b = current_process (mgr s))) as [->|Hne].
        - rewrite decide_True by done. assert (c' = c) as -> by congruence. by exists v.
        - rewrite decide_False by tauto. by eapply same_off_block. }
    + intros b q Hq Hb. assert (Hvq : valid_queue q) by (by destruct Hq as [-> | ->]).
      destruct (qk_q _ _ Hok q Hvq) as (_ & _ & _ & _ & Hqs). destruct (Hqs _ Hb) as (pb & (_ & Hpb & _) & Hst).
      apply Hout.
      * intros ->. destruct Ho as (Hnz & Hp & _). destruct Hs as [_ [?|(c' & (_ & Hc' & _) & Hr & _)]]; [done|].
        assert (pb = c') as -> by congruence. destruct Hq as [-> | ->]; cbn in Hst; congruence.
      * intros Hin. assert (Ready (p_priority (demoted c)) = q) as <- by (by eapply (queue_disjoint s)).
        by destruct Hq.
    + intros Htab i b Hb Hnz. destruct Hstill as (Ep & _). cbn in Hb. rewrite Ep in Hb.
      destruct (Htab i b Hb Hnz) as (p & Hp & Hpid & Hloc). destruct (decide (b = current_process (mgr s))) as [->|Hne].
      * eexists. split; [exact Hh|]. assert (c = p) as -> by (destruct Ho as (_ & ? & _); congruence). split.
        -- unfold demoted. by destruct (decide (p_time_slice p > 0)).
        -- split; [|done]. exists (Ready (p_priority (demoted p))). split; [done|]. rewrite qupd_eq. set_solver.
      * destruct (same_off_pid _ _ _ _ _ Hoff Hne Hp) as (p' & Hp' & E & En). exists p'. split; [done|].
        split; [congruence|]. split.
        -- destruct Hloc as [?|(q & Hv & Hin)]; [done|]. exists q. split; [done|].
           eapply requeued_in; [|exact Hin]. right. exists c, l1, l2. split; [apply Ho|done].
        -- intros Hl. apply (f_equal p_priority) in En. cbn in En. rewrite En. apply (Hl b).
           split; [done|]. split; [done|]. by rewrite Hpid.
Qed.

Lemma dispatch_run s a p : procs s !! a = Some p ->
  exists s', dispatch a s = Ret (s', p_regs p) /\
    same_sched (with_mgr (set_current_process a) (with_procs (insert a (set_state PROCESS_RUNNING p)) s)) s'.
Proof.
  intros Hp. unfold dispatch. rewrite (wrp_bind _ _ _ _ _ Hp), putm_bind.
  set (p1 := set_state PROCESS_RUNNING p). set (s1 := with_mgr (set_current_process a) (with_procs (insert a p1) s)).
  assert (Hp1 : procs s1 !! a = Some p1) by apply lookup_insert_eq. rewrite (rdp_bind _ _ _ _ Hp1).
  assert (Hsw : exists s2, (if decide (p_page_directory p1 <> 0) then pd_switch (p_page_directory p1) else mret tt) s1
                  = Ret (s2, tt) /\ same_sched s1 s2).
  { destruct (decide (p_page_directory p1 <> 0)); [apply pd_switch_law|by exists s1]. }
  destruct Hsw as (s2 & Hsw & Hsame). rewrite (cmd_bind_eq _ _ _ _ _ Hsw). exists s2. split; [|done].
  rewrite (rdp_bind s2 a p1); [done|]. destruct Hsame as (_ & _ & ->). exact Hp1.
Qed.

(** The table once [a] has left its queue and runs. *)
Lemma dispatched s1 Q1 s2 k a l p p' (levels : Prop) : processes (mgr s2) = processes (mgr s1) ->
  current_process (mgr s2) = a -> procs s2 !! a = Some p' -> procs s1 !! a = Some p -> p_pid p' = p_pid p ->
  0 <= p_priority p' < 16 -> (forall b, b <> a -> procs s2 !! b = procs s1 !! b) -> Q1 (Ready k) = a :: l ->
  (forall i b, zget (processes (mgr s1)) i = Some b -> b <> 0 ->
     exists p, procs s1 !! b = Some p /\ p_pid p = i /\ (exists q, valid_queue q /\ b ∈ Q1 q) /\
       (levels -> 0 <= p_priority p < 16)) ->
  table_ok s2 (qupd Q1 (Ready k) l) /\ (levels -> levels_ok s2).
Proof.
  intros Et Ec Hp' Hp Epid Hpr Hne EQ Htab. split.
  - intros i b Hb Hnz. rewrite Et in Hb. destruct (Htab i b Hb Hnz) as (pb & Hpb & Hpid & (q & Hv & Hin) & _).
    rewrite Ec. destruct (decide (b = a)) as [->|Hba]; [exists p'; split; [done|]; split; [congruence|by left]|].
    exists pb. rewrite Hne by done. split; [done|]. split; [done|]. right. exists q. split; [done|].
    destruct (decide (q = Ready k)) as [->|]; [|by rewrite qupd_ne]. rewrite qupd_eq. rewrite EQ in Hin. set_solver.
  - intros Hl b pb (Hnz & Hpb & Ht). rewrite Et in Ht. destruct (Htab _ b Ht Hnz) as (pb' & Hpb' & _ & _ & Hlb).
    destruct (decide (b = a)) as [->|Hba]; [by assert (pb = p') as -> by congruence|].
    rewrite Hne in Hpb by done. assert (pb' = pb) as -> by congruence. auto.
Qed.

Lemma schedule_run s Q esp : sched_ok s Q ->
  exists Q1 s' Q' r, requeued s Q Q1 /\ schedule esp s = Ret (s', r) /\ sched_ok s' Q' /\
    ((current_process (mgr s') = 0 /\ r = esp /\ (forall j, 0 <= j < 16 -> Q1 (Ready j) = []) /\ Q' = Q1) \/
     exists k a l p, 0 <= k < 16 /\ (forall j, 0 <= j < k -> Q1 (Ready j) = []) /\ Q1 (Ready k) = a :: l /\
       Q' = qupd Q1 (Ready k) l /\ current_process (mgr s') = a /\ procs s' !! a = Some p /\
       p_state p = PROCESS_RUNNING /\ p_priority p = k /\ r = p_regs p /\
       (a = current_process (mgr s) -> r = esp)) /\
    blocks_changed (fun b c => dispatched_block (current_process (mgr s')) b (requeued_block (current_process (mgr s)) esp b c)) (procs s) (procs s') /\
    settled s Q s' Q'.
Proof.
  intros Hs. pose proof Hs as [Hok _].
  destruct (requeue_run s Q esp Hs) as (Q1 & s1 & Hrun1 & Hok1 & Hq1 & Hstill1 & Hwait1 & Hesp & Htab1 & Hblocks1).
  exists Q1. unfold schedule.
  rewrite (cmd_bind_eq _ _ s s true) by (unfold gets; by rewrite (qk_set _ _ Hok)).
  rewrite decide_False by done. rewrite (cmd_bind_eq _ _ _ _ _ Hrun1).
  destruct (pick_next_ok s1 Q1 Hok1 16 0) as [[Hpick Hall]|(k & a & l & p & m & Hk & Hlow & EQ & Ho & Hst & Hpick & Hstill & Ec & Hok2)];
    [lia|lia| |]; rewrite (cmd_bind_eq _ _ _ _ _ Hpick).
  - rewrite decide_True by done. exists (with_mgr (set_current_process 0) s1), Q1, esp.
    split; [done|]. split; [done|]. split; [split; [by apply (queues_ok_mgr s1)|by left]|]. split; [left; by split_and!|].
    split. { intros b c Hc. destruct (Hblocks1 b c Hc) as (v & Hv). exists v. unfold dispatched_block. rewrite decide_False by (cbn; tauto). exact Hv. }
    split; [exact Hstill1|]. split; [eapply requeued_waiting; [done|by left]|]. split; [eapply requeued_waiting; [done|by right]|].
    split; [exact Hwait1|]. intros Htab. specialize (Htab1 Htab). split.
    + intros i b Hb Hnz. destruct (Htab1 i b Hb Hnz) as (p & Hp & Hpid & Hq & _). exists p. auto.
    + intros Hl b p (Hnz & Hp & Ht). destruct (Htab1 _ b Ht Hnz) as (p' & Hp' & _ & _ & Hpr).
      assert (p' = p) as -> by (cbn in Hp; congruence). auto.
  - pose proof Ho as (Ha & Hp & Htb). rewrite decide_False by done.
    set (s2 := upd s1 m (<[a := set_next 0 p]> (procs s1))) in *.
    assert (Hp2 : procs s2 !! a = Some (set_next 0 p)) by apply lookup_insert_eq.
    set (p3 := set_state PROCESS_RUNNING (set_next 0 p)).
    destruct (dispatch_run s2 a _ Hp2) as (s4 & Hdis & Hsame). fold p3 in Hsame.
    pose proof Hsame as (Es4 & Em4 & Ep4).
    assert (Hp4 : procs s4 !! a = Some p3) by (rewrite Ep4; apply lookup_insert_eq).
    assert (Hp4' : forall b, b <> a -> procs s4 !! b = procs s1 !! b).
    { intros b Hb. rewrite Ep4. cbn. by rewrite insert_insert_eq, lookup_insert_ne. }
    assert (Hni : forall q, valid_queue q -> a ∉ qupd Q1 (Ready k) l q).
    { intros q Hv. destruct (decide (q = Ready k)) as [->|Hne].
      - rewrite qupd_eq. destruct (qk_q _ _ Hok1 (Ready k)) as (hd & _ & Hc & _); [cbn; lia|].
        rewrite EQ in Hc. by apply chain_NoDup, NoDup_cons in Hc as [? _].
      - rewrite qupd_ne by done. intros Hin. apply Hne. eapply (queue_disjoint s1); [done|done|cbn; lia|done|].
        rewrite EQ. by left. }
    assert (Hstill4 : still (mgr s) (mgr s4)).
    { eapply still_trans; [exact Hstill1|]. rewrite Em4. eapply still_trans; [exact Hstill|done]. }
    exists s4, (qupd Q1 (Ready k) l), (p_regs p3). split; [done|]. split; [done|]. split; [split|split; [|split]].
    + eapply same_sched_queues; [exact Hsame|]. apply (queues_ok_mgr (with_procs (insert a p3) s2)); [|done|done].
      by eapply queues_ok_insert.
    + eapply same_sched_current; [exact Hsame|]. right. exists p3. cbn. destruct Hst as [_ Hpr].
      split; [|split; [done|cbn; lia]]. split; [done|]. split; [apply lookup_insert_eq|]. destruct Hstill as (Em & _). cbn. by rewrite Em.
    + right. exists k, a, l, p3. destruct Hst as [_ Hpr]. rewrite Em4. do 7 (split; [done|]). split; [done|]. split; [done|].
      intros E. destruct Hesp as (pe & Hpe & Hre); [congruence|]. rewrite <- E in Hpe.
      cbn. congruence.
    + intros b c Hc. destruct (Hblocks1 b c Hc) as (v & Hv). rewrite Em4. unfold dispatched_block. cbn [current_process set_current_process mgr with_mgr with_procs upd s2].
      destruct (decide (b = a)) as [->|Hba].
      * rewrite decide_True by (split; [done|apply Ha]). exists 0. rewrite Hp4. unfold p3. do 2 f_equal. assert (p = set_next v (requeued_block (current_process (mgr s)) esp a c)) as -> by congruence. done.
      * rewrite decide_False by tauto. exists v. by rewrite Hp4'.
    + split; [done|]. rewrite !qupd_ne by done.
      split; [eapply requeued_waiting; [done|by left]|]. split; [eapply requeued_waiting; [done|by right]|]. split.
      * intros b q Hq Hb. rewrite <- (Hwait1 b q Hq Hb). apply Hp4'. intros ->.
        assert (Hvq : valid_queue q) by (by destruct Hq as [-> | ->]). apply (Hni q Hvq).
        rewrite qupd_ne by (by destruct Hq as [-> | ->]). by eapply requeued_in.
      * intros Htab. apply (dispatched s1 Q1 s4 k a l p p3); [by rewrite Em4; apply Hstill|by rewrite Em4|done|apply Ho|done|cbn; destruct Hst as [_ E]; lia|done|done|auto].
Qed.

(** C5. The scheduler. The running process (if any) goes back to the ready queue
    of its priority, with [esp] as its saved stack pointer, and when its slice is
    used up one level lower (the lowest level is kept) and with the fresh slice of
    that level ([demoted]); then the process that runs is the one with the smallest
    pid in the highest-priority non-empty ready queue, which is marked as running
    and whose saved stack pointer is returned. Only when every ready queue is empty
    is nothing running and the caller's own stack pointer returned. No other field
    of any control block changes but the queue links, and the scheduler invariant is
    preserved. *)
Theorem schedule_highest_priority s Q esp : sched_ok s Q ->
  exists Q1 s' Q' r,
    (let cur := current_process (mgr s) in
     (cur = 0 /\ forall q, Q1 q = Q q) \/
     exists c l1 l2, procs s !! cur = Some c /\
       Q (Ready (p_priority (demoted c))) = l1 ++ l2 /\
       Q1 = qupd Q (Ready (p_priority (demoted c))) (l1 ++ cur :: l2)) /\
    schedule esp s = Ret (s', r) /\ sched_ok s' Q' /\
    ((current_process (mgr s') = 0 /\ r = esp /\ (forall j, 0 <= j < 16 -> Q1 (Ready j) = []) /\ Q' = Q1) \/
     exists k a l p, 0 <= k < 16 /\ (forall j, 0 <= j < k -> Q1 (Ready j) = []) /\ Q1 (Ready k) = a :: l /\
       Q' = qupd Q1 (Ready k) l /\ current_process (mgr s') = a /\ procs s' !! a = Some p /\
       p_state p = PROCESS_RUNNING /\ p_priority p = k /\ r = p_regs p /\
       (a = current_process (mgr s) -> r = esp)) /\
    (forall b c, procs s !! b = Some c -> exists v, procs s' !! b =
       Some (set_next v (dispatched_block (current_process (mgr s')) b (requeued_block (current_process (mgr s)) esp b c)))).
Proof.
  intros Hs. destruct (schedule_run s Q esp Hs) as (Q1 & s' & Q' & r & Hq & Hrun & Hok & Hres & Hblocks & _).
  exists Q1, s', Q', r. split; [|done]. destruct Hq as [?|(c & l1 & l2 & Hc & _ & El & EQ)]; [by left|].
  right. by exists c, l1, l2.
Qed.

(** ** Moving a process between queues *)

Lemma park s Q q a p f : queues_ok s Q -> valid_queue q -> owned s a p ->
  (forall q', valid_queue q' -> a ∉ Q q') -> p_pid (f p) = p_pid p -> queue_state q (f p) ->
  exists l1 l2 m h, Q q = l1 ++ l2 /\
    enqueue_process q a (with_procs (insert a (f p)) s) = Ret (upd s m h, tt) /\
    processes m = processes (mgr s) /\ current_process m = current_process (mgr s) /\
    still (mgr s) m /\
    queues_ok (upd s m h) (qupd Q q (l1 ++ a :: l2)) /\
    (exists v, h !! a = Some (set_next v (f p))) /\ same_off a (procs s) h.
Proof.
  intros Hok Hv Ho Hni Epid Hst. pose proof Ho as (Ha & Hp & Ht).
  set (s1 := with_procs (insert a (f p)) s).
  assert (Hok1 : queues_ok s1 Q) by (by eapply queues_ok_insert).
  assert (Ho1 : owned s1 a (f p)) by (split; [done|]; split; [apply lookup_insert_eq|by rewrite Epid]).
  destruct (enqueue_ok s1 Q q a (f p) Hok1 Hv Ho1 Hst Hni) as (l1 & l2 & hd & h & El & Hrun & Hok2 & Hs & _).
  exists l1, l2, (qset q hd (mgr s)), h. split; [done|]. split; [done|].
  split; [apply processes_qset|]. split; [apply current_qset|]. split; [apply still_qset|].
  split; [done|]. split.
  - destruct (same_but_next_Some _ _ _ _ Hs (lookup_insert_eq _ _ _)) as (v & Hv'). by exists v.
  - intros b Hb. rewrite Hs. cbn. by rewrite lookup_insert_ne.
Qed.

(** A READY or BLOCKED process is in its queue, from which it can be removed. *)
Lemma detach s Q q a p : sched_inv s Q -> owned s a p -> queue_state q p ->
  exists l1 l2 m h, valid_queue q /\ Q q = l1 ++ a :: l2 /\
    remove_process_from_queue q (p_pid p) s = Ret (upd s m h, a) /\
    processes m = processes (mgr s) /\ current_process m = current_process (mgr s) /\
    still (mgr s) m /\
    queues_ok (upd s m h) (qupd Q q (l1 ++ l2)) /\
    (forall q', valid_queue q' -> a ∉ qupd Q q (l1 ++ l2) q') /\
    h !! a = Some (set_next 0 p) /\ same_off a (procs s) h.
Proof.
  intros [[Hok Hcur] Htab] Ho Hst. pose proof Ho as (Ha & Hp & Ht).
  assert (Hin : valid_queue q /\ a ∈ Q q).
  { destruct (Htab _ _ Ht Ha) as (p' & Hp' & _ & Hloc). destruct Hloc as [E|(q' & Hv' & Hin)].
    - exfalso. destruct Hcur as [E0|(pc & (_ & Hpc & _) & Hrc & _)]; [congruence|].
      rewrite <- E in Hpc. assert (pc = p) as -> by congruence.
      destruct q; cbn in Hst; intuition congruence.
    - destruct (qk_q _ _ Hok q' Hv') as (_ & _ & _ & _ & Hqs).
      destruct (Hqs _ Hin) as (p2 & (_ & Hp2 & _) & Hst2). assert (p2 = p) as -> by congruence.
      assert (q = q') as -> by (by eapply queue_state_inj). done. }
  destruct Hin as [Hv Hin]. pose proof (list_elem_of_split _ _ Hin) as (l1 & l2 & El).
  destruct (remove_ok s Q q l1 a l2 p Hok Hv El Hp) as (hd & h & Hrun & Hok2 & Hs & Hout & Ha').
  exists l1, l2, (qset q hd (mgr s)), h. split; [done|]. split; [done|]. split; [done|].
  split; [apply processes_qset|]. split; [apply current_qset|]. split; [apply still_qset|]. split; [done|]. split.
  - intros q' Hv'. destruct (decide (q' = q)) as [->|Hne].
    + rewrite qupd_eq. destruct (qk_q _ _ Hok q Hv) as (hd0 & _ & Hc & _). rewrite El in Hc.
      apply chain_NoDup, NoDup_app in Hc as (_ & Hd & [Hn2 _]%NoDup_cons).
      intros [Hi|Hi]%elem_of_app; [|done]. apply (Hd _ Hi). by left.
    + rewrite qupd_ne by done. intros Hi. destruct Hne.
      eapply (queue_disjoint s); [done|done|done|done|]. by rewrite El in Hin |- *.
  - split; [done|]. intros b _. apply Hs.
Qed.

(** The table invariant after [a] has moved. *)
Lemma table_moved s Q s' Q' a : table_ok s Q -> processes (mgr s') = processes (mgr s) ->
  same_off a (procs s) (procs s') ->
  (exists p p', procs s !! a = Some p /\ procs s' !! a = Some p' /\ p_pid p' = p_pid p) ->
  (a = current_process (mgr s') \/ exists q, valid_queue q /\ a ∈ Q' q) ->
  (forall b, b <> a -> b = current_process (mgr s) -> b = current_process (mgr s')) ->
  (forall b q, b <> a -> valid_queue q -> b ∈ Q q -> b ∈ Q' q) ->
  table_ok s' Q'.
Proof.
  intros Htab Ep Hs (pa & pa' & Hpa & Hpa' & Epid) Hloc Hcur Hq i b Hb Hnz. rewrite Ep in Hb.
  destruct (Htab _ _ Hb Hnz) as (p & Hp & Hpid & Hl). destruct (decide (b = a)) as [->|Hne].
  - exists pa'. split; [done|]. split; [|done]. rewrite Epid. assert (pa = p) as -> by congruence. done.
  - destruct (same_off_pid _ _ _ _ _ Hs Hne Hp) as (p' & Hp' & E & _). exists p'.
    split; [done|]. split; [by rewrite E|]. destruct Hl as [?|(q & Hv & Hin)]; [left; auto|].
    right. exists q. auto.
Qed.

(** The running process is not affected by what happens to [a]. *)
Lemma current_moved s s' a : current_ok s -> processes (mgr s') = processes (mgr s) ->
  current_process (mgr s') = current_process (mgr s) -> current_process (mgr s) <> a ->
  same_off a (procs s) (procs s') -> current_ok s'.
Proof.
  intros [E|(p & (Ha & Hp & Ht) & Hr & Hpr)] Ep Ec Hne Hs; [left; congruence|]. right.
  destruct (same_off_pid _ _ _ _ _ Hs Hne Hp) as (p' & Hp' & Epid & E). exists p'.
  assert (p_state p' = p_state p /\ p_priority p' = p_priority p) as [Es Epr].
  { split; [apply (f_equal p_state) in E|apply (f_equal p_priority) in E]; done. }
  unfold owned. rewrite Ec, Ep, Epid, Es, Epr. done.
Qed.

Lemma lookup_run s pid a : pm_set s = true -> 0 <= pid < 64 -> zget (processes (mgr s)) pid = Some a ->
  lookup_process pid s = Ret (s, a).
Proof.
  intros Hset Hpid Ha. unfold lookup_process. rewrite (cmd_bind_eq _ _ s s true) by (unfold gets; by rewrite Hset).
  unfold PROCESS_MAX_COUNT. rewrite decide_False by (intros [?|?]; [done|lia]).
  rewrite getm_bind. unfold lift. by rewrite Ha.
Qed.

(** From the state in which [a] has left its place to the one in which it is
    parked in [q'] with its block updated by [f]. *)
Lemma parked s Q s1 Q1 q' a p p1 f : sched_inv s Q -> owned s a p ->
  queues_ok s1 Q1 -> processes (mgr s1) = processes (mgr s) -> pm_set s1 = pm_set s ->
  procs s1 !! a = Some p1 -> p_pid p1 = p_pid p -> same_off a (procs s) (procs s1) ->
  (forall q, valid_queue q -> a ∉ Q1 q) ->
  (forall b q, b <> a -> valid_queue q -> b ∈ Q1 q <-> b ∈ Q q) ->
  (current_process (mgr s1) = 0 \/ current_process (mgr s1) = current_process (mgr s)) ->
  current_process (mgr s1) <> a ->
  (forall b, b <> a -> b = current_process (mgr s) -> b = current_process (mgr s1)) ->
  valid_queue q' -> p_pid (f p1) = p_pid p1 -> queue_state q' (f p1) ->
  exists s' l1 l2, enqueue_process q' a (with_procs (insert a (f p1)) s1) = Ret (s', tt) /\
    Q1 q' = l1 ++ l2 /\ sched_inv s' (qupd Q1 q' (l1 ++ a :: l2)) /\
    (exists v, procs s' !! a = Some (set_next v (f p1))) /\
    current_process (mgr s') = current_process (mgr s1) /\ still (mgr s1) (mgr s') /\
    same_off a (procs s) (procs s') /\
    (forall b q, b <> a -> valid_queue q -> b ∈ qupd Q1 q' (l1 ++ a :: l2) q <-> b ∈ Q q).
Proof.
  intros [[Hok Hcur] Htab] Ho Hok1 Ep1 Es1 Hp1 Epid Hoff Hni Hmem Hc0 Hca Hcb Hv Ef Hst.
  pose proof Ho as (Ha & Hp & Ht).
  assert (Ho1 : owned s1 a p1) by (split; [done|]; split; [done|by rewrite Ep1, Epid]).
  destruct (park s1 Q1 q' a p1 f Hok1 Hv Ho1 Hni Ef Hst)
    as (l1 & l2 & m & h & El & Hrun & Epm & Ecm & Hstill & Hok2 & (v & Hh) & Hoff2).
  assert (Hmem' : forall b q, b <> a -> valid_queue q ->
    b ∈ qupd Q1 q' (l1 ++ a :: l2) q <-> b ∈ Q q).
  { intros b q Hb Hvq. rewrite <- Hmem by done. destruct (decide (q = q')) as [->|Hne].
    - rewrite qupd_eq, El. set_solver.
    - by rewrite qupd_ne. }
  pose proof (same_off_trans _ _ _ _ Hoff Hoff2) as Hoff3.
  exists (upd s1 m h), l1, l2. split; [done|]. split; [done|]. split; [split; [split|]|].
  - done.
  - destruct Hc0 as [E|E]; [left; cbn; congruence|].
    apply (current_moved s _ a Hcur); cbn; congruence || done.
  - apply (table_moved s Q _ _ a Htab); cbn; try done; try congruence.
    + exists p, (set_next v (f p1)). split; [done|]. split; [done|]. cbn. congruence.
    + right. exists q'. split; [done|]. rewrite qupd_eq. set_solver.
    + intros b Hb Hbc. rewrite Ecm. auto.
    + intros b q Hb Hvq Hbq. by apply Hmem'.
  - split; [by exists v|]. split; [done|]. split; [done|]. split; [exact Hoff3|exact Hmem'].
Qed.

(** The members of the other queues when [a] is taken out of one. *)
Lemma detached_members s Q q a l1 l2 : Q q = l1 ++ a :: l2 ->
  forall b q', b <> a -> b ∈ qupd Q q (l1 ++ l2) q' <-> b ∈ Q q'.
Proof.
  intros El b q' Hb. destruct (decide (q' = q)) as [->|Hne]; [|by rewrite qupd_ne].
  rewrite qupd_eq, El. set_solver.
Qed.

(** Blocking. A READY process is taken out of its ready queue, the running
    process stops running; either way it ends BLOCKED in the blocked queue with
    its wake-up time set, and no other process moves. Any other process is left
    as it is. The rescheduling interrupt at the end is never raised. *)
Theorem block_process_moves s Q pid wait a p : sched_inv s Q -> 0 <= pid < 64 ->
  zget (processes (mgr s)) pid = Some a -> a <> 0 -> procs s !! a = Some p ->
  let cur := current_process (mgr s) in
  exists s' Q', block_process pid wait s = Ret (s', tt) /\ sched_inv s' Q' /\
    still (mgr s) (mgr s') /\ same_off a (procs s) (procs s') /\
    (p_state p = PROCESS_READY \/ a = cur ->
       a ∈ Q' Blocked /\ (forall q, valid_queue q -> a ∈ Q' q -> q = Blocked) /\
       (exists v, procs s' !! a = Some (set_next v (set_wakeup_time (u32 (system_ticks (mgr s) + wait))
                                          (set_state PROCESS_BLOCKED (set_next 0 p)))) \/
                  procs s' !! a = Some (set_next v (set_wakeup_time (u32 (system_ticks (mgr s) + wait))
                                          (set_state PROCESS_BLOCKED p)))) /\
       current_process (mgr s') = (if decide (a = cur) then 0 else cur) /\
       forall b q, b <> a -> valid_queue q -> b ∈ Q' q <-> b ∈ Q q) /\
    (p_state p <> PROCESS_READY -> a <> cur -> s' = s /\ Q' = Q).
Proof.
  intros Hinv Hpid Htb Ha Hp cur. pose proof Hinv as [[Hok Hcur] Htab].
  destruct (Htab _ _ Htb Ha) as (p0 & Hp0 & Epid & _). assert (p0 = p) as -> by congruence. clear Hp0.
  assert (Ho : owned s a p) by (split; [done|]; split; [done|by rewrite Epid]).
  unfold block_process. rewrite (cmd_bind_eq _ _ _ _ _ (lookup_run _ _ _ (qk_set _ _ Hok) Hpid Htb)).
  rewrite decide_False, (rdp_bind _ _ _ _ Hp), getm_bind by done. fold cur.
  assert (Hcs : a = cur -> p_state p = PROCESS_RUNNING).
  { intros E. destruct Hcur as [E0|(pc & (_ & Hpc & _) & Hrc & _)]; [unfold cur in E; congruence|].
    unfold cur in E. rewrite <- E in Hpc. congruence. }
  assert (Huniq : forall s' Q', queues_ok s' Q' -> a ∈ Q' Blocked ->
    forall q, valid_queue q -> a ∈ Q' q -> q = Blocked).
  { intros s' Q' Hok' Hb q Hv Hq. by eapply (queue_disjoint s'). }
  destruct (decide (p_state p = PROCESS_READY)) as [Er|Enr].
  - assert (Hac : a <> cur) by (intros E; specialize (Hcs E); congruence).
    rewrite decide_False by tauto.
    destruct (detach s Q (Ready (p_priority p)) a p Hinv Ho (conj Er eq_refl))
      as (l1 & l2 & m & h & Hv & El & Hrun & Epm & Ecm & Etm & Hok1 & Hni & Hha & Hoff).
    set (s1 := upd s m h) in *.
    assert (Erm : remove_process_from_queue (Ready (p_priority p)) pid s = Ret (s1, a)) by (by rewrite <- Epid).
    erewrite (cmd_bind_eq (_ ≫= _)); [|by rewrite (cmd_bind_eq _ _ _ _ _ Erm)].
    rewrite (wrp_bind s1 _ _ _ _ Hha), getm_bind.
    erewrite wrp_bind by apply lookup_insert_eq. unfold with_procs at 1 2 3. cbn [pm_set mgr procs regs_mem region_next].
    rewrite insert_insert_eq. change (system_ticks (mgr s1)) with (system_ticks m). rewrite (proj2 (proj2 Etm)).
    set (f := fun p => set_wakeup_time (u32 (system_ticks (mgr s) + wait)) (set_state PROCESS_BLOCKED p)).
    destruct (parked s Q s1 (qupd Q (Ready (p_priority p)) (l1 ++ l2)) Blocked a p (set_next 0 p) f)
      as (s' & k1 & k2 & Hrun' & EQ & Hinv' & (v & Hh) & Ecur & Hstill & Hoff' & Hmem); try done.
    + intros b q Hb _. by apply (detached_members s _ _ a).
    + right. done.
    + cbn. rewrite Ecm. intros E. by apply Hac.
    + intros b _ ->. done.
    + eexists s', _. split; [|split; [exact Hinv'|split; [eapply still_trans; [exact Etm|exact Hstill]|split; [done|split; [|tauto]]]]].
      * change (mkPstate (pm_set s1) (mgr s1) (<[a:=f (set_next 0 p)]> (procs s1)) (regs_mem s1) (region_next s1))
          with (with_procs (insert a (f (set_next 0 p))) s1).
        rewrite (cmd_bind_eq _ _ _ _ _ Hrun'), getm_bind, Ecur. cbn [mgr s1 upd]. rewrite Ecm.
        by rewrite decide_False.
      * intros _. split; [apply qupd_in|]. split; [eapply (Huniq s'); [apply Hinv'|apply qupd_in]|].
        split; [exists v; by left|]. split; [|done]. rewrite Ecur, decide_False by done. exact Ecm.
  - destruct (decide (a = cur)) as [Ea|Ea].
    + rewrite decide_False by tauto.
      set (s1 := with_mgr (set_current_process 0) s).
      rewrite (cmd_bind_eq _ _ s s1 tt) by done.
      assert (Hp1 : procs s1 !! a = Some p) by done.
      rewrite (wrp_bind _ _ _ _ _ Hp1), getm_bind.
      erewrite wrp_bind by apply lookup_insert_eq. unfold with_procs at 1 2 3. cbn [pm_set mgr procs regs_mem region_next].
      rewrite insert_insert_eq.
      set (f := fun p => set_wakeup_time (u32 (system_ticks (mgr s) + wait)) (set_state PROCESS_BLOCKED p)).
      assert (Hni : forall q, valid_queue q -> a ∉ Q q).
      { specialize (Hcs Ea). eapply unqueued; [done|done|congruence..]. }
      destruct (parked s Q s1 Q Blocked a p p f)
        as (s' & k1 & k2 & Hrun' & EQ & Hinv' & (v & Hh) & Ecur & Hstill & Hoff' & Hmem); try done.
      * by apply (queues_ok_mgr s).
      * by left.
      * intros b Hb E. unfold cur in Ea. congruence.
      * eexists s', _. split; [|split; [exact Hinv'|split; [exact Hstill|split; [done|split; [|tauto]]]]].
        -- change (mkPstate (pm_set s1) (mgr s1) (<[a:=f p]> (procs s1)) (regs_mem s1) (region_next s1))
             with (with_procs (insert a (f p)) s1).
           rewrite (cmd_bind_eq _ _ _ _ _ Hrun'), getm_bind, Ecur. cbn. by rewrite decide_False.
        -- intros _. split; [apply qupd_in|]. split; [eapply (Huniq s'); [apply Hinv'|apply qupd_in]|].
           split; [exists v; by right|]. done.
    + rewrite decide_True by done. exists s, Q. do 4 (split; [done|]). split; [|done].
      intros [?|?]; done.
Qed.

(** The blocked process [a] goes from the blocked queue to the ready queue of its
    priority. *)
Lemma unblock_run s Q a p : sched_inv s Q -> owned s a p -> p_state p = PROCESS_BLOCKED ->
  0 <= p_priority p < 16 ->
  exists s' l1 l2 k1 k2, unblock_process (p_pid p) s = Ret (s', tt) /\
    Q Blocked = l1 ++ a :: l2 /\ Q (Ready (p_priority p)) = k1 ++ k2 /\
    sched_inv s' (qupd (qupd Q Blocked (l1 ++ l2)) (Ready (p_priority p)) (k1 ++ a :: k2)) /\
    (exists v, procs s' !! a = Some (set_next v (set_state PROCESS_READY p))) /\
    current_process (mgr s') = current_process (mgr s) /\ still (mgr s) (mgr s') /\
    same_off a (procs s) (procs s').
Proof.
  intros Hinv Ho Eb Hpr. pose proof Hinv as [[Hok Hcur] Htab]. pose proof Ho as (Ha & Hp & Htb).
  assert (Hpid : 0 <= p_pid p < 64).
  { pose proof (zget_Some_range _ _ _ Htb) as Hr. rewrite (qk_len _ _ Hok) in Hr. lia. }
  unfold unblock_process. rewrite (cmd_bind_eq _ _ _ _ _ (lookup_run _ _ _ (qk_set _ _ Hok) Hpid Htb)).
  rewrite decide_False, (rdp_bind _ _ _ _ Hp) by done. rewrite decide_False by tauto.
  destruct (detach s Q Blocked a p Hinv Ho Eb)
    as (l1 & l2 & m & h & Hv & El & Hrun & Epm & Ecm & Etm & Hok1 & Hni & Hha & Hoff).
  set (s1 := upd s m h) in *.
  rewrite (cmd_bind_eq _ _ _ _ _ Hrun), (wrp_bind s1 _ _ _ _ Hha).
  erewrite rdp_bind by apply lookup_insert_eq. cbn [p_priority set_state set_next].
  assert (Hac : current_process (mgr s1) <> a).
  { cbn. rewrite Ecm. intros E. destruct Hcur as [E0|(pc & (_ & Hpc & _) & Hrc & _)]; [congruence|].
    rewrite E in Hpc. congruence. }
  destruct (parked s Q s1 (qupd Q Blocked (l1 ++ l2)) (Ready (p_priority p)) a p (set_next 0 p) (set_state PROCESS_READY))
    as (s' & k1 & k2 & Hrun' & EQ & Hinv' & (v & Hh) & Ecur & Hstill & Hoff' & _); try done.
  - intros b q Hb _. by apply (detached_members s _ _ a).
  - right. done.
  - intros b _ ->. done.
  - exists s', l1, l2, k1, k2. split; [done|]. split; [done|]. rewrite qupd_ne in EQ by done. split; [done|].
    split; [done|]. split; [by exists v|]. split; [by rewrite Ecur|].
    split; [eapply still_trans; [exact Etm|exact Hstill]|done].
Qed.

(** A process that is not blocked is left alone. *)
Lemma unblock_idle s pid a p : pm_set s = true -> 0 <= pid < 64 -> zget (processes (mgr s)) pid = Some a -> a <> 0 ->
  procs s !! a = Some p -> p_state p <> PROCESS_BLOCKED -> unblock_process pid s = Ret (s, tt).
Proof.
  intros Hset Hpid Ht Ha Hp Hst. unfold unblock_process. rewrite (cmd_bind_eq _ _ _ _ _ (lookup_run _ _ _ Hset Hpid Ht)).
  by rewrite decide_False, (rdp_bind _ _ _ _ Hp), decide_True.
Qed.

(** C6. Unblocking. A BLOCKED process moves from the blocked queue to the ready
    queue of its priority and becomes READY; no other process moves. A process
    in any other state is left alone. *)
Theorem unblock_process_moves s Q pid a p : sched_inv s Q -> 0 <= pid < 64 ->
  zget (processes (mgr s)) pid = Some a -> a <> 0 -> procs s !! a = Some p -> 0 <= p_priority p < 16 ->
  exists s' Q', unblock_process pid s = Ret (s', tt) /\ sched_inv s' Q' /\
    (p_state p = PROCESS_BLOCKED ->
       a ∈ Q' (Ready (p_priority p)) /\ a ∉ Q' Blocked /\
       (exists p', procs s' !! a = Some p' /\ p_state p' = PROCESS_READY /\ p_priority p' = p_priority p) /\
       current_process (mgr s') = current_process (mgr s) /\
       forall b q, b <> a -> valid_queue q -> b ∈ Q' q <-> b ∈ Q q) /\
    (p_state p <> PROCESS_BLOCKED -> s' = s /\ Q' = Q).
Proof.
  intros Hinv Hpid Htb Ha Hp Hpr. pose proof Hinv as [[Hok Hcur] Htab].
  destruct (Htab _ _ Htb Ha) as (p0 & Hp0 & Epid & _). assert (p0 = p) as -> by congruence. clear Hp0.
  destruct (decide (p_state p = PROCESS_BLOCKED)) as [Eb|Eb].
  2:{ exists s, Q. split; [by apply (unblock_idle s pid a p); [apply Hok|..]|]. split; [done|]. by split. }
  assert (Ho : owned s a p) by (split; [done|]; split; [done|by rewrite Epid]).
  destruct (unblock_run s Q a p Hinv Ho Eb Hpr)
    as (s' & l1 & l2 & k1 & k2 & Hrun & El & EQ & Hinv' & (v & Hh) & Ecur & _ & Hoff).
  eexists s', _. rewrite <- Epid. split; [done|]. split; [exact Hinv'|]. split; [|tauto]. intros _.
  assert (Hin : a ∈ qupd (qupd Q Blocked (l1 ++ l2)) (Ready (p_priority p)) (k1 ++ a :: k2) (Ready (p_priority p)))
    by (rewrite qupd_eq; set_solver).
  split; [done|]. split; [|split; [eexists; split; [exact Hh|done]|split; [done|]]].
  - intros Hb. assert (Ready (p_priority p) = Blocked) as Heq; [|discriminate Heq].
    eapply (queue_disjoint s'); [apply Hinv'|done|done|exact Hin|exact Hb].
  - intros b q Hb Hvq. rewrite <- (detached_members s Q Blocked a l1 l2 El b q Hb).
    destruct (decide (q = Ready (p_priority p))) as [->|Hne]; [|by rewrite qupd_ne].
    rewrite qupd_eq, qupd_ne, EQ by done. set_solver.
Qed.

(** ** Termination *)

(** Terminating the running process: it becomes TERMINATED with its exit
    code, nothing is running afterwards, it waits in the terminated queue for
    the next clean-up, no other process moves, and no interrupt is raised. *)
Theorem terminate_running s Q pid code a p : sched_inv s Q -> 0 <= pid < 64 ->
  zget (processes (mgr s)) pid = Some a -> a <> 0 -> a = current_process (mgr s) ->
  procs s !! a = Some p ->
  exists s' Q', terminate_process pid code s = Ret (s', tt) /\ sched_inv s' Q' /\
    still (mgr s) (mgr s') /\ same_off a (procs s) (procs s') /\
    current_process (mgr s') = 0 /\ a ∈ Q' Terminated /\
    (exists v, procs s' !! a = Some (set_next v (set_exit_code code (set_state PROCESS_TERMINATED p)))) /\
    forall b q, b <> a -> valid_queue q -> b ∈ Q' q <-> b ∈ Q q.
Proof.
  intros Hinv Hpid Htb Ha Hcur_a Hp. pose proof Hinv as [[Hok Hcur] Htab].
  destruct (Htab _ _ Htb Ha) as (p0 & Hp0 & Epid & _). assert (p0 = p) as -> by congruence. clear Hp0.
  assert (Ho : owned s a p) by (split; [done|]; split; [done|by rewrite Epid]).
  assert (Hst : p_state p = PROCESS_RUNNING).
  { destruct Hcur as [E0|(pc & (_ & Hpc & _) & Hrc & _)]; [congruence|].
    rewrite <- Hcur_a in Hpc. congruence. }
  unfold terminate_process. rewrite (cmd_bind_eq _ _ _ _ _ (lookup_run _ _ _ (qk_set _ _ Hok) Hpid Htb)).
  rewrite decide_False, (wrp_bind _ _ _ _ _ Hp) by done.
  erewrite wrp_bind by apply lookup_insert_eq. erewrite rdp_bind by apply lookup_insert_eq. rewrite getm_bind.
  cbn [p_state set_state set_exit_code]. rewrite decide_False, decide_False, decide_True by (done || exact Hcur_a).
  set (f := fun p => set_exit_code code (set_state PROCESS_TERMINATED p)).
  set (s1 := with_mgr (set_current_process 0) s).
  rewrite (cmd_bind_eq _ _ _ (with_procs (insert a (f p)) s1) tt).
  2:{ unfold putm, modify, with_mgr, with_procs. cbn. by rewrite insert_insert_eq. }
  destruct (parked s Q s1 Q Terminated a p p f)
    as (s' & k1 & k2 & Hrun' & EQ & Hinv' & (v & Hh) & Ecur & Hstill & Hoff & Hmem); try done.
  - by apply (queues_ok_mgr s).
  - eapply unqueued; [done|done|congruence..].
  - by left.
  - intros b Hb E. congruence.
  - eexists s', _. split.
    + rewrite (cmd_bind_eq _ _ _ _ _ Hrun'), getm_bind, Ecur. cbn. by rewrite decide_False.
    + split; [exact Hinv'|]. split; [exact Hstill|]. split; [done|]. split; [done|].
      split; [apply qupd_in|]. split; [by exists v|done].
Qed.

Lemma chain_through nx p l1 a l : lseg nx p l1 a -> a <> 0 -> chain nx p l -> a ∈ l.
Proof.
  revert p l. induction l1 as [|b l1 IH]; intros p l.
  - intros -> Ha Hl. destruct l as [|c l]; [by apply chain_nil in Hl|].
    apply chain_cons in Hl as (-> & _). by left.
  - intros (-> & Hb & r & Hr & Hs) Ha Hl. destruct l as [|c l]; [by apply chain_nil in Hl|].
    apply chain_cons in Hl as (-> & _ & r' & Hr' & Hl). assert (r' = r) as -> by congruence.
    right. by eapply IH.
Qed.

(** Terminating a READY process does not take it out of its ready queue (its
    state is overwritten before the test that should): it stays linked there
    although TERMINATED, and also enters the terminated queue. No queues
    satisfy the scheduler invariant afterwards. *)
Theorem terminate_ready_stays_queued s Q pid code a p : sched_inv s Q -> 0 <= pid < 64 ->
  zget (processes (mgr s)) pid = Some a -> a <> 0 -> procs s !! a = Some p ->
  p_state p = PROCESS_READY ->
  exists s' hd l1, terminate_process pid code s = Ret (s', tt) /\
    qhead (mgr s') (Ready (p_priority p)) = Some hd /\ lseg (next_of (procs s')) hd l1 a /\
    (exists p', procs s' !! a = Some p' /\ p_state p' = PROCESS_TERMINATED) /\
    forall Q', ~ queues_ok s' Q'.
Proof.
  intros Hinv Hpid Htb Ha Hp Hst. pose proof Hinv as [[Hok Hcur] Htab].
  destruct (Htab _ _ Htb Ha) as (p0 & Hp0 & Epid & Hloc). assert (p0 = p) as -> by congruence. clear Hp0.
  assert (Ho : owned s a p) by (split; [done|]; split; [done|by rewrite Epid]).
  assert (Hac : a <> current_process (mgr s)).
  { intros E. destruct Hcur as [E0|(pc & (_ & Hpc & _) & Hrc & _)]; [congruence|].
    rewrite <- E in Hpc. congruence. }
  assert (Hq : valid_queue (Ready (p_priority p)) /\ a ∈ Q (Ready (p_priority p))).
  { destruct Hloc as [?|(q & Hv & Hin)]; [done|].
    destruct (qk_q _ _ Hok q Hv) as (_ & _ & _ & _ & Hqs).
    destruct (Hqs _ Hin) as (p2 & (_ & Hp2 & _) & Hst2). assert (p2 = p) as -> by congruence.
    assert (q = Ready (p_priority p)) as -> by (apply (queue_state_inj _ _ p); [done|by split]). done. }
  destruct Hq as [Hv Hin]. apply list_elem_of_split in Hin as (l1 & l2 & El).
  destruct (qk_q _ _ Hok _ Hv) as (hd & Hhd & Hc & _ & _). rewrite El in Hc.
  pose proof (chain_NoDup _ _ _ Hc) as Hnd.
  apply chain_split in Hc as (Hseg & _ & _).
  unfold terminate_process. rewrite (cmd_bind_eq _ _ _ _ _ (lookup_run _ _ _ (qk_set _ _ Hok) Hpid Htb)).
  rewrite decide_False, (wrp_bind _ _ _ _ _ Hp) by done.
  erewrite wrp_bind by apply lookup_insert_eq. erewrite rdp_bind by apply lookup_insert_eq. rewrite getm_bind.
  cbn [p_state set_state set_exit_code]. rewrite decide_False, decide_False, decide_False by (done || exact Hac).
  set (p1 := set_exit_code code (set_state PROCESS_TERMINATED p)).
  set (s1 := with_procs (insert a p1) s).
  rewrite (cmd_bind_eq _ _ _ s1 tt).
  2:{ unfold mret, cmd_mret, s1, with_procs. cbn. by rewrite insert_insert_eq. }
  destruct (qk_q _ _ Hok Terminated I) as (ht & Hht & Hct & _ & Hqt).
  assert (Hnt : a ∉ Q Terminated) by (eapply (not_queued s); [done|done|done|cbn; congruence]).
  assert (Hct1 : chain (next_of (procs s1)) ht (Q Terminated)).
  { eapply chain_ext; [|exact Hct]. intros b Hb. apply next_of_insert_ne. by intros ->. }
  destruct (enqueue_spec s1 Terminated (Q Terminated) ht a p1 Hht Hct1)
    as (k1 & k2 & ht' & h' & Ek & Hrun & Hch & Hs & Hout & _); [apply lookup_insert_eq|done|done|].
  rewrite (cmd_bind_eq _ _ _ _ _ Hrun), getm_bind. cbn [mgr upd qset]. rewrite decide_False by exact Hac.
  set (s' := upd s1 _ h').
  assert (Hseg' : lseg (next_of h') hd l1 a).
  { eapply lseg_ext; [|exact Hseg]. intros b Hb. unfold next_of. rewrite Hout.
    - unfold s1. cbn. rewrite lookup_insert_ne; [done|]. intros <-.
      apply NoDup_app in Hnd as (_ & Hd & _). apply (Hd a Hb). by left.
    - intros ->. apply NoDup_app in Hnd as (_ & Hd & _). apply (Hd a Hb). by left.
    - intros Hb2. assert (Hbq : b ∈ Q (Ready (p_priority p))) by (rewrite El; set_solver).
      assert (Ready (p_priority p) = Terminated) as Hx; [|discriminate Hx].
      by apply (queue_disjoint s Q _ _ b). }
  destruct (same_but_next_Some _ _ a p1 Hs) as (v & Hv'); [apply lookup_insert_eq|].
  exists s', hd, l1. split; [done|]. split; [exact Hhd|]. split; [exact Hseg'|].
  split; [by eexists|]. intros Q' Hok'.
  destruct (qk_q _ _ Hok' _ Hv) as (hd' & Hhd' & Hc' & _ & Hqs').
  assert (hd' = hd) as -> by (cbn in Hhd, Hhd'; congruence).
  destruct (Hqs' a) as (p' & (_ & Hp' & _) & [Hst' _]).
  { exact (chain_through _ _ _ _ _ Hseg' Ha Hc'). }
  cbn in Hp'. rewrite Hv' in Hp'. injection Hp' as <-. discriminate Hst'.
Qed.

(** ** Creation *)

(** The PID bitmap has the bits of the occupied table entries. *)
Definition pids_ok s : Prop :=
  length (process_bitmap (mgr s)) = 8%nat /\ bm_wf 8 (process_bitmap (mgr s)) /\
  forall i, 0 <= i < 64 ->
    bm_bit 8 (process_bitmap (mgr s)) i = negb (bool_decide (zget (processes (mgr s)) i = Some 0)).

(** The state while the new control block [a] is being filled in. *)
Definition draft s (a : Z) (p : Process) (s1 : pstate) : Prop :=
  pm_set s1 = pm_set s /\ mgr s1 = mgr s /\ procs s1 = <[a := p]> (procs s).

Lemma draft_lookup s a p s1 : draft s a p s1 -> procs s1 !! a = Some p.
Proof. intros (_ & _ & E). rewrite E. apply lookup_insert_eq. Qed.

Lemma draft_wrp s a p s1 f : draft s a p s1 -> draft s a (f p) (with_procs (insert a (f p)) s1).
Proof.
  intros (E1 & E2 & E3). split; [done|]. split; [done|]. cbn. by rewrite E3, insert_insert_eq.
Qed.

Lemma draft_same s a p s1 s2 : draft s a p s1 -> same_sched s1 s2 -> draft s a p s2.
Proof. intros (E1 & E2 & E3) (F1 & F2 & F3). repeat split; congruence. Qed.

(** What creation fixes about a process before its memory is set up. *)
Definition ident (p : Process) : Z * list Z * Z * Z * Z * Z :=
  (p_pid p, p_name p, p_privilege p, p_priority p, p_time_slice p, p_parent_pid p).

Lemma create_user_stack_run s a p s1 : draft s a p s1 ->
  exists s2 p2 b, create_user_stack a s1 = Ret (s2, b) /\ draft s a p2 s2 /\ ident p2 = ident p.
Proof.
  intros Hd. unfold create_user_stack. rewrite (wrp_bind _ _ _ _ _ (draft_lookup _ _ _ _ Hd)).
  pose proof (draft_wrp _ _ _ _ (set_user_stack_size USER_STACK_SIZE) Hd) as Hd1.
  set (p1 := set_user_stack_size USER_STACK_SIZE p) in *.
  set (s2 := with_procs _ s1) in *. rewrite (rdp_bind _ _ _ _ (draft_lookup _ _ _ _ Hd1)). cbn zeta.
  set (virt := u32 (USER_STACK_BASE - p_user_stack_size p1)).
  destruct (vmm_allocate_pages_law (p_page_directory p1) virt (p_user_stack_size p1) PTE_USER_STACK s2)
    as (s3 & r & Hr & Hsame).
  rewrite (cmd_bind_eq _ _ _ _ _ Hr). pose proof (draft_same _ _ _ _ _ Hd1 Hsame) as Hd3.
  destruct (decide (r <> 0)); [exists s3, p1, false; done|].
  destruct (vmm_create_memory_region_law virt (p_user_stack_size p1) PTE_USER_STACK MEMORY_STACK s3)
    as (s4 & g & Hg & Hsame').
  rewrite (cmd_bind_eq _ _ _ _ _ Hg). pose proof (draft_same _ _ _ _ _ Hd3 Hsame') as Hd4.
  assert (Hreg : exists s5 p5, (if decide (g <> 0) then
         p ← rdp a; modify (with_regions (insert g (p_memory_regions p)));; wrp a (set_memory_regions g)
       else mret tt) s4 = Ret (s5, tt) /\ draft s a p5 s5 /\ ident p5 = ident p).
  { destruct (decide (g <> 0)); [|by exists s4, p1].
    set (s5 := with_regions (insert g (p_memory_regions p1)) s4).
    assert (Hd5 : draft s a p1 s5) by (eapply draft_same; [exact Hd4|done]).
    exists (with_procs (insert a (set_memory_regions g p1)) s5), (set_memory_regions g p1).
    split; [|split; [by apply draft_wrp|done]].
    rewrite (rdp_bind _ _ _ _ (draft_lookup _ _ _ _ Hd4)), (cmd_bind_eq _ _ s4 s5 tt) by done.
    exact (wrp_run _ _ _ _ (draft_lookup _ _ _ _ Hd5)). }
  destruct Hreg as (s5 & p5 & Hrun & Hd5 & Hid). rewrite (cmd_bind_eq _ _ _ _ _ Hrun).
  rewrite (wrp_bind _ _ _ _ _ (draft_lookup _ _ _ _ Hd5)).
  eexists _, _, true. split; [done|]. split; [by apply draft_wrp|exact Hid].
Qed.

(** A block nobody owns can take any contents. *)
Lemma draft_inv s Q a p s1 : sched_inv s Q -> (forall pr, ~ owned s a pr) -> draft s a p s1 -> sched_inv s1 Q.
Proof.
  intros [[[Hset Hlen Hq] Hcur] Htab] Hfresh (E1 & E2 & E3).
  assert (Hne : forall b pb, owned s b pb -> procs s1 !! b = procs s !! b).
  { intros b pb Ho. rewrite E3. apply lookup_insert_ne. intros <-. by apply (Hfresh pb). }
  assert (Ho1 : forall b pb, owned s b pb -> owned s1 b pb).
  { intros b pb Ho. pose proof (Hne _ _ Ho) as En. destruct Ho as (? & ? & ?). unfold owned. by rewrite En, E2. }
  split; [split; [constructor; [congruence|by rewrite E2|]|]|].
  - intros q Hv. destruct (Hq _ Hv) as (hd & Hhd & Hc & Hso & Hst). exists hd. rewrite E2. split; [done|].
    assert (Hne' : forall b, b ∈ Q q -> procs s1 !! b = procs s !! b).
    { intros b Hb. destruct (Hst _ Hb) as (pb & Ho & _). by eapply Hne. }
    split; [eapply chain_ext; [|exact Hc]; intros b Hb; unfold next_of; by rewrite Hne'|].
    split; [eapply pid_sorted_same; [|exact Hso]; intros b Hb; unfold pid_of; by rewrite Hne'|].
    intros b Hb. destruct (Hst _ Hb) as (pb & Ho & ?). exists pb. auto.
  - destruct Hcur as [E|(pc & Ho & ?)]; [left; by rewrite E2|]. right. exists pc. rewrite E2. auto.
  - intros i b Hb Hnz. rewrite E2 in Hb |- *. destruct (Htab _ _ Hb Hnz) as (pb & Hpb & Hpid & Hloc).
    exists pb. split; [|done]. rewrite (Hne b pb); [done|]. split; [done|]. split; [done|]. by rewrite Hpid.
Qed.

(** Entering the finished block in the table. *)
Lemma publish s Q a p s1 s2 pid q : sched_inv s Q -> (forall pr, ~ owned s a pr) -> draft s a p s1 ->
  a <> 0 -> p_pid p = pid -> 0 <= pid < 64 -> zget (processes (mgr s)) pid = Some 0 ->
  pm_set s2 = pm_set s -> procs s2 = procs s1 -> processes (mgr s2) = <[Z.to_nat pid := a]> (processes (mgr s)) ->
  current_process (mgr s2) = current_process (mgr s) -> (forall q, qhead (mgr s2) q = qhead (mgr s) q) ->
  valid_queue q -> queue_state q p ->
  exists s' Q', enqueue_process q a s2 = Ret (s', tt) /\ sched_inv s' Q' /\ a ∈ Q' q /\
    (exists v, owned s' a (set_next v p)) /\
    (forall b q', b <> a -> valid_queue q' -> b ∈ Q' q' <-> b ∈ Q q') /\
    (exists hd, mgr s' = qset q hd (mgr s2)) /\ same_off a (procs s) (procs s').
Proof.
  intros Hinv Hfresh Hd Ha Hpid Hr Hz E1 E2 E3 E4 E5 Hv Hst.
  pose proof (draft_inv _ _ _ _ _ Hinv Hfresh Hd) as [[[Hset Hlen Hq] Hcur] Htab].
  destruct Hd as (D1 & D2 & D3). rewrite D2 in *.
  assert (Hpt : forall i b, zget (processes (mgr s)) i = Some b -> b <> 0 ->
            zget (processes (mgr s2)) i = Some b).
  { intros i b Hb Hnz. pose proof (zget_Some_range _ _ _ Hb). rewrite E3, zget_lookup in * by lia.
    rewrite list_lookup_insert_ne; [done|]. intros Ei. assert (i = pid) as -> by lia. congruence. }
  assert (Ho2 : forall b pb, owned s1 b pb -> owned s2 b pb).
  { intros b pb (? & ? & Ht). rewrite D2 in Ht. split; [done|]. rewrite E2. split; [done|]. by apply Hpt. }
  assert (Hni : forall q', valid_queue q' -> a ∉ Q q').
  { intros q' Hv' Hin. destruct Hinv as [[Hok _] _]. destruct (qk_q _ _ Hok _ Hv') as (_ & _ & _ & _ & Hqs).
    destruct (Hqs _ Hin) as (pr & Ho & _). by apply (Hfresh pr). }
  assert (Hok2 : queues_ok s2 Q).
  { constructor; [congruence|by rewrite E3, length_insert|]. intros q' Hv'.
    destruct (Hq _ Hv') as (hd & Hhd & Hc & Hso & Hqs). exists hd. rewrite E2, E5, <- D2.
    split; [done|]. split; [done|]. split; [done|]. intros b Hb. destruct (Hqs _ Hb) as (pb & ? & ?).
    exists pb. auto. }
  assert (Ho : owned s2 a p).
  { split; [done|]. split; [by rewrite E2, D3, lookup_insert_eq|]. rewrite E3, Hpid, zget_lookup by lia.
    apply list_lookup_insert_eq. pose proof (zget_Some_range _ _ _ Hz). lia. }
  destruct (enqueue_ok s2 Q q a p Hok2 Hv Ho Hst Hni) as (l1 & l2 & hd & h' & El & Hrun & Hok' & Hs & Hout).
  assert (Hmem : forall b q', b <> a -> valid_queue q' -> b ∈ qupd Q q (l1 ++ a :: l2) q' <-> b ∈ Q q').
  { intros b q' Hb _. destruct (decide (q' = q)) as [->|]; [rewrite qupd_eq, El; set_solver|by rewrite qupd_ne]. }
  exists (upd s2 (qset q hd (mgr s2)) h'), (qupd Q q (l1 ++ a :: l2)).
  split; [done|]. split; [split; [split; [done|]|]|split; [apply qupd_in|split; [|split; [done|split; [by exists hd|]]]]].
  - destruct Hcur as [E|(pc & Hoc & Hrc & Hpc)]; [left; cbn; rewrite current_qset, E4; congruence|].
    right. cbn. rewrite current_qset, E4, <- D2.
    destruct (owned_same s2 (upd s2 (qset q hd (mgr s2)) h') _ _ (Ho2 _ _ Hoc) Hs (processes_qset _ _ _)) as (v & Hv').
    exists (set_next v pc). done.
  - intros i b Hb Hnz. cbn in Hb. rewrite processes_qset in Hb.
    destruct (decide (b = a)) as [->|Hne].
    + destruct (same_but_next_Some _ _ _ _ Hs (proj1 (proj2 Ho))) as (v & Hh). exists (set_next v p).
      split; [done|]. split.
      * destruct (decide (i = pid)) as [->|Hi]; [done|].
        pose proof (zget_Some_range _ _ _ Hb). rewrite E3, zget_lookup in Hb by lia.
        rewrite list_lookup_insert_ne in Hb by lia. rewrite <- zget_lookup in Hb by lia.
        rewrite <- D2 in Hb. destruct (Htab _ _ Hb Ha) as (pa & Hpa & Hpi & _).
        rewrite D3, lookup_insert_eq in Hpa. injection Hpa as <-. congruence.
      * right. exists q. split; [done|]. rewrite qupd_eq. set_solver.
    + assert (Hb1 : zget (processes (mgr s1)) i = Some b).
      { pose proof (zget_Some_range _ _ _ Hb). rewrite D2, E3, !zget_lookup in * by lia.
        rewrite list_lookup_insert in Hb. case_decide as Hc; [congruence|done]. }
      destruct (Htab _ _ Hb1 Hnz) as (pb & Hpb & Hpi & Hloc).
      assert (Hpb2 : procs s2 !! b = Some pb) by (by rewrite E2).
      destruct (same_but_next_Some _ _ _ _ Hs Hpb2) as (v & Hh). exists (set_next v pb).
      split; [done|]. split; [done|]. cbn. rewrite current_qset, E4, <- D2.
      destruct Hloc as [?|(q' & Hv' & Hin)]; [by left|]. right. exists q'. split; [done|]. by apply Hmem.
  - exact (owned_same s2 (upd s2 (qset q hd (mgr s2)) h') _ _ Ho Hs (processes_qset _ _ _)).
  - intros b Hb. rewrite Hs, E2, D3. by rewrite lookup_insert_ne.
Qed.

Lemma find_free_pid_run s : pids_ok s -> exists r, find_free_pid s = Ret (s, r) /\
  ((r = 4294967295 /\ forall i, 0 <= i < 64 -> zget (processes (mgr s)) i <> Some 0) \/
   (0 <= r < 64 /\ zget (processes (mgr s)) r = Some 0 /\
    forall i, 0 <= i < r -> zget (processes (mgr s)) i <> Some 0)).
Proof.
  intros (Hlen & Hwf & Hbit). unfold find_free_pid. rewrite getm_bind.
  destruct (bm_find_clear_spec 8 ltac:(lia) (process_bitmap (mgr s)) (Z.to_nat PROCESS_MAX_COUNT) 0)
    as (r & Hrun & Hr); [lia|unfold bm_size, PROCESS_MAX_COUNT; rewrite Hlen; lia|].
  change (Z.of_nat (Z.to_nat PROCESS_MAX_COUNT)) with 64 in Hr.
  exists (default 4294967295 r). rewrite Hrun. split; [done|]. destruct r as [j|]; cbn.
  - right. destruct Hr as (Hj & Hb & Hall). split; [lia|].
    rewrite Hbit in Hb by lia. apply negb_false_iff, bool_decide_eq_true in Hb. split; [done|].
    intros i Hi. specialize (Hall i ltac:(lia)). rewrite Hbit in Hall by lia.
    by apply negb_true_iff, bool_decide_eq_false in Hall.
  - left. split; [done|]. intros i Hi. specialize (Hr i ltac:(lia)). rewrite Hbit in Hr by lia.
    by apply negb_true_iff, bool_decide_eq_false in Hr.
Qed.

(** The block as [create_process] first fills it in. *)
Definition fresh_process (s : pstate) (name : option (list Z)) (pid argc argv privilege priority : Z) : Process :=
  let base := if decide (priority > MAX_PRIORITY_LEVELS - 1) then MAX_PRIORITY_LEVELS - 1 else priority in
  mkProcess pid (padded 31 (default unnamed name) ++ [0]) PROCESS_CREATED privilege base base
    (TIME_SLICE_BASE * (MAX_PRIORITY_LEVELS - base)) 0 0 0 0 0 0 0
    (match procs s !! current_process (mgr s) with
     | Some c => if decide (current_process (mgr s) = 0) then 0 else p_pid c
     | None => 0
     end) 0 0 argc argv 0 0 0 0 0.

(** The end of the creation. *)
Lemma start_process_run s Q a p s1 pid ks entry argc argv privilege : sched_inv s Q -> pids_ok s ->
  (forall pr, ~ owned s a pr) -> draft s a p s1 -> a <> 0 -> p_pid p = pid -> 0 <= p_priority p < 16 ->
  0 <= pid < 64 -> zget (processes (mgr s)) pid = Some 0 ->
  exists s' p' Q', start_process a pid ks entry argc argv privilege s1 = Ret (s', tt) /\
    owned s' a p' /\ ident p' = ident p /\ p_state p' = PROCESS_READY /\ p_entry_point p' = entry /\
    sched_inv s' Q' /\ a ∈ Q' (Ready (p_priority p)) /\
    (forall b q, b <> a -> valid_queue q -> b ∈ Q' q <-> b ∈ Q q) /\ pids_ok s' /\
    active_processes (mgr s') = u32 (active_processes (mgr s) + 1) /\
    same_off a (procs s) (procs s') /\ system_ticks (mgr s') = system_ticks (mgr s).
Proof.
  intros Hinv (Hbl & Hbw & Hbb) Hfresh Hd1 Ha Hpid Hpr Hr Hz. unfold start_process. cbn zeta.
  set (regs := u32 (ks + KERNEL_STACK_SIZE - sizeof_RegisterState)).
  rewrite (wrp_bind _ _ _ _ _ (draft_lookup _ _ _ _ Hd1)).
  pose proof (draft_wrp _ _ _ _ (set_regs regs) Hd1) as Hd2. set (s2 := with_procs _ s1) in *.
  rewrite (wrp_bind _ _ _ _ _ (draft_lookup _ _ _ _ Hd2)).
  pose proof (draft_wrp _ _ _ _ (set_entry_point entry) Hd2) as Hd3. set (s3 := with_procs _ s2) in *.
  set (s4 := with_regs (insert regs (initial_regs entry argc argv privilege regs)) s3).
  rewrite (cmd_bind_eq _ _ s3 s4 tt) by done.
  assert (Hd4 : draft s a (set_entry_point entry (set_regs regs p)) s4) by (eapply draft_same; [exact Hd3|done]).
  set (p4 := set_entry_point entry (set_regs regs p)) in *.
  pose proof Hd4 as (D1 & D2 & D3). rewrite getm_bind, D2.
  pose proof (zget_Some_range _ _ _ Hz) as Hlen.
  rewrite (zset_Some _ _ _ Hlen). erewrite (cmd_bind_eq (lift _)) by reflexivity. rewrite putm_bind.
  set (l' := <[Z.to_nat pid := a]> (processes (mgr s))).
  destruct (bm_set_spec 8 ltac:(lia) (process_bitmap (mgr s)) pid Hbw) as (bm' & Hbm & Hbw' & Hbl' & Hbb');
    [unfold bm_size; rewrite Hbl; lia|].
  set (s5 := with_mgr (set_processes l') s4).
  set (s6 := with_mgr (set_process_bitmap bm') s5).
  rewrite (cmd_bind_eq (set_pid_in_use pid true) _ s5 s6 tt).
  2:{ unfold set_pid_in_use, PROCESS_MAX_COUNT. rewrite decide_True by lia. rewrite getm_bind.
      cbn [process_bitmap mgr s5 with_mgr set_processes]. rewrite D2.
      unfold lift, mbind, cmd_mbind. by rewrite Hbm. }
  rewrite getm_bind, putm_bind. cbn [active_processes mgr s6 s5 with_mgr set_process_bitmap set_processes]. rewrite D2.
  set (s7 := with_mgr (set_active_processes (u32 (active_processes (mgr s) + 1))) s6).
  assert (Hp7 : procs s7 !! a = Some p4) by exact (draft_lookup _ _ _ _ Hd4).
  rewrite (wrp_bind _ _ _ _ _ Hp7). erewrite rdp_bind by apply lookup_insert_eq.
  cbn [p_priority set_state p4 set_entry_point set_regs].
  set (p8 := set_state PROCESS_READY p4). set (s8 := with_procs _ s7).
  destruct (publish s Q a p8 (with_procs (insert a p8) s4) s8 pid (Ready (p_priority p)))
    as (s' & Q' & Hrun & Hinv' & Hin & (v & Ho') & Hmem & (hd & Em') & Hoff); try done.
  - by apply draft_wrp.
  - change (current_process (mgr s4) = current_process (mgr s)). by rewrite D2.
  - intros q. transitivity (qhead (mgr s4) q); [by destruct q|by rewrite D2].
  - exists s', (set_next v p8), Q'. split; [done|]. split; [done|]. do 4 (split; [done|]). split; [done|].
    split; [done|]. rewrite Em'. split; [|split; [done|split; [done|]]].
    2:{ change (system_ticks (mgr s4) = system_ticks (mgr s)). by rewrite D2. }
    unfold pids_ok. rewrite Em', processes_qset.
    assert (process_bitmap (qset (Ready (p_priority p)) hd (mgr s8)) = bm') as -> by done.
    split; [congruence|]. split; [done|]. intros i Hi. rewrite Hbb' by lia.
    change (processes (mgr s8)) with l'. unfold l'. rewrite !zget_lookup, list_lookup_insert by lia.
    destruct (decide (i = pid)) as [->|Hne].
    + rewrite decide_True by (split; [done|lia]). rewrite bool_decide_eq_false_2; [done|congruence].
    + rewrite decide_False by lia. rewrite Hbb by done. by rewrite zget_lookup by lia.
Qed.

Lemma create_process_run s Q name entry argc argv privilege priority :
  sched_inv s Q -> pids_ok s -> 0 <= priority ->
  exists s' r, create_process name entry argc argv privilege priority s = Ret (s', r) /\
    ((r = 4294967295 /\ mgr s' = mgr s /\ sched_inv s' Q /\
      exists a, (forall pr, ~ owned s a pr) /\ same_off a (procs s) (procs s')) \/
     (entry <> 0 /\ 0 <= r < 64 /\ zget (processes (mgr s)) r = Some 0 /\
      (forall i, 0 <= i < r -> zget (processes (mgr s)) i <> Some 0) /\
      exists a p Q', owned s' a p /\ ident p = ident (fresh_process s name r argc argv privilege priority) /\
        p_state p = PROCESS_READY /\ p_entry_point p = entry /\
        sched_inv s' Q' /\ a ∈ Q' (Ready (Z.min priority 15)) /\
        (forall b q, b <> a -> valid_queue q -> b ∈ Q' q <-> b ∈ Q q) /\ pids_ok s' /\
        active_processes (mgr s') = u32 (active_processes (mgr s) + 1) /\
        (forall pr, ~ owned s a pr) /\ same_off a (procs s) (procs s') /\
        system_ticks (mgr s') = system_ticks (mgr s))).
Proof.
  intros Hinv Hpids Hprio. pose proof Hinv as [[Hok Hcur] Htab].
  unfold create_process. rewrite (cmd_bind_eq _ _ s s true) by (unfold gets; by rewrite (qk_set _ _ Hok)).
  assert (Hnull : exists a, (forall pr, ~ owned s a pr) /\ same_off a (procs s) (procs s)) by (exists 0; by split; [intros ? [? _]|]).
  destruct (decide (true = false \/ entry = 0)) as [[?|He]|He]; [done|eexists s, _; split; [done|by left]|].
  assert (Hent : entry <> 0) by tauto. clear He.
  destruct (find_free_pid_run s Hpids) as (pid & Hfind & Hpid). rewrite (cmd_bind_eq _ _ _ _ _ Hfind).
  destruct (decide (pid = 4294967295)) as [->|Hnf]; [eexists s, _; split; [done|by left]|].
  destruct Hpid as [[? _]|(Hpid & Hz & Hmin)]; [done|].
  destruct (malloc_law sizeof_Process s) as (s0 & a & Hmal & Hs0 & Ha0 & Hfresh).
  rewrite (cmd_bind_eq _ _ _ _ _ Hmal).
  assert (Hfail : forall s1, same_sched s s1 -> mgr s1 = mgr s /\ sched_inv s1 Q /\
      exists a, (forall pr, ~ owned s a pr) /\ same_off a (procs s) (procs s1)).
  { intros s1 Hs. split; [apply Hs|]. split; [|destruct Hs as (_ & _ & ->); done]. split; [split|].
    - by eapply same_sched_queues.
    - by eapply same_sched_current.
    - destruct Hs as (_ & Em & Ep). intros i b. rewrite Em, Ep. apply Htab. }
  destruct (decide (a = 0)) as [->|Hanz]; [eexists s0, _; split; [done|left; split; [done|by apply Hfail]]|].
  set (p0 := fresh_process s name pid argc argv privilege priority).
  set (s1 := with_procs (insert a p0) s0).
  assert (Hd1 : draft s a p0 s1).
  { destruct Hs0 as (E1 & E2 & E3). split; [done|]. split; [done|]. cbn. by rewrite E3. }
  rewrite getm_bind. erewrite (cmd_bind_eq (if decide _ then _ else _)).
  2:{ instantiate (2 := s0). destruct Hs0 as (_ & E2 & E3). rewrite E2.
      instantiate (1 := p_parent_pid p0). cbn [p_parent_pid p0 fresh_process].
      destruct Hcur as [E|(pc & (Hcz & Hpc & _) & _)].
      - rewrite decide_False by tauto. rewrite E. by destruct (procs s !! 0).
      - rewrite decide_True by done. rewrite Hpc, decide_False by done.
        rewrite (rdp_bind s0) with (p := pc); [done|by rewrite E3]. }
  rewrite (cmd_bind_eq _ _ s0 s1 tt) by done.
  destruct (pd_create_law s1) as (s2 & pd & Hpd & Hs2). rewrite (cmd_bind_eq _ _ _ _ _ Hpd).
  pose proof (draft_same _ _ _ _ _ Hd1 Hs2) as Hd2.
  rewrite (wrp_bind _ _ _ _ _ (draft_lookup _ _ _ _ Hd2)).
  pose proof (draft_wrp _ _ _ _ (set_page_directory pd) Hd2) as Hd3. set (s3 := with_procs _ s2) in *.
  assert (Hdfail : forall p s4, draft s a p s4 -> mgr s4 = mgr s /\ sched_inv s4 Q /\
      exists a, (forall pr, ~ owned s a pr) /\ same_off a (procs s) (procs s4)).
  { intros p s4 Hd. split; [apply Hd|]. split; [by eapply draft_inv|]. exists a. split; [done|].
    destruct Hd as (_ & _ & ->). intros b Hb. by rewrite lookup_insert_ne. }
  destruct (decide (pd = 0)).
  { destruct (free_law a s3) as (s4 & Hf & Hs4). rewrite (cmd_bind_eq _ _ _ _ _ Hf).
    eexists s4, _. split; [done|]. left. split; [done|]. eapply Hdfail, draft_same; [exact Hd3|done]. }
  rewrite (wrp_bind _ _ _ _ _ (draft_lookup _ _ _ _ Hd3)).
  pose proof (draft_wrp _ _ _ _ (set_kernel_stack_size KERNEL_STACK_SIZE) Hd3) as Hd4. set (s4 := with_procs _ s3) in *.
  destruct (malloc_law KERNEL_STACK_SIZE s4) as (s5 & ks & Hks & Hs5 & _). rewrite (cmd_bind_eq _ _ _ _ _ Hks).
  pose proof (draft_same _ _ _ _ _ Hd4 Hs5) as Hd5.
  rewrite (wrp_bind _ _ _ _ _ (draft_lookup _ _ _ _ Hd5)).
  pose proof (draft_wrp _ _ _ _ (set_kernel_stack ks) Hd5) as Hd6. set (s6 := with_procs _ s5) in *.
  destruct (decide (ks = 0)).
  { destruct (pd_destroy_law pd s6) as (s7 & Hf & Hs7). rewrite (cmd_bind_eq _ _ _ _ _ Hf).
    destruct (free_law a s7) as (s8 & Hf' & Hs8). rewrite (cmd_bind_eq _ _ _ _ _ Hf').
    eexists s8, _. split; [done|]. left. split; [done|].
    eapply Hdfail, draft_same; [exact Hd6|]. by eapply same_sched_trans. }
  set (p6 := set_kernel_stack ks _) in Hd6.
  assert (Hstk : exists s7 p7 b, (if decide (privilege = USER_MODE) then create_user_stack a else mret true) s6 = Ret (s7, b)
            /\ draft s a p7 s7 /\ ident p7 = ident p0).
  { destruct (decide (privilege = USER_MODE)); [|by exists s6, p6, true].
    destruct (create_user_stack_run s a p6 s6 Hd6) as (s7 & p7 & b & ? & ? & E). exists s7, p7, b.
    split; [done|]. split; [done|]. by rewrite E. }
  destruct Hstk as (s7 & p7 & b & Hstk & Hd7 & Hid). rewrite (cmd_bind_eq _ _ _ _ _ Hstk).
  destruct (decide (b = false)) as [->|_].
  { destruct (pd_destroy_law pd s7) as (s8 & Hf & Hs8). rewrite (cmd_bind_eq _ _ _ _ _ Hf).
    destruct (free_law ks s8) as (s9 & Hf' & Hs9). rewrite (cmd_bind_eq _ _ _ _ _ Hf').
    destruct (free_law a s9) as (s10 & Hf'' & Hs10). rewrite (cmd_bind_eq _ _ _ _ _ Hf'').
    eexists s10, _. split; [done|]. left. split; [done|].
    eapply Hdfail, draft_same; [exact Hd7|]. eapply same_sched_trans; [exact Hs8|]. by eapply same_sched_trans. }
  assert (Eid : p_pid p7 = pid /\ p_priority p7 = p_priority p0).
  { unfold ident in Hid. split; [change pid with (p_pid p0)|]; congruence. }
  destruct Eid as [Epid7 Epr7].
  assert (Eprio : p_priority p0 = Z.min priority 15).
  { unfold p0, fresh_process. cbn. change (MAX_PRIORITY_LEVELS - 1) with 15. destruct (decide (priority > 15)); lia. }
  destruct (start_process_run s Q a p7 s7 pid ks entry argc argv privilege)
    as (s' & p' & Q' & Hrun & Ho & Hid' & Hst & Hent' & Hinv' & Hin & Hmem & Hpids' & Hact & Hoff & Htk);
    try done; [lia|].
  rewrite (cmd_bind_eq _ _ _ _ _ Hrun). exists s', pid. split; [done|]. right.
  split; [done|]. split; [done|]. split; [done|]. split; [done|].
  exists a, p', Q'. rewrite <- Eprio, <- Epr7. split; [done|]. split; [by rewrite Hid'|]. done.
Qed.

(** C7. Creation. Either the call fails with -1 and the manager and the queues
    are as before, or it returns the smallest free pid and the table has a
    READY process under it, with the name, the clamped priority, its full time
    slice and the running process as parent, linked into the ready queue of
    that priority; no other process moves, and the PID bitmap, the table and
    the scheduler invariant stay consistent. It fails when the table is full. *)
Theorem create_process_spec s Q name entry argc argv privilege priority :
  sched_inv s Q -> pids_ok s -> 0 <= priority ->
  exists s' r, create_process name entry argc argv privilege priority s = Ret (s', r) /\
    ((r = 4294967295 /\ mgr s' = mgr s /\ sched_inv s' Q) \/
     (entry <> 0 /\ 0 <= r < 64 /\ zget (processes (mgr s)) r = Some 0 /\
      (forall i, 0 <= i < r -> zget (processes (mgr s)) i <> Some 0) /\
      exists a p Q', owned s' a p /\ ident p = ident (fresh_process s name r argc argv privilege priority) /\
        p_state p = PROCESS_READY /\ p_entry_point p = entry /\
        sched_inv s' Q' /\ a ∈ Q' (Ready (Z.min priority 15)) /\
        (forall b q, b <> a -> valid_queue q -> b ∈ Q' q <-> b ∈ Q q) /\ pids_ok s' /\
        active_processes (mgr s') = u32 (active_processes (mgr s) + 1))).
Proof.
  intros Hinv Hpids Hprio.
  destruct (create_process_run s Q name entry argc argv privilege priority Hinv Hpids Hprio)
    as (s' & r & Hrun & [(Er & Em & Hinv' & _)|(He & Hr & Hz & Hmin & a & p & Q' & Ho & Hid & Hst & Hent & Hinv' & Hin & Hmem & Hp' & Hact & _)]);
    exists s', r; (split; [done|]); [by left|]. right. do 4 (split; [done|]). by exists a, p, Q'.
Qed.
End scheduler.

(** ** Witnesses *)

(** A kernel whose heap hands out addresses above every control block. *)
Definition fresh_address (s : pstate) : Z := 1 + foldr Z.max 0 (elements (dom (procs s))).

Definition demo_kernel : Kernel := {|
  malloc := fun _ s => Ret (s, fresh_address s);
  free := fun _ => mret tt;
  pd_create := mret 4096;
  pd_destroy := fun _ => mret tt;
  pd_switch := fun _ => mret tt;
  vmm_allocate_pages := fun _ _ _ _ => mret 0;
  vmm_create_memory_region := fun _ _ _ _ => mret 0;
  int20 := mret tt;
  call_entry := fun _ _ _ => mret 0;
  process_wrapper_addr := 0x101000
|}.

Lemma same_sched_refl s : same_sched s s.
Proof. done. Qed.

Lemma demo_kernel_laws : @KernelLaws demo_kernel.
Proof.
  constructor; try (intros; eexists; eexists; split; [reflexivity|apply same_sched_refl]);
    try (intros; eexists; split; [reflexivity|apply same_sched_refl]).
  intros n s. exists s, (fresh_address s). split; [done|]. split; [done|]. split.
  - unfold fresh_address. generalize (elements (dom (procs s))). intros l. induction l; cbn in *; lia.
  - intros pr (_ & Hp & _). assert (Hin : fresh_address s ∈ elements (dom (procs s))).
    { apply elem_of_elements, elem_of_dom. by eexists. }
    apply max_list_ge in Hin. unfold fresh_address in Hin. lia.
Qed.

(** One process of priority 1, with pid 0, in the state [st]. *)
Definition one_process (st : ProcessState) : Process :=
  mkProcess 0 [] st KERNEL_MODE 1 1 5 0 0 2000 3000 4096 0 0 0 4096 0 0 0 0 0 0 5000 0.
Definition one_state (st : ProcessState) : pstate :=
  mkPstate true
    (mkPM (1000 :: replicate 63 0) (1 :: replicate 7 0) 1
       (if decide (st = PROCESS_READY) then 0 :: 1000 :: replicate 14 0 else replicate 16 0)
       (if decide (st = PROCESS_BLOCKED) then 1000 else 0) 0
       (if decide (st = PROCESS_RUNNING) then 1000 else 0) 1 7 0)
    {[ 1000 := one_process st ]} ∅ ∅.
Definition one_queues (st : ProcessState) : queue -> list Z := fun q =>
  match q with
  | Ready i => if decide (st = PROCESS_READY /\ i = 1) then [1000] else []
  | Blocked => if decide (st = PROCESS_BLOCKED) then [1000] else []
  | Terminated => []
  end.

Lemma one_owned st : owned (one_state st) 1000 (one_process st).
Proof. split; [lia|]. split; [apply lookup_singleton_eq|done]. Qed.

Lemma one_singleton st q : qhead (mgr (one_state st)) q = Some 1000 -> queue_state q (one_process st) ->
  queue_ok (one_state st) q [1000].
Proof.
  intros Hq Hs. exists 1000. split; [done|]. split.
  - apply (chain_cons_1 _ _ 0); [lia|unfold next_of; cbn [procs one_state]; by rewrite lookup_singleton_eq|done].
  - split; [by repeat constructor|]. intros a ->%list_elem_of_singleton.
    exists (one_process st). split; [apply one_owned|done].
Qed.

Lemma one_empty st q : qhead (mgr (one_state st)) q = Some 0 -> queue_ok (one_state st) q [].
Proof. intros Hq. exists 0. split; [done|]. split; [done|]. split; [done|]. by intros a ?%elem_of_nil. Qed.

Lemma one_inv st : st = PROCESS_READY \/ st = PROCESS_BLOCKED \/ st = PROCESS_RUNNING ->
  sched_inv (one_state st) (one_queues st).
Proof.
  intros Hst. split; [split; [constructor; [done|done|]|]|].
  - intros [i| |] Hv; cbn [one_queues].
    + destruct (decide (st = PROCESS_READY /\ i = 1)) as [[-> ->]|Hn]; [by apply one_singleton|].
      apply one_empty. cbn [qhead ready_queues mgr one_state]. cbn in Hv. rewrite zget_lookup by lia.
      destruct (decide (st = PROCESS_READY)) as [->|].
      * assert (i <> 1) by tauto. destruct (decide (i = 0)) as [->|]; [done|].
        change (0 :: 1000 :: replicate 14 0) with ([0; 1000] ++ replicate 14 0).
        rewrite lookup_app_r by (cbn; lia). apply lookup_replicate_2. cbn. lia.
      * apply lookup_replicate_2. lia.
    + destruct (decide (st = PROCESS_BLOCKED)) as [->|]; [by apply one_singleton|].
      apply one_empty. cbn. by rewrite decide_False.
    + by apply one_empty.
  - destruct (decide (st = PROCESS_RUNNING)) as [->|]; [right; exists (one_process PROCESS_RUNNING); split; [apply one_owned|by cbn]|].
    left. cbn. by rewrite decide_False.
  - intros i a Ha Hnz. assert (i = 0 /\ a = 1000) as [-> ->].
    { pose proof (zget_Some_range _ _ _ Ha) as Hr. rewrite zget_lookup in Ha by lia.
      cbn [processes mgr one_state] in Ha. destruct (decide (i = 0)) as [->|]; [split; [done|]; injection Ha as <-; done|].
      change (1000 :: replicate 63 0) with ([1000] ++ replicate 63 0) in Ha.
      rewrite lookup_app_r in Ha by (cbn; lia). apply lookup_replicate in Ha as [-> _]. done. }
    exists (one_process st). split; [apply lookup_singleton_eq|]. split; [done|].
    destruct Hst as [->|[->| ->]]; [right; exists (Ready 1)|right; exists Blocked|left; done];
      (split; [cbn; lia || done|by left]).
Qed.

Lemma schedule_highest_priority_witness :
  exists s' r, @schedule demo_kernel 77 (one_state PROCESS_READY) = Ret (s', r) /\
    current_process (mgr s') = 1000 /\ r = 2000.
Proof.
  destruct (@schedule_highest_priority demo_kernel demo_kernel_laws _ _ 77
    (proj1 (one_inv PROCESS_READY ltac:(auto)))) as (Q1 & s' & Q' & r & Hq1 & Hrun & _ & Hres).
  exists s', r. split; [exact Hrun|]. vm_compute in Hrun. injection Hrun as <- <-. split; reflexivity.
Defined.

Lemma block_process_moves_witness :
  exists s' Q', @block_process demo_kernel 0 5 (one_state PROCESS_RUNNING) = Ret (s', tt) /\ sched_inv s' Q' /\
    1000 ∈ Q' Blocked.
Proof.
  destruct (@block_process_moves demo_kernel demo_kernel_laws _ _ 0 5 1000 (one_process PROCESS_RUNNING)
    (one_inv PROCESS_RUNNING ltac:(auto))) as (s' & Q' & Hrun & Hinv & _ & _ & Hin & _);
    [lia|reflexivity|lia|apply lookup_singleton_eq|].
  exists s', Q'. split; [exact Hrun|]. split; [exact Hinv|]. exact (proj1 (Hin (or_intror eq_refl))).
Defined.

Lemma unblock_process_moves_witness :
  exists s' Q', unblock_process 0 (one_state PROCESS_BLOCKED) = Ret (s', tt) /\ sched_inv s' Q' /\
    1000 ∈ Q' (Ready 1).
Proof.
  destruct (@unblock_process_moves demo_kernel demo_kernel_laws _ _ 0 1000 (one_process PROCESS_BLOCKED)
    (one_inv PROCESS_BLOCKED ltac:(auto))) as (s' & Q' & Hrun & Hinv & Hin & _);
    [lia|reflexivity|lia|apply lookup_singleton_eq|cbn; lia|].
  exists s', Q'. split; [exact Hrun|]. split; [exact Hinv|]. exact (proj1 (Hin eq_refl)).
Defined.

Lemma terminate_running_witness :
  exists s' Q', @terminate_process demo_kernel 0 3 (one_state PROCESS_RUNNING) = Ret (s', tt) /\
    sched_inv s' Q' /\ 1000 ∈ Q' Terminated.
Proof.
  destruct (@terminate_running demo_kernel demo_kernel_laws _ _ 0 3 1000 (one_process PROCESS_RUNNING)
    (one_inv PROCESS_RUNNING ltac:(auto))) as (s' & Q' & Hrun & Hinv & _ & _ & _ & Hin & _);
    [lia|reflexivity|lia|reflexivity|apply lookup_singleton_eq|].
  exists s', Q'. split; [exact Hrun|]. split; [exact Hinv|exact Hin].
Defined.

Lemma terminate_ready_stays_queued_witness :
  exists s', @terminate_process demo_kernel 0 3 (one_state PROCESS_READY) = Ret (s', tt) /\
    forall Q', ~ queues_ok s' Q'.
Proof.
  destruct (@terminate_ready_stays_queued demo_kernel demo_kernel_laws _ _ 0 3 1000 (one_process PROCESS_READY)
    (one_inv PROCESS_READY ltac:(auto))) as (s' & hd & l1 & Hrun & _ & _ & _ & Hbad);
    [lia|reflexivity|lia|apply lookup_singleton_eq|reflexivity|].
  exists s'. split; [exact Hrun|exact Hbad].
Defined.

Lemma one_pids st : pids_ok (one_state st).
Proof.
  split; [done|]. split; [repeat constructor; lia|]. intros i Hi.
  set (f := fun i => Bool.eqb (bm_bit 8 (process_bitmap (mgr (one_state st))) i)
    (negb (bool_decide (zget (processes (mgr (one_state st))) i = Some 0)))).
  assert (Hall : forallb f (seqZ 0 64) = true) by (vm_compute; reflexivity).
  apply eqb_prop. rewrite forallb_forall in Hall. apply (Hall i), list_elem_of_In, elem_of_seqZ. lia.
Qed.

Lemma create_process_spec_witness :
  exists s' r, @create_process demo_kernel None 5000 0 0 KERNEL_MODE 9 (one_state PROCESS_READY) = Ret (s', r) /\ r = 1.
Proof.
  destruct (@create_process_spec demo_kernel demo_kernel_laws _ _ None 5000 0 0 KERNEL_MODE 9
    (one_inv PROCESS_READY ltac:(auto)) (one_pids _)) as (s' & r & Hrun & _); [lia|].
  exists s', r. split; [exact Hrun|]. vm_compute in Hrun. congruence.
Defined.
