(* ===== verification/Ticks.v ===== *)
(** * The scheduler over time

    What one tick of the timer does to every process, and what holds of every
    sequence of ticks, reschedules and process calls: the invariants of
    Process.v, and that a process that sleeps is woken when its time is up. *)
From S2P Require Import Prelude Bitmap Chain Process.

(** A blocked process whose wake-up time has come. *)
Definition due (ticks : Z) (p : Process) : bool := bool_decide (p_wakeup_time p > 0 /\ p_wakeup_time p <= ticks).

(** The process [a] sleeps, with the control block [p] up to its link. *)
Definition asleep (s : pstate) (Q : queue -> list Z) (a : Z) (p : Process) : Prop :=
  a ∈ Q Blocked /\ p_state p = PROCESS_BLOCKED /\ exists v, procs s !! a = Some (set_next v p).
(** It has been woken: READY, in the ready queue of its priority. *)
Definition awake (s : pstate) (Q : queue -> list Z) (a : Z) (p : Process) : Prop :=
  a ∈ Q (Ready (p_priority p)) /\ exists v, procs s !! a = Some (set_next v (set_state PROCESS_READY p)).

(** The invariant of the process table, the PID bitmap, the queues and the priorities. *)
Record tick_inv (s : pstate) (Q : queue -> list Z) : Prop := {
  ti_sched : sched_inv s Q;
  ti_pids : pids_ok s;
  ti_levels : levels_ok s
}.

(** ** One control block *)

Section moves.
Implicit Types s : pstate.
Implicit Types h : gmap Z Process.

Lemma next_only h h' a p v : set_next 0 <$> h' !! a = set_next 0 <$> h !! a -> h !! a = Some (set_next v p) ->
  exists v', h' !! a = Some (set_next v' p).
Proof.
  intros E Ha. rewrite Ha in E. destruct (h' !! a) as [p'|]; [|done]. cbn in E. injection E as E.
  exists (p_next p'). f_equal. destruct p, p'. unfold set_next in *. cbn in *. by simplify_eq.
Qed.

Lemma set_next_id p : set_next (p_next p) p = p.
Proof. by destruct p. Qed.

Lemma asleep_moved s Q s' Q' a p : asleep s Q a p -> a ∈ Q' Blocked ->
  set_next 0 <$> procs s' !! a = set_next 0 <$> procs s !! a -> asleep s' Q' a p.
Proof. intros (_ & Hst & v & Hv) Hin E. split; [done|]. split; [done|]. by eapply next_only. Qed.

Lemma awake_moved s Q s' Q' a p : awake s Q a p -> a ∈ Q' (Ready (p_priority p)) ->
  set_next 0 <$> procs s' !! a = set_next 0 <$> procs s !! a -> awake s' Q' a p.
Proof. intros (_ & v & Hv) Hin E. split; [done|]. by eapply next_only. Qed.

Lemma pids_still s s' : still (mgr s) (mgr s') -> pids_ok s -> pids_ok s'.
Proof. intros (E1 & E2 & _). unfold pids_ok. by rewrite E1, E2. Qed.

(** Members of a queue are live, in the state of the queue. *)
Lemma member s Q q a : queues_ok s Q -> valid_queue q -> a ∈ Q q ->
  exists p, owned s a p /\ queue_state q p.
Proof. intros Hok Hv Hin. destruct (qk_q _ _ Hok q Hv) as (_ & _ & _ & _ & Hqs). auto. Qed.

(** A sleeping process is live and does not run. *)
Lemma asleep_owned s Q a p : sched_inv s Q -> asleep s Q a p ->
  exists v, owned s a (set_next v p) /\ a <> current_process (mgr s).
Proof.
  intros [[Hok Hcur] _] (Hin & Hst & v & Hv). exists v.
  destruct (member s Q Blocked a Hok I Hin) as (p' & Ho & _). pose proof Ho as (Hnz & Hp & _).
  assert (p' = set_next v p) as -> by congruence. split; [done|]. intros ->.
  destruct Hcur as [?|(pc & (_ & Hpc & _) & Hrun & _)]; [done|].
  rewrite Hv in Hpc. injection Hpc as <-. cbn in Hrun. congruence.
Qed.

(** The priorities stay levels when only [a] changes. *)
Lemma levels_moved s Q s' a : table_ok s Q -> levels_ok s -> still (mgr s) (mgr s') ->
  same_off a (procs s) (procs s') -> (forall p, owned s' a p -> 0 <= p_priority p < 16) -> levels_ok s'.
Proof.
  intros Htab Hl (Et & _) Hoff Ha b p Ho. destruct (decide (b = a)) as [->|Hne]; [by apply Ha|].
  destruct Ho as (Hnz & Hp & Ht). rewrite Et in Ht. destruct (Htab _ _ Ht Hnz) as (p0 & Hp0 & Hpid & _).
  destruct (same_off_pid _ _ _ _ _ Hoff Hne Hp0) as (p1 & Hp1 & _ & E). assert (p1 = p) as -> by congruence.
  apply (f_equal p_priority) in E. cbn in E. rewrite E. apply (Hl b). split; [done|]. split; [done|]. by rewrite Hpid.
Qed.

Lemma NoDup_split (a : Z) l1 l2 k1 k2 : NoDup (l1 ++ a :: l2) -> l1 ++ a :: l2 = k1 ++ a :: k2 -> l1 = k1 /\ l2 = k2.
Proof.
  revert k1. induction l1 as [|b l1 IH]; intros [|c k1]; cbn; intros [Hni Hnd]%NoDup_cons E; simplify_eq.
  - done.
  - exfalso. set_solver.
  - exfalso. set_solver.
  - destruct (IH k1 Hnd) as [-> ->]; done.
Qed.
End moves.

(** ** Waking *)

Section waking.
Context `{KernelLaws}.
Implicit Types s : pstate.
Implicit Types Q : queue -> list Z.

(** Waking the process at the cursor. *)
Lemma wake_one s Q a p kept rest : sched_inv s Q -> levels_ok s -> Q Blocked = kept ++ a :: rest ->
  NoDup (kept ++ a :: rest) -> owned s a p -> p_state p = PROCESS_BLOCKED ->
  exists s1 Q1, unblock_process (p_pid p) s = Ret (s1, tt) /\ sched_inv s1 Q1 /\ levels_ok s1 /\
    Q1 Blocked = kept ++ rest /\ Q1 Terminated = Q Terminated /\ awake s1 Q1 a p /\
    (forall b q, b <> a -> b ∈ Q1 q <-> b ∈ Q q) /\
    current_process (mgr s1) = current_process (mgr s) /\ still (mgr s) (mgr s1) /\ same_off a (procs s) (procs s1).
Proof.
  intros Hinv Hlev EQ Hnd Ho Hst.
  destruct (unblock_run s Q a p Hinv Ho Hst (Hlev _ _ Ho))
    as (s1 & l1 & l2 & k1 & k2 & Hrun & El & Ek & Hinv1 & (v & Hv) & Ec1 & Hst1 & Hoff).
  rewrite El in EQ. destruct (NoDup_split a l1 l2 kept rest) as [-> ->]; [by rewrite EQ|done|].
  eexists s1, _. split; [done|]. split; [exact Hinv1|]. split; [|split; [|split; [|split; [|split; [|done]]]]].
  - eapply (levels_moved s Q s1 a); [apply Hinv|done|done|done|]. intros p' (_ & Hp' & _).
    rewrite Hv in Hp'. injection Hp' as <-. exact (Hlev _ _ Ho).
  - by rewrite qupd_ne, qupd_eq.
  - by rewrite !qupd_ne.
  - split; [apply qupd_in|]. by exists v.
  - intros b q Hb. rewrite <- (detached_members s Q Blocked a kept rest El b q Hb).
    destruct (decide (q = Ready (p_priority p))) as [->|]; [|by rewrite qupd_ne].
    rewrite qupd_eq, qupd_ne, Ek by done. set_solver.
Qed.

(** The walk saves the link of each process before it may move it, and so visits
    every process that was blocked when it began. Those behind the cursor that are
    not due are [kept]. *)
Lemma wake_run rest : forall kept fuel s Q, sched_inv s Q -> levels_ok s ->
  Q Blocked = kept ++ rest -> (length rest < fuel)%nat ->
  exists s' Q', wake_loop fuel (default 0 (head rest)) s = Ret (s', tt) /\ sched_inv s' Q' /\ levels_ok s' /\
    still (mgr s) (mgr s') /\ current_process (mgr s') = current_process (mgr s) /\
    Q' Terminated = Q Terminated /\
    (forall a p, a ∈ rest -> asleep s Q a p ->
       if due (system_ticks (mgr s)) p then awake s' Q' a p else asleep s' Q' a p) /\
    (forall a, a ∉ rest -> set_next 0 <$> procs s' !! a = set_next 0 <$> procs s !! a) /\
    (forall a q, a ∉ rest -> a ∈ Q' q <-> a ∈ Q q).
Proof.
  induction rest as [|a rest IH]; intros kept fuel s Q Hinv Hlev EQ Hf; (destruct fuel as [|fuel]; [cbn in Hf; lia|]).
  { exists s, Q. do 6 (split; [done|]). split; [by intros a p ?%elem_of_nil|]. done. }
  pose proof Hinv as [[Hok Hcur] Htab]. destruct (qk_q _ _ Hok Blocked I) as (hd & _ & Hc & _ & Hqs).
  rewrite EQ in Hc, Hqs. pose proof (chain_NoDup _ _ _ Hc) as Hnd.
  apply chain_split in Hc as (_ & Hnz & r & Hr & Hc). destruct (Hqs a) as (p & Ho & Hst); [set_solver|]. cbn in Hst.
  pose proof Ho as (_ & Hp & _). unfold next_of in Hr. rewrite Hp in Hr. injection Hr as <-.
  assert (Enext : p_next p = default 0 (head rest)).
  { destruct rest; [by apply chain_nil in Hc|by apply chain_cons in Hc as (-> & _)]. }
  assert (Hni : a ∉ rest) by (apply NoDup_app in Hnd as (_ & _ & [? _]%NoDup_cons); done).
  cbn [wake_loop head default]. rewrite decide_False, (rdp_bind _ _ _ _ Hp), getm_bind, Enext by done.
  assert (Hdue : forall p' v, procs s !! a = Some (set_next v p') -> due (system_ticks (mgr s)) p' = due (system_ticks (mgr s)) p).
  { intros p' v E. rewrite Hp in E. injection E as ->. done. }
  destruct (decide (p_wakeup_time p > 0 /\ p_wakeup_time p <= system_ticks (mgr s))) as [Hd|Hd].
  - destruct (wake_one s Q a p kept rest Hinv Hlev EQ Hnd Ho Hst)
      as (s1 & Q1 & Hrun & Hinv1 & Hlev1 & EQ1 & ET1 & (Hin1 & v & Hv) & Hmem & Ec1 & Hst1 & Hoff).
    rewrite (cmd_bind_eq _ _ _ _ _ Hrun).
    destruct (IH kept fuel s1 Q1 Hinv1 Hlev1 EQ1) as (s' & Q' & Hrun' & Hinv' & Hlev' & Hst' & Ec' & Et' & Hw & Hoff' & Hmem');
      [cbn in Hf; lia|].
    destruct Hst1 as (E1 & E2 & E3). rewrite E3 in Hw.
    exists s', Q'. split; [done|]. split; [done|]. split; [done|]. split; [by eapply still_trans|].
    split; [congruence|]. split; [congruence|]. split; [|split].
    + intros b pb [->|Hb]%elem_of_cons Hs.
      * destruct Hs as (_ & _ & vb & Hvb). pose proof (Hdue _ _ Hvb) as Ed.
        rewrite Ed. unfold due. rewrite bool_decide_eq_true_2 by done.
        rewrite Hp in Hvb. injection Hvb as ->. apply (awake_moved s1 Q1); [|by apply Hmem'|by apply Hoff'].
        split; [done|]. by exists v.
      * apply Hw; [done|]. assert (b <> a) by (by intros ->). apply (asleep_moved s Q); [done|apply Hmem; [done|apply Hs]|by apply Hoff].
    + intros b [Hb Hb']%not_elem_of_cons. rewrite Hoff' by done. by apply Hoff.
    + intros b q [Hb Hb']%not_elem_of_cons. rewrite Hmem' by done. by apply Hmem.
  - rewrite (cmd_bind_eq _ _ s s tt) by done.
    destruct (IH (kept ++ [a]) fuel s Q Hinv Hlev) as (s' & Q' & Hrun' & Hinv' & Hlev' & Hst' & Ec' & Et' & Hw & Hoff' & Hmem');
      [rewrite EQ; by simplify_list_eq|cbn in Hf; lia|].
    exists s', Q'. do 6 (split; [done|]). split; [|split].
    + intros b pb [->|Hb]%elem_of_cons Hs; [|by apply Hw].
      pose proof Hs as (Hin & _ & vb & Hvb). rewrite (Hdue _ _ Hvb). unfold due. rewrite bool_decide_eq_false_2 by done.
      apply (asleep_moved s Q); [done|by apply Hmem'|by apply Hoff'].
    + intros b [_ Hb']%not_elem_of_cons. by apply Hoff'.
    + intros b q [_ Hb']%not_elem_of_cons. by apply Hmem'.
Qed.

(** ** Reaping *)

(** The manager after the processes [pids] have been cleared away. *)
Definition reaped (pids : list Z) (m m' : ProcessManager) : Prop :=
  (forall q, qhead m' q = qhead m q) /\ current_process m' = current_process m /\ system_ticks m' = system_ticks m /\
  length (processes m') = length (processes m) /\
  (forall i, 0 <= i < 64 -> zget (processes m') i = if decide (i ∈ pids) then Some 0 else zget (processes m) i) /\
  length (process_bitmap m') = 8%nat /\ bm_wf 8 (process_bitmap m') /\
  (forall i, 0 <= i -> bm_bit 8 (process_bitmap m') i = if decide (i ∈ pids) then false else bm_bit 8 (process_bitmap m) i).

Lemma reaped_nil m : length (process_bitmap m) = 8%nat -> bm_wf 8 (process_bitmap m) -> reaped [] m m.
Proof. intros. do 4 (split; [done|]). split; [|split; [done|split; [done|]]]; intros i _; by rewrite decide_False by set_solver. Qed.

Lemma reaped_cons pid pids m m1 m2 : reaped [pid] m m1 -> reaped pids m1 m2 -> reaped (pid :: pids) m m2.
Proof.
  intros (Q1 & C1 & T1 & L1 & P1 & B1 & W1 & V1) (Q2 & C2 & T2 & L2 & P2 & B2 & W2 & V2).
  split; [intros q; by rewrite Q2|]. split; [congruence|]. split; [congruence|]. split; [congruence|].
  split; [|split; [done|split; [done|]]]; intros i Hi; [rewrite P2, P1 by done|rewrite V2, V1 by done];
    repeat case_decide; done || (exfalso; set_solver).
Qed.

(** One entry: the table slot, the PID bit, the count. *)
Lemma clear_entry {A} (k : P A) s pid : length (processes (mgr s)) = 64%nat -> length (process_bitmap (mgr s)) = 8%nat ->
  bm_wf 8 (process_bitmap (mgr s)) -> 0 <= pid < 64 ->
  exists m', (l ← getm processes; l' ← lift (deref (zset l pid 0)); putm (set_processes l');;
    set_pid_in_use pid false;;
    n ← getm active_processes; putm (set_active_processes (u32 (n - 1)));; k) s = k (upd s m' (procs s)) /\
    reaped [pid] (mgr s) m'.
Proof.
  intros Hl Hb Hw Hp. rewrite getm_bind, zset_Some by lia. erewrite (cmd_bind_eq (lift _)) by reflexivity. rewrite putm_bind.
  destruct (bm_clear_spec 8 ltac:(lia) (process_bitmap (mgr s)) pid Hw) as (bm' & Hbm & Hbw' & Hbl' & Hbb');
    [unfold bm_size; rewrite Hb; lia|].
  erewrite (cmd_bind_eq (set_pid_in_use pid false)).
  2:{ unfold set_pid_in_use, PROCESS_MAX_COUNT. rewrite decide_True by lia. rewrite getm_bind. cbn [process_bitmap mgr with_mgr set_processes].
      rewrite Hbm. erewrite (cmd_bind_eq (lift _)) by reflexivity. reflexivity. }
  rewrite getm_bind, putm_bind. eexists. split; [reflexivity|]. split; [by intros []|]. do 2 (split; [done|]).
  split; [apply length_insert|]. split; [|split; [cbn; congruence|split; [done|]]]; cbn.
  - intros i Hi. destruct (decide (i = pid)) as [->|Hne].
    + rewrite decide_True by set_solver. rewrite zget_lookup by lia. apply list_lookup_insert_eq. lia.
    + rewrite decide_False by set_solver. rewrite !zget_lookup by lia. apply list_lookup_insert_ne. lia.
  - intros i Hi. rewrite Hbb' by done. repeat case_decide; done || (exfalso; set_solver).
Qed.

Lemma reap_run l : forall fuel cur s, chain (next_of (procs s)) cur l -> (length l < fuel)%nat ->
  length (processes (mgr s)) = 64%nat -> length (process_bitmap (mgr s)) = 8%nat -> bm_wf 8 (process_bitmap (mgr s)) ->
  (forall a, a ∈ l -> 0 <= pid_of (procs s) a < 64) ->
  exists s', reap_loop fuel cur s = Ret (s', tt) /\ pm_set s' = pm_set s /\ procs s' = procs s /\
    reaped (map (pid_of (procs s)) l) (mgr s) (mgr s').
Proof.
  induction l as [|a l IH]; intros fuel cur s Hc Hf Hl Hb Hw Hpids; (destruct fuel as [|fuel]; [cbn in Hf; lia|]).
  { apply chain_nil in Hc as ->. exists s. do 3 (split; [done|]). by apply reaped_nil. }
  apply chain_cons in Hc as (-> & Ha & r & Hr & Hc). unfold next_of in Hr.
  destruct (procs s !! a) as [p|] eqn:Hp; [|done]. injection Hr as <-. cbn [reap_loop].
  rewrite decide_False, (rdp_bind _ _ _ _ Hp) by done.
  assert (Hfree : exists s1, (if decide (p_user_stack p <> 0) then free (p_user_stack p) else mret tt) s = Ret (s1, tt) /\ same_sched s s1).
  { destruct (decide (p_user_stack p <> 0)); [apply free_law|by exists s]. }
  destruct Hfree as (s1 & Hf1 & Hs1). rewrite (cmd_bind_eq _ _ _ _ _ Hf1).
  destruct (free_law (p_kernel_stack p) s1) as (s2 & Hf2 & Hs2). rewrite (cmd_bind_eq _ _ _ _ _ Hf2).
  destruct (free_law a s2) as (s3 & Hf3 & Hs3). rewrite (cmd_bind_eq _ _ _ _ _ Hf3).
  destruct (same_sched_trans _ _ _ (same_sched_trans _ _ _ Hs1 Hs2) Hs3) as (E1 & E2 & E3).
  assert (Hp3 : procs s3 !! a = Some p) by (by rewrite E3). rewrite (rdp_bind _ _ _ _ Hp3).
  assert (Epid : pid_of (procs s) a = p_pid p) by (unfold pid_of; by rewrite Hp).
  destruct (clear_entry (reap_loop fuel (p_next p)) s3 (p_pid p)) as (m' & -> & Hm');
    [by rewrite E2..|rewrite <- Epid; apply Hpids; by left|].
  rewrite E2 in Hm'. pose proof Hm' as (_ & _ & _ & L & _ & B & W & _).
  destruct (IH fuel (p_next p) (upd s3 m' (procs s3))) as (s' & Hrun & Es & Ep & Hm'');
    cbn [mgr procs upd]; rewrite ?E3; try done; [cbn in Hf; lia|congruence|intros b Hb'; apply Hpids; by right|].
  cbn [mgr procs upd pm_set] in *. rewrite E3 in *.
  exists s'. split; [done|]. split; [congruence|]. split; [done|]. cbn [map]. rewrite Epid. by eapply reaped_cons.
Qed.

(** The pids of the terminated processes are those of no other process. *)
Lemma reaped_other s Q a p q : queues_ok s Q -> owned s a p -> queue_state q p -> q <> Terminated ->
  p_pid p ∉ map (pid_of (procs s)) (Q Terminated).
Proof.
  intros Hok Ho Hst Hne Hin. apply list_elem_of_fmap in Hin as (b & E & Hb).
  destruct (member s Q Terminated b Hok I Hb) as (pb & Hob & Hstb). rewrite (owned_pid _ _ _ Hob) in E.
  assert (a = b) as <- by (by eapply owned_inj). destruct Ho as (_ & Hp & _), Hob as (_ & Hpb & _).
  assert (pb = p) as -> by congruence. apply Hne. by eapply queue_state_inj.
Qed.

Lemma reaped_current s Q p : queues_ok s Q -> owned s (current_process (mgr s)) p -> p_state p = PROCESS_RUNNING ->
  p_pid p ∉ map (pid_of (procs s)) (Q Terminated).
Proof.
  intros Hok Ho Hst Hin. apply list_elem_of_fmap in Hin as (b & E & Hb).
  destruct (member s Q Terminated b Hok I Hb) as (pb & Hob & Hstb). rewrite (owned_pid _ _ _ Hob) in E.
  assert (current_process (mgr s) = b) as Eb by (by eapply owned_inj). rewrite Eb in Ho.
  destruct Ho as (_ & Hp & _), Hob as (_ & Hpb & _). cbn in Hstb. congruence.
Qed.

Section reaped.
Variables (s : pstate) (Q : queue -> list Z) (s1 : pstate).
Hypothesis Hinv : tick_inv s Q.
Hypothesis Hset : pm_set s1 = pm_set s.
Hypothesis Hprocs : procs s1 = procs s.
Hypothesis Hreap : reaped (map (pid_of (procs s)) (Q Terminated)) (mgr s) (mgr s1).
Let s2 := with_mgr (set_terminated_queue 0) s1.

Lemma reaped_entry i a : zget (processes (mgr s2)) i = Some a -> a <> 0 ->
  zget (processes (mgr s)) i = Some a /\ i ∉ map (pid_of (procs s)) (Q Terminated).
Proof.
  intros Ht Hnz. destruct Hreap as (_ & _ & _ & L & P & _). cbn in Ht. pose proof (zget_Some_range _ _ _ Ht) as Hr.
  rewrite L, (qk_len _ _ (proj1 (proj1 (ti_sched _ _ Hinv)))) in Hr. rewrite P in Ht by lia. case_decide; [congruence|done].
Qed.

Lemma reaped_owned a p : owned s a p -> p_pid p ∉ map (pid_of (procs s)) (Q Terminated) -> owned s2 a p.
Proof.
  intros (Hnz & Hp & Ht) Hn. split; [done|]. split; [cbn; by rewrite Hprocs|]. destruct Hreap as (_ & _ & _ & _ & P & _).
  pose proof (zget_Some_range _ _ _ Ht) as Hr. rewrite (qk_len _ _ (proj1 (proj1 (ti_sched _ _ Hinv)))) in Hr.
  cbn. rewrite P by lia. by rewrite decide_False.
Qed.

Lemma reaped_queues : queues_ok s2 (qupd Q Terminated []).
Proof.
  pose proof (ti_sched _ _ Hinv) as [[Hok _] _]. pose proof Hok as [H1 H2 H3].
  destruct Hreap as (Eq & _ & _ & L & _). constructor; [cbn; congruence|cbn; congruence|]. intros q Hv.
  destruct (decide (q = Terminated)) as [->|Hne].
  - rewrite qupd_eq. exists 0. split; [done|]. split; [done|]. split; [done|]. by intros a ?%elem_of_nil.
  - rewrite qupd_ne by done. destruct (H3 q Hv) as (hd & Hhd & Hc & Hso & Hst). exists hd. split.
    { rewrite <- Hhd, <- Eq. by destruct q. }
    cbn [procs s2 with_mgr]. rewrite Hprocs. split; [done|]. split; [done|].
    intros a Ha. destruct (Hst a Ha) as (p & Ho & Hs). exists p. split; [|done].
    apply reaped_owned; [done|]. by eapply reaped_other.
Qed.

Lemma reaped_inv : tick_inv s2 (qupd Q Terminated []).
Proof.
  destruct Hinv as [[[Hok Hcur] Htab] (Hb1 & Hb2 & Hb3) Hlev]. pose proof Hreap as (_ & Ec & _ & _ & P & B & W & V).
  constructor; [split; [split; [exact reaped_queues|]|]|split; [done|split; [done|]]|].
  - destruct Hcur as [E|(p & Ho & Hr & Hl)]; [left; cbn; congruence|]. right. exists p. cbn [mgr s2 with_mgr current_process set_terminated_queue].
    rewrite Ec. split; [|done]. apply reaped_owned; [done|]. by eapply reaped_current.
  - intros i b Hb Hnz. destruct (reaped_entry i b Hb Hnz) as [Ht Hn]. destruct (Htab i b Ht Hnz) as (p & Hp & Hpid & Hloc).
    exists p. cbn. rewrite Hprocs, Ec. split; [done|]. split; [done|]. destruct Hloc as [?|(q & Hv & Hin)]; [by left|].
    right. exists q. split; [done|]. destruct (decide (q = Terminated)) as [->|]; [|by rewrite qupd_ne].
    destruct Hn. apply list_elem_of_fmap. exists b. split; [|done]. unfold pid_of. by rewrite Hp.
  - intros i Hi. cbn. rewrite P, V by lia. case_decide; [|by apply Hb3]. by rewrite bool_decide_eq_true_2.
  - intros a p (Hnz & Hp & Ht). destruct (reaped_entry _ _ Ht Hnz) as [Ht' _]. apply (Hlev a).
    split; [done|]. split; [|done]. cbn in Hp. by rewrite Hprocs in Hp.
Qed.
End reaped.

(** ** One tick *)

(** The slice of the running process does not end with this tick, so that no
    interrupt is raised inside the handler. *)
Definition calm s : Prop := forall c, current_process (mgr s) <> 0 ->
  procs s !! current_process (mgr s) = Some c -> 0 < u32 (p_time_slice c - 1).

Definition charged (c : Process) : Process :=
  set_total_runtime (u32 (p_total_runtime c + 1)) (set_time_slice (u32 (p_time_slice c - 1)) c).

(** Manager updates that touch neither the table nor the queues. *)
Lemma tick_inv_mgr s Q m' : tick_inv s Q -> processes m' = processes (mgr s) -> process_bitmap m' = process_bitmap (mgr s) ->
  current_process m' = current_process (mgr s) -> (forall q, qhead m' q = qhead (mgr s) q) -> tick_inv (upd s m' (procs s)) Q.
Proof.
  intros [[[Hok Hcur] Htab] Hp Hl] E1 E2 E3 E4. constructor.
  - split; [split; [by apply queues_ok_mgr|]|].
    + unfold current_ok, owned in *. cbn. by rewrite E1, E3.
    + intros i a. cbn. rewrite E1, E3. apply Htab.
  - unfold pids_ok in *. cbn. by rewrite E1, E2.
  - intros a p (? & ? & Ht). cbn in Ht. rewrite E1 in Ht. by apply (Hl a).
Qed.

Lemma charge_run s Q : tick_inv s Q -> calm s ->
  exists s1, charge_current s = Ret (s1, tt) /\ tick_inv s1 Q /\ mgr s1 = mgr s /\
    (forall a, a <> current_process (mgr s) -> procs s1 !! a = procs s !! a) /\
    (current_process (mgr s) <> 0 -> exists c, procs s !! current_process (mgr s) = Some c /\
       procs s1 !! current_process (mgr s) = Some (charged c)).
Proof.
  intros Hinv Hcalm. pose proof Hinv as [[[Hok Hcur] Htab] Hpids Hlev]. unfold charge_current. rewrite getm_bind.
  destruct (decide (current_process (mgr s) = 0)) as [E|Hnz]; [by exists s|].
  destruct Hcur as [?|(c & Ho & Hr & Hpr)]; [done|]. pose proof Ho as (_ & Hp & Ht).
  rewrite (rdp_bind _ _ _ _ Hp), decide_False by tauto. rewrite (wrp_bind _ _ _ _ _ Hp).
  erewrite wrp_bind by apply lookup_insert_eq. erewrite rdp_bind by apply lookup_insert_eq.
  specialize (Hcalm c Hnz Hp). cbn [p_time_slice set_total_runtime set_time_slice]. rewrite decide_False by lia.
  set (cur := current_process (mgr s)) in *.
  exists (with_procs (insert cur (charged c)) s). split; [|split; [|split; [done|split; [|]]]].
  - unfold mret, cmd_mret, with_procs. cbn. by rewrite insert_insert_eq.
  - assert (Hoff : same_off cur (procs s) (<[cur := charged c]> (procs s))) by (intros b Hb; by rewrite lookup_insert_ne).
    constructor; [split; [split|]|by apply (pids_still s)|].
    + eapply queues_ok_insert; [done|exact Hp|]. eapply unqueued; [done|exact Hp|congruence..].
    + right. exists (charged c). split; [|done]. split; [done|]. split; [apply lookup_insert_eq|exact Ht].
    + apply (table_moved s Q _ _ cur Htab); try done; [|by left].
      exists c, (charged c). split; [done|]. split; [apply lookup_insert_eq|done].
    + apply (levels_moved s Q _ cur Htab Hlev); [done|done|]. intros p (_ & Hp' & _). cbn in Hp'. rewrite lookup_insert_eq in Hp'.
      injection Hp' as <-. exact Hpr.
  - intros a Ha. cbn. by apply lookup_insert_ne.
  - intros _. exists c. split; [done|]. apply lookup_insert_eq.
Qed.

Lemma queue_head s Q q : queues_ok s Q -> valid_queue q -> qhead (mgr s) q = Some (default 0 (head (Q q))) /\
  chain (next_of (procs s)) (default 0 (head (Q q))) (Q q) /\ (length (Q q) < S (size (procs s)))%nat.
Proof.
  intros Hok Hv. destruct (qk_q _ _ Hok q Hv) as (hd & Hhd & Hc & _). assert (hd = default 0 (head (Q q))) as <-.
  { destruct (Q q); [by apply chain_nil in Hc|by apply chain_cons in Hc as (-> & _)]. }
  split; [done|]. split; [done|]. by eapply chain_length_fuel.
Qed.

Lemma reap_terminated_run s Q : tick_inv s Q ->
  exists s', (head ← getm terminated_queue; fuel ← walk_fuel; reap_loop fuel head;;
              putm (set_terminated_queue 0)) s = Ret (s', tt) /\
    tick_inv s' (qupd Q Terminated []) /\ procs s' = procs s /\
    system_ticks (mgr s') = system_ticks (mgr s) /\ current_process (mgr s') = current_process (mgr s) /\
    forall a, a ∈ Q Terminated -> zget (processes (mgr s')) (pid_of (procs s) a) = Some 0.
Proof.
  intros Hinv. pose proof Hinv as [[[Hok Hcur] Htab] (Hb1 & Hb2 & Hb3) Hlev].
  destruct (queue_head s Q Terminated Hok I) as ([= Eh] & Hc & Hf).
  assert (Hpids : forall a, a ∈ Q Terminated -> 0 <= pid_of (procs s) a < 64).
  { intros a Ha. destruct (member s Q Terminated a Hok I Ha) as (p & Ho & _). rewrite (owned_pid _ _ _ Ho).
    destruct Ho as (_ & _ & Ht). pose proof (zget_Some_range _ _ _ Ht) as Hr. rewrite (qk_len _ _ Hok) in Hr. lia. }
  destruct (reap_run (Q Terminated) (S (size (procs s))) (terminated_queue (mgr s)) s) as (s1 & Hrun & Es & Ep & Hr);
    try done; [by rewrite Eh|by rewrite (qk_len _ _ Hok)|].
  exists (with_mgr (set_terminated_queue 0) s1). split.
  { rewrite getm_bind. unfold walk_fuel. rewrite gets_bind. by rewrite (cmd_bind_eq _ _ _ _ _ Hrun). }
  split; [by apply (reaped_inv s)|]. split; [done|]. pose proof Hr as (_ & Ec & Et & _ & P & _). split; [done|]. split; [done|].
  intros a Ha. cbn. rewrite P by auto. apply decide_True. apply list_elem_of_fmap. by exists a.
Qed.

(** What a tick that sets the clock to [t] does to the processes that sleep, are
    ready or run. *)
Definition moved (t : Z) s Q s' Q' : Prop :=
  (forall a p, asleep s Q a p -> if due t p then awake s' Q' a p else asleep s' Q' a p) /\
  (forall a k, 0 <= k < 16 -> a ∈ Q (Ready k) ->
     a ∈ Q' (Ready k) /\ set_next 0 <$> procs s' !! a = set_next 0 <$> procs s !! a) /\
  (current_process (mgr s) <> 0 -> exists c, procs s !! current_process (mgr s) = Some c /\
     set_next 0 <$> procs s' !! current_process (mgr s) = Some (set_next 0 (charged c))).

Lemma moved_ext t s Q s1 Q1 s' Q' : moved t s Q s1 Q1 -> (forall q, q <> Terminated -> Q' q = Q1 q) ->
  procs s' = procs s1 -> moved t s Q s' Q'.
Proof.
  intros (M1 & M2 & M3) EQ EP. unfold moved, awake, asleep in *. rewrite EP. split; [|split; [|done]].
  - intros a p Ha. rewrite !EQ by done. by apply M1.
  - intros a k Hk Ha. rewrite EQ by done. by apply M2.
Qed.

(** The two steps of every tick. *)
Lemma charge_and_wake s Q : tick_inv s Q -> calm s ->
  let t := u32 (system_ticks (mgr s) + 1) in
  exists sB sC QC, charge_current (with_mgr (set_system_ticks t) s) = Ret (sB, tt) /\
    wake_loop (S (size (procs sB))) (blocked_queue (mgr sB)) sB = Ret (sC, tt) /\ tick_inv sC QC /\
    system_ticks (mgr sC) = t /\ current_process (mgr sC) = current_process (mgr s) /\
    QC Terminated = Q Terminated /\ moved t s Q sC QC /\
    (forall a, a ∈ Q Terminated -> set_next 0 <$> procs sC !! a = set_next 0 <$> procs s !! a).
Proof.
  intros Hinv Hcalm t. set (sA := with_mgr (set_system_ticks t) s).
  assert (HA : tick_inv sA Q) by (by apply (tick_inv_mgr s); [..|intros []]).
  destruct (charge_run sA Q HA Hcalm) as (sB & HrunB & HB & EB & HoffB & HcB).
  change (current_process (mgr sA)) with (current_process (mgr s)) in *. change (procs sA) with (procs s) in *.
  pose proof HB as [HsB HpB HlB]. pose proof HsB as [[HokB _] _].
  destruct (queue_head sB Q Blocked HokB I) as ([= Eh] & _ & Hf).
  destruct (wake_run (Q Blocked) [] (S (size (procs sB))) sB Q HsB HlB eq_refl Hf)
    as (sC & QC & HrunC & HinvC & HlC & HstC & EcC & EtC & Hw & HoffC & HmemC).
  rewrite EB in Hw, EcC, HstC.
  assert (Hnb : forall a q, valid_queue q -> q <> Blocked -> a ∈ Q q -> a ∉ Q Blocked).
  { intros a q Hv Hne Ha Hb. apply Hne. by eapply (queue_disjoint sB). }
  assert (Hnc : forall a q, valid_queue q -> a ∈ Q q -> procs sB !! a = procs s !! a).
  { intros a q Hv Ha. apply HoffB. exact (queued_not_current sA Q a q (proj1 (ti_sched _ _ HA)) Hv Ha). }
  exists sB, sC, QC. split; [done|]. split; [by rewrite Eh|].
  split; [constructor; [done|apply (pids_still sB); [by rewrite EB|done]|done]|].
  split; [apply HstC|]. split; [done|]. split; [done|]. split; [split; [|split]|].
  - intros a p Hs. apply Hw; [apply Hs|]. apply (asleep_moved s Q); [done|apply Hs|]. by rewrite (Hnc a Blocked); [|done|apply Hs].
  - intros a k Hk Ha. pose proof (Hnb a (Ready k) Hk ltac:(done) Ha) as Hn. split; [by apply HmemC|].
    rewrite HoffC by done. by rewrite (Hnc a (Ready k)).
  - intros Hnz. destruct (HcB Hnz) as (c & Hc & Hc'). exists c. split; [done|]. rewrite HoffC; [by rewrite Hc'|].
    intros Hin. exact (queued_not_current sA Q _ Blocked (proj1 (ti_sched _ _ HA)) I Hin eq_refl).
  - intros a Ha. rewrite HoffC by (by eapply (Hnb a Terminated)). by rewrite (Hnc a Terminated).
Qed.

(** What a tick does. *)
Definition ticked s Q s' Q' : Prop :=
  let t := u32 (system_ticks (mgr s) + 1) in
  system_ticks (mgr s') = t /\ current_process (mgr s') = current_process (mgr s) /\ moved t s Q s' Q' /\
  Q' Terminated = (if decide (t mod 100 = 0) then [] else Q Terminated) /\
  (t mod 100 = 0 -> forall a p, a ∈ Q Terminated -> procs s !! a = Some p -> zget (processes (mgr s')) (p_pid p) = Some 0).

Lemma tick_run s Q : tick_inv s Q -> calm s ->
  exists s' Q', process_manager_tick s = Ret (s', tt) /\ tick_inv s' Q' /\ ticked s Q s' Q'.
Proof.
  intros Hinv Hcalm. destruct (charge_and_wake s Q Hinv Hcalm) as (sB & sC & QC & HrunB & HrunC & HC & Et & Ec & ET & Hm & Hterm).
  set (t := u32 (system_ticks (mgr s) + 1)) in *. unfold process_manager_tick.
  rewrite (cmd_bind_eq _ _ s s true) by (unfold gets; by rewrite (qk_set _ _ (proj1 (proj1 (ti_sched _ _ Hinv))))).
  rewrite decide_False, getm_bind, putm_bind by done. fold t. rewrite (cmd_bind_eq _ _ _ _ _ HrunB), getm_bind.
  rewrite (cmd_bind_eq walk_fuel _ sB sB (S (size (procs sB)))), (cmd_bind_eq _ _ _ _ _ HrunC), getm_bind, Et by done.
  destruct (decide (t mod 100 = 0)) as [Hd|Hd].
  - destruct (reap_terminated_run sC QC HC) as (sD & HrunD & HD & EpD & EtD & EcD & HzD).
    exists sD, (qupd QC Terminated []). split; [exact HrunD|]. split; [done|].
    split; [exact (eq_trans EtD Et)|]. split; [congruence|].
    split; [apply (moved_ext t s Q sC QC); [done|intros; by apply qupd_ne|done]|]. fold t.
    split; [by rewrite decide_True, qupd_eq|]. intros _ a p Ha Hp. rewrite <- (HzD a) by (by rewrite ET). f_equal.
    specialize (Hterm a Ha). rewrite Hp in Hterm. unfold pid_of. destruct (procs sC !! a); [|done]. cbn in Hterm |- *. by injection Hterm.
  - exists sC, QC. do 5 (split; [done|]). fold t. split; [by rewrite decide_False|done].
Qed.

(** ** Events *)

(** What happens to the scheduler: a tick of the timer, a reschedule with the
    stack pointer [esp], and the calls of processes and of the kernel. *)
Inductive event : Type :=
| Tick
| Switch (esp : Z)
| Sleep (pid wait : Z)
| Wake (pid : Z)
| Exit (pid code : Z)
| Spawn (name : option (list Z)) (entry argc argv privilege priority : Z).

Definition do_event (e : event) : P unit :=
  match e with
  | Tick => process_manager_tick
  | Switch esp => schedule esp;; mret tt
  | Sleep pid wait => block_process pid wait
  | Wake pid => unblock_process pid
  | Exit pid code => terminate_process pid code
  | Spawn name entry argc argv privilege priority =>
      create_process name entry argc argv privilege priority;; mret tt
  end.

(** Ticks that do not use up a slice; unsigned arguments; only the running process
    exits (see [terminate_ready_stays_queued]). *)
Definition allowed (e : event) s : Prop :=
  match e with
  | Tick => calm s
  | Switch _ => True
  | Sleep pid _ | Wake pid => 0 <= pid
  | Exit pid _ => exists p, owned s (current_process (mgr s)) p /\ p_pid p = pid
  | Spawn _ _ _ _ _ priority => 0 <= priority
  end.

Definition wakes (e : event) (ticks : Z) (p : Process) : bool :=
  match e with Tick => due ticks p | Wake pid => bool_decide (pid = p_pid p) | _ => false end.
Definition clock (e : event) (ticks : Z) : Z := match e with Tick => u32 (ticks + 1) | _ => ticks end.

(** The outcome of an event for the sleeping processes. *)
Definition stepped (e : event) s Q s' Q' : Prop :=
  tick_inv s' Q' /\ system_ticks (mgr s') = clock e (system_ticks (mgr s)) /\
  forall a p, asleep s Q a p -> if wakes e (system_ticks (mgr s')) p then awake s' Q' a p else asleep s' Q' a p.

(** Events that move one process [a] which does not sleep. *)
Lemma stepped_other e s Q s' Q' a : tick_inv s Q -> sched_inv s' Q' -> pids_ok s' ->
  system_ticks (mgr s') = clock e (system_ticks (mgr s)) -> same_off a (procs s) (procs s') ->
  levels_ok s' -> (forall b p, asleep s Q b p -> b <> a /\ b ∈ Q' Blocked /\ wakes e (system_ticks (mgr s')) p = false) ->
  stepped e s Q s' Q'.
Proof.
  intros Hinv Hs Hp Ht Hoff Hl Hb. split; [done|]. split; [done|]. intros b p Ha. destruct (Hb b p Ha) as (Hne & Hin & ->).
  apply (asleep_moved s Q); [done|done|by apply Hoff].
Qed.

Lemma lookup_cases s Q pid : tick_inv s Q -> 0 <= pid ->
  lookup_process pid s = Ret (s, 0) \/
  exists a p, owned s a p /\ p_pid p = pid /\ 0 <= pid < 64 /\ zget (processes (mgr s)) pid = Some a.
Proof.
  intros [[[Hok _] Htab] _ _] Hpid. destruct (decide (pid < 64)) as [Hlt|Hge].
  - destruct (zget_in_range (processes (mgr s)) pid) as [a Ha]; [rewrite (qk_len _ _ Hok); lia|].
    destruct (decide (a = 0)) as [->|Hnz]; [left; by apply (lookup_run s pid 0); [apply Hok|..]|]. right.
    destruct (Htab _ _ Ha Hnz) as (p & Hp & E & _). exists a, p. split; [|done]. split; [done|]. split; [done|]. by rewrite E.
  - left. unfold lookup_process. rewrite (cmd_bind_eq _ _ s s true) by (unfold gets; by rewrite (qk_set _ _ Hok)).
    rewrite decide_True by (right; unfold PROCESS_MAX_COUNT; lia). done.
Qed.

Lemma stepped_refl e s Q : tick_inv s Q -> clock e (system_ticks (mgr s)) = system_ticks (mgr s) ->
  (forall a p, asleep s Q a p -> wakes e (system_ticks (mgr s)) p = false) -> stepped e s Q s Q.
Proof. intros Hinv Hc Hw. split; [done|]. split; [done|]. intros a p Ha. by rewrite (Hw a p Ha). Qed.

Lemma step_tick s Q : tick_inv s Q -> calm s -> exists s' Q', do_event Tick s = Ret (s', tt) /\ stepped Tick s Q s' Q'.
Proof.
  intros Hinv Hc. destruct (tick_run s Q Hinv Hc) as (s' & Q' & Hrun & Hinv' & Et & _ & (Hs & _) & _).
  exists s', Q'. split; [done|]. split; [done|]. split; [done|]. intros a p Ha. cbn. rewrite Et. by apply Hs.
Qed.

Lemma step_switch s Q esp : tick_inv s Q -> exists s' Q', do_event (Switch esp) s = Ret (s', tt) /\ stepped (Switch esp) s Q s' Q'.
Proof.
  intros [[Hs Htab] Hp Hl]. destruct (schedule_run s Q esp Hs) as (Q1 & s' & Q' & r & _ & Hrun & Hs' & _ & _ & Hst & EB & ET & Hw & Hkeep).
  destruct (Hkeep Htab) as [Htab' Hl']. exists s', Q'. split; [cbn; by rewrite (cmd_bind_eq _ _ _ _ _ Hrun)|].
  split; [constructor; [done|by eapply pids_still|auto]|]. split; [apply Hst|]. intros a p Ha. cbn.
  apply (asleep_moved s Q); [done|rewrite EB; apply Ha|]. rewrite (Hw a Blocked); [done|by left|apply Ha].
Qed.

Lemma step_sleep s Q pid wait : tick_inv s Q -> 0 <= pid ->
  exists s' Q', do_event (Sleep pid wait) s = Ret (s', tt) /\ stepped (Sleep pid wait) s Q s' Q'.
Proof.
  intros Hinv Hpid. destruct (lookup_cases s Q pid Hinv Hpid) as [E|(a & p & Ho & Ep & Hr & Ht)].
  { exists s, Q. split; [|by apply stepped_refl]. cbn. unfold block_process. by rewrite (cmd_bind_eq _ _ _ _ _ E). }
  pose proof Ho as (Hnz & Hp & _). pose proof Hinv as [Hs Hpids Hl].
  destruct (block_process_moves s Q pid wait a p Hs Hr Ht Hnz Hp) as (s' & Q' & Hrun & Hs' & Hst & Hoff & Hmove & Hidle).
  exists s', Q'. split; [done|].
  destruct (decide (p_state p = PROCESS_READY \/ a = current_process (mgr s))) as [Hm|Hm].
  - destruct (Hmove Hm) as (_ & _ & (v & Hv) & _ & Hmem).
    apply (stepped_other _ s Q s' Q' a); try done; [by eapply pids_still|apply Hst| |].
    + apply (levels_moved s Q s' a); [apply Hs|done|done|done|]. intros p' (_ & Hp' & _).
      rewrite Hp' in Hv. destruct Hv as [[= ->]|[= ->]]; exact (Hl _ _ Ho).
    + intros b pb Hb. destruct (asleep_owned s Q b pb Hs Hb) as (w & (_ & Hpb & _) & Hne).
      assert (b <> a); [|split; [done|split; [|done]]; by apply Hmem; [..|apply Hb]].
      intros ->. destruct Hb as (_ & Hst' & _). rewrite Hp in Hpb. injection Hpb as ->. cbn in Hm.
      destruct Hm; [congruence|done].
  - destruct Hidle as [-> ->]; [tauto|tauto|]. by apply stepped_refl.
Qed.

Lemma step_wake s Q pid : tick_inv s Q -> 0 <= pid -> exists s' Q', do_event (Wake pid) s = Ret (s', tt) /\ stepped (Wake pid) s Q s' Q'.
Proof.
  intros Hinv Hpid. pose proof Hinv as [Hs Hpids Hl].
  assert (Hidle : forall a p, asleep s Q a p -> zget (processes (mgr s)) (p_pid p) = Some a /\ 0 <= p_pid p < 64).
  { intros a p Ha. destruct (asleep_owned s Q a p Hs Ha) as (v & (_ & _ & Ht) & _). cbn in Ht. split; [done|].
    pose proof (zget_Some_range _ _ _ Ht) as Hr. rewrite (qk_len _ _ (proj1 (proj1 Hs))) in Hr. lia. }
  destruct (lookup_cases s Q pid Hinv Hpid) as [E|(a & p & Ho & Ep & Hr & Ht)].
  { exists s, Q. split; [cbn; unfold unblock_process; by rewrite (cmd_bind_eq _ _ _ _ _ E)|]. apply stepped_refl; [done|done|].
    intros b pb Hb. apply bool_decide_eq_false. intros ->. destruct (Hidle b pb Hb) as [Ht Hr].
    rewrite (lookup_run _ _ _ (qk_set _ _ (proj1 (proj1 Hs))) Hr Ht) in E. injection E as ->.
    by destruct (asleep_owned s Q 0 pb Hs Hb) as (v & (? & _) & _). }
  pose proof Ho as (Hnz & Hp & _). subst pid. destruct (decide (p_state p = PROCESS_BLOCKED)) as [Hb|Hb].
  - destruct (unblock_run s Q a p Hs Ho Hb (Hl _ _ Ho)) as (s1 & l1 & l2 & k1 & k2 & Hrun & El & Ek & Hinv1 & (v & Hv) & Ec & Hst & Hoff).
    eexists s1, _. split; [exact Hrun|]. split; [constructor; [exact Hinv1|by eapply pids_still|]|split; [apply Hst|]].
    + apply (levels_moved s Q s1 a); [apply Hs|done|done|done|]. intros p' (_ & Hp' & _). rewrite Hv in Hp'. injection Hp' as <-. exact (Hl _ _ Ho).
    + intros b pb Hsb. cbn. destruct (decide (b = a)) as [->|Hne].
      * destruct Hsb as (_ & _ & w & Hw). rewrite Hp in Hw. injection Hw as ->. rewrite bool_decide_eq_true_2 by done.
        split; [apply qupd_in|by exists v].
      * rewrite bool_decide_eq_false_2.
        -- apply (asleep_moved s Q); [done| |by apply Hoff]. rewrite qupd_ne by done.
           apply (detached_members s Q Blocked a l1 l2 El b Blocked Hne). apply Hsb.
        -- intros E. apply Hne. destruct (asleep_owned s Q b pb Hs Hsb) as (w & Hob & _). by apply (owned_inj s b a (set_next w pb) p).
  - exists s, Q. split; [by apply (unblock_idle s _ a p); [apply Hs|..]|]. apply stepped_refl; [done|done|].
    intros b pb Hsb. apply bool_decide_eq_false. intros E. destruct (asleep_owned s Q b pb Hs Hsb) as (w & Hob & _).
    assert (b = a) as -> by (by apply (owned_inj s b a (set_next w pb) p)). destruct Hob as (_ & Hpb & _), Hsb as (_ & Hst & _).
    rewrite Hp in Hpb. injection Hpb as ->. done.
Qed.

Lemma step_exit s Q pid code : tick_inv s Q -> allowed (Exit pid code) s ->
  exists s' Q', do_event (Exit pid code) s = Ret (s', tt) /\ stepped (Exit pid code) s Q s' Q'.
Proof.
  intros [Hs Hpids Hl] (p & Ho & <-). pose proof Ho as (Hnz & Hp & Ht).
  pose proof (zget_Some_range _ _ _ Ht) as Hr. rewrite (qk_len _ _ (proj1 (proj1 Hs))) in Hr.
  destruct (terminate_running s Q (p_pid p) code _ p Hs ltac:(lia) Ht Hnz eq_refl Hp)
    as (s' & Q' & Hrun & Hs' & Hst & Hoff & _ & _ & (v & Hv) & Hmem).
  exists s', Q'. split; [done|]. apply (stepped_other _ s Q s' Q' (current_process (mgr s))); try done; [by eapply pids_still|apply Hst| |].
  - apply (levels_moved s Q s' (current_process (mgr s))); [apply Hs|done|done|done|]. intros p' (_ & Hp' & _).
    rewrite Hv in Hp'. injection Hp' as <-. exact (Hl _ _ Ho).
  - intros b pb Hb. destruct (asleep_owned s Q b pb Hs Hb) as (w & _ & Hne).
    split; [done|]. split; [|done]. apply Hmem; [done|done|apply Hb].
Qed.

Lemma step_spawn s Q name entry argc argv privilege priority : tick_inv s Q -> 0 <= priority ->
  let e := Spawn name entry argc argv privilege priority in
  exists s' Q', do_event e s = Ret (s', tt) /\ stepped e s Q s' Q'.
Proof.
  intros [Hs Hpids Hl] Hprio e.
  destruct (create_process_run s Q name entry argc argv privilege priority Hs Hpids Hprio) as (s' & r & Hrun & Hres).
  assert (Hfresh : forall a, (forall pr, ~ owned s a pr) -> forall b p, asleep s Q b p -> b <> a).
  { intros a Ha b p Hb ->. destruct (asleep_owned s Q a p Hs Hb) as (w & Ho & _). by apply (Ha (set_next w p)). }
  destruct Hres as [(_ & Em & Hs' & a & Ha & Hoff)|(_ & Hr & Hz & _ & a & p & Q' & Ho & Hid & Hst & _ & Hs' & Hin & Hmem & Hp' & _ & Ha & Hoff & Ht)].
  - exists s', Q. split; [cbn; by rewrite (cmd_bind_eq _ _ _ _ _ Hrun)|].
    apply (stepped_other _ s Q s' Q a); try done; [apply (pids_still s); [by rewrite Em|done]|by rewrite Em| |].
    + intros b p (Hnz & Hp & Ht). rewrite Em in Ht. destruct Hs as [_ Htab]. destruct (Htab _ _ Ht Hnz) as (p0 & Hp0 & Epid & _).
      assert (Ho0 : owned s b p0) by (split; [done|]; split; [done|by rewrite Epid]).
      assert (b <> a) as Hne by (intros ->; by apply (Ha p0)).
      destruct (same_off_pid _ _ _ _ _ Hoff Hne Hp0) as (p1 & Hp1 & _ & E). assert (p1 = p) as -> by congruence.
      apply (f_equal p_priority) in E. cbn in E. rewrite E. by apply (Hl b).
    + intros b p Hb. split; [by eapply Hfresh|]. split; [apply Hb|done].
  - exists s', Q'. split; [cbn; by rewrite (cmd_bind_eq _ _ _ _ _ Hrun)|].
    apply (stepped_other _ s Q s' Q' a); try done.
    + intros b pb (Hnz & Hpb & Ht').
      destruct Hs' as [[Hok' Hcur'] Htab']. destruct (Htab' _ _ Ht' Hnz) as (pb' & Hpb' & _ & Hloc).
      assert (pb' = pb) as -> by congruence.
      destruct Hloc as [->|(q & Hv & Hq)].
      { destruct Hcur' as [?|(pc & (_ & Hpc & _) & _ & Hpr)]; [done|]. by assert (pc = pb) as -> by congruence. }
      destruct (decide (b = a)) as [->|Hne].
      { assert (Hv' : valid_queue (Ready (Z.min priority 15))) by (cbn; lia).
        destruct (member s' Q' _ a Hok' Hv' Hin) as (p' & (_ & Hpa & _) & [_ E]). assert (p' = pb) as -> by congruence. lia. }
      apply Hmem in Hq; [|done..]. destruct (member s Q q b (proj1 (proj1 Hs)) Hv Hq) as (p0 & Ho0 & _).
      destruct Ho0 as (Hnz0 & Hp0 & Ht0). destruct (same_off_pid _ _ _ _ _ Hoff Hne Hp0) as (p1 & Hp1 & _ & E).
      assert (p1 = pb) as -> by congruence. apply (f_equal p_priority) in E. cbn in E. rewrite E. by apply (Hl b).
    + intros b pb Hb. assert (b <> a) as Hne by (by eapply Hfresh). split; [done|]. split; [|done]. apply Hmem; [done|done|apply Hb].
Qed.

(** ** Traces *)

Lemma event_run e s Q : tick_inv s Q -> allowed e s -> exists s' Q', do_event e s = Ret (s', tt) /\ stepped e s Q s' Q'.
Proof. destruct e; intros; eauto using step_tick, step_switch, step_sleep, step_wake, step_exit, step_spawn. Qed.

#[local] Instance event_eq_dec : EqDecision event.
Proof. solve_decision. Defined.

(** Any number of events, in any order. *)
Inductive trace : list event -> pstate -> pstate -> Prop :=
| trace_nil s : trace [] s s
| trace_cons e es s s1 s2 : allowed e s -> do_event e s = Ret (s1, tt) -> trace es s1 s2 -> trace (e :: es) s s2.

Fixpoint ticks_in (es : list event) : Z :=
  match es with [] => 0 | Tick :: es => 1 + ticks_in es | _ :: es => ticks_in es end.

Lemma tick_small t : 0 <= t -> t + 1 < 2 ^ 32 -> u32 (t + 1) = t + 1.
Proof. intros. apply u32_small. unfold is_u32. lia. Qed.

Lemma ticks_in_cons e es t : 0 <= t -> t + 1 < 2 ^ 32 -> ticks_in (e :: es) = clock e t - t + ticks_in es.
Proof. intros. destruct e; cbn [clock ticks_in]; [|lia..]. rewrite tick_small by lia. lia. Qed.

Lemma ticks_in_nonneg es : 0 <= ticks_in es.
Proof. induction es as [|[] es IH]; cbn; lia. Qed.

Lemma trace_step e es s s2 Q : tick_inv s Q -> trace (e :: es) s s2 ->
  exists s1 Q1, do_event e s = Ret (s1, tt) /\ allowed e s /\ stepped e s Q s1 Q1 /\ trace es s1 s2.
Proof.
  intros Hinv Ht. inversion Ht as [|? ? ? s1 ? Ha Hrun Hrest]; subst. destruct (event_run e s Q Hinv Ha) as (s1' & Q1 & Hrun' & Hst).
  exists s1, Q1. rewrite Hrun in Hrun'. injection Hrun' as <-. done.
Qed.

Lemma trace_inv es : forall s s2 Q, tick_inv s Q -> trace es s s2 -> exists Q2, tick_inv s2 Q2.
Proof.
  induction es as [|e es IH]; intros s s2 Q Hinv Ht; [inversion Ht; subst; by exists Q|].
  destruct (trace_step _ _ _ _ _ Hinv Ht) as (s1 & Q1 & _ & _ & (Hinv1 & _) & Ht1). by eapply IH.
Qed.

(** When the clock moves, and when it lets the sleeper be. *)
Lemma wakes_cases e t p : 0 <= t -> t < p_wakeup_time p -> p_wakeup_time p < 2 ^ 32 ->
  wakes e (clock e t) p = true -> ticks_in [e] = p_wakeup_time p - t \/ (e = Wake (p_pid p) /\ ticks_in [e] < p_wakeup_time p - t).
Proof.
  intros H1' H2' H3' Hw. destruct e; cbn in *; try done.
  - left. apply bool_decide_eq_true in Hw. rewrite tick_small in Hw by lia. lia.
  - right. apply bool_decide_eq_true in Hw as ->. split; [done|lia].
Qed.

Lemma sleeps_on e t p : 0 <= t -> t < p_wakeup_time p -> p_wakeup_time p < 2 ^ 32 ->
  wakes e (clock e t) p = false -> 0 <= clock e t < p_wakeup_time p.
Proof.
  intros H1' H2' H3' Hw. destruct e; cbn in *; try lia. apply bool_decide_eq_false in Hw. rewrite tick_small in * by lia. lia.
Qed.

(** The sleeper is woken when the ticks it waits for have come, or before by [Wake]. *)
Lemma woken_in_time es : forall s s2 Q a p, tick_inv s Q -> asleep s Q a p -> 0 <= system_ticks (mgr s) ->
  system_ticks (mgr s) < p_wakeup_time p -> p_wakeup_time p < 2 ^ 32 -> trace es s s2 ->
  p_wakeup_time p - system_ticks (mgr s) <= ticks_in es ->
  exists es1 es2 sm Qm, es = es1 ++ es2 /\ trace es1 s sm /\ trace es2 sm s2 /\ tick_inv sm Qm /\ awake sm Qm a p /\
    (ticks_in es1 = p_wakeup_time p - system_ticks (mgr s) \/ last es1 = Some (Wake (p_pid p))).
Proof.
  induction es as [|e es IH]; intros s s2 Q a p Hinv Hs H1' H2' H3' Ht Hn; [cbn in Hn; lia|].
  destruct (trace_step _ _ _ _ _ Hinv Ht) as (s1 & Q1 & Hrun & Hal & (Hinv1 & Ec & Hst) & Ht1). specialize (Hst a p Hs).
  rewrite (ticks_in_cons e es (system_ticks (mgr s))) in Hn by lia. rewrite Ec in Hst.
  destruct (wakes e (clock e (system_ticks (mgr s))) p) eqn:Ew.
  - exists [e], es, s1, Q1. split; [done|]. split; [by eapply trace_cons; [..|constructor]|]. split; [done|]. split; [done|].
    split; [done|]. destruct (wakes_cases _ _ _ H1' H2' H3' Ew) as [?|[-> _]]; [by left|by right].
  - destruct (sleeps_on _ _ _ H1' H2' H3' Ew) as [G1 G2]. rewrite <- Ec in G1, G2.
    destruct (IH s1 s2 Q1 a p Hinv1 Hst G1 G2 H3' Ht1) as (es1 & es2 & sm & Qm & -> & Hm1 & Hm2 & Hinvm & Haw & Hend); [lia|].
    exists (e :: es1), es2, sm, Qm. split; [done|]. split; [by eapply trace_cons|]. split; [done|]. split; [done|]. split; [done|].
    destruct Hend as [E|E]; [left|right].
    + rewrite (ticks_in_cons e es1 (system_ticks (mgr s))), E by lia. lia.
    + destruct es1; [done|]. exact E.
Qed.

(** It is not woken before, unless by [Wake]. *)
Lemma not_woken_early es : forall s s2 Q a p, tick_inv s Q -> asleep s Q a p -> 0 <= system_ticks (mgr s) ->
  system_ticks (mgr s) < p_wakeup_time p -> p_wakeup_time p < 2 ^ 32 -> trace es s s2 ->
  ticks_in es < p_wakeup_time p - system_ticks (mgr s) -> Wake (p_pid p) ∉ es ->
  exists Q2, tick_inv s2 Q2 /\ asleep s2 Q2 a p.
Proof.
  induction es as [|e es IH]; intros s s2 Q a p Hinv Hs H1' H2' H3' Ht Hn Hni; [inversion Ht; subst; by exists Q|].
  destruct (trace_step _ _ _ _ _ Hinv Ht) as (s1 & Q1 & Hrun & Hal & (Hinv1 & Ec & Hst) & Ht1). specialize (Hst a p Hs).
  pose proof (ticks_in_nonneg es). rewrite (ticks_in_cons e es (system_ticks (mgr s))) in Hn by lia. rewrite Ec in Hst.
  apply not_elem_of_cons in Hni as [Hne Hni].
  destruct (wakes e (clock e (system_ticks (mgr s))) p) eqn:Ew.
  - exfalso. destruct (wakes_cases _ _ _ H1' H2' H3' Ew) as [E|[-> _]]; [|done].
    rewrite (ticks_in_cons e [] (system_ticks (mgr s))) in E by lia. cbn in E. lia.
  - destruct (sleeps_on _ _ _ H1' H2' H3' Ew) as [G1 G2]. rewrite <- Ec in G1, G2. eapply IH; try done. lia.
Qed.

(** C9. One tick of the timer, when it does not use up the slice of the running
    process: the clock advances (modulo 2^32); the running process keeps running
    and is charged one tick; every sleeping process whose wake-up time is not 0 and
    has come is READY in the ready queue of its priority, every other one sleeps on;
    the ready processes stay where they are; and when the clock is a multiple of 100
    the terminated processes are gone from the queue and from the table. The
    invariants of the table, the PID bitmap and the queues are preserved. *)
Theorem process_manager_tick_effect s Q : tick_inv s Q -> calm s ->
  exists s' Q', process_manager_tick s = Ret (s', tt) /\ tick_inv s' Q' /\
    let t := u32 (system_ticks (mgr s) + 1) in
    let cur := current_process (mgr s) in
    system_ticks (mgr s') = t /\ current_process (mgr s') = cur /\
    (cur <> 0 -> exists c v, procs s !! cur = Some c /\ procs s' !! cur = Some (set_next v (charged c))) /\
    (forall a p, asleep s Q a p -> if due t p then awake s' Q' a p else asleep s' Q' a p) /\
    (forall a k, 0 <= k < 16 -> a ∈ Q (Ready k) ->
       a ∈ Q' (Ready k) /\ set_next 0 <$> procs s' !! a = set_next 0 <$> procs s !! a) /\
    Q' Terminated = (if decide (t mod 100 = 0) then [] else Q Terminated) /\
    (t mod 100 = 0 -> forall a p, a ∈ Q Terminated -> procs s !! a = Some p -> zget (processes (mgr s')) (p_pid p) = Some 0).
Proof.
  intros Hinv Hc. destruct (tick_run s Q Hinv Hc) as (s' & Q' & Hrun & Hinv' & Et & Ec & (Hs & Hr & Hcur) & HT & HZ).
  exists s', Q'. split; [done|]. split; [done|]. split; [done|]. split; [done|]. split; [|done].
  intros Hnz. destruct (Hcur Hnz) as (c & Hp & E). assert (E' : set_next 0 <$> procs s' !! current_process (mgr s) =
    set_next 0 <$> Some (set_next (p_next c) (charged c))) by (by rewrite E).
  destruct (next_only {[ current_process (mgr s) := set_next (p_next c) (charged c) ]} (procs s') (current_process (mgr s)) (charged c) (p_next c))
    as (v & Hv); [by rewrite lookup_singleton_eq|apply lookup_singleton_eq|]. by exists c, v.
Qed.

(** C8. Sleeping ends. A READY or running process that is put to sleep for [n] ticks
    is blocked. From then on consider any sequence of allowed events: ticks that do
    not use up the slice of the running process, reschedules, sleeps and wake-ups of
    unsigned pids, creations with unsigned priorities, and exits of the running
    process (nobody terminates another process, so not the sleeper either: a READY
    process that is killed stays queued, [terminate_ready_stays_queued]). Every
    further allowed event returns; the process sleeps as long as fewer than [n] ticks
    have come and nobody unblocks it; and no such sequence with [n] ticks passes
    without it becoming READY, in the ready queue of its priority, at the [n]th tick
    or when it is unblocked. The tick counter must not wrap before the wake-up. *)
Theorem sleeper_wakes s Q pid n a p : tick_inv s Q -> owned s a p -> p_pid p = pid ->
  p_state p = PROCESS_READY \/ a = current_process (mgr s) ->
  0 <= system_ticks (mgr s) -> 0 < n -> system_ticks (mgr s) + n < 2 ^ 32 ->
  exists s0 Q0, block_process pid n s = Ret (s0, tt) /\ tick_inv s0 Q0 /\ a ∈ Q0 Blocked /\
    forall es s2, trace es s0 s2 ->
      (exists Q2, tick_inv s2 Q2 /\ (ticks_in es < n -> Wake pid ∉ es -> a ∈ Q2 Blocked)) /\
      (forall e, allowed e s2 -> exists s3, do_event e s2 = Ret (s3, tt)) /\
      (n <= ticks_in es -> exists es1 es2 sm Qm pm,
         es = es1 ++ es2 /\ trace es1 s0 sm /\ trace es2 sm s2 /\ tick_inv sm Qm /\
         owned sm a pm /\ p_pid pm = pid /\ p_state pm = PROCESS_READY /\ p_priority pm = p_priority p /\
         a ∈ Qm (Ready (p_priority p)) /\
         (ticks_in es1 = n \/ last es1 = Some (Wake pid))).
Proof.
  intros Hinv Ho <- Hm Ht0 Hn Hlt. pose proof Ho as (Hnz & Hp & Htb). pose proof Hinv as [Hs Hpids Hl].
  pose proof (zget_Some_range _ _ _ Htb) as Hr. rewrite (qk_len _ _ (proj1 (proj1 Hs))) in Hr.
  destruct (block_process_moves s Q (p_pid p) n a p Hs ltac:(lia) Htb Hnz Hp) as (s0 & Q0 & Hrun & Hs0 & Hst & Hoff & Hmove & _).
  destruct (Hmove Hm) as (Hin & _ & (v & Hv) & _ & _).
  set (p0 := set_wakeup_time (u32 (system_ticks (mgr s) + n)) (set_state PROCESS_BLOCKED p)).
  assert (Hv0 : procs s0 !! a = Some (set_next v p0)) by (destruct Hv; done).
  assert (Hinv0 : tick_inv s0 Q0).
  { constructor; [done|by eapply pids_still|]. apply (levels_moved s Q s0 a); [apply Hs|done|done|done|].
    intros p' (_ & Hp' & _). rewrite Hv0 in Hp'. injection Hp' as <-. exact (Hl _ _ Ho). }
  assert (Has : asleep s0 Q0 a p0) by (split; [done|]; split; [done|by exists v]).
  assert (Ew : p_wakeup_time p0 = system_ticks (mgr s) + n) by (apply u32_small; unfold is_u32; lia).
  assert (Ht : system_ticks (mgr s0) = system_ticks (mgr s)) by apply Hst.
  exists s0, Q0. split; [done|]. split; [done|]. split; [done|]. intros es s2 Htr.
  destruct (trace_inv es s0 s2 Q0 Hinv0 Htr) as (Q2 & Hinv2). split; [|split].
  - destruct (decide (ticks_in es < n)) as [Hlt'|]; [|exists Q2; split; [done|]; intros; lia].
    destruct (list_elem_of_dec (Wake (p_pid p)) es) as [?|Hni].
    + by exists Q2.
    + destruct (not_woken_early es s0 s2 Q0 a p0) as (Q3 & ? & Has3); try done; rewrite ?Ht, ?Ew; try lia.
      exists Q3. split; [done|]. intros _ _. apply Has3.
  - intros e Ha. destruct (event_run e s2 Q2 Hinv2 Ha) as (s3 & _ & ? & _). by exists s3.
  - intros Hge. destruct (woken_in_time es s0 s2 Q0 a p0) as (es1 & es2 & sm & Qm & E & Hm1 & Hm2 & Hinvm & (Hin' & w & Hw) & Hend);
      try done; rewrite ?Ht, ?Ew; try lia.
    exists es1, es2, sm, Qm, (set_next w (set_state PROCESS_READY p0)). do 4 (split; [done|]).
    split; [|do 4 (split; [done|]); rewrite Ht, Ew in Hend; destruct Hend as [?|?]; [left; lia|by right]].
    destruct (member sm Qm (Ready (p_priority p0)) a (proj1 (proj1 (ti_sched _ _ Hinvm))) (Hl _ _ Ho) Hin') as (pm & Hom & _).
    pose proof Hom as (_ & Hpm & _). assert (pm = set_next w (set_state PROCESS_READY p0)) as -> by congruence. done.
Qed.
End waking.

(** ** Witnesses *)

Lemma one_tick_inv st : st = PROCESS_READY \/ st = PROCESS_BLOCKED \/ st = PROCESS_RUNNING ->
  tick_inv (one_state st) (one_queues st).
Proof.
  intros Hst. constructor; [by apply one_inv|apply one_pids|]. intros a p (_ & Hp & _).
  cbn [procs one_state] in Hp. apply lookup_singleton_Some in Hp as [_ <-]. cbn. lia.
Qed.

Lemma process_manager_tick_effect_witness :
  exists s', @process_manager_tick demo_kernel (one_state PROCESS_RUNNING) = Ret (s', tt) /\ system_ticks (mgr s') = 8.
Proof.
  destruct (@process_manager_tick_effect demo_kernel demo_kernel_laws _ _ (one_tick_inv PROCESS_RUNNING ltac:(auto)))
    as (s' & Q' & Hrun & _ & Ht & _).
  - intros c _ Hc. vm_compute in Hc. injection Hc as <-. reflexivity.
  - exists s'. split; [exact Hrun|exact Ht].
Defined.

Lemma sleeper_wakes_witness :
  exists s0 s2, @block_process demo_kernel 0 2 (one_state PROCESS_RUNNING) = Ret (s0, tt) /\
    @trace demo_kernel [Tick; Switch 9; Tick] s0 s2 /\
    exists sm pm, procs sm !! 1000 = Some pm /\ p_state pm = PROCESS_READY.
Proof.
  destruct (@sleeper_wakes demo_kernel demo_kernel_laws _ _ 0 2 1000 (one_process PROCESS_RUNNING)
    (one_tick_inv PROCESS_RUNNING ltac:(auto)) (one_owned _)) as (s0 & Q0 & Hrun & _ & _ & Hall);
    [reflexivity|right; reflexivity|cbn; lia|lia|cbn; lia|].
  assert (Htr : exists s2, @trace demo_kernel [Tick; Switch 9; Tick] s0 s2).
  { vm_compute in Hrun. injection Hrun as <-. eexists.
    econstructor; [intros c Hc; by cbn in Hc|vm_compute; reflexivity|].
    econstructor; [exact I|vm_compute; reflexivity|].
    econstructor; [intros c Hc; by cbn in Hc|vm_compute; reflexivity|]. apply trace_nil. }
  destruct Htr as (s2 & Htr). destruct (Hall _ _ Htr) as (_ & _ & Hw).
  destruct Hw as (es1 & es2 & sm & Qm & pm & _ & _ & _ & _ & Ho & _ & Hst & _); [cbn; lia|].
  exists s0, s2. split; [exact Hrun|]. split; [exact Htr|]. exists sm, pm. split; [apply Ho|exact Hst].
Defined.
