(* ===== verification/ProcessTypes.v ===== *)
(** * The types of the process data

    Every field of a control block, of the manager and of a register frame stays
    in the range of its C type, and the arrays keep their sizes, whatever calls
    of process.c are made. *)
From S2P Require Import Prelude Bitmap Chain CString Gdt Process Ticks.

Definition is_i32 (z : Z) : Prop := -2147483648 <= z < 2147483648.

(** struct Process *)
Record typed_process (p : Process) : Prop := {
  ty_pid : is_u32 (p_pid p);
  ty_name : length (p_name p) = 32%nat /\ Forall is_u8 (p_name p);
  ty_privilege : is_u32 (p_privilege p);
  ty_priority : is_u32 (p_priority p);
  ty_base_priority : is_u32 (p_base_priority p);
  ty_time_slice : is_u32 (p_time_slice p);
  ty_total_runtime : is_u32 (p_total_runtime p);
  ty_wakeup_time : is_u32 (p_wakeup_time p);
  ty_regs : is_u32 (p_regs p);
  ty_kernel_stack : is_u32 (p_kernel_stack p);
  ty_kernel_stack_size : is_u32 (p_kernel_stack_size p);
  ty_user_stack : is_u32 (p_user_stack p);
  ty_user_stack_size : is_u32 (p_user_stack_size p);
  ty_parent_pid : is_u32 (p_parent_pid p);
  ty_page_directory : is_u32 (p_page_directory p);
  ty_memory_regions : is_u32 (p_memory_regions p);
  ty_argc : is_i32 (p_argc p);
  ty_argv : is_u32 (p_argv p);
  ty_exit_code : is_i32 (p_exit_code p);
  ty_syscall_result : is_u32 (p_syscall_result p);
  ty_last_tick : is_u32 (p_last_tick p);
  ty_entry_point : is_u32 (p_entry_point p);
  ty_next : is_u32 (p_next p)
}.

(** A table of [n] pointers, and the PID bitmap. *)
Definition typed_table (n : nat) (l : list Z) : Prop := length l = n /\ Forall is_u32 l.
Definition typed_bitmap (l : list Z) : Prop := length l = 8%nat /\ Forall is_u8 l.

(** struct ProcessManager *)
Record typed_mgr (m : ProcessManager) : Prop := {
  ty_processes : typed_table 64 (processes m);
  ty_bitmap : typed_bitmap (process_bitmap m);
  ty_next_pid : is_u32 (next_pid m);
  ty_ready : typed_table 16 (ready_queues m);
  ty_blocked : is_u32 (blocked_queue m);
  ty_terminated : is_u32 (terminated_queue m);
  ty_current : is_u32 (current_process m);
  ty_active : is_u32 (active_processes m);
  ty_ticks : is_u32 (system_ticks m);
  ty_gdt : is_u32 (mgr_gdt m)
}.

(** struct RegisterState *)
Record typed_regs (r : RegisterState) : Prop := {
  ty_words : Forall is_u32 [r_eax r; r_ebx r; r_ecx r; r_edx r; r_esi r; r_edi r; r_ebp r;
                            r_error r; r_eip r; r_cs r; r_eflags r; r_esp r; r_ss r]
}.

Record typed (s : pstate) : Prop := {
  ty_mgr : typed_mgr (mgr s);
  ty_procs : forall a p, procs s !! a = Some p -> typed_process p;
  ty_frames : forall a r, regs_mem s !! a = Some r -> typed_regs r;
  ty_regions : forall a v, region_next s !! a = Some v -> is_u32 v
}.

(** ** Commands that preserve the types *)

(** From a typed state [c] goes to a typed state, with a result in [R]. *)
Definition preserves {A} (c : P A) (R : A -> Prop) : Prop :=
  forall s s' a, typed s -> c s = Ret (s', a) -> typed s' /\ R a.
Abbreviation any := (fun _ => True).

Create HintDb typed.

Section rules.
Lemma preserves_ret {A} (a : A) (R : A -> Prop) : R a -> preserves (mret a) R.
Proof. by intros Ha s s' b Hs [= <- <-]. Qed.

Lemma preserves_bind {A B} (c : P A) (k : A -> P B) R R' : preserves c R -> (forall a, R a -> preserves (k a) R') -> preserves (c ≫= k) R'.
Proof.
  intros Hc Hk s s' b Hs (s1 & a & Hrun & Hrest)%cmd_bind_inv. destruct (Hc _ _ _ Hs Hrun) as [Hs1 Ha]. exact (Hk a Ha _ _ _ Hs1 Hrest).
Qed.

Lemma preserves_seq {B} (c : P unit) (k : unit -> P B) R' : preserves c any -> preserves (k tt) R' -> preserves (c ≫= k) R'.
Proof. intros Hc Hk. by apply (preserves_bind _ _ any); [|intros []]. Qed.

Lemma preserves_if {A} (Q : Prop) `{Decision Q} (c d : P A) R : (Q -> preserves c R) -> (~ Q -> preserves d R) -> preserves (if decide Q then c else d) R.
Proof. intros. case_decide; auto. Qed.

Lemma preserves_weaken {A} (c : P A) (R R' : A -> Prop) : preserves c R -> (forall a, R a -> R' a) -> preserves c R'.
Proof. intros Hc HR s s' a Hs Hrun. destruct (Hc _ _ _ Hs Hrun). auto. Qed.

Lemma preserves_spin {A} (R : A -> Prop) : preserves spin R.
Proof. done. Qed.

Lemma preserves_lift {A} (o : outcome A) (R : A -> Prop) : (forall a, o = Ret a -> R a) -> preserves (lift o) R.
Proof. intros HR s s' a Hs Hrun. unfold lift in Hrun. destruct o; [|done..]. injection Hrun as <- <-. auto. Qed.

Lemma preserves_rdp a : preserves (rdp a) typed_process.
Proof.
  intros s s' p Hs (s1 & h & [= <- <-] & Hrun)%cmd_bind_inv. unfold lift in Hrun.
  destruct (procs s !! a) as [q|] eqn:E; [|done]. injection Hrun as <- <-. split; [done|]. by apply (ty_procs s Hs a).
Qed.

Lemma preserves_wrp a f : (forall p, typed_process p -> typed_process (f p)) -> preserves (wrp a f) any.
Proof.
  intros Hf. apply (preserves_bind _ _ typed_process); [apply preserves_rdp|]. intros p Hp s s' u Hs [= <- _]. split; [|done].
  destruct Hs as [Hm Hprocs Hr Hn]. constructor; [done| |done|done]. cbn. intros b q Hb. apply lookup_insert_Some in Hb as [[_ <-]|[_ ?]]; eauto.
Qed.

Lemma preserves_getm {A} (f : ProcessManager -> A) (R : A -> Prop) : (forall m, typed_mgr m -> R (f m)) -> preserves (getm f) R.
Proof. intros Hf s s' a Hs [= <- <-]. split; [done|]. apply Hf, Hs. Qed.

Lemma preserves_putm f : (forall m, typed_mgr m -> typed_mgr (f m)) -> preserves (putm f) any.
Proof. intros Hf s s' a [Hm Hp Hr Hn] [= <- <-]. split; [|done]. constructor; [by apply Hf|done..]. Qed.

Lemma preserves_pm_set : preserves (gets pm_set) any.
Proof. by intros s s' a Hs [= <- <-]. Qed.
Lemma preserves_walk_fuel : preserves walk_fuel any.
Proof. by intros s s' a Hs [= <- <-]. Qed.

Lemma typed_get n l i v : typed_table n l -> zget l i = Some v -> is_u32 v.
Proof.
  intros [_ Hf] Hv. pose proof (zget_Some_range _ _ _ Hv). rewrite zget_lookup in Hv by lia. rewrite Forall_lookup in Hf. eauto.
Qed.

Lemma typed_set n l i v l' : typed_table n l -> is_u32 v -> zset l i v = Some l' -> typed_table n l'.
Proof. intros [Hl Hf] Hv [_ ->]%zset_inv. split; [by rewrite length_insert|]. by apply Forall_insert. Qed.

Lemma preserves_entry n l i : typed_table n l -> preserves (lift (deref (zget l i))) is_u32.
Proof. intros Hl. apply preserves_lift. intros a. destruct (zget l i) eqn:E; [|done]. intros [= <-]. by eapply typed_get. Qed.

Lemma preserves_update n l i v : typed_table n l -> is_u32 v -> preserves (lift (deref (zset l i v))) (typed_table n).
Proof. intros Hl Hv. apply preserves_lift. intros a. destruct (zset l i v) eqn:E; [|done]. intros [= <-]. by eapply typed_set. Qed.

Lemma preserves_bit (set : bool) bm i : typed_bitmap bm -> preserves (lift (if set then bm_set 8 bm i else bm_clear 8 bm i)) typed_bitmap.
Proof.
  intros [Hl Hf]. apply preserves_lift. intros a Ha.
  assert (exists x, zset bm (i / 8) (wrap 8 x) = Some a) as (x & Hx).
  { destruct set; unfold bm_set, bm_clear in Ha; destruct (zget bm (i / 8)); [|done| |done];
      cbn in Ha; (destruct (zset _ _ _) eqn:E in Ha; [|done]); injection Ha as <-; by eexists. }
  apply zset_inv in Hx as [_ ->]. split; [by rewrite length_insert|]. apply Forall_insert; [done|].
  exact (wrap_range 8 x ltac:(lia)).
Qed.
End rules.

#[export] Hint Resolve preserves_spin preserves_rdp preserves_pm_set preserves_walk_fuel preserves_entry preserves_update preserves_bit u32_range : typed.
#[export] Hint Resolve ty_next ty_pid ty_regs ty_user_stack ty_kernel_stack ty_page_directory ty_memory_regions ty_entry_point ty_argc ty_argv : typed.

(** The fields of the manager. *)
Section fields.
Lemma preserves_processes : preserves (getm processes) (typed_table 64).
Proof. apply preserves_getm. by intros m []. Qed.
Lemma preserves_bitmap : preserves (getm process_bitmap) typed_bitmap.
Proof. apply preserves_getm. by intros m []. Qed.
Lemma preserves_ready : preserves (getm ready_queues) (typed_table 16).
Proof. apply preserves_getm. by intros m []. Qed.
Lemma preserves_blocked : preserves (getm blocked_queue) is_u32.
Proof. apply preserves_getm. by intros m []. Qed.
Lemma preserves_terminated : preserves (getm terminated_queue) is_u32.
Proof. apply preserves_getm. by intros m []. Qed.
Lemma preserves_current : preserves (getm current_process) is_u32.
Proof. apply preserves_getm. by intros m []. Qed.
Lemma preserves_active : preserves (getm active_processes) is_u32.
Proof. apply preserves_getm. by intros m []. Qed.
Lemma preserves_ticks : preserves (getm system_ticks) is_u32.
Proof. apply preserves_getm. by intros m []. Qed.
Lemma typed_null : is_u32 0.
Proof. done. Qed.
End fields.
#[export] Hint Resolve preserves_processes preserves_bitmap preserves_ready preserves_blocked preserves_terminated preserves_current preserves_active preserves_ticks typed_null : typed.

(** A record whose changed fields have values of their types. *)
Ltac fields := intros ? []; constructor; cbn; eauto with typed.

(** Walks through a function; a call is looked up among the lemmas. *)
Ltac typecheck := repeat first
  [ match goal with
    | |- forall _, _ => intro
    | H : _ /\ _ |- _ => destruct H
    | |- preserves (mret _) _ => apply preserves_ret; solve [done | eauto with typed]
    | |- preserves (wrp _ _) _ => apply preserves_wrp; solve [fields]
    | |- preserves (putm _) _ => apply preserves_putm; solve [fields]
    | |- preserves (let _ := _ in _) _ => cbv zeta
    | |- preserves (if decide _ then _ else _) _ => apply preserves_if
    | |- preserves (match ?x with (_, _) => _ end) _ => destruct x
    | |- preserves (@mbind _ _ unit _ _ _) _ => apply preserves_seq
    | |- preserves (@mbind _ _ _ _ _ _) _ => eapply preserves_bind; [solve [eauto with typed]|]
    end
  | solve [eauto with typed] ].

Section operations.
Context `{Kernel}.

Lemma preserves_get_queue q : preserves (get_queue q) is_u32.
Proof. destruct q; unfold get_queue; typecheck. Qed.
Lemma preserves_put_queue q v : is_u32 v -> preserves (put_queue q v) any.
Proof. destruct q; unfold put_queue; typecheck. Qed.
Hint Resolve preserves_get_queue preserves_put_queue : typed.

Lemma preserves_queue_walk test fuel : forall prev cur, is_u32 prev -> is_u32 cur ->
  preserves (queue_walk fuel test prev cur) (fun '(a, b) => is_u32 a /\ is_u32 b).
Proof. induction fuel as [|fuel IH]; intros; cbn [queue_walk]; typecheck. destruct (test a); typecheck. Qed.
Hint Resolve preserves_queue_walk : typed.

Lemma preserves_enqueue q process : is_u32 process -> preserves (enqueue_process q process) any.
Proof. intros. unfold enqueue_process. typecheck. Qed.
Lemma preserves_dequeue q : preserves (dequeue_process q) is_u32.
Proof. unfold dequeue_process. typecheck. Qed.
Lemma preserves_remove q pid : preserves (remove_process_from_queue q pid) is_u32.
Proof. unfold remove_process_from_queue. typecheck. Qed.
Hint Resolve preserves_enqueue preserves_dequeue preserves_remove : typed.
End operations.
#[export] Hint Resolve preserves_get_queue preserves_put_queue preserves_queue_walk preserves_enqueue preserves_dequeue preserves_remove : typed.

(** ** What process.c calls *)

(** The other components return values of their C types and leave the process
    data well typed. *)
Class KernelTypes `{Kernel} : Prop := {
  preserves_malloc : forall n, preserves (malloc n) is_u32;
  preserves_free : forall a, preserves (free a) any;
  preserves_pd_create : preserves pd_create is_u32;
  preserves_pd_destroy : forall a, preserves (pd_destroy a) any;
  preserves_pd_switch : forall a, preserves (pd_switch a) any;
  preserves_allocate_pages : forall a b c d, preserves (vmm_allocate_pages a b c d) any;
  preserves_memory_region : forall a b c d, preserves (vmm_create_memory_region a b c d) is_u32;
  keeps_int20 : preserves int20 any;
  typed_wrapper : is_u32 process_wrapper_addr
}.

Section calls.
Context `{KernelTypes}.
Hint Resolve preserves_malloc preserves_free preserves_pd_create preserves_pd_destroy preserves_pd_switch preserves_allocate_pages preserves_memory_region keeps_int20 typed_wrapper : typed.

(** ** The scheduler *)

Lemma preserves_lookup pid : preserves (lookup_process pid) is_u32.
Proof. unfold lookup_process. typecheck. Qed.
Hint Resolve preserves_lookup : typed.

Lemma preserves_block pid wait : preserves (block_process pid wait) any.
Proof. unfold block_process. typecheck. Qed.
Lemma preserves_unblock pid : preserves (unblock_process pid) any.
Proof. unfold unblock_process. typecheck. Qed.
Lemma preserves_terminate pid code : is_i32 code -> preserves (terminate_process pid code) any.
Proof. intros. unfold terminate_process. typecheck. Qed.
Lemma preserves_yield : preserves yield_cpu any.
Proof. unfold yield_cpu. typecheck. Qed.
Hint Resolve preserves_block preserves_unblock preserves_terminate preserves_yield : typed.

Lemma preserves_wake fuel : forall current, preserves (wake_loop fuel current) any.
Proof. induction fuel as [|fuel IH]; intros; cbn [wake_loop]; typecheck. Qed.

Lemma preserves_in_use pid b : preserves (set_pid_in_use pid b) any.
Proof. unfold set_pid_in_use. typecheck. Qed.
Hint Resolve preserves_wake preserves_in_use : typed.

Lemma preserves_reap fuel : forall current, preserves (reap_loop fuel current) any.
Proof. induction fuel as [|fuel IH]; intros; cbn [reap_loop]; typecheck. Qed.
Lemma preserves_charge : preserves charge_current any.
Proof. unfold charge_current. typecheck. Qed.
Hint Resolve preserves_reap preserves_charge : typed.
Lemma preserves_tick : preserves process_manager_tick any.
Proof. unfold process_manager_tick. typecheck. Qed.

Lemma preserves_pick n : forall i, preserves (pick_next n i) is_u32.
Proof. induction n as [|n IH]; intros i; cbn [pick_next]; typecheck. Qed.
Hint Resolve preserves_tick preserves_pick : typed.

(** A read whose continuation depends on what the block holds. *)
Lemma preserves_read {B} a (k : Process -> P B) R :
  (forall p s s' r, typed s -> procs s !! a = Some p -> k p s = Ret (s', r) -> typed s' /\ R r) -> preserves (rdp a ≫= k) R.
Proof.
  intros Hk s s' r Hs Hrun. destruct (procs s !! a) as [p|] eqn:E.
  - rewrite (rdp_bind _ _ _ _ E) in Hrun. eauto.
  - exfalso. unfold rdp, mbind, cmd_mbind, gets, lift in Hrun. by rewrite E in Hrun.
Qed.

Lemma typed_priority p : typed_process p -> p_priority p < 15 -> typed_process (set_priority (p_priority p + 1) p).
Proof.
  intros Hp Hlt. pose proof (ty_priority p Hp) as Hr. destruct Hp. constructor; cbn; eauto. unfold is_u32 in *. lia.
Qed.

(** The demotion: the priority is tested before it is raised. *)
Lemma preserves_demote {B} cur (k : unit -> P B) R c s s' r : preserves (k tt) R -> typed s -> procs s !! cur = Some c ->
  ((if decide (p_priority c < MAX_PRIORITY_LEVELS - 1)
    then wrp cur (fun c => set_priority (p_priority c + 1) c) else mret tt) ≫= k) s = Ret (s', r) -> typed s' /\ R r.
Proof.
  intros Hk Hs Hc. change (MAX_PRIORITY_LEVELS - 1) with 15. destruct (decide (p_priority c < 15)); [|by intros Hrun; apply (Hk s)].
  rewrite (wrp_bind _ _ _ _ _ Hc). apply Hk. pose proof (ty_procs s Hs _ _ Hc) as Hp. destruct Hs as [Hm Hps Hr Hn].
  constructor; [done| |done|done]. cbn. intros b q Hb. apply lookup_insert_Some in Hb as [[_ <-]|[_ ?]]; [by apply typed_priority|eauto].
Qed.

Lemma preserves_requeue esp : is_u32 esp -> preserves (requeue_current esp) any.
Proof.
  intros He. unfold requeue_current. apply (preserves_bind _ _ is_u32); [apply preserves_current|]. intros cur Hcur.
  apply preserves_if; [typecheck|]. intros _. apply (preserves_bind _ _ typed_process); [apply preserves_rdp|]. intros c0 Hc0.
  apply preserves_if; [typecheck|]. intros _. apply preserves_seq; [typecheck|]. apply preserves_read. intros c s s' r Hs Hc.
  destruct (decide (p_time_slice c > 0)).
  - match goal with |- ?m s = _ -> _ => assert (Hm : preserves m any) by typecheck end. by apply Hm.
  - intros Hrun. refine (preserves_demote cur _ any c s s' r _ Hs Hc Hrun). typecheck.
Qed.
Hint Resolve preserves_requeue : typed.

Lemma preserves_dispatch next : is_u32 next -> preserves (dispatch next) is_u32.
Proof. intros. unfold dispatch. typecheck. Qed.
Hint Resolve preserves_dispatch : typed.

Lemma preserves_schedule esp : is_u32 esp -> preserves (schedule esp) is_u32.
Proof. intros. unfold schedule. typecheck. Qed.

(** ** Creation *)

Lemma preserves_find_free_pid : preserves find_free_pid is_u32.
Proof.
  unfold find_free_pid. apply (preserves_bind _ _ typed_bitmap); [apply preserves_bitmap|]. intros bm Hbm.
  apply (preserves_bind _ _ (fun r => is_u32 (default 4294967295 r))); [|typecheck].
  apply preserves_lift. intros r Hr. destruct Hbm as [Hl _].
  destruct (bm_find_clear_spec 8 ltac:(lia) bm (Z.to_nat PROCESS_MAX_COUNT) 0) as (r' & Hrun & Hr');
    [lia|unfold bm_size, PROCESS_MAX_COUNT; rewrite Hl; lia|].
  rewrite Hrun in Hr. injection Hr as <-. destruct r' as [j|]; [|done]. change (Z.of_nat (Z.to_nat PROCESS_MAX_COUNT)) with 64 in Hr'.
  cbn. unfold is_u32. lia.
Qed.

Lemma preserves_regions a v : is_u32 v -> preserves (modify (with_regions (insert a v))) any.
Proof.
  intros Hv s s' u [Hm Hp Hr Hn] [= <- _]. split; [|done]. constructor; [done|done|done|]. cbn.
  intros b w Hb. apply lookup_insert_Some in Hb as [[_ <-]|[_ ?]]; eauto.
Qed.

Lemma preserves_frames a r : typed_regs r -> preserves (modify (with_regs (insert a r))) any.
Proof.
  intros Hv s s' u [Hm Hp Hr Hn] [= <- _]. split; [|done]. constructor; [done|done| |done]. cbn.
  intros b w Hb. apply lookup_insert_Some in Hb as [[_ <-]|[_ ?]]; eauto.
Qed.

Lemma preserves_block_of a p : typed_process p -> preserves (modify (with_procs (insert a p))) any.
Proof.
  intros Hv s s' u [Hm Hp Hr Hn] [= <- _]. split; [|done]. constructor; [done| |done|done]. cbn.
  intros b w Hb. apply lookup_insert_Some in Hb as [[_ <-]|[_ ?]]; eauto.
Qed.

(** A selector is the index of one of the descriptors, with the privilege. *)
Lemma typed_selector sel privilege : 0 <= sel < 2 ^ 16 -> is_u32 (Z.lor (Z.shiftl sel 3) (Z.land privilege 3)).
Proof.
  intros Hs. assert (Hl : 0 <= Z.land privilege 3 < 2 ^ 3).
  { rewrite (land_mask privilege 2 ltac:(lia) : Z.land privilege 3 = _). pose proof (Z.mod_pos_bound privilege (2 ^ 2) ltac:(lia)). lia. }
  rewrite Z.shiftl_mul_pow2 by lia. rewrite lor_high_low by lia. unfold is_u32. lia.
Qed.

Lemma typed_initial_regs entry argc argv privilege regs : is_u32 entry -> is_u32 argv -> is_u32 regs ->
  typed_regs (initial_regs entry argc argv privilege regs).
Proof.
  intros. unfold initial_regs. destruct (decide (privilege = USER_MODE)); constructor; cbn;
    repeat (apply Forall_cons; split); try apply Forall_nil; try done; eauto with typed;
    apply typed_selector; vm_compute; intuition congruence.
Qed.

Lemma typed_name l : Forall is_u8 l -> length (padded 31 l ++ [0]) = 32%nat /\ Forall is_u8 (padded 31 l ++ [0]).
Proof.
  intros Hl. unfold padded. split.
  - rewrite length_app, length_app, length_take, length_replicate. change (length [0]) with 1%nat. lia.
  - repeat apply Forall_app_2; [by apply Forall_take|by apply Forall_replicate|by repeat constructor].
Qed.

Lemma typed_user_stack_size : is_u32 USER_STACK_SIZE.
Proof. done. Qed.
Lemma typed_kernel_stack_size : is_u32 KERNEL_STACK_SIZE.
Proof. done. Qed.
Hint Resolve preserves_regions preserves_frames preserves_block_of typed_initial_regs typed_user_stack_size typed_kernel_stack_size : typed.

Lemma preserves_user_stack process : preserves (create_user_stack process) any.
Proof. unfold create_user_stack. typecheck.
Qed.

Lemma preserves_start process pid kstack entry argc argv privilege : is_u32 process -> is_u32 entry -> is_u32 argv ->
  preserves (start_process process pid kstack entry argc argv privilege) any.
Proof. intros. unfold start_process. typecheck. Qed.
Hint Resolve preserves_find_free_pid preserves_user_stack preserves_start : typed.

(** The block that is filled in first. *)
Lemma typed_first pid name privilege base parent argc argv : is_u32 pid -> Forall is_u8 name -> is_u32 privilege ->
  0 <= base <= 15 -> is_u32 parent -> is_i32 argc -> is_u32 argv ->
  typed_process (mkProcess pid (padded 31 name ++ [0]) PROCESS_CREATED privilege base base
    (TIME_SLICE_BASE * (MAX_PRIORITY_LEVELS - base)) 0 0 0 0 0 0 0 parent 0 0 argc argv 0 0 0 0 0).
Proof.
  intros. constructor; cbn [p_pid p_name p_privilege p_priority p_base_priority p_time_slice p_total_runtime p_wakeup_time p_regs
    p_kernel_stack p_kernel_stack_size p_user_stack p_user_stack_size p_parent_pid p_page_directory p_memory_regions p_argc p_argv
    p_exit_code p_syscall_result p_last_tick p_entry_point p_next]; try done; try by apply typed_name.
  all: unfold is_u32, TIME_SLICE_BASE, MAX_PRIORITY_LEVELS in *; lia.
Qed.

(** ** Every call *)

(** The arguments of a call have the types of its parameters. *)
Definition typed_args (e : event) : Prop :=
  match e with
  | Tick => True
  | Switch esp => is_u32 esp
  | Sleep pid wait => is_u32 pid /\ is_u32 wait
  | Wake pid => is_u32 pid
  | Exit pid code => is_u32 pid /\ is_i32 code
  | Spawn name entry argc argv privilege priority =>
      Forall is_u8 (default [] name) /\ is_u32 entry /\ is_i32 argc /\ is_u32 argv /\ is_u32 privilege /\ is_u32 priority
  end.

Lemma preserves_create name entry argc argv privilege priority : Forall is_u8 (default [] name) -> is_u32 entry -> is_i32 argc ->
  is_u32 argv -> is_u32 privilege -> is_u32 priority -> preserves (create_process name entry argc argv privilege priority) is_u32.
Proof.
  intros Hname He Hargc Hargv Hpriv Hprio. unfold create_process.
  apply (preserves_bind _ _ any); [apply preserves_pm_set|]. intros b _. apply preserves_if; [typecheck|]. intros _.
  apply (preserves_bind _ _ is_u32); [apply preserves_find_free_pid|]. intros pid Hpid. apply preserves_if; [typecheck|]. intros _.
  apply (preserves_bind _ _ is_u32); [apply preserves_malloc|]. intros process Hprocess. apply preserves_if; [typecheck|]. intros _.
  apply (preserves_bind _ _ is_u32); [apply preserves_current|]. intros cur Hcur.
  apply (preserves_bind _ _ is_u32); [typecheck|]. intros parent Hparent. cbv zeta.
  apply preserves_seq.
  { apply preserves_block_of, typed_first; try done.
    - destruct name; [done|]. by repeat constructor.
    - unfold is_u32, MAX_PRIORITY_LEVELS in *. case_decide; lia. }
  apply (preserves_bind _ _ is_u32); [apply preserves_pd_create|]. intros pd Hpd. apply preserves_seq; [typecheck|].
  apply preserves_if; [typecheck|]. intros _. apply preserves_seq; [typecheck|].
  apply (preserves_bind _ _ is_u32); [apply preserves_malloc|]. intros ks Hks. apply preserves_seq; [typecheck|].
  apply preserves_if; [typecheck|]. intros _. apply (preserves_bind _ _ any); [typecheck|]. intros ok _. typecheck.
Qed.
End calls.

Section runs.
Context `{Kernel} {laws : KernelLaws} {types : KernelTypes}.

Lemma preserves_event e : typed_args e -> preserves (do_event e) any.
Proof.
  destruct e; cbn [typed_args do_event]; intros Ha; repeat match goal with Ha : _ /\ _ |- _ => destruct Ha end.
  - apply preserves_tick.
  - eapply preserves_bind; [by apply preserves_schedule|]. intros. by apply preserves_ret.
  - apply preserves_block.
  - apply preserves_unblock.
  - by apply preserves_terminate.
  - eapply preserves_bind; [by apply preserves_create|]. intros. by apply preserves_ret.
Qed.

(** Calls that return, one after the other, whether or not they are allowed. *)
Inductive calls : list event -> pstate -> pstate -> Prop :=
| calls_nil s : calls [] s s
| calls_cons e es s s1 s2 : do_event e s = Ret (s1, tt) -> calls es s1 s2 -> calls (e :: es) s s2.

Lemma trace_calls es s s' : trace es s s' -> calls es s s'.
Proof. induction 1; [constructor|]. by econstructor. Qed.

Lemma calls_typed es : forall s s', typed s -> Forall typed_args es -> calls es s s' -> typed s'.
Proof.
  induction es as [|e es IH]; intros s s' Hs Ha Ht; inversion Ht as [|? ? ? s1 ? Hrun Hrest]; subst; [done|].
  apply Forall_cons in Ha as [He Ha]. eapply IH; [|done|exact Hrest]. by apply (preserves_event e He s s1 tt).
Qed.

Lemma zget_zeros n i : 0 <= i < Z.of_nat n -> zget (replicate n 0) i = Some 0.
Proof. intros. rewrite zget_lookup by lia. apply lookup_replicate_2. lia. Qed.

(** The state after [process_manager_init]: nothing is queued, running or in use. *)
Lemma init_state gdt s s0 : is_u32 gdt -> procs s = ∅ -> regs_mem s = ∅ -> region_next s = ∅ ->
  process_manager_init gdt s = Ret (s0, tt) -> typed s0 /\ tick_inv s0 (fun _ => []).
Proof.
  intros Hg E1 E2 E3 [= <-].
  assert (Hnone : forall i a, zget (replicate 64 0) i = Some a -> a = 0).
  { intros i a Hi. pose proof (zget_Some_range _ _ _ Hi). rewrite zget_lookup in Hi by lia. by apply lookup_replicate in Hi as [-> _]. }
  split; constructor; cbn [mgr procs regs_mem region_next]; rewrite ?E1, ?E2, ?E3; try (intros a x Hx; by rewrite lookup_empty in Hx).
  - constructor; try done; split; try done; by repeat (apply Forall_cons; split; [done|]).
  - split; [split; [constructor; [done|done|]|by left]|].
    + intros q Hv. exists 0. split; [|split; [done|split; [done|by intros a ?%elem_of_nil]]].
      destruct q as [i| |]; [|done..]. cbn in Hv. apply (zget_zeros 16). lia.
    + intros i a Ha Hnz. destruct Hnz. by eapply Hnone.
  - split; [done|]. split; [by repeat (apply Forall_cons; split; [done|])|]. intros i Hi. cbn [mgr processes process_bitmap].
    rewrite bool_decide_eq_true_2 by (apply (zget_zeros 64); lia).
    change (bm_bit 8 (replicate 8 0) i = negb true).
    unfold bm_bit. rewrite zget_zeros; [apply Z.testbit_0_l|].
    pose proof (Z.div_lt_upper_bound i 8 8). pose proof (Z.div_pos i 8). lia.
  - intros a p (_ & Hp & _). cbn in Hp. by rewrite lookup_empty in Hp.
Qed.

(** C10. Types. After [process_manager_init], in every state that any sequence of
    calls that return (ticks, reschedules, sleeps, wake-ups, exits and creations,
    with arguments of their types) leads to, every field of every control block, of
    the manager and of every register frame has a value of its C type and the arrays
    have their sizes. When moreover every call of the sequence is allowed (ticks do
    not use up the slice of the running process, only the running process exits),
    the invariant of the table, the PID bitmap and the queues holds, and every
    further call that is allowed returns, again in such a state. The invariant does
    not survive every call: see [terminate_ready_stays_queued]. *)
Theorem reachable_well_typed gdt s s0 : is_u32 gdt -> procs s = ∅ -> regs_mem s = ∅ -> region_next s = ∅ ->
  process_manager_init gdt s = Ret (s0, tt) ->
  (forall es s', Forall typed_args es -> calls es s0 s' -> typed s') /\
  (forall es s', Forall typed_args es -> trace es s0 s' -> exists Q, tick_inv s' Q /\
    forall e, allowed e s' -> typed_args e -> exists s'' Q', do_event e s' = Ret (s'', tt) /\ typed s'' /\ tick_inv s'' Q').
Proof.
  intros Hg E1 E2 E3 Hinit. destruct (init_state gdt s s0 Hg E1 E2 E3 Hinit) as [Hty Hinv].
  split; [intros es s' Ha Ht; by apply (calls_typed es s0)|]. intros es s' Ha Ht.
  pose proof (calls_typed es s0 s' Hty Ha (trace_calls _ _ _ Ht)) as Hty'.
  destruct (trace_inv es s0 s' _ Hinv Ht) as (Q & HQ). exists Q. split; [done|]. intros e Hal He.
  destruct (event_run e s' Q HQ Hal) as (s2 & Q2 & Hrun & Hinv2 & _). exists s2, Q2. split; [done|]. split; [|done].
  by apply (preserves_event e He s' s2 tt).
Qed.
End runs.

(** ** Witness *)

(** A kernel whose heap has room for one process. *)
Definition one_block (n : Z) (s : pstate) : Z :=
  if decide (n = sizeof_Process) then (if decide (dom (procs s) = ∅) then 4096 else 0)
  else if decide (procs s !! 16384 = None) then 16384 else 0.

Definition small_kernel : Kernel := {|
  malloc := fun n s => Ret (s, one_block n s);
  free := fun _ => mret tt;
  pd_create := mret 8192;
  pd_destroy := fun _ => mret tt;
  pd_switch := fun _ => mret tt;
  vmm_allocate_pages := fun _ _ _ _ => mret 0;
  vmm_create_memory_region := fun _ _ _ _ => mret 0;
  int20 := mret tt;
  call_entry := fun _ _ _ => mret 0;
  process_wrapper_addr := 0x101000
|}.

Lemma small_kernel_laws : @KernelLaws small_kernel.
Proof.
  constructor; try (intros; eexists; eexists; split; [reflexivity|apply same_sched_refl]);
    try (intros; eexists; split; [reflexivity|apply same_sched_refl]).
  intros n s. exists s, (one_block n s). split; [done|]. split; [done|]. unfold one_block.
  split; [by repeat case_decide|]. intros pr (Hnz & Hp & _). repeat case_decide; try done; [|congruence].
  apply elem_of_dom_2 in Hp. set_solver.
Qed.

Lemma small_kernel_types : @KernelTypes small_kernel.
Proof.
  constructor; try (intros; apply preserves_ret; done); [|done]. intros n s s' a Hs [= <- <-]. split; [done|].
  unfold one_block. by repeat case_decide.
Qed.

(** One process is created, is run, and the clock ticks. *)
Lemma reachable_well_typed_witness :
  exists s', @trace small_kernel [Spawn None 5000 0 0 KERNEL_MODE 9; Switch 77; Tick]
    (mkPstate true (mkPM (replicate 64 0) (replicate 8 0) 1 (replicate 16 0) 0 0 0 0 0 4096) ∅ ∅ ∅) s' /\
    typed s' /\ current_process (mgr s') = 4096.
Proof.
  assert (Htr : exists s', @trace small_kernel [Spawn None 5000 0 0 KERNEL_MODE 9; Switch 77; Tick]
    (mkPstate true (mkPM (replicate 64 0) (replicate 8 0) 1 (replicate 16 0) 0 0 0 0 0 4096) ∅ ∅ ∅) s' /\
    current_process (mgr s') = 4096).
  { eexists. split.
    - econstructor; [cbn; lia|vm_compute; reflexivity|].
      econstructor; [exact I|vm_compute; reflexivity|].
      econstructor; [intros c _ Hc; vm_compute in Hc; injection Hc as <-; reflexivity|vm_compute; reflexivity|]. apply trace_nil.
    - reflexivity. }
  destruct Htr as (s' & Htr & Hcur). exists s'. split; [exact Htr|]. split; [|exact Hcur].
  refine (proj1 (@reachable_well_typed small_kernel small_kernel_laws small_kernel_types 4096
    (mkPstate false (mkPM [] [] 0 [] 0 0 0 0 0 0) ∅ ∅ ∅) _ _ eq_refl eq_refl eq_refl eq_refl) _ s' _ (trace_calls _ _ _ Htr)).
  - done.
  - repeat constructor; cbn; unfold is_u32, is_i32, KERNEL_MODE; lia.
Defined.
