(* ===== verification/Ports.v ===== *)
(** * Port input and output (src/kernel/ioctl.c, include/kernel/ioctl.h)

    The hardware behind the ports is a parameter: a state [W] that reacts to a
    write of [w] bits and answers a read of [w] bits. The instance [trace]
    records the writes and answers every read with 0. *)
From S2P Require Import Prelude.

Class Hardware (W : Type) := {
  hw_out : Z -> Z -> Z -> W -> W;
  hw_in : Z -> Z -> W -> W * Z
}.

Section ports.
Context `{Hardware W}.

Definition write_8bit (port data : Z) : cmd W unit := modify (hw_out 8 (u16 port) (u8 data)).
(** The two jumps after the [outb] only let time pass. *)
Definition write_8bit_slow (port data : Z) : cmd W unit := modify (hw_out 8 (u16 port) (u8 data)).
Definition write_16bit (port data : Z) : cmd W unit := modify (hw_out 16 (u16 port) (u16 data)).
Definition write_32bit (port data : Z) : cmd W unit := modify (hw_out 32 (u16 port) (u32 data)).

Definition read_8bit (port : Z) : cmd W Z := fun h => let '(h', v) := hw_in 8 (u16 port) h in Ret (h', u8 v).
Definition read_16bit (port : Z) : cmd W Z := fun h => let '(h', v) := hw_in 16 (u16 port) h in Ret (h', u16 v).
Definition read_32bit (port : Z) : cmd W Z := fun h => let '(h', v) := hw_in 32 (u16 port) h in Ret (h', u32 v).

(** The header declares [read_32bit] with result [uint16_t]: what a caller that
    includes it gets are the low 16 bits of the register. *)
Definition read_32bit_as_declared (port : Z) : cmd W Z := v ← read_32bit port; mret (u16 v).
End ports.

(** Writes, oldest first: (width, port, data). *)
Definition trace : Type := list (Z * Z * Z).
#[export] Instance trace_hardware : Hardware trace := {|
  hw_out := fun w p d t => t ++ [(w, p, d)];
  hw_in := fun _ _ t => (t, 0)
|}.
