(* ===== verification/Interrupt.v ===== *)
(** * Interrupt descriptor table and dispatch (src/kernel/interrupt/interrupt.c)

    The manager is its handler table, the 256 gates and the four PIC ports.
    The addresses of the assembly stubs and the functions behind the handler
    pointers are parameters. The timer interrupt runs the tick and the
    scheduler of Process.v. *)
From S2P Require Import Prelude Bitmap Chain CString Gdt Process Ports.

Definition INTERRUPT_OFFSET : Z := 0x20.

Record GateDescriptor := mkGate {
  handler_address_low_bits : Z; gdt_get_code_selector : Z; reserved : Z;
  access : Z; handler_address_high_bits : Z
}.

Record InterruptManager := mkIM {
  handlers : list Z; descriptor_table : list GateDescriptor;
  pic_master_command : Z; pic_master_data : Z; pic_slaver_command : Z; pic_slaver_data : Z
}.

Definition set_handlers v m := mkIM v (descriptor_table m) (pic_master_command m) (pic_master_data m)
  (pic_slaver_command m) (pic_slaver_data m).
Definition set_table v m := mkIM (handlers m) v (pic_master_command m) (pic_master_data m)
  (pic_slaver_command m) (pic_slaver_data m).

(** The addresses of the assembly stubs. *)
Class Stubs := {
  stub_ignore : Z;
  stub_exception : Z -> Z;
  stub_irq : Z -> Z;
  stub_syscall : Z
}.

Section interrupts.
Context `{Hardware W} `{Stubs} `{Kernel}.

(** [handler_objects]: the InterruptHandler structures, by address, as their
    function pointers. [activated]: the manager is the activated one; [cpu_if]:
    the interrupt flag; [idtr]: the operand of [lidt]. *)
Record istate := mkIstate {
  im : InterruptManager; handler_objects : gmap Z Z; activated : bool; cpu_if : bool;
  idtr : Z * Z; hw : W; ps : pstate
}.
Abbreviation I := (cmd istate).

Definition with_im f s := mkIstate (f (im s)) (handler_objects s) (activated s) (cpu_if s) (idtr s) (hw s) (ps s).
Definition with_hw f s := mkIstate (im s) (handler_objects s) (activated s) (cpu_if s) (idtr s) (f (hw s)) (ps s).
Definition with_ps f s := mkIstate (im s) (handler_objects s) (activated s) (cpu_if s) (idtr s) (hw s) (f (ps s)).

(** Run a call of the port layer or of process.c on its part of the state. *)
Definition on_hw {A} (c : cmd W A) : I A := fun s =>
  match c (hw s) with Ret (h, a) => Ret (with_hw (fun _ => h) s, a) | Fault => Fault | Spin => Spin end.
Definition on_ps {A} (c : P A) : I A := fun s =>
  match c (ps s) with Ret (p, a) => Ret (with_ps (fun _ => p) s, a) | Fault => Fault | Spin => Spin end.

Definition init_pit : I unit :=
  let divisor := 1193 in
  on_hw (write_8bit_slow 0x43 0x36);;
  on_hw (write_8bit_slow 0x40 (Z.land divisor 0xFF));;
  on_hw (write_8bit_slow 0x40 (Z.shiftr divisor 8)).

(** The end-of-interrupt commands. *)
Definition acknowledge (interrupt_number : Z) : I unit :=
  if decide (INTERRUPT_OFFSET <= interrupt_number < INTERRUPT_OFFSET + 16) then
    m ← gets (fun s => pic_master_command (im s));
    on_hw (write_8bit_slow m 0x20);;
    if decide (INTERRUPT_OFFSET + 8 <= interrupt_number) then
      sl ← gets (fun s => pic_slaver_command (im s)); on_hw (write_8bit_slow sl 0x20)
    else mret tt
  else mret tt.

Definition do_handle_interrupt (call_function : Z -> Z -> I Z) (interrupt_number esp : Z) : I Z :=
  hs ← gets (fun s => handlers (im s));
  h ← lift (deref (zget hs interrupt_number));
  esp ← (if decide (h <> 0) then
           objs ← gets handler_objects;
           f ← lift (deref (objs !! h));
           if decide (f <> 0) then call_function f esp else mret esp
         else mret esp);
  esp ← (if decide (interrupt_number = INTERRUPT_OFFSET + 0x00) then
           on_ps process_manager_tick;; on_ps (schedule esp)
         else mret esp);
  acknowledge interrupt_number;;
  mret esp.

Definition handle_interrrupt (call_function : Z -> Z -> I Z) (interrupt_number esp : Z) : I Z :=
  a ← gets activated;
  if (a : bool) then do_handle_interrupt call_function interrupt_number esp else mret esp.

Definition gate (selector handler dpl type : Z) : GateDescriptor :=
  mkGate (u16 (Z.land handler 0xffff)) (u16 selector) 0
    (u8 (Z.lor (Z.lor 0x80 (Z.shiftl (Z.land dpl 3) 5)) type))
    (u16 (Z.land (Z.shiftr handler 16) 0xffff)).

Definition set_interrupt_descriptor_table_entry (n selector handler dpl type : Z) : I unit :=
  t ← gets (fun s => descriptor_table (im s));
  t' ← lift (deref (zset t n (gate selector handler dpl type)));
  modify (with_im (set_table t')).

Definition IDT_INTERRUPT_GATE : Z := 0xe.

(** for (i = 0; i < 256; i++) { handlers[i] = 0; entry i = ignore; } *)
Fixpoint init_entries (n : nat) (i code_segement : Z) : I unit :=
  match n with
  | O => mret tt
  | S n' =>
      hs ← gets (fun s => handlers (im s));
      hs' ← lift (deref (zset hs i 0));
      modify (with_im (set_handlers hs'));;
      set_interrupt_descriptor_table_entry i code_segement stub_ignore 0 IDT_INTERRUPT_GATE;;
      init_entries n' (i + 1) code_segement
  end.

(** The consecutive calls that install stubs [f i], [f (i + 1)], ... at
    vectors [base + i], ... *)
Fixpoint install (n : nat) (base i code_segement : Z) (f : Z -> Z) : I unit :=
  match n with
  | O => mret tt
  | S n' =>
      set_interrupt_descriptor_table_entry (base + i) code_segement (f i) 0 IDT_INTERRUPT_GATE;;
      install n' base (i + 1) code_segement f
  end.

Definition on_init_interrupt_manager (table_address : Z) : I unit :=
  modify (with_im (fun m => mkIM (handlers m) (descriptor_table m) 0x20 0x21 0xA0 0xA1));;
  let code_segement := u16 (Z.shiftl get_code_selector 3) in
  init_entries 256 0 code_segement;;
  install 20 0 0 code_segement stub_exception;;
  install 16 INTERRUPT_OFFSET 0 code_segement stub_irq;;
  set_interrupt_descriptor_table_entry (INTERRUPT_OFFSET + 0x31) code_segement (stub_irq 0x31) 0 IDT_INTERRUPT_GATE;;
  set_interrupt_descriptor_table_entry 0x80 code_segement stub_syscall 3 IDT_INTERRUPT_GATE;;
  on_hw (write_8bit_slow 0x20 0x11);; on_hw (write_8bit_slow 0xA0 0x11);;
  on_hw (write_8bit_slow 0x21 INTERRUPT_OFFSET);; on_hw (write_8bit_slow 0xA1 (INTERRUPT_OFFSET + 8));;
  on_hw (write_8bit_slow 0x21 0x04);; on_hw (write_8bit_slow 0xA1 0x02);;
  on_hw (write_8bit_slow 0x21 0x01);; on_hw (write_8bit_slow 0xA1 0x01);;
  on_hw (write_8bit_slow 0x21 0x00);; on_hw (write_8bit_slow 0xA1 0x00);;
  modify (fun s => mkIstate (im s) (handler_objects s) (activated s) (cpu_if s)
            (256 * 8 - 1, table_address) (hw s) (ps s));;
  init_pit.

(** With one manager: it is the activated one or none is. *)
Definition deactivate_interrupt_manager : I unit :=
  a ← gets activated;
  if (a : bool) then
    modify (fun s => mkIstate (im s) (handler_objects s) false false (idtr s) (hw s) (ps s))
  else mret tt.
Definition activate_interrupt_manager : I unit :=
  deactivate_interrupt_manager;;
  modify (fun s => mkIstate (im s) (handler_objects s) true true (idtr s) (hw s) (ps s)).
End interrupts.

(** ** What a gate says *)

Definition gate_handler (g : GateDescriptor) : Z :=
  handler_address_high_bits g * 65536 + handler_address_low_bits g.
Definition gate_present (g : GateDescriptor) : bool := Z.testbit (access g) 7.
Definition gate_dpl (g : GateDescriptor) : Z := Z.land (Z.shiftr (access g) 5) 3.
Definition gate_type (g : GateDescriptor) : Z := Z.land (access g) 0x1f.

Lemma gate_decode selector handler dpl : is_u32 handler -> is_u16 selector -> 0 <= dpl < 4 ->
  let g := gate selector handler dpl IDT_INTERRUPT_GATE in
  gate_handler g = handler /\ gdt_get_code_selector g = selector /\
  gate_present g = true /\ gate_dpl g = dpl /\ gate_type g = 0xe.
Proof.
  intros Hh Hs Hd g. unfold is_u32 in Hh. split_and!.
  - unfold gate_handler, g, gate. cbn.
    change 65535 with (2 ^ 16 - 1). rewrite !land_mask, Z.shiftr_div_pow2 by lia.
    change (2 ^ 16) with 65536. unfold u16. zdm.
  - cbn. by apply u16_small.
  - assert (Hc : dpl = 0 \/ dpl = 1 \/ dpl = 2 \/ dpl = 3) by lia.
    destruct Hc as [->|[->|[->| ->]]]; reflexivity.
  - assert (Hc : dpl = 0 \/ dpl = 1 \/ dpl = 2 \/ dpl = 3) by lia.
    destruct Hc as [->|[->|[->| ->]]]; reflexivity.
  - assert (Hc : dpl = 0 \/ dpl = 1 \/ dpl = 2 \/ dpl = 3) by lia.
    destruct Hc as [->|[->|[->| ->]]]; reflexivity.
Qed.

Section dispatch.
Context `{Hardware W} `{Stubs} `{Kernel}.
Implicit Types s : istate (W := W).

Lemma on_hw_write_run s p d : on_hw (write_8bit_slow p d) s =
  Ret (with_hw (hw_out 8 (u16 p) (u8 d)) s, tt).
Proof. by destruct s. Qed.

(** The state with other tables. *)
Definition with_tables s (hs : list Z) (t : list GateDescriptor) : istate :=
  with_im (fun m => set_handlers hs (set_table t m)) s.

Lemma set_entry_run s n sel h d ty : 0 <= n < Z.of_nat (length (descriptor_table (im s))) ->
  set_interrupt_descriptor_table_entry n sel h d ty s =
    Ret (with_im (set_table (<[Z.to_nat n := gate sel h d ty]> (descriptor_table (im s)))) s, tt).
Proof.
  intros Hn. unfold set_interrupt_descriptor_table_entry, mbind, cmd_mbind, gets.
  by rewrite zset_Some.
Qed.

(** What the tables hold after some entries were written: [t] at [j] where it is
    given, the old entry elsewhere. *)
Definition tables s (hs : list Z) (f : Z -> option GateDescriptor) (s' : istate) : Prop :=
  exists t, s' = with_tables s hs t /\ length t = 256%nat /\
    forall j g, 0 <= j < 256 -> f j = Some g -> zget t j = Some g.

Lemma tables_set s hs f s' n sel h d ty : tables s hs f s' -> 0 <= n < 256 ->
  exists s'', set_interrupt_descriptor_table_entry n sel h d ty s' = Ret (s'', tt) /\
    tables s hs (fun j => if decide (j = n) then Some (gate sel h d ty) else f j) s''.
Proof.
  intros (t & -> & Hlen & Ht) Hn. eexists. rewrite set_entry_run by (cbn; lia). split; [done|].
  exists (<[Z.to_nat n := gate sel h d ty]> t). split; [done|]. rewrite length_insert. split; [done|].
  intros j g Hj Hg. rewrite zget_lookup, list_lookup_insert by lia. destruct (decide (j = n)) as [->|Hne].
  - rewrite decide_True by (split; [done|lia]). done.
  - rewrite decide_False by lia. rewrite <- zget_lookup by lia. by apply Ht.
Qed.

Lemma install_run s hs cs f n : forall base i g s', tables s hs g s' -> 0 <= base + i ->
  base + i + Z.of_nat n <= 256 ->
  exists s'', install n base i cs f s' = Ret (s'', tt) /\
    tables s hs (fun j => if decide (base + i <= j < base + i + Z.of_nat n)
                          then Some (gate cs (f (j - base)) 0 IDT_INTERRUPT_GATE) else g j) s''.
Proof.
  induction n as [|n IH]; intros base i g s' Ht H1' H2'.
  - exists s'. split; [done|]. destruct Ht as (t & -> & Hlen & Ht). exists t. split; [done|]. split; [done|].
    intros j e Hj. rewrite decide_False by lia. by apply Ht.
  - cbn [install]. destruct (tables_set s hs g s' (base + i) cs (f i) 0 IDT_INTERRUPT_GATE Ht) as (s1 & Hr & Ht1); [lia|].
    rewrite (cmd_bind_eq _ _ _ _ _ Hr).
    destruct (IH base (i + 1) _ s1 Ht1) as (s2 & Hr2 & t & -> & Hlen & Ht2); [lia|lia|].
    exists (with_tables s hs t). split; [done|]. exists t. split; [done|]. split; [done|].
    intros j e Hj He. apply Ht2; [done|].
    destruct (decide (base + i <= j < base + i + Z.of_nat (S n))) as [Hin|Hout].
    + destruct (decide (j = base + i)) as [->|Hne].
      * rewrite decide_False by lia. by replace (base + i - base) with i in He by lia.
      * by rewrite decide_True by lia.
    + by rewrite decide_False, decide_False by lia.
Qed.

Lemma init_entries_run cs n : forall i s, 0 <= i -> i + Z.of_nat n = 256 ->
  length (handlers (im s)) = 256%nat -> length (descriptor_table (im s)) = 256%nat ->
  exists hs t, init_entries n i cs s = Ret (with_tables s hs t, tt) /\ length hs = 256%nat /\ length t = 256%nat /\
    (forall j, 0 <= j < 256 -> zget hs j = if decide (i <= j) then Some 0 else zget (handlers (im s)) j) /\
    (forall j, 0 <= j < 256 -> zget t j = if decide (i <= j) then Some (gate cs stub_ignore 0 IDT_INTERRUPT_GATE)
                                          else zget (descriptor_table (im s)) j).
Proof.
  induction n as [|n IH]; intros i s Hi Hn Hlh Hlt.
  - exists (handlers (im s)), (descriptor_table (im s)). split; [by destruct s as [[]]|]. split; [done|]. split; [done|].
    split; intros j Hj; by rewrite decide_False by lia.
  - cbn [init_entries].
    set (s1 := with_im (set_handlers (<[Z.to_nat i := 0]> (handlers (im s)))) s).
    set (s2 := with_im (set_table (<[Z.to_nat i := gate cs stub_ignore 0 IDT_INTERRUPT_GATE]> (descriptor_table (im s1)))) s1).
    destruct (IH (i + 1) s2) as (hs & t & Hr & Hl1 & Hl2 & Hh & Ht); [lia|lia|cbn; by rewrite length_insert..|].
    exists hs, t. split; [|split; [done|split; [done|split]]].
    + rewrite gets_bind, zset_Some by lia. cbn [deref]. rewrite lift_bind, modify_bind. fold s1.
      rewrite (cmd_bind_eq _ _ s1 s2 tt) by (apply set_entry_run; cbn; lia).
      exact Hr.
    + intros j Hj. rewrite Hh by done. cbn [im s2 s1 with_im handlers set_handlers set_table].
      rewrite zget_lookup, list_lookup_insert by lia. rewrite zget_lookup by lia.
      destruct (decide (i + 1 <= j)), (decide (i <= j)); try lia; try done.
      * rewrite decide_True by lia. done.
      * rewrite decide_False by lia. done.
    + intros j Hj. rewrite Ht by done. cbn [im s2 s1 with_im descriptor_table set_handlers set_table].
      rewrite zget_lookup, list_lookup_insert by lia. rewrite zget_lookup by lia.
      destruct (decide (i + 1 <= j)), (decide (i <= j)); try lia; try done.
      * rewrite decide_True by lia. done.
      * rewrite decide_False by lia. done.
Qed.

(** The stub each vector is to lead to. *)
Definition vector_stub (v : Z) : Z :=
  if decide (v < 20) then stub_exception v
  else if decide (INTERRUPT_OFFSET <= v < INTERRUPT_OFFSET + 16) then stub_irq (v - INTERRUPT_OFFSET)
  else if decide (v = INTERRUPT_OFFSET + 0x31) then stub_irq 0x31
  else if decide (v = 0x80) then stub_syscall else stub_ignore.

(** The remapping of the two PICs and the timer's mode and divisor. *)
Definition init_writes : trace :=
  [(8, 0x20, 0x11); (8, 0xA0, 0x11); (8, 0x21, 0x20); (8, 0xA1, 0x28); (8, 0x21, 4); (8, 0xA1, 2);
   (8, 0x21, 1); (8, 0xA1, 1); (8, 0x21, 0); (8, 0xA1, 0); (8, 0x43, 0x36); (8, 0x40, 0xA9); (8, 0x40, 4)].
Fixpoint outs (l : trace) (w : W) : W :=
  match l with [] => w | (n, p, d) :: l' => outs l' (hw_out n p d w) end.

(** C40. The initialised interrupt table: every vector has a present 32-bit
    interrupt gate in the kernel code segment that leads to its stub
    (exceptions 0-19, the sixteen remapped interrupt requests, 0x51 and the
    system call, everything else to the ignoring stub); only the system call
    gate is open to user mode; no handler is registered; and the PICs and the
    timer get exactly the initialisation sequence. *)
Theorem idt_initialised s table_address :
  length (handlers (im s)) = 256%nat -> length (descriptor_table (im s)) = 256%nat ->
  (forall v, is_u32 (stub_exception v)) -> (forall v, is_u32 (stub_irq v)) ->
  is_u32 stub_syscall -> is_u32 stub_ignore ->
  exists s', on_init_interrupt_manager table_address s = Ret (s', tt) /\
    (forall v, 0 <= v < 256 -> exists g, zget (descriptor_table (im s')) v = Some g /\
       gate_handler g = vector_stub v /\ gdt_get_code_selector g = 16 /\ gate_present g = true /\
       gate_type g = 0xe /\ gate_dpl g = (if decide (v = 0x80) then 3 else 0) /\
       zget (handlers (im s')) v = Some 0) /\
    hw s' = outs init_writes (hw s) /\ idtr s' = (2047, table_address) /\ ps s' = ps s.
Proof.
  intros Hlh Hlt He Hi Hsys Hign. unfold on_init_interrupt_manager.
  set (s0 := with_im (fun m => mkIM (handlers m) (descriptor_table m) 0x20 0x21 0xA0 0xA1) s).
  rewrite modify_bind. fold s0. cbn zeta.
  change (u16 (Z.shiftl get_code_selector 3)) with 16.
  destruct (init_entries_run 16 256 0 s0) as (hs & t0 & Hr0 & Hl1 & Hl2 & Hh & Ht0); [lia|lia|done|done|].
  rewrite (cmd_bind_eq _ _ _ _ _ Hr0).
  set (f0 := fun _ : Z => Some (gate 16 stub_ignore 0 IDT_INTERRUPT_GATE)).
  assert (Htab0 : tables s0 hs f0 (with_tables s0 hs t0)).
  { exists t0. split; [done|]. split; [done|]. intros j g Hj [= <-]. rewrite Ht0 by done. by rewrite decide_True by lia. }
  destruct (install_run s0 hs 16 stub_exception 20 0 0 _ _ Htab0) as (s1 & Hr1 & Ht1); [lia|lia|].
  rewrite (cmd_bind_eq _ _ _ _ _ Hr1).
  destruct (install_run s0 hs 16 stub_irq 16 INTERRUPT_OFFSET 0 _ _ Ht1) as (s2 & Hr2 & Ht2); [done|done|].
  rewrite (cmd_bind_eq _ _ _ _ _ Hr2).
  destruct (tables_set s0 hs _ s2 (INTERRUPT_OFFSET + 0x31) 16 (stub_irq 0x31) 0 IDT_INTERRUPT_GATE Ht2) as (s3 & Hr3 & Ht3); [done|].
  rewrite (cmd_bind_eq _ _ _ _ _ Hr3).
  destruct (tables_set s0 hs _ s3 0x80 16 stub_syscall 3 IDT_INTERRUPT_GATE Ht3) as (s4 & Hr4 & t & -> & Hlen & Ht); [lia|].
  rewrite (cmd_bind_eq _ _ _ _ _ Hr4).
  do 10 rewrite (cmd_bind_eq _ _ _ _ _ (on_hw_write_run _ _ _)). rewrite modify_bind. unfold init_pit. cbn zeta.
  do 2 rewrite (cmd_bind_eq _ _ _ _ _ (on_hw_write_run _ _ _)). rewrite on_hw_write_run.
  eexists. split; [reflexivity|]. split; [|split; [reflexivity|split; reflexivity]].
  intros v Hv. cbn [im with_hw with_im with_tables handlers descriptor_table set_handlers set_table].
  exists (gate 16 (vector_stub v) (if decide (v = 0x80) then 3 else 0) IDT_INTERRUPT_GATE). split.
  { cbn. apply Ht; [done|]. unfold vector_stub, f0, INTERRUPT_OFFSET.
    destruct (decide (v = 0x80)) as [->|]; [done|].
    destruct (decide (v = 0x20 + 0x31)) as [->|]; [done|].
    destruct (decide (0x20 <= v < 0x20 + 16)).
    - rewrite decide_True by lia. by rewrite decide_False by lia.
    - rewrite decide_False by lia. destruct (decide (v < 20)).
      + rewrite decide_True by lia. by rewrite Z.sub_0_r.
      + by rewrite decide_False by lia. }
  assert (Hstub : is_u32 (vector_stub v)) by (unfold vector_stub; repeat case_decide; auto).
  destruct (gate_decode 16 (vector_stub v) (if decide (v = 0x80) then 3 else 0) Hstub) as (G1 & G2 & G3 & G4 & G5);
    [lit|destruct (decide (v = 0x80)); lia|].
  split; [done|]. split; [done|]. split; [done|]. split; [done|]. split; [done|].
  cbn. rewrite Hh by done. by rewrite decide_True by lia.
Qed.

Definition eois (n : Z) : trace :=
  if decide (INTERRUPT_OFFSET <= n < INTERRUPT_OFFSET + 16) then
    (8, 0x20, 0x20) :: (if decide (INTERRUPT_OFFSET + 8 <= n) then [(8, 0xA0, 0x20)] else [])
  else [].

(** Dispatch of a vector without a registered handler: nothing runs except,
    for the timer, one tick and then one scheduling step whose stack pointer is
    the result; a remapped interrupt request is acknowledged afterwards, the
    master always and the slave exactly for the requests 8-15; exceptions and
    the system call are not acknowledged. *)
Theorem dispatch_acknowledges s call n esp : activated s = true -> 0 <= n < 256 ->
  zget (handlers (im s)) n = Some 0 ->
  pic_master_command (im s) = 0x20 -> pic_slaver_command (im s) = 0xA0 ->
  handle_interrrupt call n esp s =
    if decide (n = INTERRUPT_OFFSET) then
      match (process_manager_tick;; schedule esp) (ps s) with
      | Ret (p, r) => Ret (with_hw (outs (eois n)) (with_ps (fun _ => p) s), r)
      | Fault => Fault
      | Spin => Spin
      end
    else Ret (with_hw (outs (eois n)) s, esp).
Proof.
  intros Ha Hn Hh Hm Hs. unfold handle_interrrupt. rewrite gets_bind, Ha. cbn iota.
  unfold do_handle_interrupt. rewrite gets_bind, Hh. cbn [deref]. rewrite lift_bind.
  rewrite (decide_False (P := 0 <> 0)) by lia. rewrite ret_bind. change (INTERRUPT_OFFSET + 0) with INTERRUPT_OFFSET.
  assert (Hack : forall (s' : istate (W := W)) r, im s' = im s ->
    (acknowledge n ≫= fun _ => (mret (r : Z) : cmd istate Z)) s' = Ret (with_hw (outs (eois n)) s', r)).
  { intros s' r E. unfold eois, acknowledge. destruct (decide (INTERRUPT_OFFSET <= n < INTERRUPT_OFFSET + 16)).
    - destruct (decide (INTERRUPT_OFFSET + 8 <= n)); unfold mbind, cmd_mbind, gets; rewrite E, Hm, on_hw_write_run.
      + cbn [im with_hw]. rewrite E, Hs, on_hw_write_run. done.
      + done.
    - unfold mbind, cmd_mbind. by destruct s'. }
  destruct (decide (n = INTERRUPT_OFFSET)).
  - assert (Hbind : forall (c : P unit) (k : unit -> P Z) p, (c ≫= k) p =
      match c p with Ret (p', a) => k a p' | Fault => Fault | Spin => Spin end) by done.
    rewrite Hbind. clear Hbind.
    assert (Hps : forall A B (c : P A) (k : A -> cmd istate B) s', (on_ps c ≫= k) s' =
      match c (ps s') with
      | Ret (p, a) => k a (with_ps (fun _ => p) s') | Fault => Fault | Spin => Spin
      end).
    { intros A B c k s'. unfold mbind, cmd_mbind, on_ps. by destruct (c (ps s')) as [[]| |]. }
    assert (Hassoc : forall A B C (c : cmd istate A) (k : A -> cmd istate B) (k' : B -> cmd istate C) s',
      ((c ≫= k) ≫= k') s' = (c ≫= fun a => k a ≫= k') s').
    { intros A B C c k k' s'. unfold mbind, cmd_mbind. by destruct (c s') as [[]| |]. }
    rewrite Hassoc, Hps. destruct (process_manager_tick (ps s)) as [[p []]| |]; [|done..].
    rewrite Hps. cbn [ps with_ps]. destruct (schedule esp p) as [[p' r]| |]; [|done..].
    by rewrite Hack.
  - rewrite ret_bind. by rewrite Hack.
Qed.
End dispatch.

(** ** The timer interrupt raised from inside the tick

    [int $0x20] in the tick enters the timer interrupt again: its nested tick
    and scheduling step run before the outer tick goes on. [kernel_at n] is the
    demonstration kernel whose [int20] is that, nested at most [n] deep. *)
Fixpoint kernel_at (n : nat) : Kernel := {|
  malloc := @malloc demo_kernel;
  free := @free demo_kernel;
  pd_create := @pd_create demo_kernel;
  pd_destroy := @pd_destroy demo_kernel;
  pd_switch := @pd_switch demo_kernel;
  vmm_allocate_pages := @vmm_allocate_pages demo_kernel;
  vmm_create_memory_region := @vmm_create_memory_region demo_kernel;
  int20 := match n with
           | O => spin
           | S n' => (@process_manager_tick (kernel_at n'));;
                     (@schedule (kernel_at n') 1900);; mret tt
           end;
  call_entry := @call_entry demo_kernel;
  process_wrapper_addr := @process_wrapper_addr demo_kernel
|}.

(** The running process of priority 1 with one tick left. *)
Definition last_tick : pstate :=
  with_procs (insert 1000 (set_time_slice 1 (one_process PROCESS_RUNNING))) (one_state PROCESS_RUNNING).

(** A time slice that runs out never demotes the process: the tick that
    brings the slice to 0 raises the timer interrupt, whose own tick takes the
    unsigned slice from 0 to 2^32-1 before the scheduler looks at it. After one
    timer interrupt the process still has its priority, and a slice of
    2^32-1 ticks. *)
Theorem exhausted_slice_wraps :
  exists s r p, (@process_manager_tick (kernel_at 3);; @schedule (kernel_at 3) 1800) last_tick = Ret (s, r) /\
    procs s !! 1000 = Some p /\ p_priority p = 1 /\ p_time_slice p = 4294967295 /\
    p_state p = PROCESS_RUNNING.
Proof.
  destruct ((@process_manager_tick (kernel_at 3);; @schedule (kernel_at 3) 1800) last_tick) as [[s r]| |] eqn:E;
    vm_compute in E; try discriminate E.
  injection E as <- <-. eexists _, _, _. split; [reflexivity|]. split; [vm_compute; reflexivity|].
  split; [reflexivity|]. split; reflexivity.
Qed.

(** ** Witnesses *)
Definition demo_stubs : Stubs := {|
  stub_ignore := 0x100100; stub_exception := fun v => 0x100200 + u8 v;
  stub_irq := fun v => 0x100300 + u8 v; stub_syscall := 0x100400 |}.
Definition demo_istate : istate (W := trace) :=
  mkIstate (mkIM (replicate 256 0) (replicate 256 (mkGate 0 0 0 0 0)) 0x20 0x21 0xA0 0xA1) ∅ true true (0, 0) []
    (one_state PROCESS_READY).

Lemma idt_initialised_witness :
  exists s', @on_init_interrupt_manager trace _ demo_stubs 4096 demo_istate = Ret (s', tt) /\
    (exists g, zget (descriptor_table (im s')) 0x80 = Some g /\ gate_handler g = 0x100400 /\ gate_dpl g = 3) /\
    length (hw s') = 13%nat.
Proof.
  assert (Hu : forall a v, a = 0x100200 \/ a = 0x100300 -> is_u32 (a + u8 v)).
  { intros a v Ha. pose proof (u8_range v) as [? ?]. unfold is_u32. lia. }
  destruct (@idt_initialised trace _ demo_stubs demo_istate 4096) as (s' & Hrun & Hall & Hhw & _);
    [reflexivity|reflexivity|intros v; apply Hu; by left|intros v; apply Hu; by right|lit|lit|].
  exists s'. split; [exact Hrun|]. split; [|rewrite Hhw; reflexivity].
  destruct (Hall 0x80) as (g & H1 & H2 & _ & _ & _ & H3 & _); [lia|]. exists g. split; [exact H1|].
  split; [exact H2|exact H3].
Defined.

Lemma dispatch_acknowledges_witness :
  @handle_interrrupt trace _ demo_kernel (fun _ e => mret e) 0x29 5 demo_istate =
    Ret (with_hw (outs [(8, 0x20, 0x20); (8, 0xA0, 0x20)]) demo_istate, 5).
Proof.
  rewrite (@dispatch_acknowledges trace _ demo_kernel demo_istate (fun _ e => mret e) 0x29 5); [|reflexivity|lia|reflexivity..].
  reflexivity.
Defined.
