(* ===== verification/Keyboard.v ===== *)
(** * Keyboard driver (src/driver/keyboard.c, include/driver/keyboard.h)

    The driver's ring buffer, its flags and the two scan-code tables, with the
    interrupt handler and the reading side; and what they implement: six
    modifier states and a queue of at most 255 characters.

    [cli]/[sti] around the reading side make it atomic with respect to the
    handler, so the two only interleave as whole calls. Characters are bytes. *)
From S2P Require Import Prelude Ports.

Definition KEYBOARD_DATA_PORT : Z := 0x60.
Definition KEYBOARD_FLAG_SHIFT : Z := 0x01.
Definition KEYBOARD_FLAG_CTRL : Z := 0x02.
Definition KEYBOARD_FLAG_ALT : Z := 0x04.
Definition KEYBOARD_FLAG_CAPS_LOCK : Z := 0x08.
Definition KEYBOARD_FLAG_NUM_LOCK : Z := 0x10.
Definition KEYBOARD_FLAG_SCROLL_LOCK : Z := 0x20.
Definition KEYBOARD_SCANCODE_LEFT_CTRL : Z := 0x1D.
Definition KEYBOARD_SCANCODE_LEFT_SHIFT : Z := 0x2A.
Definition KEYBOARD_SCANCODE_RIGHT_SHIFT : Z := 0x36.
Definition KEYBOARD_SCANCODE_LEFT_ALT : Z := 0x38.
Definition KEYBOARD_SCANCODE_CAPS_LOCK : Z := 0x3A.
Definition KEYBOARD_SCANCODE_NUM_LOCK : Z := 0x45.
Definition KEYBOARD_SCANCODE_SCROLL_LOCK : Z := 0x46.

(** 128 entries; those after the space bar are 0. *)
Definition keyboard_map_normal : list Z :=
  [0; 0; 49; 50; 51; 52; 53; 54; 55; 56; 57; 48; 45; 61; 8; 9;
   113; 119; 101; 114; 116; 121; 117; 105; 111; 112; 91; 93; 10; 0;
   97; 115; 100; 102; 103; 104; 106; 107; 108; 59; 39; 96; 0; 92;
   122; 120; 99; 118; 98; 110; 109; 44; 46; 47; 0; 42; 0; 32; 0]
  ++ replicate 69 0.
Definition keyboard_map_shift : list Z :=
  [0; 0; 33; 64; 35; 36; 37; 94; 38; 42; 40; 41; 95; 43; 8; 9;
   81; 87; 69; 82; 84; 89; 85; 73; 79; 80; 123; 125; 10; 0;
   65; 83; 68; 70; 71; 72; 74; 75; 76; 58; 34; 126; 0; 124;
   90; 88; 67; 86; 66; 78; 77; 60; 62; 63; 0; 42; 0; 32; 0]
  ++ replicate 69 0.

(** The fields the driver's operations use. *)
Record KeyboardDriver := mkKD {
  keyboard_buffer : list Z; buffer_start : Z; buffer_end : Z;
  keyboard_flags : Z; last_scancode : Z
}.
Definition set_buffer v k := mkKD v (buffer_start k) (buffer_end k) (keyboard_flags k) (last_scancode k).
Definition set_start v k := mkKD (keyboard_buffer k) v (buffer_end k) (keyboard_flags k) (last_scancode k).
Definition set_end v k := mkKD (keyboard_buffer k) (buffer_start k) v (keyboard_flags k) (last_scancode k).
Definition set_flags v k := mkKD (keyboard_buffer k) (buffer_start k) (buffer_end k) (u8 v) (last_scancode k).
Definition set_last v k := mkKD (keyboard_buffer k) (buffer_start k) (buffer_end k) (keyboard_flags k) v.

Definition keyboard_is_buffer_empty (k : KeyboardDriver) : bool :=
  bool_decide (buffer_start k = buffer_end k).
Definition keyboard_is_buffer_full (k : KeyboardDriver) : bool :=
  bool_decide ((buffer_end k + 1) mod 256 = buffer_start k).

Definition flag (k : KeyboardDriver) (f : Z) : bool := bool_decide (Z.land (keyboard_flags k) f <> 0).

Definition keyboard_scancode_to_ascii (k : KeyboardDriver) (scancode : Z) : outcome Z :=
  if decide (scancode > 127) then mret 0 else
  let shift := flag k KEYBOARD_FLAG_SHIFT || flag k KEYBOARD_FLAG_CAPS_LOCK in
  c ← deref (zget (if shift then keyboard_map_shift else keyboard_map_normal) scancode);
  if flag k KEYBOARD_FLAG_CTRL && bool_decide (97 <= c <= 122) then mret (c - 97 + 1) else mret c.

Section driver.
Context `{Hardware W}.

(** The driver and the hardware behind the data port. *)
Abbreviation K := (cmd (W * KeyboardDriver)).
Definition getk {A} (f : KeyboardDriver -> A) : K A := gets (fun s => f (snd s)).
Definition modk (f : KeyboardDriver -> KeyboardDriver) : K unit := modify (fun s => (fst s, f (snd s))).
Definition port {A} (c : cmd W A) : K A := fun s =>
  match c (fst s) with Ret (h, a) => Ret ((h, snd s), a) | Fault => Fault | Spin => Spin end.

Definition keyboard_read_scancode : K Z := port (read_8bit KEYBOARD_DATA_PORT).

Definition clear_flag (f : Z) : K unit :=
  modk (fun k => set_flags (Z.land (keyboard_flags k) (Z.lnot f)) k).
Definition raise_flag (f : Z) : K unit := modk (fun k => set_flags (Z.lor (keyboard_flags k) f) k).
Definition toggle_flag (f : Z) : K unit := modk (fun k => set_flags (Z.lxor (keyboard_flags k) f) k).

(** The default case: translate and store. *)
Definition keyboard_store (scancode : Z) : K unit :=
  k ← getk id;
  c ← lift (keyboard_scancode_to_ascii k scancode);
  if decide (c <> 0) then
    if keyboard_is_buffer_full k then mret tt
    else
      b ← lift (deref (zset (keyboard_buffer k) (buffer_end k) c));
      modk (set_buffer b);;
      modk (fun k => set_end ((buffer_end k + 1) mod 256) k)
  else mret tt.

Definition keyboard_interrupt_handler (esp : Z) : K Z :=
  scancode ← keyboard_read_scancode;
  (if decide (Z.land scancode 0x80 <> 0) then
     let released_key := Z.land scancode 0x7F in
     if decide (released_key = KEYBOARD_SCANCODE_LEFT_SHIFT \/ released_key = KEYBOARD_SCANCODE_RIGHT_SHIFT)
     then clear_flag KEYBOARD_FLAG_SHIFT
     else if decide (released_key = KEYBOARD_SCANCODE_LEFT_CTRL) then clear_flag KEYBOARD_FLAG_CTRL
     else if decide (released_key = KEYBOARD_SCANCODE_LEFT_ALT) then clear_flag KEYBOARD_FLAG_ALT
     else mret tt
   else
     (if decide (scancode = KEYBOARD_SCANCODE_LEFT_SHIFT \/ scancode = KEYBOARD_SCANCODE_RIGHT_SHIFT)
      then raise_flag KEYBOARD_FLAG_SHIFT
      else if decide (scancode = KEYBOARD_SCANCODE_LEFT_CTRL) then raise_flag KEYBOARD_FLAG_CTRL
      else if decide (scancode = KEYBOARD_SCANCODE_LEFT_ALT) then raise_flag KEYBOARD_FLAG_ALT
      else if decide (scancode = KEYBOARD_SCANCODE_CAPS_LOCK) then toggle_flag KEYBOARD_FLAG_CAPS_LOCK
      else if decide (scancode = KEYBOARD_SCANCODE_NUM_LOCK) then toggle_flag KEYBOARD_FLAG_NUM_LOCK
      else if decide (scancode = KEYBOARD_SCANCODE_SCROLL_LOCK) then toggle_flag KEYBOARD_FLAG_SCROLL_LOCK
      else keyboard_store scancode);;
     modk (set_last scancode));;
  mret esp.

Definition keyboard_getchar : K Z :=
  k ← getk id;
  if keyboard_is_buffer_empty k then mret 0 else
  c ← lift (deref (zget (keyboard_buffer k) (buffer_start k)));
  modk (fun k => set_start ((buffer_start k + 1) mod 256) k);;
  mret c.

Definition keyboard_clear_buffer : K unit := modk (set_start 0);; modk (set_end 0).

Definition keyboard_reset : K Z :=
  keyboard_clear_buffer;; modk (set_flags 0);; mret 0.
End driver.

(** ** What the driver implements *)

(** Six modifiers and the characters waiting, oldest first. *)
Record keyboard := mkKeyboard {
  shift : bool; ctrl : bool; alt : bool; caps : bool; num : bool; scroll : bool; queue : list Z
}.

Definition capacity : nat := 255.

Definition translate (kb : keyboard) (scancode : Z) : Z :=
  let c := default 0 (zget (if shift kb || caps kb then keyboard_map_shift else keyboard_map_normal) scancode) in
  if ctrl kb && bool_decide (97 <= c <= 122) then c - 96 else c.

Definition offer (c : Z) (q : list Z) : list Z :=
  if decide (c <> 0 /\ (length q < capacity)%nat) then q ++ [c] else q.

(** The effect of a scan code. *)
Definition key_event (scancode : Z) (kb : keyboard) : keyboard :=
  let '(mkKeyboard sh ct al ca nu sc q) := kb in
  if decide (scancode = 0x80 + 0x2A \/ scancode = 0x80 + 0x36) then mkKeyboard false ct al ca nu sc q
  else if decide (scancode = 0x80 + 0x1D) then mkKeyboard sh false al ca nu sc q
  else if decide (scancode = 0x80 + 0x38) then mkKeyboard sh ct false ca nu sc q
  else if decide (0x80 <= scancode) then kb
  else if decide (scancode = 0x2A \/ scancode = 0x36) then mkKeyboard true ct al ca nu sc q
  else if decide (scancode = 0x1D) then mkKeyboard sh true al ca nu sc q
  else if decide (scancode = 0x38) then mkKeyboard sh ct true ca nu sc q
  else if decide (scancode = 0x3A) then mkKeyboard sh ct al (negb ca) nu sc q
  else if decide (scancode = 0x45) then mkKeyboard sh ct al ca (negb nu) sc q
  else if decide (scancode = 0x46) then mkKeyboard sh ct al ca nu (negb sc) q
  else mkKeyboard sh ct al ca nu sc (offer (translate kb scancode) q).

(** The characters between the two indices of the ring. *)
Definition ring (k : KeyboardDriver) : list Z :=
  (fun i => default 0 (zget (keyboard_buffer k) ((buffer_start k + i) mod 256)))
    <$> seqZ 0 ((buffer_end k - buffer_start k) mod 256).

Definition abs (k : KeyboardDriver) : keyboard :=
  mkKeyboard (flag k KEYBOARD_FLAG_SHIFT) (flag k KEYBOARD_FLAG_CTRL) (flag k KEYBOARD_FLAG_ALT)
    (flag k KEYBOARD_FLAG_CAPS_LOCK) (flag k KEYBOARD_FLAG_NUM_LOCK) (flag k KEYBOARD_FLAG_SCROLL_LOCK)
    (ring k).

Record kb_ok (k : KeyboardDriver) : Prop := {
  kb_len : length (keyboard_buffer k) = 256%nat;
  kb_start : is_u8 (buffer_start k);
  kb_end : is_u8 (buffer_end k);
  kb_flags : is_u8 (keyboard_flags k)
}.

(** ** Flags, by enumeration of the byte *)

Definition flag_bits : list Z := [1; 2; 4; 8; 16; 32].
Definition fl (f g : Z) : bool := bool_decide (Z.land f g <> 0).

Lemma enum_u8 (p : Z -> bool) : forallb p (seqZ 0 256) = true -> forall f, is_u8 f -> p f = true.
Proof.
  intros H f Hf. rewrite forallb_forall in H. apply H, list_elem_of_In, elem_of_seqZ.
  unfold is_u8 in Hf. lia.
Qed.

Definition flags_step_ok (f : Z) : bool :=
  forallb (fun g => forallb (fun g' =>
    Bool.eqb (fl (u8 (Z.land f (Z.lnot g))) g') (if decide (g' = g) then false else fl f g') &&
    Bool.eqb (fl (u8 (Z.lor f g)) g') (if decide (g' = g) then true else fl f g') &&
    Bool.eqb (fl (u8 (Z.lxor f g)) g') (if decide (g' = g) then negb (fl f g') else fl f g'))
    flag_bits) flag_bits.

Lemma flags_step f g g' : is_u8 f -> g ∈ flag_bits -> g' ∈ flag_bits ->
  fl (u8 (Z.land f (Z.lnot g))) g' = (if decide (g' = g) then false else fl f g') /\
  fl (u8 (Z.lor f g)) g' = (if decide (g' = g) then true else fl f g') /\
  fl (u8 (Z.lxor f g)) g' = (if decide (g' = g) then negb (fl f g') else fl f g').
Proof.
  intros Hf Hg Hg'. assert (H : flags_step_ok f = true) by (revert f Hf; apply enum_u8; vm_compute; reflexivity).
  unfold flags_step_ok in H. rewrite forallb_forall in H. apply list_elem_of_In in Hg, Hg'.
  specialize (H _ Hg). rewrite forallb_forall in H. specialize (H _ Hg').
  apply andb_true_iff in H as [[H1 H2]%andb_true_iff H3].
  by apply eqb_prop in H1, H2, H3.
Qed.

Lemma scancode_bits s : is_u8 s ->
  (Z.land s 0x80 <> 0 <-> 0x80 <= s) /\ (0x80 <= s -> Z.land s 0x7F = s - 0x80).
Proof.
  intros Hs. set (p := fun s => Bool.eqb (bool_decide (Z.land s 0x80 <> 0)) (bool_decide (0x80 <= s)) &&
    (bool_decide (s < 0x80) || bool_decide (Z.land s 0x7F = s - 0x80))).
  assert (H : p s = true) by (revert s Hs; apply enum_u8; vm_compute; reflexivity).
  unfold p in H. apply andb_true_iff in H as [H1%eqb_prop H2].
  split.
  - destruct (decide (Z.land s 0x80 <> 0)) as [Ha|Ha], (decide (0x80 <= s)) as [Hb|Hb]; try tauto;
      [rewrite bool_decide_eq_true_2, bool_decide_eq_false_2 in H1 by done
      |rewrite bool_decide_eq_false_2, bool_decide_eq_true_2 in H1 by done]; discriminate H1.
  - intros Hge. apply orb_true_iff in H2 as [H2|H2]; apply bool_decide_eq_true in H2; lia.
Qed.

(** ** The ring *)
Section ring.
Implicit Types k : KeyboardDriver.

Lemma ring_length k : length (ring k) = Z.to_nat ((buffer_end k - buffer_start k) mod 256).
Proof. unfold ring. by rewrite length_fmap, length_seqZ. Qed.

Lemma ring_lookup k i : ring k !! i =
  if decide (Z.of_nat i < (buffer_end k - buffer_start k) mod 256)
  then Some (default 0 (zget (keyboard_buffer k) ((buffer_start k + Z.of_nat i) mod 256))) else None.
Proof.
  unfold ring. rewrite list_lookup_fmap. destruct (decide _) as [Hlt|Hge].
  - rewrite lookup_seqZ_lt by lia. done.
  - rewrite lookup_seqZ_ge by lia. done.
Qed.

Lemma ring_empty k : kb_ok k -> keyboard_is_buffer_empty k = true <-> ring k = [].
Proof.
  intros [_ [? ?] [? ?] _]. unfold keyboard_is_buffer_empty. rewrite bool_decide_eq_true.
  rewrite <- length_zero_iff_nil, ring_length. split; [intros ->; by rewrite Z.sub_diag|].
  intros Hm. zdm.
Qed.

Lemma ring_full k : kb_ok k -> keyboard_is_buffer_full k = true <-> length (ring k) = capacity.
Proof.
  intros [_ [? ?] [? ?] _]. unfold keyboard_is_buffer_full, capacity. rewrite bool_decide_eq_true, ring_length.
  split; intros; zdm.
Qed.

Lemma ring_bound k : (length (ring k) <= capacity)%nat.
Proof. rewrite ring_length. unfold capacity. pose proof (Z.mod_pos_bound (buffer_end k - buffer_start k) 256). lia. Qed.

Lemma ring_push k c : kb_ok k -> keyboard_is_buffer_full k = false ->
  ring (set_end ((buffer_end k + 1) mod 256) (set_buffer (<[Z.to_nat (buffer_end k) := c]> (keyboard_buffer k)) k))
    = ring k ++ [c].
Proof.
  intros [Hl [? ?] [? ?] _] Hf. apply bool_decide_eq_false in Hf.
  set (s := buffer_start k) in *. set (e := buffer_end k) in *.
  assert (Hn : ((e + 1) mod 256 - s) mod 256 = (e - s) mod 256 + 1) by zdm.
  apply list_eq. intros i. rewrite ring_lookup. cbn [buffer_end buffer_start keyboard_buffer set_end set_buffer].
  fold s e. rewrite Hn. destruct (decide (Z.of_nat i < (e - s) mod 256)) as [Hlt|Hge].
  - rewrite decide_True by lia. rewrite lookup_app_l by (rewrite ring_length; fold s e; lia).
    rewrite ring_lookup. fold s e. rewrite decide_True by lia. do 2 f_equal.
    pose proof (Z.mod_pos_bound (s + Z.of_nat i) 256 ltac:(lia)).
    rewrite !zget_lookup by lia. apply list_lookup_insert_ne.
    assert ((s + Z.of_nat i) mod 256 <> e) by zdm. lia.
  - destruct (decide (Z.of_nat i = (e - s) mod 256)) as [Heq|Hne].
    + rewrite decide_True by lia. rewrite lookup_app_r by (rewrite ring_length; fold s e; lia).
      assert ((s + Z.of_nat i) mod 256 = e) as -> by (rewrite Heq; zdm).
      rewrite zget_lookup, list_lookup_insert_eq by lia.
      rewrite ring_length. fold s e. replace (i - Z.to_nat ((e - s) mod 256))%nat with 0%nat by lia. done.
    + rewrite decide_False by lia. symmetry. apply lookup_ge_None. rewrite length_app, ring_length. cbn [length]. fold s e.
      pose proof (Z.mod_pos_bound (e - s) 256 ltac:(lia)). lia.
Qed.

Lemma ring_pop k : kb_ok k -> keyboard_is_buffer_empty k = false ->
  exists c, zget (keyboard_buffer k) (buffer_start k) = Some c /\
    ring k = c :: ring (set_start ((buffer_start k + 1) mod 256) k).
Proof.
  intros [Hl [? ?] [? ?] _] He. apply bool_decide_eq_false in He.
  destruct (zget_in_range (keyboard_buffer k) (buffer_start k)) as [c Hc]; [lia|].
  exists c. split; [done|]. set (s := buffer_start k) in *. set (e := buffer_end k) in *.
  assert (Hn : (e - s) mod 256 = (e - (s + 1) mod 256) mod 256 + 1) by zdm.
  apply list_eq. intros [|i].
  - rewrite ring_lookup. fold s e. rewrite decide_True by zdm. rewrite Z.add_0_r, Z.mod_small, Hc by lia. done.
  - cbn [lookup list_lookup]. rewrite !ring_lookup. cbn [buffer_start buffer_end keyboard_buffer set_start].
    fold s e. destruct (decide (Z.of_nat i < (e - (s + 1) mod 256) mod 256)).
    + rewrite decide_True by lia. do 3 f_equal. zdm.
    + rewrite decide_False by lia. done.
Qed.
End ring.

(** ** The simulation *)
Section simulation.
Context `{Hardware W}.
Implicit Types k : KeyboardDriver.

Lemma getk_bind {A B} (f : KeyboardDriver -> A) (g : A -> cmd (W * KeyboardDriver) B) s :
  (getk f ≫= g) s = g (f (snd s)) s.
Proof. reflexivity. Qed.

Lemma modk_bind {B} f (g : unit -> cmd (W * KeyboardDriver) B) s :
  (modk f ≫= g) s = g tt (fst s, f (snd s)).
Proof. reflexivity. Qed.

Lemma flag_fl k g : flag k g = fl (keyboard_flags k) g.
Proof. reflexivity. Qed.

(** The modifiers after one flag changed: [g] goes to [b]. *)
Definition set_modifier (g : Z) (b : bool) (kb : keyboard) : keyboard :=
  let '(mkKeyboard sh ct al ca nu sc q) := kb in
  mkKeyboard (if decide (g = 1) then b else sh) (if decide (g = 2) then b else ct)
    (if decide (g = 4) then b else al) (if decide (g = 8) then b else ca)
    (if decide (g = 16) then b else nu) (if decide (g = 32) then b else sc) q.

Lemma abs_set_flags k v (g : Z) (b : bool) : g ∈ flag_bits ->
  (forall g', g' ∈ flag_bits -> fl (u8 v) g' = if decide (g' = g) then b else fl (keyboard_flags k) g') ->
  abs (set_flags v k) = set_modifier g b (abs k).
Proof.
  intros Hg Hall. unfold abs, set_modifier. rewrite !flag_fl. cbn [keyboard_flags set_flags].
  unfold KEYBOARD_FLAG_SHIFT, KEYBOARD_FLAG_CTRL, KEYBOARD_FLAG_ALT, KEYBOARD_FLAG_CAPS_LOCK,
    KEYBOARD_FLAG_NUM_LOCK, KEYBOARD_FLAG_SCROLL_LOCK.
  rewrite !Hall by (unfold flag_bits; set_solver).
  f_equal; repeat case_decide; congruence || done.
Qed.

Lemma kb_ok_flags k v : kb_ok k -> kb_ok (set_flags v k).
Proof. intros [? ? ? ?]. constructor; try done. apply u8_range. Qed.

Lemma abs_set_last k v : abs (set_last v k) = abs k.
Proof. reflexivity. Qed.

Lemma kb_ok_last k v : kb_ok k -> kb_ok (set_last v k).
Proof. by intros [? ? ? ?]. Qed.

Lemma clear_abs k g : kb_ok k -> g ∈ flag_bits ->
  abs (set_flags (Z.land (keyboard_flags k) (Z.lnot g)) k) = set_modifier g false (abs k).
Proof. intros Hk Hg. apply abs_set_flags; [done|]. intros g' Hg'. by apply flags_step; [apply Hk|..]. Qed.

Lemma raise_abs k g : kb_ok k -> g ∈ flag_bits ->
  abs (set_flags (Z.lor (keyboard_flags k) g) k) = set_modifier g true (abs k).
Proof. intros Hk Hg. apply abs_set_flags; [done|]. intros g' Hg'. by apply flags_step; [apply Hk|..]. Qed.

Lemma toggle_abs k g : kb_ok k -> g ∈ flag_bits ->
  abs (set_flags (Z.lxor (keyboard_flags k) g) k) = set_modifier g (negb (fl (keyboard_flags k) g)) (abs k).
Proof.
  intros Hk Hg. apply abs_set_flags; [done|]. intros g' Hg'.
  destruct (flags_step (keyboard_flags k) g g' (kb_flags _ Hk) Hg Hg') as (_ & _ & ->).
  case_decide; by subst.
Qed.

Lemma in_flag_bits g : g = 1 \/ g = 2 \/ g = 4 \/ g = 8 \/ g = 16 \/ g = 32 -> g ∈ flag_bits.
Proof. unfold flag_bits. set_solver. Qed.

(** The key events, in the order the handler tests them. *)
Lemma key_event_release sc kb : 128 <= sc -> key_event sc kb =
  if decide (sc - 128 = 42 \/ sc - 128 = 54) then set_modifier 1 false kb
  else if decide (sc - 128 = 29) then set_modifier 2 false kb
  else if decide (sc - 128 = 56) then set_modifier 4 false kb else kb.
Proof. intros. destruct kb. unfold key_event, set_modifier. cbn. decide_all. Qed.

Lemma key_event_press sc kb : sc < 128 -> key_event sc kb =
  if decide (sc = 42 \/ sc = 54) then set_modifier 1 true kb
  else if decide (sc = 29) then set_modifier 2 true kb
  else if decide (sc = 56) then set_modifier 4 true kb
  else if decide (sc = 58) then set_modifier 8 (negb (caps kb)) kb
  else if decide (sc = 69) then set_modifier 16 (negb (num kb)) kb
  else if decide (sc = 70) then set_modifier 32 (negb (scroll kb)) kb
  else mkKeyboard (shift kb) (ctrl kb) (alt kb) (caps kb) (num kb) (scroll kb)
         (offer (translate kb sc) (queue kb)).
Proof. intros. destruct kb. unfold key_event, set_modifier. cbn. decide_all. Qed.

(** Translation never reads outside the tables. *)
Lemma to_ascii_run k sc : 0 <= sc < 128 ->
  keyboard_scancode_to_ascii k sc = Ret (translate (abs k) sc).
Proof.
  intros Hs. unfold keyboard_scancode_to_ascii, translate. rewrite decide_False by lia.
  cbn [shift ctrl caps abs].
  set (m := if flag k KEYBOARD_FLAG_SHIFT || flag k KEYBOARD_FLAG_CAPS_LOCK
            then keyboard_map_shift else keyboard_map_normal).
  assert (Hm : length m = 128%nat) by (unfold m; by destruct (_ || _)).
  destruct (zget_in_range m sc) as [c Hc]; [lia|]. rewrite Hc. cbn [deref mbind outcome_mbind default from_option id].
  destruct (flag k KEYBOARD_FLAG_CTRL && bool_decide (97 <= c <= 122)); [|done].
  unfold mret, outcome_mret. f_equal. lia.
Qed.

Lemma keyboard_store_run (h : W) k sc : kb_ok k -> 0 <= sc < 128 ->
  exists k', keyboard_store sc (h, k) = Ret ((h, k'), tt) /\ kb_ok k' /\
    abs k' = mkKeyboard (shift (abs k)) (ctrl (abs k)) (alt (abs k)) (caps (abs k)) (num (abs k))
               (scroll (abs k)) (offer (translate (abs k) sc) (ring k)).
Proof.
  intros Hk Hs. unfold keyboard_store. rewrite getk_bind. cbn [snd id].
  rewrite to_ascii_run, lift_bind by done. set (c := translate (abs k) sc). unfold offer.
  destruct (decide (c <> 0)) as [Hc|Hc].
  - destruct (keyboard_is_buffer_full k) eqn:Ef.
    + exists k. split; [done|]. split; [done|]. pose proof (proj1 (ring_full k Hk) Ef) as Hl.
      rewrite decide_False by lia. done.
    + pose proof (kb_end _ Hk) as [? ?]. pose proof (kb_len _ Hk) as Hlen.
      rewrite zset_Some by lia. cbn [deref]. rewrite lift_bind, modk_bind. eexists. split; [reflexivity|].
      split.
      * destruct Hk as [? ? ? ?]. constructor; cbn; [by rewrite length_insert|done| |done].
        unfold is_u8. apply Z.mod_pos_bound. lia.
      * rewrite decide_True; [|split; [done|]].
        -- pose proof (ring_push k c Hk Ef) as Hp. rewrite <- Hp. reflexivity.
        -- pose proof (ring_bound k). assert (length (ring k) <> capacity); [|lia].
           intros E. apply (ring_full k Hk) in E. congruence.
  - exists k. split; [done|]. split; [done|]. rewrite decide_False by tauto. done.
Qed.
End simulation.

(** What the handler does, whatever byte the data port delivers. *)
Lemma keyboard_handler_run `{Hardware W} (h : W) k esp : kb_ok k ->
  let '(h', v) := hw_in 8 0x60 h in
  exists k', keyboard_interrupt_handler esp (h, k) = Ret ((h', k'), esp) /\ kb_ok k' /\
    abs k' = key_event (u8 v) (abs k).
Proof.
  intros Hk. destruct (hw_in 8 0x60 h) as [h' v] eqn:Ein.
  unfold keyboard_interrupt_handler.
  rewrite (cmd_bind_eq keyboard_read_scancode _ _ (h', k) (u8 v)).
  2:{ unfold keyboard_read_scancode, port, read_8bit. cbn [fst snd].
      change (u16 KEYBOARD_DATA_PORT) with 0x60. by rewrite Ein. }
  set (sc := u8 v). assert (Hsc : is_u8 sc) by apply u8_range.
  destruct (scancode_bits sc Hsc) as [Hhi Hlo].
  assert (Hone : forall (c : cmd (W * KeyboardDriver) unit) k', c (h', k) = Ret ((h', k'), tt) ->
    forall (r : Z), (c;; mret r) (h', k) = Ret ((h', k'), r)).
  { intros c k' E r. by rewrite (cmd_bind_eq _ _ _ _ _ E). }
  assert (Hlast : forall (c : cmd (W * KeyboardDriver) unit) k', c (h', k) = Ret ((h', k'), tt) ->
    (c;; modk (set_last sc)) (h', k) = Ret ((h', set_last sc k'), tt)).
  { intros c k' E. by rewrite (cmd_bind_eq _ _ _ _ _ E). }
  unfold KEYBOARD_SCANCODE_LEFT_SHIFT, KEYBOARD_SCANCODE_RIGHT_SHIFT, KEYBOARD_SCANCODE_LEFT_CTRL,
    KEYBOARD_SCANCODE_LEFT_ALT, KEYBOARD_SCANCODE_CAPS_LOCK, KEYBOARD_SCANCODE_NUM_LOCK,
    KEYBOARD_SCANCODE_SCROLL_LOCK.
  destruct (decide (Z.land sc 128 <> 0)) as [Hr|Hp].
  - assert (Hge : 128 <= sc) by exact (proj1 Hhi Hr). cbn zeta.
    rewrite (Hlo Hge), (key_event_release _ _ Hge).
    repeat (destruct (decide _);
      [eexists; split; [apply Hone; reflexivity|]; split; [by apply kb_ok_flags|];
       apply clear_abs; [done|]; apply in_flag_bits; lit|]).
    exists k. by split; [apply Hone|].
  - assert (Hlt : sc < 128) by (destruct (Z.lt_ge_cases sc 128); [done|by contradict Hp; apply Hhi]).
    unfold is_u8 in Hsc. rewrite (key_event_press _ _ Hlt).
    repeat (destruct (decide _);
      [eexists; split; [apply Hone, Hlast; reflexivity|]; split; [by apply kb_ok_last, kb_ok_flags|];
       (apply raise_abs || apply toggle_abs); [done|]; apply in_flag_bits; lit|]).
    destruct (keyboard_store_run h' k sc Hk ltac:(lia)) as (k' & Hrun & Hk' & Habs).
    eexists. split; [apply Hone, Hlast; exact Hrun|]. split; [by apply kb_ok_last|]. exact Habs.
Qed.

(** C11. The interrupt handler implements the keyboard: whatever byte the data
    port delivers, the modifiers and the queue of characters change exactly as
    that key event prescribes (a character is dropped when 255 are waiting),
    the driver's invariant is kept, and the stack pointer is handed back. *)
Theorem keyboard_handler_refines `{Hardware W} (h : W) k esp : kb_ok k ->
  let '(h', v) := hw_in 8 0x60 h in
  exists k', keyboard_interrupt_handler esp (h, k) = Ret ((h', k'), esp) /\ kb_ok k' /\
    abs k' = key_event (u8 v) (abs k).
Proof. exact (keyboard_handler_run h k esp). Qed.

(** Reading: the oldest waiting character is taken from the front of the
    queue; with nothing waiting the result is 0 and nothing changes. *)
Theorem keyboard_getchar_refines `{Hardware W} (h : W) k : kb_ok k ->
  exists k', keyboard_getchar (h, k) = Ret ((h, k'), default 0 (head (queue (abs k)))) /\ kb_ok k' /\
    queue (abs k') = tail (queue (abs k)) /\
    abs k' = mkKeyboard (shift (abs k)) (ctrl (abs k)) (alt (abs k)) (caps (abs k)) (num (abs k))
               (scroll (abs k)) (tail (queue (abs k))).
Proof.
  intros Hk. unfold keyboard_getchar. rewrite getk_bind. cbn [snd id queue abs].
  destruct (keyboard_is_buffer_empty k) eqn:Ee.
  - exists k. pose proof (proj1 (ring_empty k Hk) Ee) as Er. rewrite Er. split; [done|]. split; [done|].
    split; [reflexivity|]. unfold abs at 1. by rewrite Er.
  - destruct (ring_pop k Hk Ee) as (c & Hc & Er). rewrite Hc. cbn [deref]. rewrite lift_bind, modk_bind.
    eexists. split; [rewrite Er; reflexivity|]. split.
    + destruct Hk as [? ? ? ?]. constructor; cbn; try done. unfold is_u8. apply Z.mod_pos_bound. lia.
    + split; [by rewrite Er|]. unfold abs at 1. by rewrite Er.
Qed.

(** The scan codes of the letters with their lower-case characters. *)
Definition letter_keys : list (Z * Z) :=
  [(0x1E, 97); (0x30, 98); (0x2E, 99); (0x20, 100); (0x12, 101); (0x21, 102); (0x22, 103); (0x23, 104);
   (0x17, 105); (0x24, 106); (0x25, 107); (0x26, 108); (0x32, 109); (0x31, 110); (0x18, 111); (0x19, 112);
   (0x10, 113); (0x13, 114); (0x1F, 115); (0x14, 116); (0x16, 117); (0x2F, 118); (0x11, 119); (0x2D, 120);
   (0x15, 121); (0x2C, 122)].

(** Letters: a letter key gives its lower-case letter, the upper-case one
    with Shift or Caps Lock (which do not cancel each other), and with Ctrl
    alone the control code of the letter. *)
Theorem letter_translation k sc c : (sc, c) ∈ letter_keys ->
  keyboard_scancode_to_ascii k sc =
    Ret (if shift (abs k) || caps (abs k) then c - 32 else if ctrl (abs k) then c - 96 else c).
Proof.
  intros Hin. assert (Hb : forallb (fun '(s, c) => bool_decide (0 <= s < 128) &&
    bool_decide (zget keyboard_map_normal s = Some c) && bool_decide (zget keyboard_map_shift s = Some (c - 32)) &&
    bool_decide (97 <= c <= 122)) letter_keys = true) by (vm_compute; reflexivity).
  rewrite forallb_forall in Hb. specialize (Hb (sc, c) (proj1 (list_elem_of_In _ _) Hin)). cbv beta iota in Hb.
  rewrite !andb_true_iff, !bool_decide_eq_true in Hb. destruct Hb as (((Hr & H1) & H2) & H3).
  rewrite to_ascii_run by done. f_equal. unfold translate.
  destruct (shift (abs k) || caps (abs k)).
  - rewrite H2. cbn [default]. rewrite (bool_decide_eq_false_2 (97 <= c - 32 <= 122)) by lia. by rewrite andb_false_r.
  - rewrite H1. cbn [default]. rewrite (bool_decide_eq_true_2 (97 <= c <= 122)) by lia. by rewrite andb_true_r.
Qed.

(** ** Witnesses: left shift and then "a" arrive, and the "A" is read. *)
(** A data port that answers with the listed bytes, then with 0. *)
Definition script : Type := list Z.
#[export] Instance script_hardware : Hardware script := {|
  hw_out := fun _ _ _ t => t;
  hw_in := fun _ _ t => match t with v :: t' => (t', v) | [] => ([], 0) end
|}.

Definition empty_driver : KeyboardDriver := mkKD (replicate 256 0) 255 255 KEYBOARD_FLAG_SHIFT 0x2A.

Lemma empty_driver_ok : kb_ok empty_driver.
Proof. constructor; vm_compute; try reflexivity; split; congruence. Qed.

Definition waiting_driver : KeyboardDriver := mkKD (replicate 255 0 ++ [65]) 255 0 KEYBOARD_FLAG_SHIFT 0x1E.

Lemma waiting_driver_ok : kb_ok waiting_driver.
Proof. constructor; vm_compute; try reflexivity; split; congruence. Qed.

Lemma keyboard_handler_refines_witness :
  (let '(h', v) := hw_in 8 0x60 ([0x1E] : script) in
   exists k', keyboard_interrupt_handler 7 (([0x1E] : script), empty_driver) = Ret ((h', k'), 7) /\
     kb_ok k' /\ abs k' = key_event (u8 v) (abs empty_driver)) /\
  key_event 0x1E (abs empty_driver) = abs waiting_driver.
Proof.
  split; [exact (keyboard_handler_refines ([0x1E] : script) empty_driver 7 empty_driver_ok)|].
  vm_compute. reflexivity.
Defined.

Lemma keyboard_getchar_refines_witness :
  queue (abs waiting_driver) = [65] /\
  exists k', keyboard_getchar (([] : script), waiting_driver) =
      Ret ((([] : script), k'), default 0 (head (queue (abs waiting_driver)))) /\ kb_ok k' /\
    queue (abs k') = tail (queue (abs waiting_driver)) /\
    abs k' = mkKeyboard (shift (abs waiting_driver)) (ctrl (abs waiting_driver)) (alt (abs waiting_driver))
      (caps (abs waiting_driver)) (num (abs waiting_driver)) (scroll (abs waiting_driver))
      (tail (queue (abs waiting_driver))).
Proof.
  split; [vm_compute; reflexivity|].
  exact (keyboard_getchar_refines ([] : script) waiting_driver waiting_driver_ok).
Defined.

Lemma letter_translation_witness : keyboard_scancode_to_ascii empty_driver 0x1E = Ret 65.
Proof.
  rewrite (letter_translation empty_driver 0x1E 97); [vm_compute; reflexivity|].
  apply list_elem_of_here.
Defined.
