(* ===== verification/Frames.v ===== *)
(** * Page frame manager (the [pfm_*] functions of src/kernel/memory/paging.c)

    Physical memory above 16 MiB is divided into frames of 4 KiB. A bitmap says
    which are taken and an array holds the address and reference count of each.
    The state is the global [vmm->frame_manager]: [None] while it or [vmm] is
    NULL. [pfm_init], which allocates the two arrays, is in Paging.v. *)
From S2P Require Import Prelude Bitmap.

Definition PAGE_SIZE : Z := 4096.

Record PageFrame := mkFrame { physical_address : Z; reference_count : Z; frame_flags : Z }.

Record PageFrameManager := mkPFM {
  total_frames : Z; free_frames : Z; frame_bitmap : list Z; frames : list PageFrame
}.

Abbreviation F := (cmd (option PageFrameManager)).

Definition pfm_allocate_frame : F Z :=
  m ← gets id;
  match m with
  | None => mret 0
  | Some m =>
      r ← lift (bm_find_clear 32 (frame_bitmap m) 0 (Z.to_nat (total_frames m)));
      match r with
      | None => mret 0
      | Some i =>
          bm' ← lift (bm_set 32 (frame_bitmap m) i);
          f ← lift (deref (zget (frames m) i));
          fs' ← lift (deref (zset (frames m) i
                  (mkFrame (physical_address f) (u32 (reference_count f + 1)) (frame_flags f))));
          modify (fun _ => Some (mkPFM (total_frames m) (u32 (free_frames m - 1)) bm' fs'));;
          mret (physical_address f)
      end
  end.

Definition pfm_free_frame (frame_address : Z) : F unit :=
  m ← gets id;
  match m with
  | None => mret tt
  | Some m =>
      f0 ← lift (deref (zget (frames m) 0));
      let frame_index := u32 (frame_address - physical_address f0) / PAGE_SIZE in
      if decide (total_frames m <= frame_index) then mret tt else
      taken ← lift (bm_test 32 (frame_bitmap m) frame_index);
      if negb taken then mret tt else
      f ← lift (deref (zget (frames m) frame_index));
      let rc := u32 (reference_count f - 1) in
      if decide (rc = 0) then
        bm' ← lift (bm_clear 32 (frame_bitmap m) frame_index);
        fs' ← lift (deref (zset (frames m) frame_index (mkFrame (physical_address f) rc 0)));
        modify (fun _ => Some (mkPFM (total_frames m) (u32 (free_frames m + 1)) bm' fs'))
      else
        fs' ← lift (deref (zset (frames m) frame_index
                (mkFrame (physical_address f) rc (frame_flags f))));
        modify (fun _ => Some (mkPFM (total_frames m) (free_frames m) (frame_bitmap m) fs'))
  end.

Definition pfm_get_free_frames_count : F Z := gets (fun m => match m with None => 0 | Some m => free_frames m end).

(** ** Representation: the set of taken frames *)

Definition taken (m : PageFrameManager) (i : Z) : bool := bm_bit 32 (frame_bitmap m) i.

Record pfm_ok (base : Z) (m : PageFrameManager) : Prop := {
  ok_total : 0 <= total_frames m;
  ok_base : 0 < base /\ base + PAGE_SIZE * total_frames m <= 4294967296;
  ok_align : base mod PAGE_SIZE = 0;
  ok_bitmap : bm_wf 32 (frame_bitmap m);
  ok_bitmap_len : Z.of_nat (length (frame_bitmap m)) = (total_frames m + 31) / 32;
  ok_frames_len : Z.of_nat (length (frames m)) = total_frames m;
  ok_frames : forall i f, zget (frames m) i = Some f ->
    f = mkFrame (base + PAGE_SIZE * i) (if taken m i then 1 else 0) 0;
  ok_free : free_frames m = bm_clear_count 32 (frame_bitmap m) (total_frames m)
}.

Section frames.
Context (base : Z).
Implicit Types m : PageFrameManager.

Lemma bitmap_covers m : pfm_ok base m -> total_frames m <= bm_size 32 (frame_bitmap m).
Proof. intros [? ? ? ? Hl ? ? ?]. unfold bm_size. rewrite Hl. zdm. Qed.

Lemma count_bounds m : pfm_ok base m -> 0 <= free_frames m <= total_frames m.
Proof.
  intros [Ht ? ? ? ? ? ? ->]. unfold bm_clear_count.
  pose proof (length_filter (fun i => bm_bit 32 (frame_bitmap m) i = false) (seqZ 0 (total_frames m))) as Hf.
  rewrite length_seqZ in Hf. lia.
Qed.

Lemma frame_at m i : pfm_ok base m -> 0 <= i < total_frames m ->
  zget (frames m) i = Some (mkFrame (base + PAGE_SIZE * i) (if taken m i then 1 else 0) 0).
Proof.
  intros Hok Hi. destruct (zget_in_range (frames m) i) as [f Hf]; [rewrite (ok_frames_len _ _ Hok); lia|].
  rewrite Hf. f_equal. by apply (ok_frames _ _ Hok).
Qed.

(** Changing the state of one frame keeps the representation. *)
Lemma pfm_ok_update m i (b : bool) bm' fs' n :
  pfm_ok base m -> 0 <= i < total_frames m -> taken m i = negb b ->
  bm_wf 32 bm' -> length bm' = length (frame_bitmap m) ->
  (forall j, 0 <= j -> bm_bit 32 bm' j = if decide (j = i) then b else taken m j) ->
  zset (frames m) i (mkFrame (base + PAGE_SIZE * i) (if b then 1 else 0) 0) = Some fs' ->
  n = (if b then free_frames m - 1 else free_frames m + 1) ->
  pfm_ok base (mkPFM (total_frames m) n bm' fs').
Proof.
  intros Hok Hi Hold Hwf Hlen Hbits Hset ->. constructor; cbn;
    try (apply Hok || (rewrite ?Hlen; apply Hok)); [done| | |].
  - rewrite (zset_length _ _ _ _ Hset). apply Hok.
  - intros j f Hf. pose proof (zget_Some_range _ _ _ Hf) as [Hj _].
    unfold taken at 1. cbn. rewrite Hbits by done. destruct (decide (j = i)) as [->|Hne].
    + rewrite (zget_zset_eq _ _ _ _ Hset) in Hf. by injection Hf as <-.
    + rewrite (zget_zset_ne _ i j _ fs') in Hf by done. by apply (ok_frames _ _ Hok).
  - rewrite (ok_free _ _ Hok). destruct b; symmetry.
    + by apply bm_clear_count_set with i.
    + by apply bm_clear_count_clear with i.
Qed.

(** The abstract effect of an allocation. *)
Lemma allocate_run m : pfm_ok base m ->
  (pfm_allocate_frame (Some m) = Ret (Some m, 0) /\ (forall i, 0 <= i < total_frames m -> taken m i = true) /\
     free_frames m = 0) \/
  exists i m', 0 <= i < total_frames m /\ taken m i = false /\ (forall j, 0 <= j < i -> taken m j = true) /\
    pfm_allocate_frame (Some m) = Ret (Some m', base + PAGE_SIZE * i) /\ pfm_ok base m' /\
    total_frames m' = total_frames m /\
    (forall j, 0 <= j -> taken m' j = if decide (j = i) then true else taken m j) /\
    free_frames m' = free_frames m - 1.
Proof.
  intros Hok. pose proof (bitmap_covers m Hok) as Hcov. pose proof (ok_total _ _ Hok).
  destruct (bm_find_clear_spec 32 ltac:(lia) (frame_bitmap m) (Z.to_nat (total_frames m)) 0) as (r & Hr & Hspec); [lia..|].
  unfold pfm_allocate_frame. rewrite gets_bind. cbn [id]. rewrite Hr, lift_bind. destruct r as [i|].
  - destruct Hspec as (Hi & Hclear & Hbelow). right.
    assert (Hit : 0 <= i < total_frames m) by lia. clear Hi.
    destruct (bm_set_spec 32 ltac:(lia) (frame_bitmap m) i (ok_bitmap _ _ Hok)) as (bm' & -> & Hwf & Hlen & Hbits); [lia|].
    rewrite lift_bind, (frame_at m i) by (done || lia). unfold taken. rewrite Hclear. cbn [deref].
    rewrite lift_bind. cbn [physical_address reference_count frame_flags]. change (u32 (0 + 1)) with 1.
    destruct (zset (frames m) i (mkFrame (base + PAGE_SIZE * i) 1 0)) as [fs'|] eqn:Hs.
    2:{ unfold zset in Hs. rewrite decide_True in Hs by (rewrite (ok_frames_len _ _ Hok); lia). done. }
    cbn [deref]. rewrite lift_bind, modify_bind.
    assert (Hpos : 0 < free_frames m <= 4294967296).
    { pose proof (count_bounds m Hok). rewrite (ok_free _ _ Hok) in *. pose proof (ok_base _ _ Hok). unfold PAGE_SIZE in *.
      split; [|lia]. pose proof (bm_clear_count_set 32 (frame_bitmap m) bm' i (total_frames m) ltac:(lia) Hclear Hbits).
      assert (0 <= bm_clear_count 32 bm' (total_frames m)) by (unfold bm_clear_count; lia). lia. }
    rewrite u32_small by (unfold is_u32; lia).
    eexists i, _. split; [done|]. split; [done|]. split; [intros; apply Hbelow; lia|]. split; [done|].
    split; [by apply (pfm_ok_update m i true)|]. cbn. done.
  - left. split; [done|]. split; [intros; apply Hspec; lia|].
    pose proof (count_bounds m Hok). destruct (decide (free_frames m = 0)); [done|exfalso].
    destruct (bm_clear_count_pos 32 (frame_bitmap m) (total_frames m)) as (i & Hi & Hb); [rewrite <- (ok_free _ _ Hok); lia|].
    rewrite Hspec in Hb by lia. done.
Qed.

Lemma free_run m i off : pfm_ok base m -> 0 <= i < total_frames m -> 0 <= off < PAGE_SIZE ->
  exists m', pfm_free_frame (base + PAGE_SIZE * i + off) (Some m) = Ret (Some m', tt) /\ pfm_ok base m' /\
    total_frames m' = total_frames m /\
    (forall j, 0 <= j -> taken m' j = if decide (j = i) then false else taken m j) /\
    free_frames m' = (if taken m i then free_frames m + 1 else free_frames m) /\
    (taken m i = false -> m' = m).
Proof.
  intros Hok Hi Hoff. pose proof (bitmap_covers m Hok) as Hcov. pose proof (ok_base _ _ Hok) as Hb.
  unfold pfm_free_frame. rewrite gets_bind. cbn [id]. rewrite (frame_at m 0) by (done || lia).
  cbn [deref]. rewrite lift_bind. cbn [physical_address].
  assert (Hidx : u32 (base + PAGE_SIZE * i + off - (base + PAGE_SIZE * 0)) / PAGE_SIZE = i).
  { unfold PAGE_SIZE in *. rewrite u32_small by (unfold is_u32; lia). zdm. }
  rewrite Hidx. rewrite decide_False by lia. rewrite bm_test_spec by lia. rewrite lift_bind.
  fold (taken m i). destruct (taken m i) eqn:Et; cbn [negb].
  - rewrite (frame_at m i), Et by done. cbn [deref]. rewrite lift_bind.
    cbn [physical_address reference_count frame_flags]. change (u32 (1 - 1)) with 0. rewrite decide_True by done.
    destruct (bm_clear_spec 32 ltac:(lia) (frame_bitmap m) i (ok_bitmap _ _ Hok)) as (bm' & -> & Hwf & Hlen & Hbits); [lia|].
    rewrite lift_bind.
    destruct (zset (frames m) i (mkFrame (base + PAGE_SIZE * i) 0 0)) as [fs'|] eqn:Hs.
    2:{ unfold zset in Hs. rewrite decide_True in Hs by (rewrite (ok_frames_len _ _ Hok); lia). done. }
    cbn [deref]. rewrite lift_bind. pose proof (count_bounds m Hok).
    rewrite u32_small by (unfold is_u32, PAGE_SIZE in *; lia).
    eexists. split; [done|]. split; [by apply (pfm_ok_update m i false)|]. cbn. split; [done|]. by split.
  - exists m. split; [done|]. split; [done|]. split; [done|]. split; [|done].
    intros j Hj. case_decide; congruence.
Qed.

(** Addresses outside the managed range are ignored. *)
Lemma free_outside m a : pfm_ok base m -> 0 < total_frames m -> is_u32 a ->
  ~ base <= a < base + PAGE_SIZE * total_frames m ->
  pfm_free_frame a (Some m) = Ret (Some m, tt).
Proof.
  intros Hok Ht Ha Hout. pose proof (ok_base _ _ Hok) as Hb.
  unfold pfm_free_frame. rewrite gets_bind. cbn [id]. rewrite (frame_at m 0) by (done || lia).
  cbn [deref]. rewrite lift_bind. cbn [physical_address]. rewrite decide_True; [done|].
  unfold PAGE_SIZE, is_u32, u32 in *. zdm.
Qed.

(** A bitmap is determined by its bits. *)
Lemma bitmap_ext (bm bm' : list Z) : bm_wf 32 bm -> bm_wf 32 bm' -> length bm = length bm' ->
  (forall j, 0 <= j -> bm_bit 32 bm j = bm_bit 32 bm' j) -> bm = bm'.
Proof.
  intros Hwf Hwf' Hlen Hbits. apply list_eq_same_length with (length bm); [done..|].
  intros k x y Hk Hx Hy. apply Z.bits_inj'. intros n Hn.
  pose proof (Forall_lookup_1 _ _ _ _ Hwf Hx) as Hxr. pose proof (Forall_lookup_1 _ _ _ _ Hwf' Hy) as Hyr. cbn beta in Hxr, Hyr.
  destruct (decide (n < 32)) as [Hlt|Hge].
  - specialize (Hbits (32 * Z.of_nat k + n) ltac:(lia)). unfold bm_bit in Hbits.
    replace ((32 * Z.of_nat k + n) / 32) with (Z.of_nat k) in Hbits by zdm.
    replace ((32 * Z.of_nat k + n) mod 32) with n in Hbits by zdm.
    by rewrite !zget_lookup, !Nat2Z.id, Hx, Hy in Hbits by lia.
  - assert (Hhigh : forall z, 0 <= z < 2 ^ 32 -> Z.testbit z n = false).
    { intros z Hz. rewrite <- (Z.mod_small z (2 ^ 32)) by done. by rewrite Z.mod_pow2_bits_high by lia. }
    by rewrite !Hhigh.
Qed.
End frames.

(** Frame allocation. Either every frame is taken, NULL is returned and
    nothing changes; or the lowest free frame is taken: its address is
    returned, it is the only frame whose state changes, the free count drops by
    one, and the manager stays well formed. *)
Theorem pfm_allocate_lowest_free base m : pfm_ok base m ->
  exists m' a, pfm_allocate_frame (Some m) = Ret (Some m', a) /\ pfm_ok base m' /\
    ((a = 0 /\ m' = m /\ (forall i, 0 <= i < total_frames m -> taken m i = true) /\ free_frames m = 0) \/
     exists i, 0 <= i < total_frames m /\ a = base + 4096 * i /\ taken m i = false /\
       (forall j, 0 <= j < i -> taken m j = true) /\
       (forall j, 0 <= j -> taken m' j = if decide (j = i) then true else taken m j) /\
       free_frames m' = free_frames m - 1).
Proof.
  intros Hok. destruct (allocate_run base m Hok) as [(Hrun & Hall & Hz)|(i & m' & Hi & Hf & Hlow & Hrun & Hok' & _ & Hb & Hn)].
  - exists m, 0. split; [done|]. split; [done|]. by left.
  - exists m', (base + PAGE_SIZE * i). split; [done|]. split; [done|]. right. exists i. done.
Qed.

(** Freeing undoes an allocation exactly: after a frame was obtained, the
    manager is back to the state before it, whichever address inside the frame
    is given; and a second release of the same frame changes nothing. *)
Theorem pfm_free_undoes_allocate base m off : pfm_ok base m -> 0 < free_frames m -> 0 <= off < 4096 ->
  exists m1 a, pfm_allocate_frame (Some m) = Ret (Some m1, a) /\ a <> 0 /\
    pfm_free_frame (a + off) (Some m1) = Ret (Some m, tt) /\
    pfm_free_frame (a + off) (Some m) = Ret (Some m, tt).
Proof.
  intros Hok Hpos Hoff.
  destruct (allocate_run base m Hok) as [(_ & _ & Hz)|(i & m' & Hi & Hf & Hlow & Hrun & Hok' & Ht & Hb & Hn)]; [lia|].
  exists m', (base + PAGE_SIZE * i). pose proof (ok_base _ _ Hok). split; [done|]. split; [unfold PAGE_SIZE; lia|].
  destruct (free_run base m' i off Hok' ltac:(lia) Hoff) as (m2 & Hrun2 & Hok2 & Ht2 & Hb2 & Hn2 & _).
  rewrite Hb, decide_True in Hn2 by lia.
  assert (Hbits : forall j, 0 <= j -> taken m2 j = taken m j).
  { intros j Hj. rewrite Hb2, Hb by done. case_decide; by subst. }
  assert (Hlen : length (frame_bitmap m2) = length (frame_bitmap m)).
  { pose proof (ok_bitmap_len _ _ Hok). pose proof (ok_bitmap_len _ _ Hok2). rewrite Ht2, Ht in *. lia. }
  assert (Hbm : frame_bitmap m2 = frame_bitmap m) by (apply bitmap_ext; [apply Hok2|apply Hok|done|exact Hbits]).
  assert (Hfr : frames m2 = frames m).
  { apply list_eq. intros k. rewrite <- (Nat2Z.id k), <- !zget_lookup by lia.
    destruct (decide (Z.of_nat k < total_frames m)).
    - rewrite (frame_at base m2), (frame_at base m) by (done || lia). by rewrite Hbits by lia.
    - rewrite !zget_lookup by lia. pose proof (ok_frames_len _ _ Hok). pose proof (ok_frames_len _ _ Hok2).
      rewrite !lookup_ge_None_2; [done|lia..]. }
  assert (m2 = m) as ->. { destruct m, m2. cbn in *. f_equal; [lia|lia|done|done]. }
  split; [done|]. destruct (free_run base m i off Hok Hi Hoff) as (m3 & Hrun3 & _ & _ & _ & _ & Hsame).
  by rewrite Hsame in Hrun3.
Qed.

(** ** Witnesses: three frames from 16 MiB, the first one taken. *)
Definition three_frames : PageFrameManager :=
  mkPFM 3 2 [1] [mkFrame 0x1000000 1 0; mkFrame 0x1001000 0 0; mkFrame 0x1002000 0 0].

Lemma three_frames_ok : pfm_ok 0x1000000 three_frames.
Proof.
  constructor; [vm_compute; discriminate|split; vm_compute; [reflexivity|discriminate]|vm_compute; reflexivity| |
    vm_compute; reflexivity|vm_compute; reflexivity| |vm_compute; reflexivity].
  - repeat constructor; lia.
  - intros i f Hf. pose proof (zget_Some_range _ _ _ Hf) as Hi. change (0 <= i < 3) in Hi.
    assert (Hcase : i = 0 \/ i = 1 \/ i = 2) by lia.
    destruct Hcase as [-> | [-> | ->]]; vm_compute in Hf; injection Hf as <-; reflexivity.
Qed.

Lemma pfm_allocate_lowest_free_witness :
  (exists m' a, pfm_allocate_frame (Some three_frames) = Ret (Some m', a) /\ pfm_ok 0x1000000 m' /\
    ((a = 0 /\ m' = three_frames /\ (forall i, 0 <= i < 3 -> taken three_frames i = true) /\ free_frames three_frames = 0) \/
     exists i, 0 <= i < 3 /\ a = 0x1000000 + 4096 * i /\ taken three_frames i = false /\
       (forall j, 0 <= j < i -> taken three_frames j = true) /\
       (forall j, 0 <= j -> taken m' j = if decide (j = i) then true else taken three_frames j) /\
       free_frames m' = free_frames three_frames - 1)) /\
  pfm_allocate_frame (Some three_frames) =
    Ret (Some (mkPFM 3 1 [3] [mkFrame 0x1000000 1 0; mkFrame 0x1001000 1 0; mkFrame 0x1002000 0 0]), 0x1001000).
Proof. split; [exact (pfm_allocate_lowest_free 0x1000000 three_frames three_frames_ok)|vm_compute; reflexivity]. Defined.

Lemma pfm_free_undoes_allocate_witness :
  exists m1 a, pfm_allocate_frame (Some three_frames) = Ret (Some m1, a) /\ a <> 0 /\
    pfm_free_frame (a + 5) (Some m1) = Ret (Some three_frames, tt) /\
    pfm_free_frame (a + 5) (Some three_frames) = Ret (Some three_frames, tt).
Proof. apply (pfm_free_undoes_allocate 0x1000000 three_frames 5 three_frames_ok); cbn; lia. Defined.
