(* ===== verification/Paging.v ===== *)
(** * Page directories, address ranges and page faults (src/kernel/memory/paging.c)

    Page directories and page tables are blocks of 1024 words in a word-addressed
    memory, indexed by address; entries are words whose bit fields are read and
    written as the C bit fields are. Every object is 4-aligned, so words never
    overlap. Paging is modelled as the code programs it: the tables, CR0, CR2,
    CR3 and the TLB invalidations; memory accesses are not translated, since
    initialisation stops in a [while(1)] before it turns paging on. *)
From S2P Require Import Prelude Bitmap Chain Frames.

Definition PAGE_MASK : Z := 0xFFFFF000.
Definition OFFSET_MASK : Z := 0x00000FFF.
Definition PAGE_DIR_ENTRIES : Z := 1024.
Definition PTE_PRESENT : Z := 0x001.
Definition PTE_WRITABLE : Z := 0x002.
Definition PTE_USER : Z := 0x004.
Definition PTE_WRITE_THROUGH : Z := 0x008.
Definition PTE_CACHE_DISABLED : Z := 0x010.

(** ** Entries: the fields of PageDirectoryEntry and PageTableEntry *)

Definition present (e : Z) : bool := Z.testbit e 0.
Definition read_write (e : Z) : bool := Z.testbit e 1.
Definition page_base_address (e : Z) : Z := Z.land (Z.shiftr e 12) 0xFFFFF.

Definition set_bit (n : Z) (b : bool) (e : Z) : Z := if b then Z.setbit e n else Z.clearbit e n.
Definition set_base (v e : Z) : Z := Z.lor (Z.land e 0xFFF) (Z.shiftl (Z.land v 0xFFFFF) 12).

Definition has (flags f : Z) : bool := bool_decide (Z.land flags f <> 0).

(** The six assignments with which both kinds of entry are filled. *)
Definition fill_entry (flags base e : Z) : Z :=
  set_base base
    (set_bit 4 (has flags PTE_CACHE_DISABLED)
      (set_bit 3 (has flags PTE_WRITE_THROUGH)
        (set_bit 2 (has flags PTE_USER)
          (set_bit 1 (has flags PTE_WRITABLE)
            (set_bit 0 true e))))).

(** ** The state *)

Inductive MemoryRegionType : Set :=
| MEMORY_KERNEL | MEMORY_CODE | MEMORY_DATA | MEMORY_HEAP | MEMORY_STACK | MEMORY_MAPPED_FILE.

Record MemoryRegion := mkRegion {
  r_virtual_address : Z; r_physical_address : Z; r_size : Z; r_flags : Z;
  r_type : MemoryRegionType; r_next : Z
}.

Record VirtualMemoryManager := mkVMM {
  frame_manager : option PageFrameManager; kernel_directory : Z; kernel_start : Z; kernel_end : Z
}.

(** [invlpg]: the addresses invalidated, latest first. *)
Record cpu_state := mkCpu { cr0 : Z; cr2 : Z; cr3 : Z; invlpg : list Z }.

(** [vmm] is the global pointer: [None] while NULL. *)
Record vstate := mkV {
  words : gmap Z Z; vmm : option VirtualMemoryManager; regions : gmap Z MemoryRegion; cpu : cpu_state
}.
Abbreviation V := (cmd vstate).

Definition with_words m s := mkV m (vmm s) (regions s) (cpu s).
Definition with_vmm v s := mkV (words s) v (regions s) (cpu s).
Definition with_regions r s := mkV (words s) (vmm s) r (cpu s).
Definition with_cpu c s := mkV (words s) (vmm s) (regions s) c.
Definition set_fm f v := mkVMM f (kernel_directory v) (kernel_start v) (kernel_end v).

Definition rdw (a : Z) : V Z := m ← gets words; lift (deref (m !! a)).
Definition wrw (a w : Z) : V unit :=
  _ ← rdw a; modify (fun s => with_words (<[a := w]> (words s)) s).
(** Read-modify-write of an entry. *)
Definition upw (a : Z) (f : Z -> Z) : V unit := w ← rdw a; wrw a (f w).

(** [memset(a, 0, 4 * n)] and [memcpy(dst, src, 4 * n)]. *)
Fixpoint clear_words (n : nat) (a : Z) : V unit :=
  match n with O => mret tt | S n' => wrw a 0;; clear_words n' (a + 4) end.
Fixpoint copy_words (n : nat) (dst src : Z) : V unit :=
  match n with O => mret tt | S n' => w ← rdw src; wrw dst w;; copy_words n' (dst + 4) (src + 4) end.

(** The frame manager behind [vmm]. *)
Definition fm_of (s : vstate) : option PageFrameManager :=
  match vmm s with Some v => frame_manager v | None => None end.
Definition on_frames {A} (c : F A) : V A := fun s =>
  match c (fm_of s) with
  | Ret (f, a) => Ret (match vmm s with Some v => with_vmm (Some (set_fm f v)) s | None => s end, a)
  | Fault => Fault
  | Spin => Spin
  end.

Definition flush (va : Z) : V unit :=
  modify (fun s => with_cpu (mkCpu (cr0 (cpu s)) (cr2 (cpu s)) (cr3 (cpu s)) (va :: invlpg (cpu s))) s).
Definition set_cr3 (a : Z) : V unit :=
  modify (fun s => with_cpu (mkCpu (cr0 (cpu s)) (cr2 (cpu s)) a (invlpg (cpu s))) s).
Definition get_cr3 : V Z := gets (fun s => cr3 (cpu s)).
Definition set_cr0 (a : Z) : V unit :=
  modify (fun s => with_cpu (mkCpu a (cr2 (cpu s)) (cr3 (cpu s)) (invlpg (cpu s))) s).
Definition get_cr0 : V Z := gets (fun s => cr0 (cpu s)).

(** What paging.c calls: the heap, the process manager, the timer interrupt and
    the file system. [current_process] is the pid, page directory and list of
    memory regions of the current process, if there is one. *)
Class Env := {
  malloc : Z -> V Z;
  free : Z -> V unit;
  current_process : V (option (Z * Z * Z));
  terminate_process : Z -> Z -> V unit;
  int20 : V unit;
  vfs_open : list Z -> Z -> V Z;
  vfs_close : Z -> V unit;
  memupper_global : Z
}.

Definition dir_index (va : Z) : Z := Z.land (Z.shiftr va 22) 0x3FF.
Definition table_index (va : Z) : Z := Z.land (Z.shiftr va 12) 0x3FF.
(** [(PageTable* )(entry.page_table_base_address << 12)]. *)
Definition table_of (e : Z) : Z := Z.shiftl (page_base_address e) 12.

Section paging.
Context `{Env}.

Definition sizeof_PageFrame : Z := 12.

(** Initialisation of the frame manager; the NULL results of [malloc] are not
    tested before [memset]. *)
Definition pfm_init (start_address size : Z) : V PageFrameManager :=
  let start_address := Z.land (u32 (start_address + PAGE_SIZE - 1)) PAGE_MASK in
  let total := size / PAGE_SIZE in
  let bitmap_size := u32 (total + 31) / 32 in
  bm ← malloc (u32 (bitmap_size * 4));
  (if decide (bm = 0 /\ 0 < bitmap_size) then fault else mret tt);;
  fs ← malloc (u32 (total * sizeof_PageFrame));
  (if decide (fs = 0 /\ 0 < total) then fault else mret tt);;
  mret (mkPFM total total (replicate (Z.to_nat bitmap_size) 0)
    ((fun i => mkFrame (u32 (start_address + i * PAGE_SIZE)) 0 0) <$> seqZ 0 total)).

Definition sizeof_PageDirectory : Z := 4096.

Definition pd_create : V Z :=
  directory ← malloc sizeof_PageDirectory;
  if decide (directory = 0) then mret 0 else
  clear_words 1024 directory;;
  v ← gets vmm;
  match v with
  | Some v =>
      if decide (kernel_directory v <> 0 /\ directory <> kernel_directory v) then
        copy_words 256 (directory + 4 * 768) (kernel_directory v + 4 * 768);; mret directory
      else mret directory
  | None => mret directory
  end.

(** for (i = i; i < i + n; i++) if (entries[i].present) free(table) *)
Fixpoint free_tables (n : nat) (directory i : Z) : V unit :=
  match n with
  | O => mret tt
  | S n' =>
      e ← rdw (directory + 4 * i);
      (if present e then free (table_of e) else mret tt);;
      free_tables n' directory (i + 1)
  end.

(** With [vmm] NULL the comparison with [vmm->kernel_directory] faults. *)
Definition pd_destroy (directory : Z) : V unit :=
  if decide (directory = 0) then mret tt else
  v ← gets vmm;
  v ← lift (deref v);
  if decide (directory = kernel_directory v) then mret tt else
  free_tables 768 directory 0;;
  free directory.

Definition pd_get_physical_address (directory va : Z) : V Z :=
  if decide (directory = 0) then mret 0 else
  e ← rdw (directory + 4 * dir_index va);
  if negb (present e) then mret 0 else
  w ← rdw (table_of e + 4 * table_index va);
  if negb (present w) then mret 0 else
  mret (Z.lor (Z.shiftl (page_base_address w) 12) (Z.land va OFFSET_MASK)).

Definition pd_switch (directory : Z) : V unit :=
  if decide (directory = 0) then mret tt else set_cr3 directory.

(** The creation of a missing page table in [pd_map_page]; [false] when there
    is no memory. *)
Definition ensure_table (directory va flags : Z) : V bool :=
  e ← rdw (directory + 4 * dir_index va);
  if present e then mret true else
  table ← malloc 4096;
  if decide (table = 0) then mret false else
  clear_words 1024 table;;
  upw (directory + 4 * dir_index va) (fill_entry flags (Z.shiftr table 12));;
  mret true.

Definition pd_map_page (directory va pa flags : Z) : V Z :=
  if decide (directory = 0 \/ pa = 0) then mret (-1) else
  ok ← ensure_table directory va flags;
  if negb ok then mret (-1) else
  e ← rdw (directory + 4 * dir_index va);
  upw (table_of e + 4 * table_index va) (fill_entry flags (Z.shiftr pa 12));;
  flush va;;
  mret 0.

Definition pd_unmap_page (directory va : Z) : V Z :=
  if decide (directory = 0) then mret (-1) else
  e ← rdw (directory + 4 * dir_index va);
  if negb (present e) then mret 0 else
  w ← rdw (table_of e + 4 * table_index va);
  if negb (present w) then mret 0 else
  wrw (table_of e + 4 * table_index va) 0;;
  flush va;;
  on_frames (pfm_free_frame (Z.shiftl (page_base_address w) 12));;
  mret 0.

Definition enable_paging : V unit := c ← get_cr0; set_cr0 (Z.lor c 0x80000000).
Definition disable_paging : V unit := c ← get_cr0; set_cr0 (Z.land c (Z.lnot 0x80000000)).
Definition get_current_page_directory : V Z := get_cr3.

(** ** Ranges *)

(** Enough for a loop over the pages of [size] bytes. *)
Definition pages_fuel (size : Z) : nat := S (Z.to_nat (size / PAGE_SIZE)).

(** for (; j < limit; j += PAGE_SIZE) pd_unmap_page(directory, va + j) *)
Fixpoint unmap_loop (fuel : nat) (directory va limit j : Z) : V unit :=
  match fuel with
  | O => spin
  | S fuel' =>
      if decide (j < limit) then
        pd_unmap_page directory (u32 (va + j));; unmap_loop fuel' directory va limit (u32 (j + PAGE_SIZE))
      else mret tt
  end.

Fixpoint allocate_loop (fuel : nat) (directory va size flags i : Z) : V Z :=
  match fuel with
  | O => spin
  | S fuel' =>
      if decide (i < size) then
        phys ← on_frames pfm_allocate_frame;
        if decide (phys = 0) then
          unmap_loop (pages_fuel i) directory va i 0;; mret (-1)
        else
          r ← pd_map_page directory (u32 (va + i)) phys flags;
          if decide (r <> 0) then
            on_frames (pfm_free_frame phys);;
            unmap_loop (pages_fuel i) directory va i 0;; mret (-1)
          else allocate_loop fuel' directory va size flags (u32 (i + PAGE_SIZE))
      else mret 0
  end.

Definition round_size (size : Z) : Z := Z.land (u32 (size + PAGE_SIZE - 1)) PAGE_MASK.

Definition vmm_allocate_pages (directory va size flags : Z) : V Z :=
  if decide (directory = 0) then mret (-1) else
  let va := Z.land va PAGE_MASK in
  let size := round_size size in
  allocate_loop (pages_fuel size) directory va size flags 0.

Definition vmm_free_pages (directory va size : Z) : V Z :=
  if decide (directory = 0) then mret (-1) else
  let va := Z.land va PAGE_MASK in
  let size := round_size size in
  unmap_loop (pages_fuel size) directory va size 0;; mret 0.

Fixpoint map_loop (fuel : nat) (directory va pa size flags i : Z) : V Z :=
  match fuel with
  | O => spin
  | S fuel' =>
      if decide (i < size) then
        r ← pd_map_page directory (u32 (va + i)) (u32 (pa + i)) flags;
        if decide (r <> 0) then
          unmap_loop (pages_fuel i) directory va i 0;; mret (-1)
        else map_loop fuel' directory va pa size flags (u32 (i + PAGE_SIZE))
      else mret 0
  end.

Definition vmm_map_pages (directory va pa size flags : Z) : V Z :=
  if decide (directory = 0 \/ pa = 0) then mret (-1) else
  let va := Z.land va PAGE_MASK in
  let pa := Z.land pa PAGE_MASK in
  let size := round_size size in
  map_loop (pages_fuel size) directory va pa size flags 0.

Definition vmm_unmap_pages (directory va size : Z) : V Z := vmm_free_pages directory va size.

(** ** Regions and mapped files *)

Definition sizeof_MemoryRegion : Z := 24.

Definition vmm_create_memory_region (va size flags : Z) (type : MemoryRegionType) : V Z :=
  region ← malloc sizeof_MemoryRegion;
  if decide (region = 0) then mret 0 else
  modify (fun s => with_regions (<[region := mkRegion va 0 size flags type 0]> (regions s)) s);;
  mret region.

Definition vmm_destroy_memory_region (region : Z) : V unit :=
  if decide (region <> 0) then free region else mret tt.

Definition O_RDONLY : Z := 0x0001.

Definition vmm_map_file (directory : Z) (filename : list Z) (va flags : Z) : V Z :=
  fd ← vfs_open filename O_RDONLY;
  if decide (fd < 0) then mret (-1) else
  vfs_close fd;;
  vmm_allocate_pages directory va (round_size 4096) flags.

Definition vmm_unmap_file (directory va : Z) : V Z := vmm_free_pages directory va PAGE_SIZE.

(** ** Page faults *)

(** The copy-on-write branch; [true] when the fault was handled. *)
Definition handle_cow (directory fault_address : Z) : V bool :=
  e ← rdw (directory + 4 * dir_index fault_address);
  if negb (present e) then mret false else
  let slot := table_of e + 4 * table_index fault_address in
  w ← rdw slot;
  if negb (present w) then mret false else
  if read_write w then mret false else
  new_physical ← on_frames pfm_allocate_frame;
  if decide (new_physical = 0) then mret false else
  copy_words 1024 new_physical (Z.shiftl (page_base_address w) 12);;
  upw slot (set_base (Z.shiftr new_physical 12));;
  upw slot (set_bit 1 true);;
  flush fault_address;;
  mret true.

(** The walk over the regions; the first one that contains the address decides. *)
Fixpoint demand_loop (fuel : nat) (directory fault_address region : Z) : V bool :=
  match fuel with
  | O => spin
  | S fuel' =>
      if decide (region = 0) then mret false else
      rs ← gets regions;
      r ← lift (deref (rs !! region));
      if decide (r_virtual_address r <= fault_address /\
                 fault_address < u32 (r_virtual_address r + r_size r)) then
        pa ← on_frames pfm_allocate_frame;
        if decide (pa = 0) then mret false else
        clear_words 1024 pa;;
        c ← pd_map_page directory (Z.land fault_address PAGE_MASK) pa (r_flags r);
        if decide (c = 0) then flush fault_address;; mret true else mret false
      else demand_loop fuel' directory fault_address (r_next r)
  end.

Definition page_fault_handler (error_code : Z) : V unit :=
  fault_address ← gets (fun s => cr2 (cpu s));
  handled ←
    (if has error_code 0x4 then
       cur ← current_process;
       match cur with
       | None => spin
       | Some (pid, directory, head) =>
           cow ← (if negb (has error_code 0x1) && has error_code 0x2
                  then handle_cow directory fault_address else mret false);
           if (cow : bool) then mret true
           else if has error_code 0x1 then
             fuel ← gets (fun s => S (size (regions s)));
             demand_loop fuel directory fault_address head
           else mret false
       end
     else mret false);
  if (handled : bool) then mret tt
  else if has error_code 0x4 then
    cur ← current_process;
    match cur with
    | Some (pid, _, _) => terminate_process pid (-1);; int20
    | None => mret tt
    end
  else spin.

(** ** Initialisation *)

(** for (virt; virt < kernel_end; virt += PAGE_SIZE) pd_map_page(dir, virt, virt, ...).
    The counter wraps for a [kernel_end] above 2^32 - 4096. *)
Fixpoint identity_loop (fuel : nat) (directory virt kend : Z) : V unit :=
  match fuel with
  | O => spin
  | S fuel' =>
      if decide (virt < kend) then
        pd_map_page directory virt virt (Z.lor PTE_PRESENT PTE_WRITABLE);;
        identity_loop fuel' directory (u32 (virt + PAGE_SIZE)) kend
      else mret tt
  end.

Definition sizeof_PageFrameManager : Z := 16.

(** [m0] is what the caller's structure holds before the call. After the
    switch to the kernel directory the function stays in [while(1)]: what
    follows it in the source is never executed. *)
Definition on_init_virtual_memory_manager (m0 : VirtualMemoryManager) (kstart kend : Z) : V unit :=
  modify (with_vmm (Some m0));;
  fm ← malloc sizeof_PageFrameManager;
  if decide (fm = 0) then mret tt else
  let total_memory := u32 (memupper_global * 1024) in
  let frame_manager_start := 16 * 1024 * 1024 in
  m ← pfm_init frame_manager_start (u32 (total_memory - frame_manager_start));
  modify (with_vmm (Some (mkVMM (Some m) (kernel_directory m0) kstart kend)));;
  d ← pd_create;
  v ← gets vmm;
  modify (with_vmm ((fun v => mkVMM (frame_manager v) d (kernel_start v) (kernel_end v)) <$> v));;
  if decide (d = 0) then mret tt else
  identity_loop (pages_fuel (kend - kstart + PAGE_SIZE)) d kstart kend;;
  pd_switch d;;
  spin.
End paging.

(** ** Fields of an entry *)
Section entries.
Lemma base_arith e : page_base_address e = (e / 4096) mod 1048576.
Proof. unfold page_base_address. rewrite Z.shiftr_div_pow2 by lia. by rewrite (land_mask _ 20) by lia. Qed.

Lemma base_range e : 0 <= page_base_address e < 1048576.
Proof. rewrite base_arith. by apply Z.mod_pos_bound. Qed.

Lemma set_base_base v e : page_base_address (set_base v e) = v mod 1048576.
Proof.
  unfold set_base. change 0xFFFFF with (2 ^ 20 - 1). change 0xFFF with (2 ^ 12 - 1).
  rewrite Z.shiftl_mul_pow2, !land_mask by lia.
  rewrite Z.lor_comm, lor_high_low by (try lia; apply Z.mod_pos_bound; lia).
  rewrite base_arith. pose proof (Z.mod_pos_bound v (2 ^ 20) ltac:(lia)).
  pose proof (Z.mod_pos_bound e (2 ^ 12) ltac:(lia)). change (2 ^ 20) with 1048576 in *. change (2 ^ 12) with 4096 in *.
  rewrite Z.div_add_l, (Z.div_small (e mod 4096)), Z.add_0_r by lia. by rewrite Zmod_mod.
Qed.

Lemma testbit_low_mask n : 0 <= n < 12 -> Z.testbit 0xFFF n = true.
Proof. intros. change 0xFFF with (Z.ones 12). rewrite Z.testbit_ones_nonneg by lia. apply Z.ltb_lt. lia. Qed.

Lemma set_base_low v e n : 0 <= n < 12 -> Z.testbit (set_base v e) n = Z.testbit e n.
Proof.
  intros. unfold set_base. rewrite Z.lor_spec, Z.land_spec, (testbit_low_mask n) by lia.
  by rewrite Z.shiftl_spec_low, andb_true_r, orb_false_r by lia.
Qed.

Lemma set_bit_spec n b e k : 0 <= n -> 0 <= k ->
  Z.testbit (set_bit n b e) k = if decide (k = n) then b else Z.testbit e k.
Proof.
  intros. unfold set_bit. destruct b.
  - rewrite Z.setbit_eqb by done. case_decide; [subst; by rewrite Z.eqb_refl|].
    by rewrite (proj2 (Z.eqb_neq n k)) by lia.
  - rewrite Z.clearbit_eqb by done. case_decide; [subst; rewrite Z.eqb_refl; apply andb_false_r|].
    rewrite (proj2 (Z.eqb_neq n k)) by lia. apply andb_true_r.
Qed.

Lemma fill_present flags base e : present (fill_entry flags base e) = true.
Proof. unfold present, fill_entry. rewrite set_base_low by lia. by rewrite !set_bit_spec by lia. Qed.

Lemma fill_writable flags base e : read_write (fill_entry flags base e) = has flags PTE_WRITABLE.
Proof. unfold read_write, fill_entry. rewrite set_base_low by lia. by rewrite !set_bit_spec by lia. Qed.

Lemma fill_base flags base e : page_base_address (fill_entry flags base e) = base mod 1048576.
Proof. apply set_base_base. Qed.

Lemma table_of_arith e : table_of e = page_base_address e * 4096.
Proof. unfold table_of. by rewrite Z.shiftl_mul_pow2 by lia. Qed.


Lemma dir_index_arith va : dir_index va = (va / 4194304) mod 1024.
Proof. unfold dir_index. rewrite Z.shiftr_div_pow2 by lia. by rewrite (land_mask _ 10) by lia. Qed.

Lemma table_index_arith va : table_index va = (va / 4096) mod 1024.
Proof. unfold table_index. rewrite Z.shiftr_div_pow2 by lia. by rewrite (land_mask _ 10) by lia. Qed.

Lemma dir_index_range va : 0 <= dir_index va < 1024.
Proof. rewrite dir_index_arith. by apply Z.mod_pos_bound. Qed.

Lemma table_index_range va : 0 <= table_index va < 1024.
Proof. rewrite table_index_arith. by apply Z.mod_pos_bound. Qed.

(** Two addresses use the same slot exactly when they are in the same page. *)
Lemma same_slot u v : is_u32 u -> is_u32 v ->
  (dir_index u = dir_index v /\ table_index u = table_index v) <-> u / 4096 = v / 4096.
Proof.
  unfold is_u32. intros. rewrite !dir_index_arith, !table_index_arith. split; [intros [? ?]; zdm|].
  intros E. split; [|by rewrite E].
  replace (u / 4194304) with (u / 4096 / 1024) by (rewrite Z.div_div by lia; done).
  by rewrite E, Z.div_div by lia.
Qed.

Lemma frame_of_page a : is_u32 a -> Z.shiftr a 12 mod 1048576 = a / 4096.
Proof.
  unfold is_u32. intros. rewrite Z.shiftr_div_pow2 by lia. change (2 ^ 12) with 4096. apply Z.mod_small. zdm.
Qed.

Lemma page_mask_arith a : is_u32 a -> Z.land a PAGE_MASK = a / 4096 * 4096.
Proof.
  unfold is_u32. intros. change PAGE_MASK with ((2 ^ 20 - 1) * 2 ^ 12). rewrite land_mask_high by lia.
  change (2 ^ 12) with 4096. change (2 ^ 20) with 1048576. rewrite (Z.mod_small (a / 4096)) by zdm. done.
Qed.
End entries.

(** ** Translation *)

(** The word with which a directory maps a virtual address, and its translation;
    0 stands for unmapped, as in the code. *)
Definition slot_of (m : gmap Z Z) (d va : Z) : option Z :=
  e ← m !! (d + 4 * dir_index va);
  if present e then Some (table_of e + 4 * table_index va) else None.

Definition translate (m : gmap Z Z) (d va : Z) : Z :=
  match slot_of m d va with
  | Some a => match m !! a with
              | Some w => if present w then page_base_address w * 4096 + va mod 4096 else 0
              | None => 0
              end
  | None => 0
  end.

Definition dir_entry (m : gmap Z Z) (d i e : Z) : Prop :=
  0 <= i < 1024 /\ m !! (d + 4 * i) = Some e /\ present e = true.

(** A well-formed directory: its words and those of its tables are mapped, and
    they are all distinct. *)
Record dir_ok (m : gmap Z Z) (d : Z) : Prop := {
  dir_words : forall i, 0 <= i < 1024 -> is_Some (m !! (d + 4 * i));
  table_words : forall i e j, dir_entry m d i e -> 0 <= j < 1024 -> is_Some (m !! (table_of e + 4 * j));
  table_not_dir : forall i e j k, dir_entry m d i e -> 0 <= j < 1024 -> 0 <= k < 1024 ->
    table_of e + 4 * j <> d + 4 * k;
  table_distinct : forall i i' e e', dir_entry m d i e -> dir_entry m d i' e' -> i <> i' -> table_of e <> table_of e'
}.

(** Other fields than the memory and the TLB log are as before. *)
Definition same_system (s s' : vstate) : Prop :=
  vmm s' = vmm s /\ regions s' = regions s /\ cr3 (cpu s') = cr3 (cpu s) /\ cr0 (cpu s') = cr0 (cpu s).

Lemma same_system_refl s : same_system s s.
Proof. done. Qed.


(** What paging.c relies on from the heap: NULL, or fresh bytes. *)
Class HeapLaws `{Env} : Prop := {
  malloc_law : forall n s, 0 < n -> exists s' a, malloc n s = Ret (s', a) /\ same_system s s' /\
    ((a = 0 /\ s' = s) \/
     (0 < a /\ a + n <= 4294967296 /\ a mod 4 = 0 /\
      (forall x, a <= x < a + n -> words s !! x = None) /\
      (forall k, 0 <= k -> 4 * k < n -> is_Some (words s' !! (a + 4 * k))) /\
      (forall x, ~ a <= x < a + n -> words s' !! x = words s !! x)))
}.

Section runs.
Lemma rdw_bind {B} a w (k : Z -> V B) s : words s !! a = Some w -> (rdw a ≫= k) s = k w s.
Proof. intros E. apply cmd_bind_eq. unfold rdw. by rewrite gets_bind, E. Qed.

Lemma wrw_run a w w0 s : words s !! a = Some w0 -> wrw a w s = Ret (with_words (<[a := w]> (words s)) s, tt).
Proof. intros E. unfold wrw. by rewrite (rdw_bind a w0). Qed.

Lemma upw_run a f w0 s : words s !! a = Some w0 ->
  upw a f s = Ret (with_words (<[a := f w0]> (words s)) s, tt).
Proof. intros E. unfold upw. rewrite (rdw_bind a w0) by done. by apply (wrw_run _ _ w0). Qed.

(** Clearing a block. *)
Lemma clear_words_run n : forall a s, (forall k, 0 <= k < Z.of_nat n -> is_Some (words s !! (a + 4 * k))) ->
  exists m, clear_words n a s = Ret (with_words m s, tt) /\
    (forall k, 0 <= k < Z.of_nat n -> m !! (a + 4 * k) = Some 0) /\
    (forall x, (forall k, 0 <= k < Z.of_nat n -> x <> a + 4 * k) -> m !! x = words s !! x).
Proof.
  induction n as [|n IH]; intros a s Hm; cbn [clear_words].
  { exists (words s). split; [by destruct s|]. split; [lia|done]. }
  destruct (Hm 0 ltac:(lia)) as [w0 Hw0]. replace (a + 4 * 0) with a in Hw0 by lia.
  rewrite (cmd_bind_eq _ _ _ _ _ (wrw_run a 0 w0 s Hw0)).
  destruct (IH (a + 4) (with_words (<[a := 0]> (words s)) s)) as (m & Hrun & Hin & Hout).
  { intros k Hk. cbn. rewrite lookup_insert_ne by lia. replace (a + 4 + 4 * k) with (a + 4 * (k + 1)) by lia.
    apply Hm. lia. }
  exists m. split; [exact Hrun|]. split.
  - intros k Hk. destruct (decide (k = 0)) as [->|].
    + rewrite Hout by lia. cbn. replace (a + 4 * 0) with a by lia. apply lookup_insert_eq.
    + replace (a + 4 * k) with (a + 4 + 4 * (k - 1)) by lia. apply Hin. lia.
  - intros x Hx. rewrite Hout.
    + cbn. apply lookup_insert_ne. intros ->. apply (Hx 0); lia.
    + intros k Hk ->. apply (Hx (k + 1)); lia.
Qed.
End runs.

Section map.
Implicit Types m : gmap Z Z.

Lemma get_run `{Env} s d va : dir_ok (words s) d -> d <> 0 ->
  pd_get_physical_address d va s = Ret (s, translate (words s) d va).
Proof.
  intros Hd Hd0. unfold pd_get_physical_address, translate, slot_of. rewrite decide_False by done.
  destruct (dir_words _ _ Hd (dir_index va)) as [e He]; [apply dir_index_range|].
  rewrite (rdw_bind _ e), He by done. cbn [mbind option_bind].
  destruct (present e) eqn:Ep; cbn [negb]; [|done].
  destruct (table_words _ _ Hd (dir_index va) e (table_index va)) as [w Hw];
    [by split; [apply dir_index_range|]|apply table_index_range|].
  rewrite (rdw_bind _ w), Hw by done. destruct (present w); cbn [negb]; [|done].
  unfold OFFSET_MASK. change 0xFFF with (2 ^ 12 - 1). rewrite land_mask, Z.shiftl_mul_pow2 by lia.
  rewrite lor_high_low by (try lia; apply Z.mod_pos_bound; lia). done.
Qed.

(** Two slots of one directory are the same word only for the same page. *)
Lemma slot_inj m d u v a : dir_ok m d -> slot_of m d u = Some a -> slot_of m d v = Some a ->
  dir_index u = dir_index v /\ table_index u = table_index v.
Proof.
  intros Hd. unfold slot_of. pose proof (dir_index_range u). pose proof (dir_index_range v).
  pose proof (table_index_range u). pose proof (table_index_range v).
  destruct (m !! (d + 4 * dir_index u)) as [e|] eqn:Ee; [|done].
  destruct (m !! (d + 4 * dir_index v)) as [e'|] eqn:Ee'; [|done]. cbn [mbind option_bind].
  destruct (present e) eqn:Ep; [|done]. destruct (present e') eqn:Ep'; [|done].
  intros [= <-] [= Ea]. rewrite !table_of_arith in Ea.
  assert (Ht : table_of e = table_of e') by (rewrite !table_of_arith; zdm).
  destruct (decide (dir_index u = dir_index v)) as [Ei|Ei].
  - split; [done|]. rewrite !table_of_arith in Ht. lia.
  - exfalso. by apply (table_distinct _ _ Hd (dir_index u) (dir_index v) e e').
Qed.

(** The slot of a present entry is a word outside the directory. *)
Lemma slot_word m d va a : dir_ok m d -> slot_of m d va = Some a ->
  is_Some (m !! a) /\ forall k, 0 <= k < 1024 -> a <> d + 4 * k.
Proof.
  intros Hd. unfold slot_of. destruct (m !! (d + 4 * dir_index va)) as [e|] eqn:Ee; [|done]. cbn [mbind option_bind].
  destruct (present e) eqn:Ep; [|done]. intros [= <-].
  assert (He : dir_entry m d (dir_index va) e) by (by split; [apply dir_index_range|]). split.
  - apply (table_words _ _ Hd _ _ _ He). apply table_index_range.
  - intros k Hk. apply (table_not_dir _ _ Hd _ _ _ _ He); [apply table_index_range|done].
Qed.

(** The shape of a directory depends on its own words only. *)
Lemma dir_ok_agree m m' d : dir_ok m d ->
  (forall i, 0 <= i < 1024 -> m' !! (d + 4 * i) = m !! (d + 4 * i)) ->
  (forall x, is_Some (m !! x) -> is_Some (m' !! x)) ->
  dir_ok m' d /\ forall va, slot_of m' d va = slot_of m d va.
Proof.
  intros Hd Hent Hsome.
  assert (Hde : forall i e, dir_entry m' d i e -> dir_entry m d i e).
  { intros i e (Hi & He & Hp). by rewrite Hent in He. }
  split.
  - constructor.
    + intros i Hi. rewrite Hent by done. by apply Hd.
    + intros i e j He%Hde Hj. apply Hsome. by apply (table_words _ _ Hd i).
    + intros i e j k He%Hde. by apply (table_not_dir _ _ Hd i).
    + intros i i' e e' He%Hde He'%Hde. by apply (table_distinct _ _ Hd).
  - intros va. unfold slot_of. by rewrite Hent by apply dir_index_range.
Qed.

Lemma dir_ok_insert m d a w : dir_ok m d -> is_Some (m !! a) -> (forall k, 0 <= k < 1024 -> a <> d + 4 * k) ->
  dir_ok (<[a := w]> m) d /\ forall va, slot_of (<[a := w]> m) d va = slot_of m d va.
Proof.
  intros Hd Ha Hout. apply dir_ok_agree; [done| |].
  - intros i Hi. apply lookup_insert_ne. by apply Hout.
  - intros x Hx. destruct (decide (a = x)) as [->|]; [rewrite lookup_insert_eq; by eexists|].
    by rewrite lookup_insert_ne.
Qed.

Lemma translate_insert m d va a w : dir_ok m d -> is_u32 va -> slot_of m d va = Some a ->
  forall u, is_u32 u -> translate (<[a := w]> m) d u =
    if decide (u / 4096 = va / 4096)
    then if present w then page_base_address w * 4096 + u mod 4096 else 0
    else translate m d u.
Proof.
  intros Hd Hva Ha u Hu. destruct (slot_word _ _ _ _ Hd Ha) as [Hm Hout].
  destruct (dir_ok_insert m d a w Hd Hm Hout) as [_ Hslot]. unfold translate. rewrite Hslot.
  destruct (decide (u / 4096 = va / 4096)) as [E|E].
  - apply same_slot in E as [E1 E2]; [|done..].
    assert (slot_of m d u = Some a) as -> by (unfold slot_of in *; by rewrite E1, E2).
    by rewrite lookup_insert_eq.
  - destruct (slot_of m d u) as [b|] eqn:Eb; [|done]. rewrite lookup_insert_ne; [done|].
    intros <-. apply E. apply same_slot; [done..|]. by apply (slot_inj m d u va a).
Qed.
End map.

(** Hanging a fresh, cleared, aligned table into a directory. *)
Section new_table.
Context (m m2 : gmap Z Z) (d a di e flags : Z).
Context (Hd : dir_ok m d) (Hdi : 0 <= di < 1024) (He : m !! (d + 4 * di) = Some e) (Hp : present e = false).
Context (Ha : 0 < a /\ a + 4096 <= 4294967296) (Hal : a mod 4096 = 0).
Context (Hfresh : forall x, a <= x < a + 4096 -> m !! x = None).
Context (Hzero : forall k, 0 <= k < 1024 -> m2 !! (a + 4 * k) = Some 0).
Context (Hout : forall x, ~ a <= x < a + 4096 -> m2 !! x = m !! x).

Let m3 : gmap Z Z := <[d + 4 * di := fill_entry flags (Z.shiftr a 12) e]> m2.

Lemma old_word x : is_Some (m !! x) -> ~ a <= x < a + 4096 /\ m2 !! x = m !! x.
Proof. intros [w Hw]. assert (~ a <= x < a + 4096); [|split; [done|by apply Hout]]. intros ?%Hfresh. congruence. Qed.


Lemma new_words x : x <> d + 4 * di -> m3 !! x = m2 !! x.
Proof. intros. by apply lookup_insert_ne. Qed.







Lemma new_table_keeps x w : m !! x = Some w -> x <> d + 4 * di -> m3 !! x = Some w.
Proof. intros Hx Hne. rewrite new_words by done. rewrite (proj2 (old_word x ltac:(by eexists))). done. Qed.
End new_table.

(** Exactly the addresses of the page of [va] are mapped anew, to the page of [pa]. *)
Definition only_page_mapped (s s' : vstate) (d va pa : Z) : Prop :=
  forall u, is_u32 u -> translate (words s') d u =
    if decide (u / 4096 = va / 4096) then pa / 4096 * 4096 + u mod 4096 else translate (words s) d u.

Lemma slot_entry m d va a : slot_of m d va = Some a ->
  exists e, m !! (d + 4 * dir_index va) = Some e /\ present e = true /\ a = table_of e + 4 * table_index va.
Proof.
  unfold slot_of. destruct (m !! (d + 4 * dir_index va)) as [e|]; [|done]. cbn [mbind option_bind].
  destruct (present e) eqn:Ep; [|done]. intros [= <-]. by exists e.
Qed.


(** Mapping a page whose table is there: one word of the table changes. *)
Lemma map_present_run `{Env} s d va pa flags a : dir_ok (words s) d -> d <> 0 -> pa <> 0 -> is_u32 va -> is_u32 pa ->
  slot_of (words s) d va = Some a ->
  exists s' w, pd_map_page d va pa flags s = Ret (s', 0) /\ same_system s s' /\ dir_ok (words s') d /\
    words s' = <[a := fill_entry flags (Z.shiftr pa 12) w]> (words s) /\
    (forall u, slot_of (words s') d u = slot_of (words s) d u) /\ only_page_mapped s s' d va pa.
Proof.
  intros Hd Hd0 Hp0 Hva Hpa Ha. destruct (slot_entry _ _ _ _ Ha) as (e & He & Ep & Ea). destruct (slot_word _ _ _ _ Hd Ha) as [[w Hw] Hnd].
  unfold pd_map_page. rewrite decide_False by tauto.
  rewrite (cmd_bind_eq _ _ s s true). 2:{ unfold ensure_table. rewrite (rdw_bind _ e) by done. by rewrite Ep. }
  cbn [negb]. rewrite (rdw_bind _ e) by done. rewrite <- Ea. rewrite (cmd_bind_eq _ _ _ _ _ (upw_run a _ w s Hw)).
  destruct (dir_ok_insert (words s) d a (fill_entry flags (Z.shiftr pa 12) w) Hd ltac:(by eexists) Hnd) as [Hd' Hslot].
  eexists _, w. split; [done|]. split; [done|]. split; [done|]. split; [done|]. split; [done|].
  intros u Hu. cbn [words with_words with_cpu]. rewrite (translate_insert _ _ va) by done. by rewrite fill_present, fill_base, frame_of_page.
Qed.

Section map_runs.
Context `{HeapLaws}.

(** Creating a missing table: the block is cleared and its page number entered. *)
Lemma ensure_absent_run s d va flags e s1 t : words s !! (d + 4 * dir_index va) = Some e -> present e = false ->
  malloc 4096 s = Ret (s1, t) -> t <> 0 ->
  exists m2, ensure_table d va flags s =
      Ret (with_words (<[d + 4 * dir_index va := fill_entry flags (Z.shiftr t 12) e]> m2) s1, true) /\
    same_system s s1 /\ 0 < t /\ t + 4096 <= 4294967296 /\ t mod 4 = 0 /\ (forall x, t <= x < t + 4096 -> words s !! x = None) /\
    (forall k, 0 <= k < 1024 -> m2 !! (t + 4 * k) = Some 0) /\ (forall x, ~ t <= x < t + 4096 -> m2 !! x = words s !! x).
Proof.
  intros He Ep Hm Ht0. destruct (malloc_law 4096 s ltac:(lia)) as (s1' & t' & Hm' & Hsys & Hcase). rewrite Hm in Hm'. injection Hm' as <- <-.
  destruct Hcase as [[? _]|(Ha & Hmax & Hal & Hfresh & Hblock & Hrest)]; [done|].
  destruct (clear_words_run 1024 t s1) as (m2 & Hclr & Hzero & Hother); [intros; apply Hblock; lia|].
  assert (Hout : forall x, ~ t <= x < t + 4096 -> m2 !! x = words s !! x).
  { intros x Hx. rewrite Hother by (intros; lia). by apply Hrest. }
  assert (He2 : m2 !! (d + 4 * dir_index va) = Some e) by (rewrite Hout; [done|]; intros ?%Hfresh; congruence).
  exists m2. split; [|by split_and!]. unfold ensure_table. rewrite (rdw_bind _ e), Ep by done. rewrite (cmd_bind_eq _ _ _ _ _ Hm), decide_False by done.
  rewrite (cmd_bind_eq _ _ _ _ _ Hclr). by rewrite (cmd_bind_eq _ _ _ _ _ (upw_run (d + 4 * dir_index va) _ e (with_words m2 s1) He2)).
Qed.


(** When it does not, the directory names the page in which the block begins and
    the entry goes there: into the cleared block only if the slot lies behind its
    beginning. *)
Lemma map_misaligned_run s d va pa flags e s1 t : d <> 0 -> pa <> 0 -> words s !! (d + 4 * dir_index va) = Some e -> present e = false ->
  malloc 4096 s = Ret (s1, t) -> t <> 0 ->
  let x := t / 4096 * 4096 + 4 * table_index va in x <> d + 4 * dir_index va ->
  match (if decide (t <= x) then Some 0 else words s !! x) with
  | Some w => exists s', pd_map_page d va pa flags s = Ret (s', 0) /\ words s' !! x = Some (fill_entry flags (Z.shiftr pa 12) w) /\
      forall y, ~ t <= y < t + 4096 -> y <> d + 4 * dir_index va -> y <> x -> words s' !! y = words s !! y
  | None => pd_map_page d va pa flags s = Fault
  end.
Proof.
  intros Hd0 Hp0 He Ep Hm Ht0 x Hxd. pose proof (table_index_range va) as Hti.
  destruct (ensure_absent_run s d va flags e s1 t He Ep Hm Ht0) as (m2 & Hens & _ & Ht & Hmax & Hal & Hfresh & Hzero & Hout).
  set (s2 := with_words (<[d + 4 * dir_index va := fill_entry flags (Z.shiftr t 12) e]> m2) s1) in *.
  assert (Htab : table_of (fill_entry flags (Z.shiftr t 12) e) = t / 4096 * 4096)
    by (by rewrite table_of_arith, fill_base, frame_of_page by (unfold is_u32; lia)).
  assert (Hx : words s2 !! x = if decide (t <= x) then Some 0 else words s !! x).
  { cbn [words s2 with_words]. rewrite lookup_insert_ne by done. case_decide.
    - replace x with (t + 4 * ((x - t) / 4)) by (unfold x in *; zdm). apply Hzero. unfold x in *. zdm.
    - apply Hout. lia. }
  assert (Hmap : pd_map_page d va pa flags s = (upw x (fill_entry flags (Z.shiftr pa 12));; flush va;; mret 0) s2).
  { unfold pd_map_page. rewrite decide_False by tauto. rewrite (cmd_bind_eq _ _ _ _ _ Hens). cbn [negb].
    rewrite (rdw_bind _ (fill_entry flags (Z.shiftr t 12) e)) by apply lookup_insert_eq. by rewrite Htab. }
  rewrite <- Hx, Hmap. destruct (words s2 !! x) as [w|] eqn:Ew.
  - rewrite (cmd_bind_eq _ _ _ _ _ (upw_run x _ w s2 Ew)). eexists. split; [done|]. cbn [words with_words with_cpu]. split; [apply lookup_insert_eq|].
    intros y Hy Hyd Hyx. rewrite lookup_insert_ne by done. cbn [words s2 with_words]. rewrite lookup_insert_ne by done. by apply Hout.
  - unfold upw, rdw, mbind, cmd_mbind, gets. by rewrite Ew.
Qed.
End map_runs.

(** Unmapping one page: its frame goes back to the frame manager. *)
Lemma unmap_run `{Env} s d va : dir_ok (words s) d -> d <> 0 -> is_u32 va ->
  ((forall u, is_u32 u -> u / 4096 = va / 4096 -> translate (words s) d u = 0) /\
    pd_unmap_page d va s = Ret (s, 0)) \/
  exists s1 frame, dir_ok (words s1) d /\ same_system s s1 /\
    frame mod 4096 = 0 /\ is_u32 frame /\ translate (words s) d va = frame + va mod 4096 /\
    (forall u, is_u32 u -> translate (words s1) d u =
       if decide (u / 4096 = va / 4096) then 0 else translate (words s) d u) /\
    (forall u, slot_of (words s1) d u = slot_of (words s) d u) /\
    pd_unmap_page d va s = (on_frames (pfm_free_frame frame);; mret 0) s1.
Proof.
  intros Hd Hd0 Hva. unfold pd_unmap_page. rewrite decide_False by done.
  destruct (dir_words _ _ Hd (dir_index va)) as [e He]; [apply dir_index_range|].
  rewrite (rdw_bind _ e) by done. destruct (present e) eqn:Ep; cbn [negb].
  2:{ left. split; [|done]. intros u Hu [E _]%same_slot; [|done..].
      unfold translate, slot_of. rewrite E, He. cbn [mbind option_bind]. by rewrite Ep. }
  assert (Ha : slot_of (words s) d va = Some (table_of e + 4 * table_index va)).
  { unfold slot_of. rewrite He. cbn [mbind option_bind]. by rewrite Ep. }
  destruct (slot_word _ _ _ _ Hd Ha) as [[w Hw] Hnd]. rewrite (rdw_bind _ w) by done.
  assert (Htr : translate (words s) d va = if present w then page_base_address w * 4096 + va mod 4096 else 0).
  { unfold translate. by rewrite Ha, Hw. }
  destruct (present w) eqn:Epw; cbn [negb].
  2:{ left. split; [|done]. intros u Hu [E1 E2]%same_slot; [|done..].
      unfold translate, slot_of. rewrite E1, E2, He. cbn [mbind option_bind]. by rewrite Ep, Hw, Epw. }
  right. rewrite (cmd_bind_eq _ _ _ _ _ (wrw_run _ 0 w s Hw)).
  eexists _, (Z.shiftl (page_base_address w) 12). rewrite Z.shiftl_mul_pow2 by lia. change (2 ^ 12) with 4096.
  pose proof (base_range w). cbn [words]. rewrite Htr.
  split; [|split; [|split; [|split; [|split; [done|split; [|split; [|reflexivity]]]]]]].
  - by apply dir_ok_insert.
  - done.
  - zdm.
  - unfold is_u32. lia.
  - intros u Hu. cbn [words with_words with_cpu]. by rewrite (translate_insert _ _ va) by done.
  - by apply dir_ok_insert.
Qed.

(** ** Ranges of pages *)

Definition put_fm (m : PageFrameManager) (s : vstate) : vstate :=
  match vmm s with Some v => with_vmm (Some (set_fm (Some m) v)) s | None => s end.

Lemma fm_put m0 m s : fm_of s = Some m0 -> fm_of (put_fm m s) = Some m.
Proof. unfold fm_of, put_fm. destruct (vmm s); [done|congruence]. Qed.

Lemma put_words m s : words (put_fm m s) = words s.
Proof. unfold put_fm. by destruct (vmm s). Qed.

Lemma on_frames_run {A} (c : F A) m m' (a : A) s : fm_of s = Some m -> c (Some m) = Ret (Some m', a) ->
  on_frames c s = Ret (put_fm m' s, a).
Proof. intros Hs Hc. unfold on_frames, put_fm. rewrite Hs, Hc. unfold fm_of in Hs. destruct (vmm s); congruence. Qed.

(** Where the pages from [va] on stand, relative to a start state [s0] whose
    frame manager is [m0]: page [j] of the range holds frame [g j], all these
    frames are different and were free; everything else is as in [s0]. *)
Record range_state (base : Z) (s0 : vstate) (m0 : PageFrameManager) (d va : Z) (g : Z -> option Z)
    (s : vstate) : Prop := {
  rs_dir : dir_ok (words s) d;
  rs_slots : forall u, slot_of (words s) d u = slot_of (words s0) d u;
  rs_fm : exists m, fm_of s = Some m /\ pfm_ok base m /\ total_frames m = total_frames m0 /\
    forall i, 0 <= i -> taken m i = true <-> taken m0 i = true \/ exists j, g j = Some i;
  rs_inj : forall j j' i, g j = Some i -> g j' = Some i -> j = j';
  rs_free : forall j i, g j = Some i -> 0 <= i < total_frames m0 /\ taken m0 i = false;
  rs_translate : forall u, is_u32 u -> translate (words s) d u =
    match g (u / 4096 - va / 4096) with
    | Some i => base + 4096 * i + u mod 4096
    | None => translate (words s0) d u
    end
}.

Definition page_in (k : Z) (i : Z) (g : Z -> option Z) : Z -> option Z :=
  fun j => if decide (j = k) then Some i else g j.
Definition page_out (k : Z) (g : Z -> option Z) : Z -> option Z :=
  fun j => if decide (j = k) then None else g j.

(** Every taken page is outside frame 0, so a mapped page never translates to 0. *)
Lemma frame_address_range base m0 i : pfm_ok base m0 -> 0 <= i < total_frames m0 ->
  is_u32 (base + 4096 * i) /\ base + 4096 * i <> 0 /\ (base + 4096 * i) / 4096 * 4096 = base + 4096 * i.
Proof.
  intros Hm0 Hi. pose proof (ok_base _ _ Hm0) as Hb. pose proof (ok_align _ _ Hm0) as Ha.
  unfold PAGE_SIZE, is_u32 in *. split; [lia|]. split; [lia|zdm].
Qed.

Lemma page_of_range va k : is_u32 va -> 0 <= k -> va + 4096 * k < 4294967296 ->
  u32 (va + 4096 * k) = va + 4096 * k /\ (va + 4096 * k) / 4096 = va / 4096 + k.
Proof.
  intros Hva Hk Hlt. unfold is_u32 in Hva. rewrite u32_small by (unfold is_u32; lia). split; [done|].
  replace (va + 4096 * k) with (va + k * 4096) by lia. by rewrite Z.div_add by lia.
Qed.

Section ranges.
Context (base : Z) (s0 : vstate) (m0 : PageFrameManager) (d va : Z).
Context (Hm0 : pfm_ok base m0) (Hd0 : d <> 0) (Hva : is_u32 va).

Lemma range_start : dir_ok (words s0) d -> fm_of s0 = Some m0 ->
  range_state base s0 m0 d va (fun _ => None) s0.
Proof.
  intros Hd Hfm. constructor; try done. exists m0. split; [done|]. split; [done|]. split; [done|].
  intros i Hi. split; [by left|]. by intros [?|[? ?]].
Qed.

Lemma range_unmap `{Env} g s k i : range_state base s0 m0 d va g s -> g k = Some i ->
  0 <= k -> va + 4096 * k < 4294967296 ->
  (forall u, is_u32 u -> u / 4096 = va / 4096 + k -> translate (words s0) d u = 0) ->
  exists s', pd_unmap_page d (u32 (va + 4096 * k)) s = Ret (s', 0) /\
    range_state base s0 m0 d va (page_out k g) s'.
Proof.
  intros Hs Hg Hk Hlt Hzero. destruct (page_of_range va k Hva Hk Hlt) as [-> Hpage].
  assert (Hu : is_u32 (va + 4096 * k)) by (unfold is_u32 in *; lia).
  destruct (rs_free _ _ _ _ _ _ _ Hs _ _ Hg) as [Hi Hfree].
  destruct (frame_address_range base m0 i Hm0 Hi) as (Hfr & Hfr0 & Hfral).
  pose proof (rs_translate _ _ _ _ _ _ _ Hs _ Hu) as Htr. rewrite Hpage in Htr.
  replace (va / 4096 + k - va / 4096) with k in Htr by lia. rewrite Hg in Htr.
  destruct (unmap_run s d (va + 4096 * k) (rs_dir _ _ _ _ _ _ _ Hs) Hd0 Hu)
    as [[E _]|(s1 & frame & Hd1 & Hsys & Hfal & Hfu & Hfeq & Htr1 & Hslot1 & Hrun)].
  { exfalso. rewrite (E _ Hu eq_refl) in Htr. pose proof (Z.mod_pos_bound (va + 4096 * k) 4096). unfold is_u32 in Hfr. lia. }
  assert (frame = base + 4096 * i) as -> by lia.
  destruct (rs_fm _ _ _ _ _ _ _ Hs) as (m & Hfm & Hok & Htot & Htk).
  assert (Hfm1 : fm_of s1 = Some m) by (unfold fm_of in *; by rewrite (proj1 Hsys)).
  destruct (free_run base m i 0 Hok ltac:(lia) ltac:(unfold PAGE_SIZE; lia))
    as (m' & Hfrun & Hok' & Htot' & Htk' & _ & _).
  unfold PAGE_SIZE in Hfrun. rewrite Z.add_0_r in Hfrun.
  exists (put_fm m' s1). rewrite Hrun. split.
  { rewrite (cmd_bind_eq _ _ _ _ _ (on_frames_run _ _ _ _ _ Hfm1 Hfrun)). done. }
  assert (Hout : forall j i', page_out k g j = Some i' <-> j <> k /\ g j = Some i').
  { intros j i'. unfold page_out. case_decide; [split; [done|tauto]|tauto]. }
  constructor.
  - by rewrite put_words.
  - intros u. rewrite put_words, Hslot1. by apply Hs.
  - exists m'. split; [by apply (fm_put m)|]. split; [done|]. split; [lia|].
    intros x Hx. rewrite Htk' by done. destruct (decide (x = i)) as [->|Hne].
    + split; [done|]. intros [E|[j [Hj Hgj]%Hout]]; [congruence|]. by destruct Hj; apply (rs_inj _ _ _ _ _ _ _ Hs _ _ i).
    + rewrite Htk by done. split; (intros [?|[j Hj]]; [by left|right; exists j]).
      * apply Hout. split; [|done]. intros ->. congruence.
      * by apply Hout in Hj as [_ ?].
  - intros j j' x [_ Hj]%Hout [_ Hj']%Hout. by apply (rs_inj _ _ _ _ _ _ _ Hs _ _ x).
  - intros j x [_ Hj]%Hout. by apply (rs_free _ _ _ _ _ _ _ Hs j).
  - intros u Hu'. rewrite put_words, Htr1 by done. rewrite Hpage. unfold page_out.
    destruct (decide (u / 4096 = va / 4096 + k)) as [E|E].
    + rewrite decide_True by lia. symmetry. by apply Hzero.
    + rewrite decide_False by lia. by apply Hs.
Qed.
End ranges.

Lemma range_ext base s0 m0 d va g g' s : (forall j, g j = g' j) ->
  range_state base s0 m0 d va g s -> range_state base s0 m0 d va g' s.
Proof.
  intros Hg [? ? (m & ? & ? & ? & Ht) Hi Hf Htr]. constructor; [done|done| | | |].
  - exists m. split; [done|]. split; [done|]. split; [done|]. intros i Hi'. rewrite Ht by done.
    split; (intros [?|[j Hj]]; [by left|right; exists j; congruence]).
  - intros j j' i. rewrite <- !Hg. apply Hi.
  - intros j i. rewrite <- Hg. apply Hf.
  - intros u Hu. rewrite Htr by done. by rewrite Hg.
Qed.

Lemma put_same m s : fm_of s = Some m -> put_fm m s = s.
Proof.
  unfold fm_of, put_fm. destruct s as [ws [[fm kd ks ke]|] rs c]; cbn; [|done]. intros ->. done.
Qed.

Section range_loops.
Context `{Env}.
Context (base : Z) (s0 : vstate) (m0 : PageFrameManager) (d va : Z).
Context (Hm0 : pfm_ok base m0) (Hd0 : d <> 0) (Hva : is_u32 va).

(** The first [n] pages are unmapped in the start state. *)
Definition unmapped (n : Z) : Prop := forall u, is_u32 u ->
  va / 4096 <= u / 4096 < va / 4096 + n -> translate (words s0) d u = 0.

Lemma unmap_loop_run fuel : forall g s k t, range_state base s0 m0 d va g s ->
  (forall j, t <= j < k -> is_Some (g j)) -> 0 <= t <= k -> k < 1048576 -> va + 4096 * k <= 4294967296 ->
  unmapped k -> (Z.to_nat (k - t) < fuel)%nat ->
  exists s', unmap_loop fuel d va (4096 * k) (4096 * t) s = Ret (s', tt) /\
    range_state base s0 m0 d va (fun j => if decide (t <= j < k) then None else g j) s'.
Proof.
  induction fuel as [|fuel IH]; intros g s k t Hs Hg Ht Hk Hmax Hun Hfuel; [lia|].
  cbn [unmap_loop]. destruct (decide (4096 * t < 4096 * k)) as [Hlt|Hge].
  2:{ exists s. split; [done|]. apply (range_ext _ _ _ _ _ g); [|done]. intros j. by rewrite decide_False by lia. }
  destruct (Hg t) as [i Hi]; [lia|].
  destruct (range_unmap base s0 m0 d va Hm0 Hd0 Hva g s t i) as (s1 & Hrun & Hs1); [done..|lia|lia| |].
  { intros u Hu E. apply Hun; [done|lia]. }
  rewrite (cmd_bind_eq _ _ _ _ _ Hrun). rewrite (u32_small (4096 * t + PAGE_SIZE)) by (unfold is_u32, PAGE_SIZE; lia).
  unfold PAGE_SIZE. replace (4096 * t + 4096) with (4096 * (t + 1)) by lia.
  destruct (IH (page_out t g) s1 k (t + 1)) as (s2 & Hrun2 & Hs2); [done| |lia..|done|lia|].
  { intros j Hj. unfold page_out. rewrite decide_False by lia. apply Hg. lia. }
  exists s2. split; [done|]. eapply range_ext; [|exact Hs2]. intros j. unfold page_out. cbn beta.
  destruct (decide (t + 1 <= j < k)), (decide (t <= j < k)), (decide (j = t)); try done; lia.
Qed.

(** The first [n] pages have their page tables in the start state. *)
Definition tabled (n : Z) : Prop := forall u, is_u32 u ->
  va / 4096 <= u / 4096 < va / 4096 + n -> is_Some (slot_of (words s0) d u).

(** The number of free frames of a state. *)
Definition free_in (s : vstate) (n : Z) : Prop := exists m, fm_of s = Some m /\ free_frames m = n.

(** One round of the allocation loop. *)
Lemma range_allocate g s k flags n : range_state base s0 m0 d va g s -> g k = None ->
  0 <= k -> va + 4096 * k < 4294967296 -> is_Some (slot_of (words s0) d (va + 4096 * k)) -> free_in s n ->
  (n = 0 /\ on_frames pfm_allocate_frame s = Ret (s, 0)) \/
  exists s1 phys s2 i, on_frames pfm_allocate_frame s = Ret (s1, phys) /\ phys <> 0 /\
    pd_map_page d (u32 (va + 4096 * k)) phys flags s1 = Ret (s2, 0) /\
    range_state base s0 m0 d va (page_in k i g) s2 /\ free_in s2 (n - 1) /\ 0 < n.
Proof.
  intros Hs Hg Hk Hlt [sl Hsl] (m_ & Hfm_ & Hn). destruct (page_of_range va k Hva Hk Hlt) as [-> Hpage].
  destruct (rs_fm _ _ _ _ _ _ _ Hs) as (m & Hfm & Hok & Htot & Htk). assert (m_ = m) as -> by congruence.
  destruct (allocate_run base m Hok) as [(Hrun & _ & Hz)|(i & m' & Hi & Hfree & _ & Hrun & Hok' & Htot' & Htk' & Hcnt)].
  { left. split; [congruence|]. rewrite (on_frames_run _ _ _ _ _ Hfm Hrun). by rewrite put_same. }
  right. exists (put_fm m' s), (base + PAGE_SIZE * i). unfold PAGE_SIZE in *. rewrite Htot in Hi.
  destruct (frame_address_range base m0 i Hm0 Hi) as (Hfr & Hfr0 & Hfral).
  destruct (map_present_run (put_fm m' s) d (va + 4096 * k) (base + 4096 * i) flags sl)
    as (s2 & w & Hmap & Hsys & Hd2 & _ & Hslot & Htr);
    [rewrite put_words; by apply Hs|done|done|unfold is_u32 in *; lia|done|rewrite put_words; by rewrite (rs_slots _ _ _ _ _ _ _ Hs)|].
  exists s2, i. split; [by apply (on_frames_run _ m)|]. split; [done|]. split; [done|].
  assert (Hfm2 : fm_of s2 = Some m') by (unfold fm_of in *; rewrite (proj1 Hsys); by apply (fm_put m)).
  split; [|split; [exists m'; split; [done|lia]|]].
  2:{ pose proof (count_bounds base m' Hok') as Hb. lia. }
  destruct Hs as [Hsd Hss _ Hsi Hsf Hst]. constructor; [done| | | | |].
  - intros u. rewrite Hslot, put_words. apply Hss.
  - exists m'. split; [done|]. split; [done|]. split; [lia|].
    intros x Hx. rewrite Htk' by done. unfold page_in. destruct (decide (x = i)) as [->|Hne].
    + split; [|done]. intros _. right. exists k. by rewrite decide_True.
    + rewrite Htk by done. split; (intros [?|[j Hj]]; [by left|right; exists j]); case_decide; congruence.
  - assert (Hni : forall j, g j <> Some i).
    { intros j Hj. assert (taken m i = true) by (apply Htk; [lia|right; by exists j]). congruence. }
    intros j j' x. unfold page_in. do 2 case_decide; intros;
      [congruence|exfalso; apply (Hni j'); congruence|exfalso; apply (Hni j); congruence|by apply (Hsi _ _ x)].
  - intros j x. unfold page_in. case_decide; [|by apply Hsf]. intros [= <-]. split; [done|].
    destruct (taken m0 i) eqn:E; [|done]. assert (taken m i = true) by (apply Htk; [lia|by left]). congruence.
  - intros u Hu. rewrite Htr, put_words by done. rewrite Hpage, Hfral. unfold page_in.
    destruct (decide (u / 4096 = va / 4096 + k)).
    + by rewrite decide_True by lia.
    + rewrite decide_False by lia. by apply Hst.
Qed.

Lemma allocate_loop_run n flags f0 fuel : forall g s k, range_state base s0 m0 d va g s ->
  (forall j, is_Some (g j) <-> 0 <= j < k) -> 0 <= k <= n -> n < 1048576 -> va + 4096 * n <= 4294967296 ->
  unmapped n -> tabled n -> free_in s (f0 - k) -> k <= f0 -> (Z.to_nat (n - k) < fuel)%nat ->
  exists s', allocate_loop fuel d va (4096 * n) flags (4096 * k) s = Ret (s', if decide (n <= f0) then 0 else -1) /\
    if decide (n <= f0) then exists g', range_state base s0 m0 d va g' s' /\ (forall j, is_Some (g' j) <-> 0 <= j < n) /\ free_in s' (f0 - n)
    else range_state base s0 m0 d va (fun _ => None) s'.
Proof.
  induction fuel as [|fuel IH]; intros g s k Hs Hg Hk Hn Hmax Hun Htab Hfr Hkf Hfuel; [lia|].
  cbn [allocate_loop]. destruct (decide (4096 * k < 4096 * n)) as [Hlt|Hge].
  2:{ assert (k = n) as -> by lia. exists s. rewrite !decide_True by lia. split; [done|]. by exists g. }
  assert (Hgk : g k = None) by (apply eq_None_not_Some; rewrite Hg; lia).
  assert (Hroll : exists s', (unmap_loop (pages_fuel (4096 * k)) d va (4096 * k) 0;; mret (-1)) s = Ret (s', -1) /\
    range_state base s0 m0 d va (fun _ => None) s').
  { destruct (unmap_loop_run (pages_fuel (4096 * k)) g s k 0 Hs) as (s' & Hrun & Hs');
      [intros; apply Hg; lia|lia|lia|lia|intros u Hu Hp; apply Hun; [done|lia]| |].
    { unfold pages_fuel, PAGE_SIZE. replace (4096 * k / 4096) with k by zdm. lia. }
    exists s'. change (4096 * 0) with 0 in Hrun. rewrite (cmd_bind_eq _ _ _ _ _ Hrun). split; [done|].
    eapply range_ext; [|exact Hs']. intros j. cbn beta.
    destruct (decide (0 <= j < k)) as [_|Hj]; [reflexivity|]. apply eq_None_not_Some. rewrite Hg. lia. }
  pose proof Hva as Hva'. unfold is_u32 in Hva'. destruct (page_of_range va k Hva ltac:(lia) ltac:(lia)) as [_ Hpk].
  destruct (range_allocate g s k flags (f0 - k) Hs Hgk) as [[Hz Hal0]|(s1 & phys & s2 & i & Ha & Hp & Hmap & Hs2 & Hf2 & Hpos)];
    [lia|lia|apply Htab; [unfold is_u32; lia|lia]|done| |].
  - rewrite (cmd_bind_eq _ _ _ _ _ Hal0). rewrite (decide_True (P := 0 = 0)) by done.
    destruct Hroll as (s' & Hrun & Hs'). exists s'. rewrite !(decide_False (P := n <= f0)) by lia. split; [exact Hrun|].
    exact Hs'.
  - rewrite (cmd_bind_eq _ _ _ _ _ Ha). rewrite (decide_False (P := phys = 0)) by done.
    rewrite (cmd_bind_eq _ _ _ _ _ Hmap). rewrite (decide_False (P := 0 <> 0)) by lia.
    rewrite (u32_small (4096 * k + PAGE_SIZE)) by (unfold is_u32, PAGE_SIZE; lia).
    unfold PAGE_SIZE. replace (4096 * k + 4096) with (4096 * (k + 1)) by lia.
    apply (IH (page_in k i g) s2 (k + 1)); [done| |lia..|done|done|by replace (f0 - (k + 1)) with (f0 - k - 1) by lia|lia|lia].
    intros j. unfold page_in. destruct (decide (j = k)).
    + split; [intros _; lia|by eexists].
    + rewrite Hg. lia.
Qed.
End range_loops.




(** Unmapping a page. Afterwards its addresses translate to 0 and all others
    as before, and the frame it stood on (and no other) is free; an unmapped
    page is left alone. *)
Theorem pd_unmap_page_translates `{Env} base m s d va :
  dir_ok (words s) d -> d <> 0 -> is_u32 va -> fm_of s = Some m -> pfm_ok base m -> 0 < total_frames m ->
  exists s' m' x, pd_get_physical_address d va s = Ret (s, x) /\ pd_unmap_page d va s = Ret (s', 0) /\
    dir_ok (words s') d /\ fm_of s' = Some m' /\ pfm_ok base m' /\
    (forall i, 0 <= i < total_frames m -> taken m' i = if decide (x / 4096 = base / 4096 + i) then false else taken m i) /\
    forall u y, is_u32 u -> pd_get_physical_address d u s = Ret (s, y) ->
      pd_get_physical_address d u s' = Ret (s', if decide (u / 4096 = va / 4096) then 0 else y).
Proof.
  intros Hd Hd0 Hva Hfm Hok Htot. pose proof (ok_base _ _ Hok) as Hb. pose proof (ok_align _ _ Hok) as Hal.
  unfold PAGE_SIZE in *.
  destruct (unmap_run s d va Hd Hd0 Hva) as [[Hz Hrun]|(s1 & frame & Hd1 & Hsys & Hfal & Hfu & Hfeq & Htr1 & _ & Hrun)].
  - exists s, m, 0. rewrite get_run, (Hz va Hva eq_refl) by done. do 5 (split; [done|]). split.
    + intros i Hi. rewrite decide_False; [done|]. zdm.
    + intros u y Hu Hy. rewrite Hy. case_decide as E; [|done].
      rewrite get_run in Hy by done. injection Hy as <-. by rewrite (Hz u Hu E).
  - assert (Hfm1 : fm_of s1 = Some m) by (unfold fm_of in *; by rewrite (proj1 Hsys)).
    assert (Hpage : (frame + va mod 4096) / 4096 = frame / 4096) by (unfold is_u32 in *; zdm).
    assert (Hfinish : forall m', pfm_free_frame frame (Some m) = Ret (Some m', tt) -> pfm_ok base m' ->
      (forall i, 0 <= i < total_frames m ->
         taken m' i = if decide (frame / 4096 = base / 4096 + i) then false else taken m i) ->
      exists s' m' x, pd_get_physical_address d va s = Ret (s, x) /\ pd_unmap_page d va s = Ret (s', 0) /\
        dir_ok (words s') d /\ fm_of s' = Some m' /\ pfm_ok base m' /\
        (forall i, 0 <= i < total_frames m -> taken m' i = if decide (x / 4096 = base / 4096 + i) then false else taken m i) /\
        forall u y, is_u32 u -> pd_get_physical_address d u s = Ret (s, y) ->
          pd_get_physical_address d u s' = Ret (s', if decide (u / 4096 = va / 4096) then 0 else y)).
    { intros m' Hfree Hok' Htk. exists (put_fm m' s1), m', (frame + va mod 4096).
      rewrite get_run, Hfeq, Hpage by done. split; [done|]. rewrite Hrun.
      split; [by rewrite (cmd_bind_eq _ _ _ _ _ (on_frames_run _ _ _ _ _ Hfm1 Hfree))|].
      rewrite put_words. split; [done|]. split; [by apply (fm_put m)|]. split; [done|]. split; [done|].
      intros u y Hu Hy. rewrite get_run in Hy by done. injection Hy as <-.
      rewrite get_run, put_words, Htr1 by (done || by rewrite put_words). done. }
    destruct (decide (base <= frame < base + 4096 * total_frames m)) as [Hin|Hout].
    + destruct (free_run base m ((frame - base) / 4096) 0 Hok) as (m' & Hfree & Hok' & _ & Htk & _);
        [zdm|unfold PAGE_SIZE; lia|].
      unfold PAGE_SIZE in Hfree. replace (base + 4096 * ((frame - base) / 4096) + 0) with frame in Hfree by zdm.
      apply (Hfinish m'); [done..|]. intros i Hi. rewrite Htk by lia. do 2 case_decide; (done || zdm).
    + apply (Hfinish m); [by apply (free_outside base)|done|]. intros i Hi. rewrite decide_False; [done|]. zdm.
Qed.

(** With no page of the range mapped the count is that of the start. *)
Lemma range_count base s m d va s' : pfm_ok base m -> range_state base s m d va (fun _ => None) s' -> free_in s' (free_frames m).
Proof.
  intros Hok [_ _ (m' & Hfm' & Hok' & Htot & Htk) _ _ _]. exists m'. split; [done|].
  rewrite (ok_free _ _ Hok), (ok_free _ _ Hok'), Htot. unfold bm_clear_count. do 2 f_equal.
  assert (Hsame : forall i, 0 <= i -> taken m' i = taken m i).
  { intros i Hi. apply eq_true_iff_eq. rewrite Htk by done. split; [by intros [?|[? ?]]|by left]. }
  apply filter_ext_in. intros j Hj%elem_of_seqZ. unfold taken in Hsame. by rewrite Hsame by lia.
Qed.

(** The whole call in terms of [range_state]. *)
Lemma vmm_allocate_run `{Env} base m s d va size flags :
  dir_ok (words s) d -> d <> 0 -> is_u32 va -> fm_of s = Some m -> pfm_ok base m ->
  0 <= size <= 4294963200 ->
  let n := (size + 4095) / 4096 in
  let v0 := va / 4096 * 4096 in
  v0 + 4096 * n <= 4294967296 ->
  (forall u, is_u32 u -> va / 4096 <= u / 4096 < va / 4096 + n ->
     is_Some (slot_of (words s) d u) /\ pd_get_physical_address d u s = Ret (s, 0)) ->
  exists s', vmm_allocate_pages d va size flags s = Ret (s', if decide (n <= free_frames m) then 0 else -1) /\
    if decide (n <= free_frames m) then
      exists g, range_state base s m d v0 g s' /\ (forall j, is_Some (g j) <-> 0 <= j < n) /\
        (forall u x, is_u32 u -> pd_get_physical_address d u s = Ret (s, x) -> pd_get_physical_address d u s' =
          Ret (s', match g (u / 4096 - va / 4096) with Some i => base + 4096 * i + u mod 4096 | None => x end)) /\
        free_in s' (free_frames m - n)
    else range_state base s m d v0 (fun _ => None) s' /\
      (forall u x, is_u32 u -> pd_get_physical_address d u s = Ret (s, x) -> pd_get_physical_address d u s' = Ret (s', x)) /\
      free_in s' (free_frames m).
Proof.
  intros Hd Hd0 Hva Hfm Hok Hsize n v0 Hfit Hun. pose proof Hva as Hva'. unfold is_u32 in Hva'.
  assert (Hv0 : is_u32 v0) by (unfold is_u32, v0; zdm).
  assert (Hv0p : v0 / 4096 = va / 4096) by (unfold v0; apply Z.div_mul; lia).
  assert (Hround : round_size size = 4096 * n).
  { unfold round_size, PAGE_SIZE. rewrite page_mask_arith by apply u32_range.
    rewrite u32_small by (unfold is_u32; lia). unfold n. replace (size + 4096 - 1) with (size + 4095) by lia. lia. }
  assert (Hun' : unmapped s d v0 n).
  { intros u Hu Hp. rewrite Hv0p in Hp. destruct (Hun u Hu Hp) as [_ E]. rewrite get_run in E by done. by injection E. }
  assert (Htab : tabled s d v0 n) by (intros u Hu Hp; rewrite Hv0p in Hp; by apply Hun).
  unfold vmm_allocate_pages. rewrite decide_False by done. cbv zeta. rewrite Hround, page_mask_arith by done. fold v0.
  assert (Hn : 0 <= n < 1048576) by (unfold n; zdm).
  destruct (allocate_loop_run base s m d v0 Hok Hd0 Hv0 n flags (free_frames m) (pages_fuel (4096 * n)) (fun _ => None) s 0)
    as (s' & Hrun & Hcase);
    [by apply range_start|intros j; split; [by intros [? ?]|lia]|lia..|done|done|rewrite Z.sub_0_r; by exists m
    |by apply (count_bounds base)| |].
  { unfold pages_fuel, PAGE_SIZE. replace (4096 * n / 4096) with n by zdm. lia. }
  change (4096 * 0) with 0 in Hrun.
  assert (Hget : forall g, range_state base s m d v0 g s' -> forall u x, is_u32 u ->
    pd_get_physical_address d u s = Ret (s, x) -> pd_get_physical_address d u s' =
      Ret (s', match g (u / 4096 - va / 4096) with Some i => base + 4096 * i + u mod 4096 | None => x end)).
  { intros g Hg u x Hu Hx. rewrite get_run in Hx by done. injection Hx as <-.
    rewrite get_run by (done || apply Hg). rewrite (rs_translate _ _ _ _ _ _ _ Hg u Hu), Hv0p. done. }
  exists s'. split; [done|]. case_decide.
  - destruct Hcase as (g & Hs' & Hg & Hcnt). exists g. split; [done|]. split; [done|]. split; [by apply Hget|done].
  - split; [done|]. split; [by apply (Hget (fun _ => None))|by apply (range_count base s m d v0)].
Qed.

(** C13. Allocating a range of unmapped pages whose page tables are there is all
    or nothing, and which of the two is decided by the number of free frames
    alone: with at least one per page the call returns 0, and page after page
    stands on a different frame that was free before, everything outside the
    range translating as before; with fewer it returns -1, and every frame and
    every translation is as it was. *)
Theorem vmm_allocate_pages_all_or_nothing `{Env} base m s d va size flags :
  dir_ok (words s) d -> d <> 0 -> is_u32 va -> fm_of s = Some m -> pfm_ok base m ->
  0 <= size <= 4294963200 ->
  let n := (size + 4095) / 4096 in
  va / 4096 * 4096 + 4096 * n <= 4294967296 ->
  (forall u, is_u32 u -> va / 4096 <= u / 4096 < va / 4096 + n ->
     is_Some (slot_of (words s) d u) /\ pd_get_physical_address d u s = Ret (s, 0)) ->
  exists s' m', vmm_allocate_pages d va size flags s = Ret (s', if decide (n <= free_frames m) then 0 else -1) /\
    dir_ok (words s') d /\ fm_of s' = Some m' /\ pfm_ok base m' /\
    if decide (n <= free_frames m) then
      free_frames m' = free_frames m - n /\
      exists f : Z -> Z,
        (forall j, 0 <= j < n -> 0 <= f j < total_frames m /\ taken m (f j) = false) /\
        (forall j j', 0 <= j < n -> 0 <= j' < n -> f j = f j' -> j = j') /\
        (forall i, 0 <= i -> taken m' i = true <-> taken m i = true \/ exists j, 0 <= j < n /\ f j = i) /\
        forall u x, is_u32 u -> pd_get_physical_address d u s = Ret (s, x) ->
          pd_get_physical_address d u s' = Ret (s',
            let j := u / 4096 - va / 4096 in
            if decide (0 <= j < n) then base + 4096 * f j + u mod 4096 else x)
    else
      free_frames m' = free_frames m /\ (forall i, 0 <= i -> taken m' i = taken m i) /\
      forall u x, is_u32 u -> pd_get_physical_address d u s = Ret (s, x) ->
        pd_get_physical_address d u s' = Ret (s', x).
Proof.
  intros Hd Hd0 Hva Hfm Hok Hsize n Hfit Hun.
  destruct (vmm_allocate_run base m s d va size flags Hd Hd0 Hva Hfm Hok Hsize Hfit Hun) as (s' & Hrun & Hcase). fold n in Hrun, Hcase.
  exists s'. case_decide as Hcmp; [destruct Hcase as (g & Hs' & Hg & Hget & Hcnt)|destruct Hcase as (Hs' & Hget & Hcnt)];
    pose proof Hs' as [Hd' _ (m' & Hfm' & Hok' & Htot & Htk) Hinj Hfree _]; exists m'; do 4 (split; [done|]).
  - split; [destruct Hcnt as (mm & ? & ?); congruence|].
    assert (Hf : forall j, 0 <= j < n -> g j = Some (default 0 (g j))).
    { intros j Hj. destruct (g j) eqn:E; [done|]. apply Hg in Hj as [? ?]. congruence. }
    exists (fun j => default 0 (g j)). split; [|split; [|split]].
    + intros j Hj. by apply (Hfree j), Hf.
    + intros j j' Hj Hj' E. apply (Hinj j j' (default 0 (g j))); [by apply Hf|]. rewrite E. by apply Hf.
    + intros i Hi. rewrite Htk by done. split; (intros [?|(j & Hj)]; [by left|right; exists j]).
      * rewrite Hj. split; [|done]. apply Hg. by eexists.
      * destruct Hj as [Hj <-]. by apply Hf.
    + intros u x Hu Hx. rewrite (Hget u x) by done. cbv zeta. case_decide as Hj; [by rewrite (Hf _ Hj)|].
      destruct (g (u / 4096 - va / 4096)) eqn:E; [|done]. exfalso. apply Hj, Hg. by eexists.
  - split; [destruct Hcnt as (mm & ? & ?); congruence|]. split; [|intros u x Hu Hx; by rewrite (Hget u x)].
    intros i Hi. apply eq_true_iff_eq. rewrite Htk by done. split; [by intros [?|[? ?]]|by left].
Qed.

(** ** Demand paging *)

Definition contains (r : MemoryRegion) (a : Z) : Prop :=
  r_virtual_address r <= a < u32 (r_virtual_address r + r_size r).

(** The page frames are memory, apart from the directory and its tables. *)
Definition frames_apart (base : Z) (n : Z) (m : gmap Z Z) (d : Z) : Prop :=
  forall i k, 0 <= i < n -> 0 <= k < 1024 ->
    let x := base + 4096 * i + 4 * k in
    is_Some (m !! x) /\ (forall j, 0 <= j < 1024 -> x <> d + 4 * j) /\ forall u, slot_of m d u <> Some x.

(** The search for the first region that contains the address. *)
Lemma demand_loop_skip `{Env} d fa : forall l1 fuel p a s, lseg (fun a => r_next <$> regions s !! a) p l1 a ->
  (forall b r, b ∈ l1 -> regions s !! b = Some r -> ~ contains r fa) ->
  demand_loop (length l1 + fuel) d fa p s = demand_loop fuel d fa a s.
Proof.
  induction l1 as [|b l1 IH]; intros fuel p a s Hl Hno; cbn [lseg length Nat.add demand_loop] in *; [by subst|].
  destruct Hl as (-> & Hb & r & Hr & Hl). rewrite decide_False by done. rewrite gets_bind.
  destruct (regions s !! b) as [rb|] eqn:Erb; [|done]. injection Hr as <-. cbn [deref]. rewrite lift_bind.
  rewrite decide_False by (apply (Hno b); [by left|done]).
  apply IH; [done|]. intros c rc Hc. apply Hno. by right.
Qed.

(** Clearing a frame does not disturb the directory. *)
Lemma clear_frame `{Env} base n s d i : dir_ok (words s) d -> frames_apart base n (words s) d -> 0 <= i < n ->
  exists mm, clear_words 1024 (base + 4096 * i) s = Ret (with_words mm s, tt) /\ dir_ok mm d /\
    (forall u, slot_of mm d u = slot_of (words s) d u) /\ (forall u, translate mm d u = translate (words s) d u) /\
    forall k, 0 <= k < 1024 -> mm !! (base + 4096 * i + 4 * k) = Some 0.
Proof.
  intros Hd Hap Hi.
  destruct (clear_words_run 1024 (base + 4096 * i) s) as (mm & Hrun & Hin & Hout).
  { intros k Hk. by apply (Hap i k). }
  exists mm. split; [done|].
  destruct (dir_ok_agree (words s) mm d Hd) as [Hd' Hslot].
  - intros j Hj. apply Hout. intros k Hk E. destruct (Hap i k Hi Hk) as (_ & Hne & _). by apply (Hne j).
  - intros x Hx. destruct (decide (x ∈ (fun k => base + 4096 * i + 4 * k) <$> seqZ 0 1024)) as [Hin'|Hn].
    + apply list_elem_of_fmap in Hin' as (k & -> & Hk%elem_of_seqZ). rewrite Hin by lia. by eexists.
    + rewrite Hout; [done|]. intros k Hk ->. apply Hn, list_elem_of_fmap. exists k. by rewrite elem_of_seqZ.
  - split; [done|]. split; [done|]. split; [|done]. intros u. unfold translate. rewrite Hslot.
    destruct (slot_of (words s) d u) as [a|] eqn:Ea; [|done]. rewrite Hout; [done|].
    intros k Hk ->. destruct (Hap i k Hi Hk) as (_ & _ & Hne). by apply (Hne u).
Qed.

(** What the handler makes of the search. *)
Lemma fault_run `{Env} s pid d head err b : has err 0x4 = true -> has err 0x1 = true ->
  (forall s1, current_process s1 = Ret (s1, Some (pid, d, head))) ->
  forall s2, demand_loop (S (size (regions s))) d (cr2 (cpu s)) head s = Ret (s2, b) ->
  page_fault_handler err s =
    (if b then mret tt
     else cur ← current_process;
          match cur with Some (pid, _, _) => terminate_process pid (-1);; int20 | None => mret tt end) s2.
Proof.
  intros He4 He1 Hcur s2 Hrun. unfold page_fault_handler. rewrite gets_bind, He4, He1. cbn [negb andb].
  erewrite (cmd_bind_eq _ _ s s2 b); [by destruct b|].
  by rewrite (cmd_bind_eq _ _ _ _ _ (Hcur s)), ret_bind, gets_bind.
Qed.

(** What is done once the region is found: the lowest free frame, zeroed, at the
    page of the fault. *)
Lemma demand_map `{Env} base m s d fa flags slot :
  dir_ok (words s) d -> d <> 0 -> fm_of s = Some m -> pfm_ok base m ->
  frames_apart base (total_frames m) (words s) d -> is_u32 fa -> slot_of (words s) d fa = Some slot ->
  (free_frames m = 0 /\ on_frames pfm_allocate_frame s = Ret (s, 0)) \/
  exists s', free_frames m <> 0 /\
    (pa ← on_frames pfm_allocate_frame;
     if decide (pa = 0) then mret false else
     clear_words 1024 pa;;
     c ← pd_map_page d (Z.land fa PAGE_MASK) pa flags;
     if decide (c = 0) then flush fa;; mret true else mret false) s = Ret (s', true) /\
    exists m' i, dir_ok (words s') d /\
      0 <= i < total_frames m /\ taken m i = false /\ (forall j, 0 <= j < i -> taken m j = true) /\
      fm_of s' = Some m' /\ pfm_ok base m' /\
      (forall j, 0 <= j -> taken m' j = if decide (j = i) then true else taken m j) /\
      (forall k, 0 <= k < 1024 -> words s' !! (base + 4096 * i + 4 * k) = Some 0) /\
      (forall u x, is_u32 u -> pd_get_physical_address d u s = Ret (s, x) ->
        pd_get_physical_address d u s' =
          Ret (s', if decide (u / 4096 = fa / 4096) then base + 4096 * i + u mod 4096 else x)).
Proof.
  intros Hd Hd0 Hfm Hok Hap Hfa Hslot0.
  destruct (allocate_run base m Hok) as [(Hal & _ & Hz)|(i & m' & Hi & Hfree & Hlow & Hal & Hok' & Htot' & Htk' & Hcnt)].
  { left. split; [done|]. rewrite (on_frames_run _ _ _ _ _ Hfm Hal). by rewrite put_same. }
  right. rewrite (cmd_bind_eq _ _ _ _ _ (on_frames_run _ _ _ _ _ Hfm Hal)).
  unfold PAGE_SIZE. destruct (frame_address_range base m i Hok Hi) as (Hfr & Hfr0 & Hfral). rewrite decide_False by done.
  destruct (clear_frame base (total_frames m) (put_fm m' s) d i) as (mm & Hclr & Hdm & Hslot & Htr & Hzero);
    [by rewrite put_words..|done|]. rewrite put_words in Hslot, Htr. rewrite (cmd_bind_eq _ _ _ _ _ Hclr).
  rewrite page_mask_arith by done. set (v := fa / 4096 * 4096).
  assert (Hv : is_u32 v /\ v / 4096 = fa / 4096) by (unfold v; split; [unfold is_u32 in *; zdm|apply Z.div_mul; lia]).
  destruct (proj2 (same_slot v fa (proj1 Hv) Hfa) (proj2 Hv)) as [Ed Et].
  assert (Hsv : slot_of mm d v = Some slot) by (rewrite Hslot, <- Hslot0; unfold slot_of; by rewrite Ed, Et).
  destruct (map_present_run (with_words mm (put_fm m' s)) d v (base + 4096 * i) flags slot)
    as (s2 & w2 & Hmap & Hsys & Hd2 & Hw2 & _ & Htr2); [done|done|done|apply Hv|done|done|].
  rewrite (cmd_bind_eq _ _ _ _ _ Hmap), decide_True by done.
  pose proof (count_bounds base m' Hok') as Hb. eexists. split; [lia|]. split; [reflexivity|]. exists m', i.
  cbn [words with_cpu] in *. do 4 (split; [done|]). split; [|split; [done|split; [done|split]]].
  - unfold fm_of. cbn [vmm with_cpu]. rewrite (proj1 Hsys). by apply (fm_put m).
  - intros k Hk. rewrite Hw2. cbn [words with_words]. rewrite lookup_insert_ne; [by apply Hzero|].
    intros E. destruct (Hap i k Hi Hk) as (_ & _ & Hne). apply (Hne fa). by rewrite Hslot0, E.
  - intros u x Hu Hx. rewrite get_run in Hx by done. injection Hx as <-. rewrite get_run by done.
    cbn [words with_cpu]. rewrite Htr2 by done. cbn [words with_words]. by rewrite (proj2 Hv), Hfral, Htr.
Qed.

(** The walk over the regions when none of them contains the address. *)
Lemma demand_none `{Env} s d fa head l : chain (fun a => r_next <$> regions s !! a) head l ->
  (forall b rb, b ∈ l -> regions s !! b = Some rb -> ~ contains rb fa) ->
  demand_loop (S (size (regions s))) d fa head s = Ret (s, false).
Proof.
  intros Hch Hno. pose proof (chain_length_fuel _ _ _ _ Hch) as Hfuel.
  replace (S (size (regions s))) with (length l + S (size (regions s) - length l))%nat by lia.
  rewrite (demand_loop_skip d fa l _ head 0) by done. cbn [demand_loop]. by rewrite decide_True.
Qed.

(** The walk up to the first region that contains it. *)
Lemma demand_first `{Env} s d fa head l1 a l2 : chain (fun a => r_next <$> regions s !! a) head (l1 ++ a :: l2) ->
  (forall b rb, b ∈ l1 -> regions s !! b = Some rb -> ~ contains rb fa) ->
  a <> 0 /\ exists fuel, demand_loop (S (size (regions s))) d fa head s = demand_loop (S fuel) d fa a s.
Proof.
  intros Hch Hno. pose proof (chain_length_fuel _ _ _ _ Hch) as Hfuel. rewrite length_app in Hfuel. cbn [length] in Hfuel.
  apply chain_split in Hch as (Hl1 & Ha0 & _). split; [done|]. exists (size (regions s) - length l1)%nat.
  replace (S (size (regions s))) with (length l1 + S (size (regions s) - length l1))%nat by lia. by apply demand_loop_skip.
Qed.

(** A fault with bit 0 clear is not looked up in the regions. *)
Lemma fault_bit0_clear `{Env} s pid d head err a w : has err 0x4 = true -> has err 0x1 = false ->
  (forall s1, current_process s1 = Ret (s1, Some (pid, d, head))) ->
  slot_of (words s) d (cr2 (cpu s)) = Some a -> words s !! a = Some w -> has err 0x2 = false \/ present w = false ->
  page_fault_handler err s = (terminate_process pid (-1);; int20) s.
Proof.
  intros He4 He1 Hcur Ha Hw Hcow. unfold page_fault_handler. rewrite gets_bind, He4, He1. cbn [negb andb].
  rewrite (cmd_bind_eq _ _ s s false); [by rewrite (cmd_bind_eq _ _ _ _ _ (Hcur s))|].
  rewrite (cmd_bind_eq _ _ _ _ _ (Hcur s)). rewrite (cmd_bind_eq _ _ s s false); [done|].
  destruct (has err 2); [|done]. destruct Hcow as [?|Hp]; [done|].
  destruct (slot_entry _ _ _ _ Ha) as (e & He & Ep & Ea). unfold handle_cow. rewrite (rdw_bind _ e), Ep by done. cbn [negb].
  rewrite <- Ea. by rewrite (rdw_bind _ w), Hp.
Qed.

(** C14. Demand paging, for a user fault at an address whose page table is
    there, with [l] the regions of the process in order. When bit 0 of the error
    code is set, the first region that contains the address decides: if there is
    a free frame the lowest one is taken, zeroed and mapped at the page of the
    fault, everything else translates as before and the handler returns; if
    there is none, or no region contains the address, the process is terminated
    and the timer interrupt raised with nothing else changed. When bit 0 is
    clear, which is how the processor reports a page that is not present, the
    regions are not looked at: a read, or any access to a page whose entry is
    not present, terminates the process. *)
Theorem page_fault_demand_paging `{Env} base m s pid d head l err slot w :
  dir_ok (words s) d -> d <> 0 -> fm_of s = Some m -> pfm_ok base m ->
  frames_apart base (total_frames m) (words s) d ->
  (forall s1, current_process s1 = Ret (s1, Some (pid, d, head))) ->
  chain (fun a => r_next <$> regions s !! a) head l ->
  let fa := cr2 (cpu s) in
  is_u32 fa -> slot_of (words s) d fa = Some slot -> words s !! slot = Some w -> has err 0x4 = true ->
  let killed := page_fault_handler err s = (terminate_process pid (-1);; int20) s in
  (has err 0x1 = true ->
    ((forall b rb, b ∈ l -> regions s !! b = Some rb -> ~ contains rb fa) -> killed) /\
    (forall l1 a l2 r, l = l1 ++ a :: l2 -> regions s !! a = Some r -> contains r fa ->
      (forall b rb, b ∈ l1 -> regions s !! b = Some rb -> ~ contains rb fa) ->
      if decide (free_frames m = 0) then killed else
      exists s' m' i, page_fault_handler err s = Ret (s', tt) /\ dir_ok (words s') d /\
        0 <= i < total_frames m /\ taken m i = false /\ (forall j, 0 <= j < i -> taken m j = true) /\
        fm_of s' = Some m' /\ pfm_ok base m' /\
        (forall j, 0 <= j -> taken m' j = if decide (j = i) then true else taken m j) /\
        (forall k, 0 <= k < 1024 -> words s' !! (base + 4096 * i + 4 * k) = Some 0) /\
        (forall u x, is_u32 u -> pd_get_physical_address d u s = Ret (s, x) ->
          pd_get_physical_address d u s' =
            Ret (s', if decide (u / 4096 = fa / 4096) then base + 4096 * i + u mod 4096 else x)))) /\
  (has err 0x1 = false -> has err 0x2 = false \/ present w = false -> killed).
Proof.
  intros Hd Hd0 Hfm Hok Hap Hcur Hch fa Hfa Hslot0 Hw He4 killed.
  split; [intros He1|intros He1 Hc; by apply (fault_bit0_clear s pid d head err slot w)].
  assert (Hend : demand_loop (S (size (regions s))) d fa head s = Ret (s, false) -> killed).
  { intros Hrun. unfold killed. rewrite (fault_run s pid d head err _ He4 He1 Hcur s Hrun).
    by rewrite (cmd_bind_eq _ _ _ _ _ (Hcur s)). }
  split; [intros Hno; by apply Hend, (demand_none s d fa head l)|].
  intros l1 a l2 r -> Hr Hin Hno. destruct (demand_first s d fa head l1 a l2 Hch Hno) as (Ha0 & fuel & Hskip).
  rewrite Hskip in Hend. revert Hend. cbn [demand_loop]. rewrite decide_False, gets_bind, Hr by done.
  cbn [deref]. rewrite lift_bind, (decide_True (P := _ /\ _)) by done.
  destruct (demand_map base m s d fa (r_flags r) slot) as [[Hz Hal]|(s' & Hnz & Hal & Hrest)]; [done..| |].
  - rewrite (cmd_bind_eq _ _ _ _ _ Hal), !(decide_True (P := _ = 0)) by done. intros Hend. by apply Hend.
  - intros _. rewrite decide_False by done. destruct Hrest as (m' & i & Hrest). exists s', m', i. split; [|exact Hrest].
    rewrite (fault_run s pid d head err true He4 He1 Hcur s'); [done|]. fold fa. rewrite Hskip. cbn [demand_loop].
    rewrite decide_False, gets_bind, Hr by done. cbn [deref]. by rewrite lift_bind, decide_True.
Qed.

(** Page tables that [malloc] does not place on a page boundary are lost:
    the directory keeps only the page number of the table, so for a page whose
    slot lies below the real table the entry overwrites a word of some other
    object in front of it, and the call reports success. *)
Theorem pd_map_page_misaligned_table `{HeapLaws} s s1 d va pa flags e a w :
  d <> 0 -> pa <> 0 -> words s !! (d + 4 * dir_index va) = Some e -> present e = false ->
  malloc 4096 s = Ret (s1, a) -> a <> 0 -> 4 * table_index va < a mod 4096 ->
  let x := a / 4096 * 4096 + 4 * table_index va in
  words s !! x = Some w -> x <> d + 4 * dir_index va ->
  exists s', pd_map_page d va pa flags s = Ret (s', 0) /\ x < a /\
    words s' !! x = Some (fill_entry flags (Z.shiftr pa 12) w).
Proof.
  intros Hd0 Hp0 He Hp Hm Ha0 Hidx x Hw Hxd. assert (Hxa : x < a) by (unfold x; zdm).
  pose proof (map_misaligned_run s d va pa flags e s1 a Hd0 Hp0 He Hp Hm Ha0 Hxd) as Hrun. cbv zeta in Hrun. fold x in Hrun.
  rewrite decide_False, Hw in Hrun by lia. destruct Hrun as (s' & Hrun & Hx & _). by exists s'.
Qed.

(** ** Witnesses *)

(** [n] words from [a], all 0. *)
Definition block (a n : Z) : gmap Z Z := list_to_map ((fun k => (a + 4 * k, 0)) <$> seqZ 0 n).

Lemma block_lookup a n x : block a n !! x = Some 0 \/ block a n !! x = None.
Proof.
  destruct (block a n !! x) as [w|] eqn:E; [left|by right].
  apply elem_of_list_to_map_2, list_elem_of_fmap in E as (k & [= -> ->] & _). done.
Qed.

Lemma block_in a n k : 0 <= k < n -> block a n !! (a + 4 * k) = Some 0.
Proof.
  intros Hk. destruct (block_lookup a n (a + 4 * k)) as [|E]; [done|exfalso].
  apply not_elem_of_list_to_map_2 in E. apply E. rewrite <- list_fmap_compose. apply list_elem_of_fmap.
  exists k. split; [done|]. by apply elem_of_seqZ.
Qed.

Lemma block_out a n x : (forall k, 0 <= k < n -> x <> a + 4 * k) -> block a n !! x = None.
Proof.
  intros Hx. apply not_elem_of_list_to_map_1. rewrite <- list_fmap_compose. intros (k & -> & Hk%elem_of_seqZ)%list_elem_of_fmap.
  apply (Hx k); [lia|done].
Qed.

#[local] Opaque block.

Lemma union3_is_Some (m1 m2 m3 : gmap Z Z) x :
  is_Some (m1 !! x) \/ is_Some (m2 !! x) \/ is_Some (m3 !! x) -> is_Some ((m1 ∪ m2 ∪ m3) !! x).
Proof. rewrite !lookup_union. destruct (m1 !! x), (m2 !! x), (m3 !! x); cbn; naive_solver. Qed.

Lemma union3_zero (m1 m2 m3 : gmap Z Z) x w : (m1 ∪ m2 ∪ m3) !! x = Some w ->
  (m1 !! x = Some 0 \/ m1 !! x = None) -> (m2 !! x = Some 0 \/ m2 !! x = None) ->
  (m3 !! x = Some 0 \/ m3 !! x = None) -> w = 0.
Proof.
  rewrite !lookup_union. intros Hw [E1|E1] [E2|E2] [E3|E3]; rewrite E1, E2, E3 in Hw; cbn in Hw; congruence.
Qed.

(** A heap that allocates above all its memory, at the next multiple of [p], and
    a current process with page directory 4096 and one region. *)
Definition bump (p n : Z) : V Z := fun s =>
  let a := (top_address (words s) / p + 1) * p in
  if decide (a + n <= 4294967296) then
    Ret (with_words (block a ((n + 3) / 4) ∪ words s) s, a)
  else Ret (s, 0).

Definition demo_env (p : Z) : Env := {|
  malloc := bump p;
  free := fun _ => mret tt;
  current_process := mret (Some (5, 4096, 100));
  terminate_process := fun _ _ => mret tt;
  int20 := mret tt;
  vfs_open := fun _ _ => mret (-1);
  vfs_close := fun _ => mret tt;
  memupper_global := 65536
|}.

Lemma demo_heap_laws q : 0 < q -> @HeapLaws (demo_env (q * 4)).
Proof.
  intros Hq. constructor. intros n s Hn. cbn [malloc demo_env]. unfold bump. cbv zeta.
  pose proof (max_list_nonneg (elements (dom (words s)))) as Htop. fold (top_address (words s)) in Htop.
  set (a := (top_address (words s) / (q * 4) + 1) * (q * 4)).
  assert (Ha : top_address (words s) < a).
  { unfold a. rewrite Z.mul_comm. apply Z.mul_succ_div_gt. lia. }
  assert (Hal : a mod 4 = 0) by (unfold a; rewrite Z.mul_assoc; by apply Z.mod_mul).
  destruct (decide (a + n <= 4294967296)) as [Hfit|_].
  2:{ exists s, 0. split; [done|]. split; [done|]. by left. }
  eexists _, a. split; [done|]. split; [done|]. right. cbn [words with_words].
  split; [lia|]. split; [done|]. split; [done|]. split.
  { intros x Hx. apply above_top. lia. }
  split.
  - intros k Hk Hkn. exists 0. apply lookup_union_Some_l, block_in. zdm.
  - intros x Hx. apply lookup_union_r, block_out. intros k Hk ->. apply Hx. clear - Hk. zdm.
Qed.

(** A machine with a directory at 4096, a table at 8192 that maps page 0 to
    frame 5, three frames from 16 MiB (the first one taken) and one region. *)
Definition demo_memory : gmap Z Z :=
  <[4096 := 8195]> (<[8192 := 20483]> (block 4096 1024 ∪ block 8192 1024 ∪ block 16777216 3072)).
Definition demo_region : MemoryRegion := mkRegion 0x2000 0 0x2000 0x7 MEMORY_HEAP 0.
Definition demo_state : vstate :=
  mkV demo_memory (Some (mkVMM (Some three_frames) 0 0 0)) {[ 100 := demo_region ]}
    (mkCpu 0 0x2123 0 []).

Lemma demo_words x : demo_memory !! x =
  if decide (x = 4096) then Some 8195 else if decide (x = 8192) then Some 20483 else
  (block 4096 1024 ∪ block 8192 1024 ∪ block 16777216 3072) !! x.
Proof.
  unfold demo_memory. case_decide as E; [subst; apply lookup_insert_eq|rewrite lookup_insert_ne by done].
  case_decide as E2; [subst; apply lookup_insert_eq|by rewrite lookup_insert_ne].
Qed.

Lemma demo_mapped x : is_Some (block 4096 1024 !! x) \/ is_Some (block 8192 1024 !! x) \/
  is_Some (block 16777216 3072 !! x) -> is_Some (demo_memory !! x).
Proof. intros Hx. rewrite demo_words. do 2 (case_decide; [by eexists|]). by apply union3_is_Some. Qed.

Lemma demo_entry i e : dir_entry demo_memory 4096 i e -> i = 0 /\ e = 8195.
Proof.
  intros (Hi & He & Hp). rewrite demo_words in He. destruct (decide (4096 + 4 * i = 4096)).
  { injection He as <-. split; [lia|done]. }
  rewrite decide_False in He by lia. exfalso.
  apply union3_zero in He; [by subst e|apply block_lookup..].
Qed.

Lemma demo_dir_ok : dir_ok demo_memory 4096.
Proof.
  constructor.
  - intros i Hi. apply demo_mapped. left. exists 0. apply block_in. lia.
  - intros i e j [-> ->]%demo_entry Hj. change (table_of 8195) with 8192. apply demo_mapped. right. left. exists 0. apply block_in. lia.
  - intros i e j k [-> ->]%demo_entry Hj Hk. change (table_of 8195) with 8192. lia.
  - intros i i' e e' [-> _]%demo_entry [-> _]%demo_entry. done.
Qed.

Lemma demo_frames_apart : frames_apart 0x1000000 3 demo_memory 4096.
Proof.
  intros i k Hi Hk x. split; [|split].
  - unfold x. replace (0x1000000 + 4096 * i + 4 * k) with (16777216 + 4 * (1024 * i + k)) by lia.
    apply demo_mapped. right. right. exists 0. apply block_in. lia.
  - intros j Hj. unfold x. lia.
  - intros u Hu. unfold slot_of in Hu. destruct (demo_memory !! (4096 + 4 * dir_index u)) as [e|] eqn:Ee; [|done].
    cbn [mbind option_bind] in Hu. destruct (present e) eqn:Ep; [|done]. injection Hu as Hu.
    destruct (demo_entry (dir_index u) e (conj (dir_index_range u) (conj Ee Ep))) as [_ ->].
    change (table_of 8195) with 8192 in Hu. pose proof (table_index_range u). unfold x in Hu. lia.
Qed.

#[local] Instance demo_env0 : Env := demo_env (1024 * 4).
#[local] Instance demo_laws0 : HeapLaws := demo_heap_laws 1024 eq_refl.

(** The first four megabytes have their table, the others do not. *)
Lemma demo_slot u : dir_index u = 0 -> slot_of demo_memory 4096 u = Some (8192 + 4 * table_index u).
Proof. intros E. unfold slot_of. rewrite E, demo_words, decide_True by lia. reflexivity. Qed.



Lemma pd_unmap_page_translates_witness :
  exists s' m' x, pd_get_physical_address 4096 0x123 demo_state = Ret (demo_state, x) /\
    pd_unmap_page 4096 0x123 demo_state = Ret (s', 0) /\
    dir_ok (words s') 4096 /\ fm_of s' = Some m' /\ pfm_ok 0x1000000 m' /\
    (forall i, 0 <= i < total_frames three_frames ->
       taken m' i = if decide (x / 4096 = 0x1000000 / 4096 + i) then false else taken three_frames i) /\
    forall u y, is_u32 u -> pd_get_physical_address 4096 u demo_state = Ret (demo_state, y) ->
      pd_get_physical_address 4096 u s' = Ret (s', if decide (u / 4096 = 0x123 / 4096) then 0 else y).
Proof.
  apply pd_unmap_page_translates; [exact demo_dir_ok|lia|split; lia|reflexivity|exact three_frames_ok|reflexivity].
Defined.

Lemma demo_unmapped u : is_u32 u -> u / 4096 <> 0 ->
  pd_get_physical_address 4096 u demo_state = Ret (demo_state, 0).
Proof.
  intros Hu Hp. rewrite get_run; [|exact demo_dir_ok|lia]. do 2 f_equal. unfold translate, slot_of. cbn [words demo_state].
  destruct (demo_memory !! (4096 + 4 * dir_index u)) as [e|] eqn:Ee; [|reflexivity]. cbn [mbind option_bind].
  destruct (present e) eqn:Ep; [|reflexivity].
  destruct (demo_entry (dir_index u) e (conj (dir_index_range u) (conj Ee Ep))) as [Ed ->].
  change (table_of 8195) with 8192. destruct (demo_memory !! (8192 + 4 * table_index u)) as [w|] eqn:Ew; [|reflexivity].
  rewrite demo_words in Ew. pose proof (table_index_range u) as Hr. rewrite decide_False in Ew by lia.
  rewrite decide_False in Ew.
  - apply union3_zero in Ew; [by subst w|apply block_lookup..].
  - intros E. apply Hp. change 0 with (0 / 4096). apply same_slot; [exact Hu|split; lia|].
    split; [rewrite Ed; reflexivity|]. change (table_index 0) with 0. lia.
Qed.

Lemma demo_range u : is_u32 u -> 2 <= u / 4096 < 1024 ->
  is_Some (slot_of (words demo_state) 4096 u) /\ pd_get_physical_address 4096 u demo_state = Ret (demo_state, 0).
Proof.
  intros Hu Hp. split; [|apply demo_unmapped; [exact Hu|lia]]. eexists. apply demo_slot.
  rewrite dir_index_arith. unfold is_u32 in Hu. zdm.
Qed.

(** Two frames are free: two pages can be had and three cannot. *)
Lemma vmm_allocate_pages_all_or_nothing_witness :
  (exists s' m', vmm_allocate_pages 4096 0x2010 0x1800 7 demo_state = Ret (s', 0) /\ dir_ok (words s') 4096 /\
    fm_of s' = Some m' /\ pfm_ok 0x1000000 m' /\ free_frames m' = 0 /\
    exists f : Z -> Z,
      (forall j, 0 <= j < 2 -> 0 <= f j < 3 /\ taken three_frames (f j) = false) /\
      (forall j j', 0 <= j < 2 -> 0 <= j' < 2 -> f j = f j' -> j = j') /\
      (forall i, 0 <= i -> taken m' i = true <-> taken three_frames i = true \/ exists j, 0 <= j < 2 /\ f j = i) /\
      forall u x, is_u32 u -> pd_get_physical_address 4096 u demo_state = Ret (demo_state, x) ->
        pd_get_physical_address 4096 u s' = Ret (s',
          let j := u / 4096 - 0x2010 / 4096 in
          if decide (0 <= j < 2) then 0x1000000 + 4096 * f j + u mod 4096 else x)) /\
  (exists s' m', vmm_allocate_pages 4096 0x2010 0x2800 7 demo_state = Ret (s', -1) /\ dir_ok (words s') 4096 /\
    fm_of s' = Some m' /\ pfm_ok 0x1000000 m' /\
    free_frames m' = 2 /\ (forall i, 0 <= i -> taken m' i = taken three_frames i) /\
    forall u x, is_u32 u -> pd_get_physical_address 4096 u demo_state = Ret (demo_state, x) ->
      pd_get_physical_address 4096 u s' = Ret (s', x)).
Proof.
  split.
  - apply (vmm_allocate_pages_all_or_nothing 0x1000000 three_frames demo_state 4096 0x2010 0x1800 7);
      [exact demo_dir_ok|lia|split; lia|reflexivity|exact three_frames_ok|lia|vm_compute; discriminate|].
    intros u Hu Hp. apply demo_range; [exact Hu|]. change (0x2010 / 4096) with 2 in Hp. change ((0x1800 + 4095) / 4096) with 2 in Hp. lia.
  - apply (vmm_allocate_pages_all_or_nothing 0x1000000 three_frames demo_state 4096 0x2010 0x2800 7);
      [exact demo_dir_ok|lia|split; lia|reflexivity|exact three_frames_ok|lia|vm_compute; discriminate|].
    intros u Hu Hp. apply demo_range; [exact Hu|]. change (0x2010 / 4096) with 2 in Hp. change ((0x2800 + 4095) / 4096) with 3 in Hp. lia.
Defined.

Lemma page_fault_demand_paging_witness :
  let fa := cr2 (cpu demo_state) in
  (exists s' m' i, page_fault_handler 5 demo_state = Ret (s', tt) /\ dir_ok (words s') 4096 /\
     0 <= i < total_frames three_frames /\ taken three_frames i = false /\ (forall j, 0 <= j < i -> taken three_frames j = true) /\
     fm_of s' = Some m' /\ pfm_ok 0x1000000 m' /\
     (forall j, 0 <= j -> taken m' j = if decide (j = i) then true else taken three_frames j) /\
     (forall k, 0 <= k < 1024 -> words s' !! (0x1000000 + 4096 * i + 4 * k) = Some 0) /\
     forall u x, is_u32 u -> pd_get_physical_address 4096 u demo_state = Ret (demo_state, x) ->
       pd_get_physical_address 4096 u s' =
         Ret (s', if decide (u / 4096 = fa / 4096) then 0x1000000 + 4096 * i + u mod 4096 else x)) /\
  page_fault_handler 4 demo_state = (terminate_process 5 (-1);; int20) demo_state.
Proof.
  assert (Hslot : slot_of (words demo_state) 4096 (cr2 (cpu demo_state)) = Some (8192 + 4 * 2))
    by (apply (demo_slot 0x2123); reflexivity).
  assert (Hw : words demo_state !! (8192 + 4 * 2) = Some 0).
  { cbn [words demo_state]. rewrite demo_words, decide_False, decide_False by lia. apply lookup_union_Some_l, lookup_union_Some_raw.
    right. split; [apply block_out; lia|apply (block_in 8192 1024 2); lia]. }
  assert (Hch : chain (fun a => r_next <$> regions demo_state !! a) 100 [100]).
  { split; [reflexivity|]. split; [lia|]. exists 0. split; reflexivity. }
  assert (Hcur : forall s1, @current_process demo_env0 s1 = Ret (s1, Some (5, 4096, 100))) by reflexivity.
  assert (Hcr2 : is_u32 (cr2 (cpu demo_state))) by (split; vm_compute; (reflexivity || discriminate)).
  split.
  - assert (Hin : contains demo_region (cr2 (cpu demo_state)))
      by (change (0x2000 <= 0x2123 < u32 (0x2000 + 0x2000)); rewrite u32_small; [lia|split; lia]).
    pose proof (proj2 (proj1 (@page_fault_demand_paging demo_env0 0x1000000 three_frames demo_state 5 4096 100 [100] 5 _ _ demo_dir_ok
      ltac:(lia) eq_refl three_frames_ok demo_frames_apart Hcur Hch Hcr2 Hslot Hw eq_refl) eq_refl)
      [] 100 [] demo_region eq_refl eq_refl Hin) as Hrun.
    rewrite decide_False in Hrun by (vm_compute; discriminate).
    apply Hrun. intros b rb Hb. destruct (not_elem_of_nil b Hb).
  - apply (proj2 (@page_fault_demand_paging demo_env0 0x1000000 three_frames demo_state 5 4096 100 [100] 4 _ _ demo_dir_ok ltac:(lia) eq_refl
      three_frames_ok demo_frames_apart Hcur Hch Hcr2 Hslot Hw eq_refl) eq_refl (or_introl eq_refl)).
Defined.

(** A heap that aligns to 16 bytes, right behind someone else's word. *)
Definition shared_state : vstate :=
  mkV (<[8192 := 77]> (block 4096 1024)) None ∅ (mkCpu 0 0 0 []).

Lemma pd_map_page_misaligned_table_witness :
  (exists s1, bump 16 4096 shared_state = Ret (s1, 8208)) /\
  exists s', @pd_map_page (demo_env (4 * 4)) 4096 0 0x3000 7 shared_state = Ret (s', 0) /\ 8192 < 8208 /\
    words s' !! 8192 = Some (fill_entry 7 (Z.shiftr 0x3000 12) 77).
Proof.
  assert (Htop : top_address (words shared_state) = 8192) by (vm_compute; reflexivity).
  assert (Hm : bump 16 4096 shared_state =
    Ret (with_words (block 8208 ((4096 + 3) / 4) ∪ words shared_state) shared_state, 8208)).
  { unfold bump. rewrite Htop. reflexivity. }
  split; [eexists; exact Hm|].
  apply (@pd_map_page_misaligned_table _ (demo_heap_laws 4 eq_refl) shared_state
    (with_words (block 8208 ((4096 + 3) / 4) ∪ words shared_state) shared_state) 4096 0 0x3000 7 0 8208 77);
    [lia|lia| |reflexivity|exact Hm|lia|reflexivity|apply lookup_insert_eq|vm_compute; discriminate].
  change (dir_index 0) with 0. cbn [words shared_state]. rewrite lookup_insert_ne by lia. apply block_in. lia.
Defined.
