(* ===== verification/Vfs.v ===== *)
(** * Virtual file system (src/fs/vfs.c, include/fs/vfs.h)

    Mount points, path handling, the descriptor table and the dispatch of file
    operations. Strings are values (bytes without the terminator); an allocated
    string keeps its address, so that what is freed can be named. The string
    routines behave on them as CString.v proves they do on memory. File systems
    and file operations are function pointers, called through the interface
    [Env]. *)
From S2P Require Import Prelude CString.

Definition MAX_FILE_DESCRIPTORS : Z := 1024.
Definition MAX_MOUNT_POINTS : Z := 32.
Definition MAX_FILESYSTEMS : Z := 16.
Definition O_RDONLY : Z := 0x0001.
Definition O_APPEND : Z := 0x0010.

Inductive FileType : Set :=
| FILE_TYPE_REGULAR | FILE_TYPE_DIRECTORY | FILE_TYPE_BLOCK_DEVICE | FILE_TYPE_CHAR_DEVICE
| FILE_TYPE_PIPE | FILE_TYPE_SYMLINK.
#[export] Instance FileType_eq_dec : EqDecision FileType.
Proof. solve_decision. Defined.

Record Inode := mkInode {
  inode_num : Z; i_type : FileType; permissions : Z; i_size : Z; blocks : Z; i_ref_count : Z; private_data : Z
}.
Definition set_i_ref v i := mkInode (inode_num i) (i_type i) (permissions i) (i_size i) (blocks i) v (private_data i).
Definition set_i_size v i := mkInode (inode_num i) (i_type i) (permissions i) v (blocks i) (i_ref_count i) (private_data i).

(** Function pointers; 0 is NULL. *)
Record FileOperations := mkOps {
  op_open : Z; op_close : Z; op_read : Z; op_write : Z; op_ioctl : Z; op_opendir : Z; op_closedir : Z; op_readdir : Z
}.

Record FileDescriptor := mkFD { fd_inode : Z; fd_ops : Z; fd_offset : Z; fd_flags : Z; fd_ref_count : Z }.
Definition set_fd_offset v d := mkFD (fd_inode d) (fd_ops d) v (fd_flags d) (fd_ref_count d).

Record FileSystem := mkFS {
  fs_name : list Z; fs_mount : Z; fs_umount : Z; fs_get_inode : Z; fs_mkdir : Z; fs_rmdir : Z; fs_remove : Z
}.

(** An allocated string: its address and its text. *)
Abbreviation str := (Z * list Z)%type.

(** [path] is NULL when its [strdup] failed. *)
Record MountPoint := mkMP { mp_path : option str; mp_fs : Z }.

Record vfs := mkVfs {
  file_descriptors : list FileDescriptor; mount_points : list MountPoint; registered_filesystems : list Z;
  next_inode_num : Z; num_mount_points : Z; num_filesystems : Z;
  inodes : gmap Z Inode; operations : gmap Z FileOperations; filesystems : gmap Z FileSystem
}.
Abbreviation V := (cmd vfs).

Definition with_fds f s := mkVfs (f (file_descriptors s)) (mount_points s) (registered_filesystems s)
  (next_inode_num s) (num_mount_points s) (num_filesystems s) (inodes s) (operations s) (filesystems s).
Definition with_mounts f n s := mkVfs (file_descriptors s) (f (mount_points s)) (registered_filesystems s)
  (next_inode_num s) n (num_filesystems s) (inodes s) (operations s) (filesystems s).
Definition with_fss f n s := mkVfs (file_descriptors s) (mount_points s) (f (registered_filesystems s))
  (next_inode_num s) (num_mount_points s) n (inodes s) (operations s) (filesystems s).
Definition with_inodes n f s := mkVfs (file_descriptors s) (mount_points s) (registered_filesystems s)
  n (num_mount_points s) (num_filesystems s) (f (inodes s)) (operations s) (filesystems s).

(** The heap, and calls through function pointers: the first argument is the
    pointer. [call_read] also returns the bytes it stored in the buffer.
    [stack_byte] is what the last byte of an uninitialised 256-byte buffer on
    the stack happens to be. *)
Class Env := {
  malloc : Z -> V Z;
  free : Z -> V unit;
  call_mount : Z -> list Z -> list Z -> V Z;
  call_umount : Z -> list Z -> V Z;
  call_get_inode : Z -> list Z -> V Z;
  call_mkdir : Z -> list Z -> Z -> V Z;
  call_path : Z -> list Z -> V Z;
  call_open : Z -> Z -> Z -> V Z;
  call_close : Z -> Z -> V Z;
  call_read : Z -> Z -> Z -> Z -> V (Z * list Z);
  call_write : Z -> Z -> list Z -> Z -> V Z;
  call_ioctl : Z -> Z -> Z -> Z -> V Z;
  call_readdir : Z -> Z -> V (Z * list Z * FileType);
  stack_byte : Z
}.

Definition get_fd_entry (i : Z) : V FileDescriptor := l ← gets file_descriptors; lift (deref (zget l i)).
Definition put_fd_entry (i : Z) (d : FileDescriptor) : V unit :=
  l ← gets file_descriptors; l' ← lift (deref (zset l i d)); modify (with_fds (fun _ => l')).
Definition get_inode_at (a : Z) : V Inode := m ← gets inodes; lift (deref (m !! a)).
Definition put_inode_at (a : Z) (i : Inode) : V unit :=
  n ← gets next_inode_num; modify (with_inodes n (<[a := i]>)).
Definition get_ops_at (a : Z) : V FileOperations := m ← gets operations; lift (deref (m !! a)).
Definition get_fs_at (a : Z) : V FileSystem := m ← gets filesystems; lift (deref (m !! a)).

(** ** Initialisation and registration *)

Definition empty_fd : FileDescriptor := mkFD 0 0 0 0 0.

(** The loops over the three static arrays; the counters are not reset. *)
Definition vfs_init : V Z :=
  modify (with_fds (fun _ => replicate (Z.to_nat MAX_FILE_DESCRIPTORS) empty_fd));;
  n ← gets num_mount_points;
  modify (with_mounts (fun _ => replicate (Z.to_nat MAX_MOUNT_POINTS) (mkMP None 0)) n);;
  k ← gets num_filesystems;
  modify (with_fss (fun _ => replicate (Z.to_nat MAX_FILESYSTEMS) 0) k);;
  mret 0.

Section vfs.
Context `{Env}.

Definition sizeof_Inode : Z := 28.

Definition vfs_create_inode (type : FileType) (perms data : Z) : V Z :=
  inode ← malloc sizeof_Inode;
  if decide (inode = 0) then mret 0 else
  n ← gets next_inode_num;
  modify (with_inodes (u32 (n + 1)) (<[inode := mkInode n type perms 0 0 1 data]>));;
  mret inode.

Definition vfs_destroy_inode (inode : Z) : V unit :=
  if decide (inode = 0) then mret tt else
  i ← get_inode_at inode;
  if decide (0 < i_ref_count i) then
    put_inode_at inode (set_i_ref (i_ref_count i - 1) i);;
    if decide (i_ref_count i - 1 = 0) then free inode else mret tt
  else mret tt.

(** for (i = 0; i < num_filesystems; i++) the first one with this name *)
Fixpoint find_fs_loop (n : nat) (i : Z) (name : list Z) : V Z :=
  match n with
  | O => mret 0
  | S n' =>
      l ← gets registered_filesystems;
      a ← lift (deref (zget l i));
      f ← get_fs_at a;
      if decide (fs_name f = name) then mret a else find_fs_loop n' (i + 1) name
  end.

Definition find_filesystem (fs_type : list Z) : V Z :=
  n ← gets num_filesystems; find_fs_loop (Z.to_nat n) 0 fs_type.

Definition vfs_register_filesystem (fs : Z) : V Z :=
  n ← gets num_filesystems;
  if decide (MAX_FILESYSTEMS <= n) then mret (-1) else
  f ← get_fs_at fs;
  a ← find_fs_loop (Z.to_nat n) 0 (fs_name f);
  if decide (a <> 0) then mret (-1) else
  l ← gets registered_filesystems;
  l' ← lift (deref (zset l n fs));
  modify (with_fss (fun _ => l') (n + 1));;
  mret 0.

(** ** Paths. '/' is 47, '%' is 37, 's' is 115. *)

Definition strdup (s : list Z) : V (option str) :=
  p ← malloc (u32 (Z.of_nat (length s) + 1));
  mret (if decide (p = 0) then None else Some (p, s)).

(** What snprintf leaves in a buffer of [size] bytes for a format without %d. *)
Definition snprintf_plain (size : Z) (format : list Z) : list Z := take (Z.to_nat (size - 1)) format.

Definition vfs_normalize_path (path current_dir : list Z) : V (option str) :=
  if decide (head path = Some 47) then strdup path else
  let curr_len := Z.of_nat (length current_dir) in
  let path_len := Z.of_nat (length path) in
  let new_len := u32 (curr_len + path_len + 2) in
  p ← malloc new_len;
  if decide (p = 0) then mret None else
  if decide (0 < curr_len /\ zget current_dir (curr_len - 1) <> Some 47)
  then mret (Some (p, current_dir ++ snprintf_plain (new_len - curr_len) [47; 37; 115]))
  else mret (Some (p, current_dir ++ snprintf_plain (new_len - curr_len) [37; 115])).

(** The string in a buffer: the bytes before the first 0. *)
Fixpoint text_of (buf : list Z) : list Z :=
  match buf with [] => [] | c :: buf' => if decide (c = 0) then [] else c :: text_of buf' end.

(** strncmp(a, b, n) == 0 on strings without 0 bytes. *)
Definition same_prefix (n : Z) (a b : list Z) : bool := bool_decide (take (Z.to_nat n) a = take (Z.to_nat n) b).

(** The buffer [mount_path] and [mount_len] of the loop body: the mount path
    with '/' at its end. *)
Definition mount_prefix (path : list Z) : outcome (list Z * Z) :=
  let mount_len := Z.of_nat (length path) in
  let buf := padded 255 path ++ [stack_byte] in
  c ← deref (zget buf (mount_len - 1));
  if decide (c <> 47) then
    buf ← deref (zset buf mount_len 47);
    buf ← deref (zset buf (mount_len + 1) 0);
    mret (buf, mount_len + 1)
  else mret (buf, mount_len).

(** The search for the longest mount point; [best] is its index, or -1. *)
Fixpoint match_loop (n : nat) (i : Z) (path : list Z) (best best_len : Z) : V (Z * Z) :=
  match n with
  | O => mret (best, best_len)
  | S n' =>
      l ← gets mount_points;
      mp ← lift (deref (zget l i));
      p ← lift (deref (mp_path mp));
      '(buf, mount_len) ← lift (mount_prefix (snd p));
      if same_prefix mount_len path (text_of buf) && bool_decide (best_len < mount_len)
      then match_loop n' (i + 1) path i mount_len
      else match_loop n' (i + 1) path best best_len
  end.

(** The result: the index of the mount point (-1 for NULL) and the path in it. *)
Definition vfs_find_mount_point (path : option (list Z)) : V (Z * option str) :=
  match path with
  | None => mret (-1, None)
  | Some path =>
      normalized ← vfs_normalize_path path [47];
      match normalized with
      | None => mret (-1, None)
      | Some (a, normalized_path) =>
          n ← gets num_mount_points;
          '(best, best_len) ← match_loop (Z.to_nat n) 0 normalized_path (-1) 0;
          '(best, best_len) ←
            (if decide (best = -1 /\ 0 < n) then
               l ← gets mount_points;
               mp ← lift (deref (zget l 0));
               p ← lift (deref (mp_path mp));
               mret (0, Z.of_nat (length (snd p)))
             else mret (best, best_len));
          path_in_fs ←
            (if decide (best <> -1) then
               if decide (best_len < Z.of_nat (length normalized_path))
               then strdup (drop (Z.to_nat best_len) normalized_path)
               else strdup [47]
             else mret None);
          free a;;
          mret (best, path_in_fs)
      end
  end.

Definition fs_of_mount (i : Z) : V FileSystem :=
  l ← gets mount_points; mp ← lift (deref (zget l i)); get_fs_at (mp_fs mp).

Definition vfs_resolve_path (path : option (list Z)) : V Z :=
  '(mp, path_in_fs) ← vfs_find_mount_point path;
  match path_in_fs with
  | Some (a, p) =>
      if decide (mp = -1) then mret 0 else
      f ← fs_of_mount mp;
      if decide (fs_get_inode f = 0) then fault else
      inode ← call_get_inode (fs_get_inode f) p;
      free a;;
      mret inode
  | None => mret 0
  end.

(** ** Mounting *)

(** The index of the mount point with this path, or -1. *)
Fixpoint find_mount_loop (n : nat) (i : Z) (target : list Z) : V Z :=
  match n with
  | O => mret (-1)
  | S n' =>
      l ← gets mount_points;
      mp ← lift (deref (zget l i));
      p ← lift (deref (mp_path mp));
      if decide (snd p = target) then mret i else find_mount_loop n' (i + 1) target
  end.

Definition vfs_mount (source target fs_type : list Z) : V Z :=
  n ← gets num_mount_points;
  if decide (MAX_MOUNT_POINTS <= n) then mret (-1) else
  found ← find_mount_loop (Z.to_nat n) 0 target;
  if decide (found <> -1) then mret (-1) else
  fs ← find_filesystem fs_type;
  if decide (fs = 0) then mret (-1) else
  f ← get_fs_at fs;
  if decide (fs_mount f = 0) then fault else
  r ← call_mount (fs_mount f) source target;
  if decide (r <> 0) then mret (-1) else
  p ← strdup target;
  n ← gets num_mount_points;
  l ← gets mount_points;
  l' ← lift (deref (zset l n (mkMP p fs)));
  modify (with_mounts (fun _ => l') (n + 1));;
  mret 0.

(** for (j = j; j < j + k; j++) mount_points[j] = mount_points[j + 1] *)
Fixpoint shift_loop (k : nat) (j : Z) : V unit :=
  match k with
  | O => mret tt
  | S k' =>
      n ← gets num_mount_points;
      l ← gets mount_points;
      mp ← lift (deref (zget l (j + 1)));
      l' ← lift (deref (zset l j mp));
      modify (with_mounts (fun _ => l') n);;
      shift_loop k' (j + 1)
  end.

Definition vfs_umount (target : list Z) : V Z :=
  n ← gets num_mount_points;
  i ← find_mount_loop (Z.to_nat n) 0 target;
  if decide (i = -1) then mret (-1) else
  f ← fs_of_mount i;
  if decide (fs_umount f = 0) then fault else
  r ← call_umount (fs_umount f) target;
  if decide (r <> 0) then mret (-1) else
  l ← gets mount_points;
  mp ← lift (deref (zget l i));
  (match mp_path mp with Some (a, _) => free a | None => free 0 end);;
  n ← gets num_mount_points;
  shift_loop (Z.to_nat (n - 1 - i)) i;;
  n ← gets num_mount_points;
  modify (with_mounts (fun l => l) (n - 1));;
  mret 0.

(** ** Components of a path *)

Fixpoint skip_slashes (p : list Z) : list Z :=
  match p with c :: p' => if decide (c = 47) then skip_slashes p' else p | [] => [] end.
Fixpoint component (p : list Z) : list Z :=
  match p with c :: p' => if decide (c = 47) then [] else c :: component p' | [] => [] end.
Fixpoint after_component (p : list Z) : list Z :=
  match p with c :: p' => if decide (c = 47) then p else after_component p' | [] => [] end.
Definition skip_leading (p : list Z) : list Z :=
  match p with c :: p' => if decide (c = 47) then p' else p | [] => [] end.

(** The counting loop. *)
Fixpoint count_loop (fuel : nat) (p : list Z) (count : Z) : V Z :=
  match fuel with
  | O => spin
  | S fuel' =>
      match p with
      | [] => mret count
      | _ => count_loop fuel' (skip_slashes (after_component p)) (count + 1)
      end
  end.

Definition vfs_free_path_components (components : option (Z * list str)) (num : Z) : V unit :=
  match components with
  | None => mret tt
  | Some (a, l) =>
      foldr (fun c k => free (fst c);; k) (mret tt) (take (Z.to_nat num) l);;
      free a
  end.

(** The copying loop; [None] after an allocation failed. *)
Fixpoint split_loop (fuel : nat) (a : Z) (p : list Z) (acc : list str) : V (option (list str)) :=
  match fuel with
  | O => spin
  | S fuel' =>
      match p with
      | [] => mret (Some acc)
      | _ =>
          let c := component p in
          q ← malloc (u32 (Z.of_nat (length c) + 1));
          if decide (q = 0) then
            vfs_free_path_components (Some (a, acc)) (Z.of_nat (length acc));; mret None
          else split_loop fuel' a (skip_slashes (after_component p)) (acc ++ [(q, c)])
      end
  end.

(** The result: the array (address and components) and [*num_components]. *)
Definition vfs_parse_path (path : option (list Z)) : V (option (Z * list str) * Z) :=
  match path with
  | None => mret (None, 0)
  | Some path =>
      let p := skip_leading path in
      count ← count_loop (S (length p)) p 0;
      a ← malloc (u32 (4 * (count + 1)));
      if decide (a = 0) then mret (None, 0) else
      r ← split_loop (S (length p)) a p [];
      match r with
      | None => mret (None, 0)
      | Some l => mret (Some (a, l), count)
      end
  end.

(** ** Descriptors *)

Fixpoint allocate_loop (n : nat) (i inode ops flags : Z) : V Z :=
  match n with
  | O => mret (-1)
  | S n' =>
      d ← get_fd_entry i;
      if decide (fd_ref_count d = 0) then put_fd_entry i (mkFD inode ops 0 flags 1);; mret i
      else allocate_loop n' (i + 1) inode ops flags
  end.

Definition allocate_file_descriptor (inode ops flags : Z) : V Z :=
  allocate_loop (Z.to_nat MAX_FILE_DESCRIPTORS) 0 inode ops flags.

(** if (f && f(...)): the result of an optional operation, 0 without it. *)
Definition optional (f : Z) (call : V Z) : V Z := if decide (f <> 0) then call else mret 0.

Definition vfs_open (path : option (list Z)) (flags : Z) : V Z :=
  inode ← vfs_resolve_path path;
  if decide (inode = 0) then mret (-1) else
  i ← get_inode_at inode;
  let ops := private_data i in
  if decide (ops = 0) then vfs_destroy_inode inode;; mret (-1) else
  o ← get_ops_at ops;
  r ← optional (op_open o) (call_open (op_open o) inode flags);
  if decide (r <> 0) then vfs_destroy_inode inode;; mret (-1) else
  fd ← allocate_file_descriptor inode ops flags;
  if decide (fd < 0) then
    o ← get_ops_at ops;
    optional (op_close o) (call_close (op_close o) inode);;
    vfs_destroy_inode inode;; mret (-1)
  else mret fd.

(** fd < 0 || fd >= MAX || file_descriptors[fd].ref_count == 0 *)
Definition valid_fd (fd : Z) : V bool :=
  if decide (fd < 0 \/ MAX_FILE_DESCRIPTORS <= fd) then mret false else
  d ← get_fd_entry fd; mret (bool_decide (fd_ref_count d <> 0)).

Definition vfs_close (fd : Z) : V Z :=
  ok ← valid_fd fd;
  if negb ok then mret (-1) else
  d ← get_fd_entry fd;
  let d := mkFD (fd_inode d) (fd_ops d) (fd_offset d) (fd_flags d) (fd_ref_count d - 1) in
  put_fd_entry fd d;;
  if decide (fd_ref_count d = 0) then
    (if decide (fd_inode d <> 0 /\ fd_ops d <> 0) then
       o ← get_ops_at (fd_ops d);
       optional (op_close o) (call_close (op_close o) (fd_inode d));; mret tt
     else mret tt);;
    d ← get_fd_entry fd;
    vfs_destroy_inode (fd_inode d);;
    d ← get_fd_entry fd;
    put_fd_entry fd (mkFD 0 0 (fd_offset d) (fd_flags d) (fd_ref_count d));;
    mret 0
  else mret 0.

(** The bytes read are those the operation stored in the buffer. *)
Definition vfs_read (fd buffer size : Z) : V (Z * list Z) :=
  ok ← valid_fd fd;
  if decide (ok = false \/ buffer = 0) then mret (0, []) else
  d ← get_fd_entry fd;
  if decide (fd_ops d = 0) then mret (0, []) else
  o ← get_ops_at (fd_ops d);
  if decide (op_read o = 0) then mret (0, []) else
  '(n, bytes) ← call_read (op_read o) (fd_inode d) size (fd_offset d);
  (if decide (n > 0) then
     d ← get_fd_entry fd; put_fd_entry fd (set_fd_offset (u32 (fd_offset d + n)) d)
   else mret tt);;
  mret (n, bytes).

Definition vfs_write (fd buffer : Z) (bytes : list Z) : V Z :=
  ok ← valid_fd fd;
  if decide (ok = false \/ buffer = 0) then mret 0 else
  d ← get_fd_entry fd;
  if decide (fd_ops d = 0) then mret 0 else
  o ← get_ops_at (fd_ops d);
  if decide (op_write o = 0) then mret 0 else
  write_offset ←
    (if decide (Z.land (fd_flags d) O_APPEND <> 0 /\ fd_inode d <> 0)
     then i ← get_inode_at (fd_inode d); mret (i_size i) else mret (fd_offset d));
  n ← call_write (op_write o) (fd_inode d) bytes write_offset;
  (if decide (n > 0) then
     d ← get_fd_entry fd;
     let offset := u32 (write_offset + n) in
     put_fd_entry fd (set_fd_offset offset d);;
     if decide (fd_inode d <> 0) then
       i ← get_inode_at (fd_inode d);
       if decide (offset > i_size i) then put_inode_at (fd_inode d) (set_i_size offset i) else mret tt
     else mret tt
   else mret tt);;
  mret n.

Definition vfs_ioctl (fd request argp : Z) : V Z :=
  ok ← valid_fd fd;
  if negb ok then mret (-1) else
  d ← get_fd_entry fd;
  if decide (fd_ops d = 0) then mret (-1) else
  o ← get_ops_at (fd_ops d);
  if decide (op_ioctl o = 0) then mret (-1) else
  call_ioctl (op_ioctl o) (fd_inode d) request argp.

(** ** Directories *)

Definition vfs_opendir (path : option (list Z)) : V Z :=
  inode ← vfs_resolve_path path;
  if decide (inode = 0) then mret (-1) else
  i ← get_inode_at inode;
  if decide (i_type i <> FILE_TYPE_DIRECTORY) then vfs_destroy_inode inode;; mret (-1) else
  let ops := private_data i in
  if decide (ops = 0) then vfs_destroy_inode inode;; mret (-1) else
  o ← get_ops_at ops;
  r ← optional (op_opendir o) (call_open (op_opendir o) inode 0);
  if decide (r <> 0) then vfs_destroy_inode inode;; mret (-1) else
  fd ← allocate_file_descriptor inode ops O_RDONLY;
  if decide (fd < 0) then
    o ← get_ops_at ops;
    optional (op_closedir o) (call_close (op_closedir o) inode);;
    vfs_destroy_inode inode;; mret (-1)
  else mret fd.

Definition vfs_closedir (fd : Z) : V Z := vfs_close fd.

(** The entry: name and type. *)
Definition vfs_readdir (fd entry : Z) : V (Z * list Z * FileType) :=
  let failed := (-1, [], FILE_TYPE_REGULAR) in
  ok ← valid_fd fd;
  if decide (ok = false \/ entry = 0) then mret failed else
  d ← get_fd_entry fd;
  if decide (fd_ops d = 0) then mret failed else
  o ← get_ops_at (fd_ops d);
  if decide (op_readdir o = 0) then mret failed else
  i ← get_inode_at (fd_inode d);
  if decide (i_type i <> FILE_TYPE_DIRECTORY) then mret failed else
  '(r, name, type) ← call_readdir (op_readdir o) (fd_inode d);
  if decide (r <> 0) then mret failed else mret (0, name, type).

(** vfs_mkdir, vfs_rmdir and vfs_remove: the operation of the file system
    that [path] lies in, through its own path. *)
Definition path_operation (path : option (list Z)) (op : FileSystem -> Z) (call : Z -> list Z -> V Z) : V Z :=
  match path with
  | None | Some [] => mret (-1)
  | Some p =>
      '(mp, path_in_fs) ← vfs_find_mount_point (Some p);
      match path_in_fs with
      | Some (a, q) =>
          if decide (mp = -1) then mret (-1) else
          f ← fs_of_mount mp;
          if decide (op f = 0) then free a;; mret (-1) else
          r ← call (op f) q;
          free a;;
          mret r
      | None => mret (-1)
      end
  end.

Definition vfs_mkdir (path : option (list Z)) (perms : Z) : V Z :=
  path_operation path fs_mkdir (fun f q => call_mkdir f q perms).
Definition vfs_rmdir (path : option (list Z)) : V Z := path_operation path fs_rmdir call_path.
Definition vfs_remove (path : option (list Z)) : V Z := path_operation path fs_remove call_path.
End vfs.

(** ** What the callees guarantee *)

(** The tables of this component are touched by this component only. *)
Definition same_tables (s s' : vfs) : Prop :=
  file_descriptors s' = file_descriptors s /\ mount_points s' = mount_points s /\
  num_mount_points s' = num_mount_points s /\ operations s' = operations s /\ filesystems s' = filesystems s.

#[export] Instance same_tables_preorder : PreOrder same_tables.
Proof. split; [done|]. intros ? ? ? (?&?&?&?&?) (?&?&?&?&?). unfold same_tables. intuition congruence. Qed.

Definition quiet {A} (c : V A) : Prop := forall s, exists s' a, c s = Ret (s', a) /\ same_tables s s'.

(** Calls of the heap return and leave the tables alone. *)
Class HeapLaws `{Env} : Prop := {
  malloc_quiet : forall n, quiet (malloc n);
  free_quiet : forall a s, exists s', free a s = Ret (s', tt) /\ same_tables s s'
}.

(** Memory does not run out. *)
Class EnoughMemory `{Env} : Prop := {
  malloc_enough : forall n s s' a, malloc n s = Ret (s', a) -> a <> 0
}.

Section path_lemmas.
Implicit Types p c : list Z.

Definition plain (c : list Z) : Prop := Forall (fun x => x <> 47) c.

Lemma component_app c p : plain c -> head p = Some 47 \/ p = [] ->
  component (c ++ p) = c /\ after_component (c ++ p) = p.
Proof.
  intros Hc Hp. induction Hc as [|x c Hx Hc IH]; cbn.
  - destruct Hp as [Hp| ->]; [|done]. destruct p as [|y p]; [done|]. injection Hp as ->. done.
  - rewrite !decide_False by done. destruct IH as [-> ->]. done.
Qed.

Lemma skip_slashes_app k p : head p <> Some 47 -> skip_slashes (replicate k 47 ++ p) = p.
Proof.
  intros Hp. induction k as [|k IH]; cbn.
  - destruct p as [|y p]; [done|]. cbn. rewrite decide_False; [done|]. intros ->. done.
  - exact IH.
Qed.

(** A path below its leading '/': components, each followed by some '/'. *)
Definition render (l : list (list Z * nat)) : list Z := concat ((fun ck => ck.1 ++ replicate ck.2 47) <$> l).

(** Components are not empty and separated by at least one '/'. *)
Fixpoint well_separated (l : list (list Z * nat)) : Prop :=
  match l with
  | [] => True
  | (c, k) :: l' => c <> [] /\ plain c /\ (l' = [] \/ (0 < k)%nat) /\ well_separated l'
  end.

Lemma render_head l : well_separated l -> head (render l) <> Some 47.
Proof.
  destruct l as [|[c k] l]; [done|]. intros (Hc & Hp & _). destruct c as [|x c]; [done|].
  apply Forall_cons in Hp as [Hx _]. cbn. congruence.
Qed.

Lemma render_step c k l : well_separated ((c, k) :: l) ->
  component (render ((c, k) :: l)) = c /\ skip_slashes (after_component (render ((c, k) :: l))) = render l /\
  render ((c, k) :: l) <> [].
Proof.
  intros (Hc & Hp & Hk & Hl). unfold render. cbn [fmap list_fmap concat fst snd]. fold (render l).
  rewrite <- app_assoc.
  destruct (component_app c (replicate k 47 ++ render l)) as [-> ->]; [done| |].
  - destruct Hk as [->|Hk]; [|left; by destruct k; [lia|]].
    destruct k; [by right|by left].
  - split; [done|]. split; [apply skip_slashes_app, render_head, Hl|]. by destruct c.
Qed.

Lemma render_length c k l : well_separated ((c, k) :: l) ->
  (length (render l) < length (render ((c, k) :: l)))%nat.
Proof.
  intros (Hc & _). unfold render. cbn [fmap list_fmap concat fst snd]. rewrite !length_app.
  destruct c; [done|]. cbn. lia.
Qed.
End path_lemmas.

Section parse.
Context `{HeapLaws} `{!EnoughMemory}.

Lemma count_loop_run l : forall fuel n s, well_separated l -> (length (render l) < fuel)%nat ->
  count_loop fuel (render l) n s = Ret (s, n + Z.of_nat (length l)).
Proof.
  induction l as [|[c k] l IH]; intros fuel n s Hl Hf; (destruct fuel as [|fuel]; [lia|]).
  - cbn. unfold mret, cmd_mret. do 2 f_equal. lia.
  - pose proof (render_step c k l Hl) as (_ & Hs & Hne). pose proof (render_length c k l Hl).
    cbn [count_loop]. destruct (render ((c, k) :: l)) as [|x p] eqn:E; [done|].
    rewrite Hs, IH by (apply Hl || (cbn in *; lia)). do 2 f_equal. cbn. lia.
Qed.

Lemma split_loop_run l : forall fuel a acc s, well_separated l -> (length (render l) < fuel)%nat ->
  exists s' l', split_loop fuel a (render l) acc s = Ret (s', Some (acc ++ l')) /\ same_tables s s' /\
    snd <$> l' = fst <$> l.
Proof.
  induction l as [|[c k] l IH]; intros fuel a acc s Hl Hf; (destruct fuel as [|fuel]; [lia|]).
  - exists s, []. rewrite app_nil_r. done.
  - pose proof (render_step c k l Hl) as (Hc & Hs & Hne). pose proof (render_length c k l Hl).
    cbn [split_loop]. destruct (render ((c, k) :: l)) as [|x p] eqn:E; [done|]. rewrite Hc.
    destruct (malloc_quiet (u32 (Z.of_nat (length c) + 1)) s) as (s1 & q & Hm & Hq).
    rewrite (cmd_bind_eq _ _ _ _ _ Hm). rewrite decide_False by by apply (malloc_enough _ _ _ _ Hm).
    rewrite Hs. destruct (IH fuel a (acc ++ [(q, c)]) s1) as (s2 & l' & Hrun & Hq2 & Hfst); [apply Hl|cbn in *; lia|].
    exists s2, ((q, c) :: l'). rewrite Hrun, <- app_assoc. split; [done|]. split; [by transitivity s1|].
    cbn. by f_equal.
Qed.
End parse.

(** C17. Parsing a path: whatever the number of slashes between and after them,
    the components of an absolute path are returned in order, and counted; the
    loops terminate. *)
Theorem vfs_parse_path_components `{HeapLaws} `{!EnoughMemory} l s : well_separated l ->
  exists s' a l', vfs_parse_path (Some (47 :: render l)) s = Ret (s', (Some (a, l'), Z.of_nat (length l))) /\
    snd <$> l' = fst <$> l /\ same_tables s s'.
Proof.
  intros Hl. unfold vfs_parse_path. cbn [skip_leading]. rewrite decide_True by done.
  rewrite (cmd_bind_eq _ _ _ _ _ (count_loop_run l (S (length (render l))) 0 s Hl ltac:(lia))).
  destruct (malloc_quiet (u32 (4 * (0 + Z.of_nat (length l) + 1))) s) as (s1 & a & Hm & Hq).
  rewrite (cmd_bind_eq _ _ _ _ _ Hm). rewrite decide_False by by apply (malloc_enough _ _ _ _ Hm).
  destruct (split_loop_run l (S (length (render l))) a [] s1 Hl ltac:(lia)) as (s2 & l' & Hrun & Hq2 & Hfst).
  rewrite (cmd_bind_eq _ _ _ _ _ Hrun). exists s2, a, l'. split; [done|]. split; [done|]. by transitivity s1.
Qed.

(** ** Mount points *)

(** The directory a mount path stands for: the path with '/' at its end. *)
Definition dir_text (path : list Z) : list Z :=
  if decide (last path = Some 47) then path else path ++ [47].

(** Mount paths the 256-byte buffer of the search has room for. *)
Definition good_path (path : list Z) : Prop :=
  path <> [] /\ (length path <= 253)%nat /\ Forall (fun x => x <> 0) path.

Definition mounted (s : vfs) (dirs : list (list Z)) : Prop :=
  num_mount_points s = Z.of_nat (length dirs) /\
  forall i path, dirs !! i = Some path -> good_path path /\
    exists mp a, mount_points s !! i = Some mp /\ mp_path mp = Some (a, path).

Section mount_lemmas.
Context `{Env}.

Lemma text_of_app (l r : list Z) : Forall (fun x => x <> 0) l -> text_of (l ++ 0 :: r) = l.
Proof. induction 1 as [|x l Hx Hl IH]; cbn; [done|]. rewrite decide_False by done. by f_equal. Qed.

Lemma zget_last (l : list Z) : zget l (Z.of_nat (length l) - 1) = last l.
Proof.
  destruct l as [|x l]; [done|]. rewrite zget_lookup by (cbn; lia). rewrite last_lookup. f_equal. cbn. lia.
Qed.

(** The loop body computes the directory text, as string and length. *)
Lemma mount_prefix_run path : good_path path ->
  exists buf, mount_prefix path = Ret (buf, Z.of_nat (length (dir_text path))) /\ text_of buf = dir_text path.
Proof.
  intros (Hne & Hlen & Hnz). unfold mount_prefix, padded. rewrite take_ge by lia.
  destruct (replicate (255 - length path) 0) as [|z1 [|z2 t]] eqn:Er;
    [apply (f_equal length) in Er; rewrite length_replicate in Er; cbn in Er; lia..|].
  assert (z1 = 0 /\ z2 = 0) as [-> ->].
  { split; eapply (elem_of_replicate_inv _ (255 - length path)); rewrite Er; set_solver. }
  rewrite <- app_assoc. cbn [app].
  assert (Hlast : zget (path ++ 0 :: 0 :: t ++ [stack_byte]) (Z.of_nat (length path) - 1) = last path).
  { rewrite <- zget_last. destruct path as [|x p]; [done|]. cbn [length]. rewrite !zget_lookup by lia.
    apply lookup_app_l. cbn. lia. }
  rewrite Hlast. destruct (last path) as [c|] eqn:El; [|by apply last_None in El]. cbn [deref mbind outcome_mbind].
  unfold dir_text. rewrite El. destruct (decide (c = 47)) as [->|Hc].
  - rewrite decide_False by tauto. rewrite decide_True by done. eexists. split; [done|]. by apply text_of_app.
  - rewrite decide_True by done. rewrite decide_False by congruence.
    rewrite zset_Some by (rewrite length_app; cbn; lia). cbn [deref mbind outcome_mbind].
    rewrite zset_Some by (rewrite length_insert, length_app; cbn; lia). cbn [deref mbind outcome_mbind].
    eexists. rewrite length_app. cbn [length]. split; [unfold mret, outcome_mret; do 2 f_equal; lia|].
    replace (Z.to_nat (Z.of_nat (length path))) with (length path + 0)%nat by lia.
    replace (Z.to_nat (Z.of_nat (length path) + 1)) with (length path + 1)%nat by lia.
    rewrite insert_app_r. cbn [insert list_insert]. rewrite insert_app_r. cbn [insert list_insert].
    change (path ++ 47 :: 0 :: t ++ [stack_byte]) with (path ++ [47] ++ 0 :: t ++ [stack_byte]). rewrite app_assoc.
    apply text_of_app. apply Forall_app. split; [done|]. by repeat constructor.
Qed.

Lemma same_prefix_spec path d : same_prefix (Z.of_nat (length d)) path d = true <-> d `prefix_of` path.
Proof.
  unfold same_prefix. rewrite bool_decide_eq_true, Nat2Z.id, (take_ge d) by lia. split.
  - intros E. exists (drop (length d) path). rewrite <- E at 1. by rewrite take_drop.
  - intros [k ->]. by rewrite take_app_length.
Qed.

(** [best] is the first of the longest mount points among the first [i] that
    are prefixes of [path], with the length [best_len] of its directory; or -1. *)
Definition best_among (dirs : list (list Z)) (path : list Z) (i : nat) (best best_len : Z) : Prop :=
  (best = -1 /\ best_len = 0 /\ forall j p, (j < i)%nat -> dirs !! j = Some p -> ~ dir_text p `prefix_of` path) \/
  exists b p, best = Z.of_nat b /\ (b < i)%nat /\ dirs !! b = Some p /\ best_len = Z.of_nat (length (dir_text p)) /\
    dir_text p `prefix_of` path /\
    (forall j q, (j < i)%nat -> dirs !! j = Some q -> dir_text q `prefix_of` path ->
       (length (dir_text q) <= length (dir_text p))%nat /\ ((j < b)%nat -> (length (dir_text q) < length (dir_text p))%nat)).

Lemma match_loop_run s dirs path : mounted s dirs -> forall n i best best_len,
  (i + n = length dirs)%nat -> best_among dirs path i best best_len ->
  exists b l, match_loop n (Z.of_nat i) path best best_len s = Ret (s, (b, l)) /\
    best_among dirs path (length dirs) b l.
Proof.
  intros [Hnum Hm]. induction n as [|n IH]; intros i best best_len Hi Hbest; cbn [match_loop].
  { exists best, best_len. split; [done|]. replace (length dirs) with i by lia. done. }
  destruct (lookup_lt_is_Some_2 dirs i ltac:(lia)) as [p Hp].
  destruct (Hm i p Hp) as (Hgood & mp & a & Hmp & Hpath).
  rewrite gets_bind, zget_lookup, Nat2Z.id, Hmp by lia. cbn [deref]. rewrite lift_bind, Hpath. cbn [deref].
  rewrite lift_bind. cbn [snd]. destruct (mount_prefix_run p Hgood) as (buf & -> & Hbuf). rewrite lift_bind, Hbuf.
  replace (Z.of_nat i + 1) with (Z.of_nat (S i)) by lia.
  destruct (same_prefix (Z.of_nat (length (dir_text p))) path (dir_text p)) eqn:Ep; cbn [andb].
  - apply same_prefix_spec in Ep. destruct (bool_decide (best_len < Z.of_nat (length (dir_text p)))) eqn:El.
    + apply bool_decide_eq_true in El. apply IH; [lia|]. right. exists i, p. repeat (split; [done || lia|]).
      intros j q Hj Hq Hpre. destruct (decide (j = i)) as [->|Hne]; [assert (q = p) as -> by congruence; lia|].
      destruct Hbest as [(_ & _ & Hno)|(b & p' & -> & Hb & Hp' & -> & Hpre' & Hmax)];
        [by destruct (Hno j q ltac:(lia) Hq)|].
      destruct (Hmax j q ltac:(lia) Hq Hpre) as [Hle _]. lia.
    + apply bool_decide_eq_false in El. apply IH; [lia|].
      destruct Hbest as [(_ & -> & Hno)|(b & p' & -> & Hb & Hp' & -> & Hpre' & Hmax)].
      { exfalso. apply El. destruct p as [|x p]; [by destruct Hgood|]. unfold dir_text. case_decide; rewrite ?length_app; cbn; lia. }
      right. exists b, p'. repeat (split; [done || lia|]). intros j q Hj Hq Hpre.
      destruct (decide (j = i)) as [->|Hne]; [assert (q = p) as -> by congruence; lia|]. by apply Hmax; [lia|..].
  - assert (Hnp : ~ dir_text p `prefix_of` path) by (intros Hc%same_prefix_spec; congruence).
    apply IH; [lia|]. destruct Hbest as [(-> & -> & Hno)|(b & p' & -> & Hb & Hp' & -> & Hpre' & Hmax)].
    + left. do 2 (split; [done|]). intros j q Hj Hq. destruct (decide (j = i)) as [->|]; [congruence|]. by apply (Hno j); [lia|].
    + right. exists b, p'. repeat (split; [done || lia|]). intros j q Hj Hq Hpre.
      destruct (decide (j = i)) as [->|Hne]; [congruence|]. by apply Hmax; [lia|..].
Qed.
End mount_lemmas.

Lemma same_tables_mounted s s' dirs : same_tables s s' -> mounted s dirs -> mounted s' dirs.
Proof. intros (_ & Em & En & _) [Hn Hm]. split; [by rewrite En|]. by rewrite Em. Qed.

(** What [strdup] leaves: the copy, or NULL when there is no block for it. *)
Lemma strdup_run `{HeapLaws} t s : exists s' a, malloc (u32 (Z.of_nat (length t) + 1)) s = Ret (s', a) /\ same_tables s s' /\
  strdup t s = Ret (s', if decide (a = 0) then None else Some (a, t)).
Proof.
  destruct (malloc_quiet (u32 (Z.of_nat (length t) + 1)) s) as (s1 & a & Hm & Hq). exists s1, a. split; [done|]. split; [done|].
  unfold strdup. by rewrite (cmd_bind_eq _ _ _ _ _ Hm).
Qed.

(** The text that is searched for, and the size of its block. A path that is not
    absolute becomes the format string behind a slash, cut to the buffer: the
    [snprintf] of the kernel does not know %s. *)
Definition normal_text (path : list Z) : list Z :=
  if decide (head path = Some 47) then path else 47 :: snprintf_plain (u32 (Z.of_nat (length path) + 3) - 1) [37; 115].
Definition normal_size (path : list Z) : Z :=
  u32 (Z.of_nat (length path) + if decide (head path = Some 47) then 1 else 3).

Lemma normalize_run `{HeapLaws} path s : exists s' a, malloc (normal_size path) s = Ret (s', a) /\ same_tables s s' /\
  vfs_normalize_path path [47] s = Ret (s', if decide (a = 0) then None else Some (a, normal_text path)).
Proof.
  unfold normal_size, normal_text, vfs_normalize_path. destruct (decide (head path = Some 47)); [apply strdup_run|].
  cbv zeta. replace (Z.of_nat (length [47]) + Z.of_nat (length path) + 2) with (Z.of_nat (length path) + 3) by (cbn; lia).
  destruct (malloc_quiet (u32 (Z.of_nat (length path) + 3)) s) as (s1 & a & Hm & Hq). exists s1, a. split; [done|]. split; [done|].
  rewrite (cmd_bind_eq _ _ _ _ _ Hm). destruct (decide (a = 0)); [done|].
  rewrite decide_False; [done|]. intros [_ Hc]. by apply Hc.
Qed.

(** Where a text lies: the index of its mount point and the path inside it. *)
Definition located (dirs : list (list Z)) (text : list Z) (i : Z) (inner : list Z) : Prop :=
  (exists b p, i = Z.of_nat b /\ dirs !! b = Some p /\ dir_text p `prefix_of` text /\
     (forall j q, dirs !! j = Some q -> dir_text q `prefix_of` text ->
        (length (dir_text q) <= length (dir_text p))%nat /\ ((j < b)%nat -> (length (dir_text q) < length (dir_text p))%nat)) /\
     inner = if decide (dir_text p = text) then [47] else drop (length (dir_text p)) text) \/
  ((forall j q, dirs !! j = Some q -> ~ dir_text q `prefix_of` text) /\
     match dirs with
     | [] => i = -1
     | p :: _ => i = 0 /\ inner = if decide (length p < length text)%nat then drop (length p) text else [47]
     end).

(** The end of the search, from the index and the length that were found. *)
Lemma find_end `{HeapLaws} a best best_len text s1 inner : best <> -1 ->
  inner = (if decide (best_len < Z.of_nat (length text)) then drop (Z.to_nat best_len) text else [47]) ->
  exists s2 q s', malloc (u32 (Z.of_nat (length inner) + 1)) s1 = Ret (s2, q) /\ same_tables s1 s' /\
    (path_in_fs ← (if decide (best <> -1) then
                    if decide (best_len < Z.of_nat (length text)) then strdup (drop (Z.to_nat best_len) text) else strdup [47]
                  else mret None); free a;; mret (best, path_in_fs)) s1 =
      Ret (s', (best, if decide (q = 0) then None else Some (q, inner))).
Proof.
  intros Hne ->. rewrite (decide_True (P := best <> -1)) by done.
  destruct (strdup_run (if decide (best_len < Z.of_nat (length text)) then drop (Z.to_nat best_len) text else [47]) s1)
    as (s2 & q & Hm & Hq2 & Hs). exists s2, q. destruct (free_quiet a s2) as (s3 & Hf & Hq3). exists s3.
  split; [done|]. split; [by transitivity s2|].
  rewrite (cmd_bind_eq _ _ s1 s2 _) by (rewrite <- Hs; by destruct (decide (best_len < Z.of_nat (length text)))).
  by rewrite (cmd_bind_eq _ _ _ _ _ Hf).
Qed.

(** The run of the search. *)
Lemma find_run `{HeapLaws} s dirs path : mounted s dirs ->
  exists s1 t, malloc (normal_size path) s = Ret (s1, t) /\ same_tables s s1 /\
    if decide (t = 0) then vfs_find_mount_point (Some path) s = Ret (s1, (-1, None)) else
    exists i inner, located dirs (normal_text path) i inner /\
      if decide (i = -1) then exists s', vfs_find_mount_point (Some path) s = Ret (s', (-1, None)) /\ same_tables s s'
      else exists s2 q s', malloc (u32 (Z.of_nat (length inner) + 1)) s1 = Ret (s2, q) /\ same_tables s s' /\
        vfs_find_mount_point (Some path) s = Ret (s', (i, if decide (q = 0) then None else Some (q, inner))).
Proof.
  intros Hm. unfold vfs_find_mount_point. destruct (normalize_run path s) as (s1 & a & Hmal & Hq1 & Hrun).
  exists s1, a. split; [done|]. split; [done|]. rewrite (cmd_bind_eq _ _ _ _ _ Hrun). destruct (decide (a = 0)); [done|].
  set (text := normal_text path).
  pose proof (same_tables_mounted _ _ _ Hq1 Hm) as Hm1. rewrite gets_bind, (proj1 Hm1), Nat2Z.id.
  destruct (match_loop_run s1 dirs text Hm1 (length dirs) 0 (-1) 0 ltac:(lia)) as (b & l & Hml & Hbest).
  { left. do 2 (split; [done|]). intros. lia. }
  change (Z.of_nat 0) with 0 in Hml. rewrite (cmd_bind_eq _ _ _ _ _ Hml).
  destruct Hbest as [(-> & -> & Hno)|(i & p & -> & Hi & Hp & -> & Hpre & Hmax)].
  - assert (Hno' : forall j q, dirs !! j = Some q -> ~ dir_text q `prefix_of` text).
    { intros j q Hj. apply (Hno j); [|done]. by apply lookup_lt_Some in Hj. }
    destruct dirs as [|p dirs].
    + exists (-1), []. split; [by right|]. rewrite (decide_True (P := -1 = -1)) by done.
      rewrite (decide_False (P := -1 = -1 /\ 0 < Z.of_nat 0)) by (cbn; lia). rewrite ret_bind, decide_False, ret_bind by lia.
      destruct (free_quiet a s1) as (s2 & Hf & Hq2). rewrite (cmd_bind_eq _ _ _ _ _ Hf).
      exists s2. split; [done|by transitivity s1].
    + rewrite (decide_True (P := -1 = -1 /\ 0 < Z.of_nat (length (p :: dirs)))) by (cbn; lia).
      destruct (proj2 Hm1 0%nat p eq_refl) as (_ & mp & c & Hmp & Hpath).
      assert (Hfirst : (l ← gets mount_points; mp ← lift (deref (zget l 0)); p ← lift (deref (mp_path mp));
        mret (0, Z.of_nat (length (snd p)))) s1 = Ret (s1, (0, Z.of_nat (length p)))).
      { rewrite gets_bind, zget_lookup by lia. change (Z.to_nat 0) with 0%nat. rewrite Hmp. cbn [deref].
        rewrite lift_bind, Hpath. done. }
      rewrite (cmd_bind_eq _ _ _ _ _ Hfirst).
      destruct (find_end a 0 (Z.of_nat (length p)) text s1 _ ltac:(done) eq_refl) as (s2 & q & s' & Hm2 & Hq & Hrest).
      exists 0, (if decide (Z.of_nat (length p) < Z.of_nat (length text)) then drop (Z.to_nat (Z.of_nat (length p))) text else [47]).
      split.
      { right. split; [done|]. split; [done|]. rewrite Nat2Z.id.
        destruct (decide (Z.of_nat (length p) < Z.of_nat (length text))), (decide (length p < length text)%nat); (done || lia). }
      rewrite decide_False by done. exists s2, q, s'. split; [done|]. split; [by transitivity s1|exact Hrest].
  - rewrite (decide_False (P := Z.of_nat i = -1 /\ _)) by lia. rewrite ret_bind.
    destruct (find_end a (Z.of_nat i) (Z.of_nat (length (dir_text p))) text s1 _ ltac:(lia) eq_refl) as (s2 & q & s' & Hm2 & Hq & Hrest).
    eexists (Z.of_nat i), _. rewrite decide_False by lia. split; [|exists s2, q, s'; split; [exact Hm2|]; split; [by transitivity s1|exact Hrest]].
    left. exists i, p. do 3 (split; [done|]). split.
    + intros j r Hj. apply Hmax; [|done]. by apply lookup_lt_Some in Hj.
    + rewrite Nat2Z.id. destruct Hpre as [k Hk]. destruct (decide (dir_text p = text)) as [E|E].
      * rewrite decide_False; [done|]. rewrite E. lia.
      * rewrite decide_True; [done|]. rewrite Hk, length_app. destruct k; [by rewrite app_nil_r in Hk|]. cbn. lia.
Qed.

(** C16. The mount point of a path, with mount paths of at most 253 bytes. A block
    for a copy of the path is requested; when there is none the result is none.
    Otherwise the mount point is the longest mounted directory that is a prefix of
    the text searched for (the first of several of that length) and the path
    inside it is the rest, or "/" when nothing is left; when no directory matches
    the first mount point is taken, and none without mount points. The rest is
    copied too, and is NULL when there is no block for the copy. The text is the
    path itself when it is absolute; any other path is searched for as the text
    of the format string, "/%s" ("/%" for the empty path). The tables do not
    change. *)
Theorem find_mount_point_longest_prefix `{HeapLaws} s dirs path : mounted s dirs ->
  exists s1 t, malloc (normal_size path) s = Ret (s1, t) /\ same_tables s s1 /\
    if decide (t = 0) then vfs_find_mount_point (Some path) s = Ret (s1, (-1, None)) else
    exists i inner, located dirs (normal_text path) i inner /\
      if decide (i = -1) then exists s', vfs_find_mount_point (Some path) s = Ret (s', (-1, None)) /\ same_tables s s'
      else exists s2 q s', malloc (u32 (Z.of_nat (length inner) + 1)) s1 = Ret (s2, q) /\ same_tables s s' /\
        vfs_find_mount_point (Some path) s = Ret (s', (i, if decide (q = 0) then None else Some (q, inner))).
Proof. apply find_run. Qed.

(** ** Descriptors *)

(** What a call into a file system may do to this component: nothing, but for
    tables of operations that it adds. *)
Definition grows (s s' : vfs) : Prop :=
  file_descriptors s' = file_descriptors s /\ mount_points s' = mount_points s /\
  num_mount_points s' = num_mount_points s /\ operations s ⊆ operations s' /\ filesystems s' = filesystems s.

#[export] Instance grows_preorder : PreOrder grows.
Proof.
  split; [done|]. intros ? ? ? (?&?&?&Ho&?) (?&?&?&Ho'&?). unfold grows.
  do 3 (split; [congruence|]). split; [by etransitivity|congruence].
Qed.

Lemma same_tables_grows s s' : same_tables s s' -> grows s s'.
Proof. intros (?&?&?&E&?). unfold grows. by rewrite E. Qed.

Lemma grows_mounted s s' dirs : grows s s' -> mounted s dirs -> mounted s' dirs.
Proof. intros (_ & Em & En & _) [Hn Hm]. split; [by rewrite En|]. by rewrite Em. Qed.

Definition inodes_stay (s s' : vfs) : Prop := forall a, is_Some (inodes s !! a) -> is_Some (inodes s' !! a).

(** Calls that return. *)
Definition tame {A} (c : V A) : Prop := forall s, exists s' r, c s = Ret (s', r) /\ grows s s' /\ inodes_stay s s'.

(** A table of operations whose open and close return. *)
Definition operations_ok `{Env} (o : FileOperations) : Prop :=
  (forall a flags, tame (call_open (op_open o) a flags)) /\ forall a, tame (call_close (op_close o) a).

(** A file system whose inodes carry such a table, or none, as their private
    data. This is what vfs.c takes for granted and what ext4_get_inode does; the
    inodes of devfs carry a structure that begins with another field. *)
Record filesystem_ok `{Env} (f : FileSystem) : Prop := {
  looks_up : fs_get_inode f <> 0;
  inode_law : forall p s, exists s' a, call_get_inode (fs_get_inode f) p s = Ret (s', a) /\ grows s s' /\
    (a = 0 \/ exists i, inodes s' !! a = Some i /\
       (private_data i = 0 \/ exists o, operations s' !! private_data i = Some o /\ operations_ok o))
}.

(** Every mounted file system is one. *)
Definition filesystems_ok `{Env} (s : vfs) (n : nat) : Prop :=
  forall i mp, (i < n)%nat -> mount_points s !! i = Some mp ->
    exists f, filesystems s !! mp_fs mp = Some f /\ filesystem_ok f.

(** Freeing a string is nothing to the inodes. *)
Class InodesKept `{Env} : Prop := free_keeps_inodes : forall a s s', free a s = Ret (s', tt) -> inodes s' = inodes s.

Section descriptors.
Context `{HeapLaws}.

Lemma get_inode_bind {B} a i (k : Inode -> V B) s : inodes s !! a = Some i -> (get_inode_at a ≫= k) s = k i s.
Proof. intros E. apply cmd_bind_eq. unfold get_inode_at. by rewrite gets_bind, E. Qed.

Lemma get_ops_bind {B} a o (k : FileOperations -> V B) s : operations s !! a = Some o -> (get_ops_at a ≫= k) s = k o s.
Proof. intros E. apply cmd_bind_eq. unfold get_ops_at. by rewrite gets_bind, E. Qed.

Lemma get_fd_bind {B} i d (k : FileDescriptor -> V B) s : zget (file_descriptors s) i = Some d ->
  (get_fd_entry i ≫= k) s = k d s.
Proof. intros E. apply cmd_bind_eq. unfold get_fd_entry. by rewrite gets_bind, E. Qed.

Lemma put_fd_bind {B} i d l (k : unit -> V B) s : zset (file_descriptors s) i d = Some l ->
  (put_fd_entry i d ≫= k) s = k tt (with_fds (fun _ => l) s).
Proof. intros E. apply cmd_bind_eq. unfold put_fd_entry. by rewrite gets_bind, E. Qed.

Lemma destroy_run a s : a = 0 \/ is_Some (inodes s !! a) ->
  exists s', vfs_destroy_inode a s = Ret (s', tt) /\ same_tables s s'.
Proof.
  intros Ha. unfold vfs_destroy_inode. destruct (decide (a = 0)) as [|Ha0]; [by exists s|].
  destruct Ha as [?|[i Hi]]; [done|]. rewrite (get_inode_bind a i) by done.
  destruct (decide (0 < i_ref_count i)); [|by exists s].
  rewrite (cmd_bind_eq (put_inode_at a (set_i_ref (i_ref_count i - 1) i)) _ _
    (with_inodes (next_inode_num s) (<[a := set_i_ref (i_ref_count i - 1) i]>) s) tt) by done.
  set (s1 := with_inodes _ _ s). destruct (decide (i_ref_count i - 1 = 0)); [|by exists s1].
  destruct (free_quiet a s1) as (s2 & Hf & Hq). by exists s2.
Qed.

Lemma optional_run f c s : tame c -> exists s' r, optional f c s = Ret (s', r) /\ grows s s' /\ inodes_stay s s'.
Proof.
  intros Hc. unfold optional. case_decide; [done|]. exists s, 0. split; [done|]. split; [done|]. by intros ?.
Qed.

(** The loop takes the lowest free entry from [i] on. *)
Lemma allocate_loop_fd n : forall i inode ops flags s,
  0 <= i -> i + Z.of_nat n = Z.of_nat (length (file_descriptors s)) ->
  (allocate_loop n i inode ops flags s = Ret (s, -1) /\
     forall j d, i <= j -> zget (file_descriptors s) j = Some d -> fd_ref_count d <> 0) \/
  exists fd d l, i <= fd /\ zget (file_descriptors s) fd = Some d /\ fd_ref_count d = 0 /\
    (forall j e, i <= j < fd -> zget (file_descriptors s) j = Some e -> fd_ref_count e <> 0) /\
    zset (file_descriptors s) fd (mkFD inode ops 0 flags 1) = Some l /\
    allocate_loop n i inode ops flags s = Ret (with_fds (fun _ => l) s, fd).
Proof.
  induction n as [|n IH]; intros i inode ops flags s Hi Hn; cbn [allocate_loop].
  { left. split; [done|]. intros j d Hj Hd%zget_Some_range. lia. }
  destruct (zget_in_range (file_descriptors s) i) as [d Hd]; [lia|]. rewrite (get_fd_bind i d) by done.
  destruct (decide (fd_ref_count d = 0)) as [Hz|Hz].
  - right. pose proof (zset_Some (file_descriptors s) i (mkFD inode ops 0 flags 1) ltac:(lia)) as Hset.
    eexists i, d, _. split; [lia|]. split; [done|]. split; [done|]. split; [lia|]. split; [exact Hset|].
    by rewrite (put_fd_bind _ _ _ _ _ Hset).
  - destruct (IH (i + 1) inode ops flags s ltac:(lia) ltac:(lia)) as [[-> Hall]|(fd & e & l & Hfd & He & Hze & Hbelow & Hset & ->)].
    + left. split; [done|]. intros j e Hj He. destruct (decide (j = i)) as [->|]; [congruence|]. apply (Hall j); [lia|done].
    + right. exists fd, e, l. split; [lia|]. do 2 (split; [done|]). split; [|done].
      intros j x Hj Hx. destruct (decide (j = i)) as [->|]; [congruence|]. apply (Hbelow j); [lia|done].
Qed.

Lemma resolve_run `{!InodesKept} s dirs path : mounted s dirs -> filesystems_ok s (length dirs) ->
  exists s' a, vfs_resolve_path path s = Ret (s', a) /\ grows s s' /\
    (a = 0 \/ exists i, inodes s' !! a = Some i /\
       (private_data i = 0 \/ exists o, operations s' !! private_data i = Some o /\ operations_ok o)).
Proof.
  intros Hm Hfs. unfold vfs_resolve_path. destruct path as [path|]; [|exists s, 0; split; [done|]; split; [done|by left]].
  assert (Hr : exists s1 i rest, vfs_find_mount_point (Some path) s = Ret (s1, (i, rest)) /\ same_tables s s1 /\
    (rest = None \/ exists b a q, rest = Some (a, q) /\ i = Z.of_nat b /\ (b < length dirs)%nat)).
  { destruct (find_run s dirs path Hm) as (s1 & t & _ & Hq & Hcase).
    destruct (decide (t = 0)); [eexists s1, _, None; split; [exact Hcase|]; split; [done|by left]|].
    destruct Hcase as (i & inner & Hl & Hcase). destruct (decide (i = -1)) as [|Hi].
    { destruct Hcase as (s' & Hrun & Hq'). eexists s', _, None. split; [exact Hrun|]. split; [done|by left]. }
    destruct Hcase as (s2 & q & s' & _ & Hq' & Hrun). eexists s', i, _. split; [exact Hrun|]. split; [done|].
    destruct (decide (q = 0)); [by left|right].
    destruct Hl as [(b & p & -> & Hp & _)|(_ & Hl)].
    - eexists b, q, _. split; [done|]. split; [done|]. by apply lookup_lt_Some in Hp.
    - destruct dirs as [|p dirs]; [done|]. destruct Hl as [-> _].
      eexists 0%nat, q, _. split; [done|]. split; [done|]. cbn. lia. }
  destruct Hr as (s1 & i & rest & Hrun & Hq & Hr). rewrite (cmd_bind_eq _ _ _ _ _ Hrun).
  destruct Hr as [->|(b & a & q & -> & -> & Hb)].
  { exists s1, 0. split; [done|]. split; [by apply same_tables_grows|by left]. }
  rewrite decide_False by lia. destruct (lookup_lt_is_Some_2 dirs b Hb) as [p Hp].
  destruct (proj2 (same_tables_mounted _ _ _ Hq Hm) b p Hp) as (_ & mp & c & Hmp & _).
  destruct (Hfs b mp Hb) as (f & Hf & Hget & Hlaw); [destruct Hq as (_ & <- & _); done|].
  rewrite (cmd_bind_eq (fs_of_mount (Z.of_nat b)) _ s1 s1 f).
  2:{ unfold fs_of_mount, get_fs_at. rewrite gets_bind, zget_lookup, Nat2Z.id, Hmp by lia. cbn [deref].
      rewrite lift_bind, gets_bind. destruct Hq as (_ & _ & _ & _ & ->). by rewrite Hf. }
  rewrite decide_False by done. destruct (Hlaw q s1) as (s2 & x & Hc & Hq2 & Hx).
  rewrite (cmd_bind_eq _ _ _ _ _ Hc). destruct (free_quiet a s2) as (s3 & Hfr & Hq3).
  rewrite (cmd_bind_eq _ _ _ _ _ Hfr). exists s3, x. split; [done|].
  split; [transitivity s1; [by apply same_tables_grows|transitivity s2; [done|by apply same_tables_grows]]|].
  rewrite (free_keeps_inodes _ _ _ Hfr). destruct Hq3 as (_ & _ & _ & -> & _). done.
Qed.

(** Giving up an inode: the descriptor table is as it was. *)
Lemma discard_inode_run a s : a = 0 \/ is_Some (inodes s !! a) ->
  exists s', (vfs_destroy_inode a;; mret (-1)) s = Ret (s', -1) /\ same_tables s s'.
Proof. intros Ha. destruct (destroy_run a s Ha) as (s' & Hrun & Hq). exists s'. by rewrite (cmd_bind_eq _ _ _ _ _ Hrun). Qed.
End descriptors.

(** The path leads to the inode [a], which carries the operations [ops], and
    their open accepts it. *)
Definition opens `{Env} (path : option (list Z)) (flags : Z) (s : vfs) (a ops : Z) : Prop :=
  exists s1 i o s2, vfs_resolve_path path s = Ret (s1, a) /\ a <> 0 /\
    inodes s1 !! a = Some i /\ private_data i = ops /\ ops <> 0 /\ operations s1 !! ops = Some o /\
    optional (op_open o) (call_open (op_open o) a flags) s1 = Ret (s2, 0).

Lemma opens_inv `{Env} path flags s a ops s1 b : opens path flags s a ops -> vfs_resolve_path path s = Ret (s1, b) ->
  b = a /\ a <> 0 /\ exists i, inodes s1 !! a = Some i /\ private_data i = ops /\ ops <> 0 /\
    exists o s2, operations s1 !! ops = Some o /\ optional (op_open o) (call_open (op_open o) a flags) s1 = Ret (s2, 0).
Proof.
  intros (s1' & i & o & s2 & Hr & Ha & Hi & Hp & Hp0 & Ho & Hopen) Hr'. rewrite Hr in Hr'. injection Hr' as <- <-.
  split; [done|]. split; [done|]. exists i. do 3 (split; [done|]). by exists o, s2.
Qed.

(** C15. Opening a file, with mounted file systems whose inodes carry their
    operations. The call returns -1 exactly when the path does not lead to an
    inode with operations that open it (also for lack of memory on the way) or
    every descriptor is in use; the descriptor table is then as before. Otherwise
    it returns the lowest free descriptor, which now stands at offset 0 of that
    inode with its operations, and no other descriptor changes. The mount points
    do not change either way. *)
Theorem vfs_open_lowest_fd `{HeapLaws} `{!InodesKept} s dirs path flags :
  mounted s dirs -> filesystems_ok s (length dirs) ->
  length (file_descriptors s) = Z.to_nat MAX_FILE_DESCRIPTORS ->
  exists s' fd, vfs_open path flags s = Ret (s', fd) /\ mount_points s' = mount_points s /\
    ((fd = -1 /\ file_descriptors s' = file_descriptors s /\
        ((forall a ops, ~ opens path flags s a ops) \/
         forall j d, zget (file_descriptors s) j = Some d -> fd_ref_count d <> 0)) \/
     exists a ops d, opens path flags s a ops /\
       0 <= fd < 1024 /\ zget (file_descriptors s) fd = Some d /\ fd_ref_count d = 0 /\
       (forall j e, 0 <= j < fd -> zget (file_descriptors s) j = Some e -> fd_ref_count e <> 0) /\
       zset (file_descriptors s) fd (mkFD a ops 0 flags 1) = Some (file_descriptors s')).
Proof.
  intros Hm Hfs Hlen. unfold vfs_open.
  destruct (resolve_run s dirs path Hm Hfs) as (s1 & a & Hrun & Hq1 & Ha). rewrite (cmd_bind_eq _ _ _ _ _ Hrun).
  assert (Hfail : forall s2 (P : Prop) (Q : vfs -> Z -> Prop), grows s s2 -> a = 0 \/ is_Some (inodes s2 !! a) -> P ->
    exists s' fd, (vfs_destroy_inode a;; mret (-1)) s2 = Ret (s', fd) /\ mount_points s' = mount_points s /\
      ((fd = -1 /\ file_descriptors s' = file_descriptors s /\ P) \/ Q s' fd)).
  { intros s2 P Q Hq Hin HP. destruct (discard_inode_run a s2 Hin) as (s' & Hg & Hq'). exists s', (-1). split; [exact Hg|].
    assert (Hqq : grows s s') by (transitivity s2; [done|by apply same_tables_grows]). split; [apply Hqq|].
    left. split; [done|]. split; [apply Hqq|done]. }
  destruct (decide (a = 0)) as [->|Ha0].
  { exists s1, (-1). split; [done|]. split; [apply Hq1|]. left. split; [done|]. split; [apply Hq1|]. left.
    intros b ops Hop. destruct (opens_inv _ _ _ _ _ _ _ Hop Hrun) as (<- & ? & _). done. }
  destruct Ha as [?|(i & Hi & Hops)]; [done|]. rewrite (get_inode_bind a i) by done. cbv zeta.
  destruct (decide (private_data i = 0)) as [Hp|Hp].
  { apply Hfail; [done|right; by exists i|]. left. intros b ops Hop.
    destruct (opens_inv _ _ _ _ _ _ _ Hop Hrun) as (<- & _ & i' & Hi' & <- & Hne & _). congruence. }
  destruct Hops as [?|(o & Ho & Hcalls)]; [done|]. rewrite (get_ops_bind _ o) by done.
  destruct (optional_run (op_open o) (call_open (op_open o) a flags) s1 (proj1 Hcalls _ _)) as (s2 & r & Hopen & Hq2 & Hstay).
  rewrite (cmd_bind_eq _ _ _ _ _ Hopen). assert (Hqs2 : grows s s2) by by transitivity s1.
  assert (Hin2 : is_Some (inodes s2 !! a)) by (apply Hstay; by exists i).
  destruct (decide (r <> 0)) as [Hr|Hr].
  { apply Hfail; [done|by right|]. left. intros b ops Hop.
    destruct (opens_inv _ _ _ _ _ _ _ Hop Hrun) as (<- & _ & i' & Hi' & <- & _ & o' & s2' & Ho' & Hopen'). congruence. }
  assert (Hlen2 : 0 + Z.of_nat (Z.to_nat MAX_FILE_DESCRIPTORS) = Z.of_nat (length (file_descriptors s2))).
  { rewrite (proj1 Hqs2), Hlen. lia. }
  unfold allocate_file_descriptor.
  destruct (allocate_loop_fd (Z.to_nat MAX_FILE_DESCRIPTORS) 0 a (private_data i) flags s2 ltac:(lia) Hlen2)
    as [[Hal Hfull]|(fd & d & l & Hfd & Hd & Hz & Hbelow & Hset & Hal)]; rewrite (cmd_bind_eq _ _ _ _ _ Hal).
  - rewrite decide_True by lia. rewrite (get_ops_bind _ o) by (destruct Hq2 as (_ & _ & _ & Hsub & _); by eapply lookup_weaken).
    destruct (optional_run (op_close o) (call_close (op_close o) a) s2 (proj2 Hcalls _)) as (s3 & r' & Hc & Hq3 & Hstay3).
    rewrite (cmd_bind_eq _ _ _ _ _ Hc). apply Hfail; [by transitivity s2|right; by apply Hstay3|].
    right. rewrite (proj1 Hqs2) in Hfull. intros j d Hd. apply (Hfull j); [apply zget_Some_range in Hd; lia|done].
  - rewrite decide_False by lia. exists (with_fds (fun _ => l) s2), fd. split; [done|].
    split; [apply Hqs2|]. right. exists a, (private_data i), d. assert (r = 0) as -> by lia.
    rewrite (proj1 Hqs2) in Hd, Hbelow, Hset. pose proof (zget_Some_range _ _ _ Hd) as Hrange. rewrite Hlen in Hrange.
    unfold MAX_FILE_DESCRIPTORS in Hrange. split; [by exists s1, i, o, s2|]. split; [lia|]. do 2 (split; [done|]). by split.
Qed.

(** Closing a file. The last reference of a descriptor frees its entry and
    nothing else in the table; closing it again, like closing a descriptor that
    is out of range or free, fails with -1 and changes nothing. *)
Theorem vfs_close_frees `{HeapLaws} s fd d :
  length (file_descriptors s) = Z.to_nat MAX_FILE_DESCRIPTORS ->
  zget (file_descriptors s) fd = Some d -> fd_ref_count d = 1 ->
  (fd_inode d = 0 \/ is_Some (inodes s !! fd_inode d)) -> (fd_ops d = 0 \/ exists o, operations s !! fd_ops d = Some o /\ operations_ok o) ->
  (exists s', vfs_close fd s = Ret (s', 0) /\
     zset (file_descriptors s) fd (mkFD 0 0 (fd_offset d) (fd_flags d) 0) = Some (file_descriptors s') /\
     mount_points s' = mount_points s /\ vfs_close fd s' = Ret (s', -1)) /\
  forall x, (x < 0 \/ 1024 <= x \/ exists e, zget (file_descriptors s) x = Some e /\ fd_ref_count e = 0) ->
    vfs_close x s = Ret (s, -1).
Proof.
  intros Hlen Hd Href Hin Hops. pose proof (zget_Some_range _ _ _ Hd) as Hr. rewrite Hlen in Hr.
  assert (Hbad : forall t x, x < 0 \/ 1024 <= x \/ (exists e, zget (file_descriptors t) x = Some e /\ fd_ref_count e = 0) ->
    vfs_close x t = Ret (t, -1)).
  { intros t x Hx. unfold vfs_close. rewrite (cmd_bind_eq (valid_fd x) _ t t false); [done|].
    unfold valid_fd, MAX_FILE_DESCRIPTORS. case_decide; [done|]. destruct Hx as [?|[?|(e & He & Hz)]]; [lia..|].
    rewrite (get_fd_bind x e) by done. by rewrite bool_decide_eq_false_2 by lia. }
  split; [|intros; by apply Hbad]. unfold vfs_close.
  rewrite (cmd_bind_eq (valid_fd fd) _ s s true).
  2:{ unfold valid_fd. rewrite decide_False by (unfold MAX_FILE_DESCRIPTORS in *; lia). rewrite (get_fd_bind fd d) by done.
      by rewrite bool_decide_eq_true_2 by lia. }
  cbn [negb]. rewrite (get_fd_bind fd d) by done. cbv zeta. rewrite Href. change (1 - 1) with 0. cbn [fd_ref_count fd_inode fd_ops].
  set (d1 := mkFD (fd_inode d) (fd_ops d) (fd_offset d) (fd_flags d) 0).
  pose proof (zset_Some (file_descriptors s) fd d1 ltac:(lia)) as Hset. rewrite (put_fd_bind _ _ _ _ _ Hset).
  rewrite decide_True by done. set (l := <[Z.to_nat fd := d1]> (file_descriptors s)).
  set (s1 := with_fds (fun _ => l) s).
  assert (Hc : exists s2, (if decide (fd_inode d <> 0 /\ fd_ops d <> 0) then
      o ← get_ops_at (fd_ops d); optional (op_close o) (call_close (op_close o) (fd_inode d));; mret tt
    else mret tt) s1 = Ret (s2, tt) /\ grows s1 s2 /\ inodes_stay s1 s2).
  { case_decide as Hne; [|exists s1; split; [done|]; split; [done|]; by intros ?]. destruct Hops as [?|(o & Ho & Hok)]; [tauto|].
    rewrite (get_ops_bind _ o) by done.
    destruct (optional_run (op_close o) (call_close (op_close o) (fd_inode d)) s1 (proj2 Hok _)) as (s2 & r & Hrun & Hq & Hst).
    rewrite (cmd_bind_eq _ _ _ _ _ Hrun). by exists s2. }
  destruct Hc as (s2 & Hrun & Hq & Hst). rewrite (cmd_bind_eq _ _ _ _ _ Hrun).
  assert (Hd2 : zget (file_descriptors s2) fd = Some d1) by (rewrite (proj1 Hq); apply (zget_zset_eq _ _ _ _ Hset)).
  rewrite (get_fd_bind fd d1) by done. cbn [fd_inode d1].
  destruct (destroy_run (fd_inode d) s2) as (s3 & Hdes & Hq3); [destruct Hin as [?|Hin]; [by left|right; by apply Hst]|].
  rewrite (cmd_bind_eq _ _ _ _ _ Hdes).
  assert (Hd3 : zget (file_descriptors s3) fd = Some d1) by (rewrite (proj1 Hq3); exact Hd2).
  rewrite (get_fd_bind fd d1) by done. cbn [fd_offset fd_flags fd_ref_count d1].
  pose proof (zset_Some (file_descriptors s3) fd (mkFD 0 0 (fd_offset d) (fd_flags d) 0)) as Hset3.
  assert (Hl3 : file_descriptors s3 = l) by (by rewrite (proj1 Hq3), (proj1 Hq)). rewrite Hl3 in Hset3.
  unfold l in Hset3 at 1. rewrite length_insert in Hset3. specialize (Hset3 ltac:(lia)). rewrite <- Hl3 in Hset3.
  rewrite (put_fd_bind _ _ _ _ _ Hset3). eexists. split; [reflexivity|]. split.
  - rewrite zset_Some by lia. f_equal. cbn. rewrite Hl3. unfold l. by rewrite list_insert_insert_eq.
  - split; [cbn; by rewrite (proj1 (proj2 Hq3)), (proj1 (proj2 Hq))|]. apply Hbad. right. right. eexists.
    split; [apply (zget_zset_eq _ _ _ _ Hset3)|done].
Qed.

(** ** Reading *)

(** A sequence of reads on one descriptor, with what they return. *)
Fixpoint read_all `{Env} (fd buffer : Z) (sizes : list Z) : V (list (Z * list Z)) :=
  match sizes with
  | [] => mret []
  | n :: sizes' => r ← vfs_read fd buffer n; rest ← read_all fd buffer sizes'; mret (r :: rest)
  end.

(** The specification: the read operation itself, called with a cursor that
    starts at [off] and moves by what was read. *)
Fixpoint cursor_reads `{Env} (f inode : Z) (sizes : list Z) (off : Z) : V (list (Z * list Z) * Z) :=
  match sizes with
  | [] => mret ([], off)
  | n :: sizes' =>
      r ← call_read f inode n off;
      '(rest, off') ← cursor_reads f inode sizes' (if decide (fst r > 0) then u32 (off + fst r) else off);
      mret (r :: rest, off')
  end.

(** A read operation knows nothing of descriptors: it leaves the tables as they
    are and does the same whatever is in the descriptor table. *)
Definition knows_no_descriptors `{Env} (f : Z) : Prop := forall inode n off s s' r,
  call_read f inode n off s = Ret (s', r) -> same_tables s s' /\
  forall l, call_read f inode n off (with_fds (fun _ => l) s) = Ret (with_fds (fun _ => l) s', r).

(** One read at the offset [off]. *)
Lemma read_run `{Env} s fd buffer d o n off s1 r : 0 <= fd < 1024 ->
  zget (file_descriptors s) fd = Some d -> fd_ref_count d <> 0 -> buffer <> 0 -> fd_ops d <> 0 ->
  operations s !! fd_ops d = Some o -> op_read o <> 0 -> knows_no_descriptors (op_read o) ->
  call_read (op_read o) (fd_inode d) n off s = Ret (s1, r) ->
  let at_offset x t := with_fds (fun _ => <[Z.to_nat fd := set_fd_offset x d]> (file_descriptors s)) t in
  same_tables s s1 /\
  vfs_read fd buffer n (at_offset off s) = Ret (at_offset (if decide (fst r > 0) then u32 (off + fst r) else off) s1, r).
Proof.
  intros Hfd Hd Href Hbuf Hop0 Ho Hrd Hblind Hcall at_offset. destruct (Hblind _ _ _ _ _ _ Hcall) as [Hq Hany]. split; [done|].
  pose proof (zget_Some_range _ _ _ Hd) as Hr.
  assert (Hget : forall x t, get_fd_entry fd (at_offset x t) = Ret (at_offset x t, set_fd_offset x d)).
  { intros x t. unfold get_fd_entry. rewrite gets_bind. cbn [file_descriptors at_offset with_fds].
    rewrite zget_lookup, list_lookup_insert_eq by lia. done. }
  unfold vfs_read. rewrite (cmd_bind_eq (valid_fd fd) _ _ (at_offset off s) true).
  2:{ unfold valid_fd. rewrite decide_False by (unfold MAX_FILE_DESCRIPTORS; lia). rewrite (cmd_bind_eq _ _ _ _ _ (Hget off s)).
      by rewrite bool_decide_eq_true_2. }
  rewrite decide_False by (intros [?|?]; done). rewrite (cmd_bind_eq _ _ _ _ _ (Hget off s)). cbn [fd_ops fd_inode fd_offset set_fd_offset].
  rewrite decide_False by done.
  rewrite (cmd_bind_eq (get_ops_at (fd_ops d)) _ _ (at_offset off s) o) by (unfold get_ops_at; rewrite gets_bind; cbn; by rewrite Ho).
  assert (Hc : call_read (op_read o) (fd_inode d) n off (at_offset off s) = Ret (at_offset off s1, r)) by apply Hany.
  rewrite decide_False by done. rewrite (cmd_bind_eq _ _ _ _ _ Hc). destruct r as [k bytes]. cbn [fst].
  destruct (decide (k > 0)); [|done].
  rewrite (cmd_bind_eq _ _ _ (at_offset (u32 (off + k)) s1) tt); [done|].
  rewrite (cmd_bind_eq _ _ _ _ _ (Hget off s1)). unfold put_fd_entry. rewrite gets_bind. cbn [file_descriptors at_offset with_fds].
  rewrite zset_Some by (rewrite length_insert; lia). cbn [deref]. rewrite lift_bind, list_insert_insert_eq. done.
Qed.

Lemma read_all_run `{Env} fd buffer s d o : 0 <= fd < 1024 ->
  zget (file_descriptors s) fd = Some d -> fd_ref_count d <> 0 -> buffer <> 0 -> fd_ops d <> 0 ->
  operations s !! fd_ops d = Some o -> op_read o <> 0 -> knows_no_descriptors (op_read o) ->
  let at_offset x t := with_fds (fun _ => <[Z.to_nat fd := set_fd_offset x d]> (file_descriptors s)) t in
  forall sizes s1 off s2 rs off', same_tables s s1 ->
    cursor_reads (op_read o) (fd_inode d) sizes off s1 = Ret (s2, (rs, off')) ->
    read_all fd buffer sizes (at_offset off s1) = Ret (at_offset off' s2, rs).
Proof.
  intros Hfd Hd Href Hbuf Hop0 Ho Hrd Hblind at_offset. induction sizes as [|n sizes IH]; intros s1 off s2 rs off' Hq Hrun; cbn [cursor_reads read_all] in *.
  { injection Hrun as -> -> ->. done. }
  apply cmd_bind_inv in Hrun as (t & r & Hcall & Hrun). apply cmd_bind_inv in Hrun as (t2 & [rest off2] & Hrest & Hrun).
  injection Hrun as -> <- ->.
  assert (Hd1 : zget (file_descriptors s1) fd = Some d) by by rewrite (proj1 Hq).
  assert (Ho1 : operations s1 !! fd_ops d = Some o) by (destruct Hq as (_ & _ & _ & -> & _); done).
  destruct (read_run s1 fd buffer d o n off t r Hfd Hd1 Href Hbuf Hop0 Ho1 Hrd Hblind Hcall) as [Hq1 Hread].
  cbv zeta in Hread. rewrite (proj1 Hq) in Hread. rewrite (cmd_bind_eq _ _ _ _ _ Hread).
  assert (Hqt : same_tables s t) by by transitivity s1. pose proof (IH t _ _ _ _ Hqt Hrest) as Hall.
  by rewrite (cmd_bind_eq _ _ _ _ _ Hall).
Qed.

(** C18. Reading through a descriptor is reading with a cursor, for any read
    operation that does not touch the descriptor table: the calls of [vfs_read]
    return, one after the other, exactly what the operation returns when it is
    called with the offset of the descriptor, advanced (modulo 2^32) by the count
    of every call that reads something; afterwards the descriptor's offset is
    where the cursor stands, and of all else only what the operation itself
    changed is changed. *)
Theorem vfs_read_sequential `{Env} fd buffer sizes s d o s' rs off : 0 <= fd < 1024 ->
  zget (file_descriptors s) fd = Some d -> fd_ref_count d <> 0 -> buffer <> 0 -> fd_ops d <> 0 ->
  operations s !! fd_ops d = Some o -> op_read o <> 0 -> knows_no_descriptors (op_read o) ->
  cursor_reads (op_read o) (fd_inode d) sizes (fd_offset d) s = Ret (s', (rs, off)) ->
  read_all fd buffer sizes s =
    Ret (with_fds (fun _ => <[Z.to_nat fd := set_fd_offset off d]> (file_descriptors s)) s', rs).
Proof.
  intros Hfd Hd Href Hbuf Hop0 Ho Hrd Hblind Hrun. pose proof (zget_Some_range _ _ _ Hd) as Hr.
  assert (Hself : with_fds (fun _ => <[Z.to_nat fd := set_fd_offset (fd_offset d) d]> (file_descriptors s)) s = s).
  { unfold with_fds. rewrite list_insert_id; [by destruct s|]. rewrite zget_lookup in Hd by lia. rewrite Hd. by destruct d. }
  rewrite <- Hself at 1.
  by apply (read_all_run fd buffer s d o Hfd Hd Href Hbuf Hop0 Ho Hrd Hblind sizes s (fd_offset d)).
Qed.

(** ** Instances: a heap that always has room, one file system with one file *)

Definition demo_content : list Z := [104; 101; 108; 108; 111].
Definition demo_ops : FileOperations := mkOps 0 0 1 0 0 0 0 0.
Definition demo_fs : FileSystem := mkFS [102] 0 0 1 0 0 0.
Definition demo_inode (s : vfs) : Inode :=
  mkInode 1 FILE_TYPE_REGULAR 0 5 1 1 (if decide (is_Some (operations s !! 200)) then 200 else 0).

#[local] Instance demo_env : Env := {
  malloc _ := mret 4096;
  free _ := mret tt;
  call_mount _ _ _ := mret 0;
  call_umount _ _ := mret 0;
  call_get_inode _ _ := fun s => Ret (with_inodes (next_inode_num s) (<[100 := demo_inode s]>) s, 100);
  call_mkdir _ _ _ := mret 0;
  call_path _ _ := mret 0;
  call_open _ _ _ := mret 0;
  call_close _ _ := mret 0;
  call_read _ _ size off := let bytes := take (Z.to_nat size) (drop (Z.to_nat off) demo_content) in
    mret (Z.of_nat (length bytes), bytes);
  call_write _ _ bytes _ := mret (Z.of_nat (length bytes));
  call_ioctl _ _ _ _ := mret 0;
  call_readdir _ _ := mret (-1, [], FILE_TYPE_REGULAR);
  stack_byte := 0
}.
#[local] Instance demo_heap : HeapLaws.
Proof. split; [intros n s; by exists s, 4096|intros a s; by exists s]. Qed.
#[local] Instance demo_enough : EnoughMemory.
Proof. split. intros n s s' a [= <- <-]. lia. Qed.
#[local] Instance demo_kept : InodesKept.
Proof. by intros a s s' [= <-]. Qed.

Lemma demo_tame {A} (x : A) : tame (fun s => Ret (s, x)).
Proof. intros s. exists s, x. split; [done|]. split; [done|]. by intros ?. Qed.

Lemma demo_operations_ok o : operations_ok o.
Proof. split; intros; apply demo_tame. Qed.

Lemma demo_fs_ok : filesystem_ok demo_fs.
Proof.
  split; [done|]. intros p s. eexists _, 100. split; [reflexivity|]. split; [done|]. right. exists (demo_inode s).
  split; [apply lookup_insert_eq|]. unfold demo_inode. cbn [private_data operations with_inodes]. case_decide as Ho; [right|by left].
  destruct Ho as [o Ho]. exists o. split; [exact Ho|apply demo_operations_ok].
Qed.

Definition demo_dirs : list (list Z) := [[47]; [47; 100]].
Definition demo_mounts : list MountPoint :=
  mkMP (Some (300, [47])) 50 :: mkMP (Some (310, [47; 100])) 50 :: replicate 30 (mkMP None 0).
Definition demo_vfs (fds : list FileDescriptor) : vfs :=
  mkVfs fds demo_mounts [50] 2 2 1 {[100 := mkInode 1 FILE_TYPE_REGULAR 0 5 1 1 200]} {[200 := demo_ops]} {[50 := demo_fs]}.
Definition demo_fds : list FileDescriptor := mkFD 100 200 0 1 1 :: replicate 1023 empty_fd.

Lemma demo_mounted fds : mounted (demo_vfs fds) demo_dirs.
Proof.
  split; [done|]. intros [|[|[|]]] path [= <-]; (split; [split; [done|]; split; [cbn; lia|]; repeat constructor; lia|]).
  - by eexists _, 300.
  - by eexists _, 310.
Qed.

Lemma demo_filesystems fds : filesystems_ok (demo_vfs fds) (length demo_dirs).
Proof.
  intros [|[|i]] mp Hi Hmp; [injection Hmp as <-; exists demo_fs; (split; [done|exact demo_fs_ok])..|cbn in Hi; lia].
Qed.

Definition demo_components : list (list Z * nat) := [([100; 101; 118], 2%nat); ([116; 116; 121], 1%nat)].

Lemma vfs_parse_path_components_witness :
  exists s' a l', vfs_parse_path (Some (47 :: render demo_components)) (demo_vfs demo_fds) = Ret (s', (Some (a, l'), 2)) /\
    snd <$> l' = [[100; 101; 118]; [116; 116; 121]] /\ same_tables (demo_vfs demo_fds) s'.
Proof.
  apply (vfs_parse_path_components demo_components). repeat split; try done; repeat constructor; lia.
Defined.

Definition demo_path : list Z := [47; 100; 47; 102].

Lemma find_mount_point_longest_prefix_witness :
  vfs_find_mount_point (Some demo_path) (demo_vfs demo_fds) = Ret (demo_vfs demo_fds, (1, Some (4096, [102]))) /\
  exists s1 t, malloc 5 (demo_vfs demo_fds) = Ret (s1, t) /\
    if decide (t = 0) then vfs_find_mount_point (Some demo_path) (demo_vfs demo_fds) = Ret (s1, (-1, None)) else
    exists i inner, located demo_dirs demo_path i inner /\
      if decide (i = -1) then exists s', vfs_find_mount_point (Some demo_path) (demo_vfs demo_fds) = Ret (s', (-1, None)) /\
        same_tables (demo_vfs demo_fds) s'
      else exists s2 q s', malloc (u32 (Z.of_nat (length inner) + 1)) s1 = Ret (s2, q) /\ same_tables (demo_vfs demo_fds) s' /\
        vfs_find_mount_point (Some demo_path) (demo_vfs demo_fds) = Ret (s', (i, if decide (q = 0) then None else Some (q, inner))).
Proof.
  split; [by vm_compute|].
  destruct (find_mount_point_longest_prefix (demo_vfs demo_fds) demo_dirs demo_path (demo_mounted _))
    as (s1 & t & Hm & _ & Hcase). exists s1, t. split; [exact Hm|exact Hcase].
Defined.

Lemma vfs_open_lowest_fd_witness : exists s' fd, vfs_open (Some demo_path) 1 (demo_vfs demo_fds) = Ret (s', fd) /\
  mount_points s' = mount_points (demo_vfs demo_fds) /\ fd = 1 /\ zget (file_descriptors s') 1 = Some (mkFD 100 200 0 1 1).
Proof.
  destruct (vfs_open_lowest_fd (demo_vfs demo_fds) demo_dirs (Some demo_path) 1 (demo_mounted _) (demo_filesystems _))
    as (s' & fd & Hrun & Hm & _); [by vm_compute|].
  exists s', fd. split; [exact Hrun|]. split; [exact Hm|]. vm_compute in Hrun. injection Hrun as <- <-. by split.
Defined.

Lemma vfs_close_frees_witness : (exists s', vfs_close 0 (demo_vfs demo_fds) = Ret (s', 0) /\ vfs_close 0 s' = Ret (s', -1)) /\
  vfs_close 5 (demo_vfs demo_fds) = Ret (demo_vfs demo_fds, -1).
Proof.
  destruct (vfs_close_frees (demo_vfs demo_fds) 0 (mkFD 100 200 0 1 1)) as [(s' & H0 & _ & _ & H1) Hbad].
  - by vm_compute.
  - done.
  - done.
  - right. by eexists.
  - right. exists demo_ops. split; [done|apply demo_operations_ok].
  - split; [by exists s'|]. apply Hbad. right. right. by exists empty_fd.
Defined.

Lemma vfs_read_sequential_witness :
  read_all 0 8192 [2; 2; 9; 1] (demo_vfs demo_fds) =
    Ret (demo_vfs (<[0%nat := mkFD 100 200 5 1 1]> demo_fds), [(2, [104; 101]); (2, [108; 108]); (1, [111]); (0, [])]).
Proof.
  apply (vfs_read_sequential 0 8192 [2; 2; 9; 1] (demo_vfs demo_fds) (mkFD 100 200 0 1 1) demo_ops (demo_vfs demo_fds) _ 5);
    try done; try (cbn; lia).
  by intros inode n off s s' r [= <- <-].
Defined.
