(* ===== verification/Syscall.v ===== *)
(** * System calls (src/kernel/syscall/syscall.c, include/kernel/syscall/syscall.h)

    The dispatcher, the handlers and the per-process descriptor tables, on top
    of the models of the processes, the virtual file system, the page tables and
    the string routines: a system call runs their operations on their parts of
    the state. A [FileDescriptorTable*] is its index in the static array, -1 for
    NULL; a handler is its constructor, [None] for a NULL entry. Messages are not
    modelled. *)
From S2P Require Import Prelude Chain CString Process Frames Paging Vfs.

Definition SYS_exit : Z := 1.
Definition SYS_read : Z := 3.
Definition SYS_write : Z := 4.
Definition SYS_open : Z := 5.
Definition SYS_close : Z := 6.
Definition SYS_ioctl : Z := 16.
Definition SYS_fork : Z := 2.
Definition SYS_execve : Z := 11.
Definition SYS_waitpid : Z := 7.
Definition SYS_getpid : Z := 20.
Definition SYS_sbrk : Z := 45.
Definition SYS_yield : Z := 64.
Definition SYS_mmap : Z := 90.
Definition SYS_munmap : Z := 91.

Definition PROT_WRITE : Z := 0x02.
Definition MAP_ANONYMOUS : Z := 0x04.

Definition FD_TABLE_SIZE : Z := 64.
Definition MAX_FILE_DESCRIPTOR_TABLES : Z := 64.

Record FileDescriptorTable := mkTable { descriptors : list Z; t_pid : Z; in_use : bool }.

(** The addresses of the handler functions. *)
Inductive handler : Set :=
| Exit | Read | Write | Open | Close | Ioctl | Fork | Execve | Waitpid | Getpid | Sbrk | Yield | Mmap | Munmap.

(** [descs]: the FileDescriptor objects that the tables point to; [user]: the
    bytes of user memory. *)
Record kstate := mkK {
  syscall_table : list (option handler); g_file_descriptor_tables : list FileDescriptorTable;
  descs : gmap Z FileDescriptor; user : mem; ps : pstate; files : vfs; memory : vstate
}.
Abbreviation C := (cmd kstate).

Definition with_table t s := mkK t (g_file_descriptor_tables s) (descs s) (user s) (ps s) (files s) (memory s).
Definition with_fd_tables t s := mkK (syscall_table s) t (descs s) (user s) (ps s) (files s) (memory s).
Definition with_descs d s := mkK (syscall_table s) (g_file_descriptor_tables s) d (user s) (ps s) (files s) (memory s).
Definition with_user u s := mkK (syscall_table s) (g_file_descriptor_tables s) (descs s) u (ps s) (files s) (memory s).
Definition with_ps p s := mkK (syscall_table s) (g_file_descriptor_tables s) (descs s) (user s) p (files s) (memory s).
Definition with_files f s := mkK (syscall_table s) (g_file_descriptor_tables s) (descs s) (user s) (ps s) f (memory s).
Definition with_memory m s := mkK (syscall_table s) (g_file_descriptor_tables s) (descs s) (user s) (ps s) (files s) m.

(** Run a call of another component on its part of the state. *)
Definition on {T A} (get : kstate -> T) (put : T -> kstate -> kstate) (c : cmd T A) : C A := fun s =>
  match c (get s) with Ret (t, a) => Ret (put t s, a) | Fault => Fault | Spin => Spin end.
Definition on_user {A} (c : cmd mem A) : C A := on user with_user c.
Definition on_ps {A} (c : cmd pstate A) : C A := on ps with_ps c.
Definition on_files {A} (c : cmd vfs A) : C A := on files with_files c.
Definition on_memory {A} (c : cmd vstate A) : C A := on memory with_memory c.

(** Bytes that a callee reads or writes at a user address. *)
Fixpoint read_bytes (n : nat) (p : Z) : cmd mem (list Z) :=
  match n with O => mret [] | S n' => b ← load p; l ← read_bytes n' (p + 1); mret (b :: l) end.
Fixpoint write_bytes (l : list Z) (p : Z) : cmd mem unit :=
  match l with [] => mret tt | b :: l' => store p b;; write_bytes l' (p + 1) end.
Definition read_string (p : Z) : cmd mem (list Z) := n ← strlen p; read_bytes (Z.to_nat n) p.

(** process_manager->current_process *)
Definition current : C Z :=
  a ← gets (fun s : kstate => pm_set (ps s)); if (a : bool) then on_ps (getm Process.current_process) else fault.
Definition current_pcb (a : Z) : C Process := on_ps (rdp a).

Definition set_syscall_result v p := mkProcess
  (p_pid p) (p_name p) (p_state p) (p_privilege p) (p_priority p) (p_base_priority p)
    (p_time_slice p) (p_total_runtime p) (p_wakeup_time p) (p_regs p) (p_kernel_stack p)
    (p_kernel_stack_size p) (p_user_stack p) (p_user_stack_size p) (p_parent_pid p)
    (p_page_directory p) (p_memory_regions p) (p_argc p) (p_argv p) (p_exit_code p) v
    (p_last_tick p) (p_entry_point p) (p_next p).

(** ** Descriptor tables *)

Definition get_table (t : Z) : C FileDescriptorTable :=
  l ← gets g_file_descriptor_tables; lift (deref (zget l t)).
Definition put_table (t : Z) (tb : FileDescriptorTable) : C unit :=
  l ← gets g_file_descriptor_tables; l' ← lift (deref (zset l t tb)); modify (with_fd_tables l').

(** for (i = i; i < i + n; i++) the first table with this property, or -1 *)
Fixpoint find_table (n : nat) (test : FileDescriptorTable -> bool) (i : Z) : C Z :=
  match n with
  | O => mret (-1)
  | S n' => tb ← get_table i; if test tb then mret i else find_table n' test (i + 1)
  end.

Definition get_file_descriptor_table : C Z :=
  current ← current;
  if decide (current = 0) then mret (-1) else
  c ← current_pcb current;
  let pid := p_pid c in
  i ← find_table (Z.to_nat MAX_FILE_DESCRIPTOR_TABLES) (fun tb => in_use tb && bool_decide (t_pid tb = pid)) 0;
  if decide (i <> -1) then mret i else
  i ← find_table (Z.to_nat MAX_FILE_DESCRIPTOR_TABLES) (fun tb => negb (in_use tb)) 0;
  if decide (i <> -1) then
    put_table i (mkTable (replicate (Z.to_nat FD_TABLE_SIZE) 0) pid true);; mret i
  else mret (-1).

Fixpoint alloc_fd_loop (n : nat) (t fd i : Z) : C Z :=
  match n with
  | O => mret (-1)
  | S n' =>
      tb ← get_table t;
      d ← lift (deref (zget (descriptors tb) i));
      if decide (d = 0) then
        l ← lift (deref (zset (descriptors tb) i fd));
        put_table t (mkTable l (t_pid tb) (in_use tb));; mret i
      else alloc_fd_loop n' t fd (i + 1)
  end.
Definition alloc_fd (fd : Z) : C Z :=
  t ← get_file_descriptor_table;
  if decide (t = -1) then mret (-1) else alloc_fd_loop (Z.to_nat FD_TABLE_SIZE) t fd 0.

Definition get_fd (fd : Z) : C Z :=
  t ← get_file_descriptor_table;
  if decide (t = -1 \/ fd < 0 \/ FD_TABLE_SIZE <= fd) then mret 0 else
  tb ← get_table t; lift (deref (zget (descriptors tb) fd)).

Definition free_fd (fd : Z) : C unit :=
  t ← get_file_descriptor_table;
  if decide (t = -1 \/ fd < 0 \/ FD_TABLE_SIZE <= fd) then mret tt else
  tb ← get_table t;
  l ← lift (deref (zset (descriptors tb) fd 0));
  put_table t (mkTable l (t_pid tb) (in_use tb)).

Definition get_desc (a : Z) : C FileDescriptor := m ← gets descs; lift (deref (m !! a)).
Definition put_desc (a : Z) (d : FileDescriptor) : C unit := modify (fun s => with_descs (<[a := d]> (descs s)) s).

(** ** The handlers. Results are [int]. *)

Section handlers.
Context `{Process.Kernel} `{Vfs.Env} `{Paging.Env}.

Definition syscall_handler_exit (exit_code : Z) : C Z :=
  pid ← on_ps get_current_pid;
  on_ps (Process.terminate_process pid exit_code);;
  mret 0.

(** The operation of a descriptor, 0 when there is none: !file_desc ||
    !file_desc->ops || !file_desc->ops->op *)
Definition file_op (file_desc : Z) (op : FileOperations -> Z) : C Z :=
  if decide (file_desc = 0) then mret 0 else
  d ← get_desc file_desc;
  if decide (fd_ops d = 0) then mret 0 else
  o ← on_files (get_ops_at (fd_ops d)); mret (op o).

(** if (n > 0) file_desc->offset += n *)
Definition advance (file_desc n : Z) : C unit :=
  if decide (n > 0) then
    d ← get_desc file_desc; put_desc file_desc (set_fd_offset (u32 (fd_offset d + n)) d)
  else mret tt.

Definition syscall_handler_read (fd buf count : Z) : C Z :=
  file_desc ← get_fd (s32 fd);
  f ← file_op file_desc op_read;
  if decide (f = 0) then mret (-1) else
  d ← get_desc file_desc;
  '(n, bytes) ← on_files (call_read f (fd_inode d) count (fd_offset d));
  on_user (write_bytes bytes buf);;
  advance file_desc n;;
  mret (s32 n).

Definition syscall_handler_write (fd buf count : Z) : C Z :=
  file_desc ← get_fd (s32 fd);
  f ← file_op file_desc op_write;
  if decide (f = 0) then mret (-1) else
  d ← get_desc file_desc;
  bytes ← on_user (read_bytes (Z.to_nat count) buf);
  n ← on_files (call_write f (fd_inode d) bytes (fd_offset d));
  advance file_desc n;;
  mret (s32 n).

Definition syscall_handler_open (pathname flags : Z) : C Z :=
  if decide (pathname = 0) then mret (-1) else
  path ← on_user (read_string pathname);
  on_files (Vfs.vfs_open (Some path) (s32 flags)).

Definition syscall_handler_close (fd : Z) : C Z :=
  file_desc ← get_fd (s32 fd);
  if decide (file_desc = 0) then mret (-1) else
  on_files (Vfs.vfs_close (s32 fd));;
  free_fd (s32 fd);;
  mret 0.

Definition syscall_handler_ioctl (fd request argp : Z) : C Z :=
  file_desc ← get_fd (s32 fd);
  f ← file_op file_desc op_ioctl;
  if decide (f = 0) then mret (-1) else
  d ← get_desc file_desc;
  on_files (call_ioctl f (fd_inode d) (s32 request) argp).

Definition syscall_handler_fork : C Z := mret (-1).
Definition syscall_handler_execve : C Z := mret (-1).
Definition syscall_handler_waitpid : C Z := mret (-1).
Definition syscall_handler_getpid : C Z := pid ← on_ps get_current_pid; mret (s32 pid).
Definition syscall_handler_sbrk : C Z := mret (-1).
Definition syscall_handler_yield : C Z := on_ps yield_cpu;; mret 0.

(** The common end of both branches of mmap: pages, a region of [type] and its
    link at the head of the list of the process. *)
Definition map_region (cur addr len page_flags : Z) (type : MemoryRegionType) : C Z :=
  c ← current_pcb cur;
  result ← on_memory (Paging.vmm_allocate_pages (p_page_directory c) addr len page_flags);
  if decide (result <> 0) then mret (-1) else
  region ← on_memory (Paging.vmm_create_memory_region addr len page_flags type);
  if decide (region = 0) then
    on_memory (vmm_free_pages (p_page_directory c) addr len);; mret (-1)
  else
    on_memory (
      rs ← gets regions;
      r ← lift (deref (rs !! region));
      modify (Paging.with_regions (<[region := mkRegion (r_virtual_address r) (r_physical_address r) (r_size r)
        (r_flags r) (r_type r) (p_memory_regions c)]> rs)));;
    on_ps (wrp cur (set_memory_regions region));;
    mret (s32 addr).

Definition syscall_handler_mmap (addr len prot flags fd : Z) : C Z :=
  cur ← current;
  if decide (cur = 0) then mret (-1) else
  if decide (len = 0) then mret (-1) else
  let len := Z.land (u32 (len + PAGE_SIZE - 1)) PAGE_MASK in
  let page_flags := Z.lor (if has prot PROT_WRITE then Z.lor PTE_PRESENT PTE_WRITABLE else PTE_PRESENT) PTE_USER in
  if decide (fd <> 4294967295 /\ has flags MAP_ANONYMOUS = false) then
    file_desc ← get_fd (s32 fd);
    if decide (file_desc = 0) then mret (-1) else
    d ← get_desc file_desc;
    if decide (fd_inode d = 0) then mret (-1) else
    map_region cur addr len page_flags MEMORY_MAPPED_FILE
  else map_region cur addr len page_flags MEMORY_DATA.

Definition syscall_handler_munmap (addr len : Z) : C Z :=
  cur ← current;
  if decide (cur = 0) then mret (-1) else
  if decide (len = 0 \/ Z.land addr 0xFFF <> 0) then mret (-1) else
  let len := Z.land (u32 (len + PAGE_SIZE - 1)) PAGE_MASK in
  c ← current_pcb cur;
  result ← on_memory (vmm_free_pages (p_page_directory c) addr len);
  if decide (result <> 0) then mret (-1) else mret 0.

(** ** Dispatch *)

Definition call_handler (h : handler) (a1 a2 a3 a4 a5 : Z) : C Z :=
  match h with
  | Exit => syscall_handler_exit a1
  | Read => syscall_handler_read a1 a2 a3
  | Write => syscall_handler_write a1 a2 a3
  | Open => syscall_handler_open a1 a2
  | Close => syscall_handler_close a1
  | Ioctl => syscall_handler_ioctl a1 a2 a3
  | Fork => syscall_handler_fork
  | Execve => syscall_handler_execve
  | Waitpid => syscall_handler_waitpid
  | Getpid => syscall_handler_getpid
  | Sbrk => syscall_handler_sbrk
  | Yield => syscall_handler_yield
  | Mmap => syscall_handler_mmap a1 a2 a3 a4 a5
  | Munmap => syscall_handler_munmap a1 a2
  end.

Definition handle_syscall_interrupt (eax ebx ecx edx esi edi : Z) : C Z :=
  if decide (128 <= eax) then mret (u32 (-1)) else
  t ← gets syscall_table;
  h ← lift (deref (zget t eax));
  match h with
  | None => mret (u32 (-1))
  | Some h =>
      result ← call_handler h ebx ecx edx esi edi;
      cur ← current;
      (if decide (cur <> 0) then on_ps (wrp cur (set_syscall_result (u32 result))) else mret tt);;
      mret (u32 result)
  end.

(** syscall_table[n] = h *)
Definition set_handler (n : Z) (h : handler) : C unit :=
  t ← gets syscall_table; t' ← lift (deref (zset t n (Some h))); modify (with_table t').

Definition syscall_init : C unit :=
  modify (with_table (replicate 128 None));;
  set_handler SYS_exit Exit;;
  set_handler SYS_read Read;;
  set_handler SYS_write Write;;
  set_handler SYS_open Open;;
  set_handler SYS_close Close;;
  set_handler SYS_ioctl Ioctl;;
  set_handler SYS_fork Fork;;
  set_handler SYS_execve Execve;;
  set_handler SYS_waitpid Waitpid;;
  set_handler SYS_getpid Getpid;;
  set_handler SYS_sbrk Sbrk;;
  set_handler SYS_yield Yield;;
  set_handler SYS_mmap Mmap;;
  set_handler SYS_munmap Munmap.
End handlers.

(** ** Reachable states *)

(** The static descriptor tables as the loader clears them. *)
Definition empty_table : FileDescriptorTable := mkTable (replicate (Z.to_nat FD_TABLE_SIZE) 0) 0 false.

(** System calls, one after the other, from the initialisation on; in between
    the rest of the kernel may change anything but the two static arrays. *)
Inductive reachable `{Process.Kernel} `{Vfs.Env} `{Paging.Env} : kstate -> Prop :=
| reach_init s s' : g_file_descriptor_tables s = replicate (Z.to_nat MAX_FILE_DESCRIPTOR_TABLES) empty_table ->
    syscall_init s = Ret (s', tt) -> reachable s'
| reach_call s s' eax ebx ecx edx esi edi r : reachable s ->
    handle_syscall_interrupt eax ebx ecx edx esi edi s = Ret (s', r) -> reachable s'
| reach_kernel s s' : reachable s -> syscall_table s' = syscall_table s ->
    g_file_descriptor_tables s' = g_file_descriptor_tables s -> reachable s'.

(** The table that [syscall_init] builds. *)
Definition installed (n : Z) : option handler :=
  if decide (n = 1) then Some Exit else if decide (n = 3) then Some Read else
  if decide (n = 4) then Some Write else if decide (n = 5) then Some Open else
  if decide (n = 6) then Some Close else if decide (n = 16) then Some Ioctl else
  if decide (n = 2) then Some Fork else if decide (n = 11) then Some Execve else
  if decide (n = 7) then Some Waitpid else if decide (n = 20) then Some Getpid else
  if decide (n = 45) then Some Sbrk else if decide (n = 64) then Some Yield else
  if decide (n = 90) then Some Mmap else if decide (n = 91) then Some Munmap else None.
Definition installed_table : list (option handler) := installed <$> seqZ 0 128.

(** The invariant: the handlers are installed, and no table holds a descriptor. *)
Record sys_inv (s : kstate) : Prop := {
  inv_table : syscall_table s = installed_table;
  inv_length : length (g_file_descriptor_tables s) = Z.to_nat MAX_FILE_DESCRIPTOR_TABLES;
  inv_null : Forall (fun tb => descriptors tb = replicate (Z.to_nat FD_TABLE_SIZE) 0) (g_file_descriptor_tables s)
}.

Definition keeps {A} (c : C A) : Prop := forall s s' a, sys_inv s -> c s = Ret (s', a) -> sys_inv s'.

Create HintDb keeps.

Lemma keeps_ret {A} (a : A) : keeps (mret a).
Proof. by intros s s' b Hs [= <- _]. Qed.
Lemma keeps_fault {A} : keeps (fault (A := A)).
Proof. by intros s s' b Hs [=]. Qed.
Lemma keeps_gets {A} (f : kstate -> A) : keeps (gets f).
Proof. by intros s s' b Hs [= <- _]. Qed.
Lemma keeps_lift {A} (o : outcome A) : keeps (lift o).
Proof. intros s s' b Hs. unfold lift. destruct o; [by intros [= <- _]|done|done]. Qed.
Lemma keeps_bind {A B} (c : C A) (k : A -> C B) : keeps c -> (forall a, keeps (k a)) -> keeps (c ≫= k).
Proof. intros Hc Hk s s' b Hs (s1 & a & H1 & H2)%cmd_bind_inv. by apply (Hk a s1 s' b); [apply (Hc s s1 a)|]. Qed.
Lemma keeps_if {A} (P : Prop) `{Decision P} (c1 c2 : C A) : keeps c1 -> keeps c2 -> keeps (if decide P then c1 else c2).
Proof. by destruct (decide P). Qed.
Lemma keeps_bool {A} (b : bool) (c1 c2 : C A) : keeps c1 -> keeps c2 -> keeps (if b then c1 else c2).
Proof. by destruct b. Qed.
Lemma keeps_pair {A B D} (p : A * B) (k : A -> B -> C D) : (forall a b, keeps (k a b)) ->
  keeps (match p with (a, b) => k a b end).
Proof. destruct p. by intros. Qed.

Lemma keeps_on {T A} get put (c : cmd T A) :
  (forall t s, syscall_table (put t s) = syscall_table s /\ g_file_descriptor_tables (put t s) = g_file_descriptor_tables s) ->
  keeps (on get put c).
Proof.
  intros Hput s s' a [H1 H2 H3] Hrun. unfold on in Hrun. destruct (c (get s)) as [[t b]| |]; try done.
  injection Hrun as <- _. destruct (Hput t s) as [E1 E2]. split; congruence.
Qed.
Lemma keeps_user {A} (c : cmd mem A) : keeps (on_user c).
Proof. by apply keeps_on. Qed.
Lemma keeps_ps {A} (c : cmd pstate A) : keeps (on_ps c).
Proof. by apply keeps_on. Qed.
Lemma keeps_files {A} (c : cmd vfs A) : keeps (on_files c).
Proof. by apply keeps_on. Qed.
Lemma keeps_memory {A} (c : cmd vstate A) : keeps (on_memory c).
Proof. by apply keeps_on. Qed.
Lemma keeps_get_desc a : keeps (get_desc a).
Proof. apply keeps_bind; [apply keeps_gets|intros; apply keeps_lift]. Qed.
Lemma keeps_put_desc a d : keeps (put_desc a d).
Proof. intros s s' [] [H1 H2 H3] [= <-]. by split. Qed.
Lemma keeps_current : keeps current.
Proof. apply keeps_bind; [apply keeps_gets|intros []; [apply keeps_ps|apply keeps_fault]]. Qed.
Lemma keeps_get_table t : keeps (get_table t).
Proof. apply keeps_bind; [apply keeps_gets|intros; apply keeps_lift]. Qed.

#[export] Hint Resolve keeps_ret keeps_fault keeps_gets keeps_lift keeps_user keeps_ps keeps_files
  keeps_memory keeps_get_desc keeps_put_desc keeps_current keeps_get_table : keeps.

(** Go through a handler: its calls, its tests and its sequencing. *)
Ltac keeps :=
  repeat first
    [ solve [eauto with keeps nocore]
    | apply keeps_bind; [|intros ?]
    | apply keeps_if
    | apply keeps_bool
    | apply keeps_pair; intros ? ? ].

Lemma syscall_init_run s : syscall_init s = Ret (with_table installed_table s, tt).
Proof. unfold syscall_init. rewrite modify_bind. vm_compute. reflexivity. Qed.

(** *** Descriptor tables *)

Lemma keeps_put_table t tb : descriptors tb = replicate (Z.to_nat FD_TABLE_SIZE) 0 -> keeps (put_table t tb).
Proof.
  intros Htb s s' [] [H1 H2 H3] Hrun. unfold put_table in Hrun. rewrite gets_bind in Hrun.
  destruct (zset (g_file_descriptor_tables s) t tb) as [l|] eqn:E; [|done]. cbn [deref] in Hrun.
  rewrite lift_bind in Hrun. injection Hrun as <-. pose proof (zset_length _ _ _ _ E) as Hl.
  apply zset_inv in E as (_ & ->). split; cbn; [done|by rewrite Hl|]. by apply Forall_insert.
Qed.

Lemma keeps_find_table n test : forall i, keeps (find_table n test i).
Proof. induction n as [|n IH]; intros i; cbn [find_table]; keeps. Qed.

Lemma keeps_get_pcb a : keeps (current_pcb a).
Proof. apply keeps_ps. Qed.
#[export] Hint Resolve keeps_find_table keeps_get_pcb : keeps.
#[export] Hint Extern 1 (keeps (put_table _ _)) => apply keeps_put_table; reflexivity : keeps.

Lemma keeps_get_file_descriptor_table : keeps get_file_descriptor_table.
Proof. unfold get_file_descriptor_table. keeps. Qed.
#[export] Hint Resolve keeps_get_file_descriptor_table : keeps.

Lemma keeps_get_fd fd : keeps (get_fd fd).
Proof. unfold get_fd. keeps. Qed.
#[export] Hint Resolve keeps_get_fd : keeps.

Lemma get_table_null s s' t tb : sys_inv s -> get_table t s = Ret (s', tb) ->
  s' = s /\ descriptors tb = replicate (Z.to_nat FD_TABLE_SIZE) 0.
Proof.
  intros Hs Hrun. unfold get_table in Hrun. rewrite gets_bind in Hrun.
  destruct (zget (g_file_descriptor_tables s) t) as [x|] eqn:E; [|done]. injection Hrun as <- <-.
  split; [done|]. pose proof (zget_Some_range _ _ _ E) as Hr. rewrite zget_lookup in E by lia.
  by apply (Forall_lookup_1 _ _ _ _ (inv_null _ Hs) E).
Qed.

(** No descriptor is ever found. *)
Lemma get_fd_null s s' fd a : sys_inv s -> get_fd fd s = Ret (s', a) -> a = 0.
Proof.
  intros Hs (s1 & t & H1 & H2)%cmd_bind_inv. pose proof (keeps_get_file_descriptor_table _ _ _ Hs H1) as Hs1.
  destruct (decide _) in H2; [by injection H2|]. apply cmd_bind_inv in H2 as (s2 & tb & H2 & H3).
  destruct (get_table_null _ _ _ _ Hs1 H2) as [-> Htb]. rewrite Htb in H3. unfold lift in H3.
  destruct (zget (replicate _ 0) fd) as [x|] eqn:E; [|done]. injection H3 as _ <-.
  pose proof (zget_Some_range _ _ _ E) as Hr. rewrite zget_lookup in E by lia. by apply lookup_replicate in E as [-> _].
Qed.

Lemma keeps_free_fd fd : keeps (free_fd fd).
Proof.
  intros s s' [] Hs (s1 & t & H1 & H2)%cmd_bind_inv. pose proof (keeps_get_file_descriptor_table _ _ _ Hs H1) as Hs1.
  destruct (decide _) in H2; [by injection H2 as <-|]. apply cmd_bind_inv in H2 as (s2 & tb & H2 & H3).
  destruct (get_table_null _ _ _ _ Hs1 H2) as [-> Htb]. rewrite Htb in H3.
  destruct (zset (replicate _ 0) fd 0) as [l|] eqn:E; [|done]. cbn [deref] in H3. rewrite lift_bind in H3.
  apply zset_inv in E as (Hr & ->). revert H3. apply keeps_put_table; [|done]. cbn. rewrite length_replicate in Hr.
  apply list_insert_id. apply lookup_replicate. split; [done|lia].
Qed.
#[export] Hint Resolve keeps_free_fd : keeps.

Section invariant.
Context `{Process.Kernel} `{Vfs.Env} `{Paging.Env}.

Lemma keeps_file_op d op : keeps (file_op d op).
Proof. unfold file_op. keeps. Qed.
Lemma keeps_advance d n : keeps (advance d n).
Proof. unfold advance. keeps. Qed.
#[local] Hint Resolve keeps_file_op keeps_advance : keeps.

Lemma keeps_map_region cur addr len fl type : keeps (map_region cur addr len fl type).
Proof. unfold map_region. keeps. Qed.
#[local] Hint Resolve keeps_map_region : keeps.

Lemma keeps_call_handler h a1 a2 a3 a4 a5 : keeps (call_handler h a1 a2 a3 a4 a5).
Proof.
  destruct h; cbn [call_handler]; unfold syscall_handler_exit, syscall_handler_read, syscall_handler_write,
    syscall_handler_open, syscall_handler_close, syscall_handler_ioctl, syscall_handler_fork, syscall_handler_execve,
    syscall_handler_waitpid, syscall_handler_getpid, syscall_handler_sbrk, syscall_handler_yield,
    syscall_handler_mmap, syscall_handler_munmap; keeps.
Qed.
#[local] Hint Resolve keeps_call_handler : keeps.

Lemma keeps_handle a b c d e f : keeps (handle_syscall_interrupt a b c d e f).
Proof.
  unfold handle_syscall_interrupt. apply keeps_if; [keeps|]. keeps. destruct a1 as [h|]; keeps.
Qed.

Lemma reachable_inv s : reachable s -> sys_inv s.
Proof.
  induction 1 as [s s' Hz Hi|s s' eax ebx ecx edx esi edi r _ IH Hrun|s s' _ IH Ht Hf].
  - rewrite syscall_init_run in Hi. injection Hi as <-. split; cbn; [done| |]; rewrite Hz.
    + by rewrite length_replicate.
    + by apply Forall_replicate.
  - by apply (keeps_handle _ _ _ _ _ _ _ _ _ IH Hrun).
  - destruct IH as [E1 E2 E3]. split; congruence.
Qed.
End invariant.

(** ** Descriptors *)

(** The process manager exists and its current process, if any, has a control
    block. *)
Definition current_ok (s : kstate) : Prop :=
  pm_set (ps s) = true /\
  (Process.current_process (mgr (ps s)) = 0 \/ is_Some (procs (ps s) !! Process.current_process (mgr (ps s)))).

(** Only the two static arrays may differ. *)
Definition same_rest (s s' : kstate) : Prop :=
  descs s' = descs s /\ user s' = user s /\ ps s' = ps s /\ files s' = files s /\ memory s' = memory s.

Lemma current_run s : pm_set (ps s) = true -> current s = Ret (s, Process.current_process (mgr (ps s))).
Proof. intros E. unfold current. rewrite gets_bind, E. by destruct s. Qed.

Lemma pcb_run s a p : procs (ps s) !! a = Some p -> current_pcb a s = Ret (s, p).
Proof. intros E. unfold current_pcb, on_ps, on, rdp. rewrite gets_bind, E. by destruct s. Qed.

Lemma find_table_run test n : forall i s, 0 <= i -> i + Z.of_nat n <= Z.of_nat (length (g_file_descriptor_tables s)) ->
  exists r, find_table n test i s = Ret (s, r) /\ (r = -1 \/ i <= r < i + Z.of_nat n).
Proof.
  induction n as [|n IH]; intros i s Hi Hn; cbn [find_table]; [exists (-1); split; [done|by left]|].
  destruct (zget_in_range (g_file_descriptor_tables s) i ltac:(lia)) as [tb Htb].
  rewrite (cmd_bind_eq _ _ s s tb) by (unfold get_table; by rewrite gets_bind, Htb).
  destruct (test tb); [exists i; split; [done|right; lia]|].
  destruct (IH (i + 1) s ltac:(lia) ltac:(lia)) as (r & Hr & Hb). exists r. split; [done|]. destruct Hb; [by left|right; lia].
Qed.

Lemma put_table_run s t tb : 0 <= t < Z.of_nat (length (g_file_descriptor_tables s)) ->
  put_table t tb s = Ret (with_fd_tables (<[Z.to_nat t := tb]> (g_file_descriptor_tables s)) s, tt).
Proof. intros Ht. unfold put_table. rewrite gets_bind, zset_Some by lia. done. Qed.

Lemma get_file_descriptor_table_run s : sys_inv s -> current_ok s ->
  exists s' t, get_file_descriptor_table s = Ret (s', t) /\ same_rest s s' /\
    syscall_table s' = syscall_table s /\ (t = -1 \/ 0 <= t < 64).
Proof.
  intros Hs [Hpm Hcur]. unfold get_file_descriptor_table. rewrite (cmd_bind_eq _ _ _ _ _ (current_run s Hpm)).
  destruct (decide _) as [|Hc]; [exists s, (-1); repeat split; by left|].
  destruct Hcur as [|[p Hp]]; [done|]. rewrite (cmd_bind_eq _ _ _ _ _ (pcb_run s _ p Hp)). cbv zeta.
  pose proof (inv_length _ Hs) as Hlen. unfold MAX_FILE_DESCRIPTOR_TABLES in *.
  destruct (find_table_run (fun tb => in_use tb && bool_decide (t_pid tb = p_pid p)) (Z.to_nat 64) 0 s)
    as (r & Hr & Hb); [lia..|]. rewrite (cmd_bind_eq _ _ _ _ _ Hr).
  destruct (decide (r <> -1)); [exists s, r; repeat split; lia|].
  destruct (find_table_run (fun tb => negb (in_use tb)) (Z.to_nat 64) 0 s) as (r2 & Hr2 & Hb2); [lia..|].
  rewrite (cmd_bind_eq _ _ _ _ _ Hr2). destruct (decide (r2 <> -1)); [|exists s, (-1); repeat split; by left].
  eexists _, r2. rewrite (cmd_bind_eq _ _ _ _ _ (put_table_run s r2 _ ltac:(lia))). split; [done|].
  repeat split. right. lia.
Qed.

Lemma get_fd_run s fd : sys_inv s -> current_ok s ->
  exists s', get_fd fd s = Ret (s', 0) /\ same_rest s s' /\ sys_inv s'.
Proof.
  intros Hs Hc. destruct (get_file_descriptor_table_run s Hs Hc) as (s' & t & Hrun & Hsame & _ & Ht).
  pose proof (keeps_get_file_descriptor_table _ _ _ Hs Hrun) as Hs'.
  assert (Hret : exists a, get_fd fd s = Ret (s', a)).
  { unfold get_fd. rewrite (cmd_bind_eq _ _ _ _ _ Hrun). destruct (decide _) as [|Hn]; [by eexists|].
    pose proof (inv_length _ Hs') as Hlen. unfold MAX_FILE_DESCRIPTOR_TABLES, FD_TABLE_SIZE in *.
    destruct (zget_in_range (g_file_descriptor_tables s') t ltac:(lia)) as [tb Htb].
    assert (Hg : get_table t s' = Ret (s', tb)) by (unfold get_table; by rewrite gets_bind, Htb).
    rewrite (cmd_bind_eq _ _ _ _ _ Hg). destruct (get_table_null _ _ _ _ Hs' Hg) as [_ ->].
    destruct (zget_in_range (replicate (Z.to_nat FD_TABLE_SIZE) 0) fd) as [x Hx];
      [rewrite length_replicate; unfold FD_TABLE_SIZE; lia|]. rewrite Hx. by exists x. }
  destruct Hret as [a Ha]. rewrite (get_fd_null _ _ _ _ Hs Ha) in Ha. by exists s'.
Qed.

Section dispatch.
Context `{Process.Kernel} `{Vfs.Env} `{Paging.Env}.

(** What the dispatcher does with the result of a handler. *)
Definition store_result (r : Z) (s : kstate) : kstate :=
  let cur := Process.current_process (mgr (ps s)) in
  match procs (ps s) !! cur with
  | Some p => if decide (cur = 0) then s
              else with_ps (with_procs (insert cur (set_syscall_result (u32 r) p)) (ps s)) s
  | None => s
  end.

Lemma installed_at n : 0 <= n < 128 -> zget installed_table n = Some (installed n).
Proof.
  intros Hn. assert (Hl : length installed_table = 128%nat) by done.
  rewrite zget_lookup by lia. unfold installed_table. rewrite list_lookup_fmap, lookup_seqZ_lt by lia.
  cbn [fmap option_fmap option_map]. do 2 f_equal. lia.
Qed.

Lemma handle_run n b c d e f h s s1 r : sys_inv s -> 0 <= n < 128 -> installed n = Some h ->
  call_handler h b c d e f s = Ret (s1, r) -> current_ok s1 ->
  handle_syscall_interrupt n b c d e f s = Ret (store_result r s1, u32 r).
Proof.
  intros Hs Hn Hi Hrun [Hpm Hcur]. unfold handle_syscall_interrupt. rewrite decide_False by lia.
  rewrite gets_bind, (inv_table _ Hs), installed_at, Hi by done. cbn [deref]. rewrite lift_bind.
  rewrite (cmd_bind_eq _ _ _ _ _ Hrun), (cmd_bind_eq _ _ _ _ _ (current_run s1 Hpm)). unfold store_result.
  destruct (decide (Process.current_process (mgr (ps s1)) <> 0)) as [Hc|Hc].
  - destruct Hcur as [|[p Hp]]; [done|]. rewrite Hp, decide_False by done.
    rewrite (cmd_bind_eq _ _ s1 (with_ps (with_procs (insert (Process.current_process (mgr (ps s1)))
      (set_syscall_result (u32 r) p)) (ps s1)) s1) tt); [done|].
    unfold on_ps, on. by rewrite (wrp_run _ _ _ _ Hp).
  - apply dec_stable in Hc. rewrite Hc. destruct (procs (ps s1) !! 0); [rewrite decide_True by done|]; done.
Qed.

Lemma failing_call h fd a2 a3 a4 a5 s : h = Read \/ h = Write \/ h = Close \/ h = Ioctl -> sys_inv s -> current_ok s ->
  exists s', call_handler h fd a2 a3 a4 a5 s = Ret (s', -1) /\ same_rest s s'.
Proof.
  intros Hh Hs Hc. destruct (get_fd_run s (s32 fd) Hs Hc) as (s' & Hrun & Hsame & _). exists s'. split; [|done].
  destruct Hh as [->|[->|[->| ->]]]; cbn [call_handler];
    [unfold syscall_handler_read|unfold syscall_handler_write|unfold syscall_handler_close|unfold syscall_handler_ioctl];
    by rewrite (cmd_bind_eq _ _ _ _ _ Hrun).
Qed.
End dispatch.

(** C19. Descriptors never become usable: alloc_fd, the only function that enters
    a descriptor into a table, is called by no system call, so after any
    sequence of system calls read, write, ioctl and close fail with -1 for every
    descriptor number, also one that open has just returned. *)
Theorem descriptors_never_usable `{Process.Kernel} `{Vfs.Env} `{Paging.Env} s n fd a2 a3 a4 a5 :
  reachable s -> current_ok s -> n = SYS_read \/ n = SYS_write \/ n = SYS_ioctl \/ n = SYS_close ->
  exists s', handle_syscall_interrupt n fd a2 a3 a4 a5 s = Ret (s', 4294967295) /\
    files s' = files s /\ user s' = user s /\ memory s' = memory s /\ descs s' = descs s.
Proof.
  intros Hr%reachable_inv Hc Hn.
  assert (Hh : exists h, installed n = Some h /\ 0 <= n < 128 /\ (h = Read \/ h = Write \/ h = Close \/ h = Ioctl)).
  { destruct Hn as [->|[->|[->| ->]]]; eexists; (split; [reflexivity|]; split; [done|]); tauto. }
  destruct Hh as (h & Hi & Hb & Hh). destruct (failing_call h fd a2 a3 a4 a5 s Hh Hr Hc) as (s1 & Hrun & Hsame).
  destruct Hsame as (E1 & E2 & E3 & E4 & E5). exists (store_result (-1) s1). split.
  - apply (handle_run n fd a2 a3 a4 a5 h s s1 (-1)); try done. unfold current_ok. by rewrite E3.
  - rewrite <- E1, <- E2, <- E4, <- E5. unfold store_result. destruct (procs (ps s1) !! _); [case_decide|]; done.
Qed.

(** The dispatcher. A number without a handler (that is, every number but
    the fourteen that are installed) returns -1 and changes nothing; for the
    others the handler is run with the arguments and its result is both returned
    and stored in the process that is current afterwards. *)
Theorem dispatch_result `{Process.Kernel} `{Vfs.Env} `{Paging.Env} s n b c d e f : reachable s -> 0 <= n ->
  match (if decide (n < 128) then installed n else None) with
  | None => handle_syscall_interrupt n b c d e f s = Ret (s, 4294967295)
  | Some h => forall s1 r, call_handler h b c d e f s = Ret (s1, r) -> current_ok s1 ->
      handle_syscall_interrupt n b c d e f s = Ret (store_result r s1, u32 r)
  end.
Proof.
  intros Hr%reachable_inv Hn. destruct (decide (n < 128)) as [Hlt|Hge].
  - destruct (installed n) as [h|] eqn:E; [intros; by apply (handle_run n b c d e f h)|].
    unfold handle_syscall_interrupt. rewrite decide_False by lia.
    by rewrite gets_bind, (inv_table _ Hr), installed_at, E by lia.
  - unfold handle_syscall_interrupt. by rewrite decide_True by lia.
Qed.

(** ** Memory mappings *)

Lemma translate_agree m m' d : dir_ok m d -> (forall x, is_Some (m !! x) -> m' !! x = m !! x) ->
  dir_ok m' d /\ (forall u, slot_of m' d u = slot_of m d u) /\ forall u, is_u32 u -> translate m' d u = translate m d u.
Proof.
  intros Hd Hag. destruct (dir_ok_agree m m' d Hd) as [Hd' Hslot].
  { intros i Hi. apply Hag. by apply Hd. }
  { intros x Hx. by rewrite Hag. }
  split; [done|]. split; [done|]. intros u Hu. unfold translate. rewrite Hslot. destruct (slot_of m d u) as [a|] eqn:E; [|done].
  destruct (slot_word _ _ _ _ Hd E) as [Hm _]. by rewrite Hag.
Qed.

Lemma range_agree base s0 m0 d va g s s' : range_state base s0 m0 d va g s ->
  (forall x, is_Some (words s !! x) -> words s' !! x = words s !! x) -> vmm s' = vmm s ->
  range_state base s0 m0 d va g s'.
Proof.
  intros [Hd Hsl (m & Hfm & Hrest) Hi Hf Htr] Hag Hv. destruct (translate_agree _ _ _ Hd Hag) as (Hd' & Hsl' & Htr').
  constructor; [done|intros u; by rewrite Hsl'| |done|done|].
  - exists m. split; [|done]. unfold fm_of in *. by rewrite Hv.
  - intros u Hu. rewrite Htr' by done. by apply Htr.
Qed.

Section mappings.
Context `{Paging.HeapLaws}.
Context (base : Z) (s0 : vstate) (m0 : PageFrameManager) (d va n : Z).
Context (Hm0 : pfm_ok base m0) (Hd0 : d <> 0) (Hva : is_u32 va) (Hal : va mod 4096 = 0).
Context (Hn : 0 <= n < 1048576) (Hfit : va + 4096 * n <= 4294967296).
Context (Hun : unmapped s0 d va n) (Htab : tabled s0 d va n).

Lemma rounded : round_size (4096 * n) = 4096 * n /\ Z.land va PAGE_MASK = va.
Proof.
  pose proof Hva as Hva'. unfold is_u32 in Hva'. split.
  - unfold round_size, PAGE_SIZE. rewrite page_mask_arith by apply u32_range. rewrite u32_small by (unfold is_u32; lia).
    replace (4096 * n + 4096 - 1) with (4095 + n * 4096) by lia. rewrite Z.div_add by lia. change (4095 / 4096) with 0. lia.
  - rewrite page_mask_arith by done. pose proof (Z.div_mod va 4096). lia.
Qed.

Lemma aligned_allocate_run flags : dir_ok (words s0) d -> fm_of s0 = Some m0 ->
  exists s', Paging.vmm_allocate_pages d va (4096 * n) flags s0 = Ret (s', if decide (n <= free_frames m0) then 0 else -1) /\
    if decide (n <= free_frames m0) then exists g, range_state base s0 m0 d va g s' /\ (forall j, is_Some (g j) <-> 0 <= j < n)
    else range_state base s0 m0 d va (fun _ => None) s'.
Proof.
  intros Hd Hfm. destruct rounded as [Hr Ha]. unfold Paging.vmm_allocate_pages. rewrite decide_False by done.
  cbv zeta. rewrite Hr, Ha.
  destruct (allocate_loop_run base s0 m0 d va Hm0 Hd0 Hva n flags (free_frames m0) (pages_fuel (4096 * n)) (fun _ => None) s0 0)
    as (s' & Hrun & Hcase);
    [by apply range_start|intros j; split; [by intros [? ?]|lia]|lia..|done|done|rewrite Z.sub_0_r; by exists m0
    |by apply (count_bounds base)| |].
  { unfold pages_fuel, PAGE_SIZE. rewrite (Z.mul_comm 4096), Z.div_mul by lia. lia. }
  exists s'. split; [done|]. case_decide; [|done]. destruct Hcase as (g & ? & ? & _). by exists g.
Qed.

Lemma vmm_free_run g s : range_state base s0 m0 d va g s -> (forall j, is_Some (g j) <-> 0 <= j < n) ->
  exists s', vmm_free_pages d va (4096 * n) s = Ret (s', 0) /\ range_state base s0 m0 d va (fun _ => None) s'.
Proof.
  intros Hs Hg. destruct rounded as [Hr Ha]. unfold vmm_free_pages. rewrite decide_False by done. cbv zeta. rewrite Hr, Ha.
  destruct (unmap_loop_run base s0 m0 d va Hm0 Hd0 Hva (pages_fuel (4096 * n)) g s n 0) as (s' & Hrun & Hs');
    [done|intros; by apply Hg|lia..|done| |].
  { unfold pages_fuel, PAGE_SIZE. rewrite (Z.mul_comm 4096), Z.div_mul by lia. lia. }
  change (4096 * 0) with 0 in Hrun. rewrite (cmd_bind_eq _ _ _ _ _ Hrun). exists s'. split; [done|].
  eapply range_ext; [|exact Hs']. intros j. cbn beta. case_decide; [done|]. apply eq_None_not_Some. by rewrite Hg.
Qed.

Lemma create_region_run g s len fl type : range_state base s0 m0 d va g s ->
  exists s1 a, Paging.malloc sizeof_MemoryRegion s = Ret (s1, a) /\
  exists s', Paging.vmm_create_memory_region va len fl type s = Ret (s', a) /\ range_state base s0 m0 d va g s' /\
    (a = 0 \/ regions s' !! a = Some (mkRegion va 0 len fl type 0)).
Proof.
  intros Hs. destruct (Paging.malloc_law sizeof_MemoryRegion s eq_refl) as (s1 & a & Hrun & (Hv & _) & Hcase).
  exists s1, a. split; [done|]. unfold Paging.vmm_create_memory_region. rewrite (cmd_bind_eq _ _ _ _ _ Hrun).
  destruct Hcase as [[-> ->]|(Ha & _ & _ & Hfresh & _ & Hout)].
  { exists s. rewrite decide_True by done. split; [done|]. split; [done|by left]. }
  rewrite decide_False by lia. rewrite modify_bind. eexists. split; [reflexivity|]. split; [|right; apply lookup_insert_eq].
  apply (range_agree _ _ _ _ _ _ s); [done| |done]. intros x [w Hx]. cbn. apply Hout. intros Hin.
  rewrite Hfresh in Hx by done. done.
Qed.
End mappings.

Lemma on_memory_run {A} (c : cmd vstate A) s t a : c (memory s) = Ret (t, a) -> on_memory c s = Ret (with_memory t s, a).
Proof. intros E. unfold on_memory, on. by rewrite E. Qed.

(** Every frame and every translation is as in [v]. *)
Definition restored (base d : Z) (m : PageFrameManager) (v v' : vstate) : Prop :=
  exists m', fm_of v' = Some m' /\ pfm_ok base m' /\ (forall i, 0 <= i -> taken m' i = taken m i) /\
    forall u x, is_u32 u -> pd_get_physical_address d u v = Ret (v, x) -> pd_get_physical_address d u v' = Ret (v', x).

Lemma range_restored `{Paging.Env} base v m d va v' : dir_ok (words v) d -> d <> 0 ->
  range_state base v m d va (fun _ => None) v' -> restored base d m v v'.
Proof.
  intros Hd Hd0 [Hd' _ (m' & Hfm & Hok & _ & Htk) _ _ Htr]. exists m'. split; [done|]. split; [done|]. split.
  - intros i Hi. apply eq_true_iff_eq. rewrite Htk by done. split; [by intros [?|[? ?]]|by left].
  - intros u x Hu Hx. rewrite get_run in Hx by done. injection Hx as <-. rewrite get_run by done. by rewrite Htr.
Qed.

(** The length of a mapping in pages. *)
Lemma mmap_rounds len : 0 < len <= 4294963200 -> Z.land (u32 (len + PAGE_SIZE - 1)) PAGE_MASK = 4096 * ((len + 4095) / 4096).
Proof.
  intros Hlen. unfold PAGE_SIZE. rewrite page_mask_arith by apply u32_range. rewrite u32_small by (unfold is_u32; lia).
  replace (len + 4096 - 1) with (len + 4095) by lia. lia.
Qed.

(** The pages and the region of a new mapping: the pages need as many free
    frames, and their region a block from the heap. *)
Lemma map_region_run `{Paging.HeapLaws} base s m cur p va n fl type :
  let d := p_page_directory p in
  procs (ps s) !! cur = Some p -> pfm_ok base m -> d <> 0 -> is_u32 va -> va mod 4096 = 0 -> 0 <= n < 1048576 ->
  va + 4096 * n <= 4294967296 -> unmapped (memory s) d va n -> tabled (memory s) d va n ->
  dir_ok (words (memory s)) d -> fm_of (memory s) = Some m ->
  if decide (n <= free_frames m) then
    exists v1 v2 a s1, Paging.vmm_allocate_pages d va (4096 * n) fl (memory s) = Ret (v1, 0) /\
      Paging.malloc sizeof_MemoryRegion v1 = Ret (v2, a) /\
      map_region cur va (4096 * n) fl type s = Ret (s1, if decide (a = 0) then -1 else s32 va) /\
      if decide (a = 0) then range_state base (memory s) m d va (fun _ => None) (memory s1) /\ ps s1 = ps s
      else exists g, range_state base (memory s) m d va g (memory s1) /\ (forall j, is_Some (g j) <-> 0 <= j < n) /\
        ps s1 = with_procs (insert cur (set_memory_regions a p)) (ps s) /\
        regions (memory s1) !! a = Some (mkRegion va 0 (4096 * n) fl type (p_memory_regions p))
  else exists s1, map_region cur va (4096 * n) fl type s = Ret (s1, -1) /\
    range_state base (memory s) m d va (fun _ => None) (memory s1) /\ ps s1 = ps s.
Proof.
  intros d Hp Hok Hd0 Hva Hal Hn Hfit Hun Htab Hd Hfm. unfold map_region. rewrite (cmd_bind_eq _ _ _ _ _ (pcb_run s cur p Hp)).
  fold d. destruct (aligned_allocate_run base (memory s) m d va n Hok Hd0 Hva Hal Hn Hfit Hun Htab fl Hd Hfm) as (v1 & Hrun & Hcase).
  rewrite (cmd_bind_eq _ _ _ _ _ (on_memory_run _ s _ _ Hrun)).
  destruct (decide (n <= free_frames m)); [destruct Hcase as (g & Hv1 & Hg)|].
  2:{ rewrite decide_True by done. eexists. split; [reflexivity|]. by split. }
  rewrite (decide_False (P := 0 <> 0)) by lia.
  destruct (create_region_run base (memory s) m d va g v1 (4096 * n) fl type Hv1) as (v2 & a & Hmal & v3 & Hrun2 & Hv3 & Ha).
  exists v1, v2, a. rewrite (cmd_bind_eq _ _ _ _ _ (on_memory_run _ (with_memory v1 s) _ _ Hrun2)).
  destruct (decide (a = 0)) as [->|Ha0].
  - destruct (vmm_free_run base (memory s) m d va n Hok Hd0 Hva Hal Hn Hfit Hun g v3 Hv3 Hg) as (v4 & Hrun3 & Hv4).
    rewrite (cmd_bind_eq _ _ _ _ _ (on_memory_run _ (with_memory v3 (with_memory v1 s)) _ _ Hrun3)).
    eexists. split; [done|]. split; [done|]. split; [reflexivity|]. by split.
  - destruct Ha as [?|Ha]; [done|].
    set (reg := mkRegion va 0 (4096 * n) fl type (p_memory_regions p)). set (v4 := Paging.with_regions (<[a := reg]> (regions v3)) v3).
    rewrite (cmd_bind_eq _ _ _ (with_memory v4 (with_memory v3 (with_memory v1 s))) tt).
    2:{ apply on_memory_run. cbn. rewrite gets_bind. rewrite Ha. done. }
    rewrite (cmd_bind_eq _ _ _ (with_ps (with_procs (insert cur (set_memory_regions a p)) (ps s))
      (with_memory v4 (with_memory v3 (with_memory v1 s)))) tt).
    2:{ unfold on_ps, on. by rewrite (wrp_run _ _ _ _ Hp). }
    eexists. split; [done|]. split; [done|]. split; [reflexivity|]. exists g. split; [|split; [done|split; [done|]]].
    + apply (range_agree _ _ _ _ _ _ v3); done.
    + apply lookup_insert_eq.
Qed.

(** Every page of a mapped range translates to a frame, so not to 0. *)
Lemma range_mapped `{Paging.Env} base v m d va n g v' : pfm_ok base m -> d <> 0 -> is_u32 va -> va mod 4096 = 0 -> va + 4096 * n <= 4294967296 ->
  range_state base v m d va g v' -> (forall j, is_Some (g j) <-> 0 <= j < n) ->
  forall u, va <= u < va + 4096 * n -> exists x, pd_get_physical_address d u v' = Ret (v', x) /\ x <> 0.
Proof.
  intros Hok Hd0 Hva Hal Hfit [Hd1 _ _ _ Hfree Htr] Hg u Hu. unfold is_u32 in Hva. assert (Hu32 : is_u32 u) by (unfold is_u32; lia).
  assert (Hj : is_Some (g (u / 4096 - va / 4096))) by (apply Hg; zdm). destruct Hj as [i Hi].
  rewrite get_run, Htr, Hi by done. eexists. split; [reflexivity|].
  destruct (frame_address_range base m i Hok) as (Hfr & Hfr0 & _); [by apply (Hfree _ _ Hi)|].
  unfold is_u32 in Hfr. pose proof (Z.mod_pos_bound u 4096). lia.
Qed.

(** munmap of a mapped range. *)
Lemma munmap_run `{Paging.Env} base s s1 m cur p a va len g :
  let d := p_page_directory p in let n := (len + 4095) / 4096 in
  pm_set (ps s) = true -> Process.current_process (mgr (ps s)) = cur -> cur <> 0 ->
  ps s1 = with_procs (insert cur (set_memory_regions a p)) (ps s) ->
  pfm_ok base m -> d <> 0 -> is_u32 va -> va mod 4096 = 0 -> 0 < len <= 4294963200 -> va + 4096 * n <= 4294967296 ->
  unmapped (memory s) d va n -> range_state base (memory s) m d va g (memory s1) -> (forall j, is_Some (g j) <-> 0 <= j < n) ->
  exists s2, syscall_handler_munmap va len s1 = Ret (s2, 0) /\ ps s2 = ps s1 /\
    range_state base (memory s) m d va (fun _ => None) (memory s2).
Proof.
  intros d n Hpm Hcur Hc0 Hps Hok Hd0 Hva Hal Hlen Hfit Hun Hs1 Hg. assert (Hnb : 0 <= n < 1048576) by (unfold n; zdm).
  destruct (vmm_free_run base (memory s) m d va n Hok Hd0 Hva Hal Hnb Hfit Hun g (memory s1) Hs1 Hg) as (v2 & Hrun2 & Hv2).
  assert (Hp1 : procs (ps s1) !! cur = Some (set_memory_regions a p)) by (rewrite Hps; apply lookup_insert_eq).
  unfold syscall_handler_munmap. rewrite (cmd_bind_eq _ _ s1 s1 cur) by (rewrite current_run by (by rewrite Hps); by rewrite Hps, <- Hcur).
  rewrite decide_False by done.
  assert (Hoff : Z.land va 0xFFF = 0) by (change 0xFFF with (Z.ones 12); rewrite Z.land_ones by lia; exact Hal).
  rewrite decide_False by (intros [?|?]; lia). cbv zeta. rewrite (mmap_rounds len) by done. fold n.
  rewrite (cmd_bind_eq _ _ _ _ _ (pcb_run s1 cur _ Hp1)). cbn [p_page_directory set_memory_regions]. fold d.
  rewrite (cmd_bind_eq _ _ _ _ _ (on_memory_run _ s1 _ _ Hrun2)). eexists. split; [reflexivity|]. by split.
Qed.

(** C20. mmap and munmap are inverse on the page tables. For an anonymous mapping
    of an unmapped range whose page tables are there: with fewer free frames than
    pages mmap returns -1. Otherwise the pages are allocated and a block for the
    region is requested; when there is none mmap returns -1 as well, and in both
    cases every frame, every translation and the process list are as before. When
    there is one it returns the address, every page of the range is mapped and a
    region for it heads the list of the process; munmap of the range then succeeds
    and restores every frame and every translation, but the region stays in the
    list. *)
Theorem mmap_munmap_roundtrip `{Paging.HeapLaws} base m s cur p addr len prot flags fd :
  let d := p_page_directory p in let n := (len + 4095) / 4096 in
  let fl := Z.lor (if has prot PROT_WRITE then Z.lor PTE_PRESENT PTE_WRITABLE else PTE_PRESENT) PTE_USER in
  pm_set (ps s) = true -> Process.current_process (mgr (ps s)) = cur -> cur <> 0 -> procs (ps s) !! cur = Some p ->
  dir_ok (words (memory s)) d -> d <> 0 -> fm_of (memory s) = Some m -> pfm_ok base m ->
  is_u32 addr -> addr mod 4096 = 0 -> 0 < len <= 4294963200 -> addr + 4096 * n <= 4294967296 ->
  (forall u, addr <= u < addr + 4096 * n ->
     is_Some (slot_of (words (memory s)) d u) /\ pd_get_physical_address d u (memory s) = Ret (memory s, 0)) ->
  fd = 4294967295 \/ has flags MAP_ANONYMOUS = true ->
  let failed := exists s1, syscall_handler_mmap addr len prot flags fd s = Ret (s1, -1) /\
    restored base d m (memory s) (memory s1) /\ ps s1 = ps s in
  if decide (n <= free_frames m) then
    exists v1 v2 a, Paging.vmm_allocate_pages d addr (4096 * n) fl (memory s) = Ret (v1, 0) /\
      Paging.malloc sizeof_MemoryRegion v1 = Ret (v2, a) /\
      if decide (a = 0) then failed else
      exists s1, syscall_handler_mmap addr len prot flags fd s = Ret (s1, s32 addr) /\
        (forall u, addr <= u < addr + 4096 * n ->
           exists x, pd_get_physical_address d u (memory s1) = Ret (memory s1, x) /\ x <> 0) /\
        ps s1 = with_procs (insert cur (set_memory_regions a p)) (ps s) /\
        regions (memory s1) !! a = Some (mkRegion addr 0 (4096 * n) fl MEMORY_DATA (p_memory_regions p)) /\
        exists s2, syscall_handler_munmap addr len s1 = Ret (s2, 0) /\
          restored base d m (memory s) (memory s2) /\ ps s2 = ps s1
  else failed.
Proof.
  intros d n fl Hpm Hcur Hc0 Hp Hd Hd0 Hfm Hok Hva Hal Hlen Hfit Hunm Hanon. pose proof Hva as Hva'. unfold is_u32 in Hva'.
  assert (Hnb : 0 <= n < 1048576) by (unfold n; zdm).
  assert (Hin : forall u, is_u32 u -> addr / 4096 <= u / 4096 < addr / 4096 + n -> addr <= u < addr + 4096 * n) by (intros; zdm).
  assert (Hun : unmapped (memory s) d addr n).
  { intros u Hu Hpg. destruct (Hunm u (Hin u Hu Hpg)) as [_ E]. rewrite get_run in E by done. by injection E. }
  assert (Htab : tabled (memory s) d addr n) by (intros u Hu Hpg; by apply Hunm, Hin).
  assert (Hcurrent : current s = Ret (s, cur)) by (rewrite current_run by done; by rewrite Hcur).
  unfold syscall_handler_mmap. rewrite (cmd_bind_eq _ _ _ _ _ Hcurrent). rewrite !(decide_False (P := cur = 0)), !(decide_False (P := len = 0)) by lia. cbv zeta.
  rewrite (mmap_rounds len) by done. fold n. rewrite (decide_False (P := _ /\ _)) by (intros [? ?]; destruct Hanon; congruence).
  fold fl.
  pose proof (map_region_run base s m cur p addr n fl MEMORY_DATA Hp Hok Hd0 Hva Hal Hnb Hfit Hun Htab Hd Hfm) as Hrun.
  case_decide.
  2:{ destruct Hrun as (s1 & Hrun & Hs1 & Hps). exists s1. split; [done|]. split; [by apply (range_restored _ _ _ _ addr)|done]. }
  destruct Hrun as (v1 & v2 & a & s1 & Hall & Hmal & Hrun & Hcase). exists v1, v2, a. split; [done|]. split; [done|].
  case_decide; exists s1; (split; [done|]).
  - destruct Hcase as [Hs1 Hps]. split; [by apply (range_restored _ _ _ _ addr)|done].
  - destruct Hcase as (g & Hs1 & Hg & Hps & Hreg). split; [by apply (range_mapped base (memory s) m d addr n g)|].
    split; [done|]. split; [done|].
    destruct (munmap_run base s s1 m cur p a addr len g) as (s2 & Hrun2 & Hps2 & Hs2); [done..|].
    exists s2. split; [done|]. split; [by apply (range_restored _ _ _ _ addr)|done].
Qed.

(** ** Instances: one running process, with the page tables of Paging.v *)

Definition demo_pcb : Process := set_page_directory 4096 (one_process PROCESS_RUNNING).
Definition demo_ps : pstate := with_procs (fun _ => {[ 1000 := demo_pcb ]}) (one_state PROCESS_RUNNING).
Definition demo_boot (m : vstate) : kstate :=
  mkK [] (replicate 64 empty_table) ∅ {[ 500 := 47; 501 := 102; 502 := 0 ]} demo_ps (demo_vfs demo_fds) m.
Definition no_memory : vstate := mkV ∅ None ∅ (mkCpu 0 0 0 []).
Definition demo_up : kstate := with_table installed_table (demo_boot no_memory).

#[local] Existing Instance Process.demo_kernel.
#[local] Existing Instance Vfs.demo_env.
#[local] Existing Instance Paging.demo_env0.
#[local] Existing Instance Paging.demo_laws0.

Lemma demo_reachable : reachable demo_up.
Proof. apply (reach_init (demo_boot no_memory)); [reflexivity|]. apply syscall_init_run. Qed.

Lemma demo_current m : current_ok (with_table installed_table (demo_boot m)).
Proof. split; [reflexivity|]. right. by exists demo_pcb. Qed.

(** open returns descriptor 1, and reading from it fails. *)
Lemma descriptors_never_usable_witness :
  exists s1 s2, handle_syscall_interrupt SYS_open 500 1 0 0 0 demo_up = Ret (s1, 1) /\
    handle_syscall_interrupt SYS_read 1 8192 4 0 0 s1 = Ret (s2, 4294967295) /\ files s2 = files s1.
Proof.
  destruct (handle_syscall_interrupt SYS_open 500 1 0 0 0 demo_up) as [[s1 r]| |] eqn:E; [|by vm_compute in E..].
  assert (Hr : r = 1 /\ current_ok s1).
  { vm_compute in E. injection E as <- <-. split; [done|]. split; [done|]. right. by eexists. }
  destruct Hr as [-> Hc]. exists s1.
  destruct (descriptors_never_usable s1 SYS_read 1 8192 4 0 0) as (s2 & Hrun & Hf & _);
    [by apply (reach_call demo_up _ _ _ _ _ _ _ _ demo_reachable E)|done|by left|].
  by exists s2.
Defined.

Lemma dispatch_result_witness :
  handle_syscall_interrupt 92 0 0 0 0 0 demo_up = Ret (demo_up, 4294967295) /\
  handle_syscall_interrupt SYS_getpid 0 0 0 0 0 demo_up = Ret (store_result 0 demo_up, 0).
Proof.
  split.
  - exact (dispatch_result demo_up 92 0 0 0 0 0 demo_reachable ltac:(lia)).
  - exact (dispatch_result demo_up SYS_getpid 0 0 0 0 0 demo_reachable ltac:(unfold SYS_getpid; lia) demo_up 0 eq_refl (demo_current _)).
Defined.

(** After the two pages the heap still has a block for the region. *)
Lemma demo_has_memory :
  match Paging.vmm_allocate_pages 4096 0x2000 (4096 * ((0x1800 + 4095) / 4096)) 7 demo_state with
  | Ret (v1, _) => match Paging.malloc sizeof_MemoryRegion v1 with Ret (_, a) => bool_decide (a <> 0) | _ => false end
  | _ => false
  end = true.
Proof. vm_compute. reflexivity. Qed.

Lemma mmap_munmap_roundtrip_witness :
  let s := demo_boot demo_state in
  (exists s1 s2, syscall_handler_mmap 0x2000 0x1800 3 4 0 s = Ret (s1, 0x2000) /\
    syscall_handler_munmap 0x2000 0x1800 s1 = Ret (s2, 0) /\ restored 0x1000000 4096 three_frames demo_state (memory s2)) /\
  exists s1, syscall_handler_mmap 0x2000 0x2800 3 4 0 s = Ret (s1, -1) /\ restored 0x1000000 4096 three_frames demo_state (memory s1).
Proof.
  intros s.
  assert (Hrange : forall u, 0x2000 <= u < 0x5000 -> is_Some (slot_of (words demo_state) 4096 u) /\
    pd_get_physical_address 4096 u demo_state = Ret (demo_state, 0)).
  { intros u Hu. apply demo_range; [split; lia|zdm]. }
  split.
  - pose proof (mmap_munmap_roundtrip 0x1000000 three_frames s 1000 demo_pcb 0x2000 0x1800 3 4 0
      eq_refl eq_refl ltac:(lia) eq_refl demo_dir_ok ltac:(cbn; lia) eq_refl three_frames_ok ltac:(split; lia) eq_refl
      ltac:(lia) ltac:(vm_compute; discriminate) (fun u Hu => Hrange u ltac:(change (4096 * ((0x1800 + 4095) / 4096)) with 8192 in Hu; lia))
      ltac:(right; reflexivity)) as Hrun. cbv zeta in Hrun.
    rewrite decide_True in Hrun by (vm_compute; discriminate).
    destruct Hrun as (v1 & v2 & a & Hall & Hmal & Hcase). pose proof demo_has_memory as Hmem.
    change (Paging.vmm_allocate_pages 4096 0x2000 (4096 * ((0x1800 + 4095) / 4096)) 7 demo_state = Ret (v1, 0)) in Hall.
    rewrite Hall, Hmal in Hmem. destruct (decide (a = 0)) as [->|].
    + discriminate Hmem.
    + destruct Hcase as (s1 & Hrun & _ & _ & _ & s2 & Hrun2 & Hres & _). exists s1, s2. split; [exact Hrun|]. split; [exact Hrun2|exact Hres].
  - pose proof (mmap_munmap_roundtrip 0x1000000 three_frames s 1000 demo_pcb 0x2000 0x2800 3 4 0
      eq_refl eq_refl ltac:(lia) eq_refl demo_dir_ok ltac:(cbn; lia) eq_refl three_frames_ok ltac:(split; lia) eq_refl
      ltac:(lia) ltac:(vm_compute; discriminate) (fun u Hu => Hrange u ltac:(change (4096 * ((0x2800 + 4095) / 4096)) with 12288 in Hu; lia))
      ltac:(right; reflexivity)) as Hrun. cbv zeta in Hrun.
    rewrite decide_False in Hrun by (vm_compute; intuition discriminate).
    destruct Hrun as (s1 & Hrun & Hres & _). exists s1. split; [exact Hrun|exact Hres].
Defined.
