(* ===== verification/RBTree.v ===== *)
(** * Red-black trees (src/kernel/kerstd/rbtree.c, include/kerstd/rbtree.h)

    Nodes live in a map from addresses; a tree is its root and its sentinel
    [nil], which stands for every missing child and for the parent of the root.
    The tree the nodes form is described by [holds], and the operations are
    proved against the list of its entries in order.

    Loops that go down or up the tree have one more than the number of nodes as
    fuel. *)
From S2P Require Import Prelude.

Inductive RBTColor : Set := RB_BLACK | RB_RED.
#[export] Instance RBTColor_eq_dec : EqDecision RBTColor.
Proof. solve_decision. Defined.

Record RBTNode := mkNode { key : Z; data : Z; color : RBTColor; parent : Z; left : Z; right : Z }.
Definition set_color v n := mkNode (key n) (data n) v (parent n) (left n) (right n).
Definition set_parent v n := mkNode (key n) (data n) (color n) v (left n) (right n).
Definition set_left v n := mkNode (key n) (data n) (color n) (parent n) v (right n).
Definition set_right v n := mkNode (key n) (data n) (color n) (parent n) (left n) v.

(** The two fields of the RBTree, and the nodes. *)
Record rbtree := mkTree { root : Z; nil : Z; nodes : gmap Z RBTNode }.
Abbreviation R := (cmd rbtree).
Definition set_root v t := mkTree v (nil t) (nodes t).
Definition set_nil v t := mkTree (root t) v (nodes t).
Definition with_nodes f t := mkTree (root t) (nil t) (f (nodes t)).

(** a->field, a->field = v *)
Definition rd {A} (a : Z) (field : RBTNode -> A) : R A := m ← gets nodes; n ← lift (deref (m !! a)); mret (field n).
Definition wr (a : Z) (f : RBTNode -> RBTNode) : R unit :=
  m ← gets nodes; n ← lift (deref (m !! a)); modify (with_nodes (<[a := f n]>)).
Definition tree_fuel : R nat := gets (fun t => S (size (nodes t))).

Class Env := { malloc : Z -> R Z }.

(** ** Rotations *)

(** if (p == nil) root = y; else if (x == p->left) p->left = y; else p->right = y *)
Definition replace_child (p x y : Z) : R unit :=
  n ← gets nil;
  if decide (p = n) then modify (set_root y) else
  l ← rd p left;
  if decide (x = l) then wr p (set_left y) else wr p (set_right y).

Definition rbtree_left_rotate (x : Z) : R unit :=
  y ← rd x right;
  yl ← rd y left;
  wr x (set_right yl);;
  n ← gets nil;
  yl ← rd y left;
  (if decide (yl <> n) then wr yl (set_parent x) else mret tt);;
  xp ← rd x parent;
  wr y (set_parent xp);;
  xp ← rd x parent;
  replace_child xp x y;;
  wr y (set_left x);;
  wr x (set_parent y).

Definition rbtree_right_rotate (y : Z) : R unit :=
  x ← rd y left;
  xr ← rd x right;
  wr y (set_left xr);;
  n ← gets nil;
  xr ← rd x right;
  (if decide (xr <> n) then wr xr (set_parent y) else mret tt);;
  yp ← rd y parent;
  wr x (set_parent yp);;
  yp ← rd y parent;
  replace_child yp y x;;
  wr x (set_right y);;
  wr y (set_parent x).

(** ** Insertion *)

(** x->parent->parent *)
Definition grandparent (z : Z) : R Z := p ← rd z parent; rd p parent.

Fixpoint insert_fixup_loop (fuel : nat) (z : Z) : R unit :=
  match fuel with
  | O => spin
  | S fuel' =>
      p ← rd z parent;
      c ← rd p color;
      if decide (c <> RB_RED) then mret tt else
      g ← rd p parent;
      gl ← rd g left;
      if decide (p = gl) then
        y ← rd g right;
        yc ← rd y color;
        if decide (yc = RB_RED) then
          wr p (set_color RB_BLACK);;
          wr y (set_color RB_BLACK);;
          wr g (set_color RB_RED);;
          insert_fixup_loop fuel' g
        else
          pr ← rd p right;
          z ← (if decide (z = pr) then rbtree_left_rotate p;; mret p else mret z);
          p ← rd z parent;
          wr p (set_color RB_BLACK);;
          g ← grandparent z;
          wr g (set_color RB_RED);;
          g ← grandparent z;
          rbtree_right_rotate g;;
          insert_fixup_loop fuel' z
      else
        y ← rd g left;
        yc ← rd y color;
        if decide (yc = RB_RED) then
          wr p (set_color RB_BLACK);;
          wr y (set_color RB_BLACK);;
          wr g (set_color RB_RED);;
          insert_fixup_loop fuel' g
        else
          pl ← rd p left;
          z ← (if decide (z = pl) then rbtree_right_rotate p;; mret p else mret z);
          p ← rd z parent;
          wr p (set_color RB_BLACK);;
          g ← grandparent z;
          wr g (set_color RB_RED);;
          g ← grandparent z;
          rbtree_left_rotate g;;
          insert_fixup_loop fuel' z
  end.

Definition rbtree_insert_fixup (z : Z) : R unit :=
  fuel ← tree_fuel;
  insert_fixup_loop fuel z;;
  r ← gets root;
  wr r (set_color RB_BLACK).

(** The search for the place: the last node visited. *)
Fixpoint descend (fuel : nat) (k y x : Z) : R Z :=
  match fuel with
  | O => spin
  | S fuel' =>
      n ← gets nil;
      if decide (x = n) then mret y else
      xk ← rd x key;
      if decide (k < xk) then l ← rd x left; descend fuel' k x l
      else r ← rd x right; descend fuel' k x r
  end.

Definition rbtree_insert (z : Z) : R unit :=
  y ← gets nil;
  x ← gets root;
  fuel ← tree_fuel;
  k ← rd z key;
  y ← descend fuel k y x;
  wr z (set_parent y);;
  n ← gets nil;
  (if decide (y = n) then modify (set_root z) else
   zk ← rd z key;
   yk ← rd y key;
   if decide (zk < yk) then wr y (set_left z) else wr y (set_right z));;
  wr z (set_left n);;
  wr z (set_right n);;
  wr z (set_color RB_RED);;
  rbtree_insert_fixup z.

(** ** Searching *)

Fixpoint search_loop (fuel : nat) (k current : Z) : R Z :=
  match fuel with
  | O => spin
  | S fuel' =>
      n ← gets nil;
      if decide (current = n) then mret current else
      ck ← rd current key;
      if decide (k = ck) then mret current else
      if decide (k < ck) then l ← rd current left; search_loop fuel' k l
      else r ← rd current right; search_loop fuel' k r
  end.

Definition rbtree_search (k : Z) : R Z :=
  fuel ← tree_fuel;
  r ← gets root;
  current ← search_loop fuel k r;
  n ← gets nil;
  mret (if decide (current = n) then 0 else current).

Fixpoint minimum_loop (fuel : nat) (node : Z) : R Z :=
  match fuel with
  | O => spin
  | S fuel' =>
      l ← rd node left; n ← gets nil;
      if decide (l <> n) then minimum_loop fuel' l else mret node
  end.
Definition rbtree_minimum (node : Z) : R Z := fuel ← tree_fuel; minimum_loop fuel node.

Fixpoint maximum_loop (fuel : nat) (node : Z) : R Z :=
  match fuel with
  | O => spin
  | S fuel' =>
      r ← rd node right; n ← gets nil;
      if decide (r <> n) then maximum_loop fuel' r else mret node
  end.
Definition rbtree_maximum (node : Z) : R Z := fuel ← tree_fuel; maximum_loop fuel node.

(** ** Deletion *)

Fixpoint delete_fixup_loop (fuel : nat) (x : Z) : R Z :=
  match fuel with
  | O => spin
  | S fuel' =>
      r ← gets root;
      if decide (x = r) then mret x else
      xc ← rd x color;
      if decide (xc <> RB_BLACK) then mret x else
      p ← rd x parent;
      pl ← rd p left;
      if decide (x = pl) then
        w ← rd p right;
        wc ← rd w color;
        w ← (if decide (wc = RB_RED) then
               wr w (set_color RB_BLACK);;
               p ← rd x parent;
               wr p (set_color RB_RED);;
               p ← rd x parent;
               rbtree_left_rotate p;;
               p ← rd x parent;
               rd p right
             else mret w);
        wl ← rd w left; wlc ← rd wl color;
        wr_ ← rd w right; wrc ← rd wr_ color;
        if decide (wlc = RB_BLACK /\ wrc = RB_BLACK) then
          wr w (set_color RB_RED);;
          p ← rd x parent;
          delete_fixup_loop fuel' p
        else
          w ← (if decide (wrc = RB_BLACK) then
                 wl ← rd w left;
                 wr wl (set_color RB_BLACK);;
                 wr w (set_color RB_RED);;
                 rbtree_right_rotate w;;
                 p ← rd x parent;
                 rd p right
               else mret w);
          p ← rd x parent;
          pc ← rd p color;
          wr w (set_color pc);;
          p ← rd x parent;
          wr p (set_color RB_BLACK);;
          wr_ ← rd w right;
          wr wr_ (set_color RB_BLACK);;
          p ← rd x parent;
          rbtree_left_rotate p;;
          r ← gets root;
          delete_fixup_loop fuel' r
      else
        w ← rd p left;
        wc ← rd w color;
        w ← (if decide (wc = RB_RED) then
               wr w (set_color RB_BLACK);;
               p ← rd x parent;
               wr p (set_color RB_RED);;
               p ← rd x parent;
               rbtree_right_rotate p;;
               p ← rd x parent;
               rd p left
             else mret w);
        wr_ ← rd w right; wrc ← rd wr_ color;
        wl ← rd w left; wlc ← rd wl color;
        if decide (wrc = RB_BLACK /\ wlc = RB_BLACK) then
          wr w (set_color RB_RED);;
          p ← rd x parent;
          delete_fixup_loop fuel' p
        else
          w ← (if decide (wlc = RB_BLACK) then
                 wr_ ← rd w right;
                 wr wr_ (set_color RB_BLACK);;
                 wr w (set_color RB_RED);;
                 rbtree_left_rotate w;;
                 p ← rd x parent;
                 rd p left
               else mret w);
          p ← rd x parent;
          pc ← rd p color;
          wr w (set_color pc);;
          p ← rd x parent;
          wr p (set_color RB_BLACK);;
          wl ← rd w left;
          wr wl (set_color RB_BLACK);;
          p ← rd x parent;
          rbtree_right_rotate p;;
          r ← gets root;
          delete_fixup_loop fuel' r
  end.

Definition rbtree_delete_fixup (x : Z) : R unit :=
  fuel ← tree_fuel;
  x ← delete_fixup_loop fuel x;
  wr x (set_color RB_BLACK).

(** Put [x] in the place of [z]: the link from above and x->parent. *)
Definition transplant (z x : Z) : R unit :=
  zp ← rd z parent;
  replace_child zp z x;;
  zp ← rd z parent;
  wr x (set_parent zp).

Definition rbtree_delete (z : Z) : R unit :=
  y_original_color ← rd z color;
  n ← gets nil;
  zl ← rd z left;
  '(x, y_original_color) ←
    (if decide (zl = n) then
       x ← rd z right;
       transplant z x;;
       mret (x, y_original_color)
     else
       zr ← rd z right;
       if decide (zr = n) then
         x ← rd z left;
         transplant z x;;
         mret (x, y_original_color)
       else
         y ← rbtree_minimum zr;
         y_original_color ← rd y color;
         x ← rd y right;
         yp ← rd y parent;
         (if decide (yp = z) then wr x (set_parent y)
          else
            transplant y x;;
            zr ← rd z right;
            wr y (set_right zr);;
            yr ← rd y right;
            wr yr (set_parent y));;
         transplant z y;;
         zl ← rd z left;
         wr y (set_left zl);;
         yl ← rd y left;
         wr yl (set_parent y);;
         zc ← rd z color;
         wr y (set_color zc);;
         mret (x, y_original_color));
  if decide (y_original_color = RB_BLACK) then rbtree_delete_fixup x else mret tt.

(** ** Initialisation *)

Definition sizeof_RBTNode : Z := 24.

Definition rbtree_init `{Env} : R unit :=
  a ← malloc sizeof_RBTNode;
  modify (set_nil a);;
  n ← gets nil;
  wr n (set_color RB_BLACK);;
  wr n (set_left 0);;
  wr n (set_right 0);;
  wr n (set_parent 0);;
  modify (set_root n).

(** ** The tree in memory *)

Record entry := mkEntry { e_addr : Z; e_key : Z; e_data : Z }.

Inductive tree : Type :=
| Leaf
| Node (c : RBTColor) (l : tree) (e : entry) (r : tree).

Fixpoint inorder (t : tree) : list entry :=
  match t with Leaf => [] | Node _ l e r => inorder l ++ e :: inorder r end.
Definition addrs (t : tree) : list Z := e_addr <$> inorder t.

(** A tree with a hole: the frames from the hole up, each with the side of the
    hole, its color and entry, and the subtree on the other side. *)
Record frame := mkFrame { hole_left : bool; f_color : RBTColor; f_entry : entry; sibling : tree }.
Abbreviation context := (list frame).

Definition plug1 (f : frame) (t : tree) : tree :=
  if hole_left f then Node (f_color f) t (f_entry f) (sibling f)
  else Node (f_color f) (sibling f) (f_entry f) t.
Fixpoint plug (C : context) (t : tree) : tree :=
  match C with [] => t | f :: C' => plug C' (plug1 f t) end.
Fixpoint caddrs (C : context) : list Z :=
  match C with [] => [] | f :: C' => e_addr (f_entry f) :: addrs (sibling f) ++ caddrs C' end.

Section representation.
Context (nl : Z).
Implicit Types (h : gmap Z RBTNode) (t : tree) (C : context).

Definition ptr t : Z := match t with Leaf => nl | Node _ _ e _ => e_addr e end.
Definition top C : Z := match C with [] => nl | f :: _ => e_addr (f_entry f) end.

(** The tree [t] in the memory [h], below the node [par]. *)
Fixpoint rep h (par : Z) t : Prop :=
  match t with
  | Leaf => True
  | Node c l e r => h !! e_addr e = Some (mkNode (e_key e) (e_data e) c par (ptr l) (ptr r)) /\
      rep h (e_addr e) l /\ rep h (e_addr e) r
  end.

(** The context [C] in the memory [h], with the pointer [p] in its hole. *)
Fixpoint repc h C (p : Z) : Prop :=
  match C with
  | [] => True
  | f :: C' => h !! e_addr (f_entry f) = Some (mkNode (e_key (f_entry f)) (e_data (f_entry f)) (f_color f) (top C')
        (if hole_left f then p else ptr (sibling f)) (if hole_left f then ptr (sibling f) else p)) /\
      rep h (e_addr (f_entry f)) (sibling f) /\ repc h C' (e_addr (f_entry f))
  end.

Lemma rep_ext h h' t : forall par, (forall a, a ∈ addrs t -> h' !! a = h !! a) -> rep h par t -> rep h' par t.
Proof.
  unfold addrs. induction t as [|c l IHl e r IHr]; intros par Hag; cbn [rep inorder] in *; [done|].
  intros (He & Hl & Hr). split; [|split].
  - rewrite Hag; [done|]. rewrite fmap_app, fmap_cons. set_solver.
  - apply IHl; [|done]. intros a Ha. apply Hag. rewrite fmap_app, fmap_cons. set_solver.
  - apply IHr; [|done]. intros a Ha. apply Hag. rewrite fmap_app, fmap_cons. set_solver.
Qed.

Lemma repc_ext h h' C : forall p, (forall a, a ∈ caddrs C -> h' !! a = h !! a) -> repc h C p -> repc h' C p.
Proof.
  induction C as [|f C IH]; intros p Hag; cbn [repc caddrs] in *; [done|]. intros (Hf & Hs & HC). split; [|split].
  - rewrite Hag; [done|]. set_solver.
  - apply (rep_ext h); [|done]. intros a Ha. apply Hag. set_solver.
  - apply IH; [|done]. intros a Ha. apply Hag. set_solver.
Qed.

Lemma ptr_plug1 f t : ptr (plug1 f t) = e_addr (f_entry f).
Proof. unfold plug1. by destruct (hole_left f). Qed.

Lemma rep_plug h C : forall t, rep h nl (plug C t) <-> rep h (top C) t /\ repc h C (ptr t).
Proof.
  induction C as [|f C IH]; intros t; cbn [plug repc top]; [tauto|]. rewrite IH, ptr_plug1.
  unfold plug1. destruct (hole_left f); cbn [rep]; tauto.
Qed.

Lemma ptr_plug C : forall t t', C <> [] \/ ptr t = ptr t' -> ptr (plug C t) = ptr (plug C t').
Proof.
  induction C as [|f C IH]; intros t t' H; cbn [plug]; [by destruct H|]. apply IH. right. by rewrite !ptr_plug1.
Qed.
End representation.

Lemma addrs_node c l e r : addrs (Node c l e r) = addrs l ++ e_addr e :: addrs r.
Proof. unfold addrs. cbn [inorder]. by rewrite fmap_app, fmap_cons. Qed.

Lemma addrs_plug C : forall t, addrs (plug C t) ≡ₚ addrs t ++ caddrs C.
Proof.
  induction C as [|f C IH]; intros t; cbn [plug caddrs]; [by rewrite app_nil_r|]. rewrite IH.
  unfold plug1. destruct (hole_left f); rewrite addrs_node; solve_Permutation.
Qed.

(** The entries before and after the hole. *)
Fixpoint before (C : context) : list entry :=
  match C with [] => [] | f :: C' => before C' ++ (if hole_left f then [] else inorder (sibling f) ++ [f_entry f]) end.
Fixpoint after (C : context) : list entry :=
  match C with [] => [] | f :: C' => (if hole_left f then f_entry f :: inorder (sibling f) else []) ++ after C' end.

Lemma inorder_plug C : forall t, inorder (plug C t) = before C ++ inorder t ++ after C.
Proof.
  induction C as [|f C IH]; intros t; cbn [plug before after]; [by rewrite app_nil_r|]. rewrite IH.
  unfold plug1. destruct (hole_left f); cbn [inorder]; by rewrite <- !app_assoc.
Qed.

(** The tree structure holds exactly [T]; the sentinel is black. *)
Record holds (s : rbtree) (T : tree) : Prop := {
  h_rep : rep (nil s) (nodes s) (nil s) T;
  h_root : root s = ptr (nil s) T;
  h_nil : exists n, nodes s !! nil s = Some n /\ color n = RB_BLACK;
  h_nodup : NoDup (nil s :: addrs T)
}.

(** Only nodes of the tree change. *)
Definition same_outside (T : tree) (s s' : rbtree) : Prop :=
  nil s' = nil s /\ forall a, a ∉ addrs T -> nodes s' !! a = nodes s !! a.

(** ** Single steps *)

Lemma rd_bind {A B} a (f : RBTNode -> A) (k : A -> R B) s n : nodes s !! a = Some n -> (rd a f ≫= k) s = k (f n) s.
Proof. intros E. apply cmd_bind_eq. unfold rd. by rewrite gets_bind, E. Qed.

Lemma wr_run a f s n : nodes s !! a = Some n -> wr a f s = Ret (with_nodes (<[a := f n]>) s, tt).
Proof. intros E. unfold wr. by rewrite gets_bind, E. Qed.

Lemma wr_bind {B} a f (k : unit -> R B) s n : nodes s !! a = Some n ->
  (wr a f ≫= k) s = k tt (with_nodes (<[a := f n]>) s).
Proof. intros E. apply cmd_bind_eq. by apply wr_run. Qed.

Lemma holds_plug s C t : holds s (plug C t) <->
  rep (nil s) (nodes s) (top (nil s) C) t /\ repc (nil s) (nodes s) C (ptr (nil s) t) /\
  root s = ptr (nil s) (plug C t) /\ (exists n, nodes s !! nil s = Some n /\ color n = RB_BLACK) /\
  NoDup (nil s :: addrs t ++ caddrs C).
Proof.
  split.
  - intros [Hr Hroot Hn Hd]. apply rep_plug in Hr as [Ht HC]. rewrite addrs_plug in Hd. tauto.
  - intros (Ht & HC & Hroot & Hn & Hd). constructor; [by apply rep_plug|done|done|by rewrite addrs_plug].
Qed.

(** The record of the node in the hole. *)
Lemma holds_node s C c l e r : holds s (plug C (Node c l e r)) ->
  nodes s !! e_addr e = Some (mkNode (e_key e) (e_data e) c (top (nil s) C) (ptr (nil s) l) (ptr (nil s) r)).
Proof. by intros [[Hr _] _]%holds_plug. Qed.

(** The link to the hole. *)
Lemma replace_child_run s C x y : repc (nil s) (nodes s) C x -> NoDup (nil s :: x :: caddrs C) ->
  exists s', replace_child (top (nil s) C) x y s = Ret (s', tt) /\ nil s' = nil s /\
    repc (nil s) (nodes s') C y /\ root s' = (match C with [] => y | _ => root s end) /\
    forall a, a ∉ caddrs C -> nodes s' !! a = nodes s !! a.
Proof.
  intros HC Hd. unfold replace_child. rewrite gets_bind. destruct C as [|f C]; cbn [top repc caddrs] in *.
  { rewrite decide_True by done. eexists. by repeat split. }
  destruct HC as (Hf & Hs & HC). apply NoDup_cons in Hd as [Hn Hd]. apply NoDup_cons in Hd as [Hx Hd].
  apply NoDup_cons in Hd as [Hff Hd]. rewrite decide_False by set_solver. rewrite (rd_bind _ _ _ _ _ Hf). cbn [left].
  assert (Hne : x <> ptr (nil s) (sibling f)).
  { destruct (sibling f) as [|? ? ? ?]; cbn [ptr]; [set_solver|]. rewrite addrs_node in Hx. set_solver. }
  assert (Hkeep : forall n, rep (nil s) (<[e_addr (f_entry f) := n]> (nodes s)) (e_addr (f_entry f)) (sibling f) /\
    repc (nil s) (<[e_addr (f_entry f) := n]> (nodes s)) C (e_addr (f_entry f))).
  { intros n. split; [apply (rep_ext _ (nodes s))|apply (repc_ext _ (nodes s))]; try done;
      intros a Ha; apply lookup_insert_ne; set_solver. }
  destruct (hole_left f) eqn:Ehl; [rewrite decide_True by done|rewrite decide_False by done];
    rewrite (wr_run _ _ _ _ Hf); (eexists; split; [reflexivity|]); (split; [done|]);
    (split; [split; [apply lookup_insert_eq|apply Hkeep]|]); (split; [done|]);
    intros a Ha; apply lookup_insert_ne; set_solver.
Qed.

(** Distinct addresses from [NoDup] of a concrete list. *)
Ltac distinct := repeat (rewrite ?NoDup_cons, ?NoDup_app, ?addrs_node in *; destruct_and?); set_solver.

Lemma NoDup_perm (l1 l2 : list Z) : NoDup l1 -> l1 ≡ₚ l2 -> NoDup l2.
Proof. by intros H <-. Qed.

(** if (t != nil) t->parent = p *)
Lemma adopt_run s t par p : rep (nil s) (nodes s) par t -> NoDup (nil s :: addrs t) ->
  exists s', (if decide (ptr (nil s) t <> nil s) then wr (ptr (nil s) t) (set_parent p) else mret tt) s = Ret (s', tt) /\
    nil s' = nil s /\ root s' = root s /\ rep (nil s) (nodes s') p t /\ forall a, a ∉ addrs t -> nodes s' !! a = nodes s !! a.
Proof.
  intros Ht Hd. destruct t as [|c l e r]; cbn [ptr rep] in *.
  { rewrite decide_False by auto. by exists s. }
  destruct Ht as (He & Hl & Hr). rewrite addrs_node in *. apply NoDup_cons in Hd as [Hn Hd].
  apply NoDup_app in Hd as (_ & Hlr & [Her _]%NoDup_cons).
  rewrite decide_True by set_solver. rewrite (wr_run _ _ _ _ He). eexists. split; [done|]. do 2 (split; [done|]).
  assert (Hkeep : forall a, a <> e_addr e -> (<[e_addr e := set_parent p (mkNode (e_key e) (e_data e) c par (ptr (nil s) l) (ptr (nil s) r))]> (nodes s)) !! a = nodes s !! a)
    by (intros; by apply lookup_insert_ne).
  split; [split; [apply lookup_insert_eq|split; (eapply rep_ext; [|done])]|].
  - intros a Ha. apply Hkeep. intros ->. apply (Hlr _ Ha). by left.
  - intros a Ha. apply Hkeep. by intros ->.
  - intros a Ha. apply Hkeep. set_solver.
Qed.

(** Two nodes [x], [y] and four sets of addresses that are apart. *)
Lemma apart n x y (A B D C : list Z) : NoDup (n :: (A ++ x :: B ++ y :: D) ++ C) ->
  (n <> x /\ n <> y /\ x <> y /\ n ∉ A /\ n ∉ B /\ n ∉ D /\ n ∉ C) /\
  (x ∉ A /\ x ∉ B /\ x ∉ D /\ x ∉ C) /\ (y ∉ A /\ y ∉ B /\ y ∉ D /\ y ∉ C) /\
  (forall z, z ∈ A -> z ∉ B /\ z ∉ C) /\ (forall z, z ∈ B -> z ∉ C) /\ (forall z, z ∈ D -> z ∉ B /\ z ∉ C) /\
  NoDup (n :: B) /\ NoDup C.
Proof.
  intros Hd. assert (Hp : NoDup (n :: x :: y :: A ++ B ++ D ++ C)) by (apply (NoDup_perm _ _ Hd); solve_Permutation).
  clear Hd. rewrite !NoDup_cons, !NoDup_app, !not_elem_of_cons, !not_elem_of_app in Hp. rewrite NoDup_cons.
  destruct_and! Hp. repeat match goal with H : forall x, x ∈ _ -> _ |- _ => setoid_rewrite not_elem_of_app in H end.
  repeat split; try done; naive_solver.
Qed.

Ltac apart_step :=
  repeat match goal with H : forall z, z ∈ ?l -> _, Hz : ?z ∈ ?l |- _ => pose proof (H z Hz); clear Hz end.
Ltac sep :=
  solve [ done | congruence | tauto | intros ->; tauto | apart_step; tauto
        | let E := fresh in intros E; apart_step; tauto ].

(** The six links of a rotation, before and after. [x] is the upper node. *)
Lemma left_rotate_run s C cx a x cy b y c : holds s (plug C (Node cx a x (Node cy b y c))) ->
  exists s', rbtree_left_rotate (e_addr x) s = Ret (s', tt) /\
    holds s' (plug C (Node cy (Node cx a x b) y c)) /\ same_outside (plug C (Node cx a x (Node cy b y c))) s s'.
Proof.
  intros H. pose proof H as (Ht & HC & Hroot & Hnil & Hd)%holds_plug. cbn [rep ptr] in Ht, HC.
  destruct Ht as (Hx & Ha & Hy & Hb & Hc). rewrite !addrs_node in Hd.
  pose proof (apart _ _ _ _ _ _ _ Hd) as ((HnX & HnY & Hxy & HnA & HnB & HnD & HnC) & (HxA & HxB & HxD & HxC) &
    (HyA & HyB & HyD & HyC) & HA & HB & HD & HdB & HdC).
  unfold rbtree_left_rotate. rewrite (rd_bind _ _ _ _ _ Hx), (rd_bind _ _ _ _ _ Hy), (wr_bind _ _ _ _ _ Hx). cbn [right left set_right].
  set (s1 := with_nodes _ s). assert (Hk1 : forall z, z <> e_addr x -> nodes s1 !! z = nodes s !! z) by (intros; by apply lookup_insert_ne).
  rewrite gets_bind, (rd_bind _ _ _ s1 _ (eq_trans (Hk1 _ (not_eq_sym Hxy)) Hy)). cbn [left].
  destruct (adopt_run s1 b (e_addr y) (e_addr x)) as (s2 & Hrun2 & Hn2 & Hr2 & Hb2 & Hk2);
    [apply (rep_ext _ (nodes s)); [intros z Hz; apply Hk1; sep|done]|done|].
  change (nil s1) with (nil s) in *. change (root s1) with (root s) in *. rewrite (cmd_bind_eq _ _ _ _ _ Hrun2).
  assert (Hx2 : nodes s2 !! e_addr x = nodes s1 !! e_addr x) by (apply Hk2; sep).
  unfold s1 in Hx2. cbn [nodes with_nodes] in Hx2. rewrite lookup_insert_eq in Hx2. rewrite (rd_bind _ _ _ _ _ Hx2).
  assert (Hy2 : nodes s2 !! e_addr y = nodes s !! e_addr y) by (rewrite Hk2 by sep; by apply Hk1). rewrite Hy in Hy2.
  rewrite (wr_bind _ _ _ _ _ Hy2). cbn [parent set_parent]. set (s3 := with_nodes _ s2).
  assert (Hk3 : forall z, z <> e_addr y -> nodes s3 !! z = nodes s2 !! z) by (intros; by apply lookup_insert_ne).
  rewrite (rd_bind _ _ _ s3 _ (eq_trans (Hk3 _ Hxy) Hx2)). cbn [parent].
  assert (Hn3 : nil s3 = nil s) by done.
  destruct (replace_child_run s3 C (e_addr x) (e_addr y)) as (s4 & Hrun4 & Hn4 & HC4 & Hr4 & Hk4).
  { rewrite Hn3. apply (repc_ext _ (nodes s)); [|done]. intros z Hz. rewrite Hk3, Hk2, Hk1 by sep. done. }
  { rewrite Hn3. apply NoDup_cons; split; [rewrite not_elem_of_cons; tauto|]. by apply NoDup_cons. }
  rewrite Hn3 in *. rewrite (cmd_bind_eq _ _ _ _ _ Hrun4).
  assert (Hy4 : nodes s4 !! e_addr y = nodes s3 !! e_addr y) by (apply Hk4; sep).
  unfold s3 in Hy4. cbn [nodes with_nodes] in Hy4. rewrite lookup_insert_eq in Hy4. rewrite (wr_bind _ _ _ _ _ Hy4).
  cbn [set_left set_parent]. set (s5 := with_nodes _ s4).
  assert (Hk5 : forall z, z <> e_addr y -> nodes s5 !! z = nodes s4 !! z) by (intros; by apply lookup_insert_ne).
  assert (Hx5 : nodes s5 !! e_addr x = nodes s2 !! e_addr x) by (rewrite Hk5, Hk4, Hk3 by sep; done). rewrite Hx2 in Hx5.
  rewrite (wr_run _ _ _ _ Hx5). cbn [set_right set_parent]. set (s6 := with_nodes _ s5).
  assert (Hk6 : forall z, z <> e_addr x -> nodes s6 !! z = nodes s5 !! z) by (intros; by apply lookup_insert_ne).
  assert (Hout : forall z, z <> e_addr x -> z <> e_addr y -> z ∉ addrs b -> z ∉ caddrs C -> nodes s6 !! z = nodes s !! z).
  { intros. by rewrite Hk6, Hk5, Hk4, Hk3, Hk2, Hk1. }
  assert (Hn6 : nil s6 = nil s) by (by rewrite <- Hn4).
  exists s6. split; [done|]. split; [apply holds_plug; rewrite Hn6; cbn [rep ptr]|]; [split; [|split; [|split; [|split]]]|].
  - split; [rewrite Hk6 by done; apply lookup_insert_eq|]. split; [|].
    + split; [apply lookup_insert_eq|]. split.
      * apply (rep_ext _ (nodes s)); [|done]. intros z Hz. apply Hout; sep.
      * apply (rep_ext _ (nodes s2)); [|done]. intros z Hz. rewrite Hk6, Hk5, Hk4, Hk3 by sep. done.
    + apply (rep_ext _ (nodes s)); [|done]. intros z Hz. apply Hout; sep.
  - apply (repc_ext _ (nodes s4)); [|done]. intros z Hz. rewrite Hk6, Hk5 by sep. done.
  - change (root s6) with (root s4). rewrite Hr4. destruct C as [|f C]; [done|].
    change (root s3) with (root s2). rewrite Hr2, Hroot. apply ptr_plug. by left.
  - destruct Hnil as (n & Hn & Hcol). exists n. split; [|done]. rewrite Hout by sep. done.
  - rewrite !addrs_node. apply (NoDup_perm _ _ Hd). solve_Permutation.
  - split; [done|]. intros z Hz. rewrite addrs_plug, !addrs_node in Hz. apply Hout; set_solver.
Qed.

Lemma right_rotate_run s C cx a x cy b y c : holds s (plug C (Node cx (Node cy c y b) x a)) ->
  exists s', rbtree_right_rotate (e_addr x) s = Ret (s', tt) /\
    holds s' (plug C (Node cy c y (Node cx b x a))) /\ same_outside (plug C (Node cx (Node cy c y b) x a)) s s'.
Proof.
  intros H. pose proof H as (Ht & HC & Hroot & Hnil & Hd)%holds_plug. cbn [rep ptr] in Ht, HC.
  destruct Ht as (Hx & (Hy & Hc & Hb) & Ha). rewrite !addrs_node in Hd.
  apply NoDup_perm with (l2 := nil s :: (addrs a ++ e_addr x :: addrs b ++ e_addr y :: addrs c) ++ caddrs C) in Hd; [|solve_Permutation].
  pose proof (apart _ _ _ _ _ _ _ Hd) as ((HnX & HnY & Hxy & HnA & HnB & HnD & HnC) & (HxA & HxB & HxD & HxC) &
    (HyA & HyB & HyD & HyC) & HA & HB & HD & HdB & HdC).
  unfold rbtree_right_rotate. rewrite (rd_bind _ _ _ _ _ Hx), (rd_bind _ _ _ _ _ Hy), (wr_bind _ _ _ _ _ Hx). cbn [right left set_left].
  set (s1 := with_nodes _ s). assert (Hk1 : forall z, z <> e_addr x -> nodes s1 !! z = nodes s !! z) by (intros; by apply lookup_insert_ne).
  rewrite gets_bind, (rd_bind _ _ _ s1 _ (eq_trans (Hk1 _ (not_eq_sym Hxy)) Hy)). cbn [right].
  destruct (adopt_run s1 b (e_addr y) (e_addr x)) as (s2 & Hrun2 & Hn2 & Hr2 & Hb2 & Hk2);
    [apply (rep_ext _ (nodes s)); [intros z Hz; apply Hk1; sep|done]|done|].
  change (nil s1) with (nil s) in *. change (root s1) with (root s) in *. rewrite (cmd_bind_eq _ _ _ _ _ Hrun2).
  assert (Hx2 : nodes s2 !! e_addr x = nodes s1 !! e_addr x) by (apply Hk2; sep).
  unfold s1 in Hx2. cbn [nodes with_nodes] in Hx2. rewrite lookup_insert_eq in Hx2. rewrite (rd_bind _ _ _ _ _ Hx2).
  assert (Hy2 : nodes s2 !! e_addr y = nodes s !! e_addr y) by (rewrite Hk2 by sep; by apply Hk1). rewrite Hy in Hy2.
  rewrite (wr_bind _ _ _ _ _ Hy2). cbn [parent set_parent]. set (s3 := with_nodes _ s2).
  assert (Hk3 : forall z, z <> e_addr y -> nodes s3 !! z = nodes s2 !! z) by (intros; by apply lookup_insert_ne).
  rewrite (rd_bind _ _ _ s3 _ (eq_trans (Hk3 _ Hxy) Hx2)). cbn [parent].
  assert (Hn3 : nil s3 = nil s) by done.
  destruct (replace_child_run s3 C (e_addr x) (e_addr y)) as (s4 & Hrun4 & Hn4 & HC4 & Hr4 & Hk4).
  { rewrite Hn3. apply (repc_ext _ (nodes s)); [|done]. intros z Hz. rewrite Hk3, Hk2, Hk1 by sep. done. }
  { rewrite Hn3. apply NoDup_cons; split; [rewrite not_elem_of_cons; tauto|]. by apply NoDup_cons. }
  rewrite Hn3 in *. rewrite (cmd_bind_eq _ _ _ _ _ Hrun4).
  assert (Hy4 : nodes s4 !! e_addr y = nodes s3 !! e_addr y) by (apply Hk4; sep).
  unfold s3 in Hy4. cbn [nodes with_nodes] in Hy4. rewrite lookup_insert_eq in Hy4. rewrite (wr_bind _ _ _ _ _ Hy4).
  cbn [set_right set_parent]. set (s5 := with_nodes _ s4).
  assert (Hk5 : forall z, z <> e_addr y -> nodes s5 !! z = nodes s4 !! z) by (intros; by apply lookup_insert_ne).
  assert (Hx5 : nodes s5 !! e_addr x = nodes s2 !! e_addr x) by (rewrite Hk5, Hk4, Hk3 by sep; done). rewrite Hx2 in Hx5.
  rewrite (wr_run _ _ _ _ Hx5). cbn [set_left set_parent]. set (s6 := with_nodes _ s5).
  assert (Hk6 : forall z, z <> e_addr x -> nodes s6 !! z = nodes s5 !! z) by (intros; by apply lookup_insert_ne).
  assert (Hout : forall z, z <> e_addr x -> z <> e_addr y -> z ∉ addrs b -> z ∉ caddrs C -> nodes s6 !! z = nodes s !! z).
  { intros. by rewrite Hk6, Hk5, Hk4, Hk3, Hk2, Hk1. }
  assert (Hn6 : nil s6 = nil s) by (by rewrite <- Hn4).
  exists s6. split; [done|]. split; [apply holds_plug; rewrite Hn6; cbn [rep ptr]|]; [split; [|split; [|split; [|split]]]|].
  - split; [rewrite Hk6 by done; apply lookup_insert_eq|]. split; [|].
    + apply (rep_ext _ (nodes s)); [|done]. intros z Hz. apply Hout; sep.
    + split; [apply lookup_insert_eq|]. split.
      * apply (rep_ext _ (nodes s2)); [|done]. intros z Hz. rewrite Hk6, Hk5, Hk4, Hk3 by sep. done.
      * apply (rep_ext _ (nodes s)); [|done]. intros z Hz. apply Hout; sep.
  - apply (repc_ext _ (nodes s4)); [|done]. intros z Hz. rewrite Hk6, Hk5 by sep. done.
  - change (root s6) with (root s4). rewrite Hr4. destruct C as [|f C]; [done|].
    change (root s3) with (root s2). rewrite Hr2, Hroot. apply ptr_plug. by left.
  - destruct Hnil as (n & Hn & Hcol). exists n. split; [|done]. rewrite Hout by sep. done.
  - rewrite !addrs_node. apply (NoDup_perm _ _ Hd). solve_Permutation.
  - split; [done|]. intros z Hz. rewrite addrs_plug, !addrs_node in Hz. apply Hout; set_solver.
Qed.

(** ** Steps that keep the entries in order *)

Definition evolves (s : rbtree) (T : tree) (s' : rbtree) (T' : tree) : Prop :=
  holds s' T' /\ inorder T' = inorder T /\ same_outside T s s'.

Lemma evolves_refl s T : holds s T -> evolves s T s T.
Proof. intros H. split; [done|]. split; [done|]. by split. Qed.

Lemma evolves_trans s T s1 T1 s2 T2 : evolves s T s1 T1 -> evolves s1 T1 s2 T2 -> evolves s T s2 T2.
Proof.
  intros (H1 & E1 & N1 & O1) (H2 & E2 & N2 & O2). split; [done|]. split; [congruence|]. split; [congruence|].
  intros a Ha. rewrite O2, O1; [done|done|]. unfold addrs in *. by rewrite E1.
Qed.

Lemma left_rotate_evolves s C cx a x cy b y c : holds s (plug C (Node cx a x (Node cy b y c))) ->
  exists s', rbtree_left_rotate (e_addr x) s = Ret (s', tt) /\
    evolves s (plug C (Node cx a x (Node cy b y c))) s' (plug C (Node cy (Node cx a x b) y c)).
Proof.
  intros H. destruct (left_rotate_run s C cx a x cy b y c H) as (s' & Hrun & H' & Hout). exists s'. split; [done|].
  split; [done|]. split; [|done]. rewrite !inorder_plug. cbn [inorder]. by simplify_list_eq.
Qed.

Lemma right_rotate_evolves s C cx a x cy b y c : holds s (plug C (Node cx (Node cy c y b) x a)) ->
  exists s', rbtree_right_rotate (e_addr x) s = Ret (s', tt) /\
    evolves s (plug C (Node cx (Node cy c y b) x a)) s' (plug C (Node cy c y (Node cx b x a))).
Proof.
  intros H. destruct (right_rotate_run s C cx a x cy b y c H) as (s' & Hrun & H' & Hout). exists s'. split; [done|].
  split; [done|]. split; [|done]. rewrite !inorder_plug. cbn [inorder]. by simplify_list_eq.
Qed.

Lemma holds_apart s C c l e r : holds s (plug C (Node c l e r)) ->
  e_addr e <> nil s /\ e_addr e ∉ addrs l /\ e_addr e ∉ addrs r /\ e_addr e ∉ caddrs C /\
  nil s ∉ addrs l /\ nil s ∉ addrs r /\ nil s ∉ caddrs C /\
  (forall z, z ∈ addrs l -> z ∉ addrs r /\ z ∉ caddrs C) /\ (forall z, z ∈ addrs r -> z ∉ caddrs C).
Proof.
  intros (_ & _ & _ & _ & Hd)%holds_plug. rewrite addrs_node in Hd.
  assert (Hp : NoDup (nil s :: e_addr e :: addrs l ++ addrs r ++ caddrs C)) by (apply (NoDup_perm _ _ Hd); solve_Permutation).
  clear Hd. rewrite !NoDup_cons, !NoDup_app, !not_elem_of_cons, !not_elem_of_app in Hp.
  destruct_and! Hp. repeat match goal with H : forall x, x ∈ _ -> _ |- _ => setoid_rewrite not_elem_of_app in H end.
  repeat split; try done; naive_solver.
Qed.

Definition recolor (c : RBTColor) (t : tree) : tree :=
  match t with Leaf => Leaf | Node _ l e r => Node c l e r end.

Lemma recolor_run s C c c' l e r : holds s (plug C (Node c l e r)) ->
  exists s', (forall B (k : unit -> R B), (wr (e_addr e) (set_color c') ≫= k) s = k tt s') /\
    evolves s (plug C (Node c l e r)) s' (plug C (Node c' l e r)).
Proof.
  intros H. pose proof (holds_node _ _ _ _ _ _ H) as He.
  pose proof (holds_apart _ _ _ _ _ _ H) as (Hn & Hl & Hr & HC & _).
  pose proof H as (Ht & HC' & Hroot & Hnil & Hd)%holds_plug. cbn [rep ptr] in Ht, HC'. destruct Ht as (_ & Hrl & Hrr).
  exists (with_nodes (<[e_addr e := set_color c' (mkNode (e_key e) (e_data e) c (top (nil s) C) (ptr (nil s) l) (ptr (nil s) r))]>) s).
  split; [intros B k; by apply wr_bind|]. split; [|split; [by rewrite !inorder_plug|]].
  - apply holds_plug. cbn [rep ptr nil nodes root with_nodes]. split; [|split; [|split; [|split]]].
    + split; [apply lookup_insert_eq|]. split; (eapply rep_ext; [|done]); intros z Hz; apply lookup_insert_ne; sep.
    + eapply repc_ext; [|exact HC']. intros z Hz. apply lookup_insert_ne; sep.
    + rewrite Hroot. apply ptr_plug. by right.
    + destruct Hnil as (n & E & Hc). exists n. split; [|done]. by rewrite lookup_insert_ne.
    + by rewrite addrs_node in *.
  - split; [done|]. intros z Hz. rewrite addrs_plug, addrs_node in Hz. apply lookup_insert_ne. set_solver.
Qed.

(** A frame of the context, whatever its side. *)
Lemma recolor_frame s C b c c' e t u : holds s (plug (mkFrame b c e u :: C) t) ->
  exists s', (forall B (k : unit -> R B), (wr (e_addr e) (set_color c') ≫= k) s = k tt s') /\
    evolves s (plug (mkFrame b c e u :: C) t) s' (plug (mkFrame b c' e u :: C) t).
Proof. cbn [plug plug1 hole_left f_color f_entry sibling]. destruct b; apply recolor_run. Qed.

Lemma sibling_focus C b c e u t : plug (mkFrame b c e u :: C) t = plug (mkFrame (negb b) c e t :: C) u.
Proof. by destruct b. Qed.

Lemma recolor_sibling s C b c e cu c' l d r t : holds s (plug (mkFrame b c e (Node cu l d r) :: C) t) ->
  exists s', (forall B (k : unit -> R B), (wr (e_addr d) (set_color c') ≫= k) s = k tt s') /\
    evolves s (plug (mkFrame b c e (Node cu l d r) :: C) t) s' (plug (mkFrame b c e (Node c' l d r) :: C) t).
Proof. rewrite (sibling_focus C b c e (Node c' l d r)), sibling_focus. apply recolor_run. Qed.

(** Reading the tree. *)
Definition rcolor (t : tree) : RBTColor := match t with Leaf => RB_BLACK | Node c _ _ _ => c end.

Lemma color_bind {B} s C t (k : RBTColor -> R B) : holds s (plug C t) -> (rd (ptr (nil s) t) color ≫= k) s = k (rcolor t) s.
Proof.
  intros H. destruct t as [|c l e r]; cbn [ptr rcolor].
  - destruct (h_nil _ _ H) as (n & Hn & <-). by apply rd_bind.
  - by rewrite (rd_bind _ _ _ _ _ (holds_node _ _ _ _ _ _ H)).
Qed.

Lemma frame_bind {A B} s C b c e u t (f : RBTNode -> A) (k : A -> R B) : holds s (plug (mkFrame b c e u :: C) t) ->
  (rd (e_addr e) f ≫= k) s = k (f (mkNode (e_key e) (e_data e) c (top (nil s) C)
    (if b then ptr (nil s) t else ptr (nil s) u) (if b then ptr (nil s) u else ptr (nil s) t))) s.
Proof.
  intros H. cbn [plug] in H. unfold plug1 in H. cbn [hole_left f_color f_entry sibling] in H.
  destruct b; by rewrite (rd_bind _ _ _ _ _ (holds_node _ _ _ _ _ _ H)).
Qed.

Lemma node_bind {A B} s C c l e r (f : RBTNode -> A) (k : A -> R B) : holds s (plug C (Node c l e r)) ->
  (rd (e_addr e) f ≫= k) s = k (f (mkNode (e_key e) (e_data e) c (top (nil s) C) (ptr (nil s) l) (ptr (nil s) r))) s.
Proof. intros H. by rewrite (rd_bind _ _ _ _ _ (holds_node _ _ _ _ _ _ H)). Qed.

(** The two sides of a node are different nodes. *)
Lemma sides_differ s C b c e u ct l z r : holds s (plug (mkFrame b c e u :: C) (Node ct l z r)) ->
  e_addr z <> ptr (nil s) u.
Proof.
  intros H. cbn [plug] in H. unfold plug1 in H. cbn [hole_left f_color f_entry sibling] in H.
  assert (Hu : ptr (nil s) u = nil s \/ ptr (nil s) u ∈ addrs u).
  { destruct u as [|? ? ? ?]; [by left|]. right. rewrite addrs_node. set_solver. }
  destruct b; pose proof (holds_apart _ _ _ _ _ _ H) as (_ & _ & _ & _ & Hnl & Hnr & _ & Hlr & _);
    rewrite !addrs_node in *; intros E; rewrite <- E in Hu; set_solver.
Qed.
