(* ===== verification/RBTreeFacts.v ===== *)
(** * Red-black trees: balance, insertion, search and deletion

    The invariant of a red-black tree and of a tree with a hole, and the
    correctness of the operations of RBTree.v against the list of entries in
    order. *)
From Stdlib Require Import Sorting.Sorted.
From S2P Require Import Prelude RBTree.

(** ** Balance *)

(** Every path has [n] black nodes, and no red node has a red child. *)
Inductive rbt : RBTColor -> nat -> tree -> Prop :=
| rbt_leaf : rbt RB_BLACK 0 Leaf
| rbt_red n l e r : rbt RB_BLACK n l -> rbt RB_BLACK n r -> rbt RB_RED n (Node RB_RED l e r)
| rbt_black n cl cr l e r : rbt cl n l -> rbt cr n r -> rbt RB_BLACK (S n) (Node RB_BLACK l e r).

Definition top_color (C : context) : RBTColor := match C with [] => RB_BLACK | f :: _ => f_color f end.

(** A context whose hole waits for a black tree of black height [n]. *)
Inductive cxt : nat -> context -> Prop :=
| cxt_top n : cxt n []
| cxt_red n b e u C : rbt RB_BLACK n u -> C <> [] -> top_color C = RB_BLACK -> cxt n C ->
    cxt n (mkFrame b RB_RED e u :: C)
| cxt_black n b e c u C : rbt c n u -> cxt (S n) C -> cxt n (mkFrame b RB_BLACK e u :: C).

Lemma rbt_color c n t : rbt c n t -> rcolor t = c.
Proof. by destruct 1. Qed.

Lemma plug_rbt n C : cxt n C -> forall c t, rbt c n t -> c = RB_BLACK \/ top_color C = RB_BLACK ->
  exists c' m, rbt c' m (plug C t) /\ (C <> [] \/ c = RB_BLACK -> c' = RB_BLACK).
Proof.
  induction 1 as [n|n b e u C Hu Hne Htop HC IH|n b e cu u C Hu HC IH]; intros c t Ht Hc; cbn [plug].
  - exists c, n. split; [done|]. by intros [?|?].
  - destruct Hc as [->|?]; [|done]. destruct (IH RB_RED (plug1 (mkFrame b RB_RED e u) t)) as (c' & m & Hp & Hb).
    + unfold plug1. cbn. destruct b; by constructor.
    + by right.
    + exists c', m. split; [done|]. intros _. apply Hb. by left.
  - destruct (IH RB_BLACK (plug1 (mkFrame b RB_BLACK e u) t)) as (c' & m & Hp & Hb).
    + unfold plug1. cbn. destruct b; by econstructor.
    + by left.
    + exists c', m. split; [done|]. intros _. apply Hb. by right.
Qed.

Lemma unplug_rbt C : forall n t, rbt RB_BLACK n (plug C t) ->
  exists c m, rbt c m t /\ cxt m C /\ (c = RB_BLACK \/ top_color C = RB_BLACK) /\ (C = [] -> c = RB_BLACK).
Proof.
  induction C as [|[b c e u] C IH]; intros n t H; cbn [plug] in H.
  - exists RB_BLACK, n. split; [done|]. split; [constructor|]. split; [by left|done].
  - destruct (IH _ _ H) as (c1 & m & Ht & HC & Hc & Hnil). unfold plug1 in Ht. cbn in Ht. cbn [top_color f_color].
    assert (Hsplit : (c = RB_RED /\ c1 = RB_RED /\ rbt RB_BLACK m t /\ rbt RB_BLACK m u) \/
      exists m' ct cu, m = S m' /\ c = RB_BLACK /\ rbt ct m' t /\ rbt cu m' u).
    { destruct b; inversion Ht; subst; [by left|right; by eexists _, _, _|by left|right; by eexists _, _, _]. }
    destruct Hsplit as [(-> & -> & Ht' & Hu)|(m' & ct & cu & -> & -> & Ht' & Hu)].
    + exists RB_BLACK, m. split; [done|]. split; [|split; [by left|done]].
      constructor; [done|by intros ->; specialize (Hnil eq_refl)|by destruct Hc|done].
    + exists ct, m'. split; [done|]. split; [by econstructor|]. split; [by right|done].
Qed.

(** ** Repair after an insertion *)

Lemma grandparent_bind {B} s C b cp p u c l z r (k : Z -> R B) : holds s (plug (mkFrame b cp p u :: C) (Node c l z r)) ->
  (grandparent (e_addr z) ≫= k) s = k (top (nil s) C) s.
Proof.
  intros H. apply cmd_bind_eq. unfold grandparent. rewrite (node_bind s (mkFrame b cp p u :: C) c l z r) by done.
  cbn [parent top f_entry]. unfold rd. cbn [plug] in H. unfold plug1 in H. cbn [hole_left f_color f_entry sibling] in H.
  rewrite gets_bind. destruct b; by rewrite (holds_node _ _ _ _ _ _ H).
Qed.

(** The red-red pair lies on the outside: recolor and rotate once. *)
Lemma repair_left {B} s C l z r p u g v (k : R B) :
  holds s (plug C (Node RB_BLACK (Node RB_RED (Node RB_RED l z r) p u) g v)) ->
  exists s', (p ← rd (e_addr z) parent; wr p (set_color RB_BLACK);; g ← grandparent (e_addr z); wr g (set_color RB_RED);;
      g ← grandparent (e_addr z); rbtree_right_rotate g;; k) s = k s' /\
    evolves s (plug C (Node RB_BLACK (Node RB_RED (Node RB_RED l z r) p u) g v))
      s' (plug C (Node RB_BLACK (Node RB_RED l z r) p (Node RB_RED u g v))).
Proof.
  intros H. change (holds s (plug (mkFrame true RB_RED p u :: mkFrame true RB_BLACK g v :: C) (Node RB_RED l z r))) in H.
  rewrite (node_bind s (mkFrame true RB_RED p u :: mkFrame true RB_BLACK g v :: C) RB_RED l z r) by done. cbn [parent top f_entry].
  destruct (recolor_frame s (mkFrame true RB_BLACK g v :: C) true RB_RED RB_BLACK p _ u H) as (s1 & Hr1 & He1). rewrite Hr1.
  rewrite (grandparent_bind _ _ _ _ _ _ _ _ _ _ _ (proj1 He1)). cbn [top f_entry].
  destruct (recolor_frame s1 C true RB_BLACK RB_RED g (Node RB_BLACK (Node RB_RED l z r) p u) v (proj1 He1)) as (s2 & Hr2 & He2).
  rewrite Hr2. rewrite (grandparent_bind s2 (mkFrame true RB_RED g v :: C) true RB_BLACK p u RB_RED l z r) by apply He2. cbn [top f_entry].
  destruct (right_rotate_evolves s2 C RB_RED v g RB_BLACK u p (Node RB_RED l z r) (proj1 He2)) as (s3 & Hr3 & He3).
  rewrite (cmd_bind_eq _ _ _ _ _ Hr3). exists s3. split; [done|].
  eapply evolves_trans; [exact He1|]. by eapply evolves_trans; [exact He2|].
Qed.

Lemma repair_right {B} s C l z r p u g v (k : R B) :
  holds s (plug C (Node RB_BLACK v g (Node RB_RED u p (Node RB_RED l z r)))) ->
  exists s', (p ← rd (e_addr z) parent; wr p (set_color RB_BLACK);; g ← grandparent (e_addr z); wr g (set_color RB_RED);;
      g ← grandparent (e_addr z); rbtree_left_rotate g;; k) s = k s' /\
    evolves s (plug C (Node RB_BLACK v g (Node RB_RED u p (Node RB_RED l z r))))
      s' (plug C (Node RB_BLACK (Node RB_RED v g u) p (Node RB_RED l z r))).
Proof.
  intros H. change (holds s (plug (mkFrame false RB_RED p u :: mkFrame false RB_BLACK g v :: C) (Node RB_RED l z r))) in H.
  rewrite (node_bind s (mkFrame false RB_RED p u :: mkFrame false RB_BLACK g v :: C) RB_RED l z r) by done. cbn [parent top f_entry].
  destruct (recolor_frame s (mkFrame false RB_BLACK g v :: C) false RB_RED RB_BLACK p _ u H) as (s1 & Hr1 & He1). rewrite Hr1.
  rewrite (grandparent_bind _ _ _ _ _ _ _ _ _ _ _ (proj1 He1)). cbn [top f_entry].
  destruct (recolor_frame s1 C false RB_BLACK RB_RED g (Node RB_BLACK u p (Node RB_RED l z r)) v (proj1 He1)) as (s2 & Hr2 & He2).
  rewrite Hr2. rewrite (grandparent_bind s2 (mkFrame false RB_RED g v :: C) false RB_BLACK p u RB_RED l z r) by apply He2. cbn [top f_entry].
  destruct (left_rotate_evolves s2 C RB_RED v g RB_BLACK u p (Node RB_RED l z r) (proj1 He2)) as (s3 & Hr3 & He3).
  rewrite (cmd_bind_eq _ _ _ _ _ Hr3). exists s3. split; [done|].
  eapply evolves_trans; [exact He1|]. by eapply evolves_trans; [exact He2|].
Qed.

(** The uncle is red: the colors of two levels are exchanged. *)
Lemma flip_colors {B} s C b2 g vl v vr b p u t (k : R B) :
  holds s (plug (mkFrame b RB_RED p u :: mkFrame b2 RB_BLACK g (Node RB_RED vl v vr) :: C) t) ->
  exists s', (wr (e_addr p) (set_color RB_BLACK);; wr (e_addr v) (set_color RB_BLACK);; wr (e_addr g) (set_color RB_RED);; k) s = k s' /\
    evolves s (plug (mkFrame b RB_RED p u :: mkFrame b2 RB_BLACK g (Node RB_RED vl v vr) :: C) t)
      s' (plug (mkFrame b RB_BLACK p u :: mkFrame b2 RB_RED g (Node RB_BLACK vl v vr) :: C) t).
Proof.
  intros H. destruct (recolor_frame _ _ _ _ RB_BLACK _ _ _ H) as (s1 & Hr1 & He1). rewrite Hr1.
  destruct (recolor_sibling s1 C b2 RB_BLACK g RB_RED RB_BLACK vl v vr _ (proj1 He1)) as (s2 & Hr2 & He2). rewrite Hr2.
  destruct (recolor_frame s2 C b2 RB_BLACK RB_RED g _ _ (proj1 He2)) as (s3 & Hr3 & He3). rewrite Hr3.
  exists s3. split; [done|]. eapply evolves_trans; [exact He1|]. by eapply evolves_trans; [exact He2|].
Qed.

(** What the loop achieves from a red node [z] whose parent may be red too. *)
Definition insert_ok (fuel : nat) : Prop := forall s C l z r n, holds s (plug C (Node RB_RED l z r)) ->
  rbt RB_BLACK n l -> rbt RB_BLACK n r -> cxt n C -> (length C < fuel)%nat ->
  exists s' T', insert_fixup_loop fuel (e_addr z) s = Ret (s', tt) /\ evolves s (plug C (Node RB_RED l z r)) s' T' /\ exists c m, rbt c m T'.

Lemma insert_flip fuel s C b2 g vl v vr b p u t n : insert_ok fuel ->
  let T := plug (mkFrame b RB_RED p u :: mkFrame b2 RB_BLACK g (Node RB_RED vl v vr) :: C) t in
  holds s T -> rbt RB_RED n t -> rbt RB_BLACK n u -> rbt RB_RED n (Node RB_RED vl v vr) -> cxt (S n) C -> (length C < fuel)%nat ->
  exists s' T', (wr (e_addr p) (set_color RB_BLACK);; wr (e_addr v) (set_color RB_BLACK);; wr (e_addr g) (set_color RB_RED);;
     insert_fixup_loop fuel (e_addr g)) s = Ret (s', tt) /\ evolves s T s' T' /\ exists c m, rbt c m T'.
Proof.
  intros IH T H Ht Hu Hv HC Hfuel.
  destruct (flip_colors s C b2 g vl v vr b p u t (insert_fixup_loop fuel (e_addr g)) H) as (s1 & Hrun & He). rewrite Hrun.
  assert (Hv' : rbt RB_BLACK (S n) (Node RB_BLACK vl v vr)) by (inversion Hv; subst; by econstructor).
  assert (Hp' : rbt RB_BLACK (S n) (plug1 (mkFrame b RB_BLACK p u) t)) by (unfold plug1; cbn; destruct b; by econstructor).
  pose proof (proj1 He) as Hh.
  assert (HIH : exists s' T', insert_fixup_loop fuel (e_addr g) s1 = Ret (s', tt) /\ evolves s1 (plug (mkFrame b RB_BLACK p u :: mkFrame b2 RB_RED g (Node RB_BLACK vl v vr) :: C) t) s' T' /\ exists c m, rbt c m T').
  { cbn [plug] in *. unfold plug1 at 1 in Hh. unfold plug1 at 1. cbn [hole_left f_color f_entry sibling] in *.
    destruct b2; by apply (IH s1 C _ g _ (S n)). }
  destruct HIH as (s' & T' & Hr' & He' & Hrb). exists s', T'. split; [done|]. split; [|done]. by eapply evolves_trans.
Qed.

(** After a repair the parent is black and the loop ends. *)
Lemma insert_loop_black fuel s C b p u c l z r n : (0 < fuel)%nat ->
  let T := plug (mkFrame b RB_BLACK p u :: C) (Node c l z r) in holds s T ->
  rbt c n (Node c l z r) -> cxt n (mkFrame b RB_BLACK p u :: C) ->
  insert_fixup_loop fuel (e_addr z) s = Ret (s, tt) /\ exists c m, rbt c m T.
Proof.
  intros Hfuel T H Ht HC. destruct fuel as [|fuel]; [lia|]. cbn [insert_fixup_loop].
  rewrite (node_bind s (mkFrame b RB_BLACK p u :: C) c l z r) by done. cbn [parent top f_entry].
  rewrite (frame_bind s C b RB_BLACK p u _ color _ H). cbn [color]. rewrite decide_True by done.
  split; [done|]. destruct (plug_rbt _ _ HC c _ Ht) as (c' & m & Hp & _); [by right|]. by exists c', m.
Qed.

(** One round with a black uncle, the grandparent's left child being the parent. *)
Lemma insert_repair_left fuel s C b p u g v l z r n : (0 < fuel)%nat ->
  let t := Node RB_RED l z r in
  let T := plug (mkFrame b RB_RED p u :: mkFrame true RB_BLACK g v :: C) t in holds s T ->
  rbt RB_BLACK n l -> rbt RB_BLACK n r -> rbt RB_BLACK n u -> rbt RB_BLACK n v -> cxt (S n) C ->
  exists s' T', (pr ← rd (e_addr p) right;
      z ← (if decide (e_addr z = pr) then rbtree_left_rotate (e_addr p);; mret (e_addr p) else mret (e_addr z));
      p ← rd z parent; wr p (set_color RB_BLACK);; g ← grandparent z; wr g (set_color RB_RED);;
      g ← grandparent z; rbtree_right_rotate g;; insert_fixup_loop fuel z) s = Ret (s', tt) /\
    evolves s T s' T' /\ exists c m, rbt c m T'.
Proof.
  intros Hfuel t T H Hl Hr Hu Hv HC. rewrite (frame_bind s _ b RB_RED p u _ right _ H). cbn [right].
  assert (Hfinish : forall s1 l' z' r' p' u', holds s1 (plug (mkFrame true RB_RED p' u' :: mkFrame true RB_BLACK g v :: C) (Node RB_RED l' z' r')) ->
    rbt RB_BLACK n l' -> rbt RB_BLACK n r' -> rbt RB_BLACK n u' ->
    exists s' T', (p ← rd (e_addr z') parent; wr p (set_color RB_BLACK);; g ← grandparent (e_addr z'); wr g (set_color RB_RED);;
      g ← grandparent (e_addr z'); rbtree_right_rotate g;; insert_fixup_loop fuel (e_addr z')) s1 = Ret (s', tt) /\
      evolves s1 (plug (mkFrame true RB_RED p' u' :: mkFrame true RB_BLACK g v :: C) (Node RB_RED l' z' r')) s' T' /\ exists c m, rbt c m T').
  { intros s1 l' z' r' p' u' H1 Hl' Hr' Hu'.
    destruct (repair_left s1 C l' z' r' p' u' g v (insert_fixup_loop fuel (e_addr z')) H1) as (s2 & Hrun & He). rewrite Hrun.
    destruct (insert_loop_black fuel s2 C true p' (Node RB_RED u' g v) RB_RED l' z' r' n Hfuel (proj1 He)) as [Hend Hrb];
      [by constructor|by repeat econstructor|]. by exists s2, (plug C (Node RB_BLACK (Node RB_RED l' z' r') p' (Node RB_RED u' g v))). }
  destruct b.
  - rewrite decide_False by by apply sides_differ in H. rewrite ret_bind. by apply Hfinish.
  - rewrite decide_True by done.
    destruct (left_rotate_evolves s (mkFrame true RB_BLACK g v :: C) RB_RED u p RB_RED l z r H) as (s1 & Hrun & He).
    destruct (Hfinish s1 u p l z r (proj1 He)) as (s2 & T2 & Hrun2 & He2 & Hrb); [done..|].
    exists s2, T2. split; [|split; [by eapply evolves_trans|done]].
    rewrite (cmd_bind_eq _ _ s s1 (e_addr p)); [exact Hrun2|]. by rewrite (cmd_bind_eq _ _ _ _ _ Hrun).
Qed.

Lemma insert_repair_right fuel s C b p u g v l z r n : (0 < fuel)%nat ->
  let t := Node RB_RED l z r in
  let T := plug (mkFrame b RB_RED p u :: mkFrame false RB_BLACK g v :: C) t in holds s T ->
  rbt RB_BLACK n l -> rbt RB_BLACK n r -> rbt RB_BLACK n u -> rbt RB_BLACK n v -> cxt (S n) C ->
  exists s' T', (pl ← rd (e_addr p) left;
      z ← (if decide (e_addr z = pl) then rbtree_right_rotate (e_addr p);; mret (e_addr p) else mret (e_addr z));
      p ← rd z parent; wr p (set_color RB_BLACK);; g ← grandparent z; wr g (set_color RB_RED);;
      g ← grandparent z; rbtree_left_rotate g;; insert_fixup_loop fuel z) s = Ret (s', tt) /\
    evolves s T s' T' /\ exists c m, rbt c m T'.
Proof.
  intros Hfuel t T H Hl Hr Hu Hv HC. rewrite (frame_bind s _ b RB_RED p u _ left _ H). cbn [left].
  assert (Hfinish : forall s1 l' z' r' p' u', holds s1 (plug (mkFrame false RB_RED p' u' :: mkFrame false RB_BLACK g v :: C) (Node RB_RED l' z' r')) ->
    rbt RB_BLACK n l' -> rbt RB_BLACK n r' -> rbt RB_BLACK n u' ->
    exists s' T', (p ← rd (e_addr z') parent; wr p (set_color RB_BLACK);; g ← grandparent (e_addr z'); wr g (set_color RB_RED);;
      g ← grandparent (e_addr z'); rbtree_left_rotate g;; insert_fixup_loop fuel (e_addr z')) s1 = Ret (s', tt) /\
      evolves s1 (plug (mkFrame false RB_RED p' u' :: mkFrame false RB_BLACK g v :: C) (Node RB_RED l' z' r')) s' T' /\ exists c m, rbt c m T').
  { intros s1 l' z' r' p' u' H1 Hl' Hr' Hu'.
    destruct (repair_right s1 C l' z' r' p' u' g v (insert_fixup_loop fuel (e_addr z')) H1) as (s2 & Hrun & He). rewrite Hrun.
    destruct (insert_loop_black fuel s2 C false p' (Node RB_RED v g u') RB_RED l' z' r' n Hfuel (proj1 He)) as [Hend Hrb];
      [by constructor|by repeat econstructor|]. by exists s2, (plug C (Node RB_BLACK (Node RB_RED v g u') p' (Node RB_RED l' z' r'))). }
  destruct b.
  - rewrite decide_True by done.
    destruct (right_rotate_evolves s (mkFrame false RB_BLACK g v :: C) RB_RED u p RB_RED r z l H) as (s1 & Hrun & He).
    destruct (Hfinish s1 r p u z l (proj1 He)) as (s2 & T2 & Hrun2 & He2 & Hrb); [done..|].
    exists s2, T2. split; [|split; [by eapply evolves_trans|done]].
    rewrite (cmd_bind_eq _ _ s s1 (e_addr p)); [exact Hrun2|]. by rewrite (cmd_bind_eq _ _ _ _ _ Hrun).
  - rewrite decide_False by by apply sides_differ in H. rewrite ret_bind. by apply Hfinish.
Qed.

Lemma insert_fixup_loop_run fuel : insert_ok fuel.
Proof.
  induction fuel as [|fuel IH]; intros s C l z r n H Hl Hr HC Hfuel; [lia|].
  assert (Ht : rbt RB_RED n (Node RB_RED l z r)) by by constructor.
  destruct C as [|[b cp p u] C].
  { cbn [insert_fixup_loop]. rewrite (node_bind s [] RB_RED l z r) by done. cbn [parent top].
    destruct (h_nil _ _ H) as (nn & Hn & Hc). rewrite (rd_bind _ _ _ _ _ Hn), Hc.
    rewrite decide_True by done. exists s, (Node RB_RED l z r). split; [done|]. split; [by apply evolves_refl|]. by eexists _, _. }
  destruct cp.
  { destruct (insert_loop_black (S fuel) s C b p u RB_RED l z r n) as [Hrun Hrb]; [lia|done..|].
    exists s, (plug (mkFrame b RB_BLACK p u :: C) (Node RB_RED l z r)). split; [done|]. split; [by apply evolves_refl|done]. }
  inversion HC as [|? ? ? ? ? Hu Hne Htop HC'|]; subst.
  destruct C as [|[b2 cg g v] C]; [done|]. cbn in Htop. subst cg. inversion HC' as [| |? ? ? cv ? ? Hv HC2]; subst.
  cbn [length] in Hfuel. cbn [insert_fixup_loop].
  rewrite (node_bind s _ RB_RED l z r _ _ H). cbn [parent top f_entry].
  rewrite (frame_bind s _ b RB_RED p u _ color _ H). cbn [color]. rewrite decide_False by (intros E; by apply E).
  rewrite (frame_bind s _ b RB_RED p u _ parent _ H). cbn [parent top f_entry].
  assert (Hg : holds s (plug (mkFrame b2 RB_BLACK g v :: C) (plug1 (mkFrame b RB_RED p u) (Node RB_RED l z r)))) by exact H.
  rewrite (frame_bind s C b2 RB_BLACK g v _ left _ Hg). cbn [left]. rewrite ptr_plug1. cbn [f_entry].
  assert (Hside : e_addr p <> ptr (nil s) v) by (destruct b; by apply sides_differ in Hg).
  pose proof Hg as Hvs. rewrite sibling_focus in Hvs.
  destruct b2; [rewrite decide_True by done|rewrite decide_False by done];
    [rewrite (frame_bind s C true RB_BLACK g v _ right _ Hg); cbn [right]|rewrite (frame_bind s C false RB_BLACK g v _ left _ Hg); cbn [left]];
    rewrite (color_bind _ _ _ _ Hvs), (rbt_color _ _ _ Hv).
  - destruct cv; [rewrite decide_False by done|rewrite decide_True by done].
    + by apply (insert_repair_left fuel s C b p u g v l z r n); [lia|..].
    + inversion Hv; subst. by apply (insert_flip fuel s C true g _ _ _ b p u _ n); [done..|lia].
  - destruct cv; [rewrite decide_False by done|rewrite decide_True by done].
    + by apply (insert_repair_right fuel s C b p u g v l z r n); [lia|..].
    + inversion Hv; subst. by apply (insert_flip fuel s C false g _ _ _ b p u _ n); [done..|lia].
Qed.

(** ** Fuel *)

Lemma rep_dom nl h t : forall par, rep nl h par t -> forall a, a ∈ addrs t -> is_Some (h !! a).
Proof.
  induction t as [|c l IHl e r IHr]; intros par H a Ha; [by apply elem_of_nil in Ha|].
  destruct H as (He & Hl & Hr). rewrite addrs_node in Ha. apply elem_of_app in Ha as [Ha|Ha]; [by eapply IHl|].
  apply elem_of_cons in Ha as [->|Ha]; [by eexists|by eapply IHr].
Qed.

Lemma NoDup_dom_length {A} (m : gmap Z A) (l : list Z) : NoDup l -> (forall a, a ∈ l -> is_Some (m !! a)) -> (length l <= size m)%nat.
Proof.
  intros Hl Hm. rewrite <- size_dom. rewrite <- (size_list_to_set (C := gset Z)) by done.
  apply subseteq_size. intros a Ha%elem_of_list_to_set. by apply elem_of_dom, Hm.
Qed.

Lemma holds_size s T : holds s T -> (length (inorder T) <= size (nodes s))%nat.
Proof.
  intros [Hr _ _ Hd]. rewrite <- (length_fmap e_addr). apply NoDup_dom_length; [by apply NoDup_cons in Hd as [_ ?]|].
  by apply (rep_dom _ _ _ _ Hr).
Qed.

Fixpoint height (t : tree) : nat := match t with Leaf => 0 | Node _ l _ r => S (height l `max` height r) end.

Lemma height_inorder t : (height t <= length (inorder t))%nat.
Proof. induction t as [|c l IHl e r IHr]; cbn [height inorder]; [lia|]. rewrite length_app. cbn [length]. lia. Qed.

Lemma context_length C t : (length C + height t <= length (inorder (plug C t)))%nat.
Proof.
  rewrite inorder_plug, !length_app. pose proof (height_inorder t).
  assert (length C <= length (before C) + length (after C))%nat; [|lia].
  induction C as [|[b c e u] C IH]; cbn [length before after hole_left f_entry sibling]; [lia|].
  rewrite !length_app. destruct b; [cbn [length]|rewrite length_app; cbn [length]]; lia.
Qed.

(** ** The order of the keys *)

Definition ordered (T : tree) : Prop := StronglySorted (fun a b => e_key a <= e_key b) (inorder T).

Lemma ordered_split (l1 : list entry) e l2 : StronglySorted (fun a b => e_key a <= e_key b) (l1 ++ e :: l2) ->
  Forall (fun x => e_key x <= e_key e) l1 /\ Forall (fun x => e_key e <= e_key x) l2.
Proof.
  induction l1 as [|x l1 IH]; cbn [app]; intros H; inversion H as [|? ? Hs Hf]; subst; [by split|].
  destruct (IH Hs) as [H1 H2]. split; [|done]. constructor; [|done]. rewrite Forall_app, Forall_cons in Hf. tauto.
Qed.

Lemma ordered_insert (l1 : list entry) e l2 : StronglySorted (fun a b => e_key a <= e_key b) (l1 ++ l2) ->
  Forall (fun x => e_key x <= e_key e) l1 -> Forall (fun x => e_key e <= e_key x) l2 ->
  StronglySorted (fun a b => e_key a <= e_key b) (l1 ++ e :: l2).
Proof.
  induction l1 as [|x l1 IH]; cbn [app]; intros H H1 H2; [by constructor|].
  inversion H as [|? ? Hs Hf]; inversion H1; subst. constructor; [by apply IH|].
  rewrite Forall_app, Forall_cons in *. tauto.
Qed.

(** The hole of the context is the place for the key [k]. *)
Record place (k : Z) (C : context) : Prop := {
  pl_before : Forall (fun x => e_key x <= k) (before C);
  pl_after : Forall (fun x => k < e_key x) (after C);
  pl_side : match C with [] => True | f :: _ => hole_left f = bool_decide (k < e_key (f_entry f)) end
}.

Lemma place_step k C c l e r : ordered (plug C (Node c l e r)) -> place k C ->
  place k (if decide (k < e_key e) then mkFrame true c e r :: C else mkFrame false c e l :: C).
Proof.
  unfold ordered. rewrite inorder_plug. cbn [inorder]. intros Ho [Hb Ha _].
  assert (Ho' : StronglySorted (fun a b => e_key a <= e_key b) ((before C ++ inorder l) ++ e :: inorder r ++ after C)).
  { replace ((before C ++ inorder l) ++ e :: inorder r ++ after C) with (before C ++ (inorder l ++ e :: inorder r) ++ after C);
      [done|]. by simplify_list_eq. }
  apply ordered_split in Ho' as [H1 H2]. rewrite Forall_app in H1, H2. destruct H1 as [_ H1], H2 as [H2 _].
  case_decide as Hk; constructor; cbn [before after hole_left f_entry sibling].
  - by rewrite app_nil_r.
  - constructor; [done|]. apply Forall_app. split; [|done]. eapply Forall_impl; [exact H2|]. cbn. intros. lia.
  - by rewrite bool_decide_eq_true_2.
  - rewrite Forall_app, Forall_app, Forall_singleton. split; [done|]. split; [|lia].
    eapply Forall_impl; [exact H1|]. cbn. intros. lia.
  - done.
  - by rewrite bool_decide_eq_false_2.
Qed.

Lemma descend_run fuel k : forall s C t, holds s (plug C t) -> ordered (plug C t) -> place k C -> (height t < fuel)%nat ->
  exists C', descend fuel k (top (nil s) C) (ptr (nil s) t) s = Ret (s, top (nil s) C') /\
    plug C' Leaf = plug C t /\ place k C'.
Proof.
  induction fuel as [|fuel IH]; intros s C t H Ho Hp Hf; [lia|]. cbn [descend]. rewrite gets_bind.
  destruct t as [|c l e r]; cbn [ptr]; [rewrite decide_True by done; by exists C|].
  rewrite decide_False by apply (holds_apart _ _ _ _ _ _ H).
  rewrite (node_bind s C c l e r _ _ H). cbn [key]. pose proof (place_step k C c l e r Ho Hp) as Hp'. cbn [height] in Hf.
  case_decide; rewrite (node_bind s C c l e r _ _ H); [cbn [left]|cbn [right]].
  - destruct (IH s (mkFrame true c e r :: C) l) as (C' & Hrun & Hpl & Hpk); [done..|lia|]. by exists C'.
  - destruct (IH s (mkFrame false c e l :: C) r) as (C' & Hrun & Hpl & Hpk); [done..|lia|]. by exists C'.
Qed.

(** ** Insertion *)

(** The writes that put the new red node [z] into the hole. *)
Lemma link_run s C z nz : holds s (plug C Leaf) -> place (key nz) C -> nodes s !! z = Some nz ->
  z <> nil s -> z ∉ caddrs C ->
  exists s', (forall B (k : R B), (wr z (set_parent (top (nil s) C));;
      n ← gets nil;
      (if decide (top (nil s) C = n) then modify (set_root z) else
       zk ← rd z key;
       yk ← rd (top (nil s) C) key;
       if decide (zk < yk) then wr (top (nil s) C) (set_left z) else wr (top (nil s) C) (set_right z));;
      wr z (set_left n);; wr z (set_right n);; wr z (set_color RB_RED);; k) s = k s') /\
    holds s' (plug C (Node RB_RED Leaf (mkEntry z (key nz) (data nz)) Leaf)) /\ nil s' = nil s /\
    forall a, a <> z -> a ∉ caddrs C -> nodes s' !! a = nodes s !! a.
Proof.
  intros H Hp Hz Hzn HzC. pose proof H as (_ & HC & Hroot & (nn & Hnn & Hnc) & Hd)%holds_plug. cbn [addrs inorder fmap list_fmap app] in Hd.
  set (s1 := with_nodes (<[z := set_parent (top (nil s) C) nz]>) s).
  assert (Hz1 : nodes s1 !! z = Some (set_parent (top (nil s) C) nz)) by apply lookup_insert_eq.
  assert (Hk1 : forall a, a <> z -> nodes s1 !! a = nodes s !! a) by (intros; by apply lookup_insert_ne).
  assert (Hlink : exists s2, (if decide (top (nil s) C = nil s) then modify (set_root z) else
       zk ← rd z key; yk ← rd (top (nil s) C) key;
       if decide (zk < yk) then wr (top (nil s) C) (set_left z) else wr (top (nil s) C) (set_right z)) s1 = Ret (s2, tt) /\
     nil s2 = nil s /\ repc (nil s) (nodes s2) C z /\ root s2 = ptr (nil s) (plug C (Node RB_RED Leaf (mkEntry z (key nz) (data nz)) Leaf)) /\
     forall a, a ∉ caddrs C -> nodes s2 !! a = nodes s1 !! a).
  { destruct C as [|[b c e u] C]; cbn [top f_entry].
    { rewrite decide_True by done. eexists. split; [reflexivity|]. by repeat split. }
    cbn [repc caddrs ptr f_entry f_color hole_left sibling] in HC, Hd, HzC. destruct HC as (Hf & Hu & HC).
    rewrite !not_elem_of_cons, not_elem_of_app in HzC. destruct HzC as (HzE & HzU & HzC).
    apply NoDup_cons in Hd as [HnE Hd]. apply NoDup_cons in Hd as [HeE Hd].
    rewrite decide_False by set_solver. rewrite (rd_bind _ _ _ _ _ Hz1). cbn [key set_parent].
    assert (Hf1 : nodes s1 !! e_addr e = nodes s !! e_addr e) by (apply Hk1; congruence). rewrite Hf in Hf1.
    rewrite (rd_bind _ _ _ _ _ Hf1). cbn [key]. pose proof (pl_side _ _ Hp) as Hside. cbn [hole_left f_entry] in Hside.
    assert (Hkeep : forall n', rep (nil s) (<[e_addr e := n']> (nodes s1)) (e_addr e) u /\ repc (nil s) (<[e_addr e := n']> (nodes s1)) C (e_addr e)).
    { intros n'. split; [apply (rep_ext _ (nodes s))|apply (repc_ext _ (nodes s))]; try done;
        intros a Ha; rewrite lookup_insert_ne by set_solver; apply Hk1; set_solver. }
    destruct (decide (key nz < e_key e)) as [Hlt|Hge];
      [rewrite bool_decide_eq_true_2 in Hside by done|rewrite bool_decide_eq_false_2 in Hside by done]; subst b;
      rewrite (wr_run _ _ _ _ Hf1); (eexists; split; [reflexivity|]); (split; [done|]); cbn [repc f_entry f_color hole_left sibling];
      (split; [split; [apply lookup_insert_eq|apply Hkeep]|]);
      (split; [cbn [root with_nodes s1]; rewrite Hroot; apply ptr_plug; by left|]);
      intros a Ha; apply lookup_insert_ne; set_solver. }
  destruct Hlink as (s2 & Hrun2 & Hn2 & HC2 & Hr2 & Hk2).
  assert (Hz2 : nodes s2 !! z = Some (set_parent (top (nil s) C) nz)) by (rewrite Hk2 by done; exact Hz1).
  set (fin := <[z := mkNode (key nz) (data nz) RB_RED (top (nil s) C) (nil s) (nil s)]> (nodes s2)).
  exists (mkTree (root s2) (nil s2) fin). split.
  - intros B k. rewrite (wr_bind _ _ _ _ _ Hz). fold s1. rewrite gets_bind. change (nil s1) with (nil s).
    rewrite (cmd_bind_eq _ _ _ _ _ Hrun2). rewrite (wr_bind _ _ _ _ _ Hz2).
    erewrite wr_bind by apply lookup_insert_eq. erewrite wr_bind by apply lookup_insert_eq.
    unfold with_nodes. cbn [root nil nodes]. rewrite !insert_insert_eq. reflexivity.
  - assert (Hkf : forall a, a <> z -> fin !! a = nodes s2 !! a) by (intros; by apply lookup_insert_ne).
    split; [|split; [done|]].
    + apply holds_plug. cbn [nil nodes root]. rewrite Hn2. split; [|split; [|split; [|split]]].
      * cbn [rep e_addr e_key e_data ptr]. split; [apply lookup_insert_eq|done].
      * cbn [ptr e_addr]. apply (repc_ext _ (nodes s2)); [|done]. intros a Ha. apply Hkf. intros ->. done.
      * exact Hr2.
      * exists nn. split; [|done]. rewrite Hkf, Hk2, Hk1; [done|congruence|by apply NoDup_cons in Hd as [? _]|congruence].
      * cbn [addrs inorder fmap list_fmap app e_addr]. apply NoDup_cons in Hd as [Hn1 Hd]. apply NoDup_cons.
        split; [rewrite not_elem_of_cons; split; [congruence|done]|]. by apply NoDup_cons.
    + intros a Ha HaC. cbn [nodes]. by rewrite Hkf, Hk2, Hk1.
Qed.

Lemma blacken_root s T c m : holds s T -> rbt c m T -> T <> Leaf ->
  exists s' T' m', (r ← gets root; wr r (set_color RB_BLACK)) s = Ret (s', tt) /\ evolves s T s' T' /\ rbt RB_BLACK m' T'.
Proof.
  intros H Hr Hne. destruct T as [|c' l e r]; [done|]. rewrite gets_bind, (h_root _ _ H). cbn [ptr].
  destruct (recolor_run s [] c' RB_BLACK l e r H) as (s' & Hrun & He). exists s', (Node RB_BLACK l e r).
  specialize (Hrun unit mret). assert (Hw : wr (e_addr e) (set_color RB_BLACK) s = Ret (s', tt)).
  { pose proof (holds_node s [] _ _ _ _ H) as Hn. rewrite (wr_run _ _ _ _ Hn). rewrite (wr_bind _ _ _ _ _ Hn) in Hrun. exact Hrun. }
  inversion Hr; subst; eexists; (split; [exact Hw|]); (split; [done|]); by econstructor.
Qed.

(** C21. Insertion. The new node enters the tree behind every key that is not
    greater and before every greater one, in the list of entries in order; the
    tree is again a red-black tree with a black root, and no node outside the
    tree but the new one changes. The search and the repair terminate. *)
Theorem rbtree_insert_correct s T m z nz : holds s T -> rbt RB_BLACK m T -> ordered T ->
  nodes s !! z = Some nz -> z ∉ addrs T -> z <> nil s ->
  exists s' T' l1 l2, rbtree_insert z s = Ret (s', tt) /\ holds s' T' /\ (exists m', rbt RB_BLACK m' T') /\ ordered T' /\
    inorder T = l1 ++ l2 /\ inorder T' = l1 ++ mkEntry z (key nz) (data nz) :: l2 /\
    Forall (fun x => e_key x <= key nz) l1 /\ Forall (fun x => key nz < e_key x) l2 /\
    nil s' = nil s /\ forall a, a <> z -> a ∉ addrs T -> nodes s' !! a = nodes s !! a.
Proof.
  intros H Hrb Ho Hz HzT Hzn. unfold rbtree_insert, tree_fuel. rewrite !gets_bind, (rd_bind _ _ _ _ _ Hz), (h_root _ _ H).
  pose proof (holds_size _ _ H) as Hsize. pose proof (height_inorder T).
  destruct (descend_run (S (size (nodes s))) (key nz) s [] T) as (C & Hrun & Hpl & Hp); [done..|by constructor|lia|].
  cbn [top plug] in Hrun, Hpl. rewrite (cmd_bind_eq _ _ _ _ _ Hrun). subst T.
  assert (HzC : z ∉ caddrs C) by (intros Hin; apply HzT; rewrite addrs_plug; set_solver).
  destruct (link_run s C z nz H Hp Hz Hzn HzC) as (s1 & Hlink & H1 & Hn1 & Hk1). rewrite Hlink.
  set (e := mkEntry z (key nz) (data nz)) in *.
  destruct (unplug_rbt C m Leaf Hrb) as (c & n & Hleaf & HC & _). inversion Hleaf; subst.
  unfold rbtree_insert_fixup, tree_fuel. rewrite gets_bind.
  pose proof (context_length C (Node RB_RED Leaf e Leaf)) as Hlen. pose proof (holds_size _ _ H1) as Hsize1.
  destruct (insert_fixup_loop_run (S (size (nodes s1))) s1 C Leaf e Leaf 0%nat) as (s2 & T2 & Hrun2 & He2 & c2 & m2 & Hrb2);
    [done|constructor|constructor|done|lia|]. cbn [e_addr e] in Hrun2. rewrite (cmd_bind_eq _ _ _ _ _ Hrun2).
  assert (Hin2 : inorder T2 = before C ++ e :: after C) by (rewrite (proj1 (proj2 He2)), inorder_plug; done).
  destruct (blacken_root s2 T2 c2 m2 (proj1 He2) Hrb2) as (s3 & T3 & m3 & Hrun3 & He3 & Hrb3).
  { intros ->. cbn in Hin2. by destruct (before C). }
  pose proof (evolves_trans _ _ _ _ _ _ He2 He3) as (H3 & Hin3 & Hn3 & Hk3). rewrite inorder_plug in Hin3. cbn [inorder app] in Hin3.
  exists s3, T3, (before C), (after C). split; [done|]. split; [done|]. split; [by exists m3|].
  unfold ordered in *. rewrite inorder_plug in Ho. cbn [inorder app] in Ho. split.
  { rewrite Hin3. apply ordered_insert; [done|apply Hp|]. eapply Forall_impl; [apply Hp|]. cbn. intros. lia. }
  split; [by rewrite inorder_plug|]. split; [done|]. split; [apply Hp|]. split; [apply Hp|]. split; [congruence|].
  intros a Ha HaT. rewrite addrs_plug in HaT. rewrite Hk3, Hk1; [done|done|set_solver|].
  rewrite addrs_plug. cbn [addrs inorder fmap list_fmap app e_addr e]. set_solver.
Qed.

(** A tree of three nodes, and a fourth node outside it. *)
Definition sample_tree : tree :=
  Node RB_BLACK (Node RB_RED Leaf (mkEntry 12 5 50) Leaf) (mkEntry 16 10 100) (Node RB_RED Leaf (mkEntry 20 20 200) Leaf).
Definition sample : rbtree := mkTree 16 1 (list_to_map [(1, mkNode 0 0 RB_BLACK 0 0 0);
  (12, mkNode 5 50 RB_RED 16 1 1); (16, mkNode 10 100 RB_BLACK 1 12 20); (20, mkNode 20 200 RB_RED 16 1 1);
  (24, mkNode 7 70 RB_BLACK 0 0 0)]).

Lemma sample_holds : holds sample sample_tree.
Proof.
  constructor; [by repeat split|done|by eexists|]. vm_compute. repeat constructor; set_solver.
Qed.
Lemma sample_rbt : rbt RB_BLACK 1 sample_tree.
Proof. repeat econstructor. Qed.
Lemma sample_ordered : ordered sample_tree.
Proof. unfold ordered. cbn. repeat (constructor; try (cbn; lia)). Qed.

Lemma rbtree_insert_correct_witness : exists s' T' l1 l2, rbtree_insert 24 sample = Ret (s', tt) /\ holds s' T' /\
  (exists m', rbt RB_BLACK m' T') /\ ordered T' /\ inorder sample_tree = l1 ++ l2 /\ inorder T' = l1 ++ mkEntry 24 7 70 :: l2.
Proof.
  destruct (rbtree_insert_correct sample sample_tree 1 24 (mkNode 7 70 RB_BLACK 0 0 0)) as (s' & T' & l1 & l2 & ? & ? & ? & ? & ? & ? & _).
  - exact sample_holds.
  - exact sample_rbt.
  - exact sample_ordered.
  - reflexivity.
  - vm_compute. set_solver.
  - discriminate.
  - by exists s', T', l1, l2.
Defined.

(** ** Searching *)

Lemma rbt_height c n t : rbt c n t -> (height t <= 2 * n + (if c then 0 else 1))%nat /\ (2 ^ n <= length (inorder t) + 1)%nat.
Proof.
  induction 1 as [|n l e r _ [Hl Sl] _ [Hr Sr]|n cl cr l e r _ [Hl Sl] _ [Hr Sr]]; cbn [height inorder];
    rewrite ?length_app; cbn [length Nat.pow] in *; [lia|lia|].
  split; [destruct cl, cr; lia|lia].
Qed.

Lemma height_log m T : rbt RB_BLACK m T -> (height T <= 2 * Nat.log2 (length (inorder T) + 1))%nat.
Proof.
  intros [Hh Hs]%rbt_height. assert (m <= Nat.log2 (length (inorder T) + 1))%nat; [|lia].
  apply Nat.log2_le_pow2; lia.
Qed.

Lemma search_run fuel k : forall s C t, holds s (plug C t) -> ordered (plug C t) -> (height t < fuel)%nat ->
  exists p, search_loop fuel k (ptr (nil s) t) s = Ret (s, p) /\
    ((exists e, e ∈ inorder t /\ e_key e = k /\ p = e_addr e /\ p <> nil s) \/
     (p = nil s /\ forall e, e ∈ inorder t -> e_key e <> k)).
Proof.
  induction fuel as [|fuel IH]; intros s C t H Ho Hf; [lia|]. cbn [search_loop]. rewrite gets_bind.
  destruct t as [|c l e r]; cbn [ptr].
  { rewrite decide_True by done. exists (nil s). split; [done|]. right. split; [done|]. by intros e He%elem_of_nil. }
  assert (Hen : e_addr e <> nil s) by apply (holds_apart _ _ _ _ _ _ H).
  rewrite decide_False by done. rewrite (node_bind s C c l e r _ _ H). cbn [key]. cbn [height inorder] in *.
  destruct (decide (k = e_key e)) as [->|Hne].
  { exists (e_addr e). split; [done|]. left. exists e. split; [set_solver|done]. }
  pose proof Ho as Ho'. unfold ordered in Ho'. rewrite inorder_plug in Ho'. cbn [inorder] in Ho'.
  replace (before C ++ (inorder l ++ e :: inorder r) ++ after C) with ((before C ++ inorder l) ++ e :: inorder r ++ after C)
    in Ho' by by simplify_list_eq.
  apply ordered_split in Ho' as [H1 H2]. rewrite Forall_app in H1, H2. destruct H1 as [_ H1], H2 as [H2 _].
  rewrite Forall_forall in H1, H2.
  destruct (decide (k < e_key e)) as [Hlt|Hge]; rewrite (node_bind s C c l e r _ _ H); [cbn [left]|cbn [right]].
  - destruct (IH s (mkFrame true c e r :: C) l) as (p & Hrun & Hp); [done..|lia|]. exists p. split; [done|].
    destruct Hp as [(x & Hx & ?)|[-> Hno]]; [left; exists x; split; [set_solver|done]|right]. split; [done|].
    intros x [Hx|[->|Hx]%elem_of_cons]%elem_of_app; [by apply Hno|congruence|]. apply H2 in Hx. lia.
  - destruct (IH s (mkFrame false c e l :: C) r) as (p & Hrun & Hp); [done..|lia|]. exists p. split; [done|].
    destruct Hp as [(x & Hx & ?)|[-> Hno]]; [left; exists x; split; [set_solver|done]|right]. split; [done|].
    intros x [Hx|[->|Hx]%elem_of_cons]%elem_of_app; [|congruence|by apply Hno]. apply H1 in Hx. lia.
Qed.

(** C23. Searching. A node with the key is found exactly when there is one, NULL
    is returned otherwise, nothing changes, and the loop makes at most
    2 log2 (n + 1) + 1 rounds in a tree of n nodes. *)
Theorem rbtree_search_correct s T m k : holds s T -> rbt RB_BLACK m T -> ordered T ->
  exists p, search_loop (S (2 * Nat.log2 (length (inorder T) + 1))) k (root s) s = Ret (s, p) /\
    rbtree_search k s = Ret (s, if decide (p = nil s) then 0 else p) /\
    ((exists e, e ∈ inorder T /\ e_key e = k /\ p = e_addr e /\ p <> nil s) \/
     (p = nil s /\ forall e, e ∈ inorder T -> e_key e <> k)).
Proof.
  intros H Hr Ho. pose proof (height_log m T Hr) as Hlog. pose proof (holds_size _ _ H). pose proof (height_inorder T).
  destruct (search_run (S (2 * Nat.log2 (length (inorder T) + 1))) k s [] T) as (p & Hrun & Hp); [done..|lia|].
  destruct (search_run (S (size (nodes s))) k s [] T) as (p' & Hrun' & Hp'); [done..|lia|].
  rewrite <- (h_root _ _ H) in Hrun, Hrun'. exists p. split; [done|]. split; [|done].
  unfold rbtree_search, tree_fuel. rewrite !gets_bind, (cmd_bind_eq _ _ _ _ _ Hrun').
  assert (Hmore : forall f1 f2 x q q', search_loop f1 k x s = Ret (s, q) -> search_loop f2 k x s = Ret (s, q') -> q = q').
  { clear. induction f1 as [|f1 IH]; intros [|f2] x q q' H1 H2; cbn [search_loop] in *; try done.
    rewrite gets_bind in H1, H2. destruct (decide (x = nil s)); [by injection H1 as <-; injection H2|].
    apply cmd_bind_inv in H1 as (s1 & v & Hv & H1). rewrite (cmd_bind_eq _ _ _ _ _ Hv) in H2.
    assert (s1 = s) as ->.
    { unfold rd in Hv. rewrite gets_bind in Hv. destruct (nodes s !! x); [|done]. by injection Hv. }
    destruct (decide (k = v)); [by injection H1 as <-; injection H2|].
    destruct (decide (k < v)); apply cmd_bind_inv in H1 as (s1 & v1 & Hv1 & H1); rewrite (cmd_bind_eq _ _ _ _ _ Hv1) in H2;
      (assert (s1 = s) as -> by (unfold rd in Hv1; rewrite gets_bind in Hv1; destruct (nodes s !! x); [|done]; by injection Hv1));
      by apply (IH _ _ _ _ H1 H2). }
  by rewrite (Hmore _ _ _ _ _ Hrun Hrun').
Qed.

Lemma rbtree_search_correct_witness : exists p, rbtree_search 20 sample = Ret (sample, if decide (p = 1) then 0 else p) /\
  ((exists e, e ∈ inorder sample_tree /\ e_key e = 20 /\ p = e_addr e /\ p <> 1) \/
   (p = 1 /\ forall e, e ∈ inorder sample_tree -> e_key e <> 20)).
Proof.
  destruct (rbtree_search_correct sample sample_tree 1 20 sample_holds sample_rbt sample_ordered) as (p & _ & Hrun & Hp). by exists p.
Defined.

(** The smallest node of a subtree and the way to it. *)
Lemma minimum_run fuel : forall s C c l e r, holds s (plug C (Node c l e r)) -> (height (Node c l e r) <= fuel)%nat ->
  exists D c' e' r', Node c l e r = plug D (Node c' Leaf e' r') /\ before D = [] /\
    minimum_loop fuel (e_addr e) s = Ret (s, e_addr e').
Proof.
  induction fuel as [|fuel IH]; intros s C c l e r H Hf; [cbn in Hf; lia|]. cbn [minimum_loop].
  rewrite (node_bind s C c l e r _ _ H), gets_bind. cbn [left]. destruct l as [|c2 l2 e2 r2]; cbn [ptr].
  { rewrite decide_False by auto. by exists [], c, e, r. }
  assert (H' : holds s (plug (mkFrame true c e r :: C) (Node c2 l2 e2 r2))) by exact H.
  rewrite decide_True by apply (holds_apart _ _ _ _ _ _ H'). cbn [height] in Hf.
  destruct (IH s (mkFrame true c e r :: C) c2 l2 e2 r2 H') as (D & c' & e' & r' & E & Hb & Hrun); [cbn [height]; lia|].
  exists (D ++ [mkFrame true c e r]), c', e', r'. rewrite E. split; [|split; [|done]].
  - clear. generalize (Node c' Leaf e' r'). induction D as [|f D IHD]; intros t; cbn [plug app]; [done|]. by rewrite <- IHD.
  - clear - Hb. induction D as [|f D IHD]; cbn [before app] in *; [done|].
    apply app_eq_nil in Hb as [H1 H2]. by rewrite IHD, H2.
Qed.
