(* ===== verification/RBTreeDelete.v ===== *)
(** * Red-black trees: deletion

    Taking a node out of the tree of RBTree.v and repairing the balance. The
    sentinel's parent field is used for a missing child, as the code does. *)
From S2P Require Import Prelude RBTree RBTreeFacts.

Lemma plug_app D C t : plug (D ++ C) t = plug C (plug D t).
Proof. revert t. induction D as [|f D IH]; intros t; cbn [plug app]; [done|apply IH]. Qed.

Lemma leaf_dec t : {t = Leaf} + {t <> Leaf}.
Proof. destruct t; [by left|by right]. Qed.

(** The node [ptr t] (the sentinel for a leaf) has the hole's parent as parent. *)
Definition pointed (s : rbtree) (C : context) (t : tree) : Prop :=
  exists n, nodes s !! ptr (nil s) t = Some n /\ parent n = top (nil s) C.

Lemma pointed_node s C c l e r : holds s (plug C (Node c l e r)) -> pointed s C (Node c l e r).
Proof. intros H. eexists. split; [exact (holds_node _ _ _ _ _ _ H)|done]. Qed.

(** ** Unlinking *)

Lemma transplant_run s C z x nz nx : repc (nil s) (nodes s) C z -> NoDup (nil s :: z :: caddrs C) ->
  nodes s !! z = Some nz -> parent nz = top (nil s) C -> nodes s !! x = Some nx -> x ∉ caddrs C -> x <> z ->
  exists s', transplant z x s = Ret (s', tt) /\ nil s' = nil s /\ repc (nil s) (nodes s') C x /\
    root s' = (match C with [] => x | _ => root s end) /\ nodes s' !! x = Some (set_parent (top (nil s) C) nx) /\
    forall a, a ∉ caddrs C -> a <> x -> nodes s' !! a = nodes s !! a.
Proof.
  intros HC Hd Hz Hp Hx HxC Hxz. unfold transplant. rewrite (rd_bind _ _ _ _ _ Hz), Hp.
  destruct (replace_child_run s C z x HC Hd) as (s1 & Hrun & Hn1 & HC1 & Hr1 & Hk1). rewrite (cmd_bind_eq _ _ _ _ _ Hrun).
  assert (HzC : z ∉ caddrs C) by (apply NoDup_cons in Hd as [_ Hd]; by apply NoDup_cons in Hd as [? _]).
  assert (Hz1 : nodes s1 !! z = Some nz) by by rewrite Hk1.
  assert (Hx1 : nodes s1 !! x = Some nx) by by rewrite Hk1.
  rewrite (rd_bind _ _ _ _ _ Hz1), Hp, (wr_run _ _ _ _ Hx1). eexists. split; [reflexivity|]. split; [done|]. split; [|split; [done|split]].
  - apply (repc_ext _ (nodes s1)); [|done]. intros a Ha. apply lookup_insert_ne. by intros ->.
  - apply lookup_insert_eq.
  - intros a Ha Hax. cbn [nodes with_nodes]. rewrite lookup_insert_ne by done. by apply Hk1.
Qed.

Lemma rep_reparent nl h h' t par p n : rep nl h par t -> t <> Leaf -> NoDup (addrs t) ->
  h !! ptr nl t = Some n -> h' !! ptr nl t = Some (set_parent p n) ->
  (forall a, a ∈ addrs t -> a <> ptr nl t -> h' !! a = h !! a) -> rep nl h' p t.
Proof.
  destruct t as [|c l e r]; [done|]. cbn [rep ptr]. rewrite addrs_node. intros (He & Hl & Hr) _ Hd Hn Hn' Hk.
  rewrite He in Hn. injection Hn as <-. apply NoDup_app in Hd as (_ & Hlr & Hd). apply NoDup_cons in Hd as [Her _].
  split; [exact Hn'|]. split; (eapply rep_ext; [|done]); intros a Ha; apply Hk; [set_solver|intros ->|set_solver|by intros ->].
  apply (Hlr _ Ha). by left.
Qed.

(** A node with at most one child, [t], is replaced by it. *)
Lemma cut_run s C c l e r t : holds s (plug C (Node c l e r)) -> (l = Leaf /\ t = r) \/ (r = Leaf /\ t = l) ->
  exists s', transplant (e_addr e) (ptr (nil s) t) s = Ret (s', tt) /\ holds s' (plug C t) /\ pointed s' C t /\
    nil s' = nil s /\ forall a, a ∉ addrs (plug C t) -> a <> nil s -> nodes s' !! a = nodes s !! a.
Proof.
  intros H Ht. pose proof (holds_node _ _ _ _ _ _ H) as He.
  pose proof (holds_apart _ _ _ _ _ _ H) as (Hen & Hel & Her & HeC & Hnl & Hnr & HnC & HlrC & HrC).
  pose proof H as (Hrep & HC & Hroot & (nn & Hnn & Hnc) & Hd)%holds_plug. cbn [rep ptr] in Hrep, HC. destruct Hrep as (_ & Hl & Hr).
  assert (HdC : NoDup (caddrs C)) by (apply NoDup_cons in Hd as [_ Hd]; by apply NoDup_app in Hd as (_ & _ & ?)).
  assert (Hside : rep (nil s) (nodes s) (e_addr e) t /\ NoDup (addrs t) /\ e_addr e ∉ addrs t /\ nil s ∉ addrs t /\
    forall a, a ∈ addrs t -> a ∉ caddrs C).
  { rewrite addrs_node in Hd. apply NoDup_cons in Hd as [_ Hd]. apply NoDup_app in Hd as (Hd & _ & _).
    apply NoDup_app in Hd as (Hdl & _ & Hdr). apply NoDup_cons in Hdr as [_ Hdr].
    destruct Ht as [[_ ->]|[_ ->]]; (split; [done|]); (split; [done|]); (split; [done|]); (split; [done|]); [done|]. intros. by apply HlrC. }
  destruct Hside as (Hrept & Hdt & Het & Hnt & HtC).
  assert (Hpt : exists nx, nodes s !! ptr (nil s) t = Some nx /\ ptr (nil s) t ∉ caddrs C /\ ptr (nil s) t <> e_addr e).
  { destruct t as [|ct lt et rt]; cbn [ptr]; [exists nn; split; [done|]; split; [done|congruence]|].
    destruct Hrept as (Hrt & _). rewrite addrs_node in *. eexists. split; [exact Hrt|]. split; [apply HtC; set_solver|set_solver]. }
  destruct Hpt as (nx & Hx & HxC & Hxe).
  destruct (transplant_run s C (e_addr e) (ptr (nil s) t)
    (mkNode (e_key e) (e_data e) c (top (nil s) C) (ptr (nil s) l) (ptr (nil s) r)) nx HC) as (s' & Hrun & Hn' & HC' & Hr' & Hx' & Hk'); [|done..|].
  { apply NoDup_cons. split; [rewrite not_elem_of_cons; split; [congruence|done]|]. by apply NoDup_cons. }
  exists s'. split; [done|]. rewrite Hn'.
  assert (Hpin : t <> Leaf -> ptr (nil s) t ∈ addrs t) by (destruct t; [done|intros _; rewrite addrs_node; set_solver]).
  split; [apply holds_plug; rewrite Hn'; split; [|split; [|split; [|split]]]|split; [|split; [done|]]].
  - destruct (leaf_dec t) as [->|Hne]; [done|]. apply (rep_reparent _ (nodes s) _ _ (e_addr e) _ nx); try done.
    intros a Ha Hap. apply Hk'; [by apply HtC|done].
  - done.
  - rewrite Hr'. destruct C as [|f C]; [done|]. rewrite Hroot. apply ptr_plug. by left.
  - destruct (leaf_dec t) as [->|Hne].
    + eexists. split; [exact Hx'|]. cbn [ptr] in Hx. rewrite Hnn in Hx. by injection Hx as <-.
    + exists nn. split; [|done]. rewrite Hk'; [done|done|]. intros E. apply Hnt. rewrite E. by apply Hpin.
  - apply NoDup_cons. split; [rewrite not_elem_of_app; done|]. apply NoDup_app. done.
  - exists (set_parent (top (nil s) C) nx). unfold pointed. by rewrite Hn'.
  - intros a Ha Han. rewrite addrs_plug, not_elem_of_app in Ha. destruct Ha as [Hat HaC]. apply Hk'; [done|].
    intros ->. destruct (leaf_dec t) as [->|Hne]; [done|]. by apply Hat, Hpin.
Qed.

(** ** Repair after a deletion *)

(** A tree that is one black node short: blackening its root makes up for it
    when the root is red. *)
Definition lacks (n : nat) (t : tree) : Prop :=
  rbt RB_BLACK n t \/ exists cl cr l e r, t = Node RB_RED l e r /\ rbt cl n l /\ rbt cr n r.

Lemma lacks_rbt c n t : rbt c n t -> lacks n t.
Proof. intros H. destruct c; [by left|right]. inversion H; subst. by eexists _, _, _, _, _. Qed.

Lemma lacks_black n t : lacks n t -> rcolor t = RB_BLACK -> rbt RB_BLACK n t.
Proof. by intros [?|(? & ? & ? & ? & ? & -> & _)]. Qed.

(** Where the loop stops: at the root or at a red node. *)
Definition settled (s : rbtree) (T : tree) (s1 : rbtree) (x : Z) : Prop :=
  exists C1 t1 n, x = ptr (nil s1) t1 /\ evolves s T s1 (plug C1 t1) /\ lacks n t1 /\
    (C1 = [] \/ rcolor t1 = RB_RED /\ cxt (S n) C1).

Lemma settled_trans s T s1 T1 s2 x : evolves s T s1 T1 -> settled s1 T1 s2 x -> settled s T s2 x.
Proof. intros He (C & t & n & ? & ? & ? & ?). exists C, t, n. split; [done|]. split; [by eapply evolves_trans|done]. Qed.

Lemma parent_bind {B} s C t (k : Z -> R B) : pointed s C t -> (rd (ptr (nil s) t) parent ≫= k) s = k (top (nil s) C) s.
Proof. intros (n & Hn & <-). by apply rd_bind. Qed.

(** Steps inside the tree keep the sentinel. *)
Lemma pointed_evolves s s' C C' t T : evolves s T s' (plug C' t) -> holds s T -> pointed s C t -> top (nil s) C' = top (nil s) C ->
  nil s' = nil s /\ pointed s' C' t.
Proof.
  intros (H' & _ & Hn & Hout) H (n & E & Hp) Htop. split; [done|]. destruct t as [|c l e r]; [|by apply pointed_node].
  exists n. rewrite Hn. cbn [ptr] in *. split; [|by rewrite Htop]. rewrite Hout; [done|].
  pose proof (h_nodup _ _ H) as Hd. by apply NoDup_cons in Hd as [? _].
Qed.

Lemma ptr_plug_in nl f C t : ptr nl (plug (f :: C) t) ∈ caddrs (f :: C).
Proof.
  revert f t. induction C as [|g C IH]; intros f t; cbn [plug]; [rewrite ptr_plug1; by left|].
  right. apply elem_of_app. right. apply IH.
Qed.

Lemma root_differs s f C t : holds s (plug (f :: C) t) -> ptr (nil s) t <> root s.
Proof.
  intros H. rewrite (h_root _ _ H). pose proof (ptr_plug_in (nil s) f C t) as Hin. intros E. rewrite <- E in Hin.
  apply holds_plug in H as (_ & _ & _ & _ & Hd). apply NoDup_cons in Hd as [Hn Hd]. rewrite not_elem_of_app in Hn.
  destruct t as [|c l e r]; cbn [ptr] in Hin; [tauto|]. apply NoDup_app in Hd as (_ & Hd & _).
  apply (Hd (e_addr e)); [|done]. rewrite addrs_node. set_solver.
Qed.

(** The loop ends at the root and at a red node. *)
Lemma delete_loop_root fuel s t n : (0 < fuel)%nat -> holds s t -> lacks n t ->
  delete_fixup_loop fuel (root s) s = Ret (s, root s) /\ settled s t s (root s).
Proof.
  intros Hf H Hl. destruct fuel as [|fuel]; [lia|]. cbn [delete_fixup_loop]. rewrite gets_bind, decide_True by done.
  split; [done|]. exists [], t, n. split; [by apply h_root|]. split; [by apply evolves_refl|]. split; [done|by left].
Qed.

Lemma delete_loop_red fuel s C l e r n : (0 < fuel)%nat -> let t := Node RB_RED l e r in holds s (plug C t) -> lacks n t -> cxt (S n) C ->
  delete_fixup_loop fuel (e_addr e) s = Ret (s, e_addr e) /\ settled s (plug C t) s (e_addr e).
Proof.
  intros Hf t H Hl HC. split.
  - destruct fuel as [|fuel]; [lia|]. cbn [delete_fixup_loop]. rewrite gets_bind. case_decide; [done|].
    by rewrite (node_bind s C RB_RED l e r).
  - exists C, t, n. split; [done|]. split; [by apply evolves_refl|]. split; [done|by right].
Qed.

Lemma frame_rd {A} s C b c e u t (f : RBTNode -> A) : holds s (plug (mkFrame b c e u :: C) t) ->
  rd (e_addr e) f s = Ret (s, f (mkNode (e_key e) (e_data e) c (top (nil s) C)
    (if b then ptr (nil s) t else ptr (nil s) u) (if b then ptr (nil s) u else ptr (nil s) t))).
Proof.
  intros H. unfold rd. cbn [plug] in H. unfold plug1 in H. cbn [hole_left f_color f_entry sibling] in H.
  rewrite gets_bind. destruct b; by rewrite (holds_node _ _ _ _ _ _ H).
Qed.

(** *** The node is a left child *)

(** Case 1: a red sibling is rotated above the parent. *)
Lemma red_sibling_left s C p wl w wr' t : let T := plug (mkFrame true RB_BLACK p (Node RB_RED wl w wr') :: C) t in
  holds s T -> pointed s (mkFrame true RB_BLACK p (Node RB_RED wl w wr') :: C) t ->
  exists s', (wr (e_addr w) (set_color RB_BLACK);; p ← rd (ptr (nil s) t) parent; wr p (set_color RB_RED);;
      p ← rd (ptr (nil s) t) parent; rbtree_left_rotate p;; p ← rd (ptr (nil s) t) parent; rd p right) s = Ret (s', ptr (nil s) wl) /\
    evolves s T s' (plug (mkFrame true RB_RED p wl :: mkFrame true RB_BLACK w wr' :: C) t) /\
    pointed s' (mkFrame true RB_RED p wl :: mkFrame true RB_BLACK w wr' :: C) t.
Proof.
  intros T H Hp. destruct (recolor_sibling s C true RB_BLACK p RB_RED RB_BLACK wl w wr' t H) as (s1 & Hr1 & He1). rewrite Hr1.
  destruct (pointed_evolves _ _ _ _ _ _ He1 H Hp) as [Hn1 Hp1]; [done|]. rewrite <- Hn1, (parent_bind _ _ _ _ Hp1). cbn [top f_entry].
  destruct (recolor_frame s1 C true RB_BLACK RB_RED p t _ (proj1 He1)) as (s2 & Hr2 & He2). rewrite Hr2.
  destruct (pointed_evolves _ _ _ _ _ _ He2 (proj1 He1) Hp1) as [Hn2 Hp2]; [done|]. rewrite <- Hn2, (parent_bind _ _ _ _ Hp2). cbn [top f_entry].
  destruct (left_rotate_evolves s2 C RB_RED t p RB_BLACK wl w wr' (proj1 He2)) as (s3 & Hr3 & He3). rewrite (cmd_bind_eq _ _ _ _ _ Hr3).
  assert (He3' : evolves s2 (plug (mkFrame true RB_RED p (Node RB_BLACK wl w wr') :: C) t) s3
    (plug (mkFrame true RB_RED p wl :: mkFrame true RB_BLACK w wr' :: C) t)) by exact He3.
  destruct (pointed_evolves _ _ _ _ _ _ He3' (proj1 He2) Hp2) as [Hn3 Hp3]; [done|]. rewrite <- Hn3, (parent_bind _ _ _ _ Hp3). cbn [top f_entry].
  exists s3. split; [|split; [|done]].
  - by rewrite (frame_rd s3 _ true RB_RED p wl t right (proj1 He3')).
  - eapply evolves_trans; [exact He1|]. by eapply evolves_trans; [exact He2|].
Qed.

(** Case 3: the sibling's inner child is red; it becomes the sibling. *)
Lemma inner_red_left s C cp p cl a v b w wr' t :
  let T := plug (mkFrame true cp p (Node RB_BLACK (Node cl a v b) w wr') :: C) t in
  holds s T -> pointed s (mkFrame true cp p (Node RB_BLACK (Node cl a v b) w wr') :: C) t ->
  exists s', (wl ← rd (e_addr w) left; wr wl (set_color RB_BLACK);; wr (e_addr w) (set_color RB_RED);;
      rbtree_right_rotate (e_addr w);; p ← rd (ptr (nil s) t) parent; rd p right) s = Ret (s', e_addr v) /\
    evolves s T s' (plug (mkFrame true cp p (Node RB_BLACK a v (Node RB_RED b w wr')) :: C) t) /\
    pointed s' (mkFrame true cp p (Node RB_BLACK a v (Node RB_RED b w wr')) :: C) t.
Proof.
  intros T H Hp. rewrite (node_bind s (mkFrame false cp p t :: C) RB_BLACK (Node cl a v b) w wr') by exact H. cbn [left ptr].
  destruct (recolor_run s (mkFrame true RB_BLACK w wr' :: mkFrame false cp p t :: C) cl RB_BLACK a v b H) as (s1 & Hr1 & He1). rewrite Hr1.
  destruct (recolor_run s1 (mkFrame false cp p t :: C) RB_BLACK RB_RED (Node RB_BLACK a v b) w wr' (proj1 He1)) as (s2 & Hr2 & He2). rewrite Hr2.
  destruct (right_rotate_evolves s2 (mkFrame false cp p t :: C) RB_RED wr' w RB_BLACK b v a (proj1 He2)) as (s3 & Hr3 & He3).
  rewrite (cmd_bind_eq _ _ _ _ _ Hr3).
  assert (He : evolves s T s3 (plug (mkFrame true cp p (Node RB_BLACK a v (Node RB_RED b w wr')) :: C) t)).
  { eapply evolves_trans; [exact He1|]. by eapply evolves_trans; [exact He2|]. }
  destruct (pointed_evolves _ _ _ _ _ _ He H Hp) as [Hn Hp']; [done|]. rewrite <- Hn, (parent_bind _ _ _ _ Hp'). cbn [top f_entry].
  exists s3. split; [|done]. by rewrite (frame_rd s3 C true cp p _ t right (proj1 He)).
Qed.

(** Case 4: the sibling's outer child is red; one rotation restores the balance. *)
Lemma outer_red_left {B} s C cp p ul w cr a v b t (k : Z -> R B) :
  let T := plug (mkFrame true cp p (Node RB_BLACK ul w (Node cr a v b)) :: C) t in
  holds s T -> pointed s (mkFrame true cp p (Node RB_BLACK ul w (Node cr a v b)) :: C) t ->
  exists s', (p ← rd (ptr (nil s) t) parent; pc ← rd p color; wr (e_addr w) (set_color pc);;
      p ← rd (ptr (nil s) t) parent; wr p (set_color RB_BLACK);;
      wr_ ← rd (e_addr w) right; wr wr_ (set_color RB_BLACK);;
      p ← rd (ptr (nil s) t) parent; rbtree_left_rotate p;; r ← gets root; k r) s = k (root s') s' /\
    evolves s T s' (plug C (Node cp (Node RB_BLACK t p ul) w (Node RB_BLACK a v b))).
Proof.
  intros T H Hp. rewrite (parent_bind _ _ _ _ Hp). cbn [top f_entry]. rewrite (frame_bind s C true cp p _ t color _ H). cbn [color].
  destruct (recolor_sibling s C true cp p RB_BLACK cp ul w _ t H) as (s1 & Hr1 & He1). rewrite Hr1.
  destruct (pointed_evolves _ _ _ _ _ _ He1 H Hp) as [Hn1 Hp1]; [done|]. rewrite <- Hn1, (parent_bind _ _ _ _ Hp1). cbn [top f_entry].
  destruct (recolor_frame s1 C true cp RB_BLACK p t _ (proj1 He1)) as (s2 & Hr2 & He2). rewrite Hr2.
  destruct (pointed_evolves _ _ _ _ _ _ He2 (proj1 He1) Hp1) as [Hn2 Hp2]; [done|].
  rewrite (node_bind s2 (mkFrame false RB_BLACK p t :: C) cp ul w (Node cr a v b)) by exact (proj1 He2). cbn [right ptr].
  destruct (recolor_run s2 (mkFrame false cp w ul :: mkFrame false RB_BLACK p t :: C) cr RB_BLACK a v b (proj1 He2)) as (s3 & Hr3 & He3). rewrite Hr3.
  assert (He3' : evolves s2 (plug (mkFrame true RB_BLACK p (Node cp ul w (Node cr a v b)) :: C) t) s3
    (plug (mkFrame true RB_BLACK p (Node cp ul w (Node RB_BLACK a v b)) :: C) t)) by exact He3.
  destruct (pointed_evolves _ _ _ _ _ _ He3' (proj1 He2) Hp2) as [Hn3 Hp3]; [done|].
  rewrite <- Hn2, <- Hn3, (parent_bind _ _ _ _ Hp3). cbn [top f_entry].
  destruct (left_rotate_evolves s3 C RB_BLACK t p cp ul w (Node RB_BLACK a v b) (proj1 He3)) as (s4 & Hr4 & He4).
  rewrite (cmd_bind_eq _ _ _ _ _ Hr4), gets_bind. exists s4. split; [done|].
  eapply evolves_trans; [exact He1|]. eapply evolves_trans; [exact He2|]. by eapply evolves_trans; [exact He3|].
Qed.

(** *** The node is a right child *)

(** Case 1: a red sibling is rotated above the parent. *)
Lemma red_sibling_right s C p wl w wr' t : let T := plug (mkFrame false RB_BLACK p (Node RB_RED wr' w wl) :: C) t in
  holds s T -> pointed s (mkFrame false RB_BLACK p (Node RB_RED wr' w wl) :: C) t ->
  exists s', (wr (e_addr w) (set_color RB_BLACK);; p ← rd (ptr (nil s) t) parent; wr p (set_color RB_RED);;
      p ← rd (ptr (nil s) t) parent; rbtree_right_rotate p;; p ← rd (ptr (nil s) t) parent; rd p left) s = Ret (s', ptr (nil s) wl) /\
    evolves s T s' (plug (mkFrame false RB_RED p wl :: mkFrame false RB_BLACK w wr' :: C) t) /\
    pointed s' (mkFrame false RB_RED p wl :: mkFrame false RB_BLACK w wr' :: C) t.
Proof.
  intros T H Hp. destruct (recolor_sibling s C false RB_BLACK p RB_RED RB_BLACK wr' w wl t H) as (s1 & Hr1 & He1). rewrite Hr1.
  destruct (pointed_evolves _ _ _ _ _ _ He1 H Hp) as [Hn1 Hp1]; [done|]. rewrite <- Hn1, (parent_bind _ _ _ _ Hp1). cbn [top f_entry].
  destruct (recolor_frame s1 C false RB_BLACK RB_RED p t _ (proj1 He1)) as (s2 & Hr2 & He2). rewrite Hr2.
  destruct (pointed_evolves _ _ _ _ _ _ He2 (proj1 He1) Hp1) as [Hn2 Hp2]; [done|]. rewrite <- Hn2, (parent_bind _ _ _ _ Hp2). cbn [top f_entry].
  destruct (right_rotate_evolves s2 C RB_RED t p RB_BLACK wl w wr' (proj1 He2)) as (s3 & Hr3 & He3). rewrite (cmd_bind_eq _ _ _ _ _ Hr3).
  assert (He3' : evolves s2 (plug (mkFrame false RB_RED p (Node RB_BLACK wr' w wl) :: C) t) s3
    (plug (mkFrame false RB_RED p wl :: mkFrame false RB_BLACK w wr' :: C) t)) by exact He3.
  destruct (pointed_evolves _ _ _ _ _ _ He3' (proj1 He2) Hp2) as [Hn3 Hp3]; [done|]. rewrite <- Hn3, (parent_bind _ _ _ _ Hp3). cbn [top f_entry].
  exists s3. split; [|split; [|done]].
  - by rewrite (frame_rd s3 _ false RB_RED p wl t left (proj1 He3')).
  - eapply evolves_trans; [exact He1|]. by eapply evolves_trans; [exact He2|].
Qed.

(** Case 3: the sibling's inner child is red; it becomes the sibling. *)
Lemma inner_red_right s C cp p cl a v b w wr' t :
  let T := plug (mkFrame false cp p (Node RB_BLACK wr' w (Node cl b v a)) :: C) t in
  holds s T -> pointed s (mkFrame false cp p (Node RB_BLACK wr' w (Node cl b v a)) :: C) t ->
  exists s', (wl ← rd (e_addr w) right; wr wl (set_color RB_BLACK);; wr (e_addr w) (set_color RB_RED);;
      rbtree_left_rotate (e_addr w);; p ← rd (ptr (nil s) t) parent; rd p left) s = Ret (s', e_addr v) /\
    evolves s T s' (plug (mkFrame false cp p (Node RB_BLACK (Node RB_RED wr' w b) v a) :: C) t) /\
    pointed s' (mkFrame false cp p (Node RB_BLACK (Node RB_RED wr' w b) v a) :: C) t.
Proof.
  intros T H Hp. rewrite (node_bind s (mkFrame true cp p t :: C) RB_BLACK wr' w (Node cl b v a)) by exact H. cbn [right ptr].
  destruct (recolor_run s (mkFrame false RB_BLACK w wr' :: mkFrame true cp p t :: C) cl RB_BLACK b v a H) as (s1 & Hr1 & He1). rewrite Hr1.
  destruct (recolor_run s1 (mkFrame true cp p t :: C) RB_BLACK RB_RED wr' w (Node RB_BLACK b v a) (proj1 He1)) as (s2 & Hr2 & He2). rewrite Hr2.
  destruct (left_rotate_evolves s2 (mkFrame true cp p t :: C) RB_RED wr' w RB_BLACK b v a (proj1 He2)) as (s3 & Hr3 & He3).
  rewrite (cmd_bind_eq _ _ _ _ _ Hr3).
  assert (He : evolves s T s3 (plug (mkFrame false cp p (Node RB_BLACK (Node RB_RED wr' w b) v a) :: C) t)).
  { eapply evolves_trans; [exact He1|]. by eapply evolves_trans; [exact He2|]. }
  destruct (pointed_evolves _ _ _ _ _ _ He H Hp) as [Hn Hp']; [done|]. rewrite <- Hn, (parent_bind _ _ _ _ Hp'). cbn [top f_entry].
  exists s3. split; [|done]. by rewrite (frame_rd s3 C false cp p _ t left (proj1 He)).
Qed.

(** Case 4: the sibling's outer child is red; one rotation restores the balance. *)
Lemma outer_red_right {B} s C cp p ul w cr a v b t (k : Z -> R B) :
  let T := plug (mkFrame false cp p (Node RB_BLACK (Node cr b v a) w ul) :: C) t in
  holds s T -> pointed s (mkFrame false cp p (Node RB_BLACK (Node cr b v a) w ul) :: C) t ->
  exists s', (p ← rd (ptr (nil s) t) parent; pc ← rd p color; wr (e_addr w) (set_color pc);;
      p ← rd (ptr (nil s) t) parent; wr p (set_color RB_BLACK);;
      wr_ ← rd (e_addr w) left; wr wr_ (set_color RB_BLACK);;
      p ← rd (ptr (nil s) t) parent; rbtree_right_rotate p;; r ← gets root; k r) s = k (root s') s' /\
    evolves s T s' (plug C (Node cp (Node RB_BLACK b v a) w (Node RB_BLACK ul p t))).
Proof.
  intros T H Hp. rewrite (parent_bind _ _ _ _ Hp). cbn [top f_entry]. rewrite (frame_bind s C false cp p _ t color _ H). cbn [color].
  destruct (recolor_sibling s C false cp p RB_BLACK cp _ w ul t H) as (s1 & Hr1 & He1). rewrite Hr1.
  destruct (pointed_evolves _ _ _ _ _ _ He1 H Hp) as [Hn1 Hp1]; [done|]. rewrite <- Hn1, (parent_bind _ _ _ _ Hp1). cbn [top f_entry].
  destruct (recolor_frame s1 C false cp RB_BLACK p t _ (proj1 He1)) as (s2 & Hr2 & He2). rewrite Hr2.
  destruct (pointed_evolves _ _ _ _ _ _ He2 (proj1 He1) Hp1) as [Hn2 Hp2]; [done|].
  rewrite (node_bind s2 (mkFrame true RB_BLACK p t :: C) cp (Node cr b v a) w ul) by exact (proj1 He2). cbn [left ptr].
  destruct (recolor_run s2 (mkFrame true cp w ul :: mkFrame true RB_BLACK p t :: C) cr RB_BLACK b v a (proj1 He2)) as (s3 & Hr3 & He3). rewrite Hr3.
  assert (He3' : evolves s2 (plug (mkFrame false RB_BLACK p (Node cp (Node cr b v a) w ul) :: C) t) s3
    (plug (mkFrame false RB_BLACK p (Node cp (Node RB_BLACK b v a) w ul) :: C) t)) by exact He3.
  destruct (pointed_evolves _ _ _ _ _ _ He3' (proj1 He2) Hp2) as [Hn3 Hp3]; [done|].
  rewrite <- Hn2, <- Hn3, (parent_bind _ _ _ _ Hp3). cbn [top f_entry].
  destruct (right_rotate_evolves s3 C RB_BLACK t p cp ul w (Node RB_BLACK b v a) (proj1 He3)) as (s4 & Hr4 & He4).
  rewrite (cmd_bind_eq _ _ _ _ _ Hr4), gets_bind. exists s4. split; [done|].
  eapply evolves_trans; [exact He1|]. eapply evolves_trans; [exact He2|]. by eapply evolves_trans; [exact He3|].
Qed.

(** *** The loop *)

Definition delete_ok (fuel : nat) : Prop := forall s C t n, holds s (plug C t) -> pointed s C t -> lacks n t ->
  cxt (S n) C -> (length C < fuel)%nat ->
  exists s1 x, delete_fixup_loop fuel (ptr (nil s) t) s = Ret (s1, x) /\ settled s (plug C t) s1 x.

(** What is above a parent of color [cp] whose subtrees have [S n] black nodes. *)
Definition above (cp : RBTColor) (n fuel : nat) (C : context) : Prop :=
  (cp = RB_RED /\ top_color C = RB_BLACK /\ cxt (S n) C) \/
  (cp = RB_BLACK /\ cxt (S (S n)) C /\ (length C < fuel)%nat).

(** After case 4. *)
Lemma balanced_root fuel s C cp n x e y : (0 < fuel)%nat -> above cp n fuel C -> rbt RB_BLACK (S n) x -> rbt RB_BLACK (S n) y ->
  let T := plug C (Node cp x e y) in holds s T ->
  delete_fixup_loop fuel (root s) s = Ret (s, root s) /\ settled s T s (root s).
Proof.
  intros Hf HC Hx Hy T H. assert (Hrb : exists c m, rbt c m T).
  { destruct HC as [(-> & Htop & HC)|(-> & HC & _)].
    - destruct (plug_rbt _ _ HC RB_RED (Node RB_RED x e y)) as (c & m & Hr & _); [by constructor|by right|by exists c, m].
    - destruct (plug_rbt _ _ HC RB_BLACK (Node RB_BLACK x e y)) as (c & m & Hr & _); [by econstructor|by left|by exists c, m]. }
  destruct Hrb as (c & m & Hrb). apply (delete_loop_root fuel s T m); [done..|]. by apply (lacks_rbt c).
Qed.

(** Case 2: the sibling becomes red and the problem moves up. *)
Lemma black_nephews fuel s C b cp p wl w wr' t n : (0 < fuel)%nat -> delete_ok fuel -> above cp n fuel C ->
  rbt RB_BLACK n t -> rbt RB_BLACK n wl -> rbt RB_BLACK n wr' ->
  let T := plug (mkFrame b cp p (Node RB_BLACK wl w wr') :: C) t in
  holds s T -> pointed s (mkFrame b cp p (Node RB_BLACK wl w wr') :: C) t ->
  exists s1 x, (wr (e_addr w) (set_color RB_RED);; p ← rd (ptr (nil s) t) parent; delete_fixup_loop fuel p) s = Ret (s1, x) /\
    settled s T s1 x.
Proof.
  intros Hf IH HC Ht Hwl Hwr T H Hp. destruct (recolor_sibling s C b cp p RB_BLACK RB_RED wl w wr' t H) as (s1 & Hr1 & He1). rewrite Hr1.
  destruct (pointed_evolves _ _ _ _ _ _ He1 H Hp) as [Hn1 Hp1]; [done|]. rewrite <- Hn1, (parent_bind _ _ _ _ Hp1). cbn [top f_entry].
  assert (Hfocus : exists x y, plug1 (mkFrame b cp p (Node RB_RED wl w wr')) t = Node cp x p y /\
    exists cx cy, rbt cx n x /\ rbt cy n y /\ (cp = RB_BLACK -> rbt RB_BLACK (S n) (Node RB_BLACK x p y))).
  { unfold plug1. cbn. assert (rbt RB_RED n (Node RB_RED wl w wr')) by by constructor.
    destruct b; (eexists _, _; split; [reflexivity|]); eexists _, _; (split; [done|]; split; [done|]); intros; by econstructor. }
  destruct Hfocus as (x & y & Hpl & cx & cy & Hx & Hy & Hblack). pose proof (proj1 He1) as H1. cbn [plug] in H1. rewrite Hpl in H1.
  assert (HT1 : evolves s T s1 (plug C (Node cp x p y))) by (rewrite <- Hpl; exact He1).
  destruct HC as [(-> & Htop & HC)|(-> & HC & Hlen)].
  - destruct (delete_loop_red fuel s1 C x p y n) as [Hrun Hset]; [done|done|by right; eexists _, _, _, _, _|done|].
    exists s1, (e_addr p). split; [done|]. by eapply settled_trans.
  - destruct (IH s1 C (Node RB_BLACK x p y) (S n) H1) as (s2 & z & Hrun & Hset);
      [by apply pointed_node|left; by apply Hblack|done|done|].
    exists s2, z. split; [exact Hrun|]. by eapply settled_trans.
Qed.

(** The sibling is black: cases 2, 3 and 4. *)
Lemma black_sibling_left fuel s C cp p wl w wr' t n cl cr : (0 < fuel)%nat -> delete_ok fuel -> above cp n fuel C ->
  rbt RB_BLACK n t -> rbt cl n wl -> rbt cr n wr' ->
  let T := plug (mkFrame true cp p (Node RB_BLACK wl w wr') :: C) t in
  holds s T -> pointed s (mkFrame true cp p (Node RB_BLACK wl w wr') :: C) t ->
  let x := ptr (nil s) t in
  exists s1 y, (wl ← rd (e_addr w) left; wlc ← rd wl color;
      wr_ ← rd (e_addr w) right; wrc ← rd wr_ color;
      if decide (wlc = RB_BLACK /\ wrc = RB_BLACK) then
        wr (e_addr w) (set_color RB_RED);; p ← rd x parent; delete_fixup_loop fuel p
      else
        w ← (if decide (wrc = RB_BLACK) then
               wl ← rd (e_addr w) left;
               wr wl (set_color RB_BLACK);; wr (e_addr w) (set_color RB_RED);;
               rbtree_right_rotate (e_addr w);; p ← rd x parent; rd p right
             else mret (e_addr w));
        p ← rd x parent; pc ← rd p color; wr w (set_color pc);;
        p ← rd x parent; wr p (set_color RB_BLACK);;
        wr_ ← rd w right; wr wr_ (set_color RB_BLACK);;
        p ← rd x parent; rbtree_left_rotate p;;
        r ← gets root; delete_fixup_loop fuel r) s = Ret (s1, y) /\ settled s T s1 y.
Proof.
  intros Hf IH HC Ht Hwl Hwr T H Hp x.
  rewrite (node_bind s (mkFrame false cp p t :: C) RB_BLACK wl w wr') by exact H. cbn [left].
  rewrite (color_bind s (mkFrame true RB_BLACK w wr' :: mkFrame false cp p t :: C) wl) by exact H.
  rewrite (node_bind s (mkFrame false cp p t :: C) RB_BLACK wl w wr') by exact H. cbn [right].
  rewrite (color_bind s (mkFrame false RB_BLACK w wl :: mkFrame false cp p t :: C) wr') by exact H.
  rewrite (rbt_color _ _ _ Hwl), (rbt_color _ _ _ Hwr).
  destruct (decide (cl = RB_BLACK /\ cr = RB_BLACK)) as [[-> ->]|Hred]; [by apply (black_nephews fuel s C true cp p wl w wr' t n)|].
  assert (Hend : forall s0 ul w0 a v b, evolves s T s0 (plug (mkFrame true cp p (Node RB_BLACK ul w0 (Node RB_RED a v b)) :: C) t) ->
    pointed s0 (mkFrame true cp p (Node RB_BLACK ul w0 (Node RB_RED a v b)) :: C) t -> nil s0 = nil s ->
    (exists c, rbt c n ul) -> (exists c c', rbt c n a /\ rbt c' n b) ->
    exists s1 y, (p ← rd x parent; pc ← rd p color; wr (e_addr w0) (set_color pc);;
        p ← rd x parent; wr p (set_color RB_BLACK);;
        wr_ ← rd (e_addr w0) right; wr wr_ (set_color RB_BLACK);;
        p ← rd x parent; rbtree_left_rotate p;;
        r ← gets root; delete_fixup_loop fuel r) s0 = Ret (s1, y) /\ settled s T s1 y).
  { intros s0 ul w0 a v b He0 Hp0 Hn0 [c Hul] (ca & cb & Ha & Hb). subst x. rewrite <- Hn0.
    destruct (outer_red_left s0 C cp p ul w0 RB_RED a v b t (delete_fixup_loop fuel) (proj1 He0) Hp0) as (s1 & Hrun & He1).
    rewrite Hrun. destruct (balanced_root fuel s1 C cp n (Node RB_BLACK t p ul) w0 (Node RB_BLACK a v b)) as [Hrun1 Hset];
      [done|done|by econstructor|by econstructor|apply He1|].
    exists s1, (root s1). split; [done|]. eapply settled_trans; [by eapply evolves_trans|done]. }
  destruct cr.
  - rewrite decide_True by done. destruct cl; [by destruct Hred|]. inversion Hwl as [|? a v b Ha Hb|]; subst.
    destruct (inner_red_left s C cp p RB_RED a v b w wr' t H Hp) as (s0 & Hrun & He0 & Hp0). subst x.
    rewrite (cmd_bind_eq _ _ _ _ _ Hrun).
    destruct (Hend s0 a v b w wr' He0 Hp0) as (s1 & y & Hrun1 & Hset); [apply He0|by eexists|by eexists _, _|by exists s1, y].
  - rewrite decide_False by done. inversion Hwr as [|? a v b Ha Hb|]; subst. rewrite ret_bind.
    apply (Hend s wl w a v b); [by apply evolves_refl|done|done|by eexists|by eexists _, _].
Qed.

(** The same for a right child. *)
Lemma black_sibling_right fuel s C cp p wl w wr' t n cl cr : (0 < fuel)%nat -> delete_ok fuel -> above cp n fuel C ->
  rbt RB_BLACK n t -> rbt cl n wl -> rbt cr n wr' ->
  let T := plug (mkFrame false cp p (Node RB_BLACK wr' w wl) :: C) t in
  holds s T -> pointed s (mkFrame false cp p (Node RB_BLACK wr' w wl) :: C) t ->
  let x := ptr (nil s) t in
  exists s1 y, (wl ← rd (e_addr w) right; wlc ← rd wl color;
      wr_ ← rd (e_addr w) left; wrc ← rd wr_ color;
      if decide (wlc = RB_BLACK /\ wrc = RB_BLACK) then
        wr (e_addr w) (set_color RB_RED);; p ← rd x parent; delete_fixup_loop fuel p
      else
        w ← (if decide (wrc = RB_BLACK) then
               wl ← rd (e_addr w) right;
               wr wl (set_color RB_BLACK);; wr (e_addr w) (set_color RB_RED);;
               rbtree_left_rotate (e_addr w);; p ← rd x parent; rd p left
             else mret (e_addr w));
        p ← rd x parent; pc ← rd p color; wr w (set_color pc);;
        p ← rd x parent; wr p (set_color RB_BLACK);;
        wr_ ← rd w left; wr wr_ (set_color RB_BLACK);;
        p ← rd x parent; rbtree_right_rotate p;;
        r ← gets root; delete_fixup_loop fuel r) s = Ret (s1, y) /\ settled s T s1 y.
Proof.
  intros Hf IH HC Ht Hwl Hwr T H Hp x.
  rewrite (node_bind s (mkFrame true cp p t :: C) RB_BLACK wr' w wl) by exact H. cbn [right].
  rewrite (color_bind s (mkFrame false RB_BLACK w wr' :: mkFrame true cp p t :: C) wl) by exact H.
  rewrite (node_bind s (mkFrame true cp p t :: C) RB_BLACK wr' w wl) by exact H. cbn [left].
  rewrite (color_bind s (mkFrame true RB_BLACK w wl :: mkFrame true cp p t :: C) wr') by exact H.
  rewrite (rbt_color _ _ _ Hwl), (rbt_color _ _ _ Hwr).
  destruct (decide (cl = RB_BLACK /\ cr = RB_BLACK)) as [[-> ->]|Hred]; [by apply (black_nephews fuel s C false cp p wr' w wl t n)|].
  assert (Hend : forall s0 ul w0 a v b, evolves s T s0 (plug (mkFrame false cp p (Node RB_BLACK (Node RB_RED b v a) w0 ul) :: C) t) ->
    pointed s0 (mkFrame false cp p (Node RB_BLACK (Node RB_RED b v a) w0 ul) :: C) t -> nil s0 = nil s ->
    (exists c, rbt c n ul) -> (exists c c', rbt c n a /\ rbt c' n b) ->
    exists s1 y, (p ← rd x parent; pc ← rd p color; wr (e_addr w0) (set_color pc);;
        p ← rd x parent; wr p (set_color RB_BLACK);;
        wr_ ← rd (e_addr w0) left; wr wr_ (set_color RB_BLACK);;
        p ← rd x parent; rbtree_right_rotate p;;
        r ← gets root; delete_fixup_loop fuel r) s0 = Ret (s1, y) /\ settled s T s1 y).
  { intros s0 ul w0 a v b He0 Hp0 Hn0 [c Hul] (ca & cb & Ha & Hb). subst x. rewrite <- Hn0.
    destruct (outer_red_right s0 C cp p ul w0 RB_RED a v b t (delete_fixup_loop fuel) (proj1 He0) Hp0) as (s1 & Hrun & He1).
    rewrite Hrun. destruct (balanced_root fuel s1 C cp n (Node RB_BLACK b v a) w0 (Node RB_BLACK ul p t)) as [Hrun1 Hset];
      [done|done|by econstructor|by econstructor|apply He1|].
    exists s1, (root s1). split; [done|]. eapply settled_trans; [by eapply evolves_trans|done]. }
  destruct cr.
  - rewrite decide_True by done. destruct cl; [by destruct Hred|]. inversion Hwl as [|? b v a Hb Ha|]; subst.
    destruct (inner_red_right s C cp p RB_RED a v b w wr' t H Hp) as (s0 & Hrun & He0 & Hp0). subst x.
    rewrite (cmd_bind_eq _ _ _ _ _ Hrun).
    destruct (Hend s0 a v b w wr' He0 Hp0) as (s1 & y & Hrun1 & Hset); [apply He0|by eexists|by eexists _, _|by exists s1, y].
  - rewrite decide_False by done. inversion Hwr as [|? b v a Hb Ha|]; subst. rewrite ret_bind.
    apply (Hend s wl w a v b); [by apply evolves_refl|done|done|by eexists|by eexists _, _].
Qed.

Lemma sibling_node c n t : rbt c (S n) t -> exists l e r, t = Node c l e r.
Proof. inversion 1; subst; by eexists _, _, _. Qed.

Lemma child_not_sibling s C b c e u t n : holds s (plug (mkFrame b c e u :: C) t) -> rbt c n u -> n <> 0%nat ->
  ptr (nil s) t <> ptr (nil s) u.
Proof.
  intros H Hu Hn. destruct n as [|n]; [done|]. destruct (sibling_node _ _ _ Hu) as (l & d & r & ->).
  destruct t as [|ct lt et rt]; [|by apply sides_differ in H]. cbn [ptr]. intros E.
  rewrite sibling_focus in H. by destruct (holds_apart _ _ _ _ _ _ H) as (Hne & _).
Qed.

Lemma delete_fixup_loop_run fuel : delete_ok fuel.
Proof.
  induction fuel as [|fuel IH]; intros s C t n H Hp Hl HC Hfuel; [lia|]. cbn [delete_fixup_loop]. rewrite gets_bind.
  destruct C as [|[b cp p u] C].
  { rewrite decide_True by (by rewrite (h_root _ _ H)). exists s, (ptr (nil s) t). split; [done|].
    exists [], t, n. split; [done|]. split; [by apply evolves_refl|]. split; [done|by left]. }
  rewrite decide_False by (by apply root_differs in H). rewrite (color_bind _ _ _ _ H).
  destruct (rcolor t) eqn:Ect; [rewrite decide_False by (intros E; by apply E)|].
  2:{ rewrite decide_True by done. exists s, (ptr (nil s) t). split; [done|].
      exists (mkFrame b cp p u :: C), t, n. split; [done|]. split; [by apply evolves_refl|]. split; [done|by right]. }
  pose proof (lacks_black _ _ Hl Ect) as Ht. cbn [length] in Hfuel.
  assert (HU : exists cu, rbt cu (S n) u /\ ((cp = RB_RED /\ cu = RB_BLACK) \/ cp = RB_BLACK) /\ above cp n fuel C).
  { inversion HC as [|? ? ? ? ? Hu Hne Htop HC'|? ? ? cu ? ? Hu HC']; subst.
    - exists RB_BLACK. split; [done|]. split; [by left|]. left. done.
    - exists cu. split; [done|]. split; [by right|]. right. split; [done|]. split; [done|lia]. }
  destruct HU as (cu & Hu & Hcu & Hab). destruct (sibling_node _ _ _ Hu) as (wl & w & wr' & ->).
  rewrite (parent_bind _ _ _ _ Hp). cbn [top f_entry]. rewrite (frame_bind s C b cp p _ t left _ H). cbn [left].
  destruct b.
  - rewrite decide_True by done. rewrite (frame_bind s C true cp p _ t right _ H). cbn [right ptr].
    pose proof H as Hw. rewrite sibling_focus in Hw. rewrite (node_bind s _ cu wl w wr' color _ Hw). cbn [color].
    destruct cu.
    + rewrite decide_False by done. rewrite ret_bind. inversion Hu as [| |? cl cr ? ? ? Hwl Hwr]; subst.
      destruct (black_sibling_left fuel s C cp p wl w wr' t n cl cr) as (s1 & y & Hrun & Hset); [lia|done..|]. by exists s1, y.
    + rewrite decide_True by done. inversion Hu as [|? ? ? ? Hwl Hwr|]; subst. destruct Hcu as [[_ ?]| ->]; [done|].
      destruct (red_sibling_left s C p wl w wr' t H Hp) as (s0 & Hrun & He & Hp0). rewrite (cmd_bind_eq _ _ _ _ _ Hrun).
      destruct (sibling_node _ _ _ Hwl) as (a & v & b & ->). cbn [ptr]. inversion Hwl as [| |? ca cb ? ? ? Ha Hb]; subst.
      destruct Hab as [[? _]|(_ & HC2 & Hlen)]; [done|].
      destruct (black_sibling_left fuel s0 (mkFrame true RB_BLACK w wr' :: C) RB_RED p a v b t n ca cb) as (s1 & y & Hrun1 & Hset);
        [lia|done| |done..|by apply He|done|].
      { left. split; [done|]. split; [done|]. by econstructor. }
      rewrite (proj1 (proj2 (proj2 He))) in Hrun1. exists s1, y. split; [exact Hrun1|]. by eapply settled_trans.
  - assert (Hne : ptr (nil s) t <> ptr (nil s) (Node cu wl w wr')).
    { intros E. destruct t as [|ct lt et rt]; [|by apply sides_differ in H]. cbn [ptr] in E. pose proof H as Hw.
      rewrite sibling_focus in Hw. destruct (holds_apart _ _ _ _ _ _ Hw) as (Hnn & _). congruence. }
    rewrite decide_False by done. rewrite (frame_bind s C false cp p _ t left _ H). cbn [left ptr].
    pose proof H as Hw. rewrite sibling_focus in Hw. rewrite (node_bind s _ cu wl w wr' color _ Hw). cbn [color].
    destruct cu.
    + rewrite decide_False by done. rewrite ret_bind. inversion Hu as [| |? cl cr ? ? ? Hwl Hwr]; subst.
      destruct (black_sibling_right fuel s C cp p wr' w wl t n cr cl) as (s1 & y & Hrun & Hset); [lia|done..|]. by exists s1, y.
    + rewrite decide_True by done. inversion Hu as [|? ? ? ? Hwl Hwr|]; subst. destruct Hcu as [[_ ?]| ->]; [done|].
      destruct (red_sibling_right s C p wr' w wl t H Hp) as (s0 & Hrun & He & Hp0). rewrite (cmd_bind_eq _ _ _ _ _ Hrun).
      destruct (sibling_node _ _ _ Hwr) as (a & v & b & ->). cbn [ptr]. inversion Hwr as [| |? ca cb ? ? ? Ha Hb]; subst.
      destruct Hab as [[? _]|(_ & HC2 & Hlen)]; [done|].
      destruct (black_sibling_right fuel s0 (mkFrame false RB_BLACK w wl :: C) RB_RED p b v a t n cb ca) as (s1 & y & Hrun1 & Hset);
        [lia|done| |done..|by apply He|done|].
      { left. split; [done|]. split; [done|]. by econstructor. }
      rewrite (proj1 (proj2 (proj2 He))) in Hrun1. exists s1, y. split; [exact Hrun1|]. by eapply settled_trans.
Qed.

(** The whole repair. *)
Lemma delete_fixup_run s C t n : holds s (plug C t) -> pointed s C t -> lacks n t -> cxt (S n) C ->
  exists s' T' m, rbtree_delete_fixup (ptr (nil s) t) s = Ret (s', tt) /\ holds s' T' /\ rbt RB_BLACK m T' /\
    inorder T' = inorder (plug C t) /\ nil s' = nil s /\ forall a, a ∉ nil s :: addrs (plug C t) -> nodes s' !! a = nodes s !! a.
Proof.
  intros H Hp Hl HC. unfold rbtree_delete_fixup, tree_fuel. rewrite gets_bind.
  pose proof (context_length C t) as Hcl. pose proof (holds_size _ _ H) as Hsz.
  destruct (delete_fixup_loop_run (S (size (nodes s))) s C t n) as (s1 & x & Hrun & C1 & t1 & k & -> & He & Hlk & Hend); [done..|lia|].
  rewrite (cmd_bind_eq _ _ _ _ _ Hrun). destruct He as (H1 & Hin & Hn1 & Hk1).
  destruct t1 as [|c l e r]; cbn [ptr].
  - destruct (h_nil _ _ H1) as (nn & Hnn & Hc). rewrite (wr_run _ _ _ _ Hnn). destruct Hend as [->|[? _]]; [|done].
    eexists _, Leaf, 0%nat. split; [reflexivity|]. cbn [plug] in *. split; [|split; [constructor|split; [done|split; [done|]]]].
    + destruct H1 as [Hrep Hroot _ Hd]. constructor; try done. eexists. split; [apply lookup_insert_eq|done].
    + intros a Ha. cbn [nodes with_nodes]. rewrite not_elem_of_cons in Ha. rewrite lookup_insert_ne by (rewrite Hn1; intros <-; tauto).
      apply Hk1. tauto.
  - destruct (recolor_run s1 C1 c RB_BLACK l e r H1) as (s2 & Hw & H2 & Hin2 & Hn2 & Hk2).
    assert (Hw' : wr (e_addr e) (set_color RB_BLACK) s1 = Ret (s2, tt)).
    { specialize (Hw unit mret). pose proof (holds_node _ _ _ _ _ _ H1) as Hn. rewrite (wr_bind _ _ _ _ _ Hn) in Hw.
      rewrite (wr_run _ _ _ _ Hn). exact Hw. }
    assert (Hrb : exists m, rbt RB_BLACK m (plug C1 (Node RB_BLACK l e r))).
    { assert (Hb : exists m, rbt RB_BLACK m (Node RB_BLACK l e r) /\ (C1 = [] \/ cxt m C1)).
      { destruct Hlk as [Hb|(cl & cr & l' & e' & r' & [= -> -> -> ->] & Hl1 & Hr1)].
        - exists k. inversion Hb; subst. split; [done|]. destruct Hend as [?|[? _]]; [by left|done].
        - exists (S k). split; [by econstructor|]. destruct Hend as [?|[_ ?]]; [by left|by right]. }
      destruct Hb as (m & Hb & [->|HC1]); [by exists m|].
      destruct (plug_rbt _ _ HC1 RB_BLACK _ Hb) as (c' & m' & Hp' & Hc'); [by left|]. rewrite Hc' in Hp' by by right. by exists m'. }
    destruct Hrb as [m Hrb]. exists s2, (plug C1 (Node RB_BLACK l e r)), m. split; [done|]. split; [done|]. split; [done|].
    split; [congruence|]. split; [congruence|]. intros a Ha. rewrite not_elem_of_cons in Ha. rewrite Hk2, Hk1; [done|tauto|].
    unfold addrs. rewrite Hin. tauto.
Qed.


(** ** Deletion *)

Lemma before_app D C : before (D ++ C) = before C ++ before D.
Proof. induction D as [|f D IH]; cbn [before app]; [by rewrite app_nil_r|]. rewrite IH. by simplify_list_eq. Qed.
Lemma after_app D C : after (D ++ C) = after D ++ after C.
Proof. induction D as [|f D IH]; cbn [after app]; [done|]. rewrite IH. by simplify_list_eq. Qed.

Lemma zoom e t : forall l1 l2, inorder t = l1 ++ e :: l2 -> exists C c l r, t = plug C (Node c l e r) /\
  l1 = before C ++ inorder l /\ l2 = inorder r ++ after C.
Proof.
  induction t as [|c l IHl x r IHr]; intros l1 l2 E; cbn [inorder] in E; [by destruct l1|].
  apply app_eq_inv in E as [([|y k] & E1 & E2)|([|y k] & E1 & E2)]; cbn [app] in E2; injection E2 as E2 E3; subst.
  - exists [], c, l, r. rewrite app_nil_r in E1. cbn. by rewrite E1, app_nil_r.
  - destruct (IHl _ _ E1) as (C & c' & l' & r' & -> & -> & ->).
    exists (C ++ [mkFrame true c x r]), c', l', r'. rewrite plug_app, before_app, after_app. cbn. rewrite ?app_nil_r.
    split; [done|]. split; [done|]. by simplify_list_eq.
  - exists [], c, l, r. cbn. by rewrite ?app_nil_r.
  - destruct (IHr _ _ E3) as (C & c' & l' & r' & -> & -> & ->).
    exists (C ++ [mkFrame false c y l]), c', l', r'. rewrite plug_app, before_app, after_app. cbn. rewrite ?app_nil_r.
    split; [done|]. split; [by simplify_list_eq|done].
Qed.

(** A free node [y] with its right subtree takes the place of [z]. *)
Lemma substitute_run {B} s C z nz y ny c l r' (k : R B) :
  nodes s !! z = Some nz -> parent nz = top (nil s) C -> left nz = ptr (nil s) l -> color nz = c -> l <> Leaf ->
  repc (nil s) (nodes s) C z -> rep (nil s) (nodes s) z l ->
  nodes s !! y = Some ny -> right ny = ptr (nil s) r' -> rep (nil s) (nodes s) y r' ->
  NoDup (nil s :: z :: y :: addrs l ++ addrs r' ++ caddrs C) ->
  (forall t, C <> [] -> root s = ptr (nil s) (plug C t)) -> (exists n, nodes s !! nil s = Some n /\ color n = RB_BLACK) ->
  exists s', (transplant z y;; zl ← rd z left; wr y (set_left zl);; yl ← rd y left; wr yl (set_parent y);;
      zc ← rd z color; wr y (set_color zc);; k) s = k s' /\
    holds s' (plug C (Node c l (mkEntry y (key ny) (data ny)) r')) /\ nil s' = nil s /\
    forall a, a <> y -> a ∉ addrs l -> a ∉ caddrs C -> nodes s' !! a = nodes s !! a.
Proof.
  intros Hz Hzp Hzl Hzc Hl HC Hrl Hy Hyr Hrr Hd Hroot (nn & Hnn & Hnc).
  pose proof Hd as Hd'. rewrite !NoDup_cons, !NoDup_app, !not_elem_of_cons, !not_elem_of_app in Hd'. destruct_and! Hd'.
  repeat match goal with H : forall x, x ∈ _ -> _ |- _ => setoid_rewrite not_elem_of_app in H end.
  destruct (transplant_run s C z y nz ny HC) as (s1 & Hrun1 & Hn1 & HC1 & Hr1 & Hy1 & Hk1).
  all: try done.
  all: try congruence.
  { rewrite !NoDup_cons, not_elem_of_cons. by repeat split. }
  rewrite (cmd_bind_eq _ _ _ _ _ Hrun1).
  assert (Hz1 : nodes s1 !! z = Some nz) by (by rewrite Hk1 by (done || congruence)).
  rewrite (rd_bind _ _ _ _ _ Hz1), (wr_bind _ _ _ _ _ Hy1), Hzl. set (s2 := with_nodes _ s1).
  assert (Hk2 : forall a, a <> y -> nodes s2 !! a = nodes s1 !! a) by (intros; by apply lookup_insert_ne).
  assert (Hy2 : nodes s2 !! y = Some (set_left (ptr (nil s) l) (set_parent (top (nil s) C) ny))) by apply lookup_insert_eq.
  rewrite (rd_bind _ _ _ _ _ Hy2). cbn [left set_left].
  destruct (adopt_run s2 l z y) as (s3 & Hrun3 & Hn3 & Hr3 & Hl3 & Hk3).
  { change (nil s2) with (nil s1). rewrite Hn1. apply (rep_ext _ (nodes s)); [|done]. intros a Ha. rewrite Hk2, Hk1; [done|naive_solver|intros ->; done|intros ->; done]. }
  { change (nil s2) with (nil s1). rewrite Hn1. by rewrite NoDup_cons. }
  change (nil s2) with (nil s1) in *. rewrite Hn1 in *. rewrite decide_True in Hrun3.
  2:{ destruct l as [|cl ll el rl]; [done|]. cbn [ptr]. intros E. rewrite addrs_node in *. set_solver. }
  rewrite (cmd_bind_eq _ _ _ _ _ Hrun3).
  assert (Hz3 : nodes s3 !! z = Some nz) by (rewrite Hk3, Hk2 by (done || congruence); done).
  assert (Hy3 : nodes s3 !! y = Some (set_left (ptr (nil s) l) (set_parent (top (nil s) C) ny))) by (by rewrite Hk3).
  rewrite (rd_bind _ _ _ _ _ Hz3), (wr_bind _ _ _ _ _ Hy3), Hzc. set (s4 := with_nodes _ s3).
  assert (Hk4 : forall a, a <> y -> nodes s4 !! a = nodes s3 !! a) by (intros; by apply lookup_insert_ne).
  assert (Hout : forall a, a <> y -> a ∉ addrs l -> a ∉ caddrs C -> nodes s4 !! a = nodes s !! a).
  { intros a Hay Hal HaC. by rewrite Hk4, Hk3, Hk2, Hk1. }
  assert (Hn4 : nil s4 = nil s) by by rewrite <- Hn3.
  exists s4. split; [done|]. split; [|split; [done|exact Hout]].
  apply holds_plug. rewrite Hn4. cbn [rep ptr e_addr e_key e_data]. split; [|split; [|split; [|split]]].
  - split; [rewrite <- Hyr; apply lookup_insert_eq|]. split.
    + apply (rep_ext _ (nodes s3)); [|done]. intros a Ha. apply Hk4. by intros ->.
    + apply (rep_ext _ (nodes s)); [|done]. intros a Ha. apply Hout; [by intros ->|naive_solver|naive_solver].
  - apply (repc_ext _ (nodes s1)); [|done]. intros a Ha. rewrite Hk4, Hk3, Hk2; [done|by intros ->|naive_solver|by intros ->].
  - change (root s4) with (root s3). rewrite Hr3. change (root s2) with (root s1). rewrite Hr1. destruct C as [|f C]; [done|]. by apply Hroot.
  - exists nn. split; [|done]. rewrite Hout; done.
  - rewrite addrs_node. cbn [e_addr]. apply (NoDup_perm (nil s :: y :: addrs l ++ addrs r' ++ caddrs C)); [|solve_Permutation].
    rewrite !NoDup_cons, !NoDup_app, !not_elem_of_cons, !not_elem_of_app.
    setoid_rewrite not_elem_of_app. repeat split; (done || naive_solver).
Qed.

(** The tree after the unlinking: the hole left by a node of color [cy]. *)
Definition short (cy : RBTColor) (C : context) (t : tree) : Prop :=
  match cy with
  | RB_BLACK => exists n, lacks n t /\ cxt (S n) C
  | RB_RED => exists n, rbt RB_BLACK n t /\ cxt n C
  end.

Definition unlinked (s : rbtree) (T : tree) (es : list entry) (s1 : rbtree) (x : Z) (cy : RBTColor) : Prop :=
  exists C t, x = ptr (nil s) t /\ holds s1 (plug C t) /\ pointed s1 C t /\ inorder (plug C t) = es /\
    short cy C t /\ nil s1 = nil s /\ forall a, a ∉ nil s :: addrs T -> nodes s1 !! a = nodes s !! a.

Lemma short_cut m C c l e r t : rbt RB_BLACK m (plug C (Node c l e r)) -> (l = Leaf /\ t = r) \/ (r = Leaf /\ t = l) ->
  short c C t.
Proof.
  intros (cc & n & Ht & HC & _)%unplug_rbt Hs. destruct Hs as [[-> ->]|[-> ->]]; inversion Ht; subst; cbn [short]; eexists.
  - by split.
  - split; [by eapply lacks_rbt|done].
  - by split.
  - split; [by eapply lacks_rbt|done].
Qed.

Lemma cxt_entry n D b c e e' u C : cxt n (D ++ mkFrame b c e u :: C) -> cxt n (D ++ mkFrame b c e' u :: C).
Proof.
  revert n. induction D as [|f D IH]; intros n H; cbn [app] in *; inversion H as [|? ? ? ? ? Hu Hne Htop HC|? ? ? cu ? ? Hu HC]; subst.
  - by constructor.
  - by econstructor.
  - constructor; [done|by destruct D|by destruct D|by apply IH].
  - econstructor; [done|by apply IH].
Qed.

Lemma short_entry cy D b c e e' u C t : short cy (D ++ mkFrame b c e u :: C) t -> short cy (D ++ mkFrame b c e' u :: C) t.
Proof. destruct cy; intros (n & Ht & HC); exists n; (split; [done|by eapply cxt_entry]). Qed.

(** The rest of the deletion. *)
Lemma rebalance_run s T es s1 x cy : unlinked s T es s1 x cy ->
  (forall a, a ∈ (e_addr <$> es) -> a ∈ addrs T) ->
  exists s' T' m, (if decide (cy = RB_BLACK) then rbtree_delete_fixup x else mret tt) s1 = Ret (s', tt) /\
    holds s' T' /\ rbt RB_BLACK m T' /\ inorder T' = es /\ nil s' = nil s /\
    forall a, a ∉ nil s :: addrs T -> nodes s' !! a = nodes s !! a.
Proof.
  intros (C & t & -> & H & Hp & Hin & Hs & Hn & Hk) Hes. destruct cy; cbn [short] in Hs; destruct Hs as (n & Ht & HC).
  - rewrite decide_True by done. rewrite <- Hn.
    destruct (delete_fixup_run s1 C t n H Hp Ht HC) as (s' & T' & m & Hrun & H' & Hr & Hin' & Hn' & Hk').
    exists s', T', m. rewrite Hn', <- Hin. repeat (split; [done|]). intros a Ha. rewrite Hn in Ha. rewrite Hk', Hk; [done|done|].
    rewrite Hn. rewrite not_elem_of_cons in *. destruct Ha as [Hne Ha]. split; [done|]. unfold addrs at 1. rewrite Hin. intros Ha'. by apply Ha, Hes.
  - rewrite decide_False by done. destruct (plug_rbt _ _ HC RB_BLACK t Ht) as (c & m & Hr & Hc); [by left|].
    rewrite (Hc (or_intror eq_refl)) in Hr. exists s1, (plug C t), m. by repeat (split; [done|]).
Qed.

(** A node with at most one child. *)
Lemma unlink_one s C c l e r t m : holds s (plug C (Node c l e r)) -> rbt RB_BLACK m (plug C (Node c l e r)) ->
  (l = Leaf /\ t = r) \/ (r = Leaf /\ t = l) ->
  exists s1, transplant (e_addr e) (ptr (nil s) t) s = Ret (s1, tt) /\
    unlinked s (plug C (Node c l e r)) (before C ++ inorder l ++ inorder r ++ after C) s1 (ptr (nil s) t) c.
Proof.
  intros H Hr Hs. destruct (cut_run s C c l e r t H Hs) as (s1 & Hrun & H1 & Hp & Hn & Hk). exists s1. split; [done|].
  exists C, t. split; [done|]. split; [done|]. split; [done|]. split; [|split; [by eapply short_cut|split; [done|]]].
  - rewrite inorder_plug. destruct Hs as [[-> ->]|[-> ->]]; by simplify_list_eq.
  - intros a Ha. rewrite not_elem_of_cons in Ha. apply Hk; [|tauto]. destruct Ha as [_ Ha]. intros Hin. apply Ha.
    rewrite addrs_plug in *. rewrite addrs_node. destruct Hs as [[-> ->]|[-> ->]]; set_solver.
Qed.

Lemma root_fixed s C t : holds s (plug C t) -> forall t', C <> [] -> root s = ptr (nil s) (plug C t').
Proof. intros H t' Hne. rewrite (h_root _ _ H). apply ptr_plug. by left. Qed.

(** The successor is the right child itself. *)
Lemma unlink_next {B} s C c l z cy y ry m (k : R B) : let T := plug C (Node c l z (Node cy Leaf y ry)) in
  holds s T -> rbt RB_BLACK m T -> l <> Leaf ->
  exists s1, (wr (ptr (nil s) ry) (set_parent (e_addr y));; transplant (e_addr z) (e_addr y);;
      zl ← rd (e_addr z) left; wr (e_addr y) (set_left zl);;
      yl ← rd (e_addr y) left; wr yl (set_parent (e_addr y));;
      zc ← rd (e_addr z) color; wr (e_addr y) (set_color zc);; k) s = k s1 /\
    unlinked s T (before C ++ inorder l ++ inorder (Node cy Leaf y ry) ++ after C) s1 (ptr (nil s) ry) cy.
Proof.
  intros T H Hrb Hl. pose proof H as (Ht & HC & _ & (nn & Hnn & Hnc) & Hd)%holds_plug. cbn [rep ptr] in Ht, HC.
  destruct Ht as (Hz & Hrl & Hy & _ & Hry). rewrite !addrs_node in Hd. cbn [addrs inorder fmap list_fmap app] in Hd.
  assert (Hd1 : NoDup (nil s :: e_addr z :: e_addr y :: addrs l ++ addrs ry ++ caddrs C)) by (apply (NoDup_perm _ _ Hd); solve_Permutation).
  clear Hd. pose proof Hd1 as Hd. rewrite !NoDup_cons, !not_elem_of_cons, !not_elem_of_app in Hd. destruct_and! Hd.
  set (x := ptr (nil s) ry).
  assert (Hx : exists nx, nodes s !! x = Some nx /\ (x <> nil s -> set_parent (e_addr y) nx = nx) /\ (x = nil s -> color nx = RB_BLACK)).
  { destruct ry as [|cr lr er rr]; subst x; cbn [ptr]; [by exists nn|]. destruct Hry as (Hr & _). eexists. split; [exact Hr|].
    split; [done|]. intros E. rewrite addrs_node in *. set_solver. }
  destruct Hx as (nx & Hx & Hx1 & Hx2). rewrite (wr_bind _ _ _ _ _ Hx). set (s1 := with_nodes _ s).
  assert (Hk1 : forall a, a <> nil s -> nodes s1 !! a = nodes s !! a).
  { intros a Ha. cbn [s1 nodes with_nodes]. destruct (decide (a = x)) as [->|]; [|by apply lookup_insert_ne].
    rewrite lookup_insert_eq, Hx1 by done. done. }
  assert (Hnil1 : exists n, nodes s1 !! nil s = Some n /\ color n = RB_BLACK /\ (ry = Leaf -> parent n = e_addr y)).
  { cbn [s1 nodes with_nodes]. destruct (decide (x = nil s)) as [E|Hne].
    - rewrite E, lookup_insert_eq. eexists. split; [done|]. split; [by apply Hx2|done].
    - rewrite lookup_insert_ne by done. exists nn. split; [done|]. split; [done|]. by intros ->. }
  destruct Hnil1 as (n1 & Hn1 & Hc1 & Hp1).
  destruct (substitute_run s1 C (e_addr z) (mkNode (e_key z) (e_data z) c (top (nil s) C) (ptr (nil s) l) (e_addr y)) (e_addr y)
    (mkNode (e_key y) (e_data y) cy (e_addr z) (nil s) x) c l ry k) as (s2 & Hrun & Hs2 & Hn2 & Hk2); cbn [key data] in *; try done.
  - by rewrite Hk1.
  - apply (repc_ext _ (nodes s)); [|done]. intros a Ha. apply Hk1. set_solver.
  - apply (rep_ext _ (nodes s)); [|done]. intros a Ha. apply Hk1. set_solver.
  - by rewrite Hk1.
  - apply (rep_ext _ (nodes s)); [|done]. intros a Ha. apply Hk1. set_solver.
  - by apply (root_fixed s C _ H).
  - by exists n1.
  - exists s2. split; [exact Hrun|]. change (nil s1) with (nil s) in *.
    replace (mkEntry (e_addr y) (e_key y) (e_data y)) with y in Hs2 by by destruct y.
    exists (mkFrame false c y l :: C), ry. split; [done|]. split; [done|]. split; [|split; [|split; [|split; [done|]]]].
    + destruct (leaf_dec ry) as [->|Hne]; [|destruct ry; [done|by apply pointed_node]].
      exists n1. rewrite Hn2. cbn [ptr top f_entry]. rewrite Hk2 by set_solver. split; [done|by apply Hp1].
    + rewrite !inorder_plug. cbn [plug1 hole_left f_color f_entry sibling inorder before after app]. by simplify_list_eq.
    + apply (short_entry cy []  false c z). apply (short_cut m (mkFrame false c z l :: C) cy Leaf y ry ry); [exact Hrb|by left].
    + intros a Ha. rewrite not_elem_of_cons in Ha. unfold T in Ha. rewrite addrs_plug, !addrs_node in Ha.
      rewrite Hk2, Hk1; [done|set_solver..].
Qed.

Lemma apart_from (n z y : Z) (L R C : list Z) : NoDup (n :: z :: y :: L ++ R ++ C) ->
  forall a, a = n \/ a = z \/ a ∈ L \/ a ∈ C -> a <> y /\ a ∉ R.
Proof.
  intros Hd. rewrite !NoDup_cons, !NoDup_app, !not_elem_of_cons, !not_elem_of_app in Hd. destruct_and! Hd.
  repeat match goal with H : forall x, x ∈ _ -> _ |- _ => setoid_rewrite not_elem_of_app in H end.
  intros a [->|[->|[Ha|Ha]]]; [done|done| |]; (split; [by intros ->|naive_solver]).
Qed.

(** The successor [y] lies deeper: it is cut out first, then takes over the
    right subtree. *)
Lemma unlink_far {B} s C c l z f D cy y ry m (k : R B) :
  let r := plug (f :: D) (Node cy Leaf y ry) in let T := plug C (Node c l z r) in
  holds s T -> rbt RB_BLACK m T -> l <> Leaf -> before (f :: D) = [] ->
  exists s1, (transplant (e_addr y) (ptr (nil s) ry);;
      zr ← rd (e_addr z) right; wr (e_addr y) (set_right zr);;
      yr ← rd (e_addr y) right; wr yr (set_parent (e_addr y));;
      transplant (e_addr z) (e_addr y);;
      zl ← rd (e_addr z) left; wr (e_addr y) (set_left zl);;
      yl ← rd (e_addr y) left; wr yl (set_parent (e_addr y));;
      zc ← rd (e_addr z) color; wr (e_addr y) (set_color zc);; k) s = k s1 /\
    unlinked s T (before C ++ inorder l ++ inorder r ++ after C) s1 (ptr (nil s) ry) cy.
Proof.
  intros r T H Hrb Hl Hbf. set (E := mkFrame false c z l).
  assert (HT : T = plug ((f :: D) ++ E :: C) (Node cy Leaf y ry)) by by rewrite plug_app.
  pose proof H as H0. rewrite HT in H0. pose proof (holds_node _ _ _ _ _ _ H0) as Hy.
  pose proof (holds_apart _ _ _ _ _ _ H0) as (Hyn & _ & Hyry & HyDC & _).
  destruct (cut_run s ((f :: D) ++ E :: C) cy Leaf y ry ry H0) as (s1 & Hrun1 & H1 & Hp1 & Hn1 & Hk1); [by left|].
  rewrite (cmd_bind_eq _ _ _ _ _ Hrun1).
  assert (Hy1 : nodes s1 !! e_addr y = nodes s !! e_addr y).
  { apply Hk1; [|done]. rewrite addrs_plug, not_elem_of_app. done. } rewrite Hy in Hy1. clear Hy.
  set (r' := plug (f :: D) ry).
  assert (H1' : holds s1 (plug C (Node c l z r'))) by by rewrite plug_app in H1.
  assert (HyT : e_addr y ∉ addrs (plug C (Node c l z r'))).
  { change (plug C (Node c l z r')) with (plug (E :: C) r'). unfold r'. rewrite <- plug_app, addrs_plug, not_elem_of_app. done. }
  assert (Hr' : r' <> Leaf).
  { intros E0. pose proof (ptr_plug_in 0 f D ry) as Hin. fold r' in Hin. subst r'. clear -E0. revert f ry E0.
    induction D as [|g D IH]; intros f ry; cbn [plug]; [by destruct f as [[] ? ? ?]|apply IH]. }
  assert (Hinr : inorder r = y :: inorder r').
  { unfold r, r'. rewrite !inorder_plug, Hbf. done. }
  pose proof H1' as (Ht & HC & _ & (nn & Hnn & Hnc) & Hd)%holds_plug. cbn [rep ptr] in Ht, HC. destruct Ht as (Hz & Hrl & Hrr).
  assert (Hd1 : NoDup (nil s1 :: e_addr z :: e_addr y :: addrs l ++ addrs r' ++ caddrs C)).
  { rewrite addrs_plug in HyT. rewrite addrs_node in *. rewrite Hn1 in *.
    apply (NoDup_perm (e_addr y :: nil s :: (addrs l ++ e_addr z :: addrs r') ++ caddrs C)); [|solve_Permutation].
    apply NoDup_cons. split; [|done]. rewrite not_elem_of_cons. done. }
  clear Hd. pose proof Hd1 as Hd. rewrite !NoDup_cons, !not_elem_of_cons, !not_elem_of_app in Hd. destruct_and! Hd.
  assert (Hsep : forall a, a = nil s1 \/ a = e_addr z \/ a ∈ addrs l \/ a ∈ caddrs C -> a <> e_addr y /\ a ∉ addrs r').
  { by apply apart_from. }
  assert (Hpr : ptr (nil s1) r' <> nil s1).
  { destruct r' as [|cr lr er rr]; [done|]. cbn [ptr]. destruct (Hsep (nil s1)) as [_ Hn]; [by left|]. rewrite addrs_node in Hn. set_solver. }
  rewrite (rd_bind _ _ _ _ _ Hz), (wr_bind _ _ _ _ _ Hy1). cbn [right set_right]. set (s2 := with_nodes _ s1).
  assert (Hk2 : forall a, a <> e_addr y -> nodes s2 !! a = nodes s1 !! a) by (intros; by apply lookup_insert_ne).
  assert (Hy2 : nodes s2 !! e_addr y = Some (mkNode (e_key y) (e_data y) cy (top (nil s) ((f :: D) ++ E :: C)) (ptr (nil s) Leaf) (ptr (nil s1) r')))
    by apply lookup_insert_eq.
  rewrite (rd_bind _ _ _ _ _ Hy2). cbn [right].
  destruct (adopt_run s2 r' (e_addr z) (e_addr y)) as (s3 & Hrun3 & Hn3 & Hr3 & Hrr3 & Hk3).
  { apply (rep_ext _ (nodes s1)); [|done]. intros a Ha. apply Hk2. by intros ->. }
  { change (nil s2) with (nil s1). apply NoDup_cons. split; [done|]. by rewrite !NoDup_app in *; destruct_and!. }
  change (nil s2) with (nil s1) in *. rewrite decide_True in Hrun3 by done. rewrite (cmd_bind_eq _ _ _ _ _ Hrun3).
  assert (Hk : forall a, a <> e_addr y -> a ∉ addrs r' -> nodes s3 !! a = nodes s1 !! a) by (intros; by rewrite Hk3, Hk2).
  assert (Hkk : forall a, a = nil s1 \/ a = e_addr z \/ a ∈ addrs l \/ a ∈ caddrs C -> nodes s3 !! a = nodes s1 !! a) by (intros a [? ?]%Hsep; by apply Hk).
  destruct (substitute_run s3 C (e_addr z) (mkNode (e_key z) (e_data z) c (top (nil s1) C) (ptr (nil s1) l) (ptr (nil s1) r')) (e_addr y)
    (mkNode (e_key y) (e_data y) cy (top (nil s) ((f :: D) ++ E :: C)) (ptr (nil s) Leaf) (ptr (nil s1) r')) c l r' k)
    as (s4 & Hrun4 & Hs4 & Hn4 & Hk4); rewrite ?Hn3; cbn [key data] in *; try done.
  - rewrite Hkk; [done|tauto].
  - apply (repc_ext _ (nodes s1)); [|done]. intros a Ha. apply Hkk; tauto.
  - apply (rep_ext _ (nodes s1)); [|done]. intros a Ha. apply Hkk; tauto.
  - by rewrite Hk3.
  - rewrite Hr3. by apply (root_fixed s1 C _ H1').
  - exists nn. rewrite Hkk by tauto. done.
  - exists s4. split; [exact Hrun4|]. rewrite Hn3 in *.
    replace (mkEntry (e_addr y) (e_key y) (e_data y)) with y in Hs4 by by destruct y.
    exists ((f :: D) ++ mkFrame false c y l :: C), ry. split; [done|].
    assert (Hplug : plug ((f :: D) ++ mkFrame false c y l :: C) ry = plug C (Node c l y r')) by by rewrite plug_app.
    rewrite Hplug. split; [done|]. split; [|split; [|split; [|split; [congruence|]]]].
    + destruct (leaf_dec ry) as [->|Hne]; [|destruct ry; [done|apply pointed_node; by rewrite Hplug]].
      destruct Hp1 as (n & Hn & Hp). exists n. rewrite Hn4. cbn [ptr top f_entry app] in *. rewrite Hk4, Hkk by (done || congruence || tauto). done.
    + rewrite inorder_plug. cbn [inorder]. rewrite Hinr. by simplify_list_eq.
    + apply (short_entry cy (f :: D) false c z). apply (short_cut m _ cy Leaf y ry ry); [|by left]. exact (eq_ind _ (rbt RB_BLACK m) Hrb _ HT).
    + intros a Ha. rewrite not_elem_of_cons in Ha. destruct Ha as [Han Ha].
      assert (Ha' : a <> e_addr y /\ a ∉ addrs (plug C (Node c l z r'))).
      { clear -Ha Hinr. unfold T, addrs in *. rewrite !inorder_plug in *. cbn [inorder] in *. rewrite Hinr in Ha. set_solver. }
      destruct Ha' as [Hay Ha']. pose proof Ha' as Hb. rewrite addrs_plug, addrs_node in Hb.
      rewrite Hk4, Hk; [|done|clear -Hb; set_solver|done|clear -Hb; set_solver..]. apply Hk1; [|congruence]. by rewrite plug_app.
Qed.

(** The unlinking, whatever the children. *)
Lemma unlink_run s C c l e r m : let T := plug C (Node c l e r) in holds s T -> rbt RB_BLACK m T ->
  exists s1 x cy, (if decide (ptr (nil s) l = nil s) then
       x ← rd (e_addr e) right; transplant (e_addr e) x;; mret (x, c)
     else
       zr ← rd (e_addr e) right;
       if decide (zr = nil s) then
         x ← rd (e_addr e) left; transplant (e_addr e) x;; mret (x, c)
       else
         y ← rbtree_minimum zr;
         y_original_color ← rd y color;
         x ← rd y right;
         yp ← rd y parent;
         (if decide (yp = e_addr e) then wr x (set_parent y)
          else
            transplant y x;;
            zr ← rd (e_addr e) right;
            wr y (set_right zr);;
            yr ← rd y right;
            wr yr (set_parent y));;
         transplant (e_addr e) y;;
         zl ← rd (e_addr e) left;
         wr y (set_left zl);;
         yl ← rd y left;
         wr yl (set_parent y);;
         zc ← rd (e_addr e) color;
         wr y (set_color zc);;
         mret (x, y_original_color)) s = Ret (s1, (x, cy)) /\
    unlinked s T (before C ++ inorder l ++ inorder r ++ after C) s1 x cy.
Proof.
  intros T H Hrb. pose proof (holds_apart _ _ _ _ _ _ H) as (Hen & Hel & Her & HeC & Hnl & Hnr & _).
  destruct (leaf_dec l) as [->|Hl].
  { cbn [ptr]. rewrite decide_True by done. rewrite (node_bind s C c Leaf e r _ _ H). cbn [right].
    destruct (unlink_one s C c Leaf e r r m H Hrb) as (s1 & Hrun & Hu); [by left|].
    exists s1, (ptr (nil s) r), c. by rewrite (cmd_bind_eq _ _ _ _ _ Hrun). }
  rewrite decide_False.
  2:{ destruct l as [|cl ll el rl]; [done|]. cbn [ptr]. intros E. apply Hnl. rewrite <- E, addrs_node. set_solver. }
  rewrite (node_bind s C c l e r _ _ H). cbn [right]. destruct r as [|rc rl re rr].
  { cbn [ptr]. rewrite decide_True by done. rewrite (node_bind s C c l e Leaf _ _ H). cbn [left].
    destruct (unlink_one s C c l e Leaf l m H Hrb) as (s1 & Hrun & Hu); [by right|].
    exists s1, (ptr (nil s) l), c. by rewrite (cmd_bind_eq _ _ _ _ _ Hrun). }
  cbn [ptr]. rewrite decide_False by (intros E; apply Hnr; rewrite <- E, addrs_node; set_solver).
  assert (H' : holds s (plug (mkFrame false c e l :: C) (Node rc rl re rr))) by exact H.
  pose proof (holds_size _ _ H') as Hsz. pose proof (height_inorder (Node rc rl re rr)) as Hh.
  destruct (minimum_run (S (size (nodes s))) s (mkFrame false c e l :: C) rc rl re rr H') as (D & cy & y & ry & Er & Hbf & Hmin).
  { rewrite inorder_plug, !length_app in Hsz. lia. }
  rewrite (cmd_bind_eq (rbtree_minimum (e_addr re)) _ s s (e_addr y)) by (unfold rbtree_minimum, tree_fuel; by rewrite gets_bind).
  subst T. rewrite Er in H, Hrb, H', Her |- *. clear Er Hnr Hsz Hh Hmin rc rl re rr.
  assert (Hy : holds s (plug (D ++ mkFrame false c e l :: C) (Node cy Leaf y ry))) by by rewrite plug_app.
  rewrite !(node_bind s _ _ _ _ _ _ _ Hy). cbn [color right parent].
  destruct D as [|f D].
  - cbn [app top f_entry plug] in *. rewrite decide_True by done.
    destruct (unlink_next s C c l e cy y ry m (mret (ptr (nil s) ry, cy)) H Hrb Hl) as (s1 & Hrun & Hu).
    exists s1, (ptr (nil s) ry), cy. by split.
  - rewrite decide_False.
    2:{ cbn [app top]. intros E. apply Her. rewrite addrs_plug, <- E. apply elem_of_app. right. by left. }
    destruct (unlink_far s C c l e f D cy y ry m (mret (ptr (nil s) ry, cy)) H Hrb Hl Hbf) as (s1 & Hrun & Hu).
    exists s1, (ptr (nil s) ry), cy. split; [|done]. etrans; [|exact Hrun]. clear. unfold mbind, cmd_mbind.
    repeat (case_match; simplify_eq; try done).
Qed.

(** C22. Deletion. The entry leaves the list of entries in order and every other
    entry stays, the tree is again a red-black tree with a black root, and only
    the nodes of the tree and the sentinel change. The loops terminate. *)
Theorem rbtree_delete_correct s T m l1 e l2 : holds s T -> rbt RB_BLACK m T -> inorder T = l1 ++ e :: l2 ->
  exists s' T' m', rbtree_delete (e_addr e) s = Ret (s', tt) /\ holds s' T' /\ rbt RB_BLACK m' T' /\
    inorder T' = l1 ++ l2 /\ nil s' = nil s /\ forall a, a ∉ nil s :: addrs T -> nodes s' !! a = nodes s !! a.
Proof.
  intros H Hrb Hin. destruct (zoom e T l1 l2 Hin) as (C & c & l & r & -> & El1 & El2).
  assert (Hsub : forall a, a ∈ (e_addr <$> l1 ++ l2) -> a ∈ addrs (plug C (Node c l e r))).
  { intros a. unfold addrs at 1. rewrite Hin, !fmap_app, fmap_cons. set_solver. }
  replace (l1 ++ l2) with (before C ++ inorder l ++ inorder r ++ after C) in * by (subst; by simplify_list_eq).
  unfold rbtree_delete. rewrite (node_bind s C c l e r _ _ H). cbn [color]. rewrite gets_bind.
  rewrite (node_bind s C c l e r _ _ H). cbn [left].
  destruct (unlink_run s C c l e r m H Hrb) as (s1 & x & cy & Hrun & Hu). rewrite (cmd_bind_eq _ _ _ _ _ Hrun).
  by apply (rebalance_run s (plug C (Node c l e r)) (before C ++ inorder l ++ inorder r ++ after C) s1).
Qed.

Lemma rbtree_delete_correct_witness : exists s' T' m', rbtree_delete 16 sample = Ret (s', tt) /\ holds s' T' /\
  rbt RB_BLACK m' T' /\ inorder T' = [mkEntry 12 5 50; mkEntry 20 20 200].
Proof.
  destruct (rbtree_delete_correct sample sample_tree 1 [mkEntry 12 5 50] (mkEntry 16 10 100) [mkEntry 20 20 200])
    as (s' & T' & m' & ? & ? & ? & ? & _); [exact sample_holds|exact sample_rbt|reflexivity|by exists s', T', m'].
Defined.
