(* ===== verification/Console.v ===== *)
(** * The console (src/kernel/kerio.c, include/kernel/kerio.h)

    The text screen, the cursor and formatted printing. The screen is the list
    of its 16-bit cells in row order, character in the low byte and attribute in
    the high one; the hardware behind the VGA ports is that of Ports.v, the bytes
    of the rest of the memory those of CString.v. Variadic arguments are a list
    of words.

    What is shown is specified by a terminal of complete rows and a current row
    ([tty]); the text printed is proved to appear there, scrolled. *)
From S2P Require Import Prelude CString Ports.

Definition VIDEO_WIDTH : Z := 80.
Definition VIDEO_HEIGHT : Z := 25.
Definition VGA_COMMAND_PORT : Z := 0x3D4.
Definition VGA_DATA_PORT : Z := 0x3D5.
Definition VGA_CURSOR_HIGH_BYTE : Z := 0x0E.
Definition VGA_CURSOR_LOW_BYTE : Z := 0x0F.

(** [video_memory], [screen_cursor], the static buffer of [print_char], the
    bytes of the memory, the hardware. *)
Record console (W : Type) := mkConsole {
  video : list Z; cx : Z; cy : Z; char_buffer : list Z; bytes : mem; hw : W
}.
Arguments mkConsole {W} _ _ _ _ _ _.
Arguments video {W} _. Arguments cx {W} _. Arguments cy {W} _.
Arguments char_buffer {W} _. Arguments bytes {W} _. Arguments hw {W} _.

Definition s8 (z : Z) : Z := (z + 128) mod 256 - 128.

Section console.
Context `{Hardware W}.
Abbreviation T := (cmd (console W)).

Definition with_video v (s : console W) := mkConsole v (cx s) (cy s) (char_buffer s) (bytes s) (hw s).
Definition set_x x (s : console W) := mkConsole (video s) (u8 x) (cy s) (char_buffer s) (bytes s) (hw s).
Definition set_y y (s : console W) := mkConsole (video s) (cx s) (u8 y) (char_buffer s) (bytes s) (hw s).
Definition with_char_buffer b (s : console W) := mkConsole (video s) (cx s) (cy s) b (bytes s) (hw s).
Definition on_bytes {A} (c : cmd mem A) : T A := fun s =>
  match c (bytes s) with
  | Ret (m, a) => Ret (mkConsole (video s) (cx s) (cy s) (char_buffer s) m (hw s), a)
  | Fault => Fault
  | Spin => Spin
  end.
Definition on_hw {A} (c : cmd W A) : T A := fun s =>
  match c (hw s) with
  | Ret (h, a) => Ret (mkConsole (video s) (cx s) (cy s) (char_buffer s) (bytes s) h, a)
  | Fault => Fault
  | Spin => Spin
  end.
Definition outb (port value : Z) : T unit := on_hw (write_8bit port value).
Definition inb (port : Z) : T Z := on_hw (read_8bit port).

(** ** The screen *)

Definition get_buffer_value (x y : Z) : T Z := v ← gets video; lift (deref (zget v (VIDEO_WIDTH * y + x))).
Definition set_buffer_value (x y value : Z) : T unit :=
  v ← gets video; v' ← lift (deref (zset v (VIDEO_WIDTH * y + x) (u16 value))); modify (with_video v').

Definition get_char (x y : Z) : T Z :=
  if decide (x >= VIDEO_WIDTH \/ y >= VIDEO_HEIGHT) then mret 0 else
  v ← get_buffer_value x y; mret (s8 (Z.land v 0x00FF)).

(** [c] is a [char], so it is sign extended before the [|]. *)
Definition put_char (x y c : Z) : T unit :=
  value ← get_buffer_value x y;
  set_buffer_value x y (Z.lor (Z.land value 0xFF00) (s8 c)).

Fixpoint full_remainder_loop (n : nat) (x y : Z) : T unit :=
  match n with
  | O => mret tt
  | S n' => put_char x y 32;; full_remainder_loop n' (x + 1) y
  end.
Definition full_remainder_char (start_x y : Z) : T unit :=
  full_remainder_loop (Z.to_nat (VIDEO_WIDTH - start_x)) start_x y.

Fixpoint copy_row (n : nat) (x y : Z) : T unit :=
  match n with
  | O => mret tt
  | S n' => value ← get_buffer_value x y; set_buffer_value x (y - 1) value;; copy_row n' (x + 1) y
  end.
Fixpoint copy_rows (n : nat) (y : Z) : T unit :=
  match n with
  | O => mret tt
  | S n' => copy_row (Z.to_nat VIDEO_WIDTH) 0 y;; copy_rows n' (y + 1)
  end.
Definition next_line : T unit :=
  copy_rows (Z.to_nat (VIDEO_HEIGHT - 1)) 1;;
  full_remainder_char 0 (VIDEO_HEIGHT - 1);;
  modify (set_x 0);;
  modify (set_y (VIDEO_HEIGHT - 1)).

(** The body of the loop of [printk]: one character. *)
Definition printk_char (c : Z) : T unit :=
  x ← gets cx; y ← gets cy;
  (if decide (c = 10) then
     full_remainder_char x y;; modify (set_y (y + 1));; modify (set_x 0)
   else if decide (c = 8) then
     if decide (x > 0) then
       modify (set_x (x - 1));; x ← gets cx; put_char x y 32
     else if decide (y > 0) then
       modify (set_y (y - 1));; modify (set_x (VIDEO_WIDTH - 1));;
       x ← gets cx; y ← gets cy; put_char x y 32
     else mret tt
   else if decide (c = 9) then
     modify (set_x (Z.land (x + 8) (Z.lnot 7)))
   else
     put_char x y c;; modify (set_x (x + 1)));;
  x ← gets cx;
  (if decide (x >= VIDEO_WIDTH) then
     modify (set_x 0);; y ← gets cy; modify (set_y (y + 1))
   else mret tt);;
  y ← gets cy;
  if decide (y >= VIDEO_HEIGHT) then next_line else mret tt.

Fixpoint printk_loop (fuel : nat) (read : Z -> T Z) (i : Z) : T unit :=
  match fuel with
  | O => spin
  | S fuel' =>
      c ← read i;
      if decide (c = 0) then mret tt else
      printk_char c;; printk_loop fuel' read (i + 1)
  end.
Definition printk (str : Z) : T unit :=
  fuel ← on_bytes str_fuel; printk_loop fuel (fun i => on_bytes (load (str + i))) 0.

(** The static buffer holds the character and a 0. *)
Definition print_char (c : Z) : T unit :=
  b ← gets char_buffer;
  b' ← lift (deref (zset b 0 (u8 c)));
  modify (with_char_buffer b');;
  printk_loop 3 (fun i => b ← gets char_buffer; lift (deref (zget b i))) 0.

Fixpoint clean_loop (n : nat) (i : Z) : T unit :=
  match n with
  | O => mret tt
  | S n' =>
      v ← gets video;
      value ← lift (deref (zget v i));
      v' ← lift (deref (zset v i (u16 (Z.lor (Z.land value 0xFF00) 32))));
      modify (with_video v');;
      clean_loop n' (i + 1)
  end.
Definition clean : T unit :=
  modify (set_x 0);; modify (set_y 0);; clean_loop (Z.to_nat (VIDEO_WIDTH * VIDEO_HEIGHT)) 0.

Fixpoint update_loop (n : nat) (buffer i : Z) : T unit :=
  match n with
  | O => mret tt
  | S n' =>
      lo ← on_bytes (load (buffer + 2 * i));
      hi ← on_bytes (load (buffer + 2 * i + 1));
      v ← gets video;
      v' ← lift (deref (zset v i (lo + 256 * hi)));
      modify (with_video v');;
      update_loop n' buffer (i + 1)
  end.
Definition update_video_buffer (buffer : Z) : T unit :=
  update_loop (Z.to_nat (VIDEO_HEIGHT * VIDEO_WIDTH)) buffer 0.

(** ** The cursor *)

Definition set_cursor_position (x y : Z) : T unit :=
  let x := if decide (x >= VIDEO_WIDTH) then VIDEO_WIDTH - 1 else x in
  let y := if decide (y >= VIDEO_HEIGHT) then VIDEO_HEIGHT - 1 else y in
  modify (set_x x);;
  modify (set_y y);;
  let cursor_position := u16 (y * VIDEO_WIDTH + x) in
  outb VGA_COMMAND_PORT VGA_CURSOR_LOW_BYTE;;
  outb VGA_DATA_PORT (Z.land cursor_position 0xFF);;
  outb VGA_COMMAND_PORT VGA_CURSOR_HIGH_BYTE;;
  outb VGA_DATA_PORT (Z.land (Z.shiftr cursor_position 8) 0xFF).

Definition get_cursor_position (x y : Z) : T unit :=
  (if decide (x <> 0) then v ← gets cx; on_bytes (store x v) else mret tt);;
  (if decide (y <> 0) then v ← gets cy; on_bytes (store y v) else mret tt).

Definition update_cursor : T unit := x ← gets cx; y ← gets cy; set_cursor_position x y.

Definition show_cursor : T unit :=
  outb VGA_COMMAND_PORT 0x0A;;
  cursor_start ← inb VGA_DATA_PORT;
  outb VGA_COMMAND_PORT 0x0A;;
  outb VGA_DATA_PORT (Z.land cursor_start 0x1F);;
  update_cursor.

Definition hide_cursor : T unit :=
  outb VGA_COMMAND_PORT 0x0A;;
  outb VGA_DATA_PORT 0x20.

Definition get_screen_x : T Z := gets cx.
Definition get_screen_y : T Z := gets cy.

(** ** Formatted printing *)

(** for (i = 0; i < n; i++) print_char(the byte at p + i) *)
Fixpoint print_bytes (n : nat) (p : Z) : T unit :=
  match n with
  | O => mret tt
  | S n' => c ← on_bytes (load p); print_char c;; print_bytes n' (p + 1)
  end.
Fixpoint print_pad (n : nat) (c : Z) : T unit :=
  match n with O => mret tt | S n' => print_char c;; print_pad n' c end.

Fixpoint parse_flags (fuel : nat) (f flags : Z) : T (Z * Z) :=
  match fuel with
  | O => spin
  | S fuel' =>
      c ← on_bytes (load f);
      if decide (c = 45) then parse_flags fuel' (f + 1) (Z.lor flags 0x01)
      else if decide (c = 43) then parse_flags fuel' (f + 1) (Z.lor flags 0x02)
      else if decide (c = 32) then parse_flags fuel' (f + 1) (Z.lor flags 0x04)
      else if decide (c = 35) then parse_flags fuel' (f + 1) (Z.lor flags 0x10)
      else if decide (c = 48) then parse_flags fuel' (f + 1) (Z.lor flags 0x08)
      else mret (f, flags)
  end.

Fixpoint parse_number (fuel : nat) (f n : Z) : T (Z * Z) :=
  match fuel with
  | O => spin
  | S fuel' =>
      c ← on_bytes (load f);
      if decide (48 <= c <= 57) then parse_number fuel' (f + 1) (s32 (n * 10 + (c - 48)))
      else mret (f, n)
  end.

(** va_arg *)
Definition next_arg (args : list Z) : T (Z * list Z) :=
  match args with [] => fault | a :: args' => mret (u32 a, args') end.

(** %d, %i, %u, %o, %x, %X *)
Definition print_number (small_buffer num base uppercase width precision flags : Z) : T unit :=
  len ← on_bytes (int_to_string (s32 num) small_buffer base uppercase width
                    (if decide (precision < 0) then 1 else precision) flags);
  print_bytes (Z.to_nat len) small_buffer.

Definition print_c (c width flags : Z) : T unit :=
  (if decide (width > 1) then
     if has_flag flags 0x01 then mret tt
     else print_pad (Z.to_nat (width - 1)) (if has_flag flags 0x08 then 48 else 32)
   else mret tt);;
  print_char c;;
  (if decide (width > 1) then
     if has_flag flags 0x01 then print_pad (Z.to_nat (width - 1)) 32 else mret tt
   else mret tt).

(** [width] is compared with the unsigned [len]. *)
Definition print_s (str width precision flags : Z) : T unit :=
  len ← on_bytes (strlen str);
  let len := if decide (precision >= 0 /\ len > precision) then precision else len in
  (if decide (u32 width > len) then
     if has_flag flags 0x01 then mret tt
     else print_pad (Z.to_nat (u32 width - len)) (if has_flag flags 0x08 then 48 else 32)
   else mret tt);;
  print_bytes (Z.to_nat len) str;;
  (if has_flag flags 0x01 then
     if decide (u32 width > len) then print_pad (Z.to_nat (u32 width - len)) 32 else mret tt
   else mret tt).

Definition print_p (small_buffer addr width : Z) : T unit :=
  print_char 48;;
  print_char 120;;
  len ← on_bytes (int_to_string (s32 addr) small_buffer 16 0 (s32 (width - 2)) 1 0);
  print_bytes (Z.to_nat len) small_buffer.

(** The conversion [c]; the result are the arguments that are left. *)
Definition conversion (small_buffer c width precision flags : Z) (args : list Z) : T (list Z) :=
  if decide (c = 100 \/ c = 105) then
    '(a, args) ← next_arg args; print_number small_buffer a 10 0 width precision flags;; mret args
  else if decide (c = 117) then
    '(a, args) ← next_arg args; print_number small_buffer a 10 0 width precision flags;; mret args
  else if decide (c = 111) then
    '(a, args) ← next_arg args; print_number small_buffer a 8 0 width precision flags;; mret args
  else if decide (c = 120) then
    '(a, args) ← next_arg args; print_number small_buffer a 16 0 width precision flags;; mret args
  else if decide (c = 88) then
    '(a, args) ← next_arg args; print_number small_buffer a 16 1 width precision flags;; mret args
  else if decide (c = 99) then '(a, args) ← next_arg args; print_c (u8 a) width flags;; mret args
  else if decide (c = 115) then '(a, args) ← next_arg args; print_s a width precision flags;; mret args
  else if decide (c = 112) then '(a, args) ← next_arg args; print_p small_buffer a width;; mret args
  else if decide (c = 37) then print_char 37;; mret args
  else print_char c;; mret args.

(** [small_buffer] is the address of the local array. A format that ends in an
    incomplete conversion is read on behind its terminator. *)
Fixpoint printf_loop (fuel : nat) (small_buffer format : Z) (args : list Z) : T unit :=
  match fuel with
  | O => spin
  | S fuel' =>
      c ← on_bytes (load format);
      if decide (c = 0) then mret tt
      else if decide (c <> 37) then print_char c;; printf_loop fuel' small_buffer (format + 1) args
      else
        n ← on_bytes str_fuel;
        '(f, flags) ← parse_flags n (format + 1) 0;
        '(f, width) ← parse_number n f 0;
        c ← on_bytes (load f);
        '(f, precision) ← (if decide (c = 46) then parse_number n (f + 1) 0 else mret (f, -1));
        c ← on_bytes (load f);
        args ← conversion small_buffer c width precision flags args;
        printf_loop fuel' small_buffer (f + 1) args
  end.
Definition handler_printf (small_buffer format : Z) (args : list Z) : T Z :=
  fuel ← on_bytes str_fuel; printf_loop fuel small_buffer format args;; mret 0.

Definition kernel_printf (small_buffer format : Z) (args : list Z) : T unit :=
  handler_printf small_buffer format args;; mret tt.
End console.

(** ** What the screen shows *)

(** A terminal: the complete rows on the screen, and the row of the cursor up to
    the cursor. Everything behind is blank. *)
Record tty := mkTTY { rows : list (list Z); cur : list Z }.
Definition blanks (n : nat) : list Z := replicate n 32.
Definition pad_row (r : list Z) : list Z := r ++ blanks (80 - length r).

(** The row [r] ends; when all 25 rows are used the first one is scrolled out. *)
Definition end_row (r : list Z) (t : tty) : tty :=
  let rs := rows t ++ [pad_row r] in mkTTY (if decide (length rs = 25%nat) then tail rs else rs) [].
Definition extend_row (r : list Z) (t : tty) : tty :=
  if decide (length r = 80%nat) then end_row r t else mkTTY (rows t) r.

Definition tty_put (t : tty) (c : Z) : tty :=
  if decide (c = 10) then end_row (cur t) t
  else if decide (c = 8) then
    match cur t, last (rows t) with
    | _ :: _, _ => mkTTY (rows t) (removelast (cur t))
    | [], Some r => mkTTY (removelast (rows t)) (take 79 r)
    | [], None => t
    end
  else if decide (c = 9) then extend_row (cur t ++ blanks (8 - length (cur t) mod 8)) t
  else extend_row (cur t ++ [c]) t.

Definition low (v : Z) : Z := Z.land v 0xFF.

Section screen.
Context `{Hardware W}.
Implicit Types s : console W.

(** The 25th row is complete only until the screen scrolls. *)
Record shape s (rs : list (list Z)) (r : list Z) : Prop := {
  sh_cells : Forall is_u16 (video s);
  sh_rows : Forall (fun r => length r = 80%nat) rs;
  sh_cur : (length r <= 80)%nat;
  sh_full : (length rs <= 24)%nat \/ length rs = 25%nat /\ r = [];
  sh_x : cx s = Z.of_nat (length r);
  sh_y : cy s = Z.of_nat (length rs);
  sh_text : low <$> video s = (concat rs ++ r) ++ blanks (2000 - length (concat rs ++ r))
}.
Definition shows s (t : tty) : Prop := shape s (rows t) (cur t) /\ (length (rows t) <= 24)%nat /\ (length (cur t) < 80)%nat.

(** Printing only changes the screen. *)
Definition same_rest s s' : Prop := char_buffer s' = char_buffer s /\ bytes s' = bytes s /\ hw s' = hw s.

Lemma length_concat_rows rs : Forall (fun r : list Z => length r = 80%nat) rs -> length (concat rs) = (80 * length rs)%nat.
Proof. induction 1 as [|r rs Hr _ IH]; cbn [concat length]; [done|]. rewrite length_app, Hr, IH. lia. Qed.

Lemma shape_length s rs r : shape s rs r -> length (concat rs ++ r) = (80 * length rs + length r)%nat /\
  (80 * length rs + length r <= 2000)%nat /\ length (video s) = 2000%nat.
Proof.
  intros [_ Hr Hc Hf _ _ Ht]. rewrite length_app, (length_concat_rows _ Hr).
  assert (80 * length rs + length r <= 2000)%nat by (destruct Hf as [?|[? ->]]; [lia|cbn; lia]).
  split; [done|]. split; [done|]. apply (f_equal length) in Ht.
  rewrite length_fmap, length_app, length_app, (length_concat_rows _ Hr) in Ht. unfold blanks in Ht. rewrite length_replicate in Ht. lia.
Qed.

(** ** Single cells *)

Lemma low_put v c : low (u16 (Z.lor (Z.land v 0xFF00) (s8 c))) = u8 c.
Proof.
  unfold low. assert (E : forall z, u16 z = Z.land z 0xFFFF) by (intros z; symmetry; by apply (land_mask z 16)).
  rewrite E, <- Z.land_assoc. change (Z.land 0xFFFF 0xFF) with 0xFF.
  rewrite Z.land_lor_distr_l, <- Z.land_assoc. change (Z.land 0xFF00 0xFF) with 0. rewrite Z.land_0_r, Z.lor_0_l.
  rewrite (land_mask _ 8) by done. unfold s8, u8. change (2 ^ 8) with 256. zdm.
Qed.

Lemma put_char_run s x y c i : VIDEO_WIDTH * y + x = Z.of_nat i -> (i < length (video s))%nat ->
  exists v, put_char x y c s = Ret (with_video v s, tt) /\ low <$> v = <[i := u8 c]> (low <$> video s) /\
    (Forall is_u16 (video s) -> Forall is_u16 v).
Proof.
  intros Hi Hl. unfold put_char, get_buffer_value, set_buffer_value. rewrite Hi.
  destruct (zget_in_range (video s) (Z.of_nat i)) as [w Hw]; [lia|].
  rewrite (cmd_bind_eq _ _ s s w) by (rewrite gets_bind; by rewrite Hw).
  rewrite gets_bind, zset_Some by lia. cbn [deref]. rewrite lift_bind. eexists. split; [reflexivity|].
  rewrite list_fmap_insert, Nat2Z.id, low_put. split; [done|]. intros Hu. apply Forall_insert; [done|apply u16_range].
Qed.

Lemma with_video_id s : with_video (video s) s = s.
Proof. by destruct s. Qed.

Lemma full_remainder_run n : forall s x y i, VIDEO_WIDTH * y + x = Z.of_nat i -> (i + n <= length (video s))%nat ->
  exists v, full_remainder_loop n x y s = Ret (with_video v s, tt) /\
    low <$> v = take i (low <$> video s) ++ blanks n ++ drop (i + n) (low <$> video s) /\
    (Forall is_u16 (video s) -> Forall is_u16 v).
Proof.
  induction n as [|n IH]; intros s x y i Hi Hn; cbn [full_remainder_loop].
  { exists (video s). rewrite with_video_id, Nat.add_0_r. cbn [blanks replicate app]. by rewrite take_drop. }
  destruct (put_char_run s x y 32 i) as (v & Hrun & Hv & Hu); [done|lia|]. rewrite (cmd_bind_eq _ _ _ _ _ Hrun).
  assert (Elen : length v = length (video s)) by (rewrite <- (length_fmap low v), Hv, length_insert; apply length_fmap).
  destruct (IH (with_video v s) (x + 1) y (S i)) as (v' & Hrun' & Hv' & Hu'); cbn [video with_video] in *; [lia|lia|].
  exists v'. split; [done|]. split; [|intros; by apply Hu', Hu]. rewrite Hv', Hv. change (u8 32) with 32.
  set (l := low <$> video s). assert (Hl : (i < length l)%nat) by (unfold l; rewrite length_fmap; lia).
  rewrite (take_S_r _ _ 32) by by apply list_lookup_insert_eq. rewrite take_insert_ge, drop_insert_lt by lia.
  rewrite Nat.add_succ_r. cbn [blanks replicate app]. by rewrite <- app_assoc.
Qed.

(** Blank cells behind the text stay as they are. *)
Lemma refill (l : list Z) n i k : (length l <= i)%nat -> (i + k <= length l + n)%nat ->
  take i (l ++ blanks n) ++ blanks k ++ drop (i + k) (l ++ blanks n) = l ++ blanks n.
Proof.
  intros Hi Hk. unfold blanks. rewrite take_app_ge, drop_app_ge by lia. rewrite take_replicate, drop_replicate, <- app_assoc.
  f_equal. rewrite <- !replicate_add. f_equal. lia.
Qed.

(** ** Scrolling *)

Lemma shift_step {A} (l : list A) w j x : (j + w < length l)%nat -> l !! (j + w)%nat = Some x ->
  <[j := x]> (take j (drop w l) ++ drop j l) = take (S j) (drop w l) ++ drop (S j) l.
Proof.
  intros Hj Hx. rewrite (take_S_r _ _ x) by (rewrite lookup_drop; by rewrite Nat.add_comm).
  destruct (lookup_lt_is_Some_2 l j) as [y Hy]; [lia|]. rewrite (drop_S l y j Hy).
  rewrite insert_app_r_alt by (rewrite length_take, length_drop; lia).
  rewrite length_take, length_drop, Nat.min_l, Nat.sub_diag by lia. cbn. by rewrite <- app_assoc.
Qed.

Lemma copy_row_run n (v : list Z) : forall s x y j, VIDEO_WIDTH * (y - 1) + x = Z.of_nat j -> (j + 80 + n <= length v)%nat ->
  video s = take j (drop 80 v) ++ drop j v -> Forall is_u16 v ->
  copy_row n x y s = Ret (with_video (take (j + n) (drop 80 v) ++ drop (j + n) v) s, tt).
Proof.
  induction n as [|n IH]; intros s x y j Hj Hn Hv Hu; cbn [copy_row].
  { by rewrite Nat.add_0_r, <- Hv, with_video_id. }
  destruct (lookup_lt_is_Some_2 v (j + 80)) as [w Hw]; [lia|].
  assert (Hlen : length (video s) = length v) by (rewrite Hv, length_app, length_take, !length_drop; lia).
  assert (Hget : get_buffer_value x y s = Ret (s, w)).
  { unfold get_buffer_value. rewrite gets_bind, zget_lookup by (unfold VIDEO_WIDTH in *; lia).
    replace (Z.to_nat (VIDEO_WIDTH * y + x)) with (j + 80)%nat by (unfold VIDEO_WIDTH in *; lia).
    rewrite Hv, lookup_app_r by (rewrite length_take, length_drop; lia).
    rewrite length_take, length_drop, Nat.min_l, lookup_drop by lia. replace (j + (j + 80 - j))%nat with (j + 80)%nat by lia. by rewrite Hw. }
  rewrite (cmd_bind_eq _ _ _ _ _ Hget). rewrite Forall_lookup in Hu. pose proof (Hu _ _ Hw) as Hw16.
  assert (Hset : set_buffer_value x (y - 1) w s = Ret (with_video (take (S j) (drop 80 v) ++ drop (S j) v) s, tt)).
  { unfold set_buffer_value. rewrite gets_bind, (u16_small w Hw16), zset_Some by (unfold VIDEO_WIDTH in *; lia). cbn [deref].
    rewrite lift_bind, Hj, Nat2Z.id, Hv, (shift_step v 80 j w) by (done || lia). done. }
  rewrite (cmd_bind_eq _ _ _ _ _ Hset). rewrite (IH _ (x + 1) y (S j)).
  - by rewrite Nat.add_succ_r.
  - lia.
  - lia.
  - done.
  - by rewrite Forall_lookup.
Qed.

Lemma copy_rows_run n (v : list Z) : forall s y j, 80 * (y - 1) = Z.of_nat j -> (j + 80 + 80 * n <= length v)%nat ->
  video s = take j (drop 80 v) ++ drop j v -> Forall is_u16 v ->
  copy_rows n y s = Ret (with_video (take (j + 80 * n) (drop 80 v) ++ drop (j + 80 * n) v) s, tt).
Proof.
  induction n as [|n IH]; intros s y j Hj Hn Hv Hu; cbn [copy_rows].
  { by rewrite Nat.mul_0_r, Nat.add_0_r, <- Hv, with_video_id. }
  rewrite (cmd_bind_eq _ _ _ _ _ (copy_row_run 80 v s 0 y j ltac:(unfold VIDEO_WIDTH; lia) ltac:(lia) Hv Hu)).
  rewrite (IH _ (y + 1) (j + 80)%nat); [|lia|lia|done|done]. by replace (j + 80 + 80 * n)%nat with (j + 80 * S n)%nat by lia.
Qed.
Lemma next_line_run s rs : shape s rs [] -> length rs = 25%nat ->
  exists s', next_line s = Ret (s', tt) /\ shows s' (mkTTY (tail rs) []) /\ same_rest s s'.
Proof.
  intros Hsh Hlen. pose proof (shape_length _ _ _ Hsh) as (HW & _ & Hv). destruct Hsh as [Hc Hr _ _ _ _ Ht].
  rewrite app_nil_r in *. unfold next_line.
  pose proof (copy_rows_run 24 (video s) s 1 0 eq_refl ltac:(lia)) as Hrun. cbn [take drop] in Hrun.
  change (Z.to_nat (VIDEO_HEIGHT - 1)) with 24%nat. rewrite (cmd_bind_eq _ _ _ _ _ (Hrun eq_refl Hc)). clear Hrun.
  set (v1 := take (0 + 80 * 24) (drop 80 (video s)) ++ drop (0 + 80 * 24) (video s)).
  destruct rs as [|r0 rs]; [done|]. cbn [tail concat length] in *. inversion Hr as [|? ? Hr0 Hrs]; subst.
  pose proof (length_concat_rows rs Hrs) as HC. assert (Hl1 : length v1 = 2000%nat).
  { unfold v1. rewrite length_app, length_take, !length_drop. lia. }
  assert (Ht1 : low <$> v1 = concat rs ++ drop 1920 (low <$> video s)).
  { unfold v1. rewrite fmap_app, fmap_take, !fmap_drop, Ht. f_equal.
    rewrite <- app_assoc, drop_app_length' by done. rewrite take_app_length' by lia. done. }
  assert (Hc1 : Forall is_u16 v1) by (apply Forall_app; split; [by apply Forall_take, Forall_drop|by apply Forall_drop]).
  assert (Hrem : exists v2, full_remainder_loop 80 0 24 (with_video v1 s) = Ret (with_video v2 (with_video v1 s), tt) /\
    low <$> v2 = concat rs ++ blanks 80 /\ Forall is_u16 v2).
  { destruct (full_remainder_run 80 (with_video v1 s) 0 24 1920) as (v2 & Hrun & Ht2 & Hc2); cbn [video with_video]; [done|lia|].
    cbn [video with_video] in *. exists v2. split; [done|]. split; [|by apply Hc2]. rewrite Ht2, Ht1.
    rewrite take_app_length' by lia. rewrite drop_ge, app_nil_r; [done|].
    rewrite length_app, length_drop, length_fmap. lia. }
  destruct Hrem as (v2 & Hrun & Ht2 & Hc2). unfold full_remainder_char.
  change (Z.to_nat (VIDEO_WIDTH - 0)) with 80%nat. change (VIDEO_HEIGHT - 1) with 24. rewrite (cmd_bind_eq _ _ _ _ _ Hrun), modify_bind.
  eexists. split; [reflexivity|]. split; [|done]. split; [|cbn [rows cur length]; lia]. cbn [rows cur]. constructor; cbn.
  - done.
  - done.
  - lia.
  - left. lia.
  - done.
  - replace (length rs) with 24%nat by lia. done.
  - rewrite app_nil_r, Ht2. do 2 f_equal. lia.
Qed.

(** The wrap at the end of a row and the scrolling at the end of the screen. *)
Definition after_char : cmd (console W) unit :=
  x ← gets cx;
  (if decide (x >= VIDEO_WIDTH) then
     modify (set_x 0);; y ← gets cy; modify (set_y (y + 1))
   else mret tt);;
  y ← gets cy;
  if decide (y >= VIDEO_HEIGHT) then next_line else mret tt.

Lemma pad_full r : length r = 80%nat -> pad_row r = r.
Proof. intros E. unfold pad_row. by rewrite E, app_nil_r. Qed.

Lemma full_snoc (rs : list (list Z)) r : (length rs <= 24)%nat ->
  (length (rs ++ [r]) <= 24)%nat \/ length (rs ++ [r]) = 25%nat /\ ([] : list Z) = [].
Proof. intros. rewrite length_app. cbn. destruct (decide (length rs = 24%nat)); [right; split; [lia|done]|left; lia]. Qed.

Lemma shape_settle s rs : shape s rs [] ->
  exists s', (y ← gets cy; if decide (y >= VIDEO_HEIGHT) then next_line else mret tt) s = Ret (s', tt) /\
    shows s' (mkTTY (if decide (length rs = 25%nat) then tail rs else rs) []) /\ same_rest s s'.
Proof.
  intros Hsh. rewrite gets_bind, (sh_y _ _ _ Hsh). destruct (decide (length rs = 25%nat)) as [E|Hne].
  - rewrite decide_True by (unfold VIDEO_HEIGHT; lia). by apply next_line_run.
  - assert (length rs <= 24)%nat by (destruct (sh_full _ _ _ Hsh) as [?|[? _]]; lia).
    rewrite decide_False by (unfold VIDEO_HEIGHT; lia). exists s. split; [done|]. split; [|done]. split; [done|]. cbn. lia.
Qed.

Lemma after_char_run s rs r : shape s rs r -> (length rs <= 24)%nat ->
  exists s', after_char s = Ret (s', tt) /\ shows s' (extend_row r (mkTTY rs r)) /\ same_rest s s'.
Proof.
  intros Hsh Hl. pose proof Hsh as [Hc Hr Hcur _ Hx Hy Ht]. unfold after_char, extend_row. rewrite gets_bind, Hx.
  destruct (decide (length r = 80%nat)) as [E|Hne].
  - rewrite decide_True by (unfold VIDEO_WIDTH; lia). unfold end_row. cbn [rows]. rewrite (pad_full r E).
    rewrite (cmd_bind_eq _ _ s (set_y (cy s + 1) (set_x 0 s)) tt eq_refl).
    apply (shape_settle (set_y (cy s + 1) (set_x 0 s)) (rs ++ [r])). constructor; cbn.
    + done.
    + apply Forall_app. split; [done|]. by constructor.
    + lia.
    + by apply full_snoc.
    + done.
    + rewrite length_app, Hy. cbn. rewrite u8_small; [lia|unfold is_u8; lia].
    + rewrite Ht, concat_app. cbn. by rewrite !app_nil_r.
  - rewrite decide_False by (unfold VIDEO_WIDTH; lia). rewrite ret_bind, gets_bind, Hy.
    rewrite decide_False by (unfold VIDEO_HEIGHT; lia). exists s. split; [done|]. split; [|done]. split; [done|]. cbn. lia.
Qed.

Lemma newline_run s rs r : shape s rs r -> (length rs <= 24)%nat ->
  exists s', (full_remainder_char (cx s) (cy s);; modify (set_y (cy s + 1));; modify (set_x 0)) s = Ret (s', tt) /\
    shape s' (rs ++ [pad_row r]) [] /\ same_rest s s'.
Proof.
  intros Hsh Hl. pose proof (shape_length _ _ _ Hsh) as (HW & Hb & Hv). destruct Hsh as [Hc Hr Hcur _ Hx Hy Ht]. rewrite Hx, Hy.
  unfold full_remainder_char. destruct (full_remainder_run (80 - length r) s (Z.of_nat (length r)) (Z.of_nat (length rs)) (80 * length rs + length r))
    as (v & Hrun & Hlow & Hu); [unfold VIDEO_WIDTH; lia|lia|].
  replace (Z.to_nat (VIDEO_WIDTH - Z.of_nat (length r))) with (80 - length r)%nat by (unfold VIDEO_WIDTH; lia).
  rewrite (cmd_bind_eq _ _ _ _ _ Hrun), modify_bind. eexists. split; [reflexivity|]. split; [|done].
  assert (Hpad : length (pad_row r) = 80%nat) by (unfold pad_row, blanks; rewrite length_app, length_replicate; lia).
  constructor; cbn.
  - by apply Hu.
  - apply Forall_app. split; [done|]. by constructor.
  - lia.
  - by apply full_snoc.
  - done.
  - rewrite length_app. cbn. rewrite u8_small; [lia|unfold is_u8; lia].
  - rewrite Hlow, Ht, refill by lia. rewrite concat_app. cbn. rewrite !app_nil_r. unfold pad_row, blanks.
    rewrite !length_app, length_replicate, <- !app_assoc, <- replicate_add, (length_concat_rows rs) by done. do 3 f_equal. lia.
Qed.

(** Erasing the last cell of the text. *)
Lemma erase_text (l : list Z) a n i : i = length l -> <[i := 32]> ((l ++ [a]) ++ blanks n) = l ++ blanks (S n).
Proof.
  intros ->. rewrite <- app_assoc, insert_app_r_alt by lia. rewrite Nat.sub_diag. done.
Qed.

Lemma extend_text (l : list Z) a n i : i = length l -> <[i := a]> (l ++ blanks (S n)) = (l ++ [a]) ++ blanks n.
Proof. intros ->. rewrite insert_app_r_alt, Nat.sub_diag by lia. cbn. by rewrite <- app_assoc. Qed.

Lemma retext (l l' : list Z) k : l' = l ++ blanks k -> (length l' <= 2000)%nat ->
  l ++ blanks (2000 - length l) = l' ++ blanks (2000 - length l').
Proof.
  intros -> Hl. unfold blanks in *. rewrite length_app, length_replicate in *. rewrite <- app_assoc, <- replicate_add. do 2 f_equal. lia.
Qed.

(** Backspace: the last character of the text becomes blank. *)
Lemma backspace_run s rs r a : Forall is_u16 (video s) -> Forall (fun r => length r = 80%nat) rs ->
  (length r < 80)%nat -> (length rs <= 24)%nat -> cx s = Z.of_nat (length r) -> cy s = Z.of_nat (length rs) ->
  low <$> video s = (concat rs ++ r ++ [a]) ++ blanks (2000 - length (concat rs ++ r ++ [a])) ->
  exists s', put_char (cx s) (cy s) 32 s = Ret (s', tt) /\ shape s' rs r /\ same_rest s s'.
Proof.
  intros Hc Hr Hr80 Hl Hx Hy Ht. pose proof (length_concat_rows rs Hr) as HC.
  assert (Hv : length (video s) = 2000%nat).
  { rewrite <- (length_fmap low (video s)), Ht. unfold blanks. rewrite length_app, length_replicate, !length_app. cbn. lia. }
  destruct (put_char_run s (cx s) (cy s) 32 (length (concat rs ++ r))) as (v & Hrun & Hlow & Hu).
  { rewrite Hx, Hy, length_app. unfold VIDEO_WIDTH. lia. } { rewrite length_app. lia. }
  exists (with_video v s). split; [done|]. split; [|done]. constructor; cbn; try done; [by apply Hu|lia|lia|].
  rewrite Hlow, Ht, app_assoc, (erase_text _ a _ _ eq_refl). do 2 f_equal. rewrite !length_app. cbn. lia.
Qed.

Lemma tab_stop n : 0 <= n < 80 -> u8 (Z.land (n + 8) (Z.lnot 7)) = n + (8 - n mod 8).
Proof.
  intros Hn. assert (E : Z.land (n + 8) (Z.lnot 7) = 8 * ((n + 8) / 8)).
  { change 7 with (2 ^ 3 - 1). rewrite Z.sub_1_r, <- Z.ones_equiv, <- Z.ldiff_land, Z.ldiff_ones_r by lia.
    rewrite Z.shiftl_mul_pow2, Z.shiftr_div_pow2 by lia. change (2 ^ 3) with 8. lia. }
  rewrite E. unfold u8. zdm.
Qed.

(** One character on the screen is one character of the terminal. *)
Lemma printk_char_run s t c : shows s t -> 0 < c < 256 ->
  exists s', printk_char c s = Ret (s', tt) /\ shows s' (tty_put t c) /\ same_rest s s'.
Proof.
  intros (Hsh & Hl & Hc80) Hc. destruct t as [rs r]. cbn [rows cur] in *. pose proof (shape_length _ _ _ Hsh) as (HW & Hb & Hv).
  pose proof Hsh as [Hc16 Hr _ _ Hx Hy Ht]. unfold printk_char, tty_put. rewrite !gets_bind. cbn [rows cur].
  assert (Hgo : forall s1 rs1 r1, shape s1 rs1 r1 -> (length rs1 <= 24)%nat -> same_rest s s1 ->
    exists s', after_char s1 = Ret (s', tt) /\ shows s' (extend_row r1 (mkTTY rs1 r1)) /\ same_rest s s').
  { intros s1 rs1 r1 H1 Hl1 Hs1. destruct (after_char_run s1 rs1 r1 H1 Hl1) as (s2 & ? & ? & Hs2). exists s2. split; [done|]. split; [done|].
    unfold same_rest in *. intuition congruence. }
  assert (Hkeep : forall rs1 r1 : list _, (length r1 < 80)%nat -> extend_row r1 (mkTTY rs1 r1) = mkTTY rs1 r1).
  { intros rs1 r1 H1. unfold extend_row. rewrite decide_False by lia. done. }
  destruct (decide (c = 10)) as [->|].
  { destruct (newline_run s rs r Hsh Hl) as (s1 & Hrun & H1 & Hs1). rewrite (cmd_bind_eq _ _ _ _ _ Hrun).
    rewrite gets_bind, (sh_x _ _ _ H1). rewrite decide_False by (cbn; unfold VIDEO_WIDTH; lia). rewrite ret_bind.
    destruct (shape_settle s1 _ H1) as (s2 & Hrun2 & H2 & Hs2). exists s2. split; [exact Hrun2|]. split; [exact H2|].
    unfold same_rest in *. intuition congruence. }
  destruct (decide (c = 8)) as [->|].
  { destruct r as [|a0 r0] eqn:Er.
    - rewrite decide_False by (rewrite Hx; cbn; lia). destruct rs as [|row rs _] using rev_ind.
      + rewrite decide_False by (rewrite Hy; cbn; lia). cbn [last]. rewrite ret_bind.
        destruct (Hgo s [] [] Hsh) as (s2 & ? & ? & ?); [cbn; lia|done|]. exists s2. by rewrite Hkeep in * by (cbn; lia).
      + rewrite decide_True by (rewrite Hy, length_app; cbn; lia). rewrite last_snoc, removelast_last.
        apply Forall_app in Hr as [Hr [Hrow _]%Forall_cons]. destruct row as [|b row _] using rev_ind; [done|].
        rewrite length_app in Hl, Hb, Hy, Hrow. cbn [length] in *. rewrite app_nil_r, concat_app in Ht. cbn [concat] in Ht. rewrite app_nil_r in Ht.
        rewrite take_app_length' by lia.
        destruct (backspace_run (set_x (VIDEO_WIDTH - 1) (set_y (cy s - 1) s)) rs row b) as (s1 & Hrun & H1 & Hs1); cbn; try done; try lia.
        { rewrite u8_small; [unfold VIDEO_WIDTH; lia|done]. } { rewrite Hy, u8_small; [lia|unfold is_u8; lia]. }
        rewrite (cmd_bind_eq _ _ s s1 tt) by exact Hrun. destruct (Hgo s1 rs row H1) as (s2 & ? & ? & ?); [lia|done|].
        exists s2. by rewrite Hkeep in * by lia.
    - rewrite <- Er in *. assert (Hlast : exists r' b, r = r' ++ [b]).
      { clear -Er. destruct r as [|b r' _] using rev_ind; [done|by eauto]. }
      destruct Hlast as (r' & b & ->). rewrite removelast_last. rewrite length_app in Hc80, Hb, Hx. cbn [length] in *.
      rewrite decide_True by lia.
      destruct (backspace_run (set_x (cx s - 1) s) rs r' b) as (s1 & Hrun & H1 & Hs1); cbn; try done; try lia.
      { rewrite Hx, u8_small; [lia|unfold is_u8; lia]. }
      rewrite (cmd_bind_eq _ _ s s1 tt) by exact Hrun. destruct (Hgo s1 rs r' H1) as (s2 & ? & ? & ?); [lia|done|].
      exists s2. by rewrite Hkeep in * by lia. }
  destruct (decide (c = 9)) as [->|].
  { rewrite modify_bind.
    assert (Ex : extend_row (r ++ blanks (8 - length r mod 8)) (mkTTY rs r) =
      extend_row (r ++ blanks (8 - length r mod 8)) (mkTTY rs (r ++ blanks (8 - length r mod 8)))) by done. rewrite Ex.
    pose proof (Nat.mod_upper_bound (length r) 8 ltac:(lia)) as Hm. pose proof (Nat.div_mod (length r) 8 ltac:(lia)) as Hdm.
    assert (Hlen : length (r ++ blanks (8 - length r mod 8)) = (length r + (8 - length r mod 8))%nat)
      by (unfold blanks; rewrite length_app, length_replicate; done).
    apply (Hgo _ rs (r ++ blanks (8 - length r mod 8))); [|done|done]. constructor; cbn [video cx cy set_x]; try done; [lia|by left| |].
    - rewrite Hlen, Hx, tab_stop by lia. rewrite Nat2Z.inj_add, Nat2Z.inj_sub, Nat2Z.inj_mod by lia. lia.
    - rewrite Ht. apply (retext _ _ (8 - length r mod 8)); [by rewrite app_assoc|]. rewrite length_app, Hlen. rewrite length_app in HW. lia. }
  destruct (put_char_run s (cx s) (cy s) c (length (concat rs ++ r))) as (v & Hrun & Hlow & Hu).
  { rewrite Hx, Hy, HW. unfold VIDEO_WIDTH. lia. } { lia. }
  assert (Hpart : (put_char (cx s) (cy s) c;; modify (set_x (cx s + 1))) s = Ret (set_x (cx s + 1) (with_video v s), tt))
    by by rewrite (cmd_bind_eq _ _ _ _ _ Hrun).
  rewrite (cmd_bind_eq _ _ _ _ _ Hpart).
  apply (Hgo _ rs (r ++ [c])); [|done|done]. constructor; cbn [video cx cy set_x with_video]; try done.
  - by apply Hu.
  - rewrite length_app. cbn. lia.
  - by left.
  - rewrite length_app, Hx. cbn. rewrite u8_small; [lia|unfold is_u8; lia].
  - rewrite Hlow, Ht, u8_small by (unfold is_u8; lia).
    replace (2000 - length (concat rs ++ r))%nat with (S (2000 - length (concat rs ++ r ++ [c])))
      by (rewrite !length_app in *; cbn; lia).
    rewrite extend_text by done. by rewrite app_assoc.
Qed.

(** ** Strings and whole screens *)

(** A string read by any means that leaves the screen alone. *)
Lemma printk_loop_run (P : console W -> Prop) text : forall fuel read s t i, (length text < fuel)%nat -> shows s t -> P s ->
  Forall (fun c => 0 < c < 256) text ->
  (forall s', P s' -> forall j c, (text ++ [0]) !! j = Some c -> read (i + Z.of_nat j) s' = Ret (s', c)) ->
  (forall s' s'', P s' -> same_rest s' s'' -> P s'') ->
  exists s', printk_loop fuel read i s = Ret (s', tt) /\ shows s' (foldl tty_put t text) /\ same_rest s s' /\ P s'.
Proof.
  induction text as [|c text IH]; intros fuel read s t i Hf Hs HP Ht Hread Hkeep; (destruct fuel as [|fuel]; [cbn in Hf; lia|]);
    cbn [printk_loop]; pose proof (Hread s HP 0%nat _ eq_refl) as Hr; rewrite Z.add_0_r in Hr; rewrite (cmd_bind_eq _ _ _ _ _ Hr).
  { rewrite decide_True by done. by exists s. }
  apply Forall_cons in Ht as [Hc Ht]. rewrite decide_False by lia.
  destruct (printk_char_run s t c Hs Hc) as (s1 & Hrun & Hs1 & Hsame). rewrite (cmd_bind_eq _ _ _ _ _ Hrun).
  destruct (IH fuel read s1 (tty_put t c) (i + 1)) as (s2 & Hrun2 & Hs2 & Hsame2 & HP2); try done.
  - cbn in Hf. lia.
  - by eapply Hkeep.
  - intros s' Hs' j d Hj. replace (i + 1 + Z.of_nat j) with (i + Z.of_nat (S j)) by lia. by apply Hread.
  - exists s2. split; [done|]. split; [done|]. split; [|done]. unfold same_rest in *. intuition congruence.
Qed.

Lemma on_bytes_run {A} (c : cmd mem A) s a : c (bytes s) = Ret (bytes s, a) -> on_bytes c s = Ret (s, a).
Proof. intros E. unfold on_bytes. rewrite E. by destruct s. Qed.

Lemma printk_run s t str text : shows s t -> cstr (bytes s) str text ->
  exists s', printk str s = Ret (s', tt) /\ shows s' (foldl tty_put t text) /\ same_rest s s'.
Proof.
  intros Hs Hstr. unfold printk.
  rewrite (cmd_bind_eq _ _ s s (S (size (bytes s)))) by by apply on_bytes_run. pose proof (cstr_fuel _ _ _ Hstr).
  destruct (printk_loop_run (fun s' => bytes s' = bytes s) text (S (size (bytes s))) (fun i => on_bytes (load (str + i))) s t 0)
    as (s' & Hrun & Hs' & Hsame & _); try done.
  - lia.
  - destruct Hstr as [_ Hstr]. eapply Forall_impl; [exact Hstr|]. cbn. intros; lia.
  - intros s' E j c Hj. apply on_bytes_run, load_run. rewrite E, Z.add_0_l. by eapply bytes_at_lookup; [apply Hstr|].
  - intros s' s'' E (_ & -> & _). done.
  - by exists s'.
Qed.

Lemma clean_loop_run n : forall s i, (i + n <= length (video s))%nat -> Forall is_u16 (video s) ->
  exists v, clean_loop n (Z.of_nat i) s = Ret (with_video v s, tt) /\ Forall is_u16 v /\
    low <$> v = take i (low <$> video s) ++ blanks n ++ drop (i + n) (low <$> video s).
Proof.
  induction n as [|n IH]; intros s i Hn Hu; cbn [clean_loop].
  { exists (video s). rewrite with_video_id, Nat.add_0_r. cbn [blanks replicate app]. by rewrite take_drop. }
  rewrite gets_bind. destruct (zget_in_range (video s) (Z.of_nat i)) as [w Hw]; [lia|]. rewrite Hw. cbn [deref]. rewrite lift_bind.
  rewrite zset_Some by lia. cbn [deref]. rewrite lift_bind, modify_bind, Nat2Z.id. set (v1 := <[i := _]> (video s)).
  destruct (IH (with_video v1 s) (S i)) as (v & Hrun & Hv & Hlow); cbn [video with_video].
  { unfold v1. rewrite length_insert. lia. } { apply Forall_insert; [done|apply u16_range]. }
  replace (Z.of_nat i + 1) with (Z.of_nat (S i)) by lia. exists v. split; [exact Hrun|]. split; [done|]. rewrite Hlow. cbn [video with_video].
  unfold v1. rewrite list_fmap_insert. change 32 with (s8 32) at 1 2. rewrite low_put. change (u8 (s8 32)) with 32. change (u8 32) with 32.
  set (l := low <$> video s). assert (Hl : (i < length l)%nat) by (unfold l; rewrite length_fmap; lia).
  rewrite (take_S_r _ _ 32) by by apply list_lookup_insert_eq. rewrite take_insert_ge, drop_insert_lt by lia.
  rewrite Nat.add_succ_r. cbn [blanks replicate app]. by rewrite <- app_assoc.
Qed.

Lemma clean_run s : length (video s) = 2000%nat -> Forall is_u16 (video s) ->
  exists s', clean s = Ret (s', tt) /\ shows s' (mkTTY [] []) /\ same_rest s s'.
Proof.
  intros Hl Hu. unfold clean. rewrite !modify_bind.
  destruct (clean_loop_run 2000 (set_y 0 (set_x 0 s)) 0) as (v & Hrun & Hv & Hlow); cbn [video set_x set_y]; [lia|done|].
  eexists. split; [exact Hrun|]. split; [|done]. split; [|cbn; lia].
  cbn [video set_x set_y] in Hlow. rewrite drop_ge, app_nil_r in Hlow by (rewrite length_fmap; lia).
  constructor; cbn [video cx cy with_video set_x set_y rows cur concat app length]; try done; [lia|left; lia].
Qed.

(** ** Text without end *)

(** The text as rows of at most 80 characters, without a limit on their number. *)
Definition page_put (p : list (list Z) * list Z) (c : Z) : list (list Z) * list Z :=
  let '(all, r) := p in
  let extend r := if decide (length r = 80%nat) then (all ++ [r], []) else (all, r) in
  if decide (c = 10) then (all ++ [pad_row r], [])
  else if decide (c = 9) then extend (r ++ blanks (8 - length r mod 8))
  else extend (r ++ [c]).
Definition page (text : list Z) : list (list Z) * list Z := foldl page_put ([], []) text.

(** The screen of a page: its last 24 complete rows and the current one. *)
Definition visible (p : list (list Z) * list Z) : list Z :=
  let w := concat (drop (length p.1 - 24) p.1) ++ p.2 in w ++ blanks (2000 - length w).

Definition scrolled (p : list (list Z) * list Z) : tty := mkTTY (drop (length p.1 - 24) p.1) p.2.

Lemma scrolled_end all (r r' : list Z) : end_row r (scrolled (all, r')) = scrolled (all ++ [pad_row r], []).
Proof.
  unfold end_row, scrolled. cbn [rows fst snd]. set (k := (length all - 24)%nat). rewrite !length_app, length_drop. cbn [length].
  f_equal. case_decide as E.
  - replace (length all + 1 - 24)%nat with (S k) by lia. rewrite <- drop_app_le by lia.
    replace (tail (drop k (all ++ [pad_row r]))) with (drop 1 (drop k (all ++ [pad_row r]))) by by destruct (drop k _).
    rewrite drop_drop. f_equal. lia.
  - replace (length all + 1 - 24)%nat with k by lia. rewrite drop_app_le by lia. done.
Qed.

Lemma scrolled_put p c : c <> 8 -> tty_put (scrolled p) c = scrolled (page_put p c).
Proof.
  intros Hc. destruct p as [all r]. unfold tty_put, page_put, extend_row. cbn [scrolled rows cur fst snd].
  assert (Hext : forall r', (if decide (length r' = 80%nat) then end_row r' (scrolled (all, r)) else mkTTY (rows (scrolled (all, r))) r') =
    scrolled (if decide (length r' = 80%nat) then (all ++ [r'], []) else (all, r'))).
  { intros r'. case_decide as E; [|done]. rewrite scrolled_end. by rewrite (pad_full r' E). }
  case_decide; [apply scrolled_end|]. rewrite decide_False by done. case_decide; apply Hext.
Qed.

Lemma scrolled_page text : forall p, 8 ∉ text -> foldl tty_put (scrolled p) text = scrolled (foldl page_put p text).
Proof.
  induction text as [|c text IH]; intros p H8; cbn [foldl]; [done|]. rewrite not_elem_of_cons in H8.
  rewrite scrolled_put by (intros ->; tauto). apply IH. tauto.
Qed.

(** C24. The console scrolls: after [clean], printing a string (without
    backspaces) shows its last rows, wrapped at 80 columns, tabs expanded, the
    cursor behind the last character and blanks after it, however long the string
    is. Nothing but the screen and the cursor changes, and no access is outside
    the screen. *)
Theorem printk_shows_last_rows s str text : length (video s) = 2000%nat -> Forall is_u16 (video s) ->
  cstr (bytes s) str text -> 8 ∉ text ->
  exists s', (clean;; printk str) s = Ret (s', tt) /\
    low <$> video s' = visible (page text) /\
    cx s' = Z.of_nat (length (page text).2) /\ cy s' = Z.of_nat (length (page text).1 `min` 24) /\ same_rest s s'.
Proof.
  intros Hl Hu Hstr H8. destruct (clean_run s Hl Hu) as (s1 & Hrun1 & Hs1 & Hk1). rewrite (cmd_bind_eq _ _ _ _ _ Hrun1).
  destruct (printk_run s1 _ str text Hs1) as (s2 & Hrun2 & Hs2 & Hk2); [by rewrite (proj1 (proj2 Hk1))|].
  change (mkTTY [] []) with (scrolled ([], [])) in Hs2. rewrite scrolled_page in Hs2 by done. fold (page text) in Hs2.
  destruct Hs2 as [[_ _ _ _ Hx Hy Ht] _]. exists s2. split; [done|]. split; [exact Ht|]. split; [exact Hx|].
  split; [rewrite Hy; cbn [rows scrolled]; rewrite length_drop; lia|]. unfold same_rest in *. intuition congruence.
Qed.

(** ** Formatted output *)

Definition put_byte (t : tty) (c : Z) : tty := if decide (c = 0) then t else tty_put t c.

Lemma put_bytes_text text : forall t, Forall (fun c => 1 <= c < 256) text -> foldl put_byte t text = foldl tty_put t text.
Proof.
  induction text as [|c text IH]; intros t Ht; cbn [foldl]; [done|]. apply Forall_cons in Ht as [Hc Ht].
  unfold put_byte at 2. rewrite decide_False by lia. by apply IH.
Qed.

(** The console shows [t]; its static buffer is a string of at most one byte. *)
Definition ready s (t : tty) : Prop := shows s t /\ exists b, char_buffer s = [b; 0].

Lemma shows_char_buffer s t b : shows s t -> shows (with_char_buffer b s) t.
Proof. by intros [[? ? ? ? ? ? ?] ?]. Qed.

Lemma print_char_run s t c : ready s t -> 0 <= c < 256 ->
  exists s', print_char c s = Ret (s', tt) /\ ready s' (put_byte t c) /\ bytes s' = bytes s /\ hw s' = hw s.
Proof.
  intros [Hs [b Hb]] Hc. unfold print_char. rewrite gets_bind, Hb. cbn [zset deref]. rewrite u8_small by done.
  rewrite zset_Some by (cbn; lia). cbn [deref Z.to_nat insert list_insert]. rewrite lift_bind, modify_bind.
  destruct (printk_loop_run (fun s' => char_buffer s' = [c; 0]) (if decide (c = 0) then [] else [c]) 3
    (fun i => b ← gets char_buffer; lift (deref (zget b i))) (with_char_buffer [c; 0] s) t 0) as (s' & Hrun & Hs' & (Hcb & Hby & Hh) & Hend).
  - case_decide; cbn; lia.
  - by apply shows_char_buffer.
  - done.
  - case_decide; [done|]. constructor; [lia|done].
  - intros s' E j d Hj. rewrite gets_bind, E, Z.add_0_l, zget_lookup, Nat2Z.id by lia. case_decide as E0.
    + subst. destruct j as [|[|j]]; cbn in *; by simplify_eq.
    + cbn [app] in Hj. by rewrite Hj.
  - intros s' s'' E (-> & _). done.
  - exists s'. split; [done|]. split; [|done]. split; [|by exists c]. unfold put_byte. by case_decide.
Qed.

Lemma print_bytes_run l : forall s t p, ready s t -> bytes_at (bytes s) p l -> Forall is_u8 l ->
  exists s', print_bytes (length l) p s = Ret (s', tt) /\ ready s' (foldl put_byte t l) /\ bytes s' = bytes s /\ hw s' = hw s.
Proof.
  induction l as [|c l IH]; intros s t p Hs Hb Hl; cbn [print_bytes length foldl]; [by exists s|].
  destruct Hb as [Hc Hb]. apply Forall_cons in Hl as [Hu Hl].
  rewrite (cmd_bind_eq _ _ s s c) by by apply on_bytes_run, load_run.
  destruct (print_char_run s t c Hs Hu) as (s1 & Hrun & Hs1 & Hb1 & Hh1). rewrite (cmd_bind_eq _ _ _ _ _ Hrun).
  destruct (IH s1 (put_byte t c) (p + 1)) as (s2 & Hrun2 & Hs2 & Hb2 & Hh2); [done|by rewrite Hb1|done|].
  exists s2. split; [done|]. split; [done|]. split; congruence.
Qed.

(** What a format is made of: plain characters and the plain conversions of
    signed numbers, strings and the percent sign, with their arguments. *)
Inductive item := Lit (c : Z) | Dec (n : Z) | Str (p : Z) (text : list Z) | Percent.

Definition format_of (i : item) : list Z :=
  match i with Lit c => [c] | Dec _ => [37; 100] | Str _ _ => [37; 115] | Percent => [37; 37] end.
Definition args_of (i : item) : list Z :=
  match i with Dec n => [n] | Str p _ => [p] | _ => [] end.

(** Printing [i] shows [out]: a number shows the digits of its magnitude, the
    sign is not printed. *)
Definition renders (i : item) (out : list Z) : Prop :=
  match i with
  | Lit c => out = [c]
  | Dec n => Forall is_digit out /\ dec_value out = Z.abs n
  | Str _ text => out = text
  | Percent => out = [37]
  end.

Section format.
(** The local buffer of the call lies apart from the format and the strings. *)
Context (small_buffer : Z) (m0 : mem).
Definition in_buffer (a : Z) : Prop := small_buffer - 1 <= a < small_buffer + 11.

Definition wf_item (i : item) : Prop :=
  match i with
  | Lit c => 1 <= c < 256 /\ c <> 37
  | Dec n => - 2147483648 < n < 2147483648
  | Str p text => cstr m0 p text /\ 0 < p < 4294967296 /\ forall a, p <= a <= p + Z.of_nat (length text) -> ~ in_buffer a
  | Percent => True
  end.

(** Only the buffer may have changed. *)
Definition outside (m : mem) : Prop :=
  (forall a, ~ in_buffer a -> m !! a = m0 !! a) /\ mapped m (small_buffer - 1) 12.

Lemma outside_cstr m p text : outside m -> cstr m0 p text -> (forall a, p <= a <= p + Z.of_nat (length text) -> ~ in_buffer a) -> cstr m p text.
Proof. intros [Hm _] Hs Ha. eapply cstr_ext; [|exact Hs]. intros a Hin. by apply Hm, Ha. Qed.

Definition step_ok s t s' (i : item) : Prop :=
  exists out, renders i out /\ Forall (fun c => 1 <= c < 256) out /\ ready s' (foldl tty_put t out) /\ outside (bytes s') /\ hw s' = hw s.

Lemma on_bytes_step {A B} (c : cmd mem A) m' a (k : A -> cmd (console W) B) s :
  c (bytes s) = Ret (m', a) -> (on_bytes c ≫= k) s = k a (mkConsole (video s) (cx s) (cy s) (char_buffer s) m' (hw s)).
Proof. intros E. apply cmd_bind_eq. unfold on_bytes. by rewrite E. Qed.

Lemma ready_bytes s t m' : ready s t -> ready (mkConsole (video s) (cx s) (cy s) (char_buffer s) m' (hw s)) t.
Proof. by intros [[[? ? ? ? ? ? ?] ?] ?]. Qed.

Lemma number_run s t n : ready s t -> outside (bytes s) -> - 2147483648 < n < 2147483648 ->
  exists s', print_number small_buffer (u32 n) 10 0 0 (-1) 0 s = Ret (s', tt) /\ step_ok s t s' (Dec n).
Proof.
  intros Hs [Hout Hmap] Hn. unfold print_number. replace (s32 (u32 n)) with n by (unfold s32, u32; zdm). rewrite decide_True by done.
  destruct (int_to_string_run (bytes s) n small_buffer 1 Hn) as (m' & l & Hrun & Hd & Hv & Hl & Hb & Hneg & Hk); [lia|lia|done|].
  rewrite (on_bytes_step _ _ _ _ _ Hrun). set (s1 := mkConsole _ _ _ _ _ _).
  set (neg := if decide (n < 0) then 1 else 0) in *.
  assert (Hd' : Forall (fun c => 1 <= c < 256) l) by (eapply Forall_impl; [exact Hd|]; unfold is_digit; lia).
  assert (Hlen : exists z : list Z, (z = [] \/ z = [0]) /\ Z.to_nat (Z.of_nat (length l) + neg) = length (l ++ z)).
  { unfold neg. case_decide; [exists [0]|exists []]; (split; [auto|]); rewrite length_app; cbn; lia. }
  destruct Hlen as (z & Hz & ->).
  destruct (print_bytes_run (l ++ z) s1 t small_buffer) as (s2 & Hrun2 & Hs2 & Hb2 & Hh2).
  - by apply ready_bytes.
  - destruct Hz as [-> | ->]; [rewrite app_nil_r; by apply bytes_at_app in Hb as [? _]|done].
  - apply Forall_app. split; [|destruct Hz as [-> | ->]; repeat constructor; unfold is_u8; lia].
    eapply Forall_impl; [exact Hd'|]. unfold is_u8. cbn. intros. lia.
  - exists s2. split; [exact Hrun2|]. exists l. split; [done|]. split; [done|]. split; [|split; [|done]].
    + rewrite foldl_app, (put_bytes_text l) in Hs2 by done. destruct Hz as [-> | ->]; exact Hs2.
    + rewrite Hb2. cbn [s1 bytes]. assert (0 <= neg <= 1) by (unfold neg; case_decide; lia). split.
      * intros a Ha. rewrite Hk; [by apply Hout|]. unfold in_buffer in Ha. lia.
      * intros a Ha. destruct (decide (a < small_buffer - neg \/ small_buffer + Z.of_nat (length l) < a)) as [Ho|Hi]; [rewrite Hk by done; by apply Hmap|].
        destruct (decide (a = small_buffer - 1)) as [->|Hne]; [rewrite Hneg; [by eexists|unfold neg in *; case_decide; lia]|].
        apply bytes_at_mapped in Hb. apply Hb. rewrite length_app. cbn. lia.
Qed.

Lemma string_run s t p text : ready s t -> outside (bytes s) -> wf_item (Str p text) ->
  exists s', print_s (u32 p) 0 (-1) 0 s = Ret (s', tt) /\ step_ok s t s' (Str p text).
Proof.
  intros Hs Hout (Hp & Hpr & Ha). pose proof (outside_cstr _ _ _ Hout Hp Ha) as Hc. unfold print_s.
  rewrite (u32_small p) by (unfold is_u32; lia). change (has_flag 0 1) with false. change (u32 0) with 0.
  rewrite (cmd_bind_eq _ _ s s (Z.of_nat (length text))) by (apply on_bytes_run, strlen_spec; [done|lia]).
  rewrite (decide_False (P := _ /\ _)) by lia. rewrite (decide_False (P := 0 > _)) by lia. rewrite ret_bind, Nat2Z.id.
  destruct Hc as [Hb Ht]. apply bytes_at_app in Hb as [Hb _].
  destruct (print_bytes_run text s t p Hs Hb) as (s1 & Hrun & Hs1 & Hb1 & Hh1).
  { eapply Forall_impl; [exact Ht|]. unfold is_u8. cbn. intros. lia. }
  rewrite (cmd_bind_eq _ _ _ _ _ Hrun). exists s1. split; [done|]. exists text. split; [done|]. split; [done|].
  rewrite put_bytes_text in Hs1 by done. rewrite Hb1. done.
Qed.

Lemma char_run s t c i : ready s t -> outside (bytes s) -> 1 <= c < 256 -> renders i [c] ->
  exists s', print_char c s = Ret (s', tt) /\ step_ok s t s' i.
Proof.
  intros Hs Hout Hc Hi. destruct (print_char_run s t c Hs) as (s1 & Hrun & Hs1 & Hb1 & Hh1); [lia|].
  exists s1. split; [done|]. exists [c]. split; [done|]. split; [by apply Forall_singleton|]. unfold put_byte in Hs1.
  rewrite decide_False in Hs1 by lia. rewrite Hb1. done.
Qed.

(** One conversion of a format without flags, width and precision. *)
Definition spec_of (i : item) : Z := match i with Dec _ => 100 | Str _ _ => 115 | _ => 37 end.

Lemma conversion_run s t i args : ready s t -> outside (bytes s) -> wf_item i -> (forall c, i <> Lit c) ->
  exists s', conversion small_buffer (spec_of i) 0 (-1) 0 (args_of i ++ args) s = Ret (s', args) /\ step_ok s t s' i.
Proof.
  intros Hs Hout Hi Hlit. destruct i as [c|n|p text|]; [by destruct (Hlit c)| | |]; unfold conversion; cbn [spec_of args_of app next_arg].
  - rewrite decide_True by auto. rewrite ret_bind. destruct (number_run s t n Hs Hout Hi) as (s' & Hrun & Hok).
    exists s'. by rewrite (cmd_bind_eq _ _ _ _ _ Hrun).
  - repeat (rewrite decide_False by lia). rewrite decide_True by done. rewrite ret_bind.
    destruct (string_run s t p text Hs Hout Hi) as (s' & Hrun & Hok). exists s'. by rewrite (cmd_bind_eq _ _ _ _ _ Hrun).
  - repeat (rewrite decide_False by lia). rewrite decide_True by done.
    destruct (char_run s t 37 Percent Hs Hout) as (s' & Hrun & Hok); [lia|done|]. exists s'. by rewrite (cmd_bind_eq _ _ _ _ _ Hrun).
Qed.

Lemma load_step {B} s a b (k : Z -> cmd (console W) B) : bytes s !! a = Some b -> (on_bytes (load a) ≫= k) s = k b s.
Proof. intros E. apply cmd_bind_eq, on_bytes_run. by apply load_run. Qed.

(** Nothing between the percent sign and the conversion. *)
Lemma parse_nothing s f c n : bytes s !! f = Some c -> c = 100 \/ c = 115 \/ c = 37 -> (0 < n)%nat ->
  parse_flags n f 0 s = Ret (s, (f, 0)) /\ parse_number n f 0 s = Ret (s, (f, 0)).
Proof.
  intros Hf Hc Hn. destruct n as [|n]; [lia|]. cbn [parse_flags parse_number]. rewrite !(load_step _ _ _ _ Hf).
  split; repeat (rewrite decide_False by lia); done.
Qed.

Lemma printf_loop_run items : forall fuel s t f, (length items < fuel)%nat -> ready s t -> outside (bytes s) ->
  Forall wf_item items -> cstr m0 f (concat (format_of <$> items)) ->
  (forall a, f <= a <= f + Z.of_nat (length (concat (format_of <$> items))) -> ~ in_buffer a) ->
  exists s' outs, printf_loop fuel small_buffer f (concat (args_of <$> items)) s = Ret (s', tt) /\
    Forall2 renders items outs /\ ready s' (foldl tty_put t (concat outs)) /\ outside (bytes s') /\ hw s' = hw s.
Proof.
  induction items as [|i items IH]; intros fuel s t f Hf Hs Hout Hwf Hstr Hapart; (destruct fuel as [|fuel]; [cbn in Hf; lia|]);
    pose proof (outside_cstr _ _ _ Hout Hstr Hapart) as Hc; cbn [printf_loop fmap list_fmap concat] in *.
  { apply cstr_nil in Hc. rewrite (load_step _ _ _ _ Hc), decide_True by done. by exists s, []. }
  apply Forall_cons in Hwf as [Hi Hwf].
  assert (Hnext : forall s1, step_ok s t s1 i -> forall k, k = f + Z.of_nat (length (format_of i)) ->
    exists s' outs, printf_loop fuel small_buffer k (concat (args_of <$> items)) s1 = Ret (s', tt) /\
      Forall2 renders (i :: items) outs /\ ready s' (foldl tty_put t (concat outs)) /\ outside (bytes s') /\ hw s' = hw s).
  { intros s1 (out & Hr & _ & Hs1 & Hout1 & Hh1) k ->.
    destruct (IH fuel s1 (foldl tty_put t out) (f + Z.of_nat (length (format_of i)))) as (s' & outs & Hrun & Hrs & Hs' & Hout' & Hh'); try done.
    - cbn in Hf. lia.
    - destruct Hstr as [Hb Ht]. rewrite <- app_assoc in Hb. apply bytes_at_app in Hb as [_ Hb]. apply Forall_app in Ht as [_ Ht]. by split.
    - intros a Ha. apply Hapart. rewrite length_app. lia.
    - exists s', (out :: outs). split; [done|]. split; [by constructor|]. cbn [concat]. rewrite foldl_app. split; [done|]. split; [done|congruence]. }
  assert (Hcase : (exists c, i = Lit c) \/ forall c, i <> Lit c) by (destruct i; [left; by eexists|by right..]).
  destruct Hcase as [[c ->]|Hlit].
  - cbn [format_of args_of app wf_item] in *. apply cstr_cons in Hc as (Hc & Hcr & _).
    rewrite (load_step _ _ _ _ Hc), decide_False, decide_True by lia.
    destruct (char_run s t c (Lit c) Hs Hout Hcr eq_refl) as (s1 & Hrun & Hok). rewrite (cmd_bind_eq _ _ _ _ _ Hrun).
    apply (Hnext s1 Hok). done.
  - assert (Hfmt : format_of i = [37; spec_of i] /\ (spec_of i = 100 \/ spec_of i = 115 \/ spec_of i = 37)).
    { destruct i; [by destruct (Hlit c)|auto..]. }
    destruct Hfmt as [Hfmt Hspec]. rewrite Hfmt in *. cbn [app] in Hc. apply cstr_cons in Hc as (Hc & _ & (Hc2 & _)%cstr_cons).
    rewrite (load_step _ _ _ _ Hc). rewrite decide_False by lia. rewrite (decide_False (P := 37 <> 37)) by lia.
    rewrite (cmd_bind_eq _ _ s s (S (size (bytes s)))) by by apply on_bytes_run.
    destruct (parse_nothing s (f + 1) _ (S (size (bytes s))) Hc2 Hspec) as [Hpf Hpn]; [lia|].
    rewrite (cmd_bind_eq _ _ _ _ _ Hpf), (cmd_bind_eq _ _ _ _ _ Hpn), (load_step _ _ _ _ Hc2), decide_False by lia.
    rewrite ret_bind, (load_step _ _ _ _ Hc2).
    destruct (conversion_run s t i (concat (args_of <$> items)) Hs Hout Hi Hlit) as (s1 & Hrun & Hok). rewrite (cmd_bind_eq _ _ _ _ _ Hrun).
    apply (Hnext s1 Hok). cbn. lia.
Qed.

Lemma format_length items : (length items <= length (concat (format_of <$> items)))%nat.
Proof. induction items as [|i items IH]; cbn; [lia|]. rewrite length_app. destruct i; cbn in *; lia. Qed.
End format.

(** C25. Formatted printing. For a format of plain characters, %d, %s and %%, the
    call consumes one argument for every %d and %s, terminates, and the console
    shows exactly the rendering after what it showed: the characters, the strings
    and the decimal digits of the numbers, the sign being lost for negative ones.
    No byte outside the local buffer and the byte before it changes. *)
Theorem kernel_printf_renders s t small_buffer format items : ready s t -> mapped (bytes s) (small_buffer - 1) 12 ->
  Forall (wf_item small_buffer (bytes s)) items -> cstr (bytes s) format (concat (format_of <$> items)) ->
  (forall a, format <= a <= format + Z.of_nat (length (concat (format_of <$> items))) -> ~ in_buffer small_buffer a) ->
  exists s' outs, kernel_printf small_buffer format (concat (args_of <$> items)) s = Ret (s', tt) /\
    Forall2 renders items outs /\ ready s' (foldl tty_put t (concat outs)) /\ hw s' = hw s /\
    forall a, ~ in_buffer small_buffer a -> bytes s' !! a = bytes s !! a.
Proof.
  intros Hs Hmap Hwf Hstr Hapart. pose proof (cstr_fuel _ _ _ Hstr). pose proof (format_length items).
  destruct (printf_loop_run small_buffer (bytes s) items (S (size (bytes s))) s t format) as (s' & outs & Hrun & Hr & Hs' & [Hout _] & Hh); try done; [lia|].
  exists s', outs. split; [|done]. unfold kernel_printf, handler_printf.
  rewrite (cmd_bind_eq _ _ s s' 0); [done|]. rewrite (cmd_bind_eq _ _ s s (S (size (bytes s)))) by by apply on_bytes_run.
  by rewrite (cmd_bind_eq _ _ _ _ _ Hrun).
Qed.
End screen.

(** ** A console *)

Definition greeting : list Z := [72; 105].
Definition console_memory : mem := mwrite (mwrite (mwrite ∅ 100 (replicate 20 0)) 200 (greeting ++ [0])) 300 ([37; 115; 58; 37; 100] ++ [0]).
Definition fresh_console : console trace := mkConsole (replicate 2000 0x0720) 0 0 [0; 0] console_memory [].

Lemma greeting_string : cstr console_memory 200 greeting.
Proof. split; [|repeat (constructor; [lia|]); constructor]. cbn [bytes_at greeting app]. split_and!; try (vm_compute; reflexivity); exact I. Qed.

Lemma format_string : cstr console_memory 300 [37; 115; 58; 37; 100].
Proof. split; [|repeat (constructor; [lia|]); constructor]. cbn [bytes_at app]. split_and!; try (vm_compute; reflexivity); exact I. Qed.

Lemma fresh_shows : ready fresh_console (mkTTY [] []).
Proof.
  split; [split; [constructor; cbn [video fresh_console rows cur cx cy concat app length]|cbn; lia]|by exists 0].
  - apply Forall_replicate. unfold is_u16. lia.
  - constructor.
  - lia.
  - left. lia.
  - done.
  - done.
  - rewrite fmap_replicate. done.
Qed.

Lemma printk_shows_last_rows_witness : exists s', (clean;; printk 200) fresh_console = Ret (s', tt) /\
  low <$> video s' = visible (page greeting) /\ cx s' = 2 /\ cy s' = 0.
Proof.
  destruct (printk_shows_last_rows fresh_console 200 greeting) as (s' & H1 & H2 & H3 & H4 & _).
  - reflexivity.
  - apply Forall_replicate. unfold is_u16. lia.
  - exact greeting_string.
  - unfold greeting. rewrite !not_elem_of_cons. split; [lia|]. split; [lia|]. apply not_elem_of_nil.
  - exists s'. exact (conj H1 (conj H2 (conj H3 H4))).
Defined.

Lemma kernel_printf_renders_witness : exists s' outs, kernel_printf 101 300 [200; -42] fresh_console = Ret (s', tt) /\
  Forall2 renders [Str 200 greeting; Lit 58; Dec (-42)] outs /\ ready s' (foldl tty_put (mkTTY [] []) (concat outs)).
Proof.
  destruct (kernel_printf_renders fresh_console (mkTTY [] []) 101 300 [Str 200 greeting; Lit 58; Dec (-42)]) as (s' & outs & H1 & H2 & H3 & _).
  - exact fresh_shows.
  - intros a Ha. cbn [bytes fresh_console] in *. unfold console_memory. rewrite !mwrite_outside by (cbn; lia).
    rewrite lookup_mwrite, length_replicate, decide_True by lia. rewrite lookup_replicate_2 by lia. by eexists.
  - apply Forall_cons. split; [split; [exact greeting_string|split; [lia|unfold in_buffer; cbn; lia]]|].
    apply Forall_cons. split; [cbn; lia|]. apply Forall_singleton. cbn. lia.
  - exact format_string.
  - unfold in_buffer. cbn. lia.
  - exists s', outs. exact (conj H1 (conj H2 H3)).
Defined.
