(* ===== verification/Block.v ===== *)
(** * Block devices and the driver list
    (src/driver/block.c, src/driver/driver.c, include/driver/block.h, driver.h)

    The PIO driver of the IDE disk over the ports of Ports.v, the table of active
    block devices, and the list of drivers. A disk is any hardware that behaves
    on these ports as the state machine [drive] does, which follows the ATA
    documentation (28-bit LBA, one sector per command); memory is that of
    CString.v. Messages are not modelled. *)
From S2P Require Import Prelude CString Ports.

Definition BLOCK_SIZE : Z := 512.
Definition MAX_BLOCK_DEVICES : Z := 256.

(** The two functions that are ever stored in [read] and [write]. *)
Inductive block_fn : Set := Ide_read_sector | Ide_write_sector.

Record BlockDevice := mkBD {
  base_port : Z; interrupt_line : Z; block_count : Z; bd_read : option block_fn; bd_write : option block_fn; lock : Z
}.
Definition set_lock v d := mkBD (base_port d) (interrupt_line d) (block_count d) (bd_read d) (bd_write d) v.

(** Function pointers; 0 is NULL. *)
Record Driver := mkDriver { activate : Z; reset : Z; deactivate : Z }.
Record BlockDriver := mkBlockDriver { base : Driver; device : BlockDevice }.

(** The objects by their addresses, the static table, the bytes of the memory,
    the hardware. *)
Record bstate (W : Type) := mkB {
  block_devices : gmap Z BlockDevice; block_drivers : gmap Z BlockDriver;
  active_block_devices : list Z; num_block_devices : Z; bytes : mem; hw : W
}.
Arguments mkB {W} _ _ _ _ _ _.
Arguments block_drivers {W} _.
Arguments block_devices {W} _. Arguments active_block_devices {W} _. Arguments num_block_devices {W} _.
Arguments bytes {W} _. Arguments hw {W} _.

(** How long an unbounded wait for the hardware is followed. *)
Class Patience := { wait_fuel : nat }.

Section block.
Context `{Hardware W}.
Abbreviation B := (cmd (bstate W)).

Definition with_devices f (s : bstate W) := mkB (f (block_devices s)) (block_drivers s) (active_block_devices s) (num_block_devices s) (bytes s) (hw s).
Definition with_drivers f (s : bstate W) := mkB (block_devices s) (f (block_drivers s)) (active_block_devices s) (num_block_devices s) (bytes s) (hw s).
Definition with_active l n (s : bstate W) := mkB (block_devices s) (block_drivers s) l n (bytes s) (hw s).
Definition on_bytes {A} (c : cmd mem A) : B A := fun s =>
  match c (bytes s) with
  | Ret (m, a) => Ret (mkB (block_devices s) (block_drivers s) (active_block_devices s) (num_block_devices s) m (hw s), a)
  | Fault => Fault
  | Spin => Spin
  end.
Definition on_hw {A} (c : cmd W A) : B A := fun s =>
  match c (hw s) with
  | Ret (h, a) => Ret (mkB (block_devices s) (block_drivers s) (active_block_devices s) (num_block_devices s) (bytes s) h, a)
  | Fault => Fault
  | Spin => Spin
  end.
Definition out8 (port v : Z) : B unit := on_hw (write_8bit port v).
Definition in8 (port : Z) : B Z := on_hw (read_8bit port).

Definition get_device (a : Z) : B BlockDevice := m ← gets block_devices; lift (deref (m !! a)).
Definition put_device (a : Z) (d : BlockDevice) : B unit := modify (with_devices (<[a := d]>)).
Definition active (i : Z) : B Z := l ← gets active_block_devices; lift (deref (zget l i)).

(** A lock that is held is never released by this thread of control. *)
Definition acquire_lock (dev : Z) : B unit :=
  d ← get_device dev;
  if decide (lock d = 0) then put_device dev (set_lock 1 d) else spin.
Definition release_lock (dev : Z) : B unit := d ← get_device dev; put_device dev (set_lock 0 d).

(** for (i = 0; i < n; i++) read_8bit(port) *)
Fixpoint delay (n : nat) (port : Z) : B unit :=
  match n with O => mret tt | S n' => in8 port;; delay n' port end.

(** while ((read_8bit(port) & 0x80) && timeout--): what is left of [timeout],
    which is -1 when it ran out. *)
Fixpoint wait_not_busy (timeout : nat) (port : Z) : B Z :=
  status ← in8 port;
  if decide (Z.land status 0x80 = 0) then mret (Z.of_nat timeout) else
  match timeout with O => mret (-1) | S t => wait_not_busy t port end.

Definition ide_initialize (base_port interrupt_line : Z) : B unit :=
  out8 (base_port + 6) 0xA0;;
  delay 4 (base_port + 7);;
  out8 (base_port + 6) 0x04;;
  delay 4 (base_port + 7);;
  out8 (base_port + 6) 0xA0;;
  wait_not_busy (Z.to_nat 100000) (base_port + 7);;
  mret tt.

(** The six register writes of a command. *)
Definition command (sector cmd : Z) : B unit :=
  out8 0x1F6 (Z.lor 0xE0 (Z.land (Z.shiftr sector 24) 0x0F));;
  out8 0x1F2 1;;
  out8 0x1F3 (Z.land sector 0xFF);;
  out8 0x1F4 (Z.land (Z.shiftr sector 8) 0xFF);;
  out8 0x1F5 (Z.land (Z.shiftr sector 16) 0xFF);;
  out8 0x1F7 cmd.

(** The wait for DRQ: [Some t] with what is left of [timeout] (-1 when it ran
    out), [None] when the drive reports an error. *)
Fixpoint wait_data (timeout : nat) : B (option Z) :=
  status ← in8 0x1F7;
  if decide (Z.land status 0x08 <> 0) then mret (Some (Z.of_nat timeout)) else
  match timeout with
  | O => mret (Some (-1))
  | S t =>
      status ← in8 0x1F7;
      if decide (Z.land status 0x01 <> 0) then mret None else wait_data t
  end.

Fixpoint read_words (n : nat) (buffer i : Z) : B unit :=
  match n with
  | O => mret tt
  | S n' =>
      data ← on_hw (read_16bit 0x1F0);
      on_bytes (store (buffer + i * 2) (Z.land data 0xFF));;
      on_bytes (store (buffer + i * 2 + 1) (Z.land (Z.shiftr data 8) 0xFF));;
      read_words n' buffer (i + 1)
  end.

Definition ide_read_sector (sector buffer : Z) : B unit :=
  dev ← active 0;
  acquire_lock dev;;
  command sector 0x20;;
  timeout ← wait_not_busy (Z.to_nat 100000) 0x1F7;
  if decide (timeout = 0) then dev ← active 0; release_lock dev else
  r ← wait_data (Z.to_nat 100000);
  match r with
  | None => dev ← active 0; release_lock dev
  | Some timeout =>
      if decide (timeout = 0) then dev ← active 0; release_lock dev else
      read_words 256 buffer 0;;
      dev ← active 0; release_lock dev
  end.

Fixpoint wait_ready (fuel : nat) : B unit :=
  match fuel with
  | O => spin
  | S fuel' =>
      status ← in8 0x1F7;
      if decide (Z.land status 0x88 <> 0x08) then wait_ready fuel' else mret tt
  end.

Fixpoint write_words (n : nat) (buffer i : Z) : B unit :=
  match n with
  | O => mret tt
  | S n' =>
      hi ← on_bytes (load (buffer + i * 2 + 1));
      lo ← on_bytes (load (buffer + i * 2));
      on_hw (write_16bit 0x1F0 (Z.lor (Z.shiftl hi 8) lo));;
      write_words n' buffer (i + 1)
  end.

Definition ide_write_sector `{Patience} (sector buffer : Z) : B unit :=
  dev ← active 0;
  acquire_lock dev;;
  command sector 0x30;;
  wait_ready wait_fuel;;
  write_words 256 buffer 0;;
  dev ← active 0; release_lock dev.

(** while ((status & 0x80) && timeout--) status = read_8bit(0x1F7): what is left. *)
Fixpoint wait_drive (timeout : nat) (status : Z) : B Z :=
  if decide (Z.land status 0x80 = 0) then mret (Z.of_nat timeout) else
  match timeout with O => mret (-1) | S t => status ← in8 0x1F7; wait_drive t status end.

Definition ide_check_drive_exists : B Z :=
  out8 0x1F6 0xA0;;
  delay 4 0x1F7;;
  status ← in8 0x1F7;
  if decide (status = 0xFF) then mret 0 else
  timeout ← wait_drive (Z.to_nat 100000) status;
  mret (if decide (timeout > 0) then 1 else 0).

(** A call through [read] or [write]. *)
Definition call_block `{Patience} (f : option block_fn) (block_num buffer : Z) : B unit :=
  match f with
  | None => fault
  | Some Ide_read_sector => ide_read_sector block_num buffer
  | Some Ide_write_sector => ide_write_sector block_num buffer
  end.

Definition block_read `{Patience} (block_num buffer : Z) : B unit :=
  n ← gets num_block_devices;
  if decide (n = 0) then mret tt else
  dev ← active 0; d ← get_device dev; call_block (bd_read d) block_num buffer.
Definition block_write `{Patience} (block_num buffer : Z) : B unit :=
  n ← gets num_block_devices;
  if decide (n = 0) then mret tt else
  dev ← active 0; d ← get_device dev; call_block (bd_write d) block_num buffer.

Definition block_interrupt_handler (esp : Z) : B Z :=
  v ← in8 0x1F7; out8 0x1F7 (Z.lor v 0x02);; mret esp.

(** The part of [block_device_initialize] up to the registration. *)
Definition block_device_setup (dev base_port interrupt_line : Z) : B unit :=
  get_device dev;;
  put_device dev (mkBD base_port interrupt_line 1000 (Some Ide_read_sector) (Some Ide_write_sector) 0);;
  ide_initialize base_port interrupt_line.

Definition sizeof_BlockDriver : Z := 36.

Definition create_block_driver (malloc : Z -> B Z) (dev : Z) : B Z :=
  driver ← malloc sizeof_BlockDriver;
  if decide (driver = 0) then mret 0 else
  d ← get_device dev;
  modify (with_drivers (<[driver := mkBlockDriver (mkDriver 0 0 0) d]>));;
  mret driver.
End block.

(** ** The driver list (driver.c)

    A [Driver*] argument is NULL or the object it points to. *)

Definition MAX_DRIVER_SIZE : Z := 256.

Record DriverManager := mkManager { drivers : list Driver; size : Z }.

Definition on_init_driver_manager : cmd DriverManager unit := modify (fun m => mkManager (drivers m) 0).

(** [size] is a [uint8_t]: it never reaches the limit. *)
Definition append_driver (driver : option Driver) : cmd DriverManager unit :=
  n ← gets size;
  match driver with
  | Some d =>
      if decide (n < MAX_DRIVER_SIZE) then
        l ← gets drivers; l' ← lift (deref (zset l n d)); modify (fun _ => mkManager l' (u8 (n + 1)))
      else mret tt
  | None => mret tt
  end.

(** The functions called, in order. *)
Fixpoint activate_loop (n : nat) (i : Z) : cmd DriverManager (list Z) :=
  match n with
  | O => mret []
  | S n' =>
      l ← gets drivers;
      d ← lift (deref (zget l i));
      rest ← activate_loop n' (i + 1);
      mret (if decide (activate d = 0) then rest else activate d :: rest)
  end.
Definition driver_activate_all : cmd DriverManager (list Z) := n ← gets size; activate_loop (Z.to_nat n) 0.

(** A manager as [on_init_driver_manager] leaves it, after appending [ds]. *)
Fixpoint append_all (ds : list Driver) : cmd DriverManager unit :=
  match ds with [] => mret tt | d :: ds' => append_driver (Some d);; append_all ds' end.

(** ** The disk (ATA documentation) *)

Inductive transfer : Type :=
| Idle
| Sending (words : list Z)
| Receiving (lba : Z) (words : list Z).

(** [busy]: BSY is set, and stays set for that many more accesses to the ports of
    the drive; [latency]: how long it is set after a command, before the data is
    ready or wanted; [settle]: how long it is set after the last word of a write,
    while the drive stores the sector. *)
Record drive := mkDrive {
  sectors : gmap Z (list Z); r3 : Z; r4 : Z; r5 : Z; r6 : Z; mode : transfer; busy : nat; latency : nat; settle : nat
}.
Definition content (d : drive) (n : Z) : list Z := default (replicate 256 0) (sectors d !! n).
Definition lba (d : drive) : Z := r3 d + 256 * r4 d + 65536 * r5 d + 16777216 * Z.land (r6 d) 0x0F.

(** An access while BSY is set: time passes and nothing else happens. *)
Definition elapse (k : nat) (d : drive) : drive :=
  mkDrive (sectors d) (r3 d) (r4 d) (r5 d) (r6 d) (mode d) k (latency d) (settle d).

(** A register write of an idle drive; 0x1F7 is the command register. *)
Definition register_out (port v : Z) (d : drive) : drive :=
  if decide (port = 0x1F3) then mkDrive (sectors d) v (r4 d) (r5 d) (r6 d) (mode d) (busy d) (latency d) (settle d)
  else if decide (port = 0x1F4) then mkDrive (sectors d) (r3 d) v (r5 d) (r6 d) (mode d) (busy d) (latency d) (settle d)
  else if decide (port = 0x1F5) then mkDrive (sectors d) (r3 d) (r4 d) v (r6 d) (mode d) (busy d) (latency d) (settle d)
  else if decide (port = 0x1F6) then mkDrive (sectors d) (r3 d) (r4 d) (r5 d) v (mode d) (busy d) (latency d) (settle d)
  else if decide (port = 0x1F7) then
    let m := if decide (v = 0x20) then Sending (content d (lba d))
             else if decide (v = 0x30) then Receiving (lba d) [] else Idle in
    mkDrive (sectors d) (r3 d) (r4 d) (r5 d) (r6 d) m (latency d) (latency d) (settle d)
  else d.

(** A word written to the data port: with the last one BSY is set again. *)
Definition data_out (n : Z) (ws : list Z) (v : Z) (d : drive) : drive :=
  let ws' := ws ++ [v] in
  if decide (length ws' = 256%nat)
  then mkDrive (<[n := ws']> (sectors d)) (r3 d) (r4 d) (r5 d) (r6 d) Idle (settle d) (latency d) (settle d)
  else mkDrive (sectors d) (r3 d) (r4 d) (r5 d) (r6 d) (Receiving n ws') (busy d) (latency d) (settle d).

(** Registers are accepted only while neither BSY nor DRQ is set, data only while
    DRQ is set; everything else is ignored. *)
Definition drive_out (w port v : Z) (d : drive) : drive :=
  if decide (0x1F0 <= port <= 0x1F7) then
    match busy d with
    | S k => elapse k d
    | O =>
        match mode d with
        | Idle => if decide (w = 8) then register_out port v d else d
        | Sending _ => d
        | Receiving n ws => if decide (w = 16 /\ port = 0x1F0) then data_out n ws v d else d
        end
    end
  else d.

(** While BSY is set every register reads as the status; then the status has
    DRDY, with DRQ during a transfer. *)
Definition drive_in (w port : Z) (d : drive) : drive * Z :=
  if decide (0x1F0 <= port <= 0x1F7) then
    match busy d with
    | S k => (elapse k d, 0x80)
    | O =>
        if decide (w = 8) then
          (d, if decide (port = 0x1F7) then match mode d with Idle => 0x40 | _ => 0x48 end
              else if decide (port = 0x1F3) then r3 d else if decide (port = 0x1F4) then r4 d
              else if decide (port = 0x1F5) then r5 d else if decide (port = 0x1F6) then r6 d else 0)
        else if decide (port = 0x1F0) then
          match mode d with
          | Sending (v :: ws) =>
              (mkDrive (sectors d) (r3 d) (r4 d) (r5 d) (r6 d) (match ws with [] => Idle | _ => Sending ws end) (busy d) (latency d) (settle d), v)
          | _ => (d, 0)
          end
        else (d, 0)
    end
  else (d, 0).

(** Hardware with such a drive behind the ports of the first controller. *)
Class AtaDrive (W : Type) `{Hardware W} := {
  drv : W -> drive;
  drv_out : forall w port v h, drv (hw_out w port v h) = drive_out w port v (drv h);
  drv_in : forall w port h, drv (hw_in w port h).1 = (drive_in w port (drv h)).1 /\
    (hw_in w port h).2 = (drive_in w port (drv h)).2
}.

(** The drive alone. *)
#[export] Instance drive_hardware : Hardware drive := {| hw_out := drive_out; hw_in := drive_in |}.
#[export] Instance drive_ata : AtaDrive drive.
Proof. by exists (fun d => d). Defined.

(** ** Runs of the ports *)

(** Two bytes per word, the low one first. *)
Fixpoint split_words (ws : list Z) : list Z :=
  match ws with [] => [] | w :: ws' => Z.land w 0xFF :: Z.land (Z.shiftr w 8) 0xFF :: split_words ws' end.
Fixpoint join_words (bs : list Z) : list Z :=
  match bs with lo :: hi :: bs' => Z.lor (Z.shiftl hi 8) lo :: join_words bs' | _ => [] end.

Lemma split_length ws : length (split_words ws) = (2 * length ws)%nat.
Proof. induction ws as [|w ws IH]; cbn [split_words length]; [done|]. rewrite IH. lia. Qed.

Lemma join_byte lo hi : is_u8 lo -> is_u8 hi -> Z.lor (Z.shiftl hi 8) lo = 256 * hi + lo.
Proof.
  unfold is_u8. intros. rewrite Z.shiftl_mul_pow2 by lia. rewrite (lor_high_low hi lo 8) by (cbn; lia). change (2 ^ 8) with 256. lia.
Qed.

(** Splitting undoes joining. *)
Lemma split_join n : forall bs, length bs = (2 * n)%nat -> Forall is_u8 bs -> split_words (join_words bs) = bs.
Proof.
  induction n as [|n IH]; intros bs Hl Hb; [by destruct bs|]. destruct bs as [|lo [|hi bs]]; cbn in Hl; try lia.
  apply Forall_cons in Hb as [Hlo Hb]. apply Forall_cons in Hb as [Hhi Hb]. cbn [join_words split_words].
  rewrite IH by (done || lia). rewrite join_byte by done. unfold is_u8 in *.
  rewrite !(land_mask _ 8), Z.shiftr_div_pow2 by lia. change (2 ^ 8) with 256. f_equal; [zdm|]. f_equal. zdm.
Qed.

Lemma join_length n : forall bs, length bs = (2 * n)%nat -> length (join_words bs) = n.
Proof.
  induction n as [|n IH]; intros bs Hl; [by destruct bs|]. destruct bs as [|lo [|hi bs]]; cbn in Hl; try lia.
  cbn [join_words length]. rewrite IH; lia.
Qed.

Lemma join_u16 n : forall bs, length bs = (2 * n)%nat -> Forall is_u8 bs -> Forall is_u16 (join_words bs).
Proof.
  induction n as [|n IH]; intros bs Hl Hb; [by destruct bs|]. destruct bs as [|lo [|hi bs]]; cbn in Hl; try lia.
  apply Forall_cons in Hb as [Hlo Hb]. apply Forall_cons in Hb as [Hhi Hb]. cbn [join_words]. constructor; [|apply IH; done || lia].
  rewrite join_byte by done. unfold is_u8, is_u16 in *. lia.
Qed.

Section runs.
Context `{HA : AtaDrive W}.
Implicit Types s : bstate W.

Definition with_hw (h : W) s := mkB (block_devices s) (block_drivers s) (active_block_devices s) (num_block_devices s) (bytes s) h.
Definition with_bytes m s := mkB (block_devices s) (block_drivers s) (active_block_devices s) (num_block_devices s) m (hw s).

Lemma out8_bind {A} port v (k : unit -> cmd (bstate W) A) s :
  (out8 port v ≫= k) s = k tt (with_hw (hw_out 8 (u16 port) (u8 v) (hw s)) s).
Proof. done. Qed.

Lemma in8_run port s : in8 port s = Ret (with_hw (hw_in 8 (u16 port) (hw s)).1 s, u8 (hw_in 8 (u16 port) (hw s)).2).
Proof. unfold in8, on_hw, read_8bit. by destruct (hw_in 8 (u16 port) (hw s)). Qed.

(** What no access but the end of a write changes. *)
Definition same_disk (d d' : drive) : Prop := sectors d' = sectors d /\ latency d' = latency d /\ settle d' = settle d.

Lemma same_disk_trans d1 d2 d3 : same_disk d1 d2 -> same_disk d2 d3 -> same_disk d1 d3.
Proof. unfold same_disk. intuition congruence. Qed.

(** A drive that takes a command: neither BSY nor DRQ is set. *)
Definition drive_idle (d : drive) : Prop := mode d = Idle /\ busy d = 0%nat.

Lemma lba_registers n : 0 <= n < 2 ^ 28 ->
  u8 (Z.land n 0xFF) + 256 * u8 (Z.land (Z.shiftr n 8) 0xFF) + 65536 * u8 (Z.land (Z.shiftr n 16) 0xFF) +
    16777216 * Z.land (u8 (Z.lor 0xE0 (Z.land (Z.shiftr n 24) 0x0F))) 0x0F = n.
Proof.
  intros Hn. rewrite !(land_mask _ 8) by lia. rewrite !Z.shiftr_div_pow2 by lia.
  assert (E : forall z, u8 z = Z.land z 0xFF) by (intros z; symmetry; by apply (land_mask z 8)).
  rewrite (E (Z.lor _ _)), <- Z.land_assoc. change (Z.land 0xFF 0x0F) with 0x0F. rewrite Z.land_lor_distr_l, <- Z.land_assoc.
  change (Z.land 0xE0 0x0F) with 0. rewrite Z.lor_0_l. change (Z.land 0x0F 0x0F) with 0x0F. rewrite (land_mask _ 4) by lia.
  unfold u8. change (2 ^ 28) with 268435456 in Hn. change (2 ^ 8) with 256. change (2 ^ 16) with 65536. change (2 ^ 24) with 16777216. change (2 ^ 4) with 16. zdm.
Qed.

Lemma command_run n c s : 0 <= n < 2 ^ 28 -> c = 0x20 \/ c = 0x30 -> drive_idle (drv (hw s)) ->
  exists h, (forall A (k : unit -> cmd (bstate W) A), (command n c ≫= k) s = k tt (with_hw h s)) /\
    same_disk (drv (hw s)) (drv h) /\ busy (drv h) = latency (drv h) /\
    mode (drv h) = if decide (c = 0x20) then Sending (content (drv (hw s)) n) else Receiving n [].
Proof.
  intros Hn Hc [Hm Hb]. eexists. split; [intros A k; unfold command; reflexivity|].
  cbn [hw with_hw]. rewrite !drv_out. pose proof (lba_registers n Hn) as Hlba. destruct (drv (hw s)) as [sec a3 a4 a5 a6 m b l t].
  cbn in Hm, Hb. subst m b. change (content (mkDrive sec a3 a4 a5 a6 Idle 0 l t) n) with (default (replicate 256 0) (sec !! n)).
  destruct Hc as [-> | ->]; (split; [done|]); (split; [done|]); lazymatch type of Hlba with ?L = _ =>
    first [transitivity (Sending (default (replicate 256 0) (sec !! L))); [reflexivity|by rewrite Hlba]
          |transitivity (Receiving L []); [reflexivity|by rewrite Hlba]] end.
Qed.

(** Waiting for BSY to clear. *)
Definition ready_drive (d d' : drive) : Prop := same_disk d d' /\ mode d' = mode d /\ busy d' = 0%nat.

(** A status read. *)
Lemma status_busy k s : busy (drv (hw s)) = S k ->
  exists h, in8 0x1F7 s = Ret (with_hw h s, 0x80) /\ drv h = elapse k (drv (hw s)).
Proof.
  intros Hb. destruct (drv_in 8 0x1F7 (hw s)) as [Hd Hv]. rewrite in8_run. change (u16 0x1F7) with 0x1F7.
  unfold drive_in in Hd, Hv. cbn in Hd, Hv. rewrite Hb in Hd, Hv. eexists. split; [|exact Hd]. by rewrite Hv.
Qed.

Lemma status_now s : busy (drv (hw s)) = 0%nat ->
  exists h, in8 0x1F7 s = Ret (with_hw h s, match mode (drv (hw s)) with Idle => 0x40 | _ => 0x48 end) /\ drv h = drv (hw s).
Proof.
  intros Hb. destruct (drv_in 8 0x1F7 (hw s)) as [Hd Hv]. rewrite in8_run. change (u16 0x1F7) with 0x1F7.
  unfold drive_in in Hd, Hv. cbn in Hd, Hv. rewrite Hb in Hd, Hv. eexists. split; [|exact Hd].
  rewrite Hv. cbn [snd]. by destruct (mode (drv (hw s))).
Qed.

Lemma status_ready s : busy (drv (hw s)) = 0%nat -> mode (drv (hw s)) <> Idle ->
  exists h, in8 0x1F7 s = Ret (with_hw h s, 0x48) /\ drv h = drv (hw s).
Proof. intros Hb Hm. destruct (status_now s Hb) as (h & Hrun & Hd). exists h. split; [|done]. rewrite Hrun. by destruct (mode (drv (hw s))). Qed.

Lemma ready_elapse k d d' : ready_drive (elapse k d) d' -> ready_drive d d'.
Proof. done. Qed.

Lemma wait_not_busy_run k : forall t s, busy (drv (hw s)) = k -> (k <= t)%nat ->
  exists h, wait_not_busy t 0x1F7 s = Ret (with_hw h s, Z.of_nat (t - k)) /\ ready_drive (drv (hw s)) (drv h).
Proof.
  induction k as [|k IH]; intros t s Hk Ht.
  - destruct (status_now s Hk) as (h & Hrun & Hd). exists h. unfold ready_drive, same_disk. rewrite Hd. split; [|done].
    destruct t as [|t]; cbn [wait_not_busy]; rewrite (cmd_bind_eq _ _ _ _ _ Hrun);
      (rewrite decide_True by by destruct (mode (drv (hw s)))); by rewrite ?Nat.sub_0_r.
  - destruct t as [|t]; [lia|]. destruct (status_busy k s Hk) as (h & Hrun & Hd). cbn [wait_not_busy].
    rewrite (cmd_bind_eq _ _ _ _ _ Hrun), decide_False by done.
    destruct (IH t (with_hw h s)) as (h2 & Hrun2 & Hr); [cbn [hw with_hw]; by rewrite Hd|lia|].
    exists h2. split; [exact Hrun2|]. cbn [hw with_hw] in Hr. by rewrite Hd in Hr.
Qed.

(** The same number of reads, or more, without looking. *)
Lemma delay_run n : forall s, (busy (drv (hw s)) <= n)%nat ->
  exists h, delay n 0x1F7 s = Ret (with_hw h s, tt) /\ ready_drive (drv (hw s)) (drv h).
Proof.
  induction n as [|n IH]; intros s Hb; cbn [delay].
  { exists (hw s). split; [by destruct s|]. unfold ready_drive. repeat split. lia. }
  destruct (busy (drv (hw s))) as [|k] eqn:E.
  - destruct (status_now s E) as (h & Hrun & Hd). rewrite (cmd_bind_eq _ _ _ _ _ Hrun).
    destruct (IH (with_hw h s)) as (h2 & Hrun2 & Hr); [cbn [hw with_hw]; rewrite Hd; lia|].
    exists h2. split; [exact Hrun2|]. cbn [hw with_hw] in Hr. by rewrite Hd in Hr.
  - destruct (status_busy k s E) as (h & Hrun & Hd). rewrite (cmd_bind_eq _ _ _ _ _ Hrun).
    destruct (IH (with_hw h s)) as (h2 & Hrun2 & Hr); [cbn [hw with_hw]; rewrite Hd; cbn; lia|].
    exists h2. split; [exact Hrun2|]. cbn [hw with_hw] in Hr. by rewrite Hd in Hr.
Qed.

(** The wait of a write takes one look more than the drive is busy. *)
Lemma wait_ready_run k : forall f s, busy (drv (hw s)) = k -> (k < f)%nat -> mode (drv (hw s)) <> Idle ->
  exists h, wait_ready f s = Ret (with_hw h s, tt) /\ ready_drive (drv (hw s)) (drv h).
Proof.
  induction k as [|k IH]; intros f s Hk Hf Hm; (destruct f as [|f]; [lia|]); cbn [wait_ready].
  - destruct (status_ready s Hk Hm) as (h & Hrun & Hd). rewrite (cmd_bind_eq _ _ _ _ _ Hrun), decide_False by auto.
    exists h. split; [done|]. by rewrite Hd.
  - destruct (status_busy k s Hk) as (h & Hrun & Hd). rewrite (cmd_bind_eq _ _ _ _ _ Hrun), decide_True by done.
    destruct (IH f (with_hw h s)) as (h2 & Hrun2 & Hr); [cbn [hw with_hw]; by rewrite Hd|lia|cbn [hw with_hw]; by rewrite Hd|].
    exists h2. split; [exact Hrun2|]. cbn [hw with_hw] in Hr. by rewrite Hd in Hr.
Qed.

Lemma low_byte w : is_u8 (Z.land w 0xFF).
Proof. change 0xFF with (2 ^ 8 - 1). rewrite land_mask by lia. apply u8_range. Qed.

(** The drive after the last word of a write: the sector is there and BSY is set. *)
Definition sector_stored (n : Z) (ws : list Z) (d d' : drive) : Prop :=
  sectors d' = <[n := ws]> (sectors d) /\ latency d' = latency d /\ settle d' = settle d /\ mode d' = Idle /\ busy d' = settle d.

Lemma on_bytes_bind {A C} (c : cmd mem A) m' a (k : A -> cmd (bstate W) C) s :
  c (bytes s) = Ret (m', a) -> (on_bytes c ≫= k) s = k a (with_bytes m' s).
Proof. intros E. apply cmd_bind_eq. unfold on_bytes. by rewrite E. Qed.

(** A word from the data port. *)
Lemma data_in_run s v ws : busy (drv (hw s)) = 0%nat -> mode (drv (hw s)) = Sending (v :: ws) -> is_u16 v ->
  exists h, on_hw (read_16bit 0x1F0) s = Ret (with_hw h s, v) /\ same_disk (drv (hw s)) (drv h) /\ busy (drv h) = 0%nat /\
    mode (drv h) = match ws with [] => Idle | _ => Sending ws end.
Proof.
  intros Hb Hm Hv. destruct (drv_in 16 0x1F0 (hw s)) as [Hd Hi]. unfold drive_in in Hd, Hi. cbn in Hd, Hi. rewrite Hb, Hm in Hd, Hi.
  cbn [fst snd] in Hd, Hi. exists (hw_in 16 0x1F0 (hw s)).1. rewrite Hd. split; [|done].
  unfold on_hw, read_16bit. change (u16 0x1F0) with 0x1F0. destruct (hw_in 16 0x1F0 (hw s)). cbn in Hi. by rewrite Hi, u16_small.
Qed.

Lemma read_words_run buffer ws : forall s i, ws <> [] -> mode (drv (hw s)) = Sending ws -> busy (drv (hw s)) = 0%nat -> Forall is_u16 ws ->
  mapped (bytes s) (buffer + i * 2) (2 * Z.of_nat (length ws)) ->
  exists h, read_words (length ws) buffer i s = Ret (with_hw h (with_bytes (mwrite (bytes s) (buffer + i * 2) (split_words ws)) s), tt) /\
    same_disk (drv (hw s)) (drv h) /\ drive_idle (drv h).
Proof.
  induction ws as [|w ws IH]; intros s i Hne Hm Hb Hu Hmap; [done|]. cbn [length read_words split_words mwrite]. clear Hne.
  apply Forall_cons in Hu as [Hw Hu]. destruct (data_in_run s w ws Hb Hm Hw) as (h1 & Hin & Hsame & Hb1 & Hm1).
  rewrite (cmd_bind_eq _ _ _ _ _ Hin).
  pose proof (low_byte w) as Hlow. pose proof (low_byte (Z.shiftr w 8)) as Hhigh. cbn [length] in Hmap.
  erewrite on_bytes_bind by (apply store_run; [apply Hmap; lia|done]).
  erewrite on_bytes_bind by (apply store_run; [cbn [bytes with_bytes with_hw]; apply lookup_insert_is_Some'; right; apply Hmap; lia|done]).
  cbn [bytes with_bytes with_hw]. set (s1 := with_bytes _ _).
  destruct ws as [|w2 ws].
  - cbn [length read_words split_words mwrite]. by exists h1.
  - destruct (IH s1 (i + 1)) as (h & Hrun & Hs & Hq); [done|done|done|done| |].
    { intros a Ha. cbn [s1 bytes with_bytes]. apply lookup_insert_is_Some'. right. apply lookup_insert_is_Some'. right. apply Hmap. cbn [length] in *. lia. }
    exists h. rewrite Hrun. replace (buffer + (i + 1) * 2) with (buffer + i * 2 + 1 + 1) by lia. split; [done|].
    split; [|done]. by apply (same_disk_trans _ (drv h1)).
Qed.

Lemma write_words_run buffer n bs : forall s i acc k, length bs = (2 * k)%nat -> k <> 0%nat ->
  mode (drv (hw s)) = Receiving n acc -> busy (drv (hw s)) = 0%nat -> (length acc + k = 256)%nat -> Forall is_u8 bs ->
  bytes_at (bytes s) (buffer + i * 2) bs ->
  exists h, write_words k buffer i s = Ret (with_hw h s, tt) /\ sector_stored n (acc ++ join_words bs) (drv (hw s)) (drv h).
Proof.
  intros s i acc k. revert bs s i acc. induction k as [|k IH]; intros bs s i acc Hl Hk Hm Hb0 Hacc Hu Hb; [done|]. clear Hk.
  destruct bs as [|lo [|hi bs]]; cbn in Hl; try lia. cbn [write_words join_words]. destruct Hb as (Hlo & Hhi & Hb).
  apply Forall_cons in Hu as [Hulo Hu]. apply Forall_cons in Hu as [Huhi Hu].
  erewrite on_bytes_bind by (apply load_run; exact Hhi). erewrite on_bytes_bind by (apply load_run; exact Hlo).
  assert (Hw : is_u16 (Z.lor (Z.shiftl hi 8) lo)) by (rewrite join_byte by done; unfold is_u8, is_u16 in *; lia).
  set (w := Z.lor (Z.shiftl hi 8) lo) in *. set (h1 := hw_out 16 0x1F0 w (hw s)).
  assert (Hout : on_hw (write_16bit 0x1F0 w) (with_bytes (bytes s) (with_bytes (bytes s) s)) = Ret (with_hw h1 s, tt)).
  { unfold on_hw, write_16bit, modify. rewrite (u16_small w Hw). change (u16 0x1F0) with 0x1F0. done. }
  rewrite (cmd_bind_eq _ _ _ _ _ Hout).
  assert (Hd : drv h1 = data_out n acc w (drv (hw s))).
  { unfold h1. rewrite drv_out. unfold drive_out. rewrite decide_True, Hb0, Hm by lia. by rewrite decide_True. }
  unfold data_out in Hd. rewrite length_app in Hd. cbn [length] in Hd. destruct k as [|k].
  - rewrite decide_True in Hd by lia. destruct bs; [|cbn in Hl; lia]. exists h1. split; [done|]. by rewrite Hd.
  - rewrite decide_False in Hd by lia.
    destruct (IH bs (with_hw h1 s) (i + 1) (acc ++ [w])) as (h & Hrun & Hst); cbn [hw bytes with_hw]; try done; [lia|by rewrite Hd|by rewrite Hd|rewrite length_app; cbn; lia| |].
    { by replace (buffer + (i + 1) * 2) with (buffer + i * 2 + 1 + 1) by lia. }
    exists h. split; [exact Hrun|]. cbn [hw with_hw] in Hst. rewrite Hd in Hst. by rewrite <- app_assoc in Hst.
Qed.

(** The first device is there and its lock is free. *)
Definition available s (dev : Z) (d : BlockDevice) : Prop :=
  zget (active_block_devices s) 0 = Some dev /\ block_devices s !! dev = Some d /\ lock d = 0.

Definition locked (dev : Z) (d : BlockDevice) s : bstate W := with_devices (<[dev := set_lock 1 d]>) s.

Lemma active_run s dev d s' : available s dev d -> active_block_devices s' = active_block_devices s -> active 0 s' = Ret (s', dev).
Proof. intros (Ha & _) E. unfold active. by rewrite gets_bind, E, Ha. Qed.

Lemma acquire_bind {A} s dev d (k : cmd (bstate W) A) : available s dev d ->
  (dev ← active 0; acquire_lock dev;; k) s = k (locked dev d s).
Proof.
  intros Hav. rewrite (cmd_bind_eq _ _ _ _ _ (active_run s dev d s Hav eq_refl)). destruct Hav as (_ & Hd & Hlock).
  rewrite (cmd_bind_eq _ _ s (locked dev d s) tt); [done|]. unfold acquire_lock, get_device. rewrite (cmd_bind_eq _ _ s s d) by (rewrite gets_bind; by rewrite Hd).
  by rewrite decide_True.
Qed.

(** Locking and unlocking leave the device as it was. *)
Lemma release_run s dev d m h : available s dev d ->
  (dev ← active 0; release_lock dev) (with_hw h (with_bytes m (locked dev d s))) = Ret (with_hw h (with_bytes m s), tt).
Proof.
  intros Hav. rewrite (cmd_bind_eq _ _ _ _ _ (active_run s dev d (with_hw h (with_bytes m (locked dev d s))) Hav eq_refl)).
  destruct Hav as (_ & Hd & Hlock). unfold release_lock, get_device.
  rewrite (cmd_bind_eq _ _ _ (with_hw h (with_bytes m (locked dev d s))) (set_lock 1 d)).
  2:{ rewrite gets_bind. unfold locked. cbn [block_devices with_hw with_bytes with_devices]. by rewrite lookup_insert_eq. }
  unfold put_device, modify. do 2 f_equal. unfold locked, with_devices, with_hw, with_bytes. cbn. f_equal.
  rewrite insert_insert_eq. apply insert_id. rewrite Hd. f_equal. destruct d; cbn in *. by subst.
Qed.

Lemma u16_words n : Forall is_u16 (replicate n 0).
Proof. apply Forall_replicate. unfold is_u16. lia. Qed.

(** Every sector has 256 words. *)
Definition formatted (d : drive) : Prop := map_Forall (fun _ ws => length ws = 256%nat /\ Forall is_u16 ws) (sectors d).

Lemma content_words d n : formatted d -> length (content d n) = 256%nat /\ Forall is_u16 (content d n).
Proof.
  intros Hf. unfold content. destruct (sectors d !! n) as [ws|] eqn:E; cbn [default]; [by apply (Hf n)|].
  rewrite length_replicate. split; [done|]. apply u16_words.
Qed.

Lemma content_sectors d d' n : sectors d' = sectors d -> content d' n = content d n.
Proof. unfold content. by intros ->. Qed.

(** The command and the waits of a read: the drive sends the sector. *)
Lemma ide_read_prefix s dev d n buffer : available s dev d -> drive_idle (drv (hw s)) -> 0 <= n < 2 ^ 28 ->
  (latency (drv (hw s)) < Z.to_nat 100000)%nat ->
  exists h, ide_read_sector n buffer s = (read_words 256 buffer 0;; dev ← active 0; release_lock dev) (with_hw h (locked dev d s)) /\
    same_disk (drv (hw s)) (drv h) /\ busy (drv h) = 0%nat /\ mode (drv h) = Sending (content (drv (hw s)) n).
Proof.
  intros Hav Hq Hn Hlat. unfold ide_read_sector. rewrite (acquire_bind s dev d) by done.
  destruct (command_run n 0x20 (locked dev d s) Hn) as (h1 & Hrun1 & Hd1 & Hb1 & Hm1); [by left|done|]. rewrite Hrun1. clear Hrun1.
  rewrite decide_True in Hm1 by done. cbn [hw locked with_devices] in *. set (N := Z.to_nat 100000) in *.
  destruct (wait_not_busy_run (latency (drv (hw s))) N (with_hw h1 (locked dev d s))) as (h2 & Hrun2 & Hd2 & Hm2 & Hb2);
    [cbn [hw with_hw]; rewrite Hb1; apply Hd1|lia|].
  rewrite (cmd_bind_eq _ _ _ _ _ Hrun2). clear Hrun2. rewrite decide_False by lia. cbn [hw with_hw] in *.
  assert (Hne : mode (drv h2) <> Idle) by (rewrite Hm2, Hm1; done).
  assert (Hwait : exists h3, wait_data N (with_hw h2 (locked dev d s)) = Ret (with_hw h3 (locked dev d s), Some (Z.of_nat N)) /\ drv h3 = drv h2).
  { destruct (status_ready (with_hw h2 (locked dev d s)) Hb2 Hne) as (h3 & Hst & Hd3). exists h3. split; [|done].
    destruct N; cbn [wait_data]; by rewrite (cmd_bind_eq _ _ _ _ _ Hst). }
  destruct Hwait as (h3 & Hrun3 & Hd3). rewrite (cmd_bind_eq _ _ (with_hw h2 (with_hw h1 (locked dev d s))) _ _ Hrun3).
  assert (HN : Z.of_nat N <> 0) by (unfold N; rewrite Z2Nat.id by lia; done). rewrite decide_False by done. clearbody N.
  exists h3. split; [done|]. rewrite Hd3, Hm2, Hm1. split; [by apply (same_disk_trans _ (drv h1))|done].
Qed.

(** Reading a sector puts its bytes into the buffer. *)
Lemma ide_read_sector_run s dev d n buffer : available s dev d -> drive_idle (drv (hw s)) -> 0 <= n < 2 ^ 28 -> formatted (drv (hw s)) ->
  (latency (drv (hw s)) < Z.to_nat 100000)%nat -> mapped (bytes s) buffer 512 ->
  exists h, ide_read_sector n buffer s = Ret (with_hw h (with_bytes (mwrite (bytes s) buffer (split_words (content (drv (hw s)) n))) s), tt) /\
    same_disk (drv (hw s)) (drv h) /\ drive_idle (drv h).
Proof.
  intros Hav Hq Hn Hf Hlat Hmap. destruct (ide_read_prefix s dev d n buffer Hav Hq Hn Hlat) as (h3 & Hrun & Hd3 & Hb3 & Hm3). rewrite Hrun.
  destruct (content_words (drv (hw s)) n Hf) as [Hlen Hu].
  destruct (read_words_run buffer (content (drv (hw s)) n) (with_hw h3 (locked dev d s)) 0) as (h4 & Hrun4 & Hd4 & Hq4); cbn [hw bytes with_hw locked with_devices]; try done.
  - intros E. by rewrite E in Hlen.
  - rewrite Hlen. replace (buffer + 0 * 2) with buffer by lia. done.
  - rewrite Hlen in Hrun4. cbn [hw with_hw] in *. rewrite Z.mul_0_l, Z.add_0_r in Hrun4. rewrite (cmd_bind_eq _ _ _ _ _ Hrun4).
    exists h4. split; [exact (release_run s dev d (mwrite (bytes s) buffer (split_words (content (drv (hw s)) n))) h4 Hav)|].
    split; [|done]. by eapply same_disk_trans.
Qed.

(** A buffer that is too short for the words that come. *)
Lemma read_words_fault buffer ws : forall s i, mode (drv (hw s)) = Sending ws -> busy (drv (hw s)) = 0%nat -> Forall is_u16 ws ->
  (exists a, buffer + i * 2 <= a < buffer + i * 2 + 2 * Z.of_nat (length ws) /\ bytes s !! a = None) ->
  read_words (length ws) buffer i s = Fault.
Proof.
  induction ws as [|w ws IH]; intros s i Hm Hb Hu (a & Ha & Hnone); cbn [length] in Ha; [lia|]. cbn [length read_words].
  apply Forall_cons in Hu as [Hw Hu]. destruct (data_in_run s w ws Hb Hm Hw) as (h1 & Hin & Hsame & Hb1 & Hm1). rewrite (cmd_bind_eq _ _ _ _ _ Hin).
  pose proof (low_byte w) as Hlow. pose proof (low_byte (Z.shiftr w 8)) as Hhigh.
  assert (Hstore : forall p v (m : mem), m !! p = None -> store p v m = Fault)
    by (intros p v m E; unfold store, load, gets, mbind, cmd_mbind; cbn; by rewrite E).
  destruct (bytes s !! (buffer + i * 2)) as [b1|] eqn:E1.
  2:{ unfold on_bytes, mbind, cmd_mbind. cbn [bytes with_hw]. by rewrite (Hstore _ _ _ E1). }
  erewrite on_bytes_bind by (apply store_run; [cbn [bytes with_hw]; by rewrite E1|done]). cbn [bytes with_hw with_bytes].
  destruct (bytes s !! (buffer + i * 2 + 1)) as [b2|] eqn:E2.
  2:{ unfold on_bytes, mbind, cmd_mbind. cbn [bytes with_hw with_bytes]. by rewrite Hstore by (rewrite lookup_insert_ne; [done|lia]). }
  erewrite on_bytes_bind by (apply store_run; [cbn [bytes with_bytes with_hw]; apply lookup_insert_is_Some'; right; by rewrite E2|done]).
  destruct ws as [|w2 ws].
  { cbn [length] in Ha. assert (a = buffer + i * 2 \/ a = buffer + i * 2 + 1) as [-> | ->] by lia; congruence. }
  apply IH; [done|done|done|]. exists a. cbn [length] in *. cbn [bytes with_bytes with_hw].
  assert (a <> buffer + i * 2 /\ a <> buffer + i * 2 + 1) as [N1 N2] by (split; intros ->; congruence).
  split; [lia|]. by rewrite !lookup_insert_ne by done.
Qed.

Lemma ide_read_sector_fault s dev d n buffer : available s dev d -> drive_idle (drv (hw s)) -> 0 <= n < 2 ^ 28 -> formatted (drv (hw s)) ->
  (latency (drv (hw s)) < Z.to_nat 100000)%nat -> (exists a, buffer <= a < buffer + 512 /\ bytes s !! a = None) ->
  ide_read_sector n buffer s = Fault.
Proof.
  intros Hav Hq Hn Hf Hlat (a & Ha & Hnone). destruct (ide_read_prefix s dev d n buffer Hav Hq Hn Hlat) as (h3 & Hrun & Hd3 & Hb3 & Hm3). rewrite Hrun.
  destruct (content_words (drv (hw s)) n Hf) as [Hlen Hu].
  pose proof (read_words_fault buffer (content (drv (hw s)) n) (with_hw h3 (locked dev d s)) 0) as Hfault. rewrite Hlen in Hfault.
  unfold mbind at 1, cmd_mbind. rewrite Hfault; [done|done|done|done|]. exists a. split; [lia|done].
Qed.

(** Writing a sector stores the bytes of the buffer there and leaves the drive busy. *)
Lemma ide_write_sector_run `{Patience} s dev d n buffer bs : available s dev d -> drive_idle (drv (hw s)) -> 0 <= n < 2 ^ 28 ->
  (latency (drv (hw s)) < wait_fuel)%nat -> bytes_at (bytes s) buffer bs -> length bs = 512%nat -> Forall is_u8 bs ->
  exists h, ide_write_sector n buffer s = Ret (with_hw h s, tt) /\ sector_stored n (join_words bs) (drv (hw s)) (drv h).
Proof.
  intros Hav Hq Hn Hlat Hb Hlen Hu. unfold ide_write_sector. rewrite (acquire_bind s dev d) by done.
  destruct (command_run n 0x30 (locked dev d s) Hn) as (h1 & Hrun1 & (Hs1 & Ht1 & Hx1) & Hb1 & Hm1); [by right|done|]. rewrite Hrun1. clear Hrun1.
  rewrite decide_False in Hm1 by done. cbn [hw locked with_devices] in *.
  destruct (wait_ready_run (latency (drv (hw s))) wait_fuel (with_hw h1 (locked dev d s))) as (h2 & Hrun2 & (Hs2 & Ht2 & Hx2) & Hm2 & Hb2);
    [cbn [hw with_hw]; by rewrite Hb1|done|cbn [hw with_hw]; by rewrite Hm1|].
  rewrite (cmd_bind_eq _ _ _ _ _ Hrun2). cbn [hw with_hw] in *.
  destruct (write_words_run buffer n bs (with_hw h2 (locked dev d s)) 0 [] 256) as (h3 & Hrun3 & Hst); cbn [hw bytes with_hw locked with_devices]; try done.
  - by rewrite Hm2, Hm1.
  - replace (buffer + 0 * 2) with buffer by lia. done.
  - rewrite (cmd_bind_eq _ _ _ _ _ Hrun3). exists h3. split; [exact (release_run s dev d (bytes s) h3 Hav)|].
    cbn [hw with_hw app] in *. unfold sector_stored in *. by rewrite <- Hs1, <- Ht1, <- Hx1, <- Hs2, <- Ht2, <- Hx2.
Qed.

(** The first device with the functions of the IDE driver, and a drive that is
    ready for a command and answers it in time. *)
Record ide_ready `{Patience} s (dev : Z) (d : BlockDevice) : Prop := {
  id_available : available s dev d;
  id_count : num_block_devices s <> 0;
  id_read : bd_read d = Some Ide_read_sector;
  id_write : bd_write d = Some Ide_write_sector;
  id_quiet : drive_idle (drv (hw s));
  id_formatted : formatted (drv (hw s));
  id_latency : (latency (drv (hw s)) < Z.to_nat 100000)%nat;
  id_patience : (latency (drv (hw s)) < wait_fuel)%nat
}.

Lemma ide_ready_same `{Patience} s dev d h m : ide_ready s dev d -> same_disk (drv (hw s)) (drv h) -> drive_idle (drv h) ->
  ide_ready (with_hw h (with_bytes m s)) dev d.
Proof. intros [Hav Hc Hr Hw Hq Hf Hl Hp] (Hs & Ht & _) Hq'. constructor; try done; cbn [hw with_hw]; unfold formatted; by rewrite ?Hs, ?Ht. Qed.

Lemma block_call `{Patience} s dev d (get : BlockDevice -> option block_fn) n buffer : available s dev d -> num_block_devices s <> 0 ->
  (c ← gets num_block_devices; if decide (c = 0) then mret tt else
   dev ← active 0; d ← get_device dev; call_block (get d) n buffer) s = call_block (get d) n buffer s.
Proof.
  intros Hav Hc. rewrite gets_bind, decide_False by done. rewrite (cmd_bind_eq _ _ _ _ _ (active_run s dev d s Hav eq_refl)).
  destruct Hav as (_ & Hd & _). rewrite (cmd_bind_eq _ _ s s d); [done|]. unfold get_device. by rewrite gets_bind, Hd.
Qed.

Lemma block_read_run `{Patience} s dev d n buffer : ide_ready s dev d -> 0 <= n < 2 ^ 28 -> mapped (bytes s) buffer 512 ->
  exists h, block_read n buffer s = Ret (with_hw h (with_bytes (mwrite (bytes s) buffer (split_words (content (drv (hw s)) n))) s), tt) /\
    same_disk (drv (hw s)) (drv h) /\ drive_idle (drv h).
Proof.
  intros [Hav Hc Hr _ Hq Hf Hl _] Hn Hm. unfold block_read. rewrite (block_call s dev d bd_read) by done. rewrite Hr. by apply (ide_read_sector_run s dev d).
Qed.

Lemma stored_formatted n bs d d' : formatted d -> sector_stored n (join_words bs) d d' -> length bs = 512%nat -> Forall is_u8 bs -> formatted d'.
Proof.
  intros Hf (Hs & _) Hlen Hu. unfold formatted. rewrite Hs. apply map_Forall_insert_2; [|done].
  split; [by apply (join_length 256)|by apply (join_u16 256)].
Qed.

Lemma block_write_run `{Patience} s dev d n buffer bs : ide_ready s dev d -> 0 <= n < 2 ^ 28 ->
  bytes_at (bytes s) buffer bs -> length bs = 512%nat -> Forall is_u8 bs ->
  exists h, block_write n buffer s = Ret (with_hw h s, tt) /\ sector_stored n (join_words bs) (drv (hw s)) (drv h).
Proof.
  intros [Hav Hc _ Hw Hq Hf _ Hp] Hn Hb Hlen Hu. unfold block_write. rewrite (block_call s dev d bd_write) by done. rewrite Hw.
  by apply (ide_write_sector_run s dev d).
Qed.

(** The drive is ready again once BSY is clear. *)
Lemma stored_ready `{Patience} s dev d h h' n bs : ide_ready s dev d -> sector_stored n (join_words bs) (drv (hw s)) (drv h) ->
  length bs = 512%nat -> Forall is_u8 bs -> ready_drive (drv h) (drv h') -> ide_ready (with_hw h' s) dev d.
Proof.
  intros [Hav Hc Hr Hw Hq Hf Hl Hp] Hst Hlen Hu ((Hs & Ht & _) & Hm & Hb).
  pose proof (stored_formatted n bs _ _ Hf Hst Hlen Hu) as Hf1. destruct Hst as (_ & Ht1 & _ & Hm1 & _).
  constructor; try done; cbn [hw with_hw]; unfold drive_idle, formatted; rewrite ?Hm, ?Ht, ?Hs; by rewrite ?Ht1.
Qed.

(** C26. The disk is a store: a sector written from one buffer is read back into
    another byte for byte, every other sector stays as it was, the lock is free
    again and memory changes in the second buffer only, provided the drive has
    stored the sector when the read begins: [k] status reads pass in between, at
    least as many as BSY stays set after the data ([settle]; none are needed for a
    drive that has finished by the next port access). The waits terminate on a
    drive that answers in time. *)
Theorem block_write_read_roundtrip `{Patience} s dev d n from to bs k : ide_ready s dev d -> 0 <= n < 2 ^ 28 ->
  bytes_at (bytes s) from bs -> length bs = 512%nat -> Forall is_u8 bs -> mapped (bytes s) to 512 ->
  (settle (drv (hw s)) <= k)%nat ->
  exists h m', (block_write n from;; delay k 0x1F7;; block_read n to) s = Ret (with_hw h (with_bytes m' s), tt) /\
    bytes_at m' to bs /\ (forall a, a < to \/ to + 512 <= a -> m' !! a = bytes s !! a) /\
    (forall j, content (drv h) j = if decide (j = n) then join_words bs else content (drv (hw s)) j).
Proof.
  intros Hi Hn Hb Hlen Hu Hm Hk. destruct (block_write_run s dev d n from bs Hi Hn Hb Hlen Hu) as (h1 & Hrun1 & Hst).
  rewrite (cmd_bind_eq _ _ _ _ _ Hrun1).
  destruct (delay_run k (with_hw h1 s)) as (h2 & Hrun2 & Hr2); [cbn [hw with_hw]; destruct Hst as (_ & _ & _ & _ & ->); lia|].
  rewrite (cmd_bind_eq _ _ _ _ _ Hrun2). cbn [hw with_hw] in Hr2.
  destruct (block_read_run (with_hw h2 s) dev d n to) as (h3 & Hrun3 & (Hs3 & _) & _); [by eapply stored_ready|done|done|].
  cbn [hw bytes with_hw] in *. destruct Hr2 as ((Hs2 & _) & _). destruct Hst as (Hs1 & _).
  assert (Hc : content (drv h2) n = join_words bs) by (unfold content; by rewrite Hs2, Hs1, lookup_insert_eq).
  rewrite Hc, (split_join 256) in Hrun3 by done. exists h3, (mwrite (bytes s) to bs). split; [exact Hrun3|].
  split; [apply bytes_at_mwrite|]. split; [intros a Ha; apply mwrite_outside; lia|].
  intros j. unfold content. rewrite Hs3, Hs2, Hs1. case_decide as E; [by rewrite E, lookup_insert_eq|by rewrite lookup_insert_ne].
Qed.

(** A command to a drive that is still busy is lost, whatever it is. *)
Lemma command_lost n c s k : busy (drv (hw s)) = (6 + k)%nat ->
  exists h, (forall A (f : unit -> cmd (bstate W) A), (command n c ≫= f) s = f tt (with_hw h s)) /\ drv h = elapse k (drv (hw s)).
Proof.
  intros Hb. eexists. split; [intros A f; unfold command; reflexivity|]. cbn [hw with_hw]. rewrite !drv_out.
  destruct (drv (hw s)) as [sec a3 a4 a5 a6 m b l t]. cbn in Hb. by subst b.
Qed.

(** Without a transfer the wait for DRQ never ends. *)
Lemma wait_ready_idle f : forall s, mode (drv (hw s)) = Idle -> wait_ready f s = Spin.
Proof.
  induction f as [|f IH]; intros s Hm; cbn [wait_ready]; [done|]. destruct (busy (drv (hw s))) as [|k] eqn:E.
  - destruct (status_now s E) as (h & Hrun & Hd). rewrite (cmd_bind_eq _ _ _ _ _ Hrun), Hm. rewrite decide_True by done. apply IH. cbn [hw with_hw]. by rewrite Hd.
  - destruct (status_busy k s E) as (h & Hrun & Hd). rewrite (cmd_bind_eq _ _ _ _ _ Hrun). rewrite decide_True by done. apply IH. cbn [hw with_hw]. by rewrite Hd.
Qed.

(** A write that begins while the drive is busy for six more accesses. *)
Lemma write_to_busy `{Patience} s dev d n buffer : available s dev d -> mode (drv (hw s)) = Idle -> (6 <= busy (drv (hw s)))%nat ->
  ide_write_sector n buffer s = Spin.
Proof.
  intros Hav Hm Hb. unfold ide_write_sector. rewrite (acquire_bind s dev d) by done.
  destruct (command_lost n 0x30 (locked dev d s) (busy (drv (hw s)) - 6)) as (h & Hcmd & Hd).
  { cbn [hw locked with_devices]. lia. }
  rewrite Hcmd. cbn [hw locked with_devices] in Hd.
  assert (Hm2 : mode (drv (hw (with_hw h (locked dev d s)))) = Idle) by (cbn [hw with_hw]; by rewrite Hd).
  pose proof (wait_ready_idle wait_fuel _ Hm2) as Hspin. unfold mbind, cmd_mbind. by rewrite Hspin.
Qed.

(** The driver does not wait for BSY before a command. After a write, a drive that
    needs at least six more accesses to store the sector misses the whole command
    of the next write, never asks for its data, and the kernel waits forever,
    however long one follows it. *)
Theorem second_write_hangs `{Patience} s dev d n n2 from from2 bs : ide_ready s dev d -> 0 <= n < 2 ^ 28 ->
  bytes_at (bytes s) from bs -> length bs = 512%nat -> Forall is_u8 bs -> (6 <= settle (drv (hw s)))%nat ->
  (block_write n from;; block_write n2 from2) s = Spin.
Proof.
  intros Hi Hn Hb Hlen Hu Hset. destruct (block_write_run s dev d n from bs Hi Hn Hb Hlen Hu) as (h1 & Hrun1 & Hst).
  rewrite (cmd_bind_eq _ _ _ _ _ Hrun1). destruct Hi as [Hav Hc _ Hw _ _ _ _]. unfold block_write.
  rewrite (block_call (with_hw h1 s) dev d bd_write) by done. rewrite Hw. cbn [call_block].
  destruct Hst as (_ & _ & _ & Hm1 & Hb1). apply (write_to_busy (with_hw h1 s) dev d); [done|done|]. cbn [hw with_hw]. by rewrite Hb1.
Qed.
End runs.

(** ** The disk as bytes *)

(** Byte [k] of the disk. *)
Definition sector_bytes (d : drive) (n : Z) : list Z := split_words (content d n).
Definition disk_byte (d : drive) (k : Z) : Z := default 0 (sector_bytes d (k / 512) !! Z.to_nat (k mod 512)).

Lemma sector_bytes_ok d n : formatted d -> length (sector_bytes d n) = 512%nat /\ Forall is_u8 (sector_bytes d n).
Proof.
  intros Hf. destruct (content_words d n Hf) as [Hl _]. unfold sector_bytes. rewrite split_length, Hl. split; [done|].
  generalize (content d n). intros ws. induction ws as [|w ws IH]; cbn [split_words]; [done|].
  repeat (constructor; [apply low_byte|]). done.
Qed.

Lemma disk_byte_in d k y : formatted d -> 0 <= y < 512 -> sector_bytes d k !! Z.to_nat y = Some (disk_byte d (512 * k + y)).
Proof.
  intros Hf Hy. unfold disk_byte. replace ((512 * k + y) / 512) with k by zdm. replace ((512 * k + y) mod 512) with y by zdm.
  destruct (sector_bytes_ok d k Hf) as [Hl _]. destruct (lookup_lt_is_Some_2 (sector_bytes d k) (Z.to_nat y)) as [b Hb]; [lia|].
  by rewrite Hb.
Qed.

Lemma disk_byte_sectors d d' k : sectors d' = sectors d -> disk_byte d' k = disk_byte d k.
Proof. intros E. unfold disk_byte, sector_bytes, content. by rewrite E. Qed.

(** ** A drive that stays busy *)

(** Hardware that answers every status read with BSY and has [v] on the data port. *)
Definition stuck_hardware (v : Z) : Hardware unit := {|
  hw_out := fun _ _ _ u => u; hw_in := fun w _ u => (u, if decide (w = 8) then 0x80 else v)
|}.

Section stuck.
Context (v : Z) (Hv : is_u16 v).
Implicit Types s : bstate unit.
#[local] Instance the_hardware : Hardware unit := stuck_hardware v.

Lemma stuck_in8 s : in8 0x1F7 s = Ret (s, 0x80).
Proof. unfold in8, on_hw, read_8bit. cbn. by destruct s. Qed.

Lemma stuck_not_busy t s : wait_not_busy t 0x1F7 s = Ret (s, -1).
Proof. revert s. induction t as [|t IH]; intros s; cbn [wait_not_busy]; by rewrite (cmd_bind_eq _ _ _ _ _ (stuck_in8 s)). Qed.

Lemma stuck_data t s : wait_data t s = Ret (s, Some (-1)).
Proof.
  revert s. induction t as [|t IH]; intros s; cbn [wait_data]; rewrite (cmd_bind_eq _ _ _ _ _ (stuck_in8 s)), decide_False by (intros E; by apply E); [done|].
  rewrite (cmd_bind_eq _ _ _ _ _ (stuck_in8 s)), decide_False by (intros E; by apply E). apply IH.
Qed.

Lemma stuck_words buffer n : forall s i, mapped (bytes s) (buffer + i * 2) (2 * Z.of_nat n) ->
  read_words n buffer i s = Ret (with_bytes (mwrite (bytes s) (buffer + i * 2) (split_words (replicate n v))) s, tt).
Proof.
  induction n as [|n IH]; intros s i Hm; cbn [read_words replicate split_words mwrite]; [by destruct s|].
  assert (Hin : on_hw (read_16bit 0x1F0) s = Ret (s, v)) by (unfold on_hw, read_16bit; cbn; rewrite u16_small by done; by destruct s).
  rewrite (cmd_bind_eq _ _ _ _ _ Hin).
  erewrite on_bytes_bind by (apply store_run; [apply Hm; lia|apply low_byte]).
  erewrite on_bytes_bind by (apply store_run; [cbn [bytes with_bytes]; apply lookup_insert_is_Some'; right; apply Hm; lia|apply low_byte]).
  cbn [bytes with_bytes]. rewrite IH.
  - cbn [bytes with_bytes]. by replace (buffer + (i + 1) * 2) with (buffer + i * 2 + 1 + 1) by lia.
  - intros a Ha. cbn [bytes with_bytes]. apply lookup_insert_is_Some'. right. apply lookup_insert_is_Some'. right. apply Hm. lia.
Qed.

(** A time-out is not noticed: the counter is -1 when a wait runs out, while
    the code tests it for 0. On a drive that never leaves BSY the read transfers
    256 words from the data port all the same and reports nothing. *)
Theorem ide_read_timeout_unnoticed s dev d n buffer : available s dev d -> mapped (bytes s) buffer 512 ->
  ide_read_sector n buffer s = Ret (with_bytes (mwrite (bytes s) buffer (split_words (replicate 256 v))) s, tt).
Proof.
  intros Hav Hm. unfold ide_read_sector. rewrite (acquire_bind s dev d) by done.
  assert (Hcmd : forall s', command n 0x20 s' = Ret (s', tt)) by (intros s'; by destruct s').
  rewrite (cmd_bind_eq _ _ _ _ _ (Hcmd _)), (cmd_bind_eq _ _ _ _ _ (stuck_not_busy _ _)), decide_False by done.
  rewrite (cmd_bind_eq _ _ _ _ _ (stuck_data _ _)). rewrite decide_False by done.
  rewrite (cmd_bind_eq _ _ _ _ _ (stuck_words buffer 256 (locked dev d s) 0 ltac:(by rewrite Z.add_0_r))). rewrite Z.add_0_r.
  pose proof (release_run s dev d (mwrite (bytes s) buffer (split_words (replicate 256 v))) (hw s) Hav) as Hrel.
  destruct s. exact Hrel.
Qed.
End stuck.

(** ** The driver list *)

Lemma activate_loop_run ds m : forall n i, n = length ds -> 0 <= i ->
  (forall j d, ds !! j = Some d -> drivers m !! (Z.to_nat i + j)%nat = Some d) ->
  activate_loop n i m = Ret (m, filter (fun a => a <> 0) (activate <$> ds)).
Proof.
  induction ds as [|d ds IH]; intros n i -> Hi Hds; cbn [length activate_loop]; [done|].
  rewrite gets_bind, zget_lookup by done. pose proof (Hds 0%nat d eq_refl) as Hd. rewrite Nat.add_0_r in Hd. rewrite Hd. cbn [deref].
  rewrite lift_bind. rewrite (cmd_bind_eq _ _ m m (filter (fun a => a <> 0) (activate <$> ds))).
  - cbn [fmap list_fmap]. rewrite filter_cons. destruct (decide (activate d = 0)) as [E|E]; [by rewrite decide_False by auto|by rewrite decide_True].
  - apply IH; [done|lia|]. intros j x Hj. replace (Z.to_nat (i + 1) + j)%nat with (Z.to_nat i + S j)%nat by lia. by apply Hds.
Qed.

Lemma append_run d m : length (drivers m) = 256%nat -> 0 <= size m < 256 ->
  append_driver (Some d) m = Ret (mkManager (<[Z.to_nat (size m) := d]> (drivers m)) (u8 (size m + 1)), tt).
Proof.
  intros Hl Hs. unfold append_driver. rewrite gets_bind, decide_True by (unfold MAX_DRIVER_SIZE; lia).
  rewrite gets_bind, zset_Some by lia. done.
Qed.

Lemma append_all_run ds : forall m, length (drivers m) = 256%nat -> 0 <= size m < 256 -> size m + Z.of_nat (length ds) <= 256 ->
  exists m', append_all ds m = Ret (m', tt) /\ length (drivers m') = 256%nat /\ size m' = u8 (size m + Z.of_nat (length ds)) /\
    (forall j d, ds !! j = Some d -> drivers m' !! (Z.to_nat (size m) + j)%nat = Some d) /\
    (forall j, (j < Z.to_nat (size m))%nat -> drivers m' !! j = drivers m !! j).
Proof.
  induction ds as [|d ds IH]; intros m Hl Hs Hn; cbn [append_all].
  { exists m. split; [done|]. split; [done|]. cbn [length]. rewrite Z.add_0_r, u8_small; done. }
  rewrite (cmd_bind_eq _ _ _ _ _ (append_run d m Hl Hs)). set (m1 := mkManager _ _).
  assert (Hl1 : length (drivers m1) = 256%nat) by (cbn; by rewrite length_insert).
  assert (Hd : drivers m1 !! Z.to_nat (size m) = Some d) by (apply list_lookup_insert_eq; lia).
  assert (Hk : forall j, (j < Z.to_nat (size m))%nat -> drivers m1 !! j = drivers m !! j) by (intros j Hj; apply list_lookup_insert_ne; lia).
  cbn [length] in *. destruct (decide (ds = [])) as [->|Hne].
  - exists m1. split; [done|]. split; [done|]. split; [done|]. split; [|done]. intros [|j] x Hx; cbn in Hx; simplify_eq. by rewrite Nat.add_0_r.
  - assert (Hlen : ds <> [] -> (0 < length ds)%nat) by (destruct ds; cbn; [done|lia]). specialize (Hlen Hne).
    assert (Es : size m1 = size m + 1) by (cbn; apply u8_small; unfold is_u8; lia).
    destruct (IH m1 Hl1) as (m' & Hrun & Hl' & Hs' & Hds & Hk'); [lia|lia|]. exists m'. split; [done|]. split; [done|].
    split; [rewrite Hs', Es; f_equal; lia|]. rewrite Es in *. split.
    + intros [|j] x Hx; cbn in Hx; simplify_eq; [rewrite Nat.add_0_r, Hk' by lia; done|].
      replace (Z.to_nat (size m) + S j)%nat with (Z.to_nat (size m + 1) + j)%nat by lia. by apply Hds.
    + intros j Hj. rewrite Hk' by lia. by apply Hk.
Qed.

(** Activation calls the activation functions of the appended drivers that
    have one, in the order of appending, for up to 255 drivers; the 256th makes
    the counter wrap to 0 and no driver at all is activated. *)
Theorem driver_activation ds m : length (drivers m) = 256%nat -> (length ds <= 256)%nat ->
  exists m', (on_init_driver_manager;; append_all ds) m = Ret (m', tt) /\
    driver_activate_all m' = Ret (m', if decide (length ds = 256%nat) then [] else filter (fun a => a <> 0) (activate <$> ds)).
Proof.
  intros Hl Hn. unfold on_init_driver_manager. rewrite modify_bind.
  destruct (append_all_run ds (mkManager (drivers m) 0)) as (m' & Hrun & Hl' & Hs & Hds & _); cbn [drivers size] in *; [done|lia|lia|].
  exists m'. split; [done|]. unfold driver_activate_all. rewrite gets_bind, Hs, Z.add_0_l. case_decide as E.
  - rewrite E. done.
  - rewrite u8_small by (unfold is_u8; lia). rewrite Nat2Z.id. by apply activate_loop_run.
Qed.

(** ** Concrete runs *)

Definition sample_device : BlockDevice := mkBD 0x1F0 14 1000 (Some Ide_read_sector) (Some Ide_write_sector) 0.
#[export] Instance some_patience : Patience := {| wait_fuel := 10 |}.
Definition sample_memory : mem := mwrite ∅ 4096 (replicate 1024 7).
Definition sample_blocks {W} (h : W) : bstate W := mkB {[ 64 := sample_device ]} ∅ (64 :: replicate 255 0) 1 sample_memory h.
Definition sample_drive : drive := mkDrive ∅ 0 0 0 0 Idle 0 3 0.
Definition slow_drive : drive := mkDrive ∅ 0 0 0 0 Idle 0 3 40.

Lemma sample_mapped p : 4096 <= p -> p + 512 <= 5120 -> mapped sample_memory p 512.
Proof.
  intros H1 H2 a Ha. unfold sample_memory. rewrite lookup_mwrite, length_replicate, decide_True by lia.
  rewrite lookup_replicate_2 by lia. by eexists.
Qed.

Lemma sample_available {W} (h : W) : available (sample_blocks h) 64 sample_device.
Proof. split; [done|]. split; [|done]. apply lookup_singleton_eq. Qed.

Lemma sample_bytes : bytes_at sample_memory 4096 (replicate 512 7).
Proof.
  change (replicate 1024 7) with (replicate (512 + 512) 7). unfold sample_memory.
  pose proof (bytes_at_mwrite ∅ 4096 (replicate (512 + 512) 7)) as H. rewrite replicate_add in H. apply bytes_at_app in H as [H _].
  exact H.
Qed.

Lemma sample_ready d : sectors d = ∅ -> drive_idle d -> latency d = 3%nat -> ide_ready (sample_blocks d) 64 sample_device.
Proof.
  intros Hs Hq Hl. constructor; [apply sample_available|done|done|done|done| | |]; cbn [hw sample_blocks drv drive_ata].
  - unfold formatted. change (drv d) with d. rewrite Hs. apply map_Forall_empty.
  - change (drv d) with d. lia.
  - change (drv d) with d. cbn. lia.
Qed.

Lemma block_write_read_roundtrip_witness : exists h m',
  (block_write 5 4096;; delay 40 0x1F7;; block_read 5 4608) (sample_blocks slow_drive) = Ret (with_hw h (with_bytes m' (sample_blocks slow_drive)), tt) /\
  bytes_at m' 4608 (replicate 512 7).
Proof.
  destruct (block_write_read_roundtrip (sample_blocks slow_drive) 64 sample_device 5 4096 4608 (replicate 512 7) 40) as (h & m' & H1 & H2 & _).
  - by apply sample_ready.
  - lia.
  - exact sample_bytes.
  - reflexivity.
  - apply Forall_replicate. unfold is_u8. lia.
  - apply sample_mapped; lia.
  - cbn. lia.
  - exists h, m'. exact (conj H1 H2).
Defined.

Lemma second_write_hangs_witness : (block_write 5 4096;; block_write 6 4608) (sample_blocks slow_drive) = Spin.
Proof.
  apply (second_write_hangs (sample_blocks slow_drive) 64 sample_device 5 6 4096 4608 (replicate 512 7)).
  - by apply sample_ready.
  - lia.
  - exact sample_bytes.
  - reflexivity.
  - apply Forall_replicate. unfold is_u8. lia.
  - cbn. lia.
Defined.

Lemma ide_read_timeout_unnoticed_witness :
  ide_read_sector (H := stuck_hardware 0xFFFF) 3 4096 (sample_blocks tt) =
  Ret (with_bytes (mwrite sample_memory 4096 (split_words (replicate 256 0xFFFF))) (sample_blocks tt), tt).
Proof.
  apply (ide_read_timeout_unnoticed 0xFFFF ltac:(unfold is_u16; lia) (sample_blocks tt) 64 sample_device 3 4096).
  - apply sample_available.
  - apply sample_mapped; lia.
Defined.

Lemma driver_activation_witness : exists m', (on_init_driver_manager;; append_all [mkDriver 100 0 0; mkDriver 0 1 1; mkDriver 200 0 0])
    (mkManager (replicate 256 (mkDriver 0 0 0)) 9) = Ret (m', tt) /\ driver_activate_all m' = Ret (m', [100; 200]).
Proof.
  destruct (driver_activation [mkDriver 100 0 0; mkDriver 0 1 1; mkDriver 200 0 0] (mkManager (replicate 256 (mkDriver 0 0 0)) 9)) as (m' & H1 & H2).
  - reflexivity.
  - cbn. lia.
  - exists m'. exact (conj H1 H2).
Defined.
