(* ===== verification/Devfs.v ===== *)
(** * The device file system (src/fs/devfs.c, include/fs/devfs.h)

    The table of devices, the file operations of block and character devices
    over the drivers of Block.v and Keyboard.v, and the inodes it hands to the
    virtual file system of Vfs.v, whose operations it calls. Names are values, a
    name field is its 32 bytes; the words of the objects that hold function
    pointers are kept by address, an unwritten word having no entry. *)
From S2P Require Import Prelude CString Ports Keyboard Block Vfs.

Definition MAX_DEVICES : Z := 64.

Inductive DeviceType : Set := DEV_TYPE_BLOCK | DEV_TYPE_CHAR | DEV_TYPE_NET.
#[export] Instance DeviceType_eq_dec : EqDecision DeviceType.
Proof. solve_decision. Defined.

Record DeviceNode := mkNode { name : list Z; type : DeviceType; major : Z; minor : Z; device_data : Z }.
Definition sizeof_DeviceNode : Z := 48.

(** The functions whose addresses are stored. *)
Inductive devfs_fn : Set :=
| Block_dev_read | Block_dev_write | Block_dev_close | Char_dev_read | Char_dev_write | Char_dev_close
| Devfs_get_inode | Devfs_mount_impl | Devfs_umount_impl.

(** Where the linker and the stack place things: the table [devices], [devfs_fs],
    the locals [sector_buffer] and [device_name], the format hda%d, the code. *)
Class Layout := {
  devices_at : Z; devfs_fs_at : Z; sector_buffer : Z; device_name : Z; hda_format : Z; code : devfs_fn -> Z
}.

(** [kbd] is the keyboard driver object; [words] the heap words. *)
Record dstate (W : Type) := mkDevfs {
  blk : bstate W; kbd : KeyboardDriver; devices : list DeviceNode; num_devices : Z;
  files : vfs; words : gmap Z Z; devfs_mount_point : Z; mount_record : MountPoint
}.
Arguments mkDevfs {W} _ _ _ _ _ _ _ _.
Arguments blk {W} _. Arguments kbd {W} _. Arguments devices {W} _. Arguments num_devices {W} _.
Arguments files {W} _. Arguments words {W} _. Arguments devfs_mount_point {W} _. Arguments mount_record {W} _.

Section devfs.
Context `{Hardware W, Patience, Layout, Vfs.Env}.
Abbreviation D := (cmd (dstate W)).

Definition with_blk (b : bstate W) (s : dstate W) := mkDevfs b (kbd s) (devices s) (num_devices s) (files s) (words s) (devfs_mount_point s) (mount_record s).
Definition with_table l n (s : dstate W) := mkDevfs (blk s) (kbd s) l n (files s) (words s) (devfs_mount_point s) (mount_record s).
Definition with_files f (s : dstate W) := mkDevfs (blk s) (kbd s) (devices s) (num_devices s) f (words s) (devfs_mount_point s) (mount_record s).
Definition with_words f (s : dstate W) := mkDevfs (blk s) (kbd s) (devices s) (num_devices s) (files s) (f (words s)) (devfs_mount_point s) (mount_record s).
Definition with_mount a r (s : dstate W) := mkDevfs (blk s) (kbd s) (devices s) (num_devices s) (files s) (words s) a r.

(** Calls of the other components on their parts of the state. *)
Definition on_blk {A} (c : cmd (bstate W) A) : D A := fun s =>
  match c (blk s) with Ret (b, a) => Ret (with_blk b s, a) | Fault => Fault | Spin => Spin end.
Definition on_files {A} (c : cmd vfs A) : D A := fun s =>
  match c (files s) with Ret (f, a) => Ret (with_files f s, a) | Fault => Fault | Spin => Spin end.
Definition on_kbd {A} (c : cmd (W * KeyboardDriver) A) : D A := fun s =>
  match c (hw (blk s), kbd s) with
  | Ret ((h, k), a) =>
      Ret (mkDevfs (with_hw h (blk s)) k (devices s) (num_devices s) (files s) (words s) (devfs_mount_point s) (mount_record s), a)
  | Fault => Fault
  | Spin => Spin
  end.
Definition get_word (a : Z) : D Z := m ← gets words; lift (deref (m !! a)).
Definition put_word (a : Z) (v : Z) : D unit := modify (with_words (<[a := v]>)).
Definition get_node (i : Z) : D DeviceNode := l ← gets devices; lift (deref (zget l i)).
Definition put_node (i : Z) (d : DeviceNode) : D unit :=
  l ← gets devices; l' ← lift (deref (zset l i d)); modify (fun s => with_table l' (num_devices s) s).

(** &devices[i], and the index of such a pointer. *)
Definition node_address (i : Z) : Z := devices_at + i * sizeof_DeviceNode.
Definition node_index (p : Z) : Z := (p - devices_at) / sizeof_DeviceNode.

(** The index of the device, or -1. *)
Fixpoint find_loop (n : nat) (i : Z) (nm : list Z) : D Z :=
  match n with
  | O => mret (-1)
  | S n' => d ← get_node i; if decide (text_of (name d) = nm) then mret i else find_loop n' (i + 1) nm
  end.
Definition find_device_by_name (nm : list Z) : D Z := n ← gets num_devices; find_loop (Z.to_nat n) 0 nm.

(** ((DeviceInfo* )inode->private_data)->device *)
Definition device_of (inode : Z) : D DeviceNode :=
  i ← on_files (get_inode_at inode); p ← get_word (private_data i); get_node (node_index p).

(** ** Block devices *)

Definition block_device_of (d : DeviceNode) : D BlockDevice := on_blk (get_device (device_data d)).

(** The number of sectors, cut at the end of the device; [None]: return 0. *)
Definition sector_count (size offset count : Z) : option Z :=
  let start_sector := offset / BLOCK_SIZE in
  let num_sectors := u32 (size + BLOCK_SIZE - 1) / BLOCK_SIZE in
  if decide (u32 (start_sector + num_sectors) > count) then
    let num_sectors := u32 (count - start_sector) in
    if decide (num_sectors = 0) then None else Some num_sectors
  else Some num_sectors.

(** [copy_size] of round [i]. *)
Definition copy_size (i num_sectors size buffer_offset done : Z) : Z :=
  let c := if decide (i = 0) then BLOCK_SIZE - buffer_offset else BLOCK_SIZE in
  if decide (i = u32 (num_sectors - 1)) then
    let c := u32 (size - done) in if decide (c > BLOCK_SIZE) then BLOCK_SIZE else c
  else c.

Fixpoint dev_read_loop (n : nat) (dev : BlockDevice) (buffer size start_sector num_sectors buffer_offset i bytes_read : Z) : D Z :=
  match n with
  | O => mret bytes_read
  | S n' =>
      on_blk (call_block (bd_read dev) (u32 (start_sector + i)) sector_buffer);;
      let c := copy_size i num_sectors size buffer_offset bytes_read in
      on_blk (on_bytes (memcpy (buffer + bytes_read) (sector_buffer + if decide (i = 0) then buffer_offset else 0) c));;
      let bytes_read := u32 (bytes_read + c) in
      if decide (bytes_read >= size) then mret bytes_read
      else dev_read_loop n' dev buffer size start_sector num_sectors buffer_offset (i + 1) bytes_read
  end.

Definition block_dev_read (inode buffer size offset : Z) : D Z :=
  device ← device_of inode;
  if decide (device_data device = 0) then mret 0 else
  dev ← block_device_of device;
  match bd_read dev with
  | None => mret 0
  | Some _ =>
      match sector_count size offset (block_count dev) with
      | None => mret 0
      | Some num_sectors =>
          dev_read_loop (Z.to_nat num_sectors) dev buffer size (offset / BLOCK_SIZE) num_sectors (offset mod BLOCK_SIZE) 0 0
      end
  end.

Fixpoint dev_write_loop (n : nat) (dev : BlockDevice) (buffer size start_sector num_sectors buffer_offset i bytes_written : Z) : D Z :=
  match n with
  | O => mret bytes_written
  | S n' =>
      (if decide (i = 0 \/ i = u32 (num_sectors - 1))
       then on_blk (call_block (bd_read dev) (u32 (start_sector + i)) sector_buffer) else mret tt);;
      let c := copy_size i num_sectors size buffer_offset bytes_written in
      on_blk (on_bytes (memcpy (sector_buffer + if decide (i = 0) then buffer_offset else 0) (buffer + bytes_written) c));;
      on_blk (call_block (bd_write dev) (u32 (start_sector + i)) sector_buffer);;
      let bytes_written := u32 (bytes_written + c) in
      if decide (bytes_written >= size) then mret bytes_written
      else dev_write_loop n' dev buffer size start_sector num_sectors buffer_offset (i + 1) bytes_written
  end.

Definition block_dev_write (inode buffer size offset : Z) : D Z :=
  device ← device_of inode;
  if decide (device_data device = 0) then mret 0 else
  dev ← block_device_of device;
  match bd_write dev with
  | None => mret 0
  | Some _ =>
      match sector_count size offset (block_count dev) with
      | None => mret 0
      | Some num_sectors =>
          dev_write_loop (Z.to_nat num_sectors) dev buffer size (offset / BLOCK_SIZE) num_sectors (offset mod BLOCK_SIZE) 0 0
      end
  end.

(** [block_dev_close] and [char_dev_close]. *)
Definition dev_close (inode : Z) : D Z :=
  if decide (inode = 0) then mret 0 else
  i ← on_files (get_inode_at inode);
  (if decide (private_data i <> 0) then on_files (free (private_data i)) else mret tt);;
  on_files (free inode);;
  mret 0.

(** ** Character devices *)

Fixpoint char_read_loop (n : nat) (buffer bytes_read : Z) : D Z :=
  match n with
  | O => mret bytes_read
  | S n' =>
      c ← on_kbd keyboard_getchar;
      if decide (c = 0) then mret bytes_read else
      on_blk (on_bytes (store (buffer + bytes_read) c));;
      char_read_loop n' buffer (bytes_read + 1)
  end.

Definition char_dev_read (inode buffer size offset : Z) : D Z :=
  device ← device_of inode;
  if decide (minor device = 0) then
    if decide (device_data device = 0) then mret 0 else char_read_loop (Z.to_nat size) buffer 0
  else mret 0.

Definition char_dev_write (inode buffer size offset : Z) : D Z := device_of inode;; mret 0.

(** ** Inodes *)

Definition sizeof_FileOperations : Z := 32.
Definition sizeof_DeviceInfo : Z := 36.

(** *dst = *src: [n] words, an indeterminate one staying so. *)
Fixpoint copy_words (n : nat) (dst src : Z) : D unit :=
  match n with
  | O => mret tt
  | S n' =>
      m ← gets words;
      modify (with_words (fun w => match m !! src with Some v => <[dst := v]> w | None => delete dst w end));;
      copy_words n' (dst + 4) (src + 4)
  end.

(** ops->read, write, close, ioctl are stored; the other fields are not. *)
Definition put_operations (ops read write close : Z) : D unit :=
  put_word (ops + 8) read;; put_word (ops + 12) write;; put_word (ops + 4) close;; put_word (ops + 16) 0.

(** The part from the allocation of [ops] on. *)
Definition describe (inode device : Z) (d : DeviceNode) : D Z :=
  ops ← on_files (malloc sizeof_FileOperations);
  if decide (ops <> 0) then
    ops ← (match type d with
           | DEV_TYPE_BLOCK => put_operations ops (code Block_dev_read) (code Block_dev_write) (code Block_dev_close);; mret ops
           | DEV_TYPE_CHAR => put_operations ops (code Char_dev_read) (code Char_dev_write) (code Char_dev_close);; mret ops
           | DEV_TYPE_NET => on_files (free ops);; mret 0
           end);
    device_info ← on_files (malloc sizeof_DeviceInfo);
    (if decide (device_info <> 0) then
       put_word device_info (node_address device);;
       if decide (ops = 0) then fault else
       copy_words 8 (device_info + 4) ops;;
       i ← on_files (get_inode_at inode);
       on_files (put_inode_at inode (mkInode (inode_num i) (i_type i) (permissions i) (i_size i) (blocks i) (i_ref_count i) device_info))
     else mret tt);;
    on_files (free ops);;
    mret inode
  else
    i ← on_files (get_inode_at inode);
    on_files (put_inode_at inode (mkInode (inode_num i) (i_type i) (permissions i) (i_size i) (blocks i) (i_ref_count i) (node_address device)));;
    mret inode.

Definition devfs_get_inode (path : list Z) : D Z :=
  let path := skip_leading path in
  device ← find_device_by_name path;
  if decide (device = -1) then mret 0 else
  d ← get_node device;
  inode ← on_files (vfs_create_inode (if decide (type d = DEV_TYPE_BLOCK) then FILE_TYPE_BLOCK_DEVICE else FILE_TYPE_CHAR_DEVICE)
            438 (node_address device));
  if decide (inode = 0) then mret 0 else
  (if decide (type d = DEV_TYPE_BLOCK) then
     b ← block_device_of d;
     i ← on_files (get_inode_at inode);
     on_files (put_inode_at inode (mkInode (inode_num i) (i_type i) (permissions i) (u32 (block_count b * BLOCK_SIZE)) (block_count b)
                 (i_ref_count i) (private_data i)))
   else mret tt);;
  describe inode device d.

(** ** The file system *)

Definition devfs_name : list Z := [100; 101; 118; 102; 115].

Fixpoint put_bytes (l : list Z) (p : Z) : cmd mem unit :=
  match l with [] => mret tt | b :: l' => store p b;; put_bytes l' (p + 1) end.

(** [name] of the static [devfs_fs] is NULL: the copy goes to address 0. *)
Definition devfs_init : D Z :=
  modify (fun s => with_table ((fun d => mkNode (0 :: tail (name d)) DEV_TYPE_BLOCK 0 0 0) <$> devices s) 0 s);;
  on_blk (on_bytes (put_bytes (devfs_name ++ [0]) 0));;
  on_files (modify (fun f => mkVfs (file_descriptors f) (mount_points f) (registered_filesystems f) (next_inode_num f)
    (num_mount_points f) (num_filesystems f) (inodes f) (operations f)
    (<[devfs_fs_at := mkFS devfs_name (code Devfs_mount_impl) (code Devfs_umount_impl) (code Devfs_get_inode) 0 0 0]> (filesystems f))));;
  mret 0.

Definition sizeof_MountPoint : Z := 12.

Definition devfs_mount (mount_point : list Z) : D Z :=
  r ← on_files (vfs_register_filesystem devfs_fs_at);
  if decide (r <> 0) then mret (-1) else
  r ← on_files (vfs_mount [110; 111; 110; 101] mount_point devfs_name);
  if decide (r <> 0) then mret (-1) else
  a ← on_files (malloc sizeof_MountPoint);
  (if decide (a <> 0) then
     p ← on_files (strdup mount_point);
     modify (with_mount a (mkMP p devfs_fs_at))
   else r ← gets mount_record; modify (with_mount a r));;
  mret 0.

(** vfs_umount(NULL) would compare paths with NULL. *)
Definition devfs_umount : D Z :=
  a ← gets devfs_mount_point;
  if decide (a = 0) then mret (-1) else
  r ← gets mount_record;
  match mp_path r with
  | None => fault
  | Some (pa, path) =>
      result ← on_files (vfs_umount path);
      (if decide (result = 0) then
         on_files (free pa);; on_files (free a);; modify (with_mount 0 r)
       else mret tt);;
      mret result
  end.

(** strncpy into [name], whose last byte stays. *)
Definition copied_name (old nm : list Z) : list Z := padded 31 nm ++ drop 31 old.

Definition devfs_register_device (nm : list Z) (t : DeviceType) (maj min data : Z) : D Z :=
  n ← gets num_devices;
  if decide (n >= MAX_DEVICES) then mret (-1) else
  found ← find_device_by_name nm;
  if decide (found <> -1) then mret (-1) else
  d ← get_node n;
  put_node n (mkNode (copied_name (name d) nm) t maj min data);;
  modify (fun s => with_table (devices s) (n + 1) s);;
  mret 0.

(** for (i = i; i < i + k; i++) devices[i] = devices[i + 1] *)
Fixpoint shift_devices (k : nat) (i : Z) : D unit :=
  match k with O => mret tt | S k' => d ← get_node (i + 1); put_node i d;; shift_devices k' (i + 1) end.

Definition devfs_unregister_device (nm : list Z) : D Z :=
  index ← find_device_by_name nm;
  if decide (index = -1) then mret (-1) else
  n ← gets num_devices;
  shift_devices (Z.to_nat (n - 1 - index)) index;;
  d ← get_node (n - 1);
  put_node (n - 1) (mkNode (0 :: tail (name d)) DEV_TYPE_BLOCK 0 0 0);;
  modify (fun s => with_table (devices s) (n - 1) s);;
  mret 0.

Definition devfs_get_filesystem : Z := devfs_fs_at.

(** The string in a buffer of [n] bytes. *)
Fixpoint read_bytes (n : nat) (p : Z) : cmd mem (list Z) :=
  match n with O => mret [] | S n' => b ← load p; l ← read_bytes n' (p + 1); mret (b :: l) end.

(** The whole of [block_device_initialize] (block.c). *)
Definition block_device_initialize (dev base_port interrupt_line : Z) : D unit :=
  on_blk (block_device_setup dev base_port interrupt_line);;
  n ← gets (fun s => num_block_devices (blk s));
  on_blk (on_bytes (snprintf device_name 16 hda_format [n]));;
  nm ← on_blk (on_bytes (read_bytes 16 device_name));
  devfs_register_device (text_of nm) DEV_TYPE_BLOCK 3 n dev;;
  mret tt.
End devfs.

(** ** Reading a block device *)

Section reading.
Context `{HA : AtaDrive W, Patience, Layout, Vfs.Env}.
Implicit Types s : dstate W.

(** The state with another memory and another hardware state. *)
Definition moved (h : W) (m : mem) s : dstate W := with_blk (with_hw h (with_bytes m (blk s))) s.

Definition in_range (a p n : Z) : Prop := p <= a < p + n.
#[global] Instance in_range_dec a p n : Decision (in_range a p n).
Proof. unfold in_range. apply _. Defined.

Lemma mwrite_range (m : mem) p l a :
  mwrite m p l !! a = if decide (in_range a p (Z.of_nat (length l))) then l !! Z.to_nat (a - p) else m !! a.
Proof. rewrite lookup_mwrite. unfold in_range. done. Qed.

(** One round: a sector into the local buffer, a part of it out. *)
Lemma round_run {A} s dev d k buffer o c (K : cmd (dstate W) A) : ide_ready (blk s) dev d -> 0 <= k < 2 ^ 28 ->
  mapped (bytes (blk s)) sector_buffer 512 -> mapped (bytes (blk s)) buffer c ->
  buffer + c <= sector_buffer \/ sector_buffer + 512 <= buffer -> 0 <= o -> 0 <= c -> o + c <= 512 ->
  exists h m', (on_blk (call_block (bd_read d) k sector_buffer);; on_blk (on_bytes (memcpy buffer (sector_buffer + o) c));; K) s = K (moved h m' s) /\
    same_disk (drv (hw (blk s))) (drv h) /\ drive_idle (drv h) /\
    forall a, m' !! a = if decide (in_range a buffer c) then sector_bytes (drv (hw (blk s))) k !! Z.to_nat (o + (a - buffer))
      else if decide (in_range a sector_buffer 512) then sector_bytes (drv (hw (blk s))) k !! Z.to_nat (a - sector_buffer)
      else bytes (blk s) !! a.
Proof.
  intros Hi Hk Hsb Hb Hdis Ho Hc Hoc. pose proof Hi as [Hav Hcnt Hr Hw Hq Hf Hl Hp].
  destruct (ide_read_sector_run (blk s) dev d k sector_buffer Hav Hq Hk Hf Hl Hsb) as (h & Hrun & Hs & Hlat).
  fold (sector_bytes (drv (hw (blk s))) k) in Hrun. destruct (sector_bytes_ok (drv (hw (blk s))) k Hf) as [Hlen Hu].
  set (sec := sector_bytes (drv (hw (blk s))) k) in *. set (m1 := mwrite (bytes (blk s)) sector_buffer sec) in *.
  assert (Hm1 : forall a, m1 !! a = if decide (in_range a sector_buffer 512) then sec !! Z.to_nat (a - sector_buffer) else bytes (blk s) !! a)
    by (intros a; unfold m1; rewrite mwrite_range, Hlen; done).
  set (part := take (Z.to_nat c) (drop (Z.to_nat o) sec)).
  assert (Hpart : Z.of_nat (length part) = c) by (unfold part; rewrite length_take, length_drop; lia).
  assert (Hpu : Forall is_u8 part) by (unfold part; by apply Forall_take, Forall_drop).
  assert (Hcopy : memcpy buffer (sector_buffer + o) c m1 = Ret (mwrite m1 buffer part, buffer)).
  { rewrite <- Hpart. apply memcpy_spec; [|done| |lia].
    - unfold part. pose proof (bytes_at_mwrite (bytes (blk s)) sector_buffer sec) as Hat. fold m1 in Hat.
      rewrite <- (take_drop (Z.to_nat o) sec) in Hat. apply bytes_at_app in Hat as [_ Hat]. rewrite length_take, Nat.min_l, Z2Nat.id in Hat by lia.
      rewrite <- (take_drop (Z.to_nat c) (drop (Z.to_nat o) sec)) in Hat. by apply bytes_at_app in Hat as [Hat _].
    - rewrite Hpart. intros a Ha. rewrite Hm1. rewrite decide_False by (unfold in_range; lia). by apply Hb. }
  exists h, (mwrite m1 buffer part). split; [|split; [done|split; [done|]]].
  - rewrite (cmd_bind_eq _ _ s (moved h m1 s) tt).
    2:{ unfold on_blk. rewrite Hr. cbn [call_block]. by rewrite Hrun. }
    rewrite (cmd_bind_eq _ _ (moved h m1 s) (moved h (mwrite m1 buffer part) s) buffer); [done|].
    unfold on_blk, on_bytes. cbn [blk moved with_blk bytes with_hw with_bytes]. by rewrite Hcopy.
  - intros a. rewrite mwrite_range, Hpart, Hm1. case_decide as Ea; [|done]. unfold part, in_range in *.
    rewrite lookup_take_lt by lia. rewrite lookup_drop. f_equal. lia.
Qed.

(** What a read of [size] bytes at [offset] returns: all of them when they lie in
    one sector; otherwise what [(size + 511) / 512] sectors hold from [offset] on. *)
Definition read_count (size offset : Z) : Z :=
  if decide (size <= BLOCK_SIZE) then size
  else Z.min size (BLOCK_SIZE * ((size + 511) / 512) - offset mod BLOCK_SIZE).

Lemma ide_ready_moved s dev d h m : ide_ready (blk s) dev d -> same_disk (drv (hw (blk s))) (drv h) -> drive_idle (drv h) ->
  ide_ready (blk (moved h m s)) dev d.
Proof. intros Hi Hs Hq. exact (ide_ready_same (blk s) dev d h m Hi Hs Hq). Qed.

(** The buffers of a transfer. *)
Record buffers (m : mem) (buffer size : Z) : Prop := {
  bf_sector : mapped m sector_buffer 512;
  bf_user : mapped m buffer size;
  bf_apart : buffer + size <= sector_buffer \/ sector_buffer + 512 <= buffer
}.

(** The memory after a transfer of the bytes [from] to [to] of the request. *)
Definition delivered (dk : drive) (buffer offset from to : Z) (m m' : mem) : Prop :=
  (forall a, in_range a (buffer + from) (to - from) -> m' !! a = Some (disk_byte dk (offset + (a - buffer)))) /\
  (forall a, ~ in_range a (buffer + from) (to - from) -> ~ in_range a sector_buffer 512 -> m' !! a = m !! a) /\
  mapped m' sector_buffer 512.

Section transfer.
Context (dev : Z) (d : BlockDevice) (buffer size offset num : Z).
Context (Hsize : 0 < size < 2 ^ 32 - 512) (Hoff : 0 <= offset) (Hnum : num = (size + 511) / 512).
Context (Hmax : offset / 512 + num <= 2 ^ 28) (Hone : size <= 512 -> offset mod 512 + size <= 512).

Definition done_before (i : Z) : Z := if decide (i = 0) then 0 else 512 * i - offset mod 512.

Lemma copy_size_spec i : 0 <= i < num ->
  let c := copy_size i num size (offset mod 512) (done_before i) in
  0 <= c /\ (if decide (i = 0) then offset mod 512 else 0) + c <= 512 /\ 0 <= done_before i /\
  done_before i + c = (if decide (i = num - 1) then read_count size offset else done_before (i + 1)) /\
  done_before i + c <= size /\ (i <> num - 1 -> done_before i + c < size) /\ u32 (done_before i + c) = done_before i + c.
Proof.
  intros Hi. pose proof (Z.mod_pos_bound offset 512 ltac:(lia)) as Hbo. set (bo := offset mod 512) in *.
  assert (Hb : 512 * (num - 1) < size /\ size <= 512 * num) by (clear -Hnum; zdm).
  assert (Ho : 0 <= offset / 512) by zdm.
  assert (Hn32 : u32 (num - 1) = num - 1) by (apply u32_small; unfold is_u32; lia).
  assert (Hdone : 0 <= done_before i <= 512 * i) by (unfold done_before; fold bo; case_decide; lia).
  unfold copy_size. rewrite Hn32. cbn zeta.
  assert (Hu : forall z, 0 <= z <= size -> u32 z = z) by (intros z Hz; apply u32_small; unfold is_u32; lia).
  destruct (decide (i = num - 1)) as [->|Hne].
  - rewrite (Hu (size - done_before (num - 1))) by lia. unfold read_count, BLOCK_SIZE. rewrite <- Hnum. fold bo.
    unfold done_before in Hdone |- *. fold bo in Hdone |- *. destruct (decide (num - 1 = 0)) as [E|E].
    + rewrite Z.sub_0_r. rewrite decide_False by lia. rewrite decide_True by lia. rewrite Z.add_0_l, Hu by lia. repeat split; lia.
    + rewrite (decide_False (P := size <= 512)) by lia. destruct (decide (size - (512 * (num - 1) - bo) > 512)).
      * rewrite Hu by lia. repeat split; lia.
      * rewrite Hu by lia. repeat split; lia.
  - unfold BLOCK_SIZE, done_before in Hdone |- *. fold bo in Hdone |- *. rewrite (decide_False (P := i + 1 = 0)) by lia.
    destruct (decide (i = 0)) as [->|E]; rewrite Hu by lia; repeat split; lia.
Qed.

Lemma done_bounds i : 0 <= i < num -> done_before i <= read_count size offset <= size.
Proof.
  intros Hi. destruct (copy_size_spec (num - 1)) as (Hc & _ & _ & Hdc & Hle & _); [lia|]. rewrite decide_True in Hdc by done.
  rewrite <- Hdc. split; [|done]. pose proof (Z.mod_pos_bound offset 512 ltac:(lia)). unfold done_before in *.
  destruct (decide (i = 0)), (decide (num - 1 = 0)); lia.
Qed.

Lemma delivered_app dk from mid to m1 m2 m3 : 0 <= from <= mid -> mid <= to -> to <= size ->
  buffer + size <= sector_buffer \/ sector_buffer + 512 <= buffer ->
  delivered dk buffer offset from mid m1 m2 -> delivered dk buffer offset mid to m2 m3 -> delivered dk buffer offset from to m1 m3.
Proof.
  unfold in_range. intros Hf Hm Ht Hap (A1 & B1 & C1) (A2 & B2 & C2). unfold delivered, in_range in *. split; [|split; [|done]].
  - intros a Ha. destruct (decide (a < buffer + mid)); [rewrite B2 by lia; apply A1; lia|apply A2; lia].
  - intros a Ha Hs. rewrite B2, B1 by lia. done.
Qed.

(** One round of the loop. *)
Lemma dev_read_round n s i : ide_ready (blk s) dev d -> buffers (bytes (blk s)) buffer size -> 0 <= i < num ->
  let c := copy_size i num size (offset mod 512) (done_before i) in
  exists h m', dev_read_loop (S n) d buffer size (offset / 512) num (offset mod 512) i (done_before i) s =
      (if decide (done_before i + c >= size) then mret (done_before i + c)
       else dev_read_loop n d buffer size (offset / 512) num (offset mod 512) (i + 1) (done_before i + c)) (moved h m' s) /\
    same_disk (drv (hw (blk s))) (drv h) /\ drive_idle (drv h) /\
    delivered (drv (hw (blk s))) buffer offset (done_before i) (done_before i + c) (bytes (blk s)) m'.
Proof.
  intros Hi [Hsb Hbuf Hap] Hin c. destruct (copy_size_spec i Hin) as (Hc & Hoc & Hd0 & Hdc & Hle & _ & Hu32). fold c in Hc, Hoc, Hdc, Hle, Hu32.
  pose proof (Z.mod_pos_bound offset 512 ltac:(lia)) as Hbo. assert (Ho : 0 <= offset / 512) by (clear -Hoff; zdm).
  set (o := if decide (i = 0) then offset mod 512 else 0) in *. assert (Ho0 : 0 <= o) by (unfold o; destruct (decide (i = 0)); lia).
  cbn [dev_read_loop]. fold o. rewrite (u32_small (offset / 512 + i)) by (unfold is_u32; lia).
  destruct (round_run s dev d (offset / 512 + i) (buffer + done_before i) o c
    (if decide (done_before i + c >= size) then mret (done_before i + c)
     else dev_read_loop n d buffer size (offset / 512) num (offset mod 512) (i + 1) (done_before i + c))) as (h & m' & Hrun & Hs & Hl & Hm');
    [done|lia|done|intros a Ha; apply Hbuf; lia|lia|lia|lia|lia|].
  exists h, m'. fold c. rewrite Hu32. split; [exact Hrun|]. split; [done|]. split; [done|]. unfold delivered, in_range in *.
  replace (done_before i + c - done_before i) with c by lia. split; [|split].
  - intros a Ha. rewrite Hm', decide_True by done. rewrite disk_byte_in; [|apply Hi|lia]. do 2 f_equal.
    pose proof (Z.div_mod offset 512 ltac:(lia)). unfold done_before, o. destruct (decide (i = 0)); lia.
  - intros a Ha Hsa. by rewrite Hm', decide_False, decide_False.
  - intros a Ha. rewrite Hm'. rewrite decide_False by lia. rewrite decide_True by lia. rewrite disk_byte_in; [by eexists|apply Hi|lia].
Qed.

Lemma dev_read_loop_run n : forall s i, ide_ready (blk s) dev d -> buffers (bytes (blk s)) buffer size ->
  0 <= i -> i + Z.of_nat (S n) = num ->
  exists h m', dev_read_loop (S n) d buffer size (offset / 512) num (offset mod 512) i (done_before i) s = Ret (moved h m' s, read_count size offset) /\
    same_disk (drv (hw (blk s))) (drv h) /\ drive_idle (drv h) /\
    delivered (drv (hw (blk s))) buffer offset (done_before i) (read_count size offset) (bytes (blk s)) m'.
Proof.
  induction n as [|n IH]; intros s i Hi Hbuf Hi0 Hn; destruct (copy_size_spec i) as (_ & _ & Hd0 & Hdc & Hle & Hlt & _); [lia| |lia|];
    set (c := copy_size i num size (offset mod 512) (done_before i)) in *.
  - destruct (dev_read_round 0 s i Hi Hbuf) as (h & m' & Hrun & Hs & Hl & Hdel); [lia|]. fold c in Hrun, Hdel.
    rewrite decide_True in Hdc by lia. rewrite Hdc in Hrun, Hdel. exists h, m'. split; [|done]. rewrite Hrun. by case_decide.
  - destruct (dev_read_round (S n) s i Hi Hbuf) as (h & m' & Hrun & Hs & Hl & Hdel); [lia|]. fold c in Hrun, Hdel.
    rewrite decide_False in Hrun by lia. rewrite decide_False in Hdc by lia. rewrite Hdc in Hrun, Hdel, Hle.
    destruct Hbuf as [Hsb Hb Hap]. assert (Hb' : buffers (bytes (blk (moved h m' s))) buffer size).
    { destruct Hdel as (A & B & C). constructor; [done| |done]. intros a Ha. cbn [blk moved with_blk bytes with_hw with_bytes].
      destruct (decide (in_range a (buffer + done_before i) (done_before (i + 1) - done_before i))) as [Hin|Hout];
        [rewrite A by done; by eexists|rewrite B; [by apply Hb|done|unfold in_range; lia]]. }
    destruct (IH (moved h m' s) (i + 1)) as (h2 & m2 & Hrun2 & Hs2 & Hl2 & Hdel2); [by apply ide_ready_moved|done|lia|lia|].
    cbn [blk moved with_blk hw with_hw bytes with_bytes] in Hs2, Hl2, Hdel2. exists h2, m2. rewrite Hrun. split; [exact Hrun2|].
    split; [by apply (same_disk_trans _ (drv h))|]. split; [done|]. destruct (done_bounds (i + 1)) as [Hb1 Hb2]; [lia|].
    apply (delivered_app _ (done_before i) (done_before (i + 1)) _ _ m'); try done; [destruct (copy_size_spec i) as (? & _ & ? & Hx & _); [lia|]; rewrite decide_False in Hx by lia; lia|].
    destruct Hdel2 as (A & B & C). split; [|done]. intros a Ha. rewrite A by done. by rewrite (disk_byte_sectors _ _ _ (proj1 Hs)).
Qed.
End transfer.

(** The inode [inode] stands for the device [node]. *)
Definition stands_for s (inode : Z) (node : DeviceNode) : Prop :=
  exists i p, inodes (files s) !! inode = Some i /\ words s !! private_data i = Some p /\ zget (devices s) (node_index p) = Some node.

Lemma device_of_run s inode node : stands_for s inode node -> device_of inode s = Ret (s, node).
Proof.
  intros (i & p & Hi & Hp & Hn). unfold device_of. rewrite (cmd_bind_eq _ _ s s i).
  2:{ unfold on_files, get_inode_at. rewrite gets_bind, Hi. by destruct s. }
  rewrite (cmd_bind_eq _ _ s s p) by (unfold get_word; by rewrite gets_bind, Hp).
  unfold get_node. by rewrite gets_bind, Hn.
Qed.

(** How many bytes a request of at most one sector reaches behind its sector. *)
Definition excess (size offset : Z) : Z := if decide (size <= 512) then Z.max 0 (offset mod 512 + size - 512) else 0.

(** A request of at most one sector that crosses a sector boundary reads one
    sector and copies along what lies behind the sector buffer. *)
Lemma crossing_run s dev d buffer size offset tail : ide_ready (blk s) dev d -> mapped (bytes (blk s)) sector_buffer 512 ->
  mapped (bytes (blk s)) buffer size -> 0 < size <= 512 -> 0 <= offset -> offset / 512 < 2 ^ 28 -> 512 < offset mod 512 + size ->
  bytes_at (bytes (blk s)) (sector_buffer + 512) tail -> Forall is_u8 tail -> Z.of_nat (length tail) = offset mod 512 + size - 512 ->
  buffer + size <= sector_buffer \/ sector_buffer + (offset mod 512 + size) <= buffer ->
  exists h m', dev_read_loop 1 d buffer size (offset / 512) 1 (offset mod 512) 0 0 s = Ret (moved h m' s, size) /\
    same_disk (drv (hw (blk s))) (drv h) /\
    m' = mwrite (mwrite (bytes (blk s)) sector_buffer (sector_bytes (drv (hw (blk s))) (offset / 512))) buffer
           (drop (Z.to_nat (offset mod 512)) (sector_bytes (drv (hw (blk s))) (offset / 512)) ++ tail).
Proof.
  intros [Hav Hcnt Hr Hw Hq Hf Hl Hp] Hsb Hb Hsize Hoff Hmax Hcross Htail Hut Hlt Hap. set (k := offset / 512) in *. set (o := offset mod 512) in *.
  assert (Hk : 0 <= k < 2 ^ 28) by (split; [unfold k; clear -Hoff; zdm|done]).
  assert (Ho : 0 <= o < 512) by (apply Z.mod_pos_bound; lia).
  destruct (ide_read_sector_run (blk s) dev d k sector_buffer Hav Hq Hk Hf Hl Hsb) as (h & Hrun & Hs & _).
  fold (sector_bytes (drv (hw (blk s))) k) in Hrun. destruct (sector_bytes_ok (drv (hw (blk s))) k Hf) as [Hlen Hu].
  set (sec := sector_bytes (drv (hw (blk s))) k) in *. set (m1 := mwrite (bytes (blk s)) sector_buffer sec) in *.
  set (l := drop (Z.to_nat o) sec ++ tail).
  assert (Hll : Z.of_nat (length l) = size) by (unfold l; rewrite length_app, length_drop; lia).
  assert (Hat : bytes_at m1 (sector_buffer + o) l).
  { unfold l. apply bytes_at_app. split.
    - pose proof (bytes_at_mwrite (bytes (blk s)) sector_buffer sec) as Hat. fold m1 in Hat.
      rewrite <- (take_drop (Z.to_nat o) sec) in Hat. apply bytes_at_app in Hat as [_ Hat]. by rewrite length_take, Nat.min_l, Z2Nat.id in Hat by lia.
    - rewrite length_drop, Hlen. replace (sector_buffer + o + Z.of_nat (512 - Z.to_nat o)) with (sector_buffer + 512) by lia.
      revert Htail. apply bytes_at_ext. intros a Ha. unfold m1. apply mwrite_outside. lia. }
  assert (Hcopy : memcpy buffer (sector_buffer + o) size m1 = Ret (mwrite m1 buffer l, buffer)).
  { rewrite <- Hll. apply memcpy_spec; [done|unfold l; apply Forall_app; split; [by apply Forall_drop|done]| |lia].
    rewrite Hll. intros a Ha. unfold m1. rewrite mwrite_range, Hlen. rewrite decide_False by (unfold in_range; lia). by apply Hb. }
  exists h, (mwrite m1 buffer l). split; [|by split]. cbn [dev_read_loop]. rewrite !Z.add_0_r, (u32_small k) by (unfold is_u32; lia).
  rewrite (cmd_bind_eq _ _ s (moved h m1 s) tt).
  2:{ unfold on_blk. rewrite Hr. cbn [call_block]. by rewrite Hrun. }
  assert (Hcs : copy_size 0 1 size o 0 = size).
  { unfold copy_size, BLOCK_SIZE. change (u32 (1 - 1)) with 0. rewrite decide_True by done. rewrite Z.sub_0_r, u32_small by (unfold is_u32; lia).
    cbn zeta. by rewrite decide_False by lia. }
  rewrite (decide_True (P := 0 = 0)) by done. rewrite Hcs, Z.add_0_l, u32_small by (unfold is_u32; lia).
  rewrite (cmd_bind_eq _ _ (moved h m1 s) (moved h (mwrite m1 buffer l) s) buffer); [by rewrite decide_True by lia|].
  unfold on_blk, on_bytes. cbn [blk moved with_blk bytes with_hw with_bytes]. by rewrite Hcopy.
Qed.

(** C27. Reading a block device in the range of the disk delivers the bytes of the
    disk from the offset on: all of them when the request lies in one sector, and
    when it is longer than a sector those in the first [(size + 511) / 512]
    sectors, which can be fewer than asked for; the result is their number. A
    request of at most a sector that crosses a sector boundary returns its full
    size too, but only the bytes up to the boundary are those of the disk; the rest
    is what lay behind the local sector buffer ([tail]). Nothing but those bytes,
    the local sector buffer and the state of the drive changes. *)
Theorem block_dev_read_bytes s inode node d buffer size offset tail : stands_for s inode node -> device_data node <> 0 ->
  ide_ready (blk s) (device_data node) d -> buffers (bytes (blk s)) buffer size ->
  0 < size < 2 ^ 32 - 512 -> 0 <= offset -> offset + size <= 512 * block_count d -> block_count d <= 2 ^ 28 ->
  bytes_at (bytes (blk s)) (sector_buffer + 512) tail -> Forall is_u8 tail -> Z.of_nat (length tail) = excess size offset ->
  buffer + size <= sector_buffer \/ sector_buffer + 512 + excess size offset <= buffer ->
  exists h m', block_dev_read inode buffer size offset s = Ret (moved h m' s, read_count size offset) /\
    sectors (drv h) = sectors (drv (hw (blk s))) /\
    (forall k, 0 <= k < read_count size offset - excess size offset -> m' !! (buffer + k) = Some (disk_byte (drv (hw (blk s))) (offset + k))) /\
    (forall k, read_count size offset - excess size offset <= k < read_count size offset ->
      m' !! (buffer + k) = bytes (blk s) !! (sector_buffer + (offset mod 512 + k))) /\
    (forall a, ~ in_range a buffer (read_count size offset) -> ~ in_range a sector_buffer 512 -> m' !! a = bytes (blk s) !! a).
Proof.
  intros Hst Hdd Hi Hb Hsize Hoff Hend Hcount Htail Hut Hlt Hap. unfold block_dev_read. rewrite (cmd_bind_eq _ _ _ _ _ (device_of_run _ _ _ Hst)).
  rewrite decide_False by done. pose proof Hi as [(_ & Hd & _) _ Hr _ _ _ _ _]. unfold block_device_of.
  rewrite (cmd_bind_eq _ _ s s d) by (unfold on_blk, get_device; rewrite gets_bind, Hd; by destruct s). rewrite Hr.
  assert (Hn : offset / 512 + (size + 511) / 512 <= block_count d /\ 0 <= offset / 512 /\ 0 < (size + 511) / 512).
  { destruct (decide (size <= 512)); [|clear -Hsize Hoff Hend n; zdm]. replace ((size + 511) / 512) with 1 by zdm. clear -Hsize Hoff Hend. zdm. }
  unfold sector_count, BLOCK_SIZE. replace (size + 512 - 1) with (size + 511) by lia.
  rewrite (u32_small (size + 511)) by (unfold is_u32; lia). rewrite u32_small by (unfold is_u32; lia). rewrite decide_False by lia.
  destruct (decide (size <= 512 /\ 512 < offset mod 512 + size)) as [[Hs1 Hs2]|Hone].
  - assert (He : excess size offset = offset mod 512 + size - 512) by (unfold excess; rewrite decide_True by done; lia).
    rewrite He in *. destruct Hb as [Hsb Hbuf _]. replace ((size + 511) / 512) with 1 in * by zdm. change (Z.to_nat 1) with 1%nat.
    pose proof (Z.mod_pos_bound offset 512 ltac:(lia)) as Ho. pose proof (Z.div_mod offset 512 ltac:(lia)) as Hdm.
    destruct (crossing_run s (device_data node) d buffer size offset tail) as (h & m' & Hrun & Hsame & ->); try done; [lia|lia|lia|].
    assert (Hrc : read_count size offset = size) by (unfold read_count, BLOCK_SIZE; by rewrite decide_True). rewrite Hrc.
    destruct (sector_bytes_ok (drv (hw (blk s))) (offset / 512)) as [Hlen _]; [apply Hi|].
    eexists h, _. split; [exact Hrun|]. split; [apply Hsame|].
    assert (Hl : length (drop (Z.to_nat (offset mod 512)) (sector_bytes (drv (hw (blk s))) (offset / 512))) = Z.to_nat (512 - offset mod 512))
      by (rewrite length_drop; lia).
    split; [|split].
    + intros k Hk. rewrite mwrite_range, length_app, Hl. rewrite decide_True by (unfold in_range; lia).
      rewrite lookup_app_l by lia. rewrite lookup_drop. replace (Z.to_nat (offset mod 512) + Z.to_nat (buffer + k - buffer))%nat with (Z.to_nat (offset mod 512 + k)) by lia.
      rewrite disk_byte_in by (apply Hi || lia). do 2 f_equal. lia.
    + intros k Hk. rewrite mwrite_range, length_app, Hl. rewrite decide_True by (unfold in_range; lia).
      rewrite lookup_app_r by lia. rewrite Hl.
      destruct (lookup_lt_is_Some_2 tail (Z.to_nat (offset mod 512 + k - 512))) as [b Hb]; [lia|]. transitivity (Some b).
      * rewrite <- Hb. f_equal. lia.
      * symmetry. rewrite <- (bytes_at_lookup _ _ _ _ _ Htail Hb). f_equal. lia.
    + unfold in_range. intros a Ha1 Ha2. rewrite !mwrite_range, length_app, Hl, Hlen. unfold in_range. by rewrite decide_False, decide_False by lia.
  - assert (He : excess size offset = 0) by (unfold excess; case_decide; lia). rewrite He, Z.sub_0_r in *.
    destruct (dev_read_loop_run (device_data node) d buffer size offset ((size + 511) / 512) Hsize Hoff eq_refl ltac:(lia) ltac:(lia)
      (Z.to_nat ((size + 511) / 512) - 1) s 0) as (h & m' & Hrun & Hs & _ & A & B & _); [done|done|lia|lia|].
    replace (S (Z.to_nat ((size + 511) / 512) - 1)) with (Z.to_nat ((size + 511) / 512)) in Hrun by lia.
    change (done_before offset 0) with 0 in *. rewrite Z.add_0_r, Z.sub_0_r in *.
    exists h, m'. split; [exact Hrun|]. split; [apply Hs|]. split; [|split; [lia|done]].
    intros k Hk. rewrite A by (unfold in_range; lia). do 3 f_equal. lia.
Qed.
End reading.

(** ** Reading the keyboard device *)

Section characters.
Context `{Hardware W, Patience, Layout, Vfs.Env}.
Implicit Types s : dstate W.

(** The state after characters were taken from the keyboard and stored. *)
Definition typed (k : KeyboardDriver) (m : mem) s : dstate W :=
  mkDevfs (with_bytes m (blk s)) k (devices s) (num_devices s) (files s) (words s) (devfs_mount_point s) (mount_record s).

Lemma char_read_loop_run buffer n : forall s done q, kb_ok (kbd s) -> queue (abs (kbd s)) = q -> Forall (fun c => c <> 0) q ->
  mapped (bytes (blk s)) (buffer + done) (Z.of_nat n) ->
  exists k, char_read_loop n buffer done s =
      Ret (typed k (mwrite (bytes (blk s)) (buffer + done) (u8 <$> take n q)) s, done + Z.of_nat (n `min` length q)) /\
    kb_ok k /\ queue (abs k) = drop n q.
Proof.
  induction n as [|n IH]; intros s done q Hk Hq Hnz Hmap; cbn [char_read_loop].
  { exists (kbd s). rewrite take_0, drop_0. split; [|by split]. cbn. rewrite Z.add_0_r. destruct s as [b]. by destruct b. }
  destruct (keyboard_getchar_refines (hw (blk s)) (kbd s) Hk) as (k & Hget & Hk' & Hq' & _). rewrite Hq in Hget, Hq'.
  rewrite (cmd_bind_eq _ _ s (typed k (bytes (blk s)) s) (default 0 (head q))).
  2:{ unfold on_kbd. rewrite Hget. destruct s as [b]. by destruct b. }
  destruct q as [|c q]; cbn [head default tail] in *.
  - rewrite decide_True by done. exists k. rewrite take_nil, drop_nil. split; [|by split]. cbn. by rewrite Z.add_0_r.
  - apply Forall_cons in Hnz as [Hc Hnz]. rewrite decide_False by done.
    destruct (Hmap (buffer + done)) as [b Hb]; [lia|]. set (m1 := <[buffer + done := u8 c]> (bytes (blk s))).
    rewrite (cmd_bind_eq _ _ _ (typed k m1 s) tt).
    2:{ unfold on_blk, on_bytes, store, load. cbn [blk typed bytes with_bytes]. unfold mbind, cmd_mbind. cbn. by rewrite Hb. }
    destruct (IH (typed k m1 s) (done + 1) q Hk' Hq' Hnz) as (k' & Hrun & Hk2 & Hq2).
    { intros a Ha. cbn [blk typed bytes with_bytes]. apply lookup_insert_is_Some'. right. apply Hmap. lia. }
    exists k'. split; [|by split]. rewrite Hrun. cbn [blk typed bytes with_bytes firstn fmap list_fmap mwrite length Nat.min].
    replace (buffer + done + 1) with (buffer + (done + 1)) by lia. do 2 f_equal. lia.
Qed.

(** C28. Reading the keyboard device takes the waiting characters from the front
    of the keyboard's queue, in order and at most as many as asked for, stores
    them in the buffer and returns their number; nothing else changes. *)
Theorem char_dev_read_queue s inode node buffer size offset : stands_for s inode node -> minor node = 0 -> device_data node <> 0 ->
  kb_ok (kbd s) -> Forall (fun c => c <> 0) (queue (abs (kbd s))) -> 0 <= size -> mapped (bytes (blk s)) buffer size ->
  let q := queue (abs (kbd s)) in
  exists k, char_dev_read inode buffer size offset s =
      Ret (typed k (mwrite (bytes (blk s)) buffer (u8 <$> take (Z.to_nat size) q)) s, Z.min size (Z.of_nat (length q))) /\
    kb_ok k /\ queue (abs k) = drop (Z.to_nat size) q.
Proof.
  intros Hst Hmin Hdd Hk Hnz Hsize Hmap q. unfold char_dev_read. rewrite (cmd_bind_eq _ _ _ _ _ (device_of_run _ _ _ Hst)).
  rewrite decide_True by done. rewrite decide_False by done.
  destruct (char_read_loop_run buffer (Z.to_nat size) s 0 q Hk eq_refl Hnz) as (k & Hrun & Hok & Hq).
  { rewrite Z.add_0_r, Z2Nat.id by lia. done. }
  rewrite Z.add_0_r in Hrun. exists k. split; [|by split]. rewrite Hrun. do 2 f_equal. lia.
Qed.
End characters.

(** ** The table of devices *)

Lemma text_of_text l : Forall (fun c => 1 <= c < 256) l -> forall r, text_of (l ++ 0 :: r) = l.
Proof.
  induction 1 as [|c l Hc _ IH]; intros r; cbn [app text_of]; [done|]. rewrite decide_False by lia. by rewrite IH.
Qed.

(** A name field: 32 bytes, the last of which is never written. *)
Definition name_field (l : list Z) : Prop := exists f, l = f ++ [0] /\ length f = 31%nat.

Lemma copied_name_text old nm : name_field old -> (length nm <= 31)%nat -> Forall (fun c => 1 <= c < 256) nm ->
  name_field (copied_name old nm) /\ text_of (copied_name old nm) = nm.
Proof.
  intros (f & -> & Hf) Hn Ht. unfold copied_name, padded. rewrite drop_app_length' by done. rewrite take_ge by lia. split.
  - eexists. split; [done|]. rewrite length_app, length_replicate. lia.
  - rewrite <- app_assoc, <- replicate_cons_app. by apply text_of_text.
Qed.

Section table.
Context `{Hardware W, Patience, Layout, Vfs.Env}.
Implicit Types s : dstate W.

(** What a device is registered as. *)
Definition info (d : DeviceNode) : DeviceType * Z * Z * Z := (type d, major d, minor d, device_data d).
Definition listed s : list DeviceNode := take (Z.to_nat (num_devices s)) (devices s).
Definition dev_name (d : DeviceNode) : list Z := text_of (name d).
Definition registry s : gmap (list Z) (DeviceType * Z * Z * Z) := list_to_map ((fun d => (dev_name d, info d)) <$> listed s).

Record table_ok s : Prop := {
  to_length : length (devices s) = 64%nat;
  to_count : 0 <= num_devices s <= 64;
  to_names : Forall (fun d => name_field (name d)) (devices s);
  to_distinct : NoDup (dev_name <$> listed s)
}.

Lemma listed_length s : table_ok s -> length (listed s) = Z.to_nat (num_devices s).
Proof. intros [Hl Hc _ _]. unfold listed. rewrite length_take. lia. Qed.

Lemma get_node_run s i d : devices s !! i = Some d -> get_node (Z.of_nat i) s = Ret (s, d).
Proof. intros E. unfold get_node. rewrite gets_bind, zget_lookup, Nat2Z.id, E by lia. done. Qed.

Lemma put_node_run s i d : (i < length (devices s))%nat ->
  put_node (Z.of_nat i) d s = Ret (with_table (<[i := d]> (devices s)) (num_devices s) s, tt).
Proof. intros Hi. unfold put_node. rewrite gets_bind, zset_Some by lia. cbn [deref]. rewrite lift_bind, Nat2Z.id. done. Qed.

(** The search: the position of the name in the table, if it is there. *)
Lemma find_loop_run s nm l2 : forall l1, devices s = l1 ++ l2 -> forall n, (n <= length l2)%nat ->
  (exists a d b, take n l2 = a ++ d :: b /\ dev_name d = nm /\ nm ∉ dev_name <$> a /\
     find_loop n (Z.of_nat (length l1)) nm s = Ret (s, Z.of_nat (length l1 + length a))) \/
  (nm ∉ dev_name <$> take n l2 /\ find_loop n (Z.of_nat (length l1)) nm s = Ret (s, -1)).
Proof.
  induction l2 as [|d l2 IH]; intros l1 E n Hn; (destruct n as [|n]; [right; split; [apply not_elem_of_nil|done]|]); cbn in Hn; [lia|].
  cbn [find_loop take]. rewrite (cmd_bind_eq _ _ s s d).
  2:{ apply get_node_run. rewrite E, lookup_app_r, Nat.sub_diag by lia. done. }
  fold (dev_name d). destruct (decide (dev_name d = nm)) as [Ed|Hne].
  - left. exists [], d, (take n l2). split; [done|]. split; [done|]. split; [apply not_elem_of_nil|]. by rewrite Nat.add_0_r.
  - destruct (IH (l1 ++ [d]) ltac:(rewrite E; by rewrite <- app_assoc) n ltac:(lia)) as [(a & x & b & Ht & Hx & Ha & Hrun)|[Ha Hrun]];
      rewrite length_app in Hrun; cbn [length] in Hrun; replace (Z.of_nat (length l1 + 1)) with (Z.of_nat (length l1) + 1) in Hrun by lia.
    + left. exists (d :: a), x, b. rewrite Ht. split; [done|]. split; [done|]. split; [cbn; rewrite not_elem_of_cons; auto|].
      rewrite Hrun. cbn [length]. do 3 f_equal. lia.
    + right. split; [cbn; rewrite not_elem_of_cons; auto|done].
Qed.

Lemma find_device_run s nm : table_ok s ->
  (exists a d b, listed s = a ++ d :: b /\ dev_name d = nm /\ find_device_by_name nm s = Ret (s, Z.of_nat (length a))) \/
  (nm ∉ dev_name <$> listed s /\ find_device_by_name nm s = Ret (s, -1)).
Proof.
  intros [Hl Hc _ _]. unfold find_device_by_name. rewrite gets_bind.
  destruct (find_loop_run s nm (devices s) [] eq_refl (Z.to_nat (num_devices s))) as [(a & d & b & Ht & Hd & _ & Hrun)|[Ha Hrun]]; [lia| |].
  - left. by exists a, d, b.
  - by right.
Qed.

Lemma registry_None s nm : registry s !! nm = None <-> nm ∉ dev_name <$> listed s.
Proof.
  unfold registry. rewrite <- not_elem_of_list_to_map. by rewrite <- list_fmap_compose.
Qed.

Lemma registry_Some s a d b : table_ok s -> listed s = a ++ d :: b -> registry s !! dev_name d = Some (info d).
Proof.
  intros [_ _ _ Hd] E. unfold registry. apply elem_of_list_to_map_1.
  - by rewrite <- list_fmap_compose.
  - rewrite E. apply list_elem_of_fmap. exists d. split; [done|]. set_solver.
Qed.

Lemma shift_devices_run k : forall s i, (i + k < length (devices s))%nat ->
  shift_devices k (Z.of_nat i) s = Ret (with_table (take i (devices s) ++ take k (drop (S i) (devices s)) ++ drop (i + k) (devices s)) (num_devices s) s, tt).
Proof.
  induction k as [|k IH]; intros s i Hi; cbn [shift_devices].
  { rewrite Nat.add_0_r. rewrite take_0, app_nil_l, take_drop. by destruct s. }
  destruct (lookup_lt_is_Some_2 (devices s) (S i)) as [d Hd]; [lia|].
  replace (Z.of_nat i + 1) with (Z.of_nat (S i)) by lia. rewrite (cmd_bind_eq _ _ _ _ _ (get_node_run s (S i) d Hd)).
  rewrite (cmd_bind_eq _ _ _ _ _ (put_node_run s i d ltac:(lia))). rewrite IH by (cbn; rewrite length_insert; lia).
  cbn [devices with_table num_devices]. do 2 f_equal. unfold with_table. cbn. f_equal.
  rewrite (take_S_r _ _ d) by (apply list_lookup_insert_eq; lia). rewrite take_insert_ge, !drop_insert_lt by lia.
  rewrite (drop_S (devices s) d (S i) Hd). cbn [firstn]. rewrite <- app_assoc. cbn [app]. do 4 f_equal. lia.
Qed.

Lemma register_run s nm t maj min data : table_ok s -> num_devices s < 64 -> registry s !! nm = None ->
  (length nm <= 31)%nat -> Forall (fun c => 1 <= c < 256) nm ->
  exists s', devfs_register_device nm t maj min data s = Ret (s', 0) /\ table_ok s' /\
    registry s' = <[nm := (t, maj, min, data)]> (registry s) /\ blk s' = blk s /\ kbd s' = kbd s.
Proof.
  intros Hok Hn Hr Hlen Hnm. pose proof Hok as [Hl Hc Hf Hd]. unfold devfs_register_device, MAX_DEVICES. rewrite gets_bind, decide_False by lia.
  destruct (find_device_run s nm Hok) as [(a & d & b & E & Hd' & _)|[Hfree Hrun]].
  { apply registry_None in Hr. rewrite E, fmap_app in Hr. set_solver. }
  rewrite (cmd_bind_eq _ _ _ _ _ Hrun), decide_False by auto.
  set (n := Z.to_nat (num_devices s)). destruct (lookup_lt_is_Some_2 (devices s) n) as [d Hdn]; [lia|].
  replace (num_devices s) with (Z.of_nat n) by lia. rewrite (cmd_bind_eq _ _ _ _ _ (get_node_run s n d Hdn)).
  set (nd := mkNode (copied_name (name d) nm) t maj min data). rewrite (cmd_bind_eq _ _ _ _ _ (put_node_run s n nd ltac:(lia))), modify_bind.
  rewrite Forall_forall in Hf. pose proof (Hf d (list_elem_of_lookup_2 _ _ _ Hdn)) as Hfd.
  destruct (copied_name_text (name d) nm Hfd Hlen Hnm) as [Hfield Htext].
  eexists. split; [reflexivity|].
  assert (Hlist : listed (with_table (<[n := nd]> (devices s)) (Z.of_nat n + 1) (with_table (<[n := nd]> (devices s)) (num_devices s) s)) = listed s ++ [nd]).
  { unfold listed. cbn [devices num_devices with_table]. replace (Z.to_nat (Z.of_nat n + 1)) with (S n) by lia. fold n.
    rewrite (take_S_r _ _ nd) by (apply list_lookup_insert_eq; lia). by rewrite take_insert_ge. }
  split.
  - constructor; cbn [devices num_devices with_table].
    + by rewrite length_insert.
    + lia.
    + apply Forall_insert; [by apply Forall_forall|done].
    + unfold with_table in Hlist. cbn in Hlist. unfold with_table. cbn. rewrite Hlist, fmap_app. apply NoDup_app. split; [done|]. split; [|apply NoDup_singleton].
      intros x Hx. change (dev_name <$> [nd]) with [text_of (copied_name (name d) nm)].
      rewrite Htext, list_elem_of_singleton. by intros ->.
  - unfold registry. unfold with_table in Hlist |- *. cbn in Hlist |- *. rewrite Hlist, fmap_app. change ((fun d => (dev_name d, info d)) <$> [nd]) with [(text_of (copied_name (name d) nm), (t, maj, min, data))].
    rewrite Htext. split; [|done]. apply list_to_map_snoc. rewrite <- list_fmap_compose. done.
Qed.

Lemma unregister_run s nm a d b : table_ok s -> listed s = a ++ d :: b -> dev_name d = nm ->
  find_device_by_name nm s = Ret (s, Z.of_nat (length a)) ->
  exists s', devfs_unregister_device nm s = Ret (s', 0) /\ table_ok s' /\ registry s' = delete nm (registry s).
Proof.
  intros Hok E Hd Hrun. pose proof Hok as [Hl Hc Hf Hdist]. pose proof (listed_length s Hok) as Hll.
  rewrite E, length_app in Hll. cbn [length] in Hll. unfold devfs_unregister_device.
  rewrite (cmd_bind_eq _ _ _ _ _ Hrun), decide_False by lia. rewrite gets_bind.
  set (n := Z.to_nat (num_devices s)) in *. set (i := length a) in *.
  replace (Z.to_nat (num_devices s - 1 - Z.of_nat i)) with (n - 1 - i)%nat by lia.
  rewrite (cmd_bind_eq _ _ _ _ _ (shift_devices_run (n - 1 - i) s i ltac:(lia))).
  assert (Hdev : devices s = a ++ d :: b ++ drop n (devices s)).
  { rewrite <- (take_drop n (devices s)) at 1. unfold listed in E. fold n in E. rewrite E. by rewrite <- app_assoc. }
  assert (Hnew : take i (devices s) ++ take (n - 1 - i) (drop (S i) (devices s)) ++ drop (i + (n - 1 - i)) (devices s) =
    (a ++ b) ++ drop (n - 1) (devices s)).
  { rewrite <- app_assoc. replace (i + (n - 1 - i))%nat with (n - 1)%nat by lia. f_equal.
    - rewrite Hdev. by apply take_app_length'.
    - f_equal. rewrite Hdev at 1. rewrite cons_middle, app_assoc, drop_app_length' by (rewrite length_app; cbn; lia).
      apply take_app_length'. lia. }
  rewrite Hnew. set (l1 := (a ++ b) ++ drop (n - 1) (devices s)).
  assert (Hl1 : length l1 = 64%nat) by (unfold l1; rewrite !length_app, length_drop; lia).
  assert (Hf1 : Forall (fun d => name_field (name d)) l1).
  { unfold l1. apply Forall_app. split; [|by apply Forall_drop]. rewrite Hdev in Hf. apply Forall_app in Hf as [Hfa Hf].
    apply Forall_cons in Hf as [_ Hf]. apply Forall_app in Hf as [Hfb _]. apply Forall_app. by split. }
  destruct (lookup_lt_is_Some_2 l1 (n - 1)) as [x Hx]; [lia|]. replace (num_devices s - 1) with (Z.of_nat (n - 1)) by lia.
  rewrite (cmd_bind_eq _ _ _ _ _ (get_node_run (with_table l1 (num_devices s) s) (n - 1) x Hx)).
  set (x' := mkNode (0 :: tail (name x)) DEV_TYPE_BLOCK 0 0 0).
  rewrite (cmd_bind_eq _ _ _ _ _ (put_node_run (with_table l1 (num_devices s) s) (n - 1) x' ltac:(cbn; lia))), modify_bind.
  cbn [devices num_devices with_table]. eexists. split; [reflexivity|].
  assert (Hlist : take (Z.to_nat (Z.of_nat (n - 1))) (<[(n - 1)%nat := x']> l1) = a ++ b).
  { rewrite Nat2Z.id, take_insert_ge by lia. unfold l1. apply take_app_length'. rewrite length_app. lia. }
  rewrite E, fmap_app, fmap_cons in Hdist. apply NoDup_app in Hdist as (Ha & Hab & Hb). apply NoDup_cons in Hb as [Hdb Hb].
  assert (Hda : dev_name d ∉ dev_name <$> a) by (intros Hin; apply (Hab _ Hin); by left).
  split.
  - constructor; unfold listed; cbn [devices num_devices with_table].
    + by rewrite length_insert.
    + lia.
    + apply Forall_insert; [done|]. cbn [name x']. rewrite Forall_lookup in Hf1. destruct (Hf1 _ _ Hx) as (f & Ef & Hlf).
      rewrite Ef. destruct f as [|y f]; [done|]. exists (0 :: f). by split.
    + rewrite Hlist, fmap_app. apply NoDup_app. split; [done|]. split; [|done]. intros y Hy Hy'. apply (Hab _ Hy). by right.
  - unfold registry, listed. cbn [devices num_devices with_table]. rewrite Hlist. fold (listed s). rewrite E, !fmap_app, fmap_cons, !list_to_map_app.
    cbn [list_to_map foldr]. rewrite Hd. fold (list_to_map (M := gmap (list Z) (DeviceType * Z * Z * Z)) ((fun d => (dev_name d, info d)) <$> b)).
    rewrite <- insert_union_r by (apply not_elem_of_list_to_map_1; rewrite <- list_fmap_compose; by subst). rewrite delete_insert_id; [done|].
    apply lookup_union_None. split; apply not_elem_of_list_to_map_1; rewrite <- list_fmap_compose; by subst.
Qed.

(** C29. The table is a finite map from names to devices: registering adds the
    entry when the name is free and fewer than 64 devices are registered, and
    fails without effect otherwise; unregistering removes exactly the entry of the
    name, and fails without effect when there is none. The loops terminate. *)
Theorem devfs_table_is_map s nm : table_ok s -> (length nm <= 31)%nat -> Forall (fun c => 1 <= c < 256) nm ->
  (forall t maj min data,
     if decide (num_devices s < 64 /\ registry s !! nm = None)
     then exists s', devfs_register_device nm t maj min data s = Ret (s', 0) /\ table_ok s' /\
       registry s' = <[nm := (t, maj, min, data)]> (registry s)
     else devfs_register_device nm t maj min data s = Ret (s, -1)) /\
  (if decide (registry s !! nm = None)
   then devfs_unregister_device nm s = Ret (s, -1)
   else exists s', devfs_unregister_device nm s = Ret (s', 0) /\ table_ok s' /\ registry s' = delete nm (registry s)).
Proof.
  intros Hok Hlen Hnm. split.
  - intros t maj min data. unfold devfs_register_device. rewrite gets_bind. unfold MAX_DEVICES.
    destruct (decide (num_devices s < 64 /\ registry s !! nm = None)) as [[Hn Hr]|Hno].
    + destruct (register_run s nm t maj min data) as (s' & Hrun & Hok' & Hreg & _); try done. by exists s'.
    + destruct (decide (num_devices s >= 64)); [done|].
      destruct (find_device_run s nm Hok) as [(a & d & b & E & Hd & Hrun)|[Hfree _]].
      * rewrite (cmd_bind_eq _ _ _ _ _ Hrun). by rewrite decide_True by lia.
      * exfalso. apply Hno. split; [lia|by apply registry_None].
  - destruct (find_device_run s nm Hok) as [(a & d & b & E & Hd & Hrun)|[Hfree Hrun]].
    + rewrite decide_False by (rewrite <- Hd, (registry_Some s a d b Hok E); done). by apply (unregister_run s nm a d b).
    + rewrite decide_True by by apply registry_None. unfold devfs_unregister_device. by rewrite (cmd_bind_eq _ _ _ _ _ Hrun).
Qed.
End table.

(** ** The inode of a device *)

(** The heap of the system: what is allocated stays apart from what is allocated
    later, and the tables and the inodes are left alone. *)
Class ObjectHeap `{Vfs.Env} := {
  live : vfs -> Z -> Z -> Prop;
  malloc_live : forall n s, exists s' a, malloc n s = Ret (s', a) /\ a <> 0 /\ inodes s' = inodes s /\ live s' a n /\
    forall b k, live s b k -> live s' b k /\ (a + n <= b \/ b + k <= a);
  free_live : forall a s, exists s', free a s = Ret (s', tt) /\ forall b, b <> a -> inodes s' !! b = inodes s !! b;
  live_inodes : forall s n f b k, live s b k -> live (with_inodes n f s) b k
}.

Section inodes.
Context `{Hardware W, Patience, Layout, HH : ObjectHeap}.
Implicit Types s : dstate W.

Lemma on_files_bind {A B} (c : cmd vfs A) (k : A -> cmd (dstate W) B) s f a : c (files s) = Ret (f, a) ->
  (x ← on_files c; k x) s = k a (with_files f s).
Proof. intros E. apply cmd_bind_eq. unfold on_files. by rewrite E. Qed.

Lemma inode_bind {B} a i (k : Inode -> cmd (dstate W) B) s : inodes (files s) !! a = Some i ->
  (x ← on_files (get_inode_at a); k x) s = k i s.
Proof.
  intros E. rewrite (on_files_bind _ _ _ (files s) i); [by destruct s|]. unfold get_inode_at. by rewrite gets_bind, E.
Qed.

Lemma put_inode_bind {B} a i (k : unit -> cmd (dstate W) B) s :
  (x ← on_files (put_inode_at a i); k x) s = k tt (with_files (with_inodes (next_inode_num (files s)) (<[a := i]>) (files s)) s).
Proof. by rewrite (on_files_bind _ _ _ (with_inodes (next_inode_num (files s)) (<[a := i]>) (files s)) tt). Qed.

Lemma put_word_bind {B} a v (k : unit -> cmd (dstate W) B) s : (x ← put_word a v; k x) s = k tt (with_words (<[a := v]>) s).
Proof. by rewrite (cmd_bind_eq _ _ s (with_words (<[a := v]>) s) tt). Qed.

(** A copy of one area to another. *)
Lemma copy_words_run n : forall dst src s, dst + 4 * Z.of_nat n <= src \/ src + 4 * Z.of_nat n <= dst ->
  exists w, copy_words n dst src s = Ret (with_words (fun _ => w) s, tt) /\
    (forall k : nat, (k < n)%nat -> w !! (dst + 4 * Z.of_nat k) = words s !! (src + 4 * Z.of_nat k)) /\
    (forall a, ~ (dst <= a < dst + 4 * Z.of_nat n) -> w !! a = words s !! a).
Proof.
  induction n as [|n IH]; intros dst src s Hap; cbn [copy_words].
  { exists (words s). split; [by destruct s|]. split; [lia|done]. }
  rewrite gets_bind. set (w1 := match words s !! src with Some v => <[dst := v]> (words s) | None => delete dst (words s) end).
  assert (E1 : w1 !! dst = words s !! src) by (unfold w1; destruct (words s !! src); [apply lookup_insert_eq|apply lookup_delete_eq]).
  assert (E2 : forall a, a <> dst -> w1 !! a = words s !! a)
    by (intros a Ha; unfold w1; destruct (words s !! src); [by apply lookup_insert_ne|by apply lookup_delete_ne]).
  rewrite (cmd_bind_eq _ _ s (with_words (fun _ => w1) s) tt) by done.
  destruct (IH (dst + 4) (src + 4) (with_words (fun _ => w1) s)) as (w & Hrun & Ha & Hb); [lia|]. exists w.
  split; [rewrite Hrun; by destruct s|]. cbn [words with_words] in Ha, Hb. split.
  - intros [|k] Hk.
    + change (4 * Z.of_nat 0) with 0. rewrite !Z.add_0_r. rewrite Hb by lia. exact E1.
    + replace (dst + 4 * Z.of_nat (S k)) with (dst + 4 + 4 * Z.of_nat k) by lia.
      rewrite Ha by lia. rewrite E2 by lia. f_equal. lia.
  - intros a Hout. rewrite Hb by lia. apply E2. lia.
Qed.

(** What [devfs_get_inode] stores of the operations of a device of type [t]. *)
Definition stored (t : DeviceType) : devfs_fn * devfs_fn * devfs_fn :=
  match t with
  | DEV_TYPE_BLOCK => (Block_dev_read, Block_dev_write, Block_dev_close)
  | _ => (Char_dev_read, Char_dev_write, Char_dev_close)
  end.

(** An area of words after storing into it by [put_operations]. *)
Lemma put_operations_run {B} ops r w c (K : unit -> cmd (dstate W) B) s : exists m,
  (x ← put_operations ops r w c; K x) s = K tt (with_words (fun _ => m) s) /\
  m !! (ops + 4) = Some c /\ m !! (ops + 8) = Some r /\ m !! (ops + 12) = Some w /\ m !! (ops + 16) = Some 0 /\
  forall a, ~ in_range a ops 32 -> m !! a = words s !! a.
Proof.
  exists (<[ops + 16 := 0]> (<[ops + 4 := c]> (<[ops + 12 := w]> (<[ops + 8 := r]> (words s))))). split; [reflexivity|].
  unfold in_range. repeat split; [..|intros a Ha]; repeat (rewrite lookup_insert_ne by lia); try done; apply lookup_insert_eq.
Qed.

(** The tail of [devfs_get_inode]: the record of the device behind the inode. *)
Lemma get_node_address s i d : devices s !! i = Some d -> zget (devices s) (node_index (node_address (Z.of_nat i))) = Some d.
Proof.
  intros E. unfold node_index, node_address, sizeof_DeviceNode. replace ((devices_at + Z.of_nat i * 48 - devices_at) / 48) with (Z.of_nat i) by zdm.
  by rewrite zget_lookup, Nat2Z.id by lia.
Qed.

(** The device of the name, at its place in the table. *)
Lemma find_registered s nm x : table_ok s -> registry s !! nm = Some x ->
  exists i d, devices s !! i = Some d /\ info d = x /\ dev_name d = nm /\ find_device_by_name nm s = Ret (s, Z.of_nat i).
Proof.
  intros Hok Hx. destruct (find_device_run s nm Hok) as [(a & d & b & E & Hd & Hrun)|[Hno _]].
  - exists (length a), d. split; [|split; [|done]].
    + unfold listed in E. rewrite <- (take_drop (Z.to_nat (num_devices s)) (devices s)), E, <- app_assoc. by apply list_lookup_middle.
    + pose proof (registry_Some s a d b Hok E) as Hr. rewrite Hd, Hx in Hr. by injection Hr.
  - apply registry_None in Hno. by rewrite Hno in Hx.
Qed.

(** The view of the virtual file system on the object at [p]: the words it takes
    for [open], [read], [write] and [ioctl]. *)
Record seen_operations s (p : Z) (op_open op_read op_write op_ioctl : Z) : Prop := {
  so_open : words s !! p = Some op_open;
  so_read : words s !! (p + 8) = Some op_read;
  so_write : words s !! (p + 12) = Some op_write;
  so_ioctl : words s !! (p + 16) = Some op_ioctl
}.

Lemma describe_run s a j d i : type d <> DEV_TYPE_NET -> inodes (files s) !! a = Some i -> live (files s) a sizeof_Inode ->
  let '(r, w, c) := stored (type d) in
  exists s' p, describe a j d s = Ret (s', a) /\ blk s' = blk s /\ devices s' = devices s /\ num_devices s' = num_devices s /\
    inodes (files s') !! a = Some (mkInode (inode_num i) (i_type i) (permissions i) (i_size i) (blocks i) (i_ref_count i) p) /\
    seen_operations s' p (node_address j) (code c) (code r) (code w).
Proof.
  intros Ht Hi Hlive. destruct (stored (type d)) as [[r w] c] eqn:Est. unfold describe.
  destruct (malloc_live sizeof_FileOperations (files s)) as (f1 & ops & Hm1 & Hops & Hi1 & Hl1 & Hk1).
  rewrite (on_files_bind _ _ _ _ _ Hm1), decide_True by done.
  destruct (Hk1 a _ Hlive) as [Ha1 Hd1].
  destruct (put_operations_run ops (code r) (code w) (code c) (fun _ : unit => mret ops) (with_files f1 s)) as (m & Hput & M1 & M2 & M3 & M4 & _).
  rewrite (cmd_bind_eq _ _ _ (with_words (fun _ => m) (with_files f1 s)) ops)
    by (destruct (type d); [injection Est as <- <- <-; exact Hput|injection Est as <- <- <-; exact Hput|done]).
  set (s1 := with_words (fun _ => m) (with_files f1 s)).
  destruct (malloc_live sizeof_DeviceInfo (files s1)) as (f2 & p & Hm2 & Hp & Hi2 & Hl2 & Hk2). cbn [files s1 with_words with_files] in *.
  destruct (Hk2 ops _ Hl1) as [_ Hd2]. unfold sizeof_DeviceInfo, sizeof_FileOperations, sizeof_Inode in *.
  rewrite (on_files_bind _ _ s1 f2 p Hm2). rewrite (decide_True (P := p <> 0)) by done.
  set (s2 := with_words (<[p := node_address j]>) (with_files f2 s1)).
  destruct (copy_words_run 8 (p + 4) ops s2) as (w' & Hcopy & Hin & Hout); [lia|].
  set (s3 := with_words (fun _ => w') s2).
  assert (Hi3 : inodes (files s3) !! a = Some i) by (cbn [files s3 s2 with_words with_files s1]; by rewrite Hi2, Hi1).
  set (i' := mkInode (inode_num i) (i_type i) (permissions i) (i_size i) (blocks i) (i_ref_count i) p).
  set (s4 := with_files (with_inodes (next_inode_num (files s3)) (<[a := i']>) (files s3)) s3).
  destruct (free_live ops (files s4)) as (f5 & Hfree & Hkeep).
  exists (with_files f5 s4), p. split; [|split; [done|split; [done|split; [done|split]]]].
  - rewrite (cmd_bind_eq _ _ _ s4 tt).
    + rewrite (on_files_bind _ _ s4 f5 tt Hfree). done.
    + rewrite put_word_bind. fold s2. rewrite decide_False by done. rewrite (cmd_bind_eq _ _ _ s3 tt Hcopy).
      rewrite (inode_bind _ _ _ _ Hi3). reflexivity.
  - cbn [files with_files]. rewrite Hkeep by lia. apply lookup_insert_eq.
  - assert (Hm : forall (k : nat) q o, (k < 8)%nat -> q = p + 4 + o -> o = 4 * Z.of_nat k -> w' !! q = m !! (ops + o)).
    { intros k q o Hk -> ->. rewrite Hin by done. cbn [words s2 with_words s1 with_files]. apply lookup_insert_ne. lia. }
    constructor; cbn [words with_files s4 s3 with_words].
    + rewrite Hout by lia. apply lookup_insert_eq.
    + by rewrite (Hm 1%nat _ 4) by lia.
    + by rewrite (Hm 2%nat _ 8) by lia.
    + by rewrite (Hm 3%nat _ 12) by lia.
Qed.

(** The path of a device: its name, with or without a leading slash. *)
Definition path_of (nm path : list Z) : Prop := path = 47 :: nm \/ path = nm /\ head nm <> Some 47.

Lemma skip_path nm path : path_of nm path -> skip_leading path = nm.
Proof.
  intros [->|[-> Hh]]; [done|]. destruct nm as [|x nm]; [done|]. cbn in *. rewrite decide_False; [done|]. by intros ->.
Qed.

(** The size of the inode of a block device. *)
Lemma sized_run s a d i b : inodes (files s) !! a = Some i -> live (files s) a sizeof_Inode ->
  (type d = DEV_TYPE_BLOCK -> block_devices (blk s) !! device_data d = Some b) ->
  exists f i', inodes f !! a = Some i' /\ live f a sizeof_Inode /\
    (type d = DEV_TYPE_BLOCK -> i_size i' = u32 (block_count b * 512) /\ blocks i' = block_count b) /\
    forall B (K : cmd (dstate W) B), ((if decide (type d = DEV_TYPE_BLOCK) then
      b ← block_device_of d; i ← on_files (get_inode_at a);
      on_files (put_inode_at a (mkInode (inode_num i) (i_type i) (permissions i) (u32 (block_count b * BLOCK_SIZE)) (block_count b) (i_ref_count i) (private_data i)))
      else mret tt);; K) s = K (with_files f s).
Proof.
  intros Hi Hl Hb. destruct (decide (type d = DEV_TYPE_BLOCK)) as [E|E].
  - set (i' := mkInode (inode_num i) (i_type i) (permissions i) (u32 (block_count b * BLOCK_SIZE)) (block_count b) (i_ref_count i) (private_data i)).
    exists (with_inodes (next_inode_num (files s)) (<[a := i']>) (files s)), i'.
    split; [apply lookup_insert_eq|]. split; [by apply live_inodes|]. split; [done|]. intros B K.
    rewrite (cmd_bind_eq _ _ s (with_files (with_inodes (next_inode_num (files s)) (<[a := i']>) (files s)) s) tt); [done|].
    unfold block_device_of. rewrite (cmd_bind_eq _ _ _ s b) by (unfold on_blk, get_device; rewrite gets_bind, (Hb E); by destruct s).
    by rewrite (inode_bind _ i).
  - exists (files s), i. repeat split; try done. intros B K. by destruct s.
Qed.

(** The inode of a registered block or character device stands for it: the
    file operations find the device through it, and a block device's inode has
    its size. But the file system takes the record behind the inode for the
    operations themselves: it sees the address of the device as [open], [close] as
    [read], [read] as [write] and [write] as [ioctl]. Nothing of the table or of
    the drivers changes; a path that names no device gives NULL and changes
    nothing. *)
Theorem devfs_get_inode_device s nm path : table_ok s -> path_of nm path ->
  match registry s !! nm with
  | None => devfs_get_inode path s = Ret (s, 0)
  | Some (t, maj, min, data) =>
      t <> DEV_TYPE_NET -> forall b, (t = DEV_TYPE_BLOCK -> block_devices (blk s) !! data = Some b) ->
      let '(read, write, close) := stored t in
      exists s' inode i device node, devfs_get_inode path s = Ret (s', inode) /\ blk s' = blk s /\ devices s' = devices s /\
        num_devices s' = num_devices s /\ inodes (files s') !! inode = Some i /\
        (t = DEV_TYPE_BLOCK -> i_size i = u32 (block_count b * 512) /\ blocks i = block_count b) /\
        stands_for s' inode node /\ dev_name node = nm /\ info node = (t, maj, min, data) /\
        seen_operations s' (private_data i) device (code close) (code read) (code write) /\
        zget (devices s) (node_index device) = Some node
  end.
Proof.
  intros Hok Hpath. unfold devfs_get_inode. rewrite (skip_path _ _ Hpath). destruct (registry s !! nm) as [[[[t maj] min] data]|] eqn:Hreg.
  2:{ destruct (find_device_run s nm Hok) as [(a & d & b & E & Hd & _)|[_ Hrun]]; [|by rewrite (cmd_bind_eq _ _ _ _ _ Hrun)].
      by rewrite <- Hd, (registry_Some s a d b Hok E) in Hreg. }
  intros Ht b Hb. destruct (stored t) as [[r w] c] eqn:Est. destruct (find_registered s nm _ Hok Hreg) as (i & d & Hd & Hinfo & Hname & Hfind).
  injection Hinfo as Et Emaj Emin Edata. rewrite (cmd_bind_eq _ _ _ _ _ Hfind), decide_False by lia.
  rewrite (cmd_bind_eq _ _ _ _ _ (get_node_run s i d Hd)). unfold vfs_create_inode.
  destruct (malloc_live sizeof_Inode (files s)) as (f1 & a & Hm & Ha & Hi1 & Hl1 & _).
  set (ty := if decide (type d = DEV_TYPE_BLOCK) then _ else _).
  set (i0 := mkInode (next_inode_num f1) ty 438 0 0 1 (node_address (Z.of_nat i))).
  set (f2 := with_inodes (u32 (next_inode_num f1 + 1)) (<[a := i0]>) f1).
  rewrite (on_files_bind _ _ _ f2 a) by (rewrite (cmd_bind_eq _ _ _ _ _ Hm), decide_False by done; done).
  rewrite (decide_False (P := a = 0)) by done.
  rewrite <- Et, <- Edata in Hb.
  destruct (sized_run (with_files f2 s) a d i0 b ltac:(apply lookup_insert_eq) ltac:(by apply live_inodes) Hb) as (f3 & i3 & Hi3 & Hl3 & Hsize & HK).
  rewrite HK. rewrite Et in Hsize.
  pose proof (describe_run (with_files f3 s) a (Z.of_nat i) d i3) as Hdesc. rewrite Et, Est in Hdesc.
  destruct (Hdesc Ht Hi3 Hl3) as (s' & p & Hrun & Hblk & Hdev & Hnum & Hi' & Hseen). cbn [blk devices num_devices with_files] in Hblk, Hdev, Hnum.
  exists s', a. eexists. exists (node_address (Z.of_nat i)), d. split; [exact Hrun|]. split; [done|]. split; [done|]. split; [done|].
  split; [exact Hi'|]. split; [exact Hsize|]. pose proof (get_node_address s i d Hd) as Hz. split; [|split; [done|split; [|by split]]].
  - exists (mkInode (inode_num i3) (i_type i3) (permissions i3) (i_size i3) (blocks i3) (i_ref_count i3) p), (node_address (Z.of_nat i)).
    split; [done|]. split; [apply Hseen|]. by rewrite Hdev.
  - unfold info. congruence.
Qed.
End inodes.

(** ** Concrete runs *)

Section samples.
(** A heap that takes its blocks from an end of its own, kept at the head of the
    list of file systems, and frees nothing. *)
Definition sample_end (s : vfs) : Z := Z.max 8192 (default 0 (head (registered_filesystems s))).
#[local] Instance sample_env : Vfs.Env := {
  malloc n := fun s => Ret (with_fss (fun _ => [sample_end s + Z.max 0 n]) (num_filesystems s) s, sample_end s);
  free _ := mret tt;
  call_mount _ _ _ := mret 0; call_umount _ _ := mret 0; call_get_inode _ _ := mret 0; call_mkdir _ _ _ := mret 0;
  call_path _ _ := mret 0; call_open _ _ _ := mret 0; call_close _ _ := mret 0; call_read _ _ _ _ := mret (0, []);
  call_write _ _ _ _ := mret 0; call_ioctl _ _ _ _ := mret 0; call_readdir _ _ := mret (-1, [], FILE_TYPE_REGULAR); stack_byte := 0
}.
#[local] Instance sample_heap : ObjectHeap.
Proof.
  exists (fun s b k => b + k <= sample_end s).
  - intros n s. eexists _, _. split; [reflexivity|]. unfold sample_end at 2 3 4. cbn [registered_filesystems with_fss head default].
    split; [unfold sample_end; lia|]. split; [done|]. split; [unfold sample_end; cbn; lia|]. intros b k Hb. unfold sample_end in *. cbn. lia.
  - intros a s. by exists s.
  - intros s n f b k Hb. exact Hb.
Defined.
#[local] Instance sample_layout : Layout :=
  {| devices_at := 65536; devfs_fs_at := 131072; sector_buffer := 5632; device_name := 200; hda_format := 220;
     code f := match f with Block_dev_read => 1 | Block_dev_write => 2 | Block_dev_close => 3 | Char_dev_read => 4 | Char_dev_write => 5
       | Char_dev_close => 6 | Devfs_get_inode => 7 | Devfs_mount_impl => 8 | Devfs_umount_impl => 9 end |}.

Definition hda1 : list Z := [104; 100; 97; 49].
Definition sample_node : DeviceNode := mkNode (padded 31 hda1 ++ [0]) DEV_TYPE_BLOCK 3 1 64.
Definition blank_node : DeviceNode := mkNode (replicate 31 0 ++ [0]) DEV_TYPE_BLOCK 0 0 0.
Definition sample_files : vfs := mkVfs [] [] [] 1 0 0 {[ 4096 := mkInode 1 FILE_TYPE_BLOCK_DEVICE 438 512000 1000 1 7168 ]} ∅ ∅.
Definition sample_bytes_of : mem := mwrite ∅ 4096 (replicate 2200 7).
Definition sample_devfs : dstate drive :=
  mkDevfs (with_bytes sample_bytes_of (sample_blocks sample_drive)) (mkKD [] 0 0 0 0)
    (sample_node :: replicate 63 blank_node) 1 sample_files {[ 7168 := 65536 ]} 0 (mkMP None 0).

(** A keyboard with the character 65 waiting, registered as device 0. *)
Definition sample_keyboard : dstate drive :=
  mkDevfs (with_bytes sample_bytes_of (sample_blocks sample_drive)) waiting_driver
    (mkNode (padded 31 [107] ++ [0]) DEV_TYPE_CHAR 1 0 9216 :: replicate 63 blank_node) 1 sample_files {[ 7168 := 65536 ]} 0 (mkMP None 0).

Lemma sample_range p n : 4096 <= p -> p + n <= 6144 -> mapped sample_bytes_of p n.
Proof.
  intros H1 H2 a Ha. unfold sample_bytes_of. rewrite lookup_mwrite, length_replicate, decide_True by lia.
  rewrite lookup_replicate_2 by lia. by eexists.
Qed.

Lemma sample_behind : bytes_at sample_bytes_of 6144 (replicate 88 7).
Proof. vm_compute. by repeat split. Qed.

Lemma sample_devfs_ready : ide_ready (blk sample_devfs) (device_data sample_node) sample_device.
Proof. by apply (ide_ready_same (sample_blocks sample_drive) 64 sample_device sample_drive sample_bytes_of); [apply sample_ready|..]. Qed.

Lemma sample_stands : stands_for sample_devfs 4096 sample_node.
Proof. eexists _, 65536. split; [apply lookup_singleton_eq|]. split; [apply lookup_singleton_eq|reflexivity]. Qed.

Lemma sample_table : table_ok sample_devfs.
Proof.
  constructor.
  - reflexivity.
  - cbn. lia.
  - constructor; [exists (padded 31 hda1); by split|]. apply Forall_replicate. exists (replicate 31 0). by split.
  - apply NoDup_singleton.
Qed.

Lemma block_dev_read_bytes_witness : exists h m' h2 m2,
  block_dev_read 4096 4096 1000 100 sample_devfs = Ret (moved h m' sample_devfs, 924) /\ m' !! 5019 = Some 0 /\ m' !! 5020 = Some 7 /\
  block_dev_read 4096 4096 100 500 sample_devfs = Ret (moved h2 m2 sample_devfs, 100) /\ m2 !! 4107 = Some 0 /\ m2 !! 4108 = Some 7.
Proof.
  destruct (block_dev_read_bytes sample_devfs 4096 sample_node sample_device 4096 1000 100 []) as (h & m' & Hrun & _ & Hin & _ & Hout).
  - exact sample_stands.
  - discriminate.
  - exact sample_devfs_ready.
  - constructor; [apply sample_range; cbn; lia|apply sample_range; cbn; lia|left; cbn; lia].
  - lia.
  - lia.
  - cbn. lia.
  - cbn. lia.
  - done.
  - constructor.
  - reflexivity.
  - left. cbn. lia.
  - destruct (block_dev_read_bytes sample_devfs 4096 sample_node sample_device 4096 100 500 (replicate 88 7)) as (h2 & m2 & Hrun2 & _ & Hin2 & Htl2 & _).
    + exact sample_stands.
    + discriminate.
    + exact sample_devfs_ready.
    + constructor; [apply sample_range; cbn; lia|apply sample_range; cbn; lia|left; cbn; lia].
    + lia.
    + lia.
    + cbn. lia.
    + cbn. lia.
    + exact sample_behind.
    + apply Forall_replicate. unfold is_u8. lia.
    + reflexivity.
    + left. cbn. lia.
    + exists h, m', h2, m2. split; [exact Hrun|]. split; [|split; [|split; [exact Hrun2|split]]].
      * apply (Hin 923). split; [lia|reflexivity].
      * rewrite Hout; [reflexivity| |]; unfold in_range; [change (read_count 1000 100) with 924|change sector_buffer with 5632]; lia.
      * apply (Hin2 11). split; [lia|reflexivity].
      * change 4108 with (4096 + 12); rewrite (Htl2 12); [reflexivity|]. split; [discriminate|reflexivity].
Defined.

Lemma char_dev_read_queue_witness : exists k,
  char_dev_read 4096 4096 5 0 sample_keyboard = Ret (typed k (mwrite sample_bytes_of 4096 [65]) sample_keyboard, 1) /\ queue (abs k) = [].
Proof.
  destruct (char_dev_read_queue sample_keyboard 4096 (mkNode (padded 31 [107] ++ [0]) DEV_TYPE_CHAR 1 0 9216) 4096 5 0)
    as (k & Hrun & _ & Hq).
  - eexists _, 65536. split; [apply lookup_singleton_eq|]. split; [apply lookup_singleton_eq|reflexivity].
  - reflexivity.
  - discriminate.
  - exact waiting_driver_ok.
  - vm_compute. by constructor.
  - lia.
  - apply sample_range; lia.
  - exists k. split; [exact Hrun|]. rewrite Hq. vm_compute. reflexivity.
Defined.

Lemma devfs_table_is_map_witness : exists s1 s2, devfs_register_device [99] DEV_TYPE_CHAR 4 0 7168 sample_devfs = Ret (s1, 0) /\
  registry s1 !! [99] = Some (DEV_TYPE_CHAR, 4, 0, 7168) /\ registry s1 !! hda1 = Some (DEV_TYPE_BLOCK, 3, 1, 64) /\
  devfs_unregister_device hda1 sample_devfs = Ret (s2, 0) /\ registry s2 = ∅.
Proof.
  destruct (devfs_table_is_map sample_devfs [99] sample_table) as [Hreg _]; [cbn; lia|by repeat constructor|].
  destruct (devfs_table_is_map sample_devfs hda1 sample_table) as [_ Hun]; [cbn; lia|by repeat constructor|].
  specialize (Hreg DEV_TYPE_CHAR 4 0 7168). rewrite decide_True in Hreg by (split; [cbn; lia|reflexivity]).
  rewrite decide_False in Hun by discriminate. destruct Hreg as (s1 & H1 & _ & R1). destruct Hun as (s2 & H2 & _ & R2).
  exists s1, s2. split; [exact H1|]. rewrite R1. split; [apply lookup_insert_eq|]. split; [reflexivity|].
  split; [exact H2|]. rewrite R2. reflexivity.
Defined.

Lemma devfs_get_inode_device_witness : exists s' inode i, devfs_get_inode (47 :: hda1) sample_devfs = Ret (s', inode) /\
  inodes (files s') !! inode = Some i /\ i_size i = 512000 /\ words s' !! (private_data i + 8) = Some (code Block_dev_close).
Proof.
  pose proof (devfs_get_inode_device sample_devfs hda1 (47 :: hda1) sample_table ltac:(by left)) as Hget.
  change (registry sample_devfs !! hda1) with (Some (DEV_TYPE_BLOCK, 3, 1, 64)) in Hget.
  destruct (Hget ltac:(discriminate) sample_device ltac:(intros _; apply lookup_singleton_eq))
    as (s' & inode & i & device & node & Hrun & _ & _ & _ & Hi & Hsize & _ & _ & _ & Hseen & _).
  exists s', inode, i. split; [exact Hrun|]. split; [exact Hi|]. split; [apply (Hsize eq_refl)|]. apply Hseen.
Defined.
End samples.
