(* ===== verification/Pic.v ===== *)
(** * The PCI scan (src/kernel/pic.c, include/kernel/pic.h)

    Configuration space over the ports of Ports.v, the enumeration of devices, and
    the block devices it creates with the operations of Block.v and Devfs.v. A bus
    is any hardware that answers as configuration mechanism 1 does. Messages are
    not modelled; the two counters the scan prints are its result. *)
From S2P Require Import Prelude CString Ports Keyboard Block Vfs Devfs.

Definition INTERRUPT_OFFSET : Z := 0x20.

Record PICController := mkPIC { data_port32 : Z; command_port32 : Z }.
Definition on_init_pic_controller (pic_controller : PICController) : PICController := mkPIC 0xcfc 0xcf8.

Record PICDeviceDescriptor := mkDesc {
  port_base : Z; interrupt : Z; bus : Z; device : Z; function : Z; device_id : Z; vendor_id : Z;
  class_id : Z; subclass_id : Z; interface_id : Z; revision : Z
}.
Definition set_port_base v d := mkDesc v (interrupt d) (bus d) (device d) (function d) (device_id d) (vendor_id d)
  (class_id d) (subclass_id d) (interface_id d) (revision d).

Inductive BaseAddressRegisterType : Set := MemoryMapping | InputOutput.
#[export] Instance BaseAddressRegisterType_eq_dec : EqDecision BaseAddressRegisterType.
Proof. solve_decision. Defined.

Record BaseAddressRegister := mkBAR { prefetchable : Z; address : Z; bar_type : BaseAddressRegisterType }.

(** What the stack holds in the local structures before they are written, by
    the device that is looked at. *)
Class Stack := { stale_port_base : Z -> Z -> Z -> Z; stale_bar : Z -> Z -> Z -> Z -> BaseAddressRegister }.

(** The function stored in an [InterruptHandler]. *)
Inductive interrupt_fn : Set := Block_interrupt_handler.

Record pstate (W : Type) := mkP {
  devs : dstate W; manager : DriverManager; handlers : list Z; handler_functions : gmap Z interrupt_fn
}.
Arguments mkP {W} _ _ _ _. Arguments devs {W} _. Arguments manager {W} _. Arguments handlers {W} _. Arguments handler_functions {W} _.

Section pic.
Context `{Hardware W, Patience, Layout, Vfs.Env, Stack}.
Abbreviation P := (cmd (pstate W)).

Definition with_devs (d : dstate W) (s : pstate W) := mkP d (manager s) (handlers s) (handler_functions s).
Definition on_devs {A} (c : cmd (dstate W) A) : P A := fun s =>
  match c (devs s) with Ret (d, a) => Ret (with_devs d s, a) | Fault => Fault | Spin => Spin end.
Definition on_manager {A} (c : cmd DriverManager A) : P A := fun s =>
  match c (manager s) with
  | Ret (m, a) => Ret (mkP (devs s) m (handlers s) (handler_functions s), a)
  | Fault => Fault
  | Spin => Spin
  end.
Definition on_ports {A} (c : cmd W A) : P A := on_devs (on_blk (on_hw c)).
Definition allocate (n : Z) : P Z := on_devs (on_files (malloc n)).
Definition release (a : Z) : P unit := on_devs (on_files (free a)).
Definition get_handler (i : Z) : P Z := l ← gets handlers; lift (deref (zget l i)).
Definition put_handler (i v : Z) : P unit :=
  l ← gets handlers; l' ← lift (deref (zset l i v)); modify (fun s => mkP (devs s) (manager s) l' (handler_functions s)).

(** The word that selects a register. *)
Definition config_id (bus device function registeroffset : Z) : Z :=
  u32 (Z.lor (Z.lor (Z.lor (Z.lor (Z.shiftl 1 31) (Z.shiftl (Z.land bus 0xff) 16)) (Z.shiftl (Z.land device 0x1f) 11))
    (Z.shiftl (Z.land function 0x07) 8)) (Z.land registeroffset 0xfc)).

(** pic.c includes the header that declares [read_32bit] with 16 bits. *)
Definition read (pic_controller : PICController) (bus device function registeroffset : Z) : P Z :=
  on_ports (write_32bit (command_port32 pic_controller) (config_id bus device function registeroffset));;
  result ← on_ports (read_32bit_as_declared (data_port32 pic_controller));
  mret (Z.shiftr result (8 * (registeroffset mod 4))).

Definition device_has_functions (pic_controller : PICController) (bus device : Z) : P Z :=
  r ← read pic_controller bus device 0 0x0e; mret (u8 (Z.land r (Z.shiftl 1 7))).

Definition get_device_descriptor (pic_controller : PICController) (bus device function : Z) : P PICDeviceDescriptor :=
  vendor_id ← read pic_controller bus device function 0;
  device_id ← read pic_controller bus device function 0x02;
  class_id ← read pic_controller bus device function 0x0b;
  subclass_id ← read pic_controller bus device function 0x0a;
  interface_id ← read pic_controller bus device function 0x09;
  revision ← read pic_controller bus device function 0x08;
  interrupt ← read pic_controller bus device function 0x3c;
  mret (mkDesc (stale_port_base bus device function) interrupt bus device function (u16 device_id) (u16 vendor_id)
    (u8 class_id) (u8 subclass_id) (u8 interface_id) (u8 revision)).

(** A memory register keeps the address it had. *)
Definition get_base_address_register (pic_controller : PICController) (bus device function bar : Z) : P BaseAddressRegister :=
  let result := stale_bar bus device function bar in
  r ← read pic_controller bus device function 0x0e;
  let headertype := Z.land r 0x7e in
  let maxBARs := s32 (6 - 4 * headertype) in
  if decide (bar >= maxBARs) then mret result else
  bar_value ← read pic_controller bus device function (u8 (0x10 + 4 * bar));
  if decide (Z.land bar_value 1 <> 0)
  then mret (mkBAR 0 (Z.land bar_value (Z.lnot 0x3)) InputOutput)
  else mret (mkBAR (prefetchable result) (address result) MemoryMapping).

Definition sizeof_BlockDevice : Z := 24.
Definition sizeof_InterruptHandler : Z := 4.

(** Every field of the new object is written before it is read. *)
Definition new_block_device (block_dev : Z) : P unit := on_devs (on_blk (put_device block_dev (mkBD 0 0 0 None None 0))).

Definition set_8086_device (dev : PICDeviceDescriptor) : P unit :=
  block_dev ← allocate sizeof_BlockDevice;
  if decide (block_dev = 0) then mret tt else
  new_block_device block_dev;;
  on_devs (block_device_initialize block_dev (port_base dev) (interrupt dev));;
  block ← allocate sizeof_BlockDriver;
  block_driver ← on_devs (on_blk (create_block_driver (fun _ => mret block) block_dev));
  if decide (block_driver <> 0) then
    (if decide (interrupt dev < 16) then
       let interrupt_num := u8 (INTERRUPT_OFFSET + interrupt dev) in
       h ← get_handler interrupt_num;
       if decide (h = 0) then
         a ← allocate sizeof_InterruptHandler;
         put_handler interrupt_num a;;
         h ← get_handler interrupt_num;
         if decide (h <> 0)
         then modify (fun s => mkP (devs s) (manager s) (handlers s) (<[h := Block_interrupt_handler]> (handler_functions s)))
         else mret tt
       else mret tt
     else mret tt);;
    n ← gets (fun s => num_block_devices (blk (devs s)));
    if decide (n < MAX_BLOCK_DEVICES) then
      l ← gets (fun s => active_block_devices (blk (devs s)));
      l' ← lift (deref (zset l n block_dev));
      on_devs (on_blk (modify (with_active l' (n + 1))))
    else release block_driver;; release block_dev
  else release block_dev.

(** [driver] is 0 in every branch. *)
Definition get_driver (dev : PICDeviceDescriptor) : P Z :=
  let driver := 0 in
  if decide (vendor_id dev = 0x1022 /\ device_id dev = 0x2000) then mret driver else
  (if decide (vendor_id dev = 0x8086) then set_8086_device dev else mret tt);;
  mret driver.

Definition driver_at (a : Z) : P Driver :=
  m ← gets (fun s => block_drivers (blk (devs s))); d ← lift (deref (m !! a)); mret (base d).

(** The loop over the base address registers. *)
Fixpoint bar_loop (pic_controller : PICController) (n : nat) (barNum : Z) (dev : PICDeviceDescriptor) : P PICDeviceDescriptor :=
  match n with
  | O => mret dev
  | S n' =>
      bar ← get_base_address_register pic_controller (bus dev) (device dev) (function dev) barNum;
      bar_loop pic_controller n' (barNum + 1)
        (if decide (address bar <> 0 /\ bar_type bar = InputOutput) then set_port_base (u32 (address bar)) dev else dev)
  end.

(** The loops count devices and storage controllers. *)
Definition exists_device (dev : PICDeviceDescriptor) : Prop := ~ (vendor_id dev = 0 \/ vendor_id dev = 0xffff).
#[local] Instance exists_device_dec dev : Decision (exists_device dev).
Proof. unfold exists_device. apply _. Defined.

Definition visit_function (pic_controller : PICController) (bus device function : Z) (counts : Z * Z) : P (Z * Z) :=
  dev ← get_device_descriptor pic_controller bus device function;
  if decide (exists_device dev) then
    let device_count := s32 (counts.1 + 1) in
    let storage_controller_count := if decide (class_id dev = 0x01) then s32 (counts.2 + 1) else counts.2 in
    dev ← bar_loop pic_controller 6 0 dev;
    driver ← get_driver dev;
    (if decide (driver <> 0) then d ← driver_at driver; on_manager (append_driver (Some d)) else mret tt);;
    mret (device_count, storage_controller_count)
  else mret counts.

Fixpoint function_loop (pic_controller : PICController) (n : nat) (bus device function : Z) (counts : Z * Z) : P (Z * Z) :=
  match n with
  | O => mret counts
  | S n' =>
      counts ← visit_function pic_controller bus device function counts;
      function_loop pic_controller n' bus device (function + 1) counts
  end.

Definition visit_device (pic_controller : PICController) (bus device : Z) (counts : Z * Z) : P (Z * Z) :=
  dev ← get_device_descriptor pic_controller bus device 0;
  if decide (exists_device dev) then
    f ← device_has_functions pic_controller bus device;
    function_loop pic_controller (if decide (f <> 0) then 8 else 1) bus device 0 counts
  else mret counts.

Fixpoint device_loop (pic_controller : PICController) (n : nat) (bus device : Z) (counts : Z * Z) : P (Z * Z) :=
  match n with
  | O => mret counts
  | S n' => counts ← visit_device pic_controller bus device counts; device_loop pic_controller n' bus (device + 1) counts
  end.

Fixpoint bus_loop (pic_controller : PICController) (n : nat) (bus : Z) (counts : Z * Z) : P (Z * Z) :=
  match n with
  | O => mret counts
  | S n' => counts ← device_loop pic_controller 32 bus 0 counts; bus_loop pic_controller n' (bus + 1) counts
  end.

Definition select_drivers (pic_controller : PICController) : P (Z * Z) := bus_loop pic_controller 256 0 (0, 0).
End pic.

(** ** The configuration space *)

(** Configuration mechanism 1: a register is selected through 0xCF8 and read
    through 0xCFC; accesses of 8 bits elsewhere do not change the registers. *)
Class PciBus (W : Type) `{Hardware W} := {
  latch : W -> Z;
  config : W -> Z -> Z;
  pci_select : forall v h, latch (hw_out 32 0xCF8 v h) = v /\ config (hw_out 32 0xCF8 v h) = config h;
  pci_data : forall h, (hw_in 32 0xCFC h).2 = config h (latch h) /\ config (hw_in 32 0xCFC h).1 = config h;
  pci_out8 : forall p v h, ~ (0xCFC <= p <= 0xCFF) -> config (hw_out 8 p v h) = config h;
  pci_in8 : forall p h, config (hw_in 8 p h).1 = config h
}.

Section scan.
Context `{HP : PciBus W, Patience, Layout, HH : ObjectHeap, Stack}.
Implicit Types s : pstate W.

Definition hardware s : W := hw (blk (devs s)).
Definition with_hardware (h : W) s : pstate W := with_devs (with_blk (with_hw h (blk (devs s))) (devs s)) s.
Abbreviation pic := (mkPIC 0xcfc 0xcf8).

(** The half of a register that arrives. *)
Definition half (cfg : Z -> Z) (bus device function register : Z) : Z := u16 (cfg (config_id bus device function register)).

Lemma half_range cfg b d f r : 0 <= half cfg b d f r < 65536.
Proof. unfold half, u16. zdm. Qed.

(** Where [get_device_descriptor] finds what, on a bus with these registers: the
    upper halves of the registers never arrive. *)
Definition descriptor (cfg : Z -> Z) (b d f : Z) : PICDeviceDescriptor :=
  mkDesc (stale_port_base b d f) (half cfg b d f 0x3c) b d f 0 (half cfg b d f 0) 0 0 (half cfg b d f 8 / 256) (half cfg b d f 8 mod 256).

Lemma config_read_run b d f r s : exists h, config h = config (hardware s) /\
  read pic b d f r s = Ret (with_hardware h s, Z.shiftr (half (config (hardware s)) b d f r) (8 * (r mod 4))).
Proof.
  set (id := config_id b d f r). assert (Hid : u32 id = id) by apply u32_small, u32_range.
  destruct (pci_select id (hardware s)) as [Hl Hc]. set (h1 := hw_out 32 0xCF8 id (hardware s)) in *. destruct (pci_data h1) as [Hv Hc2].
  exists (hw_in 32 0xCFC h1).1. split; [congruence|]. unfold read. cbn [command_port32 data_port32]. fold id.
  rewrite (cmd_bind_eq _ _ s (with_hardware h1 s) tt).
  2:{ unfold on_ports, on_devs, on_blk, on_hw, write_32bit, modify. by rewrite Hid. }
  rewrite (cmd_bind_eq _ _ _ (with_hardware (hw_in 32 0xCFC h1).1 s) (half (config (hardware s)) b d f r)); [done|].
  unfold on_ports, on_devs, on_blk, on_hw, read_32bit_as_declared, read_32bit. cbn [devs blk hw with_hardware with_devs with_blk with_hw].
  change (u16 0xcfc) with 0xCFC. unfold mbind, cmd_mbind. destruct (hw_in 32 0xCFC h1) as [h2 v] eqn:E. cbn [fst snd] in *.
  rewrite Hv. unfold half. fold id. unfold mret, cmd_mret. do 2 f_equal. rewrite Hl, Hc. unfold u16, u32. zdm.
Qed.

(** A register read at offset [r] whose upper half would be needed is 0. *)
Lemma upper_half cfg b d f r : r mod 4 = 2 \/ r mod 4 = 3 -> Z.shiftr (half cfg b d f r) (8 * (r mod 4)) = 0.
Proof.
  intros Hr. pose proof (half_range cfg b d f r). rewrite Z.shiftr_div_pow2 by lia.
  destruct Hr as [-> | ->]; [change (2 ^ (8 * 2)) with 65536|change (2 ^ (8 * 3)) with 16777216]; apply Z.div_small; lia.
Qed.

(** The register does not depend on the offset inside it. *)
Lemma half_aligned cfg b d f r r' : Z.land r 0xfc = Z.land r' 0xfc -> half cfg b d f r = half cfg b d f r'.
Proof. intros E. unfold half, config_id. by rewrite E. Qed.

Lemma with_hardware_twice h h' s : with_hardware h' (with_hardware h s) = with_hardware h' s.
Proof. done. Qed.

(** The next read of a sequence. *)
Ltac read_next r h Hh := match goal with
  | |- context [(read pic ?b ?d ?f r ≫= _) ?s] =>
      let E := fresh in destruct (config_read_run b d f r s) as (h & Hh & E); rewrite (cmd_bind_eq _ _ _ _ _ E); clear E;
      try match goal with Hp : config ?h0 = _ |- _ => change (config (hardware (with_hardware h0 _))) with (config h0) in *; rewrite Hp in * end
  end.

(** What the scan learns of a device. *)
Lemma descriptor_run b d f s : exists h, config h = config (hardware s) /\
  get_device_descriptor pic b d f s = Ret (with_hardware h s, descriptor (config (hardware s)) b d f).
Proof.
  unfold get_device_descriptor. read_next 0 h1 C1. read_next 0x02 h2 C2. read_next 0x0b h3 C3. read_next 0x0a h4 C4.
  read_next 0x09 h5 C5. read_next 0x08 h6 C6. read_next 0x3c h7 C7. exists h7. split; [done|].
  rewrite (upper_half _ _ _ _ 0x02), (upper_half _ _ _ _ 0x0b), (upper_half _ _ _ _ 0x0a) by first [by left|by right].
  rewrite (half_aligned _ _ _ _ 0x09 0x08) by done. pose proof (half_range (config (hardware s)) b d f) as Hr. unfold descriptor, mret, cmd_mret. do 2 f_equal.
  change (8 * (0x3c mod 4)) with 0. change (8 * (0 mod 4)) with 0. change (8 * (8 mod 4)) with 0. rewrite !Z.shiftr_0_r.
  pose proof (Hr 0). pose proof (Hr 8). f_equal; unfold u8, u16; [zdm|].
  rewrite Z.shiftr_div_pow2 by done. change (2 ^ (8 * (9 mod 4))) with 256. zdm.
Qed.

(** The base port of a device: its last I/O register, or what the stack held. *)
Fixpoint io_base (cfg : Z -> Z) (b d f : Z) (n : nat) (barNum base : Z) : Z :=
  match n with
  | O => base
  | S n' =>
      let v := half cfg b d f (u8 (0x10 + 4 * barNum)) in
      io_base cfg b d f n' (barNum + 1) (if decide (Z.land v 1 <> 0 /\ Z.land v (Z.lnot 3) <> 0) then Z.land v (Z.lnot 3) else base)
  end.

Lemma bar_run b d f n s : 0 <= n < 6 -> exists h bar, config h = config (hardware s) /\
  get_base_address_register pic b d f n s = Ret (with_hardware h s, bar) /\
  let v := half (config (hardware s)) b d f (u8 (0x10 + 4 * n)) in
  if decide (Z.land v 1 <> 0) then address bar = Z.land v (Z.lnot 3) /\ bar_type bar = InputOutput else bar_type bar = MemoryMapping.
Proof.
  intros Hn. unfold get_base_address_register. read_next 0x0e h1 C1. rewrite upper_half by by left. change (s32 (6 - 4 * Z.land 0 0x7e)) with 6.
  rewrite decide_False by lia. read_next (u8 (16 + 4 * n)) h2 C2. rewrite u8_small by (unfold is_u8; lia).
  replace ((16 + 4 * n) mod 4) with 0 by zdm. rewrite Z.shiftr_0_r.
  set (v := half (config (hardware s)) b d f (16 + 4 * n)). destruct (decide (Z.land v 1 <> 0)).
  - by exists h2, (mkBAR 0 (Z.land v (Z.lnot 3)) InputOutput).
  - eexists h2, _. split; [done|]. split; [done|]. done.
Qed.

Lemma land_lnot3 v : 0 <= v < 65536 -> 0 <= Z.land v (Z.lnot 3) < 65536.
Proof.
  intros Hv. change 3 with (Z.ones 2). rewrite <- Z.ldiff_land, Z.ldiff_ones_r by lia. rewrite Z.shiftl_mul_pow2, Z.shiftr_div_pow2 by lia.
  change (2 ^ 2) with 4. zdm.
Qed.

Lemma bar_loop_run n : forall barNum dev s, 0 <= barNum -> barNum + Z.of_nat n <= 6 -> exists h, config h = config (hardware s) /\
  bar_loop pic n barNum dev s = Ret (with_hardware h s,
    set_port_base (io_base (config (hardware s)) (bus dev) (device dev) (function dev) n barNum (port_base dev)) dev).
Proof.
  induction n as [|n IH]; intros barNum dev s Hb Hn; cbn [bar_loop io_base].
  { exists (hardware s). split; [done|]. destruct s as [ds]. destruct ds as [bs]. destruct bs. by destruct dev. }
  destruct (bar_run (bus dev) (device dev) (function dev) barNum s ltac:(lia)) as (h & bar & Hh & Hrun & Hbar).
  rewrite (cmd_bind_eq _ _ _ _ _ Hrun). cbn zeta in Hbar. set (v := half _ _ _ _ _) in *.
  assert (Hv : 0 <= Z.land v (Z.lnot 3) < 65536) by apply land_lnot3, half_range.
  set (dev' := if decide (address bar <> 0 /\ _) then _ else _).
  destruct (IH (barNum + 1) dev' (with_hardware h s)) as (h' & Hh' & Hrun'); [lia|lia|].
  change (hardware (with_hardware h s)) with h in *. rewrite Hh in *. exists h'. split; [done|]. rewrite Hrun'. do 2 f_equal.
  assert (Ed : dev' = set_port_base (if decide (Z.land v 1 <> 0 /\ Z.land v (Z.lnot 3) <> 0) then Z.land v (Z.lnot 3) else port_base dev) dev).
  { unfold dev'. destruct (decide (Z.land v 1 <> 0)) as [E|E].
    - destruct Hbar as [-> ->]. destruct (decide (Z.land v (Z.lnot 3) <> 0)).
      + rewrite !decide_True by done. rewrite u32_small by (unfold is_u32; lia). done.
      + rewrite !decide_False by tauto. by destruct dev.
    - rewrite Hbar. rewrite !decide_False by (intros [? ?]; done). by destruct dev. }
  rewrite Ed. by destruct dev.
Qed.

(** ** Setting up a disk *)

(** A base port whose commands stay off the data register of the bus. *)
Definition harmless (base_port : Z) : Prop := ~ (0xCFC <= u16 (base_port + 6) <= 0xCFF).

Lemma in8_quiet port (b : bstate W) : exists h v, in8 port b = Ret (with_hw h b, v) /\ config h = config (hw b).
Proof.
  pose proof (pci_in8 (u16 port) (hw b)) as Hc. unfold in8, on_hw, read_8bit. destruct (hw_in 8 (u16 port) (hw b)) as [h v]. by exists h, (u8 v).
Qed.

Lemma delay_quiet n port : forall b : bstate W, exists h, delay n port b = Ret (with_hw h b, tt) /\ config h = config (hw b).
Proof.
  induction n as [|n IH]; intros b; cbn [delay]; [exists (hw b); by destruct b|].
  destruct (in8_quiet port b) as (h & v & Hrun & Hc). rewrite (cmd_bind_eq _ _ _ _ _ Hrun).
  destruct (IH (with_hw h b)) as (h' & Hrun' & Hc'). exists h'. split; [exact Hrun'|]. cbn in Hc'. congruence.
Qed.

Lemma wait_not_busy_quiet t port : forall b : bstate W, exists h v, wait_not_busy t port b = Ret (with_hw h b, v) /\ config h = config (hw b).
Proof.
  induction t as [|t IH]; intros b; cbn [wait_not_busy]; destruct (in8_quiet port b) as (h & v & Hrun & Hc);
    rewrite (cmd_bind_eq _ _ _ _ _ Hrun); destruct (decide (Z.land v 0x80 = 0)); try (by eexists h, _).
  destruct (IH (with_hw h b)) as (h' & r & Hrun' & Hc'). exists h', r. split; [exact Hrun'|]. cbn in Hc'. congruence.
Qed.

Lemma ide_initialize_quiet base line (b : bstate W) : harmless base ->
  exists h, ide_initialize base line b = Ret (with_hw h b, tt) /\ config h = config (hw b).
Proof.
  intros Hb. assert (Hout : forall v c, exists h, out8 (base + 6) v c = Ret (with_hw h c, tt) /\ config h = config (hw c)).
  { intros v c. eexists. split; [done|]. by apply pci_out8. }
  unfold ide_initialize. destruct (Hout 0xA0 b) as (h1 & R1 & C1). rewrite (cmd_bind_eq _ _ _ _ _ R1).
  destruct (delay_quiet 4 (base + 7) (with_hw h1 b)) as (h2 & R2 & C2). rewrite (cmd_bind_eq _ _ _ _ _ R2).
  destruct (Hout 0x04 (with_hw h2 b)) as (h3 & R3 & C3). rewrite (cmd_bind_eq _ _ _ _ _ R3).
  destruct (delay_quiet 4 (base + 7) (with_hw h3 b)) as (h4 & R4 & C4). rewrite (cmd_bind_eq _ _ _ _ _ R4).
  destruct (Hout 0xA0 (with_hw h4 b)) as (h5 & R5 & C5). rewrite (cmd_bind_eq _ _ _ _ _ R5).
  destruct (wait_not_busy_quiet (Z.to_nat 100000) (base + 7) (with_hw h5 b)) as (h6 & v & R6 & C6). rewrite (cmd_bind_eq _ _ _ _ _ R6).
  exists h6. split; [done|]. cbn in *. congruence.
Qed.

(** The texts that [block_device_initialize] uses. *)
Definition hda_text : list Z := [104; 100; 97].
Record texts (m : mem) : Prop := {
  tx_format : bytes_at m hda_format (hda_text ++ [37; 100; 0]);
  tx_buffer : mapped m device_name 16;
  tx_apart : device_name + 14 <= hda_format \/ hda_format + 6 <= device_name;
  tx_null : device_name <> 0
}.

Lemma read_bytes_run l : forall p m, bytes_at m p l -> read_bytes (length l) p m = Ret (m, l).
Proof.
  induction l as [|b l IH]; intros p m Hl; cbn [length read_bytes]; [done|]. destruct Hl as [Hb Hl].
  rewrite (load_bind _ _ _ _ Hb). by rewrite (cmd_bind_eq _ _ _ _ _ (IH _ _ Hl)).
Qed.

(** The name of disk number [n] comes out of the buffer. *)
Lemma disk_name_run m n : texts m -> 0 <= n < 2147483648 -> exists l m' r, Forall is_digit l /\ dec_value l = n /\ (1 <= length l <= 10)%nat /\
  snprintf device_name 16 hda_format [n] m = Ret (m', r) /\ texts m' /\
  exists nm, read_bytes 16 device_name m' = Ret (m', nm) /\ text_of nm = hda_text ++ l.
Proof.
  intros [Hf Hb Ha Hn] Hnum. destruct (snprintf_number m device_name 16 hda_format hda_text n) as (l & H1' & H2' & H3' & Hrun); try done.
  { repeat constructor; lia. }
  { intros a Hr. apply Hb. cbn in Hr. lia. }
  { cbn. lia. }
  set (t := hda_text ++ l ++ [0]) in *. assert (Ht : (length t <= 14)%nat) by (unfold t; rewrite !length_app; cbn; lia).
  exists l. eexists _, _. split; [done|]. split; [done|]. split; [done|]. split; [exact Hrun|]. split.
  - constructor; try done.
    + eapply bytes_at_ext; [|exact Hf]. intros a Hr. rewrite length_app in Hr. cbn in Hr. apply mwrite_outside. lia.
    + by apply mapped_mwrite.
  - destruct (mapped_bytes (mwrite m device_name t) (device_name + Z.of_nat (length t)) (16 - Z.of_nat (length t))) as (r & Hr & Hat).
    { intros a Hr. apply (mapped_mwrite _ _ _ _ _ Hb). lia. }
    exists (t ++ r). split.
    + replace 16%nat with (length (t ++ r)) by (rewrite length_app; lia). apply read_bytes_run, bytes_at_app. split; [apply bytes_at_mwrite|done].
    + unfold t. rewrite <- !app_assoc, app_assoc. cbn [app]. apply text_of_text. apply Forall_app. split; [repeat constructor; lia|].
      eapply Forall_impl; [exact H1'|]. unfold is_digit. lia.
Qed.

(** Registration in a well-formed table always returns. *)
Lemma register_returns (d : dstate W) nm t maj min data : table_ok d -> (length nm <= 31)%nat -> Forall (fun c => 1 <= c < 256) nm ->
  exists d' r, devfs_register_device nm t maj min data d = Ret (d', r) /\ table_ok d' /\ blk d' = blk d.
Proof.
  intros Hok Hlen Hnm. destruct (decide (num_devices d < 64)) as [Hn|Hn].
  2:{ exists d, (-1). split; [|done]. unfold devfs_register_device, MAX_DEVICES. by rewrite gets_bind, decide_True by lia. }
  destruct (registry d !! nm) eqn:Hr; [|destruct (register_run d nm t maj min data Hok Hn Hr Hlen Hnm) as (d' & Hrun & Hok' & _ & Hblk & _); by exists d', 0].
  destruct (find_registered d nm _ Hok Hr) as (i & x & _ & _ & _ & Hfind). exists d, (-1). split; [|done].
  unfold devfs_register_device, MAX_DEVICES. rewrite gets_bind, decide_False by lia. rewrite (cmd_bind_eq _ _ _ _ _ Hfind). by rewrite decide_True by lia.
Qed.

Lemma initialize_run (d : dstate W) dev x base line : table_ok d -> texts (bytes (blk d)) -> 0 <= num_block_devices (blk d) <= 256 ->
  block_devices (blk d) !! dev = Some x -> harmless base ->
  exists d', block_device_initialize dev base line d = Ret (d', tt) /\ table_ok d' /\ texts (bytes (blk d')) /\
    config (hw (blk d')) = config (hw (blk d)) /\ active_block_devices (blk d') = active_block_devices (blk d) /\
    num_block_devices (blk d') = num_block_devices (blk d) /\ is_Some (block_devices (blk d') !! dev).
Proof.
  intros Hok Htx Hn Hx Hb. unfold block_device_initialize, block_device_setup.
  set (b1 := with_devices (<[dev := mkBD base line 1000 (Some Ide_read_sector) (Some Ide_write_sector) 0]>) (blk d)).
  destruct (ide_initialize_quiet base line b1 Hb) as (h & Hide & Hc).
  rewrite (cmd_bind_eq _ _ d (with_blk (with_hw h b1) d) tt).
  2:{ unfold on_blk. rewrite (cmd_bind_eq _ _ (blk d) (blk d) x) by (unfold get_device; rewrite gets_bind, Hx; by destruct (blk d)).
      rewrite (cmd_bind_eq _ _ (blk d) b1 tt) by done. by rewrite Hide. }
  rewrite gets_bind. cbn [blk with_blk num_block_devices with_hw b1 with_devices].
  destruct (disk_name_run (bytes (blk d)) (num_block_devices (blk d)) Htx ltac:(lia)) as (l & m & r & Hdig & _ & Hlen & Hsn & Htx' & nm & Hread & Hnm).
  set (d1 := with_blk (with_bytes m (with_hw h b1)) d).
  rewrite (cmd_bind_eq _ _ _ d1 r) by (unfold on_blk, on_bytes; cbn [blk with_blk bytes with_hw b1 with_devices]; by rewrite Hsn).
  rewrite (cmd_bind_eq _ _ d1 d1 nm) by (unfold on_blk, on_bytes; cbn [blk with_blk bytes with_bytes d1]; by rewrite Hread).
  rewrite Hnm. destruct (register_returns d1 (hda_text ++ l) DEV_TYPE_BLOCK 3 (num_block_devices (blk d)) dev) as (d2 & r' & Hreg & Hok2 & Hblk).
  { destruct Hok. by constructor. }
  { rewrite length_app. cbn. lia. }
  { apply Forall_app. split; [repeat constructor; lia|]. eapply Forall_impl; [exact Hdig|]. unfold is_digit. lia. }
  exists d2. rewrite (cmd_bind_eq _ _ _ _ _ Hreg). split; [done|]. rewrite Hblk. split; [done|]. split; [done|]. split; [exact Hc|].
  split; [done|]. split; [done|]. cbn. rewrite lookup_insert_eq. by eexists.
Qed.

(** ** The scan *)

Record scan_ok s : Prop := {
  sc_table : table_ok (devs s);
  sc_texts : texts (bytes (blk (devs s)));
  sc_active : length (active_block_devices (blk (devs s))) = 256%nat;
  sc_count : 0 <= num_block_devices (blk (devs s)) <= 256;
  sc_handlers : length (handlers s) = 256%nat
}.

(** From [s] to [s'] the scan has found [disks] disks; the driver list is as it was. *)
Record progress s s' (disks : Z) : Prop := {
  pr_ok : scan_ok s';
  pr_config : config (hardware s') = config (hardware s);
  pr_manager : manager s' = manager s;
  pr_disks : num_block_devices (blk (devs s')) = Z.min 256 (num_block_devices (blk (devs s)) + disks)
}.

Lemma progress_trans s1 s2 s3 m n : 0 <= m -> 0 <= n -> progress s1 s2 m -> progress s2 s3 n -> progress s1 s3 (m + n).
Proof. intros Hm Hn [? A B C] [? A' B' C']. constructor; [done|congruence|congruence|]. rewrite C', C. lia. Qed.

Lemma progress_quiet s1 s2 s3 n : 0 <= n -> progress s1 s2 0 -> progress s2 s3 n -> progress s1 s3 n.
Proof. intros Hn Ha Hb. by apply (progress_trans s1 s2 s3 0 n). Qed.

Lemma progress_hardware h s : scan_ok s -> config h = config (hardware s) -> progress s (with_hardware h s) 0.
Proof. intros [A B C D E] Hh. constructor; [constructor; try done|done|done|cbn; lia]. destruct A. by constructor. Qed.

(** A part of the state that the scan's invariant does not look at. *)
Lemma progress_files f s : scan_ok s -> progress s (with_devs (with_files f (devs s)) s) 0.
Proof. intros [A B C D E]. constructor; [constructor; try done|done|done|cbn; lia]. destruct A. by constructor. Qed.

Lemma reserve_run n s : scan_ok s -> exists a s', allocate n s = Ret (s', a) /\ a <> 0 /\ progress s s' 0 /\ blk (devs s') = blk (devs s) /\
  handlers s' = handlers s.
Proof.
  intros Hs. destruct (malloc_live n (files (devs s))) as (f & a & Hm & Ha & _). exists a. eexists. split.
  - unfold allocate, on_devs, on_files. by rewrite Hm.
  - split; [done|]. split; [by apply progress_files|done].
Qed.

Lemma give_back_run a s : scan_ok s -> exists s', release a s = Ret (s', tt) /\ progress s s' 0.
Proof.
  intros Hs. destruct (free_live a (files (devs s))) as (f & Hf & _). eexists. split; [|by apply progress_files].
  unfold release, on_devs, on_files. by rewrite Hf.
Qed.

(** A change of the block layer's objects or of the handlers. *)
Lemma progress_objects f g l m s : scan_ok s -> length l = 256%nat ->
  progress s (mkP (with_blk (with_drivers g (with_devices f (blk (devs s)))) (devs s)) (manager s) l m) 0.
Proof. intros [A B C D E] Hl. constructor; [constructor; try done|done|done|cbn; lia]. destruct A. by constructor. Qed.

Lemma handler_run dev s : scan_ok s -> 0 <= interrupt dev -> exists s',
  (if decide (interrupt dev < 16) then
     let interrupt_num := u8 (INTERRUPT_OFFSET + interrupt dev) in
     h ← get_handler interrupt_num;
     if decide (h = 0) then
       a ← allocate sizeof_InterruptHandler;
       put_handler interrupt_num a;;
       h ← get_handler interrupt_num;
       if decide (h <> 0)
       then modify (fun s => mkP (devs s) (manager s) (handlers s) (<[h := Block_interrupt_handler]> (handler_functions s)))
       else mret tt
     else mret tt
   else mret tt) s = Ret (s', tt) /\ progress s s' 0.
Proof.
  intros Hs Hi. assert (Hid : forall s0, scan_ok s0 -> progress s0 s0 0).
  { intros s0 Hs0. constructor; try done. destruct Hs0. lia. }
  destruct (decide (interrupt dev < 16)) as [Hlt|]; [|exists s; split; [done|by apply Hid]]. cbn zeta.
  set (i := u8 (INTERRUPT_OFFSET + interrupt dev)). assert (Hir : 0 <= i < 256) by (unfold i; apply u8_range).
  destruct (zget_in_range (handlers s) i) as [h0 Hh0]; [rewrite (sc_handlers s Hs); lia|].
  assert (Hget : forall s1 v, zget (handlers s1) i = Some v -> get_handler i s1 = Ret (s1, v)) by (intros s1 v E; unfold get_handler; by rewrite gets_bind, E).
  rewrite (cmd_bind_eq _ _ _ _ _ (Hget s h0 Hh0)). destruct (decide (h0 = 0)); [|exists s; split; [done|by apply Hid]].
  destruct (reserve_run sizeof_InterruptHandler s Hs) as (a & s1 & Hrun & Ha & Hp & _ & Hh). rewrite (cmd_bind_eq _ _ _ _ _ Hrun).
  pose proof (pr_ok _ _ _ Hp) as Hs1. set (l := <[Z.to_nat i := a]> (handlers s1)).
  assert (Hz : zset (handlers s1) i a = Some l) by (apply zset_Some; rewrite (sc_handlers s1 Hs1); exact Hir).
  assert (Hl : length l = 256%nat) by (rewrite (zset_length _ _ _ _ Hz); apply Hs1).
  set (s2 := mkP (devs s1) (manager s1) l (handler_functions s1)).
  rewrite (cmd_bind_eq _ _ s1 s2 tt) by (unfold put_handler; rewrite gets_bind, Hz; done).
  rewrite (cmd_bind_eq _ _ s2 s2 a) by by apply Hget, (zget_zset_eq _ _ _ _ Hz). rewrite decide_True by done.
  eexists. split; [reflexivity|]. apply (progress_quiet _ s1); [lia|done|].
  pose proof (progress_objects (fun m => m) (fun m => m) l (<[a := Block_interrupt_handler]> (handler_functions s1)) s1 Hs1 Hl) as Hp2.
  destruct s1 as [ds]. destruct ds as [bs]. destruct bs. exact Hp2.
Qed.

(** Every Intel device becomes a disk while there is room for one. *)
Lemma set_8086_run dev s : scan_ok s -> 0 <= interrupt dev -> harmless (port_base dev) ->
  exists s', set_8086_device dev s = Ret (s', tt) /\ progress s s' 1.
Proof.
  intros Hs Hi Hb. unfold set_8086_device.
  destruct (reserve_run sizeof_BlockDevice s Hs) as (bd & s1 & R1 & Hbd & P1 & _ & _). rewrite (cmd_bind_eq _ _ _ _ _ R1), decide_False by done.
  pose proof (pr_ok _ _ _ P1) as Hs1. set (x := mkBD 0 0 0 None None 0).
  set (s2 := mkP (with_blk (with_drivers (fun m => m) (with_devices (<[bd := x]>) (blk (devs s1)))) (devs s1)) (manager s1) (handlers s1) (handler_functions s1)).
  assert (P2 : progress s1 s2 0) by (apply progress_objects; [done|apply Hs1]). pose proof (pr_ok _ _ _ P2) as Hs2.
  rewrite (cmd_bind_eq _ _ s1 s2 tt) by by destruct s1 as [ds]; destruct ds as [bs]; destruct bs.
  destruct Hs2 as [T2 X2 A2 N2 L2].
  destruct (initialize_run (devs s2) bd x (port_base dev) (interrupt dev) T2 X2 N2 ltac:(apply lookup_insert_eq) Hb) as (d3 & R3 & T3 & X3 & C3 & A3 & N3 & [y Hy]).
  set (s3 := with_devs d3 s2). rewrite (cmd_bind_eq _ _ s2 s3 tt) by (unfold on_devs; by rewrite R3).
  assert (P3 : progress s2 s3 0).
  { constructor; [constructor|done|done|]; cbn [devs s3 with_devs handlers s2]; try done; [by rewrite A3|by rewrite N3|rewrite N3, Z.add_0_r, Z.min_r; [done|apply N2]]. }
  destruct (reserve_run sizeof_BlockDriver s3 (pr_ok _ _ _ P3)) as (bl & s4 & R4 & Hbl & P4 & B4 & _). rewrite (cmd_bind_eq _ _ _ _ _ R4).
  pose proof (pr_ok _ _ _ P4) as Hs4.
  set (s5 := mkP (with_blk (with_drivers (<[bl := mkBlockDriver (mkDriver 0 0 0) y]>) (with_devices (fun m => m) (blk (devs s4)))) (devs s4)) (manager s4) (handlers s4) (handler_functions s4)).
  assert (P5 : progress s4 s5 0) by (apply progress_objects; [done|apply Hs4]).
  rewrite (cmd_bind_eq _ _ s4 s5 bl).
  2:{ unfold on_devs, on_blk, create_block_driver. rewrite ret_bind, decide_False by done.
      rewrite (cmd_bind_eq _ _ (blk (devs s4)) (blk (devs s4)) y); [by destruct s4 as [ds]; destruct ds as [bs]; destruct bs|].
      unfold get_device. rewrite gets_bind, B4. cbn [devs s3 with_devs]. rewrite Hy. done. }
  rewrite decide_True by done.
  destruct (handler_run dev s5 (pr_ok _ _ _ P5) Hi) as (s6 & R6 & P6). rewrite (cmd_bind_eq _ _ _ _ _ R6). pose proof (pr_ok _ _ _ P6) as Hs6.
  assert (P : progress s s6 0).
  { do 5 (eapply progress_quiet; [lia|eassumption|]). exact P6. }
  rewrite gets_bind. destruct Hs6 as [T6 X6 A6 N6 L6]. unfold MAX_BLOCK_DEVICES.
  destruct (decide (num_block_devices (blk (devs s6)) < 256)) as [Hn|Hn].
  - rewrite gets_bind. set (n := num_block_devices (blk (devs s6))) in *.
    assert (Hz : zset (active_block_devices (blk (devs s6))) n bd = Some (<[Z.to_nat n := bd]> (active_block_devices (blk (devs s6))))) by (apply zset_Some; lia).
    rewrite Hz. cbn [deref]. rewrite lift_bind. eexists. split; [reflexivity|].
    apply (progress_quiet _ s6); [lia|done|].
    constructor; [constructor|done|done|]; cbn [devs with_devs handlers blk with_blk active_block_devices num_block_devices with_active bytes]; fold n; try done.
    + destruct T6. by constructor.
    + by rewrite length_insert.
    + lia.
    + lia.
  - destruct (give_back_run bl s6 (pr_ok _ _ _ P)) as (s7 & R7 & P7). rewrite (cmd_bind_eq _ _ _ _ _ R7).
    destruct (give_back_run bd s7 (pr_ok _ _ _ P7)) as (s8 & R8 & P8). exists s8. split; [done|].
    pose proof (pr_disks _ _ _ P). destruct (progress_quiet _ _ _ 0 ltac:(lia) P (progress_quiet _ _ _ 0 ltac:(lia) P7 P8)) as [Q1 Q2 Q3 Q4].
    constructor; try done. rewrite Q4. lia.
Qed.

(** The devices that answer as function 0, and those of them made by Intel. *)
Definition present (cfg : Z -> Z) (bd : Z * Z) : Prop := half cfg bd.1 bd.2 0 0 <> 0 /\ half cfg bd.1 bd.2 0 0 <> 0xffff.
Definition intel (cfg : Z -> Z) (bd : Z * Z) : Prop := half cfg bd.1 bd.2 0 0 = 0x8086.
#[global] Instance present_dec cfg bd : Decision (present cfg bd).
Proof. unfold present. apply _. Defined.
#[global] Instance intel_dec cfg bd : Decision (intel cfg bd).
Proof. unfold intel. apply _. Defined.
Definition number (P : Z * Z -> Prop) `{forall x, Decision (P x)} (l : list (Z * Z)) : Z := Z.of_nat (length (filter P l)).

Definition quiet_ports (cfg : Z -> Z) : Prop := forall b d, harmless (io_base cfg b d 0 6 0 (stale_port_base b d 0)).

Lemma exists_present cfg b d : exists_device (descriptor cfg b d 0) <-> present cfg (b, d).
Proof. unfold exists_device, present. cbn. tauto. Qed.

Lemma progress_id s : scan_ok s -> progress s s 0.
Proof. intros Hs. constructor; try done. destruct Hs. lia. Qed.

(** Function 0 of a device that is there. *)
Lemma visit_run b d s c : scan_ok s -> quiet_ports (config (hardware s)) -> present (config (hardware s)) (b, d) -> 0 <= c < 100000 ->
  exists s', visit_function pic b d 0 (c, 0) s = Ret (s', (c + 1, 0)) /\
    progress s s' (if decide (intel (config (hardware s)) (b, d)) then 1 else 0).
Proof.
  intros Hs Hq Hp Hc. unfold visit_function. set (cfg := config (hardware s)) in *.
  destruct (descriptor_run b d 0 s) as (h1 & C1 & R1). rewrite (cmd_bind_eq _ _ _ _ _ R1). fold cfg.
  rewrite decide_True by by apply exists_present. cbn [fst snd class_id descriptor]. rewrite (decide_False (P := 0 = 1)) by done.
  replace (s32 (c + 1)) with (c + 1) by (unfold s32; zdm).
  destruct (bar_loop_run 6 0 (descriptor cfg b d 0) (with_hardware h1 s)) as (h2 & C2 & R2); [lia|lia|].
  change (hardware (with_hardware h1 s)) with h1 in *. rewrite C1 in *. fold cfg in C1, C2, R2. rewrite (cmd_bind_eq _ _ _ _ _ R2).
  cbn [bus device function port_base descriptor]. set (dev := set_port_base _ _). set (s2 := with_hardware h2 _).
  assert (P2 : progress s s2 0) by exact (progress_hardware h2 s Hs C2). pose proof (pr_ok _ _ _ P2) as Hs2.
  assert (Hdrv : exists s3, get_driver dev s2 = Ret (s3, 0) /\ progress s2 s3 (if decide (intel cfg (b, d)) then 1 else 0)).
  { unfold get_driver. rewrite decide_False by by intros [_ ?].
    destruct (decide (vendor_id dev = 0x8086)) as [E|E].
    - rewrite decide_True by done. destruct (set_8086_run dev s2 Hs2) as (s3 & R3 & P3); [apply half_range|apply Hq|].
      exists s3. by rewrite (cmd_bind_eq _ _ _ _ _ R3).
    - rewrite decide_False by done. exists s2. split; [done|by apply progress_id]. }
  destruct Hdrv as (s3 & R3 & P3). rewrite (cmd_bind_eq _ _ _ _ _ R3). rewrite decide_False by lia. rewrite ret_bind.
  exists s3. split; [done|]. apply (progress_quiet _ s2); [case_decide; lia|done|done].
Qed.

(** The multi-function bit is in the upper half of its register. *)
Lemma has_functions_run b d s : exists h, config h = config (hardware s) /\ device_has_functions pic b d s = Ret (with_hardware h s, 0).
Proof. unfold device_has_functions. read_next 0x0e h1 C1. exists h1. split; [done|]. by rewrite upper_half by by left. Qed.

Lemma number_cons P `{forall x, Decision (P x)} x l : number P (x :: l) = (if decide (P x) then 1 else 0) + number P l.
Proof. unfold number. rewrite filter_cons. case_decide; cbn [length]; lia. Qed.
Lemma number_app P `{forall x, Decision (P x)} l1 l2 : number P (l1 ++ l2) = number P l1 + number P l2.
Proof. unfold number. rewrite filter_app, length_app. lia. Qed.
Lemma number_bounds P `{forall x, Decision (P x)} l : 0 <= number P l <= Z.of_nat (length l).
Proof. unfold number. pose proof (length_filter P l). lia. Qed.

Lemma visit_device_run b d s c : scan_ok s -> quiet_ports (config (hardware s)) -> 0 <= c < 100000 ->
  exists s', visit_device pic b d (c, 0) s = Ret (s', (c + (if decide (present (config (hardware s)) (b, d)) then 1 else 0), 0)) /\
    progress s s' (if decide (intel (config (hardware s)) (b, d)) then 1 else 0).
Proof.
  intros Hs Hq Hc. unfold visit_device. set (cfg := config (hardware s)) in *.
  destruct (descriptor_run b d 0 s) as (h1 & C1 & R1). rewrite (cmd_bind_eq _ _ _ _ _ R1). fold cfg in R1, C1 |- *. set (s1 := with_hardware h1 s).
  assert (P1 : progress s s1 0) by by apply progress_hardware.
  destruct (decide (exists_device _)) as [E|E].
  - apply exists_present in E. rewrite (decide_True (P := present _ _)) by done.
    destruct (has_functions_run b d s1) as (h2 & C2 & R2). rewrite (cmd_bind_eq _ _ _ _ _ R2), decide_False by lia. set (s2 := with_hardware h2 s1).
    assert (P2 : progress s1 s2 0) by (apply progress_hardware; [apply P1|done]).
    assert (E2 : config (hardware s2) = cfg) by (rewrite (pr_config _ _ _ P2), (pr_config _ _ _ P1); done).
    destruct (visit_run b d s2 c) as (s3 & R3 & P3); [apply P2|by rewrite E2|by rewrite E2|lia|]. rewrite E2 in P3.
    exists s3. cbn [function_loop]. rewrite (cmd_bind_eq _ _ _ _ _ R3). split; [done|].
    apply (progress_quiet _ s1); [case_decide; lia|done|]. apply (progress_quiet _ s2); [case_decide; lia|done|done].
  - assert (Hno : ~ present cfg (b, d)) by by rewrite <- exists_present. rewrite (decide_False (P := present _ _)) by done.
    rewrite decide_False. 2:{ unfold intel. intros E8. apply Hno. unfold present. rewrite E8. done. }
    exists s1. rewrite Z.add_0_r. done.
Qed.

Lemma device_loop_run n : forall b d s c, scan_ok s -> quiet_ports (config (hardware s)) -> 0 <= c -> c + Z.of_nat n < 100000 ->
  let l := map (fun x => (b, x)) (seqZ d (Z.of_nat n)) in
  exists s', device_loop pic n b d (c, 0) s = Ret (s', (c + number (present (config (hardware s))) l, 0)) /\
    progress s s' (number (intel (config (hardware s))) l).
Proof.
  induction n as [|n IH]; intros b d s c Hs Hq Hc Hn; cbn [device_loop].
  { exists s. cbn. rewrite Z.add_0_r. split; [done|by apply progress_id]. }
  rewrite seqZ_cons by lia. replace (Z.pred (Z.of_nat (S n))) with (Z.of_nat n) by lia. rewrite <- Z.add_1_r. cbn [map]. cbn zeta.
  set (l := map (fun x => (b, x)) (seqZ (d + 1) (Z.of_nat n))). rewrite !number_cons.
  destruct (visit_device_run b d s c Hs Hq) as (s2 & R2 & P2); [lia|]. set (cfg := config (hardware s)) in *.
  set (k := if decide (present cfg (b, d)) then 1 else 0) in *. set (k' := if decide (intel cfg (b, d)) then 1 else 0) in *.
  assert (Hk : 0 <= k <= 1 /\ 0 <= k' <= 1) by (unfold k, k'; repeat case_decide; lia).
  rewrite (cmd_bind_eq _ _ _ _ _ R2). assert (E2 : config (hardware s2) = cfg) by apply P2.
  destruct (IH b (d + 1) s2 (c + k)) as (s3 & R3 & P3); [apply P2|by rewrite E2|lia|lia|]. rewrite E2 in R3, P3. fold l in R3, P3.
  exists s3. rewrite Z.add_assoc. split; [done|]. apply (progress_trans _ s2); [lia|apply number_bounds|done|done].
Qed.

Lemma bus_loop_run n : forall b s c, scan_ok s -> quiet_ports (config (hardware s)) -> 0 <= c -> c + 32 * Z.of_nat n < 100000 ->
  let l := list_prod (seqZ b (Z.of_nat n)) (seqZ 0 32) in
  exists s', bus_loop pic n b (c, 0) s = Ret (s', (c + number (present (config (hardware s))) l, 0)) /\
    progress s s' (number (intel (config (hardware s))) l).
Proof.
  induction n as [|n IH]; intros b s c Hs Hq Hc Hn; cbn [bus_loop].
  { exists s. cbn. rewrite Z.add_0_r. split; [done|by apply progress_id]. }
  rewrite seqZ_cons by lia. replace (Z.pred (Z.of_nat (S n))) with (Z.of_nat n) by lia. rewrite <- Z.add_1_r. cbn [list_prod]. cbn zeta.
  rewrite !number_app. set (cfg := config (hardware s)) in *.
  destruct (device_loop_run 32 b 0 s c Hs Hq Hc ltac:(lia)) as (s1 & R1 & P1). fold cfg in R1, P1. rewrite (cmd_bind_eq _ _ _ _ _ R1).
  change (Z.of_nat 32) with 32 in *. set (l := map (fun x => (b, x)) (seqZ 0 32)) in *.
  pose proof (number_bounds (present cfg) l) as Hb. assert (Hl : length l = 32%nat) by done. rewrite Hl in Hb.
  assert (E1 : config (hardware s1) = cfg) by apply P1.
  destruct (IH (b + 1) s1 (c + number (present cfg) l)) as (s2 & R2 & P2); [apply P1|by rewrite E1|lia|lia|]. rewrite E1 in R2, P2.
  exists s2. rewrite Z.add_assoc. split; [done|]. apply (progress_trans _ s1); [apply number_bounds|apply number_bounds|done|done].
Qed.

(** C33. The scan returns and counts the devices that answer as function 0 of one
    of the 256 x 32 places; the other functions of a device are never looked at.
    It counts no storage controller and appends no driver, and it makes a disk of
    every Intel device, whatever it is, while there is room for 256. *)
Theorem select_drivers_function_zero s : scan_ok s -> quiet_ports (config (hardware s)) ->
  let places := list_prod (seqZ 0 256) (seqZ 0 32) in
  exists s', select_drivers pic s = Ret (s', (number (present (config (hardware s))) places, 0)) /\
    scan_ok s' /\ manager s' = manager s /\
    num_block_devices (blk (devs s')) = Z.min 256 (num_block_devices (blk (devs s)) + number (intel (config (hardware s))) places).
Proof.
  intros Hs Hq. destruct (bus_loop_run 256 0 s 0 Hs Hq) as (s' & Hrun & [Hok _ Hm Hd]); [lia|lia|]. by exists s'.
Qed.
End scan.

(** ** A machine with two devices *)

(** An Intel bridge at place (0, 0) and a network card at (0, 3). *)
Record machine := mkMachine { selected : Z }.
Definition machine_config (id : Z) : Z :=
  if decide (id = 0x80000000) then 0x12378086 else if decide (id = 0x80001800) then 0x813910EC else 0.
#[local] Instance machine_hardware : Hardware machine := {|
  hw_out w port v m := if decide (w = 32 /\ port = 0xCF8) then mkMachine v else m;
  hw_in w port m := (m, if decide (w = 32 /\ port = 0xCFC) then machine_config (selected m) else 0)
|}.
#[local] Instance machine_bus : PciBus machine.
Proof. by exists selected (fun _ => machine_config). Defined.
#[local] Instance machine_stack : Stack := {| stale_port_base _ _ _ := 0x1F0; stale_bar _ _ _ _ := mkBAR 0 0 MemoryMapping |}.
#[local] Existing Instances sample_env sample_heap sample_layout.

Definition machine_memory : mem := mwrite (mwrite ∅ 200 (replicate 16 0)) 220 (hda_text ++ [37; 100; 0]).
Definition machine_state : pstate machine :=
  mkP (mkDevfs (with_bytes machine_memory (mkB ∅ ∅ (replicate 256 0) 0 ∅ (mkMachine 0))) (mkKD [] 0 0 0 0)
    (replicate 64 blank_node) 0 sample_files ∅ 0 (mkMP None 0)) (mkManager (replicate 256 (mkDriver 0 0 0)) 0) (replicate 256 0) ∅.

Lemma machine_ok : scan_ok machine_state.
Proof.
  constructor; try reflexivity.
  - constructor; [reflexivity|cbn; lia| |apply NoDup_nil_2]. apply Forall_replicate. exists (replicate 31 0). by split.
  - constructor.
    + apply bytes_at_mwrite.
    + intros a Ha. change device_name with 200 in Ha. cbn [bytes blk devs machine_state with_bytes]. unfold machine_memory. apply mapped_mwrite with (n := 16) (q := 200); [|done].
      intros b Hb. rewrite lookup_mwrite, length_replicate, decide_True by lia. rewrite lookup_replicate_2 by lia. by eexists.
    + left. cbn. lia.
    + discriminate.
  - cbn. lia.
Qed.

Lemma machine_quiet : quiet_ports (config (hardware machine_state)).
Proof.
  change (config (hardware machine_state)) with machine_config.
  intros b d. assert (E : forall n k base, io_base machine_config b d 0 n k base = base).
  { induction n as [|n IH]; intros k base; cbn [io_base]; [done|]. rewrite IH. apply decide_False. intros [Hodd _]. apply Hodd.
    unfold half, machine_config. repeat case_decide; reflexivity. }
  rewrite E. unfold harmless. change (u16 _) with 0x1F6. lia.
Qed.

Lemma machine_counts : number (present machine_config) (list_prod (seqZ 0 256) (seqZ 0 32)) = 2 /\
  number (intel machine_config) (list_prod (seqZ 0 256) (seqZ 0 32)) = 1.
Proof. split; vm_compute; reflexivity. Qed.

Lemma select_drivers_function_zero_witness : exists s', select_drivers (mkPIC 0xcfc 0xcf8) machine_state = Ret (s', (2, 0)) /\
  num_block_devices (blk (devs s')) = 1.
Proof.
  destruct (select_drivers_function_zero machine_state machine_ok machine_quiet) as (s' & Hrun & _ & _ & Hn).
  change (config (hardware machine_state)) with machine_config in Hrun, Hn. destruct machine_counts as [Ep Ei].
  rewrite Ep in Hrun. rewrite Ei in Hn. exists s'. exact (conj Hrun Hn).
Defined.
