(* ===== verification/Ext4.v ===== *)
(** * ext4 (src/fs/ext4.c, include/fs/ext4.h)

    The structures are packed bytes in the memory of CString.v and are accessed
    at their offsets; sectors go through the block devices of Block.v; inodes and
    paths are those of Vfs.v. Sectors, blocks and structures are transferred to and
    from objects of known sizes (the group descriptor and the sector buffer on the
    stack, the buffers of MAX_DIR_BUFFER_SIZE bytes from the heap); what does not
    fit is an access outside the object, which the program is not defined for: a
    [Fault]. *)
From S2P Require Import Prelude CString Ports Block Vfs.

Definition EXT4_SUPER_MAGIC : Z := 0xEF53.
Definition EXT4_MIN_BLOCK_SIZE : Z := 1024.
Definition EXT4_SUPER_BLOCK_OFFSET : Z := 1024.
Definition PATH_MAX : Z := 256.
Definition S_IFDIR : Z := Z.shiftl 1 14.
Definition MAX_DIR_BUFFER_SIZE : Z := 512.
Definition O_TRUNC : Z := 0x0008.

(** ** Offsets *)

Definition sizeof_buffer : Z := 512.
Definition sizeof_Ext4SuperBlock : Z := 1112.
Definition sb_blocks_count_lo : Z := 4.
Definition sb_free_blocks_count_lo : Z := 12.
Definition sb_free_inodes_count : Z := 16.
Definition sb_first_data_block : Z := 20.
Definition sb_log_block_size : Z := 24.
Definition sb_blocks_per_group : Z := 32.
Definition sb_inodes_per_group : Z := 40.
Definition sb_wtime : Z := 48.
Definition sb_inode_size : Z := 88.
Definition sb_free_blocks_count_hi : Z := 274.

Definition sizeof_Ext4BlockGroupDescriptor : Z := 68.
Definition bg_block_bitmap_lo : Z := 0.
Definition bg_inode_bitmap_lo : Z := 4.
Definition bg_inode_table_lo : Z := 8.
Definition bg_free_blocks_count_lo : Z := 12.
Definition bg_free_inodes_count_lo : Z := 14.
Definition bg_free_blocks_count_hi : Z := 44.
Definition bg_free_inodes_count_hi : Z := 46.

Definition sizeof_Ext4Inode : Z := 166.
Definition in_mode : Z := 0.
Definition in_uid : Z := 2.
Definition in_size_lo : Z := 4.
Definition in_atime : Z := 8.
Definition in_ctime : Z := 12.
Definition in_mtime : Z := 16.
Definition in_gid : Z := 24.
Definition in_links_count : Z := 26.
Definition in_blocks_lo : Z := 28.
Definition in_block (i : Z) : Z := 40 + 4 * i.
Definition in_size_high : Z := 108.
Definition in_blocks : Z := 142.

Definition sizeof_Ext4FileSystemData : Z := 1200.
Definition fs_device : Z := 0.
Definition fs_super_block (field : Z) : Z := 4 + field.
Definition fs_block_size : Z := 1120.
Definition fs_blocks_per_group : Z := 1124.
Definition fs_inodes_per_group : Z := 1128.
Definition fs_block_group_count : Z := 1132.
Definition fs_mount_point : Z := 1136.

Definition de_inode : Z := 0.
Definition de_rec_len : Z := 4.
Definition de_name_len : Z := 6.
Definition de_file_type : Z := 7.
Definition de_name : Z := 8.

Definition sizeof_Ext4DirIterator : Z := 12.
Definition it_current_block : Z := 0.
Definition it_current_offset : Z := 4.
Definition it_block_buffer : Z := 8.

(** The file operations, by their offsets in [FileOperations]. *)
Definition sizeof_FileOperations : Z := 32.
Definition fo_open : Z := 0.
Definition fo_close : Z := 4.
Definition fo_read : Z := 8.
Definition fo_write : Z := 12.
Definition fo_opendir : Z := 20.
Definition fo_closedir : Z := 24.
Definition fo_readdir : Z := 28.

Inductive ext4_fn : Set :=
| Ext4_file_open | Ext4_file_close | Ext4_file_read | Ext4_file_write | Ext4_dir_opendir | Ext4_dir_closedir | Ext4_dir_readdir
| Ext4_mount | Ext4_umount | Ext4_get_inode | Ext4_mkdir | Ext4_rmdir | Ext4_remove.

(** Where the code, [ext4_filesystem] and the local structures are. *)
Class Placement := { code : ext4_fn -> Z; ext4_filesystem : Z; bgd : Z; buffer : Z }.

Record estate (W : Type) := mkE { disk : bstate W; files : vfs; ext4_fs_data : Z }.
Arguments mkE {W} _ _ _. Arguments disk {W} _. Arguments files {W} _. Arguments ext4_fs_data {W} _.

(** [n] bytes, the low one first. *)
Fixpoint load_le (n : nat) (p : Z) : cmd mem Z :=
  match n with O => mret 0 | S n' => b ← load p; r ← load_le n' (p + 1); mret (b + 256 * r) end.
Fixpoint store_le (n : nat) (p v : Z) : cmd mem unit :=
  match n with O => mret tt | S n' => store p (v mod 256);; store_le n' (p + 1) (v / 256) end.
Fixpoint store_bytes (l : list Z) (p : Z) : cmd mem unit :=
  match l with [] => mret tt | b :: l' => store p b;; store_bytes l' (p + 1) end.

(** strcmp and strncmp of the string at [p] with a string value, as in CString.v:
    whether they return 0. *)
Fixpoint same_text (p : Z) (text : list Z) : cmd mem bool :=
  c ← load p;
  match text with
  | [] => mret (bool_decide (c = 0))
  | x :: text' => if decide (c = x) then same_text (p + 1) text' else mret false
  end.
Fixpoint same_start (n : nat) (p : Z) (text : list Z) : cmd mem bool :=
  match n with
  | O => mret true
  | S n' =>
      c ← load p;
      match text with
      | [] => mret (bool_decide (c = 0))
      | x :: text' => if decide (c = x) then same_start n' (p + 1) text' else mret false
      end
  end.

Section ext4.
Context `{Hardware W, Patience, Vfs.Env, Placement}.
Abbreviation E := (cmd (estate W)).

Definition on_disk {A} (c : cmd (bstate W) A) : E A := fun s =>
  match c (disk s) with Ret (d, a) => Ret (mkE d (files s) (ext4_fs_data s), a) | Fault => Fault | Spin => Spin end.
Definition on_files {A} (c : cmd vfs A) : E A := fun s =>
  match c (files s) with Ret (f, a) => Ret (mkE (disk s) f (ext4_fs_data s), a) | Fault => Fault | Spin => Spin end.
Definition on_memory {A} (c : cmd mem A) : E A := on_disk (on_bytes c).
Definition set_fs_data (a : Z) : E unit := modify (fun s => mkE (disk s) (files s) a).

Definition ld8 (p : Z) : E Z := on_memory (load p).
Definition ld16 (p : Z) : E Z := on_memory (load_le 2 p).
Definition ld32 (p : Z) : E Z := on_memory (load_le 4 p).
Definition st8 (p v : Z) : E unit := on_memory (store p v).
Definition st16 (p v : Z) : E unit := on_memory (store_le 2 p v).
Definition st32 (p v : Z) : E unit := on_memory (store_le 4 p v).
Definition st64 (p v : Z) : E unit := on_memory (store_le 8 p v).
Definition copy (dst src n : Z) : E unit := on_memory (memcpy dst src n);; mret tt.
Definition clear (p n : Z) : E unit := on_memory (memset p 0 n);; mret tt.
Definition allocate (n : Z) : E Z := on_files (malloc n).
Definition release (a : Z) : E unit := on_files (free a).
Definition release_str (s : option str) : E unit := release (match s with Some (a, _) => a | None => 0 end).

(** a / b and a % b of unsigned numbers *)
Definition divide (a b : Z) : E Z := if decide (b = 0) then fault else mret (a / b).
Definition modulo (a b : Z) : E Z := if decide (b = 0) then fault else mret (a mod b).

(** An access of [n] bytes where an object has [room] of them. *)
Definition bounded {A} (room n : Z) (c : E A) : E A := if decide (n <= room) then c else fault.

(** Accesses through a pointer [p] into an object with [room] bytes from there on
    reach those bytes only. *)
Definition in_object {A} (p room : Z) (c : cmd (bstate W) A) : cmd (bstate W) A := fun d =>
  match c (with_bytes (filter (fun cell => p <= fst cell < p + room) (bytes d)) d) with
  | Ret (d', a) => Ret (with_bytes (bytes d' ∪ bytes d) d', a)
  | Fault => Fault
  | Spin => Spin
  end.

(** fs_data->device->read and ->write *)
Definition device_read (fs_data sector p room : Z) : E unit :=
  a ← ld32 (fs_data + fs_device); d ← on_disk (get_device a); on_disk (in_object p room (call_block (bd_read d) sector p)).
Definition device_write (fs_data sector p room : Z) : E unit :=
  a ← ld32 (fs_data + fs_device); d ← on_disk (get_device a); on_disk (in_object p room (call_block (bd_write d) sector p)).

Definition current_time : Z := 1600000000.

(** ** Blocks and inodes *)

Definition ext4_read_super_block (fs_data : Z) : E unit :=
  device_read fs_data (EXT4_SUPER_BLOCK_OFFSET / BLOCK_SIZE) buffer sizeof_buffer;;
  bounded sizeof_buffer sizeof_Ext4SuperBlock (copy (fs_data + fs_super_block 0) buffer sizeof_Ext4SuperBlock);;
  log ← ld32 (fs_data + fs_super_block sb_log_block_size);
  st32 (fs_data + fs_block_size) (Z.shiftl EXT4_MIN_BLOCK_SIZE (log mod 32));;
  v ← ld32 (fs_data + fs_super_block sb_blocks_per_group);
  st32 (fs_data + fs_blocks_per_group) v;;
  v ← ld32 (fs_data + fs_super_block sb_inodes_per_group);
  st32 (fs_data + fs_inodes_per_group) v;;
  n ← ld32 (fs_data + fs_super_block sb_blocks_count_lo);
  per ← ld32 (fs_data + fs_blocks_per_group);
  count ← divide (u32 (n + per - 1)) per;
  st32 (fs_data + fs_block_group_count) count.

(** for (i = 0; i < fs_data->block_size / BLOCK_SIZE; i++) *)
Fixpoint sector_loop (fuel : nat) (access : Z -> Z -> Z -> E unit) (fs_data sector p room i : Z) : E unit :=
  match fuel with
  | O => spin
  | S fuel' =>
      block_size ← ld32 (fs_data + fs_block_size);
      if decide (i < block_size / BLOCK_SIZE) then
        access (u32 (sector + i)) (p + i * BLOCK_SIZE) (room - i * BLOCK_SIZE);; sector_loop fuel' access fs_data sector p room (i + 1)
      else mret tt
  end.
(** One more than the number of sectors when the loop starts. *)
Definition sector_fuel (block_size : Z) : nat := S (Z.to_nat (block_size / BLOCK_SIZE)).

(** The [void* buffer] points to an object with [room] bytes. *)
Definition ext4_read_block (fs_data block_num p room : Z) : E unit :=
  block_size ← ld32 (fs_data + fs_block_size);
  sector_loop (sector_fuel block_size) (device_read fs_data) fs_data (u32 (block_num * block_size) / BLOCK_SIZE) p room 0.

Definition ext4_write_block (fs_data block_num p room : Z) : E unit :=
  block_size ← ld32 (fs_data + fs_block_size);
  sector_loop (sector_fuel block_size) (device_write fs_data) fs_data (u32 (block_num * block_size) / BLOCK_SIZE) p room 0.

(** first_data_block + 1 + group *)
Definition bgd_block (fs_data group : Z) : E Z :=
  v ← ld32 (fs_data + fs_super_block sb_first_data_block); mret (u32 (v + 1 + group)).

(** The block and the offset in it of inode [inode_num], whose group descriptor
    is read on the way. *)
Definition inode_place (fs_data inode_num : Z) : E (Z * Z) :=
  per ← ld32 (fs_data + fs_inodes_per_group);
  group ← divide (u32 (inode_num - 1)) per;
  index ← modulo (u32 (inode_num - 1)) per;
  b ← bgd_block fs_data group;
  ext4_read_block fs_data b bgd sizeof_Ext4BlockGroupDescriptor;;
  table ← ld32 (bgd + bg_inode_table_lo);
  size ← ld16 (fs_data + fs_super_block sb_inode_size);
  block_size ← ld32 (fs_data + fs_block_size);
  block_offset ← divide (u32 (index * size)) block_size;
  in_block_offset ← modulo (u32 (index * size)) block_size;
  mret (u32 (table + block_offset), in_block_offset).

Definition ext4_read_inode (fs_data inode_num : Z) : E Z :=
  inode ← allocate sizeof_Ext4Inode;
  if decide (inode = 0) then mret 0 else
  '(block, offset) ← inode_place fs_data inode_num;
  block_buffer ← allocate MAX_DIR_BUFFER_SIZE;
  if decide (block_buffer = 0) then release inode;; mret 0 else
  ext4_read_block fs_data block block_buffer MAX_DIR_BUFFER_SIZE;;
  bounded (MAX_DIR_BUFFER_SIZE - offset) sizeof_Ext4Inode (copy inode (block_buffer + offset) sizeof_Ext4Inode);;
  release block_buffer;;
  mret inode.

Definition ext4_write_inode (fs_data inode_num inode : Z) : E unit :=
  if decide (fs_data = 0 \/ inode = 0) then mret tt else
  '(block, offset) ← inode_place fs_data inode_num;
  block_buffer ← allocate MAX_DIR_BUFFER_SIZE;
  if decide (block_buffer = 0) then mret tt else
  ext4_read_block fs_data block block_buffer MAX_DIR_BUFFER_SIZE;;
  bounded (MAX_DIR_BUFFER_SIZE - offset) sizeof_Ext4Inode (copy (block_buffer + offset) inode sizeof_Ext4Inode);;
  ext4_write_block fs_data block block_buffer MAX_DIR_BUFFER_SIZE;;
  release block_buffer.

Definition ext4_write_super_block (fs_data : Z) : E unit :=
  if decide (fs_data = 0) then mret tt else
  clear buffer 512;;
  bounded sizeof_buffer sizeof_Ext4SuperBlock (copy buffer (fs_data + fs_super_block 0) sizeof_Ext4SuperBlock);;
  device_write fs_data (EXT4_SUPER_BLOCK_OFFSET / BLOCK_SIZE) buffer sizeof_buffer.

(** ** Bitmaps *)

Definition test_bit (p i : Z) : E bool := b ← ld8 (p + i / 8); mret (bool_decide (Z.land b (Z.shiftl 1 (i mod 8)) <> 0)).
Definition set_bit (p i : Z) : E unit := b ← ld8 (p + i / 8); st8 (p + i / 8) (Z.lor b (Z.shiftl 1 (i mod 8))).
Definition clear_bit (p i : Z) : E unit := b ← ld8 (p + i / 8); st8 (p + i / 8) (Z.land b (Z.lnot (Z.shiftl 1 (i mod 8)))).

(** x--; if (x == 0xFFFF && hi > 0) hi--; on the 16-bit counters at [lo] and [hi] *)
Definition count_down (lo hi : Z) : E unit :=
  n ← ld16 lo; st16 lo (n - 1);;
  n ← ld16 lo; h ← ld16 hi;
  if decide (n = 0xFFFF /\ h > 0) then st16 hi (h - 1) else mret tt.
(** x++; if (x == 0 && hi > 0) { hi--; x = 0xFFFF; } *)
Definition count_up (lo hi : Z) : E unit :=
  n ← ld16 lo; st16 lo (n + 1);;
  n ← ld16 lo; h ← ld16 hi;
  if decide (n = 0 /\ h > 0) then st16 hi (h - 1);; st16 lo 0xFFFF else mret tt.

(** A field of the super block in memory. *)
Definition ld_sb (field : Z) : E Z := fs ← gets ext4_fs_data; ld32 (fs + fs_super_block field).
Definition st_sb (field v : Z) : E unit := fs ← gets ext4_fs_data; st32 (fs + fs_super_block field) v.
Definition ld_fs (field : Z) : E Z := fs ← gets ext4_fs_data; ld32 (fs + field).
Definition read_block (block p room : Z) : E unit := fs ← gets ext4_fs_data; ext4_read_block fs block p room.
Definition write_block (block p room : Z) : E unit := fs ← gets ext4_fs_data; ext4_write_block fs block p room.
Definition write_super_block : E unit :=
  st_sb sb_wtime current_time;; fs ← gets ext4_fs_data; ext4_write_super_block fs.

(** Inode [i] of the group in [bgd] is marked in the bitmap, the counters and the super block. *)
Definition take_inode (descriptor bitmap_buffer i : Z) : E unit :=
  set_bit bitmap_buffer i;;
  b ← ld32 (bgd + bg_inode_bitmap_lo);
  write_block b bitmap_buffer MAX_DIR_BUFFER_SIZE;;
  count_down (bgd + bg_free_inodes_count_lo) (bgd + bg_free_inodes_count_hi);;
  write_block descriptor bgd sizeof_Ext4BlockGroupDescriptor;;
  n ← ld_sb sb_free_inodes_count; st_sb sb_free_inodes_count (n - 1);;
  write_super_block;;
  release bitmap_buffer.

(** The inode bitmap of group [bg] from [i] on: the number of the inode taken. *)
Fixpoint inode_bit_loop (fuel : nat) (bg descriptor bitmap_buffer i : Z) : E (option Z) :=
  match fuel with
  | O => spin
  | S fuel' =>
      per ← ld_fs fs_inodes_per_group;
      if decide (i < per) then
        if decide (bg = 0 /\ i < 2) then inode_bit_loop fuel' bg descriptor bitmap_buffer (i + 1) else
        used ← test_bit bitmap_buffer i;
        if (used : bool) then inode_bit_loop fuel' bg descriptor bitmap_buffer (i + 1) else
        take_inode descriptor bitmap_buffer i;;
        mret (Some (u32 (bg * per + i + 1)))
      else mret None
  end.

Fixpoint inode_group_loop (fuel : nat) (bg : Z) : E Z :=
  match fuel with
  | O => spin
  | S fuel' =>
      count ← ld_fs fs_block_group_count;
      if decide (bg < count) then
        fs ← gets ext4_fs_data;
        descriptor ← bgd_block fs bg;
        read_block descriptor bgd sizeof_Ext4BlockGroupDescriptor;;
        lo ← ld16 (bgd + bg_free_inodes_count_lo);
        hi ← ld16 (bgd + bg_free_inodes_count_hi);
        if decide (lo = 0 /\ hi = 0) then inode_group_loop fuel' (bg + 1) else
        bitmap_buffer ← allocate MAX_DIR_BUFFER_SIZE;
        if decide (bitmap_buffer = 0) then mret 0 else
        b ← ld32 (bgd + bg_inode_bitmap_lo);
        read_block b bitmap_buffer MAX_DIR_BUFFER_SIZE;;
        per ← ld_fs fs_inodes_per_group;
        r ← inode_bit_loop (S (Z.to_nat per)) bg descriptor bitmap_buffer 0;
        match r with
        | Some inode_num => mret inode_num
        | None => release bitmap_buffer;; inode_group_loop fuel' (bg + 1)
        end
      else mret 0
  end.

Definition ext4_allocate_inode : E Z :=
  fs ← gets ext4_fs_data;
  if decide (fs = 0) then mret 0 else
  n ← ld_sb sb_free_inodes_count;
  if decide (n <= 0) then mret 0 else
  count ← ld_fs fs_block_group_count;
  inode_group_loop (S (Z.to_nat count)) 0.

Definition ext4_free_inode (inode_num : Z) : E unit :=
  fs ← gets ext4_fs_data;
  if decide (fs = 0 \/ inode_num = 0) then mret tt else
  per ← ld_fs fs_inodes_per_group;
  group ← divide (u32 (inode_num - 1)) per;
  index ← modulo (u32 (inode_num - 1)) per;
  count ← ld_fs fs_block_group_count;
  if decide (group >= count) then mret tt else
  descriptor ← bgd_block fs group;
  read_block descriptor bgd sizeof_Ext4BlockGroupDescriptor;;
  bitmap_buffer ← allocate MAX_DIR_BUFFER_SIZE;
  if decide (bitmap_buffer = 0) then mret tt else
  b ← ld32 (bgd + bg_inode_bitmap_lo);
  read_block b bitmap_buffer MAX_DIR_BUFFER_SIZE;;
  used ← test_bit bitmap_buffer index;
  if negb (used : bool) then release bitmap_buffer else
  clear_bit bitmap_buffer index;;
  b ← ld32 (bgd + bg_inode_bitmap_lo);
  write_block b bitmap_buffer MAX_DIR_BUFFER_SIZE;;
  count_up (bgd + bg_free_inodes_count_lo) (bgd + bg_free_inodes_count_hi);;
  write_block descriptor bgd sizeof_Ext4BlockGroupDescriptor;;
  n ← ld_sb sb_free_inodes_count; st_sb sb_free_inodes_count (n + 1);;
  write_super_block;;
  release bitmap_buffer.

Definition take_block (descriptor bitmap_buffer i : Z) : E unit :=
  set_bit bitmap_buffer i;;
  b ← ld32 (bgd + bg_block_bitmap_lo);
  write_block b bitmap_buffer MAX_DIR_BUFFER_SIZE;;
  count_down (bgd + bg_free_blocks_count_lo) (bgd + bg_free_blocks_count_hi);;
  write_block descriptor bgd sizeof_Ext4BlockGroupDescriptor;;
  n ← ld_sb sb_free_blocks_count_lo; st_sb sb_free_blocks_count_lo (n - 1);;
  n ← ld_sb sb_free_blocks_count_lo; h ← ld_sb sb_free_blocks_count_hi;
  (if decide (n = 0xFFFF /\ h > 0) then st_sb sb_free_blocks_count_hi (h - 1) else mret tt);;
  write_super_block;;
  release bitmap_buffer.

Fixpoint block_bit_loop (fuel : nat) (bg descriptor bitmap_buffer i : Z) : E (option Z) :=
  match fuel with
  | O => spin
  | S fuel' =>
      per ← ld_fs fs_blocks_per_group;
      if decide (i < per) then
        let block_num := u32 (bg * per + i + 1) in
        first ← ld_sb sb_first_data_block;
        if decide (block_num <= first) then block_bit_loop fuel' bg descriptor bitmap_buffer (i + 1) else
        used ← test_bit bitmap_buffer i;
        if (used : bool) then block_bit_loop fuel' bg descriptor bitmap_buffer (i + 1) else
        take_block descriptor bitmap_buffer i;;
        mret (Some block_num)
      else mret None
  end.

Fixpoint block_group_loop (fuel : nat) (bg : Z) : E Z :=
  match fuel with
  | O => spin
  | S fuel' =>
      count ← ld_fs fs_block_group_count;
      if decide (bg < count) then
        fs ← gets ext4_fs_data;
        descriptor ← bgd_block fs bg;
        read_block descriptor bgd sizeof_Ext4BlockGroupDescriptor;;
        lo ← ld16 (bgd + bg_free_blocks_count_lo);
        hi ← ld16 (bgd + bg_free_blocks_count_hi);
        if decide (lo = 0 /\ hi = 0) then block_group_loop fuel' (bg + 1) else
        bitmap_buffer ← allocate MAX_DIR_BUFFER_SIZE;
        if decide (bitmap_buffer = 0) then mret 0 else
        b ← ld32 (bgd + bg_block_bitmap_lo);
        read_block b bitmap_buffer MAX_DIR_BUFFER_SIZE;;
        per ← ld_fs fs_blocks_per_group;
        r ← block_bit_loop (S (Z.to_nat per)) bg descriptor bitmap_buffer 0;
        match r with
        | Some block_num => mret block_num
        | None => release bitmap_buffer;; block_group_loop fuel' (bg + 1)
        end
      else mret 0
  end.

Definition ext4_allocate_block : E Z :=
  fs ← gets ext4_fs_data;
  if decide (fs = 0) then mret 0 else
  lo ← ld_sb sb_free_blocks_count_lo;
  hi ← ld_sb sb_free_blocks_count_hi;
  if decide (lo <= 0 /\ hi <= 0) then mret 0 else
  count ← ld_fs fs_block_group_count;
  block_group_loop (S (Z.to_nat count)) 0.

Definition ext4_free_block (block_num : Z) : E unit :=
  fs ← gets ext4_fs_data;
  if decide (fs = 0 \/ block_num = 0) then mret tt else
  per ← ld_fs fs_blocks_per_group;
  group ← divide (u32 (block_num - 1)) per;
  index ← modulo (u32 (block_num - 1)) per;
  count ← ld_fs fs_block_group_count;
  if decide (group >= count) then mret tt else
  first ← ld_sb sb_first_data_block;
  if decide (block_num <= first) then mret tt else
  descriptor ← bgd_block fs group;
  read_block descriptor bgd sizeof_Ext4BlockGroupDescriptor;;
  bitmap_buffer ← allocate MAX_DIR_BUFFER_SIZE;
  if decide (bitmap_buffer = 0) then mret tt else
  b ← ld32 (bgd + bg_block_bitmap_lo);
  read_block b bitmap_buffer MAX_DIR_BUFFER_SIZE;;
  used ← test_bit bitmap_buffer index;
  if negb (used : bool) then release bitmap_buffer else
  clear_bit bitmap_buffer index;;
  b ← ld32 (bgd + bg_block_bitmap_lo);
  write_block b bitmap_buffer MAX_DIR_BUFFER_SIZE;;
  count_up (bgd + bg_free_blocks_count_lo) (bgd + bg_free_blocks_count_hi);;
  write_block descriptor bgd sizeof_Ext4BlockGroupDescriptor;;
  n ← ld_sb sb_free_blocks_count_lo; st_sb sb_free_blocks_count_lo (n + 1);;
  n ← ld_sb sb_free_blocks_count_lo; h ← ld_sb sb_free_blocks_count_hi;
  (if decide (n = 0 /\ h > 0)
   then st_sb sb_free_blocks_count_hi (h - 1);; st_sb sb_free_blocks_count_lo 0xFFFF else mret tt);;
  write_super_block;;
  release bitmap_buffer.

(** ** Files *)

Fixpoint file_read_loop (n : nat) (inode_data fs_data block_size buf size start_block end_block start_offset block_buffer i bytes_read : Z) : E Z :=
  match n with
  | O => mret bytes_read
  | S n' =>
      if decide (i <= end_block /\ i < 12) then
        b ← ld32 (inode_data + in_block i);
        if decide (b = 0) then mret bytes_read else
        ext4_read_block fs_data b block_buffer MAX_DIR_BUFFER_SIZE;;
        let copy_size := if decide (i = end_block) then u32 (size - bytes_read)
                         else if decide (i = start_block) then u32 (block_size - start_offset) else block_size in
        let from := if decide (i = start_block) then start_offset else 0 in
        bounded (MAX_DIR_BUFFER_SIZE - from) copy_size (copy (buf + bytes_read) (block_buffer + from) copy_size);;
        file_read_loop n' inode_data fs_data block_size buf size start_block end_block start_offset block_buffer (i + 1) (u32 (bytes_read + copy_size))
      else mret bytes_read
  end.

(** [private_data] is taken for both structures. *)
Definition ext4_file_read (inode buf size offset : Z) : E Z :=
  if decide (inode = 0 \/ buf = 0) then mret 0 else
  i ← on_files (get_inode_at inode);
  let fs_data := private_data i in
  let ext4_inode := private_data i in
  file_size ← ld32 (ext4_inode + in_size_lo);
  if decide (offset >= file_size) then mret 0 else
  let size := if decide (u32 (offset + size) > file_size) then u32 (file_size - offset) else size in
  block_size ← ld32 (fs_data + fs_block_size);
  start_block ← divide offset block_size;
  end_block ← divide (u32 (offset + size - 1)) block_size;
  start_offset ← modulo offset block_size;
  block_buffer ← allocate MAX_DIR_BUFFER_SIZE;
  if decide (block_buffer = 0) then mret 0 else
  bytes_read ← file_read_loop 12 ext4_inode fs_data block_size buf size start_block end_block start_offset block_buffer start_block 0;
  release block_buffer;;
  mret bytes_read.

Definition ext4_file_write (inode buf size offset : Z) : E Z := mret 0.

Definition ext4_file_close (inode : Z) : E Z :=
  if decide (inode = 0) then mret 0 else
  i ← on_files (get_inode_at inode);
  (if decide (private_data i <> 0) then release (private_data i) else mret tt);;
  mret 0.

Definition ext4_file_open (inode flags : Z) : E Z :=
  fs ← gets ext4_fs_data;
  if decide (inode = 0 \/ fs = 0) then mret (-1) else
  i ← on_files (get_inode_at inode);
  ext4_inode ← ext4_read_inode fs (inode_num i);
  if decide (ext4_inode = 0) then mret (-1) else
  (if decide (Z.land flags O_TRUNC <> 0) then
     st32 (ext4_inode + in_size_lo) 0;;
     st32 (ext4_inode + in_size_high) 0;;
     st32 (ext4_inode + in_blocks_lo) 0;;
     st64 (ext4_inode + in_blocks) 0;;
     st32 (ext4_inode + in_mtime) current_time;;
     ext4_write_inode fs (inode_num i) ext4_inode
   else mret tt);;
  st32 (ext4_inode + in_atime) current_time;;
  ext4_write_inode fs (inode_num i) ext4_inode;;
  release ext4_inode;;
  mret 0.

(** ** Mounting *)

Definition ext4_mount (source target : option (list Z)) : E Z :=
  match source, target with
  | Some source, Some target =>
      fs ← gets ext4_fs_data;
      if decide (fs <> 0) then mret (-1) else
      fs ← allocate sizeof_Ext4FileSystemData;
      set_fs_data fs;;
      if decide (fs = 0) then mret (-1) else
      on_memory (store_bytes (padded 63 target) (fs + fs_mount_point));;
      st8 (fs + fs_mount_point + 63) 0;;
      n ← on_disk (gets num_block_devices);
      if decide (n > 0) then
        dev ← on_disk (active 0);
        st32 (fs + fs_device) dev;;
        ext4_read_super_block fs;;
        mret 0
      else release fs;; set_fs_data 0;; mret (-1)
  | _, _ => mret (-1)
  end.

Definition ext4_umount (target : option (list Z)) : E Z :=
  fs ← gets ext4_fs_data;
  match target with
  | Some target =>
      if decide (fs = 0) then mret (-1) else
      same ← on_memory (same_text (fs + fs_mount_point) target);
      if (same : bool) then release fs;; set_fs_data 0;; mret 0 else mret (-1)
  | None => mret (-1)
  end.

Definition ext4_get_filesystem : Z := ext4_filesystem.

(** ** Looking up *)

(** The path is not followed: "/" is a directory, everything else a new regular
    file. *)
Definition ext4_find_inode (path : option (list Z)) : E Z :=
  fs ← gets ext4_fs_data;
  match path with
  | Some path =>
      if decide (fs = 0) then mret 0 else
      '(components, num) ← on_files (vfs_parse_path (Some path));
      match components with
      | None => mret 0
      | Some _ =>
          let root := bool_decide (path = [47]) in
          current ← on_files (vfs_create_inode (if root then FILE_TYPE_DIRECTORY else FILE_TYPE_REGULAR) (if root then 493 else 420) 0);
          if decide (current = 0) then on_files (vfs_free_path_components components num);; mret 0 else
          ops ← allocate sizeof_FileOperations;
          if decide (ops = 0) then
            on_files (vfs_destroy_inode current);; on_files (vfs_free_path_components components num);; mret 0
          else
          clear ops sizeof_FileOperations;;
          (if root then
             st32 (ops + fo_opendir) (code Ext4_dir_opendir);;
             st32 (ops + fo_closedir) (code Ext4_dir_closedir);;
             st32 (ops + fo_readdir) (code Ext4_dir_readdir)
           else
             st32 (ops + fo_read) (code Ext4_file_read);;
             st32 (ops + fo_write) (code Ext4_file_write);;
             st32 (ops + fo_close) (code Ext4_file_close);;
             st32 (ops + fo_open) (code Ext4_file_open));;
          i ← on_files (get_inode_at current);
          on_files (put_inode_at current (mkInode (inode_num i) (i_type i) (permissions i) (i_size i) (blocks i) (i_ref_count i) ops));;
          on_files (vfs_free_path_components components num);;
          mret current
      end
  | None => mret 0
  end.

Definition ext4_get_inode (path : option (list Z)) : E Z :=
  fs ← gets ext4_fs_data;
  match path with
  | Some path =>
      if decide (fs = 0) then mret 0 else
      normalized ← on_files (vfs_normalize_path path [47]);
      match normalized with
      | None => mret 0
      | Some (a, text) => inode ← ext4_find_inode (Some text); release a;; mret inode
      end
  | None => mret 0
  end.

(** The other function pointers stay 0. *)
Definition ext4_init : E Z :=
  on_files (modify (fun f => mkVfs (file_descriptors f) (mount_points f) (registered_filesystems f) (next_inode_num f)
    (num_mount_points f) (num_filesystems f) (inodes f) (operations f)
    (<[ext4_filesystem := mkFS [101; 120; 116; 52] (code Ext4_mount) (code Ext4_umount) (code Ext4_get_inode) (code Ext4_mkdir)
        (code Ext4_rmdir) (code Ext4_remove)]> (filesystems f))));;
  r ← on_files (vfs_register_filesystem ext4_filesystem);
  if decide (r <> 0) then mret (-1) else mret 0.

(** for (i = 0; i < num - 1; i++) { "/" and components[i] appended } *)
Fixpoint join_loop (n : nat) (components : list str) (parent_path : list Z) : E (list Z) :=
  match n with
  | O => mret parent_path
  | S n' =>
      match components with
      | [] => fault
      | c :: components' =>
          let parent_path := parent_path ++ 47 :: snd c in
          if decide (PATH_MAX <= Z.of_nat (length parent_path)) then fault else join_loop n' components' parent_path
      end
  end.

(** The parent's path and the last component; [None]: no memory for the path. *)
Definition split_path (components : list str) (num : Z) : E (option (option str * option str)) :=
  if decide (num = 1) then
    c ← lift (deref (zget components 0));
    parent_path ← on_files (strdup [47]);
    name ← on_files (strdup (snd c));
    mret (Some (parent_path, name))
  else
    a ← allocate PATH_MAX;
    if decide (a = 0) then mret None else
    p ← join_loop (Z.to_nat (num - 1)) components [];
    let p := if decide (length p = 0%nat) then [47] else p in
    c ← lift (deref (zget components (num - 1)));
    name ← on_files (strdup (snd c));
    mret (Some (Some (a, p), name)).

(** ** Directories *)

Definition ext4_dir_opendir (inode : Z) : E Z :=
  fs ← gets ext4_fs_data;
  if decide (inode = 0 \/ fs = 0) then mret (-1) else
  i ← on_files (get_inode_at inode);
  if decide (i_type i <> FILE_TYPE_DIRECTORY) then mret (-1) else
  ext4_inode ← ext4_read_inode fs (inode_num i);
  if decide (ext4_inode = 0) then mret (-1) else
  iterator ← allocate sizeof_Ext4DirIterator;
  if decide (iterator = 0) then release ext4_inode;; mret (-1) else
  st32 (iterator + it_current_block) 0;;
  st32 (iterator + it_current_offset) 0;;
  st32 (iterator + it_block_buffer) 0;;
  (if decide (private_data i <> 0) then release (private_data i) else mret tt);;
  i ← on_files (get_inode_at inode);
  on_files (put_inode_at inode (mkInode (inode_num i) (i_type i) (permissions i) (i_size i) (blocks i) (i_ref_count i) ext4_inode));;
  st32 (ext4_inode + in_atime) current_time;;
  ext4_write_inode fs (inode_num i) ext4_inode;;
  mret 0.

Definition set_private_data (inode v : Z) : E unit :=
  i ← on_files (get_inode_at inode);
  on_files (put_inode_at inode (mkInode (inode_num i) (i_type i) (permissions i) (i_size i) (blocks i) (i_ref_count i) v)).

Definition ext4_dir_closedir (inode : Z) : E Z :=
  fs ← gets ext4_fs_data;
  if decide (inode = 0 \/ fs = 0) then mret (-1) else
  i ← on_files (get_inode_at inode);
  let iterator := private_data i in
  (if decide (iterator <> 0) then
     b ← ld32 (iterator + it_block_buffer);
     (if decide (b <> 0) then release b else mret tt);;
     release iterator;;
     set_private_data inode 0
   else mret tt);;
  mret 0.

Definition file_type_of (t : Z) : FileType :=
  if decide (t = 2) then FILE_TYPE_REGULAR else if decide (t = 1) then FILE_TYPE_DIRECTORY
  else if decide (t = 6) then FILE_TYPE_BLOCK_DEVICE else if decide (t = 3) then FILE_TYPE_CHAR_DEVICE
  else if decide (t = 12) then FILE_TYPE_SYMLINK else if decide (t = 13 \/ t = 14) then FILE_TYPE_PIPE else FILE_TYPE_REGULAR.

(** The entries of the current block; [None] at its end. *)
Fixpoint readdir_entry_loop (fuel : nat) (iterator block_size name name_len : Z) : E (option FileType) :=
  match fuel with
  | O => spin
  | S fuel' =>
      offset ← ld32 (iterator + it_current_offset);
      if decide (offset < block_size) then
        b ← ld32 (iterator + it_block_buffer);
        let entry := b + offset in
        rec_len ← ld16 (entry + de_rec_len);
        if decide (rec_len = 0) then mret None else
        ino ← ld32 (entry + de_inode);
        len ← ld8 (entry + de_name_len);
        if decide (ino <> 0 /\ len > 0) then
          on_memory (strncpy name (entry + de_name) (u32 (name_len - 1)));;
          st8 (name + name_len - 1) 0;;
          t ← ld8 (entry + de_file_type);
          st32 (iterator + it_current_offset) (offset + rec_len);;
          mret (Some (file_type_of t))
        else
          st32 (iterator + it_current_offset) (offset + rec_len);;
          readdir_entry_loop fuel' iterator block_size name name_len
      else mret None
  end.

Fixpoint readdir_block_loop (fuel : nat) (ext4_inode iterator block_size name name_len : Z) : E (option FileType) :=
  match fuel with
  | O => spin
  | S fuel' =>
      current ← ld32 (iterator + it_current_block);
      if decide (current < 12) then
        block_num ← ld32 (ext4_inode + in_block current);
        if decide (block_num = 0) then mret None else
        offset ← ld32 (iterator + it_current_offset);
        (if decide (offset = 0) then b ← ld32 (iterator + it_block_buffer); read_block block_num b MAX_DIR_BUFFER_SIZE else mret tt);;
        r ← readdir_entry_loop (S (Z.to_nat block_size)) iterator block_size name name_len;
        match r with
        | Some t => mret (Some t)
        | None =>
            current ← ld32 (iterator + it_current_block);
            st32 (iterator + it_current_block) (current + 1);;
            st32 (iterator + it_current_offset) 0;;
            readdir_block_loop fuel' ext4_inode iterator block_size name name_len
        end
      else mret None
  end.

(** The result and [*type]. *)
Definition ext4_dir_readdir (inode name name_len type : Z) : E (Z * option FileType) :=
  fs ← gets ext4_fs_data;
  if decide (inode = 0 \/ name = 0 \/ type = 0 \/ fs = 0) then mret (-1, None) else
  i ← on_files (get_inode_at inode);
  if decide (i_type i <> FILE_TYPE_DIRECTORY) then mret (-1, None) else
  let ext4_inode := private_data i in
  block_size ← ld_fs fs_block_size;
  iterator ← (if decide (private_data i = 0) then
                it ← allocate sizeof_Ext4DirIterator;
                if decide (it = 0) then mret 0 else
                st32 (it + it_current_block) 0;;
                st32 (it + it_current_offset) 0;;
                st32 (it + it_block_buffer) 0;;
                set_private_data inode it;;
                mret it
              else mret (private_data i));
  if decide (iterator = 0) then mret (-1, None) else
  b ← ld32 (iterator + it_block_buffer);
  ok ← (if decide (b = 0) then
          b ← allocate MAX_DIR_BUFFER_SIZE;
          st32 (iterator + it_block_buffer) b;;
          if decide (b = 0) then release iterator;; set_private_data inode 0;; mret false else mret true
        else mret true);
  if negb (ok : bool) then mret (-1, None) else
  r ← readdir_block_loop 13 ext4_inode iterator block_size name name_len;
  match r with
  | Some t => mret (0, Some t)
  | None =>
      b ← ld32 (iterator + it_block_buffer);
      release b;;
      release iterator;;
      set_private_data inode 0;;
      mret (-1, None)
  end.

(** The place of a new entry: a free one or the last. *)
Fixpoint slot_loop (fuel : nat) (block_buffer block_size offset : Z) : E Z :=
  match fuel with
  | O => spin
  | S fuel' =>
      if decide (offset < block_size) then
        ino ← ld32 (block_buffer + offset + de_inode);
        rec_len ← ld16 (block_buffer + offset + de_rec_len);
        if decide (ino = 0 \/ u32 (offset + rec_len) >= block_size) then mret offset
        else slot_loop fuel' block_buffer block_size (u32 (offset + rec_len))
      else mret offset
  end.

Definition dir_entry_type (type : FileType) : Z :=
  match type with
  | FILE_TYPE_REGULAR => 2 | FILE_TYPE_DIRECTORY => 1 | FILE_TYPE_BLOCK_DEVICE => 6 | FILE_TYPE_CHAR_DEVICE => 3
  | FILE_TYPE_SYMLINK => 12 | FILE_TYPE_PIPE => 13
  end.

Definition ext4_add_dir_entry (dir_inode : Z) (name : option str) (number : Z) (type : FileType) : E Z :=
  fs ← gets ext4_fs_data;
  match name with
  | Some (_, name) =>
      if decide (dir_inode = 0 \/ fs = 0) then mret (-1) else
      i ← on_files (get_inode_at dir_inode);
      if decide (i_type i <> FILE_TYPE_DIRECTORY) then mret (-1) else
      let ext4_dir_inode := private_data i in
      block_size ← ld_fs fs_block_size;
      block_buffer ← allocate MAX_DIR_BUFFER_SIZE;
      if decide (block_buffer = 0) then mret (-1) else
      b ← ld32 (ext4_dir_inode + in_block 0);
      ok ← (if decide (b <> 0) then read_block b block_buffer MAX_DIR_BUFFER_SIZE;; mret true else
              new_block ← ext4_allocate_block;
              if decide (new_block = 0) then release block_buffer;; mret false else
              st32 (ext4_dir_inode + in_block 0) new_block;;
              bounded MAX_DIR_BUFFER_SIZE block_size (clear block_buffer block_size);;
              fs ← gets ext4_fs_data;
              ext4_write_inode fs (inode_num i) ext4_dir_inode;;
              mret true);
      if negb (ok : bool) then mret (-1) else
      offset ← slot_loop (S (Z.to_nat block_size)) block_buffer block_size 0;
      let name_len := u8 (Z.of_nat (length name)) in
      let rec_len := u16 (Z.land (8 + name_len + 3) (Z.lnot 3)) in
      if decide (u32 (offset + rec_len) > block_size) then release block_buffer;; mret (-1) else
      let entry := block_buffer + offset in
      st32 (entry + de_inode) number;;
      st16 (entry + de_rec_len) rec_len;;
      st8 (entry + de_name_len) name_len;;
      st8 (entry + de_file_type) (dir_entry_type type);;
      on_memory (store_bytes (padded (Z.to_nat name_len) name) (entry + de_name));;
      b ← ld32 (ext4_dir_inode + in_block 0);
      write_block b block_buffer MAX_DIR_BUFFER_SIZE;;
      release block_buffer;;
      mret 0
  | None => mret (-1)
  end.

(** inode != 0 && name_len > 0 && strncmp(name, text, name_len) == 0 *)
Definition entry_matches (entry : Z) (text : option str) : E bool :=
  ino ← ld32 (entry + de_inode);
  len ← ld8 (entry + de_name_len);
  if decide (ino <> 0 /\ len > 0) then
    t ← lift (deref text); on_memory (same_start (Z.to_nat len) (entry + de_name) (snd t))
  else mret false.

(** Both removals: the entry is marked free; its inode number, 0 when there is none. *)
Fixpoint remove_entry_loop (fuel : nat) (block_buffer block_size offset : Z) (name : option str) : E Z :=
  match fuel with
  | O => spin
  | S fuel' =>
      if decide (offset < block_size) then
        let entry := block_buffer + offset in
        rec_len ← ld16 (entry + de_rec_len);
        if decide (rec_len = 0) then mret 0 else
        found ← entry_matches entry name;
        if (found : bool) then
          ino ← ld32 (entry + de_inode); st32 (entry + de_inode) 0;; mret ino
        else remove_entry_loop fuel' block_buffer block_size (u32 (offset + rec_len)) name
      else mret 0
  end.

Fixpoint count_entries_loop (fuel : nat) (block_buffer block_size offset entry_count : Z) : E Z :=
  match fuel with
  | O => spin
  | S fuel' =>
      if decide (offset < block_size) then
        let entry := block_buffer + offset in
        rec_len ← ld16 (entry + de_rec_len);
        if decide (rec_len = 0) then mret entry_count else
        ino ← ld32 (entry + de_inode);
        len ← ld8 (entry + de_name_len);
        count_entries_loop fuel' block_buffer block_size (u32 (offset + rec_len))
          (if decide (ino <> 0 /\ len > 0) then entry_count + 1 else entry_count)
      else mret entry_count
  end.

(** What is released on the way out of the operations on paths, in order. *)
Definition leave (objects inodes : list Z) (parent_path name : option str) : E unit :=
  foldr (fun a k => release a;; k) (mret tt) objects;;
  foldr (fun a k => on_files (vfs_destroy_inode a);; k) (mret tt) inodes;;
  release_str parent_path;;
  release_str name.

Definition now_modified (ext4_inode : Z) : E unit :=
  st32 (ext4_inode + in_ctime) current_time;; st32 (ext4_inode + in_mtime) current_time.

(** The part of [ext4_rmdir] from step 4 on, for a directory. *)
Definition rmdir_directory (parent_inode target_inode : Z) (parent_path dir_name : option str) : E Z :=
  fs ← gets ext4_fs_data;
  t ← on_files (get_inode_at target_inode);
  p ← on_files (get_inode_at parent_inode);
  target ← ext4_read_inode fs (inode_num t);
  if decide (target = 0) then leave [] [target_inode; parent_inode] parent_path dir_name;; mret (-1) else
  block_size ← ld_fs fs_block_size;
  block_buffer ← allocate MAX_DIR_BUFFER_SIZE;
  if decide (block_buffer = 0) then leave [target] [target_inode; parent_inode] parent_path dir_name;; mret (-1) else
  b ← ld32 (target + in_block 0);
  (if decide (b <> 0) then read_block b block_buffer MAX_DIR_BUFFER_SIZE else bounded MAX_DIR_BUFFER_SIZE block_size (clear block_buffer block_size));;
  entry_count ← count_entries_loop (S (Z.to_nat block_size)) block_buffer block_size 0 0;
  if decide (entry_count <> 2) then
    leave [block_buffer; target] [target_inode; parent_inode] parent_path dir_name;; mret (-1)
  else
  parent ← ext4_read_inode fs (inode_num p);
  if decide (parent = 0) then leave [block_buffer; target] [target_inode; parent_inode] parent_path dir_name;; mret (-1) else
  b ← ld32 (parent + in_block 0);
  (if decide (b <> 0) then read_block b block_buffer MAX_DIR_BUFFER_SIZE else mret tt);;
  found ← remove_entry_loop (S (Z.to_nat block_size)) block_buffer block_size 0 dir_name;
  if decide (found = 0) then
    leave [block_buffer; target; parent] [target_inode; parent_inode] parent_path dir_name;; mret (-1)
  else
  b ← ld32 (parent + in_block 0);
  write_block b block_buffer MAX_DIR_BUFFER_SIZE;;
  b ← ld32 (target + in_block 0);
  (if decide (b <> 0) then ext4_free_block b else mret tt);;
  ext4_free_inode (inode_num t);;
  n ← ld16 (parent + in_links_count); st16 (parent + in_links_count) (n - 1);;
  now_modified parent;;
  ext4_write_inode fs (inode_num p) parent;;
  ext4_write_super_block fs;;
  leave [block_buffer; target; parent] [target_inode; parent_inode] parent_path dir_name;;
  mret 0.

Definition ext4_rmdir (path : option (list Z)) : E Z :=
  fs ← gets ext4_fs_data;
  match path with
  | Some path =>
      if decide (fs = 0) then mret (-1) else
      '(components, num) ← on_files (vfs_parse_path (Some path));
      match components with
      | None => mret (-1)
      | Some (_, l) =>
          if decide (num <= 0) then mret (-1) else
          if decide (path = [47]) then on_files (vfs_free_path_components components num);; mret (-1) else
          r ← split_path l num;
          on_files (vfs_free_path_components components num);;
          match r with
          | None => mret (-1)
          | Some (parent_path, dir_name) =>
              parent_inode ← ext4_get_inode (snd <$> parent_path);
              if decide (parent_inode = 0) then leave [] [] parent_path dir_name;; mret (-1) else
              target_inode ← ext4_get_inode (Some path);
              if decide (target_inode = 0) then leave [] [parent_inode] parent_path dir_name;; mret (-1) else
              t ← on_files (get_inode_at target_inode);
              if decide (i_type t <> FILE_TYPE_DIRECTORY)
              then leave [] [target_inode; parent_inode] parent_path dir_name;; mret (-1)
              else rmdir_directory parent_inode target_inode parent_path dir_name
          end
      end
  | None => mret (-1)
  end.

Fixpoint free_blocks_loop (n : nat) (target i : Z) : E unit :=
  match n with
  | O => mret tt
  | S n' =>
      b ← ld32 (target + in_block i);
      (if decide (b <> 0) then ext4_free_block b else mret tt);;
      free_blocks_loop n' target (i + 1)
  end.

Definition ext4_remove (path : option (list Z)) : E Z :=
  fs ← gets ext4_fs_data;
  match path with
  | Some path =>
      if decide (fs = 0) then mret (-1) else
      '(components, num) ← on_files (vfs_parse_path (Some path));
      match components with
      | None => mret (-1)
      | Some (_, l) =>
          if decide (num <= 0) then mret (-1) else
          r ← split_path l num;
          on_files (vfs_free_path_components components num);;
          match r with
          | None => mret (-1)
          | Some (parent_path, file_name) =>
              parent_inode ← ext4_get_inode (snd <$> parent_path);
              if decide (parent_inode = 0) then leave [] [] parent_path file_name;; mret (-1) else
              block_size ← ld_fs fs_block_size;
              block_buffer ← allocate MAX_DIR_BUFFER_SIZE;
              if decide (block_buffer = 0) then leave [] [parent_inode] parent_path file_name;; mret (-1) else
              p ← on_files (get_inode_at parent_inode);
              parent ← ext4_read_inode fs (inode_num p);
              if decide (parent = 0) then leave [block_buffer] [parent_inode] parent_path file_name;; mret (-1) else
              b ← ld32 (parent + in_block 0);
              (if decide (b <> 0) then read_block b block_buffer MAX_DIR_BUFFER_SIZE else mret tt);;
              target_num ← remove_entry_loop (S (Z.to_nat block_size)) block_buffer block_size 0 file_name;
              (if decide (target_num <> 0) then
                 b ← ld32 (parent + in_block 0);
                 write_block b block_buffer MAX_DIR_BUFFER_SIZE;;
                 target ← ext4_read_inode fs target_num;
                 (if decide (target <> 0) then
                    free_blocks_loop 12 target 0;; ext4_free_inode target_num;; release target
                  else mret tt);;
                 now_modified parent;;
                 ext4_write_inode fs (inode_num p) parent;;
                 ext4_write_super_block fs
               else mret tt);;
              leave [block_buffer; parent] [parent_inode] parent_path file_name;;
              mret (if decide (target_num <> 0) then 0 else -1)
          end
      end
  | None => mret (-1)
  end.

(** Steps 5 and 6 of [ext4_mkdir]: the new inode and its block with the entries
    "." and ".."; [None] when memory ran out. *)
Definition new_directory (permissions new_inode_num data_block parent_num : Z) : E (option (Z * Z)) :=
  fs ← gets ext4_fs_data;
  new_inode ← allocate sizeof_Ext4Inode;
  if decide (new_inode = 0) then mret None else
  clear new_inode sizeof_Ext4Inode;;
  st16 (new_inode + in_mode) (Z.lor permissions S_IFDIR);;
  st16 (new_inode + in_uid) 0;;
  st16 (new_inode + in_gid) 0;;
  block_size ← ld_fs fs_block_size;
  st32 (new_inode + in_size_lo) block_size;;
  now_modified new_inode;;
  st32 (new_inode + in_atime) current_time;;
  st16 (new_inode + in_links_count) 2;;
  st32 (new_inode + in_blocks_lo) (block_size / 512);;
  st32 (new_inode + in_block 0) data_block;;
  ext4_write_inode fs new_inode_num new_inode;;
  block_buffer ← allocate MAX_DIR_BUFFER_SIZE;
  if decide (block_buffer = 0) then release new_inode;; mret None else
  block_size ← ld_fs fs_block_size;
  bounded MAX_DIR_BUFFER_SIZE block_size (clear block_buffer block_size);;
  st32 (block_buffer + de_inode) new_inode_num;;
  st16 (block_buffer + de_rec_len) 12;;
  st8 (block_buffer + de_name_len) 1;;
  st8 (block_buffer + de_file_type) 2;;
  on_memory (store_bytes [46; 0] (block_buffer + de_name));;
  let parent_entry := block_buffer + 12 in
  st32 (parent_entry + de_inode) parent_num;;
  block_size ← ld_fs fs_block_size;
  st16 (parent_entry + de_rec_len) (block_size - 12);;
  st8 (parent_entry + de_name_len) 2;;
  st8 (parent_entry + de_file_type) 2;;
  on_memory (store_bytes [46; 46; 0] (parent_entry + de_name));;
  write_block data_block block_buffer MAX_DIR_BUFFER_SIZE;;
  mret (Some (new_inode, block_buffer)).

Definition ext4_mkdir (path : option (list Z)) (permissions : Z) : E Z :=
  fs ← gets ext4_fs_data;
  match path with
  | Some path =>
      if decide (fs = 0) then mret (-1) else
      '(components, num) ← on_files (vfs_parse_path (Some path));
      match components with
      | None => mret (-1)
      | Some (_, l) =>
          if decide (num <= 0) then mret (-1) else
          if decide (path = [47]) then on_files (vfs_free_path_components components num);; mret (-1) else
          r ← split_path l num;
          on_files (vfs_free_path_components components num);;
          match r with
          | None => mret (-1)
          | Some (parent_path, dir_name) =>
              parent_inode ← ext4_get_inode (snd <$> parent_path);
              if decide (parent_inode = 0) then leave [] [] parent_path dir_name;; mret (-1) else
              new_inode_num ← ext4_allocate_inode;
              if decide (new_inode_num = 0) then leave [] [parent_inode] parent_path dir_name;; mret (-1) else
              data_block ← ext4_allocate_block;
              if decide (data_block = 0) then
                ext4_free_inode new_inode_num;; leave [] [parent_inode] parent_path dir_name;; mret (-1)
              else
              p ← on_files (get_inode_at parent_inode);
              d ← new_directory permissions new_inode_num data_block (inode_num p);
              match d with
              | None =>
                  ext4_free_block data_block;; ext4_free_inode new_inode_num;;
                  leave [] [parent_inode] parent_path dir_name;; mret (-1)
              | Some (new_inode, block_buffer) =>
                  result ← ext4_add_dir_entry parent_inode dir_name new_inode_num FILE_TYPE_DIRECTORY;
                  parent ← ext4_read_inode fs (inode_num p);
                  (if decide (parent <> 0) then
                     n ← ld16 (parent + in_links_count); st16 (parent + in_links_count) (n + 1);;
                     now_modified parent;;
                     ext4_write_inode fs (inode_num p) parent;;
                     release parent
                   else mret tt);;
                  n ← ld_sb sb_free_inodes_count; st_sb sb_free_inodes_count (n - 1);;
                  n ← ld_sb sb_free_blocks_count_lo; st_sb sb_free_blocks_count_lo (n - 1);;
                  write_super_block;;
                  leave [block_buffer; new_inode] [parent_inode] parent_path dir_name;;
                  mret (if decide (result < 0) then result else 0)
              end
          end
      end
  | None => mret (-1)
  end.
End ext4.
