(* ===== verification/Ext4Facts.v ===== *)
(** * ext4: what the operations do to the disk

    Words in memory, the transfer of blocks, and what becomes of the allocation of
    blocks and inodes in Ext4.v. The disk is seen byte by byte ([image]). *)
From S2P Require Import Prelude CString Ports Block Vfs Ext4.

(** ** Words in memory *)

Section words.
Implicit Types m : mem.

(** The number that [n] bytes hold, and the bytes of a number. *)
Fixpoint le_value (l : list Z) : Z := match l with [] => 0 | b :: l' => b + 256 * le_value l' end.
Fixpoint le_bytes (n : nat) (v : Z) : list Z := match n with O => [] | S n' => v mod 256 :: le_bytes n' (v / 256) end.

Lemma le_bytes_length n v : length (le_bytes n v) = n.
Proof. revert v. induction n as [|n IH]; intros v; cbn; [done|by rewrite IH]. Qed.

Lemma le_bytes_u8 n v : Forall is_u8 (le_bytes n v).
Proof. revert v. induction n as [|n IH]; intros v; cbn; constructor; [unfold is_u8; zdm|apply IH]. Qed.

Lemma le_value_bytes n : forall v, le_value (le_bytes n v) = v mod 256 ^ Z.of_nat n.
Proof.
  induction n as [|n IH]; intros v; cbn [le_bytes le_value]; [by rewrite Z.mod_1_r|].
  rewrite IH, Nat2Z.inj_succ, Z.pow_succ_r by lia. rewrite Z.rem_mul_r by lia. lia.
Qed.

(** The memory holds the [n]-byte number [v] at [p]. *)
Definition holds_word m (n : nat) (p v : Z) : Prop := load_le n p m = Ret (m, v).

Lemma load_le_run l : forall m p, bytes_at m p l -> holds_word m (length l) p (le_value l).
Proof.
  unfold holds_word. induction l as [|b l IH]; intros m p Hl; cbn [length load_le le_value]; [done|]. destruct Hl as [Hb Hl].
  rewrite (load_bind _ _ _ _ Hb). by rewrite (cmd_bind_eq _ _ _ _ _ (IH _ _ Hl)).
Qed.

Lemma holds_word_at m n : forall p v, holds_word m n p v -> exists l, length l = n /\ bytes_at m p l /\ le_value l = v.
Proof.
  unfold holds_word. induction n as [|n IH]; intros p v Hv; cbn [load_le] in Hv; [exists []; by injection Hv as <-|].
  apply cmd_bind_inv in Hv as (m1 & b & Hb & Hv). unfold load in Hb. rewrite gets_bind in Hb.
  destruct (m !! p) as [b'|] eqn:E; [|done]. injection Hb as <- <-.
  apply cmd_bind_inv in Hv as (m2 & r & Hr & Hv). injection Hv as -> <-.
  destruct (IH _ _ Hr) as (l & Hl & Hat & <-). exists (b' :: l). split; [cbn; lia|]. by split.
Qed.

Lemma holds_word_ext m m' n p v : (forall a, p <= a < p + Z.of_nat n -> m' !! a = m !! a) -> holds_word m n p v -> holds_word m' n p v.
Proof.
  intros Hext Hv. destruct (holds_word_at m n p v Hv) as (l & <- & Hat & <-). apply load_le_run. by eapply bytes_at_ext.
Qed.

Lemma holds_word_fun m n p v v' : holds_word m n p v -> holds_word m n p v' -> v = v'.
Proof. unfold holds_word. intros -> [=]. done. Qed.

Lemma store_le_run n : forall m p v, mapped m p (Z.of_nat n) -> store_le n p v m = Ret (mwrite m p (le_bytes n v), tt).
Proof.
  induction n as [|n IH]; intros m p v Hm; cbn [store_le le_bytes mwrite]; [done|].
  rewrite store_bind; [|apply Hm; lia|unfold is_u8; zdm]. apply IH. intros a Ha. apply (mapped_insert _ _ _ _ _ Hm). lia.
Qed.

Lemma holds_word_written m n p v : holds_word (mwrite m p (le_bytes n v)) n p (v mod 256 ^ Z.of_nat n).
Proof.
  rewrite <- le_value_bytes. rewrite <- (le_bytes_length n v) at 2. apply load_le_run, bytes_at_mwrite.
Qed.

Lemma store_bytes_run l : forall m p, Forall is_u8 l -> mapped m p (Z.of_nat (length l)) -> store_bytes l p m = Ret (mwrite m p l, tt).
Proof.
  induction l as [|b l IH]; intros m p Hl Hm; cbn [store_bytes mwrite length] in *; [done|]. apply Forall_cons in Hl as [Hb Hl].
  rewrite store_bind; [|apply Hm; lia|done]. apply IH; [done|]. intros a Ha. apply (mapped_insert _ _ _ _ _ Hm). lia.
Qed.

(** Bytes of the memory are bytes. *)
Definition all_u8 m : Prop := map_Forall (fun _ b => is_u8 b) m.

Lemma all_u8_mwrite m p l : all_u8 m -> Forall is_u8 l -> all_u8 (mwrite m p l).
Proof.
  revert m p. induction l as [|b l IH]; intros m p Hm Hl; cbn [mwrite]; [done|]. apply Forall_cons in Hl as [Hb Hl].
  apply IH; [|done]. by apply map_Forall_insert_2.
Qed.

Lemma bytes_at_u8 m p l : all_u8 m -> bytes_at m p l -> Forall is_u8 l.
Proof.
  intros Hm. revert p. induction l as [|b l IH]; intros p Hl; constructor; destruct Hl as [Hb Hl]; [by apply (Hm p)|by apply (IH (p + 1))].
Qed.

Lemma memset_loop_run n : forall m p i c, is_u8 c -> mapped m (p + i) (Z.of_nat n) -> memset_loop n p c i m = Ret (mwrite m (p + i) (replicate n c), tt).
Proof.
  induction n as [|n IH]; intros m p i c Hc Hm; cbn [memset_loop replicate mwrite]; [done|].
  rewrite store_bind; [|apply Hm; lia|done]. rewrite IH; [by rewrite Z.add_assoc|done|].
  intros a Ha. apply (mapped_insert _ _ _ _ _ Hm). lia.
Qed.

(** A copy between areas that do not overlap. *)
Lemma memcpy_area m dst src n : all_u8 m -> mapped m src n -> mapped m dst n -> 0 <= n -> dst + n <= src \/ src + n <= dst ->
  exists l, length l = Z.to_nat n /\ bytes_at m src l /\ memcpy dst src n m = Ret (mwrite m dst l, dst).
Proof.
  intros Hu Hs Hd Hn Hap. destruct (mapped_bytes m src n Hs) as (l & Hl & Hat). exists l. split; [done|]. split; [done|].
  assert (En : n = Z.of_nat (length l)) by lia. rewrite En. apply memcpy_spec; [done|by apply (bytes_at_u8 m src)| |lia]. by rewrite <- En.
Qed.
End words.

(** ** Sectors and bytes *)

Lemma split_u8 ws : Forall is_u8 (split_words ws).
Proof. induction ws as [|w ws IH]; cbn [split_words]; repeat constructor; try apply low_byte. done. Qed.

Lemma disk_byte_u8 d k : is_u8 (disk_byte d k).
Proof.
  unfold disk_byte. destruct (sector_bytes d (k / 512) !! Z.to_nat (k mod 512)) as [b|] eqn:E; cbn [default]; [|unfold is_u8; lia].
  apply (proj1 (Forall_lookup _ _) (split_u8 _) _ _ E).
Qed.

(** Writing one sector changes its bytes. *)
Lemma disk_byte_written d d' n l k : sectors d' = <[n := join_words l]> (sectors d) -> length l = 512%nat -> Forall is_u8 l ->
  disk_byte d' k = if decide (512 * n <= k < 512 * n + 512) then default 0 (l !! Z.to_nat (k - 512 * n)) else disk_byte d k.
Proof.
  intros E Hl Hu. unfold disk_byte, sector_bytes, content. rewrite E. destruct (decide (512 * n <= k < 512 * n + 512)) as [Hk|Hk].
  - replace (k / 512) with n by zdm. rewrite lookup_insert_eq. cbn [from_option id]. rewrite (split_join 256) by done.
    by replace (k mod 512) with (k - 512 * n) by zdm.
  - rewrite lookup_insert_ne by zdm. done.
Qed.

(** ** Transfer of blocks *)

Section ext4.
Context `{HA : AtaDrive W, Patience, Vfs.Env, Placement}.
Implicit Types s : estate W.

Definition memory s : mem := bytes (disk s).
Definition image s (k : Z) : Z := disk_byte (drv (hw (disk s))) k.
(** The state with another memory and other hardware. *)
Definition after (m : mem) (h : W) s : estate W := mkE (with_hw h (with_bytes m (disk s))) (files s) (ext4_fs_data s).
Definition with_memory (m : mem) s : estate W := mkE (with_bytes m (disk s)) (files s) (ext4_fs_data s).

Lemma memory_cmd_run {A} (c : cmd mem A) s m a : c (memory s) = Ret (m, a) -> on_memory c s = Ret (with_memory m s, a).
Proof. intros E. unfold on_memory, on_disk, on_bytes. fold (memory s). by rewrite E. Qed.

Lemma on_memory_bind {A B} (c : cmd mem A) (k : A -> cmd (estate W) B) s m a : c (memory s) = Ret (m, a) ->
  (x ← on_memory c; k x) s = k a (with_memory m s).
Proof. intros E. by rewrite (cmd_bind_eq _ _ _ _ _ (memory_cmd_run c s m a E)). Qed.

Lemma with_memory_id s : with_memory (memory s) s = s.
Proof. destruct s as [b f a]. by destruct b. Qed.

Lemma ld_bind {B} n p v (k : Z -> cmd (estate W) B) s : holds_word (memory s) n p v -> (x ← on_memory (load_le n p); k x) s = k v s.
Proof. intros E. rewrite (on_memory_bind _ _ _ _ _ E). by rewrite with_memory_id. Qed.

(** A file system in memory at [fs], on the disk [d], with blocks of [bs] bytes. *)
Record fs_ready s (fs dev : Z) (d : BlockDevice) (bs : Z) : Prop := {
  fr_ready : ide_ready (disk s) dev d;
  fr_u8 : all_u8 (memory s);
  fr_data : ext4_fs_data s = fs;
  fr_device : holds_word (memory s) 4 (fs + fs_device) dev;
  fr_block_size : holds_word (memory s) 4 (fs + fs_block_size) bs
}.

(** An area that a transfer may fill: off the two fields it needs. *)
Definition off_fields (fs p n : Z) : Prop :=
  (p + n <= fs \/ fs + 4 <= p) /\ (p + n <= fs + fs_block_size \/ fs + fs_block_size + 4 <= p).

Lemma fs_ready_after s fs dev d bs m h : fs_ready s fs dev d bs -> ide_ready (disk (after m h s)) dev d -> all_u8 m ->
  (forall a, fs <= a < fs + 4 \/ fs + fs_block_size <= a < fs + fs_block_size + 4 -> m !! a = memory s !! a) -> fs_ready (after m h s) fs dev d bs.
Proof.
  intros [_ Hu Hf Hd Hb] Hr Hm Hext. constructor; try done.
  - eapply holds_word_ext; [|exact Hd]. intros a Ha. apply Hext. unfold fs_device in Ha. lia.
  - eapply holds_word_ext; [|exact Hb]. intros a Ha. apply Hext. lia.
Qed.

(** The bytes of an object alone. *)
Definition object_only (m : mem) (p room : Z) : mem := filter (fun cell => p <= fst cell < p + room) m.

Lemma lookup_object m p room a : object_only m p room !! a = if decide (p <= a < p + room) then m !! a else None.
Proof.
  unfold object_only. rewrite map_lookup_filter. destruct (m !! a) as [x|]; cbn; [|by case_decide].
  destruct (decide (p <= a < p + room)) as [Hin|Hin]; [by rewrite option_guard_True|by rewrite option_guard_False].
Qed.

Lemma object_union m p room l : Z.of_nat (length l) <= room -> mwrite (object_only m p room) p l ∪ m = mwrite m p l.
Proof.
  intros Hl. apply map_eq. intros a. rewrite lookup_union, !lookup_mwrite, lookup_object.
  destruct (decide (p <= a < p + Z.of_nat (length l))) as [Hin|Hin].
  - destruct (lookup_lt_is_Some_2 l (Z.to_nat (a - p))) as [x ->]; [lia|]. by destruct (m !! a).
  - destruct (decide (p <= a < p + room)); destruct (m !! a); done.
Qed.

Lemma object_self m p room : object_only m p room ∪ m = m.
Proof. pose proof (object_union m p (Z.max 0 room) []) as H0'. apply map_eq. intros a. rewrite lookup_union, lookup_object. case_decide; by destruct (m !! a). Qed.

Section transfer.
Context (fs dev bs : Z) (d : BlockDevice).

Lemma device_bind (get : BlockDevice -> option block_fn) s sec p room : available (disk s) dev d -> holds_word (memory s) 4 (fs + fs_device) dev ->
  (a ← ld32 (fs + fs_device); d ← on_disk (get_device a); on_disk (in_object p room (call_block (get d) sec p))) s =
  on_disk (in_object p room (call_block (get d) sec p)) s.
Proof.
  intros (_ & Hdev & _) Hd. unfold ld32. rewrite (ld_bind _ _ _ _ _ Hd).
  rewrite (cmd_bind_eq _ _ s s d); [done|]. unfold on_disk, get_device. rewrite gets_bind, Hdev. by destruct s.
Qed.

Lemma device_read_run s sec p room : fs_ready s fs dev d bs -> 0 <= sec < 2 ^ 28 -> mapped (memory s) p 512 -> 512 <= room -> off_fields fs p 512 ->
  exists h, let m := mwrite (memory s) p (sector_bytes (drv (hw (disk s))) sec) in
    device_read fs sec p room s = Ret (after m h s, tt) /\ sectors (drv h) = sectors (drv (hw (disk s))) /\ fs_ready (after m h s) fs dev d bs.
Proof.
  intros Hok Hsec Hmap Hroom [Ho1 Ho2]. pose proof Hok as [[Hav Hc Hr Hw Hq Hf Hl Hp] Hu _ Hd _].
  destruct (ide_read_sector_run (with_bytes (object_only (memory s) p room) (disk s)) dev d sec p Hav Hq Hsec Hf Hl) as (h & Hrun & Hsame & Hq').
  { intros a Ha. cbn [bytes with_bytes]. rewrite lookup_object, decide_True by lia. by apply Hmap. }
  exists h. cbn zeta. cbn [hw bytes with_bytes] in *. fold (sector_bytes (drv (hw (disk s))) sec) in Hrun.
  destruct (sector_bytes_ok (drv (hw (disk s))) sec Hf) as [Hlen Hu8]. split; [|split; [apply Hsame|]].
  - unfold device_read. rewrite (device_bind bd_read) by done. rewrite Hr. unfold on_disk, in_object. cbn [call_block].
    fold (memory s). fold (object_only (memory s) p room). rewrite Hrun. cbn [bytes with_hw with_bytes]. by rewrite object_union by lia.
  - apply fs_ready_after; try done.
    + by apply (ide_ready_same (disk s) dev d h); [apply Hok|..].
    + by apply all_u8_mwrite.
    + intros a Ha. apply mwrite_outside. rewrite Hlen. lia.
Qed.

(** An object that ends before the sector does. *)
Lemma device_read_overrun s sec p room : fs_ready s fs dev d bs -> 0 <= sec < 2 ^ 28 -> 0 <= room < 512 -> device_read fs sec p room s = Fault.
Proof.
  intros Hok Hsec Hroom. pose proof Hok as [[Hav Hc Hr Hw Hq Hf Hl Hp] _ _ Hd _].
  unfold device_read. rewrite (device_bind bd_read) by done. rewrite Hr. unfold on_disk, in_object. cbn [call_block].
  fold (memory s). fold (object_only (memory s) p room).
  rewrite (ide_read_sector_fault (with_bytes (object_only (memory s) p room) (disk s)) dev d sec p); try done.
  exists (p + room). split; [lia|]. cbn [bytes with_bytes]. rewrite lookup_object. by rewrite decide_False by lia.
Qed.

Lemma device_write_stored s sec p room l : fs_ready s fs dev d bs -> 0 <= sec < 2 ^ 28 -> bytes_at (memory s) p l -> length l = 512%nat -> 512 <= room ->
  exists h, device_write fs sec p room s = Ret (after (memory s) h s, tt) /\ sector_stored sec (join_words l) (drv (hw (disk s))) (drv h).
Proof.
  intros Hok Hsec Hat Hlen Hroom. pose proof Hok as [[Hav Hc Hr Hw Hq Hf Hl Hp] Hu _ Hd _].
  pose proof (bytes_at_u8 _ _ _ Hu Hat) as Hu8.
  destruct (ide_write_sector_run (with_bytes (object_only (memory s) p room) (disk s)) dev d sec p l Hav Hq Hsec Hp) as (h & Hrun & Hst); try done.
  { revert Hat. apply bytes_at_ext. intros a Ha. cbn [bytes with_bytes]. by rewrite lookup_object, decide_True by lia. }
  exists h. cbn [hw with_bytes] in *. split; [|done].
  unfold device_write. rewrite (device_bind bd_write) by done. rewrite Hw. unfold on_disk, in_object. cbn [call_block].
  fold (memory s). fold (object_only (memory s) p room). rewrite Hrun. cbn [bytes with_hw with_bytes]. rewrite object_self.
  destruct s as [b f a]. by destruct b.
Qed.

(** A drive that has stored the sector at once. *)
Definition at_once s : Prop := settle (drv (hw (disk s))) = 0%nat.

Lemma device_write_run s sec p room l : fs_ready s fs dev d bs -> at_once s -> 0 <= sec < 2 ^ 28 -> bytes_at (memory s) p l -> length l = 512%nat -> 512 <= room ->
  exists h, device_write fs sec p room s = Ret (after (memory s) h s, tt) /\
    sectors (drv h) = <[sec := join_words l]> (sectors (drv (hw (disk s)))) /\ fs_ready (after (memory s) h s) fs dev d bs /\ at_once (after (memory s) h s).
Proof.
  intros Hok Hset Hsec Hat Hlen Hroom. pose proof Hok as [[Hav Hc Hr Hw Hq Hf Hl Hp] Hu _ Hd _].
  pose proof (bytes_at_u8 _ _ _ Hu Hat) as Hu8.
  destruct (device_write_stored s sec p room l Hok Hsec Hat Hlen Hroom) as (h & Hrun & Hst). exists h. split; [done|].
  pose proof Hst as (Hs & Ht & Hx & Hm & Hb). split; [done|]. split; [|unfold at_once; cbn [disk after hw with_hw]; by rewrite Hx].
  apply fs_ready_after; try done.
  pose proof (stored_formatted sec l _ _ Hf Hst Hlen Hu8) as Hf'. rewrite Hset in Hb.
  constructor; try done; cbn [disk after hw with_hw]; by rewrite Ht.
Qed.

(** A drive that needs six more accesses misses the next sector. *)
Lemma device_write_busy s sec p room : available (disk s) dev d -> holds_word (memory s) 4 (fs + fs_device) dev -> bd_write d = Some Ide_write_sector ->
  mode (drv (hw (disk s))) = Idle -> (6 <= busy (drv (hw (disk s))))%nat -> device_write fs sec p room s = Spin.
Proof.
  intros Hav Hd Hw Hm Hb. unfold device_write. rewrite (device_bind bd_write) by done. rewrite Hw. unfold on_disk, in_object. cbn [call_block].
  by rewrite (write_to_busy _ dev d).
Qed.

Context (Hbs : 0 < bs /\ bs mod 512 = 0 /\ bs < 2 ^ 32).

Lemma sectors_of_block b i : 0 <= b -> b * bs + bs <= 2 ^ 32 -> 0 <= i < bs / 512 ->
  u32 (u32 (b * bs) / 512 + i) = b * bs / 512 + i /\ 0 <= b * bs / 512 + i < 2 ^ 28 /\ 512 * (b * bs / 512 + i) = b * bs + 512 * i /\
  512 * i + 512 <= bs.
Proof.
  intros Hb Hmax Hi. destruct Hbs as (Hpos & Hmod & Hlt). rewrite (u32_small (b * bs)) by (unfold is_u32; nia).
  assert (E : bs = 512 * (bs / 512)) by (clear -Hmod; zdm). assert (Em : b * bs = 512 * (b * (bs / 512))) by nia.
  assert (Ed : b * bs / 512 = b * (bs / 512)) by (rewrite Em, Z.mul_comm; apply Z.div_mul; lia).
  rewrite Ed. rewrite u32_small by (unfold is_u32; nia). split; [done|]. split; [nia|]. split; nia.
Qed.

(** What a read leaves in memory. *)
Definition filled s (m : mem) (p from to b : Z) : Prop :=
  forall a, m !! a = if decide (p + from <= a < p + to) then Some (image s (b * bs + (a - p))) else memory s !! a.

Lemma read_loop_run b p room n : bs <= room -> forall s i, fs_ready s fs dev d bs -> 0 <= b -> b * bs + bs <= 2 ^ 32 -> 0 <= i -> i + Z.of_nat n = bs / 512 ->
  mapped (memory s) p bs -> off_fields fs p bs ->
  exists m h, sector_loop (S n) (device_read fs) fs (u32 (b * bs) / 512) p room i s = Ret (after m h s, tt) /\
    filled s m p (512 * i) bs b /\ sectors (drv h) = sectors (drv (hw (disk s))) /\ fs_ready (after m h s) fs dev d bs.
Proof.
  intros Hroom. induction n as [|n IH]; intros s i Hok Hb Hmax Hi Hn Hmap Hoff; cbn [sector_loop]; unfold ld32;
    rewrite (ld_bind _ _ _ _ _ (fr_block_size _ _ _ _ _ Hok)); unfold BLOCK_SIZE.
  - rewrite decide_False by lia. exists (memory s), (hw (disk s)). destruct s as [bb f a0]. destruct bb. split; [done|].
    split; [|split; [done|exact Hok]]. intros a. rewrite decide_False; [done|]. destruct Hbs as (_ & Hm & _). zdm.
  - destruct (sectors_of_block b i Hb Hmax ltac:(lia)) as (Esec & Hsec & Ebyte & Hle). rewrite decide_True by lia. rewrite Esec.
    pose proof Hok as [[_ _ _ _ _ Hform _ _] Hu _ _ _].
    destruct (sector_bytes_ok (drv (hw (disk s))) (b * bs / 512 + i) Hform) as [Hlen _].
    destruct (device_read_run s (b * bs / 512 + i) (p + i * 512) (room - i * 512) Hok Hsec) as (h1 & Hrun1 & Hs1 & Hok1).
    { intros a Ha. apply Hmap. lia. }
    { lia. }
    { destruct Hoff as [Ho1 Ho2]. split; lia. }
    cbn zeta in Hrun1, Hok1. rewrite (cmd_bind_eq _ _ _ _ _ Hrun1). set (m1 := mwrite _ _ _) in *.
    destruct (IH (after m1 h1 s) (i + 1)) as (m2 & h2 & Hrun2 & Hfill2 & Hs2 & Hok2); try done; [lia|lia| |].
    { cbn [memory disk after bytes with_hw with_bytes]. by apply mapped_mwrite. }
    exists m2, h2. split; [exact Hrun2|]. split; [|split; [by rewrite Hs2|exact Hok2]]. intros a. rewrite Hfill2.
    unfold image. cbn [disk after hw with_hw memory bytes with_bytes]. rewrite (disk_byte_sectors _ _ _ Hs1).
    destruct (decide (p + 512 * (i + 1) <= a < p + bs)); [by rewrite decide_True by lia|].
    unfold m1. rewrite lookup_mwrite, Hlen. destruct (decide (p + i * 512 <= a < p + i * 512 + Z.of_nat 512)).
    + rewrite (decide_True (P := p + 512 * i <= a < p + bs)) by lia. rewrite disk_byte_in by (done || lia). do 2 f_equal. lia.
    + by rewrite decide_False by lia.
Qed.

(** A block is read into the [bs] bytes at [p] and nowhere else. *)
Lemma read_block_run s b p room : fs_ready s fs dev d bs -> 0 <= b -> b * bs + bs <= 2 ^ 32 -> mapped (memory s) p bs -> bs <= room -> off_fields fs p bs ->
  exists m h, ext4_read_block fs b p room s = Ret (after m h s, tt) /\ filled s m p 0 bs b /\
    sectors (drv h) = sectors (drv (hw (disk s))) /\ fs_ready (after m h s) fs dev d bs.
Proof.
  intros Hok Hb Hmax Hmap Hroom Hoff. unfold ext4_read_block, ld32. rewrite (ld_bind _ _ _ _ _ (fr_block_size _ _ _ _ _ Hok)). unfold sector_fuel, BLOCK_SIZE.
  assert (0 <= bs / 512) by (destruct Hbs; zdm). by apply read_loop_run; [..|lia|lia| |].
Qed.

(** A block into an object that is too short for its first sector. *)
Lemma read_block_overrun s b p room : fs_ready s fs dev d bs -> 0 <= b -> b * bs + bs <= 2 ^ 32 -> 0 <= room < 512 ->
  ext4_read_block fs b p room s = Fault.
Proof.
  intros Hok Hb Hmax Hroom. unfold ext4_read_block, ld32. rewrite (ld_bind _ _ _ _ _ (fr_block_size _ _ _ _ _ Hok)).
  unfold sector_fuel, BLOCK_SIZE. cbn [sector_loop]. unfold ld32. rewrite (ld_bind _ _ _ _ _ (fr_block_size _ _ _ _ _ Hok)).
  assert (Hpos : 0 < bs / 512) by (destruct Hbs; zdm). unfold BLOCK_SIZE. rewrite decide_True by lia.
  destruct (sectors_of_block b 0 Hb Hmax ltac:(lia)) as (Esec & Hsec & _). rewrite Esec.
  pose proof (device_read_overrun s (b * bs / 512 + 0) (p + 0 * 512) (room - 0 * 512) Hok Hsec ltac:(lia)) as Hf.
  unfold mbind, cmd_mbind. by rewrite Hf.
Qed.

(** What a write leaves on the disk. *)
Definition stored s (h : W) (p from to b : Z) : Prop :=
  forall k, disk_byte (drv h) k = if decide (b * bs + from <= k < b * bs + to) then default 0 (memory s !! (p + (k - b * bs))) else image s k.

Lemma write_loop_run b p room n : bs <= room -> forall s i, fs_ready s fs dev d bs -> at_once s -> 0 <= b -> b * bs + bs <= 2 ^ 32 -> 0 <= i -> i + Z.of_nat n = bs / 512 ->
  mapped (memory s) p bs ->
  exists h, sector_loop (S n) (device_write fs) fs (u32 (b * bs) / 512) p room i s = Ret (after (memory s) h s, tt) /\
    stored s h p (512 * i) bs b /\ fs_ready (after (memory s) h s) fs dev d bs.
Proof.
  intros Hroom. induction n as [|n IH]; intros s i Hok Hset Hb Hmax Hi Hn Hmap; cbn [sector_loop]; unfold ld32;
    rewrite (ld_bind _ _ _ _ _ (fr_block_size _ _ _ _ _ Hok)); unfold BLOCK_SIZE.
  - rewrite decide_False by lia. exists (hw (disk s)). destruct s as [bb f a0]. destruct bb. split; [done|].
    split; [|exact Hok]. intros k. rewrite decide_False; [done|]. destruct Hbs as (_ & Hm & _). zdm.
  - destruct (sectors_of_block b i Hb Hmax ltac:(lia)) as (Esec & Hsec & Ebyte & Hle). rewrite decide_True by lia. rewrite Esec.
    destruct (mapped_bytes (memory s) (p + i * 512) 512) as (l & Hlen & Hat); [intros a Ha; apply Hmap; lia|].
    destruct (device_write_run s (b * bs / 512 + i) (p + i * 512) (room - i * 512) l Hok Hset Hsec Hat Hlen ltac:(lia)) as (h1 & Hrun1 & Hs1 & Hok1 & Hset1).
    rewrite (cmd_bind_eq _ _ _ _ _ Hrun1).
    destruct (IH (after (memory s) h1 s) (i + 1)) as (h2 & Hrun2 & Hst2 & Hok2); try done; [lia|lia|].
    exists h2. split; [exact Hrun2|]. split; [|exact Hok2]. intros k. rewrite Hst2. unfold image. cbn [disk after hw with_hw memory bytes with_bytes].
    destruct (decide (b * bs + 512 * (i + 1) <= k < b * bs + bs)); [by rewrite decide_True by lia|].
    rewrite (disk_byte_written _ _ _ l k Hs1 Hlen) by by apply (bytes_at_u8 _ _ _ (fr_u8 _ _ _ _ _ Hok) Hat). rewrite Ebyte.
    destruct (decide (b * bs + 512 * i <= k < b * bs + 512 * i + 512)).
    + rewrite (decide_True (P := b * bs + 512 * i <= k < b * bs + bs)) by lia.
      destruct (lookup_lt_is_Some_2 l (Z.to_nat (k - (b * bs + 512 * i)))) as [v Hv]; [lia|]. rewrite Hv.
      rewrite <- (bytes_at_lookup _ _ _ _ _ Hat Hv). do 2 f_equal. lia.
    + by rewrite decide_False by lia.
Qed.

Lemma write_block_run s b p room : fs_ready s fs dev d bs -> at_once s -> 0 <= b -> b * bs + bs <= 2 ^ 32 -> mapped (memory s) p bs -> bs <= room ->
  exists h, ext4_write_block fs b p room s = Ret (after (memory s) h s, tt) /\ stored s h p 0 bs b /\ fs_ready (after (memory s) h s) fs dev d bs.
Proof.
  intros Hok Hset Hb Hmax Hmap Hroom. unfold ext4_write_block, ld32. rewrite (ld_bind _ _ _ _ _ (fr_block_size _ _ _ _ _ Hok)). unfold sector_fuel, BLOCK_SIZE.
  assert (0 <= bs / 512) by (destruct Hbs; zdm). by apply write_loop_run; [..|lia|lia|].
Qed.
(** The second sector of a block on a slow drive. *)
Lemma write_block_hangs s b p room : fs_ready s fs dev d bs -> (6 <= settle (drv (hw (disk s))))%nat -> 1024 <= bs -> 0 <= b -> b * bs + bs <= 2 ^ 32 ->
  mapped (memory s) p bs -> bs <= room -> ext4_write_block fs b p room s = Spin.
Proof.
  intros Hok Hset Hbig Hb Hmax Hmap Hroom. pose proof Hok as [[Hav Hc Hr Hw Hq Hf Hl Hp] Hu _ Hd Hbw].
  unfold ext4_write_block, ld32. rewrite (ld_bind _ _ _ _ _ Hbw). unfold sector_fuel, BLOCK_SIZE.
  assert (Hn : 2 <= bs / 512) by zdm. destruct (Z.to_nat (bs / 512)) as [|n] eqn:En; [lia|]. cbn [sector_loop]. unfold ld32.
  rewrite (ld_bind _ _ _ _ _ Hbw). unfold BLOCK_SIZE. rewrite decide_True by lia.
  destruct (sectors_of_block b 0 Hb Hmax ltac:(lia)) as (Esec & Hsec & _). rewrite Esec.
  destruct (mapped_bytes (memory s) (p + 0 * 512) 512) as (l & Hlen & Hat); [intros a Ha; apply Hmap; lia|].
  destruct (device_write_stored s (b * bs / 512 + 0) (p + 0 * 512) (room - 0 * 512) l Hok Hsec Hat Hlen ltac:(lia)) as (h & Hrun & Hst).
  rewrite (cmd_bind_eq _ _ _ _ _ Hrun). destruct Hst as (_ & _ & _ & Hm & Hbusy). destruct n as [|n]; [lia|]. cbn [sector_loop]. unfold ld32.
  rewrite (ld_bind _ _ _ _ _ (Hbw : holds_word (memory (after (memory s) h s)) 4 (fs + fs_block_size) bs)). rewrite decide_True by lia.
  unfold mbind, cmd_mbind. rewrite device_write_busy; try done. cbn [disk after hw with_hw]. by rewrite Hbusy.
Qed.
End transfer.
End ext4.

(** ** Memory that may be written *)

(** [present] are the addresses of the memory. *)
Definition area (present : Z -> Prop) (p n : Z) : Prop := forall a, p <= a < p + n -> present a.

Section present.
Context (present : Z -> Prop).

(** All of the memory is there and holds bytes. *)
Definition complete (m : mem) : Prop := all_u8 m /\ forall a, present a -> is_Some (m !! a).

Lemma mapped_area m p n : complete m -> area present p n -> mapped m p n.
Proof. intros [_ Hm] Ha a Hin. by apply Hm, Ha. Qed.

Lemma complete_mwrite m p l : complete m -> Forall is_u8 l -> complete (mwrite m p l).
Proof.
  intros [Hu Hm] Hl. split; [by apply all_u8_mwrite|]. intros a Ha. rewrite lookup_mwrite. case_decide; [|by apply Hm].
  apply lookup_lt_is_Some_2. lia.
Qed.
End present.

(** ** Blocks *)

Section blocks.
Context `{HA : AtaDrive W, Patience, Vfs.Env, Placement}.
Implicit Types s : estate W.

(** The block sizes that the transfer is made for, and the blocks of them. *)
Definition block_size_ok (bs : Z) : Prop := 0 < bs /\ bs mod 512 = 0 /\ bs < 2 ^ 32.
Definition block_ok (bs b : Z) : Prop := 0 <= b /\ b * bs + bs <= 2 ^ 32.

(** C31. Writing and reading a block. On a drive that has stored a sector by the
    next access ([at_once]), what ext4_write_block stores at a block, ext4_read_block
    brings back, whatever the block size, from and into objects that hold a block
    ([room]): all the bytes of the block at [p] are then at [q], and no other byte of
    the disk or of the memory has changed. The driver does not wait for BSY before a
    command: on a drive that stays busy for six accesses, and with blocks of 1024
    bytes and more, ext4_write_block loses the command for the second sector of the
    block and never returns. *)
Theorem ext4_block_roundtrip s fs dev d bs b p q room_p room_q : fs_ready s fs dev d bs -> block_size_ok bs -> block_ok bs b ->
  mapped (memory s) p bs -> mapped (memory s) q bs -> bs <= room_p -> bs <= room_q -> off_fields fs q bs ->
  (at_once s -> exists s1 s2, ext4_write_block fs b p room_p s = Ret (s1, tt) /\ ext4_read_block fs b q room_q s1 = Ret (s2, tt) /\
    memory s1 = memory s /\
    (forall k, image s2 k = if decide (b * bs <= k < b * bs + bs) then default 0 (memory s !! (p + (k - b * bs))) else image s k) /\
    (forall a, memory s2 !! a = memory s !! (if decide (q <= a < q + bs) then p + (a - q) else a))) /\
  ((6 <= settle (drv (hw (disk s))))%nat -> 1024 <= bs -> ext4_write_block fs b p room_p s = Spin).
Proof.
  intros Hok Hbs [Hb Hmax] Hp Hq Hrp Hrq Hoff.
  split; [intros Hset|intros Hset Hbig; by apply (write_block_hangs fs dev bs d Hbs s b p room_p)].
  destruct (write_block_run fs dev bs d Hbs s b p room_p Hok Hset Hb Hmax Hp Hrp) as (h1 & Hrun1 & Hst & Hok1).
  destruct (read_block_run fs dev bs d Hbs (after (memory s) h1 s) b q room_q Hok1 Hb Hmax Hq Hrq Hoff) as (m & h2 & Hrun2 & Hfill & Hs2 & _).
  exists (after (memory s) h1 s), (after m h2 (after (memory s) h1 s)). split; [done|]. split; [done|]. split; [done|]. split.
  - intros k. unfold image. rewrite (disk_byte_sectors _ _ _ Hs2). change (drv (hw (disk (after (memory s) h1 s)))) with (drv h1).
    rewrite Hst, Z.add_0_r. done.
  - intros a. change (memory (after m h2 (after (memory s) h1 s))) with m. rewrite Hfill, Z.add_0_r. case_decide as E; [|done].
    unfold image. change (drv (hw (disk (after (memory s) h1 s)))) with (drv h1). rewrite Hst, decide_True by lia.
    replace (p + (b * bs + (a - q) - b * bs)) with (p + (a - q)) by lia.
    destruct (Hp (p + (a - q)) ltac:(lia)) as [x ->]. done.
Qed.

Lemma ld_fs_bind {B} fs field v (k : Z -> cmd (estate W) B) s : ext4_fs_data s = fs -> holds_word (memory s) 4 (fs + field) v ->
  (x ← ld_fs field; k x) s = k v s.
Proof. intros Hf Hw. rewrite (cmd_bind_eq _ _ s s v); [done|]. unfold ld_fs. rewrite gets_bind, Hf. rewrite <- (with_memory_id s) at 2. by apply memory_cmd_run. Qed.

Lemma ld_sb_bind {B} fs field v (k : Z -> cmd (estate W) B) s : ext4_fs_data s = fs -> holds_word (memory s) 4 (fs + fs_super_block field) v ->
  (x ← ld_sb field; k x) s = k v s.
Proof. intros Hf Hw. rewrite (cmd_bind_eq _ _ s s v); [done|]. unfold ld_sb. rewrite gets_bind, Hf. rewrite <- (with_memory_id s) at 2. by apply memory_cmd_run. Qed.

Lemma fault_bind {A B} (c : cmd (estate W) A) (k : A -> cmd (estate W) B) s : c s = Fault -> (c ≫= k) s = Fault.
Proof. unfold mbind, cmd_mbind. by intros ->. Qed.

Lemma bgd_block_bind {B} fs first g (k : Z -> cmd (estate W) B) s : holds_word (memory s) 4 (fs + fs_super_block sb_first_data_block) first ->
  (b ← bgd_block fs g; k b) s = k (u32 (first + 1 + g)) s.
Proof. intros Hfirst. rewrite (cmd_bind_eq _ _ s s (u32 (first + 1 + g))); [done|]. unfold bgd_block, ld32. by rewrite (ld_bind _ _ _ _ _ Hfirst). Qed.

(** A block, read into the descriptor. *)
Lemma descriptor_overrun s fs dev d bs b : fs_ready s fs dev d bs -> block_size_ok bs -> block_ok bs b ->
  ext4_read_block fs b bgd sizeof_Ext4BlockGroupDescriptor s = Fault /\ read_block b bgd sizeof_Ext4BlockGroupDescriptor s = Fault.
Proof.
  intros Hok Hbs [Hb Hmax]. pose proof (read_block_overrun fs dev bs d Hbs s b bgd sizeof_Ext4BlockGroupDescriptor Hok Hb Hmax
    ltac:(unfold sizeof_Ext4BlockGroupDescriptor; lia)) as Hf.
  split; [done|]. unfold read_block. by rewrite gets_bind, (fr_data _ _ _ _ _ Hok).
Qed.

(** C30. No block and no inode can be allocated or reached: the first thing that
    ext4_allocate_block and ext4_allocate_inode do for a group, and that every
    access to an inode does, is to read a whole block into the group descriptor on
    the stack, which has 68 bytes. On a drive that answers, with any block size,
    the allocators return 0 and change nothing when their counters are 0 or there
    is no group, and in every other case they write past the descriptor; so does
    [inode_place], the common part of ext4_read_inode and ext4_write_inode. *)
Theorem ext4_allocate_overruns s fs dev d bs first count per free_lo free_hi free_inodes : fs_ready s fs dev d bs -> block_size_ok bs -> fs <> 0 ->
  holds_word (memory s) 4 (fs + fs_super_block sb_first_data_block) first -> holds_word (memory s) 4 (fs + fs_block_group_count) count ->
  holds_word (memory s) 4 (fs + fs_inodes_per_group) per -> holds_word (memory s) 4 (fs + fs_super_block sb_free_blocks_count_lo) free_lo ->
  holds_word (memory s) 4 (fs + fs_super_block sb_free_blocks_count_hi) free_hi -> holds_word (memory s) 4 (fs + fs_super_block sb_free_inodes_count) free_inodes ->
  block_ok bs (u32 (first + 1)) ->
  ext4_allocate_block s = (if decide ((free_lo <= 0 /\ free_hi <= 0) \/ count <= 0) then Ret (s, 0) else Fault) /\
  ext4_allocate_inode s = (if decide (free_inodes <= 0 \/ count <= 0) then Ret (s, 0) else Fault) /\
  (forall n, per <> 0 -> block_ok bs (u32 (first + 1 + u32 (n - 1) / per)) -> inode_place fs n s = Fault).
Proof.
  intros Hok Hbs Hfs Hfirst Hcount Hper Hlo Hhi Hino Hblock. pose proof (fr_data _ _ _ _ _ Hok) as Hd.
  replace (first + 1) with (first + 1 + 0) in Hblock by lia. destruct (descriptor_overrun s fs dev d bs _ Hok Hbs Hblock) as [_ Hover].
  split; [|split].
  - unfold ext4_allocate_block. rewrite gets_bind, Hd, decide_False by done. rewrite (ld_sb_bind _ _ _ _ _ Hd Hlo), (ld_sb_bind _ _ _ _ _ Hd Hhi).
    destruct (decide (free_lo <= 0 /\ free_hi <= 0)) as [E|E]; [by rewrite decide_True by tauto|].
    rewrite (ld_fs_bind _ _ _ _ _ Hd Hcount). cbn [block_group_loop]. rewrite (ld_fs_bind _ _ _ _ _ Hd Hcount).
    destruct (decide (0 < count)) as [Hc|Hc]; [|by rewrite decide_True by lia]. rewrite decide_False by lia.
    rewrite gets_bind, Hd, (bgd_block_bind _ _ _ _ _ Hfirst). by apply fault_bind.
  - unfold ext4_allocate_inode. rewrite gets_bind, Hd, decide_False by done. rewrite (ld_sb_bind _ _ _ _ _ Hd Hino).
    destruct (decide (free_inodes <= 0)) as [E|E]; [by rewrite decide_True by tauto|].
    rewrite (ld_fs_bind _ _ _ _ _ Hd Hcount). cbn [inode_group_loop]. rewrite (ld_fs_bind _ _ _ _ _ Hd Hcount).
    destruct (decide (0 < count)) as [Hc|Hc]; [|by rewrite decide_True by lia]. rewrite decide_False by lia.
    rewrite gets_bind, Hd, (bgd_block_bind _ _ _ _ _ Hfirst). by apply fault_bind.
  - intros n Hn Hb. unfold inode_place, ld32. rewrite (ld_bind _ _ _ _ _ Hper). unfold divide, modulo. rewrite !decide_False by done.
    rewrite (cmd_bind_eq _ _ s s (u32 (n - 1) / per)), (cmd_bind_eq _ _ s s (u32 (n - 1) mod per)) by done.
    rewrite (bgd_block_bind _ _ _ _ _ Hfirst). apply fault_bind. by apply (descriptor_overrun s fs dev d bs).
Qed.
End blocks.

(** ** Concrete runs *)

Section samples.
(** One group of 32 blocks of 1024 bytes: the descriptor in block 2, the bitmap
    in block 3 with the first 11 bits set, 5 free blocks. *)
#[local] Instance sample_env : Vfs.Env := {
  malloc _ := mret 10240; free _ := mret tt;
  call_mount _ _ _ := mret 0; call_umount _ _ := mret 0; call_get_inode _ _ := mret 0; call_mkdir _ _ _ := mret 0;
  call_path _ _ := mret 0; call_open _ _ _ := mret 0; call_close _ _ := mret 0; call_read _ _ _ _ := mret (0, []);
  call_write _ _ _ _ := mret 0; call_ioctl _ _ _ _ := mret 0; call_readdir _ _ := mret (-1, [], FILE_TYPE_REGULAR); stack_byte := 0
}.
#[local] Instance sample_placement : Placement := {| code _ := 1; ext4_filesystem := 2; bgd := 6144; buffer := 8192 |}.

Definition sample_words : list (Z * Z) := [(0, 64); (16, 5); (24, 1); (278, 0); (1120, 1024); (1128, 16); (1132, 1); (20, 7)].
Definition blank_memory : mem := mwrite ∅ 4096 (replicate (Z.to_nat 8192) 0).
Definition sample_ram : mem := foldr (fun '(o, v) m => mwrite m (4096 + o) (le_bytes 4 v)) blank_memory sample_words.
Definition sector_words (l : list (nat * Z)) : list Z := foldr (fun '(i, w) ws => <[i := w]> ws) (replicate 256 0) l.
Definition ext4_drive (k : nat) : drive :=
  mkDrive {[ 4 := sector_words [(0%nat, 3); (6%nat, 5)]; 6 := sector_words [(0%nat, 0x07FF)] ]} 0 0 0 0 Idle 0 3 k.
Definition no_files : vfs := mkVfs [] [] [] 1 0 0 ∅ ∅ ∅.
(** On a drive that is busy for [k] accesses after a write. *)
Definition sample_on (k : nat) : estate drive := mkE (with_bytes sample_ram (sample_blocks (ext4_drive k))) no_files 4096.
Definition sample_ext4 : estate drive := sample_on 0.
Definition ram (a : Z) : Prop := 4096 <= a < 12288.

Lemma sample_complete : complete ram sample_ram.
Proof.
  unfold sample_ram, sample_words. cbn [foldr]. repeat (apply complete_mwrite; [|apply le_bytes_u8]). split.
  - apply all_u8_mwrite; [apply map_Forall_empty|]. apply Forall_replicate. unfold is_u8. lia.
  - intros a Ha. unfold ram in Ha. unfold blank_memory. rewrite lookup_mwrite, length_replicate, decide_True by lia.
    rewrite lookup_replicate_2 by lia. by eexists.
Qed.

Lemma holds_word_here m p v : v mod 256 ^ Z.of_nat 4 = v -> holds_word (mwrite m p (le_bytes 4 v)) 4 p v.
Proof. intros E. rewrite <- E at 2. apply holds_word_written. Qed.

Lemma holds_word_apart m n p v k q w : q + Z.of_nat k <= p \/ p + Z.of_nat n <= q -> holds_word m k q w -> holds_word (mwrite m p (le_bytes n v)) k q w.
Proof. intros Hap. apply holds_word_ext. intros a Ha. apply mwrite_outside. rewrite le_bytes_length. lia. Qed.

Lemma sample_word o v : sample_words !! o = Some v -> holds_word sample_ram 4 (4096 + fst v) (snd v).
Proof.
  unfold sample_ram, sample_words. do 8 (destruct o as [|o]; [intros [= <-]; cbn [foldr fst snd];
    repeat (first [apply holds_word_here; reflexivity | apply holds_word_apart; [lia|]])|]). intros E. discriminate E.
Qed.

Lemma sample_formatted k : formatted (ext4_drive k).
Proof.
  unfold formatted, ext4_drive. cbn [sectors]. apply map_Forall_insert_2; [|apply map_Forall_singleton].
  - split; [by vm_compute|]. apply (bool_decide_unpack _). by vm_compute.
  - split; [by vm_compute|]. apply (bool_decide_unpack _). by vm_compute.
Qed.

#[local] Opaque sample_ram.

Lemma sample_on_ready k : fs_ready (sample_on k) 4096 64 sample_device 1024.
Proof.
  constructor; [|exact (proj1 sample_complete)|reflexivity|exact (sample_word 0 _ eq_refl)|exact (sample_word 4 _ eq_refl)].
  constructor; [exact (conj eq_refl (conj (lookup_singleton_eq _ _) eq_refl))|discriminate|reflexivity|reflexivity|exact (conj eq_refl eq_refl)|exact (sample_formatted k)|change (3 < Z.to_nat 100000)%nat; lia|change (3 < 10)%nat; lia].
Qed.

Lemma sample_area p n : 4096 <= p -> p + n <= 12288 -> area ram p n.
Proof. intros Hp Hn a Ha. unfold ram. lia. Qed.

Lemma sample_block_size : block_size_ok 1024.
Proof. split; [lia|]. split; [reflexivity|lia]. Qed.

(** The bytes at 6144 go to block 9 and come back at 10240; a slow drive never
    gets the second half of the block. *)
Lemma ext4_block_roundtrip_witness : (exists s1 s2, ext4_write_block 4096 9 6144 1024 sample_ext4 = Ret (s1, tt) /\
  ext4_read_block 4096 9 10240 2048 s1 = Ret (s2, tt) /\ memory s2 !! 10240 = memory sample_ext4 !! 6144 /\ image s2 3072 = 255) /\
  ext4_write_block 4096 9 6144 1024 (sample_on 40) = Spin.
Proof.
  assert (Hb : block_ok 1024 9) by (unfold block_ok; lia).
  assert (Hp : mapped sample_ram 6144 1024) by (apply (mapped_area ram); [exact sample_complete|apply sample_area; lia]).
  assert (Hq : mapped sample_ram 10240 1024) by (apply (mapped_area ram); [exact sample_complete|apply sample_area; lia]).
  assert (Hoff : off_fields 4096 10240 1024) by (unfold off_fields, fs_block_size; lia).
  split.
  - destruct (proj1 (ext4_block_roundtrip sample_ext4 4096 64 sample_device 1024 9 6144 10240 1024 2048 (sample_on_ready 0) sample_block_size
      Hb Hp Hq ltac:(lia) ltac:(lia) Hoff) eq_refl) as (s1 & s2 & Hw & Hr & _ & Himg & Hmem).
    exists s1, s2. split; [exact Hw|]. split; [exact Hr|]. split; [rewrite Hmem; reflexivity|]. rewrite Himg. vm_compute. reflexivity.
  - apply (proj2 (ext4_block_roundtrip (sample_on 40) 4096 64 sample_device 1024 9 6144 10240 1024 2048 (sample_on_ready 40) sample_block_size
      Hb Hp Hq ltac:(lia) ltac:(lia) Hoff)); [|lia]. cbn. lia.
Defined.

(** Five blocks and seven inodes are free, and none of them can be had. *)
Lemma ext4_allocate_overruns_witness : ext4_allocate_block sample_ext4 = Fault /\ ext4_allocate_inode sample_ext4 = Fault /\
  inode_place 4096 2 sample_ext4 = Fault.
Proof.
  destruct (ext4_allocate_overruns sample_ext4 4096 64 sample_device 1024 1 1 16 5 0 7 (sample_on_ready 0) sample_block_size ltac:(discriminate)
    (sample_word 2 _ eq_refl) (sample_word 6 _ eq_refl) (sample_word 5 _ eq_refl) (sample_word 1 _ eq_refl) (sample_word 3 _ eq_refl) (sample_word 7 _ eq_refl))
    as (H1 & H2 & H3).
  - unfold block_ok. change (u32 (1 + 1)) with 2. lia.
  - split; [exact H1|]. split; [exact H2|]. apply H3; [discriminate|]. unfold block_ok. change (u32 (1 + 1 + u32 (2 - 1) / 16)) with 2. lia.
Defined.
End samples.
