(* ===== verification/Ext4Paths.v ===== *)
(** * ext4: the operations on paths

    The paths of Vfs.v cut into components, the inodes that ext4_find_inode makes
    up, and what the removal of a directory comes to. A computation that returns
    with some property is [ends] of the prelude. *)
From S2P Require Import Prelude CString Ports Block Vfs Ext4 Ext4Facts.

(** The pieces of a path, as the two loops of vfs_parse_path see them. *)
Fixpoint pieces (fuel : nat) (p : list Z) : list (list Z) :=
  match fuel, p with S fuel', _ :: _ => component p :: pieces fuel' (skip_slashes (after_component p)) | _, _ => [] end.
Definition joined (l : list (list Z)) : list Z := concat ((fun c => 47 :: c) <$> l).

Lemma component_length p : (length (component p) + length (after_component p) = length p)%nat.
Proof. induction p as [|c p IH]; cbn; [done|]. case_decide; cbn; lia. Qed.

Lemma skip_slashes_length p : (length (skip_slashes p) <= length p)%nat.
Proof. induction p as [|c p IH]; cbn; [done|]. case_decide; cbn; lia. Qed.

Lemma after_component_head p : after_component p = [] \/ exists q, after_component p = 47 :: q.
Proof. induction p as [|c p IH]; cbn; [by left|]. case_decide as E; [right; exists p; by rewrite E|done]. Qed.

Lemma rest_length p : p <> [] -> (length (skip_slashes (after_component p)) < length p)%nat.
Proof.
  intros Hp. pose proof (component_length p) as Hl. destruct (after_component_head p) as [E|[q E]]; rewrite E in *; cbn [skip_slashes length] in *.
  - destruct p; [done|cbn; lia].
  - rewrite decide_True by done. pose proof (skip_slashes_length q). lia.
Qed.

Lemma joined_length fuel : forall p, (length p < fuel)%nat -> (length (joined (pieces fuel p)) <= length p + 1)%nat.
Proof.
  induction fuel as [|fuel IH]; intros p Hf; [lia|]. destruct p as [|c p]; [cbn; lia|]. cbn [pieces]. set (q := c :: p) in *.
  pose proof (rest_length q ltac:(done)) as Hr. specialize (IH (skip_slashes (after_component q)) ltac:(lia)). pose proof (component_length q) as Hl.
  unfold joined in *. cbn [fmap list_fmap concat]. rewrite length_app. cbn [length].
  destruct (after_component_head q) as [E|[r E]]; rewrite E in *; cbn [skip_slashes length] in *.
  - replace (concat _) with (@nil Z) in * by (destruct fuel; done). cbn [length] in *. lia.
  - rewrite decide_True in * by done. pose proof (skip_slashes_length r). lia.
Qed.

Section path_heap.
Context `{Vfs.Env} (present : Z -> Prop).

(** The heap has not touched the inodes. *)
Definition kept (f f' : vfs) : Prop := inodes f' = inodes f.

(** malloc and free return, keep the inodes, and what malloc gives is memory. *)
Class PathHeap : Prop := {
  path_malloc : forall n f, ends (malloc n) f (fun p f' => kept f f' /\ (p = 0 \/ area present p n));
  path_free : forall a f, ends (free a) f (fun _ f' => kept f f')
}.

#[export] Instance kept_preorder : PreOrder kept.
Proof. split; [done|]. intros f g h E1 E2. unfold kept in *. congruence. Qed.
#[export] Instance inodes_stay_preorder : PreOrder inodes_stay.
Proof. split; [by intros f a|]. intros f g h H1' H2' a Ha. auto. Qed.

Context {Hph : PathHeap}.
Implicit Types f : vfs.

Lemma free_ends a f : ends (free a) f (fun _ f' => kept f f'). Proof. apply path_free. Qed.

Lemma free_components_ends c num f : ends (vfs_free_path_components c num) f (fun _ f' => kept f f').
Proof.
  destruct c as [[a l]|]; cbn [vfs_free_path_components]; [|by apply ends_ret]. eapply ends_bind; [|intros [] f1 Hf1].
  - instantiate (1 := fun _ f' => kept f f'). revert f. induction (take (Z.to_nat num) l) as [|c l' IH]; intros f; cbn [foldr]; [by apply ends_ret|].
    eapply ends_bind; [apply free_ends|]. cbn beta. intros _ f1 Hf1. eapply ends_mono; [apply IH|]. cbn beta. intros _ f2 Hf2. by transitivity f1.
  - eapply ends_mono; [apply free_ends|]. cbn beta. intros _ f2 Hf2. by transitivity f1.
Qed.

Lemma strdup_ends t f : ends (strdup t) f (fun r f' => kept f f' /\ match r with Some (_, t') => t' = t | None => True end).
Proof. unfold strdup. eapply ends_bind; [apply path_malloc|]. cbn. intros p f' [Hf _]. apply ends_ret. split; [done|]. by case_decide. Qed.

Lemma split_ends fuel : forall a p acc f, (length p < fuel)%nat ->
  ends (split_loop fuel a p acc) f (fun r f' => kept f f' /\
    match r with Some l => exists l', l = acc ++ l' /\ snd <$> l' = pieces fuel p | None => True end).
Proof.
  induction fuel as [|fuel IH]; intros a p acc f Hf; [lia|]. destruct p as [|c p]; cbn [split_loop pieces].
  { apply ends_ret. split; [done|]. exists []. by rewrite app_nil_r. }
  set (q := c :: p) in *. pose proof (rest_length q ltac:(done)). eapply ends_bind; [apply path_malloc|]. cbn beta. intros x f1 [Hf1 _]. case_decide.
  - eapply ends_bind; [apply free_components_ends|]. cbn beta. intros _ f2 Hf2. apply ends_ret. split; [by transitivity f1|done].
  - eapply ends_mono; [apply IH; lia|]. cbn beta. intros r f2 [Hf2 Hr]. split; [by transitivity f1|]. destruct r as [l|]; [|done].
    destruct Hr as (l' & -> & Hl'). exists ((x, component q) :: l'). rewrite <- app_assoc. split; [done|]. cbn. by f_equal.
Qed.

Lemma count_pieces fuel : forall p n f, (length p < fuel)%nat -> count_loop fuel p n f = Ret (f, n + Z.of_nat (length (pieces fuel p))).
Proof.
  induction fuel as [|fuel IH]; intros p n f Hf; [lia|]. destruct p as [|c p]; cbn [count_loop pieces]; [cbn; by rewrite Z.add_0_r|].
  pose proof (rest_length (c :: p) ltac:(done)). rewrite IH by lia. do 2 f_equal. cbn [length]. lia.
Qed.

(** Parsing: as many components as the number says, and together no longer than the path. *)
Lemma parse_ends path f : ends (vfs_parse_path (Some path)) f (fun r f' => kept f f' /\
  match fst r with
  | Some (_, l) => snd r = Z.of_nat (length l) /\ (length (joined (snd <$> l)) <= length path + 1)%nat /\ (path = [] -> l = [])
  | None => True end).
Proof.
  unfold vfs_parse_path. set (p := skip_leading path). assert (Hp : (length p <= length path)%nat).
  { unfold p. destruct path as [|c q]; cbn; [lia|]. case_decide; cbn; lia. }
  eapply ends_step; [apply (count_pieces (S (length p))); lia|]. eapply ends_bind; [apply path_malloc|]. cbn beta. intros a f1 [Hf1 _]. case_decide; [by apply ends_ret|].
  eapply ends_bind; [apply split_ends; lia|]. cbn beta. intros r f2 [Hf2 Hr]. assert (kept f f2) by by transitivity f1.
  destruct r as [l|]; apply ends_ret; (split; [done|]); [|done]. destruct Hr as (l' & -> & Hl'). cbn [fst snd app]. rewrite Hl'. split; [|split].
  - by rewrite <- (length_fmap snd l'), Hl'.
  - pose proof (joined_length (S (length p)) p ltac:(lia)). lia.
  - intros ->. cbn in Hl'. by apply fmap_nil_inv in Hl'.
Qed.

Lemma destroy_ends a f : a = 0 \/ is_Some (inodes f !! a) -> ends (vfs_destroy_inode a) f (fun _ f' => inodes_stay f f').
Proof.
  intros Ha. unfold vfs_destroy_inode. destruct (decide (a = 0)) as [|Ha0]; [by apply ends_ret|]. destruct Ha as [?|[i Hi]]; [done|].
  apply (ends_step _ _ f f i); [unfold get_inode_at; by rewrite gets_bind, Hi|]. destruct (decide (0 < i_ref_count i)); [|by apply ends_ret].
  set (f1 := with_inodes (next_inode_num f) (<[a := set_i_ref (i_ref_count i - 1) i]>) f).
  assert (Hf1 : inodes_stay f f1) by (intros b Hb; apply lookup_insert_is_Some'; by right).
  apply (ends_step _ _ f f1 tt); [done|]. case_decide; [|by apply ends_ret]. eapply ends_mono; [apply free_ends|]. cbn beta. intros _ f2 Hf2. transitivity f1; [done|]. intros b. by rewrite Hf2.
Qed.

(** The text of a normalised path: an absolute one is kept, a relative one is lost. *)
Lemma normalize_ends path f : path <> [] -> (length path < 256)%nat ->
  ends (vfs_normalize_path path [47]) f (fun r f' => kept f f' /\ match r with Some (_, t) => path <> [47] -> t <> [47] | None => True end).
Proof.
  intros Hne Hlen. unfold vfs_normalize_path. case_decide.
  { eapply ends_mono; [apply strdup_ends|]. cbn beta. intros [[a t]|] f' [Hf Ht]; (split; [done|]); [by rewrite Ht|done]. }
  eapply ends_bind; [apply path_malloc|]. cbn beta. intros p f' [Hf _]. case_decide; [by apply ends_ret|].
  rewrite decide_False by (cbn; intros [_ E]; by apply E). apply ends_ret. split; [done|]. unfold snprintf_plain.
  rewrite u32_small by (unfold is_u32; cbn; lia). destruct path as [|c path]; [done|].
  replace (Z.to_nat _) with (S (S (length path))) by (cbn [length]; lia). done.
Qed.
End path_heap.

Section paths.
Context `{Hardware W, Patience, !Vfs.Env, Placement} (present : Z -> Prop) {Hph : PathHeap present}.
Implicit Types s : estate W.

(** From [s] to [s'] the drive has not been used, and the inodes are related by [R]. *)
Record calm (R : vfs -> vfs -> Prop) s s' : Prop := {
  ca_hw : hw (disk s') = hw (disk s);
  ca_data : ext4_fs_data s' = ext4_fs_data s;
  ca_memory : complete present (memory s');
  ca_inodes : R (files s) (files s')
}.

Lemma calm_trans R `{!PreOrder R} s1 s2 s3 : calm R s1 s2 -> calm R s2 s3 -> calm R s1 s3.
Proof. intros [A1 B1 _ D1] [A2 B2 C2 D2]. constructor; [congruence|congruence|done|by transitivity (files s2)]. Qed.

Lemma calm_refl R `{!PreOrder R} s : complete present (memory s) -> calm R s s.
Proof. by constructor. Qed.

Lemma calm_stay s s' : calm kept s s' -> calm inodes_stay s s'.
Proof. intros [A B C D]. constructor; try done. intros a. by rewrite D. Qed.

Lemma on_files_ends {A} R (c : cmd vfs A) s (Q : A -> vfs -> Prop) : complete present (memory s) ->
  ends c (files s) (fun a f' => R (files s) f' /\ Q a f') -> ends (on_files c) s (fun a s' => calm R s s' /\ Q a (files s')).
Proof.
  intros Hm (f' & a & Hrun & HR & HQ). exists (mkE (disk s) f' (ext4_fs_data s)), a. split; [unfold on_files; by rewrite Hrun|]. split; [by constructor|done].
Qed.

Lemma on_files_calm {A} R (c : cmd vfs A) s : complete present (memory s) -> ends c (files s) (fun _ f' => R (files s) f') -> ends (on_files c) s (fun _ s' => calm R s s').
Proof.
  intros Hm He. eapply ends_mono; [apply (on_files_ends R _ _ (fun _ _ => True) Hm)|by intros a s' [? _]].
  eapply ends_mono; [exact He|by intros a f' ?].
Qed.

Lemma allocate_ends n s : complete present (memory s) -> ends (allocate n) s (fun p s' => calm kept s s' /\ (p = 0 \/ area present p n)).
Proof. intros Hm. refine (on_files_ends kept (malloc n) s (fun p _ => p = 0 \/ area present p n) Hm _). exact (@path_malloc _ present Hph n (files s)). Qed.

Lemma release_ends a s : complete present (memory s) -> ends (release a) s (fun _ s' => calm kept s s').
Proof. intros Hm. apply on_files_calm; [done|apply (free_ends present)]. Qed.

Lemma st32_ends p v s : complete present (memory s) -> area present p 4 -> ends (st32 p v) s (fun _ s' => calm kept s s').
Proof.
  intros Hm Ha. exists (with_memory (mwrite (memory s) p (le_bytes 4 v)) s), tt. split.
  - apply memory_cmd_run, store_le_run. by apply (mapped_area present).
  - constructor; [done|done|apply complete_mwrite; [done|apply le_bytes_u8]|done].
Qed.

Lemma clear_ends p n s : complete present (memory s) -> area present p n -> 0 <= n -> ends (clear p n) s (fun _ s' => calm kept s s').
Proof.
  intros Hm Ha Hn. exists (with_memory (mwrite (memory s) p (replicate (Z.to_nat n) 0)) s), tt. split.
  - unfold clear. rewrite (on_memory_bind _ _ _ (mwrite (memory s) p (replicate (Z.to_nat n) 0)) p); [done|].
    unfold memset. pose proof (memset_loop_run (Z.to_nat n) (memory s) p 0 (u8 0)) as Hrun. rewrite Z.add_0_r in Hrun.
    by rewrite (cmd_bind_eq _ _ _ _ _ (Hrun ltac:(apply u8_range) ltac:(rewrite Z2Nat.id by lia; by apply (mapped_area present)))).
  - constructor; [done|done|apply complete_mwrite; [done|]|done]. apply Forall_replicate. unfold is_u8. lia.
Qed.

(** One step of a computation that stays calm. *)
Lemma calm_bind {A B} R R' `{!PreOrder R'} (c : cmd (estate W) A) (k : A -> cmd (estate W) B) s0 s (P : A -> estate W -> Prop) Q :
  calm R' s0 s -> ends c s (fun a s' => calm R s s' /\ P a s') -> (forall s s', calm R s s' -> calm R' s s') ->
  (forall a s', calm R' s0 s' -> calm R s s' -> P a s' -> ends (k a) s' Q) -> ends (c ≫= k) s Q.
Proof.
  intros H0' Hc Hw Hk. eapply ends_bind; [exact Hc|]. cbn beta. intros a s' [Hs HP]. apply Hk; [|done|done]. eapply calm_trans; [done|done|by apply Hw].
Qed.

Lemma calm_ends {A B} (c : cmd (estate W) A) (k : A -> cmd (estate W) B) s0 s (P : A -> estate W -> Prop) Q :
  calm inodes_stay s0 s -> ends c s (fun a s' => calm kept s s' /\ P a s') ->
  (forall a s', calm inodes_stay s0 s' -> calm kept s s' -> P a s' -> ends (k a) s' Q) -> ends (c ≫= k) s Q.
Proof. intros H0' Hc. apply (calm_bind kept inodes_stay _ _ s0 s P Q H0' Hc). intros. by apply calm_stay. Qed.

Lemma always {A} (c : cmd (estate W) A) s R : ends c s (fun _ s' => calm R s s') -> ends c s (fun _ s' => calm R s s' /\ True).
Proof. intros Hc. eapply ends_mono; [exact Hc|]. by intros. Qed.

Lemma create_ends type perms data f : ends (vfs_create_inode type perms data) f (fun a f' => inodes_stay f f' /\
  (a = 0 \/ exists i, inodes f' !! a = Some i /\ i_type i = type)).
Proof.
  unfold vfs_create_inode. eapply ends_bind; [apply (@path_malloc _ present Hph)|]. cbn beta. intros p f1 [Hf1 _]. case_decide; [apply ends_ret; split; [|by left]; intros a; by rewrite Hf1|].
  eexists _, p. split; [reflexivity|]. split; [|right; eexists; split; [apply lookup_insert_eq|done]].
  intros a Ha. apply lookup_insert_is_Some'. right. by rewrite Hf1.
Qed.

(** The function pointers of the new inode. *)
Lemma operations_ends (root : bool) ops s : complete present (memory s) -> area present ops sizeof_FileOperations ->
  ends (if root then
       st32 (ops + fo_opendir) (code Ext4_dir_opendir);; st32 (ops + fo_closedir) (code Ext4_dir_closedir);; st32 (ops + fo_readdir) (code Ext4_dir_readdir)
     else
       st32 (ops + fo_read) (code Ext4_file_read);; st32 (ops + fo_write) (code Ext4_file_write);; st32 (ops + fo_close) (code Ext4_file_close);;
       st32 (ops + fo_open) (code Ext4_file_open)) s (fun _ s' => calm kept s s').
Proof.
  intros Hm Ha. pose proof (calm_refl kept s Hm) as H0'.
  assert (Hst : forall {B} field v (k : unit -> cmd (estate W) B) s1 Q, calm kept s s1 -> 0 <= field <= 28 -> (forall s2, calm kept s s2 -> ends (k tt) s2 Q) ->
    ends (x ← st32 (ops + field) v; k x) s1 Q).
  { intros B field v k s1 Q Hs1 Hf Hk. eapply ends_bind; [apply st32_ends; [apply Hs1|intros a Hr; apply Ha; unfold sizeof_FileOperations; lia]|].
    cbn beta. intros [] s2 Hs2. apply Hk. by apply (calm_trans kept s s1 s2). }
  assert (Hlast : forall field v s1, calm kept s s1 -> 0 <= field <= 28 -> ends (st32 (ops + field) v) s1 (fun _ s' => calm kept s s')).
  { intros field v s1 Hs1 Hf. eapply ends_mono; [apply st32_ends; [apply Hs1|intros a Hr; apply Ha; unfold sizeof_FileOperations; lia]|].
    cbn beta. intros [] s2 Hs2. by apply (calm_trans kept s s1 s2). }
  destruct root; repeat (apply Hst; [done|by vm_compute|]; intros ? ?); apply Hlast; done || by vm_compute.
Qed.

(** An inode of the virtual file system, and whether it may be a directory. *)
Definition inode_of s (a : Z) (P : FileType -> Prop) : Prop := a = 0 \/ exists i, inodes (files s) !! a = Some i /\ P (i_type i).

Lemma inode_of_kept s s' a P : calm kept s s' -> inode_of s a P -> inode_of s' a P.
Proof. intros Hs [->|(i & Hi & HP)]; [by left|]. right. exists i. split; [|done]. by rewrite (ca_inodes _ _ _ Hs). Qed.

Lemma find_inode_ends path s : complete present (memory s) ->
  ends (ext4_find_inode path) s (fun a s' => calm inodes_stay s s' /\ inode_of s' a (fun t => path <> Some [47] -> t = FILE_TYPE_REGULAR)).
Proof.
  intros Hm. pose proof (calm_refl inodes_stay s Hm) as H0'. unfold ext4_find_inode. eapply ends_step; [done|]. set (fs := ext4_fs_data s).
  destruct path as [path|]; [|apply ends_ret; split; [done|by left]]. case_decide; [apply ends_ret; split; [done|by left]|].
  apply (calm_ends _ _ s s (fun _ _ => True) _ H0').
  { apply always, on_files_calm; [done|]. eapply ends_mono; [apply (@parse_ends _ present Hph)|]. by intros a f' [? _]. }
  intros [comps num] s1 Hs1 _ _. destruct comps as [[a l]|]; [|apply ends_ret; split; [done|by left]].
  set (root := bool_decide (path = [47])).
  apply (calm_bind inodes_stay inodes_stay _ _ s s1 (fun a s' => inode_of s' a (fun t => t = if root then FILE_TYPE_DIRECTORY else FILE_TYPE_REGULAR)) _ Hs1).
  { apply (on_files_ends inodes_stay _ s1 (fun a f' => a = 0 \/ exists i, inodes f' !! a = Some i /\ i_type i = _)); [apply Hs1|]. apply create_ends. }
  { done. }
  intros cur s2 Hs2 _ Hcur. destruct (decide (cur = 0)) as [|Hc0].
  { eapply ends_bind; [apply (on_files_calm kept); [apply Hs2|apply (@free_components_ends _ present Hph)]|]. cbn beta. intros _ s3 Hs3.
    apply ends_ret. split; [|by left]. apply (calm_trans inodes_stay s s2 s3); [done|by apply calm_stay]. }
  apply (calm_ends _ _ s s2 (fun p _ => p = 0 \/ area present p sizeof_FileOperations) _ Hs2); [apply allocate_ends, Hs2|].
  intros ops s3 Hs3 Hk3 Hops. apply (inode_of_kept _ _ _ _ Hk3) in Hcur. destruct Hcur as [?|(i & Hi & Hti)]; [done|]. case_decide as Ho.
  { apply (calm_bind inodes_stay inodes_stay _ _ s s3 (fun _ _ => True) _ Hs3); [| done |].
    { apply always, on_files_calm; [apply Hs3|]. apply (@destroy_ends _ present Hph). right. by exists i. }
    intros _ s4 Hs4 _ _. eapply ends_bind; [apply (on_files_calm kept); [apply Hs4|apply (@free_components_ends _ present Hph)]|]. cbn beta. intros _ s5 Hs5.
    apply ends_ret. split; [|by left]. apply (calm_trans inodes_stay s s4 s5); [done|by apply calm_stay]. }
  destruct Hops as [?|Hops]; [done|].
  eapply (calm_ends _ _ s s3 _ _ Hs3); [apply always, clear_ends; [apply Hs3|done|by vm_compute]|]. intros _ s4 Hs4 Hk4 _.
  eapply (calm_ends _ _ s s4 _ _ Hs4); [apply always, operations_ends; [apply Hs4|done]|]. intros _ s5 Hs5 Hk5 _.
  assert (Hi5 : inodes (files s5) !! cur = Some i) by by rewrite (ca_inodes _ _ _ Hk5), (ca_inodes _ _ _ Hk4).
  apply (ends_step _ _ s5 s5 i). { unfold on_files, get_inode_at. rewrite gets_bind, Hi5. by destruct s5. }
  set (i1 := mkInode _ _ _ _ _ _ ops).
  eapply (calm_bind inodes_stay inodes_stay _ _ s s5 (fun _ s' => inodes (files s') !! cur = Some i1)); [done| |done|].
  { apply (on_files_ends inodes_stay _ s5 (fun _ f' => inodes f' !! cur = Some i1)); [apply Hs5|]. eexists _, tt. split; [reflexivity|].
    split; [|apply lookup_insert_eq]. intros b Hb. apply lookup_insert_is_Some'. by right. }
  intros _ s6 Hs6 _ Hi6. eapply (calm_ends _ _ s s6 _ _ Hs6); [apply always, on_files_calm; [apply Hs6|apply (@free_components_ends _ present Hph)]|].
  intros _ s7 Hs7 Hk7 _. apply ends_ret. split; [done|]. right. exists i1. split; [by rewrite (ca_inodes _ _ _ Hk7)|].
  intros Hne. change (i_type i1) with (i_type i). rewrite Hti. unfold root. rewrite bool_decide_eq_false_2; [done|]. intros E. by rewrite E in Hne.
Qed.

Lemma get_inode_ends path s : complete present (memory s) -> (forall p, path = Some p -> p <> [] /\ (length p < 256)%nat) ->
  ends (ext4_get_inode path) s (fun a s' => calm inodes_stay s s' /\ inode_of s' a (fun t => path <> Some [47] -> t = FILE_TYPE_REGULAR)).
Proof.
  intros Hm Hpath. pose proof (calm_refl inodes_stay s Hm) as H0'. unfold ext4_get_inode. eapply ends_step; [done|]. set (fs := ext4_fs_data s).
  destruct path as [path|]; [|apply ends_ret; split; [done|by left]]. case_decide; [apply ends_ret; split; [done|by left]|].
  destruct (Hpath path eq_refl) as (Hne & Hlen).
  apply (calm_ends _ _ s s (fun r _ => match r with Some (_, t) => path <> [47] -> t <> [47] | None => True end) _ H0').
  { apply (on_files_ends kept _ s (fun r _ => match r with Some (_, t) => path <> [47] -> t <> [47] | None => True end)); [done|]. by apply (@normalize_ends _ present Hph). }
  intros r s1 Hs1 Hk1 Hr. destruct r as [[a t]|]; [|apply ends_ret; split; [done|by left]].
  eapply (calm_bind inodes_stay inodes_stay _ _ s s1); [done|apply find_inode_ends, Hs1|done|]. cbn beta. intros inode s2 Hs2 _ Hi.
  eapply (calm_ends _ _ s s2 _ _ Hs2); [apply always, release_ends, Hs2|]. intros _ s3 Hs3 Hk3 _. apply ends_ret. split; [done|].
  apply (inode_of_kept _ _ _ _ Hk3). destruct Hi as [->|(i & Hi & Ht)]; [by left|]. right. exists i. split; [done|]. intros Hroot. apply Ht. intros [= E]. by apply Hr; [congruence|].
Qed.

Lemma strdup_calm t s : complete present (memory s) ->
  ends (on_files (strdup t)) s (fun r s' => calm kept s s' /\ match r with Some (_, t') => t' = t | None => True end).
Proof. intros Hm. apply (on_files_ends kept _ s (fun r _ => match r with Some (_, t') => t' = t | None => True end)); [done|]. apply (@strdup_ends _ present Hph). Qed.

Lemma join_loop_run n : forall l acc s, (n <= length l)%nat -> (length acc + length (joined (snd <$> take n l)) < 256)%nat ->
  join_loop n l acc s = Ret (s, acc ++ joined (snd <$> take n l)).
Proof.
  induction n as [|n IH]; intros l acc s Hn Hlen; cbn [join_loop]; [by rewrite app_nil_r|]. destruct l as [|c l]; [cbn in Hn; lia|].
  change (joined (snd <$> take (S n) (c :: l))) with (47 :: snd c ++ joined (snd <$> take n l)) in *. cbn [length] in Hlen, Hn. rewrite length_app in Hlen.
  rewrite decide_False by (unfold PATH_MAX; rewrite length_app; cbn [length]; lia).
  rewrite IH by (try rewrite length_app; cbn [length]; lia). by rewrite <- app_assoc.
Qed.

Lemma joined_take l : l <> [] -> (length (joined (take (length l - 1) l)) < length (joined l))%nat.
Proof.
  intros Hl. destruct (exists_last Hl) as (l' & c & ->). rewrite length_app. cbn [length]. replace (length l' + 1 - 1)%nat with (length l') by lia.
  rewrite take_app_length. unfold joined. rewrite fmap_app, concat_app, length_app. cbn. lia.
Qed.

Lemma component_run (l : list str) i c s : zget l i = Some c -> lift (deref (zget l i)) s = Ret (s, c).
Proof. by intros ->. Qed.

Lemma split_path_ends (l : list str) num s : complete present (memory s) -> num = Z.of_nat (length l) -> 0 < num -> (length (joined (snd <$> l)) <= 256)%nat ->
  ends (split_path l num) s (fun r s' => calm kept s s' /\ forall p n, r = Some (Some p, n) -> snd p <> [] /\ (length (snd p) < 256)%nat).
Proof.
  intros Hm -> Hn Hlen. unfold split_path. case_decide as E1.
  - destruct (zget_in_range l 0) as [c Hc]; [lia|]. apply (ends_step _ _ _ _ _ _ (component_run _ _ _ s Hc)).
    eapply ends_bind; [apply strdup_calm, Hm|]. cbn beta. intros r s1 [Hs1 Hr]. eapply ends_bind; [apply strdup_calm, Hs1|]. cbn beta. intros name s2 [Hs2 _].
    apply ends_ret. split; [by apply (calm_trans kept s s1 s2)|]. intros [a t] n [= -> _]. cbn [snd]. rewrite Hr. by split; [|cbn; lia].
  - eapply ends_bind; [apply allocate_ends, Hm|]. cbn beta. intros a s1 [Hs1 _]. case_decide; [by apply ends_ret|].
    assert (Hne : l <> []) by (intros ->; cbn in Hn; lia). assert (Hf : (length (joined (snd <$> take (length l - 1) l)) < 256)%nat).
    { pose proof (joined_take (snd <$> l)) as Hj. rewrite length_fmap in Hj. rewrite fmap_take. specialize (Hj ltac:(by intros ?%fmap_nil_inv)). lia. }
    replace (Z.to_nat (Z.of_nat (length l) - 1)) with (length l - 1)%nat by lia.
    apply (ends_step _ _ _ _ _ _ (join_loop_run (length l - 1) l [] s1 ltac:(lia) ltac:(cbn [length]; lia))). cbn [app].
    destruct (zget_in_range l (Z.of_nat (length l) - 1)) as [c Hc]; [lia|]. apply (ends_step _ _ _ _ _ _ (component_run _ _ _ s1 Hc)).
    eapply ends_bind; [apply strdup_calm, Hs1|]. cbn beta. intros name s2 [Hs2 _].
    apply ends_ret. split; [by apply (calm_trans kept s s1 s2)|]. intros p n [= <- _]. cbn [snd]. case_decide as E0; [by split; [|cbn; lia]|].
    split; [by intros E; rewrite E in E0|done].
Qed.

Lemma release_str_ends t s : complete present (memory s) -> ends (release_str t) s (fun _ s' => calm kept s s').
Proof. apply release_ends. Qed.

(** The way out. *)
Lemma leave_ends objects nodes parent_path name s : complete present (memory s) ->
  Forall (fun a => a = 0 \/ is_Some (inodes (files s) !! a)) nodes -> ends (leave objects nodes parent_path name) s (fun _ s' => calm inodes_stay s s').
Proof.
  intros Hm Hn. pose proof (calm_refl inodes_stay s Hm) as H0'. unfold leave.
  eapply (calm_bind inodes_stay inodes_stay _ _ s s (fun _ _ => True)); [done| |done|].
  { apply always. clear Hn. revert s Hm H0'. induction objects as [|a objects IH]; intros s Hm H0'; cbn [foldr]; [by apply ends_ret|].
    eapply (calm_ends _ _ s s _ _ H0'); [apply always, release_ends, Hm|]. intros _ s1 Hs1 _ _.
    eapply ends_mono; [apply IH; [apply Hs1|exact (calm_refl inodes_stay s1 (ca_memory _ _ _ Hs1))]|]. cbn beta. intros _ s2 Hs2. by apply (calm_trans inodes_stay s s1 s2). }
  intros _ s1 Hs1 _ _. eapply (calm_bind inodes_stay inodes_stay _ _ s s1 (fun _ _ => True)); [done| |done|].
  { apply always. assert (Hn1 : Forall (fun a => a = 0 \/ is_Some (inodes (files s1) !! a)) nodes).
    { eapply Forall_impl; [exact Hn|]. cbn beta. intros a [->|Ha]; [by left|]. right. by apply (ca_inodes _ _ _ Hs1). }
    clear Hn Hm H0'. pose proof (ca_memory _ _ _ Hs1) as Hm. clear Hs1. revert s1 Hm Hn1. induction nodes as [|a nodes IH]; intros s1 Hm Hn1; cbn [foldr]; [by apply ends_ret, (calm_refl inodes_stay)|].
    apply Forall_cons in Hn1 as [Ha Hn1]. eapply ends_bind; [apply (on_files_calm inodes_stay); [done|by apply (@destroy_ends _ present Hph)]|].
    cbn beta. intros _ s2 Hs2. eapply ends_mono; [apply IH; [apply Hs2|]|].
    - eapply Forall_impl; [exact Hn1|]. cbn beta. intros b [->|Hb]; [by left|]. right. by apply (ca_inodes _ _ _ Hs2).
    - cbn beta. intros _ s3 Hs3. by apply (calm_trans inodes_stay s1 s2 s3). }
  intros _ s2 Hs2 _ _. eapply (calm_ends _ _ s s2 _ _ Hs2); [apply always, release_str_ends, Hs2|]. intros _ s3 Hs3 _ _.
  eapply ends_mono; [apply release_str_ends, Hs3|]. cbn beta. intros _ s4 Hs4. apply (calm_trans inodes_stay s s3 s4); [done|by apply calm_stay].
Qed.

Lemma leave_fails objects nodes parent_path name s0 s : calm inodes_stay s0 s -> Forall (fun a => a = 0 \/ is_Some (inodes (files s) !! a)) nodes ->
  ends (leave objects nodes parent_path name;; mret (-1)) s (fun r s' => calm inodes_stay s0 s' /\ r = -1).
Proof.
  intros Hs Hn. eapply ends_bind; [apply leave_ends; [apply Hs|done]|]. cbn beta. intros _ s1 Hs1. apply ends_ret. split; [by apply (calm_trans inodes_stay s0 s s1)|done].
Qed.

Lemma rmdir_ends path s : complete present (memory s) -> (forall p, path = Some p -> (length p < 256)%nat) ->
  ends (ext4_rmdir path) s (fun r s' => calm inodes_stay s s' /\ r = -1).
Proof.
  intros Hm Hlen. pose proof (calm_refl inodes_stay s Hm) as H0'. unfold ext4_rmdir. eapply ends_step; [done|]. set (fs := ext4_fs_data s).
  destruct path as [path|]; [|by apply ends_ret]. specialize (Hlen path eq_refl). case_decide; [by apply ends_ret|].
  apply (calm_ends _ _ s s (fun r _ => match fst r with
    | Some (_, l) => snd r = Z.of_nat (length l) /\ (length (joined (snd <$> l)) <= length path + 1)%nat /\ (path = [] -> l = []) | None => True end) _ H0').
  { apply (on_files_ends kept _ s (fun r _ => match fst r with Some (_, l) => _ | None => True end)); [done|]. apply (@parse_ends _ present Hph). }
  intros [comps num] s1 Hs1 _ Hc. cbn [fst snd] in Hc. destruct comps as [[a l]|]; [|by apply ends_ret]. destruct Hc as (Hnum & Hjoin & Hnil).
  case_decide as Hpos; [by apply ends_ret|]. assert (Hne : path <> []) by (intros E; specialize (Hnil E); rewrite Hnil in Hnum; cbn in Hnum; lia).
  assert (Hfree : forall c sx, calm inodes_stay s sx -> ends (on_files (vfs_free_path_components c num)) sx (fun _ s' => calm kept sx s')).
  { intros c sx Hsx. apply on_files_calm; [apply Hsx|apply (@free_components_ends _ present Hph)]. }
  case_decide as Hroot.
  { eapply (calm_ends _ _ s s1 _ _ Hs1); [by apply always, Hfree|]. intros _ s2 Hs2 _ _. by apply ends_ret. }
  eapply (calm_ends _ _ s s1 _ _ Hs1); [apply split_path_ends; [apply Hs1|done|lia|lia]|]. cbn beta. intros r s2 Hs2 _ Hr.
  eapply (calm_ends _ _ s s2 _ _ Hs2); [by apply always, Hfree|]. intros _ s3 Hs3 _ _. destruct r as [[parent_path dir_name]|]; [|by apply ends_ret].
  eapply (calm_bind inodes_stay inodes_stay _ _ s s3); [done|apply get_inode_ends; [apply Hs3|]|done|].
  { intros p E. destruct parent_path as [[b t]|]; [|done]. injection E as <-. exact (Hr (b, t) _ eq_refl). }
  cbn beta. intros parent s4 Hs4 _ Hparent. case_decide; [by apply leave_fails|].
  eapply (calm_bind inodes_stay inodes_stay _ _ s s4); [done|apply get_inode_ends; [apply Hs4|by intros p [= <-]]|done|].
  cbn beta. intros target s5 Hs5 Hk5 Htarget. destruct Hparent as [?|(pi & Hpi & _)]; [done|].
  assert (Hp5 : parent = 0 \/ is_Some (inodes (files s5) !! parent)) by (right; apply (ca_inodes _ _ _ Hk5); by exists pi).
  case_decide; [apply leave_fails; [done|by apply Forall_singleton]|]. destruct Htarget as [?|(ti & Hti & Htype)]; [done|].
  apply (ends_step _ _ s5 s5 ti). { unfold on_files, get_inode_at. rewrite gets_bind, Hti. by destruct s5. }
  rewrite decide_True by (rewrite Htype by congruence; done).
  apply leave_fails; [done|]. constructor; [right; by exists ti|by apply Forall_singleton].
Qed.
End paths.

(** C32. ext4_rmdir removes nothing: for every path shorter than PATH_MAX (256
    bytes) and for NULL it returns -1, and it has not even sent a command to the
    drive. ext4_find_inode makes up an inode of a regular file for every path but
    "/", which ext4_rmdir refuses, so that the test for a directory always fails. All
    loops over the path end, and every branch returns, also when memory runs out. A
    longer path can overrun the buffer of PATH_MAX bytes in which ext4_rmdir puts the
    parent together, which [join_loop] shows as a fault. *)
Theorem ext4_rmdir_never_removes `{Hardware W, Patience, !Vfs.Env, Placement} (present : Z -> Prop) `{!PathHeap present} (s : estate W) path :
  complete present (memory s) -> (forall p, path = Some p -> (length p < 256)%nat) ->
  exists s', ext4_rmdir path s = Ret (s', -1) /\ hw (disk s') = hw (disk s).
Proof.
  intros Hm Hlen. destruct (rmdir_ends present path s Hm Hlen) as (s' & r & Hrun & Hs & ->). exists s'. split; [done|apply Hs].
Qed.

(** ** A concrete run *)

Section samples.
(** A heap with one block of 1024 bytes, given to every request that fits. *)
#[local] Instance small_heap : Vfs.Env := {
  malloc n := mret (if decide (n <= 1024) then 10240 else 0); free _ := mret tt;
  call_mount _ _ _ := mret 0; call_umount _ _ := mret 0; call_get_inode _ _ := mret 0; call_mkdir _ _ _ := mret 0;
  call_path _ _ := mret 0; call_open _ _ _ := mret 0; call_close _ _ := mret 0; call_read _ _ _ _ := mret (0, []);
  call_write _ _ _ _ := mret 0; call_ioctl _ _ _ _ := mret 0; call_readdir _ _ := mret (-1, [], FILE_TYPE_REGULAR); stack_byte := 0
}.
#[local] Instance path_placement : Placement := {| code _ := 1; ext4_filesystem := 2; bgd := 6144; buffer := 8192 |}.
#[local] Instance small_path_heap : PathHeap ram.
Proof.
  split.
  - intros n f. eexists f, _. split; [reflexivity|]. split; [reflexivity|]. case_decide; [right|by left].
    intros a Ha. unfold ram. lia.
  - intros a f. exists f, tt. by split.
Qed.

(** rmdir("/d/e") *)
Lemma ext4_rmdir_never_removes_witness : exists s', ext4_rmdir (Some [47; 100; 47; 101]) sample_ext4 = Ret (s', -1) /\
  hw (disk s') = (ext4_drive 0).
Proof.
  destruct (ext4_rmdir_never_removes ram sample_ext4 (Some [47; 100; 47; 101]) sample_complete) as (s' & Hrun & Hhw).
  - intros p E. injection E as <-. cbn. lia.
  - exists s'. exact (conj Hrun Hhw).
Defined.
End samples.
