(* ===== verification/User.v ===== *)
(** * What the user programs stand on (src/stdio.c)

    The shell and the installer run in kernel mode: they call the console, the
    string routines and the keyboard driver directly. The characters that the
    calls of keyboard_getchar will return are a list; when it is used up nothing
    is typed any more, and a program that polls for a character goes on for ever. *)
From Stdlib Require Import String Ascii.
From S2P Require Import Prelude CString Ports Console.

(** The bytes of a string literal, and the line feed of an escape. *)
Definition bytes_of (s : string) : list Z := (fun c => Z.of_N (N_of_ascii c)) <$> list_ascii_of_string s.
Definition line (s : string) : list Z := bytes_of s ++ [10].

Record user (W : Type) := mkUser { con : console W; typed : list Z; last_token : Z }.
Arguments mkUser {W} _ _ _. Arguments con {W} _. Arguments typed {W} _. Arguments last_token {W} _.

(** Where the literals are, and the local array of the formatting function. *)
Class Literals := { address : list Z -> Z; small_buffer : Z }.
(** The heap, over the bytes of the memory. *)
Class UserHeap := { malloc : Z -> cmd mem Z; free : Z -> cmd mem unit }.

Section user.
Context `{Hardware W, Literals, UserHeap}.
Abbreviation U := (cmd (user W)).

Definition on_con {A} (c : cmd (console W) A) : U A := fun s =>
  match c (con s) with Ret (k, a) => Ret (mkUser k (typed s) (last_token s), a) | Fault => Fault | Spin => Spin end.
Definition on_mem {A} (c : cmd mem A) : U A := on_con (on_bytes c).

Definition printf (format : list Z) (args : list Z) : U Z := on_con (handler_printf small_buffer (address format) args).

(** 0 when no key is waiting. *)
Definition keyboard_getchar : U Z := fun s =>
  match typed s with [] => Spin | c :: rest => Ret (mkUser (con s) rest (last_token s), c) end.

(** strtok, with its static variable. *)
Definition next_token (str : Z) (delim : list Z) : U Z :=
  last ← gets last_token;
  '(token, last) ← on_mem (strtok last str (address delim));
  modify (fun s => mkUser (con s) (typed s) last);;
  mret token.

(** ** Reading a line: shell_read_line and installer_read_line *)

(** while (i < max_length - 1); [char] is signed. *)
Fixpoint read_line_loop (fuel : nat) (cursor : U unit) (buffer max_length i : Z) : U Z :=
  match fuel with
  | O => spin
  | S fuel' =>
      if decide (i < max_length - 1) then
        cursor;;
        c ← keyboard_getchar;
        let c := s8 c in
        if decide (c = 10) then on_mem (store (buffer + i) 0);; mret i
        else if decide (c = 8) then
          if decide (i > 0) then printf [8] [];; read_line_loop fuel' cursor buffer max_length (i - 1)
          else read_line_loop fuel' cursor buffer max_length i
        else if decide (32 <= c <= 126) then
          on_mem (store (buffer + i) c);;
          printf [37; 99] [c];;
          read_line_loop fuel' cursor buffer max_length (i + 1)
        else read_line_loop fuel' cursor buffer max_length i
      else on_mem (store (buffer + i) 0);; mret i
  end.
(** Every round takes a character. *)
Definition read_line (cursor : U unit) (buffer max_length : Z) : U Z :=
  n ← gets (fun s => length (typed s)); read_line_loop (S n) cursor buffer max_length 0.

(** ** Cutting a line into words: shell_tokenize and installer_tokenize *)

(** while (token && count < max_args); the array as the list of its pointers. *)
Fixpoint tokenize_loop (n : nat) (token : Z) (args : list Z) : U (list Z) :=
  if decide (token <> 0) then
    match n with
    | O => mret args
    | S n' => next ← next_token 0 [32]; tokenize_loop n' next (args ++ [token])
    end
  else mret args.

(** The array (0: no memory) and its entries. *)
Definition tokenize (max_args : nat) (text : Z) : U (Z * list Z) :=
  argv ← on_mem (malloc (Z.of_nat max_args * 4));
  if decide (argv = 0) then mret (0, []) else
  token ← next_token text [32];
  args ← tokenize_loop max_args token [];
  mret (argv, args).

(** for each command: strcmp(argv[0], name) == 0; its index in the table *)
Fixpoint find_command (names : list (list Z)) (i : Z) (word : Z) : U (option Z) :=
  match names with
  | [] => mret None
  | name :: names' =>
      r ← on_mem (strcmp word (address name));
      if decide (r = 0) then mret (Some i) else find_command names' (i + 1) word
  end.
End user.
