(* ===== verification/UserFacts.v ===== *)
(** * The user programs: reading a line, cutting it into words, printing

    What the operations of User.v come to: a line editor on lists, the words of a
    line, and the terminal of Console.v. *)
From S2P Require Import Prelude CString Ports Console User.

Section user.
Context `{Hardware W, Literals, UserHeap}.
Implicit Types s : user W.

Definition ram s : mem := bytes (con s).
(** The same program on another console or with other input. *)
Definition with_con (k : console W) s : user W := mkUser k (typed s) (last_token s).
Definition with_ram (m : mem) s : user W :=
  with_con (mkConsole (video (con s)) (cx (con s)) (cy (con s)) (char_buffer (con s)) m (hw (con s))) s.
Definition with_typed (l : list Z) s : user W := mkUser (con s) l (last_token s).
Definition with_token (a : Z) s : user W := mkUser (con s) (typed s) a.

Lemma on_con_run {A} (c : cmd (console W) A) s k a : c (con s) = Ret (k, a) -> on_con c s = Ret (with_con k s, a).
Proof. intros E. unfold on_con. by rewrite E. Qed.

Lemma on_mem_run {A} (c : cmd mem A) s m a : c (ram s) = Ret (m, a) -> on_mem c s = Ret (with_ram m s, a).
Proof. intros E. unfold on_mem, on_con, on_bytes. fold (ram s). by rewrite E. Qed.

Lemma with_ram_id s : with_ram (ram s) s = s.
Proof. destruct s as [k l a]. by destruct k. Qed.

(** Nothing changes but the memory. *)
Lemma read_mem_run {A} (c : cmd mem A) s a : c (ram s) = Ret (ram s, a) -> on_mem c s = Ret (s, a).
Proof. intros E. rewrite (on_mem_run _ _ _ _ E). by rewrite with_ram_id. Qed.

Lemma ready_ram s t m : ready (con s) t -> ready (con (with_ram m s)) t.
Proof. apply ready_bytes. Qed.

(** The literal [l] is in memory. *)
Definition literal s (l : list Z) : Prop := cstr (ram s) (address l) l.

(** ** Printing *)

Lemma printf_run s t format items : ready (con s) t -> mapped (ram s) (small_buffer - 1) 12 -> Forall (wf_item small_buffer (ram s)) items ->
  format = concat (format_of <$> items) -> literal s format ->
  (forall a, address format <= a <= address format + Z.of_nat (length format) -> ~ in_buffer small_buffer a) ->
  exists k outs, printf format (concat (args_of <$> items)) s = Ret (with_con k s, 0) /\
    Forall2 renders items outs /\ ready k (foldl tty_put t (concat outs)) /\
    (forall a, ~ in_buffer small_buffer a -> bytes k !! a = ram s !! a) /\ mapped (bytes k) (small_buffer - 1) 12.
Proof.
  intros Hs Hm Hwf -> Hlit Hap. pose proof (cstr_fuel _ _ _ Hlit). pose proof (format_length items).
  destruct (printf_loop_run small_buffer (ram s) items (S (size (ram s))) (con s) t (address (concat (format_of <$> items))))
    as (k & outs & Hrun & Hr & Hk & [Hout Hmap] & _); try done; [lia|]. exists k, outs.
  split; [|by split]. apply on_con_run. unfold handler_printf.
  rewrite (cmd_bind_eq _ _ (con s) (con s) (S (size (bytes (con s))))) by by apply on_bytes_run. by rewrite (cmd_bind_eq _ _ _ _ _ Hrun).
Qed.

(** ** Texts and strings *)

(** The literal [l] is in [m], apart from the buffer of the formatting function. *)
Definition placed (m : mem) (l : list Z) : Prop :=
  cstr m (address l) l /\ forall a, address l <= a <= address l + Z.of_nat (length l) -> ~ in_buffer small_buffer a.

Lemma placed_outside m m' l : outside small_buffer m m' -> placed m l -> placed m' l.
Proof. intros Ho [Hl Ha]. split; [by eapply outside_cstr|done]. Qed.

Lemma wf_item_outside m m' i : outside small_buffer m m' -> wf_item small_buffer m i -> wf_item small_buffer m' i.
Proof. intros Ho. destruct i as [c|n|p w|]; [done..| |done]. intros (Hw & Hp & Ha). split; [by eapply outside_cstr|by split]. Qed.

Lemma outside_trans m m1 m2 : outside small_buffer m m1 -> outside small_buffer m1 m2 -> outside small_buffer m m2.
Proof. intros [Ho1 _] [Ho2 Hm]. split; [|done]. intros a Ha. by rewrite Ho2, Ho1. Qed.

Lemma printf_items_run items format s t : ready (con s) t -> mapped (ram s) (small_buffer - 1) 12 -> Forall (wf_item small_buffer (ram s)) items ->
  format = concat (format_of <$> items) -> placed (ram s) format ->
  exists k outs, printf format (concat (args_of <$> items)) s = Ret (with_con k s, 0) /\ Forall2 renders items outs /\
    ready k (foldl tty_put t (concat outs)) /\ outside small_buffer (ram s) (bytes k).
Proof.
  intros Hr Hm Hwf Hf [Hl Ha]. destruct (printf_run s t format items Hr Hm Hwf Hf Hl Ha) as (k & outs & Hrun & Hout & Hk & Ho).
  exists k, outs. split; [done|by split].
Qed.

Definition plain (c : Z) : Prop := 1 <= c < 256 /\ c <> 37.

Lemma renders_text text outs : Forall2 renders (Lit <$> text) outs -> concat outs = text.
Proof.
  revert outs. induction text as [|c text IH]; intros outs; cbn [fmap list_fmap].
  - intros E%Forall2_nil_inv_l. by rewrite E.
  - intros (out & outs' & Hc & Ht & ->)%Forall2_cons_inv_l. cbn in Hc. subst out. cbn [concat app]. by rewrite (IH _ Ht).
Qed.

Lemma text_items text : concat (format_of <$> (Lit <$> text)) = text /\ concat (args_of <$> (Lit <$> text)) = [].
Proof. induction text as [|c text [IH1 IH2]]; [done|]. cbn [fmap list_fmap concat format_of args_of app] in *. by rewrite IH1. Qed.

(** A string between two texts. *)
Lemma printf_around_run pre a w post s t : ready (con s) t -> mapped (ram s) (small_buffer - 1) 12 -> Forall plain (pre ++ post) ->
  wf_item small_buffer (ram s) (Str a w) -> placed (ram s) (pre ++ [37; 115] ++ post) ->
  exists k, printf (pre ++ [37; 115] ++ post) [a] s = Ret (with_con k s, 0) /\ ready k (foldl tty_put t (pre ++ w ++ post)) /\ outside small_buffer (ram s) (bytes k).
Proof.
  intros Hr Hm Hp Hw Hl. destruct (text_items pre) as [Hf1 Ha1], (text_items post) as [Hf2 Ha2]. apply Forall_app in Hp as [Hp1 Hp2].
  destruct (printf_items_run ((Lit <$> pre) ++ Str a w :: (Lit <$> post)) (pre ++ [37; 115] ++ post) s t Hr Hm) as (k & outs & Hrun & Hout & Hk & Ho); [| |done|].
  - apply Forall_app. split; [apply Forall_fmap; eapply Forall_impl; [exact Hp1|done]|]. constructor; [done|]. apply Forall_fmap. eapply Forall_impl; [exact Hp2|done].
  - rewrite fmap_app, fmap_cons, concat_app. cbn [concat format_of]. by rewrite Hf1, Hf2.
  - exists k. rewrite fmap_app, fmap_cons, concat_app in Hrun. cbn [concat args_of app] in Hrun. rewrite Ha1, Ha2 in Hrun. split; [exact Hrun|]. split; [|done].
    apply Forall2_app_inv_l in Hout as (o1 & o2 & Ho1 & Ho2 & ->). apply Forall2_cons_inv_l in Ho2 as (o & o3 & Hs & Ho3 & ->). cbn in Hs. subst o.
    rewrite concat_app in Hk. cbn [concat] in Hk. by rewrite (renders_text _ _ Ho1), (renders_text _ _ Ho3) in Hk.
Qed.

Lemma printf_text_run text s t : ready (con s) t -> mapped (ram s) (small_buffer - 1) 12 -> Forall plain text -> placed (ram s) text ->
  exists k, printf text [] s = Ret (with_con k s, 0) /\ ready k (foldl tty_put t text) /\ outside small_buffer (ram s) (bytes k).
Proof.
  intros Hr Hm Hp Hl. destruct (text_items text) as [Hf Hargs].
  destruct (printf_items_run (Lit <$> text) text s t Hr Hm) as (k & outs & Hrun & Hout & Hk & Ho); [|by rewrite Hf|done|].
  - apply Forall_fmap. eapply Forall_impl; [exact Hp|]. done.
  - exists k. rewrite Hargs in Hrun. rewrite (renders_text _ _ Hout) in Hk. by split.
Qed.

(** printf("%c", c), and a literal of one character: nothing of the memory changes. *)
Lemma printf_char_run s t c : ready (con s) t -> literal s [37; 99] -> 1 <= c < 256 ->
  exists k, printf [37; 99] [c] s = Ret (with_con k s, 0) /\ ready k (tty_put t c) /\ bytes k = ram s.
Proof.
  intros Hs Hlit Hc. destruct (print_char_run (con s) t c Hs ltac:(lia)) as (k & Hrun & Hk & Hb & _). exists k.
  unfold put_byte in Hk. rewrite decide_False in Hk by lia. split; [|by split]. apply on_con_run. unfold handler_printf.
  pose proof Hlit as Hl. apply cstr_cons in Hl as (Hl1 & _ & Hl2). apply cstr_cons in Hl2 as (Hl2 & _ & Hl3). apply cstr_nil in Hl3.
  set (f := address [37; 99]) in *. rewrite (cmd_bind_eq _ _ (con s) (con s) (S (size (bytes (con s))))) by by apply on_bytes_run.
  pose proof (cstr_fuel _ _ _ Hlit) as Hfuel. cbn [length] in Hfuel. fold (ram s). set (n := S (size (ram s))) in *.
  assert (Hpn : parse_flags n (f + 1) 0 (con s) = Ret (con s, (f + 1, 0)) /\ parse_number n (f + 1) 0 (con s) = Ret (con s, (f + 1, 0))).
  { unfold n. cbn [parse_flags parse_number]. rewrite !(load_step _ _ _ _ Hl2). split; repeat (rewrite decide_False by lia); done. }
  destruct Hpn as [Hpf Hpn]. unfold n at 1. cbn [printf_loop].
  rewrite (cmd_bind_eq _ _ (con s) k tt); [done|]. rewrite (load_step _ _ _ _ Hl1), decide_False by lia. rewrite (decide_False (P := 37 <> 37)) by lia.
  rewrite (cmd_bind_eq _ _ (con s) (con s) n) by by apply on_bytes_run.
  rewrite (cmd_bind_eq _ _ _ _ _ Hpf), (cmd_bind_eq _ _ _ _ _ Hpn), (load_step _ _ _ _ Hl2), decide_False by lia.
  rewrite ret_bind, (load_step _ _ _ _ Hl2). rewrite (cmd_bind_eq _ _ (con s) k []).
  - destruct (size (ram s)) as [|z] eqn:Ez; [lia|]. cbn [printf_loop].
    rewrite (load_step _ _ 0) by (rewrite Hb; exact Hl3). done.
  - unfold conversion. repeat (rewrite decide_False by lia). rewrite decide_True by done. cbn [next_arg]. rewrite ret_bind.
    rewrite u32_small by (unfold is_u32; lia). rewrite u8_small by (unfold is_u8; lia).
    rewrite (cmd_bind_eq _ _ (con s) k tt); [done|]. unfold print_c. rewrite !(decide_False (P := 0 > 1)) by lia.
    change ((print_char c;; mret tt) (con s) = Ret (k, tt)). by rewrite (cmd_bind_eq _ _ _ _ _ Hrun).
Qed.

Lemma printf_plain_run s t c : ready (con s) t -> literal s [c] -> c <> 37 ->
  exists k, printf [c] [] s = Ret (with_con k s, 0) /\ ready k (tty_put t c) /\ bytes k = ram s.
Proof.
  intros Hs Hlit Hc. pose proof Hlit as Hl. apply cstr_cons in Hl as (Hl1 & Hcr & Hl2). apply cstr_nil in Hl2.
  destruct (print_char_run (con s) t c Hs ltac:(lia)) as (k & Hrun & Hk & Hb & _). exists k.
  unfold put_byte in Hk. rewrite decide_False in Hk by lia. split; [|by split]. apply on_con_run. unfold handler_printf.
  rewrite (cmd_bind_eq _ _ (con s) (con s) (S (size (bytes (con s))))) by by apply on_bytes_run.
  pose proof (cstr_fuel _ _ _ Hlit) as Hfuel. cbn [length] in Hfuel. fold (ram s).
  destruct (size (ram s)) as [|n] eqn:En; [lia|]. cbn [printf_loop].
  rewrite (cmd_bind_eq _ _ (con s) k tt); [done|]. rewrite (load_step _ _ _ _ Hl1), decide_False, decide_True by lia.
  rewrite (cmd_bind_eq _ _ _ _ _ Hrun). rewrite (load_step _ _ 0) by (rewrite Hb; exact Hl2). done.
Qed.

(** ** The line editor *)

(** What a key does to the line and to the terminal; the other keys, and 0 when
    none waits, do nothing. *)
Definition edit_key (l : list Z) (c : Z) : list Z :=
  if decide (c = 8) then removelast l else if decide (32 <= c <= 126) then l ++ [c] else l.
Definition echo_key (l : list Z) (t : tty) (c : Z) : tty :=
  if decide (c = 8) then match l with [] => t | _ => tty_put t 8 end else if decide (32 <= c <= 126) then tty_put t c else t.

(** The line, the terminal and the keys that are left; [None] while neither the
    line feed has been typed nor the line has [max] characters. *)
Fixpoint edit (max : nat) (l : list Z) (t : tty) (keys : list Z) : option (list Z * tty * list Z) :=
  if decide (max <= length l)%nat then Some (l, t, keys) else
  match keys with
  | [] => None
  | c :: keys' => if decide (c = 10) then Some (l, t, keys') else edit max (edit_key l c) (echo_key l t c) keys'
  end.

(** A command that may be called at every key. *)
Definition harmless (c : cmd (user W) unit) : Prop := forall s t, ready (con s) t ->
  exists k, c s = Ret (with_con k s, tt) /\ ready k t /\ bytes k = ram s.

Lemma update_cursor_harmless : harmless (on_con update_cursor).
Proof.
  intros s t Hr. pose proof Hr as [[[_ _ _ _ Hx Hy _] [Hl Hc]] _].
  destruct (con s) as [v x y b m h] eqn:E. cbn [cx cy] in Hx, Hy.
  assert (Hxy : exists h', update_cursor (mkConsole v x y b m h) = Ret (mkConsole v x y b m h', tt)).
  { unfold update_cursor. rewrite !gets_bind. cbn [cx cy]. unfold set_cursor_position, VIDEO_WIDTH, VIDEO_HEIGHT.
    rewrite !(decide_False (P := x >= 80)), !(decide_False (P := y >= 25)) by lia. rewrite !modify_bind. unfold set_x, set_y. cbn [video cx cy char_buffer bytes hw].
    rewrite (u8_small x), (u8_small y) by (unfold is_u8; lia). eexists. reflexivity. }
  destruct Hxy as [h' Hrun]. exists (mkConsole v x y b m h'). split; [apply on_con_run; by rewrite E|].
  split; [|unfold ram; by rewrite E]. by destruct Hr as [[[? ? ? ? ? ? ?] ?] ?].
Qed.

Lemma nothing_harmless : harmless (mret tt).
Proof. intros s t Hr. exists (con s). split; [by destruct s|done]. Qed.

Lemma s8_key c : is_u8 c -> s8 c = if decide (c < 128) then c else c - 256.
Proof. unfold is_u8, s8. intros Hc. case_decide; zdm. Qed.

Lemma u8_s8 c : is_u8 c -> u8 (s8 c) = c.
Proof. unfold is_u8, s8, u8. intros Hc. zdm. Qed.

Lemma removelast_length (l : list Z) : l <> [] -> Z.of_nat (length (removelast l)) = Z.of_nat (length l) - 1.
Proof. intros Hl. destruct (exists_last Hl) as (l' & c & ->). rewrite removelast_last, length_app. cbn. lia. Qed.

Lemma removelast_prefix (l : list Z) : exists r, l = removelast l ++ r.
Proof. destruct (decide (l = [])) as [->|Hl]; [by exists []|]. destruct (exists_last Hl) as (l' & c & ->). exists [c]. by rewrite removelast_last. Qed.

(** The area of the line, with the literals of the echo apart from it. *)
Record line_area s (buffer max : Z) : Prop := {
  la_mapped : mapped (ram s) buffer max;
  la_literals : literal s [8] /\ literal s [37; 99];
  la_apart : forall a, buffer <= a < buffer + max -> ~ (address [8] <= a < address [8] + 2) /\ ~ (address [37; 99] <= a < address [37; 99] + 3)
}.

Lemma line_area_ext s s' buffer max : mapped (ram s') buffer max -> (forall a, ~ (buffer <= a < buffer + max) -> ram s' !! a = ram s !! a) ->
  line_area s buffer max -> line_area s' buffer max.
Proof.
  intros Hm Hext [_ [Hl1 Hl2] Ha]. constructor; [done| |done].
  split; (eapply cstr_ext; [|eassumption]); intros a Hr; apply Hext; intros Hin; destruct (Ha a Hin) as [Hn1 Hn2]; cbn [length] in Hr; first [apply Hn1; lia|apply Hn2; lia].
Qed.

Definition ends_line s (buffer max : Z) (r : outcome (user W * Z)) (e : option (list Z * tty * list Z)) : Prop :=
  match e with
  | Some (l, t, rest) => exists k, r = Ret (mkUser k rest (last_token s), Z.of_nat (length l)) /\ ready k t /\ cstr (bytes k) buffer l /\
      forall a, ~ (buffer <= a < buffer + max) -> bytes k !! a = ram s !! a
  | None => r = Spin
  end.

Lemma end_line_run s t buffer max l : ready (con s) t -> mapped (ram s) buffer max -> bytes_at (ram s) buffer l -> Forall (fun c => 32 <= c <= 126) l ->
  Z.of_nat (length l) < max ->
  ends_line s buffer max ((on_mem (store (buffer + Z.of_nat (length l)) 0);; mret (Z.of_nat (length l))) s) (Some (l, t, typed s)).
Proof.
  intros Hr Hm Hl Hp Hlen. pose proof (store_run (ram s) (buffer + Z.of_nat (length l)) 0 (Hm (buffer + Z.of_nat (length l)) ltac:(lia)) ltac:(unfold is_u8; lia)) as Hst.
  rewrite (cmd_bind_eq _ _ _ _ _ (on_mem_run _ _ _ _ Hst)). eexists. split; [reflexivity|]. split; [by apply ready_bytes|]. cbn [bytes]. split.
  - split; [|eapply Forall_impl; [exact Hp|]; cbn beta; lia]. apply bytes_at_app. split; [|split; [apply lookup_insert_eq|done]].
    eapply bytes_at_ext; [|exact Hl]. intros a Ha. apply lookup_insert_ne. lia.
  - intros a Ha. apply lookup_insert_ne. lia.
Qed.

Lemma ends_line_ext s s' buffer max r e : last_token s' = last_token s -> (forall a, ~ (buffer <= a < buffer + max) -> ram s' !! a = ram s !! a) ->
  ends_line s' buffer max r e -> ends_line s buffer max r e.
Proof.
  intros Ht Hext. destruct e as [[[l t] rest]|]; [|done]. intros (k & -> & Hr & Hc & Hout). exists k. rewrite Ht.
  split; [done|]. split; [done|]. split; [done|]. intros a Ha. by rewrite Hout, Hext.
Qed.

Lemma bytes_at_prefix m p l r : bytes_at m p (l ++ r) -> bytes_at m p l.
Proof. by intros [? _]%bytes_at_app. Qed.

Lemma read_line_loop_run cursor buffer max : harmless cursor -> 1 <= max -> forall keys fuel s t l, typed s = keys -> (length keys < fuel)%nat ->
  Forall is_u8 keys -> ready (con s) t -> line_area s buffer max -> bytes_at (ram s) buffer l -> Forall (fun c => 32 <= c <= 126) l ->
  Z.of_nat (length l) < max ->
  ends_line s buffer max (read_line_loop fuel cursor buffer max (Z.of_nat (length l)) s) (edit (Z.to_nat (max - 1)) l t keys).
Proof.
  intros Hcur Hmax. induction keys as [|c keys IH]; intros fuel s t l Htyped Hfuel Hu Hr Hla Hl Hp Hlen; (destruct fuel as [|fuel]; [cbn in Hfuel; lia|]);
    pose proof Hla as [Hm [Hl8 Hlc] Hap]; cbn [read_line_loop edit].
  - destruct (decide (Z.to_nat (max - 1) <= length l)%nat) as [Hfull|Hfull]; [rewrite decide_False by lia; rewrite <- Htyped; by apply end_line_run|].
    rewrite decide_True by lia. destruct (Hcur s t Hr) as (k & Hrun & _). rewrite (cmd_bind_eq _ _ _ _ _ Hrun).
    unfold mbind, cmd_mbind, keyboard_getchar. cbn [typed with_con]. by rewrite Htyped.
  - destruct (decide (Z.to_nat (max - 1) <= length l)%nat) as [Hfull|Hfull]; [rewrite decide_False by lia; rewrite <- Htyped; by apply end_line_run|].
    rewrite decide_True by lia. destruct (Hcur s t Hr) as (k & Hrun & Hk & Hkb). rewrite (cmd_bind_eq _ _ _ _ _ Hrun).
    apply Forall_cons in Hu as [Hc Hu]. rewrite (cmd_bind_eq keyboard_getchar _ _ (mkUser k keys (last_token s)) c) by (unfold keyboard_getchar; cbn [typed with_con]; by rewrite Htyped).
    set (s1 := mkUser k keys (last_token s)). cbn [length] in Hfuel.
    assert (Hla1 : line_area s1 buffer max) by (apply (line_area_ext s s1); [unfold ram, s1; cbn [con]; by rewrite Hkb|unfold ram, s1; cbn [con]; by rewrite Hkb|done]).
    assert (Hl1 : bytes_at (ram s1) buffer l) by (unfold ram, s1; cbn [con]; by rewrite Hkb).
    assert (Hext1 : forall a, ram s1 !! a = ram s !! a) by (intros a; unfold ram, s1; cbn [con]; by rewrite Hkb).
    pose proof (s8_key c Hc) as Hs8. unfold is_u8 in Hc. unfold edit_key, echo_key.
    (* the rest of the line is read by the induction hypothesis *)
    assert (Hgo : forall s2 t2 l2 i, i = Z.of_nat (length l2) -> typed s2 = keys -> last_token s2 = last_token s -> ready (con s2) t2 -> mapped (ram s2) buffer max ->
      (forall a, ~ (buffer <= a < buffer + max) -> ram s2 !! a = ram s !! a) -> bytes_at (ram s2) buffer l2 -> Forall (fun c => 32 <= c <= 126) l2 ->
      Z.of_nat (length l2) < max -> ends_line s buffer max (read_line_loop fuel cursor buffer max i s2) (edit (Z.to_nat (max - 1)) l2 t2 keys)).
    { intros s2 t2 l2 i -> Ht2 Hlt2 Hr2 Hm2 Hext2 Hb2 Hp2 Hlen2. apply (ends_line_ext s s2); [done|done|]. apply IH; try done; [lia|]. by apply (line_area_ext s s2). }
    destruct (decide (c = 10)) as [->|Hc10].
    { rewrite (decide_True (P := s8 10 = 10)) by done. apply (ends_line_ext s s1); [done|intros a _; apply Hext1|]. by apply end_line_run; [|apply Hla1|..]. }
    rewrite decide_False by (rewrite Hs8; case_decide; lia). destruct (decide (c = 8)) as [->|Hc8].
    { rewrite (decide_True (P := s8 8 = 8)) by done. destruct l as [|b l0]; [rewrite decide_False by (cbn; lia); by apply Hgo; first [done | lia | apply Hla1 | (intros a _; apply Hext1) | idtac]|].
      set (l := b :: l0) in *. rewrite decide_True by (cbn [length l]; lia).
      destruct (printf_plain_run s1 t 8 Hk (proj1 (la_literals _ _ _ Hla1)) ltac:(lia)) as (k2 & Hrun2 & Hk2 & Hb2). rewrite (cmd_bind_eq _ _ _ _ _ Hrun2).
      destruct (removelast_prefix l) as [r Er]. pose proof (removelast_length l ltac:(done)) as Hrl.
      assert (Hram2 : ram (with_con k2 s1) = ram s1) by exact Hb2.
      apply Hgo; rewrite ?Hram2; first [done | lia | apply Hla1 | (intros a _; apply Hext1) | idtac].
      - apply (bytes_at_prefix _ _ _ r). by rewrite <- Er.
      - rewrite Er in Hp. by apply Forall_app in Hp as [? _]. }
    rewrite decide_False by (rewrite Hs8; case_decide; lia). destruct (decide (32 <= c <= 126)) as [Hpr|Hpr].
    + assert (Es : s8 c = c) by (rewrite Hs8, decide_True by lia; done). rewrite Es, decide_True by done.
      pose proof (store_run (ram s1) (buffer + Z.of_nat (length l)) c (la_mapped _ _ _ Hla1 (buffer + Z.of_nat (length l)) ltac:(lia)) Hc) as Hst.
      rewrite (cmd_bind_eq _ _ _ _ _ (on_mem_run _ _ _ _ Hst)). set (s2 := with_ram _ s1).
      assert (Hm2 : mapped (ram s2) buffer max) by (intros a Ha; apply (mapped_insert _ _ _ _ _ (la_mapped _ _ _ Hla1)); lia).
      assert (Hext2 : forall a, ~ (buffer <= a < buffer + max) -> ram s2 !! a = ram s1 !! a) by (intros a Ha; apply lookup_insert_ne; lia).
      assert (Hla2 : line_area s2 buffer max) by by apply (line_area_ext s1 s2).
      destruct (printf_char_run s2 t c) as (k3 & Hrun3 & Hk3 & Hb3); [by apply ready_ram|apply Hla2|lia|]. rewrite (cmd_bind_eq _ _ _ _ _ Hrun3).
      assert (Hram3 : ram (with_con k3 s2) = ram s2) by exact Hb3.
      apply Hgo; rewrite ?Hram3, ?length_app; cbn [length];
        first [done | lia | (intros a Ha; by rewrite Hext2, Hext1) | (apply Forall_app; by split; [|apply Forall_singleton]) | idtac].
      apply bytes_at_app. split; [|split; [apply lookup_insert_eq|done]]. eapply bytes_at_ext; [|exact Hl1]. intros a Ha. apply lookup_insert_ne. lia.
    + rewrite decide_False by (rewrite Hs8; case_decide; lia). by apply Hgo; first [done | lia | apply Hla1 | (intros a _; apply Hext1) | idtac].
Qed.
End user.

(** C34. Reading a line edits it: printable characters are added to the line and
    echoed, a backspace takes the last one away on the line and on the screen, all
    other keys are ignored, and the line ends with a line feed or with its
    [max - 1]st character, the keys behind it being left for the next line. The
    buffer then holds the line, its length is the result and nothing else of the
    memory has changed. As long as the line is not complete the program waits. *)
Theorem read_line_edits `{Hardware W, Literals} s t buffer max : 1 <= max -> Forall is_u8 (typed s) -> ready (con s) t -> line_area s buffer max ->
  match edit (Z.to_nat (max - 1)) [] t (typed s) with
  | Some (l, t', rest) => exists k, read_line (on_con update_cursor) buffer max s = Ret (mkUser k rest (last_token s), Z.of_nat (length l)) /\
      ready k t' /\ cstr (bytes k) buffer l /\ forall a, ~ (buffer <= a < buffer + max) -> bytes k !! a = ram s !! a
  | None => read_line (on_con update_cursor) buffer max s = Spin
  end.
Proof.
  intros Hmax Hu Hr Hla. pose proof (read_line_loop_run _ buffer max update_cursor_harmless Hmax (typed s) (S (length (typed s))) s t [] eq_refl ltac:(lia) Hu Hr Hla I) as Hrun.
  specialize (Hrun ltac:(constructor) ltac:(cbn; lia)). unfold read_line. rewrite gets_bind. exact Hrun.
Qed.

(** ** The words of a line *)

(** The words that spaces separate. *)
Fixpoint words_with (cur l : list Z) : list (list Z) :=
  match l with
  | [] => match cur with [] => [] | _ => [cur] end
  | c :: l' => if decide (c = 32) then match cur with [] => words_with [] l' | _ => cur :: words_with [] l' end else words_with (cur ++ [c]) l'
  end.
Definition words (l : list Z) : list (list Z) := words_with [] l.

Definition spaces (l : list Z) : Prop := Forall (fun c => c = 32) l.
Definition no_space (l : list Z) : Prop := Forall (fun c => c <> 32) l.

Lemma words_word tok : forall cur rest, no_space tok -> words_with cur (tok ++ rest) = words_with (cur ++ tok) rest.
Proof.
  induction tok as [|c tok IH]; intros cur rest Hn; [by rewrite app_nil_r|]. apply Forall_cons in Hn as [Hc Hn].
  cbn [app words_with]. rewrite decide_False by done. rewrite IH by done. by rewrite <- app_assoc.
Qed.

Lemma words_spaces pre l : spaces pre -> words (pre ++ l) = words l.
Proof. unfold words. induction 1 as [|c pre -> _ IH]; [done|]. exact IH. Qed.

(** Either nothing but spaces, or a first word with what comes behind it. *)
Lemma words_first l : (spaces l /\ words l = []) \/
  exists pre tok rest, l = pre ++ tok ++ rest /\ spaces pre /\ no_space tok /\ tok <> [] /\ words l = tok :: words (tail rest) /\
    (rest = [] \/ exists r, rest = 32 :: r).
Proof.
  assert (Hspan : forall l, exists tok rest, l = tok ++ rest /\ no_space tok /\ (rest = [] \/ exists r, rest = 32 :: r)).
  { clear l. induction l as [|c l (tok & rest & -> & Hn & Hr)]; [exists [], []; split; [done|]; split; [constructor|by left]|].
    destruct (decide (c = 32)) as [->|Hc]; [exists [], (32 :: tok ++ rest); split; [done|]; split; [constructor|right; by eexists]|].
    exists (c :: tok), rest. split; [done|]. split; [by constructor|done]. }
  induction l as [|c l IH]; [left; by split; [constructor|]|]. destruct (decide (c = 32)) as [->|Hc].
  - destruct IH as [[Hs Hw]|(pre & tok & rest & -> & Hpre & Hrest)]; [left; split; [by constructor|exact Hw]|].
    right. exists (32 :: pre), tok, rest. split; [done|]. split; [by constructor|exact Hrest].
  - right. destruct (Hspan l) as (tok & rest & -> & Hn & Hr). exists [], (c :: tok), rest. split; [done|]. split; [constructor|].
    assert (Hn' : no_space (c :: tok)) by by constructor. split; [done|]. split; [done|]. split; [|done].
    unfold words. change (c :: tok ++ rest) with ((c :: tok) ++ rest). rewrite words_word by done. cbn [app].
    destruct Hr as [->|[r ->]]; done.
Qed.

Section words.
Context `{Hardware W, Literals, UserHeap}.
Implicit Types s : user W.

(** What is left of a line that ends at [hi]: the static variable of strtok
    stands at it, not before [lo], or is NULL at the end. *)
Definition pending (m : mem) (lo hi q : Z) (ws : list (list Z)) : Prop :=
  (q = 0 /\ ws = []) \/ (lo <= q /\ 0 < q /\ exists r, cstr m q r /\ words r = ws /\ q + Z.of_nat (length r) = hi).

(** The delimiters lie apart from the line. *)
Definition delimiter_ok s (lo hi : Z) : Prop := literal s [32] /\ 0 < address [32] /\ (address [32] + 1 < lo \/ hi < address [32]).

Lemma in_delim c : c ∈ [32] <-> c = 32.
Proof. by rewrite list_elem_of_singleton. Qed.

Lemma next_token_run s str lo hi ws : pending (ram s) lo hi (if decide (str = 0) then last_token s else str) ws -> delimiter_ok s lo hi ->
  match ws with
  | [] => next_token str [32] s = Ret (with_token 0 s, 0)
  | w :: ws' => exists m a q, next_token str [32] s = Ret (with_token q (with_ram m s), a) /\ lo <= a /\ 0 < a /\ cstr m a w /\
      pending m (a + Z.of_nat (length w) + 1) hi q ws' /\ (forall x, x < lo \/ hi < x -> m !! x = ram s !! x) /\
      a + Z.of_nat (length w) <= hi
  end.
Proof.
  set (q := if decide (str = 0) then last_token s else str). intros Hp (Hd & Hdp & Hap).
  assert (Hrun : forall m a l, strtok (last_token s) str (address [32]) (ram s) = Ret (m, (a, l)) -> next_token str [32] s = Ret (with_token l (with_ram m s), a)).
  { intros m a l E. unfold next_token. rewrite gets_bind. rewrite (cmd_bind_eq _ _ _ _ _ (on_mem_run _ _ _ _ E)). done. }
  assert (Hq : forall m0, strtok (last_token s) str (address [32]) m0 = strtok q q (address [32]) m0).
  { intros m0. unfold strtok, q. destruct (decide (str = 0)) as [->|Hs].
    - case_decide as E; [by rewrite decide_True by exact E|by rewrite decide_False by exact E].
    - by rewrite !(decide_False (P := str = 0)) by exact Hs. }
  destruct Hp as [[Eq ->]|(Hlo & Hpos & r & Hr & Hw & Hend)].
  - rewrite (Hrun (ram s) 0 0); [by rewrite with_ram_id|]. rewrite Hq, Eq. done.
  - destruct (words_first r) as [[Hs Hn]|(pre & tok & rest & -> & Hpre & Htok & Hne & Hws & Hrest)].
    + rewrite Hn in Hw. subst ws. rewrite (Hrun (ram s) 0 0); [by rewrite with_ram_id|]. rewrite Hq. unfold strtok.
      rewrite (decide_False (P := q = 0)) by lia. cbn zeta. rewrite decide_False by lia. pose proof (cstr_fuel _ _ _ Hr) as Hf.
      rewrite fuel_bind. rewrite (cmd_bind_eq _ _ (ram s) (ram s) (q + Z.of_nat (length r))).
      * destruct Hr as [Hb _]. apply bytes_at_app in Hb as [_ [Hb _]]. by rewrite (load_bind _ _ _ _ Hb), decide_True.
      * apply (strtok_scan_spec true [32] r []); [lia|by rewrite app_nil_r|done|done| |done].
        eapply Forall_impl; [exact Hs|]. cbn beta. intros c ->. by rewrite in_delim.
    + rewrite Hws in Hw. subst ws. destruct (strtok_token (ram s) q q (address [32]) [32] pre tok rest) as (m & Hst & Ht & _ & Hext & Hnext); try done.
      * eapply Forall_impl; [exact Hpre|]. cbn beta. intros c ->. by apply in_delim.
      * eapply Forall_impl; [exact Htok|]. cbn beta. intros c Hc. by rewrite in_delim.
      * destruct Hrest as [->|[r ->]]; [done|by apply in_delim].
      * cbn [length]. lia.
      * rewrite !length_app in Hend. exists m, (q + Z.of_nat (length pre)), (if decide (rest = []) then 0 else q + Z.of_nat (length pre) + Z.of_nat (length tok) + 1).
        split; [apply Hrun; by rewrite Hq|]. split; [lia|]. split; [lia|]. split; [done|]. split; [|split; [|lia]].
        -- destruct Hrest as [->|[r ->]]; [left; by split|]. right. rewrite decide_False by done. split; [lia|]. split; [lia|]. exists r.
           split; [by apply Hnext|]. split; [done|]. cbn [length] in Hend. lia.
        -- intros x Hx. apply Hext. lia.
Qed.

Lemma delimiter_ok_ext s s' lo lo' hi : lo <= lo' -> (forall x, x < lo \/ hi < x -> ram s' !! x = ram s !! x) -> delimiter_ok s lo hi -> delimiter_ok s' lo' hi.
Proof.
  intros Hlo Hext (Hd & Hp & Ha). split; [|split; [done|lia]]. eapply cstr_ext; [|exact Hd]. intros x Hx. apply Hext. cbn [length] in Hx. lia.
Qed.

(** The word [w] is a string of its own at [a], between [lo] and [hi]. *)
Definition word_at (m : mem) (lo hi a : Z) (w : list Z) : Prop := 0 < a /\ lo <= a /\ a + Z.of_nat (length w) <= hi /\ cstr m a w.

(** A word has been fetched, or the line is at its end. *)
Definition fetched s (lo hi token : Z) (ws : list (list Z)) : Prop :=
  match ws with
  | [] => token = 0
  | w :: ws' => word_at (ram s) lo hi token w /\ pending (ram s) (token + Z.of_nat (length w) + 1) hi (last_token s) ws'
  end.

Lemma tokenize_loop_run n : forall s lo hi token ws args, fetched s lo hi token ws -> delimiter_ok s lo hi ->
  exists m q new, tokenize_loop n token args s = Ret (with_token q (with_ram m s), args ++ new) /\
    Forall2 (word_at m lo hi) new (take n ws) /\ (forall x, x < lo \/ hi < x -> m !! x = ram s !! x).
Proof.
  assert (Hstop : forall lo hi k s ws token args, token = 0 /\ ws = [] \/ k = 0%nat -> exists m q new, tokenize_loop k token args s = Ret (with_token q (with_ram m s), args ++ new) /\
    Forall2 (word_at m lo hi) new (take k ws) /\ forall x, m !! x = ram s !! x).
  { intros lo hi k s ws token args Hcase. exists (ram s), (last_token s), []. rewrite with_ram_id, app_nil_r. replace (with_token (last_token s) s) with s by by destruct s.
    split; [|split; [|done]]; destruct Hcase as [[-> ->]| ->]; cbn [tokenize_loop].
    - destruct k; done.
    - by case_decide.
    - by rewrite take_nil.
    - done. }
  induction n as [|n IH]; intros s lo hi token ws args Hf Hd.
  { destruct (Hstop lo hi 0%nat s ws token args ltac:(by right)) as (m & q & new & ? & ? & Hext). exists m, q, new. split; [done|]. split; [done|]. by intros x _. }
  destruct ws as [|w ws]; cbn [fetched] in Hf.
  { destruct (Hstop lo hi (S n) s [] token args ltac:(by left)) as (m & q & new & ? & ? & Hext). exists m, q, new. split; [done|]. split; [done|]. by intros x _. }
  destruct Hf as ((Hpos & Hlo & Hhi & Hw) & Hp). cbn [tokenize_loop]. rewrite decide_True by lia. set (lo1 := token + Z.of_nat (length w) + 1) in *.
  pose proof (next_token_run s 0 lo1 hi ws Hp (delimiter_ok_ext s s lo lo1 hi ltac:(lia) ltac:(done) Hd)) as Hnext.
  destruct ws as [|w2 ws].
  - rewrite (cmd_bind_eq _ _ _ _ _ Hnext). destruct (Hstop lo hi n (with_token 0 s) [] 0 (args ++ [token]) ltac:(by left)) as (m & q & new & Hrun & Hnew & Hext).
    exists m, q, (token :: new). rewrite take_nil in Hnew. split; [by rewrite Hrun, <- app_assoc|]. split; [|by intros x _; apply Hext].
    cbn [take]. rewrite take_nil. constructor; [|done]. split_and!; [done..|]. eapply cstr_ext; [|exact Hw]. intros x _. apply Hext.
  - destruct Hnext as (m2 & a & q2 & Hrun2 & Ha & Hap & Hw2 & Hp2 & Hext2 & Hend2). rewrite (cmd_bind_eq _ _ _ _ _ Hrun2).
    set (s2 := with_token q2 (with_ram m2 s)).
    destruct (IH s2 lo1 hi a (w2 :: ws) (args ++ [token])) as (m & q & new & Hrun & Hnew & Hext).
    { cbn [fetched]. split; [by split_and!|done]. }
    { apply (delimiter_ok_ext s s2 lo lo1 hi); [lia| |done]. intros x Hx. apply Hext2. lia. }
    exists m, q, (token :: new). split; [by rewrite Hrun, <- app_assoc|]. split.
    + cbn [take]. constructor; [|eapply Forall2_impl; [exact Hnew|]; intros a' w' (? & ? & ? & ?); split_and!; [done|lia|done|done]]. split_and!; [done..|]. eapply cstr_ext; [|exact Hw]. intros x Hx. rewrite Hext by lia. apply Hext2. lia.
    + intros x Hx. rewrite Hext by lia. apply Hext2. lia.
Qed.

(** The heap does not touch the bytes of [keep]. *)
Class HeapKeeps (keep : Z -> Prop) : Prop := {
  heap_malloc : forall n m, exists m' a, malloc n m = Ret (m', a) /\ forall x, keep x -> m' !! x = m !! x;
  heap_free : forall a m, exists m', free a m = Ret (m', tt) /\ forall x, keep x -> m' !! x = m !! x
}.

Lemma tokenize_run (keep : Z -> Prop) `{!HeapKeeps keep} s max_args text l :
  cstr (ram s) text l -> 0 < text -> delimiter_ok s text (text + Z.of_nat (length l)) ->
  (forall x, text <= x <= text + Z.of_nat (length l) -> keep x) -> (forall x, address [32] <= x <= address [32] + 1 -> keep x) ->
  exists m q argv args, tokenize max_args text s = Ret (with_token q (with_ram m s), (argv, args)) /\
    (argv = 0 /\ args = [] \/ argv <> 0 /\ Forall2 (word_at m text (text + Z.of_nat (length l))) args (take max_args (words l))) /\
    forall x, keep x -> x < text \/ text + Z.of_nat (length l) < x -> m !! x = ram s !! x.
Proof.
  intros Hl Hpos (Hd & Hdp & Hda) Hkeep Hkeepd. unfold tokenize. destruct (heap_malloc (Z.of_nat max_args * 4) (ram s)) as (m1 & argv & Hm & Hk).
  rewrite (cmd_bind_eq _ _ _ _ _ (on_mem_run _ _ _ _ Hm)). set (s1 := with_ram m1 s). case_decide as Ha.
  { exists m1, (last_token s), 0, []. split; [by destruct s|]. split; [by left|]. intros x Hx _. by apply Hk. }
  set (hi := text + Z.of_nat (length l)) in *.
  assert (Hl1 : cstr (ram s1) text l) by (eapply cstr_ext; [|exact Hl]; intros x Hx; by apply Hk, Hkeep).
  assert (Hd1 : delimiter_ok s1 text hi) by (split; [eapply cstr_ext; [|exact Hd]; intros x Hx; apply Hk, Hkeepd; cbn [length] in Hx; lia|done]).
  assert (Hp1 : pending (ram s1) text hi (if decide (text = 0) then last_token s1 else text) (words l)).
  { rewrite decide_False by lia. right. split; [lia|]. split; [lia|]. by exists l. }
  pose proof (next_token_run s1 text text hi (words l) Hp1 Hd1) as Hnext.
  assert (Hloop : forall s2 token, next_token text [32] s1 = Ret (s2, token) -> fetched s2 text hi token (words l) -> delimiter_ok s2 text hi ->
    (exists m q, s2 = with_token q (with_ram m s)) -> (forall x, x < text \/ hi < x -> ram s2 !! x = ram s1 !! x) ->
    exists m q args, (token ← next_token text [32]; args ← tokenize_loop max_args token []; mret (argv, args)) s1 = Ret (with_token q (with_ram m s), (argv, args)) /\
      Forall2 (word_at m text hi) args (take max_args (words l)) /\ forall x, x < text \/ hi < x -> m !! x = ram s1 !! x).
  { intros s2 token Hrun Hf Hd2 (m2 & q2 & ->) Hext. rewrite (cmd_bind_eq _ _ _ _ _ Hrun).
    destruct (tokenize_loop_run max_args _ text hi token (words l) [] Hf Hd2) as (m & q & new & Hrun2 & Hnew & Hext2).
    rewrite (cmd_bind_eq _ _ _ _ _ Hrun2). exists m, q, new. split; [done|]. split; [done|]. intros x Hx. rewrite Hext2 by done. by apply Hext. }
  assert (Hdone : exists m q args, (token ← next_token text [32]; args ← tokenize_loop max_args token []; mret (argv, args)) s1 = Ret (with_token q (with_ram m s), (argv, args)) /\
      Forall2 (word_at m text hi) args (take max_args (words l)) /\ forall x, x < text \/ hi < x -> m !! x = ram s1 !! x).
  { destruct (words l) as [|w ws].
    - apply (Hloop _ _ Hnext); [done|done|by exists m1, 0|done].
    - destruct Hnext as (m2 & a & q2 & Hrun2 & Hlo & Hap & Hw & Hp2 & Hext2 & Hend2). apply (Hloop _ _ Hrun2); [split; [by split_and!|done]| |by exists m2, q2|done].
      apply (delimiter_ok_ext s1 _ text text hi); [lia|done|done]. }
  destruct Hdone as (m & q & args & Hrun & Hargs & Hext). exists m, q, argv, args. split; [exact Hrun|]. split; [by right|].
  intros x Hx Hout. rewrite Hext by done. by apply Hk.
Qed.
End words.

(** C35. Cutting a line: the array holds pointers to the words of the line in
    order, the first [max_args] of them, each a string of its own; the spaces
    before, between and behind them do not matter. Only bytes of the line (and of
    the heap) change. Without memory for the array there are no words. *)
Theorem tokenize_words `{Hardware W, Literals, UserHeap} (keep : Z -> Prop) `{!HeapKeeps keep} (s : user W) max_args text l :
  cstr (ram s) text l -> 0 < text -> delimiter_ok s text (text + Z.of_nat (length l)) ->
  (forall x, text <= x <= text + Z.of_nat (length l) -> keep x) -> (forall x, address [32] <= x <= address [32] + 1 -> keep x) ->
  exists m q argv args, tokenize max_args text s = Ret (with_token q (with_ram m s), (argv, args)) /\
    (argv = 0 /\ args = [] \/ argv <> 0 /\ Forall2 (word_at m text (text + Z.of_nat (length l))) args (take max_args (words l))) /\
    forall x, keep x -> x < text \/ text + Z.of_nat (length l) < x -> m !! x = ram s !! x.
Proof. exact (tokenize_run keep s max_args text l). Qed.

(** ** Two words typed *)

Definition places (l : list Z) : Z := if decide (l = [8]) then 300 else if decide (l = [37; 99]) then 310 else if decide (l = [32]) then 320 else 330.
#[local] Instance some_literals : Literals := { address := places; small_buffer := 101 }.
(** An array is always at 600, and nothing is ever released. *)
#[local] Instance some_heap : UserHeap := { malloc := fun _ => mret 600; free := fun _ => mret tt }.
#[local] Instance some_heap_keeps : HeapKeeps (fun _ => True).
Proof. constructor; [intros n m; by exists m, 600|intros a m; by exists m]. Qed.

Definition user_memory (l : list Z) : mem :=
  mwrite (mwrite (mwrite (mwrite ∅ 300 [8; 0]) 310 [37; 99; 0]) 320 [32; 0]) 400 (l ++ [0]).
(** A fresh screen, with [l] at 400 and [keys] typed. *)
Definition user_state (l keys : list Z) : user trace := mkUser (mkConsole (replicate 2000 0x0720) 0 0 [0; 0] (user_memory l) []) keys 0.

Lemma user_ready l keys : ready (con (user_state l keys)) (mkTTY [] []).
Proof. exact (ready_bytes fresh_console (mkTTY [] []) (user_memory l) fresh_shows). Qed.

Lemma user_literals l keys : length l = 7%nat -> literal (user_state l keys) [8] /\ literal (user_state l keys) [37; 99] /\ literal (user_state l keys) [32].
Proof.
  intros Hl. assert (Hout : forall a, a < 400 -> user_memory l !! a = mwrite (mwrite (mwrite ∅ 300 [8; 0]) 310 [37; 99; 0]) 320 [32; 0] !! a)
    by (intros a Ha; apply mwrite_outside; lia).
  unfold literal, ram. cbn [con user_state bytes]. split_and!; (split; [|repeat constructor; lia]); cbn [bytes_at app];
    split_and!; (rewrite Hout by (vm_compute; reflexivity); vm_compute; reflexivity) || exact I.
Qed.

Lemma read_line_edits_witness : exists k t, read_line (on_con update_cursor) 400 8 (user_state (replicate 7 1) [72; 72; 8; 105; 10; 9]) = Ret (mkUser k [9] 0, 2) /\
  ready k t /\ cstr (bytes k) 400 [72; 105].
Proof.
  pose proof (read_line_edits (user_state (replicate 7 1) [72; 72; 8; 105; 10; 9]) (mkTTY [] []) 400 8 ltac:(lia)) as Hrun.
  destruct Hrun as (k & Hrun & Hr & Hc & _).
  - cbn [typed user_state]. repeat (constructor; [unfold is_u8; lia|]). constructor.
  - apply user_ready.
  - destruct (user_literals (replicate 7 1) [72; 72; 8; 105; 10; 9] eq_refl) as (H1 & H2 & _). constructor; [|by split|].
    + intros a Ha. unfold ram. cbn [con user_state bytes]. unfold user_memory. rewrite lookup_mwrite, decide_True by (cbn; lia).
      apply lookup_lt_is_Some. rewrite length_app, length_replicate. cbn [length]. lia.
    + intros a Ha. change (address [8]) with 300. change (address [37; 99]) with 310. lia.
  - eexists k, _. exact (conj Hrun (conj Hr Hc)).
Defined.

Lemma tokenize_words_witness : exists m q args, tokenize 16 400 (user_state [32; 108; 115; 32; 32; 97; 32] []) = Ret (with_token q (with_ram m (user_state [32; 108; 115; 32; 32; 97; 32] [])), (600, args)) /\
  Forall2 (word_at m 400 407) args [[108; 115]; [97]].
Proof.
  destruct (tokenize_words (fun _ => True) (user_state [32; 108; 115; 32; 32; 97; 32] []) 16 400 [32; 108; 115; 32; 32; 97; 32]) as (m & q & argv & args & Hrun & Hargs & _); try done.
  - split; [|repeat (constructor; [lia|]); constructor]. cbn [bytes_at app]. split_and!; (vm_compute; reflexivity) || exact I.
  - destruct (user_literals [32; 108; 115; 32; 32; 97; 32] [] eq_refl) as (_ & _ & H3). split; [exact H3|]. change (address [32]) with 320. cbn [length]. lia.
  - assert (argv = 600) as ->.
    { pose proof Hrun as Hr. unfold tokenize in Hr. rewrite (cmd_bind_eq (on_mem (malloc (Z.of_nat 16 * 4))) _ _ (user_state [32; 108; 115; 32; 32; 97; 32] []) 600) in Hr by done.
      rewrite decide_False in Hr by lia. revert Hr. unfold mbind, cmd_mbind. destruct (next_token _ _ _) as [[s2 tok]| |]; [|done|done].
      destruct (tokenize_loop _ _ _ _) as [[s3 new]| |]; [|done|done]. intros [= _ <- _]. done. }
    destruct Hargs as [[? _]|[_ Hargs]]; [lia|]. exists m, q, args. exact (conj Hrun Hargs).
Defined.
