(* ===== verification/Shell.v ===== *)
(** * Shell (src/user/shell/shell.c, include/user/shell/shell.h)

    The command loop: a line is read with echo and backspace, cut into words, and
    the first word is looked up in the table of commands. *)
From Stdlib Require Import String.
From S2P Require Import Prelude CString Ports Console User.
#[local] Open Scope string_scope.

Definition MAX_COMMAND_LENGTH : Z := 256.
Definition MAX_ARGS : Z := 16.

Inductive shell_fn : Set :=
| Shell_cmd_help | Shell_cmd_echo | Shell_cmd_ls | Shell_cmd_cd | Shell_cmd_pwd | Shell_cmd_clear | Shell_cmd_cat
| Shell_cmd_mkdir | Shell_cmd_rmdir | Shell_cmd_touch | Shell_cmd_rm | Shell_cmd_ps | Shell_cmd_memory | Test_main.

Record ShellCommand := mkCommand { name : list Z; handler : shell_fn; help : list Z }.

Definition builtin_commands : list ShellCommand :=
  (fun '(n, f, h) => mkCommand (bytes_of n) f (bytes_of h)) <$>
  [("help", Shell_cmd_help, "显示帮助信息"); ("echo", Shell_cmd_echo, "显示文本"); ("ls", Shell_cmd_ls, "列出目录内容");
   ("cd", Shell_cmd_cd, "改变当前目录"); ("pwd", Shell_cmd_pwd, "显示当前目录"); ("clear", Shell_cmd_clear, "清屏");
   ("cat", Shell_cmd_cat, "查看文件内容"); ("mkdir", Shell_cmd_mkdir, "创建目录"); ("rmdir", Shell_cmd_rmdir, "删除目录");
   ("touch", Shell_cmd_touch, "创建空文件"); ("rm", Shell_cmd_rm, "删除文件"); ("ps", Shell_cmd_ps, "显示进程状态");
   ("memory", Shell_cmd_memory, "显示内存信息"); ("test", Test_main, "测试命令")].

(** g_shell_state: the two arrays of characters are in memory. *)
Record shell (W : Type) := mkShell { usr : user W; commands : list ShellCommand; num_commands : Z }.
Arguments mkShell {W} _ _ _. Arguments usr {W} _. Arguments commands {W} _. Arguments num_commands {W} _.

(** Where the arrays are, and what the commands read of the kernel's state. *)
Class ShellEnv := {
  prompt : Z; current_directory : Z; command_line : Z;
  get_current_pid : Z; get_process : Z -> option (Z * Z); mm_size : Z
}.

Section shell.
Context `{Hardware W, Literals, UserHeap, ShellEnv}.
Abbreviation S := (cmd (shell W)).

Definition on_user {A} (c : cmd (user W) A) : S A := fun s =>
  match c (usr s) with Ret (u, a) => Ret (mkShell u (commands s) (num_commands s), a) | Fault => Fault | Spin => Spin end.
Definition print (format : list Z) (args : list Z) : S unit := on_user (printf format args);; mret tt.

Definition test_main : S Z :=
  print (bytes_of "test_main %d %d %d %d %d %d %d %d") [1; 2; 3; 4; 5; 6; 7; 8];; mret 0.

Definition shell_init : S unit :=
  on_user (on_mem (strcpy prompt (address (bytes_of "#> "))));;
  on_user (on_mem (strcpy current_directory (address (bytes_of "/"))));;
  modify (fun s => mkShell (usr s) builtin_commands (Z.of_nat (length builtin_commands)));;
  print [10] [];;
  print (line "Jarvis OS") [];;
  print (line "Type 'help' for available commands") [].

(** ** The commands *)

(** Two arguments are passed for one conversion: the help text is not shown. *)
Fixpoint help_loop (cs : list ShellCommand) : S unit :=
  match cs with
  | [] => mret tt
  | c :: cs' => print (line " - %s") [address (name c); address (help c)];; help_loop cs'
  end.
Definition shell_cmd_help (argv : list Z) : S Z :=
  print (line "Available commands:") [];;
  cs ← gets commands; n ← gets num_commands;
  help_loop (take (Z.to_nat n) cs);;
  mret 0.

(** for (i = 1; i < argc; i++) *)
Fixpoint echo_loop (words : list Z) : S unit :=
  match words with
  | [] => mret tt
  | w :: words' =>
      print (bytes_of "%s") [w];;
      (match words' with [] => mret tt | _ => print (bytes_of " ") [] end);;
      echo_loop words'
  end.
Definition shell_cmd_echo (argv : list Z) : S Z := echo_loop (drop 1 argv);; print [10] [];; mret 0.

(** The commands that only check their number of arguments and print. *)
Definition stub (usage : option (list Z)) (text : list Z) : S Z :=
  match usage with Some usage => print usage [];; mret (-1) | None => print text [];; mret 0 end.
Definition wants_one (argv : list Z) (usage : list Z) : option (list Z) := if decide (length argv <> 2%nat) then Some usage else None.
Definition shell_cmd_ls (argv : list Z) : S Z := stub None (line "ls is not implemented yet.").
Definition shell_cmd_cd (argv : list Z) : S Z := stub (wants_one argv (line "Usage: cd directory")) (line "cd is not implemented yet.").
Definition shell_cmd_pwd (argv : list Z) : S Z := print (line "%s") [current_directory];; mret 0.
Definition shell_cmd_clear (argv : list Z) : S Z := mret 0.
Definition shell_cmd_cat (argv : list Z) : S Z :=
  stub (if decide (length argv < 2)%nat then Some (line "Usage: cat file") else None) (line "cat is not implemented yet.").
Definition shell_cmd_mkdir (argv : list Z) : S Z := stub (wants_one argv (line "Usage: mkdir directory")) (line "mkdir is not implemented yet.").
Definition shell_cmd_rmdir (argv : list Z) : S Z := stub (wants_one argv (line "Usage: rmdir directory")) (line "rmdir is not implemented yet.").
Definition shell_cmd_touch (argv : list Z) : S Z := stub (wants_one argv (line "Usage: touch file")) (line "touch is not implemented yet.").
Definition shell_cmd_rm (argv : list Z) : S Z := stub (wants_one argv (line "Usage: rm file")) (line "rm: Not fully implemented").

Definition shell_cmd_ps (argv : list Z) : S Z :=
  print (line "  PID  PRIO  STATE  NAME") [];;
  print (line "-----  ----  -----  ----") [];;
  let current_pid := get_current_pid in
  (match get_process current_pid with
   | Some (priority, process_name) =>
       print (line "%5d  %4d  %5s  %s") [current_pid; priority; address (bytes_of "RUNNING"); process_name]
   | None => mret tt
   end);;
  print (line "ps: Only showing current process") [];;
  mret 0.

Definition shell_cmd_memory (argv : list Z) : S Z := print (line "Heap size: %d bytes") [mm_size];; mret 0.

Definition run_handler (f : shell_fn) (argv : list Z) : S Z :=
  match f with
  | Shell_cmd_help => shell_cmd_help argv | Shell_cmd_echo => shell_cmd_echo argv | Shell_cmd_ls => shell_cmd_ls argv
  | Shell_cmd_cd => shell_cmd_cd argv | Shell_cmd_pwd => shell_cmd_pwd argv | Shell_cmd_clear => shell_cmd_clear argv
  | Shell_cmd_cat => shell_cmd_cat argv | Shell_cmd_mkdir => shell_cmd_mkdir argv | Shell_cmd_rmdir => shell_cmd_rmdir argv
  | Shell_cmd_touch => shell_cmd_touch argv | Shell_cmd_rm => shell_cmd_rm argv | Shell_cmd_ps => shell_cmd_ps argv
  | Shell_cmd_memory => shell_cmd_memory argv | Test_main => test_main
  end.

(** ** The loop *)

Definition shell_execute_command (argv : list Z) : S Z :=
  word ← lift (deref (zget argv 0));
  cs ← gets commands; n ← gets num_commands;
  found ← on_user (find_command (name <$> take (Z.to_nat n) cs) 0 word);
  match found with
  | Some i => c ← lift (deref (zget cs i)); run_handler (handler c) argv
  | None => print (line "Command not found: %s") [word];; mret (-1)
  end.

(** argc == 0: the array is not released. *)
Definition shell_process_command (text : Z) : S unit :=
  '(array, argv) ← on_user (tokenize (Z.to_nat MAX_ARGS) text);
  if decide (length argv = 0%nat) then mret tt else
  print [10] [];;
  shell_execute_command argv;;
  on_user (on_mem (free array)).

Definition shell_print_prompt : S unit :=
  print (10 :: bytes_of "%s") [current_directory];;
  print (bytes_of "%s") [prompt].

Definition shell_read_line (buffer max_length : Z) : S Z := on_user (read_line (on_con update_cursor) buffer max_length).

(** One round of the loop of [shell_run], and [n] of them. *)
Definition shell_round : S unit :=
  shell_print_prompt;;
  n ← shell_read_line command_line MAX_COMMAND_LENGTH;
  if decide (n < 0) then mret tt else shell_process_command command_line.
Fixpoint shell_rounds (n : nat) : S unit := match n with O => mret tt | Datatypes.S n' => shell_round;; shell_rounds n' end.

(** while (1): every round takes at least one character, so that one round more
    than there are characters waits for ever. *)
Definition shell_run : S unit :=
  on_user (on_con show_cursor);;
  n ← gets (fun s => length (typed (usr s)));
  shell_rounds (Datatypes.S n).

Definition shell_main : S Z := print (line "Starting shell...") [];; shell_init;; shell_run;; mret 0.
End shell.
