(* ===== verification/ShellFacts.v ===== *)
(** * The shell carries out a line

    What printing comes to for the shell, how a word finds its command, and a line
    of the command "echo" from its text to the terminal. *)
From Stdlib Require Import String.
From S2P Require Import Prelude CString Ports Console User UserFacts Shell.
#[local] Open Scope string_scope.

Section shell.
Context `{Hardware W, Literals, UserHeap, ShellEnv}.
Implicit Types s : shell W.

Definition screen s : console W := con (usr s).
Definition store_of s : mem := ram (usr s).
Definition at_usr (u : user W) s : shell W := mkShell u (commands s) (num_commands s).
Definition at_con (k : console W) s : shell W := at_usr (with_con k (usr s)) s.

Lemma on_user_run {A} (c : cmd (user W) A) s u a : c (usr s) = Ret (u, a) -> on_user c s = Ret (at_usr u s, a).
Proof. intros E. unfold on_user. by rewrite E. Qed.

Lemma at_con_con k k' s : at_con k (at_con k' s) = at_con k s.
Proof. done. Qed.

Lemma at_con_id s : at_con (screen s) s = s.
Proof. by destruct s as [[k l a] c n]. Qed.

(** What is printed; only the buffer of the formatting function changes. *)
Definition shows s (t' : tty) (r : outcome (shell W * unit)) : Prop :=
  exists k, r = Ret (at_con k s, tt) /\ ready k t' /\ outside small_buffer (store_of s) (bytes k).

Lemma print_text_run text s t : ready (screen s) t -> mapped (store_of s) (small_buffer - 1) 12 -> Forall plain text -> placed (store_of s) text ->
  shows s (foldl tty_put t text) (print text [] s).
Proof.
  intros Hr Hm Hp Hl. destruct (printf_text_run text (usr s) t Hr Hm Hp Hl) as (k & Hrun & Hk & Ho). exists k. split; [|done].
  unfold print. by rewrite (cmd_bind_eq _ _ _ _ _ (on_user_run _ _ _ _ Hrun)).
Qed.

Lemma print_string_run a w s t : ready (screen s) t -> mapped (store_of s) (small_buffer - 1) 12 -> wf_item small_buffer (store_of s) (Str a w) ->
  placed (store_of s) (bytes_of "%s") -> shows s (foldl tty_put t w) (print (bytes_of "%s") [a] s).
Proof.
  intros Hr Hm Hw Hl. destruct (printf_around_run [] a w [] (usr s) t Hr Hm ltac:(constructor) Hw Hl) as (k & Hrun & Hk & Ho). exists k.
  cbn [app] in Hk. rewrite app_nil_r in Hk. split; [|done]. unfold print. by rewrite (cmd_bind_eq _ _ _ _ _ (on_user_run _ _ _ _ Hrun)).
Qed.

(** ** Finding the command *)

(** The position of the first name that is the word. *)
Fixpoint position (w : list Z) (names : list (list Z)) (i : Z) : option Z :=
  match names with [] => None | n :: names' => if decide (w = n) then Some i else position w names' (i + 1) end.

Lemma find_command_run word w (u : user W) : cstr (ram u) word w -> forall names i, Forall (literal u) names ->
  find_command names i word u = Ret (u, position w names i).
Proof.
  intros Hw. induction names as [|n names IH]; intros i Hl; cbn [find_command position]; [done|]. apply Forall_cons in Hl as [Hn Hl].
  rewrite (cmd_bind_eq _ _ _ _ _ (read_mem_run _ _ _ (strcmp_run _ _ _ _ _ Hw Hn))).
  destruct Hw as [Hwb Hwf]. destruct Hn as [Hnb Hnf]. destruct (cmp_bytes_lex w n Hwf Hnf) as [Heq _].
  destruct (decide (w = n)) as [->|Hne]; [by rewrite decide_True by (by apply Heq)|].
  rewrite decide_False by (intros E; by apply Hne, Heq). by apply IH.
Qed.

Lemma execute_run s a argv w : cstr (store_of s) a w -> Forall (literal (usr s)) (name <$> take (Z.to_nat (num_commands s)) (commands s)) ->
  shell_execute_command (a :: argv) s =
    match position w (name <$> take (Z.to_nat (num_commands s)) (commands s)) 0 with
    | Some i => (c ← lift (deref (zget (commands s) i)); run_handler (handler c) (a :: argv)) s
    | None => (print (line "Command not found: %s") [a];; mret (-1)) s
    end.
Proof.
  intros Hw Hl. unfold shell_execute_command. rewrite (cmd_bind_eq (lift _) _ s s a) by done. rewrite !gets_bind.
  rewrite (cmd_bind_eq _ _ _ _ _ (on_user_run _ _ _ _ (find_command_run a w (usr s) Hw _ 0 Hl))).
  destruct s as [u cs n]. cbn [commands num_commands at_usr usr]. by destruct (position _ _ _).
Qed.

(** ** echo *)

(** The words with a blank between them. *)
Fixpoint echoed (ws : list (list Z)) : list Z :=
  match ws with [] => [] | [w] => w | w :: ws' => w ++ 32 :: echoed ws' end.

Lemma echo_loop_run m : placed m (bytes_of "%s") -> placed m (bytes_of " ") -> forall ws args s t, ready (screen s) t -> outside small_buffer m (store_of s) ->
  Forall2 (fun a w => wf_item small_buffer m (Str a w)) args ws ->
  exists k, echo_loop args s = Ret (at_con k s, tt) /\ ready k (foldl tty_put t (echoed ws)) /\ outside small_buffer m (bytes k).
Proof.
  intros Hs Hb. induction ws as [|w ws IH]; intros args s t Hr Ho Hw.
  { apply Forall2_nil_inv_r in Hw as ->. exists (screen s). rewrite at_con_id. by split. }
  apply Forall2_cons_inv_r in Hw as (a & args' & Ha & Hw & ->). cbn [echo_loop].
  destruct (print_string_run a w s t Hr (proj2 Ho) (wf_item_outside _ _ _ Ho Ha) (placed_outside _ _ _ Ho Hs)) as (k1 & Hrun1 & Hk1 & Ho1).
  rewrite (cmd_bind_eq _ _ _ _ _ Hrun1). pose proof (outside_trans _ _ _ Ho Ho1) as Ho1'.
  destruct ws as [|w2 ws].
  - apply Forall2_nil_inv_r in Hw as ->. exists k1. by split.
  - pose proof Hw as (a2 & args2 & _ & _ & ->)%Forall2_cons_inv_r.
    destruct (print_text_run (bytes_of " ") (at_con k1 s) _ Hk1 (proj2 Ho1')) as (k2 & Hrun2 & Hk2 & Ho2).
    { apply Forall_singleton. unfold plain. cbn. lia. }
    { by apply (placed_outside m). }
    rewrite (cmd_bind_eq _ _ _ _ _ Hrun2). destruct (IH (a2 :: args2) (at_con k2 (at_con k1 s)) _ Hk2 (outside_trans _ _ _ Ho1' Ho2) Hw) as (k & Hrun & Hk & Hok).
    exists k. split; [exact Hrun|]. split; [|done]. cbn [echoed]. rewrite foldl_app. exact Hk.
Qed.

Lemma echo_run m a args ws s t : placed m (bytes_of "%s") -> placed m (bytes_of " ") -> placed m [10] -> ready (screen s) t -> outside small_buffer m (store_of s) ->
  Forall2 (fun a w => wf_item small_buffer m (Str a w)) args ws ->
  exists k, shell_cmd_echo (a :: args) s = Ret (at_con k s, 0) /\ ready k (foldl tty_put t (echoed ws ++ [10])) /\ outside small_buffer m (bytes k).
Proof.
  intros Hs Hb Hn Hr Ho Hw. unfold shell_cmd_echo. cbn [drop]. destruct (echo_loop_run m Hs Hb ws args s t Hr Ho Hw) as (k1 & Hrun1 & Hk1 & Ho1).
  rewrite (cmd_bind_eq _ _ _ _ _ Hrun1).
  destruct (print_text_run [10] (at_con k1 s) _ Hk1 (proj2 Ho1)) as (k2 & Hrun2 & Hk2 & Ho2).
  { apply Forall_singleton. unfold plain. lia. }
  { by apply (placed_outside m). }
  rewrite (cmd_bind_eq _ _ _ _ _ Hrun2). exists k2. split; [done|]. rewrite foldl_app. split; [exact Hk2|by eapply outside_trans].
Qed.

(** ** A line *)

(** The literals a line of "echo" needs. *)
Definition echo_literals : list (list Z) := [[32]; [10]; bytes_of "%s"] ++ (name <$> builtin_commands).

(** The line [l] at [text], the buffer of the formatting function and the literals
    lie apart from each other, and the heap touches none of them. *)
Record line_ready (keep : Z -> Prop) s (text : Z) (l : list Z) : Prop := {
  lr_commands : commands s = builtin_commands /\ num_commands s = Z.of_nat (length builtin_commands);
  lr_buffer : mapped (store_of s) (small_buffer - 1) 12 /\ forall a, in_buffer small_buffer a -> keep a;
  lr_line : cstr (store_of s) text l /\ 0 < text /\ text + Z.of_nat (length l) < 4294967296;
  lr_line_apart : forall a, text <= a <= text + Z.of_nat (length l) -> keep a /\ ~ in_buffer small_buffer a;
  lr_literals : forall n, n ∈ echo_literals -> placed (store_of s) n /\ 0 < address n /\
    forall a, address n <= a <= address n + Z.of_nat (length n) -> keep a /\ ~ (text <= a <= text + Z.of_nat (length l))
}.

Lemma line_literals keep s text l m : line_ready keep s text l ->
  (forall x, keep x -> x < text \/ text + Z.of_nat (length l) < x -> m !! x = store_of s !! x) -> forall n, n ∈ echo_literals -> placed m n.
Proof.
  intros Hlr Hext n Hn. destruct (lr_literals _ _ _ _ Hlr n Hn) as ([Hc Ha] & _ & Hk). split; [|done].
  eapply cstr_ext; [|exact Hc]. intros a Hin. destruct (Hk a Hin). apply Hext; [done|lia].
Qed.

Lemma line_words keep s text l m args ws : line_ready keep s text l -> Forall2 (word_at m text (text + Z.of_nat (length l))) args ws ->
  Forall2 (fun a w => wf_item small_buffer m (Str a w)) args ws.
Proof.
  intros Hlr Hw. eapply Forall2_impl; [exact Hw|]. intros a w (Hp & Hlo & Hhi & Hc). destruct (lr_line _ _ _ _ Hlr) as (_ & _ & Hmax).
  split; [done|]. split; [lia|]. intros x Hx. apply (lr_line_apart _ _ _ _ Hlr). lia.
Qed.

Lemma echo_line_run keep `{!HeapKeeps keep} s t text l ws : (forall n m m' a, malloc n m = Ret (m', a) -> a <> 0) -> line_ready keep s text l ->
  ready (screen s) t -> words l = bytes_of "echo" :: ws ->
  exists s', shell_process_command text s = Ret (s', tt) /\ ready (screen s') (foldl tty_put t (10 :: echoed (take 15 ws) ++ [10])).
Proof.
  intros Hmem Hlr Hr Hws. destruct (lr_line _ _ _ _ Hlr) as (Hl & Hpos & Hmax). destruct (lr_commands _ _ _ _ Hlr) as [Hcs Hn].
  destruct (lr_literals _ _ _ _ Hlr [32] ltac:(by left)) as ([Hd _] & Hdp & Hda).
  destruct (tokenize_run keep (usr s) 16 text l Hl Hpos) as (m & q & argv & args & Hrun & Hargs & Hext).
  { split; [exact Hd|]. split; [done|]. destruct (Hda (address [32]) ltac:(cbn; lia)) as [_ Hd1], (Hda (address [32] + 1) ltac:(cbn; lia)) as [_ Hd2]. lia. }
  { intros x Hx. by apply (lr_line_apart _ _ _ _ Hlr). }
  { intros x Hx. apply Hda. cbn [length]. lia. }
  assert (Hargv : argv <> 0).
  { revert Hrun. unfold tokenize. destruct (heap_malloc (Z.of_nat 16 * 4) (ram (usr s))) as (m1 & a & Hm & _). rewrite (cmd_bind_eq _ _ _ _ _ (on_mem_run _ _ _ _ Hm)).
    rewrite decide_False by by eapply Hmem. unfold mbind, cmd_mbind. destruct (next_token _ _ _) as [[s2 tok]| |]; [|done|done].
    destruct (tokenize_loop _ _ _ _) as [[s3 new]| |]; [|done|done]. intros [= _ <- _]. by eapply Hmem. }
  destruct Hargs as [[? _]|[_ Hargs]]; [done|]. rewrite Hws in Hargs. cbn [take] in Hargs.
  pose proof (line_words _ _ _ _ _ _ _ Hlr Hargs) as Hitems. pose proof (line_literals _ _ _ _ _ Hlr Hext) as Hlits.
  apply Forall2_cons_inv_r in Hargs as (a & args' & Ha & _ & ->). apply Forall2_cons in Hitems as [_ Hitems].
  unfold shell_process_command. set (u1 := with_token q (with_ram m (usr s))) in *. change (Z.to_nat MAX_ARGS) with 16%nat.
  rewrite (cmd_bind_eq _ _ _ _ _ (on_user_run _ s u1 _ Hrun)). set (s1 := at_usr u1 s). rewrite decide_False by done.
  assert (Hr1 : ready (screen s1) t) by by apply (ready_bytes (screen s)).
  assert (Hm1 : mapped (store_of s1) (small_buffer - 1) 12).
  { intros x Hx. destruct (lr_buffer _ _ _ _ Hlr) as [Hb Hk]. assert (Hin : in_buffer small_buffer x) by (unfold in_buffer; lia).
    change (is_Some (m !! x)). rewrite Hext; [by apply Hb|by apply Hk|].
    destruct (decide (x < text \/ text + Z.of_nat (length l) < x)) as [|Hno]; [done|]. by destruct (lr_line_apart _ _ _ _ Hlr x ltac:(lia)). }
  destruct (print_text_run [10] s1 t Hr1 Hm1) as (k1 & Hrun1 & Hk1 & Ho1); [apply Forall_singleton; unfold plain; lia|apply Hlits; by right; left|].
  rewrite (cmd_bind_eq _ _ _ _ _ Hrun1). set (s2 := at_con k1 s1). change (outside small_buffer m (store_of s2)) in Ho1.
  assert (Hexec : shell_execute_command (a :: args') s2 = shell_cmd_echo (a :: args') s2).
  { assert (Hnames : name <$> take (Z.to_nat (num_commands s2)) (commands s2) = name <$> builtin_commands) by (change (num_commands s2) with (num_commands s); change (commands s2) with (commands s); by rewrite Hn, Hcs).
    rewrite (execute_run s2 a args' (bytes_of "echo")), Hnames.
    - replace (position _ _ 0) with (Some 1) by (vm_compute; reflexivity). change (commands s2) with (commands s). by rewrite Hcs.
    - eapply outside_cstr; [exact Ho1|apply Ha|]. intros x Hx. apply (lr_line_apart _ _ _ _ Hlr). destruct Ha as (_ & Hlo & Hhi & _). lia.
    - rewrite Hnames. apply Forall_forall. intros n Hin. apply (placed_outside _ _ _ Ho1), Hlits. unfold echo_literals. apply elem_of_app. by right. }
  destruct (echo_run m a args' (take 15 ws) s2 (tty_put t 10)) as (k3 & Hrun3 & Hk3 & Ho3); try done; [apply Hlits; by right; right; left|apply Hlits; by left|apply Hlits; by right; left|].
  rewrite (cmd_bind_eq _ _ s2 _ 0) by (rewrite Hexec; exact Hrun3).
  destruct (heap_free argv (store_of (at_con k3 s2))) as (m4 & Hfree & _).
  rewrite (on_user_run _ _ _ _ (on_mem_run _ _ _ _ Hfree)). eexists. split; [reflexivity|]. by apply (ready_bytes k3).
Qed.
End shell.

(** C36. A line of "echo" shows its words: the shell takes the line apart, finds
    the command in its table, and the terminal shows a new line, the words with one
    blank between them whatever number was typed, and a line feed. The array holds
    sixteen words, so that at most fifteen are shown. *)
Theorem shell_shows_echo `{Hardware W, Literals, UserHeap, ShellEnv} keep `{!HeapKeeps keep} (s : shell W) t text l ws :
  (forall n m m' a, malloc n m = Ret (m', a) -> a <> 0) -> line_ready keep s text l -> ready (screen s) t -> words l = bytes_of "echo" :: ws ->
  exists s', shell_process_command text s = Ret (s', tt) /\ ready (screen s') (foldl tty_put t (10 :: echoed (take 15 ws) ++ [10])).
Proof. apply echo_line_run. exact HeapKeeps0. Qed.

(** ** A line typed *)

(** The literals in a row from 1000 on. *)
#[local] Instance row_literals : Literals := { address := fun l => 1000 + 32 * default 99 (position l echo_literals 0); small_buffer := 101 }.
#[local] Existing Instances some_heap some_heap_keeps.
#[local] Instance shell_env : ShellEnv := { prompt := 500; current_directory := 540; command_line := 700; get_current_pid := 1; get_process := fun _ => None; mm_size := 0 }.

Definition echo_line : list Z := bytes_of " echo  hi a".
Definition shell_memory : mem :=
  foldr (fun n m => mwrite m (address n) (n ++ [0])) (mwrite (mwrite ∅ 100 (replicate 20 0)) 400 (echo_line ++ [0])) echo_literals.
Definition shell_state : shell trace :=
  mkShell (mkUser (mkConsole (replicate 2000 0x0720) 0 0 [0; 0] shell_memory []) [] 0) builtin_commands 14.

#[local] Instance bytes_at_dec m p l : Decision (bytes_at m p l).
Proof. revert p. induction l as [|b l IH]; intros p; cbn [bytes_at]; apply _. Defined.

Lemma shell_literals_placed : Forall (fun n => bytes_at shell_memory (address n) (n ++ [0]) /\ Forall (fun b => 1 <= b < 256) n /\ 1000 <= address n) echo_literals.
Proof. apply (bool_decide_unpack _). vm_compute. exact I. Qed.

Lemma shell_buffer_mapped : Forall (fun a => shell_memory !! a <> None) (seqZ 100 12).
Proof. apply (bool_decide_unpack _). vm_compute. exact I. Qed.

Lemma shell_line_placed : bytes_at shell_memory 400 (echo_line ++ [0]) /\ Forall (fun b => 1 <= b < 256) echo_line.
Proof. apply (bool_decide_unpack _). vm_compute. exact I. Qed.

Lemma shell_state_ready : line_ready (fun _ => True) shell_state 400 echo_line.
Proof.
  constructor.
  - done.
  - split; [|done]. intros a Ha. apply not_eq_None_Some. refine (proj1 (Forall_forall _ _) shell_buffer_mapped a _).
    apply elem_of_seqZ. change small_buffer with 101 in Ha. lia.
  - split; [exact shell_line_placed|]. change (Z.of_nat (length echo_line)) with 11. lia.
  - intros a Ha. split; [done|]. change (Z.of_nat (length echo_line)) with 11 in Ha. unfold in_buffer. change small_buffer with 101. lia.
  - intros n Hn. destruct (proj1 (Forall_forall _ _) shell_literals_placed n Hn) as (Hb & Hf & Ha). change (Z.of_nat (length echo_line)) with 11.
    split; [split; [by split|]|split; [lia|]]; intros a Hr; [unfold in_buffer; change small_buffer with 101; lia|split; [done|lia]].
Qed.

Lemma shell_shows_echo_witness : exists s', shell_process_command 400 shell_state = Ret (s', tt) /\ ready (screen s') (foldl tty_put (mkTTY [] []) (10 :: bytes_of "hi a" ++ [10])).
Proof.
  destruct (shell_shows_echo (fun _ => True) shell_state (mkTTY [] []) 400 echo_line [bytes_of "hi"; bytes_of "a"]) as (s' & Hrun & Hr).
  - by intros n m m' a [= _ <-].
  - exact shell_state_ready.
  - exact (ready_bytes fresh_console (mkTTY [] []) shell_memory fresh_shows).
  - reflexivity.
  - exists s'. exact (conj Hrun Hr).
Defined.
