(* ===== verification/Installer.v ===== *)
(** * Installer (src/user/installer/installer.c)

    The installer's own sprintf and atoi, its commands and its loop. The file
    system calls are those of Vfs.v; the strings they take are read from memory.
    Delay loops have no effect. *)
From Stdlib Require Import String.
From S2P Require Import Prelude CString Ports Vfs Console User.
#[local] Open Scope string_scope.

(** ** sprintf and atoi, over the bytes of the memory *)

(** while (i > 0): the digits on the stack of [num_str], which has room for 16;
    an int has at most ten. *)
Fixpoint number_digits (fuel : nat) (i : Z) (num_str : list Z) : cmd mem (list Z) :=
  match fuel with
  | O => spin
  | S fuel' => if decide (i > 0) then number_digits fuel' (Z.quot i 10) (48 + Z.rem i 10 :: num_str) else mret num_str
  end.
Definition number_fuel : nat := 11.

(** while (num_ptr > num_str): the digits are popped. *)
Fixpoint put_all (ptr : Z) (l : list Z) : cmd mem Z :=
  match l with [] => mret ptr | c :: l' => store ptr c;; put_all (ptr + 1) l' end.

(** The copy of the string [s], up to its terminator, on which [ptr] is left. *)
Fixpoint put_string (fuel : nat) (ptr s : Z) : cmd mem Z :=
  match fuel with
  | O => spin
  | S fuel' => c ← load s; store ptr c;; if decide (c <> 0) then put_string fuel' (ptr + 1) (s + 1) else mret ptr
  end.

(** case 'd': the negation wraps around. *)
Definition put_number (ptr i : Z) : cmd mem Z :=
  '(ptr, i) ← (if decide (i < 0) then store ptr 45;; mret (ptr + 1, s32 (- i)) else mret (ptr, i));
  if decide (i = 0) then store ptr 48;; mret (ptr + 1) else
  l ← number_digits number_fuel i []; put_all ptr l.

(** while ((c = *format++) != 0) *)
Fixpoint sprintf_loop (fuel : nat) (ptr format : Z) (args : list Z) : cmd mem Z :=
  match fuel with
  | O => spin
  | S fuel' =>
      c ← load format;
      if decide (c = 0) then mret ptr else
      if decide (c <> 37) then store ptr c;; sprintf_loop fuel' (ptr + 1) (format + 1) args else
      c ← load (format + 1);
      if decide (c = 100) then
        i ← lift (deref (head args));
        ptr ← put_number ptr (s32 i);
        sprintf_loop fuel' ptr (format + 2) (tail args)
      else if decide (c = 115) then
        s ← lift (deref (head args));
        fuel ← str_fuel;
        ptr ← put_string fuel ptr s;
        sprintf_loop fuel' ptr (format + 2) (tail args)
      else store ptr c;; sprintf_loop fuel' (ptr + 1) (format + 2) args
  end.
Definition sprintf (str format : Z) (args : list Z) : cmd mem Z :=
  fuel ← str_fuel;
  ptr ← sprintf_loop fuel str format args;
  store ptr 0;;
  mret (ptr - str).

(** while (str[i] == ' ' || str[i] == '\t') *)
Fixpoint skip_blanks (fuel : nat) (str i : Z) : cmd mem Z :=
  match fuel with
  | O => spin
  | S fuel' => c ← load (str + i); if decide (c = 32 \/ c = 9) then skip_blanks fuel' str (i + 1) else mret i
  end.

(** while (str[i] >= '0' && str[i] <= '9'): the sum wraps around. *)
Fixpoint read_digits (fuel : nat) (str i result : Z) : cmd mem Z :=
  match fuel with
  | O => spin
  | S fuel' =>
      c ← load (str + i);
      if decide (48 <= c <= 57) then read_digits fuel' str (i + 1) (s32 (s32 (result * 10) + (c - 48))) else mret result
  end.
Definition atoi (str : Z) : cmd mem Z :=
  fuel ← str_fuel;
  i ← skip_blanks fuel str 0;
  c ← load (str + i);
  let '(sign, i) := if decide (c = 45) then (-1, i + 1) else if decide (c = 43) then (1, i + 1) else (1, i) in
  result ← read_digits fuel str i 0;
  mret (s32 (result * sign)).

(** ** State *)

Definition INSTALLER_PROMPT : string := "installer> ".
Definition BUFFER_SIZE : Z := 1024.

Inductive installer_fn : Set :=
| Installer_cmd_help | Installer_cmd_list_devices | Installer_cmd_select_device | Installer_cmd_format | Installer_cmd_install | Installer_cmd_reboot.

Record InstallerCommand := mkCommand { name : list Z; handler : installer_fn; help : list Z }.

Definition builtin_commands : list InstallerCommand :=
  (fun '(n, f, h) => mkCommand (bytes_of n) f (bytes_of h)) <$>
  [("help", Installer_cmd_help, "Show help information");
   ("list-devices", Installer_cmd_list_devices, "List all available block devices");
   ("select-device", Installer_cmd_select_device, "Select target installation device");
   ("format", Installer_cmd_format, "Format selected device to EXT4 format");
   ("install", Installer_cmd_install, "Start system installation");
   ("reboot", Installer_cmd_reboot, "Reboot system")].

(** g_installer_state: its arrays of characters are in memory. *)
Record installer (W : Type) := mkInstaller { usr : user W; files : vfs; target_device : Z; installation_complete : Z }.
Arguments mkInstaller {W} _ _ _ _. Arguments usr {W} _. Arguments files {W} _. Arguments target_device {W} _. Arguments installation_complete {W} _.

(** Where the arrays are, and the block devices found by the kernel. *)
Class InstallerEnv := {
  prompt : Z; target_mount_point : Z; command_line : Z; run_device_name : Z; list_device_name : Z;
  num_block_devices : Z; active_block_devices : list Z
}.

Section installer.
Context `{Hardware W, Literals, UserHeap, Vfs.Env, InstallerEnv}.
Abbreviation I := (cmd (installer W)).

Definition on_user {A} (c : cmd (user W) A) : I A := fun s =>
  match c (usr s) with Ret (u, a) => Ret (mkInstaller u (files s) (target_device s) (installation_complete s), a) | Fault => Fault | Spin => Spin end.
Definition on_files {A} (c : cmd vfs A) : I A := fun s =>
  match c (files s) with Ret (f, a) => Ret (mkInstaller (usr s) f (target_device s) (installation_complete s), a) | Fault => Fault | Spin => Spin end.
Definition in_memory {A} (c : cmd mem A) : I A := on_user (on_mem c).
Definition print (format : list Z) (args : list Z) : I unit := on_user (printf format args);; mret tt.
Definition say (text : string) : I unit := print (line text) [].

Definition set_target (d : Z) : I unit := modify (fun s => mkInstaller (usr s) (files s) d (installation_complete s)).
Definition set_complete (v : Z) : I unit := modify (fun s => mkInstaller (usr s) (files s) (target_device s) v).

(** The text of a string. *)
Fixpoint read_text (n : nat) (p : Z) : cmd mem (list Z) :=
  match n with O => mret [] | S n' => c ← load p; l ← read_text n' (p + 1); mret (c :: l) end.
Definition text_at (p : Z) : cmd mem (list Z) := n ← strlen p; read_text (Z.to_nat n) p.

Definition installer_init : I unit :=
  in_memory (strcpy prompt (address (bytes_of INSTALLER_PROMPT)));;
  set_target 0;;
  in_memory (store target_mount_point 0);;
  set_complete 0.

Definition installer_print_prompt : I unit := print (bytes_of "%s") [prompt].

(** Without the cursor of the shell. *)
Definition installer_read_line (buffer max_length : Z) : I Z := on_user (read_line (mret tt) buffer max_length).
Definition installer_tokenize (text : Z) : I (Z * list Z) := on_user (tokenize 16 text).

(** ** The commands *)

Fixpoint help_loop (cs : list InstallerCommand) : I unit :=
  match cs with
  | [] => mret tt
  | c :: cs' => print (line "  %-15s - %s") [address (name c); address (help c)];; help_loop cs'
  end.
Definition installer_cmd_help (argv : list Z) : I Z := say "Commands:";; help_loop builtin_commands;; mret 0.

(** for (i = 0; i < num_block_devices; i++) *)
Fixpoint list_loop (n : nat) (i : Z) : I unit :=
  match n with
  | O => mret tt
  | S n' =>
      in_memory (sprintf list_device_name (address (bytes_of "/dev/hda%d")) [i]);;
      print (line "  %-15s IDE hard disk partition %d") [list_device_name; i];;
      list_loop n' (i + 1)
  end.
Definition installer_cmd_list_devices (argv : list Z) : I Z :=
  say "Available block devices:";;
  print (bytes_of "  Device Name" ++ [9; 9] ++ line "Description") [];;
  print (bytes_of "  -----------" ++ [9; 9] ++ line "-----------") [];;
  list_loop (Z.to_nat num_block_devices) 0;;
  mret 0.

Definition installer_cmd_select_device (argv : list Z) : I Z :=
  if decide (Z.of_nat (length argv) < 2) then
    say "Usage: select-device <device name>";; say "Example: select-device /dev/hda0";; mret (-1)
  else
  arg ← lift (deref (zget argv 1));
  r ← in_memory (strncmp arg (address (bytes_of "/dev/hda")) 8);
  if decide (r <> 0) then say "Invalid device name format, please use /dev/hdaX format";; mret (-1) else
  dev_index ← in_memory (atoi (arg + 8));
  if decide (dev_index < 0 \/ dev_index >= num_block_devices) then say "Invalid device index, device does not exist";; mret (-1) else
  d ← lift (deref (zget active_block_devices dev_index));
  set_target d;;
  in_memory (strcpy target_mount_point arg);;
  print (line "Selected device: %s") [arg];;
  say "Next, you can use the 'format' command to format this device as EXT4.";;
  mret 0.

(** while (1): until y, Y, n or N is typed. *)
Fixpoint confirm_loop (fuel : nat) : I Z :=
  match fuel with
  | O => spin
  | S fuel' =>
      confirm ← on_user keyboard_getchar;
      let confirm := s8 confirm in
      if decide (confirm = 121 \/ confirm = 89 \/ confirm = 110 \/ confirm = 78) then print [37; 99; 10] [confirm];; mret confirm
      else confirm_loop fuel'
  end.

Fixpoint repeat_print (n : nat) (text : list Z) : I unit := match n with O => mret tt | S n' => print text [];; repeat_print n' text end.

Definition no_device : I Z := say "Please first select a device using the 'select-device' command";; mret (-1).

(** Nothing is written to the device. *)
Definition installer_cmd_format (argv : list Z) : I Z :=
  d ← gets target_device;
  if decide (d = 0) then no_device else
  print (line "Warning: This operation will format device %s, all data will be erased!") [target_mount_point];;
  print (bytes_of "Are you sure you want to continue? (y/n): ") [];;
  n ← gets (fun s => length (typed (usr s)));
  confirm ← confirm_loop (S n);
  if decide (confirm = 110 \/ confirm = 78) then say "Format operation cancelled";; mret 0 else
  print (line "Formatting device %s as EXT4...") [target_mount_point];;
  repeat_print 5 (bytes_of ".");;
  print (10 :: line "Device formatting completed!") [];;
  say "Now you can use the 'install' command to start installing the system.";;
  mret 0.

(** The directories that are created. *)
Definition base_directories : list string :=
  ["/target/boot"; "/target/dev"; "/target/etc"; "/target/home"; "/target/lib"; "/target/proc"; "/target/sys"; "/target/usr"; "/target/var"].
Fixpoint mkdir_all (l : list string) : I unit :=
  match l with [] => mret tt | d :: l' => on_files (vfs_mkdir (Some (bytes_of d)) 0);; mkdir_all l' end.

(** The results of vfs_mkdir and vfs_umount are not used; nothing is copied. *)
Definition installer_cmd_install (argv : list Z) : I Z :=
  d ← gets target_device;
  if decide (d = 0) then no_device else
  print (line "Starting installation of Jarvis OS to device %s...") [target_mount_point];;
  say "Step 1: Mounting target device...";;
  source ← in_memory (text_at target_mount_point);
  r ← on_files (vfs_mount source (bytes_of "/target") (bytes_of "ext4"));
  if decide (r <> 0) then say "Failed to mount target device!";; mret (-1) else
  say "Step 2: Creating file system structure...";;
  mkdir_all base_directories;;
  say "Step 3: Copying kernel files...";;
  say "Copying kernel.bin to /target/boot/...";;
  say "Step 4: Installing GRUB bootloader...";;
  say "Creating GRUB configuration file...";;
  say "Step 5: Completing installation...";;
  on_files (vfs_umount (bytes_of "/target"));;
  print (10 :: line "Jarvis OS installation successful!") [];;
  say "You can use the 'reboot' command to restart the system and then boot from the newly installed system on the hard drive.";;
  set_complete 1;;
  mret 0.

(** for (i = 5; i > 0; i--) *)
Fixpoint countdown (n : nat) : I unit :=
  match n with O => mret tt | S n' => print (line "%d...") [Z.of_nat (S n')];; countdown n' end.
Definition installer_cmd_reboot (argv : list Z) : I Z :=
  say "System will reboot in 5 seconds...";; countdown 5;; say "Rebooting system...";; mret 0.

Definition run_handler (f : installer_fn) (argv : list Z) : I Z :=
  match f with
  | Installer_cmd_help => installer_cmd_help argv | Installer_cmd_list_devices => installer_cmd_list_devices argv
  | Installer_cmd_select_device => installer_cmd_select_device argv | Installer_cmd_format => installer_cmd_format argv
  | Installer_cmd_install => installer_cmd_install argv | Installer_cmd_reboot => installer_cmd_reboot argv
  end.

(** ** The loop *)

Definition installer_execute_command (argv : list Z) : I Z :=
  word ← lift (deref (zget argv 0));
  found ← on_user (find_command (name <$> builtin_commands) 0 word);
  match found with
  | Some i => c ← lift (deref (zget builtin_commands i)); run_handler (handler c) argv
  | None => print (line "Command not found: %s") [word];; mret (-1)
  end.

(** argc == 0: the array is not released. *)
Definition installer_process_command (text : Z) : I unit :=
  '(array, argv) ← installer_tokenize text;
  if decide (length argv = 0%nat) then mret tt else
  installer_execute_command argv;;
  in_memory (User.free array).

(** One round of the loop of [installer_run]; true: the installation is complete. *)
Definition installer_round : I bool :=
  installer_print_prompt;;
  n ← installer_read_line command_line BUFFER_SIZE;
  if decide (n < 0) then mret false else
  installer_process_command command_line;;
  complete ← gets installation_complete;
  if decide (complete <> 0) then print (10 :: line "Installation completed, please restart the system.") [];; mret true
  else mret false.
Fixpoint installer_loop (n : nat) : I unit :=
  match n with O => spin | S n' => complete ← installer_round; if (complete : bool) then mret tt else installer_loop n' end.

(** The local array is filled up with zeros. Every round of the loop takes a
    character, so that [installer_loop] has fuel for all that are waiting. *)
Definition installer_run : I unit :=
  print (10 :: line "=== Jarvis OS Installer ===") [];;
  say "This will install Jarvis OS to your system hard drive.";;
  print (10 :: line "System detected that disk formatting is required. Automatically performing formatting...") [];;
  in_memory (strncpy run_device_name (address (bytes_of "/dev/hda0")) 32);;
  print (line "Selected device: %s") [run_device_name];;
  installer_cmd_select_device [address (bytes_of "select-device"); run_device_name];;
  print (10 :: line "Formatting device %s as EXT4...") [run_device_name];;
  installer_cmd_format [];;
  print (10 :: line "Device has been successfully formatted. You can use the 'install' command to start the installation, or use other commands for configuration.") [];;
  print (bytes_of "Use the 'help' command to get detailed information about available commands." ++ [10; 10]) [];;
  n ← gets (fun s => length (typed (usr s)));
  installer_loop (S n).

Definition installer_main : I Z := say "Starting installer...";; installer_init;; installer_run;; mret 0.
End installer.
