(* ===== verification/InstallerFacts.v ===== *)
(** * The installer's numbers and its device names

    What sprintf writes, atoi reads back; the name that the installer lists for a
    device selects that device. *)
From Stdlib Require Import String.
From S2P Require Import Prelude CString Ports Vfs Console User UserFacts Installer.

Section numbers.
Implicit Types m : mem.

(** [l] is how the number [n] is written. *)
Definition numeral (n : Z) (l : list Z) : Prop :=
  exists ds, ds <> [] /\ Forall is_digit ds /\ dec_value ds = Z.abs n /\ (length ds <= 10)%nat /\ l = (if decide (n < 0) then 45 :: ds else ds).

Lemma s32_in z : - 2147483648 <= z < 2147483648 -> s32 z = z.
Proof. unfold s32. intros. zdm. Qed.

Lemma dec_value_snoc ds d : dec_value (ds ++ [d]) = dec_value ds * 10 + (d - 48).
Proof. unfold dec_value. by rewrite foldl_app. Qed.

Lemma number_digits_run m k : forall fuel i acc, (k < fuel)%nat -> 0 <= i < 10 ^ Z.of_nat k ->
  exists ds, number_digits fuel i acc m = Ret (m, ds ++ acc) /\ Forall is_digit ds /\ dec_value ds = i /\ (length ds <= k)%nat.
Proof.
  induction k as [|k IH]; intros fuel i acc Hf Hi; (destruct fuel as [|fuel]; [lia|]); cbn [number_digits].
  - assert (i = 0) as -> by lia. exists []. by split_and!.
  - case_decide as Hp; [|exists []; assert (i = 0) as -> by lia; split_and!; [done..|cbn; lia]].
    rewrite Z.quot_div_nonneg, Z.rem_mod_nonneg by lia.
    destruct (IH fuel (i / 10) (48 + i mod 10 :: acc)) as (ds & Hrun & Hd & Hv & Hl); [lia| |].
    { rewrite Nat2Z.inj_succ, Z.pow_succ_r in Hi by lia. zdm. }
    exists (ds ++ [48 + i mod 10]). rewrite Hrun, <- app_assoc. split; [done|]. split; [|split].
    + apply Forall_app. split; [done|]. apply Forall_singleton. unfold is_digit. zdm.
    + rewrite dec_value_snoc, Hv. zdm.
    + rewrite length_app. cbn [length]. lia.
Qed.

Lemma put_all_run l : forall m p, mapped m p (Z.of_nat (length l)) -> Forall is_u8 l -> put_all p l m = Ret (mwrite m p l, p + Z.of_nat (length l)).
Proof.
  induction l as [|c l IH]; intros m p Hm Hu; cbn [put_all mwrite]; [by rewrite Z.add_0_r|]. apply Forall_cons in Hu as [Hc Hu]. cbn [length] in Hm.
  rewrite store_bind by (done || (apply Hm; lia)). rewrite IH; [|intros a Ha; apply (mapped_insert _ _ _ _ _ Hm); lia|done].
  cbn [length]. do 2 f_equal. lia.
Qed.

Lemma put_number_run m p n : - 2147483648 < n < 2147483648 -> mapped m p 11 ->
  exists l, numeral n l /\ put_number p n m = Ret (mwrite m p l, p + Z.of_nat (length l)).
Proof.
  intros Hn Hm. unfold put_number. rewrite s32_in by lia.
  assert (Hu : forall ds, Forall is_digit ds -> Forall is_u8 ds) by (intros ds Hd; eapply Forall_impl; [exact Hd|]; unfold is_digit, is_u8; cbn; lia).
  assert (Hdig : forall i m1 p1, 0 < i < 2147483648 -> mapped m1 p1 10 -> exists ds, ds <> [] /\ Forall is_digit ds /\ dec_value ds = i /\ (length ds <= 10)%nat /\
    (l ← number_digits number_fuel i []; put_all p1 l) m1 = Ret (mwrite m1 p1 ds, p1 + Z.of_nat (length ds))).
  { intros i m1 p1 Hi Hm1. destruct (number_digits_run m1 10 number_fuel i []) as (ds & Hrun & Hd & Hv & Hl); [unfold number_fuel; lia|lia|].
    exists ds. split; [intros ->; cbn in Hv; lia|]. split_and!; [done..|]. rewrite app_nil_r in Hrun. rewrite (cmd_bind_eq _ _ _ _ _ Hrun).
    apply put_all_run; [|by apply Hu]. intros a Ha. apply Hm1. lia. }
  destruct (decide (n < 0)) as [Hneg|Hpos].
  - rewrite (cmd_bind_eq _ _ m (<[p := 45]> m) (p + 1, - n)) by (rewrite store_bind by (unfold is_u8; lia || (apply Hm; lia)); done).
    rewrite decide_False by lia. destruct (Hdig (- n) (<[p := 45]> m) (p + 1)) as (ds & Hne & Hd & Hv & Hl & Hrun); [lia| |].
    { intros a Ha. apply (mapped_insert _ _ _ _ _ Hm). lia. }
    exists (45 :: ds). rewrite Hrun. split; [exists ds; rewrite decide_True by lia; split_and!; [done..|lia|done|done]|]. cbn [mwrite length]. do 2 f_equal. lia.
  - rewrite ret_bind. destruct (decide (n = 0)) as [->|Hn0].
    + exists [48]. split; [exists [48]; split_and!; try done; [apply Forall_singleton; unfold is_digit; lia|cbn; lia]|].
      by rewrite store_bind by (unfold is_u8; lia || (apply Hm; lia)).
    + destruct (Hdig n m p) as (ds & Hne & Hd & Hv & Hl & Hrun); [lia|intros a Ha; apply Hm; lia|].
      exists ds. rewrite Hrun. split; [|done]. exists ds. rewrite decide_False by lia. split_and!; [done..|lia|done|done].
Qed.

Lemma sprintf_plain pre : forall fuel ptr f args m, Forall (fun c => 1 <= c < 256 /\ c <> 37) pre -> bytes_at m f pre -> mapped m ptr (Z.of_nat (length pre)) ->
  (f + Z.of_nat (length pre) <= ptr \/ ptr + Z.of_nat (length pre) <= f) ->
  sprintf_loop (length pre + fuel) ptr f args m =
    sprintf_loop fuel (ptr + Z.of_nat (length pre)) (f + Z.of_nat (length pre)) args (mwrite m ptr pre).
Proof.
  induction pre as [|c pre IH]; intros fuel ptr f args m Hp Hb Hm Hap; [by rewrite !Z.add_0_r|]. apply Forall_cons in Hp as [Hc Hp]. destruct Hb as [Hb0 Hb].
  cbn [length] in *. cbn [Nat.add sprintf_loop mwrite]. rewrite (load_bind _ _ _ _ Hb0), decide_False, decide_True by lia.
  rewrite store_bind by (unfold is_u8; lia || (apply Hm; lia)). rewrite IH; [f_equal; lia|done| | |lia].
  - eapply bytes_at_ext; [|exact Hb]. intros a Ha. apply lookup_insert_ne. lia.
  - intros a Ha. apply (mapped_insert _ _ _ _ _ Hm). lia.
Qed.

Lemma numeral_bytes n l : numeral n l -> Forall (fun c => 1 <= c < 256) l /\ (length l <= 11)%nat /\ l <> [].
Proof.
  intros (ds & Hne & Hd & _ & Hl & ->). assert (Forall (fun c => 1 <= c < 256) ds) by (eapply Forall_impl; [exact Hd|]; unfold is_digit; cbn; lia).
  case_decide; (split; [|split; [cbn [length]; lia|done]]); [by constructor; [lia|]|done].
Qed.

(** A text and the number behind it. *)
Lemma sprintf_number_run m str f pre n : cstr m f (pre ++ [37; 100]) -> Forall (fun c => c <> 37) pre -> - 2147483648 < n < 2147483648 ->
  mapped m str (Z.of_nat (length pre) + 12) -> (f + Z.of_nat (length pre) + 2 < str \/ str + Z.of_nat (length pre) + 12 <= f) ->
  exists l m', numeral n l /\ sprintf str f [n] m = Ret (m', Z.of_nat (length (pre ++ l))) /\ cstr m' str (pre ++ l) /\
    (forall a, a < str \/ str + Z.of_nat (length pre) + 12 <= a -> m' !! a = m !! a) /\ mapped m' str (Z.of_nat (length pre) + 12).
Proof.
  intros Hf Hp Hn Hm Hap. pose proof (cstr_fuel _ _ _ Hf) as Hsz. pose proof Hf as [Hb Hr]. rewrite length_app in Hsz. cbn [length] in Hsz.
  rewrite <- app_assoc in Hb. apply bytes_at_app in Hb as [Hb1 Hb2]. apply Forall_app in Hr as [Hr _].
  assert (Hplain : Forall (fun c => 1 <= c < 256 /\ c <> 37) pre) by (apply Forall_and; by split).
  set (L := Z.of_nat (length pre)) in *. set (m1 := mwrite m str pre).
  assert (Hfm : forall a, f + L <= a <= f + L + 2 -> m1 !! a = m !! a) by (intros a Ha; apply mwrite_outside; lia).
  assert (Hm1 : mapped m1 str (L + 12)) by by apply mapped_mwrite.
  destruct (put_number_run m1 (str + L) n Hn) as (l & Hl & Hput); [intros a Ha; apply Hm1; lia|].
  set (m2 := mwrite m1 (str + L) l) in *. destruct (numeral_bytes _ _ Hl) as (Hlb & Hll & _).
  assert (Hm2 : mapped m2 str (L + 12)) by by apply mapped_mwrite.
  cbn [bytes_at] in Hb2. destruct Hb2 as (Hpc & Hdc & H0c & _).
  exists l, (<[str + L + Z.of_nat (length l) := 0]> m2). split; [done|].
  assert (Hend : m2 !! (f + L + 2) = Some 0).
  { unfold m2. rewrite mwrite_outside by lia. rewrite Hfm by lia. by replace (f + L + 2) with (f + L + 1 + 1) by lia. }
  split; [|split; [|split]].
  - unfold sprintf. rewrite fuel_bind. replace (S (size m)) with (length pre + S (S (size m - 1 - length pre)))%nat by lia.
    rewrite (cmd_bind_eq _ _ m m2 (str + L + Z.of_nat (length l))).
    + rewrite store_bind by (unfold is_u8; lia || (apply Hm2; lia)). rewrite length_app. unfold mret, cmd_mret. do 2 f_equal. lia.
    + rewrite sprintf_plain; [|done|done|intros a Ha; apply Hm; lia|lia]. fold L m1. cbn [sprintf_loop].
      rewrite (load_bind _ _ 37) by (rewrite Hfm by lia; exact Hpc). rewrite decide_False by lia. rewrite (decide_False (P := 37 <> 37)) by lia.
      rewrite (load_bind _ _ 100) by (rewrite Hfm by lia; exact Hdc). rewrite decide_True by done. cbn [head].
      rewrite (cmd_bind_eq (lift _) _ m1 m1 n) by done. rewrite s32_in by lia. rewrite (cmd_bind_eq _ _ _ _ _ Hput). cbn [sprintf_loop].
      by rewrite (load_bind _ _ 0) by exact Hend.
  - split; [|by apply Forall_app]. rewrite <- app_assoc. apply bytes_at_app. fold L. split; [|apply bytes_at_app; split].
    + eapply bytes_at_ext; [|apply (bytes_at_mwrite m str pre)]. intros a Ha. rewrite lookup_insert_ne by lia. apply mwrite_outside. lia.
    + eapply bytes_at_ext; [|apply (bytes_at_mwrite m1 (str + L) l)]. intros a Ha. apply lookup_insert_ne. lia.
    + split; [apply lookup_insert_eq|done].
  - intros a Ha. rewrite lookup_insert_ne by lia. unfold m2. rewrite mwrite_outside by lia. apply mwrite_outside. lia.
  - intros a Ha. by apply (mapped_insert _ _ _ _ _ Hm2).
Qed.

(** ** Reading a number *)

Lemma read_value_mono ds : forall acc, 0 <= acc -> Forall is_digit ds -> acc <= foldl (fun n d => n * 10 + (d - 48)) acc ds.
Proof.
  induction ds as [|d ds IH]; intros acc Ha Hd; cbn [foldl]; [lia|]. apply Forall_cons in Hd as [Hd0 Hd]. unfold is_digit in Hd0.
  specialize (IH (acc * 10 + (d - 48)) ltac:(lia) Hd). lia.
Qed.

Lemma read_digits_run m str ds : forall fuel i acc, (length ds < fuel)%nat -> cstr m (str + i) ds -> Forall is_digit ds -> 0 <= acc ->
  foldl (fun n d => n * 10 + (d - 48)) acc ds < 2147483648 -> read_digits fuel str i acc m = Ret (m, foldl (fun n d => n * 10 + (d - 48)) acc ds).
Proof.
  induction ds as [|d ds IH]; intros fuel i acc Hf Hc Hd Ha Hv; (destruct fuel as [|fuel]; [cbn in Hf; lia|]); cbn [read_digits foldl] in *.
  - apply cstr_nil in Hc. by rewrite (load_bind _ _ _ _ Hc), decide_False by lia.
  - apply cstr_cons in Hc as (Hc & _ & Hcs). apply Forall_cons in Hd as [Hd0 Hd]. pose proof Hd0 as Hdr. unfold is_digit in Hdr.
    pose proof (read_value_mono ds (acc * 10 + (d - 48)) ltac:(lia) Hd) as Hmono.
    rewrite (load_bind _ _ _ _ Hc), decide_True by lia. rewrite (s32_in (acc * 10)), s32_in by lia.
    apply IH; [cbn in Hf; lia| |done|lia|done]. by rewrite Z.add_assoc.
Qed.

Lemma atoi_run m p n l : cstr m p l -> numeral n l -> - 2147483648 < n < 2147483648 -> atoi p m = Ret (m, n).
Proof.
  intros Hc (ds & Hne & Hd & Hv & _ & El) Hn. pose proof (cstr_fuel _ _ _ Hc) as Hf. unfold atoi. rewrite fuel_bind.
  assert (Hblank : forall c l', cstr m p (c :: l') -> c <> 32 -> c <> 9 -> skip_blanks (S (size m)) p 0 m = Ret (m, 0)).
  { intros c l' Hcl Hc1 Hc2. apply cstr_cons in Hcl as (Hb & _). cbn [skip_blanks]. rewrite Z.add_0_r. by rewrite (load_bind _ _ _ _ Hb), decide_False by (intros [?|?]; done). }
  assert (Hread : forall i, cstr m (p + i) ds -> (length ds <= size m)%nat -> read_digits (S (size m)) p i 0 m = Ret (m, Z.abs n)).
  { intros i Hci Hle. rewrite (read_digits_run m p ds); [by unfold dec_value in Hv; rewrite Hv|lia|done|done|lia|]. unfold dec_value in Hv. lia. }
  destruct (decide (n < 0)) as [Hneg|Hpos]; subst l.
  - rewrite (cmd_bind_eq _ _ _ _ _ (Hblank _ _ Hc ltac:(lia) ltac:(lia))). apply cstr_cons in Hc as (Hb & _ & Hcs). rewrite Z.add_0_r.
    rewrite (load_bind _ _ _ _ Hb), decide_True by done. rewrite (cmd_bind_eq _ _ _ _ _ (Hread (0 + 1) Hcs ltac:(cbn in Hf; lia))).
    rewrite s32_in by lia. unfold mret, cmd_mret. do 2 f_equal. lia.
  - destruct ds as [|d ds]; [done|]. pose proof Hd as [Hd0 _]%Forall_cons. unfold is_digit in Hd0.
    rewrite (cmd_bind_eq _ _ _ _ _ (Hblank _ _ Hc ltac:(lia) ltac:(lia))). pose proof Hc as (Hb & _ & _)%cstr_cons. rewrite Z.add_0_r.
    rewrite (load_bind _ _ _ _ Hb), !decide_False by lia. rewrite (cmd_bind_eq _ _ _ _ _ (Hread 0 ltac:(by rewrite Z.add_0_r) ltac:(cbn in *; lia))).
    rewrite s32_in by lia. unfold mret, cmd_mret. do 2 f_equal. lia.
Qed.
End numbers.

(** C37. What the installer's sprintf writes for a number behind a text, its atoi
    reads back, for every int but the least; the string has the returned length and
    nothing outside its area changes. *)
Theorem sprintf_atoi_roundtrip m str f pre n : cstr m f (pre ++ [37; 100]) -> Forall (fun c => c <> 37) pre -> - 2147483648 < n < 2147483648 ->
  mapped m str (Z.of_nat (length pre) + 12) -> (f + Z.of_nat (length pre) + 2 < str \/ str + Z.of_nat (length pre) + 12 <= f) ->
  exists l m', sprintf str f [n] m = Ret (m', Z.of_nat (length (pre ++ l))) /\ cstr m' str (pre ++ l) /\
    atoi (str + Z.of_nat (length pre)) m' = Ret (m', n) /\ (forall a, a < str \/ str + Z.of_nat (length pre) + 12 <= a -> m' !! a = m !! a).
Proof.
  intros Hf Hp Hn Hm Hap. destruct (sprintf_number_run m str f pre n Hf Hp Hn Hm Hap) as (l & m' & Hl & Hrun & Hc & Hext & _).
  exists l, m'. split; [done|]. split; [done|]. split; [|done]. apply (atoi_run _ _ _ l); [|done|done].
  destruct Hc as [Hb Hr]. rewrite <- app_assoc in Hb. apply bytes_at_app in Hb as [_ Hb]. apply Forall_app in Hr as [_ Hr]. by split.
Qed.

(** The least int is written as a sign alone. *)
Lemma sprintf_int_min m p : is_Some (m !! p) -> put_number p (-2147483648) m = Ret (<[p := 45]> m, p + 1).
Proof.
  intros Hm. unfold put_number. rewrite decide_True by lia. rewrite (cmd_bind_eq _ _ m (<[p := 45]> m) (p + 1, -2147483648)); [done|].
  by rewrite store_bind by (done || (unfold is_u8; lia)).
Qed.

(** ** Selecting a device *)

Section select.
Context `{Hardware W, Literals, UserHeap, Vfs.Env, InstallerEnv}.
Implicit Types s : installer W.

Definition istore s : mem := ram (usr s).
Definition at_usr (u : user W) s : installer W := mkInstaller u (files s) (target_device s) (installation_complete s).

Lemma installer_user_run {A} (c : cmd (user W) A) s u a : c (usr s) = Ret (u, a) -> on_user c s = Ret (at_usr u s, a).
Proof. intros E. unfold on_user. by rewrite E. Qed.

Lemma in_memory_run {A} (c : cmd mem A) s m a : c (istore s) = Ret (m, a) -> in_memory c s = Ret (at_usr (with_ram m (usr s)) s, a).
Proof. intros E. apply installer_user_run. by apply on_mem_run. Qed.

Lemma in_memory_read {A} (c : cmd mem A) s a : c (istore s) = Ret (istore s, a) -> in_memory c s = Ret (s, a).
Proof. intros E. rewrite (in_memory_run _ _ _ _ E). unfold istore. rewrite with_ram_id. by destruct s. Qed.

Lemma print_run format args s k : printf format args (usr s) = Ret (with_con k (usr s), 0) -> print format args s = Ret (at_usr (with_con k (usr s)) s, tt).
Proof. intros E. unfold print. by rewrite (cmd_bind_eq _ _ _ _ _ (installer_user_run _ _ _ _ E)). Qed.

Definition device_prefix : list Z := bytes_of "/dev/hda".
Definition selected : list Z := bytes_of "Selected device: ".
Definition advice : list Z := line "Next, you can use the 'format' command to format this device as EXT4.".
Definition select_literals : list (list Z) := [bytes_of "/dev/hda%d"; device_prefix; line "Selected device: %s"; advice].

Definition in_areas (a : Z) : Prop := list_device_name <= a < list_device_name + 32 \/ target_mount_point <= a < target_mount_point + 64.

(** The arrays, the literals and the buffer of the formatting function lie apart. *)
Record installer_ready s (t : tty) : Prop := {
  ir_screen : ready (con (usr s)) t;
  ir_buffer : mapped (istore s) (small_buffer - 1) 12 /\ forall a, in_buffer small_buffer a -> ~ in_areas a;
  ir_areas : mapped (istore s) list_device_name 32 /\ mapped (istore s) target_mount_point 64;
  ir_range : 0 < list_device_name /\ list_device_name + 32 <= 4294967296 /\
    (list_device_name + 32 <= target_mount_point \/ target_mount_point + 64 <= list_device_name);
  ir_literals : forall l, l ∈ select_literals -> placed (istore s) l /\ forall a, address l <= a <= address l + Z.of_nat (length l) -> ~ in_areas a
}.

(** The literals stay in place while only the arrays change. *)
Lemma literals_stay s t m l : installer_ready s t -> (forall a, ~ in_areas a -> m !! a = istore s !! a) -> l ∈ select_literals -> placed m l.
Proof.
  intros Hir Hext Hl. destruct (ir_literals _ _ Hir l Hl) as [[Hc Ha] Hout]. split; [|done]. eapply cstr_ext; [|exact Hc]. intros a Hin. by apply Hext, Hout.
Qed.

Lemma plain_text (s : string) : forallb (fun c => (1 <=? c) && (c <? 256) && negb (c =? 37)) (bytes_of s) = true -> Forall plain (bytes_of s).
Proof.
  intros Hb. apply Forall_forall. intros c Hc. rewrite forallb_forall in Hb. specialize (Hb c (proj1 (list_elem_of_In _ _) Hc)). unfold plain.
  apply andb_prop in Hb as [[Hb1 Hb2]%andb_prop Hb3]. lia.
Qed.

(** Selecting by the string [pre] and a numeral that is in the array. *)
Lemma select_run s t i d a0 l : installer_ready s t -> 0 <= i < num_block_devices -> i < 2147483648 -> zget active_block_devices i = Some d -> numeral i l ->
  cstr (istore s) list_device_name (device_prefix ++ l) ->
  exists s', installer_cmd_select_device [a0; list_device_name] s = Ret (s', 0) /\ target_device s' = d /\
    cstr (istore s') target_mount_point (device_prefix ++ l) /\
    ready (con (usr s')) (foldl tty_put t (selected ++ device_prefix ++ l ++ [10] ++ advice)) /\
    files s' = files s /\ installation_complete s' = installation_complete s.
Proof.
  intros Hir Hi Hmax Hd Hl Hname. destruct (numeral_bytes _ _ Hl) as (Hlb & Hll & _). destruct (ir_range _ _ Hir) as (Hpos & Hlim & Hapart).
  destruct (ir_buffer _ _ Hir) as [Hbuf Hbuf2]. destruct (ir_areas _ _ Hir) as [_ Htarget].
  assert (Hlen : (length (device_prefix ++ l) <= 19)%nat) by (rewrite length_app; change (length device_prefix) with 8%nat; lia).
  unfold installer_cmd_select_device. rewrite decide_False by (cbn [length]; lia). rewrite (cmd_bind_eq (lift _) _ s s list_device_name) by done.
  destruct (ir_literals _ _ Hir device_prefix) as [[Hpre _] _]; [unfold select_literals; by right; left|].
  rewrite (cmd_bind_eq _ _ s s 0).
  2: { apply in_memory_read. unfold strncmp. rewrite decide_False by lia.
       rewrite (strncmp_loop_spec _ _ _ _ _ _ Hname Hpre). do 2 f_equal. }
  rewrite decide_False by lia.
  assert (Hatoi : atoi (list_device_name + 8) (istore s) = Ret (istore s, i)).
  { apply (atoi_run _ _ _ l); [|done|lia]. destruct Hname as [Hb Hr]. rewrite <- app_assoc in Hb. apply bytes_at_app in Hb as [_ Hb]. apply Forall_app in Hr as [_ Hr]. by split. }
  rewrite (cmd_bind_eq _ _ _ _ _ (in_memory_read _ _ _ Hatoi)).
  rewrite decide_False by lia. rewrite (cmd_bind_eq (lift _) _ s s d) by (by rewrite Hd). set (s1 := mkInstaller (usr s) (files s) d (installation_complete s)).
  rewrite (cmd_bind_eq (set_target d) _ s s1 tt) by done. pose proof (strcpy_spec (istore s1) target_mount_point list_device_name _ Hname ltac:(intros a Ha; apply Htarget; lia) ltac:(lia)) as Hcpy.
  rewrite (cmd_bind_eq _ _ _ _ _ (in_memory_run _ _ _ _ Hcpy)). set (m2 := mwrite (istore s1) target_mount_point ((device_prefix ++ l) ++ [0])). set (s2 := at_usr _ s1).
  assert (Hin : forall a, target_mount_point <= a <= target_mount_point + Z.of_nat (length (device_prefix ++ l)) -> in_areas a) by (intros a Ha; right; lia).
  assert (Hext2 : forall a, ~ in_areas a -> m2 !! a = istore s !! a).
  { intros a Ha. apply mwrite_outside. rewrite length_app. cbn [length]. destruct (decide (a < target_mount_point)) as [|Hge]; [by left|]. right.
    destruct (decide (target_mount_point + Z.of_nat (length (device_prefix ++ l)) < a)) as [|Hle]; [lia|]. destruct Ha. apply Hin. lia. }
  assert (Hname2 : cstr m2 list_device_name (device_prefix ++ l)).
  { eapply cstr_ext; [|exact Hname]. intros a Ha. apply mwrite_outside. rewrite length_app. cbn [length]. lia. }
  assert (Hname3 : wf_item small_buffer m2 (Str list_device_name (device_prefix ++ l))).
  { split; [done|]. split; [lia|]. intros a Ha Hb. apply (Hbuf2 a Hb). left. lia. }
  assert (Hm2 : mapped m2 (small_buffer - 1) 12) by by apply mapped_mwrite.
  destruct (printf_around_run selected list_device_name (device_prefix ++ l) [10] (usr s2) t) as (k3 & Hrun3 & Hk3 & Ho3); [apply (ready_bytes (con (usr s))), Hir|exact Hm2| |done| |].
  { apply Forall_app. split; [by apply plain_text|apply Forall_singleton; unfold plain; lia]. }
  { apply (literals_stay _ _ _ _ Hir Hext2). unfold select_literals. by right; right; left. }
  rewrite (cmd_bind_eq _ _ _ _ _ (print_run (line "Selected device: %s") _ _ _ Hrun3)). set (s3 := at_usr _ s2).
  destruct (printf_text_run advice (usr s3) _ Hk3 (proj2 Ho3)) as (k4 & Hrun4 & Hk4 & Ho4).
  { unfold advice, line. apply Forall_app. split; [by apply plain_text|apply Forall_singleton; unfold plain; lia]. }
  { apply (placed_outside m2); [exact Ho3|]. apply (literals_stay _ _ _ _ Hir Hext2). unfold select_literals. by right; right; right; left. }
  change (say _) with (print advice [] : cmd (installer W) unit). rewrite (cmd_bind_eq _ _ _ _ _ (print_run _ _ _ _ Hrun4)).
  eexists. split; [reflexivity|]. split; [done|]. split; [|split; [|done]].
  - eapply (outside_cstr _ m2); [exact (outside_trans _ _ _ Ho3 Ho4)|apply mwrite_cstr; apply Hname|]. intros a Ha Hb. apply (Hbuf2 a Hb). by apply Hin.
  - change (ready k4 (foldl tty_put t (selected ++ device_prefix ++ l ++ [10] ++ advice))). replace (selected ++ device_prefix ++ l ++ [10] ++ advice) with ((selected ++ (device_prefix ++ l) ++ [10]) ++ advice) by by rewrite <- !app_assoc.
    rewrite foldl_app. exact Hk4.
Qed.
End select.

(** C38. The name that the installer lists for a device selects that device: after
    sprintf has written it, select-device with it as its argument returns 0, the
    target is the device of that index, the mount point is the name, the terminal
    shows it, and the file system is not touched. *)
Theorem installer_selects_listed `{Hardware W, Literals, UserHeap, Vfs.Env, InstallerEnv} (s : installer W) t i d a0 :
  installer_ready s t -> 0 <= i < num_block_devices -> i < 2147483648 -> zget active_block_devices i = Some d ->
  exists s' l, (in_memory (sprintf list_device_name (address (bytes_of "/dev/hda%d")) [i]);; installer_cmd_select_device [a0; list_device_name]) s = Ret (s', 0) /\
    numeral i l /\ target_device s' = d /\ cstr (istore s') target_mount_point (bytes_of "/dev/hda" ++ l) /\
    ready (con (usr s')) (foldl tty_put t (selected ++ device_prefix ++ l ++ [10] ++ advice)) /\
    files s' = files s /\ installation_complete s' = installation_complete s.
Proof.
  intros Hir Hi Hmax Hd. destruct (ir_literals _ _ Hir (bytes_of "/dev/hda%d")) as [[Hf _] Hfa]; [by left|].
  destruct (ir_range _ _ Hir) as (Hpos & Hlim & Hap). destruct (ir_areas _ _ Hir) as [Hm1 Hm2]. destruct (ir_buffer _ _ Hir) as [Hb1 Hb2].
  destruct (sprintf_number_run (istore s) list_device_name (address (bytes_of "/dev/hda%d")) device_prefix i) as (l & m1 & Hl & Hrun & Hname & Hext & Hkeep).
  - exact Hf.
  - apply Forall_forall. intros c Hc. refine (proj1 (Forall_forall (fun c => c <> 37) device_prefix) _ c Hc). repeat (constructor; [done|]). constructor.
  - lia.
  - intros a Ha. apply Hm1. change (Z.of_nat (length device_prefix)) with 8 in Ha. lia.
  - change (Z.of_nat (length device_prefix)) with 8. change (Z.of_nat (length (bytes_of "/dev/hda%d"))) with 10 in Hfa.
    destruct (decide (address (bytes_of "/dev/hda%d") + 8 + 2 < list_device_name)) as [|Hno]; [by left|]. right.
    destruct (decide (list_device_name + 20 <= address (bytes_of "/dev/hda%d"))) as [|Hno2]; [lia|].
    destruct (decide (list_device_name <= address (bytes_of "/dev/hda%d"))) as [Hge|Hlt].
    + exfalso. apply (Hfa (address (bytes_of "/dev/hda%d"))); [lia|left; lia].
    + exfalso. apply (Hfa list_device_name); [lia|left; lia].
  - change (Z.of_nat (length device_prefix)) with 8 in Hext. rewrite (cmd_bind_eq _ _ _ _ _ (in_memory_run _ _ _ _ Hrun)).
    assert (Hstay : forall a, ~ in_areas a -> m1 !! a = istore s !! a) by (intros a Ha; apply Hext; unfold in_areas in Ha; lia).
    destruct (select_run (at_usr (with_ram m1 (usr s)) s) t i d a0 l) as (s' & Hs' & Htd & Hmp & Hscr & Hfs & Hic); try done.
    + constructor.
      * apply (ready_bytes (con (usr s))), Hir.
      * split; [|done]. intros a Ha. change (is_Some (m1 !! a)). rewrite Hstay; [by apply Hb1|]. apply Hb2. unfold in_buffer. lia.
      * split; intros a Ha; change (is_Some (m1 !! a)).
        -- destruct (decide (list_device_name <= a < list_device_name + 20)) as [Hin|Hout]; [apply Hkeep; change (Z.of_nat (length device_prefix)) with 8; lia|rewrite Hext by lia; by apply Hm1].
        -- rewrite Hext by lia. by apply Hm2.
      * done.
      * intros n Hn. split; [by apply (literals_stay s t)|by apply (ir_literals _ _ Hir)].
    + by exists s', l.
Qed.

(** ** Two disks *)

#[local] Instance bytes_at_dec m p l : Decision (bytes_at m p l).
Proof. revert p. induction l as [|b l IH]; intros p; cbn [bytes_at]; apply _. Defined.

Definition number_memory : mem := mwrite (mwrite ∅ 100 (bytes_of "hd%d" ++ [0])) 200 (replicate 14 1).

Lemma sprintf_atoi_roundtrip_witness : exists l m', sprintf 200 100 [-305] number_memory = Ret (m', Z.of_nat (length (bytes_of "hd" ++ l))) /\
  cstr m' 200 (bytes_of "hd" ++ l) /\ atoi 202 m' = Ret (m', -305).
Proof.
  destruct (sprintf_atoi_roundtrip number_memory 200 100 (bytes_of "hd") (-305)) as (l & m' & Hrun & Hc & Ha & _).
  - split; [apply (bool_decide_unpack _); vm_compute; exact I|]. cbn. repeat (constructor; [lia|]). constructor.
  - cbn. repeat (constructor; [lia|]). constructor.
  - lia.
  - intros a Ha. unfold number_memory. rewrite lookup_mwrite, decide_True by (rewrite length_replicate; cbn in Ha; lia).
    apply lookup_lt_is_Some. rewrite length_replicate. cbn in Ha. lia.
  - left. cbn. lia.
  - exists l, m'. exact (conj Hrun (conj Hc Ha)).
Defined.

(** The literals in a row from 1000 on, 128 bytes for each. *)
Fixpoint row_of (l : list Z) (ls : list (list Z)) (a : Z) : Z :=
  match ls with [] => a | n :: ls' => if decide (l = n) then a else row_of l ls' (a + 128) end.
#[local] Instance row_literals : Literals := { address := fun l => row_of l select_literals 1000; small_buffer := 101 }.
#[local] Existing Instance some_heap.
#[local] Existing Instance demo_env.
#[local] Instance two_disks : InstallerEnv := {
  prompt := 500; target_mount_point := 300; command_line := 5000; run_device_name := 450; list_device_name := 200;
  num_block_devices := 2; active_block_devices := [7000; 8000]
}.

Definition installer_memory : mem :=
  foldr (fun n m => mwrite m (address n) (n ++ [0])) (mwrite (mwrite (mwrite ∅ 100 (replicate 20 0)) 200 (replicate 32 0)) 300 (replicate 64 0)) select_literals.
Definition installer_state : installer trace :=
  mkInstaller (mkUser (mkConsole (replicate 2000 0x0720) 0 0 [0; 0] installer_memory []) [] 0) (demo_vfs []) 0 0.

Lemma installer_literals_placed : Forall (fun n => bytes_at installer_memory (address n) (n ++ [0]) /\ Forall (fun b => 1 <= b < 256) n /\ 1000 <= address n) select_literals.
Proof. apply (bool_decide_unpack _). vm_compute. exact I. Qed.

Lemma installer_arrays_mapped : Forall (fun a => installer_memory !! a <> None) (seqZ 100 12 ++ seqZ 200 32 ++ seqZ 300 64).
Proof. apply (bool_decide_unpack _). vm_compute. exact I. Qed.

Lemma installer_mapped a : 100 <= a < 112 \/ 200 <= a < 232 \/ 300 <= a < 364 -> is_Some (installer_memory !! a).
Proof.
  intros Ha. apply not_eq_None_Some. refine (proj1 (Forall_forall _ _) installer_arrays_mapped a _).
  rewrite !elem_of_app, !elem_of_seqZ. lia.
Qed.

Lemma installer_state_ready : installer_ready installer_state (mkTTY [] []).
Proof.
  constructor.
  - exact (ready_bytes fresh_console (mkTTY [] []) installer_memory fresh_shows).
  - split; [intros a Ha; apply installer_mapped; change small_buffer with 101 in Ha; lia|].
    intros a Ha. unfold in_buffer, in_areas in *. change small_buffer with 101 in Ha. change list_device_name with 200. change target_mount_point with 300. lia.
  - change list_device_name with 200. change target_mount_point with 300. split; intros a Ha; apply installer_mapped; lia.
  - change list_device_name with 200. change target_mount_point with 300. lia.
  - intros n Hn. destruct (proj1 (Forall_forall _ _) installer_literals_placed n Hn) as (Hb & Hf & Ha).
    split; [split; [by split|]|]; intros a Hr; [unfold in_buffer; change small_buffer with 101; lia|].
    unfold in_areas. change list_device_name with 200. change target_mount_point with 300. lia.
Qed.

Lemma installer_selects_listed_witness : exists s' l, (in_memory (sprintf list_device_name (address (bytes_of "/dev/hda%d")) [1]);; installer_cmd_select_device [0; list_device_name]) installer_state = Ret (s', 0) /\
  numeral 1 l /\ target_device s' = 8000.
Proof.
  destruct (installer_selects_listed installer_state (mkTTY [] []) 1 8000 0) as (s' & l & Hrun & Hl & Hd & _).
  - exact installer_state_ready.
  - change num_block_devices with 2. lia.
  - lia.
  - reflexivity.
  - exists s', l. exact (conj Hrun (conj Hl Hd)).
Defined.
