(* ===== verification/Kernel.v ===== *)
(** * The kernel from its entry on (src/kernel/kernel.c; create_keyboard_driver of
      src/driver/keyboard.c)

    One state of the whole kernel, on whose parts the operations of the components
    run in the order of kernel_main, up to the creation of the first process. What
    several components share (the hardware, the keyboard driver, the handler table,
    processes and files) is kept once and handed to the component that runs. *)
From Stdlib Require Import String Ascii.
From S2P Require Import Prelude Gdt Malloc CString Process Ports Interrupt Keyboard Paging Vfs Syscall Console Block Devfs Pic Ext4.
#[local] Open Scope string_scope.

(** The bytes of a string literal. *)
Definition literal (s : string) : list Z := (fun c => Z.of_N (N_of_ascii c)) <$> list_ascii_of_string s.

(** Where the functions are whose addresses are stored, and the structures of
    [kernel_main]. *)
Class KernelCode := {
  keyboard_interrupt_handler_at : Z; block_interrupt_handler_at : Z;
  keyboard_activate_at : Z; keyboard_reset_at : Z; keyboard_deactivate_at : Z;
  shell_main_at : Z; installer_main_at : Z; gdt_at : Z; tss_at : Z; idt_at : Z
}.

(** The ports, and the driver object that the keyboard handler works on. *)
#[export] Instance hardware_and_keyboard `{Hardware W} : Hardware (W * KeyboardDriver) := {|
  hw_out := fun w p d s => (hw_out w p d s.1, s.2);
  hw_in := fun w p s => let '(h, v) := hw_in w p s.1 in ((h, s.2), v)
|}.

(** [int] holds the hardware, the keyboard driver object, the interrupt manager and
    the processes; [parts] the disks, the device file system, the virtual file
    system and the driver list; [keyboard_driver]: the pointer; [keyboard_base]:
    the [Driver] at the start of the object. *)
Record core (W : Type) := mkCore {
  gdt : GDT; tss : TaskStateSegment; gdt_register : gdtr; pic_controller : PICController;
  memory_manager : Malloc.mstate; int : Interrupt.istate (W := W * KeyboardDriver); parts : Pic.pstate W;
  ext4_data : Z; sys : Syscall.kstate;
  keyboard_driver : Z; keyboard_base : Driver; keyboard_device_node : DeviceNode;
  drive_exists : Z; system_hardware_status : Z; memupper_global : Z; memory_size : Z
}.
Arguments mkCore {W} _ _ _ _ _ _ _ _ _ _ _ _ _ _ _ _.
Arguments gdt {W} _. Arguments tss {W} _. Arguments gdt_register {W} _. Arguments pic_controller {W} _.
Arguments memory_manager {W} _. Arguments int {W} _. Arguments parts {W} _. Arguments ext4_data {W} _. Arguments sys {W} _.
Arguments keyboard_driver {W} _. Arguments keyboard_base {W} _. Arguments keyboard_device_node {W} _.
Arguments drive_exists {W} _. Arguments system_hardware_status {W} _. Arguments memupper_global {W} _. Arguments memory_size {W} _.

Section kernel.
Context `{Hardware W, Stubs, Process.Kernel, Patience, Layout, Vfs.Env, Pic.Stack, Ext4.Placement, Paging.Env, KernelCode}.
Abbreviation C := (cmd (core W)).

Definition with_gdt g t r (s : core W) := mkCore g t r (pic_controller s) (memory_manager s) (int s) (parts s) (ext4_data s) (sys s)
  (keyboard_driver s) (keyboard_base s) (keyboard_device_node s) (drive_exists s) (system_hardware_status s) (memupper_global s) (memory_size s).
Definition with_controller c (s : core W) := mkCore (gdt s) (tss s) (gdt_register s) c (memory_manager s) (int s) (parts s) (ext4_data s) (sys s)
  (keyboard_driver s) (keyboard_base s) (keyboard_device_node s) (drive_exists s) (system_hardware_status s) (memupper_global s) (memory_size s).
Definition with_memory_manager m (s : core W) := mkCore (gdt s) (tss s) (gdt_register s) (pic_controller s) m (int s) (parts s) (ext4_data s) (sys s)
  (keyboard_driver s) (keyboard_base s) (keyboard_device_node s) (drive_exists s) (system_hardware_status s) (memupper_global s) (memory_size s).
Definition with_int i (s : core W) := mkCore (gdt s) (tss s) (gdt_register s) (pic_controller s) (memory_manager s) i (parts s) (ext4_data s) (sys s)
  (keyboard_driver s) (keyboard_base s) (keyboard_device_node s) (drive_exists s) (system_hardware_status s) (memupper_global s) (memory_size s).
Definition with_parts p (s : core W) := mkCore (gdt s) (tss s) (gdt_register s) (pic_controller s) (memory_manager s) (int s) p (ext4_data s) (sys s)
  (keyboard_driver s) (keyboard_base s) (keyboard_device_node s) (drive_exists s) (system_hardware_status s) (memupper_global s) (memory_size s).
Definition with_ext4 e (s : core W) := mkCore (gdt s) (tss s) (gdt_register s) (pic_controller s) (memory_manager s) (int s) (parts s) e (sys s)
  (keyboard_driver s) (keyboard_base s) (keyboard_device_node s) (drive_exists s) (system_hardware_status s) (memupper_global s) (memory_size s).
Definition with_sys k (s : core W) := mkCore (gdt s) (tss s) (gdt_register s) (pic_controller s) (memory_manager s) (int s) (parts s) (ext4_data s) k
  (keyboard_driver s) (keyboard_base s) (keyboard_device_node s) (drive_exists s) (system_hardware_status s) (memupper_global s) (memory_size s).
Definition with_driver d b n (s : core W) := mkCore (gdt s) (tss s) (gdt_register s) (pic_controller s) (memory_manager s) (int s) (parts s) (ext4_data s) (sys s)
  d b n (drive_exists s) (system_hardware_status s) (memupper_global s) (memory_size s).
Definition with_status e h (s : core W) := mkCore (gdt s) (tss s) (gdt_register s) (pic_controller s) (memory_manager s) (int s) (parts s) (ext4_data s) (sys s)
  (keyboard_driver s) (keyboard_base s) (keyboard_device_node s) e h (memupper_global s) (memory_size s).
Definition with_memory_size u z (s : core W) := mkCore (gdt s) (tss s) (gdt_register s) (pic_controller s) (memory_manager s) (int s) (parts s) (ext4_data s) (sys s)
  (keyboard_driver s) (keyboard_base s) (keyboard_device_node s) (drive_exists s) (system_hardware_status s) u z.

(** ** Running a component on its part *)

(** The devices with the hardware, the keyboard and the handler table of [int]. *)
Definition view (s : core W) : Pic.pstate W :=
  let d := devs (parts s) in
  mkP (mkDevfs (Block.with_hw (fst (Interrupt.hw (int s))) (blk d)) (snd (Interrupt.hw (int s))) (devices d) (num_devices d)
         (Devfs.files d) (Devfs.words d) (devfs_mount_point d) (mount_record d))
    (manager (parts s)) (Interrupt.handlers (im (int s))) (handler_functions (parts s)).
Definition block_pointers (m : gmap Z interrupt_fn) : gmap Z Z := (fun _ => block_interrupt_handler_at) <$> m.
Definition update (p : Pic.pstate W) (s : core W) : core W :=
  let i := int s in
  with_parts p (with_int (mkIstate (set_handlers (Pic.handlers p) (im i)) (block_pointers (handler_functions p) ∪ handler_objects i)
    (activated i) (cpu_if i) (idtr i) (Block.hw (blk (devs p)), kbd (devs p)) (Interrupt.ps i)) s).

Definition on_parts {A} (c : cmd (Pic.pstate W) A) : C A := fun s =>
  match c (view s) with Ret (p, a) => Ret (update p s, a) | Fault => Fault | Spin => Spin end.
Definition on_int {A} (c : cmd Interrupt.istate A) : C A := fun s =>
  match c (int s) with Ret (i, a) => Ret (with_int i s, a) | Fault => Fault | Spin => Spin end.
Definition on_memory_manager {A} (c : cmd Malloc.mstate A) : C A := fun s =>
  match c (memory_manager s) with Ret (m, a) => Ret (with_memory_manager m s, a) | Fault => Fault | Spin => Spin end.
Definition on_ext4 {A} (c : cmd (estate W) A) : C A := fun s =>
  let p := view s in
  match c (mkE (blk (devs p)) (Devfs.files (devs p)) (ext4_data s)) with
  | Ret (e, a) => Ret (with_ext4 (ext4_fs_data e) (update (with_devs (Devfs.with_files (Ext4.files e) (with_blk (disk e) (devs p))) p) s), a)
  | Fault => Fault
  | Spin => Spin
  end.
(** System calls see the processes, the files and the memory of the machine. *)
Definition on_sys {A} (c : cmd Syscall.kstate A) : C A := fun s =>
  let d := devs (parts s) in
  let k := sys s in
  match c (mkK (syscall_table k) (g_file_descriptor_tables k) (descs k) (Block.bytes (blk d)) (Interrupt.ps (int s)) (Devfs.files d) (memory k)) with
  | Ret (k', a) =>
      let d' := Devfs.with_files (Syscall.files k') (with_blk (Block.with_bytes (Syscall.user k') (blk d)) d) in
      Ret (with_sys k' (with_parts (with_devs d' (parts s)) (with_int (Interrupt.with_ps (fun _ => Syscall.ps k') (int s)) s)), a)
  | Fault => Fault
  | Spin => Spin
  end.

Definition on_devices {A} (c : cmd (dstate W) A) : C A := on_parts (on_devs c).
Definition allocate (n : Z) : C Z := on_parts (Pic.allocate n).
Definition release (a : Z) : C unit := on_parts (Pic.release a).

(** ** create_keyboard_driver *)

Definition sizeof_KeyboardDriver : Z := 280.
Definition keyboard_name : list Z := literal "keyboard".

Definition put_handler (i v : Z) : C unit :=
  hs ← gets (fun s => Interrupt.handlers (im (int s)));
  hs' ← lift (deref (zset hs i v));
  on_int (modify (Interrupt.with_im (set_handlers hs'))).

(** The buffer of the new object holds what was there. *)
Definition create_keyboard_driver : C Z :=
  k ← gets keyboard_driver;
  if decide (k <> 0) then mret k else
  k ← allocate sizeof_KeyboardDriver;
  modify (fun s => with_driver k (keyboard_base s) (keyboard_device_node s) s);;
  if decide (k = 0) then mret 0 else
  modify (fun s => with_driver k (mkDriver keyboard_activate_at keyboard_reset_at keyboard_deactivate_at) (keyboard_device_node s) s);;
  on_int (Interrupt.on_hw (modk (fun d => set_last 0 (set_flags 0 (set_end 0 (set_start 0 d))))));;
  handler ← allocate Pic.sizeof_InterruptHandler;
  if decide (handler = 0) then
    release k;;
    modify (fun s => with_driver 0 (keyboard_base s) (keyboard_device_node s) s);;
    mret 0
  else
  on_int (modify (fun i => mkIstate (im i) (<[handler := keyboard_interrupt_handler_at]> (handler_objects i)) (activated i) (cpu_if i)
            (idtr i) (Interrupt.hw i) (Interrupt.ps i)));;
  put_handler 0x21 handler;;
  modify (fun s => with_driver (keyboard_driver s) (keyboard_base s)
            (mkNode (keyboard_name ++ [0] ++ drop 9 (name (keyboard_device_node s))) DEV_TYPE_CHAR 1 0 k) s);;
  on_devices (devfs_register_device keyboard_name DEV_TYPE_CHAR 1 0 k);;
  mret k.

(** ** Interrupts *)

(** The functions whose addresses are in the handler objects. *)
Definition call_function (f esp : Z) : cmd (Interrupt.istate (W := W * KeyboardDriver)) Z :=
  if decide (f = keyboard_interrupt_handler_at) then Interrupt.on_hw (keyboard_interrupt_handler esp)
  else if decide (f = block_interrupt_handler_at) then
    Interrupt.on_hw (port (fun h =>
      match block_interrupt_handler esp (mkB ∅ ∅ [] 0 ∅ h) with Ret (b, r) => Ret (Block.hw b, r) | Fault => Fault | Spin => Spin end))
  else fault.

(** An interrupt of the running machine. *)
Definition interrupt (n esp : Z) : C Z := on_int (handle_interrrupt call_function n esp).

(** ** kernel.c *)

(** [on_init_core] up to the scan of the bus. [core] is a local of kernel_main, never
    NULL; [memupper] is the word at 8 of the multiboot structure. *)
Definition init_parts (memupper : Z) : C unit :=
  g ← gets gdt;
  '(g, t, r) ← lift (on_init_gdt g gdt_at tss_at);
  modify (with_gdt g t r);;
  modify (fun s => with_controller (on_init_pic_controller (pic_controller s)) s);;
  on_int (on_init_interrupt_manager idt_at);;
  on_parts (on_manager on_init_driver_manager);;
  let heap := 10 * 1024 * 1024 in
  let memory_size := u32 (u32 (memupper * 1024) - heap) in
  modify (with_memory_size memupper memory_size);;
  on_memory_manager (on_init_memory_manager heap memory_size);;
  on_int (Interrupt.on_ps (process_manager_init gdt_at)).
Definition on_init_core (memupper : Z) : C Z :=
  init_parts memupper;;
  c ← gets pic_controller;
  on_parts (select_drivers c);;
  mret 0.

(** The functions that the drivers have put there: keyboard_activate only prints. *)
Fixpoint call_all (l : list Z) : C unit :=
  match l with [] => mret tt | f :: l' => if decide (f = keyboard_activate_at) then call_all l' else fault end.
Definition activate : C unit :=
  fs ← on_parts (on_manager driver_activate_all);
  call_all fs;;
  on_int activate_interrupt_manager.

(** The check of the hardware in kernel_main. *)
Definition hardware_check : C unit :=
  d ← on_devices (Devfs.on_blk ide_check_drive_exists);
  modify (fun s => with_status d (system_hardware_status s) s);;
  if decide (d <> 0) then
    ide_device ← allocate Pic.sizeof_BlockDevice;
    if decide (ide_device <> 0) then
      on_parts (new_block_device ide_device);;
      on_devices (block_device_initialize ide_device 0x1F0 14);;
      n ← gets (fun s => num_block_devices (blk (devs (parts s))));
      l ← gets (fun s => active_block_devices (blk (devs (parts s))));
      l' ← lift (deref (zset l n ide_device));
      on_devices (Devfs.on_blk (modify (with_active l' (u32 (n + 1)))));;
      mount_result ← on_devices (Devfs.on_files (vfs_mount (literal "/dev/hda0") (literal "/") (literal "ext4")));
      modify (fun s => with_status (drive_exists s) (if decide (mount_result = 0) then 1 else 2) s)
    else modify (fun s => with_status (drive_exists s) 0 s)
  else modify (fun s => with_status (drive_exists s) 0 s).

(** The program that is started: the installer when the flag in memory is set or
    the file system could not be mounted. *)
Definition init_user_mode : C unit :=
  on_sys syscall_init;;
  install_flag ← on_devices (Devfs.on_blk (Block.on_bytes (load_le 4 0x9000)));
  status ← gets system_hardware_status;
  (if decide (install_flag = 0x12345678 \/ status = 2)
   then on_int (Interrupt.on_ps (create_process (Some (literal "installer")) installer_main_at 0 0 KERNEL_MODE 1))
   else on_int (Interrupt.on_ps (create_process (Some (literal "shell")) shell_main_at 0 0 KERNEL_MODE 1)));;
  mret tt.

(** kernel_main from the file systems to the keyboard driver. *)
Definition set_up : C unit :=
  on_devices (Devfs.on_files vfs_init);;
  on_devices devfs_init;;
  on_devices (devfs_mount (literal "/dev"));;
  on_ext4 ext4_init;;
  hardware_check;;
  k ← create_keyboard_driver;
  (if decide (k <> 0) then base ← gets keyboard_base; on_parts (on_manager (append_driver (Some base))) else mret tt).

Definition prepare (memupper : Z) : C unit := on_init_core memupper;; set_up.

(** while (1) *)
Definition boot (memupper : Z) : C unit := prepare memupper;; activate;; init_user_mode.
Definition kernel_main (memupper : Z) : C unit := boot memupper;; spin.
End kernel.
