(* ===== verification/KernelFacts.v ===== *)
(** * What the boot brings about

    Interrupts stay off until the drivers are there; the keyboard driver, once
    created, is a device and serves its interrupt. *)
From Stdlib Require Import String.
From S2P Require Import Prelude Gdt Malloc CString Process Ports Interrupt Keyboard Paging Vfs Syscall Console Block Devfs Pic Ext4 Ext4Facts Kernel.
#[local] Open Scope string_scope.

(** ** What commands conserve *)

Definition conserves {S X A} (f : S -> X) (c : cmd S A) : Prop := forall s s' a, c s = Ret (s', a) -> f s' = f s.

Section conserves.
Context {S X : Type} (f : S -> X).

Lemma conserves_ret {A} (a : A) : conserves f (mret a).
Proof. by intros s s' b [= <- _]. Qed.

Lemma conserves_bind {A B} (c : cmd S A) (k : A -> cmd S B) : conserves f c -> (forall a, conserves f (k a)) -> conserves f (c ≫= k).
Proof. intros Hc Hk s s' b (s1 & a & Hrun & Hrest)%cmd_bind_inv. by rewrite (Hk a _ _ _ Hrest), (Hc _ _ _ Hrun). Qed.

Lemma conserves_gets {A} (g : S -> A) : conserves f (gets g).
Proof. by intros s s' b [= <- _]. Qed.

Lemma conserves_modify (g : S -> S) : (forall s, f (g s) = f s) -> conserves f (modify g).
Proof. intros Hg s s' b [= <- _]. apply Hg. Qed.

Lemma conserves_lift {A} (o : outcome A) : conserves f (lift o).
Proof. intros s s' b. destruct o; [by intros [= <- _]|done..]. Qed.

Lemma conserves_fault {A} : conserves f (fault : cmd S A).
Proof. done. Qed.

Lemma conserves_if {A} (P : Prop) `{Decision P} (c d : cmd S A) : conserves f c -> conserves f d -> conserves f (if decide P then c else d).
Proof. intros. by case_decide. Qed.
End conserves.

#[export] Hint Resolve conserves_ret conserves_gets conserves_lift conserves_fault : conserves.
(** ** The interrupt flag *)

Section masked.
Context `{Hardware W, Stubs, Process.Kernel, Patience, Layout, Vfs.Env, Pic.Stack, Ext4.Placement, Paging.Env, KernelCode}.

Definition flags (i : Interrupt.istate (W := W * KeyboardDriver)) : bool * bool := (cpu_if i, activated i).
Definition mask (s : core W) : bool * bool := flags (int s).

Lemma conserves_on_hw {A} (c : cmd (W * KeyboardDriver) A) : conserves flags (Interrupt.on_hw c).
Proof. unfold conserves. intros s s' a. unfold Interrupt.on_hw. destruct (c _) as [[h b]| |]; [by intros [= <- _]|done..]. Qed.
Lemma conserves_on_ps {A} (c : cmd Process.pstate A) : conserves flags (Interrupt.on_ps c).
Proof. unfold conserves. intros s s' a. unfold Interrupt.on_ps. destruct (c _) as [[h b]| |]; [by intros [= <- _]|done..]. Qed.

Lemma conserves_on_int {A} (c : cmd Interrupt.istate A) : conserves flags c -> conserves mask (on_int c).
Proof. unfold conserves. intros Hc s s' a. unfold on_int. destruct (c _) as [[i b]| |] eqn:E; [intros [= <- _]; exact (Hc _ _ _ E)|done..]. Qed.
Lemma conserves_on_parts {A} (c : cmd (Pic.pstate W) A) : conserves mask (on_parts c).
Proof. unfold conserves. intros s s' a. unfold on_parts. destruct (c _) as [[p b]| |]; [by intros [= <- _]|done..]. Qed.
Lemma conserves_on_memory_manager {A} (c : cmd Malloc.mstate A) : conserves mask (on_memory_manager c).
Proof. unfold conserves. intros s s' a. unfold on_memory_manager. destruct (c _) as [[p b]| |]; [by intros [= <- _]|done..]. Qed.
Lemma conserves_on_ext4 {A} (c : cmd (estate W) A) : conserves mask (on_ext4 c).
Proof. unfold conserves. intros s s' a. unfold on_ext4. destruct (c _) as [[p b]| |]; [by intros [= <- _]|done..]. Qed.
Lemma conserves_on_sys {A} (c : cmd Syscall.kstate A) : conserves mask (on_sys c).
Proof. unfold conserves. intros s s' a. unfold on_sys. destruct (c _) as [[p b]| |]; [by intros [= <- _]|done..]. Qed.
Hint Resolve conserves_on_hw conserves_on_ps conserves_on_int conserves_on_parts conserves_on_memory_manager conserves_on_ext4 conserves_on_sys : conserves.
#[local] Opaque conserves.

(** Walks through the commands of a definition. *)
Ltac keep := repeat first
  [ match goal with
    | |- forall _, _ => intro
    | |- conserves _ (mbind _ _) => apply conserves_bind
    | |- conserves _ (modify _) => apply conserves_modify; solve [intros []; reflexivity]
    | |- conserves _ (let _ := _ in _) => cbv zeta
    | |- conserves _ (match ?x with _ => _ end) => destruct x
    | |- conserves _ (on_int _) => apply conserves_on_int
    end
  | solve [eauto with conserves nocore] ].

Lemma conserves_set_entry n sel h d ty : conserves flags (set_interrupt_descriptor_table_entry n sel h d ty : cmd (Interrupt.istate (W := W * KeyboardDriver)) unit).
Proof. unfold set_interrupt_descriptor_table_entry. keep. Qed.
Hint Resolve conserves_set_entry : conserves.

Lemma conserves_init_entries n : forall i cs, conserves flags (init_entries n i cs : cmd (Interrupt.istate (W := W * KeyboardDriver)) unit).
Proof. induction n as [|n IH]; intros i cs; cbn [init_entries]; keep. Qed.
Lemma conserves_install n : forall base i cs f, conserves flags (install n base i cs f : cmd (Interrupt.istate (W := W * KeyboardDriver)) unit).
Proof. induction n as [|n IH]; intros base i cs f; cbn [install]; keep. Qed.
Hint Resolve conserves_init_entries conserves_install : conserves.

Lemma conserves_interrupt_manager a : conserves flags (on_init_interrupt_manager a : cmd (Interrupt.istate (W := W * KeyboardDriver)) unit).
Proof. unfold on_init_interrupt_manager, init_pit. keep. Qed.
Hint Resolve conserves_interrupt_manager : conserves.

Lemma conserves_init_core memupper : conserves mask (on_init_core memupper).
Proof. unfold on_init_core, init_parts. keep. Qed.
Lemma conserves_put_handler i v : conserves mask (put_handler i v).
Proof. unfold put_handler. keep. Qed.
Hint Resolve conserves_init_core conserves_put_handler : conserves.
Lemma conserves_create_keyboard_driver : conserves mask create_keyboard_driver.
Proof. unfold create_keyboard_driver, on_devices, allocate, release. keep. Qed.
Lemma conserves_hardware_check : conserves mask hardware_check.
Proof. unfold hardware_check, on_devices, allocate. keep. Qed.
Hint Resolve conserves_create_keyboard_driver conserves_hardware_check : conserves.

Lemma conserves_prepare memupper : conserves mask (prepare memupper).
Proof. unfold prepare, set_up, on_devices. keep. Qed.
Lemma conserves_init_user_mode : conserves mask init_user_mode.
Proof. unfold init_user_mode, on_devices. keep. Qed.
End masked.

(** Interrupts stay as they were while the parts of the kernel and the drivers are
    set up, and are on when the first process has been made. *)
Lemma boot_flags `{Hardware W, Stubs, Process.Kernel, Patience, Layout, Vfs.Env, Pic.Stack, Ext4.Placement, Paging.Env, KernelCode} memupper (s s' : core W) :
  boot memupper s = Ret (s', tt) -> exists s1, prepare memupper s = Ret (s1, tt) /\ mask s1 = mask s /\ mask s' = (true, true).
Proof.
  intros (s1 & [] & Hp & Hrest)%cmd_bind_inv. exists s1. split; [done|]. split; [by eapply conserves_prepare|].
  apply cmd_bind_inv in Hrest as (s2 & [] & Ha & Hu). rewrite (conserves_init_user_mode _ _ _ Hu). clear Hu.
  unfold activate in Ha. apply cmd_bind_inv in Ha as (s3 & fs & _ & Ha). apply cmd_bind_inv in Ha as (s4 & [] & _ & Ha).
  unfold on_int in Ha. destruct (activate_interrupt_manager (int s4)) as [[i []]| |] eqn:E; [|done|done]. injection Ha as <-.
  unfold activate_interrupt_manager in E. apply cmd_bind_inv in E as (i1 & [] & _ & E). injection E as <-. done.
Qed.

(** ** The keyboard driver *)

Section keyboard.
Context `{Hardware W, Stubs, Process.Kernel, Patience, Layout, Vfs.Env, Pic.Stack, Ext4.Placement, Paging.Env, KernelCode}.
Implicit Types s : core W.

(** The machine with other files. *)
Definition with_heap (f : vfs) s : core W := update (with_devs (Devfs.with_files f (devs (view s))) (view s)) s.

Lemma kernel_allocate_run n s f a : Vfs.malloc n (Devfs.files (devs (parts s))) = Ret (f, a) -> allocate n s = Ret (with_heap f s, a).
Proof.
  intros E. unfold allocate, on_parts, Pic.allocate, on_devs, Devfs.on_files.
  change (Devfs.files (devs (view s))) with (Devfs.files (devs (parts s))). by rewrite E.
Qed.

(** The table of devices as the whole machine sees it. *)
Definition device_table s : dstate W := devs (view s).

Record keyboard_absent s : Prop := {
  ka_pointer : keyboard_driver s = 0;
  ka_handlers : length (Interrupt.handlers (im (int s))) = 256%nat;
  ka_buffer : length (keyboard_buffer (snd (Interrupt.hw (int s)))) = 256%nat;
  ka_table : table_ok (device_table s) /\ num_devices (device_table s) < 64 /\ registry (device_table s) !! keyboard_name = None;
  ka_heap : forall n f, exists f' a, Vfs.malloc n f = Ret (f', a) /\ a <> 0 /\ handler_functions (parts s) !! a = None
}.

(** The keyboard is a device, its driver is empty, and vector 0x21 leads to it. *)
Record keyboard_present (table : gmap (list Z) (DeviceType * Z * Z * Z)) s (k : Z) : Prop := {
  kp_pointer : keyboard_driver s = k /\ k <> 0;
  kp_device : registry (device_table s) = <[keyboard_name := (DEV_TYPE_CHAR, 1, 0, k)]> table;
  kp_driver : kb_ok (snd (Interrupt.hw (int s))) /\ Keyboard.abs (snd (Interrupt.hw (int s))) = mkKeyboard false false false false false false [];
  kp_handler : exists h, h <> 0 /\ zget (Interrupt.handlers (im (int s))) 0x21 = Some h /\ handler_objects (int s) !! h = Some keyboard_interrupt_handler_at
}.

Lemma create_run s : keyboard_absent s -> exists s' k, create_keyboard_driver s = Ret (s', k) /\ keyboard_present (registry (device_table s)) s' k.
Proof.
  intros [Hp Hh Hb (Hok & Hn & Hfree) Hheap]. unfold create_keyboard_driver. rewrite gets_bind, Hp, decide_False by lia.
  destruct (Hheap sizeof_KeyboardDriver (Devfs.files (devs (parts s)))) as (f1 & k & Hm1 & Hk & _).
  rewrite (cmd_bind_eq _ _ _ _ _ (kernel_allocate_run _ _ _ _ Hm1)), modify_bind, decide_False, modify_bind by done.
  set (s1 := with_driver k _ _ (with_driver k _ _ (with_heap f1 s))).
  set (kb := set_last 0 (set_flags 0 (set_end 0 (set_start 0 (snd (Interrupt.hw (int s))))))).
  set (s2 := with_int (Interrupt.with_hw (fun _ => (fst (Interrupt.hw (int s)), kb)) (int s1)) s1).
  rewrite (cmd_bind_eq _ _ s1 s2 tt) by done.
  destruct (Hheap Pic.sizeof_InterruptHandler (Devfs.files (devs (parts s2)))) as (f2 & h & Hm2 & Hh0 & Hfresh).
  rewrite (cmd_bind_eq _ _ _ _ _ (kernel_allocate_run _ _ _ _ Hm2)), decide_False by done.
  set (s3 := with_heap f2 s2). set (objs := <[h := keyboard_interrupt_handler_at]> (handler_objects (int s3))).
  set (i4 := mkIstate (im (int s3)) objs (activated (int s3)) (cpu_if (int s3)) (idtr (int s3)) (Interrupt.hw (int s3)) (Interrupt.ps (int s3))).
  rewrite (cmd_bind_eq _ _ s3 (with_int i4 s3) tt) by done. set (s4 := with_int i4 s3).
  set (hs := <[33%nat := h]> (Interrupt.handlers (im (int s)))).
  set (s5 := with_int (Interrupt.with_im (set_handlers hs) i4) s4).
  rewrite (cmd_bind_eq _ _ s4 s5 tt).
  2: { unfold put_handler. rewrite gets_bind. change (Interrupt.handlers (im (int s4))) with (Interrupt.handlers (im (int s))).
       rewrite zset_Some by lia. done. }
  rewrite modify_bind. set (s6 := with_driver _ _ _ s5).
  destruct (register_run (device_table s6) keyboard_name DEV_TYPE_CHAR 1 0 k) as (d & Hreg & Hok' & Hreg' & Hblk & Hkbd).
  { destruct Hok as [? ? ? ?]. by constructor. }
  { exact Hn. }
  { exact Hfree. }
  { cbn. lia. }
  { cbn. repeat (constructor; [lia|]). constructor. }
  set (s7 := update (with_devs d (view s6)) s6).
  rewrite (cmd_bind_eq _ _ s6 s7 0).
  2: { unfold on_devices, on_parts, on_devs. change (devs (view s6)) with (device_table s6). by rewrite Hreg. }
  exists s7, k. split; [done|]. constructor.
  - done.
  - change (registry (device_table s7)) with (registry d). exact Hreg'.
  - change (snd (Interrupt.hw (int s7))) with (kbd d). rewrite Hkbd. change (kbd (device_table s6)) with kb. split.
    + constructor; [exact Hb|change (is_u8 0); unfold is_u8; lia..].
    + reflexivity.
  - exists h. split; [done|]. split.
    + change (Interrupt.handlers (im (int s7))) with hs. unfold hs. rewrite zget_lookup by lia. apply list_lookup_insert_eq. lia.
    + change (handler_objects (int s7)) with (block_pointers (handler_functions (parts s)) ∪ objs). rewrite lookup_union_r.
      * apply lookup_insert_eq.
      * unfold block_pointers. by rewrite lookup_fmap, Hfresh.
Qed.

Lemma serve_run (i : Interrupt.istate (W := W * KeyboardDriver)) h esp : zget (Interrupt.handlers (im i)) 0x21 = Some h -> h <> 0 ->
  handler_objects i !! h = Some keyboard_interrupt_handler_at -> keyboard_interrupt_handler_at <> 0 -> activated i = true -> kb_ok (snd (Interrupt.hw i)) ->
  let '(h1, v) := hw_in 8 0x60 (fst (Interrupt.hw i)) in
  exists i', handle_interrrupt call_function 0x21 esp i = Ret (i', esp) /\ kb_ok (snd (Interrupt.hw i')) /\
    Keyboard.abs (snd (Interrupt.hw i')) = key_event (u8 v) (Keyboard.abs (snd (Interrupt.hw i))) /\
    fst (Interrupt.hw i') = hw_out 8 (u16 (pic_master_command (im i))) 0x20 h1.
Proof.
  intros Hh Hne Hobj Hfn Ha Hk. pose proof (keyboard_handler_run (fst (Interrupt.hw i)) (snd (Interrupt.hw i)) esp Hk) as Hrun.
  destruct (hw_in 8 0x60 (fst (Interrupt.hw i))) as [h1 v]. destruct Hrun as (k' & Hrun & Hk' & Habs).
  set (i1 := Interrupt.with_hw (fun _ => (h1, k')) i).
  assert (Hcall : call_function keyboard_interrupt_handler_at esp i = Ret (i1, esp)).
  { unfold call_function. rewrite decide_True by done. unfold Interrupt.on_hw. destruct (Interrupt.hw i) as [w kd] eqn:E. cbn [fst snd] in Hrun. by rewrite Hrun. }
  unfold handle_interrrupt. rewrite gets_bind, Ha. unfold do_handle_interrupt. rewrite gets_bind, Hh. cbn [deref]. rewrite lift_bind.
  rewrite (cmd_bind_eq _ _ i i1 esp).
  2: { rewrite decide_True by done. rewrite gets_bind, Hobj. cbn [deref]. rewrite lift_bind, decide_True by done. exact Hcall. }
  rewrite (cmd_bind_eq _ _ i1 i1 esp) by (by rewrite decide_False by (unfold Interrupt.INTERRUPT_OFFSET; lia)).
  unfold acknowledge. rewrite decide_True by (unfold Interrupt.INTERRUPT_OFFSET; lia).
  eexists. split; [reflexivity|]. exact (conj Hk' (conj Habs eq_refl)).
Qed.
End keyboard.

(** If the boot comes to its end, the interrupt flag and the activation of the
    manager were at the end of the set-up what they had been at its beginning, both
    are on afterwards, and the kernel stays in its last loop. *)
Theorem boot_masks_interrupts `{Hardware W, Stubs, Process.Kernel, Patience, Layout, Vfs.Env, Pic.Stack, Ext4.Placement, Paging.Env, KernelCode} memupper (s s' : core W) :
  boot memupper s = Ret (s', tt) ->
  (exists s1, prepare memupper s = Ret (s1, tt) /\ cpu_if (int s1) = cpu_if (int s) /\ activated (int s1) = activated (int s)) /\
  cpu_if (int s') = true /\ activated (int s') = true /\ kernel_main memupper s = Spin.
Proof.
  intros Hb. destruct (boot_flags memupper s s' Hb) as (s1 & Hp & Hsame & Hon).
  injection Hsame as Hc Ha. injection Hon as Hc' Ha'. split; [by exists s1|]. split; [done|]. split; [done|].
  unfold kernel_main. by rewrite (cmd_bind_eq _ _ _ _ _ Hb).
Qed.

(** C39. Creating the keyboard driver, with memory, a free entry in the table of
    devices and the name free: the driver is empty and registered as the character
    device keyboard (1, 0); creating it again gives the same driver and changes
    nothing; and from then on, once the manager is active, interrupt 0x21 runs the
    keyboard handler on it: the key that the port delivers changes the keyboard as
    the key event prescribes, and the master controller is acknowledged. *)
Theorem keyboard_driver_serves `{Hardware W, Stubs, Process.Kernel, Patience, Layout, Vfs.Env, Pic.Stack, Ext4.Placement, Paging.Env, KernelCode} (s : core W) :
  keyboard_absent s -> keyboard_interrupt_handler_at <> 0 ->
  exists s' k, create_keyboard_driver s = Ret (s', k) /\ keyboard_present (registry (device_table s)) s' k /\
    create_keyboard_driver s' = Ret (s', k) /\
    forall i esp, im i = im (int s') -> handler_objects i = handler_objects (int s') -> activated i = true -> kb_ok (snd (Interrupt.hw i)) ->
      let '(h1, v) := hw_in 8 0x60 (fst (Interrupt.hw i)) in
      exists i', handle_interrrupt call_function 0x21 esp i = Ret (i', esp) /\ kb_ok (snd (Interrupt.hw i')) /\
        Keyboard.abs (snd (Interrupt.hw i')) = key_event (u8 v) (Keyboard.abs (snd (Interrupt.hw i))) /\
        fst (Interrupt.hw i') = hw_out 8 (u16 (pic_master_command (im i))) 0x20 h1.
Proof.
  intros Ha Hfn. destruct (create_run s Ha) as (s' & k & Hrun & Hk). exists s', k. split; [done|]. split; [done|].
  destruct Hk as [[Hp Hk0] _ _ (h & Hh & Hz & Ho)]. split.
  - unfold create_keyboard_driver. rewrite gets_bind, Hp. by rewrite decide_True by done.
  - intros i esp Him Hobj Hact Hok. apply (serve_run i h esp); [by rewrite Him|done|by rewrite Hobj|done..].
Qed.

(** ** A machine *)

(** No PCI device, a disk that is always ready, no key. *)
#[local] Instance silent : Hardware unit := {| hw_out := fun _ _ _ s => s; hw_in := fun _ _ s => (s, 0) |}.
#[local] Existing Instances Process.demo_kernel Vfs.demo_env Paging.demo_env0 Devfs.sample_layout Interrupt.demo_stubs Ext4Facts.sample_placement.
#[local] Instance brief : Patience := {| wait_fuel := 10 |}.
#[local] Instance empty_stack : Pic.Stack := {| stale_port_base _ _ _ := 0x1F0; stale_bar _ _ _ _ := mkBAR 0 0 MemoryMapping |}.
#[local] Instance some_code : KernelCode := {|
  keyboard_interrupt_handler_at := 0x100500; block_interrupt_handler_at := 0x100600; keyboard_activate_at := 0x100700; keyboard_reset_at := 0x100710;
  keyboard_deactivate_at := 0x100720; shell_main_at := 0x100800; installer_main_at := 0x100900; gdt_at := 0x110000; tss_at := 0x120000; idt_at := 0x130000 |}.

Definition boot_memory : mem := mwrite (mwrite (mwrite (mwrite ∅ 0 (replicate 8 0)) 200 (replicate 16 0)) 220 (literal "hda%d" ++ [0])) 0x9000 [0; 0; 0; 0].
Definition no_files : vfs := mkVfs [] [] [] 1 0 0 ∅ ∅ ∅.
Definition no_processes : Process.pstate := mkPstate false (mkPM [] [] 0 [] 0 0 0 0 0 0) ∅ ∅ ∅.
Definition powered_on : core unit :=
  mkCore zero_gdt (mkTSS 0 0 0 0 0 0 0 0 0 0 0 0 0 0 0 0 0 0 0 0 0 0 0 0 0 0 0) (mkGdtr 0 0) (mkPIC 0 0)
    (Malloc.mkMstate false (Malloc.mkManager 0 [] 0 []) ∅)
    (mkIstate (mkIM (replicate 256 0) (replicate 256 (mkGate 0 0 0 0 0)) 0 0 0 0) ∅ false false (0, 0) (tt, mkKD (replicate 256 0) 0 0 0 0) no_processes)
    (mkP (mkDevfs (mkB ∅ ∅ (replicate 256 0) 0 boot_memory tt) (mkKD [] 0 0 0 0) (replicate 64 blank_node) 0 no_files ∅ 0 (mkMP None 0))
       (Block.mkManager (replicate 256 (mkDriver 0 0 0)) 0) (replicate 256 0) ∅)
    0 (mkK (replicate 128 None) (replicate 64 Syscall.empty_table) ∅ ∅ no_processes no_files no_memory)
    0 (mkDriver 0 0 0) blank_node 0 0 0 0.

(** Nothing answers on the bus, so that the scan leaves everything as it is. *)
Definition controller : PICController := mkPIC 0xcfc 0xcf8.
Lemma silent_device bus device counts (p : Pic.pstate unit) : visit_device controller bus device counts p = Ret (p, counts).
Proof. destruct p as [[[? ? ? ? ? []] ? ? ? ? ? ? ?] ? ? ?]. reflexivity. Qed.

Lemma silent_loop n : forall bus device counts (p : Pic.pstate unit), device_loop controller n bus device counts p = Ret (p, counts).
Proof. induction n as [|n IH]; intros bus device counts p; cbn [device_loop]; [done|]. by rewrite (cmd_bind_eq _ _ _ _ _ (silent_device _ _ _ _)). Qed.

Lemma silent_bus n : forall bus counts (p : Pic.pstate unit), bus_loop controller n bus counts p = Ret (p, counts).
Proof. induction n as [|n IH]; intros bus counts p; cbn [bus_loop]; [done|]. by rewrite (cmd_bind_eq _ _ _ _ _ (silent_loop _ _ _ _ _)). Qed.

(** The state of a result, and whether there is one. *)
Definition state_of {S A} (s : S) (r : outcome (S * A)) : S := match r with Ret (s', _) => s' | _ => s end.
Definition returns {S A} (r : outcome (S * A)) : bool := match r with Ret _ => true | _ => false end.
Lemma returns_unit {S} (s : S) (r : outcome (S * unit)) : returns r = true -> r = Ret (state_of s r, tt).
Proof. by destruct r as [[s' []]| |]. Qed.

Definition before_scan : core unit := state_of powered_on (init_parts 32768 powered_on).
Definition after_scan : core unit := update (view before_scan) before_scan.
Lemma init_core_run : on_init_core 32768 powered_on = Ret (after_scan, 0).
Proof.
  unfold on_init_core. rewrite (cmd_bind_eq _ _ _ before_scan tt) by (apply returns_unit; vm_compute; reflexivity). rewrite gets_bind.
  replace (pic_controller before_scan) with controller by (vm_compute; reflexivity).
  rewrite (cmd_bind_eq _ _ before_scan after_scan (0, 0)); [done|]. unfold on_parts, select_drivers. by rewrite silent_bus.
Qed.

Definition ready_to_run : core unit := state_of after_scan (set_up after_scan).
Definition booted : core unit := state_of ready_to_run ((activate;; init_user_mode) ready_to_run).
Lemma boot_run : boot 32768 powered_on = Ret (booted, tt).
Proof.
  unfold boot. rewrite (cmd_bind_eq _ _ _ ready_to_run tt).
  - apply returns_unit. vm_compute. reflexivity.
  - unfold prepare. rewrite (cmd_bind_eq _ _ _ _ _ init_core_run). apply returns_unit. vm_compute. reflexivity.
Qed.

Lemma boot_masks_interrupts_witness : exists s', boot 32768 powered_on = Ret (s', tt) /\ cpu_if (int s') = true /\ activated (int s') = true.
Proof.
  destruct (boot_masks_interrupts 32768 powered_on booted boot_run) as (_ & Hc & Ha & _). exists booted. exact (conj boot_run (conj Hc Ha)).
Defined.

(** With a disk that is there and whose file system can be mounted, the shell waits
    to run and the keyboard is a device. *)
Lemma boot_starts_shell : system_hardware_status booted = 1 /\
  (fun p => (p_pid p, text_of (p_name p), p_state p)) <$> (map_to_list (procs (Interrupt.ps (int booted)))).*2 = [(0, literal "shell", PROCESS_READY)] /\
  registry (device_table booted) !! keyboard_name = Some (DEV_TYPE_CHAR, 1, 0, keyboard_driver booted).
Proof. split_and!; vm_compute; reflexivity. Qed.

Lemma powered_on_absent : keyboard_absent powered_on.
Proof.
  constructor; try reflexivity.
  - split; [|split; [done|vm_compute; reflexivity]]. constructor; [reflexivity|cbn; lia| |apply NoDup_nil_2]. apply Forall_replicate. exists (replicate 31 0). by split.
  - intros n f. exists f, 4096. split; [done|]. split; [lia|done].
Qed.

Lemma keyboard_driver_serves_witness : exists s' k, create_keyboard_driver powered_on = Ret (s', k) /\ keyboard_present ∅ s' k /\ create_keyboard_driver s' = Ret (s', k).
Proof.
  destruct (keyboard_driver_serves powered_on powered_on_absent) as (s' & k & H1 & H2 & H3 & _); [done|].
  exists s', k. exact (conj H1 (conj H2 H3)).
Defined.
